(* ===== verification/_CoqProject ===== *)
-Q . S2P
Prelude.v
GoStrings.v
GoFloat.v
GoPath.v
Sql.v
Domain.v
Workflow.v
Materialization.v
Queue.v
EventLoop.v
Ports.v
Controller.v
ExecutionRepository.v
Transfer.v
Monitor.v
Discovery.v
Registry.v
Supervisor.v
Validator.v
Network.v
Simulation.v
Shell.v
GoNet.v
Slurm.v
Requests.v
Storage.v
Filesystem.v
Kubernetes.v
Local.v
Build.v
Connectors.v
Api.v
EnvironmentRepository.v
Console.v
ConsoleRepository.v
SlurmDiscovery.v
DataRepository.v
RemoteStorage.v
ObjectStorage.v
Repositories.v
Installation.v
Credentials.v
Runner.v
