(* ===== verification/Prelude.v ===== *)
(** * AkôFlow workflow engine: verification library

    AkôFlow executes scientific workflows: a plan assigns every activity of a
    workflow to a resource, and the engine starts the activities in the order of
    their dependencies on Slurm, Kubernetes or the local machine, or simulates
    them. This library models the engine's core (Go code under src/internal) and
    proves the properties that make it correct.

    ** The program's parts and how they interact

    A request to the HTTP API is authenticated, decoded and handed to a service or
    a store. The submission of a run resolves the build outputs its activities need
    and publishes one job; the event loop leases jobs and hands each to the handler
    of its kind; the handler of runs calls the supervisor, which validates the
    request, turns the plan into starts of activities, polls them and settles the
    run in the execution store. Before an activity starts, the transfer services
    copy and verify its artifacts through connectors. Every start, inspection and
    stop goes through the activity controller, which picks the runtime of the
    activity's mode from the registry and keeps one handle per activity; runtimes
    (Slurm, Kubernetes, local, simulation) do the work. Plans are checked by the
    validator; a run in simulation mode is given to the simulator. Beside this path,
    the connection monitor watches the connections of environments, discovery
    stores what a cluster consists of, the storage service browses, copies,
    archives and indexes files through storage drivers, the build services turn
    uploaded contexts into artifacts, and the console runs commands and terminals on
    the resources of an environment.

    ** Files

    Foundations:
    - [Prelude]: Go's zero values, functional record update, errors as [result],
      state passing ([eff], [effr] and the notations [let!], [let?]), calls that are
      recorded ([appends]), dynamic values, time, 64-bit integers, map iteration
      ([MapOrder]).
    - [GoStrings], [GoFloat], [GoPath]: the parts of strings, strconv and fmt in use,
      IEEE-754 binary64 arithmetic with the order of its comparisons, and paths.
    - [GoNet]: addresses as net.SplitHostPort and net.ParseIP read them.
    - [Sql]: tables, statements and transactions, as the repositories use SQLite.
    - [Shell]: the quoting functions of the providers, and the words a POSIX shell
      reads in a command line, which is the reference they are judged by.
    - [Domain]: the data types of src/internal/domain, one Module per struct and
      one inductive type per string enumeration (with a constructor for other
      values); the types of application/ports that are data.
    - [Ports]: application/ports, the interfaces between components as type
      classes over a world [W]; [HandleStoreLaws] is what a store of handles
      promises, and [ExecutionRepository] is proved to keep it.

    The path of a run:
    - [Api]: api/handlers and api/httpserver; [Requests]: api/requests.
    - [Queue], Module [JobQueue]: infrastructure/database/queue/repository.go,
      every statement on the table queue_jobs with its constraints
      (schema/schema.sql), and the outbox (infrastructure/database/events).
    - [EventLoop]: controlplane/eventloop: dispatcher, handlers, and the loop as a
      step relation over the queue, the jobs in flight and the other workers.
    - [Supervisor]: controlplane/execution/supervisor.go.
    - [Controller]: application/execution/controller.go.
    - [Registry]: provider/registry/registry.go.
    - [ExecutionRepository]: infrastructure/database/execution/repository.go.
    - [Validator]: infrastructure/plugins/planning/validator.go.
    - [Workflow]: domain/workflow (validation of activities and executables).

    Runtimes:
    - [Slurm]: provider/slurm/adapter.go.
    - [SlurmDiscovery]: provider/slurm/discovery.go and connection_factory.go.
    - [Kubernetes]: provider/kubernetes/adapter.go and history_cleaner.go.
    - [Local]: provider/artifact_observer.go (Module [ArtifactObserver]) and
      provider/local/adapter.go (Module [Local]), whose goroutines are the steps of a
      transition system.
    - [Network], [Simulation]: provider/simgrid (simulation_executor.go,
      platform.go, runner_contract.go, activity_runtime.go); [Runner]:
      process_executor.go and the platform as XML.

    Data:
    - [Materialization]: domain/execution/materialization.go (reconciliation and
      commit of workspaces, the preparation gate).
    - [Transfer]: application/transfer (planner, materializer, coordinator), over
      the interface [TransferConnector] with its laws ([lawful], [faithful], and
      [readable] and [writable] of an endpoint that answers).
    - [Connectors]: infrastructure/transfer (files, artifact store, HTTP, S3, GCS,
      rsync over SSH) and provider/ssh_executor.go; files, the artifact store, S3 and GCS
      are proved to keep the laws that [Transfer] relies on at a destination, and the
      files those of a copy that is resumed.
    - [Build]: application/build (uploads, extraction, builds, preparation).
    - [Storage]: application/storage/service.go.
    - [Filesystem]: provider/storage/filesystem/driver.go; [RemoteStorage]:
      provider/storage/sshfilesystem/driver.go, with base64; [ObjectStorage]:
      provider/storage/s3/driver.go.
    - [DataRepository]: the tables of data and artifacts (Module [Catalog]),
      infrastructure/database/data/repository.go (Module [DataRepository]) and
      infrastructure/database/storage/repository.go (Module [StorageRepository]); Module
      [Outputs] has the theorems on both.

    - [Repositories]: infrastructure/database/workflow, planning, network, resource and
      instance, one Module each over the tables of Module [Tables]; Module [Documents]
      has the theorem on all of them, stated of the stores that [Api] uses.

    - [Installation]: infrastructure/database/bootstrap.go and validation.go.

    Environments:
    - [Monitor]: application/environment/connection_monitor.go as a state machine.
    - [Discovery]: application/environment/discovery_service.go.
    - [EnvironmentRepository]: infrastructure/database/environment/repository.go.
    - [Console]: application/console, commands (Module [Console]) and terminals (Module
      [Terminal]), whose goroutines are the steps of a transition system;
      [ConsoleRepository]: infrastructure/database/console and audit.
    - [Credentials]: infrastructure/credentials/sshkey (Module [SSHKeys]) and
      infrastructure/config/config.go (Module [Config]).

    Every file that has theorems with hypotheses ends with a Module [Example] of
    concrete worlds in which they hold, and with the behaviours of the code that
    differ from what it means to do, as lemmas.

    ** What the theorems show

    - Supervisor: in every run an activity starts at most once, only after its
      predecessors completed, and never while MaxParallel activities are running;
      a real run that succeeds completed every activity; a run that was created is
      settled in the store exactly once; and with cooperating collaborators a run
      ends within a stated number of turns.
    - Validator: it accepts exactly the well-formed plans, its cycle check decides
      acyclicity, and an accepted plan runs to completion.
    - Repositories: workflows, plans, networks, scopes, resources and preferences that
      the tables can hold are read back as they were saved, a save that fails changes
      nothing, and nothing else changes; a new database is installed, one of the current
      version is accepted and an unknown one refused, without losing a table or a
      column.
    - Controller and execution store: one start per handle for any sequence of
      calls, also on the tables of the repository, which refine a map from
      identifiers to handles; the tables stay well formed.
    - API: a handler runs exactly when the request is admitted, a run is submitted once whatever the queue does in
      between, an artifact lands where its activity looks, a search finds exactly
      the best matches, every route answers; requests survive export and import.
    - Queue and event loop: identifiers and keys are unique, rows published as pending
      jobs stay well formed, a key is published
      once, finished jobs stay finished, only the owner of a lease settles a job, a
      lease takes the best jobs, retries are bounded and back off exponentially,
      the loop stays within its concurrency; two theorems state how far the
      guarantees do not go (expired leases, two leases of one owner).
    - Transfers: what a transfer reports as done is in place with the right bytes, over
      the connectors of the server and whatever a web server answers; an interrupted
      copy between two directories of the machine is completed; the gate opens only for committed data; no name of a plan
      leaves its endpoint.
    - Storage, builds and file system: changes stay below the configured roots (but for
      one temporary file when the root itself is written), what
      runs on a remote machine is the driver's script with a path below its root and
      nothing of a name is read by a shell, every request to an object store is for an
      escaped key below its endpoint with the credential of the storage,
      background jobs end on record, archives hold the whole tree, archives of build
      contexts cannot write outside their workspace and are extracted whole or removed,
      uploads are complete, checked and content addressed;
      what an activity wrote is catalogued once, and an output that a workflow can use
      is a published one whose location has the digest of its variant.
    - Simulator and network: a path is found exactly when one exists and its
      duration and price are those of a chain of links; the simulator decides
      whether the plan can be ordered, its schedules respect causality, costs and
      feasibility are exact, and the external simulator gets the whole plan.
    - Runtimes: a Slurm script is read by a shell as exactly the activity's
      commands, nothing is submitted before it is materialized, and the exit code of
      the sentinel is the one reported; a Kubernetes activity is created with its
      service or an error is returned after the job was deleted, and only expired jobs
      are deleted; a local activity is reported as its process ended (when it was started
      once), and its manifest accounts for every change of the workspace.
    - Environments: every connection that is due is checked, the schedule follows
      the streak of failures, and discovery stores everything a probe reports; an
      environment that is saved is read back with its own bindings, profiles and bound
      storages, or not saved at all; it is deleted only when nothing depends on it, with
      all that belongs to it, and the history of a connection is bounded; the
      text of a Slurm probe is read back as the inventory it stands for.
    - Console: a command is on record before it runs and when it has ended, with its
      audit events; in any interleaving every piece of output a terminal gives is sent
      once and in order to an attached client, and a session ends once; a
      transcript is what was appended to it.

    ** Bounds and fuel

    Loops that are not structural take fuel and answer [None] or an error when it
    runs out: the visit of [validateDAG] (one step per activity), the supervisor's
    turns (bounded by the activities and the patience of the collaborators), the
    search of a network path (one iteration per edge plus two), the rounds of the
    simulator (one per activity plus one), the walks of directories (one per level
    of the tree) and the search for an existing parent directory (one per element).
    For each there is a theorem or lemma that the stated fuel is enough, so no
    theorem speaks only of the runs that return. Go visits maps in an unspecified
    order: every definition that ranges over a map takes the number of the visit,
    and theorems hold for all instances of [MapOrder]. Integers are [Z], with the
    wrap-around of [int64] where sums can leave the range; times are nanoseconds;
    floats are IEEE-754.

    ** Not modelled

    What lies behind the interfaces: the operating system's processes and files,
    HTTP servers and clients, web sockets, S3 and SSH themselves, the SQL engine
    (statements are modelled by their effect on rows), JSON, YAML and XML rendering,
    the matching of route patterns by net/http. Error values are their messages;
    locks are not modelled, and goroutines are where their interleaving matters (the
    event loop, the local runtime, terminals, the background jobs of storages). The
    command line, the wiring of the server and the logger are glue; the clients of
    Kubernetes and the terminals behind the console speak to other systems. *)

From stdpp Require Export base tactics list gmap strings sorting.
From Stdlib Require Export ZArith Lia SpecFloat.

#[global] Open Scope Z_scope.
#[global] Open Scope list_scope.

(** ** Zero values

    Every Go type has a zero value, which a missing map key, an unset struct
    field or a bare [var] denotes. *)
Class Zero (A : Type) := zero : A.
#[global] Instance zero_string : Zero string := ""%string.
#[global] Instance zero_Z : Zero Z := 0.
#[global] Instance zero_nat : Zero nat := 0%nat.
#[global] Instance zero_bool : Zero bool := false.
#[global] Instance zero_unit : Zero unit := tt.
#[global] Instance zero_option A : Zero (option A) := None.
#[global] Instance zero_list A : Zero (list A) := [].
#[global] Instance zero_gmap `{Countable K} V : Zero (gmap K V) := (∅ : gmap K V).
#[global] Instance zero_prod `{Zero A, Zero B} : Zero (A * B) := (zero, zero).

(** [m[k]] in an expression context: the zero value when [k] is absent. *)
Definition lookup_zero `{Countable K} `{Zero V} (m : gmap K V) (k : K) : V :=
  default zero (m !! k).

(** ** Functional update of records

    [r <| F := v |>] is the Go assignment [r.F = v] on a copy of [r]. *)
Class Eta (R : Type) := eta_of : R → R.
Class Setter {R T : Type} (proj : R → T) := set_field : (T → T) → R → R.
Arguments set_field {R T} proj {_} f r /.

Ltac build_setter :=
  lazymatch goal with
  | |- @Setter ?R ?T ?proj =>
    let f := fresh "f" in
    let r := fresh "r" in
    intros f r;
    let inst := constr:(eta_of (R := R)) in
    let inst := eval cbv [eta_of] in inst in
    let e := eval unfold inst in inst in
    let e := eval cbv beta in (e r) in
    lazymatch e with
    | context C [proj r] => let t := context C [f (proj r)] in exact t
    end
  end.
#[global] Hint Extern 1 (Setter _) => build_setter : typeclass_instances.

Declare Scope go_scope.
Delimit Scope go_scope with go.
Notation "r <| p := v |>" := (set_field p (λ _, v) r)
  (at level 1, left associativity, p at level 10, v at level 200,
   format "r  <| p  :=  v |>") : go_scope.
#[global] Open Scope go_scope.

(** ** Errors

    A Go function that returns [(T, error)] returns a [result T]. An error is
    the text of its message: the code inspects errors only through their text
    and through [err != nil]. *)
Abbreviation error := string (only parsing).

Inductive result (A : Type) : Type :=
| Ok (a : A)
| Err (e : error).
Arguments Ok {A} a.
Arguments Err {A} e.

#[global] Instance result_ret : MRet result := @Ok.
#[global] Instance result_bind : MBind result := λ A B f m,
  match m with Ok a => f a | Err e => Err e end.
#[global] Instance result_fmap : FMap result := λ A B f m,
  match m with Ok a => Ok (f a) | Err e => Err e end.
#[global] Instance result_eq_dec `{EqDecision A} : EqDecision (result A).
Proof. solve_decision. Defined.

Definition is_ok {A} (r : result A) : bool :=
  match r with Ok _ => true | Err _ => false end.

(** [guard_err b e]: [if !b { return e }]. *)
Definition check (b : bool) (e : error) : result unit := if b then Ok tt else Err e.

(** [for _, x := range l { if err := f(x); err != nil { return err } }] *)
Fixpoint for_each {A} (f : A → result unit) (l : list A) : result unit :=
  match l with
  | [] => Ok tt
  | x :: l => f x ≫= λ _, for_each f l
  end.

(** The same loop when the body updates local state. *)
Fixpoint fold_err {A S} (f : S → A → result S) (s : S) (l : list A) : result S :=
  match l with
  | [] => Ok s
  | x :: l => f s x ≫= λ s', fold_err f s' l
  end.

Lemma for_each_ok {A} (f : A → result unit) l :
  for_each f l = Ok tt ↔ ∀ x, x ∈ l → f x = Ok tt.
Proof.
  induction l as [|x l IH]; simpl.
  { split; [|done]. by intros _ x ?%elem_of_nil. }
  destruct (f x) as [[]|e] eqn:E; simpl.
  - rewrite IH. split.
    + intros ? y [->|?]%elem_of_cons; auto.
    + intros H y Hy. apply H. by right.
  - split; [done|]. intros H. rewrite <- E. apply H. by left.
Qed.

Lemma fold_err_snoc {A S} (f : S → A → result S) s l x :
  fold_err f s (l ++ [x]) = fold_err f s l ≫= λ s', f s' x.
Proof.
  revert s. induction l as [|y l IH]; intros s; simpl.
  - by destruct (f s x).
  - destruct (f s y); simpl; [apply IH|done].
Qed.

(** ** State passing

    Code with effects is a function of the world it acts on. [eff W A] is a
    call that always returns; [effr W A] is one that may return an error. *)
Definition eff (W A : Type) : Type := W → A * W.
Abbreviation effr W A := (eff W (result A)).

Definition eret {W A} (a : A) : eff W A := λ w, (a, w).
Definition ebind {W A B} (m : eff W A) (k : A → eff W B) : eff W B :=
  λ w, let '(a, w') := m w in k a w'.
(** [x, err := m; if err != nil { return err }; k x] *)
Definition ebindr {W A B} (m : effr W A) (k : A → effr W B) : effr W B :=
  λ w, let '(r, w') := m w in
       match r with Ok a => k a w' | Err e => (Err e, w') end.

Notation "'let!' x ':=' m 'in' k" := (ebind m (λ x, k))
  (at level 10, x pattern, m at level 100, k at level 200) : go_scope.
Notation "'let?' x ':=' m 'in' k" := (ebindr m (λ x, k))
  (at level 10, x pattern, m at level 100, k at level 200) : go_scope.

(** [for _, x := range l { if err := f(x); err != nil { return err } }] *)
Fixpoint for_effr {W A} (f : A → effr W unit) (l : list A) : effr W unit :=
  match l with
  | [] => eret (Ok tt)
  | x :: l => let? _ := f x in for_effr f l
  end.

(** The same loop when the body appends a value to the result. *)
Fixpoint map_effr {W A B} (f : A → effr W B) (l : list A) : effr W (list B) :=
  match l with
  | [] => eret (Ok [])
  | x :: l => let? y := f x in let? ys := map_effr f l in eret (Ok (y :: ys))
  end.

Lemma ebindr_ok {W A B} (m : effr W A) (k : A → effr W B) w b w' :
  ebindr m k w = (Ok b, w') → ∃ a w1, m w = (Ok a, w1) ∧ k a w1 = (Ok b, w').
Proof. unfold ebindr. destruct (m w) as [[a|e] w1]; [eauto|done]. Qed.
Lemma ebind_ok {W A B} (m : eff W A) (k : A → eff W B) w b w' :
  ebind m k w = (b, w') → ∃ a w1, m w = (a, w1) ∧ k a w1 = (b, w').
Proof. unfold ebind. destruct (m w) as [a w1]; eauto. Qed.

(** What a loop returns, from what its body returns. *)
Lemma map_effr_ok {W A B} (f : A → effr W B) (P : A → B → Prop) l w ys w' :
  (∀ x w y w', x ∈ l → f x w = (Ok y, w') → P x y) →
  map_effr f l w = (Ok ys, w') → Forall2 P l ys.
Proof.
  revert w ys. induction l as [|x l IH]; intros w ys Hf; simpl; [by intros [= <- <-]|].
  intros (y & w1 & Hy & Hm)%ebindr_ok. apply ebindr_ok in Hm as (ys' & w2 & Hys & Hm).
  injection Hm as <- <-. constructor; [eapply Hf; [by left|done]|].
  eapply IH; [|done]. intros x' w0 y' w0' Hin. apply Hf. by right.
Qed.

(** ** Calls that may panic

    [Panics] is a Go run-time panic (a nil dereference, a slice bound): no
    statement after it runs. *)
Inductive outcome (A : Type) :=
| Returns (r : result A)
| Panics.
Arguments Returns {A} r.
Arguments Panics {A}.

Definition sup (W A : Type) : Type := eff W (outcome A).
Definition sret {W A} (a : A) : sup W A := eret (Returns (Ok a)).
Definition serr {W A} (e : error) : sup W A := eret (Returns (Err e)).
Definition spanic {W A} : sup W A := eret Panics.
(** [x, err := m; if err != nil { return err }; k x] *)
Definition sbind {W A B} (m : sup W A) (k : A → sup W B) : sup W B := λ w,
  let '(o, w') := m w in
  match o with
  | Returns (Ok a) => k a w'
  | Returns (Err e) => (Returns (Err e), w')
  | Panics => (Panics, w')
  end.
Definition sup_lift {W A} (m : effr W A) : sup W A := λ w,
  let '(r, w') := m w in (Returns r, w').
Notation "'let*' x ':=' m 'in' k" := (sbind m (λ x, k))
  (at level 10, x pattern, m at level 100, k at level 200) : go_scope.

(** ** Worlds that record calls

    [Recorded W C] is the world [W] with the calls made so far; [appends P m] says
    that [m] only makes calls with the property [P]. *)
Definition Recorded (W C : Type) : Type := W * list C.
Definition logged {W C A} (m : eff W A) (f : A → C) : eff (Recorded W C) A := λ '(w, l),
  let '(a, w') := m w in (a, (w', l ++ [f a])).
(** A call that is not recorded. *)
Definition unlogged {W C A} (m : eff W A) : eff (Recorded W C) A := λ '(w, l),
  let '(a, w') := m w in (a, (w', l)).
Lemma logged_eq {W C A} (m : eff W A) (f : A → C) w l :
  logged m f (w, l) = ((m w).1, ((m w).2, l ++ [f (m w).1])).
Proof. unfold logged. by destruct (m w). Qed.
Lemma unlogged_eq {W C A} (m : eff W A) w (l : list C) : unlogged m (w, l) = ((m w).1, ((m w).2, l)).
Proof. unfold unlogged. by destruct (m w). Qed.

(** A component with fields of its own beside the world, and a call to the world. *)
Definition on_world {W S A} (m : eff W A) : eff (W * S) A := λ '(w, s),
  let '(a, w') := m w in (a, (w', s)).
Lemma on_world_eq {W S A} (m : eff W A) w (s : S) : on_world m (w, s) = ((m w).1, ((m w).2, s)).
Proof. unfold on_world. by destruct (m w). Qed.

Section recorded.
Context {W C : Type}.
Definition appends (P : C → Prop) {A} (m : eff (Recorded W C) A) : Prop :=
  ∀ w l a w' l', m (w, l) = (a, (w', l')) → ∃ k, l' = l ++ k ∧ Forall P k.

Lemma appends_ret P {A} (a : A) : appends P (eret a).
Proof. intros w l b w' l' [= _ _ <-]. exists []. by rewrite app_nil_r. Qed.
Lemma appends_logged (P : C → Prop) {A} (m : eff W A) f :
  (∀ a, P (f a)) → appends P (logged m f).
Proof.
  intros HP w l b w' l'. unfold logged. destruct (m w) as [a ?]. intros [= _ _ <-].
  exists [f a]. split; [done|]. by repeat constructor.
Qed.
Lemma appends_bind P {A B} (m : eff (Recorded W C) A) (k : A → eff (Recorded W C) B) :
  appends P m → (∀ a, appends P (k a)) → appends P (ebind m k).
Proof.
  intros Hm Hk w l b w' l'. unfold ebind. destruct (m (w, l)) as [a [w1 l1]] eqn:E.
  intros E'. destruct (Hm _ _ _ _ _ E) as (k1 & -> & Hk1).
  destruct (Hk _ _ _ _ _ _ E') as (k2 & -> & Hk2). exists (k1 ++ k2).
  split; [by rewrite app_assoc|by apply Forall_app].
Qed.
Lemma appends_bindr P {A B} (m : effr (Recorded W C) A) (k : A → effr (Recorded W C) B) :
  appends P m → (∀ a, appends P (k a)) → appends P (ebindr m k).
Proof.
  intros Hm Hk w l b w' l' E.
  apply (appends_bind P m (λ r, match r with Ok a => k a | Err e => eret (Err e) end) Hm)
    with (w := w) (a := b) (w' := w').
  - intros [a|e]; [done|apply appends_ret].
  - unfold ebindr, ebind in *. by destruct (m (w, l)) as [[|] ?].
Qed.
Lemma appends_sbind P {A B} (m : sup (Recorded W C) A) (k : A → sup (Recorded W C) B) :
  appends P m → (∀ a, appends P (k a)) → appends P (sbind m k).
Proof.
  intros Hm Hk w l b w' l' E.
  apply (appends_bind P m (λ r, match r with
      | Returns (Ok a) => k a | Returns (Err e) => serr e | Panics => spanic end) Hm)
    with (w := w) (a := b) (w' := w').
  - intros [[a|e]|]; [done|apply appends_ret..].
  - unfold sbind, ebind in *. by destruct (m (w, l)) as [[[|]|] ?].
Qed.
Lemma appends_lift P {A} (m : effr (Recorded W C) A) : appends P m → appends P (sup_lift m).
Proof.
  intros Hm w l b w' l'. unfold sup_lift. destruct (m (w, l)) as [r [w1 l1]] eqn:E.
  intros [= _ _ <-]. by eapply Hm.
Qed.
Lemma appends_weaken (P Q : C → Prop) {A} (m : eff (Recorded W C) A) :
  (∀ c, P c → Q c) → appends P m → appends Q m.
Proof.
  intros HPQ Hm w l b w' l' E. destruct (Hm _ _ _ _ _ E) as (k & ? & ?).
  exists k. split; [done|]. by eapply Forall_impl.
Qed.
Lemma appends_unlogged P {A} (m : eff W A) : appends P (unlogged m).
Proof.
  intros w l b w' l'. unfold unlogged. destruct (m w) as [a ?]. intros [= _ _ <-].
  exists []. by rewrite app_nil_r.
Qed.
End recorded.

(** ** Dynamic values: Go's [any] as the code's [map[string]any] holds it. *)
(** IEEE-754 binary64, the Go [float64]. *)
Abbreviation float64 := spec_float.
#[global] Instance float64_eq_dec : EqDecision float64.
Proof. solve_decision. Defined.
#[global] Instance zero_float64 : Zero float64 := S754_zero false.

Inductive any : Type :=
| AnyNil
| AnyString (s : string)
| AnyBool (b : bool)
| AnyFloat64 (f : float64)
| AnyFloat32 (f : float64)
| AnyInt (z : Z)
| AnyInt64 (z : Z)
| AnyMap (kvs : list (string * any))
| AnySlice (xs : list any)
| AnyStrings (xs : list string)
| AnyMaps (ms : list (list (string * any))).
#[global] Instance zero_any : Zero any := AnyNil.

Abbreviation metadata := (gmap string any).

(** [v, _ := m[key].(string)] and [v, _ := m[key].(bool)]. *)
Definition any_string (v : any) : string :=
  match v with AnyString s => s | _ => "" end.
Definition any_bool (v : any) : bool :=
  match v with AnyBool b => b | _ => false end.
Definition meta_string (m : metadata) (key : string) : string :=
  any_string (lookup_zero m key).
Definition meta_bool (m : metadata) (key : string) : bool :=
  any_bool (lookup_zero m key).

(** ** Lists *)
Lemma elem_of_drop_elem {A} (x : A) n l : x ∈ drop n l → x ∈ l.
Proof. intros H. rewrite <- (take_drop n l). apply elem_of_app. by right. Qed.

(** In a sorted list, what is taken comes before what is left. *)
Lemma sorted_cut {A} (R : A → A → Prop) l n x y :
  StronglySorted R l → x ∈ take n l → y ∈ drop n l → R x y.
Proof.
  revert n. induction l as [|z l IH]; intros n Hs Hx Hy; [by destruct n; apply not_elem_of_nil in Hx|].
  apply StronglySorted_inv in Hs as [Hs Hall]. destruct n as [|n]; [by apply not_elem_of_nil in Hx|].
  cbn [take drop] in Hx, Hy. apply elem_of_cons in Hx as [->|Hx]; [|by apply (IH n)].
  rewrite Forall_forall in Hall. apply Hall. rewrite <- (take_drop n l). apply elem_of_app. by right.
Qed.
(** A key determines its element. *)
Lemma NoDup_key {A K} (key : A → K) l x y :
  NoDup (map key l) → x ∈ l → y ∈ l → key x = key y → x = y.
Proof.
  induction l as [|z l IH]; [by intros _ ?%not_elem_of_nil|]. cbn [map]. intros [Hn Hd]%NoDup_cons.
  intros [->|Hx]%elem_of_cons [->|Hy]%elem_of_cons E; [done|..|by apply IH]; exfalso; apply Hn.
  - rewrite E. by apply (list_elem_of_fmap_2 key).
  - rewrite <- E. by apply (list_elem_of_fmap_2 key).
Qed.

Lemma list_filter_sublist {A} (f : A → bool) l : List.filter f l `sublist_of` l.
Proof.
  induction l as [|x l IH]; simpl; [done|].
  destruct (f x); [by apply sublist_skip|by apply sublist_cons].
Qed.

(** ** Time

    A [time.Time] is the number of nanoseconds since Go's zero time, so
    [IsZero] is [= 0]; a [time.Duration] is a number of nanoseconds. *)
Abbreviation Time := Z (only parsing).
Abbreviation Duration := Z (only parsing).
Definition IsZero (t : Time) : bool := t =? 0.
Definition Nanosecond : Duration := 1.
Definition Millisecond : Duration := 1000000.
Definition Second : Duration := 1000000000.
Definition Minute : Duration := 60 * Second.
Definition Hour : Duration := 60 * Minute.

(** ** Machine integers: wrap-around of Go's 64-bit [int] and [int64]. *)
Definition int64 (z : Z) : Z := (z + 2 ^ 63) mod 2 ^ 64 - 2 ^ 63.
Definition in_int64 (z : Z) : Prop := - 2 ^ 63 ≤ z < 2 ^ 63.

Lemma int64_id z : in_int64 z → int64 z = z.
Proof. unfold in_int64, int64. intros. rewrite Z.mod_small; lia. Qed.
Lemma int64_range z : in_int64 (int64 z).
Proof.
  unfold in_int64, int64. pose proof (Z.mod_pos_bound (z + 2 ^ 63) (2 ^ 64)). lia.
Qed.

(** ** Map iteration

    Go visits a map in an unspecified order, which may differ from one
    [range] statement to the next. [map_range salt m] is the order of the visit
    number [salt]; every theorem holds for all the orders the class allows. *)
Class MapOrder := {
  map_range : ∀ {V : Type}, nat → gmap string V → list (string * V);
  map_range_perm : ∀ V (salt : nat) (m : gmap string V),
    map_range salt m ≡ₚ map_to_list m
}.

(** The order of the binary tries, for evaluating definitions. *)
#[global] Instance canonical_order : MapOrder | 100 := {|
  map_range V _ m := map_to_list m;
  map_range_perm V _ m := Permutation_refl _
|}.
