(* ===== verification/GoStrings.v ===== *)
(** * Go's [strings], [strconv] and [fmt] as the engine uses them

    A Go string is a sequence of bytes, here [string]. Case mapping and white
    space are those of ASCII text. *)

From S2P Require Import Prelude.
From Stdlib Require Import Ascii.

#[global] Open Scope string_scope.
#[global] Open Scope list_scope.
#[global] Open Scope Z_scope.

Definition byte_of (c : ascii) : Z := Z.of_N (N_of_ascii c).
Definition LF : ascii := "010"%char.
Definition NUL : string := String "000"%char "".
Definition newline : string := String LF "".

(** ** Concatenation and length *)
Fixpoint str_length (s : string) : nat :=
  match s with "" => 0%nat | String _ s => S (str_length s) end.

#[global] Arguments String.append !_ _ /.

Lemma str_app_nil_r s : s +:+ "" = s.
Proof. induction s; simpl; congruence. Qed.
Lemma str_app_assoc s t u : (s +:+ t) +:+ u = s +:+ (t +:+ u).
Proof. induction s; simpl; congruence. Qed.
Lemma str_app_inv_l s t u : s +:+ t = s +:+ u → t = u.
Proof. apply (inj (String.app s)). Qed.
Lemma str_length_app s t : str_length (s +:+ t) = (str_length s + str_length t)%nat.
Proof. induction s; simpl; congruence. Qed.
Lemma str_app_nil_inv s t : s +:+ t = "" → s = "" ∧ t = "".
Proof. by destruct s. Qed.

(** ** Prefixes, suffixes and substrings *)
Fixpoint has_prefix (p s : string) : bool :=
  match p, s with
  | "", _ => true
  | String a p, String b s => bool_decide (a = b) && has_prefix p s
  | _, "" => false
  end.

Fixpoint drop_str (n : nat) (s : string) : string :=
  match n, s with
  | O, _ => s
  | S n, String _ s => drop_str n s
  | _, "" => ""
  end.

(** [strings.TrimPrefix(s, p)] *)
Definition trim_prefix (p s : string) : string :=
  if has_prefix p s then drop_str (str_length p) s else s.

Definition has_suffix (p s : string) : bool :=
  has_prefix (String.rev p) (String.rev s).

(** [s[:n]] *)
Fixpoint take_str (n : nat) (s : string) : string :=
  match n, s with
  | S n, String c s => String c (take_str n s)
  | _, _ => ""
  end.

Lemma take_drop_str n s : take_str n s +:+ drop_str n s = s.
Proof.
  revert s. induction n as [|n IH]; intros [|c s]; simpl; try done.
  by rewrite IH.
Qed.
Lemma drop_str_0 s : drop_str (Z.to_nat 0) s = s.
Proof. by destruct s. Qed.
Lemma take_str_all s : take_str (str_length s) s = s.
Proof. induction s as [|c s IH]; simpl; [done|]. by rewrite IH. Qed.
Lemma take_str_app n a b : (n ≤ str_length a)%nat → take_str n (a +:+ b) = take_str n a.
Proof.
  revert a. induction n as [|n IH]; intros a Hn; [by destruct a, b|].
  destruct a as [|c a]; simpl in *; [lia|]. by rewrite IH by lia.
Qed.

(** [strings.TrimSuffix(s, suffix)] *)
Definition trim_suffix (suffix s : string) : string :=
  if has_suffix suffix s then take_str (str_length s - str_length suffix) s else s.

(** [strings.Contains(s, sub)] *)
Fixpoint contains (s sub : string) : bool :=
  has_prefix sub s || match s with "" => false | String _ s => contains s sub end.

Lemma has_prefix_spec p s : has_prefix p s = true ↔ ∃ t, s = p +:+ t.
Proof.
  revert s. induction p as [|a p IH]; intros [|b s]; simpl.
  - split; eauto.
  - split; [eauto|done].
  - split; [done|]. by intros [t ?].
  - rewrite andb_true_iff, bool_decide_eq_true, IH. split.
    + intros [-> [t ->]]. by exists t.
    + intros [t Heq]. injection Heq as -> ->. eauto.
Qed.
Lemma has_prefix_app p t : has_prefix p (p +:+ t) = true.
Proof. apply has_prefix_spec. eauto. Qed.
Lemma str_length_drop n s : str_length (drop_str n s) = (str_length s - n)%nat.
Proof. revert n. induction s as [|c s IH]; intros [|n]; cbn; [done..|apply IH]. Qed.
Lemma drop_str_app p t : drop_str (str_length p) (p +:+ t) = t.
Proof. induction p; by simpl. Qed.
Lemma trim_prefix_app p t : trim_prefix p (p +:+ t) = t.
Proof. unfold trim_prefix. by rewrite has_prefix_app, drop_str_app. Qed.

Lemma contains_spec s sub : contains s sub = true ↔ ∃ l r, s = l +:+ sub +:+ r.
Proof.
  induction s as [|a s IH]; simpl.
  - rewrite orb_true_iff, has_prefix_spec. split.
    + intros [[t ?]|]; [|done]. by exists "", t.
    + intros (l & r & H). symmetry in H. apply str_app_nil_inv in H as [-> H].
      left. by exists r.
  - rewrite orb_true_iff, has_prefix_spec, IH. split.
    + intros [[t ->]|(l & r & ->)]; [by exists "", t|by exists (String a l), r].
    + intros ([|b l] & r & Heq); [left; by exists r|].
      injection Heq as -> ->. right. eauto.
Qed.
Lemma contains_app l sub r : contains (l +:+ sub +:+ r) sub = true.
Proof. apply contains_spec. eauto. Qed.

(** ** Trimming *)
Fixpoint trim_left (p : ascii → bool) (s : string) : string :=
  match s with
  | "" => ""
  | String c s' => if p c then trim_left p s' else s
  end.

(** [trim_right p s] drops the longest suffix whose bytes satisfy [p]. *)
Fixpoint trim_right (p : ascii → bool) (s : string) : string :=
  match s with
  | "" => ""
  | String c s' =>
    match trim_right p s' with
    | "" => if p c then "" else String c ""
    | t => String c t
    end
  end.

Definition trim (p : ascii → bool) (s : string) : string := trim_right p (trim_left p s).

Definition is_space (c : ascii) : bool :=
  let n := byte_of c in (n =? 32) || ((9 <=? n) && (n <=? 13)).
Definition trim_space (s : string) : string := trim is_space s.
Definition is_byte (a c : ascii) : bool := bool_decide (a = c).
(** [strings.TrimRight(s, "\n")] *)
Definition trim_newlines (s : string) : string := trim_right (is_byte LF) s.

Fixpoint str_forall (p : ascii → bool) (s : string) : bool :=
  match s with "" => true | String c s => p c && str_forall p s end.

Lemma trim_right_split p s : ∃ t, s = trim_right p s +:+ t ∧ str_forall p t = true.
Proof.
  induction s as [|c s (t & Heq & Ht)]; simpl; [by exists ""|].
  destruct (trim_right p s) as [|c' s'] eqn:E.
  - destruct (p c) eqn:Hc.
    + exists (String c s). simpl. rewrite Hc. simpl in Heq. by subst.
    + exists s. simpl in Heq. by subst.
  - exists t. split; [|done]. rewrite Heq at 1. done.
Qed.
Lemma str_forall_app p s t : str_forall p (s +:+ t) = str_forall p s && str_forall p t.
Proof. induction s as [|c s IH]; simpl; [done|]. by rewrite IH, andb_assoc. Qed.
Lemma trim_right_forall p q s :
  str_forall q s = true → str_forall q (trim_right p s) = true.
Proof.
  intros H. destruct (trim_right_split p s) as (t & Heq & _).
  rewrite Heq, str_forall_app in H. by apply andb_true_iff in H as [? _].
Qed.
Lemma trim_left_split p s : ∃ t, s = t +:+ trim_left p s ∧ str_forall p t = true.
Proof.
  induction s as [|c s (t & Heq & Ht)]; simpl; [by exists ""|].
  destruct (p c) eqn:Hc; [|by exists ""].
  exists (String c t). simpl. rewrite Hc. split; [|done]. by rewrite Heq at 1.
Qed.
Lemma trim_left_forall p q s :
  str_forall q s = true → str_forall q (trim_left p s) = true.
Proof.
  intros H. destruct (trim_left_split p s) as (t & Heq & _).
  rewrite Heq, str_forall_app in H. by apply andb_true_iff in H as [_ ?].
Qed.

(** ** Splitting and joining at a byte *)
Fixpoint split_byte (sep : ascii) (s : string) : list string :=
  match s with
  | "" => [""]
  | String c s =>
    if bool_decide (c = sep) then "" :: split_byte sep s
    else match split_byte sep s with
         | [] => [String c ""]
         | x :: xs => String c x :: xs
         end
  end.

Fixpoint join_byte (sep : ascii) (l : list string) : string :=
  match l with
  | [] => ""
  | [x] => x
  | x :: l => x +:+ String sep (join_byte sep l)
  end.

Lemma split_byte_nonempty sep s : split_byte sep s ≠ [].
Proof.
  destruct s as [|c s]; simpl; [done|]. case_bool_decide; [done|].
  by destruct (split_byte sep s).
Qed.

Lemma join_split_byte sep s : join_byte sep (split_byte sep s) = s.
Proof.
  induction s as [|c s IH]; simpl; [done|].
  pose proof (split_byte_nonempty sep s).
  case_bool_decide; destruct (split_byte sep s) as [|x xs]; try done; subst.
  - simpl. by f_equal.
  - destruct xs; simpl in *; by f_equal.
Qed.

Definition free_of (sep : ascii) (s : string) : Prop :=
  str_forall (λ c, negb (bool_decide (c = sep))) s = true.

Lemma split_byte_app sep a b :
  split_byte sep (a +:+ String sep "" +:+ b) = split_byte sep a ++ split_byte sep b.
Proof.
  induction a as [|c a IH]; simpl.
  - by rewrite bool_decide_true.
  - simpl in IH. rewrite IH. case_bool_decide; [done|].
    pose proof (split_byte_nonempty sep a). by destruct (split_byte sep a).
Qed.
Lemma split_byte_single sep s : free_of sep s → split_byte sep s = [s].
Proof.
  unfold free_of. induction s as [|c s IH]; simpl; [done|].
  intros [Hc Hs]%andb_true_iff. rewrite IH by done. by destruct (bool_decide (c = sep)).
Qed.
Lemma split_byte_free sep s : Forall (free_of sep) (split_byte sep s).
Proof.
  unfold free_of. induction s as [|c s IH]; simpl; [by constructor|].
  case_bool_decide; [by constructor|].
  destruct (split_byte sep s) as [|x xs]; [|apply Forall_cons in IH as [? ?]];
    constructor; simpl; try done; by rewrite bool_decide_false.
Qed.
Lemma split_join_byte sep l : l ≠ [] → Forall (free_of sep) l →
  split_byte sep (join_byte sep l) = l.
Proof.
  induction l as [|x l IH]; [done|]. intros _ [Hx Hl]%Forall_cons.
  destruct l as [|y l]; [by apply split_byte_single|].
  change (join_byte sep (x :: y :: l)) with (x +:+ String sep "" +:+ join_byte sep (y :: l)).
  rewrite split_byte_app, IH, split_byte_single by done. done.
Qed.

(** ** Case mapping *)
Definition ascii_between (a b c : ascii) : bool :=
  (byte_of a <=? byte_of c) && (byte_of c <=? byte_of b).
Definition upper_byte (c : ascii) : ascii :=
  if ascii_between "a" "z" c then ascii_of_N (N_of_ascii c - 32) else c.
Definition lower_byte (c : ascii) : ascii :=
  if ascii_between "A" "Z" c then ascii_of_N (N_of_ascii c + 32) else c.
Fixpoint map_str (f : ascii → ascii) (s : string) : string :=
  match s with "" => "" | String c s => String (f c) (map_str f s) end.
Definition to_upper : string → string := map_str upper_byte.
Definition to_lower : string → string := map_str lower_byte.

Lemma map_str_forall f q s :
  (∀ c, q (f c) = true) → str_forall q (map_str f s) = true.
Proof. intros H. induction s; simpl; [done|]. by rewrite H. Qed.
Lemma str_length_map f s : str_length (map_str f s) = str_length s.
Proof. induction s; simpl; congruence. Qed.

(** ** Decimal numbers: [strconv.Itoa] *)
Definition digit_char (d : Z) : ascii := ascii_of_N (Z.to_N (48 + d)).
Fixpoint digits_fuel (fuel : nat) (z : Z) (acc : string) : string :=
  match fuel with
  | O => acc
  | S fuel =>
    let acc := String (digit_char (z mod 10)) acc in
    if z <? 10 then acc else digits_fuel fuel (z / 10) acc
  end.
(** The number of binary digits bounds the number of decimal ones. *)
Definition digits (z : Z) : string := digits_fuel (S (Z.to_nat (Z.log2 z))) z "".
Definition itoa (z : Z) : string :=
  if z <? 0 then String "-" (digits (- z)) else digits z.

(** ** [fmt.Errorf] and [fmt.Sprintf]

    The arguments are already rendered; [%q] quotes its argument, every other
    verb of the engine's messages ([%s], [%d], [%w], [%v]) inserts it. Bytes above
    ASCII are kept, as [strconv.Quote] does for printable UTF-8 text. *)
Definition hex_digit (n : Z) : ascii :=
  ascii_of_nat (Z.to_nat (if n <? 10 then 48 + n else 87 + n)).
Fixpoint quote_body (s : string) : string :=
  match s with
  | "" => ""
  | String c s =>
    let n := byte_of c in
    if (n =? 34) || (n =? 92) then String "\" (String c (quote_body s))
    else if n =? 7 then "\a" +:+ quote_body s
    else if n =? 8 then "\b" +:+ quote_body s
    else if n =? 9 then "\t" +:+ quote_body s
    else if n =? 10 then "\n" +:+ quote_body s
    else if n =? 11 then "\v" +:+ quote_body s
    else if n =? 12 then "\f" +:+ quote_body s
    else if n =? 13 then "\r" +:+ quote_body s
    else if (n <? 32) || (n =? 127) then
      "\x" +:+ String (hex_digit (n / 16)) (String (hex_digit (n mod 16)) (quote_body s))
    else String c (quote_body s)
  end.
Definition dquote : string := String "034"%char "".
Definition quote (s : string) : string := dquote +:+ quote_body s +:+ dquote.

Fixpoint sprintf (format : string) (args : list string) : string :=
  match format with
  | String "%" (String verb f) =>
    match args with
    | a :: args =>
      (if bool_decide (verb = "q"%char) then quote a else a) +:+ sprintf f args
    | [] => String "%" (String verb (sprintf f []))
    end
  | String c f => String c (sprintf f args)
  | "" => ""
  end.
Definition errorf (format : string) (args : list string) : error := sprintf format args.

(** ** Byte-lexicographic order: [sort.Strings] *)
Definition sort_strings (l : list string) : list string := merge_sort String.le l.

Lemma sort_strings_perm l : sort_strings l ≡ₚ l.
Proof. apply merge_sort_Permutation. Qed.
Lemma sort_strings_sorted l : StronglySorted String.le (sort_strings l).
Proof. apply StronglySorted_merge_sort; apply _. Qed.

(** ** Runes: how far a range over a string advances *)
Definition byte_in (lo hi : Z) (s : string) : bool :=
  match s with String c _ => (lo <=? byte_of c) && (byte_of c <=? hi) | "" => false end.
Definition str_tail (s : string) : string := match s with String _ s => s | "" => "" end.

(** The number of bytes of the first rune; an invalid byte is a rune of its own. *)
Definition rune_width (s : string) : nat :=
  match s with
  | "" => 0
  | String c s1 =>
    let b := byte_of c in
    let s2 := str_tail s1 in
    if (194 <=? b) && (b <=? 223) && byte_in 128 191 s1 then 2
    else if (224 <=? b) && (b <=? 239) && byte_in 128 191 s2 &&
            byte_in (if b =? 224 then 160 else 128) (if b =? 237 then 159 else 191) s1 then 3
    else if (240 <=? b) && (b <=? 244) && byte_in 128 191 s2 && byte_in 128 191 (str_tail s2) &&
            byte_in (if b =? 240 then 144 else 128) (if b =? 244 then 143 else 191) s1 then 4
    else 1
  end.

(** [strings.Map] of a function that treats all runes beyond ASCII alike: [f] is given
    the first byte of a rune. [skip] is the number of bytes left of the rune that was
    replaced. *)
Fixpoint map_runes_from (f : ascii → ascii) (skip : nat) (s : string) : string :=
  match s with
  | "" => ""
  | String c s' =>
    match skip with
    | S skip => map_runes_from f skip s'
    | O => String (f c) (map_runes_from f (pred (rune_width s)) s')
    end
  end.
Definition map_runes (f : ascii → ascii) (s : string) : string := map_runes_from f 0 s.

Lemma map_runes_forall f q s : (∀ c, q (f c) = true) → str_forall q (map_runes f s) = true.
Proof.
  intros Hq. unfold map_runes. generalize O. induction s as [|c s IH]; intros [|n]; try done.
  - cbn [map_runes_from str_forall]. by rewrite Hq, IH.
  - apply IH.
Qed.
(** Runes of one byte are mapped one by one. *)
Definition is_ascii (c : ascii) : bool := byte_of c <? 128.
Lemma rune_width_ascii c s : is_ascii c = true → rune_width (String c s) = 1%nat.
Proof.
  unfold is_ascii, rune_width. intros Hc%Z.ltb_lt.
  rewrite !(proj2 (Z.leb_gt _ (byte_of c))) by lia. done.
Qed.
Lemma map_runes_cons f c s : is_ascii c = true → map_runes f (String c s) = String (f c) (map_runes f s).
Proof. intros Hc. unfold map_runes. cbn [map_runes_from]. by rewrite rune_width_ascii. Qed.
Lemma str_app_String c s t : String c s +:+ t = String c (s +:+ t).
Proof. done. Qed.
Lemma map_runes_app f a s : str_forall is_ascii a = true → map_runes f (a +:+ s) = map_str f a +:+ map_runes f s.
Proof.
  induction a as [|c a IH]; [done|]. cbn [str_forall]. intros [Hc Ha]%andb_true_iff.
  rewrite str_app_String, map_runes_cons by done. cbn [map_str]. rewrite str_app_String. by rewrite IH.
Qed.

(** Percent-encoding in [net/url], of the bytes not kept. *)
Definition unreserved (c : ascii) : bool :=
  ascii_between "a" "z" c || ascii_between "A" "Z" c || ascii_between "0" "9" c ||
  bool_decide (c ∈ ["-"; "_"; "."; "~"]%char).
Definition upper_hex (n : Z) : ascii := upper_byte (hex_digit n).
Fixpoint escape (keep : ascii → bool) (plus : bool) (s : string) : string :=
  match s with
  | "" => ""
  | String c s =>
    if keep c then String c (escape keep plus s)
    else if plus && is_byte " " c then String "+" (escape keep plus s)
    else String "%" (String (upper_hex (byte_of c / 16))
           (String (upper_hex (byte_of c mod 16)) (escape keep plus s)))
  end.

(** [url.PathEscape] and [url.QueryEscape] *)
Definition PathEscape : string → string :=
  escape (λ c, unreserved c || bool_decide (c ∈ ["$"; "&"; "+"; ":"; "="; "@"]%char)) false.
Definition QueryEscape : string → string := escape unreserved true.

(** [strings.ReplaceAll(s, old, new)], for an [old] that is not empty; the fuel is the length of
    [s] and one. *)
Fixpoint replace_all (fuel : nat) (old new s : string) : string :=
  match fuel with
  | O => s
  | S fuel =>
    if has_prefix old s then new +:+ replace_all fuel old new (drop_str (str_length old) s)
    else match s with "" => "" | String c t => String c (replace_all fuel old new t) end
  end.

(** Messages and names stay folded under [simpl]. *)
#[global] Arguments String.append : simpl never.
#[global] Arguments sprintf : simpl never.
#[global] Arguments errorf : simpl never.
#[global] Arguments trim_space : simpl never.
