(* ===== verification/GoFloat.v ===== *)
(** * IEEE-754 binary64 arithmetic: Go's [float64]

    The operations are those of the Standard Library's [SpecFloat] at the
    binary64 format (53-bit significand, exponents up to 1024), so they round,
    overflow to infinity and produce NaN the way the compiled code does. The
    lemmas concern the order: comparisons are a total preorder away from NaN. *)

From S2P Require Import Prelude.

Definition prec : Z := 53.
Definition emax : Z := 1024.

Definition fadd : float64 → float64 → float64 := SFadd prec emax.
Definition fsub : float64 → float64 → float64 := SFsub prec emax.
Definition fmul : float64 → float64 → float64 := SFmul prec emax.
Definition fdiv : float64 → float64 → float64 := SFdiv prec emax.
(** [a < b], [a <= b], [a == b]: false when an operand is NaN. *)
Definition flt : float64 → float64 → bool := SFltb.
Definition fle : float64 → float64 → bool := SFleb.
Definition feq : float64 → float64 → bool := SFeqb.
(** [float64(z)] for an integer [z]. *)
Definition float_of_Z (z : Z) : float64 := binary_normalize prec emax z 0 false.

(** [int(f)]: truncation; out of range, the smallest integer. *)
Definition trunc (f : float64) : Z :=
  match f with
  | S754_finite s m e =>
    let n := Z.shiftl (Zpos m) e in
    let z := if s then - n else n in
    if (- 2 ^ 63 <=? z) && (z <? 2 ^ 63) then z else - 2 ^ 63
  | S754_zero _ => 0
  | _ => - 2 ^ 63
  end.

Definition f0 : float64 := S754_zero false.
Definition is_nan (f : float64) : bool := match f with S754_nan => true | _ => false end.

(** ** The order behind the comparisons *)
Definition fkey (f : float64) : Z * Z * Z :=
  match f with
  | S754_infinity true => (-2, 0, 0)
  | S754_finite true m e => (-1, - e, - Zpos m)
  | S754_zero _ => (0, 0, 0)
  | S754_finite false m e => (1, e, Zpos m)
  | S754_infinity false => (2, 0, 0)
  | S754_nan => (3, 0, 0)
  end.

Definition key_lt (a b : Z * Z * Z) : Prop :=
  let '(a1, a2, a3) := a in
  let '(b1, b2, b3) := b in
  a1 < b1 ∨ (a1 = b1 ∧ (a2 < b2 ∨ (a2 = b2 ∧ a3 < b3))).

Ltac float_cases a b :=
  destruct a as [[]|[]| |[] m e], b as [[]|[]| |[] m' e']; simpl;
  try (destruct (Z.compare_spec e e') as [<-|?|?];
       try change (Pos.compare_cont Eq m m') with (Pos.compare m m');
       try destruct (Pos.compare_spec m m'); subst);
  simpl; split; intros; try done; try lia.

Lemma flt_spec a b :
  flt a b = true ↔ is_nan a = false ∧ is_nan b = false ∧ key_lt (fkey a) (fkey b).
Proof. unfold flt, SFltb. float_cases a b. Qed.

Lemma fle_spec a b :
  fle a b = true ↔ is_nan a = false ∧ is_nan b = false ∧ ¬ key_lt (fkey b) (fkey a).
Proof. unfold fle, SFleb. float_cases a b. Qed.

Ltac float_order :=
  repeat match goal with
  | H : flt _ _ = true |- _ => apply flt_spec in H
  | H : fle _ _ = true |- _ => apply fle_spec in H
  | H : flt _ _ = false |- _ => apply not_true_iff_false in H; rewrite flt_spec in H
  | H : fle _ _ = false |- _ => apply not_true_iff_false in H; rewrite fle_spec in H
  | |- flt _ _ = true => apply flt_spec
  | |- fle _ _ = true => apply fle_spec
  | |- flt _ _ = false => apply not_true_iff_false; rewrite flt_spec
  | |- fle _ _ = false => apply not_true_iff_false; rewrite fle_spec
  end;
  unfold key_lt in *;
  repeat match goal with
  | H : context [fkey ?a] |- _ => destruct (fkey a) as [[? ?] ?]
  | |- context [fkey ?a] => destruct (fkey a) as [[? ?] ?]
  end;
  intuition (try congruence; try lia).

Lemma flt_irrefl a : flt a a = false.
Proof. float_order. Qed.
Lemma flt_trans a b c : flt a b = true → flt b c = true → flt a c = true.
Proof. intros. float_order. Qed.
Lemma fle_refl a : is_nan a = false → fle a a = true.
Proof. intros. float_order. Qed.
Lemma fle_trans a b c : fle a b = true → fle b c = true → fle a c = true.
Proof. intros. float_order. Qed.
Lemma flt_fle a b : flt a b = true → fle a b = true.
Proof. intros. float_order. Qed.
Lemma flt_false_fle a b :
  is_nan a = false → is_nan b = false → flt a b = false → fle b a = true.
Proof. intros. float_order. Qed.
Lemma fle_not_nan a b : fle a b = true → is_nan a = false ∧ is_nan b = false.
Proof. intros. float_order. Qed.
Lemma fle_flt_trans a b c : fle a b = true → flt b c = true → flt a c = true.
Proof. intros. float_order. Qed.

(** ** The two-argument maximum and minimum the packages define for themselves *)
Definition fmax (a b : float64) : float64 := if flt b a then a else b.
Definition fmin (a b : float64) : float64 := if flt a b then a else b.

Lemma fmax_choice a b : fmax a b = a ∨ fmax a b = b.
Proof. unfold fmax. destruct (flt b a); auto. Qed.
Lemma fmax_not_nan a b :
  is_nan a = false → is_nan b = false → is_nan (fmax a b) = false.
Proof. unfold fmax. by destruct (flt b a). Qed.
Lemma fmax_le_l a b :
  is_nan a = false → is_nan b = false → fle a (fmax a b) = true.
Proof.
  unfold fmax. intros. destruct (flt b a) eqn:?; [by apply fle_refl|].
  by apply flt_false_fle.
Qed.
Lemma fmax_le_r a b :
  is_nan a = false → is_nan b = false → fle b (fmax a b) = true.
Proof.
  unfold fmax. intros. destruct (flt b a) eqn:?; [by apply flt_fle|by apply fle_refl].
Qed.
(** A duration clamped at zero is never negative, whatever the operand. *)
Lemma fmax_zero_nonneg x : flt (fmax f0 x) f0 = false.
Proof. unfold fmax. destruct (flt x f0) eqn:E; [apply flt_irrefl|done]. Qed.

Create HintDb gofloat.
#[export] Hint Resolve fle_refl flt_fle fmax_le_l fmax_le_r fmax_not_nan
  fmax_zero_nonneg : gofloat.
