(* ===== verification/GoPath.v ===== *)
(** * Slash-separated paths (Go's [path] and [path/filepath])

    [Clean], [Join], [Base], [Dir], [Rel] and [Match] as the services, the connectors and
    the storage drivers use them, with what they give on the paths made of plain names. *)

From Stdlib Require Import Ascii.
From S2P Require Import Prelude GoStrings.

Definition slash : ascii := "/"%char.

(** One element of a path against the elements kept so far, the last first. *)
Definition clean_step (rooted : bool) (kept : list string) (elem : string) : list string :=
  if bool_decide (elem = "") || bool_decide (elem = ".") then kept
  else if bool_decide (elem = "..") then
    match kept with
    | [] => if rooted then [] else [".."]
    | top :: rest => if bool_decide (top = "..") then ".." :: kept else rest
    end
  else elem :: kept.

Definition rooted (s : string) : bool := has_prefix "/" s.

Definition clean_elems (s : string) : list string :=
  rev (foldl (clean_step (rooted s)) [] (split_byte slash s)).

(** [path.Clean] *)
Definition path_Clean (s : string) : string :=
  if bool_decide (s = "") then "."
  else let body := join_byte slash (clean_elems s) in
       if rooted s then "/" +:+ body
       else if bool_decide (body = "") then "." else body.

Fixpoint drop_empty (elems : list string) : list string :=
  match elems with
  | e :: rest => if bool_decide (e = "") then drop_empty rest else elems
  | [] => []
  end.

(** [path.Join] *)
Definition path_Join (elems : list string) : string :=
  match drop_empty elems with
  | [] => ""
  | elems => path_Clean (join_byte slash elems)
  end.

(** A name that is one path element and stays one. *)
Definition plain_byte (c : ascii) : bool :=
  negb (bool_decide (c = slash)) && negb (bool_decide (c = "."%char)).
Definition plain (s : string) : Prop := s ≠ "" ∧ str_forall plain_byte s = true.

Lemma plain_free s : plain s → free_of slash s.
Proof.
  intros [_ H]. unfold free_of. induction s as [|c s IH]; [done|]. simpl in *.
  apply andb_true_iff in H as [Hc H]. apply andb_true_iff in Hc as [-> _]. auto.
Qed.

Lemma plain_step r kept s : plain s → clean_step r kept s = s :: kept.
Proof.
  intros [Hne H]. unfold clean_step. rewrite bool_decide_false by done. simpl.
  rewrite bool_decide_false, bool_decide_false; [done|..]; intros ->; done.
Qed.

(** What [path.Join] puts before a plain name. *)
Definition join_prefix (root : string) : string :=
  (if rooted root then "/" else "") +:+
  match clean_elems root with
  | [] => ""
  | elems => join_byte slash elems +:+ "/"
  end.

Lemma join_byte_snoc sep l x : l ≠ [] →
  join_byte sep (l ++ [x]) = join_byte sep l +:+ String sep x.
Proof.
  induction l as [|y l IH]; [done|]. intros _. destruct l as [|z l]; [done|].
  change (join_byte sep ((y :: z :: l) ++ [x])) with
    (y +:+ String sep (join_byte sep ((z :: l) ++ [x]))).
  rewrite IH by done.
  change (join_byte sep (y :: z :: l)) with (y +:+ String sep (join_byte sep (z :: l))).
  by rewrite str_app_assoc.
Qed.

Lemma join_plain root name : root ≠ "" → plain name →
  path_Join [root; name] = join_prefix root +:+ name.
Proof.
  intros Hr Hn. unfold path_Join. simpl. rewrite bool_decide_false by done.
  change (path_Clean _) with (path_Clean (root +:+ String slash "" +:+ name)).
  set (s := root +:+ String slash "" +:+ name).
  assert (rooted s = rooted root) as Hroot.
  { unfold rooted, s. destruct root as [|c root]; done. }
  assert (clean_elems s = clean_elems root ++ [name]) as He.
  { unfold clean_elems. rewrite Hroot. unfold s.
    rewrite split_byte_app, foldl_app, (split_byte_single slash name) by (by apply plain_free).
    simpl. by rewrite plain_step. }
  unfold path_Clean. rewrite bool_decide_false by (subst s; by destruct root).
  unfold join_prefix. rewrite Hroot, He.
  destruct (clean_elems root) as [|x l] eqn:E.
  - simpl. destruct (rooted root); [by rewrite str_app_nil_r|].
    rewrite bool_decide_false by (by destruct Hn). done.
  - rewrite join_byte_snoc by done. destruct (rooted root).
    + by rewrite str_app_assoc, str_app_assoc.
    + rewrite bool_decide_false; [by rewrite !str_app_assoc|].
      intros [_ Hx]%str_app_nil_inv. done.
Qed.

(** A plain name does not end in an extension. *)
Lemma plain_no_extension a b ext : plain b → a +:+ String "." ext ≠ b.
Proof.
  intros [_ H] <-. rewrite str_forall_app in H.
  apply andb_true_iff in H as [_ H]. by simpl in H.
Qed.

Lemma str_app_inv_r s s' t : s +:+ t = s' +:+ t → s = s'.
Proof.
  revert s'. induction s as [|c s IH]; intros [|c' s'] E; [done|..].
  - exfalso. apply (f_equal str_length) in E. rewrite !str_length_app in E. simpl in E. lia.
  - exfalso. apply (f_equal str_length) in E. rewrite !str_length_app in E. simpl in E. lia.
  - rewrite !str_app_String in E. injection E as -> E. by rewrite (IH _ E).
Qed.

(** ** [path.Base] and [path.Dir] *)
Definition trim_slashes (s : string) : string := trim_right (λ c, bool_decide (c = slash)) s.
Definition path_Base (s : string) : string :=
  if bool_decide (s = "") then "."
  else let s := trim_slashes s in
       match last (split_byte slash s) with
       | Some e => if bool_decide (e = "") then "/" else e
       | None => "/"
       end.
(** The elements before the last slash, cleaned. *)
Definition path_Dir (s : string) : string :=
  let dir := removelast (split_byte slash s) in
  path_Clean (match dir with [] => "" | _ => join_byte slash dir +:+ "/" end).

(** ** [filepath.Rel]: the words of the target after those it shares with the base *)
Fixpoint strip_common (base target : list string) : list string * list string :=
  match base, target with
  | b :: base', t :: target' => if bool_decide (b = t) then strip_common base' target' else (base, target)
  | _, _ => (base, target)
  end.
Definition path_Rel (base target : string) : result string :=
  let b := path_Clean base in
  let t := path_Clean target in
  let words := if bool_decide (t = ".") then ["."] else clean_elems t in
  if bool_decide (b = t) then Ok "."
  else if negb (bool_decide (rooted b = rooted t)) then
    Err (errorf "Rel: can't make %s relative to %s" [target; base])
  else match strip_common (clean_elems b) words with
       | (".." :: _, _ :: _) => Err (errorf "Rel: can't make %s relative to %s" [target; base])
       | (up, down) => Ok (join_byte slash (((λ _, "..") <$> up) ++ down))
       end.

(** ** [path.Match] on ASCII text

    A pattern is a sequence of chunks, each after an optional star. [None] is
    [ErrBadPattern]; a failed chunk is still read to its end. *)
Fixpoint skip_stars (p : string) : bool * string :=
  match p with
  | String "*" p => (true, (skip_stars p).2)
  | _ => (false, p)
  end.
Fixpoint scan_body (inrange escaped : bool) (p : string) : string * string :=
  match p with
  | "" => ("", "")
  | String c q =>
    if negb escaped && negb inrange && bool_decide (c = "*"%char) then ("", p)
    else
      let inrange := if escaped then inrange
                     else if bool_decide (c = "["%char) then true
                     else if bool_decide (c = "]"%char) then false else inrange in
      let '(chunk, rest) := scan_body inrange (negb escaped && bool_decide (c = "\"%char)) q in
      (String c chunk, rest)
  end.
Definition scan_chunk (p : string) : bool * string * string :=
  let '(star, p) := skip_stars p in
  let '(chunk, rest) := scan_body false false p in (star, chunk, rest).

(** Whether the next byte of a pattern is [c]. *)
Definition at_byte (c : ascii) (s : string) : bool :=
  match s with String b _ => bool_decide (b = c) | "" => false end.

(** [getEsc]: a character of a class and the pattern after it. *)
Definition get_esc (chunk : string) : option (ascii * string) :=
  if at_byte "-"%char chunk || at_byte "]"%char chunk then None
  else match (if at_byte "\"%char chunk then drop_str 1 chunk else chunk) with
       | "" => None
       | String c rest => if bool_decide (rest = "") then None else Some (c, rest)
       end.

(** The ranges of a class, up to its closing bracket. *)
Fixpoint class_ranges (fuel : nat) (r : ascii) (first matched : bool) (chunk : string)
    : option (bool * string) :=
  match fuel with
  | O => None
  | S fuel =>
    if negb first && at_byte "]"%char chunk then Some (matched, drop_str 1 chunk)
    else
      '(lo, rest) ← get_esc chunk;
      '(hi, rest) ← (if at_byte "-"%char rest then get_esc (drop_str 1 rest) else Some (lo, rest));
      class_ranges fuel r false (matched || ascii_between lo hi r) rest
  end.

(** [matchChunk]: the rest of the name, [Some None] for no match; [name] is [None]
    once the match has failed. *)
Definition next_byte (name : option string) : option (ascii * string) :=
  match name with Some (String b s) => Some (b, s) | _ => None end.
Fixpoint match_chunk (fuel : nat) (chunk : string) (name : option string)
    : option (option string) :=
  match fuel, chunk with
  | O, _ | _, "" => Some name
  | S fuel, String c chunk =>
    if bool_decide (c = "["%char) then
      let negated := at_byte "^"%char chunk in
      let chunk := if negated then drop_str 1 chunk else chunk in
      let r := from_option fst Ascii.zero (next_byte name) in
      '(matched, chunk) ← class_ranges (str_length chunk) r true false chunk;
      match_chunk fuel chunk (if Bool.eqb matched negated then None else snd <$> next_byte name)
    else if bool_decide (c = "?"%char) then
      match_chunk fuel chunk
        ('(b, s) ← next_byte name; if bool_decide (b = slash) then None else Some s)
    else
      match (if bool_decide (c = "\"%char) then chunk else String c chunk) with
      | "" => None
      | String c chunk =>
        match_chunk fuel chunk
          ('(b, s) ← next_byte name; if bool_decide (c = b) then Some s else None)
      end
  end.
Definition matchChunk (chunk name : string) : option (option string) :=
  match_chunk (str_length chunk) chunk (Some name).

(** The search of a chunk after a star, which cannot skip a slash. *)
Fixpoint star_search (chunk : string) (final : bool) (name : string) : option (option string) :=
  match name with
  | "" => Some None
  | String c s =>
    if bool_decide (c = slash) then Some None
    else match matchChunk chunk s with
         | None => None
         | Some (Some t) =>
           if final && negb (bool_decide (t = "")) then star_search chunk final s else Some (Some t)
         | Some None => star_search chunk final s
         end
  end.

(** The boolean [path.Match] returns, false with an error. *)
Fixpoint match_from (fuel : nat) (pattern name : string) : bool :=
  match fuel with
  | O => false
  | S fuel =>
    if bool_decide (pattern = "") then bool_decide (name = "")
    else
      let '(star, chunk, rest) := scan_chunk pattern in
      let final := bool_decide (rest = "") in
      let search := if star then star_search chunk final name else Some None in
      if star && bool_decide (chunk = "") then negb (contains name "/")
      else
        match matchChunk chunk name with
        | None => false
        | Some (Some t) =>
          if bool_decide (t = "") || negb final then match_from fuel rest t
          else match search with Some (Some t) => match_from fuel rest t | _ => false end
        | Some None => match search with Some (Some t) => match_from fuel rest t | _ => false end
        end
  end.
Definition path_Match (pattern name : string) : bool :=
  match_from (S (str_length pattern)) pattern name.

(** The fuel is enough: every step reads a byte of the pattern. *)
Lemma drop_shorter s : (str_length (drop_str 1 s) ≤ str_length s)%nat.
Proof. destruct s as [|c [|d s]]; simpl; lia. Qed.

Lemma get_esc_shorter chunk c rest : get_esc chunk = Some (c, rest) →
  (str_length rest < str_length chunk)%nat.
Proof.
  unfold get_esc. destruct (_ || _); [done|]. pose proof (drop_shorter chunk).
  destruct (at_byte "\" chunk); [destruct (drop_str 1 chunk) as [|d s]|destruct chunk as [|d s]];
    try done; case_bool_decide; intros [= <- <-]; simpl in *; lia.
Qed.

Lemma class_ranges_fuel n m r first matched chunk :
  (str_length chunk ≤ n)%nat → (n ≤ m)%nat →
  class_ranges n r first matched chunk = class_ranges m r first matched chunk.
Proof.
  revert m first matched chunk. induction n as [|n IH]; intros m first matched chunk Hc Hm.
  { destruct chunk; [|simpl in Hc; lia]. destruct m; [done|]. by destruct first. }
  destruct m as [|m]; [lia|]. cbn [class_ranges]. destruct (_ && _); [done|].
  destruct (get_esc chunk) as [[lo rest]|] eqn:E1; [|done]. cbn [mbind option_bind].
  apply get_esc_shorter in E1. pose proof (drop_shorter rest).
  destruct (at_byte _ rest); [|apply IH; lia].
  destruct (get_esc (drop_str 1 rest)) as [[hi rest']|] eqn:E2; [|done]. cbn [mbind option_bind].
  apply get_esc_shorter in E2. apply IH; lia.
Qed.

Lemma class_ranges_shorter n r first matched chunk b rest :
  class_ranges n r first matched chunk = Some (b, rest) →
  (str_length rest ≤ str_length chunk)%nat.
Proof.
  revert first matched chunk. induction n as [|n IH]; intros first matched chunk; [done|].
  cbn [class_ranges]. pose proof (drop_shorter chunk). destruct (_ && _); [by intros [= _ <-]|].
  destruct (get_esc chunk) as [[lo rest1]|] eqn:E1; [|done]. cbn [mbind option_bind]. apply get_esc_shorter in E1.
  pose proof (drop_shorter rest1). destruct (at_byte _ rest1); [|intros ?%IH; lia].
  destruct (get_esc (drop_str 1 rest1)) as [[hi rest2]|] eqn:E2; [|done]. cbn [mbind option_bind].
  apply get_esc_shorter in E2. intros ?%IH; lia.
Qed.

Lemma match_chunk_fuel n m chunk name : (str_length chunk ≤ n)%nat → (n ≤ m)%nat →
  match_chunk n chunk name = match_chunk m chunk name.
Proof.
  revert m chunk name. induction n as [|n IH]; intros m chunk name Hc Hm.
  { destruct chunk; [by destruct m|simpl in Hc; lia]. }
  destruct m as [|m]; [lia|]. destruct chunk as [|c chunk]; [done|]. cbn [match_chunk].
  simpl in Hc. case_bool_decide.
  - pose proof (drop_shorter chunk).
    set (chunk' := if at_byte _ chunk then _ else _).
    assert (str_length chunk' ≤ str_length chunk)%nat by (unfold chunk'; case_match; lia).
    destruct (class_ranges _ _ _ _ _) as [[b rest]|] eqn:E; [|done]. cbn [mbind option_bind].
    apply class_ranges_shorter in E. apply IH; lia.
  - case_bool_decide; [apply IH; lia|]. case_bool_decide; [|apply IH; lia].
    destruct chunk as [|d chunk]; [done|]. simpl in Hc. apply IH; lia.
Qed.

Example glob_examples :
  path_Match "*.sif" "a.sif" = true ∧ path_Match "*.sif" "d/a.sif" = false ∧
  path_Match "data/*/[a-c]?.txt" "data/x/b1.txt" = true ∧ path_Match "[^a]" "a" = false ∧
  path_Match "a[" "a" = false ∧ path_Match "\*" "*" = true ∧ path_Match "*a*b" "xaab" = true.
Proof. vm_compute. done. Qed.

(** ** Clean paths by their elements *)
Definition normal (e : string) : Prop := e ≠ "" ∧ e ≠ "." ∧ e ≠ ".." ∧ free_of slash e.
Definition abs_path (l : list string) : string := String slash (join_byte slash l).

Lemma normal_step r kept e : normal e → clean_step r kept e = e :: kept.
Proof.
  intros (H1 & H2 & H3 & _). unfold clean_step. by rewrite !bool_decide_false.
Qed.
Lemma normal_foldl r l kept : Forall normal l → foldl (clean_step r) kept l = rev l ++ kept.
Proof.
  intros Hl. revert kept. induction Hl as [|e l He _ IH]; intros kept; [done|].
  cbn [foldl rev]. rewrite normal_step, IH by done. by rewrite <- app_assoc.
Qed.
Lemma normal_free l : Forall normal l → Forall (free_of slash) l.
Proof. intros H. eapply Forall_impl; [done|]. by intros e (_ & _ & _ & ?). Qed.

Lemma split_abs l : Forall normal l →
  split_byte slash (abs_path l) = "" :: match l with [] => [""] | _ => l end.
Proof.
  intros Hl. unfold abs_path. cbn [split_byte]. rewrite bool_decide_true by done.
  destruct l as [|x l]; [done|]. rewrite split_join_byte; [done..|by apply normal_free].
Qed.

Lemma rooted_abs l : rooted (abs_path l) = true.
Proof. done. Qed.
Lemma clean_elems_abs l : Forall normal l → clean_elems (abs_path l) = l.
Proof.
  intros Hl. unfold clean_elems. rewrite rooted_abs, split_abs by done. cbn [foldl].
  destruct l as [|x l]; [done|].
  change (clean_step true [] "") with (@nil string). rewrite normal_foldl by done.
  by rewrite app_nil_r, rev_involutive.
Qed.
Lemma Clean_abs l : Forall normal l → path_Clean (abs_path l) = abs_path l.
Proof.
  intros Hl. unfold path_Clean. rewrite bool_decide_false, rooted_abs, clean_elems_abs by done. done.
Qed.

(** The elements of a cleaned path: parents first, and none in a rooted path. *)
Lemma clean_foldl_shape r l kept k ns :
  Forall (free_of slash) l → kept = rev ns ++ repeat ".." k → Forall normal ns → (r = true → k = 0%nat) →
  ∃ k' ns', foldl (clean_step r) kept l = rev ns' ++ repeat ".." k' ∧ Forall normal ns' ∧
    (r = true → k' = 0%nat).
Proof.
  intros Hl. revert kept k ns. induction Hl as [|e l He _ IH]; intros kept k ns -> Hn Hr; [eauto|].
  cbn [foldl]. unfold clean_step at 2.
  destruct (decide (e = "")) as [->|E1]; [eapply (IH _ k ns); done|].
  destruct (decide (e = ".")) as [->|E2]; [eapply (IH _ k ns); done|].
  rewrite !(bool_decide_false (e = _)) by done. cbn [orb].
  destruct (decide (e = "..")) as [->|E3].
  - rewrite bool_decide_true by done. destruct ns as [|x ns _] using rev_ind.
    + cbn [rev app]. destruct k as [|k]; cbn [repeat].
      * destruct r; [eapply (IH _ 0%nat []); done|eapply (IH _ 1%nat []); done].
      * rewrite bool_decide_true by done. eapply (IH _ (S (S k)) []); [done|done|].
        intros Hr'. specialize (Hr Hr'). done.
    + rewrite rev_app_distr. cbn [rev app]. apply Forall_app in Hn as [Hn Hx].
      apply Forall_singleton in Hx as (_ & _ & Hx & _). rewrite bool_decide_false by done.
      eapply (IH _ k ns); done.
  - rewrite bool_decide_false by done. eapply (IH _ k (ns ++ [e])); [by rewrite rev_app_distr| |done].
    apply Forall_app. split; [done|]. by apply Forall_singleton.
Qed.

Lemma repeat_snoc {A} (x : A) k : repeat x k ++ [x] = x :: repeat x k.
Proof. induction k as [|k IH]; [done|]. cbn [repeat app]. by rewrite IH. Qed.
Lemma rev_repeat' {A} (x : A) k : rev (repeat x k) = repeat x k.
Proof. induction k as [|k IH]; [done|]. cbn [repeat rev]. by rewrite IH, repeat_snoc. Qed.

Lemma clean_elems_shape s : ∃ k ns, clean_elems s = repeat ".." k ++ ns ∧ Forall normal ns ∧
  (rooted s = true → k = 0%nat).
Proof.
  unfold clean_elems.
  destruct (clean_foldl_shape (rooted s) (split_byte slash s) [] 0 []) as (k & ns & -> & Hn & Hk);
    [apply split_byte_free|done|constructor|done|].
  exists k, ns. rewrite rev_app_distr, rev_involutive, rev_repeat'. done.
Qed.

(** A cleaned rooted path is determined by its elements, all of them names. *)
Lemma Clean_rooted s : rooted s = true → ∃ l, path_Clean s = abs_path l ∧ Forall normal l ∧
  clean_elems s = l.
Proof.
  intros Hr. destruct (clean_elems_shape s) as (k & ns & He & Hn & Hk). rewrite (Hk Hr) in He.
  exists ns. split_and!; [|done|done]. unfold path_Clean. rewrite bool_decide_false, Hr, He; [done|].
  by intros ->.
Qed.

(** A cleaned relative path: here, names, or a path that leaves through the parent. *)
Lemma Clean_relative s : rooted s = false →
  path_Clean s = "." ∨ (∃ ns, path_Clean s = join_byte slash ns ∧ ns ≠ [] ∧ Forall normal ns) ∨
  path_Clean s = ".." ∨ has_prefix "../" (path_Clean s) = true.
Proof.
  intros Hr. unfold path_Clean in *. case_bool_decide as Hs; [by left|]. rewrite Hr in *.
  destruct (clean_elems_shape s) as (k & ns & He & Hn & _). rewrite He in *.
  case_bool_decide as Hb; [by left|]. right. destruct k as [|k].
  - left. exists ns. split_and!; [done| |done]. intros ->. by apply Hb.
  - right. cbn [repeat app]. destruct (repeat ".." k ++ ns) as [|y l]; [by left|right; done].
Qed.

Lemma join_byte_app sep l l' : l ≠ [] → l' ≠ [] →
  join_byte sep (l ++ l') = join_byte sep l +:+ String sep (join_byte sep l').
Proof.
  induction l as [|x l IH]; [done|]. intros _ Hl'. destruct l as [|y l].
  - destruct l' as [|z l']; done.
  - change (join_byte sep ((x :: y :: l) ++ l')) with (x +:+ String sep (join_byte sep ((y :: l) ++ l'))).
    rewrite IH by done.
    change (join_byte sep (x :: y :: l)) with (x +:+ String sep (join_byte sep (y :: l))).
    by rewrite str_app_assoc.
Qed.

Lemma join_nonempty l : l ≠ [] → Forall normal l → join_byte slash l ≠ "".
Proof.
  intros Hne Hl E. assert (split_byte slash (join_byte slash l) = [""]) as Hs by (by rewrite E).
  rewrite split_join_byte in Hs; [|done|by apply normal_free]. subst l.
  apply Forall_singleton in Hl as [? _]. done.
Qed.

(** Joining names below a rooted path, and the directory above a name. *)
Lemma clean_elems_app l s : Forall normal l →
  clean_elems (abs_path l +:+ String slash "" +:+ s) =
    rev (foldl (clean_step true) (rev l) (split_byte slash s)).
Proof.
  intros Hl. unfold clean_elems. replace (rooted _) with true by done.
  rewrite split_byte_app, foldl_app, split_abs by done. do 2 f_equal. cbn [foldl].
  destruct l as [|x l]; [done|]. change (clean_step true [] "") with (@nil string).
  rewrite normal_foldl by done. apply app_nil_r.
Qed.
Lemma Clean_slash l : Forall normal l → path_Clean (abs_path l +:+ "/") = abs_path l.
Proof.
  intros Hl. change (abs_path l +:+ "/") with (abs_path l +:+ String slash "" +:+ "").
  unfold path_Clean. rewrite bool_decide_false, clean_elems_app by done. cbn [split_byte foldl].
  change (clean_step true (rev l) "") with (rev l). by rewrite rev_involutive.
Qed.
Lemma Join_abs l ns : Forall normal l → Forall normal ns → ns ≠ [] →
  path_Join [abs_path l; join_byte slash ns] = abs_path (l ++ ns).
Proof.
  intros Hl Hn Hne. pose proof (join_nonempty _ Hne Hn) as Hj. unfold path_Join. cbn [drop_empty].
  rewrite bool_decide_false by done.
  change (join_byte slash [abs_path l; join_byte slash ns]) with
    (abs_path l +:+ String slash "" +:+ join_byte slash ns).
  unfold path_Clean. rewrite bool_decide_false, clean_elems_app by done.
  rewrite split_join_byte, normal_foldl by (done || by apply normal_free).
  by rewrite rev_app_distr, !rev_involutive.
Qed.
Lemma Join_abs_nil l : Forall normal l → path_Join [abs_path l; ""] = abs_path l.
Proof.
  intros Hl. unfold path_Join. cbn [drop_empty]. rewrite bool_decide_false by done.
  change (join_byte slash [abs_path l; ""]) with (abs_path l +:+ "/"). by apply Clean_slash.
Qed.
Lemma Dir_abs_snoc l x : Forall normal (l ++ [x]) → path_Dir (abs_path (l ++ [x])) = abs_path l.
Proof.
  intros Hl. unfold path_Dir. rewrite split_abs by done.
  assert ("" :: match l ++ [x] with [] => [""] | _ => l ++ [x] end = ("" :: l) ++ [x]) as ->
    by (by destruct l).
  rewrite removelast_last. apply Forall_app in Hl as [Hl _].
  destruct l as [|z l]; [done|]. by apply (Clean_slash (z :: l)).
Qed.
Lemma Dir_root : path_Dir (abs_path []) = abs_path [].
Proof. done. Qed.

Lemma join_unrooted e l : e ≠ "" → free_of slash e → rooted (join_byte slash (e :: l)) = false.
Proof.
  intros Hne Hf. destruct e as [|c e]; [done|]. unfold free_of in Hf. cbn [str_forall] in Hf.
  apply andb_true_iff in Hf as [Hc _]. apply negb_true_iff, bool_decide_eq_false in Hc.
  assert (∀ t, rooted (String c t) = false) as Ht.
  { intros t. unfold rooted. cbn [has_prefix]. rewrite bool_decide_false; [done|]. by intros <-. }
  destruct l; apply Ht.
Qed.
Lemma Clean_unrooted s : rooted s = false → rooted (path_Clean s) = false.
Proof.
  intros Hr. unfold path_Clean. case_bool_decide; [done|]. rewrite Hr.
  destruct (clean_elems_shape s) as (k & ns & -> & Hn & _). case_bool_decide as Hb; [done|].
  destruct k as [|k]; [|by apply join_unrooted].
  destruct Hn as [|e ns (? & _ & _ & ?) _]; [done|]. by apply join_unrooted.
Qed.
Lemma abs_path_inj l l' : Forall normal l → Forall normal l' → abs_path l = abs_path l' → l = l'.
Proof. intros Hl Hl' E. by rewrite <- (clean_elems_abs l), <- (clean_elems_abs l'), E. Qed.
(** A cleaned path that is clean and rooted once more was so before. *)
Lemma Clean_twice s l : Forall normal l → path_Clean (path_Clean s) = abs_path l →
  path_Clean s = abs_path l.
Proof.
  intros Hl E. destruct (rooted s) eqn:Er.
  - destruct (Clean_rooted s Er) as (l' & Hs & Hl' & _). rewrite Hs in *. by rewrite Clean_abs in E.
  - apply Clean_unrooted, Clean_unrooted in Er. by rewrite E in Er.
Qed.

Lemma strip_common_app l r : strip_common l (l ++ r) = ([], r).
Proof. induction l as [|x l IH]; cbn; [by destruct r|]. by rewrite bool_decide_true. Qed.
Lemma Rel_below l ns : Forall normal l → Forall normal ns → ns ≠ [] →
  path_Rel (abs_path l) (abs_path (l ++ ns)) = Ok (join_byte slash ns).
Proof.
  intros Hl Hn Hne. assert (Forall normal (l ++ ns)) as Hln by (by apply Forall_app).
  unfold path_Rel. rewrite !Clean_abs, !clean_elems_abs, !rooted_abs by done.
  rewrite (bool_decide_false (abs_path (l ++ ns) = ".")) by done.
  rewrite (bool_decide_false (abs_path l = _)).
  2: { intros E%abs_path_inj; [|done..]. apply (f_equal length) in E. rewrite length_app in E.
       destruct ns; [done|cbn in E; lia]. }
  by rewrite bool_decide_true, strip_common_app.
Qed.

(** ** Joining a path that does not climb *)
(** Once a relative path has climbed, its first element stays [..]. *)
Lemma climbed_stays es kept : last kept = Some ".." → last (foldl (clean_step false) kept es) = Some "..".
Proof.
  revert kept. induction es as [|e es IH]; intros kept Hl; [done|]. cbn [foldl]. apply IH.
  unfold clean_step. destruct (_ || _); [done|].
  destruct kept as [|top rest]; [done|]. case_bool_decide.
  - case_bool_decide as Ht; [by cbn|]. destruct rest; [cbn in Hl; congruence|done].
  - done.
Qed.
Lemma clean_lift es kept below res : Forall (λ x, x ≠ "..") kept →
  foldl (clean_step false) kept es = res → Forall (λ x, x ≠ "..") res →
  foldl (clean_step true) (kept ++ below) es = res ++ below.
Proof.
  revert kept. induction es as [|e es IH]; intros kept Hk; cbn [foldl]; [by intros ->|].
  intros Hres Hr. unfold clean_step at 2. unfold clean_step at 2 in Hres.
  destruct (_ || _); [by apply IH|]. case_bool_decide as He.
  - destruct kept as [|top rest]; cbn [app].
    + exfalso. pose proof (climbed_stays es [".."] eq_refl) as Hc. rewrite Hres in Hc.
      apply last_Some_elem_of in Hc. rewrite Forall_forall in Hr. by apply (Hr ".." Hc).
    + apply Forall_cons in Hk as [Ht Hk]. rewrite (bool_decide_false (top = "..")) in * by done.
      by apply IH.
  - change (e :: kept ++ below) with ((e :: kept) ++ below). apply IH; [by constructor|done|done].
Qed.
Lemma Join_relative l s : Forall normal l → s ≠ "" → rooted s = false →
  path_Clean s ≠ ".." → has_prefix "../" (path_Clean s) = false →
  ∃ ns, path_Join [abs_path l; s] = abs_path (l ++ ns) ∧ Forall normal ns.
Proof.
  intros Hl Hs Hr Hdots Hclimb. destruct (clean_elems_shape s) as (k & ns & He & Hn & _).
  assert (k = O) as ->.
  { destruct k as [|k]; [done|]. exfalso. unfold path_Clean in Hdots, Hclimb.
    rewrite bool_decide_false in Hdots, Hclimb by done. rewrite Hr, He in Hdots, Hclimb.
    cbn [repeat app] in Hdots, Hclimb. destruct (repeat ".." k ++ ns) as [|y t]; [done|].
    rewrite bool_decide_false in Hclimb by done. done. }
  exists ns. split; [|done]. unfold path_Join. cbn [drop_empty]. rewrite bool_decide_false by done.
  change (join_byte slash [abs_path l; s]) with (abs_path l +:+ String slash "" +:+ s).
  unfold path_Clean. rewrite bool_decide_false, clean_elems_app by done.
  unfold clean_elems in He. rewrite Hr in He. cbn [repeat app] in He.
  change (rev l) with ([] ++ rev l). rewrite (clean_lift _ [] (rev l) (rev ns)).
  - by rewrite rev_app_distr, !rev_involutive.
  - constructor.
  - by rewrite <- He, rev_involutive.
  - apply Forall_rev. eapply Forall_impl; [exact Hn|]. by intros x (_ & _ & ? & _).
Qed.
