(* ===== verification/Sql.v ===== *)
(** * Tables, statements and transactions

    What the repositories (src/internal/infrastructure/database) use of SQLite
    through [database/sql]: a table is the list of its rows in [rowid] order, a
    statement is a function on tables, and a transaction keeps its effects only
    when its body and its commit return no error. *)

From S2P Require Import Prelude GoStrings.

Module Sql.
(** ** Keyed tables

    A primary key, or a UNIQUE constraint over several columns, is a function
    [key] of the row. *)
Section keyed.
Context {R K : Type} `{EqDecision K} (key : R → K).
Implicit Types (t : list R) (r new : R) (k : K).

Definition has_row k r : bool := bool_decide (key r = k).
Definition row_exists k t : bool := existsb (has_row k) t.

(** [SELECT ... WHERE key = k], read with [QueryRowContext]. *)
Definition find_row k t : option R := List.find (has_row k) t.

(** [UPDATE ... WHERE key = k] and the number of rows it changed. *)
Definition update_rows k (f : R → R) t : list R * Z :=
  ((λ r, if has_row k r then f r else r) <$> t,
   Z.of_nat (List.length (List.filter (has_row k) t))).

(** [INSERT ... ON CONFLICT(key) DO UPDATE SET ...]: [merge old new] is the row
    the update leaves. *)
Definition upsert (merge : R → R → R) new t : list R :=
  if row_exists (key new) t then (update_rows (key new) (λ r, merge r new) t).1
  else t ++ [new].

(** [INSERT ... ON CONFLICT(key) DO NOTHING] and [INSERT OR IGNORE], with the
    number of rows inserted. *)
Definition insert_or_ignore new t : list R * Z :=
  if row_exists (key new) t then (t, 0) else (t ++ [new], 1).

Lemma has_row_true k r : has_row k r = true ↔ key r = k.
Proof. apply bool_decide_eq_true. Qed.

Lemma row_exists_true k t : row_exists k t = true ↔ k ∈ key <$> t.
Proof.
  unfold row_exists. rewrite existsb_exists, list_elem_of_fmap.
  setoid_rewrite has_row_true. setoid_rewrite list_elem_of_In.
  split; intros (r & ? & ?); eauto.
Qed.

Lemma row_exists_false k t : row_exists k t = false ↔ k ∉ key <$> t.
Proof. rewrite <- row_exists_true. by destruct (row_exists k t). Qed.

Lemma find_row_some k t r : find_row k t = Some r → r ∈ t ∧ key r = k.
Proof.
  intros [Hin Hk]%find_some. rewrite <- list_elem_of_In in Hin. by apply has_row_true in Hk.
Qed.

Lemma find_row_none k t : find_row k t = None ↔ k ∉ key <$> t.
Proof.
  rewrite <- row_exists_false. unfold find_row, row_exists.
  induction t as [|r t IH]; simpl; [done|]. destruct (has_row k r); simpl; [done|apply IH].
Qed.

Lemma find_row_in r t : NoDup (key <$> t) → r ∈ t → find_row (key r) t = Some r.
Proof.
  unfold find_row. induction t as [|r' t IH]; [by intros _ ?%elem_of_nil|]. cbn [fmap list_fmap List.find].
  intros [Hn Hd]%NoDup_cons [<-|Hin]%elem_of_cons; unfold has_row at 1; [by rewrite bool_decide_true|].
  rewrite bool_decide_false; [by apply IH|]. intros E. apply Hn. rewrite E. by apply list_elem_of_fmap_2.
Qed.

Lemma find_row_app k t t' :
  find_row k (t ++ t') = match find_row k t with Some r => Some r | None => find_row k t' end.
Proof. unfold find_row. induction t as [|r t IH]; simpl; [done|]. by destruct (has_row k r). Qed.

Lemma find_row_update k k' f t : (∀ r, key (f r) = key r) →
  find_row k' (update_rows k f t).1 =
    if bool_decide (k' = k) then f <$> find_row k' t else find_row k' t.
Proof.
  intros Hf. unfold find_row, update_rows. simpl.
  induction t as [|r t IH]; simpl; [by case_bool_decide|].
  unfold has_row in *. destruct (decide (key r = k)) as [Ek|Ek].
  - rewrite (bool_decide_true (key r = k)) by done. rewrite Hf.
    destruct (decide (key r = k')) as [Ek'|Ek'].
    + rewrite !(bool_decide_true (key r = k')) by done. by rewrite bool_decide_true by congruence.
    + rewrite !(bool_decide_false (key r = k')) by done. apply IH.
  - rewrite (bool_decide_false (key r = k)) by done.
    destruct (decide (key r = k')) as [Ek'|Ek'].
    + rewrite !(bool_decide_true (key r = k')) by done. by rewrite bool_decide_false by congruence.
    + rewrite !(bool_decide_false (key r = k')) by done. apply IH.
Qed.

Lemma update_rows_keys k f t : (∀ r, key (f r) = key r) →
  key <$> (update_rows k f t).1 = key <$> t.
Proof.
  intros Hf. unfold update_rows. simpl. rewrite <- list_fmap_compose.
  apply list_fmap_ext. intros _ r _. simpl. case_match; [apply Hf|done].
Qed.

Lemma update_rows_length k f t : length (update_rows k f t).1 = length t.
Proof. unfold update_rows. simpl. apply length_fmap. Qed.

Lemma update_rows_one k f t : NoDup (key <$> t) → k ∈ key <$> t → (update_rows k f t).2 = 1.
Proof.
  unfold update_rows. simpl. induction t as [|r t IH]; simpl; [by intros _ ?%elem_of_nil|].
  intros [Hn Hd]%NoDup_cons [->|Hin]%elem_of_cons.
  - unfold has_row at 1. rewrite bool_decide_true by done. simpl.
    enough (List.filter (has_row (key r)) t = []) as -> by done.
    clear IH Hd. induction t as [|r' t IH]; simpl in *; [done|].
    apply not_elem_of_cons in Hn as [Hne Hn]. unfold has_row at 1.
    rewrite bool_decide_false by congruence. auto.
  - unfold has_row at 1. rewrite bool_decide_false by congruence. auto.
Qed.

Lemma update_rows_none k f t : k ∉ key <$> t → update_rows k f t = (t, 0).
Proof.
  intros Hn. unfold update_rows.
  assert (∀ r, r ∈ t → has_row k r = false) as Hr.
  { intros r Hin. apply bool_decide_eq_false. intros <-. by apply Hn, list_elem_of_fmap_2. }
  clear Hn. f_equal.
  - rewrite <- (list_fmap_id t) at 2. apply list_fmap_ext. intros i r Hi. simpl.
    by rewrite Hr by (by eapply list_elem_of_lookup_2).
  - induction t as [|r t IH]; simpl; [done|]. rewrite Hr by (by left).
    apply IH. intros r' Hr'. apply Hr. by right.
Qed.

Lemma update_rows_found k f t : NoDup (key <$> t) →
  (update_rows k f t).2 = if row_exists k t then 1 else 0.
Proof.
  intros Hn. destruct (row_exists k t) eqn:E.
  - apply update_rows_one; [done|]. by apply row_exists_true.
  - apply row_exists_false in E. by rewrite update_rows_none.
Qed.

Section merge.
Context (merge : R → R → R) (Hmerge : ∀ old new, key (merge old new) = key old).

Lemma upsert_keys new t : NoDup (key <$> t) → NoDup (key <$> upsert merge new t).
Proof.
  intros Hn. unfold upsert. destruct (row_exists (key new) t) eqn:E.
  - by rewrite update_rows_keys.
  - apply row_exists_false in E. rewrite fmap_app. apply NoDup_app. split_and!; [done| |].
    + by intros x Hx ->%list_elem_of_singleton.
    + apply NoDup_singleton.
Qed.

Lemma find_row_upsert new t k :
  find_row k (upsert merge new t) =
    if bool_decide (k = key new)
    then Some (match find_row k t with Some old => merge old new | None => new end)
    else find_row k t.
Proof.
  unfold upsert. destruct (row_exists (key new) t) eqn:E.
  - rewrite find_row_update by done. case_bool_decide as Hk; [subst|done].
    destruct (find_row (key new) t) eqn:F; [done|].
    apply find_row_none in F. apply row_exists_true in E. done.
  - rewrite find_row_app. case_bool_decide as Hk; [subst|].
    + apply row_exists_false, find_row_none in E. rewrite E. unfold find_row. simpl.
      unfold has_row. by rewrite bool_decide_true.
    + destruct (find_row k t); [done|]. unfold find_row. simpl. unfold has_row.
      by rewrite bool_decide_false by congruence.
Qed.

Lemma upsert_elem new t r : r ∈ upsert merge new t →
  r ∈ t ∨ r = new ∧ key new ∉ key <$> t ∨
  ∃ old, old ∈ t ∧ key old = key new ∧ r = merge old new.
Proof.
  unfold upsert. destruct (row_exists (key new) t) eqn:E.
  - unfold update_rows. simpl. intros (old & -> & Hin)%list_elem_of_fmap.
    destruct (has_row (key new) old) eqn:Hk; [|by left].
    apply has_row_true in Hk. right. right. eauto.
  - apply row_exists_false in E.
    intros [?| ->%list_elem_of_singleton]%elem_of_app; [by left|]. right. by left.
Qed.
End merge.

Lemma insert_or_ignore_keys new t : NoDup (key <$> t) →
  NoDup (key <$> (insert_or_ignore new t).1).
Proof.
  intros Hn. unfold insert_or_ignore. destruct (row_exists (key new) t) eqn:E; [done|].
  apply row_exists_false in E. simpl. rewrite fmap_app. apply NoDup_app.
  split_and!; [done| |apply NoDup_singleton].
  by intros x Hx ->%list_elem_of_singleton.
Qed.
End keyed.

(** ** Sessions and transactions

    A session holds the database [D] and the number of values drawn so far from
    the clock and the random source, which a rollback does not restore. *)
Record Session (D : Type) := mk_session { db : D; draws : nat }.
Arguments mk_session {D}.
Arguments db {D}.
Arguments draws {D}.

Section transactions.
Context {D : Type}.

(** One draw from the clock and from the random source. *)
Definition draw : eff (Session D) nat := λ s, (s.(draws), mk_session s.(db) (S s.(draws))).

(** A statement: it fails and changes nothing when the engine has a reason to
    refuse it. *)
Definition exec {A} (refusal : D → option error) (f : D → result A * D)
    : effr (Session D) A := λ s,
  match refusal s.(db) with
  | Some e => (Err e, s)
  | None => let '(r, d) := f s.(db) in
            match r with
            | Ok a => (Ok a, mk_session d s.(draws))
            | Err e => (Err e, s)
            end
  end.

(** [tx, err := db.BeginTx(ctx, nil); ...; defer tx.Rollback(); body;
    return tx.Commit()] *)
Definition transaction {A} (begin_error commit_error : D → option error)
    (body : effr (Session D) A) : effr (Session D) A := λ s,
  match begin_error s.(db) with
  | Some e => (Err e, s)
  | None =>
    match body s with
    | (Err e, s') => (Err e, mk_session s.(db) s'.(draws))
    | (Ok a, s') =>
      match commit_error s'.(db) with
      | Some e => (Err e, mk_session s.(db) s'.(draws))
      | None => (Ok a, s')
      end
    end
  end.

(** The effect of a call is all or nothing. *)
Definition atomic {A} (m : effr (Session D) A) : Prop :=
  ∀ s e s', m s = (Err e, s') → s'.(db) = s.(db).

Lemma transaction_atomic {A} b c (body : effr (Session D) A) : atomic (transaction b c body).
Proof.
  intros s e s'. unfold transaction. case_match; [by intros [= <- <-]|].
  destruct (body s) as [[a|e1] s1]; [|by intros [= <- <-]].
  case_match; [by intros [= <- <-]|done].
Qed.

Lemma transaction_ok {A} b c (body : effr (Session D) A) s a s' :
  transaction b c body s = (Ok a, s') → body s = (Ok a, s').
Proof.
  unfold transaction. case_match; [done|].
  destruct (body s) as [[a1|e1] s1]; [|done]. by case_match.
Qed.

Lemma exec_atomic {A} refusal (f : D → result A * D) : atomic (exec refusal f).
Proof.
  intros s e s'. unfold exec. case_match; [by intros [= <- <-]|].
  destruct (f s.(db)) as [[a|e1] d]; [done|by intros [= <- <-]].
Qed.

Lemma exec_ok {A} refusal (f : D → result A * D) s a s' :
  exec refusal f s = (Ok a, s') →
  f s.(db) = (Ok a, s'.(db)) ∧ s'.(draws) = s.(draws).
Proof.
  unfold exec. case_match; [done|].
  destruct (f s.(db)) as [[a1|e1] d]; [|done]. by intros [= <- <-].
Qed.

(** [invariant I m]: whatever [m] returns, it keeps [I] of the database. *)
Definition invariant {A} (I : D → Prop) (m : eff (Session D) A) : Prop :=
  ∀ s a s', I s.(db) → m s = (a, s') → I s'.(db).

Lemma invariant_ret {A} I (a : A) : invariant I (eret a).
Proof. by intros s a' s' Hs [= <- <-]. Qed.
Lemma invariant_draw I : invariant I draw.
Proof. by intros s a s' Hs [= <- <-]. Qed.
Lemma invariant_bind {A B} I (m : eff (Session D) A) (k : A → eff (Session D) B) :
  invariant I m → (∀ a, invariant I (k a)) → invariant I (ebind m k).
Proof.
  intros Hm Hk s b s' Hs. unfold ebind. destruct (m s) as [a s1] eqn:E.
  apply Hk. by eapply Hm.
Qed.
Lemma invariant_bindr {A B} I (m : effr (Session D) A) (k : A → effr (Session D) B) :
  invariant I m → (∀ a, invariant I (k a)) → invariant I (ebindr m k).
Proof.
  intros Hm Hk s b s' Hs. unfold ebindr. destruct (m s) as [[a|e] s1] eqn:E.
  - apply Hk. by eapply Hm.
  - intros [= <- <-]. by eapply Hm.
Qed.
Lemma invariant_exec {A} I refusal (f : D → result A * D) :
  (∀ d a d', I d → f d = (Ok a, d') → I d') → invariant I (exec refusal f).
Proof.
  intros Hf s r s' Hs. unfold exec. case_match; [by intros [= <- <-]|].
  destruct (f s.(db)) as [[a|e1] d] eqn:E; intros [= <- <-]; [|done]. simpl. eauto.
Qed.
Lemma invariant_transaction {A} I b c (body : effr (Session D) A) :
  invariant I body → invariant I (transaction b c body).
Proof.
  intros Hb s r s' Hs. unfold transaction. case_match; [by intros [= <- <-]|].
  destruct (body s) as [[a1|e1] s1] eqn:E; [|by intros [= <- <-]].
  case_match; intros [= <- <-]; [done|]. by eapply Hb.
Qed.
Lemma invariant_for_effr {A} I (f : A → effr (Session D) unit) l :
  (∀ x, invariant I (f x)) → invariant I (for_effr f l).
Proof.
  intros Hf. induction l as [|x l IH]; simpl; [apply invariant_ret|].
  apply invariant_bindr; auto.
Qed.
End transactions.

(** A row holds a value of the domain, with the fields that are stored elsewhere or as
    JSON left empty, and the text of its JSON columns. *)
Record Stored (A J : Type) := mk_stored { columns : A; json : J }.
Arguments mk_stored {A J}. Arguments columns {A J}. Arguments json {A J}.
Abbreviation Row A := (Stored A string).

(** [ORDER BY]: the rows in an order the comparison allows. *)
Class SqlOrder := {
  order_by : ∀ {A : Type} (le : A → A → bool), nat → list A → list A;
  order_by_perm : ∀ A (le : A → A → bool) salt l, order_by le salt l ≡ₚ l;
  order_by_sorted : ∀ A (le : A → A → bool) salt l,
    (∀ a b, le a b = true ∨ le b a = true) →
    (∀ a b c, le a b = true → le b c = true → le a c = true) →
    StronglySorted (λ a b, le a b = true) (order_by le salt l)
}.

Definition sort_rows {A} (le : A → A → bool) (l : list A) : list A :=
  @merge_sort A (λ a b, le a b = true) (λ a b, decide (le a b = true)) l.

#[global] Instance stable_order : SqlOrder | 100.
Proof.
  refine {| order_by A le salt l := sort_rows le l |}.
  - intros. apply merge_sort_Permutation.
  - intros A le salt l Ht Htr.
    assert (Total (λ a b, le a b = true)) by exact Ht.
    apply Sorted_StronglySorted; [exact Htr|]. by apply Sorted_merge_sort.
Defined.

(** ** Databases with constraints

    [Schema] is the constraints of a schema: a statement succeeds when the tables it leaves
    satisfy them. [Engine] is the engine beside them: any other reason to fail a statement
    (an I/O error, a cancelled context), the message of a violated constraint, and the
    draws of [CURRENT_TIMESTAMP]. *)
Inductive statement_kind := StBegin | StCommit | StSelect | StInsert (table : string) | StUpdate (table : string).
Class Schema (D : Type) := {
  lawful_rows : D → Prop;
  lawful_rows_dec d :: Decision (lawful_rows d)
}.
Class Engine (D : Type) := {
  refusal : statement_kind → D → option error;
  violation : statement_kind → D → error;
  timestamp : nat → Time
}.
Section checked.
Context `{Schema D, Engine D}.
Implicit Types (d : D) (s : Session D).

(** A statement that changes rows. *)
Definition modify (st : statement_kind) (f : D → D) : effr (Session D) unit :=
  exec (refusal st) (λ d,
    let d' := f d in if bool_decide (lawful_rows d') then (Ok tt, d') else (Err (violation st d), d)).
Definition select {A} (f : D → A) : effr (Session D) A := exec (refusal StSelect) (λ d, (Ok (f d), d)).
Definition within (body : effr (Session D) unit) : effr (Session D) unit :=
  transaction (refusal StBegin) (refusal StCommit) body.

Lemma modify_ok st f s s' : modify st f s = (Ok tt, s') →
  s'.(db) = f s.(db) ∧ s'.(draws) = s.(draws) ∧ lawful_rows s'.(db).
Proof.
  intros [E Hd]%exec_ok. cbv zeta in E. case_bool_decide as Hv; [|done]. injection E as E. by rewrite <- E.
Qed.
Lemma modify_atomic st f : atomic (modify st f).
Proof. apply exec_atomic. Qed.
Lemma modify_runs st f s : refusal st s.(db) = None → lawful_rows (f s.(db)) →
  modify st f s = (Ok tt, mk_session (f s.(db)) s.(draws)).
Proof. intros Hr Hl. unfold modify, exec. rewrite Hr. cbv zeta. by rewrite bool_decide_true. Qed.
Lemma select_ok {A} (f : D → A) s a s' : select f s = (Ok a, s') → a = f s.(db) ∧ s' = s.
Proof. unfold select, exec. destruct (refusal _ _); [done|]. intros [= <- <-]. by destruct s. Qed.
Lemma select_runs {A} (f : D → A) s : refusal StSelect s.(db) = None → select f s = (Ok (f s.(db)), s).
Proof. intros Hr. unfold select, exec. rewrite Hr. by destruct s. Qed.
Lemma select_state {A} (f : D → A) s r s' : select f s = (r, s') → s' = s.
Proof. unfold select, exec. destruct (refusal _ _); intros [= <- <-]; by destruct s. Qed.
End checked.

(** Sorting rows that are already in order by a key that is unique leaves them. *)
Lemma order_by_id `{SqlOrder} {R} (key : R → Z) salt l :
  StronglySorted (λ a b, key a < key b) l → order_by (λ a b, key a <=? key b) salt l = l.
Proof.
  intros Hl. pose proof (order_by_perm _ (λ a b, key a <=? key b) salt l) as Hp.
  pose proof (order_by_sorted _ (λ a b, key a <=? key b) salt l) as Hs.
  assert (StronglySorted (λ a b, (key a <=? key b) = true) (order_by (λ a b, key a <=? key b) salt l)) as Hs'.
  { apply Hs; intros; cbn beta in *; lia. }
  clear Hs. revert Hp Hs'.
  generalize (order_by (λ a b, key a <=? key b) salt l) as l'. clear salt. induction Hl as [|x l Hl IH Hx]; intros l' Hp Hs.
  { by apply Permutation_nil_r. }
  destruct l' as [|y l']; [by apply Permutation_nil_cons in Hp|]. apply StronglySorted_inv in Hs as [Hs Hy].
  assert (x = y) as ->.
  { assert (y ∈ x :: l) as [-> | Hin]%elem_of_cons by (rewrite <- Hp; left); [done|].
    assert (x ∈ y :: l') as [-> | Hin']%elem_of_cons by (rewrite Hp; left); [done|]. exfalso.
    rewrite Forall_forall in Hx, Hy. specialize (Hx _ Hin). specialize (Hy _ Hin'). lia. }
  f_equal. apply IH; [|done]. by apply Permutation_cons_inv in Hp.
Qed.

(** [LIMIT n OFFSET k]: SQLite reads a negative offset as 0. *)
Definition limit_offset {A} (limit offset : Z) (l : list A) : list A :=
  take (Z.to_nat limit) (drop (Z.to_nat offset) l).

(** The loop [for rows.Next()] around a scan. *)
Fixpoint scan_rows {R A} (scan : R → result A) (rows : list R) : result (list A) :=
  match rows with
  | [] => Ok []
  | r :: rows => a ← scan r; l ← scan_rows scan rows; Ok (a :: l)
  end.

(** The order of TEXT columns. *)
Definition str_le (a b : string) : bool := bool_decide (String.le a b).

(** [ORDER BY a, b]: by the first column, and by the second where the first is the same;
    [ORDER BY a DESC]. *)
Definition then_by {A} (le next : A → A → bool) (a b : A) : bool := le a b && (negb (le b a) || next a b).
Definition descending {A} (le : A → A → bool) (a b : A) : bool := le b a.
Definition by_text {A} (column : A → string) (a b : A) : bool := str_le (column a) (column b).
Definition by_number {A} (column : A → Z) (a b : A) : bool := column a <=? column b.
(** A query without [ORDER BY]. *)
Definition any_order {A} (_ _ : A) : bool := true.

Section orders.
Context {A : Type}.
Implicit Types le next : A → A → bool.
Definition order_total le : Prop := ∀ a b, le a b = true ∨ le b a = true.
Definition order_trans le : Prop := ∀ a b c, le a b = true → le b c = true → le a c = true.
Lemma by_text_total (column : A → string) : order_total (by_text column).
Proof. intros a b. unfold by_text, str_le. rewrite !bool_decide_eq_true. apply total. apply _. Qed.
Lemma by_text_trans (column : A → string) : order_trans (by_text column).
Proof. intros a b c. unfold by_text, str_le. rewrite !bool_decide_eq_true. apply transitivity. Qed.
Lemma by_number_total (column : A → Z) : order_total (by_number column).
Proof. intros a b. unfold by_number. lia. Qed.
Lemma by_number_trans (column : A → Z) : order_trans (by_number column).
Proof. intros a b c. unfold by_number. lia. Qed.
Lemma then_by_total le next : order_total le → order_total next → order_total (then_by le next).
Proof.
  intros Hl Hn a b. unfold then_by. specialize (Hl a b). specialize (Hn a b).
  destruct (le a b), (le b a); naive_solver.
Qed.
Lemma then_by_trans le next : order_trans le → order_trans next → order_trans (then_by le next).
Proof.
  intros Hl Hn a b c. unfold then_by. intros [Hab Hab']%andb_true_iff [Hbc Hbc']%andb_true_iff.
  rewrite (Hl a b c) by done. cbn. destruct (le c a) eqn:Eca; [|done]. cbn.
  rewrite (Hl c a b) in Hbc' by done. rewrite (Hl b c a) in Hab' by done. cbn in *. by apply (Hn a b c).
Qed.
End orders.

(** [nullableString], and [COALESCE(column, '')] which reads it back. *)
Definition nullableString (value : string) : option string :=
  if bool_decide (value = "") then None else Some value.
Definition coalesce (column : option string) : string := default "" column.

Lemma coalesce_nullable s : coalesce (nullableString s) = s.
Proof. unfold nullableString. by case_bool_decide. Qed.

Create HintDb sql.
#[export] Hint Resolve by_text_total by_text_trans by_number_total by_number_trans then_by_total then_by_trans : sql.
#[export] Hint Resolve invariant_ret invariant_draw invariant_bind invariant_bindr
  invariant_transaction invariant_for_effr : sql.
End Sql.
