(* ===== verification/Domain.v ===== *)
(** * The domain model (src/internal/domain)

    One record per Go struct, one inductive type per string enumeration. A
    struct field keeps its Go name ([Type] is written [Type_]); a pointer is an
    [option], a slice a list, a [map[string]T] a [gmap], an integer a [Z], a
    [float64] an IEEE-754 value and a [time.Time] a number of nanoseconds. An
    enumeration has its Go constants and an [Other] constructor for any other
    text; the Go zero value is [Other ""]. Names that two packages share carry
    the name of the facade src/internal/domain/domain.go. *)

From S2P Require Import Prelude GoStrings.

(** ** internal/domain/resource/resource.go *)

Inductive ResourceType :=
| ResourceCluster
| ResourceNodePool
| ResourceKubernetesMachine
| ResourceHPCPartition
| ResourceHPCMachine
| ResourceCloudVM
| ResourceFogDevice
| ResourceLocalMachine
| ResourceServerlessPlatform
| ResourceServerlessFunction
| ResourceBatchQueue
| ResourceKubernetesNamespace
| ResourceSlurmReservation
| ResourceTypeOther (s : string).
Definition ResourceType_string (v : ResourceType) : string :=
  match v with
  | ResourceCluster => "cluster"
  | ResourceNodePool => "node_pool"
  | ResourceKubernetesMachine => "kubernetes_machine"
  | ResourceHPCPartition => "hpc_partition"
  | ResourceHPCMachine => "hpc_machine"
  | ResourceCloudVM => "cloud_vm"
  | ResourceFogDevice => "fog_device"
  | ResourceLocalMachine => "local_machine"
  | ResourceServerlessPlatform => "serverless_platform"
  | ResourceServerlessFunction => "serverless_function"
  | ResourceBatchQueue => "batch_queue"
  | ResourceKubernetesNamespace => "kubernetes_namespace"
  | ResourceSlurmReservation => "slurm_reservation"
  | ResourceTypeOther s => s
  end.
#[global] Instance ResourceType_eq_dec : EqDecision ResourceType.
Proof. solve_decision. Defined.
#[global] Instance zero_ResourceType : Zero ResourceType := ResourceTypeOther "".

Inductive ResourceExecutionTarget :=
| ExecutionTargetBatch
| ExecutionTargetDirect
| ResourceExecutionTargetOther (s : string).
Definition ResourceExecutionTarget_string (v : ResourceExecutionTarget) : string :=
  match v with
  | ExecutionTargetBatch => "batch"
  | ExecutionTargetDirect => "direct"
  | ResourceExecutionTargetOther s => s
  end.
#[global] Instance ResourceExecutionTarget_eq_dec : EqDecision ResourceExecutionTarget.
Proof. solve_decision. Defined.
#[global] Instance zero_ResourceExecutionTarget : Zero ResourceExecutionTarget := ResourceExecutionTargetOther "".

Inductive ResourceRelationType :=
| ResourceRelationContains
| ResourceRelationMemberOf
| ResourceRelationAccessibleVia
| ResourceRelationTypeOther (s : string).
Definition ResourceRelationType_string (v : ResourceRelationType) : string :=
  match v with
  | ResourceRelationContains => "contains"
  | ResourceRelationMemberOf => "member_of"
  | ResourceRelationAccessibleVia => "accessible_via"
  | ResourceRelationTypeOther s => s
  end.
#[global] Instance ResourceRelationType_eq_dec : EqDecision ResourceRelationType.
Proof. solve_decision. Defined.
#[global] Instance zero_ResourceRelationType : Zero ResourceRelationType := ResourceRelationTypeOther "".

Module Resource.
Record Resource := mk {
  ID : string;
  EnvironmentVersionID : string;
  ExecutionTarget : ResourceExecutionTarget;
  ParentResourceID : option string;
  Type_ : ResourceType;
  Name : string;
  ProviderID : string;
  Tier : string;
  Region : string;
  Zone : string;
  Architecture : string;
  CPUCores : Z;
  CPUCapacity : float64;
  MemoryBytes : Z;
  StorageBytes : Z;
  ComputeSpeedup : float64;
  PricePerSecond : float64;
  BootOverheadSeconds : float64;
  ContainerOverhead : float64;
  Schedulable : bool;
  Metadata : metadata
}.
#[global] Instance eta : Eta Resource := λ r,
  mk (r.(ID)) (r.(EnvironmentVersionID)) (r.(ExecutionTarget))
    (r.(ParentResourceID)) (r.(Type_)) (r.(Name)) (r.(ProviderID)) (r.(Tier))
    (r.(Region)) (r.(Zone)) (r.(Architecture)) (r.(CPUCores))
    (r.(CPUCapacity)) (r.(MemoryBytes)) (r.(StorageBytes))
    (r.(ComputeSpeedup)) (r.(PricePerSecond)) (r.(BootOverheadSeconds))
    (r.(ContainerOverhead)) (r.(Schedulable)) (r.(Metadata)).
#[global] Instance zero_value : Zero Resource :=
  mk zero zero zero zero zero zero zero zero zero zero zero zero zero zero zero
    zero zero zero zero zero zero.
End Resource.
Abbreviation Resource := Resource.Resource.

Module ResourceRuntimeBinding.
Record ResourceRuntimeBinding := mk {
  ResourceID : string;
  RuntimeID : string;
  Enabled : bool;
  Configuration : metadata
}.
#[global] Instance eta : Eta ResourceRuntimeBinding := λ r,
  mk (r.(ResourceID)) (r.(RuntimeID)) (r.(Enabled)) (r.(Configuration)).
#[global] Instance zero_value : Zero ResourceRuntimeBinding :=
  mk zero zero zero zero.
End ResourceRuntimeBinding.
Abbreviation ResourceRuntimeBinding := ResourceRuntimeBinding.ResourceRuntimeBinding.

Module ResourceRelation.
Record ResourceRelation := mk {
  EnvironmentVersionID : string;
  SourceResourceID : string;
  TargetResourceID : string;
  Type_ : ResourceRelationType;
  Metadata : metadata
}.
#[global] Instance eta : Eta ResourceRelation := λ r,
  mk (r.(EnvironmentVersionID)) (r.(SourceResourceID)) (r.(TargetResourceID))
    (r.(Type_)) (r.(Metadata)).
#[global] Instance zero_value : Zero ResourceRelation :=
  mk zero zero zero zero zero.
End ResourceRelation.
Abbreviation ResourceRelation := ResourceRelation.ResourceRelation.

Module ResourceSnapshot.
Record ResourceSnapshot := mk {
  ID : string;
  ResourceID : string;
  CapturedAt : Time;
  Available : bool;
  CPUUsed : float64;
  MemoryUsedBytes : Z;
  NetworkInBPS : float64;
  NetworkOutBPS : float64;
  DiskReadBPS : float64;
  DiskWriteBPS : float64;
  QueueLength : Z;
  Metadata : metadata
}.
#[global] Instance eta : Eta ResourceSnapshot := λ r,
  mk (r.(ID)) (r.(ResourceID)) (r.(CapturedAt)) (r.(Available)) (r.(CPUUsed))
    (r.(MemoryUsedBytes)) (r.(NetworkInBPS)) (r.(NetworkOutBPS))
    (r.(DiskReadBPS)) (r.(DiskWriteBPS)) (r.(QueueLength)) (r.(Metadata)).
#[global] Instance zero_value : Zero ResourceSnapshot :=
  mk zero zero zero zero zero zero zero zero zero zero zero zero.
End ResourceSnapshot.
Abbreviation ResourceSnapshot := ResourceSnapshot.ResourceSnapshot.

Module NetworkLink.
Record NetworkLink := mk {
  ID : string;
  TopologyID : string;
  SourceResourceID : string;
  TargetResourceID : string;
  BandwidthBitsPerSecond : float64;
  LatencySeconds : float64;
  PricePerByte : float64;
  Bidirectional : bool;
  SharingPolicy : string;
  MaxConcurrentTransfers : Z;
  Metadata : metadata
}.
#[global] Instance eta : Eta NetworkLink := λ r,
  mk (r.(ID)) (r.(TopologyID)) (r.(SourceResourceID)) (r.(TargetResourceID))
    (r.(BandwidthBitsPerSecond)) (r.(LatencySeconds)) (r.(PricePerByte))
    (r.(Bidirectional)) (r.(SharingPolicy)) (r.(MaxConcurrentTransfers))
    (r.(Metadata)).
#[global] Instance zero_value : Zero NetworkLink :=
  mk zero zero zero zero zero zero zero zero zero zero zero.
End NetworkLink.
Abbreviation NetworkLink := NetworkLink.NetworkLink.

Module NetworkTopology.
Record NetworkTopology := mk {
  ID : string;
  Name : string;
  Version : Z;
  ExecutionScopeID : string;
  Links : list NetworkLink;
  Metadata : metadata
}.
#[global] Instance eta : Eta NetworkTopology := λ r,
  mk (r.(ID)) (r.(Name)) (r.(Version)) (r.(ExecutionScopeID)) (r.(Links))
    (r.(Metadata)).
#[global] Instance zero_value : Zero NetworkTopology :=
  mk zero zero zero zero zero zero.
End NetworkTopology.
Abbreviation NetworkTopology := NetworkTopology.NetworkTopology.

(** ** internal/domain/resource/storage.go *)

Inductive StorageType :=
| StorageLocal
| StoragePVC
| StorageNFS
| StorageS3
| StorageLustre
| StorageGCS
| StorageMinIO
| StorageSSH
| StorageTypeOther (s : string).
Definition StorageType_string (v : StorageType) : string :=
  match v with
  | StorageLocal => "local"
  | StoragePVC => "pvc"
  | StorageNFS => "nfs"
  | StorageS3 => "s3"
  | StorageLustre => "lustre"
  | StorageGCS => "gcs"
  | StorageMinIO => "s3-compatible"
  | StorageSSH => "ssh-filesystem"
  | StorageTypeOther s => s
  end.
#[global] Instance StorageType_eq_dec : EqDecision StorageType.
Proof. solve_decision. Defined.
#[global] Instance zero_StorageType : Zero StorageType := StorageTypeOther "".

Inductive StorageHealth :=
| StorageHealthUnknown
| StorageHealthHealthy
| StorageHealthDegraded
| StorageHealthUnavailable
| StorageHealthOther (s : string).
Definition StorageHealth_string (v : StorageHealth) : string :=
  match v with
  | StorageHealthUnknown => "unknown"
  | StorageHealthHealthy => "healthy"
  | StorageHealthDegraded => "degraded"
  | StorageHealthUnavailable => "unavailable"
  | StorageHealthOther s => s
  end.
#[global] Instance StorageHealth_eq_dec : EqDecision StorageHealth.
Proof. solve_decision. Defined.
#[global] Instance zero_StorageHealth : Zero StorageHealth := StorageHealthOther "".

Inductive FileEntryType :=
| FileEntryFile
| FileEntryDirectory
| FileEntrySymlink
| FileEntryTypeOther (s : string).
Definition FileEntryType_string (v : FileEntryType) : string :=
  match v with
  | FileEntryFile => "file"
  | FileEntryDirectory => "directory"
  | FileEntrySymlink => "symlink"
  | FileEntryTypeOther s => s
  end.
#[global] Instance FileEntryType_eq_dec : EqDecision FileEntryType.
Proof. solve_decision. Defined.
#[global] Instance zero_FileEntryType : Zero FileEntryType := FileEntryTypeOther "".

Inductive DownloadStatus :=
| DownloadQueued
| DownloadReady
| DownloadStreaming
| DownloadCompleted
| DownloadFailed
| DownloadStatusOther (s : string).
Definition DownloadStatus_string (v : DownloadStatus) : string :=
  match v with
  | DownloadQueued => "queued"
  | DownloadReady => "ready"
  | DownloadStreaming => "streaming"
  | DownloadCompleted => "completed"
  | DownloadFailed => "failed"
  | DownloadStatusOther s => s
  end.
#[global] Instance DownloadStatus_eq_dec : EqDecision DownloadStatus.
Proof. solve_decision. Defined.
#[global] Instance zero_DownloadStatus : Zero DownloadStatus := DownloadStatusOther "".

Module StorageCapabilities.
Record StorageCapabilities := mk {
  Browse : bool;
  Read : bool;
  Write : bool;
  Download : bool;
  Upload : bool;
  Checksum : bool;
  PresignedDownload : bool;
  ComputeNodeVisible : bool
}.
#[global] Instance eta : Eta StorageCapabilities := λ r,
  mk (r.(Browse)) (r.(Read)) (r.(Write)) (r.(Download)) (r.(Upload))
    (r.(Checksum)) (r.(PresignedDownload)) (r.(ComputeNodeVisible)).
#[global] Instance zero_value : Zero StorageCapabilities :=
  mk zero zero zero zero zero zero zero zero.
End StorageCapabilities.
Abbreviation StorageCapabilities := StorageCapabilities.StorageCapabilities.

Module StorageBrowseRoot.
Record StorageBrowseRoot := mk {
  Path : string;
  Label : string;
  ReadOnly : bool
}.
#[global] Instance eta : Eta StorageBrowseRoot := λ r,
  mk (r.(Path)) (r.(Label)) (r.(ReadOnly)).
#[global] Instance zero_value : Zero StorageBrowseRoot :=
  mk zero zero zero.
End StorageBrowseRoot.
Abbreviation StorageBrowseRoot := StorageBrowseRoot.StorageBrowseRoot.

Module StorageHealthStatus.
Record StorageHealthStatus := mk {
  Status : StorageHealth;
  Message : string;
  CheckedAt : Time;
  AvailableBytes : Z
}.
#[global] Instance eta : Eta StorageHealthStatus := λ r,
  mk (r.(Status)) (r.(Message)) (r.(CheckedAt)) (r.(AvailableBytes)).
#[global] Instance zero_value : Zero StorageHealthStatus :=
  mk zero zero zero zero.
End StorageHealthStatus.
Abbreviation StorageHealthStatus := StorageHealthStatus.StorageHealthStatus.

Module FileEntry.
Record FileEntry := mk {
  StorageID : string;
  Path : string;
  Name : string;
  Type_ : FileEntryType;
  SizeBytes : Z;
  ModifiedAt : Time;
  Checksum : string;
  ETag : string;
  MediaType : string;
  Readable : bool;
  Writable : bool;
  LinkTarget : string
}.
#[global] Instance eta : Eta FileEntry := λ r,
  mk (r.(StorageID)) (r.(Path)) (r.(Name)) (r.(Type_)) (r.(SizeBytes))
    (r.(ModifiedAt)) (r.(Checksum)) (r.(ETag)) (r.(MediaType)) (r.(Readable))
    (r.(Writable)) (r.(LinkTarget)).
#[global] Instance zero_value : Zero FileEntry :=
  mk zero zero zero zero zero zero zero zero zero zero zero zero.
End FileEntry.
Abbreviation FileEntry := FileEntry.FileEntry.

Module BrowseRequest.
Record BrowseRequest := mk {
  Path : string;
  Cursor : string;
  Limit : Z
}.
#[global] Instance eta : Eta BrowseRequest := λ r,
  mk (r.(Path)) (r.(Cursor)) (r.(Limit)).
#[global] Instance zero_value : Zero BrowseRequest :=
  mk zero zero zero.
End BrowseRequest.
Abbreviation BrowseRequest := BrowseRequest.BrowseRequest.

Module BrowsePage.
Record BrowsePage := mk {
  StorageID : string;
  Path : string;
  Entries : list FileEntry;
  NextCursor : string
}.
#[global] Instance eta : Eta BrowsePage := λ r,
  mk (r.(StorageID)) (r.(Path)) (r.(Entries)) (r.(NextCursor)).
#[global] Instance zero_value : Zero BrowsePage :=
  mk zero zero zero zero.
End BrowsePage.
Abbreviation BrowsePage := BrowsePage.BrowsePage.

Module IndexPolicy.
Record IndexPolicy := mk {
  Enabled : bool;
  Roots : list string;
  MaxDepth : Z;
  MaxEntries : Z;
  Include : list string;
  Exclude : list string;
  TimeoutSeconds : Z
}.
#[global] Instance eta : Eta IndexPolicy := λ r,
  mk (r.(Enabled)) (r.(Roots)) (r.(MaxDepth)) (r.(MaxEntries)) (r.(Include))
    (r.(Exclude)) (r.(TimeoutSeconds)).
#[global] Instance zero_value : Zero IndexPolicy :=
  mk zero zero zero zero zero zero zero.
End IndexPolicy.
Abbreviation IndexPolicy := IndexPolicy.IndexPolicy.

Module IndexStatus.
Record IndexStatus := mk {
  Status : string;
  IndexedEntries : Z;
  LastIndexedAt : Time;
  Message : string
}.
#[global] Instance eta : Eta IndexStatus := λ r,
  mk (r.(Status)) (r.(IndexedEntries)) (r.(LastIndexedAt)) (r.(Message)).
#[global] Instance zero_value : Zero IndexStatus :=
  mk zero zero zero zero.
End IndexStatus.
Abbreviation IndexStatus := IndexStatus.IndexStatus.

Module IndexRun.
Record IndexRun := mk {
  ID : string;
  StorageID : string;
  Status : string;
  IndexedEntries : Z;
  Error : string;
  CreatedAt : Time;
  FinishedAt : Time
}.
#[global] Instance eta : Eta IndexRun := λ r,
  mk (r.(ID)) (r.(StorageID)) (r.(Status)) (r.(IndexedEntries)) (r.(Error))
    (r.(CreatedAt)) (r.(FinishedAt)).
#[global] Instance zero_value : Zero IndexRun :=
  mk zero zero zero zero zero zero zero.
End IndexRun.
Abbreviation IndexRun := IndexRun.IndexRun.

Module DownloadRun.
Record DownloadRun := mk {
  ID : string;
  StorageID : string;
  Path : string;
  Status : DownloadStatus;
  Strategy : string;
  URL : string;
  SizeBytes : Z;
  TransferredBytes : Z;
  Error : string;
  CreatedAt : Time;
  UpdatedAt : Time
}.
#[global] Instance eta : Eta DownloadRun := λ r,
  mk (r.(ID)) (r.(StorageID)) (r.(Path)) (r.(Status)) (r.(Strategy)) (r.(URL))
    (r.(SizeBytes)) (r.(TransferredBytes)) (r.(Error)) (r.(CreatedAt))
    (r.(UpdatedAt)).
#[global] Instance zero_value : Zero DownloadRun :=
  mk zero zero zero zero zero zero zero zero zero zero zero.
End DownloadRun.
Abbreviation DownloadRun := DownloadRun.DownloadRun.

Module StorageRuntimeBinding.
Record StorageRuntimeBinding := mk {
  RuntimeID : string;
  Default : bool;
  HostPath : string;
  ContainerPath : string;
  ReadOnly : bool;
  Configuration : metadata
}.
#[global] Instance eta : Eta StorageRuntimeBinding := λ r,
  mk (r.(RuntimeID)) (r.(Default)) (r.(HostPath)) (r.(ContainerPath))
    (r.(ReadOnly)) (r.(Configuration)).
#[global] Instance zero_value : Zero StorageRuntimeBinding :=
  mk zero zero zero zero zero zero.
End StorageRuntimeBinding.
Abbreviation StorageRuntimeBinding := StorageRuntimeBinding.StorageRuntimeBinding.

Module StorageResource.
Record StorageResource := mk {
  ID : string;
  EnvironmentVersionID : string;
  Name : string;
  Type_ : StorageType;
  Endpoint : string;
  CapacityBytes : Z;
  Shared : bool;
  ReadOnly : bool;
  Configuration : metadata;
  CredentialReference : string;
  Metadata : metadata;
  RuntimeBindings : list StorageRuntimeBinding;
  BrowseRoots : list StorageBrowseRoot;
  Capabilities : StorageCapabilities;
  Health : StorageHealthStatus;
  IndexPolicy : IndexPolicy;
  IndexStatus : IndexStatus
}.
#[global] Instance eta : Eta StorageResource := λ r,
  mk (r.(ID)) (r.(EnvironmentVersionID)) (r.(Name)) (r.(Type_)) (r.(Endpoint))
    (r.(CapacityBytes)) (r.(Shared)) (r.(ReadOnly)) (r.(Configuration))
    (r.(CredentialReference)) (r.(Metadata)) (r.(RuntimeBindings))
    (r.(BrowseRoots)) (r.(Capabilities)) (r.(Health)) (r.(IndexPolicy))
    (r.(IndexStatus)).
#[global] Instance zero_value : Zero StorageResource :=
  mk zero zero zero zero zero zero zero zero zero zero zero zero zero zero zero
    zero zero.
End StorageResource.
Abbreviation StorageResource := StorageResource.StorageResource.

(** ** internal/domain/workflow/executable.go *)

Inductive ExecutableSourceType :=
| ExecutableSourceCatalog
| ExecutableSourceOCI
| ExecutableSourceLocalContainerImage
| ExecutableSourceBuild
| ExecutableSourceLocalFile
| ExecutableSourceRemoteFile
| ExecutableSourceObjectStorage
| ExecutableSourceHTTP
| ExecutableSourceTypeOther (s : string).
Definition ExecutableSourceType_string (v : ExecutableSourceType) : string :=
  match v with
  | ExecutableSourceCatalog => "catalog"
  | ExecutableSourceOCI => "oci"
  | ExecutableSourceLocalContainerImage => "local-container-image"
  | ExecutableSourceBuild => "build"
  | ExecutableSourceLocalFile => "local-file"
  | ExecutableSourceRemoteFile => "remote-file"
  | ExecutableSourceObjectStorage => "object-storage"
  | ExecutableSourceHTTP => "http"
  | ExecutableSourceTypeOther s => s
  end.
#[global] Instance ExecutableSourceType_eq_dec : EqDecision ExecutableSourceType.
Proof. solve_decision. Defined.
#[global] Instance zero_ExecutableSourceType : Zero ExecutableSourceType := ExecutableSourceTypeOther "".

Inductive DeliveryStrategy :=
| DeliveryAuto
| DeliveryManaged
| DeliveryUseInPlace
| DeliveryDestinationPull
| DeliveryGatewayTransfer
| DeliveryBuildAndTransfer
| DeliveryPreferInPlace
| DeliveryStrategyOther (s : string).
Definition DeliveryStrategy_string (v : DeliveryStrategy) : string :=
  match v with
  | DeliveryAuto => "auto"
  | DeliveryManaged => "managed"
  | DeliveryUseInPlace => "use-in-place"
  | DeliveryDestinationPull => "destination-pull"
  | DeliveryGatewayTransfer => "gateway-transfer"
  | DeliveryBuildAndTransfer => "build-and-transfer"
  | DeliveryPreferInPlace => "prefer-in-place"
  | DeliveryStrategyOther s => s
  end.
#[global] Instance DeliveryStrategy_eq_dec : EqDecision DeliveryStrategy.
Proof. solve_decision. Defined.
#[global] Instance zero_DeliveryStrategy : Zero DeliveryStrategy := DeliveryStrategyOther "".

Inductive ExecutableFormat :=
| ExecutableFormatOCI
| ExecutableFormatSIF
| ExecutableFormatOther (s : string).
Definition ExecutableFormat_string (v : ExecutableFormat) : string :=
  match v with
  | ExecutableFormatOCI => "oci"
  | ExecutableFormatSIF => "sif"
  | ExecutableFormatOther s => s
  end.
#[global] Instance ExecutableFormat_eq_dec : EqDecision ExecutableFormat.
Proof. solve_decision. Defined.
#[global] Instance zero_ExecutableFormat : Zero ExecutableFormat := ExecutableFormatOther "".

Module ArtifactReference.
Record ArtifactReference := mk {
  ID : string;
  Version : string
}.
#[global] Instance eta : Eta ArtifactReference := λ r,
  mk (r.(ID)) (r.(Version)).
#[global] Instance zero_value : Zero ArtifactReference :=
  mk zero zero.
End ArtifactReference.
Abbreviation ArtifactReference := ArtifactReference.ArtifactReference.

Module ExecutableSource.
Record ExecutableSource := mk {
  Type_ : ExecutableSourceType;
  Reference : string;
  Path : string;
  URI : string;
  ArtifactRef : option ArtifactReference;
  EnvironmentRef : string;
  ResourceRef : string;
  ExpectedDigest : string;
  Format : ExecutableFormat;
  ArtifactBuildRef : string;
  CredentialRef : string
}.
#[global] Instance eta : Eta ExecutableSource := λ r,
  mk (r.(Type_)) (r.(Reference)) (r.(Path)) (r.(URI)) (r.(ArtifactRef))
    (r.(EnvironmentRef)) (r.(ResourceRef)) (r.(ExpectedDigest)) (r.(Format))
    (r.(ArtifactBuildRef)) (r.(CredentialRef)).
#[global] Instance zero_value : Zero ExecutableSource :=
  mk zero zero zero zero zero zero zero zero zero zero zero.
End ExecutableSource.
Abbreviation ExecutableSource := ExecutableSource.ExecutableSource.

Module ExecutableDelivery.
Record ExecutableDelivery := mk {
  Strategy : DeliveryStrategy;
  TargetFormat : ExecutableFormat
}.
#[global] Instance eta : Eta ExecutableDelivery := λ r,
  mk (r.(Strategy)) (r.(TargetFormat)).
#[global] Instance zero_value : Zero ExecutableDelivery :=
  mk zero zero.
End ExecutableDelivery.
Abbreviation ExecutableDelivery := ExecutableDelivery.ExecutableDelivery.

Module ExecutableReference.
Record ExecutableReference := mk {
  Source : ExecutableSource;
  Delivery : ExecutableDelivery
}.
#[global] Instance eta : Eta ExecutableReference := λ r,
  mk (r.(Source)) (r.(Delivery)).
#[global] Instance zero_value : Zero ExecutableReference :=
  mk zero zero.
End ExecutableReference.
Abbreviation ExecutableReference := ExecutableReference.ExecutableReference.

Module ResolvedExecutable.
Record ResolvedExecutable := mk {
  VariantID : string;
  Digest : string;
  Format : ExecutableFormat;
  LocalPath : string;
  RemotePath : string;
  EnvironmentID : string;
  ResourceID : string;
  Delivery : DeliveryStrategy;
  MaterializationID : string;
  MaterializationDone : bool
}.
#[global] Instance eta : Eta ResolvedExecutable := λ r,
  mk (r.(VariantID)) (r.(Digest)) (r.(Format)) (r.(LocalPath)) (r.(RemotePath))
    (r.(EnvironmentID)) (r.(ResourceID)) (r.(Delivery))
    (r.(MaterializationID)) (r.(MaterializationDone)).
#[global] Instance zero_value : Zero ResolvedExecutable :=
  mk zero zero zero zero zero zero zero zero zero zero.
End ResolvedExecutable.
Abbreviation ResolvedExecutable := ResolvedExecutable.ResolvedExecutable.

(** ** internal/domain/workflow/workflow.go *)

Inductive ActivityKind :=
| ActivityKindTask
| ActivityKindService
| ActivityKindInteractive
| ActivityKindOther (s : string).
Definition ActivityKind_string (v : ActivityKind) : string :=
  match v with
  | ActivityKindTask => "task"
  | ActivityKindService => "service"
  | ActivityKindInteractive => "interactive"
  | ActivityKindOther s => s
  end.
#[global] Instance ActivityKind_eq_dec : EqDecision ActivityKind.
Proof. solve_decision. Defined.
#[global] Instance zero_ActivityKind : Zero ActivityKind := ActivityKindOther "".

Inductive ActivityCapability :=
| ActivityCapabilityReal
| ActivityCapabilitySimulation
| ActivityCapabilityInteractive
| ActivityCapabilityOther (s : string).
Definition ActivityCapability_string (v : ActivityCapability) : string :=
  match v with
  | ActivityCapabilityReal => "real"
  | ActivityCapabilitySimulation => "simulation"
  | ActivityCapabilityInteractive => "interactive"
  | ActivityCapabilityOther s => s
  end.
#[global] Instance ActivityCapability_eq_dec : EqDecision ActivityCapability.
Proof. solve_decision. Defined.
#[global] Instance zero_ActivityCapability : Zero ActivityCapability := ActivityCapabilityOther "".

Module ActivityCommand.
Record ActivityCommand := mk {
  Image : string;
  Executable : option ExecutableReference;
  ResolvedExecutable : option ResolvedExecutable;
  Entrypoint : string;
  Arguments : list string;
  Environment : gmap string string;
  WorkingDirectory : string
}.
#[global] Instance eta : Eta ActivityCommand := λ r,
  mk (r.(Image)) (r.(Executable)) (r.(ResolvedExecutable)) (r.(Entrypoint))
    (r.(Arguments)) (r.(Environment)) (r.(WorkingDirectory)).
#[global] Instance zero_value : Zero ActivityCommand :=
  mk zero zero zero zero zero zero zero.
End ActivityCommand.
Abbreviation ActivityCommand := ActivityCommand.ActivityCommand.

Module ActivityResources.
Record ActivityResources := mk {
  CPU : float64;
  MemoryBytes : Z;
  StorageBytes : Z;
  GPU : Z
}.
#[global] Instance eta : Eta ActivityResources := λ r,
  mk (r.(CPU)) (r.(MemoryBytes)) (r.(StorageBytes)) (r.(GPU)).
#[global] Instance zero_value : Zero ActivityResources :=
  mk zero zero zero zero.
End ActivityResources.
Abbreviation ActivityResources := ActivityResources.ActivityResources.

Module ServiceSpec.
Record ServiceSpec := mk {
  Ports : list Z;
  HealthCheck : string;
  StartupTimeoutSeconds : float64;
  IdleTimeoutSeconds : float64;
  KeepAlive : bool
}.
#[global] Instance eta : Eta ServiceSpec := λ r,
  mk (r.(Ports)) (r.(HealthCheck)) (r.(StartupTimeoutSeconds))
    (r.(IdleTimeoutSeconds)) (r.(KeepAlive)).
#[global] Instance zero_value : Zero ServiceSpec :=
  mk zero zero zero zero zero.
End ServiceSpec.
Abbreviation ServiceSpec := ServiceSpec.ServiceSpec.

Module ActivitySimulation.
Record ActivitySimulation := mk {
  Model : string;
  DurationSeconds : float64;
  FLOPs : float64;
  Parameters : metadata
}.
#[global] Instance eta : Eta ActivitySimulation := λ r,
  mk (r.(Model)) (r.(DurationSeconds)) (r.(FLOPs)) (r.(Parameters)).
#[global] Instance zero_value : Zero ActivitySimulation :=
  mk zero zero zero zero.
End ActivitySimulation.
Abbreviation ActivitySimulation := ActivitySimulation.ActivitySimulation.

Module ActivityPolicy.
Record ActivityPolicy := mk {
  TimeoutSeconds : float64;
  MaxAttempts : Z;
  RetryDelaySeconds : float64
}.
#[global] Instance eta : Eta ActivityPolicy := λ r,
  mk (r.(TimeoutSeconds)) (r.(MaxAttempts)) (r.(RetryDelaySeconds)).
#[global] Instance zero_value : Zero ActivityPolicy :=
  mk zero zero zero.
End ActivityPolicy.
Abbreviation ActivityPolicy := ActivityPolicy.ActivityPolicy.

Module ActivityType.
Record ActivityType := mk {
  ID : string;
  Name : string;
  Application : string;
  DefaultImage : string;
  CPUIntensity : float64;
  MemoryIntensity : float64;
  IOIntensity : float64;
  NetworkIntensity : float64;
  Metadata : metadata
}.
#[global] Instance eta : Eta ActivityType := λ r,
  mk (r.(ID)) (r.(Name)) (r.(Application)) (r.(DefaultImage))
    (r.(CPUIntensity)) (r.(MemoryIntensity)) (r.(IOIntensity))
    (r.(NetworkIntensity)) (r.(Metadata)).
#[global] Instance zero_value : Zero ActivityType :=
  mk zero zero zero zero zero zero zero zero zero.
End ActivityType.
Abbreviation ActivityType := ActivityType.ActivityType.

Module Activity.
Record Activity := mk {
  ID : string;
  WorkflowVersionID : string;
  ActivityTypeID : string;
  ExternalID : string;
  Name : string;
  Kind : ActivityKind;
  Capabilities : list ActivityCapability;
  Command : ActivityCommand;
  Resources : ActivityResources;
  Service : option ServiceSpec;
  Simulation : option ActivitySimulation;
  Policy : ActivityPolicy;
  Priority : Z;
  Metadata : metadata
}.
#[global] Instance eta : Eta Activity := λ r,
  mk (r.(ID)) (r.(WorkflowVersionID)) (r.(ActivityTypeID)) (r.(ExternalID))
    (r.(Name)) (r.(Kind)) (r.(Capabilities)) (r.(Command)) (r.(Resources))
    (r.(Service)) (r.(Simulation)) (r.(Policy)) (r.(Priority)) (r.(Metadata)).
#[global] Instance zero_value : Zero Activity :=
  mk zero zero zero zero zero zero zero zero zero zero zero zero zero zero.
End Activity.
Abbreviation Activity := Activity.Activity.

Module ActivityDependency.
Record ActivityDependency := mk {
  ActivityID : string;
  DependsOnActivityID : string;
  Type_ : string
}.
#[global] Instance eta : Eta ActivityDependency := λ r,
  mk (r.(ActivityID)) (r.(DependsOnActivityID)) (r.(Type_)).
#[global] Instance zero_value : Zero ActivityDependency :=
  mk zero zero zero.
End ActivityDependency.
Abbreviation ActivityDependency := ActivityDependency.ActivityDependency.

Module ActivityDataDependency.
Record ActivityDataDependency := mk {
  ProducerActivityID : string;
  ConsumerActivityID : string;
  LogicalName : string;
  SizeBytes : Z
}.
#[global] Instance eta : Eta ActivityDataDependency := λ r,
  mk (r.(ProducerActivityID)) (r.(ConsumerActivityID)) (r.(LogicalName))
    (r.(SizeBytes)).
#[global] Instance zero_value : Zero ActivityDataDependency :=
  mk zero zero zero zero.
End ActivityDataDependency.
Abbreviation ActivityDataDependency := ActivityDataDependency.ActivityDataDependency.

Module WorkflowVersion.
Record WorkflowVersion := mk {
  ID : string;
  WorkflowID : string;
  Version : Z;
  DefinitionHash : string;
  Activities : list Activity;
  Dependencies : list ActivityDependency;
  DataDependencies : list ActivityDataDependency
}.
#[global] Instance eta : Eta WorkflowVersion := λ r,
  mk (r.(ID)) (r.(WorkflowID)) (r.(Version)) (r.(DefinitionHash))
    (r.(Activities)) (r.(Dependencies)) (r.(DataDependencies)).
#[global] Instance zero_value : Zero WorkflowVersion :=
  mk zero zero zero zero zero zero zero.
End WorkflowVersion.
Abbreviation WorkflowVersion := WorkflowVersion.WorkflowVersion.

Module WorkflowDefinition.
Record WorkflowDefinition := mk {
  ID : string;
  ExternalID : string;
  Name : string;
  Namespace : string;
  Version : WorkflowVersion;
  Types : list ActivityType
}.
#[global] Instance eta : Eta WorkflowDefinition := λ r,
  mk (r.(ID)) (r.(ExternalID)) (r.(Name)) (r.(Namespace)) (r.(Version))
    (r.(Types)).
#[global] Instance zero_value : Zero WorkflowDefinition :=
  mk zero zero zero zero zero zero.
End WorkflowDefinition.
Abbreviation WorkflowDefinition := WorkflowDefinition.WorkflowDefinition.

Module ActivityResourceProfile.
Record ActivityResourceProfile := mk {
  ID : string;
  ActivityTypeID : string;
  ResourceID : string;
  RuntimeSeconds : float64;
  RuntimeStdDevSeconds : float64;
  CPUUtilization : float64;
  PeakMemoryBytes : Z;
  DiskReadBytes : Z;
  DiskWriteBytes : Z;
  EnergyJoules : float64;
  Source : string;
  SampleSize : Z;
  ModelVersion : string;
  Metadata : metadata
}.
#[global] Instance eta : Eta ActivityResourceProfile := λ r,
  mk (r.(ID)) (r.(ActivityTypeID)) (r.(ResourceID)) (r.(RuntimeSeconds))
    (r.(RuntimeStdDevSeconds)) (r.(CPUUtilization)) (r.(PeakMemoryBytes))
    (r.(DiskReadBytes)) (r.(DiskWriteBytes)) (r.(EnergyJoules)) (r.(Source))
    (r.(SampleSize)) (r.(ModelVersion)) (r.(Metadata)).
#[global] Instance zero_value : Zero ActivityResourceProfile :=
  mk zero zero zero zero zero zero zero zero zero zero zero zero zero zero.
End ActivityResourceProfile.
Abbreviation ActivityResourceProfile := ActivityResourceProfile.ActivityResourceProfile.

(** ** internal/domain/environment/transfer.go *)

Inductive TransferConnector :=
| TransferConnectorRsync
| TransferConnectorSCP
| TransferConnectorSFTP
| TransferConnectorHTTP
| TransferConnectorS3
| TransferConnectorGCS
| TransferConnectorOther (s : string).
Definition TransferConnector_string (v : TransferConnector) : string :=
  match v with
  | TransferConnectorRsync => "rsync"
  | TransferConnectorSCP => "scp"
  | TransferConnectorSFTP => "sftp"
  | TransferConnectorHTTP => "http"
  | TransferConnectorS3 => "s3-compatible"
  | TransferConnectorGCS => "gcs"
  | TransferConnectorOther s => s
  end.
#[global] Instance TransferConnector_eq_dec : EqDecision TransferConnector.
Proof. solve_decision. Defined.
#[global] Instance zero_TransferConnector : Zero TransferConnector := TransferConnectorOther "".

Module CapabilityObservation.
Record CapabilityObservation := mk {
  Available : bool;
  Declared : option bool;
  Reason : string;
  ObservedAt : Time;
  FreshUntil : Time
}.
#[global] Instance eta : Eta CapabilityObservation := λ r,
  mk (r.(Available)) (r.(Declared)) (r.(Reason)) (r.(ObservedAt))
    (r.(FreshUntil)).
#[global] Instance zero_value : Zero CapabilityObservation :=
  mk zero zero zero zero zero.
End CapabilityObservation.
Abbreviation CapabilityObservation := CapabilityObservation.CapabilityObservation.

Module TransferPath.
Record TransferPath := mk {
  Path : string;
  Kind : string;
  Writable : bool;
  AvailableBytes : Z;
  LoginNodeVisible : bool;
  ComputeNodeVisible : option bool;
  Reason : string;
  ObservedAt : Time
}.
#[global] Instance eta : Eta TransferPath := λ r,
  mk (r.(Path)) (r.(Kind)) (r.(Writable)) (r.(AvailableBytes))
    (r.(LoginNodeVisible)) (r.(ComputeNodeVisible)) (r.(Reason))
    (r.(ObservedAt)).
#[global] Instance zero_value : Zero TransferPath :=
  mk zero zero zero zero zero zero zero zero.
End TransferPath.
Abbreviation TransferPath := TransferPath.TransferPath.

Module TransferCapabilities.
Record TransferCapabilities := mk {
  Connectors : list (TransferConnector * CapabilityObservation);
  OutboundHTTPS : CapabilityObservation;
  ContainerRuntime : CapabilityObservation;
  Checksum : CapabilityObservation;
  Paths : list TransferPath;
  ObservedAt : Time;
  FreshUntil : Time
}.
#[global] Instance eta : Eta TransferCapabilities := λ r,
  mk (r.(Connectors)) (r.(OutboundHTTPS)) (r.(ContainerRuntime)) (r.(Checksum))
    (r.(Paths)) (r.(ObservedAt)) (r.(FreshUntil)).
#[global] Instance zero_value : Zero TransferCapabilities :=
  mk zero zero zero zero zero zero zero.
End TransferCapabilities.
Abbreviation TransferCapabilities := TransferCapabilities.TransferCapabilities.

Module ConnectorHealth.
Record ConnectorHealth := mk {
  Healthy : bool;
  Operation : string;
  Reason : string;
  CheckedAt : Time;
  FreshUntil : Time
}.
#[global] Instance eta : Eta ConnectorHealth := λ r,
  mk (r.(Healthy)) (r.(Operation)) (r.(Reason)) (r.(CheckedAt))
    (r.(FreshUntil)).
#[global] Instance zero_value : Zero ConnectorHealth :=
  mk zero zero zero zero zero.
End ConnectorHealth.
Abbreviation ConnectorHealth := ConnectorHealth.ConnectorHealth.

Module ConnectorBinding.
Record ConnectorBinding := mk {
  ID : string;
  EnvironmentID : string;
  Connector : TransferConnector;
  Endpoint : string;
  CredentialRef : string;
  Configuration : metadata;
  Health : ConnectorHealth
}.
#[global] Instance eta : Eta ConnectorBinding := λ r,
  mk (r.(ID)) (r.(EnvironmentID)) (r.(Connector)) (r.(Endpoint))
    (r.(CredentialRef)) (r.(Configuration)) (r.(Health)).
#[global] Instance zero_value : Zero ConnectorBinding :=
  mk zero zero zero zero zero zero zero.
End ConnectorBinding.
Abbreviation ConnectorBinding := ConnectorBinding.ConnectorBinding.

Module ArtifactLocationHealth.
Record ArtifactLocationHealth := mk {
  LocationRef : string;
  Exists : bool;
  SizeBytes : Z;
  ExpectedSizeBytes : Z;
  Digest : string;
  ExpectedDigest : string;
  LoginNodeReadable : bool;
  ComputeNodeReadable : option bool;
  Reason : string;
  CheckedAt : Time
}.
#[global] Instance eta : Eta ArtifactLocationHealth := λ r,
  mk (r.(LocationRef)) (r.(Exists)) (r.(SizeBytes)) (r.(ExpectedSizeBytes))
    (r.(Digest)) (r.(ExpectedDigest)) (r.(LoginNodeReadable))
    (r.(ComputeNodeReadable)) (r.(Reason)) (r.(CheckedAt)).
#[global] Instance zero_value : Zero ArtifactLocationHealth :=
  mk zero zero zero zero zero zero zero zero zero zero.
End ArtifactLocationHealth.
Abbreviation ArtifactLocationHealth := ArtifactLocationHealth.ArtifactLocationHealth.

(** ** internal/domain/environment/environment.go *)

Inductive EnvironmentVersionStatus :=
| EnvironmentVersionDraft
| EnvironmentVersionPublished
| EnvironmentVersionRetired
| EnvironmentVersionStatusOther (s : string).
Definition EnvironmentVersionStatus_string (v : EnvironmentVersionStatus) : string :=
  match v with
  | EnvironmentVersionDraft => "draft"
  | EnvironmentVersionPublished => "published"
  | EnvironmentVersionRetired => "retired"
  | EnvironmentVersionStatusOther s => s
  end.
#[global] Instance EnvironmentVersionStatus_eq_dec : EqDecision EnvironmentVersionStatus.
Proof. solve_decision. Defined.
#[global] Instance zero_EnvironmentVersionStatus : Zero EnvironmentVersionStatus := EnvironmentVersionStatusOther "".

Inductive EnvironmentStatus :=
| EnvironmentDefined
| EnvironmentConnecting
| EnvironmentConnected
| EnvironmentDiscovering
| EnvironmentReady
| EnvironmentDegraded
| EnvironmentUnreachable
| EnvironmentStatusOther (s : string).
Definition EnvironmentStatus_string (v : EnvironmentStatus) : string :=
  match v with
  | EnvironmentDefined => "defined"
  | EnvironmentConnecting => "connecting"
  | EnvironmentConnected => "connected"
  | EnvironmentDiscovering => "discovering"
  | EnvironmentReady => "ready"
  | EnvironmentDegraded => "degraded"
  | EnvironmentUnreachable => "unreachable"
  | EnvironmentStatusOther s => s
  end.
#[global] Instance EnvironmentStatus_eq_dec : EqDecision EnvironmentStatus.
Proof. solve_decision. Defined.
#[global] Instance zero_EnvironmentStatus : Zero EnvironmentStatus := EnvironmentStatusOther "".

Inductive ConnectionType :=
| ConnectionSSH
| ConnectionKubernetes
| ConnectionCloud
| ConnectionLocal
| ConnectionAgent
| ConnectionTypeOther (s : string).
Definition ConnectionType_string (v : ConnectionType) : string :=
  match v with
  | ConnectionSSH => "ssh"
  | ConnectionKubernetes => "kubernetes"
  | ConnectionCloud => "cloud"
  | ConnectionLocal => "local"
  | ConnectionAgent => "agent"
  | ConnectionTypeOther s => s
  end.
#[global] Instance ConnectionType_eq_dec : EqDecision ConnectionType.
Proof. solve_decision. Defined.
#[global] Instance zero_ConnectionType : Zero ConnectionType := ConnectionTypeOther "".


Inductive RuntimeDriver :=
| RuntimeDriverSlurm
| RuntimeDriverKubernetes
| RuntimeDriverSSH
| RuntimeDriverLocal
| RuntimeDriverServerless
| RuntimeDriverSimGrid
| RuntimeDriverOther (s : string).
Definition RuntimeDriver_string (v : RuntimeDriver) : string :=
  match v with
  | RuntimeDriverSlurm => "slurm"
  | RuntimeDriverKubernetes => "kubernetes"
  | RuntimeDriverSSH => "ssh"
  | RuntimeDriverLocal => "local"
  | RuntimeDriverServerless => "serverless"
  | RuntimeDriverSimGrid => "simgrid"
  | RuntimeDriverOther s => s
  end.
#[global] Instance RuntimeDriver_eq_dec : EqDecision RuntimeDriver.
Proof. solve_decision. Defined.
#[global] Instance zero_RuntimeDriver : Zero RuntimeDriver := RuntimeDriverOther "".

Inductive RuntimeMode :=
| RuntimeModeExecution
| RuntimeModeSimulation
| RuntimeModeOther (s : string).
Definition RuntimeMode_string (v : RuntimeMode) : string :=
  match v with
  | RuntimeModeExecution => "execution"
  | RuntimeModeSimulation => "simulation"
  | RuntimeModeOther s => s
  end.
#[global] Instance RuntimeMode_eq_dec : EqDecision RuntimeMode.
Proof. solve_decision. Defined.
#[global] Instance zero_RuntimeMode : Zero RuntimeMode := RuntimeModeOther "".

Inductive ConnectionStatus :=
| ConnectionOnline
| ConnectionOffline
| ConnectionStatusOther (s : string).
Definition ConnectionStatus_string (v : ConnectionStatus) : string :=
  match v with
  | ConnectionOnline => "online"
  | ConnectionOffline => "offline"
  | ConnectionStatusOther s => s
  end.
#[global] Instance ConnectionStatus_eq_dec : EqDecision ConnectionStatus.
Proof. solve_decision. Defined.
#[global] Instance zero_ConnectionStatus : Zero ConnectionStatus := ConnectionStatusOther "".

Module Environment.
Record Environment := mk {
  ID : string;
  Name : string;
  Description : string;
  Status : EnvironmentStatus;
  CreatedAt : Time
}.
#[global] Instance eta : Eta Environment := λ r,
  mk (r.(ID)) (r.(Name)) (r.(Description)) (r.(Status)) (r.(CreatedAt)).
#[global] Instance zero_value : Zero Environment :=
  mk zero zero zero zero zero.
End Environment.
Abbreviation Environment := Environment.Environment.

Module EnvironmentConnection.
Record EnvironmentConnection := mk {
  ID : string;
  EnvironmentID : string;
  Name : string;
  Type_ : ConnectionType;
  Endpoint : string;
  Username : string;
  CredentialRef : string;
  Configuration : metadata;
  CreatedAt : Time
}.
#[global] Instance eta : Eta EnvironmentConnection := λ r,
  mk (r.(ID)) (r.(EnvironmentID)) (r.(Name)) (r.(Type_)) (r.(Endpoint))
    (r.(Username)) (r.(CredentialRef)) (r.(Configuration)) (r.(CreatedAt)).
#[global] Instance zero_value : Zero EnvironmentConnection :=
  mk zero zero zero zero zero zero zero zero zero.
End EnvironmentConnection.
Abbreviation EnvironmentConnection := EnvironmentConnection.EnvironmentConnection.

Module ConnectionCheck.
Record ConnectionCheck := mk {
  ID : string;
  ConnectionID : string;
  Status : ConnectionStatus;
  Message : string;
  LatencyMS : float64;
  CheckedAt : Time;
  Metadata : metadata
}.
#[global] Instance eta : Eta ConnectionCheck := λ r,
  mk (r.(ID)) (r.(ConnectionID)) (r.(Status)) (r.(Message)) (r.(LatencyMS))
    (r.(CheckedAt)) (r.(Metadata)).
#[global] Instance zero_value : Zero ConnectionCheck :=
  mk zero zero zero zero zero zero zero.
End ConnectionCheck.
Abbreviation ConnectionCheck := ConnectionCheck.ConnectionCheck.

Module Capabilities.
Record Capabilities := mk {
  Batch : bool;
  Interactive : bool;
  Container : bool;
  Serverless : bool;
  GPU : bool;
  MPI : bool;
  SharedStorage : bool;
  DataStaging : bool;
  Cancellation : bool;
  LogStreaming : bool;
  Simulation : bool
}.
#[global] Instance eta : Eta Capabilities := λ r,
  mk (r.(Batch)) (r.(Interactive)) (r.(Container)) (r.(Serverless)) (r.(GPU))
    (r.(MPI)) (r.(SharedStorage)) (r.(DataStaging)) (r.(Cancellation))
    (r.(LogStreaming)) (r.(Simulation)).
#[global] Instance zero_value : Zero Capabilities :=
  mk zero zero zero zero zero zero zero zero zero zero zero.
End Capabilities.
Abbreviation Capabilities := Capabilities.Capabilities.

Module DiscoveryRun.
Record DiscoveryRun := mk {
  ID : string;
  EnvironmentVersionID : string;
  Provider : string;
  Status : string;
  ResourcesFound : Z;
  Error : string;
  StartedAt : Time;
  FinishedAt : option Time
}.
#[global] Instance eta : Eta DiscoveryRun := λ r,
  mk (r.(ID)) (r.(EnvironmentVersionID)) (r.(Provider)) (r.(Status))
    (r.(ResourcesFound)) (r.(Error)) (r.(StartedAt)) (r.(FinishedAt)).
#[global] Instance zero_value : Zero DiscoveryRun :=
  mk zero zero zero zero zero zero zero zero.
End DiscoveryRun.
Abbreviation DiscoveryRun := DiscoveryRun.DiscoveryRun.

Module EnvironmentVersion.
Record EnvironmentVersion := mk {
  ID : string;
  EnvironmentID : string;
  Version : Z;
  Status : EnvironmentVersionStatus;
  NetworkModel : string;
  InterferenceModel : string;
  CostModel : string;
  ConfigurationHash : string;
  CreatedAt : Time;
  PublishedAt : option Time
}.
#[global] Instance eta : Eta EnvironmentVersion := λ r,
  mk (r.(ID)) (r.(EnvironmentID)) (r.(Version)) (r.(Status)) (r.(NetworkModel))
    (r.(InterferenceModel)) (r.(CostModel)) (r.(ConfigurationHash))
    (r.(CreatedAt)) (r.(PublishedAt)).
#[global] Instance zero_value : Zero EnvironmentVersion :=
  mk zero zero zero zero zero zero zero zero zero zero.
End EnvironmentVersion.
Abbreviation EnvironmentVersion := EnvironmentVersion.EnvironmentVersion.

Module EnvironmentRuntime.
Record EnvironmentRuntime := mk {
  EnvironmentVersionID : string;
  ID : string;
  Name : string;
  Driver : RuntimeDriver;
  Mode : RuntimeMode;
  Role : string;
  Configuration : metadata;
  Capabilities : Capabilities
}.
#[global] Instance eta : Eta EnvironmentRuntime := λ r,
  mk (r.(EnvironmentVersionID)) (r.(ID)) (r.(Name)) (r.(Driver)) (r.(Mode))
    (r.(Role)) (r.(Configuration)) (r.(Capabilities)).
#[global] Instance zero_value : Zero EnvironmentRuntime :=
  mk zero zero zero zero zero zero zero zero.
End EnvironmentRuntime.
Abbreviation EnvironmentRuntime := EnvironmentRuntime.EnvironmentRuntime.

Module ExecutionScope.
Record ExecutionScope := mk {
  ID : string;
  Name : string;
  NetworkTopologyID : string;
  EnvironmentVersionIDs : list string;
  Metadata : metadata
}.
#[global] Instance eta : Eta ExecutionScope := λ r,
  mk (r.(ID)) (r.(Name)) (r.(NetworkTopologyID)) (r.(EnvironmentVersionIDs))
    (r.(Metadata)).
#[global] Instance zero_value : Zero ExecutionScope :=
  mk zero zero zero zero zero.
End ExecutionScope.
Abbreviation ExecutionScope := ExecutionScope.ExecutionScope.

Module EnvironmentDefinition.
Record EnvironmentDefinition := mk {
  Environment : Environment;
  Version : EnvironmentVersion;
  Runtimes : list EnvironmentRuntime;
  Resources : list Resource;
  RuntimeBindings : list ResourceRuntimeBinding;
  Relations : list ResourceRelation;
  Storages : list StorageResource;
  Profiles : list ActivityResourceProfile;
  Connections : list EnvironmentConnection;
  ConnectionChecks : list ConnectionCheck;
  ConnectorBindings : list ConnectorBinding
}.
#[global] Instance eta : Eta EnvironmentDefinition := λ r,
  mk (r.(Environment)) (r.(Version)) (r.(Runtimes)) (r.(Resources))
    (r.(RuntimeBindings)) (r.(Relations)) (r.(Storages)) (r.(Profiles))
    (r.(Connections)) (r.(ConnectionChecks)) (r.(ConnectorBindings)).
#[global] Instance zero_value : Zero EnvironmentDefinition :=
  mk zero zero zero zero zero zero zero zero zero zero zero.
End EnvironmentDefinition.
Abbreviation EnvironmentDefinition := EnvironmentDefinition.EnvironmentDefinition.

(** ** internal/domain/planning/planning.go *)

Inductive PlanningSource :=
| PlanningSourcePlugin
| PlanningSourceImported
| PlanningSourceOther (s : string).
Definition PlanningSource_string (v : PlanningSource) : string :=
  match v with
  | PlanningSourcePlugin => "plugin"
  | PlanningSourceImported => "imported"
  | PlanningSourceOther s => s
  end.
#[global] Instance PlanningSource_eq_dec : EqDecision PlanningSource.
Proof. solve_decision. Defined.
#[global] Instance zero_PlanningSource : Zero PlanningSource := PlanningSourceOther "".

Inductive ExecutionMode :=
| ExecutionModeReal
| ExecutionModeSimulation
| ExecutionModeInteractive
| ExecutionModeOther (s : string).
Definition ExecutionMode_string (v : ExecutionMode) : string :=
  match v with
  | ExecutionModeReal => "real"
  | ExecutionModeSimulation => "simulation"
  | ExecutionModeInteractive => "interactive"
  | ExecutionModeOther s => s
  end.
#[global] Instance ExecutionMode_eq_dec : EqDecision ExecutionMode.
Proof. solve_decision. Defined.
#[global] Instance zero_ExecutionMode : Zero ExecutionMode := ExecutionModeOther "".

Module PredictedMetrics.
Record PredictedMetrics := mk {
  MakespanSeconds : float64;
  Cost : float64;
  Feasible : bool
}.
#[global] Instance eta : Eta PredictedMetrics := λ r,
  mk (r.(MakespanSeconds)) (r.(Cost)) (r.(Feasible)).
#[global] Instance zero_value : Zero PredictedMetrics :=
  mk zero zero zero.
End PredictedMetrics.
Abbreviation PredictedMetrics := PredictedMetrics.PredictedMetrics.

Module PlanAssignment.
Record PlanAssignment := mk {
  ID : string;
  PlanID : string;
  ActivityID : string;
  ResourceID : string;
  CoreID : string;
  SlotID : string;
  OrderOnResource : Z;
  Priority : Z;
  PredictedReadyAt : float64;
  PredictedStartAt : float64;
  PredictedFinishAt : float64;
  PredictedRuntimeSeconds : float64;
  PredictedTransferSeconds : float64;
  PredictedCost : float64;
  Metadata : metadata
}.
#[global] Instance eta : Eta PlanAssignment := λ r,
  mk (r.(ID)) (r.(PlanID)) (r.(ActivityID)) (r.(ResourceID)) (r.(CoreID))
    (r.(SlotID)) (r.(OrderOnResource)) (r.(Priority)) (r.(PredictedReadyAt))
    (r.(PredictedStartAt)) (r.(PredictedFinishAt))
    (r.(PredictedRuntimeSeconds)) (r.(PredictedTransferSeconds))
    (r.(PredictedCost)) (r.(Metadata)).
#[global] Instance zero_value : Zero PlanAssignment :=
  mk zero zero zero zero zero zero zero zero zero zero zero zero zero zero zero.
End PlanAssignment.
Abbreviation PlanAssignment := PlanAssignment.PlanAssignment.

Module SchedulePlan.
Record SchedulePlan := mk {
  ID : string;
  WorkflowVersionID : string;
  ExecutionScopeID : string;
  NetworkTopologyID : string;
  Source : PlanningSource;
  Algorithm : string;
  AlgorithmVersion : string;
  Objective : string;
  DeadlineSeconds : float64;
  Budget : float64;
  Predicted : PredictedMetrics;
  Assignments : list PlanAssignment;
  AssignmentCount : Z;
  Metadata : metadata
}.
#[global] Instance eta : Eta SchedulePlan := λ r,
  mk (r.(ID)) (r.(WorkflowVersionID)) (r.(ExecutionScopeID))
    (r.(NetworkTopologyID)) (r.(Source)) (r.(Algorithm))
    (r.(AlgorithmVersion)) (r.(Objective)) (r.(DeadlineSeconds)) (r.(Budget))
    (r.(Predicted)) (r.(Assignments)) (r.(AssignmentCount)) (r.(Metadata)).
#[global] Instance zero_value : Zero SchedulePlan :=
  mk zero zero zero zero zero zero zero zero zero zero zero zero zero zero.
End SchedulePlan.
Abbreviation SchedulePlan := SchedulePlan.SchedulePlan.

Module PlanningRequest.
Record PlanningRequest := mk {
  Workflow : WorkflowVersion;
  ExecutionScope : ExecutionScope;
  Environments : list EnvironmentVersion;
  Resources : list Resource;
  NetworkTopology : NetworkTopology;
  ActivityProfiles : list ActivityResourceProfile;
  DeadlineSeconds : float64;
  Budget : float64
}.
#[global] Instance eta : Eta PlanningRequest := λ r,
  mk (r.(Workflow)) (r.(ExecutionScope)) (r.(Environments)) (r.(Resources))
    (r.(NetworkTopology)) (r.(ActivityProfiles)) (r.(DeadlineSeconds))
    (r.(Budget)).
#[global] Instance zero_value : Zero PlanningRequest :=
  mk zero zero zero zero zero zero zero zero.
End PlanningRequest.
Abbreviation PlanningRequest := PlanningRequest.PlanningRequest.

(** ** internal/domain/execution/artifact_observation.go *)

Inductive ArtifactChange :=
| ArtifactCreated
| ArtifactModified
| ArtifactDeleted
| ArtifactChangeOther (s : string).
Definition ArtifactChange_string (v : ArtifactChange) : string :=
  match v with
  | ArtifactCreated => "created"
  | ArtifactModified => "modified"
  | ArtifactDeleted => "deleted"
  | ArtifactChangeOther s => s
  end.
#[global] Instance ArtifactChange_eq_dec : EqDecision ArtifactChange.
Proof. solve_decision. Defined.
#[global] Instance zero_ArtifactChange : Zero ArtifactChange := ArtifactChangeOther "".

Module ArtifactObservation.
Record ArtifactObservation := mk {
  Path : string;
  Change : ArtifactChange;
  SizeBytes : Z;
  Checksum : string;
  ModifiedUnixNano : Z
}.
#[global] Instance eta : Eta ArtifactObservation := λ r,
  mk (r.(Path)) (r.(Change)) (r.(SizeBytes)) (r.(Checksum))
    (r.(ModifiedUnixNano)).
#[global] Instance zero_value : Zero ArtifactObservation :=
  mk zero zero zero zero zero.
End ArtifactObservation.
Abbreviation ArtifactObservation := ArtifactObservation.ArtifactObservation.

Module LifecycleObservation.
Record LifecycleObservation := mk {
  Phase : string;
  Status : string;
  StartedAt : float64;
  FinishedAt : float64;
  DurationSeconds : float64;
  Error : string
}.
#[global] Instance eta : Eta LifecycleObservation := λ r,
  mk (r.(Phase)) (r.(Status)) (r.(StartedAt)) (r.(FinishedAt))
    (r.(DurationSeconds)) (r.(Error)).
#[global] Instance zero_value : Zero LifecycleObservation :=
  mk zero zero zero zero zero zero.
End LifecycleObservation.
Abbreviation LifecycleObservation := LifecycleObservation.LifecycleObservation.

Module ArtifactSummary.
Record ArtifactSummary := mk {
  InitialFiles : Z;
  FinalFiles : Z;
  CreatedFiles : Z;
  ModifiedFiles : Z;
  DeletedFiles : Z;
  OutputBytes : Z
}.
#[global] Instance eta : Eta ArtifactSummary := λ r,
  mk (r.(InitialFiles)) (r.(FinalFiles)) (r.(CreatedFiles)) (r.(ModifiedFiles))
    (r.(DeletedFiles)) (r.(OutputBytes)).
#[global] Instance zero_value : Zero ArtifactSummary :=
  mk zero zero zero zero zero zero.
End ArtifactSummary.
Abbreviation ArtifactSummary := ArtifactSummary.ArtifactSummary.

Module ArtifactManifest.
Record ArtifactManifest := mk {
  SchemaVersion : Z;
  RunID : string;
  ActivityID : string;
  Attempt : Z;
  Runtime : string;
  Hostname : string;
  Root : string;
  StartedAt : float64;
  FinishedAt : float64;
  ExitCode : Z;
  Files : list ArtifactObservation;
  Phases : list LifecycleObservation;
  Summary : ArtifactSummary
}.
#[global] Instance eta : Eta ArtifactManifest := λ r,
  mk (r.(SchemaVersion)) (r.(RunID)) (r.(ActivityID)) (r.(Attempt))
    (r.(Runtime)) (r.(Hostname)) (r.(Root)) (r.(StartedAt)) (r.(FinishedAt))
    (r.(ExitCode)) (r.(Files)) (r.(Phases)) (r.(Summary)).
#[global] Instance zero_value : Zero ArtifactManifest :=
  mk zero zero zero zero zero zero zero zero zero zero zero zero zero.
End ArtifactManifest.
Abbreviation ArtifactManifest := ArtifactManifest.ArtifactManifest.

(** ** internal/domain/execution/materialization.go *)

Inductive MaterializationStatus :=
| MaterializationPlanned
| MaterializationReconciling
| MaterializationTransferring
| MaterializationVerifying
| MaterializationCommitted
| MaterializationFailed
| MaterializationStatusOther (s : string).
Definition MaterializationStatus_string (v : MaterializationStatus) : string :=
  match v with
  | MaterializationPlanned => "planned"
  | MaterializationReconciling => "reconciling"
  | MaterializationTransferring => "transferring"
  | MaterializationVerifying => "verifying"
  | MaterializationCommitted => "committed"
  | MaterializationFailed => "failed"
  | MaterializationStatusOther s => s
  end.
#[global] Instance MaterializationStatus_eq_dec : EqDecision MaterializationStatus.
Proof. solve_decision. Defined.
#[global] Instance zero_MaterializationStatus : Zero MaterializationStatus := MaterializationStatusOther "".

Inductive TransferStatus :=
| TransferPlanned
| TransferRunning
| TransferCompleted
| TransferFailed
| TransferStatusOther (s : string).
Definition TransferStatus_string (v : TransferStatus) : string :=
  match v with
  | TransferPlanned => "planned"
  | TransferRunning => "running"
  | TransferCompleted => "completed"
  | TransferFailed => "failed"
  | TransferStatusOther s => s
  end.
#[global] Instance TransferStatus_eq_dec : EqDecision TransferStatus.
Proof. solve_decision. Defined.
#[global] Instance zero_TransferStatus : Zero TransferStatus := TransferStatusOther "".

Inductive CatalogScope :=
| CatalogScopeSystem
| CatalogScopeOrganization
| CatalogScopeProject
| CatalogScopeWorkflow
| CatalogScopeRun
| CatalogScopeEnvironment
| CatalogScopeOther (s : string).
Definition CatalogScope_string (v : CatalogScope) : string :=
  match v with
  | CatalogScopeSystem => "system"
  | CatalogScopeOrganization => "organization"
  | CatalogScopeProject => "project"
  | CatalogScopeWorkflow => "workflow"
  | CatalogScopeRun => "run"
  | CatalogScopeEnvironment => "environment"
  | CatalogScopeOther s => s
  end.
#[global] Instance CatalogScope_eq_dec : EqDecision CatalogScope.
Proof. solve_decision. Defined.
#[global] Instance zero_CatalogScope : Zero CatalogScope := CatalogScopeOther "".

Inductive TransferStrategy :=
| TransferUseExisting
| TransferDestinationPull
| TransferSourcePush
| TransferGateway
| TransferStrategyOther (s : string).
Definition TransferStrategy_string (v : TransferStrategy) : string :=
  match v with
  | TransferUseExisting => "use-existing"
  | TransferDestinationPull => "destination-pull"
  | TransferSourcePush => "source-push"
  | TransferGateway => "gateway"
  | TransferStrategyOther s => s
  end.
#[global] Instance TransferStrategy_eq_dec : EqDecision TransferStrategy.
Proof. solve_decision. Defined.
#[global] Instance zero_TransferStrategy : Zero TransferStrategy := TransferStrategyOther "".

Module ExecutableArtifact.
Record ExecutableArtifact := mk {
  ID : string;
  Name : string;
  Version : string
}.
#[global] Instance eta : Eta ExecutableArtifact := λ r,
  mk (r.(ID)) (r.(Name)) (r.(Version)).
#[global] Instance zero_value : Zero ExecutableArtifact :=
  mk zero zero zero.
End ExecutableArtifact.
Abbreviation ExecutableArtifact := ExecutableArtifact.ExecutableArtifact.

Module ArtifactVariant.
Record ArtifactVariant := mk {
  ID : string;
  ArtifactID : string;
  Digest : string;
  Format : string;
  Architecture : string;
  SizeBytes : Z
}.
#[global] Instance eta : Eta ArtifactVariant := λ r,
  mk (r.(ID)) (r.(ArtifactID)) (r.(Digest)) (r.(Format)) (r.(Architecture))
    (r.(SizeBytes)).
#[global] Instance zero_value : Zero ArtifactVariant :=
  mk zero zero zero zero zero zero.
End ArtifactVariant.
Abbreviation ArtifactVariant := ArtifactVariant.ArtifactVariant.

Module ArtifactMaterialization.
Record ArtifactMaterialization := mk {
  ID : string;
  RunID : string;
  ActivityID : string;
  VariantID : string;
  Digest : string;
  ResourceID : string;
  EnvironmentID : string;
  DestinationPath : string;
  Status : MaterializationStatus;
  VerifiedDigest : string
}.
#[global] Instance eta : Eta ArtifactMaterialization := λ r,
  mk (r.(ID)) (r.(RunID)) (r.(ActivityID)) (r.(VariantID)) (r.(Digest))
    (r.(ResourceID)) (r.(EnvironmentID)) (r.(DestinationPath)) (r.(Status))
    (r.(VerifiedDigest)).
#[global] Instance zero_value : Zero ArtifactMaterialization :=
  mk zero zero zero zero zero zero zero zero zero zero.
End ArtifactMaterialization.
Abbreviation ArtifactMaterialization := ArtifactMaterialization.ArtifactMaterialization.

Module TransferLocation.
Record TransferLocation := mk {
  ResourceID : string;
  EnvironmentID : string;
  URI : string;
  Path : string
}.
#[global] Instance eta : Eta TransferLocation := λ r,
  mk (r.(ResourceID)) (r.(EnvironmentID)) (r.(URI)) (r.(Path)).
#[global] Instance zero_value : Zero TransferLocation :=
  mk zero zero zero zero.
End TransferLocation.
Abbreviation TransferLocation := TransferLocation.TransferLocation.

Module ArtifactVersion.
Record ArtifactVersion := mk {
  ID : string;
  ArtifactID : string;
  Version : string;
  Scope : CatalogScope;
  ScopeID : string
}.
#[global] Instance eta : Eta ArtifactVersion := λ r,
  mk (r.(ID)) (r.(ArtifactID)) (r.(Version)) (r.(Scope)) (r.(ScopeID)).
#[global] Instance zero_value : Zero ArtifactVersion :=
  mk zero zero zero zero zero.
End ArtifactVersion.
Abbreviation ArtifactVersion := ArtifactVersion.ArtifactVersion.

Module ArtifactLocation.
Record ArtifactLocation := mk {
  ID : string;
  VariantID : string;
  Scope : CatalogScope;
  ScopeID : string;
  EndpointID : string;
  URI : string;
  Digest : string;
  Available : bool
}.
#[global] Instance eta : Eta ArtifactLocation := λ r,
  mk (r.(ID)) (r.(VariantID)) (r.(Scope)) (r.(ScopeID)) (r.(EndpointID))
    (r.(URI)) (r.(Digest)) (r.(Available)).
#[global] Instance zero_value : Zero ArtifactLocation :=
  mk zero zero zero zero zero zero zero zero.
End ArtifactLocation.
Abbreviation ArtifactLocation := ArtifactLocation.ArtifactLocation.

Module TransferEndpoint.
Record TransferEndpoint := mk {
  ID : string;
  Kind : string;
  URI : string;
  ResourceID : string;
  EnvironmentID : string;
  Configuration : gmap string string
}.
#[global] Instance eta : Eta TransferEndpoint := λ r,
  mk (r.(ID)) (r.(Kind)) (r.(URI)) (r.(ResourceID)) (r.(EnvironmentID))
    (r.(Configuration)).
#[global] Instance zero_value : Zero TransferEndpoint :=
  mk zero zero zero zero zero zero.
End TransferEndpoint.
Abbreviation TransferEndpoint := TransferEndpoint.TransferEndpoint.

Module TransferConnectorBinding.
Record TransferConnectorBinding := mk {
  ID : string;
  EndpointID : string;
  Connector : string;
  CredentialRef : string;
  Enabled : bool
}.
#[global] Instance eta : Eta TransferConnectorBinding := λ r,
  mk (r.(ID)) (r.(EndpointID)) (r.(Connector)) (r.(CredentialRef))
    (r.(Enabled)).
#[global] Instance zero_value : Zero TransferConnectorBinding :=
  mk zero zero zero zero zero.
End TransferConnectorBinding.
Abbreviation TransferConnectorBinding := TransferConnectorBinding.TransferConnectorBinding.

Module BlobDescriptor.
Record BlobDescriptor := mk {
  Digest : string;
  SizeBytes : Z
}.
#[global] Instance eta : Eta BlobDescriptor := λ r,
  mk (r.(Digest)) (r.(SizeBytes)).
#[global] Instance zero_value : Zero BlobDescriptor :=
  mk zero zero.
End BlobDescriptor.
Abbreviation BlobDescriptor := BlobDescriptor.BlobDescriptor.

Module TransferChunk.
Record TransferChunk := mk {
  Index : Z;
  Offset : Z;
  SizeBytes : Z;
  Digest : string;
  Received : bool
}.
#[global] Instance eta : Eta TransferChunk := λ r,
  mk (r.(Index)) (r.(Offset)) (r.(SizeBytes)) (r.(Digest)) (r.(Received)).
#[global] Instance zero_value : Zero TransferChunk :=
  mk zero zero zero zero zero.
End TransferChunk.
Abbreviation TransferChunk := TransferChunk.TransferChunk.

Module DataTransferPlan.
Record DataTransferPlan := mk {
  ID : string;
  Strategy : TransferStrategy;
  Source : TransferLocation;
  Destination : TransferLocation;
  Blobs : list BlobDescriptor;
  Chunks : list TransferChunk;
  ResumeFrom : list Z
}.
#[global] Instance eta : Eta DataTransferPlan := λ r,
  mk (r.(ID)) (r.(Strategy)) (r.(Source)) (r.(Destination)) (r.(Blobs))
    (r.(Chunks)) (r.(ResumeFrom)).
#[global] Instance zero_value : Zero DataTransferPlan :=
  mk zero zero zero zero zero zero zero.
End DataTransferPlan.
Abbreviation DataTransferPlan := DataTransferPlan.DataTransferPlan.

Module DataTransferRun.
Record DataTransferRun := mk {
  ID : string;
  PlanID : string;
  Strategy : TransferStrategy;
  Status : TransferStatus;
  VerifiedBlobs : list string;
  CompletedChunks : list Z;
  StartedAt : float64;
  FinishedAt : float64;
  TransferredBytes : Z;
  Error : string
}.
#[global] Instance eta : Eta DataTransferRun := λ r,
  mk (r.(ID)) (r.(PlanID)) (r.(Strategy)) (r.(Status)) (r.(VerifiedBlobs))
    (r.(CompletedChunks)) (r.(StartedAt)) (r.(FinishedAt))
    (r.(TransferredBytes)) (r.(Error)).
#[global] Instance zero_value : Zero DataTransferRun :=
  mk zero zero zero zero zero zero zero zero zero zero.
End DataTransferRun.
Abbreviation DataTransferRun := DataTransferRun.DataTransferRun.

Module ArtifactBuild.
Record ArtifactBuild := mk {
  ID : string;
  ArtifactVersionID : string;
  SourceType : string;
  ContextDigest : string;
  RecipePath : string;
  RecipeDigest : string;
  TargetFormat : string;
  TargetOS : string;
  TargetArchitecture : string;
  BuildArguments : string;
  CacheKey : string
}.
#[global] Instance eta : Eta ArtifactBuild := λ r,
  mk (r.(ID)) (r.(ArtifactVersionID)) (r.(SourceType)) (r.(ContextDigest))
    (r.(RecipePath)) (r.(RecipeDigest)) (r.(TargetFormat)) (r.(TargetOS))
    (r.(TargetArchitecture)) (r.(BuildArguments)) (r.(CacheKey)).
#[global] Instance zero_value : Zero ArtifactBuild :=
  mk zero zero zero zero zero zero zero zero zero zero zero.
End ArtifactBuild.
Abbreviation ArtifactBuild := ArtifactBuild.ArtifactBuild.

Module BuildRun.
Record BuildRun := mk {
  ID : string;
  ArtifactBuildID : string;
  Status : string;
  OutputVariantID : string;
  OutputDigest : string;
  Logs : string;
  Error : string
}.
#[global] Instance eta : Eta BuildRun := λ r,
  mk (r.(ID)) (r.(ArtifactBuildID)) (r.(Status)) (r.(OutputVariantID))
    (r.(OutputDigest)) (r.(Logs)) (r.(Error)).
#[global] Instance zero_value : Zero BuildRun :=
  mk zero zero zero zero zero zero zero.
End BuildRun.
Abbreviation BuildRun := BuildRun.BuildRun.

Module BuildContextArtifact.
Record BuildContextArtifact := mk {
  Digest : string;
  StorageURI : string;
  SizeBytes : Z;
  MediaType : string
}.
#[global] Instance eta : Eta BuildContextArtifact := λ r,
  mk (r.(Digest)) (r.(StorageURI)) (r.(SizeBytes)) (r.(MediaType)).
#[global] Instance zero_value : Zero BuildContextArtifact :=
  mk zero zero zero zero.
End BuildContextArtifact.
Abbreviation BuildContextArtifact := BuildContextArtifact.BuildContextArtifact.

Module WorkspaceBlob.
Record WorkspaceBlob := mk {
  Path : string;
  Digest : string;
  SizeBytes : Z;
  Deleted : bool
}.
#[global] Instance eta : Eta WorkspaceBlob := λ r,
  mk (r.(Path)) (r.(Digest)) (r.(SizeBytes)) (r.(Deleted)).
#[global] Instance zero_value : Zero WorkspaceBlob :=
  mk zero zero zero zero.
End WorkspaceBlob.
Abbreviation WorkspaceBlob := WorkspaceBlob.WorkspaceBlob.

Module WorkspaceRevision.
Record WorkspaceRevision := mk {
  ID : string;
  ParentID : string;
  Blobs : list WorkspaceBlob
}.
#[global] Instance eta : Eta WorkspaceRevision := λ r,
  mk (r.(ID)) (r.(ParentID)) (r.(Blobs)).
#[global] Instance zero_value : Zero WorkspaceRevision :=
  mk zero zero zero.
End WorkspaceRevision.
Abbreviation WorkspaceRevision := WorkspaceRevision.WorkspaceRevision.

Module WorkspaceInventory.
Record WorkspaceInventory := mk {
  Digests : gmap string bool
}.
#[global] Instance eta : Eta WorkspaceInventory := λ r,
  mk (r.(Digests)).
#[global] Instance zero_value : Zero WorkspaceInventory :=
  mk zero.
End WorkspaceInventory.
Abbreviation WorkspaceInventory := WorkspaceInventory.WorkspaceInventory.

Module WorkspaceMaterialization.
Record WorkspaceMaterialization := mk {
  ID : string;
  RevisionID : string;
  Destination : TransferLocation;
  Status : MaterializationStatus;
  Missing : list BlobDescriptor;
  Verified : list string
}.
#[global] Instance eta : Eta WorkspaceMaterialization := λ r,
  mk (r.(ID)) (r.(RevisionID)) (r.(Destination)) (r.(Status)) (r.(Missing))
    (r.(Verified)).
#[global] Instance zero_value : Zero WorkspaceMaterialization :=
  mk zero zero zero zero zero zero.
End WorkspaceMaterialization.
Abbreviation WorkspaceMaterialization := WorkspaceMaterialization.WorkspaceMaterialization.

Module PreparationRequirement.
Record PreparationRequirement := mk {
  Artifact : option ArtifactMaterialization;
  ArtifactTransfer : option DataTransferPlan;
  Workspace : option WorkspaceMaterialization;
  WorkspaceTransfer : option DataTransferPlan
}.
#[global] Instance eta : Eta PreparationRequirement := λ r,
  mk (r.(Artifact)) (r.(ArtifactTransfer)) (r.(Workspace))
    (r.(WorkspaceTransfer)).
#[global] Instance zero_value : Zero PreparationRequirement :=
  mk zero zero zero zero.
End PreparationRequirement.
Abbreviation PreparationRequirement := PreparationRequirement.PreparationRequirement.

Module PreparationGate.
Record PreparationGate := mk {
  Executable : option ArtifactMaterialization;
  Workspace : option WorkspaceMaterialization;
  TransferRuns : list DataTransferRun
}.
#[global] Instance eta : Eta PreparationGate := λ r,
  mk (r.(Executable)) (r.(Workspace)) (r.(TransferRuns)).
#[global] Instance zero_value : Zero PreparationGate :=
  mk zero zero zero.
End PreparationGate.
Abbreviation PreparationGate := PreparationGate.PreparationGate.

(** ** internal/domain/execution/execution.go *)

Inductive ExecutionRunStatus :=
| ExecutionRunCreated
| ExecutionRunRunning
| ExecutionRunCompleted
| ExecutionRunFailed
| ExecutionRunStatusOther (s : string).
Definition ExecutionRunStatus_string (v : ExecutionRunStatus) : string :=
  match v with
  | ExecutionRunCreated => "created"
  | ExecutionRunRunning => "running"
  | ExecutionRunCompleted => "completed"
  | ExecutionRunFailed => "failed"
  | ExecutionRunStatusOther s => s
  end.
#[global] Instance ExecutionRunStatus_eq_dec : EqDecision ExecutionRunStatus.
Proof. solve_decision. Defined.
#[global] Instance zero_ExecutionRunStatus : Zero ExecutionRunStatus := ExecutionRunStatusOther "".

Inductive TaskExecutionStatus :=
| TaskBlocked
| TaskReady
| TaskPreparing
| TaskRunning
| TaskCompleted
| TaskFailed
| TaskCancelled
| TaskExecutionStatusOther (s : string).
Definition TaskExecutionStatus_string (v : TaskExecutionStatus) : string :=
  match v with
  | TaskBlocked => "blocked"
  | TaskReady => "ready"
  | TaskPreparing => "preparing"
  | TaskRunning => "running"
  | TaskCompleted => "completed"
  | TaskFailed => "failed"
  | TaskCancelled => "cancelled"
  | TaskExecutionStatusOther s => s
  end.
#[global] Instance TaskExecutionStatus_eq_dec : EqDecision TaskExecutionStatus.
Proof. solve_decision. Defined.
#[global] Instance zero_TaskExecutionStatus : Zero TaskExecutionStatus := TaskExecutionStatusOther "".

Inductive ActivityHandleStatus :=
| HandleStarting
| HandleRunning
| HandleCompleted
| HandleFailed
| HandleStopped
| ActivityHandleStatusOther (s : string).
Definition ActivityHandleStatus_string (v : ActivityHandleStatus) : string :=
  match v with
  | HandleStarting => "starting"
  | HandleRunning => "running"
  | HandleCompleted => "completed"
  | HandleFailed => "failed"
  | HandleStopped => "stopped"
  | ActivityHandleStatusOther s => s
  end.
#[global] Instance ActivityHandleStatus_eq_dec : EqDecision ActivityHandleStatus.
Proof. solve_decision. Defined.
#[global] Instance zero_ActivityHandleStatus : Zero ActivityHandleStatus := ActivityHandleStatusOther "".

Inductive ExecutionRunKind :=
| ExecutionRunWorkflow
| ExecutionRunInteractive
| ExecutionRunStandalone
| ExecutionRunKindOther (s : string).
Definition ExecutionRunKind_string (v : ExecutionRunKind) : string :=
  match v with
  | ExecutionRunWorkflow => "workflow"
  | ExecutionRunInteractive => "interactive"
  | ExecutionRunStandalone => "standalone"
  | ExecutionRunKindOther s => s
  end.
#[global] Instance ExecutionRunKind_eq_dec : EqDecision ExecutionRunKind.
Proof. solve_decision. Defined.
#[global] Instance zero_ExecutionRunKind : Zero ExecutionRunKind := ExecutionRunKindOther "".

Module ExecutionBreakdown.
Record ExecutionBreakdown := mk {
  ComputeSeconds : float64;
  TransferSeconds : float64;
  QueueSeconds : float64;
  InterferenceSeconds : float64;
  OverheadSeconds : float64
}.
#[global] Instance eta : Eta ExecutionBreakdown := λ r,
  mk (r.(ComputeSeconds)) (r.(TransferSeconds)) (r.(QueueSeconds))
    (r.(InterferenceSeconds)) (r.(OverheadSeconds)).
#[global] Instance zero_value : Zero ExecutionBreakdown :=
  mk zero zero zero zero zero.
End ExecutionBreakdown.
Abbreviation ExecutionBreakdown := ExecutionBreakdown.ExecutionBreakdown.

Module ExecutionRun.
Record ExecutionRun := mk {
  ID : string;
  SchedulePlanID : string;
  Mode : ExecutionMode;
  Seed : Z;
  Status : ExecutionRunStatus;
  EnvironmentSnapshotID : string;
  MakespanSeconds : float64;
  Cost : float64;
  FailureReason : string;
  ActivityCount : Z;
  CompletedActivityCount : Z;
  Breakdown : ExecutionBreakdown;
  TransferredBytes : Z;
  Kind : ExecutionRunKind;
  Title : string;
  ResourceID : string;
  RuntimeID : string;
  ConnectionID : string;
  ActorID : string;
  Command : string;
  StartedAt : option Time;
  FinishedAt : option Time
}.
#[global] Instance eta : Eta ExecutionRun := λ r,
  mk (r.(ID)) (r.(SchedulePlanID)) (r.(Mode)) (r.(Seed)) (r.(Status))
    (r.(EnvironmentSnapshotID)) (r.(MakespanSeconds)) (r.(Cost))
    (r.(FailureReason)) (r.(ActivityCount)) (r.(CompletedActivityCount))
    (r.(Breakdown)) (r.(TransferredBytes)) (r.(Kind)) (r.(Title))
    (r.(ResourceID)) (r.(RuntimeID)) (r.(ConnectionID)) (r.(ActorID))
    (r.(Command)) (r.(StartedAt)) (r.(FinishedAt)).
#[global] Instance zero_value : Zero ExecutionRun :=
  mk zero zero zero zero zero zero zero zero zero zero zero zero zero zero zero
    zero zero zero zero zero zero zero.
End ExecutionRun.
Abbreviation ExecutionRun := ExecutionRun.ExecutionRun.

Module ExecutionRunPage.
Record ExecutionRunPage := mk {
  Items : list ExecutionRun;
  Page : Z;
  PageSize : Z;
  Total : Z;
  HasNext : bool
}.
#[global] Instance eta : Eta ExecutionRunPage := λ r,
  mk (r.(Items)) (r.(Page)) (r.(PageSize)) (r.(Total)) (r.(HasNext)).
#[global] Instance zero_value : Zero ExecutionRunPage :=
  mk zero zero zero zero zero.
End ExecutionRunPage.
Abbreviation ExecutionRunPage := ExecutionRunPage.ExecutionRunPage.

Module TaskExecution.
Record TaskExecution := mk {
  ID : string;
  ExecutionRunID : string;
  PlanAssignmentID : string;
  ActivityID : string;
  PlannedResourceID : string;
  AllocatedResourceID : string;
  Attempt : Z;
  Status : TaskExecutionStatus;
  ReadyAt : float64;
  DataReadyAt : float64;
  QueuedAt : float64;
  StartedAt : float64;
  FinishedAt : float64;
  RuntimeSeconds : float64;
  QueueSeconds : float64;
  TransferSeconds : float64;
  TransferBytes : Z;
  InterferenceSeconds : float64;
  OverheadSeconds : float64;
  Cost : float64;
  FailureReason : string
}.
#[global] Instance eta : Eta TaskExecution := λ r,
  mk (r.(ID)) (r.(ExecutionRunID)) (r.(PlanAssignmentID)) (r.(ActivityID))
    (r.(PlannedResourceID)) (r.(AllocatedResourceID)) (r.(Attempt))
    (r.(Status)) (r.(ReadyAt)) (r.(DataReadyAt)) (r.(QueuedAt))
    (r.(StartedAt)) (r.(FinishedAt)) (r.(RuntimeSeconds)) (r.(QueueSeconds))
    (r.(TransferSeconds)) (r.(TransferBytes)) (r.(InterferenceSeconds))
    (r.(OverheadSeconds)) (r.(Cost)) (r.(FailureReason)).
#[global] Instance zero_value : Zero TaskExecution :=
  mk zero zero zero zero zero zero zero zero zero zero zero zero zero zero zero
    zero zero zero zero zero zero.
End TaskExecution.
Abbreviation TaskExecution := TaskExecution.TaskExecution.

Module ExecutionMetrics.
Record ExecutionMetrics := mk {
  MakespanSeconds : float64;
  Cost : float64;
  ComputeSeconds : float64;
  TransferSeconds : float64;
  QueueSeconds : float64;
  InterferenceSeconds : float64;
  OverheadSeconds : float64;
  Feasible : bool
}.
#[global] Instance eta : Eta ExecutionMetrics := λ r,
  mk (r.(MakespanSeconds)) (r.(Cost)) (r.(ComputeSeconds))
    (r.(TransferSeconds)) (r.(QueueSeconds)) (r.(InterferenceSeconds))
    (r.(OverheadSeconds)) (r.(Feasible)).
#[global] Instance zero_value : Zero ExecutionMetrics :=
  mk zero zero zero zero zero zero zero zero.
End ExecutionMetrics.
Abbreviation ExecutionMetrics := ExecutionMetrics.ExecutionMetrics.

Module DataTransfer.
Record DataTransfer := mk {
  ID : string;
  ExecutionRunID : string;
  ProducerActivityID : string;
  ConsumerActivityID : string;
  SourceResourceID : string;
  TargetResourceID : string;
  Bytes : Z;
  StartedAt : float64;
  FinishedAt : float64;
  DurationSeconds : float64;
  Cost : float64
}.
#[global] Instance eta : Eta DataTransfer := λ r,
  mk (r.(ID)) (r.(ExecutionRunID)) (r.(ProducerActivityID))
    (r.(ConsumerActivityID)) (r.(SourceResourceID)) (r.(TargetResourceID))
    (r.(Bytes)) (r.(StartedAt)) (r.(FinishedAt)) (r.(DurationSeconds))
    (r.(Cost)).
#[global] Instance zero_value : Zero DataTransfer :=
  mk zero zero zero zero zero zero zero zero zero zero zero.
End DataTransfer.
Abbreviation DataTransfer := DataTransfer.DataTransfer.

Module ExecutionTrace.
Record ExecutionTrace := mk {
  RunID : string;
  PlanID : string;
  Mode : ExecutionMode;
  Predicted : PredictedMetrics;
  Executed : ExecutionMetrics;
  Tasks : list TaskExecution;
  Transfers : list DataTransfer
}.
#[global] Instance eta : Eta ExecutionTrace := λ r,
  mk (r.(RunID)) (r.(PlanID)) (r.(Mode)) (r.(Predicted)) (r.(Executed))
    (r.(Tasks)) (r.(Transfers)).
#[global] Instance zero_value : Zero ExecutionTrace :=
  mk zero zero zero zero zero zero zero.
End ExecutionTrace.
Abbreviation ExecutionTrace := ExecutionTrace.ExecutionTrace.

Module ActivityExecutionContext.
Record ActivityExecutionContext := mk {
  Run : ExecutionRun;
  Workflow : WorkflowVersion;
  Activity : Activity;
  Assignment : PlanAssignment;
  Resource : Resource;
  RuntimeID : string;
  Preparation : option PreparationGate
}.
#[global] Instance eta : Eta ActivityExecutionContext := λ r,
  mk (r.(Run)) (r.(Workflow)) (r.(Activity)) (r.(Assignment)) (r.(Resource))
    (r.(RuntimeID)) (r.(Preparation)).
#[global] Instance zero_value : Zero ActivityExecutionContext :=
  mk zero zero zero zero zero zero zero.
End ActivityExecutionContext.
Abbreviation ActivityExecutionContext := ActivityExecutionContext.ActivityExecutionContext.

Module ActivityHandle.
Record ActivityHandle := mk {
  ID : string;
  RunID : string;
  ActivityID : string;
  ResourceID : string;
  RuntimeID : string;
  ExternalID : string;
  Status : ActivityHandleStatus;
  Endpoints : list string;
  StartedAt : float64;
  FinishedAt : float64;
  ExitCode : option Z;
  Failure : string;
  Log : string;
  Artifacts : option ArtifactManifest;
  Metadata : metadata
}.
#[global] Instance eta : Eta ActivityHandle := λ r,
  mk (r.(ID)) (r.(RunID)) (r.(ActivityID)) (r.(ResourceID)) (r.(RuntimeID))
    (r.(ExternalID)) (r.(Status)) (r.(Endpoints)) (r.(StartedAt))
    (r.(FinishedAt)) (r.(ExitCode)) (r.(Failure)) (r.(Log)) (r.(Artifacts))
    (r.(Metadata)).
#[global] Instance zero_value : Zero ActivityHandle :=
  mk zero zero zero zero zero zero zero zero zero zero zero zero zero zero zero.
End ActivityHandle.
Abbreviation ActivityHandle := ActivityHandle.ActivityHandle.

(** ** internal/domain/execution/data.go *)

Inductive DataLocationStatus :=
| DataLocationEphemeral
| DataLocationStaging
| DataLocationAvailable
| DataLocationFailed
| DataLocationDeleted
| DataLocationStatusOther (s : string).
Definition DataLocationStatus_string (v : DataLocationStatus) : string :=
  match v with
  | DataLocationEphemeral => "ephemeral"
  | DataLocationStaging => "staging"
  | DataLocationAvailable => "available"
  | DataLocationFailed => "failed"
  | DataLocationDeleted => "deleted"
  | DataLocationStatusOther s => s
  end.
#[global] Instance DataLocationStatus_eq_dec : EqDecision DataLocationStatus.
Proof. solve_decision. Defined.
#[global] Instance zero_DataLocationStatus : Zero DataLocationStatus := DataLocationStatusOther "".

Module DataObject.
Record DataObject := mk {
  ID : string;
  WorkflowVersionID : string;
  ProducerActivityID : string;
  LogicalName : string;
  RelativePath : string;
  Declared : bool;
  Metadata : metadata
}.
#[global] Instance eta : Eta DataObject := λ r,
  mk (r.(ID)) (r.(WorkflowVersionID)) (r.(ProducerActivityID))
    (r.(LogicalName)) (r.(RelativePath)) (r.(Declared)) (r.(Metadata)).
#[global] Instance zero_value : Zero DataObject :=
  mk zero zero zero zero zero zero zero.
End DataObject.
Abbreviation DataObject := DataObject.DataObject.

Module DataObjectInstance.
Record DataObjectInstance := mk {
  ID : string;
  DataObjectID : string;
  ExecutionRunID : string;
  ProducerActivityID : string;
  Attempt : Z;
  RelativePath : string;
  SizeBytes : Z;
  Checksum : string;
  MediaType : string;
  Discovered : bool;
  Metadata : metadata
}.
#[global] Instance eta : Eta DataObjectInstance := λ r,
  mk (r.(ID)) (r.(DataObjectID)) (r.(ExecutionRunID)) (r.(ProducerActivityID))
    (r.(Attempt)) (r.(RelativePath)) (r.(SizeBytes)) (r.(Checksum))
    (r.(MediaType)) (r.(Discovered)) (r.(Metadata)).
#[global] Instance zero_value : Zero DataObjectInstance :=
  mk zero zero zero zero zero zero zero zero zero zero zero.
End DataObjectInstance.
Abbreviation DataObjectInstance := DataObjectInstance.DataObjectInstance.

Module DataLocation.
Record DataLocation := mk {
  ID : string;
  DataObjectInstanceID : string;
  StorageResourceID : string;
  ResourceID : string;
  ExecutionRunID : string;
  URI : string;
  Status : DataLocationStatus;
  Metadata : metadata
}.
#[global] Instance eta : Eta DataLocation := λ r,
  mk (r.(ID)) (r.(DataObjectInstanceID)) (r.(StorageResourceID))
    (r.(ResourceID)) (r.(ExecutionRunID)) (r.(URI)) (r.(Status))
    (r.(Metadata)).
#[global] Instance zero_value : Zero DataLocation :=
  mk zero zero zero zero zero zero zero zero.
End DataLocation.
Abbreviation DataLocation := DataLocation.DataLocation.

(** ** internal/domain/queue/job.go *)

Inductive QueueStatus :=
| StatusPending
| StatusLeased
| StatusCompleted
| StatusFailed
| StatusCancelled
| QueueStatusOther (s : string).
Definition QueueStatus_string (v : QueueStatus) : string :=
  match v with
  | StatusPending => "pending"
  | StatusLeased => "leased"
  | StatusCompleted => "completed"
  | StatusFailed => "failed"
  | StatusCancelled => "cancelled"
  | QueueStatusOther s => s
  end.
#[global] Instance QueueStatus_eq_dec : EqDecision QueueStatus.
Proof. solve_decision. Defined.
#[global] Instance zero_QueueStatus : Zero QueueStatus := QueueStatusOther "".

Module Job.
Record Job := mk {
  ID : string;
  Category : string;
  Type_ : string;
  AggregateType : string;
  AggregateID : string;
  Payload : string;
  Status : QueueStatus;
  Priority : Z;
  AvailableAt : Time;
  LeaseOwner : string;
  LeaseExpiresAt : option Time;
  Attempts : Z;
  MaxAttempts : Z;
  IdempotencyKey : string;
  LastError : string;
  CreatedAt : Time;
  StartedAt : option Time;
  CompletedAt : option Time
}.
#[global] Instance eta : Eta Job := λ r,
  mk (r.(ID)) (r.(Category)) (r.(Type_)) (r.(AggregateType)) (r.(AggregateID))
    (r.(Payload)) (r.(Status)) (r.(Priority)) (r.(AvailableAt))
    (r.(LeaseOwner)) (r.(LeaseExpiresAt)) (r.(Attempts)) (r.(MaxAttempts))
    (r.(IdempotencyKey)) (r.(LastError)) (r.(CreatedAt)) (r.(StartedAt))
    (r.(CompletedAt)).
#[global] Instance zero_value : Zero Job :=
  mk zero zero zero zero zero zero zero zero zero zero zero zero zero zero zero
    zero zero zero.
End Job.
Abbreviation Job := Job.Job.

(** ** internal/domain/events/event.go *)

Module DomainEvent.
Record DomainEvent := mk {
  ID : string;
  Type_ : string;
  AggregateType : string;
  AggregateID : string;
  Payload : metadata;
  OccurredAt : Time;
  Metadata : metadata
}.
#[global] Instance eta : Eta DomainEvent := λ r,
  mk (r.(ID)) (r.(Type_)) (r.(AggregateType)) (r.(AggregateID)) (r.(Payload))
    (r.(OccurredAt)) (r.(Metadata)).
#[global] Instance zero_value : Zero DomainEvent :=
  mk zero zero zero zero zero zero zero.
End DomainEvent.
Abbreviation DomainEvent := DomainEvent.DomainEvent.

(** ** internal/domain/audit/audit.go *)

Inductive AuditOutcome :=
| OutcomeStarted
| OutcomeSucceeded
| OutcomeFailed
| AuditOutcomeOther (s : string).
Definition AuditOutcome_string (v : AuditOutcome) : string :=
  match v with
  | OutcomeStarted => "started"
  | OutcomeSucceeded => "succeeded"
  | OutcomeFailed => "failed"
  | AuditOutcomeOther s => s
  end.
#[global] Instance AuditOutcome_eq_dec : EqDecision AuditOutcome.
Proof. solve_decision. Defined.
#[global] Instance zero_AuditOutcome : Zero AuditOutcome := AuditOutcomeOther "".

Module AuditEvent.
Record AuditEvent := mk {
  ID : string;
  EventType : string;
  ActorID : string;
  ActorType : string;
  EnvironmentID : string;
  ResourceID : string;
  ConnectionID : string;
  RuntimeID : string;
  SessionID : string;
  ExecutionID : string;
  ExternalID : string;
  Outcome : AuditOutcome;
  Summary : string;
  Metadata : metadata;
  OccurredAt : Time
}.
#[global] Instance eta : Eta AuditEvent := λ r,
  mk (r.(ID)) (r.(EventType)) (r.(ActorID)) (r.(ActorType)) (r.(EnvironmentID))
    (r.(ResourceID)) (r.(ConnectionID)) (r.(RuntimeID)) (r.(SessionID))
    (r.(ExecutionID)) (r.(ExternalID)) (r.(Outcome)) (r.(Summary))
    (r.(Metadata)) (r.(OccurredAt)).
#[global] Instance zero_value : Zero AuditEvent :=
  mk zero zero zero zero zero zero zero zero zero zero zero zero zero zero zero.
End AuditEvent.
Abbreviation AuditEvent := AuditEvent.AuditEvent.

Module AuditFilter.
Record AuditFilter := mk {
  EventType : string;
  EnvironmentID : string;
  ResourceID : string;
  ConnectionID : string;
  SessionID : string;
  ExecutionID : string;
  Outcome : AuditOutcome;
  Limit : Z
}.
#[global] Instance eta : Eta AuditFilter := λ r,
  mk (r.(EventType)) (r.(EnvironmentID)) (r.(ResourceID)) (r.(ConnectionID))
    (r.(SessionID)) (r.(ExecutionID)) (r.(Outcome)) (r.(Limit)).
#[global] Instance zero_value : Zero AuditFilter :=
  mk zero zero zero zero zero zero zero zero.
End AuditFilter.
Abbreviation AuditFilter := AuditFilter.AuditFilter.

(** ** internal/domain/console/console.go *)

Inductive CommandStatus :=
| CommandRunning
| CommandCompleted
| CommandFailed
| CommandStatusOther (s : string).
Definition CommandStatus_string (v : CommandStatus) : string :=
  match v with
  | CommandRunning => "running"
  | CommandCompleted => "completed"
  | CommandFailed => "failed"
  | CommandStatusOther s => s
  end.
#[global] Instance CommandStatus_eq_dec : EqDecision CommandStatus.
Proof. solve_decision. Defined.
#[global] Instance zero_CommandStatus : Zero CommandStatus := CommandStatusOther "".

Inductive SessionStatus :=
| SessionStarting
| SessionConnected
| SessionClosed
| SessionFailed
| SessionStatusOther (s : string).
Definition SessionStatus_string (v : SessionStatus) : string :=
  match v with
  | SessionStarting => "starting"
  | SessionConnected => "connected"
  | SessionClosed => "closed"
  | SessionFailed => "failed"
  | SessionStatusOther s => s
  end.
#[global] Instance SessionStatus_eq_dec : EqDecision SessionStatus.
Proof. solve_decision. Defined.
#[global] Instance zero_SessionStatus : Zero SessionStatus := SessionStatusOther "".

Module ConsoleCommand.
Record ConsoleCommand := mk {
  ID : string;
  ResourceID : string;
  RuntimeID : string;
  ConnectionID : string;
  ActorID : string;
  Command : string;
  WorkingDirectory : string;
  Environment : gmap string string;
  CPUCores : Z;
  MemoryBytes : Z;
  TimeoutSeconds : Z;
  Status : CommandStatus;
  Stdout : string;
  Stderr : string;
  ExitCode : option Z;
  ExternalID : string;
  Failure : string;
  CreatedAt : Time;
  StartedAt : Time;
  FinishedAt : option Time
}.
#[global] Instance eta : Eta ConsoleCommand := λ r,
  mk (r.(ID)) (r.(ResourceID)) (r.(RuntimeID)) (r.(ConnectionID)) (r.(ActorID))
    (r.(Command)) (r.(WorkingDirectory)) (r.(Environment)) (r.(CPUCores))
    (r.(MemoryBytes)) (r.(TimeoutSeconds)) (r.(Status)) (r.(Stdout))
    (r.(Stderr)) (r.(ExitCode)) (r.(ExternalID)) (r.(Failure)) (r.(CreatedAt))
    (r.(StartedAt)) (r.(FinishedAt)).
#[global] Instance zero_value : Zero ConsoleCommand :=
  mk zero zero zero zero zero zero zero zero zero zero zero zero zero zero zero
    zero zero zero zero zero.
End ConsoleCommand.
Abbreviation ConsoleCommand := ConsoleCommand.ConsoleCommand.

Module ConsoleRequest.
Record ConsoleRequest := mk {
  ResourceID : string;
  ActorID : string;
  Command : string;
  WorkingDirectory : string;
  Environment : gmap string string;
  CPUCores : Z;
  MemoryBytes : Z;
  TimeoutSeconds : Z
}.
#[global] Instance eta : Eta ConsoleRequest := λ r,
  mk (r.(ResourceID)) (r.(ActorID)) (r.(Command)) (r.(WorkingDirectory))
    (r.(Environment)) (r.(CPUCores)) (r.(MemoryBytes)) (r.(TimeoutSeconds)).
#[global] Instance zero_value : Zero ConsoleRequest :=
  mk zero zero zero zero zero zero zero zero.
End ConsoleRequest.
Abbreviation ConsoleRequest := ConsoleRequest.ConsoleRequest.

Module ConsoleSession.
Record ConsoleSession := mk {
  ID : string;
  ResourceID : string;
  RuntimeID : string;
  ConnectionID : string;
  ActorID : string;
  Status : SessionStatus;
  ExternalID : string;
  Failure : string;
  CreatedAt : Time;
  ConnectedAt : option Time;
  FinishedAt : option Time
}.
#[global] Instance eta : Eta ConsoleSession := λ r,
  mk (r.(ID)) (r.(ResourceID)) (r.(RuntimeID)) (r.(ConnectionID)) (r.(ActorID))
    (r.(Status)) (r.(ExternalID)) (r.(Failure)) (r.(CreatedAt))
    (r.(ConnectedAt)) (r.(FinishedAt)).
#[global] Instance zero_value : Zero ConsoleSession :=
  mk zero zero zero zero zero zero zero zero zero zero zero.
End ConsoleSession.
Abbreviation ConsoleSession := ConsoleSession.ConsoleSession.

Module ConsoleSessionRequest.
Record ConsoleSessionRequest := mk {
  ResourceID : string;
  ActorID : string
}.
#[global] Instance eta : Eta ConsoleSessionRequest := λ r,
  mk (r.(ResourceID)) (r.(ActorID)).
#[global] Instance zero_value : Zero ConsoleSessionRequest :=
  mk zero zero.
End ConsoleSessionRequest.
Abbreviation ConsoleSessionRequest := ConsoleSessionRequest.ConsoleSessionRequest.

(** ** internal/application/ports/execution.go *)

Module ExecutionRequest.
Record ExecutionRequest := mk {
  Run : ExecutionRun;
  Plan : SchedulePlan;
  Workflow : WorkflowVersion;
  Resources : list Resource;
  ExecutionScope : ExecutionScope;
  Runtimes : list EnvironmentRuntime;
  RuntimeBindings : list ResourceRuntimeBinding;
  NetworkTopology : NetworkTopology;
  ActivityProfiles : list ActivityResourceProfile;
  PreparationRequirementsByActivity : gmap string PreparationRequirement
}.
#[global] Instance eta : Eta ExecutionRequest := λ r,
  mk (r.(Run)) (r.(Plan)) (r.(Workflow)) (r.(Resources)) (r.(ExecutionScope))
    (r.(Runtimes)) (r.(RuntimeBindings)) (r.(NetworkTopology))
    (r.(ActivityProfiles)) (r.(PreparationRequirementsByActivity)).
#[global] Instance zero_value : Zero ExecutionRequest :=
  mk zero zero zero zero zero zero zero zero zero zero.
End ExecutionRequest.
Abbreviation ExecutionRequest := ExecutionRequest.ExecutionRequest.
