(* ===== verification/Workflow.v ===== *)
(** * Activities and executable references (src/internal/domain/workflow)

    The validation every boundary of the engine relies on: an activity that
    passes [Activity_Validate] carries what its declared execution capabilities
    need, and an executable reference that passes [ExecutableReference_Validate]
    names its bytes. *)

From S2P Require Import Prelude GoStrings Domain.

(** [Activity.Supports] *)
Definition Supports (a : Activity) (capability : ActivityCapability) : bool :=
  existsb (λ supported, bool_decide (supported = capability)) a.(Activity.Capabilities).

(** [Activity.Validate] *)
Definition Activity_Validate (a : Activity) : result unit :=
  let id := a.(Activity.ID) in
  if bool_decide (id = "") || bool_decide (a.(Activity.Name) = "") then
    Err (errorf "activity id and name are required" [])
  else if bool_decide (a.(Activity.Kind) = ActivityKindOther "") then
    Err (errorf "activity %q kind is required" [id])
  else if bool_decide (a.(Activity.Capabilities) = []) then
    Err (errorf "activity %q must declare at least one execution capability" [id])
  else if Supports a ActivityCapabilityReal &&
          bool_decide (a.(Activity.Command).(ActivityCommand.Entrypoint) = "") then
    Err (errorf "activity %q requires an entrypoint for real execution" [id])
  else if Supports a ActivityCapabilitySimulation &&
          negb (bool_decide (is_Some a.(Activity.Simulation))) then
    Err (errorf "activity %q requires a simulation definition" [id])
  else if (bool_decide (a.(Activity.Kind) = ActivityKindService) ||
           bool_decide (a.(Activity.Kind) = ActivityKindInteractive)) &&
          negb (bool_decide (is_Some a.(Activity.Service))) then
    Err (errorf "activity %q requires a service definition" [id])
  else if Supports a ActivityCapabilityInteractive &&
          negb (bool_decide (a.(Activity.Kind) = ActivityKindInteractive)) &&
          negb (bool_decide (a.(Activity.Kind) = ActivityKindService)) then
    Err (errorf "activity %q must be a service or interactive to support interactive execution" [id])
  else Ok tt.

(** [ActivityCommand.EffectiveExecutable] *)
Definition EffectiveExecutable (c : ActivityCommand) : option ExecutableReference :=
  match c.(ActivityCommand.Executable) with
  | Some e => Some e
  | None =>
    if bool_decide (trim_space c.(ActivityCommand.Image) = "") then None
    else Some (ExecutableReference.mk
      ((zero : ExecutableSource) <| ExecutableSource.Type_ := ExecutableSourceOCI |>
         <| ExecutableSource.Reference := c.(ActivityCommand.Image) |>)
      ((zero : ExecutableDelivery) <| ExecutableDelivery.Strategy := DeliveryAuto |>))
  end.

(** [ExecutableReference.Validate]. The receiver is a copy: the defaulted
    strategy is not visible to the caller. *)
Definition ExecutableReference_Validate (e : ExecutableReference) : result unit :=
  let src := e.(ExecutableReference.Source) in
  let t := src.(ExecutableSource.Type_) in
  if bool_decide (t = ExecutableSourceTypeOther "") then
    Err (errorf "executable source.type is required" [])
  else match t with
  | ExecutableSourceCatalog =>
    match src.(ExecutableSource.ArtifactRef) with
    | Some r => if bool_decide (r.(ArtifactReference.ID) = "")
                then Err (errorf "catalog executable requires source.artifactRef" [])
                else Ok tt
    | None => Err (errorf "catalog executable requires source.artifactRef" [])
    end
  | ExecutableSourceOCI | ExecutableSourceLocalContainerImage =>
    check (negb (bool_decide (src.(ExecutableSource.Reference) = "")))
      (errorf "%s executable requires source.reference" [ExecutableSourceType_string t])
  | ExecutableSourceBuild =>
    check (negb (bool_decide (src.(ExecutableSource.ArtifactBuildRef) = "")))
      (errorf "build executable requires source.artifactBuildRef" [])
  | ExecutableSourceLocalFile =>
    check (negb (bool_decide (src.(ExecutableSource.Path) = "")))
      (errorf "local-file executable requires path" [])
  | ExecutableSourceRemoteFile =>
    if bool_decide (src.(ExecutableSource.Path) = "") ||
       (bool_decide (src.(ExecutableSource.EnvironmentRef) = "") &&
        bool_decide (src.(ExecutableSource.ResourceRef) = "")) then
      Err (errorf "remote-file executable requires path and environmentRef or resourceRef" [])
    else Ok tt
  | ExecutableSourceObjectStorage | ExecutableSourceHTTP =>
    check (negb (bool_decide (src.(ExecutableSource.URI) = "")))
      (errorf "%s executable requires source.uri" [ExecutableSourceType_string t])
  | ExecutableSourceTypeOther s =>
    Err (errorf "unsupported executable source.type %q" [s])
  end.

(** ** Specifications *)
Definition supports (a : Activity) (c : ActivityCapability) : Prop :=
  c ∈ a.(Activity.Capabilities).

Lemma Supports_spec a c : Supports a c = true ↔ supports a c.
Proof.
  unfold Supports, supports. rewrite existsb_exists. setoid_rewrite <- list_elem_of_In.
  split.
  - intros (x & ? & ->%bool_decide_eq_true). done.
  - intros. exists c. by rewrite bool_decide_eq_true.
Qed.

(** What a well-formed activity guarantees to the planner and the runtimes. *)
Record activity_ok (a : Activity) : Prop := {
  ok_id : a.(Activity.ID) ≠ "";
  ok_name : a.(Activity.Name) ≠ "";
  ok_kind : a.(Activity.Kind) ≠ ActivityKindOther "";
  ok_capable : a.(Activity.Capabilities) ≠ [];
  ok_real : supports a ActivityCapabilityReal →
    a.(Activity.Command).(ActivityCommand.Entrypoint) ≠ "";
  ok_simulation : supports a ActivityCapabilitySimulation →
    is_Some a.(Activity.Simulation);
  ok_service : a.(Activity.Kind) = ActivityKindService ∨
    a.(Activity.Kind) = ActivityKindInteractive → is_Some a.(Activity.Service);
  ok_interactive : supports a ActivityCapabilityInteractive →
    a.(Activity.Kind) = ActivityKindInteractive ∨ a.(Activity.Kind) = ActivityKindService
}.

(** Validation accepts exactly the well-formed activities. *)
Lemma Activity_Validate_spec a : Activity_Validate a = Ok tt ↔ activity_ok a.
Proof.
  unfold Activity_Validate.
  pose proof (Supports_spec a ActivityCapabilityReal).
  pose proof (Supports_spec a ActivityCapabilitySimulation).
  pose proof (Supports_spec a ActivityCapabilityInteractive).
  split.
  - intros H'. repeat (case_match; try done).
    repeat match goal with
    | H : _ || _ = false |- _ => apply orb_false_iff in H as [? ?]
    | H : bool_decide _ = false |- _ => apply bool_decide_eq_false in H
    end.
    rewrite ?andb_false_iff, ?orb_false_iff, ?negb_false_iff, ?bool_decide_eq_false,
      ?bool_decide_eq_true in *.
    split; try done; intuition congruence.
  - intros [].
    repeat (case_match; try done); exfalso;
    rewrite ?andb_true_iff, ?orb_true_iff, ?negb_true_iff, ?bool_decide_eq_false,
      ?bool_decide_eq_true in *; intuition congruence.
Qed.

(** The bytes a valid reference designates, by source type. *)
Definition names_bytes (src : ExecutableSource) : Prop :=
  match src.(ExecutableSource.Type_) with
  | ExecutableSourceCatalog => ∃ r, src.(ExecutableSource.ArtifactRef) = Some r ∧
      r.(ArtifactReference.ID) ≠ ""
  | ExecutableSourceOCI | ExecutableSourceLocalContainerImage =>
      src.(ExecutableSource.Reference) ≠ ""
  | ExecutableSourceBuild => src.(ExecutableSource.ArtifactBuildRef) ≠ ""
  | ExecutableSourceLocalFile => src.(ExecutableSource.Path) ≠ ""
  | ExecutableSourceRemoteFile => src.(ExecutableSource.Path) ≠ "" ∧
      (src.(ExecutableSource.EnvironmentRef) ≠ "" ∨ src.(ExecutableSource.ResourceRef) ≠ "")
  | ExecutableSourceObjectStorage | ExecutableSourceHTTP => src.(ExecutableSource.URI) ≠ ""
  | ExecutableSourceTypeOther _ => False
  end.

Lemma ExecutableReference_Validate_spec e :
  ExecutableReference_Validate e = Ok tt ↔ names_bytes e.(ExecutableReference.Source).
Proof.
  unfold ExecutableReference_Validate, names_bytes, check.
  destruct (ExecutableSource.Type_ _); simpl; repeat case_match; try done;
    rewrite ?orb_true_iff, ?orb_false_iff, ?andb_true_iff, ?andb_false_iff,
      ?negb_true_iff, ?negb_false_iff, ?bool_decide_eq_true, ?bool_decide_eq_false in *;
    naive_solver.
Qed.

(** Activity validation accepts exactly the activities that carry what their
    declared capabilities and kind need: an entry point for real execution, a
    simulation model for simulation, a service definition for services, and a
    service or interactive kind for interactive execution. *)
Theorem activity_validation_exact a : Activity_Validate a = Ok tt ↔ activity_ok a.
Proof. apply Activity_Validate_spec. Qed.

(** A valid executable reference names its bytes: validation accepts a
    reference exactly when its source carries the locator its type requires. *)
Theorem executable_validation_exact e :
  ExecutableReference_Validate e = Ok tt ↔ names_bytes e.(ExecutableReference.Source).
Proof. apply ExecutableReference_Validate_spec. Qed.

(** A command with an image and no executable reference runs that image. *)
Lemma effective_image_valid c : c.(ActivityCommand.Executable) = None →
  trim_space c.(ActivityCommand.Image) ≠ "" →
  ∃ e, EffectiveExecutable c = Some e ∧ ExecutableReference_Validate e = Ok tt.
Proof.
  intros Hn Hi. unfold EffectiveExecutable. rewrite Hn, bool_decide_false by done.
  eexists. split; [done|]. apply ExecutableReference_Validate_spec. unfold names_bytes. simpl.
  intros E. apply Hi. by rewrite E.
Qed.
