(* ===== verification/Materialization.v ===== *)
(** * Content-addressed materialization (src/internal/domain/execution/materialization.go)

    The barrier between data movement and execution: what a workspace still
    needs at its destination, when it may be declared committed, and when an
    activity's preparation is ready. *)

From S2P Require Import Prelude GoStrings Domain.

(** [ArtifactMaterialization.Committed] *)
Definition Committed (m : ArtifactMaterialization) : bool :=
  bool_decide (m.(ArtifactMaterialization.Status) = MaterializationCommitted) &&
  negb (bool_decide (m.(ArtifactMaterialization.VerifiedDigest) = "")) &&
  bool_decide (m.(ArtifactMaterialization.VerifiedDigest) = m.(ArtifactMaterialization.Digest)).

(** The loop of [ReconcileWorkspace]: [seen] and [missing] are its locals. *)
Fixpoint reconcile_loop (inventory : gmap string bool) (blobs : list WorkspaceBlob)
    (seen : gset string) : list BlobDescriptor :=
  match blobs with
  | [] => []
  | blob :: blobs =>
    let d := blob.(WorkspaceBlob.Digest) in
    if blob.(WorkspaceBlob.Deleted) || bool_decide (d = "") ||
       lookup_zero inventory d || bool_decide (d ∈ seen)
    then reconcile_loop inventory blobs seen
    else BlobDescriptor.mk d blob.(WorkspaceBlob.SizeBytes) ::
         reconcile_loop inventory blobs ({[d]} ∪ seen)
  end.

(** [ReconcileWorkspace] *)
Definition ReconcileWorkspace (desired : WorkspaceRevision) (inventory : WorkspaceInventory)
    : list BlobDescriptor :=
  reconcile_loop inventory.(WorkspaceInventory.Digests) desired.(WorkspaceRevision.Blobs) ∅.

(** [WorkspaceMaterialization.Reconcile] *)
Definition Reconcile (m : WorkspaceMaterialization) (revision : WorkspaceRevision)
    (inventory : WorkspaceInventory) : WorkspaceMaterialization :=
  m <| WorkspaceMaterialization.Status := MaterializationReconciling |>
    <| WorkspaceMaterialization.Missing := ReconcileWorkspace revision inventory |>.

Definition blob_digests (l : list BlobDescriptor) : list string :=
  BlobDescriptor.Digest <$> l.

Section commit.
Context `{MapOrder}.

(** [WorkspaceMaterialization.Commit]: the receiver is updated only when every
    wanted digest is among the verified ones. *)
Definition Commit (salt : nat) (m : WorkspaceMaterialization) (verified : list string)
    : WorkspaceMaterialization * result unit :=
  let want : gmap string bool :=
    foldl (λ w b, <[b.(BlobDescriptor.Digest) := true]> w) ∅
      m.(WorkspaceMaterialization.Missing) in
  let got : gmap string bool := foldl (λ g d, <[d := true]> g) ∅ verified in
  match for_each (λ '(digest, _), check (lookup_zero got digest)
          (errorf "workspace materialization %s missing verified blob %s"
             [m.(WorkspaceMaterialization.ID); digest])) (map_range salt want) with
  | Ok _ => (m <| WorkspaceMaterialization.Verified := verified |>
               <| WorkspaceMaterialization.Status := MaterializationCommitted |>, Ok tt)
  | Err e => (m, Err e)
  end.
End commit.

(** [PreparationGate.Ready] *)
Definition Ready (g : PreparationGate) : result unit :=
  match g.(PreparationGate.Executable) with
  | Some m => check (Committed m) (errorf "executable materialization is not committed" [])
  | None => Ok tt
  end ≫= λ _,
  match g.(PreparationGate.Workspace) with
  | Some w => check (bool_decide (w.(WorkspaceMaterialization.Status) = MaterializationCommitted))
                (errorf "workspace materialization is not committed" [])
  | None => Ok tt
  end.

(** ** Reconciliation *)
Definition live (desired : WorkspaceRevision) (d : string) : Prop :=
  ∃ b, b ∈ desired.(WorkspaceRevision.Blobs) ∧ b.(WorkspaceBlob.Deleted) = false ∧
       b.(WorkspaceBlob.Digest) = d ∧ d ≠ "".

Lemma reconcile_loop_elem inv blobs seen d :
  d ∈ blob_digests (reconcile_loop inv blobs seen) ↔
  d ∉ seen ∧ lookup_zero inv d = false ∧ d ≠ "" ∧
  ∃ b, b ∈ blobs ∧ b.(WorkspaceBlob.Deleted) = false ∧ b.(WorkspaceBlob.Digest) = d.
Proof.
  revert seen. induction blobs as [|b blobs IH]; intros seen; simpl.
  { split; [by intros ?%elem_of_nil|]. by intros (_ & _ & _ & b & ?%elem_of_nil & _). }
  case_match eqn:Hc.
  - rewrite IH. rewrite !orb_true_iff, !bool_decide_eq_true in Hc.
    split; intros (? & ? & ? & b' & Hb' & ? & ?); repeat split; try done.
    + exists b'. by rewrite elem_of_cons; auto.
    + apply elem_of_cons in Hb' as [->|]; [|eauto]. subst.
      destruct Hc as [[[?|?]|?]|?]; congruence || done.
  - unfold blob_digests in *. rewrite fmap_cons, elem_of_cons, IH. simpl.
    rewrite !orb_false_iff, !bool_decide_eq_false in Hc.
    destruct Hc as [[[Hdel Hne] Hinv] Hseen].
    rewrite not_elem_of_union, not_elem_of_singleton.
    split.
    + intros [->|((? & ?) & ? & ? & b' & ? & ? & ?)]; repeat split; try done.
      * exists b. rewrite elem_of_cons. auto.
      * exists b'. rewrite elem_of_cons. auto.
    + intros (? & ? & ? & b' & [->|?]%elem_of_cons & ? & ?); [auto|].
      destruct (decide (d = b.(WorkspaceBlob.Digest))); [auto|].
      right. repeat split; eauto.
Qed.

Lemma reconcile_loop_nodup inv blobs seen :
  NoDup (blob_digests (reconcile_loop inv blobs seen)).
Proof.
  revert seen. induction blobs as [|b blobs IH]; intros seen; simpl; [constructor|].
  case_match; [done|]. unfold blob_digests in *. rewrite fmap_cons. constructor; [|done].
  simpl. rewrite (reconcile_loop_elem inv blobs), elem_of_union, elem_of_singleton. tauto.
Qed.

(** Reconciliation asks for exactly the live digests the destination lacks. *)
Lemma ReconcileWorkspace_elem desired inv d :
  d ∈ blob_digests (ReconcileWorkspace desired inv) ↔
  live desired d ∧ lookup_zero inv.(WorkspaceInventory.Digests) d = false.
Proof.
  unfold ReconcileWorkspace, live. rewrite reconcile_loop_elem.
  split; [naive_solver|]. intros [(b & ? & ? & ? & ?) ?].
  repeat split; [by apply not_elem_of_empty|done..|eauto].
Qed.

(** ** Commit *)
Lemma foldl_insert_true {A} (f : A → string) (l : list A) (m : gmap string bool) d :
  foldl (λ w b, <[f b := true]> w) m l !! d =
    if decide (d ∈ f <$> l) then Some true else m !! d.
Proof.
  revert m. induction l as [|a l IH]; intros m; cbn [foldl].
  - rewrite decide_False; [done|]. by intros ?%elem_of_nil.
  - rewrite IH, fmap_cons. destruct (decide (d ∈ f <$> l)) as [Hd|Hd].
    + rewrite decide_True; [done|]. by right.
    + destruct (decide (d = f a)) as [->|Hne].
      * rewrite decide_True by left. by rewrite lookup_insert_eq.
      * rewrite decide_False by (by intros [?|?]%elem_of_cons).
        by rewrite lookup_insert_ne.
Qed.

Section commit_facts.
Context `{MapOrder}.

Lemma commit_check salt (missing : list BlobDescriptor) verified (msg : string → error) :
  for_each (λ '(digest, _), check
      (lookup_zero (foldl (λ g d, <[d := true]> g) (∅ : gmap string bool) verified) digest)
      (msg digest))
    (map_range salt (foldl (λ w b, <[b.(BlobDescriptor.Digest) := true]> w)
      (∅ : gmap string bool) missing)) = Ok tt ↔
  ∀ d, d ∈ blob_digests missing → d ∈ verified.
Proof.
  rewrite for_each_ok. split.
  - intros E d Hd. specialize (E (d, true)). simpl in E.
    rewrite map_range_perm, elem_of_map_to_list,
      (foldl_insert_true BlobDescriptor.Digest), decide_True in E by done.
    specialize (E eq_refl). unfold lookup_zero in E.
    rewrite (foldl_insert_true (λ x, x)), list_fmap_id in E.
    case_decide; [done|discriminate E].
  - intros Hall [d b] Hd. unfold lookup_zero.
    rewrite map_range_perm, elem_of_map_to_list,
      (foldl_insert_true BlobDescriptor.Digest) in Hd.
    rewrite (foldl_insert_true (λ x, x)), list_fmap_id.
    case_decide; [|done]. by rewrite decide_True by auto.
Qed.

Lemma Commit_ok salt m m' verified :
  Commit salt m verified = (m', Ok tt) ↔
  m' = m <| WorkspaceMaterialization.Verified := verified |>
         <| WorkspaceMaterialization.Status := MaterializationCommitted |> ∧
  ∀ d, d ∈ blob_digests m.(WorkspaceMaterialization.Missing) → d ∈ verified.
Proof.
  unfold Commit. rewrite <- (commit_check salt _ _ (λ digest,
    errorf "workspace materialization %s missing verified blob %s"
      [m.(WorkspaceMaterialization.ID); digest])).
  destruct (for_each _ _) as [[]|e]; naive_solver.
Qed.

Lemma Commit_err salt m m' verified e :
  Commit salt m verified = (m', Err e) → m' = m ∧
  ∃ d, d ∈ blob_digests m.(WorkspaceMaterialization.Missing) ∧ d ∉ verified.
Proof.
  intros Hc. assert (m' = m) as ->.
  { unfold Commit in Hc. destruct (for_each _ _); congruence. }
  split; [done|].
  destruct (decide (Exists (.∉ verified) (blob_digests m.(WorkspaceMaterialization.Missing))))
    as [Hex|Hn]; [by apply Exists_exists in Hex|].
  exfalso. enough (Commit salt m verified = (m <| WorkspaceMaterialization.Verified := verified |>
    <| WorkspaceMaterialization.Status := MaterializationCommitted |>, Ok tt)) by congruence.
  apply Commit_ok. split; [done|]. intros d Hd.
  destruct (decide (d ∈ verified)); [done|]. destruct Hn. apply Exists_exists. eauto.
Qed.
End commit_facts.

Section contract.
Context `{MapOrder}.

(** Content-addressed reconciliation is complete and minimal: after
    reconciling a workspace against an inventory and committing it with the
    verified digests, every live blob of the revision is either in the inventory
    or verified; the blobs asked for are exactly the live ones the destination
    lacks, each once. *)
Theorem reconcile_commit_complete salt m revision inventory verified m' :
  Commit salt (Reconcile m revision inventory) verified = (m', Ok tt) →
  m'.(WorkspaceMaterialization.Status) = MaterializationCommitted ∧
  (∀ d, live revision d →
     lookup_zero inventory.(WorkspaceInventory.Digests) d = true ∨ d ∈ verified) ∧
  (∀ d, d ∈ blob_digests m'.(WorkspaceMaterialization.Missing) ↔
     live revision d ∧ lookup_zero inventory.(WorkspaceInventory.Digests) d = false) ∧
  NoDup (blob_digests m'.(WorkspaceMaterialization.Missing)).
Proof.
  intros [-> Hall]%Commit_ok. simpl in *.
  pose proof (ReconcileWorkspace_elem revision inventory) as Helem. split_and!.
  - done.
  - intros d Hd. destruct (lookup_zero _ d) eqn:E; [by left|right].
    apply Hall, Helem. done.
  - exact Helem.
  - apply reconcile_loop_nodup.
Qed.

(** A commit that misses a blob is refused and leaves the materialization as
    it was, so it can be retried with more verified digests. *)
Theorem commit_refused salt m verified m' e :
  Commit salt m verified = (m', Err e) → m' = m ∧
  ∃ d, d ∈ blob_digests m.(WorkspaceMaterialization.Missing) ∧ d ∉ verified.
Proof. apply Commit_err. Qed.
End contract.

Module Example.
Definition blob (d : string) (deleted : bool) : WorkspaceBlob :=
  (zero : WorkspaceBlob) <| WorkspaceBlob.Digest := d |> <| WorkspaceBlob.Deleted := deleted |>.
Definition revision : WorkspaceRevision := (zero : WorkspaceRevision)
  <| WorkspaceRevision.Blobs := [blob "x" false; blob "y" false; blob "x" false; blob "z" true] |>.
Definition inventory : WorkspaceInventory := (zero : WorkspaceInventory)
  <| WorkspaceInventory.Digests := {[ "y" := true ]} |>.
End Example.

Lemma reconcile_commit_complete_witness :
  let m' := (Commit 0 (Reconcile zero Example.revision Example.inventory) ["x"]).1 in
  m'.(WorkspaceMaterialization.Status) = MaterializationCommitted ∧
  NoDup (blob_digests m'.(WorkspaceMaterialization.Missing)).
Proof.
  intros m'. destruct (reconcile_commit_complete 0 zero Example.revision Example.inventory ["x"] m')
    as (H1 & _ & _ & H2); [vm_compute; reflexivity|]. split; [exact H1|exact H2].
Defined.

Lemma commit_refused_witness :
  ∃ d, d ∈ blob_digests (Reconcile zero Example.revision Example.inventory)
    .(WorkspaceMaterialization.Missing) ∧ d ∉ ["y"].
Proof.
  destruct (Commit 0 (Reconcile zero Example.revision Example.inventory) ["y"]) as [m' [[]|e]] eqn:E;
    [vm_compute in E; discriminate|].
  exact (proj2 (commit_refused 0 _ ["y"] m' e E)).
Defined.
