(* ===== verification/Queue.v ===== *)
(** * The durable job queue (src/internal/domain/queue,
    src/internal/infrastructure/database/queue, src/internal/infrastructure/database/events)

    The table [queue_jobs] is the list of its rows in insertion order, each row
    the [Job] that [scanJob] reads from it; the NULL idempotency key is the
    empty one. A statement is a function on the table, with the number of rows
    it affects. The clock and the random identifiers are arguments. *)

From S2P Require Import Prelude GoStrings Domain.

Module JobQueue.

Abbreviation table := (list Job).

Definition CategoryMonitoring : string := "monitoring".
Definition CategoryExecution : string := "execution".

(** ** domain/queue/job.go *)

(** [New]; [fresh_id] is the value of [newID ()] and [clock] that of
    [time.Now().UTC()]. *)
Definition New (fresh_id : string) (clock : Time) (category eventType payload : string)
    (now : Time) : result Job :=
  if bool_decide (category = "") || bool_decide (eventType = "") then
    Err (errorf "queue job category and type are required" [])
  else
    let now := if IsZero now then clock else now in
    Ok {| Job.ID := fresh_id; Job.Category := category; Job.Type_ := eventType;
          Job.AggregateType := ""; Job.AggregateID := ""; Job.Payload := payload;
          Job.Status := StatusPending; Job.Priority := 0; Job.AvailableAt := now;
          Job.LeaseOwner := ""; Job.LeaseExpiresAt := None; Job.Attempts := 0;
          Job.MaxAttempts := 5; Job.IdempotencyKey := ""; Job.LastError := "";
          Job.CreatedAt := now; Job.StartedAt := None; Job.CompletedAt := None |}.

(** [Job.Validate] *)
Definition Validate (j : Job) : result unit :=
  if bool_decide (j.(Job.ID) = "") || bool_decide (j.(Job.Category) = "") ||
     bool_decide (j.(Job.Type_) = "") then
    Err (errorf "queue job id, category and type are required" [])
  else if j.(Job.MaxAttempts) <? 1 then
    Err (errorf "queue job max attempts must be positive" [])
  else Ok tt.

(** ** Statements on the table *)

(** [UPDATE queue_jobs SET f WHERE p], with [RowsAffected]. *)
Definition update_where (p : Job → bool) (f : Job → Job) (t : table) : table * Z :=
  ((λ j, if p j then f j else j) <$> t, Z.of_nat (length (base.filter (λ j, p j = true) t))).

(** [requireOne] *)
Definition requireOne (count : Z) (operation : string) : result unit :=
  if count =? 1 then Ok tt else Err (errorf "%s affected %d rows" [operation; itoa count]).

(** [r.db.ExecContext] of an update followed by [requireOne]. *)
Definition exec_one (operation : string) (p : Job → bool) (f : Job → Job)
    (t : table) : result unit * table :=
  let '(t', count) := update_where p f t in (requireOne count operation, t').

(** [Repository.transition] *)
Definition transition := exec_one "transition queue job".

(** [SELECT columns FROM queue_jobs WHERE p], first row. *)
Definition select_first (p : Job → bool) (t : table) : option Job :=
  snd <$> list_find (λ j, p j = true) t.

Definition has_id (id : string) (j : Job) : bool := bool_decide (j.(Job.ID) = id).
Definition has_key (key : string) (j : Job) : bool :=
  negb (bool_decide (key = "")) && bool_decide (j.(Job.IdempotencyKey) = key).

(** [Repository.FindByID] *)
Definition FindByID (id : string) (t : table) : option Job := select_first (has_id id) t.

(** The CHECK constraint on the column [status]. *)
Definition status_allowed (s : QueueStatus) : bool :=
  match s with QueueStatusOther _ => false | _ => true end.

(** The row an INSERT of the queue stores: the columns it does not name take
    their defaults. *)
Definition inserted (j : Job) : Job :=
  j <| Job.LeaseOwner := "" |> <| Job.LeaseExpiresAt := None |> <| Job.LastError := "" |>
    <| Job.StartedAt := None |> <| Job.CompletedAt := None |>.

(** INSERT with its constraints. [do_nothing] says whether the statement has
    the clause [ON CONFLICT(idempotency_key) ... DO NOTHING], whose target is
    tested before the primary key. *)
Definition insert_row (do_nothing : bool) (j : Job) (t : table) : result unit * table :=
  if negb (status_allowed j.(Job.Status)) || (j.(Job.MaxAttempts) <=? 0) then
    (Err "CHECK constraint failed", t)
  else if existsb (has_key j.(Job.IdempotencyKey)) t then
    ((if do_nothing then Ok tt
      else Err "UNIQUE constraint failed: queue_jobs.idempotency_key"), t)
  else if existsb (has_id j.(Job.ID)) t then
    (Err "UNIQUE constraint failed: queue_jobs.id", t)
  else (Ok tt, t ++ [inserted j]).

(** ** database/queue/repository.go *)

(** [Repository.Publish] *)
Definition Publish (now : Time) (job : Job) (t : table) : result Job * table :=
  match Validate job with
  | Err e => (Err e, t)
  | Ok _ =>
    let job := if IsZero job.(Job.AvailableAt)
               then job <| Job.AvailableAt := now |> else job in
    let job := if IsZero job.(Job.CreatedAt)
               then job <| Job.CreatedAt := job.(Job.AvailableAt) |> else job in
    match insert_row true job t with
    | (Err e, t) => (Err (errorf "publish queue job: %w" [e]), t)
    | (Ok _, t) =>
      if negb (bool_decide (job.(Job.IdempotencyKey) = "")) then
        match select_first (has_key job.(Job.IdempotencyKey)) t with
        | None => (Err "sql: no rows in result set", t)
        | Some row =>
          match FindByID row.(Job.ID) t with
          | None => (Err "idempotent queue job disappeared", t)
          | Some existing => (Ok existing, t)
          end
        end
      else (Ok job, t)
    end
  end.

(** [ORDER BY priority DESC, available_at, created_at]: the rows that compare
    equal may come in any order. *)
Definition job_le (a b : Job) : Prop :=
  b.(Job.Priority) < a.(Job.Priority) ∨
  a.(Job.Priority) = b.(Job.Priority) ∧
  (a.(Job.AvailableAt) < b.(Job.AvailableAt) ∨
   a.(Job.AvailableAt) = b.(Job.AvailableAt) ∧ a.(Job.CreatedAt) ≤ b.(Job.CreatedAt)).
#[global] Instance job_le_dec a b : Decision (job_le a b).
Proof. unfold job_le. apply _. Defined.

Class RowOrder := {
  order_rows : nat → table → table;
  order_rows_perm : ∀ salt t, order_rows salt t ≡ₚ t;
  order_rows_sorted : ∀ salt t, StronglySorted job_le (order_rows salt t)
}.

(** The candidates of [Lease]'s query. *)
Definition eligible (now : Time) (categories : list string) (j : Job) : bool :=
  bool_decide (j.(Job.Status) = StatusPending) && (j.(Job.AvailableAt) <=? now) &&
  (bool_decide (categories = []) || bool_decide (j.(Job.Category) ∈ categories)).

(** The UPDATE of [Lease]. *)
Definition set_leased (owner : string) (expires now : Time) (j : Job) : Job :=
  j <| Job.Status := StatusLeased |> <| Job.LeaseOwner := owner |>
    <| Job.LeaseExpiresAt := Some expires |> <| Job.Attempts := j.(Job.Attempts) + 1 |>
    <| Job.StartedAt := match j.(Job.StartedAt) with Some s => Some s | None => Some now end |>.

Definition pending_id (id : string) (j : Job) : bool :=
  has_id id j && bool_decide (j.(Job.Status) = StatusPending).

(** The second loop of [Lease], over the selected ids. *)
Fixpoint lease_each (owner : string) (expires now : Time) (ids : list string) (t : table)
    : result (list Job) * table :=
  match ids with
  | [] => (Ok [], t)
  | id :: ids =>
    let '(t, count) := update_where (pending_id id) (set_leased owner expires now) t in
    if negb (count =? 1) then lease_each owner expires now ids t
    else match FindByID id t with
         | None => (Err "sql: no rows in result set", t)
         | Some job =>
           let '(leased, t) := lease_each owner expires now ids t in (cons job <$> leased, t)
         end
  end.

Section lease.
Context `{RowOrder}.

(** [Repository.Lease]: one transaction, rolled back on an error. *)
Definition Lease (salt : nat) (now : Time) (owner : string) (categories : list string)
    (limit : Z) (duration : Duration) (t : table) : result (list Job) * table :=
  if bool_decide (owner = "") || (limit <? 1) || (duration <=? 0) then
    (Err (errorf "lease owner, positive limit and duration are required" []), t)
  else
    let ids := Job.ID <$> take (Z.to_nat limit)
      (order_rows salt (base.filter (λ j, eligible now categories j = true) t)) in
    match lease_each owner (now + duration) now ids t with
    | (Ok leased, t') => (Ok leased, t')
    | (Err e, _) => (Err e, t)
    end.
End lease.

Definition leased_by (id owner : string) (j : Job) : bool :=
  has_id id j && bool_decide (j.(Job.Status) = StatusLeased) &&
  bool_decide (j.(Job.LeaseOwner) = owner).

Definition set_completed (at_ : Time) (j : Job) : Job :=
  j <| Job.Status := StatusCompleted |> <| Job.CompletedAt := Some at_ |>
    <| Job.LeaseOwner := "" |> <| Job.LeaseExpiresAt := None |>.

(** [Repository.Complete] *)
Definition Complete (id owner : string) (at_ : Time) : table → result unit * table :=
  transition (leased_by id owner) (set_completed at_).

Definition set_renewed (expires : Time) (j : Job) : Job :=
  j <| Job.LeaseExpiresAt := Some expires |>.

(** [Repository.RenewLease] *)
Definition RenewLease (id owner : string) (expiresAt : Time) : table → result unit * table :=
  exec_one "renew queue job lease" (leased_by id owner) (set_renewed expiresAt).

Definition set_retried (message : string) (availableAt : Time) (j : Job) : Job :=
  let exhausted := j.(Job.MaxAttempts) <=? j.(Job.Attempts) in
  j <| Job.Status := if exhausted then StatusFailed else StatusPending |>
    <| Job.AvailableAt := availableAt |> <| Job.LastError := message |>
    <| Job.LeaseOwner := "" |> <| Job.LeaseExpiresAt := None |>
    <| Job.CompletedAt := if exhausted then Some availableAt else None |>.

(** [Repository.Retry]; [cause] is the error's text, absent for nil. *)
Definition Retry (id owner : string) (cause : option error) (availableAt : Time)
    : table → result unit * table :=
  exec_one "retry queue job" (leased_by id owner)
    (set_retried (default "" cause) availableAt).

Definition cancellable (id : string) (j : Job) : bool :=
  has_id id j && (bool_decide (j.(Job.Status) = StatusPending) ||
                  bool_decide (j.(Job.Status) = StatusLeased)).
Definition set_cancelled (at_ : Time) (j : Job) : Job :=
  j <| Job.Status := StatusCancelled |> <| Job.CompletedAt := Some at_ |>
    <| Job.LeaseOwner := "" |> <| Job.LeaseExpiresAt := None |>.

(** [Repository.Cancel] *)
Definition Cancel (id : string) (at_ : Time) : table → result unit * table :=
  transition (cancellable id) (set_cancelled at_).

Definition lease_expired (now : Time) (j : Job) : bool :=
  bool_decide (j.(Job.Status) = StatusLeased) &&
  match j.(Job.LeaseExpiresAt) with Some e => e <=? now | None => false end.
Definition set_released (now : Time) (j : Job) : Job :=
  j <| Job.Status := StatusPending |> <| Job.LeaseOwner := "" |>
    <| Job.LeaseExpiresAt := None |> <| Job.AvailableAt := now |>.

(** [Repository.ReleaseExpired] *)
Definition ReleaseExpired (now : Time) (t : table) : result Z * table :=
  let '(t', count) := update_where (lease_expired now) (set_released now) t in (Ok count, t').

(** ** Operations as steps

    Every way the engine changes the table, in one type; a run of the queue is
    any interleaving of them by any number of owners. *)
Inductive op :=
| OpPublish (now : Time) (job : Job)
| OpLease (salt : nat) (now : Time) (owner : string) (categories : list string)
    (limit : Z) (duration : Duration)
| OpComplete (id owner : string) (at_ : Time)
| OpRenewLease (id owner : string) (expiresAt : Time)
| OpRetry (id owner : string) (cause : option error) (availableAt : Time)
| OpCancel (id : string) (at_ : Time)
| OpReleaseExpired (now : Time).

Section steps.
Context `{RowOrder}.

Definition apply_op (o : op) (t : table) : table :=
  match o with
  | OpPublish now job => snd (Publish now job t)
  | OpLease salt now owner cats limit dur => snd (Lease salt now owner cats limit dur t)
  | OpComplete id owner at_ => snd (Complete id owner at_ t)
  | OpRenewLease id owner exp => snd (RenewLease id owner exp t)
  | OpRetry id owner cause avail => snd (Retry id owner cause avail t)
  | OpCancel id at_ => snd (Cancel id at_ t)
  | OpReleaseExpired now => snd (ReleaseExpired now t)
  end.

Definition is_release (o : op) : bool :=
  match o with OpReleaseExpired _ => true | _ => false end.

(** One operation, on whatever arguments; [release] says whether [ReleaseExpired] is among
    them. *)
Inductive step (release : bool) : table → table → Prop :=
| step_op o t : (is_release o = true → release = true) → step release t (apply_op o t).

Definition reachable (t : table) : Prop := rtc (step true) [] t.

(** A run of operations. *)
Definition run_ops (l : list op) (t : table) : table := foldl (λ t o, apply_op o t) t l.
End steps.

(** A job as [New] and the outbox build it; [Publish] itself stores any status. *)
Definition fresh_job (job : Job) : Prop :=
  job.(Job.Status) = StatusPending ∧ job.(Job.Attempts) = 0.
Definition fresh_op (o : op) : Prop :=
  match o with OpPublish _ job => fresh_job job | _ => True end.

(** ** The life of a row *)
Definition terminal (j : Job) : Prop :=
  j.(Job.Status) = StatusCompleted ∨ j.(Job.Status) = StatusFailed ∨
  j.(Job.Status) = StatusCancelled.
#[global] Instance terminal_dec j : Decision (terminal j).
Proof. unfold terminal. apply _. Defined.

Inductive row_step (release : bool) : Job → Job → Prop :=
| row_lease owner expires now j : j.(Job.Status) = StatusPending → owner ≠ "" →
    row_step release j (set_leased owner expires now j)
| row_complete at_ j : j.(Job.Status) = StatusLeased → row_step release j (set_completed at_ j)
| row_renew expires j : j.(Job.Status) = StatusLeased → row_step release j (set_renewed expires j)
| row_retry msg avail j : j.(Job.Status) = StatusLeased → row_step release j (set_retried msg avail j)
| row_cancel at_ j : j.(Job.Status) = StatusPending ∨ j.(Job.Status) = StatusLeased →
    row_step release j (set_cancelled at_ j)
| row_release now j : release = true → j.(Job.Status) = StatusLeased →
    row_step release j (set_released now j).

(** A row that an INSERT may add to [t]. *)
Record fresh_row (t : table) (j : Job) : Prop := {
  fresh_id : j.(Job.ID) ∉ Job.ID <$> t;
  fresh_key : j.(Job.IdempotencyKey) ≠ "" →
    j.(Job.IdempotencyKey) ∉ Job.IdempotencyKey <$> t;
  fresh_owner : j.(Job.LeaseOwner) = "";
  fresh_lease : j.(Job.LeaseExpiresAt) = None;
  fresh_started : j.(Job.StartedAt) = None;
  fresh_completed : j.(Job.CompletedAt) = None;
  fresh_max : 1 ≤ j.(Job.MaxAttempts);
  fresh_named : j.(Job.ID) ≠ ""
}.

(** The invariant of a row and of the table. *)
Record row_wf (j : Job) : Prop := {
  wf_named : j.(Job.ID) ≠ "";
  wf_status : status_allowed j.(Job.Status) = true;
  wf_max : 1 ≤ j.(Job.MaxAttempts);
  wf_owner : j.(Job.Status) = StatusLeased ↔ j.(Job.LeaseOwner) ≠ "";
  wf_lease : j.(Job.Status) = StatusLeased ↔ is_Some j.(Job.LeaseExpiresAt);
  wf_completed : terminal j ↔ is_Some j.(Job.CompletedAt);
  wf_attempts : 0 ≤ j.(Job.Attempts);
  wf_started : j.(Job.Attempts) = 0 ↔ j.(Job.StartedAt) = None;
  wf_running : j.(Job.Status) = StatusLeased → 1 ≤ j.(Job.Attempts)
}.

Definition ids (t : table) : list string := Job.ID <$> t.
Definition keys (t : table) : list string :=
  base.filter (λ k, k ≠ "") (Job.IdempotencyKey <$> t).

Record keyed (t : table) : Prop := {
  keyed_ids : NoDup (ids t);
  keyed_keys : NoDup (keys t)
}.
Record table_wf (t : table) : Prop := {
  wf_ids : NoDup (ids t);
  wf_keys : NoDup (keys t);
  wf_rows : Forall row_wf t
}.
Lemma table_wf_keyed t : table_wf t ↔ keyed t ∧ Forall row_wf t.
Proof. split; [by intros []|by intros [[] ?]]. Qed.

Lemma row_step_wf rel j j' : row_wf j → row_step rel j j' → row_wf j'.
Proof.
  intros [] Hs. destruct Hs; split; unfold terminal in *; simpl in *; try done;
    try (destruct (Job.StartedAt _); intuition (try congruence; try lia); fail);
    repeat case_match; unfold is_Some in *; naive_solver (try congruence; try lia).
Qed.

Lemma row_step_ident rel j j' : row_step rel j j' →
  j'.(Job.ID) = j.(Job.ID) ∧ j'.(Job.IdempotencyKey) = j.(Job.IdempotencyKey) ∧
  j'.(Job.MaxAttempts) = j.(Job.MaxAttempts) ∧ j'.(Job.Payload) = j.(Job.Payload).
Proof. by destruct 1. Qed.

Lemma row_step_terminal rel j j' : terminal j → ¬ row_step rel j j'.
Proof. intros Ht Hs. destruct Hs; unfold terminal in *; intuition congruence. Qed.

(** ** Statements as row steps *)
Definition same_rows (rel : bool) : table → table → Prop := Forall2 (rtc (row_step rel)).

Lemma same_rows_refl rel t : same_rows rel t t.
Proof. apply Forall_Forall2_diag, Forall_true. intros. apply rtc_refl. Qed.
Lemma same_rows_trans rel t1 t2 t3 : same_rows rel t1 t2 → same_rows rel t2 t3 → same_rows rel t1 t3.
Proof. apply transitivity. Qed.

Lemma update_where_rows rel p f t :
  (∀ j, p j = true → row_step rel j (f j)) → same_rows rel t (update_where p f t).1.
Proof.
  intros Hf. simpl. apply Forall2_fmap_r, Forall_Forall2_diag, Forall_true.
  intros j. simpl. destruct (p j) eqn:E; [by apply rtc_once, Hf|apply rtc_refl].
Qed.

Lemma leased_by_spec id owner j :
  leased_by id owner j = true ↔
  j.(Job.ID) = id ∧ j.(Job.Status) = StatusLeased ∧ j.(Job.LeaseOwner) = owner.
Proof.
  unfold leased_by, has_id. rewrite !andb_true_iff, !bool_decide_eq_true. tauto.
Qed.
Lemma pending_id_spec id j :
  pending_id id j = true ↔ j.(Job.ID) = id ∧ j.(Job.Status) = StatusPending.
Proof. unfold pending_id, has_id. by rewrite andb_true_iff, !bool_decide_eq_true. Qed.

Lemma lease_each_rows rel owner expires now l t :
  owner ≠ "" → same_rows rel t (lease_each owner expires now l t).2.
Proof.
  intros Hne. revert t. induction l as [|id l IH]; intros t; cbn [lease_each].
  { apply same_rows_refl. }
  pose proof (update_where_rows rel (pending_id id) (set_leased owner expires now) t) as Hrows.
  destruct (update_where _ _ t) as [t1 n]. simpl in Hrows.
  assert (same_rows rel t t1) as H1.
  { apply Hrows. intros j [_ ?]%pending_id_spec. by constructor. }
  destruct (negb _); [by eapply same_rows_trans|].
  destruct (FindByID id t1); [|done].
  specialize (IH t1). destruct (lease_each _ _ _ _ t1).
  by eapply same_rows_trans.
Qed.

Lemma insert_row_spec b j t r t' : insert_row b j t = (r, t') →
  t' = t ∧ (r = Ok tt → b = true) ∨
  t' = t ++ [inserted j] ∧ r = Ok tt ∧ existsb (has_key j.(Job.IdempotencyKey)) t = false ∧
  existsb (has_id j.(Job.ID)) t = false ∧ 1 ≤ j.(Job.MaxAttempts).
Proof.
  unfold insert_row. destruct (negb _ || _) eqn:Hc; [intros; simplify_eq; by left|].
  apply orb_false_iff in Hc as [_ ?%Z.leb_gt].
  destruct (existsb (has_key _) t); [intros; simplify_eq; left; by destruct b|].
  destruct (existsb (has_id _) t); intros; simplify_eq; [by left|right].
  repeat split; lia.
Qed.

Lemma existsb_has_id id t : existsb (has_id id) t = false → id ∉ ids t.
Proof.
  intros Hf Hin. apply not_true_iff_false in Hf. apply Hf, existsb_exists.
  apply list_elem_of_fmap in Hin as (j & -> & Hj). exists j.
  split; [by apply list_elem_of_In|]. by apply bool_decide_eq_true.
Qed.
Lemma existsb_has_key k t : existsb (has_key k) t = false → k ≠ "" →
  k ∉ Job.IdempotencyKey <$> t.
Proof.
  intros Hf Hk Hin. apply not_true_iff_false in Hf. apply Hf, existsb_exists.
  apply list_elem_of_fmap in Hin as (j & -> & Hj). exists j.
  split; [by apply list_elem_of_In|]. unfold has_key.
  by rewrite bool_decide_false, bool_decide_true by done.
Qed.

(** The job [Publish] hands to INSERT. *)
Definition stamped (now : Time) (job : Job) : Job :=
  let job := if IsZero job.(Job.AvailableAt)
             then job <| Job.AvailableAt := now |> else job in
  if IsZero job.(Job.CreatedAt)
  then job <| Job.CreatedAt := job.(Job.AvailableAt) |> else job.

Lemma stamped_same now job :
  let j := stamped now job in
  j.(Job.ID) = job.(Job.ID) ∧ j.(Job.IdempotencyKey) = job.(Job.IdempotencyKey) ∧
  j.(Job.Status) = job.(Job.Status) ∧ j.(Job.Attempts) = job.(Job.Attempts) ∧
  j.(Job.MaxAttempts) = job.(Job.MaxAttempts).
Proof. unfold stamped. by repeat case_match. Qed.

Lemma Publish_table now job t :
  (Publish now job t).2 = t ∨
  (Publish now job t).2 = (insert_row true (stamped now job) t).2 ∧ Validate job = Ok tt.
Proof.
  unfold Publish. destruct (Validate job) as [[]|]; [right|by left].
  fold (stamped now job). destruct (insert_row _ _ t) as [[[]|] t']; simpl; [|done].
  split; [|done]. repeat case_match; done.
Qed.

Lemma job_valid_spec j : Validate j = Ok tt ↔
  j.(Job.ID) ≠ "" ∧ j.(Job.Category) ≠ "" ∧ j.(Job.Type_) ≠ "" ∧ 1 ≤ j.(Job.MaxAttempts).
Proof.
  unfold Validate. destruct (_ || _) eqn:E.
  - rewrite !orb_true_iff, !bool_decide_eq_true in E. naive_solver.
  - rewrite !orb_false_iff, !bool_decide_eq_false in E.
    destruct (Z.ltb_spec (Job.MaxAttempts j) 1); naive_solver lia.
Qed.

Lemma publish_rows now job t :
  (Publish now job t).2 = t ∨ ∃ j, (Publish now job t).2 = t ++ [j] ∧ fresh_row t j ∧
    j.(Job.ID) = job.(Job.ID) ∧ (fresh_job job → fresh_job j).
Proof.
  destruct (Publish_table now job t) as [->|[-> Hv]]; [by left|].
  apply job_valid_spec in Hv as (? & _ & _ & ?).
  destruct (insert_row true (stamped now job) t) as [r t'] eqn:E. simpl.
  pose proof (stamped_same now job) as (Hid & Hk & Hs & Ha & Hm).
  destruct (insert_row_spec _ _ _ _ _ E) as [[-> _]|(-> & -> & Hkey & Hidn & _)]; [by left|].
  right. eexists. split; [done|]. split; [|unfold fresh_job; simpl; by rewrite Hs, Ha].
  split; simpl; rewrite ?Hid, ?Hk, ?Hm in *; try done.
  - by apply existsb_has_id.
  - by apply existsb_has_key.
Qed.

Section invariant.
Context `{RowOrder}.

(** What an operation adds to the table. *)
Definition adds (o : op) (t : table) (new : list Job) : Prop :=
  new = [] ∨ ∃ now job j, o = OpPublish now job ∧ new = [j] ∧ fresh_row t j ∧
    j.(Job.ID) = job.(Job.ID) ∧ (fresh_job job → fresh_job j).

(** An operation steps the rows it finds and adds at most one row. *)
Lemma apply_op_rows rel o t : (is_release o = true → rel = true) →
  ∃ t1 new, apply_op o t = t1 ++ new ∧ same_rows rel t t1 ∧ adds o t new.
Proof.
  assert (∀ t', same_rows rel t t' → ∃ t1 new, t' = t1 ++ new ∧ same_rows rel t t1 ∧
    adds o t new) as Hsame.
  { intros t' Ht. exists t', []. rewrite app_nil_r. by split_and!; [..|left]. }
  destruct o as [now job|salt now owner cats limit dur|id owner at_|id owner e|
    id owner c a|id at_|now]; simpl; intros Hrel.
  - destruct (publish_rows now job t) as [->|(j & -> & Hj)].
    + apply Hsame, same_rows_refl.
    + exists t, [j]. split_and!; [done|apply same_rows_refl|]. right. by exists now, job, j.
  - apply Hsame. unfold Lease. destruct (_ || _) eqn:E; [apply same_rows_refl|].
    apply orb_false_iff in E as [[Hne%bool_decide_eq_false _]%orb_false_iff _].
    match goal with |- context [lease_each ?o ?e ?n ?l t] =>
      pose proof (lease_each_rows rel o e n l t Hne) as Hl;
      destruct (lease_each o e n l t) as [[?|?] ?] end; [done|apply same_rows_refl].
  - apply Hsame, update_where_rows. intros j (_ & ? & _)%leased_by_spec. by constructor.
  - apply Hsame, update_where_rows. intros j (_ & ? & _)%leased_by_spec. by constructor.
  - apply Hsame, update_where_rows. intros j (_ & ? & _)%leased_by_spec. by constructor.
  - apply Hsame, update_where_rows. intros j Hc. unfold cancellable in Hc.
    rewrite andb_true_iff, orb_true_iff, !bool_decide_eq_true in Hc.
    constructor. tauto.
  - apply Hsame, update_where_rows. intros j [Hs _]%andb_true_iff.
    apply bool_decide_eq_true in Hs. constructor; auto.
Qed.
End invariant.

Lemma row_steps_id rel j j' : rtc (row_step rel) j j' → j.(Job.ID) = j'.(Job.ID).
Proof. induction 1 as [|? ? ? Hs _ IH]; [done|]. by apply row_step_ident in Hs as (<- & _). Qed.

Lemma rows_ident rel t t' : same_rows rel t t' →
  ids t' = ids t ∧ Job.IdempotencyKey <$> t' = Job.IdempotencyKey <$> t.
Proof.
  assert (∀ j j', rtc (row_step rel) j j' → j'.(Job.ID) = j.(Job.ID) ∧
    j'.(Job.IdempotencyKey) = j.(Job.IdempotencyKey)) as Hj.
  { induction 1 as [|j1 j2 j3 Hs _ [IH1 IH2]]; [done|].
    apply row_step_ident in Hs as (<- & <- & _). done. }
  induction 1 as [|j j' t t' Hr _ [IH1 IH2]]; [done|]. unfold ids in *.
  apply Hj in Hr as [E1 E2]. rewrite !fmap_cons, E1, E2, IH1, IH2. done.
Qed.

Lemma rows_wf rel t t' : same_rows rel t t' → Forall row_wf t → Forall row_wf t'.
Proof.
  induction 1 as [|j j' t t' Hr _ IH]; [done|].
  rewrite !Forall_cons. intros [Hj ?]. split; [|auto]. clear -Hr Hj.
  induction Hr; eauto using row_step_wf.
Qed.

Lemma fresh_row_wf t j : fresh_row t j → fresh_job j → row_wf j.
Proof.
  intros [] [Est Eat]. split; unfold terminal; repeat match goal with
    | E : _ j = _ |- _ => rewrite E; clear E end; simpl; try done; try lia;
    unfold is_Some; naive_solver.
Qed.

Lemma keyed_snoc t j : keyed t → fresh_row t j → keyed (t ++ [j]).
Proof.
  intros [Hi Hk] Hf. split.
  - unfold ids in *. rewrite fmap_app. apply NoDup_app. split_and!; [done| |apply NoDup_singleton].
    intros x Hx ->%list_elem_of_singleton. by apply Hf in Hx.
  - unfold keys in *. rewrite fmap_app, filter_app. apply NoDup_app. split_and!; [done| |].
    + intros x Hx. apply list_elem_of_filter in Hx as [Hne Hx].
      intros [_ ->%list_elem_of_singleton]%list_elem_of_filter. revert Hx. by apply Hf.
    + apply NoDup_filter, NoDup_singleton.
Qed.
Lemma table_wf_snoc t j : table_wf t → fresh_row t j → fresh_job j → table_wf (t ++ [j]).
Proof.
  rewrite !table_wf_keyed, Forall_app, Forall_singleton. intros [Hk Hr] Hf Hj.
  split_and!; [by apply keyed_snoc|done|by eapply fresh_row_wf].
Qed.

Lemma keyed_rows rel t t' : same_rows rel t t' → keyed t → keyed t'.
Proof.
  intros [Ei Ek]%rows_ident [Hi Hk]. split; [by rewrite Ei|unfold keys; by rewrite Ek].
Qed.

Lemma fresh_row_same rel t t' j : same_rows rel t t' → fresh_row t j → fresh_row t' j.
Proof.
  intros [Ei Ek]%rows_ident []. unfold ids in Ei. split; try done; by rewrite ?Ei, ?Ek.
Qed.

Section reach.
Context `{RowOrder}.

(** Whatever is published, identifiers and keys stay unique. *)
Lemma apply_op_keyed o t : keyed t → keyed (apply_op o t).
Proof.
  intros Hk. destruct (apply_op_rows true o t) as (t1 & new & -> & Hs & Hnew); [done|].
  pose proof (keyed_rows _ _ _ Hs Hk) as Hk1.
  destruct Hnew as [->|(now & job & j & _ & -> & Hj & _)]; [by rewrite app_nil_r|].
  eapply keyed_snoc; [done|]. by eapply fresh_row_same.
Qed.
Lemma steps_keyed rel t t' : keyed t → rtc (step rel) t t' → keyed t'.
Proof. intros ? Hs. induction Hs as [|? ? ? []]; eauto using apply_op_keyed. Qed.
Lemma reachable_keyed t : reachable t → keyed t.
Proof. apply steps_keyed. repeat constructor. Qed.

Lemma apply_op_wf o t : fresh_op o → table_wf t → table_wf (apply_op o t).
Proof.
  rewrite !table_wf_keyed. intros Hf [Hk Hr]. split; [by apply apply_op_keyed|].
  destruct (apply_op_rows true o t) as (t1 & new & -> & Hs & Hnew); [done|].
  apply Forall_app. split; [by eapply rows_wf|].
  destruct Hnew as [->|(now & job & j & -> & -> & Hj & _ & Hjob)]; [done|].
  apply Forall_singleton. eapply fresh_row_wf; [done|]. by apply Hjob.
Qed.
Lemma run_jobs_wf l t : Forall fresh_op l → table_wf t → table_wf (run_ops l t).
Proof. intros Hl. revert t. induction Hl; simpl; eauto using apply_op_wf. Qed.
Lemma run_ops_keyed l t : keyed t → keyed (run_ops l t).
Proof. revert t. induction l; simpl; eauto using apply_op_keyed. Qed.

(** A row of the table is never lost: later it is the outcome of row steps. *)
Lemma steps_row rel t t' j : rtc (step rel) t t' → j ∈ t →
  ∃ j', j' ∈ t' ∧ rtc (row_step rel) j j'.
Proof.
  intros Hs. revert j. induction Hs as [|t t1 t' Hst _ IH]; intros j Hj.
  { exists j. split; [done|apply rtc_refl]. }
  destruct Hst as [o t Hrel].
  destruct (apply_op_rows rel o t Hrel) as (t2 & new & E & Hrows & _).
  rewrite E in IH. apply list_elem_of_lookup_1 in Hj as [i Hi].
  destruct (Forall2_lookup_l _ _ _ _ _ Hrows Hi) as (j1 & Hj1 & Hr1).
  destruct (IH j1) as (j' & ? & ?).
  { apply elem_of_app. left. by eapply list_elem_of_lookup_2. }
  exists j'. split; [done|]. by etrans.
Qed.

(** Where a row comes from: a row after a run of operations is the outcome of row steps
    from a row that was there before, or from a row of the same identifier that one of
    the operations published. *)
Definition published (l : list op) (id : string) (j : Job) : Prop :=
  ∃ now job t, OpPublish now job ∈ l ∧ job.(Job.ID) = id ∧ fresh_row t j ∧ j.(Job.ID) = id ∧
    (fresh_job job → fresh_job j).
Lemma run_ops_origin rel l t j :
  Forall (λ o, is_release o = true → rel = true) l → j ∈ run_ops l t →
  ∃ j0, (j0 ∈ t ∨ published l j.(Job.ID) j0) ∧ j0.(Job.ID) = j.(Job.ID) ∧ rtc (row_step rel) j0 j.
Proof.
  intros Hl. revert j. induction l as [|o l IH] using rev_ind; intros j.
  { intros Hj. exists j. split_and!; [by left|done|apply rtc_refl]. }
  rewrite Forall_app, Forall_singleton in Hl. destruct Hl as [Hl Ho]. unfold run_ops. rewrite foldl_app. simpl.
  fold (run_ops l t). destruct (apply_op_rows rel o (run_ops l t) Ho) as (t1 & new & -> & Hs & Hnew).
  assert (∀ j0, published l j.(Job.ID) j0 → published (l ++ [o]) j.(Job.ID) j0) as Hmono.
  { intros j0 (now & job & t0 & Hin & ?). exists now, job, t0. split; [|done]. apply elem_of_app. by left. }
  intros [Hj|Hj]%elem_of_app.
  - apply list_elem_of_lookup_1 in Hj as [i Hi].
    destruct (Forall2_lookup_r _ _ _ _ _ Hs Hi) as (j1 & Hj1 & Hr1).
    assert (j1.(Job.ID) = j.(Job.ID)) as E by (by apply row_steps_id in Hr1).
    destruct (IH Hl j1) as (j0 & Hj0 & Hid & Hr0); [by eapply list_elem_of_lookup_2|].
    rewrite E in Hj0, Hid. exists j0. split_and!; [|done|by etrans]. destruct Hj0; eauto.
  - destruct Hnew as [->|(now & job & j0 & -> & -> & Hf & Hid & Hfj)]; [by apply elem_of_nil in Hj|].
    apply list_elem_of_singleton in Hj as ->. exists j0. split_and!; [|done|apply rtc_refl].
    right. exists now, job, (run_ops l t). split_and!; [|done..].
    apply elem_of_app. right. by left.
Qed.

(** An invariant of rows that holds of published rows holds of all the rows. *)
Lemma run_ops_invariant rel (P : Job → Prop) l j :
  (∀ j j', P j → row_step rel j j' → P j') → Forall (λ o, is_release o = true → rel = true) l →
  j ∈ run_ops l [] → (∀ j0, published l j.(Job.ID) j0 → P j0) → P j.
Proof.
  intros Hrow Hl Hj Hpub. destruct (run_ops_origin rel l [] j Hl Hj) as (j0 & [[]%elem_of_nil|H0] & _ & Hr).
  apply Hpub in H0. clear -H0 Hr Hrow. induction Hr; eauto.
Qed.
End reach.

(** ** Looking rows up *)
Lemma unique_id t j j' : NoDup (ids t) → j ∈ t → j' ∈ t → j.(Job.ID) = j'.(Job.ID) → j = j'.
Proof.
  induction t as [|x t IH]; [by intros _ ?%elem_of_nil|].
  unfold ids in *. rewrite fmap_cons, NoDup_cons, !elem_of_cons. intros [Hx Hnd].
  intros [->|Hj] [->|Hj'] E; [done|exfalso|exfalso|by auto].
  - apply Hx. rewrite E. by apply list_elem_of_fmap_2.
  - apply Hx. rewrite <- E. by apply list_elem_of_fmap_2.
Qed.

Lemma select_first_Some p t j : select_first p t = Some j → j ∈ t ∧ p j = true.
Proof.
  unfold select_first. intros ([i j'] & E & [= ->])%fmap_Some.
  apply list_find_Some in E as (E & ? & _). by apply list_elem_of_lookup_2 in E.
Qed.
Lemma select_first_None p t : select_first p t = None ↔ ∀ j, j ∈ t → p j = false.
Proof.
  unfold select_first. rewrite fmap_None, list_find_None, Forall_forall.
  setoid_rewrite not_true_iff_false. done.
Qed.

Lemma FindByID_Some t id j : NoDup (ids t) →
  FindByID id t = Some j ↔ j ∈ t ∧ j.(Job.ID) = id.
Proof.
  intros Hnd. unfold FindByID. split.
  - intros [? ?%bool_decide_eq_true]%select_first_Some. done.
  - intros [Hj <-]. destruct (select_first _ t) as [j'|] eqn:E.
    + apply select_first_Some in E as [Hj' E%bool_decide_eq_true].
      f_equal. by eapply unique_id.
    + rewrite select_first_None in E. specialize (E _ Hj).
      unfold has_id in E. by rewrite bool_decide_true in E.
Qed.

Lemma filter_unique (p : Job → bool) t j : NoDup (ids t) → j ∈ t → p j = true →
  (∀ j', j' ∈ t → p j' = true → j'.(Job.ID) = j.(Job.ID)) →
  base.filter (λ j, p j = true) t = [j].
Proof.
  intros Hnd Hj Hp Huniq. apply Permutation_singleton_r, NoDup_Permutation.
  - apply NoDup_filter. by eapply NoDup_fmap_1.
  - apply NoDup_singleton.
  - intros x. rewrite list_elem_of_filter, list_elem_of_singleton. split; [|naive_solver].
    intros [? ?]. eapply unique_id; eauto.
Qed.

Lemma filter_id_le_1 (p : Job → bool) t id : NoDup (ids t) →
  (∀ j, p j = true → j.(Job.ID) = id) →
  base.filter (λ j, p j = true) t = [] ∨ ∃ j, j ∈ t ∧ base.filter (λ j, p j = true) t = [j].
Proof.
  intros Hnd Hp. destruct (base.filter _ t) as [|j l] eqn:E; [by left|right].
  assert (j ∈ t ∧ p j = true) as [Hj ?].
  { apply and_comm, (list_elem_of_filter (λ j, p j = true)). rewrite E. by left. }
  exists j. split; [done|]. rewrite <- E. apply filter_unique; [done..|].
  intros j' _ Hj'. by rewrite (Hp j'), (Hp j).
Qed.

(** An update restricted to one id either finds its row or changes nothing. *)
Lemma exec_one_spec name (p : Job → bool) f t id : NoDup (ids t) →
  (∀ j, p j = true → j.(Job.ID) = id) →
  (∃ j, FindByID id t = Some j ∧ p j = true ∧
    exec_one name p f t = (Ok tt, (λ x, if has_id id x then f x else x) <$> t)) ∨
  (∀ j, j ∈ t → p j = false) ∧
    exec_one name p f t = (Err (errorf "%s affected %d rows" [name; "0"]), t).
Proof.
  intros Hnd Hp. unfold exec_one, update_where.
  destruct (filter_id_le_1 p t id Hnd Hp) as [E|(j & Hj & E)]; rewrite E.
  - right. assert (∀ j, j ∈ t → p j = false) as Hnone.
    { intros j Hj. apply not_true_iff_false. intros Hpj.
      assert (j ∈ base.filter (λ j, p j = true) t) as Hin
        by (by apply list_elem_of_filter). rewrite E in Hin. by apply elem_of_nil in Hin. }
    split; [done|]. simpl. f_equal. rewrite <- (list_fmap_id t) at 2.
    apply list_fmap_ext. intros i j Hij%list_elem_of_lookup_2. by rewrite Hnone.
  - left. assert (p j = true) as Hpj.
    { assert (j ∈ base.filter (λ j, p j = true) t) as Hin by (rewrite E; by left).
      by apply list_elem_of_filter in Hin as [? _]. }
    exists j. pose proof (Hp j Hpj) as <-. split_and!; [by apply FindByID_Some|done|].
    simpl. f_equal. apply list_fmap_ext. intros i x Hx%list_elem_of_lookup_2.
    unfold has_id. case_bool_decide as Hid; [|destruct (p x) eqn:Hpx; [by apply Hp in Hpx|done]].
    assert (x = j) as -> by (by eapply unique_id). by rewrite Hpj.
Qed.

(** ** Leasing *)
Definition lease_rows (owner : string) (expires now : Time) (sel : list string) (t : table)
    : table :=
  (λ j, if bool_decide (j.(Job.ID) ∈ sel) then set_leased owner expires now j else j) <$> t.

Lemma lease_rows_ids owner expires now sel t :
  ids (lease_rows owner expires now sel t) = ids t.
Proof.
  unfold ids, lease_rows. rewrite <- list_fmap_compose. apply list_fmap_ext.
  intros i j _. simpl. by case_bool_decide.
Qed.

Lemma lease_each_spec owner expires now sel t :
  NoDup (ids t) → NoDup (ids sel) →
  (∀ j, j ∈ sel → j ∈ t ∧ j.(Job.Status) = StatusPending) →
  lease_each owner expires now (ids sel) t =
    (Ok (set_leased owner expires now <$> sel), lease_rows owner expires now (ids sel) t).
Proof.
  revert t. induction sel as [|j sel IH]; intros t Hnd Hsel Hpend; simpl.
  { f_equal. unfold lease_rows. rewrite <- (list_fmap_id t) at 1. by apply list_fmap_ext. }
  unfold ids in Hsel. rewrite fmap_cons, NoDup_cons in Hsel. destruct Hsel as [Hj Hsel].
  destruct (Hpend j) as [Hjt Hjp]; [by left|].
  unfold update_where. rewrite (filter_unique _ t j);
    [|done|done|by apply pending_id_spec|by intros j' _ [? _]%pending_id_spec].
  simpl. set (t1 := _ <$> t).
  assert (t1 = lease_rows owner expires now [j.(Job.ID)] t) as Ht1.
  { apply list_fmap_ext. intros i x Hx%list_elem_of_lookup_2. simpl.
    destruct (pending_id _ x) eqn:E.
    - apply pending_id_spec in E as [-> _]. by rewrite bool_decide_true by left.
    - rewrite bool_decide_false; [done|]. intros Hid%list_elem_of_singleton.
      assert (x = j) as -> by (apply (unique_id t); done).
      assert (pending_id j.(Job.ID) j = true) by (by apply pending_id_spec). congruence. }
  clearbody t1. subst t1. set (t1 := lease_rows _ _ _ _ t).
  assert (NoDup (ids t1)) as Hnd1 by (unfold t1; by rewrite lease_rows_ids).
  assert (FindByID j.(Job.ID) t1 = Some (set_leased owner expires now j)) as ->.
  { apply FindByID_Some; [done|]. split; [|done]. unfold t1, lease_rows.
    apply list_elem_of_fmap. exists j. split; [|done]. by rewrite bool_decide_true by left. }
  rewrite IH; [|done..|].
  - simpl. f_equal. unfold t1, lease_rows. rewrite <- list_fmap_compose.
    apply list_fmap_ext. intros i x Hx. simpl.
    destruct (decide (x.(Job.ID) = j.(Job.ID))) as [H1|H1].
    + rewrite (bool_decide_true (_ ∈ [_])) by (rewrite H1; by left). simpl.
      rewrite H1, bool_decide_false by done. by rewrite bool_decide_true by left.
    + rewrite (bool_decide_false (_ ∈ [_])) by (by intros ?%list_elem_of_singleton).
      unfold ids. erewrite bool_decide_ext; [done|].
      rewrite elem_of_cons. tauto.
  - intros x Hx. destruct (Hpend x) as [Hxt Hxp]; [by right|]. split; [|done].
    unfold t1, lease_rows. apply list_elem_of_fmap. exists x. split; [|done].
    rewrite bool_decide_false; [done|]. intros E%list_elem_of_singleton.
    apply Hj. rewrite <- E. by apply list_elem_of_fmap_2.
Qed.

Section lease_facts.
Context `{RowOrder}.

(** The rows one [Lease] takes. *)
Definition selection (salt : nat) (now : Time) (categories : list string) (limit : Z)
    (t : table) : list Job :=
  take (Z.to_nat limit)
    (order_rows salt (base.filter (λ j, eligible now categories j = true) t)).

Lemma selection_elem salt now cats limit t j :
  j ∈ selection salt now cats limit t → j ∈ t ∧ eligible now cats j = true.
Proof.
  intros Hj%elem_of_take. destruct Hj as (i & Hj%list_elem_of_lookup_2 & _).
  rewrite order_rows_perm, list_elem_of_filter in Hj. tauto.
Qed.

Lemma selection_nodup salt now cats limit t :
  NoDup (ids t) → NoDup (ids (selection salt now cats limit t)).
Proof.
  intros Hnd. unfold selection, ids. rewrite fmap_take.
  apply (sublist_NoDup _ (Job.ID <$>
    order_rows salt (base.filter (λ j, eligible now cats j = true) t)));
    [|apply sublist_take].
  rewrite order_rows_perm. eapply sublist_NoDup; [exact Hnd|].
  apply fmap_sublist, sublist_filter.
Qed.

Lemma Lease_eq salt now owner cats limit dur t :
  NoDup (ids t) → owner ≠ "" → 1 ≤ limit → 0 < dur →
  let sel := selection salt now cats limit t in
  Lease salt now owner cats limit dur t =
    (Ok (set_leased owner (now + dur) now <$> sel),
     lease_rows owner (now + dur) now (ids sel) t).
Proof.
  intros Hnd Ho Hl Hd sel. unfold Lease.
  rewrite bool_decide_false by done.
  rewrite (proj2 (Z.ltb_ge _ _)), (proj2 (Z.leb_gt _ _)) by lia. simpl.
  fold (selection salt now cats limit t). fold sel. fold (ids sel).
  rewrite lease_each_spec; [done|done|by apply selection_nodup|].
  intros j Hj%selection_elem. destruct Hj as [? He]. split; [done|].
  unfold eligible in He. rewrite !andb_true_iff, bool_decide_eq_true in He. tauto.
Qed.
End lease_facts.

(** ** The contract of the queue *)

(** The stable order of the rows, for evaluating definitions. *)
#[global] Instance job_le_trans : Transitive job_le.
Proof. intros a b c. unfold job_le. lia. Qed.
#[global] Instance job_le_total : Total job_le.
Proof. intros a b. unfold job_le. lia. Qed.
#[global, refine] Instance stable_rows : RowOrder | 100 := {|
  order_rows _ t := merge_sort job_le t
|}.
Proof.
  - intros. apply merge_sort_Permutation.
  - intros. apply StronglySorted_merge_sort; apply _.
Defined.

Definition example_job (id key : string) (priority : Z) : Job := {|
  Job.ID := id; Job.Category := "execution"; Job.Type_ := "execution.run.requested";
  Job.AggregateType := ""; Job.AggregateID := ""; Job.Payload := "";
  Job.Status := StatusPending; Job.Priority := priority; Job.AvailableAt := 1;
  Job.LeaseOwner := ""; Job.LeaseExpiresAt := None; Job.Attempts := 0; Job.MaxAttempts := 2;
  Job.IdempotencyKey := key; Job.LastError := ""; Job.CreatedAt := 1;
  Job.StartedAt := None; Job.CompletedAt := None
|}.

Lemma run_ops_app l l' t : run_ops (l ++ l') t = run_ops l' (run_ops l t).
Proof. apply foldl_app. Qed.
Lemma run_ops_steps rel l t :
  Forall (λ o, is_release o = true → rel = true) l →
  rtc (step rel) t (run_ops l t).
Proof.
  revert t. induction l as [|o l IH]; intros t; simpl; [intros; apply rtc_refl|].
  intros [? ?]%Forall_cons. eapply rtc_l; [by constructor|auto].
Qed.

Section contract.
Context `{RowOrder}.

Lemma publish_key now job t j t' :
  keyed t → job.(Job.IdempotencyKey) ≠ "" → Publish now job t = (Ok j, t') →
  j ∈ t' ∧ j.(Job.IdempotencyKey) = job.(Job.IdempotencyKey).
Proof.
  intros Hwf Hk. unfold Publish. destruct (Validate job) as [[]|]; [|done].
  fold (stamped now job). destruct (stamped_same now job) as (_ & -> & _).
  destruct (insert_row _ _ t) as [[[]|] t1] eqn:E; [|done].
  rewrite bool_decide_false by done. simpl.
  destruct (select_first _ t1) as [row|] eqn:E1; [|done].
  destruct (FindByID _ t1) as [j1|] eqn:E2; [|done]. intros [= <- <-].
  apply select_first_Some in E1 as [Hin Hkey].
  apply select_first_Some in E2 as [? Hid%bool_decide_eq_true]. split; [done|].
  assert (NoDup (ids t1)) as Hnd1.
  { destruct (insert_row_spec _ _ _ _ _ E) as [[-> _]|(-> & _ & _ & Hnew & _)].
    - apply Hwf.
    - unfold ids. rewrite fmap_app. apply NoDup_app. split_and!; [apply Hwf| |apply NoDup_singleton].
      intros x Hx ->%list_elem_of_singleton. by apply existsb_has_id in Hnew. }
  assert (j1 = row) as -> by (by apply (unique_id t1)).
  unfold has_key in Hkey. by apply andb_true_iff in Hkey as [_ ?%bool_decide_eq_true].
Qed.

Lemma unique_key t j j' : NoDup (keys t) → j ∈ t → j' ∈ t → j.(Job.IdempotencyKey) ≠ "" →
  j.(Job.IdempotencyKey) = j'.(Job.IdempotencyKey) → j = j'.
Proof.
  unfold keys. induction t as [|x t IH]; [by intros _ ?%elem_of_nil|].
  rewrite fmap_cons, filter_cons, !elem_of_cons. intros Hnd Hj Hj' Hk E.
  assert (NoDup (base.filter (λ k, k ≠ "") (Job.IdempotencyKey <$> t))) as Hnd'.
  { case_decide; [by apply NoDup_cons in Hnd as [_ ?]|done]. }
  assert (∀ y, y ∈ t → x.(Job.IdempotencyKey) ≠ "" →
    x.(Job.IdempotencyKey) = y.(Job.IdempotencyKey) → False) as Hx.
  { intros y Hy Hne E'. rewrite decide_True in Hnd by done.
    apply NoDup_cons in Hnd as [Hn _]. apply Hn, list_elem_of_filter. split; [done|].
    rewrite E'. by apply list_elem_of_fmap_2. }
  destruct Hj as [->|Hj], Hj' as [->|Hj']; [done|exfalso; eauto| |by auto].
  exfalso. apply (Hx j); congruence.
Qed.

(** Publishing under a key the table already holds changes nothing. *)
Lemma publish_existing now job t j : keyed t → Validate job = Ok tt →
  status_allowed job.(Job.Status) = true →
  j ∈ t → j.(Job.IdempotencyKey) ≠ "" → job.(Job.IdempotencyKey) = j.(Job.IdempotencyKey) →
  Publish now job t = (Ok j, t).
Proof.
  intros Hwf Hv Hst Hj Hne Hk. unfold Publish. rewrite Hv. fold (stamped now job).
  destruct (stamped_same now job) as (_ & Hk1 & Hs1 & _ & Hm1).
  apply job_valid_spec in Hv as (_ & _ & _ & Hm). unfold insert_row.
  rewrite Hs1, Hst, Hm1, Hk1, Hk, (proj2 (Z.leb_gt _ _)) by lia. simpl.
  assert (has_key j.(Job.IdempotencyKey) j = true) as Hjk.
  { unfold has_key. by rewrite bool_decide_false, bool_decide_true by done. }
  rewrite (proj2 (existsb_exists _ _)) by (exists j; by rewrite <- list_elem_of_In).
  rewrite bool_decide_false by done. simpl.
  destruct (select_first (has_key _) t) as [row|] eqn:E.
  - apply select_first_Some in E as [Hr Hrk]. apply andb_true_iff in Hrk as [_ Hrk].
    apply bool_decide_eq_true in Hrk.
    assert (row = j) as -> by (symmetry; by apply (unique_key t); [apply Hwf|..]).
    by rewrite (proj2 (FindByID_Some t j.(Job.ID) j (keyed_ids _ Hwf)) (conj Hj eq_refl)).
  - rewrite select_first_None in E. rewrite E in Hjk; done.
Qed.

(** C28: The queue's table invariant, after any sequence of the queue's operations by
    any owners on any arguments: identifiers and idempotency keys are unique, and a
    row whose identifier was only ever published as a pending job without attempts (as
    [New] and the outbox build them; [Publish] itself does not look) is well formed:
    it has a name, an allowed status and a positive budget, it carries an owner and an
    expiry exactly when it is leased, a completion time exactly when it is in a final
    status, a start time exactly when it was attempted, and a leased row was
    attempted. *)
Theorem queue_reachable_wf l :
  let t := run_ops l [] in
  NoDup (ids t) ∧ NoDup (keys t) ∧
  ∀ j, j ∈ t →
    (∀ now job, OpPublish now job ∈ l → job.(Job.ID) = j.(Job.ID) →
       job.(Job.Status) = StatusPending ∧ job.(Job.Attempts) = 0) →
    row_wf j.
Proof.
  intros t. destruct (run_ops_keyed l []) as [Hi Hk]; [repeat constructor|]. split_and!; [done..|].
  intros j Hj Hfresh. eapply (run_ops_invariant true); [apply row_step_wf|by apply Forall_true|exact Hj|].
  intros j0 (now & job & t0 & Hin & Hid & Hf & _ & Hjob). eapply fresh_row_wf; [exact Hf|].
  apply Hjob. by apply (Hfresh now).
Qed.

(** The jobs [New] builds are fresh. *)
Lemma New_fresh id clock category eventType payload now job :
  New id clock category eventType payload now = Ok job → fresh_job job.
Proof. unfold New. destruct (_ || _); [done|]. by intros [= <-]. Qed.

(** Publication is exactly-once per idempotency key: whatever operations
    happen after a first publication, publishing again under its key leaves the
    table unchanged and returns the row of that first job. *)
Theorem publish_exactly_once now now' job job' t t1 t2 j :
  reachable t → job.(Job.IdempotencyKey) ≠ "" →
  Publish now job t = (Ok j, t1) → rtc (step true) t1 t2 →
  Validate job' = Ok tt → job'.(Job.Status) = StatusPending →
  job'.(Job.IdempotencyKey) = job.(Job.IdempotencyKey) →
  ∃ j', Publish now' job' t2 = (Ok j', t2) ∧ j'.(Job.ID) = j.(Job.ID) ∧
        FindByID j.(Job.ID) t2 = Some j'.
Proof.
  intros Hr Hk Hpub Hsteps Hv' Hst' Hk'. pose proof (reachable_keyed _ Hr) as Hwf.
  assert (step true t t1) as Hs1.
  { change t1 with (Ok j, t1).2. rewrite <- Hpub. by apply (step_op true (OpPublish now job)). }
  assert (keyed t2) as Hwf2 by (eapply steps_keyed; [exact Hwf|by eapply rtc_l]).
  destruct (publish_key _ _ _ _ _ Hwf Hk Hpub) as [Hj Hjk].
  destruct (steps_row _ _ _ _ Hsteps Hj) as (j' & Hj' & Hrow).
  assert (j'.(Job.ID) = j.(Job.ID) ∧ j'.(Job.IdempotencyKey) = j.(Job.IdempotencyKey)) as [Hi' Hjk'].
  { clear -Hrow. induction Hrow as [|? ? ? Hr _ [IH1 IH2]]; [done|].
    by apply row_step_ident in Hr as (<- & <- & _). }
  exists j'. split_and!; [|done|by apply FindByID_Some; [apply Hwf2|]].
  apply publish_existing; try done; [by rewrite Hst'|congruence..].
Qed.

(** Completed, failed and cancelled jobs are final: no sequence of queue
    operations changes any column of their row. *)
Theorem terminal_rows_absorbing t t' j :
  keyed t → FindByID j.(Job.ID) t = Some j → terminal j → rtc (step true) t t' →
  FindByID j.(Job.ID) t' = Some j.
Proof.
  intros Hwf [Hj _]%FindByID_Some Ht Hs; [|apply Hwf].
  destruct (steps_row _ _ _ _ Hs Hj) as (j' & Hj' & Hrow).
  inversion Hrow as [|? ? ? Hone]; subst; [|by apply row_step_terminal in Hone].
  apply FindByID_Some; [|done]. by eapply steps_keyed.
Qed.
End contract.

(** ** Leases *)
Definition replace_row (id : string) (f : Job → Job) (t : table) : table :=
  (λ j, if has_id id j then f j else j) <$> t.

Lemma StronglySorted_take_drop {A} (R : relation A) n l x y :
  StronglySorted R l → x ∈ take n l → y ∈ drop n l → R x y.
Proof. intros Hs. apply StronglySorted_app_1_elem_of. by rewrite take_drop. Qed.

Section leases.
Context `{RowOrder}.

Lemma selection_best salt now cats limit t j j' :
  j ∈ t → eligible now cats j = true → j ∉ selection salt now cats limit t →
  length (selection salt now cats limit t) = Z.to_nat limit ∧
  (j' ∈ selection salt now cats limit t → job_le j' j).
Proof.
  intros Hj He Hn. unfold selection in *.
  pose proof (order_rows_sorted salt (base.filter (λ j, eligible now cats j = true) t)) as Hs.
  assert (j ∈ order_rows salt (base.filter (λ j, eligible now cats j = true) t)) as Hin
    by (by rewrite order_rows_perm, list_elem_of_filter).
  set (l := order_rows _ _) in *. set (n := Z.to_nat limit) in *.
  rewrite <- (take_drop n l), elem_of_app in Hin. destruct Hin as [|Hdrop]; [done|].
  split; [|intros; by eapply StronglySorted_take_drop].
  rewrite length_take. apply list_elem_of_lookup_1 in Hdrop as [i Hi].
  apply lookup_lt_Some in Hi. rewrite length_drop in Hi. lia.
Qed.

Lemma ids_leased owner expires now sel : ids (set_leased owner expires now <$> sel) = ids sel.
Proof. unfold ids. rewrite <- list_fmap_compose. by apply list_fmap_ext. Qed.

(** What a lease may take, and the order in which jobs are served: higher
    priority, then earlier availability, then earlier creation. *)
Definition wanted (now : Time) (cats : list string) (j : Job) : Prop :=
  j.(Job.Status) = StatusPending ∧ j.(Job.AvailableAt) ≤ now ∧
  (cats = [] ∨ j.(Job.Category) ∈ cats).
Definition served_before (a b : Job) : Prop :=
  b.(Job.Priority) < a.(Job.Priority) ∨
  a.(Job.Priority) = b.(Job.Priority) ∧
  (a.(Job.AvailableAt) < b.(Job.AvailableAt) ∨
   a.(Job.AvailableAt) = b.(Job.AvailableAt) ∧ a.(Job.CreatedAt) ≤ b.(Job.CreatedAt)).

Lemma eligible_wanted now cats j : eligible now cats j = true ↔ wanted now cats j.
Proof.
  unfold eligible, wanted.
  rewrite !andb_true_iff, orb_true_iff, !bool_decide_eq_true, Z.leb_le. tauto.
Qed.

(** C6: A lease with a named owner, a positive limit and a positive duration
    succeeds; it hands out at most [limit] distinct jobs, each of them pending,
    due and of a wanted category before, and leased to the owner with one more
    attempt after; no other row changes; and a job it leaves behind although
    it was eligible comes, in priority and then age, after all those it took,
    which are then as many as the limit allows. *)
Theorem lease_takes_best salt now owner cats limit dur t :
  table_wf t → owner ≠ "" → 1 ≤ limit → 0 < dur →
  ∃ leased t', Lease salt now owner cats limit dur t = (Ok leased, t') ∧
    Z.of_nat (length leased) ≤ limit ∧ NoDup (ids leased) ∧
    (∀ j', j' ∈ leased → FindByID j'.(Job.ID) t' = Some j' ∧
       ∃ j, FindByID j'.(Job.ID) t = Some j ∧ wanted now cats j ∧
         j'.(Job.Status) = StatusLeased ∧ j'.(Job.LeaseOwner) = owner ∧
         j'.(Job.LeaseExpiresAt) = Some (now + dur) ∧ j'.(Job.Attempts) = j.(Job.Attempts) + 1) ∧
    (∀ j, j ∈ t → j.(Job.ID) ∉ ids leased → j ∈ t') ∧
    (∀ j, j ∈ t → wanted now cats j → j.(Job.ID) ∉ ids leased →
       Z.of_nat (length leased) = limit ∧
       ∀ j', j' ∈ t → j'.(Job.ID) ∈ ids leased → served_before j' j).
Proof.
  intros Hwf Ho Hl Hd. destruct Hwf as [Hnd _ _].
  set (sel := selection salt now cats limit t).
  assert (∀ j, j ∈ t → j.(Job.ID) ∈ ids sel → j ∈ sel) as Hsel.
  { intros j Hj (j1 & E & Hj1)%list_elem_of_fmap.
    rewrite (unique_id t j j1); [done..| |done]. by apply selection_elem in Hj1 as [? _]. }
  eexists _, _. split; [by apply Lease_eq|]. fold sel. rewrite !ids_leased, length_fmap.
  split_and!.
  - unfold sel, selection. rewrite length_take. lia.
  - by apply selection_nodup.
  - intros j' (j & -> & Hj)%list_elem_of_fmap.
    destruct (selection_elem _ _ _ _ _ _ Hj) as [Hjt He]. split.
    + apply FindByID_Some; [by rewrite lease_rows_ids|]. split; [|done].
      apply list_elem_of_fmap. exists j. split; [|done].
      rewrite bool_decide_true; [done|]. by apply list_elem_of_fmap_2.
    + exists j. split_and!; [by apply FindByID_Some|by apply eligible_wanted|done..].
  - intros j Hj Hn. apply list_elem_of_fmap. exists j. by rewrite bool_decide_false.
  - intros j Hj He%eligible_wanted Hn. assert (j ∉ sel) as Hns
      by (intros ?; by apply Hn, list_elem_of_fmap_2).
    split.
    + destruct (selection_best salt now cats limit t j j Hj He Hns) as [E _].
      fold sel in E. lia.
    + intros j' Hj' Hin. by apply (selection_best salt now cats limit t j j'); auto.
Qed.
End leases.

(** Only the lease holder acts on a leased job: with the row [j] of [id],
    completing, renewing and retrying succeed exactly when [j] is leased to the
    caller, and then change that row alone; otherwise they report zero affected
    rows and leave the table as it was. *)
Theorem owner_checked id owner t j at_ expires cause avail :
  table_wf t → FindByID id t = Some j →
  if decide (j.(Job.Status) = StatusLeased ∧ j.(Job.LeaseOwner) = owner) then
    Complete id owner at_ t = (Ok tt, replace_row id (set_completed at_) t) ∧
    RenewLease id owner expires t = (Ok tt, replace_row id (set_renewed expires) t) ∧
    Retry id owner cause avail t =
      (Ok tt, replace_row id (set_retried (default "" cause) avail) t)
  else
    Complete id owner at_ t = (Err "transition queue job affected 0 rows", t) ∧
    RenewLease id owner expires t = (Err "renew queue job lease affected 0 rows", t) ∧
    Retry id owner cause avail t = (Err "retry queue job affected 0 rows", t).
Proof.
  intros [Hnd _ _] Hj. pose proof (proj1 (FindByID_Some t id j Hnd) Hj) as [Hjt Hid].
  assert (∀ name f, exec_one name (leased_by id owner) f t =
    if decide (j.(Job.Status) = StatusLeased ∧ j.(Job.LeaseOwner) = owner)
    then (Ok tt, replace_row id f t)
    else (Err (errorf "%s affected %d rows" [name; "0"]), t)) as Hexec.
  { intros name f.
    destruct (exec_one_spec name (leased_by id owner) f t id) as [(j1 & E1 & E2 & E3)|[E1 E2]];
      [done|by intros ? (? & _)%leased_by_spec|..].
    - apply leased_by_spec in E2 as (_ & ? & ?). simplify_eq.
      rewrite decide_True by done. exact E3.
    - rewrite decide_False; [exact E2|]. intros [? ?].
      assert (leased_by id owner j = true) as E by (by apply leased_by_spec).
      rewrite E1 in E; done. }
  unfold Complete, RenewLease, Retry, transition. rewrite !Hexec.
  case_decide; split_and!; done.
Qed.

(** ** The retry budget *)
Definition in_budget (j : Job) : Prop :=
  j.(Job.Attempts) ≤ j.(Job.MaxAttempts) ∧
  (j.(Job.Status) = StatusPending → j.(Job.Attempts) < j.(Job.MaxAttempts)).

Lemma row_step_budget j j' : in_budget j → row_step false j j' → in_budget j'.
Proof.
  unfold in_budget. intros [Hle Hp] Hs. destruct Hs; simpl; try (split; [lia|done]).
  - specialize (Hp ltac:(assumption)). split; [lia|done].
  - split; [done|]. by destruct (Z.leb_spec (Job.MaxAttempts j) (Job.Attempts j)).
Qed.

Section budget.
Context `{RowOrder}.

(** As long as no lease expires, a job is attempted at most [MaxAttempts]
    times, and a job that waits in the queue still has an attempt left. *)
Theorem retry_budget l j :
  Forall (λ o, fresh_op o ∧ is_release o = false) l → j ∈ run_ops l [] →
  j.(Job.Attempts) ≤ j.(Job.MaxAttempts) ∧
  (j.(Job.Status) = StatusPending → j.(Job.Attempts) < j.(Job.MaxAttempts)).
Proof.
  intros [Hf Hr]%Forall_and Hj. rewrite Forall_forall in Hf.
  apply (run_ops_invariant false in_budget l j); [apply row_step_budget| |done|].
  - eapply Forall_impl; [exact Hr|]. by intros o ->.
  - intros j0 (now & job & t0 & Hin & _ & [] & _ & Hjob). apply Hf, Hjob in Hin as [].
    unfold in_budget. lia.
Qed.
End budget.

(** A worker that dies while it holds the lease: the lease expires. *)
Definition crash_loop (n : nat) : list op :=
  OpPublish 1 (example_job "j1" "" 0) ::
  flat_map (λ i : nat, let now := 10 * Z.of_nat i + 1 in
    [OpLease 0 now "worker" [] 1 5; OpReleaseExpired (now + 6)]) (seq 0 n).

(** The expiry of a lease does not consult the budget: a job whose workers
    keep dying is attempted more often than [MaxAttempts] allows, and is still
    pending afterwards. *)
Theorem release_exceeds_budget :
  ∃ t j, reachable t ∧ FindByID "j1" t = Some j ∧ j.(Job.Status) = StatusPending ∧
         j.(Job.MaxAttempts) = 2 ∧ j.(Job.Attempts) = 4.
Proof.
  exists (run_ops (crash_loop 4) []). eexists. split.
  - apply run_ops_steps. repeat constructor.
  - vm_compute. done.
Qed.

(** ** database/events/outbox.go

    The tables [Append] writes in its caller's transaction. A row of
    [domain_events] is the event with its JSON text. *)
Module Outbox.
Record Outbox := mk {
  domain_events : list (DomainEvent * string);
  queue_jobs : table
}.
#[global] Instance eta : Eta Outbox := λ r, mk r.(domain_events) r.(queue_jobs).
End Outbox.
Abbreviation Outbox := Outbox.Outbox.

Section outbox.
(** [json.Marshal] of the event and of its metadata. *)
Variable marshal_event : DomainEvent → result string.
Variable marshal_metadata : metadata → result string.

Definition event_job (job_id : string) (event : DomainEvent) (payload : string) : Job := {|
  Job.ID := job_id; Job.Category := CategoryMonitoring;
  Job.Type_ := event.(DomainEvent.Type_);
  Job.AggregateType := event.(DomainEvent.AggregateType);
  Job.AggregateID := event.(DomainEvent.AggregateID);
  Job.Payload := payload; Job.Status := StatusPending; Job.Priority := 0;
  Job.AvailableAt := event.(DomainEvent.OccurredAt);
  Job.LeaseOwner := ""; Job.LeaseExpiresAt := None; Job.Attempts := 0; Job.MaxAttempts := 5;
  Job.IdempotencyKey := "domain-event:" +:+ event.(DomainEvent.ID); Job.LastError := "";
  Job.CreatedAt := event.(DomainEvent.OccurredAt);
  Job.StartedAt := None; Job.CompletedAt := None
|}.

(** [Append]; [event_id] and [job_id] are the values of the two [newID ()]. *)
Definition Append (event_id job_id : string) (clock : Time) (event : DomainEvent)
    (w : Outbox) : result unit * Outbox :=
  if bool_decide (event.(DomainEvent.Type_) = "") ||
     bool_decide (event.(DomainEvent.AggregateType) = "") ||
     bool_decide (event.(DomainEvent.AggregateID) = "") then
    (Err (errorf "domain event type and aggregate are required" []), w)
  else
    let event := if bool_decide (event.(DomainEvent.ID) = "")
                 then event <| DomainEvent.ID := event_id |> else event in
    let event := if IsZero event.(DomainEvent.OccurredAt)
                 then event <| DomainEvent.OccurredAt := clock |> else event in
    match marshal_event event with
    | Err e => (Err (errorf "marshal domain event: %w" [e]), w)
    | Ok payload =>
      match marshal_metadata event.(DomainEvent.Metadata) with
      | Err e => (Err (errorf "marshal domain event metadata: %w" [e]), w)
      | Ok _ =>
        if bool_decide (event.(DomainEvent.ID) ∈
             (DomainEvent.ID ∘ fst) <$> w.(Outbox.domain_events)) then
          (Err (errorf "append domain event: %w"
             ["UNIQUE constraint failed: domain_events.id"]), w)
        else
          let w := w <| Outbox.domain_events :=
                          w.(Outbox.domain_events) ++ [(event, payload)] |> in
          match insert_row false (event_job job_id event payload) w.(Outbox.queue_jobs) with
          | (Err e, jobs) => (Err (errorf "enqueue domain event: %w" [e]),
                              w <| Outbox.queue_jobs := jobs |>)
          | (Ok _, jobs) => (Ok tt, w <| Outbox.queue_jobs := jobs |>)
          end
      end
    end.

(** What an accepted event leaves: the event, completed with its identifier and
    time, and one job whose key derives from it. *)
Lemma Append_ok event_id job_id clock event w w' :
  table_wf w.(Outbox.queue_jobs) → job_id ≠ "" →
  Append event_id job_id clock event w = (Ok tt, w') →
  ∃ e payload, w'.(Outbox.domain_events) = w.(Outbox.domain_events) ++ [(e, payload)] ∧
    w'.(Outbox.queue_jobs) = w.(Outbox.queue_jobs) ++ [event_job job_id e payload] ∧
    ("domain-event:" +:+ e.(DomainEvent.ID)) ∉ Job.IdempotencyKey <$> w.(Outbox.queue_jobs) ∧
    e.(DomainEvent.ID) ∉ (DomainEvent.ID ∘ fst) <$> w.(Outbox.domain_events) ∧
    table_wf w'.(Outbox.queue_jobs) ∧
    e.(DomainEvent.Type_) = event.(DomainEvent.Type_) ∧
    e.(DomainEvent.AggregateType) = event.(DomainEvent.AggregateType) ∧
    e.(DomainEvent.AggregateID) = event.(DomainEvent.AggregateID) ∧
    e.(DomainEvent.Payload) = event.(DomainEvent.Payload) ∧
    e.(DomainEvent.Type_) ≠ "" ∧ e.(DomainEvent.AggregateType) ≠ "" ∧
    e.(DomainEvent.AggregateID) ≠ "".
Proof.
  intros Hwf Hjob. unfold Append at 1. destruct (_ || _) eqn:Hreq; [done|].
  apply orb_false_iff in Hreq as [Hreq Hne3]. apply orb_false_iff in Hreq as [Hne1 Hne2].
  rewrite !bool_decide_eq_false in *.
  set (e1 := if bool_decide (DomainEvent.ID event = "") then _ else event).
  set (e := if IsZero (DomainEvent.OccurredAt e1) then _ else e1).
  assert (e.(DomainEvent.Type_) = event.(DomainEvent.Type_) ∧
    e.(DomainEvent.AggregateType) = event.(DomainEvent.AggregateType) ∧
    e.(DomainEvent.AggregateID) = event.(DomainEvent.AggregateID) ∧
    e.(DomainEvent.Payload) = event.(DomainEvent.Payload)) as (Ht & Hat & Hai & Hp).
  { unfold e, e1. by repeat case_match. }
  clearbody e. destruct (marshal_event e) as [payload|] eqn:Em; [|done].
  destruct (marshal_metadata _) as [text|] eqn:Emm; [|done].
  case_bool_decide as Hid; [done|].
  destruct (insert_row _ _ _) as [[[]|] jobs] eqn:E; [|done]. intros [= <-].
  apply insert_row_spec in E as [[_ E]|(-> & _ & Hk & Hi & _)]; [by specialize (E eq_refl)|].
  apply existsb_has_id in Hi. apply existsb_has_key in Hk; [|done].
  simpl in *. exists e, payload. split_and!; try done; try congruence.
  by apply table_wf_snoc; [done|split|].
Qed.

(** A second copy of an event on record is refused. *)
Lemma Append_twice job_id clock e w :
  e.(DomainEvent.Type_) ≠ "" → e.(DomainEvent.AggregateType) ≠ "" →
  e.(DomainEvent.AggregateID) ≠ "" →
  e.(DomainEvent.ID) ∈ (DomainEvent.ID ∘ fst) <$> w.(Outbox.domain_events) →
  ∃ msg, Append e.(DomainEvent.ID) job_id clock e w = (Err msg, w).
Proof.
  intros Ht Hat Hai Hin. unfold Append.
  rewrite !bool_decide_false by done. simpl.
  set (e2 := if bool_decide (DomainEvent.ID e = "") then _ else e).
  set (e3 := if IsZero (DomainEvent.OccurredAt e2) then _ else e2).
  assert (e3.(DomainEvent.ID) = e.(DomainEvent.ID)) as ->.
  { unfold e3, e2. by repeat case_match. }
  destruct (marshal_event e3); [|eauto].
  destruct (marshal_metadata e3.(DomainEvent.Metadata)); [|eauto].
  rewrite bool_decide_true by done. eauto.
Qed.

(** An event the outbox accepts is stored once and announced by exactly one
    new pending job, whose key derives from the event; the queue's invariant is
    kept, and appending the same event again is refused. *)
Theorem append_announces event_id job_id clock event w w' :
  table_wf w.(Outbox.queue_jobs) → job_id ≠ "" →
  Append event_id job_id clock event w = (Ok tt, w') →
  table_wf w'.(Outbox.queue_jobs) ∧
  ∃ e payload, w'.(Outbox.domain_events) = w.(Outbox.domain_events) ++ [(e, payload)] ∧
    w'.(Outbox.queue_jobs) = w.(Outbox.queue_jobs) ++ [event_job job_id e payload] ∧
    ("domain-event:" +:+ e.(DomainEvent.ID)) ∉ Job.IdempotencyKey <$> w.(Outbox.queue_jobs) ∧
    (∀ job_id' clock', ∃ msg, Append e.(DomainEvent.ID) job_id' clock' e w' = (Err msg, w')).
Proof.
  intros Hwf Hjob Happ.
  destruct (Append_ok _ _ _ _ _ _ Hwf Hjob Happ)
    as (e & payload & He & Hj & Hk & _ & Hwf' & _ & _ & _ & _ & H1 & H2 & H3).
  split; [done|]. exists e, payload. split_and!; [done..|]. intros job_id' clock'.
  apply Append_twice; [done..|]. rewrite He, fmap_app. apply elem_of_app. right. by left.
Qed.
End outbox.

(** ** Concrete runs *)
Definition two_jobs : list op :=
  [OpPublish 1 (example_job "j1" "k1" 5); OpPublish 1 (example_job "j2" "k2" 9)].
Definition one_done : list op :=
  [OpLease 0 3 "w" [] 1 10; OpComplete "j2" "w" 4].

Lemma queue_reachable_wf_witness :
  length (run_ops (two_jobs ++ one_done) []) = 2%nat ∧
  ∀ j, j ∈ run_ops (two_jobs ++ one_done) [] → row_wf j.
Proof.
  split; [vm_compute; reflexivity|]. intros j Hj.
  apply (proj2 (proj2 (queue_reachable_wf (two_jobs ++ one_done))) j Hj).
  intros now job Hin _. unfold two_jobs, one_done in Hin. simpl in Hin.
  rewrite !elem_of_cons, elem_of_nil in Hin.
  destruct Hin as [[= _ ->]|[[= _ ->]|[[=]|[[=]|[]]]]]; by split.
Defined.

Lemma publish_exactly_once_witness :
  ∃ j', Publish 9 (example_job "j3" "k2" 1) (run_ops (two_jobs ++ one_done) []) =
          (Ok j', run_ops (two_jobs ++ one_done) []) ∧ j'.(Job.ID) = "j2" ∧
        FindByID "j2" (run_ops (two_jobs ++ one_done) []) = Some j'.
Proof.
  apply (publish_exactly_once 1 9 (example_job "j2" "k2" 9) (example_job "j3" "k2" 1)
    (run_ops [OpPublish 1 (example_job "j1" "k1" 5)] []) (run_ops two_jobs [])
    (run_ops (two_jobs ++ one_done) []) (example_job "j2" "k2" 9));
    try (vm_compute; (reflexivity || discriminate)).
  - apply run_ops_steps. repeat constructor.
  - rewrite run_ops_app. apply run_ops_steps. repeat constructor.
Defined.

Definition done_job : Job :=
  default zero (FindByID "j2" (run_ops (two_jobs ++ one_done) [])).

Lemma terminal_rows_absorbing_witness :
  terminal done_job ∧
  FindByID "j2" (run_ops [OpReleaseExpired 99; OpCancel "j2" 100]
    (run_ops (two_jobs ++ one_done) [])) = Some done_job.
Proof.
  assert (terminal done_job) as Ht by (left; vm_compute; reflexivity).
  split; [exact Ht|].
  apply (terminal_rows_absorbing (run_ops (two_jobs ++ one_done) []) _ done_job);
    [|vm_compute; reflexivity|exact Ht|].
  - apply run_ops_keyed. repeat constructor.
  - apply run_ops_steps. repeat constructor.
Defined.

Lemma two_jobs_wf : table_wf (run_ops two_jobs []).
Proof. apply run_jobs_wf; repeat constructor. Qed.

Lemma lease_takes_best_witness :
  ∃ leased t', Lease 0 3 "w" ["execution"] 1 10 (run_ops two_jobs []) = (Ok leased, t') ∧
    Z.of_nat (length leased) ≤ 1.
Proof.
  destruct (lease_takes_best 0 3 "w" ["execution"] 1 10 (run_ops two_jobs [])
    two_jobs_wf ltac:(discriminate) ltac:(lia) ltac:(lia)) as (l & t' & E & Hl & _).
  exists l, t'. split; [exact E|exact Hl].
Defined.

Lemma owner_checked_witness :
  Complete "j2" "thief" 5 (run_ops (two_jobs ++ [OpLease 0 3 "w" [] 1 10]) []) =
    (Err "transition queue job affected 0 rows",
     run_ops (two_jobs ++ [OpLease 0 3 "w" [] 1 10]) []).
Proof.
  set (t := run_ops (two_jobs ++ [OpLease 0 3 "w" [] 1 10]) []).
  assert (table_wf t) as Hwf
    by (apply run_jobs_wf; repeat constructor).
  pose proof (owner_checked "j2" "thief" t (default zero (FindByID "j2" t)) 5 0 None 0
    Hwf ltac:(vm_compute; reflexivity)) as H.
  rewrite decide_False in H by (vm_compute; intros [_ ?]; discriminate).
  exact (proj1 H).
Defined.

Definition spent : list op :=
  [OpPublish 1 (example_job "j1" "" 0); OpLease 0 2 "w" [] 1 5;
   OpRetry "j1" "w" (Some "boom") 3; OpLease 0 4 "w" [] 1 5; OpRetry "j1" "w" None 9].

Lemma retry_budget_witness :
  let j := default zero (FindByID "j1" (run_ops spent [])) in
  j.(Job.Status) = StatusFailed ∧ j.(Job.Attempts) = 2 ∧
  j.(Job.Attempts) ≤ j.(Job.MaxAttempts).
Proof.
  intros j. split_and!; [vm_compute; reflexivity..|].
  apply (retry_budget spent j).
  - repeat constructor.
  - apply list_elem_of_lookup. exists 0%nat. vm_compute. reflexivity.
Defined.

Definition example_event : DomainEvent :=
  DomainEvent.mk "e1" "execution.completed" "execution_run" "r1" ∅ 7 ∅.
Definition example_marshal : DomainEvent → result string := λ e, Ok e.(DomainEvent.ID).

Lemma append_announces_witness :
  table_wf (Append example_marshal (λ _, Ok "{}") "x" "q1" 9 example_event
    (Outbox.mk [] [])).2.(Outbox.queue_jobs).
Proof.
  assert (table_wf []) as Hwf by (split; constructor).
  destruct (append_announces example_marshal (λ _, Ok "{}") "x" "q1" 9 example_event
    (Outbox.mk [] []) _ Hwf ltac:(discriminate) ltac:(vm_compute; reflexivity)) as [H _].
  exact H.
Defined.
End JobQueue.
