(* ===== verification/EventLoop.v ===== *)
(** * The event loop (src/internal/controlplane/eventloop)

    The dispatcher with its handlers, and the loop that leases jobs, runs their
    handlers on a bounded number of goroutines and settles them with the queue.
    The loop is a transition system: its goroutines interleave at the calls they
    make to the queue and to the semaphore. *)

From S2P Require Import Prelude GoStrings Domain Queue.

Module EventLoop.

(** ** dispatcher.go *)
Section dispatcher.
(** [W] is the world the handlers act on. *)
Context {W : Type}.

(** [Handler.Handle] and [HandlerFunc] *)
Definition Handler : Type := Job → effr W unit.

(** [Dispatcher]; the mutex serialises [Register] and [Dispatch]. *)
Definition Dispatcher : Type := gmap string Handler.
Definition NewDispatcher : Dispatcher := ∅.

(** [Dispatcher.Register]; a nil handler is [None]. *)
Definition Register (eventType : string) (handler : option Handler) (d : Dispatcher)
    : result unit * Dispatcher :=
  match handler with
  | None => (Err (errorf "event type and handler are required" []), d)
  | Some h =>
    if bool_decide (eventType = "") then
      (Err (errorf "event type and handler are required" []), d)
    else match d !! eventType with
         | Some _ => (Err (errorf "handler already registered for %s" [eventType]), d)
         | None => (Ok tt, <[eventType := h]> d)
         end
  end.

(** [Dispatcher.Dispatch] *)
Definition Dispatch (d : Dispatcher) (job : Job) : effr W unit :=
  match d !! job.(Job.Type_) with
  | None => eret (Err (errorf "no handler registered for event %s" [job.(Job.Type_)]))
  | Some handler => handler job
  end.

(** ** The handlers

    Decoding a payload is [json.Unmarshal]; the service behind a handler may be
    nil. *)
Variable unmarshal_execution : string → result ActivityExecutionContext.
Variable unmarshal_request : string → result ExecutionRequest.
Variable unmarshal_event : string → result DomainEvent.

(** [ActivityExecutionHandler.Handle] *)
Definition ActivityExecutionHandler_Handle
    (starter : option (ActivityExecutionContext → effr W ActivityHandle)) : Handler := λ job,
  match starter with
  | None => eret (Err (errorf "activity execution service is not configured" []))
  | Some start =>
    match unmarshal_execution job.(Job.Payload) with
    | Err e => eret (Err (errorf "decode activity execution: %w" [e]))
    | Ok execution =>
      if bool_decide (execution.(ActivityExecutionContext.Activity).(Activity.ID) = "") ||
         bool_decide (execution.(ActivityExecutionContext.Run).(ExecutionRun.ID) = "") then
        eret (Err (errorf "activity and execution run are required" []))
      else let? _ := start execution in eret (Ok tt)
    end
  end.

(** [ExecutionRunHandler.Handle] *)
Definition ExecutionRunHandler_Handle
    (runner : option (ExecutionRequest → effr W ExecutionTrace)) : Handler := λ job,
  match runner with
  | None => eret (Err (errorf "execution supervisor is not configured" []))
  | Some execute =>
    match unmarshal_request job.(Job.Payload) with
    | Err e => eret (Err (errorf "decode execution request: %w" [e]))
    | Ok request =>
      if bool_decide (request.(ExecutionRequest.Run).(ExecutionRun.ID) = "") then
        eret (Err (errorf "execution run id is required" []))
      else let? _ := execute request in eret (Ok tt)
    end
  end.

(** [DomainEventHandler.Handle] *)
Definition DomainEventHandler_Handle : Handler := λ job,
  match unmarshal_event job.(Job.Payload) with
  | Err e => eret (Err (errorf "decode domain event: %w" [e]))
  | Ok event =>
    if bool_decide (event.(DomainEvent.ID) = "") ||
       negb (bool_decide (event.(DomainEvent.Type_) = job.(Job.Type_))) ||
       bool_decide (event.(DomainEvent.AggregateID) = "") then
      eret (Err (errorf "invalid domain event envelope" []))
    else eret (Ok tt)
  end.
End dispatcher.

(** ** eventloop.go: configuration *)
Module Config.
Record Config := mk {
  Owner : string;
  Categories : list string;
  Concurrency : Z;
  LeaseDuration : Duration;
  PollInterval : Duration;
  RetryBaseInterval : Duration
}.
#[global] Instance eta : Eta Config := λ r,
  mk r.(Owner) r.(Categories) r.(Concurrency) r.(LeaseDuration) r.(PollInterval)
     r.(RetryBaseInterval).
End Config.
Abbreviation Config := Config.Config.

(** [DefaultConfig] *)
Definition DefaultConfig (owner : string) : Config :=
  Config.mk owner [] 8 (30 * Second) Second (2 * Second).

(** [New]: the configuration the loop runs with. *)
Definition New (config : Config) : result Config :=
  if bool_decide (config.(Config.Owner) = "") || (config.(Config.Concurrency) <? 1) ||
     (config.(Config.LeaseDuration) <=? 0) || (config.(Config.PollInterval) <=? 0) then
    Err (errorf "invalid event loop configuration" [])
  else Ok (if config.(Config.RetryBaseInterval) <=? 0
           then config <| Config.RetryBaseInterval := Second |> else config).

(** The delay [handle] computes, at the width of a [time.Duration]. A negative
    shift count panics: [None]. *)
Definition backoff (base : Duration) (attempts : Z) : option Duration :=
  let count := Z.min (int64 (attempts - 1)) 8 in
  if count <? 0 then None
  else Some (int64 (base * int64 (Z.shiftl 1 count))).

(** The renewal period of [keepLeaseAlive]. *)
Definition renewal_interval (lease : Duration) : Duration :=
  let interval := Z.quot lease 3 in
  if interval <? 10 * Millisecond then 10 * Millisecond else interval.

(** ** eventloop.go: the loop

    [queue] is the shared table; [todo] are the jobs [drain] has leased and not
    launched yet; [inflight] are the goroutines that hold a slot of the
    semaphore, each with the job it handles and whether it has settled it;
    [wakeUp] is the channel of capacity one. *)
Module Loop.
Record Loop := mk {
  queue : list Job;
  todo : list Job;
  inflight : list (Job * bool);
  wakeUp : bool
}.
#[global] Instance eta : Eta Loop := λ r, mk r.(queue) r.(todo) r.(inflight) r.(wakeUp).
End Loop.
Abbreviation Loop := Loop.Loop.

Section loop.
Context `{JobQueue.RowOrder} (c : Config).

(** [Loop.Notify]: a send that does not block. *)
Definition Notify (l : Loop) : Loop := l <| Loop.wakeUp := true |>.

(** [drain] up to its loop: how many slots are free, and the lease. *)
Definition drain (salt : nat) (now : Time) (l : Loop) : Loop :=
  let available := c.(Config.Concurrency) - Z.of_nat (length l.(Loop.inflight)) in
  if available <=? 0 then l
  else match JobQueue.Lease salt now c.(Config.Owner) c.(Config.Categories) available
               c.(Config.LeaseDuration) l.(Loop.queue) with
       | (Ok jobs, q) => l <| Loop.queue := q |> <| Loop.todo := jobs |>
       | (Err _, q) => l <| Loop.queue := q |>
       end.

(** [handle] after [Dispatch] returned [err] at [now]; [None] is the panic of
    a negative shift. *)
Definition settle (job : Job) (err : option error) (now : Time) (q : list Job)
    : option (list Job) :=
  match err with
  | None => Some (snd (JobQueue.Complete job.(Job.ID) c.(Config.Owner) now q))
  | Some e =>
    d ← backoff c.(Config.RetryBaseInterval) job.(Job.Attempts);
    Some (snd (JobQueue.Retry job.(Job.ID) c.(Config.Owner) (Some e) (now + d) q))
  end.

Inductive event :=
| Tick (salt : nat) (release_at lease_at : Time)     (* the ticker's case of [Run] *)
| WakeUp (salt : nat) (now : Time)                   (* the wake-up case of [Run] *)
| Launch                                             (* the body of [drain]'s loop *)
| Renew (i : nat) (now : Time)                       (* [keepLeaseAlive] of goroutine [i] *)
| Settle (i : nat) (err : option error) (now : Time) (* [handle] of goroutine [i] ends *)
| Leave (i : nat)                                    (* its deferred function *)
| External (o : JobQueue.op)                         (* another process at the queue *)
| Announce.                                          (* [Notify] from outside *)

Inductive outcome := Done (l : Loop) | Blocked | Panic.

(** What an event does; [Blocked] when its goroutine is not ready for it. *)
Definition loop_step (ev : event) (l : Loop) : outcome :=
  match ev with
  | Tick salt release_at lease_at =>
    match l.(Loop.todo) with
    | [] => Done (drain salt lease_at
        (l <| Loop.queue := snd (JobQueue.ReleaseExpired release_at l.(Loop.queue)) |>))
    | _ => Blocked
    end
  | WakeUp salt now =>
    match l.(Loop.todo), l.(Loop.wakeUp) with
    | [], true => Done (drain salt now (l <| Loop.wakeUp := false |>))
    | _, _ => Blocked
    end
  | Launch =>
    match l.(Loop.todo) with
    | [] => Blocked
    | job :: rest =>
      if c.(Config.Concurrency) <=? Z.of_nat (length l.(Loop.inflight)) then Blocked
      else Done (l <| Loop.todo := rest |>
                   <| Loop.inflight := l.(Loop.inflight) ++ [(job, false)] |>)
    end
  | Renew i now =>
    match l.(Loop.inflight) !! i with
    | Some (job, false) => Done (l <| Loop.queue := snd (JobQueue.RenewLease job.(Job.ID)
        c.(Config.Owner) (now + c.(Config.LeaseDuration)) l.(Loop.queue)) |>)
    | _ => Blocked
    end
  | Settle i err now =>
    match l.(Loop.inflight) !! i with
    | Some (job, false) =>
      match settle job err now l.(Loop.queue) with
      | Some q => Done (l <| Loop.queue := q |>
                          <| Loop.inflight := <[i := (job, true)]> l.(Loop.inflight) |>)
      | None => Panic
      end
    | _ => Blocked
    end
  | Leave i =>
    match l.(Loop.inflight) !! i with
    | Some (_, true) =>
      Done (Notify (l <| Loop.inflight := delete i l.(Loop.inflight) |>))
    | _ => Blocked
    end
  | External o => Done (l <| Loop.queue := JobQueue.apply_op o l.(Loop.queue) |>)
  | Announce => Done (Notify l)
  end.

Definition event_ok (ev : event) : Prop :=
  match ev with External o => JobQueue.fresh_op o | _ => True end.

Inductive loop_reachable : Loop → Prop :=
| loop_init ops wake : Forall JobQueue.fresh_op ops →
    loop_reachable (Loop.mk (JobQueue.run_ops ops []) [] [] wake)
| loop_next ev l l' : loop_reachable l → event_ok ev → loop_step ev l = Done l' →
    loop_reachable l'.

(** The invariant: the slots taken and promised fit the semaphore, and every
    job in the loop's hands was handed out by a lease. *)
Record loop_inv (l : Loop) : Prop := {
  inv_slots : Z.of_nat (length l.(Loop.inflight) + length l.(Loop.todo)) ≤
    c.(Config.Concurrency);
  inv_queue : JobQueue.table_wf l.(Loop.queue);
  inv_todo : Forall (λ j, 1 ≤ j.(Job.Attempts)) l.(Loop.todo);
  inv_inflight : Forall (λ x, 1 ≤ x.1.(Job.Attempts)) l.(Loop.inflight)
}.



Hypothesis Hconfig : New c = Ok c.

Lemma config_ok : c.(Config.Owner) ≠ "" ∧ 1 ≤ c.(Config.Concurrency) ∧
  0 < c.(Config.LeaseDuration) ∧ 0 < c.(Config.RetryBaseInterval).
Proof.
  unfold New in Hconfig. destruct (_ || _) eqn:E; [done|].
  rewrite !orb_false_iff, bool_decide_eq_false, Z.ltb_ge, !Z.leb_gt in E.
  destruct E as [[[? ?] ?] ?]. split_and!; try done.
  destruct (Z.leb_spec c.(Config.RetryBaseInterval) 0); [|done].
  injection Hconfig as E'. apply (f_equal Config.RetryBaseInterval) in E'. simpl in E'.
  unfold Second in E'. lia.
Qed.

Lemma drain_inv salt now l : l.(Loop.todo) = [] → loop_inv l → loop_inv (drain salt now l).
Proof.
  intros Htodo [Hs Hq Ht Hi]. unfold drain. rewrite Htodo in Hs. simpl in Hs.
  destruct (Z.leb_spec (c.(Config.Concurrency) - Z.of_nat (length l.(Loop.inflight))) 0) as [Hle|Hgt].
  { split; try done. by rewrite Htodo. }
  destruct config_ok as (Ho & _ & Hd & _).
  pose proof (JobQueue.apply_op_wf (JobQueue.OpLease salt now c.(Config.Owner) c.(Config.Categories)
    (c.(Config.Concurrency) - Z.of_nat (length l.(Loop.inflight))) c.(Config.LeaseDuration))
    _ I Hq) as Hq'. simpl in Hq'.
  rewrite JobQueue.Lease_eq in Hq' |- * by (done || lia || apply Hq).
  split; simpl in *; try done.
  - rewrite length_fmap. unfold JobQueue.selection. rewrite length_take. lia.
  - apply Forall_fmap, Forall_forall. intros j [Hj _]%JobQueue.selection_elem. simpl.
    pose proof (proj1 (Forall_forall _ _) (JobQueue.wf_rows _ Hq) j Hj) as [].
    lia.
Qed.

Lemma loop_step_inv ev l l' : loop_inv l → event_ok ev → loop_step ev l = Done l' → loop_inv l'.
Proof.
  intros Hinv Hok Hstep. pose proof Hinv as [Hs Hq Ht Hi].
  destruct ev as [salt r t|salt t| |i t|i err t|i|o|]; simpl in Hstep.
  - destruct (Loop.todo l) eqn:Htodo; simplify_eq. apply drain_inv; [done|].
    split; simpl; rewrite ?Htodo; try done.
    by apply (JobQueue.apply_op_wf (JobQueue.OpReleaseExpired r)).
  - destruct (Loop.todo l) eqn:Htodo; [|done]. destruct (Loop.wakeUp l); simplify_eq.
    apply drain_inv; [done|]. by split; simpl; rewrite ?Htodo.
  - destruct (Loop.todo l) as [|job rest] eqn:Htodo; [done|].
    destruct (Z.leb_spec c.(Config.Concurrency) (Z.of_nat (length l.(Loop.inflight))));
      simplify_eq.
    apply Forall_cons in Ht as [? ?]. simpl in Hs. split; simpl; try done.
    + rewrite length_app. simpl. lia.
    + apply Forall_app. by split; [|apply Forall_singleton].
  - destruct (Loop.inflight l !! i) as [[job []]|] eqn:Hj; simplify_eq.
    split; try done. by apply (JobQueue.apply_op_wf (JobQueue.OpRenewLease _ _ _)).
  - destruct (Loop.inflight l !! i) as [[job []]|] eqn:Hj; [done| |done].
    destruct (settle job err t _) as [q|] eqn:Hset; simplify_eq. split; simpl; try done.
    + by rewrite length_insert.
    + unfold settle in Hset. destruct err as [e|].
      * destruct (backoff _ _) as [d|]; [|done]. injection Hset as <-.
        by apply (JobQueue.apply_op_wf (JobQueue.OpRetry job.(Job.ID) c.(Config.Owner) (Some e) (t + d))).
      * simplify_eq. by apply (JobQueue.apply_op_wf (JobQueue.OpComplete _ _ _)).
    + apply Forall_insert; [done|]. by apply (Forall_lookup_1 _ _ _ _ Hi) in Hj.
  - destruct (Loop.inflight l !! i) as [[job []]|] eqn:Hj; simplify_eq.
    split; simpl; try done.
    + rewrite length_delete by done. lia.
    + by apply Forall_delete.
  - simplify_eq. split; try done. by apply JobQueue.apply_op_wf.
  - simplify_eq. by split.
Qed.

Lemma loop_reachable_inv l : loop_reachable l → loop_inv l.
Proof.
  induction 1 as [ops wake Hq|ev l l' _ IH Hok Hstep]; [|by eapply loop_step_inv].
  pose proof config_ok. split; simpl; [lia| |done..].
  by apply JobQueue.run_jobs_wf; [|repeat constructor].
Qed.

End loop.

Lemma New_idem c0 c : New c0 = Ok c → New c = Ok c.
Proof.
  unfold New. destruct (_ || _) eqn:E; [done|].
  destruct (Z.leb_spec c0.(Config.RetryBaseInterval) 0) as [Hb|Hb]; intros [= <-]; simpl.
  - by rewrite E.
  - rewrite E. by rewrite (proj2 (Z.leb_gt _ _)) by lia.
Qed.

(** The delays, as a function of the attempt. *)
Definition delay (base attempts : Z) : Z := base * 2 ^ Z.min (attempts - 1) 8.

Lemma backoff_delay base attempts :
  1 ≤ attempts → in_int64 attempts → 0 < base ≤ 2 ^ 54 →
  backoff base attempts = Some (delay base attempts).
Proof.
  intros Ha Hi Hb. unfold backoff, delay. rewrite int64_id by (unfold in_int64 in *; lia).
  rewrite (proj2 (Z.ltb_ge _ _)) by lia. rewrite Z.shiftl_1_l.
  assert (1 ≤ 2 ^ Z.min (attempts - 1) 8 ≤ 2 ^ 8) as Hp.
  { split; [change 1 with (2 ^ 0)|]; apply Z.pow_le_mono_r; lia. }
  f_equal. rewrite (int64_id (2 ^ _)) by (unfold in_int64; lia).
  apply int64_id. unfold in_int64. nia.
Qed.

(** The retry delay is exponential and bounded: for a job that was attempted
    and a base of at most 2^54 ns (208 days) the shift is legal, nothing
    overflows, the delay is the base times a power of two, at least the base and
    at most 256 times it, and a later attempt never waits less. *)
Theorem backoff_exponential base a1 a2 :
  1 ≤ a1 ≤ a2 → in_int64 a2 → 0 < base ≤ 2 ^ 54 →
  ∃ d1 d2, backoff base a1 = Some d1 ∧ backoff base a2 = Some d2 ∧
    d1 = base * 2 ^ Z.min (a1 - 1) 8 ∧ base ≤ d1 ≤ d2 ∧ d2 ≤ 256 * base.
Proof.
  intros Ha Hi Hb. exists (delay base a1), (delay base a2).
  rewrite !backoff_delay by (unfold in_int64 in *; lia). unfold delay.
  assert (2 ^ 0 ≤ 2 ^ Z.min (a1 - 1) 8) by (apply Z.pow_le_mono_r; lia).
  assert (2 ^ Z.min (a1 - 1) 8 ≤ 2 ^ Z.min (a2 - 1) 8) by (apply Z.pow_le_mono_r; lia).
  assert (2 ^ Z.min (a2 - 1) 8 ≤ 2 ^ 8) by (apply Z.pow_le_mono_r; lia).
  change (2 ^ 0) with 1 in *. change (2 ^ 8) with 256 in *.
  set (p1 := 2 ^ Z.min (a1 - 1) 8) in *. set (p2 := 2 ^ Z.min (a2 - 1) 8) in *.
  clearbody p1 p2. split_and!; [done..|nia|nia|nia].
Qed.

Lemma backoff_exponential_witness :
  ∃ d1 d2, backoff (2 * Second) 1 = Some d1 ∧ backoff (2 * Second) 12 = Some d2 ∧
    d1 = 2 * Second * 2 ^ Z.min (1 - 1) 8 ∧ 2 * Second ≤ d1 ≤ d2 ∧ d2 ≤ 256 * (2 * Second).
Proof.
  apply (backoff_exponential (2 * Second) 1 12); unfold in_int64, Second; lia.
Defined.

Section loop_contract.
Context `{JobQueue.RowOrder}.

(** The loop never runs more handlers than its concurrency, the send on the
    semaphore in [drain] never blocks, and no event makes the loop panic, in
    every state reachable by interleaving its goroutines with other processes
    at the queue. *)
Theorem loop_bounded c0 c l :
  New c0 = Ok c → loop_reachable c l →
  Z.of_nat (length l.(Loop.inflight)) ≤ c.(Config.Concurrency) ∧
  (l.(Loop.todo) ≠ [] → ∃ l', loop_step c Launch l = Done l') ∧
  (∀ ev, Forall (λ x, in_int64 x.1.(Job.Attempts)) l.(Loop.inflight) →
     loop_step c ev l ≠ Panic).
Proof.
  intros Hc%New_idem Hr. destruct (loop_reachable_inv c Hc l Hr) as [Hs Hq Ht Hi].
  split_and!; [lia| |].
  - intros Hne. simpl. destruct (Loop.todo l) as [|j rest]; [done|]. simpl in Hs.
    rewrite (proj2 (Z.leb_gt _ _)) by lia. eauto.
  - intros ev Hint. destruct ev; simpl; repeat case_match; try done.
    exfalso. match goal with H : settle _ _ _ _ _ = None |- _ => unfold settle in H; rename H into Hn end.
    match goal with H : Loop.inflight l !! _ = Some _ |- _ => rename H into Hj end.
    case_match; [|done]. apply (Forall_lookup_1 _ _ _ _ Hi) in Hj as Ha.
    apply (Forall_lookup_1 _ _ _ _ Hint) in Hj. simpl in *. unfold backoff in Hn.
    rewrite int64_id, (proj2 (Z.ltb_ge _ _)) in Hn by (unfold in_int64 in *; lia). done.
Qed.

(** Dispatch after registration: once a handler is registered for an event
    type, jobs of that type reach it, a second registration for the type is
    refused and changes nothing, and other types keep their handlers. *)
Theorem register_dispatch {W : Type} (t : string) (h h' : Handler (W := W)) (d d' : Dispatcher) :
  Register t (Some h) d = (Ok tt, d') →
  (∀ job, job.(Job.Type_) = t → Dispatch d' job = h job) ∧
  (∀ job, job.(Job.Type_) ≠ t → Dispatch d' job = Dispatch d job) ∧
  Register t (Some h') d' = (Err (errorf "handler already registered for %s" [t]), d').
Proof.
  unfold Register, Dispatch, Dispatcher in *. case_bool_decide; [done|].
  destruct (d !! t) eqn:E; [done|]. intros [= <-]. split_and!.
  - intros job ->. by rewrite lookup_insert_eq.
  - intros job Hne. by rewrite lookup_insert_ne.
  - by rewrite lookup_insert_eq.
Qed.
End loop_contract.

Lemma register_dispatch_witness :
  let h : Handler (W := unit) := λ _, eret (Err "boom") in
  let d' := snd (Register "a" (Some h) NewDispatcher) in
  Dispatch d' (JobQueue.example_job "j" "" 0) tt = (Err
    (errorf "no handler registered for event %s" ["execution.run.requested"]), tt) ∧
  fst (Register "a" (Some h) d') = Err (errorf "handler already registered for %s" ["a"]).
Proof.
  intros h d'. destruct (register_dispatch "a" h h NewDispatcher d' eq_refl) as (_ & H1 & H2).
  split; [|by rewrite H2]. rewrite H1 by (vm_compute; discriminate). reflexivity.
Defined.

(** A loop with one slot per job, and a job whose lease expires while its first
    handler still runs. *)
Definition example_config : Config := Config.mk "loop" [] 2 10 1 5.
Definition overtaken : list event :=
  [External (JobQueue.OpPublish 1 (JobQueue.example_job "j1" "" 0)); Tick 0 2 2; Launch;
   Tick 0 20 20; Launch; Settle 0 None 21].
Fixpoint run_events (c : Config) (evs : list event) (l : Loop) : outcome :=
  match evs with
  | [] => Done l
  | ev :: evs => match loop_step c ev l with Done l' => run_events c evs l' | o => o end
  end.
Lemma run_events_reachable c evs l l' : loop_reachable c l → Forall event_ok evs →
  run_events c evs l = Done l' → loop_reachable c l'.
Proof.
  revert l. induction evs as [|ev evs IH]; intros l Hr; simpl.
  { by intros _ [= ->]. }
  intros [? ?]%Forall_cons. destruct (loop_step c ev l) as [l1| |] eqn:E; [|done..].
  apply IH; [|done]. by eapply loop_next.
Qed.

Definition empty_loop : Loop := Loop.mk [] [] [] false.
Lemma empty_loop_reachable c : loop_reachable c empty_loop.
Proof. by apply (loop_init _ []). Qed.

Lemma loop_bounded_witness :
  ∃ l, run_events example_config (take 5 overtaken) empty_loop = Done l ∧
    length l.(Loop.inflight) = 2%nat ∧
    Z.of_nat (length l.(Loop.inflight)) ≤ example_config.(Config.Concurrency).
Proof.
  eexists. split; [vm_compute; reflexivity|]. split; [reflexivity|].
  apply (loop_bounded example_config example_config); [reflexivity|].
  eapply (run_events_reachable _ (take 5 overtaken)); [apply empty_loop_reachable| |].
  - repeat constructor.
  - vm_compute. reflexivity.
Defined.

(** Leases are not fenced within one loop: when a lease expires while its
    handler still runs and the loop leases the job again, the first handler
    completes the second handler's lease, since both carry the loop's owner
    name: the job is completed while the second handler is still running. *)
Theorem same_owner_not_fenced :
  ∃ l j, loop_reachable example_config l ∧
    JobQueue.FindByID "j1" l.(Loop.queue) = Some j ∧
    j.(Job.Status) = StatusCompleted ∧ j.(Job.Attempts) = 2 ∧
    ∃ running, l.(Loop.inflight) !! 1%nat = Some (running, false) ∧
      running.(Job.ID) = "j1" ∧ running.(Job.Attempts) = 2.
Proof.
  eexists _, _. split.
  - eapply (run_events_reachable _ overtaken); [apply empty_loop_reachable| |vm_compute; reflexivity].
    repeat constructor.
  - split; [vm_compute; reflexivity|]. split; [reflexivity|]. split; [reflexivity|].
    eexists. split; [reflexivity|]. split; reflexivity.
Qed.
End EventLoop.
