(* ===== verification/Ports.v ===== *)
(** * The interfaces between the components (src/internal/application/ports)

    Each Go interface is a class of operations on a world [W]: the operations of
    its implementations and nothing else. A client is modelled against the
    class, for every world; an implementation is an instance. *)

From S2P Require Import Prelude GoStrings GoFloat Domain.

(** [time.Now().UnixNano()] *)
Class Clock (W : Type) := UnixNano : eff W Z.

(** [float64(time.Now().UnixNano()) / float64(time.Second)] *)
Definition unixNow `{Clock W} : eff W float64 :=
  let! n := UnixNano in eret (fdiv (float_of_Z n) (float_of_Z Second)).

(** [ctx.Err()], and a wait that the cancellation of [ctx] cuts short. *)
Class Cancellation (W : Type) := {
  ctx_err : eff W (option error);
  (** [select { case <-ctx.Done(): ...; case <-time.After(d): }] *)
  wait : Duration → eff W (option error)
}.

(** What a reader yields: its bytes and, after them, an error or the end. *)
Record Reader := mk_reader { bytes : string; read_error : option error }.

(** [fmt.Sprintf("%x", sha256.Sum256(bytes))] *)
Class Sha256 := sha256_hex : string → string.

(** ports/execution.go: [ActivityExecutionStore] *)
Class ActivityExecutionStore (W : Type) := {
  Save : ActivityHandle → effr W unit;
  Find : string → effr W (option ActivityHandle)
}.

(** ports/execution.go: [ExecutionStore] *)
Class ExecutionStore (W : Type) := {
  execution_handles :: ActivityExecutionStore W;
  CreateRun : ExecutionRun → effr W unit;
  FindRun : string → effr W (option ExecutionRun);
  SaveTask : TaskExecution → effr W unit;
  CompleteRun : ExecutionTrace → effr W unit;
  FailRun : string → string → effr W unit
}.

(** ports/execution.go: [RuntimeAdapter] *)
Record RuntimeAdapter (W : Type) := {
  Modes : list ExecutionMode;
  runtime_Start : ActivityExecutionContext → effr W ActivityHandle;
  runtime_Inspect : ActivityHandle → effr W ActivityHandle;
  runtime_Stop : ActivityHandle → effr W unit
}.
Arguments Modes {W}.
Arguments runtime_Start {W}.
Arguments runtime_Inspect {W}.
Arguments runtime_Stop {W}.

(** ports/execution.go: [RuntimeResolver] *)
Class RuntimeResolver (W : Type) :=
  Resolve : ExecutionMode → string → effr W (RuntimeAdapter W).

(** ports/execution.go: [PlanExecutor] *)
Class PlanExecutor (W : Type) := plan_Execute : ExecutionRequest → effr W ExecutionTrace.

(** ports/execution.go: [PreparationCoordinator], which may be nil. *)
Class PreparationCoordinator (W : Type) :=
  Prepare : option (string → PreparationRequirement → effr W (option PreparationGate)).

(** ports/catalog.go: the operation of [DataCatalog] the controller calls; the
    catalog may be nil. *)
Class DataCatalog (W : Type) := CatalogArtifacts : option (ActivityHandle → effr W unit).

(** controlplane/execution/supervisor.go: [ActivityController] *)
Class ActivityController (W : Type) := {
  controller_Start : ActivityExecutionContext → effr W ActivityHandle;
  controller_Inspect : string → ExecutionMode → effr W (option ActivityHandle)
}.

(** What a store of handles promises its clients: a handle that was saved is
    found under its identifier, other identifiers are untouched, and a look-up
    changes nothing. [stored old h] is what the store gives back for [h] saved
    over [old]. *)
Class HandleStoreLaws (W : Type) `{ActivityExecutionStore W} := {
  holds : W → string → option ActivityHandle;
  stored : option ActivityHandle → ActivityHandle → ActivityHandle;
  find_holds : ∀ id w r w', Find id w = (r, w') → w' = w ∧
    (∀ o, r = Ok o → o = holds w id);
  save_holds : ∀ h w w', Save h w = (Ok tt, w') →
    holds w' h.(ActivityHandle.ID) =
      Some (stored (holds w h.(ActivityHandle.ID)) h) ∧
    ∀ id, id ≠ h.(ActivityHandle.ID) → holds w' id = holds w id;
  save_fails : ∀ h w e w', Save h w = (Err e, w') → ∀ id, holds w' id = holds w id;
  stored_id : ∀ old h, (stored old h).(ActivityHandle.ID) = h.(ActivityHandle.ID)
}.
