(* ===== verification/Controller.v ===== *)
(** * The activity controller (src/internal/application/execution/controller.go)

    The last boundary before a runtime: it validates an activity, enforces the
    materialization barrier, starts the activity once per run, and keeps the
    handle's log. *)

From S2P Require Import Prelude GoStrings GoFloat Domain Workflow Materialization Ports.

Module Controller.

(** ** The log of a handle *)

(** [appendLog] *)
Definition appendLog (log level message : string) : string :=
  if bool_decide (message = "") then log
  else
    let entry := sprintf "[AKOFLOW %s] %s" [to_upper level; message] in
    if contains log entry then log
    else if bool_decide (log = "") then entry +:+ newline
    else trim_newlines log +:+ newline +:+ entry +:+ newline.

(** The loop of [splitLifecycleLog]: the index of the first lifecycle line. *)
Fixpoint first_lifecycle (lines : list string) : nat :=
  match lines with
  | [] => 0
  | line :: lines => if has_prefix "[AKOFLOW " line then 0 else S (first_lifecycle lines)
  end.

(** [splitLifecycleLog] *)
Definition splitLifecycleLog (log : string) : string * string :=
  let lines := split_byte LF (trim_newlines log) in
  let first := first_lifecycle lines in
  if bool_decide (first = length lines) then (trim_newlines log, "")
  else
    let runtimeLog := join_byte LF (take first lines) in
    let runtimeLog := if bool_decide (runtimeLog = "") then runtimeLog
                      else runtimeLog +:+ newline in
    (runtimeLog, newline +:+ join_byte LF (drop first lines) +:+ newline).

(** [mergeLogs] *)
Definition mergeLogs (previous observed : string) : string :=
  if bool_decide (observed = "") || bool_decide (observed = previous) then previous
  else
    let '(runtimeLog, lifecycleLog) := splitLifecycleLog previous in
    if bool_decide (runtimeLog = "") || has_prefix runtimeLog observed then
      trim_newlines observed +:+ lifecycleLog
    else if has_prefix observed runtimeLog then previous
    else trim_newlines observed +:+ lifecycleLog.

(** [failureMessage] *)
Definition failureMessage (failure : string) : string :=
  if negb (bool_decide (failure = "")) then failure
  else "Activity stopped without a reported failure reason.".

(** [capabilityFor] *)
Definition capabilityFor (mode : ExecutionMode) : result ActivityCapability :=
  match mode with
  | ExecutionModeReal => Ok ActivityCapabilityReal
  | ExecutionModeSimulation => Ok ActivityCapabilitySimulation
  | ExecutionModeInteractive => Ok ActivityCapabilityInteractive
  | ExecutionModeOther _ =>
    Err (errorf "unsupported execution mode %q" [ExecutionMode_string mode])
  end.

(** ** The operations *)
Section operations.
Context {W : Type} `{Clock W, RuntimeResolver W, ActivityExecutionStore W, DataCatalog W}.

(** The checks of [Start] before it looks the handle up: the activity the
    runtime is given, with its resolved executable. *)
Definition admission (execution : ActivityExecutionContext)
    : result ActivityExecutionContext :=
  Activity_Validate execution.(ActivityExecutionContext.Activity) ≫= λ _,
  match execution.(ActivityExecutionContext.Preparation) with
  | None => Ok execution
  | Some gate =>
    match Ready gate with
    | Err e => Err (errorf "activity preparation is not ready: %w" [e])
    | Ok _ =>
      Ok match gate.(PreparationGate.Executable) with
         | None => execution
         | Some m =>
           let resolved := (zero : ResolvedExecutable)
             <| ResolvedExecutable.VariantID := m.(ArtifactMaterialization.VariantID) |>
             <| ResolvedExecutable.Digest := m.(ArtifactMaterialization.Digest) |>
             <| ResolvedExecutable.LocalPath := m.(ArtifactMaterialization.DestinationPath) |>
             <| ResolvedExecutable.EnvironmentID := m.(ArtifactMaterialization.EnvironmentID) |>
             <| ResolvedExecutable.ResourceID := m.(ArtifactMaterialization.ResourceID) |>
             <| ResolvedExecutable.MaterializationID := m.(ArtifactMaterialization.ID) |>
             <| ResolvedExecutable.MaterializationDone := Committed m |> in
           let activity := execution.(ActivityExecutionContext.Activity) in
           let command := activity.(Activity.Command)
             <| ActivityCommand.ResolvedExecutable := Some resolved |> in
           execution <| ActivityExecutionContext.Activity :=
             activity <| Activity.Command := command |> |>
         end
    end
  end ≫= λ execution,
  let activity := execution.(ActivityExecutionContext.Activity) in
  let mode := execution.(ActivityExecutionContext.Run).(ExecutionRun.Mode) in
  capabilityFor mode ≫= λ capability,
  check (Supports activity capability)
    (errorf "activity %q does not support %q execution"
      [activity.(Activity.ID); ExecutionMode_string mode]) ≫= λ _,
  Ok execution.

Definition handle_id (execution : ActivityExecutionContext) : string :=
  execution.(ActivityExecutionContext.Run).(ExecutionRun.ID) +:+ ":" +:+
  execution.(ActivityExecutionContext.Activity).(Activity.ID).

(** The handle [Start] persists for the one its runtime returned. *)
Definition started_handle (id : string) (handle : ActivityHandle) : ActivityHandle :=
  let log := appendLog handle.(ActivityHandle.Log) "info"
    ("Activity started on runtime " +:+ handle.(ActivityHandle.RuntimeID) +:+ ".") in
  let log := match handle.(ActivityHandle.Status) with
    | HandleCompleted => appendLog log "success" "Activity completed successfully."
    | HandleFailed => appendLog log "error" (failureMessage handle.(ActivityHandle.Failure))
    | _ => log
    end in
  handle <| ActivityHandle.ID := id |> <| ActivityHandle.Log := log |>.

(** [Controller.Start] *)
Definition Start (execution : ActivityExecutionContext) : effr W ActivityHandle :=
  match admission execution with
  | Err e => eret (Err e)
  | Ok execution =>
    let id := handle_id execution in
    let! existing := Find id in
    match existing with
    | Err e => eret (Err (errorf "find activity handle: %w" [e]))
    | Ok (Some handle) => eret (Ok handle)
    | Ok None =>
      if bool_decide (execution.(ActivityExecutionContext.RuntimeID) = "") then
        eret (Err (errorf "activity %q has no selected runtime"
          [execution.(ActivityExecutionContext.Activity).(Activity.ID)]))
      else
        let? runtime := Resolve execution.(ActivityExecutionContext.Run).(ExecutionRun.Mode)
                          execution.(ActivityExecutionContext.RuntimeID) in
        let? handle := runtime_Start runtime execution in
        if negb (bool_decide (handle.(ActivityHandle.ActivityID) =
                   execution.(ActivityExecutionContext.Activity).(Activity.ID))) ||
           negb (bool_decide (handle.(ActivityHandle.RunID) =
                   execution.(ActivityExecutionContext.Run).(ExecutionRun.ID))) then
          eret (Err (errorf "runtime returned an invalid activity handle" []))
        else
          let handle := started_handle id handle in
          let! saved := Save handle in
          match saved with
          | Err e =>
            let! _ := runtime_Stop runtime handle in
            eret (Err (errorf "persist activity handle: %w" [e]))
          | Ok _ => eret (Ok handle)
          end
    end
  end.

(** [Controller.persistInspectionFailure] *)
Definition persistInspectionFailure (handle : ActivityHandle) (err : error)
    : effr W (option ActivityHandle) :=
  let! now := unixNow in
  let failure := "inspect activity: " +:+ err in
  let handle := handle <| ActivityHandle.Status := HandleFailed |>
    <| ActivityHandle.FinishedAt := now |> <| ActivityHandle.Failure := failure |>
    <| ActivityHandle.Log := appendLog handle.(ActivityHandle.Log) "error" failure |> in
  let! saved := Save handle in
  match saved with
  | Err e => eret (Err (errorf "inspect activity: %w; save failed handle: %v" [err; e]))
  | Ok _ => eret (Ok (Some handle))
  end.

(** The log and status entry of an observation. *)
Definition observe (handle updated : ActivityHandle) : ActivityHandle :=
  let log := mergeLogs handle.(ActivityHandle.Log) updated.(ActivityHandle.Log) in
  let log :=
    if bool_decide (updated.(ActivityHandle.Status) = handle.(ActivityHandle.Status)) then log
    else match updated.(ActivityHandle.Status) with
         | HandleCompleted => appendLog log "success" "Activity completed successfully."
         | HandleFailed | HandleStopped =>
           appendLog log "error" (failureMessage updated.(ActivityHandle.Failure))
         | _ => log
         end in
  updated <| ActivityHandle.Log := log |>.

(** The artifact catalogue's part of [Inspect]. *)
Definition catalog (updated : ActivityHandle) : eff W ActivityHandle :=
  match CatalogArtifacts, updated.(ActivityHandle.Artifacts), updated.(ActivityHandle.Status) with
  | Some record, Some _, (HandleCompleted | HandleFailed) =>
    let! r := record updated in
    eret match r with
         | Ok _ => updated
         | Err e => updated <| ActivityHandle.Metadata :=
             <["artifactCatalogError" := AnyString e]> updated.(ActivityHandle.Metadata) |>
         end
  | _, _, _ => eret updated
  end.

(** [Controller.Inspect]; [Ok None] is the nil handle of an unknown id. *)
Definition Inspect (handleID : string) (mode : ExecutionMode)
    : effr W (option ActivityHandle) :=
  let? found := Find handleID in
  match found with
  | None => eret (Ok None)
  | Some handle =>
    let! runtime := Resolve mode handle.(ActivityHandle.RuntimeID) in
    match runtime with
    | Err e => persistInspectionFailure handle e
    | Ok runtime =>
      let! updated := runtime_Inspect runtime handle in
      match updated with
      | Err e => persistInspectionFailure handle e
      | Ok updated =>
        let! updated := catalog (observe handle updated) in
        let? _ := Save updated in
        eret (Ok (Some updated))
      end
    end
  end.

(** [Controller.Stop] *)
Definition Stop (handleID : string) (mode : ExecutionMode) : effr W unit :=
  let? found := Find handleID in
  match found with
  | None => eret (Err (errorf "activity handle %q not found" [handleID]))
  | Some handle =>
    let? runtime := Resolve mode handle.(ActivityHandle.RuntimeID) in
    let? _ := runtime_Stop runtime handle in
    Save (handle <| ActivityHandle.Status := HandleStopped |>)
  end.
End operations.

(** ** Logs *)
Definition lines (s : string) : list string := split_byte LF s.
(** The lifecycle part of a log: its lines from the first lifecycle entry on. *)
Definition lifecycle (log : string) : list string :=
  let l := lines (trim_newlines log) in drop (first_lifecycle l) l.

Lemma lines_newline a b : lines (a +:+ newline +:+ b) = lines a ++ lines b.
Proof. apply split_byte_app. Qed.
Lemma lines_end a : lines (a +:+ newline) = lines a ++ [""].
Proof. exact (lines_newline a ""). Qed.

Lemma first_lifecycle_le l : (first_lifecycle l ≤ length l)%nat.
Proof. induction l as [|x l IH]; simpl; [lia|]. case_match; lia. Qed.

Lemma lines_trim l s : l ∈ lines (trim_newlines s) → l ∈ lines s.
Proof.
  intros Hl. unfold trim_newlines in *. destruct (trim_right_split (is_byte LF) s) as (t & E & Ht).
  rewrite E. destruct t as [|c t]; [by rewrite str_app_nil_r|].
  simpl in Ht. apply andb_true_iff in Ht as [Hc%bool_decide_eq_true _]. subst c.
  change (String LF t) with (newline +:+ t). rewrite lines_newline. apply elem_of_app. by left.
Qed.

Lemma merged_lifecycle previous observed l : l ∈ lifecycle previous →
  l ∈ lines (trim_newlines observed +:+ (splitLifecycleLog previous).2).
Proof.
  unfold lifecycle, splitLifecycleLog. set (ls := lines (trim_newlines previous)). fold (lines (trim_newlines previous)). fold ls.
  intros Hl. rewrite bool_decide_false; simpl.
  - rewrite lines_newline, lines_end, !elem_of_app. right. left. unfold lines.
    rewrite split_join_byte; [done| |].
    + intros E. rewrite E in Hl. by apply elem_of_nil in Hl.
    + apply Forall_drop, split_byte_free.
  - intros E. rewrite E, drop_all in Hl. by apply elem_of_nil in Hl.
Qed.

(** Merging what a runtime reports into a handle's log keeps every lifecycle
    line the engine wrote: all lines from the first lifecycle entry on are lines
    of the merged log, whatever the runtime observed. *)
Theorem merge_keeps_lifecycle previous observed l :
  l ∈ lifecycle previous → l ∈ lines (mergeLogs previous observed).
Proof.
  intros Hl. pose proof (merged_lifecycle previous observed l Hl) as Hm.
  assert (l ∈ lines previous) as Hp.
  { apply lines_trim. unfold lifecycle in Hl. by eapply elem_of_drop_elem. }
  unfold mergeLogs. destruct (_ || _); [done|].
  destruct (splitLifecycleLog previous) as [r c]. simpl in Hm.
  destruct (_ || _); [done|]. by destruct (has_prefix _ _).
Qed.

Lemma merge_keeps_lifecycle_witness :
  let log := "step 1" +:+ newline +:+ "[AKOFLOW INFO] started" +:+ newline in
  "[AKOFLOW INFO] started" ∈ lines (mergeLogs log ("step 1" +:+ newline +:+ "step 2")).
Proof.
  intros log. apply merge_keeps_lifecycle. vm_compute. left.
Defined.

(** The entry [appendLog] writes. *)
Definition entry (level message : string) : string :=
  sprintf "[AKOFLOW %s] %s" [to_upper level; message].

Lemma appendLog_contains log level message :
  message ≠ "" → contains (appendLog log level message) (entry level message) = true.
Proof.
  intros Hm. unfold appendLog. rewrite bool_decide_false by done.
  fold (entry level message). destruct (contains log _) eqn:E; [done|].
  case_bool_decide.
  - apply contains_spec. by exists "", newline.
  - apply contains_spec. exists (trim_newlines log +:+ newline), newline.
    by rewrite str_app_assoc.
Qed.

(** A lifecycle entry is written once: after [appendLog] the log contains the
    entry, what was in the log before is still its prefix up to trailing
    newlines, and writing the entry again changes nothing. *)
Theorem appendLog_once log level message :
  message ≠ "" →
  contains (appendLog log level message) (entry level message) = true ∧
  has_prefix (trim_newlines log) (appendLog log level message) = true ∧
  appendLog (appendLog log level message) level message = appendLog log level message.
Proof.
  intros Hm. split_and!; [by apply appendLog_contains| |].
  - unfold appendLog. rewrite bool_decide_false by done. destruct (contains log _).
    + apply has_prefix_spec. destruct (trim_right_split (is_byte LF) log) as (t & E & _). eauto.
    + case_bool_decide; [subst; by apply has_prefix_spec; eexists|]. apply has_prefix_app.
  - unfold appendLog at 1. rewrite bool_decide_false by done.
    fold (entry level message). by rewrite appendLog_contains.
Qed.

Lemma appendLog_once_witness :
  appendLog (appendLog "out" "info" "done") "info" "done" = appendLog "out" "info" "done".
Proof. apply (appendLog_once "out" "info" "done"). discriminate. Defined.

(** ** Starting an activity *)
Section contract.
Context {W : Type} `{Clock W, RuntimeResolver W, ActivityExecutionStore W, DataCatalog W}.
Context `{!HandleStoreLaws W}.

(** A call that leaves the stored handles as they are. *)
Definition keeps_handles {A} (m : eff W A) : Prop :=
  ∀ w a w' id, m w = (a, w') → holds w' id = holds w id.

(** Runtimes, the clock and the artifact catalogue do not write handles: only
    the controller does. *)
Record HandlesPrivate : Prop := {
  resolve_private : ∀ mode id, keeps_handles (Resolve mode id);
  runtime_private : ∀ mode id w r w', Resolve mode id w = (Ok r, w') →
    (∀ e, keeps_handles (runtime_Start r e)) ∧ (∀ h, keeps_handles (runtime_Inspect r h)) ∧
    (∀ h, keeps_handles (runtime_Stop r h));
  clock_private : keeps_handles UnixNano;
  catalog_private : ∀ f h, CatalogArtifacts = Some f → keeps_handles (f h)
}.

(** The operations of the controller, in any order. *)
Inductive controller_step : W → W → Prop :=
| step_start e w r w' : Start e w = (r, w') → controller_step w w'
| step_inspect id mode w r w' : Inspect id mode w = (r, w') → controller_step w w'
| step_stop id mode w r w' : Stop id mode w = (r, w') → controller_step w w'.

(** Starting under an identifier that has a handle returns it and does nothing. *)
Lemma Start_existing execution e w h :
  admission execution = Ok e → holds w (handle_id e) = Some h →
  ∃ r, Start execution w = (r, w) ∧ ∀ h', r = Ok h' → h' = h.
Proof.
  intros Ha Hh. unfold Start. rewrite Ha. unfold ebind.
  destruct (Find (handle_id e) w) as [r w'] eqn:E.
  destruct (find_holds _ _ _ _ E) as [-> Hr].
  destruct r as [o|err]; [|eexists; by split]. specialize (Hr o eq_refl).
  rewrite Hh in Hr. subst o. eexists. split; [done|]. by intros h' [= ->].
Qed.

Lemma save_keeps h w r w' id : Save h w = (r, w') →
  is_Some (holds w id) → is_Some (holds w' id).
Proof.
  intros E Hid. destruct r as [[]|e].
  - destruct (save_holds _ _ _ E) as [Hs Hn].
    destruct (decide (id = h.(ActivityHandle.ID))) as [->|Hne]; [by rewrite Hs|].
    by rewrite Hn.
  - by rewrite (save_fails _ _ _ _ E).
Qed.

Definition grows {A} (m : eff W A) : Prop :=
  ∀ w a w' id, m w = (a, w') → is_Some (holds w id) → is_Some (holds w' id).

Lemma keeps_grows {A} (m : eff W A) : keeps_handles m → grows m.
Proof. intros Hk w a w' id E. by rewrite (Hk _ _ _ id E). Qed.
Lemma grows_ret {A} (a : A) : grows (eret a).
Proof. by intros w b w' id [= _ <-]. Qed.
Lemma grows_bind {A B} (m : eff W A) (k : A → eff W B) :
  grows m → (∀ a w w', m w = (a, w') → grows (k a)) → grows (ebind m k).
Proof.
  intros Hm Hk w b w' id. unfold ebind. destruct (m w) as [a w1] eqn:E.
  intros E' Hid. eapply Hk; [exact E|exact E'|]. by eapply Hm.
Qed.
Lemma grows_bindr {A B} (m : effr W A) (k : A → effr W B) :
  grows m → (∀ a w w', m w = (Ok a, w') → grows (k a)) → grows (ebindr m k).
Proof.
  intros Hm Hk w b w' id. unfold ebindr. destruct (m w) as [[a|e] w1] eqn:E.
  - intros E' Hid. eapply Hk; [exact E|exact E'|]. by eapply Hm.
  - intros [= _ <-] Hid. by eapply Hm.
Qed.
Lemma grows_save h : grows (Save h).
Proof. intros w r w' id E. by eapply save_keeps. Qed.
Lemma grows_find id : grows (Find id).
Proof. intros w r w' i E. by destruct (find_holds _ _ _ _ E) as [-> _]. Qed.

Hypothesis private : HandlesPrivate.

Create HintDb grows.
Hint Resolve grows_ret grows_bind grows_bindr grows_save grows_find : grows.

Lemma grows_resolve mode id : grows (Resolve mode id).
Proof. apply keeps_grows, private. Qed.
Hint Resolve grows_resolve : grows.

Lemma persist_grows h e : grows (persistInspectionFailure h e).
Proof.
  unfold persistInspectionFailure, unixNow. apply grows_bind.
  - apply grows_bind; [apply keeps_grows, private|auto with grows].
  - intros now _ _ _. apply grows_bind; [auto with grows|]. intros [] _ _ _; auto with grows.
Qed.

Lemma Start_grows e : grows (Start e).
Proof.
  unfold Start. destruct (admission e) as [e'|]; [|auto with grows].
  apply grows_bind; [auto with grows|]. intros [[h|]|] _ _ _; [auto with grows| |auto with grows].
  case_match; [auto with grows|]. apply grows_bindr; [auto with grows|].
  intros r w w' Hr. destruct (runtime_private private _ _ _ _ _ Hr) as (Hs & _ & Hst).
  apply grows_bindr; [by apply keeps_grows|]. intros h _ _ _. case_match; [auto with grows|].
  apply grows_bind; [auto with grows|]. intros [] _ _ _; [auto with grows|].
  apply grows_bind; [by apply keeps_grows|auto with grows].
Qed.

Lemma Inspect_grows id mode : grows (Inspect id mode).
Proof.
  unfold Inspect. apply grows_bindr; [auto with grows|]. intros [h|] _ _ _; [|auto with grows].
  apply grows_bind; [auto with grows|]. intros [r|] w w' Hr; [|apply persist_grows].
  destruct (runtime_private private _ _ _ _ _ Hr) as (_ & Hi & _).
  apply grows_bind; [by apply keeps_grows|]. intros [u|] _ _ _; [|apply persist_grows].
  apply grows_bind.
  - unfold catalog. destruct CatalogArtifacts as [f|] eqn:Ef; [|auto with grows].
    repeat (case_match; try (auto with grows; fail));
      (apply grows_bind; [by eapply keeps_grows, private|auto with grows]).
  - intros u' _ _ _. apply grows_bindr; auto with grows.
Qed.

Lemma Stop_grows id mode : grows (Stop id mode).
Proof.
  unfold Stop. apply grows_bindr; [auto with grows|]. intros [h|] _ _ _; [|auto with grows].
  apply grows_bindr; [auto with grows|]. intros r w w' Hr.
  destruct (runtime_private private _ _ _ _ _ Hr) as (_ & _ & Hst).
  apply grows_bindr; [by apply keeps_grows|auto with grows].
Qed.

Lemma controller_steps_grow w w' id : rtc controller_step w w' →
  is_Some (holds w id) → is_Some (holds w' id).
Proof.
  induction 1 as [|w w1 w2 Hs _ IH]; [done|]. intros Hid. apply IH. clear IH.
  destruct Hs as [e ? r ? E|i m ? r ? E|i m ? r ? E].
  - by eapply Start_grows.
  - by eapply Inspect_grows.
  - by eapply Stop_grows.
Qed.

(** A start that succeeds leaves a handle for its run and activity. *)
Lemma Start_holds execution e w h w' : admission execution = Ok e →
  Start execution w = (Ok h, w') → is_Some (holds w' (handle_id e)).
Proof.
  intros Ha. unfold Start. rewrite Ha. unfold ebind at 1.
  destruct (Find (handle_id e) w) as [r w0] eqn:E.
  destruct (find_holds _ _ _ _ E) as [-> Hr].
  destruct r as [[h0|]|err]; [intros [= -> ->]; by rewrite <- (Hr _ eq_refl)| |done].
  case_match; [done|]. unfold ebindr at 1.
  destruct (Resolve _ _ w) as [[r|] w1]; [|done]. unfold ebindr at 1.
  destruct (runtime_Start r e w1) as [[h1|] w2]; [|done]. case_match; [done|].
  unfold ebind at 1. destruct (Save _ w2) as [[[]|] w3] eqn:Es.
  - intros [= <- <-]. destruct (save_holds _ _ _ Es) as [Hs _]. simpl in Hs. by rewrite Hs.
  - unfold ebind. by destruct (runtime_Stop _ _ w3).
Qed.

Lemma start_again execution execution' e e' w w1 w2 h :
  admission execution = Ok e → admission execution' = Ok e' →
  handle_id e' = handle_id e →
  Start execution w = (Ok h, w1) → rtc controller_step w1 w2 →
  ∃ h' r, holds w2 (handle_id e) = Some h' ∧ Start execution' w2 = (r, w2) ∧
          ∀ h2, r = Ok h2 → h2 = h'.
Proof.
  intros Ha Ha' Hid Hs Hsteps.
  destruct (controller_steps_grow _ _ (handle_id e) Hsteps) as [h' Hh'].
  { by eapply Start_holds. }
  destruct (Start_existing execution' e' w2 h' Ha') as (r & Hr & Hr').
  { by rewrite Hid. }
  exists h', r. auto.
Qed.

(** C5: An activity is launched at most once per run: after a start succeeded,
    whatever the controller did in between, a handle is on record, and a second
    start for the same run and activity performs no call to any runtime (the world is
    unchanged) and returns either that handle or an error. *)
Theorem start_once execution execution' e e' w w1 w2 h :
  admission execution = Ok e → admission execution' = Ok e' →
  handle_id e' = handle_id e →
  Start execution w = (Ok h, w1) → rtc controller_step w1 w2 →
  ∃ h' r, holds w2 (handle_id e) = Some h' ∧ Start execution' w2 = (r, w2) ∧
          ∀ h2, r = Ok h2 → h2 = h'.
Proof. apply start_again. Qed.
End contract.

(** ** The materialization barrier *)
Section barrier.
Context {W : Type} `{Clock W, RuntimeResolver W, ActivityExecutionStore W, DataCatalog W}.

Definition all_committed (gate : PreparationGate) : Prop :=
  (∀ m, gate.(PreparationGate.Executable) = Some m →
     m.(ArtifactMaterialization.Status) = MaterializationCommitted ∧
     m.(ArtifactMaterialization.Digest) ≠ "" ∧
     m.(ArtifactMaterialization.VerifiedDigest) = m.(ArtifactMaterialization.Digest)) ∧
  (∀ ws, gate.(PreparationGate.Workspace) = Some ws →
     ws.(WorkspaceMaterialization.Status) = MaterializationCommitted).

Lemma Committed_spec m : Committed m = true ↔
  m.(ArtifactMaterialization.Status) = MaterializationCommitted ∧
  m.(ArtifactMaterialization.Digest) ≠ "" ∧
  m.(ArtifactMaterialization.VerifiedDigest) = m.(ArtifactMaterialization.Digest).
Proof.
  unfold Committed. rewrite !andb_true_iff, negb_true_iff, !bool_decide_eq_true, bool_decide_eq_false.
  intuition congruence.
Qed.

Lemma Ready_spec gate : Ready gate = Ok tt ↔ all_committed gate.
Proof.
  unfold Ready, all_committed, check.
  setoid_rewrite <- Committed_spec.
  destruct gate as [ex ws ts]; simpl. split.
  - destruct ex as [m|]; [destruct (Committed m) eqn:Em; [|done]|];
      (destruct ws as [ws|]; [case_bool_decide; [|done]|]);
      intros _; split; intros ? [= <-]; done.
  - intros [He Hw]. destruct ex as [m|]; [rewrite (He m eq_refl)|]; simpl;
      (destruct ws as [ws|]; [|done]); by rewrite bool_decide_true by auto.
Qed.

(** The materialization barrier: an activity whose preparation is not fully
    committed is refused without any call to the store or a runtime, and an
    activity that is admitted runs the verified bytes: its resolved executable
    is the committed materialization. *)
Theorem start_barrier execution gate w :
  execution.(ActivityExecutionContext.Preparation) = Some gate →
  (¬ all_committed gate → ∃ e, Start execution w = (Err e, w)) ∧
  ∀ e, admission execution = Ok e → all_committed gate ∧
    ∀ m, gate.(PreparationGate.Executable) = Some m →
      ∃ r, e.(ActivityExecutionContext.Activity).(Activity.Command)
             .(ActivityCommand.ResolvedExecutable) = Some r ∧
        r.(ResolvedExecutable.MaterializationDone) = true ∧
        r.(ResolvedExecutable.Digest) = m.(ArtifactMaterialization.VerifiedDigest) ∧
        r.(ResolvedExecutable.LocalPath) = m.(ArtifactMaterialization.DestinationPath).
Proof.
  intros Hg. rewrite <- Ready_spec.
  assert (∀ e, admission execution = Ok e → Ready gate = Ok tt) as Hready.
  { intros e. unfold admission. rewrite Hg. destruct (Activity_Validate _); [simpl|done].
    by destruct (Ready gate) as [[]|]. }
  split.
  - intros Hn. unfold Start. destruct (admission execution) as [e|err] eqn:E; [|by eexists].
    by specialize (Hready e eq_refl).
  - intros e He. pose proof (Hready e He) as Hr. split; [by apply Ready_spec|]. intros m Hm.
    unfold admission in He. rewrite Hg in He. destruct (Activity_Validate _); [|done].
    simpl in He. rewrite Hr, Hm in He. simpl in He.
    destruct (capabilityFor _); [|done]. simpl in He.
    destruct (check _ _); [|done]. simpl in He. injection He as <-. simpl.
    eexists. split; [reflexivity|].
    apply Ready_spec in Hr as [Hr _]. specialize (Hr m Hm).
    pose proof (proj2 (Committed_spec m) Hr) as Hc. destruct Hr as (_ & _ & Hd). done.
Qed.
End barrier.

(** ** A concrete controller, for evaluating the definitions *)
Module Example.
Abbreviation world := (gmap string ActivityHandle).
Definition clock : Clock world := eret 0.
Definition catalogue : DataCatalog world := None.
Definition store : ActivityExecutionStore world := {|
  Save h := λ w, (Ok tt, <[h.(ActivityHandle.ID) := h]> w);
  Find id := λ w, (Ok (w !! id), w)
|}.
Definition adapter : RuntimeAdapter world := {|
  Modes := [ExecutionModeReal];
  runtime_Start e := eret (Ok ((zero : ActivityHandle)
    <| ActivityHandle.RunID := e.(ActivityExecutionContext.Run).(ExecutionRun.ID) |>
    <| ActivityHandle.ActivityID := e.(ActivityExecutionContext.Activity).(Activity.ID) |>
    <| ActivityHandle.Status := HandleRunning |>));
  runtime_Inspect h := eret (Ok (h <| ActivityHandle.Status := HandleCompleted |>));
  runtime_Stop h := eret (Ok tt)
|}.
Definition resolver : RuntimeResolver world := λ _ _, eret (Ok adapter).

Definition activity : Activity := (zero : Activity) <| Activity.ID := "a" |>
  <| Activity.Name := "a" |> <| Activity.Kind := ActivityKindService |>
  <| Activity.Capabilities := [ActivityCapabilityReal] |>
  <| Activity.Command := (zero : ActivityCommand) <| ActivityCommand.Entrypoint := "run" |> |>
  <| Activity.Service := Some zero |>.
Definition execution (gate : option PreparationGate) : ActivityExecutionContext :=
  ActivityExecutionContext.mk
    ((zero : ExecutionRun) <| ExecutionRun.ID := "r" |> <| ExecutionRun.Mode := ExecutionModeReal |>)
    zero activity zero zero "local" gate.

Definition laws : @HandleStoreLaws world store.
Proof.
  refine {| holds w id := w !! id; stored _ h := h |}.
  - intros id w r w' [= <- <-]. split; [done|]. by intros o [= ->].
  - intros h w w' [= <-]. split; [by rewrite lookup_insert_eq|].
    intros id Hne. by rewrite lookup_insert_ne.
  - done.
  - done.
Defined.

Lemma private : @HandlesPrivate world clock resolver store catalogue laws.
Proof.
  split; try by intros ? ? ? ? ? ? [= _ <-].
  - intros mode id w r w' [= <- _]. split_and!; by intros ? ? ? ? ? [= _ <-].
  - by intros ? ? ? ? [= _ <-].
  - done.
Qed.
End Example.

Lemma start_once_witness :
  let w1 := (@Start _ Example.resolver Example.store (Example.execution None) ∅).2 in
  let w2 := (@Inspect _ Example.clock Example.resolver Example.store Example.catalogue
    "r:a" ExecutionModeReal w1).2 in
  ∃ h' r, w2 !! "r:a" = Some h' ∧
    @Start _ Example.resolver Example.store (Example.execution None) w2 = (r, w2) ∧
    ∀ h2, r = Ok h2 → h2 = h'.
Proof.
  intros w1 w2.
  destruct (admission (Example.execution None)) as [e|] eqn:Ha; [|vm_compute in Ha; discriminate].
  assert (handle_id e = "r:a") as Hid by (vm_compute in Ha; injection Ha as <-; reflexivity).
  rewrite <- Hid.
  destruct (@Start _ Example.resolver Example.store (Example.execution None) ∅)
    as [[h|] w'] eqn:Hs; [|vm_compute in Hs; discriminate].
  refine (@start_once _ Example.clock Example.resolver Example.store Example.catalogue
    Example.laws Example.private (Example.execution None) (Example.execution None)
    e e ∅ w1 w2 h Ha Ha eq_refl Hs _).
  apply rtc_once. subst w1 w2. simpl.
  destruct (@Inspect _ _ _ _ _ _ _ _) as [r w2] eqn:E. by eapply step_inspect.
Defined.

Lemma start_barrier_witness :
  ∃ e, @Start _ Example.resolver Example.store
    (Example.execution (Some (PreparationGate.mk (Some zero) None []))) ∅ = (Err e, ∅).
Proof.
  apply (@start_barrier _ Example.resolver Example.store
    (Example.execution (Some (PreparationGate.mk (Some zero) None [])))
    (PreparationGate.mk (Some zero) None []) ∅ eq_refl).
  intros [H _]. destruct (H zero eq_refl) as [H1 _]. discriminate H1.
Defined.
End Controller.
