(* ===== verification/ExecutionRepository.v ===== *)
(** * The execution store (src/internal/infrastructure/database/execution/repository.go)

    The tables of runs, tasks, handles, lifecycle events and transfers with the
    transactions of [Repository] on them. The repository is proved to implement
    the store the activity controller relies on ([HandleStoreLaws]), to keep the
    tables' invariant, and to be all or nothing. *)

From S2P Require Import Prelude GoStrings GoFloat Sql Domain Queue Ports Controller.

Module ExecutionRepository.
Import Sql.

(** ** domain/events/event.go *)
Definition ExecutionStarted : string := "execution.run.started".
Definition ExecutionCompleted : string := "execution.run.completed".
Definition ExecutionFailed : string := "execution.run.failed".
Definition ActivityStarted : string := "activity.started".
Definition ActivityCompleted : string := "activity.completed".
Definition ActivityFailed : string := "activity.failed".

(** ** Rows *)
Module RunRow.
Record RunRow := mk {
  id : string;
  schedule_plan_id : string;
  mode : ExecutionMode;
  seed : Z;
  status : ExecutionRunStatus;
  environment_snapshot_id : string;
  started_at : option Time;
  finished_at : option Time;
  makespan_seconds : float64;
  cost : float64;
  failure_reason : string
}.
#[global] Instance eta : Eta RunRow := λ r,
  mk r.(id) r.(schedule_plan_id) r.(mode) r.(seed) r.(status) r.(environment_snapshot_id)
    r.(started_at) r.(finished_at) r.(makespan_seconds) r.(cost) r.(failure_reason).
End RunRow.
Abbreviation RunRow := RunRow.RunRow.

Module HandleRow.
Record HandleRow := mk {
  id : string;
  execution_run_id : string;
  activity_id : string;
  resource_id : string;
  runtime_id : string;
  external_id : string;
  status : ActivityHandleStatus;
  endpoints : string;
  started_at : float64;
  finished_at : float64;
  exit_code : option Z;
  failure : string;
  log : string;
  artifacts : string;
  metadata : string
}.
End HandleRow.
Abbreviation HandleRow := HandleRow.HandleRow.

Module LifecycleRow.
Record LifecycleRow := mk {
  id : string;
  task_execution_id : string;
  phase : string;
  status : TaskExecutionStatus;
  started_at : float64;
  finished_at : float64;
  duration_seconds : float64;
  source : string;
  error_ : string;
  metadata : string
}.
End LifecycleRow.
Abbreviation LifecycleRow := LifecycleRow.LifecycleRow.

Module TransferRow.
Record TransferRow := mk {
  id : string;
  execution_run_id : string;
  producer_activity_id : option string;
  consumer_activity_id : option string;
  source_resource_id : string;
  target_resource_id : string;
  bytes : Z;
  status : string;
  started_at : float64;
  finished_at : float64;
  duration_seconds : float64;
  cost : float64
}.
#[global] Instance eta : Eta TransferRow := λ r,
  mk r.(id) r.(execution_run_id) r.(producer_activity_id) r.(consumer_activity_id)
    r.(source_resource_id) r.(target_resource_id) r.(bytes) r.(status) r.(started_at)
    r.(finished_at) r.(duration_seconds) r.(cost).
End TransferRow.
Abbreviation TransferRow := TransferRow.TransferRow.

(** The tables the repository reads and writes. A row of [task_executions] is
    the task, its nullable column [allocated_resource_id] read through
    [COALESCE]. The repository only reads the console's tables. *)
Module DB.
Record DB := mk {
  execution_runs : list RunRow;
  task_executions : list TaskExecution;
  activity_lifecycle_events : list LifecycleRow;
  activity_handles : list HandleRow;
  data_transfer_observations : list TransferRow;
  console_sessions : list ConsoleSession;
  console_commands : list ConsoleCommand;
  outbox : JobQueue.Outbox
}.
#[global] Instance eta : Eta DB := λ d,
  mk d.(execution_runs) d.(task_executions) d.(activity_lifecycle_events)
    d.(activity_handles) d.(data_transfer_observations) d.(console_sessions)
    d.(console_commands) d.(outbox).
End DB.
Abbreviation DB := DB.DB.
Abbreviation world := (Session DB).

Definition empty_db : DB := DB.mk [] [] [] [] [] [] [] (JobQueue.Outbox.mk [] []).

(** The statements, for the engine's refusals. *)
Inductive statement :=
| BeginTx
| Commit
| Select
| InsertRun (r : RunRow)
| FinishRun (id : string)
| UpsertTask (t : TaskExecution)
| InsertLifecycle (r : LifecycleRow)
| UpsertHandle (r : HandleRow)
| UpsertTransfer (r : TransferRow)
| InsertEvent (e : DomainEvent).

(** The SQLite driver and the runtime: [refuse] is any reason to fail a statement
    that is not written out below (a foreign key, an I/O error, a cancelled
    context); [newID] and [now] are the draws of the random source and of the
    clock; [sum_real] is [SUM] over a REAL column. *)
Class Driver := {
  refuse : statement → DB → option error;
  newID : nat → string;
  now : nat → Time;
  sum_real : list float64 → float64
}.

(** [encoding/json] on the types the repository stores. *)
Class JSON := {
  marshal_event : DomainEvent → result string;
  unmarshal_event : string → result DomainEvent;
  marshal_metadata : metadata → result string;
  unmarshal_metadata : string → result metadata;
  marshal_endpoints : list string → result string;
  unmarshal_endpoints : string → result (list string);
  marshal_artifacts : option ArtifactManifest → result string;
  unmarshal_artifacts : string → result (option ArtifactManifest)
}.

(** The CHECK constraints of [execution_runs.mode] and [activity_handles.status]. *)
Definition mode_allowed (m : ExecutionMode) : bool :=
  bool_decide (ExecutionMode_string m ∈ ["real"; "simulation"; "interactive"]).
Definition handle_status_allowed (s : ActivityHandleStatus) : bool :=
  bool_decide (ActivityHandleStatus_string s ∈
    ["starting"; "running"; "completed"; "failed"; "stopped"]).

Definition task_key (t : TaskExecution) : string * string * Z :=
  (t.(TaskExecution.ExecutionRunID), t.(TaskExecution.ActivityID), t.(TaskExecution.Attempt)).

Section repository.
Context `{Driver, JSON, SqlOrder}.

(** [dbevents.Append] in the caller's transaction. *)
Definition append_event (event : DomainEvent) : effr world unit :=
  let! event_id := draw in
  let! job_id := draw in
  let! clock := draw in
  exec (refuse (InsertEvent event)) (λ d,
    let '(r, o) := JobQueue.Append marshal_event marshal_metadata
      (newID event_id) (newID job_id) (now clock) event d.(DB.outbox) in
    (r, d <| DB.outbox := o |>)).

Definition in_transaction (body : effr world unit) : effr world unit :=
  transaction (refuse BeginTx) (refuse Commit) body.

(** [Repository.CreateRun] *)
Definition CreateRun (run : ExecutionRun) : effr world unit := in_transaction (
  let! clock := draw in
  let row := RunRow.mk run.(ExecutionRun.ID) run.(ExecutionRun.SchedulePlanID)
    run.(ExecutionRun.Mode) run.(ExecutionRun.Seed) run.(ExecutionRun.Status)
    run.(ExecutionRun.EnvironmentSnapshotID) (Some (now clock)) None f0 f0 "" in
  let? changed := exec (refuse (InsertRun row)) (λ d,
    if negb (mode_allowed row.(RunRow.mode)) then (Err "CHECK constraint failed: mode", d)
    else let '(t, count) := insert_or_ignore RunRow.id row d.(DB.execution_runs) in
         (Ok count, d <| DB.execution_runs := t |>)) in
  if changed =? 1 then
    append_event (DomainEvent.mk "" ExecutionStarted "execution_run" run.(ExecutionRun.ID)
      (<["mode" := AnyString (ExecutionMode_string run.(ExecutionRun.Mode))]>
        {["schedulePlanId" := AnyString run.(ExecutionRun.SchedulePlanID)]}) zero ∅)
  else eret (Ok tt)).

(** *** Handles *)

(** The update of [ON CONFLICT(id)] in [Save]. *)
Definition merge_handle (old new : HandleRow) : HandleRow := {|
  HandleRow.id := old.(HandleRow.id);
  HandleRow.execution_run_id := old.(HandleRow.execution_run_id);
  HandleRow.activity_id := old.(HandleRow.activity_id);
  HandleRow.resource_id := old.(HandleRow.resource_id);
  HandleRow.runtime_id := old.(HandleRow.runtime_id);
  HandleRow.external_id := new.(HandleRow.external_id);
  HandleRow.status := new.(HandleRow.status);
  HandleRow.endpoints := new.(HandleRow.endpoints);
  HandleRow.started_at := new.(HandleRow.started_at);
  HandleRow.finished_at := new.(HandleRow.finished_at);
  HandleRow.exit_code := new.(HandleRow.exit_code);
  HandleRow.failure := new.(HandleRow.failure);
  HandleRow.log := new.(HandleRow.log);
  HandleRow.artifacts := new.(HandleRow.artifacts);
  HandleRow.metadata := new.(HandleRow.metadata)
|}.

Definition handle_row (h : ActivityHandle) (endpoints metadata artifacts : string)
    : HandleRow := {|
  HandleRow.id := h.(ActivityHandle.ID);
  HandleRow.execution_run_id := h.(ActivityHandle.RunID);
  HandleRow.activity_id := h.(ActivityHandle.ActivityID);
  HandleRow.resource_id := h.(ActivityHandle.ResourceID);
  HandleRow.runtime_id := h.(ActivityHandle.RuntimeID);
  HandleRow.external_id := h.(ActivityHandle.ExternalID);
  HandleRow.status := h.(ActivityHandle.Status);
  HandleRow.endpoints := endpoints;
  HandleRow.started_at := h.(ActivityHandle.StartedAt);
  HandleRow.finished_at := h.(ActivityHandle.FinishedAt);
  HandleRow.exit_code := h.(ActivityHandle.ExitCode);
  HandleRow.failure := h.(ActivityHandle.Failure);
  HandleRow.log := h.(ActivityHandle.Log);
  HandleRow.artifacts := artifacts;
  HandleRow.metadata := metadata
|}.

(** [Repository.Save] *)
Definition Save (handle : ActivityHandle) : effr world unit :=
  match marshal_endpoints handle.(ActivityHandle.Endpoints) with
  | Err e => eret (Err (errorf "marshal handle endpoints: %w" [e]))
  | Ok endpoints =>
    match marshal_metadata handle.(ActivityHandle.Metadata) with
    | Err e => eret (Err (errorf "marshal handle metadata: %w" [e]))
    | Ok metadata =>
      match marshal_artifacts handle.(ActivityHandle.Artifacts) with
      | Err e => eret (Err (errorf "marshal handle artifacts: %w" [e]))
      | Ok artifacts =>
        let row := handle_row handle endpoints metadata artifacts in
        exec (refuse (UpsertHandle row)) (λ d,
          if negb (handle_status_allowed row.(HandleRow.status)) then
            (Err "CHECK constraint failed: status", d)
          else (Ok tt, d <| DB.activity_handles :=
                 upsert HandleRow.id merge_handle row d.(DB.activity_handles) |>))
      end
    end
  end.

(** [scanHandle] *)
Definition scanHandle (row : HandleRow) : result ActivityHandle :=
  endpoints ← unmarshal_endpoints row.(HandleRow.endpoints);
  metadata ← unmarshal_metadata row.(HandleRow.metadata);
  artifacts ← unmarshal_artifacts row.(HandleRow.artifacts);
  Ok {|
    ActivityHandle.ID := row.(HandleRow.id);
    ActivityHandle.RunID := row.(HandleRow.execution_run_id);
    ActivityHandle.ActivityID := row.(HandleRow.activity_id);
    ActivityHandle.ResourceID := row.(HandleRow.resource_id);
    ActivityHandle.RuntimeID := row.(HandleRow.runtime_id);
    ActivityHandle.ExternalID := row.(HandleRow.external_id);
    ActivityHandle.Status := row.(HandleRow.status);
    ActivityHandle.Endpoints := endpoints;
    ActivityHandle.StartedAt := row.(HandleRow.started_at);
    ActivityHandle.FinishedAt := row.(HandleRow.finished_at);
    ActivityHandle.ExitCode := row.(HandleRow.exit_code);
    ActivityHandle.Failure := row.(HandleRow.failure);
    ActivityHandle.Log := row.(HandleRow.log);
    ActivityHandle.Artifacts := artifacts;
    ActivityHandle.Metadata := metadata
  |}.

(** A query: it may fail, it changes nothing. *)
Definition query {A} (f : DB → A) : effr world A := exec (refuse Select) (λ d, (Ok (f d), d)).

(** [Repository.Find] *)
Definition Find (id : string) : effr world (option ActivityHandle) :=
  let? row := query (λ d, find_row HandleRow.id id d.(DB.activity_handles)) in
  match row with
  | None => eret (Ok None)
  | Some row => eret (Some <$> scanHandle row)
  end.

(** [Repository.ListHandles] *)
Definition ListHandles (salt : nat) (runID : string) : effr world (list ActivityHandle) :=
  let? rows := query (λ d, order_by
    (λ a b, str_le a.(HandleRow.activity_id) b.(HandleRow.activity_id)) salt
    (List.filter (λ r, bool_decide (r.(HandleRow.execution_run_id) = runID))
       d.(DB.activity_handles))) in
  eret (scan_rows scanHandle rows).

(** *** Tasks *)

(** The update of [ON CONFLICT(execution_run_id, activity_id, attempt)]. *)
Definition merge_task (old new : TaskExecution) : TaskExecution := {|
  TaskExecution.ID := old.(TaskExecution.ID);
  TaskExecution.ExecutionRunID := old.(TaskExecution.ExecutionRunID);
  TaskExecution.PlanAssignmentID := old.(TaskExecution.PlanAssignmentID);
  TaskExecution.ActivityID := old.(TaskExecution.ActivityID);
  TaskExecution.PlannedResourceID := old.(TaskExecution.PlannedResourceID);
  TaskExecution.AllocatedResourceID := new.(TaskExecution.AllocatedResourceID);
  TaskExecution.Attempt := old.(TaskExecution.Attempt);
  TaskExecution.Status := new.(TaskExecution.Status);
  TaskExecution.ReadyAt := old.(TaskExecution.ReadyAt);
  TaskExecution.DataReadyAt := old.(TaskExecution.DataReadyAt);
  TaskExecution.QueuedAt := old.(TaskExecution.QueuedAt);
  TaskExecution.StartedAt := new.(TaskExecution.StartedAt);
  TaskExecution.FinishedAt := new.(TaskExecution.FinishedAt);
  TaskExecution.RuntimeSeconds := new.(TaskExecution.RuntimeSeconds);
  TaskExecution.QueueSeconds := new.(TaskExecution.QueueSeconds);
  TaskExecution.TransferSeconds := new.(TaskExecution.TransferSeconds);
  TaskExecution.TransferBytes := new.(TaskExecution.TransferBytes);
  TaskExecution.InterferenceSeconds := new.(TaskExecution.InterferenceSeconds);
  TaskExecution.OverheadSeconds := new.(TaskExecution.OverheadSeconds);
  TaskExecution.Cost := new.(TaskExecution.Cost);
  TaskExecution.FailureReason := new.(TaskExecution.FailureReason)
|}.

(** [saveTask]: a new row must have a new primary key. *)
Definition saveTask (task : TaskExecution) : effr world unit :=
  let row := task <| TaskExecution.AllocatedResourceID :=
    coalesce (nullableString task.(TaskExecution.AllocatedResourceID)) |> in
  exec (refuse (UpsertTask row)) (λ d,
    if negb (row_exists task_key (task_key row) d.(DB.task_executions)) &&
       row_exists TaskExecution.ID row.(TaskExecution.ID) d.(DB.task_executions) then
      (Err "UNIQUE constraint failed: task_executions.id", d)
    else (Ok tt, d <| DB.task_executions :=
           upsert task_key merge_task row d.(DB.task_executions) |>)).

(** [taskStatus] *)
Definition taskStatus (runID activityID : string) (attempt : Z) : effr world string :=
  let? row := query (λ d, find_row task_key (runID, activityID, attempt)
                            d.(DB.task_executions)) in
  eret (Ok (match row with
            | None => ""
            | Some t => TaskExecutionStatus_string t.(TaskExecution.Status)
            end)).

(** The [switch] of [appendTaskEvent]; [None] is its default. *)
Definition task_event_type (s : TaskExecutionStatus) : option string :=
  let text := TaskExecutionStatus_string s in
  if bool_decide (text = "running") then Some ActivityStarted
  else if bool_decide (text = "completed") then Some ActivityCompleted
  else if bool_decide (text = "failed" ∨ text = "cancelled") then Some ActivityFailed
  else None.

Definition lifecycle_row (task : TaskExecution) : LifecycleRow := {|
  LifecycleRow.id := sprintf "%s:%s:%d:%s" [task.(TaskExecution.ExecutionRunID);
    task.(TaskExecution.ActivityID); itoa task.(TaskExecution.Attempt);
    TaskExecutionStatus_string task.(TaskExecution.Status)];
  LifecycleRow.task_execution_id := task.(TaskExecution.ID);
  LifecycleRow.phase := "execution";
  LifecycleRow.status := task.(TaskExecution.Status);
  LifecycleRow.started_at := task.(TaskExecution.StartedAt);
  LifecycleRow.finished_at := task.(TaskExecution.FinishedAt);
  LifecycleRow.duration_seconds := task.(TaskExecution.RuntimeSeconds);
  LifecycleRow.source := "measured";
  LifecycleRow.error_ := task.(TaskExecution.FailureReason);
  LifecycleRow.metadata := "{}"
|}.

Definition task_event (eventType : string) (occurred : Time) (task : TaskExecution)
    : DomainEvent :=
  DomainEvent.mk "" eventType "activity_execution" task.(TaskExecution.ID)
    (<["executionRunId" := AnyString task.(TaskExecution.ExecutionRunID)]>
     (<["activityId" := AnyString task.(TaskExecution.ActivityID)]>
      (<["status" := AnyString (TaskExecutionStatus_string task.(TaskExecution.Status))]>
       (<["runtimeSeconds" := AnyFloat64 task.(TaskExecution.RuntimeSeconds)]>
        {["failureReason" := AnyString task.(TaskExecution.FailureReason)]}))))
    occurred ∅.

(** [appendTaskEvent] *)
Definition appendTaskEvent (task : TaskExecution) : effr world unit :=
  match task_event_type task.(TaskExecution.Status) with
  | None => eret (Ok tt)
  | Some eventType =>
    let row := lifecycle_row task in
    let? _ := exec (refuse (InsertLifecycle row)) (λ d,
      (Ok tt, d <| DB.activity_lifecycle_events :=
         (insert_or_ignore LifecycleRow.id row d.(DB.activity_lifecycle_events)).1 |>)) in
    let! clock := draw in
    append_event (task_event eventType (now clock) task)
  end.

(** [saveTask] followed by the announcement of a change of status. *)
Definition save_announced (announce : bool) (task : TaskExecution) : effr world unit :=
  let? previous := (if announce
    then taskStatus task.(TaskExecution.ExecutionRunID) task.(TaskExecution.ActivityID)
           task.(TaskExecution.Attempt)
    else eret (Ok "")) in
  let? _ := saveTask task in
  if announce && negb (bool_decide
       (previous = TaskExecutionStatus_string task.(TaskExecution.Status)))
  then appendTaskEvent task else eret (Ok tt).

(** [Repository.SaveTask] *)
Definition SaveTask (task : TaskExecution) : effr world unit :=
  in_transaction (save_announced true task).

(** *** The end of a run *)

Definition merge_transfer (old new : TransferRow) : TransferRow :=
  old <| TransferRow.status := "completed" |>
      <| TransferRow.started_at := new.(TransferRow.started_at) |>
      <| TransferRow.finished_at := new.(TransferRow.finished_at) |>
      <| TransferRow.duration_seconds := new.(TransferRow.duration_seconds) |>
      <| TransferRow.cost := new.(TransferRow.cost) |>.

Definition transfer_row (runID : string) (t : DataTransfer) : TransferRow :=
  TransferRow.mk t.(DataTransfer.ID) runID
    (nullableString t.(DataTransfer.ProducerActivityID))
    (nullableString t.(DataTransfer.ConsumerActivityID))
    t.(DataTransfer.SourceResourceID) t.(DataTransfer.TargetResourceID)
    t.(DataTransfer.Bytes) "completed" t.(DataTransfer.StartedAt)
    t.(DataTransfer.FinishedAt) t.(DataTransfer.DurationSeconds) t.(DataTransfer.Cost).

Definition save_transfer (runID : string) (t : DataTransfer) : effr world unit :=
  let row := transfer_row runID t in
  exec (refuse (UpsertTransfer row)) (λ d,
    (Ok tt, d <| DB.data_transfer_observations :=
       upsert TransferRow.id merge_transfer row d.(DB.data_transfer_observations) |>)).

(** The [UPDATE execution_runs ... WHERE id=?] of [CompleteRun] and [FailRun]. *)
Definition finish_run (id : string) (f : RunRow → RunRow) : effr world unit :=
  let? changed := exec (refuse (FinishRun id)) (λ d,
    let '(t, count) := update_rows RunRow.id id f d.(DB.execution_runs) in
    (Ok count, d <| DB.execution_runs := t |>)) in
  if changed =? 1 then eret (Ok tt)
  else eret (Err (errorf "execution run %q not found" [id])).

Definition set_run_completed (at_ : Time) (m : ExecutionMetrics) (r : RunRow) : RunRow :=
  r <| RunRow.status := ExecutionRunCompleted |> <| RunRow.finished_at := Some at_ |>
    <| RunRow.makespan_seconds := m.(ExecutionMetrics.MakespanSeconds) |>
    <| RunRow.cost := m.(ExecutionMetrics.Cost) |> <| RunRow.failure_reason := "" |>.

Definition set_run_failed (at_ : Time) (reason : string) (r : RunRow) : RunRow :=
  r <| RunRow.status := ExecutionRunFailed |> <| RunRow.finished_at := Some at_ |>
    <| RunRow.failure_reason := reason |>.

Definition is_simulation (m : ExecutionMode) : bool :=
  bool_decide (ExecutionMode_string m = "simulation").

(** [Repository.CompleteRun] *)
Definition CompleteRun (trace : ExecutionTrace) : effr world unit := in_transaction (
  let? _ := for_effr (save_announced (negb (is_simulation trace.(ExecutionTrace.Mode))))
              trace.(ExecutionTrace.Tasks) in
  let? _ := for_effr (save_transfer trace.(ExecutionTrace.RunID))
              trace.(ExecutionTrace.Transfers) in
  let! clock := draw in
  let? _ := finish_run trace.(ExecutionTrace.RunID)
              (set_run_completed (now clock) trace.(ExecutionTrace.Executed)) in
  append_event (DomainEvent.mk "" ExecutionCompleted "execution_run"
    trace.(ExecutionTrace.RunID)
    (<["makespanSeconds" :=
        AnyFloat64 trace.(ExecutionTrace.Executed).(ExecutionMetrics.MakespanSeconds)]>
     {["cost" := AnyFloat64 trace.(ExecutionTrace.Executed).(ExecutionMetrics.Cost)]})
    zero ∅)).

(** [Repository.FailRun] *)
Definition FailRun (id reason : string) : effr world unit := in_transaction (
  let! clock := draw in
  let? _ := finish_run id (set_run_failed (now clock) reason) in
  append_event (DomainEvent.mk "" ExecutionFailed "execution_run" id
    {["reason" := AnyString reason]} zero ∅)).
(** *** Reading runs, tasks, transfers and events *)

(** [COALESCE(SUM(column), 0)] over the rows of a run. *)
Definition sum_seconds {R} (f : R → float64) (rows : list R) : float64 :=
  match rows with [] => f0 | _ => sum_real (f <$> rows) end.
Definition sum_Z (l : list Z) : Z := foldr Z.add 0 l.

Definition tasks_of (d : DB) (runID : string) : list TaskExecution :=
  List.filter (λ t, bool_decide (t.(TaskExecution.ExecutionRunID) = runID))
    d.(DB.task_executions).
Definition transfers_of (d : DB) (runID : string) : list TransferRow :=
  List.filter (λ t, bool_decide (t.(TransferRow.execution_run_id) = runID))
    d.(DB.data_transfer_observations).

Definition is_completed (t : TaskExecution) : bool :=
  bool_decide (TaskExecutionStatus_string t.(TaskExecution.Status) = "completed").

(** The first SELECT of [runFeedSelect]. *)
Definition workflow_feed (d : DB) (e : RunRow) : ExecutionRun :=
  let ts := tasks_of d e.(RunRow.id) in
  let ds := transfers_of d e.(RunRow.id) in {|
  ExecutionRun.ID := e.(RunRow.id);
  ExecutionRun.SchedulePlanID := e.(RunRow.schedule_plan_id);
  ExecutionRun.Mode := e.(RunRow.mode);
  ExecutionRun.Seed := e.(RunRow.seed);
  ExecutionRun.Status := e.(RunRow.status);
  ExecutionRun.EnvironmentSnapshotID := e.(RunRow.environment_snapshot_id);
  ExecutionRun.MakespanSeconds := e.(RunRow.makespan_seconds);
  ExecutionRun.Cost := e.(RunRow.cost);
  ExecutionRun.FailureReason := e.(RunRow.failure_reason);
  ExecutionRun.ActivityCount := Z.of_nat (length ts);
  ExecutionRun.CompletedActivityCount := Z.of_nat (length (List.filter is_completed ts));
  ExecutionRun.Breakdown := {|
    ExecutionBreakdown.ComputeSeconds := sum_seconds TaskExecution.RuntimeSeconds ts;
    ExecutionBreakdown.TransferSeconds := sum_seconds TransferRow.duration_seconds ds;
    ExecutionBreakdown.QueueSeconds := sum_seconds TaskExecution.QueueSeconds ts;
    ExecutionBreakdown.InterferenceSeconds := sum_seconds TaskExecution.InterferenceSeconds ts;
    ExecutionBreakdown.OverheadSeconds := sum_seconds TaskExecution.OverheadSeconds ts |};
  ExecutionRun.TransferredBytes := sum_Z (TransferRow.bytes <$> ds);
  ExecutionRun.Kind := ExecutionRunWorkflow;
  ExecutionRun.Title := e.(RunRow.id);
  ExecutionRun.ResourceID := ""; ExecutionRun.RuntimeID := "";
  ExecutionRun.ConnectionID := ""; ExecutionRun.ActorID := ""; ExecutionRun.Command := "";
  ExecutionRun.StartedAt := e.(RunRow.started_at);
  ExecutionRun.FinishedAt := e.(RunRow.finished_at)
|}.

Definition session_run_status (s : SessionStatus) : ExecutionRunStatus :=
  let text := SessionStatus_string s in
  if bool_decide (text = "connected") then ExecutionRunRunning
  else if bool_decide (text = "closed") then ExecutionRunCompleted
  else if bool_decide (text = "failed") then ExecutionRunFailed
  else ExecutionRunCreated.

(** The second SELECT. *)
Definition session_feed (s : ConsoleSession) : ExecutionRun :=
  (zero : ExecutionRun)
    <| ExecutionRun.ID := s.(ConsoleSession.ID) |>
    <| ExecutionRun.Mode := ExecutionModeInteractive |>
    <| ExecutionRun.Status := session_run_status s.(ConsoleSession.Status) |>
    <| ExecutionRun.FailureReason := s.(ConsoleSession.Failure) |>
    <| ExecutionRun.Kind := ExecutionRunInteractive |>
    <| ExecutionRun.Title := "Interactive session" |>
    <| ExecutionRun.ResourceID := s.(ConsoleSession.ResourceID) |>
    <| ExecutionRun.RuntimeID := s.(ConsoleSession.RuntimeID) |>
    <| ExecutionRun.ConnectionID := s.(ConsoleSession.ConnectionID) |>
    <| ExecutionRun.ActorID := s.(ConsoleSession.ActorID) |>
    <| ExecutionRun.StartedAt := Some (default s.(ConsoleSession.CreatedAt)
                                         s.(ConsoleSession.ConnectedAt)) |>
    <| ExecutionRun.FinishedAt := s.(ConsoleSession.FinishedAt) |>.

Definition command_run_status (s : CommandStatus) : ExecutionRunStatus :=
  match s with
  | CommandRunning => ExecutionRunRunning
  | CommandCompleted => ExecutionRunCompleted
  | CommandFailed => ExecutionRunFailed
  | CommandStatusOther text => ExecutionRunStatusOther text
  end.

(** The third SELECT. *)
Definition command_feed (c : ConsoleCommand) : ExecutionRun :=
  (zero : ExecutionRun)
    <| ExecutionRun.ID := c.(ConsoleCommand.ID) |>
    <| ExecutionRun.Mode := ExecutionModeReal |>
    <| ExecutionRun.Status := command_run_status c.(ConsoleCommand.Status) |>
    <| ExecutionRun.FailureReason := c.(ConsoleCommand.Failure) |>
    <| ExecutionRun.ActivityCount := 1 |>
    <| ExecutionRun.CompletedActivityCount :=
         if bool_decide (CommandStatus_string c.(ConsoleCommand.Status) = "completed")
         then 1 else 0 |>
    <| ExecutionRun.Kind := ExecutionRunStandalone |>
    <| ExecutionRun.Title := "Standalone command" |>
    <| ExecutionRun.ResourceID := c.(ConsoleCommand.ResourceID) |>
    <| ExecutionRun.RuntimeID := c.(ConsoleCommand.RuntimeID) |>
    <| ExecutionRun.ConnectionID := c.(ConsoleCommand.ConnectionID) |>
    <| ExecutionRun.ActorID := c.(ConsoleCommand.ActorID) |>
    <| ExecutionRun.Command := c.(ConsoleCommand.Command) |>
    <| ExecutionRun.StartedAt := Some c.(ConsoleCommand.StartedAt) |>
    <| ExecutionRun.FinishedAt := c.(ConsoleCommand.FinishedAt) |>.

(** [runFeedSelect], each row read by [scanRunFeed]. *)
Definition runFeedSelect (d : DB) : list ExecutionRun :=
  (workflow_feed d <$> d.(DB.execution_runs)) ++
  (session_feed <$> d.(DB.console_sessions)) ++
  (command_feed <$> d.(DB.console_commands)).

(** [Repository.FindRun] *)
Definition FindRun (id : string) : effr world (option ExecutionRun) :=
  query (λ d, find_row ExecutionRun.ID id (runFeedSelect d)).

(** [runFeedFilters]: the conditions, each a column with the value it must have,
    in the order the map is visited. *)
Definition runFeedFilters `{MapOrder} (salt : nat) (kind mode status : string)
    : list (string * string) :=
  List.filter (λ '(_, value), negb (bool_decide (value = "")) &&
                              negb (bool_decide (value = "all")))
    (map_range salt (<["kind" := kind]> (<["mode" := mode]> {["status" := status]}))).

Definition feed_column (column : string) (run : ExecutionRun) : string :=
  if bool_decide (column = "kind") then ExecutionRunKind_string run.(ExecutionRun.Kind)
  else if bool_decide (column = "mode") then ExecutionMode_string run.(ExecutionRun.Mode)
  else ExecutionRunStatus_string run.(ExecutionRun.Status).

Definition feed_matches (conditions : list (string * string)) (run : ExecutionRun) : bool :=
  forallb (λ '(column, value), bool_decide (feed_column column run = value)) conditions.

(** [ORDER BY started_at DESC, id DESC]; a NULL is smaller than any time. *)
Definition newer_first (a b : ExecutionRun) : bool :=
  match a.(ExecutionRun.StartedAt), b.(ExecutionRun.StartedAt) with
  | Some s, Some t => (t <? s) || ((t =? s) && str_le b.(ExecutionRun.ID) a.(ExecutionRun.ID))
  | Some _, None => true
  | None, Some _ => false
  | None, None => str_le b.(ExecutionRun.ID) a.(ExecutionRun.ID)
  end.

(** [Repository.ListRunsPage] *)
Definition ListRunsPage `{MapOrder} (salt : nat) (page pageSize : Z)
    (kind mode status : string) : effr world ExecutionRunPage :=
  let page := if page <? 1 then 1 else page in
  let pageSize := if (pageSize <? 1) || (100 <? pageSize) then 20 else pageSize in
  let conditions := runFeedFilters salt kind mode status in
  let filteredFeed d := List.filter (feed_matches conditions) (runFeedSelect d) in
  let? total := query (λ d, Z.of_nat (length (filteredFeed d))) in
  let? runs := query (λ d, limit_offset pageSize (int64 ((page - 1) * pageSize))
    (order_by newer_first salt (filteredFeed d))) in
  eret (Ok {| ExecutionRunPage.Items := runs; ExecutionRunPage.Page := page;
    ExecutionRunPage.PageSize := pageSize; ExecutionRunPage.Total := total;
    ExecutionRunPage.HasNext := int64 (page * pageSize) <? total |}).

(** [Repository.ListRuns] *)
Definition ListRuns `{MapOrder} (salt : nat) : effr world (list ExecutionRun) :=
  let? page := ListRunsPage salt 1 500 "" "" "" in
  eret (Ok page.(ExecutionRunPage.Items)).

(** The join of [ListTasks]: a running task with a failed or stopped handle is
    shown as failed, once per such handle. *)
Definition ended_handle (t : TaskExecution) (h : HandleRow) : bool :=
  bool_decide (h.(HandleRow.execution_run_id) = t.(TaskExecution.ExecutionRunID)) &&
  bool_decide (h.(HandleRow.activity_id) = t.(TaskExecution.ActivityID)) &&
  bool_decide (ActivityHandleStatus_string h.(HandleRow.status) ∈ ["failed"; "stopped"]).

Definition shown_task (t : TaskExecution) (h : HandleRow) : TaskExecution :=
  if bool_decide (TaskExecutionStatus_string t.(TaskExecution.Status) = "running") then
    t <| TaskExecution.Status := TaskFailed |>
      <| TaskExecution.FinishedAt := h.(HandleRow.finished_at) |>
      <| TaskExecution.FailureReason := h.(HandleRow.failure) |>
  else t.

Definition join_handles (d : DB) (t : TaskExecution) : list TaskExecution :=
  match List.filter (ended_handle t) d.(DB.activity_handles) with
  | [] => [t]
  | hs => shown_task t <$> hs
  end.

Definition earlier_task (a b : TaskExecution) : bool :=
  flt a.(TaskExecution.StartedAt) b.(TaskExecution.StartedAt) ||
  (feq a.(TaskExecution.StartedAt) b.(TaskExecution.StartedAt) &&
   str_le a.(TaskExecution.ActivityID) b.(TaskExecution.ActivityID)).

(** [Repository.ListTasks] *)
Definition ListTasks (salt : nat) (runID : string) : effr world (list TaskExecution) :=
  query (λ d, order_by earlier_task salt (tasks_of d runID ≫= join_handles d)).

Definition scan_transfer (r : TransferRow) : DataTransfer :=
  DataTransfer.mk r.(TransferRow.id) r.(TransferRow.execution_run_id)
    (coalesce r.(TransferRow.producer_activity_id))
    (coalesce r.(TransferRow.consumer_activity_id))
    r.(TransferRow.source_resource_id) r.(TransferRow.target_resource_id)
    r.(TransferRow.bytes) r.(TransferRow.started_at) r.(TransferRow.finished_at)
    r.(TransferRow.duration_seconds) r.(TransferRow.cost).

(** [ORDER BY started_at, producer_activity_id, consumer_activity_id]; a NULL
    comes first, as the empty text does. *)
Definition earlier_transfer (a b : TransferRow) : bool :=
  let pa := coalesce a.(TransferRow.producer_activity_id) in
  let pb := coalesce b.(TransferRow.producer_activity_id) in
  flt a.(TransferRow.started_at) b.(TransferRow.started_at) ||
  (feq a.(TransferRow.started_at) b.(TransferRow.started_at) &&
   ((str_le pa pb && negb (bool_decide (pa = pb))) ||
    (bool_decide (pa = pb) &&
     str_le (coalesce a.(TransferRow.consumer_activity_id))
            (coalesce b.(TransferRow.consumer_activity_id))))).

(** [Repository.ListTransfers] *)
Definition ListTransfers (salt : nat) (runID : string) : effr world (list DataTransfer) :=
  let? rows := query (λ d, order_by earlier_transfer salt (transfers_of d runID)) in
  eret (Ok (scan_transfer <$> rows)).

(** The WHERE of [ListEvents]; the events are read in the order of their time,
    then of their insertion. *)
Definition event_of_run (runID : string) (e : DomainEvent) : bool :=
  (bool_decide (e.(DomainEvent.AggregateType) = "execution_run") &&
   bool_decide (e.(DomainEvent.AggregateID) = runID)) ||
  (bool_decide (e.(DomainEvent.AggregateType) = "activity_execution") &&
   match e.(DomainEvent.Payload) !! "executionRunId" with
   | Some (AnyString id) => bool_decide (id = runID)
   | _ => false
   end).

(** [Repository.ListEvents] *)
Definition ListEvents (runID : string) : effr world (list DomainEvent) :=
  let? rows := query (λ d,
    sort_rows (λ a b, a.1.(DomainEvent.OccurredAt) <=? b.1.(DomainEvent.OccurredAt))
      (List.filter (λ r, event_of_run runID r.1) d.(DB.outbox).(JobQueue.Outbox.domain_events))) in
  eret (scan_rows (λ r, unmarshal_event r.2) rows).
End repository.

(** ** Operations as labels, for sequences of them *)
Inductive op :=
| OpCreateRun (run : ExecutionRun)
| OpSave (h : ActivityHandle)
| OpSaveTask (task : TaskExecution)
| OpCompleteRun (trace : ExecutionTrace)
| OpFailRun (id reason : string).

Section operations.
Context `{Driver, JSON}.

Definition run_op (o : op) : effr world unit :=
  match o with
  | OpCreateRun run => CreateRun run
  | OpSave h => Save h
  | OpSaveTask task => SaveTask task
  | OpCompleteRun trace => CompleteRun trace
  | OpFailRun id reason => FailRun id reason
  end.

Fixpoint run_ops (ops : list op) (w : world) : list (result unit) * world :=
  match ops with
  | [] => ([], w)
  | o :: ops => let '(r, w) := run_op o w in
                let '(rs, w) := run_ops ops w in (r :: rs, w)
  end.
End operations.

(** ** What the tables satisfy

    The keys the schema declares unique are unique and the checked columns hold
    allowed values. *)
Record db_wf (d : DB) : Prop := {
  wf_runs : NoDup (RunRow.id <$> d.(DB.execution_runs));
  wf_modes : Forall (λ r, mode_allowed r.(RunRow.mode) = true) d.(DB.execution_runs);
  wf_task_ids : NoDup (TaskExecution.ID <$> d.(DB.task_executions));
  wf_task_keys : NoDup (task_key <$> d.(DB.task_executions));
  wf_lifecycle : NoDup (LifecycleRow.id <$> d.(DB.activity_lifecycle_events));
  wf_handles : NoDup (HandleRow.id <$> d.(DB.activity_handles));
  wf_handle_status : Forall (λ r, handle_status_allowed r.(HandleRow.status) = true)
                       d.(DB.activity_handles);
  wf_transfers : NoDup (TransferRow.id <$> d.(DB.data_transfer_observations));
  wf_events : NoDup ((DomainEvent.ID ∘ fst) <$>
                d.(DB.outbox).(JobQueue.Outbox.domain_events));
  wf_jobs : JobQueue.table_wf d.(DB.outbox).(JobQueue.Outbox.queue_jobs)
}.

Section wf.
Context `{Driver, JSON} (Hfresh : ∀ n, newID n ≠ "").

Lemma append_event_wf e : invariant db_wf (append_event e).
Proof.
  unfold append_event. do 3 (apply invariant_bind; [apply invariant_draw|intros ?]).
  apply invariant_exec. intros d [] d' Hwf. destruct (JobQueue.Append _ _ _ _ _ _ _) as [r o] eqn:E.
  intros [= -> <-].
  destruct (JobQueue.Append_ok _ _ _ _ _ _ _ _ (wf_jobs _ Hwf) (Hfresh _) E)
    as (e' & p & He & Hj & _ & Hid & Hq & _).
  destruct Hwf. split; simpl; try done. rewrite He, fmap_app. apply NoDup_app.
  split_and!; [done| |apply NoDup_singleton]. by intros x Hx ->%list_elem_of_singleton.
Qed.

Lemma CreateRun_wf run : invariant db_wf (CreateRun run).
Proof.
  unfold CreateRun, in_transaction. apply invariant_transaction.
  apply invariant_bind; [apply invariant_draw|intros n].
  apply invariant_bindr; [|intros c; case_match; [apply append_event_wf|apply invariant_ret]].
  apply invariant_exec. intros d c d' Hwf. cbn [negb RunRow.mode].
  destruct (mode_allowed _) eqn:Em; cbn [negb]; [|done].
  set (row := RunRow.mk _ _ _ _ _ _ _ _ _ _ _).
  destruct (insert_or_ignore RunRow.id row _) as [t n'] eqn:E. intros [= <- <-].
  destruct Hwf. split; simpl; try done.
  - change t with (t, n').1. rewrite <- E. by apply insert_or_ignore_keys.
  - revert E. unfold insert_or_ignore. case_match; intros [= <- <-]; [done|].
    apply Forall_app. split; [done|]. by apply Forall_singleton.
Qed.

Lemma Save_wf h : invariant db_wf (Save h).
Proof.
  unfold Save. do 3 (case_match; [|apply invariant_ret]).
  apply invariant_exec. intros d [] d' Hwf.
  destruct (handle_status_allowed _) eqn:Es; cbn [negb]; [|done]. intros [= <-].
  destruct Hwf. split; simpl; try done; [by apply upsert_keys|].
  apply Forall_forall. intros r [Hr|[[-> _]|(old & Hin & _ & ->)]]%upsert_elem;
    [by apply (proj1 (Forall_forall _ _) wf_handle_status0)|done|done].
Qed.

Lemma merge_task_id old new : (merge_task old new).(TaskExecution.ID) = old.(TaskExecution.ID).
Proof. done. Qed.
Lemma merge_task_key old new : task_key (merge_task old new) = task_key old.
Proof. done. Qed.

Lemma saveTask_wf t : invariant db_wf (saveTask t).
Proof.
  unfold saveTask. apply invariant_exec. intros d [] d' Hwf.
  set (row := t <| TaskExecution.AllocatedResourceID := _ |>).
  destruct (negb _ && _) eqn:Ec; [done|]. intros [= <-].
  destruct Hwf. split; simpl; try done; [|by apply upsert_keys].
  unfold upsert. destruct (row_exists task_key (task_key row) _) eqn:Ek.
  - unfold update_rows. simpl. rewrite <- list_fmap_compose.
    erewrite list_fmap_ext; [done|]. intros i r Hr. simpl. by case_match.
  - apply row_exists_false in Ec.
    rewrite fmap_app. apply NoDup_app. split_and!; [done| |apply NoDup_singleton].
    by intros x Hx ->%list_elem_of_singleton.
Qed.

Lemma query_wf {A} I (f : DB → A) : invariant I (query f).
Proof. apply invariant_exec. by intros d a d' Hd [= <- <-]. Qed.

Lemma appendTaskEvent_wf t : invariant db_wf (appendTaskEvent t).
Proof.
  unfold appendTaskEvent. case_match; [|apply invariant_ret].
  apply invariant_bindr.
  - apply invariant_exec. intros d [] d' Hwf [= <-]. destruct Hwf. split; simpl; try done.
    by apply insert_or_ignore_keys.
  - intros _. apply invariant_bind; [apply invariant_draw|intros n; apply append_event_wf].
Qed.

Lemma save_announced_wf b t : invariant db_wf (save_announced b t).
Proof.
  unfold save_announced. apply invariant_bindr.
  - destruct b; [|apply invariant_ret]. unfold taskStatus.
    apply invariant_bindr; [apply query_wf|intros ?; apply invariant_ret].
  - intros previous. apply invariant_bindr; [apply saveTask_wf|intros _].
    case_match; [apply appendTaskEvent_wf|apply invariant_ret].
Qed.

Lemma save_transfer_wf id t : invariant db_wf (save_transfer id t).
Proof.
  unfold save_transfer. apply invariant_exec. intros d [] d' Hwf [= <-].
  destruct Hwf. split; simpl; try done. by apply upsert_keys.
Qed.

Lemma finish_run_wf id f : (∀ r, (f r).(RunRow.id) = r.(RunRow.id)) →
  (∀ r, (f r).(RunRow.mode) = r.(RunRow.mode)) → invariant db_wf (finish_run id f).
Proof.
  intros Hid Hmode. unfold finish_run. apply invariant_bindr.
  - apply invariant_exec. intros d n d' Hwf. destruct (update_rows RunRow.id id f _) as [t c] eqn:E.
    intros [= <- <-]. assert (t = (update_rows RunRow.id id f d.(DB.execution_runs)).1) as ->
      by (by rewrite E).
    destruct Hwf. split; simpl; try done; [by rewrite <- (update_rows_keys RunRow.id id f) in wf_runs0|].
    unfold update_rows. simpl. apply Forall_fmap. eapply Forall_impl; [done|].
    intros r Hr. simpl. case_match; [by rewrite Hmode|done].
  - intros c. case_match; apply invariant_ret.
Qed.

Lemma run_op_wf o : invariant db_wf (run_op o).
Proof.
  destruct o as [run|h|t|tr|id reason]; simpl.
  - apply CreateRun_wf.
  - apply Save_wf.
  - apply invariant_transaction, save_announced_wf.
  - apply invariant_transaction.
    apply invariant_bindr; [apply invariant_for_effr, save_announced_wf|intros _].
    apply invariant_bindr; [apply invariant_for_effr, save_transfer_wf|intros _].
    apply invariant_bind; [apply invariant_draw|intros n].
    apply invariant_bindr; [by apply finish_run_wf|intros _; apply append_event_wf].
  - apply invariant_transaction. apply invariant_bind; [apply invariant_draw|intros n].
    apply invariant_bindr; [by apply finish_run_wf|intros _; apply append_event_wf].
Qed.

Lemma run_ops_wf ops w rs w' : db_wf w.(db) → run_ops ops w = (rs, w') → db_wf w'.(db).
Proof.
  revert w rs w'. induction ops as [|o ops IH]; intros w rs w' Hw; simpl; [by intros [= <- <-]|].
  destruct (run_op o w) as [r w1] eqn:E1. destruct (run_ops ops w1) as [rs1 w2] eqn:E2.
  intros [= <- <-]. eapply IH; [|done]. by eapply run_op_wf.
Qed.

Lemma run_op_atomic o : atomic (run_op o).
Proof.
  destruct o as [run|h|t|tr|id reason]; simpl; try apply transaction_atomic.
  unfold Save. intros w e w'. do 3 (case_match; [|by intros [= <- <-]]). apply exec_atomic.
Qed.

Lemma empty_db_wf : db_wf empty_db.
Proof. split; simpl; constructor; constructor. Qed.

(** C29: The tables are well formed at all times: from an empty database, any
    sequence of operations of the repository, whatever the engine refuses along
    the way, and with generated identifiers that are not empty, leaves unique run, task, handle, transfer and event identifiers, one
    task row per run, activity and attempt, modes and handle statuses among the
    allowed ones, and a well-formed queue; an operation that returns an error
    leaves every table as it was. *)
Theorem tables_well_formed ops n rs w :
  run_ops ops (mk_session empty_db n) = (rs, w) →
  db_wf w.(db) ∧
  ∀ o e w', run_op o w = (Err e, w') → w'.(db) = w.(db).
Proof.
  intros E. split; [exact (run_ops_wf ops (mk_session empty_db n) rs w empty_db_wf E)|].
  intros o e w'. apply run_op_atomic.
Qed.
End wf.

(** ** The handle store refines a map of handles

    The abstract store is a map from identifiers to handles: [Save] inserts,
    nothing else writes. A handle on record keeps its run, activity, resource and
    runtime; what passed through JSON comes back as the codec reads it. *)
Section refinement.
Context `{Driver, JSON}.

(** A value after a trip through its column. *)
Definition reread {A} `{Zero A} (marshal : A → result string) (unmarshal : string → result A)
    (a : A) : A :=
  match marshal a with
  | Ok s => match unmarshal s with Ok b => b | Err _ => zero end
  | Err _ => zero
  end.

(** What the row of a handle says, [zero] standing for a column that does not
    decode (then [Find] returns the decoder's error). *)
Definition row_view (row : HandleRow) : ActivityHandle := {|
  ActivityHandle.ID := row.(HandleRow.id);
  ActivityHandle.RunID := row.(HandleRow.execution_run_id);
  ActivityHandle.ActivityID := row.(HandleRow.activity_id);
  ActivityHandle.ResourceID := row.(HandleRow.resource_id);
  ActivityHandle.RuntimeID := row.(HandleRow.runtime_id);
  ActivityHandle.ExternalID := row.(HandleRow.external_id);
  ActivityHandle.Status := row.(HandleRow.status);
  ActivityHandle.Endpoints :=
    match unmarshal_endpoints row.(HandleRow.endpoints) with Ok x => x | Err _ => zero end;
  ActivityHandle.StartedAt := row.(HandleRow.started_at);
  ActivityHandle.FinishedAt := row.(HandleRow.finished_at);
  ActivityHandle.ExitCode := row.(HandleRow.exit_code);
  ActivityHandle.Failure := row.(HandleRow.failure);
  ActivityHandle.Log := row.(HandleRow.log);
  ActivityHandle.Artifacts :=
    match unmarshal_artifacts row.(HandleRow.artifacts) with Ok x => x | Err _ => zero end;
  ActivityHandle.Metadata :=
    match unmarshal_metadata row.(HandleRow.metadata) with Ok x => x | Err _ => zero end
|}.

(** The handle the abstract store keeps for [h] saved over [old]. *)
Definition stored_handle (old : option ActivityHandle) (h : ActivityHandle) : ActivityHandle :=
  let origin := default h old in
  h <| ActivityHandle.RunID := origin.(ActivityHandle.RunID) |>
    <| ActivityHandle.ActivityID := origin.(ActivityHandle.ActivityID) |>
    <| ActivityHandle.ResourceID := origin.(ActivityHandle.ResourceID) |>
    <| ActivityHandle.RuntimeID := origin.(ActivityHandle.RuntimeID) |>
    <| ActivityHandle.Endpoints :=
         reread marshal_endpoints unmarshal_endpoints h.(ActivityHandle.Endpoints) |>
    <| ActivityHandle.Artifacts :=
         reread marshal_artifacts unmarshal_artifacts h.(ActivityHandle.Artifacts) |>
    <| ActivityHandle.Metadata :=
         reread marshal_metadata unmarshal_metadata h.(ActivityHandle.Metadata) |>.

Abbreviation handle_map := (gmap string ActivityHandle).

(** The map a table stands for. *)
Definition abs (d : DB) : handle_map :=
  list_to_map ((λ r, (r.(HandleRow.id), row_view r)) <$> d.(DB.activity_handles)).

(** The abstract store: one operation with the result it returned. *)
Definition spec_apply (m : handle_map) (step : op * result unit) : handle_map :=
  match step with
  | (OpSave h, Ok _) =>
    <[h.(ActivityHandle.ID) := stored_handle (m !! h.(ActivityHandle.ID)) h]> m
  | _ => m
  end.

Lemma abs_lookup d id :
  abs d !! id = row_view <$> find_row HandleRow.id id d.(DB.activity_handles).
Proof.
  unfold abs, find_row. induction d.(DB.activity_handles) as [|r t IH]; [done|].
  rewrite fmap_cons. rewrite list_to_map_cons. cbn [List.find]. unfold has_row at 1. case_bool_decide as E; [subst; by rewrite lookup_insert_eq|].
  by rewrite lookup_insert_ne.
Qed.

(** Only [Save] touches the handles. *)
Definition same_handles (t : list HandleRow) (d : DB) : Prop := d.(DB.activity_handles) = t.

Ltac keeps_handles :=
  repeat lazymatch goal with
    | |- invariant _ (eret _) => apply invariant_ret
    | |- invariant _ draw => apply invariant_draw
    | |- invariant _ (transaction _ _ _) => apply invariant_transaction
    | |- invariant _ (query _) => apply query_wf
    | |- invariant _ (for_effr _ _) => apply invariant_for_effr; intros ?
    | |- invariant _ (ebind _ _) => apply invariant_bind; [|intros ?]
    | |- invariant _ (ebindr _ _) => apply invariant_bindr; [|intros ?]
    | |- invariant _ (exec _ _) =>
      apply invariant_exec; intros ? ? ?; unfold same_handles; intros ?;
      repeat (case_match; try done); intros ?; simplify_eq; simpl; done
    | |- invariant _ _ => case_match
    end.

Lemma other_ops_keep_handles o t : (∀ h, o ≠ OpSave h) →
  invariant (same_handles t) (run_op o).
Proof.
  intros Ho. destruct o as [run|h|task|tr|id reason]; simpl; [..|].
  - unfold CreateRun, in_transaction, append_event. keeps_handles.
  - by destruct (Ho h).
  - unfold SaveTask, in_transaction, save_announced, taskStatus, saveTask, appendTaskEvent,
      append_event. keeps_handles.
  - unfold CompleteRun, in_transaction, save_announced, taskStatus, saveTask, appendTaskEvent,
      save_transfer, finish_run, append_event. keeps_handles.
  - unfold FailRun, in_transaction, finish_run, append_event. keeps_handles.
Qed.

Lemma save_abs h w w' : Save h w = (Ok tt, w') →
  abs w'.(db) = spec_apply (abs w.(db)) (OpSave h, Ok tt).
Proof.
  unfold Save. destruct (marshal_endpoints _) as [en|] eqn:Een; [|done].
  destruct (marshal_metadata _) as [me|] eqn:Eme; [|done].
  destruct (marshal_artifacts _) as [ar|] eqn:Ear; [|done].
  intros [Hd _]%exec_ok. destruct (handle_status_allowed _); [|done]. cbn [negb] in Hd.
  injection Hd as <-. apply map_eq. intros id.
  unfold spec_apply. rewrite abs_lookup. simpl. rewrite find_row_upsert by done.
  case_bool_decide as Hid; simpl in Hid.
  - subst id. rewrite lookup_insert_eq, abs_lookup. simpl. f_equal.
    destruct (find_row HandleRow.id _ _) as [old|] eqn:Ef; simpl.
    + apply find_row_some in Ef as [_ Hk]. unfold row_view, stored_handle, reread. simpl.
      rewrite Een, Eme, Ear, <- Hk. done.
    + unfold row_view, stored_handle, reread. simpl. rewrite Een, Eme, Ear. done.
  - rewrite lookup_insert_ne by done. by rewrite abs_lookup.
Qed.

Lemma run_op_refines o w r w' : run_op o w = (r, w') →
  abs w'.(db) = spec_apply (abs w.(db)) (o, r).
Proof.
  intros E. destruct r as [[]|e].
  - assert ((∃ h, o = OpSave h) ∨ ∀ h, o ≠ OpSave h) as [[h ->]|Hn] by (destruct o; naive_solver).
    { by apply save_abs. }
    assert (same_handles w.(db).(DB.activity_handles) w'.(db)) as Heq
      by (by eapply (other_ops_keep_handles o)).
    unfold abs. rewrite Heq. destruct o; try done. by destruct (Hn h).
  - rewrite (run_op_atomic _ _ _ _ E). by destruct o.
Qed.

Lemma find_abs id w r w' : Find id w = (r, w') →
  w' = w ∧ ∀ o, r = Ok o → o = abs w.(db) !! id.
Proof.
  unfold Find, query, exec, ebindr. rewrite abs_lookup.
  destruct (refuse Select w.(db)); simpl.
  { intros [= <- <-]. split; [done|]. by intros o. }
  destruct (find_row HandleRow.id _ _) as [row|]; simpl.
  - intros [= <- <-]. split; [by destruct w|]. intros o. unfold scanHandle, row_view.
    destruct (unmarshal_endpoints _); simpl; [|done].
    destruct (unmarshal_metadata _); simpl; [|done].
    destruct (unmarshal_artifacts _); simpl; [|done]. by intros [= <-].
  - intros [= <- <-]. split; [by destruct w|]. by intros o [= <-].
Qed.

(** C4: The repository refines the abstract store of handles: after any sequence
    of its operations the handles on record are exactly those of the map to which
    the saves that returned no error were applied in order (runs, tasks and traces
    leave it alone), and a look-up that returns no error returns that map's entry
    and changes nothing. *)
Theorem repository_refines_handle_map ops w rs w' :
  run_ops ops w = (rs, w') →
  abs w'.(db) = foldl spec_apply (abs w.(db)) (zip ops rs) ∧
  ∀ id r w'', Find id w' = (r, w'') →
    w'' = w' ∧ ∀ o, r = Ok o → o = foldl spec_apply (abs w.(db)) (zip ops rs) !! id.
Proof.
  intros E. assert (abs w'.(db) = foldl spec_apply (abs w.(db)) (zip ops rs)) as Habs.
  { revert w rs w' E. induction ops as [|o ops IH]; intros w rs w'; simpl; [by intros [= <- <-]|].
    destruct (run_op o w) as [r w1] eqn:E1. destruct (run_ops ops w1) as [rs1 w2] eqn:E2.
    intros [= <- <-]. simpl. rewrite (IH _ _ _ E2). by rewrite (run_op_refines _ _ _ _ E1). }
  split; [done|]. intros id r w'' Hf. destruct (find_abs _ _ _ _ Hf) as [-> Ho].
  split; [done|]. by rewrite <- Habs.
Qed.

#[global] Instance repository_store : ActivityExecutionStore world := {|
  Ports.Save := Save; Ports.Find := Find
|}.

(** The repository keeps the promises the controller relies on. *)
#[global] Instance repository_laws : HandleStoreLaws world.
Proof.
  refine {| holds w id := abs w.(db) !! id; stored := stored_handle |}.
  - intros id w r w' E. by apply find_abs.
  - intros h w w' E. rewrite (save_abs _ _ _ E). simpl. split.
    + by rewrite lookup_insert_eq.
    + intros id Hne. by rewrite lookup_insert_ne.
  - intros h w e w' E id. pose proof (run_op_atomic (OpSave h) w e w' E) as Hd.
    by rewrite Hd.
  - done.
Defined.
End refinement.

(** ** The effect of saving a task *)
Lemma upsert_idem {R K} `{EqDecision K} (key : R → K) merge (new : R) t :
  (∀ old n, key (merge old n) = key old) →
  (∀ old n, merge (merge old n) n = merge old n) → merge new new = new →
  upsert key merge new (upsert key merge new t) = upsert key merge new t.
Proof.
  intros Hk Hm Hn. unfold upsert at 2 3. destruct (row_exists key (key new) t) eqn:E.
  - unfold upsert.
    assert (row_exists key (key new) (update_rows key (key new) (λ r, merge r new) t).1 = true) as ->.
    { apply row_exists_true. rewrite update_rows_keys by done. by apply row_exists_true. }
    unfold update_rows. simpl. rewrite <- list_fmap_compose. apply list_fmap_ext.
    intros i r _. simpl. destruct (has_row key (key new) r) eqn:Hr; [|by rewrite Hr].
    assert (has_row key (key new) (merge r new) = true) as ->
      by (apply has_row_true; rewrite Hk; by apply has_row_true). apply Hm.
  - unfold upsert. assert (row_exists key (key new) (t ++ [new]) = true) as ->.
    { apply row_exists_true. rewrite fmap_app. apply elem_of_app. right. by left. }
    assert (key new ∉ key <$> t) as Hni by (by apply row_exists_false).
    pose proof (update_rows_none key (key new) (λ r, merge r new) t Hni) as Hu.
    unfold update_rows in *. injection Hu as Hu _. simpl. rewrite fmap_app. simpl. rewrite Hu.
    unfold has_row. rewrite bool_decide_true by done. by rewrite Hn.
Qed.

Section tasks.
Context `{Driver, JSON} (Hfresh : ∀ n, newID n ≠ "").

(** The row [saveTask] leaves. *)
Definition saved_row (prev : option TaskExecution) (task : TaskExecution) : TaskExecution :=
  match prev with Some old => merge_task old task | None => task end.

Definition status_text (row : option TaskExecution) : string :=
  match row with
  | None => ""
  | Some t => TaskExecutionStatus_string t.(TaskExecution.Status)
  end.

Lemma task_row_id task : task <| TaskExecution.AllocatedResourceID :=
  coalesce (nullableString task.(TaskExecution.AllocatedResourceID)) |> = task.
Proof. rewrite coalesce_nullable. by destruct task. Qed.

Lemma saveTask_ok task w w' : saveTask task w = (Ok tt, w') →
  w'.(db) = w.(db) <| DB.task_executions :=
    upsert task_key merge_task task w.(db).(DB.task_executions) |>.
Proof.
  unfold saveTask. rewrite task_row_id. intros [Hd _]%exec_ok.
  case_match; [done|]. by injection Hd as <-.
Qed.

Lemma query_ok {A} (f : DB → A) w a w' : query f w = (Ok a, w') → w' = w ∧ a = f w.(db).
Proof. unfold query, exec. case_match; [done|]. intros [= <- <-]. by destruct w. Qed.

(** What one event adds. *)
Definition announced (e : DomainEvent) (o o' : JobQueue.Outbox) : Prop :=
  ∃ e' payload job_id,
    o'.(JobQueue.Outbox.domain_events) = o.(JobQueue.Outbox.domain_events) ++ [(e', payload)] ∧
    o'.(JobQueue.Outbox.queue_jobs) =
      o.(JobQueue.Outbox.queue_jobs) ++ [JobQueue.event_job job_id e' payload] ∧
    e'.(DomainEvent.Type_) = e.(DomainEvent.Type_) ∧
    e'.(DomainEvent.AggregateType) = e.(DomainEvent.AggregateType) ∧
    e'.(DomainEvent.AggregateID) = e.(DomainEvent.AggregateID) ∧
    e'.(DomainEvent.Payload) = e.(DomainEvent.Payload).

Lemma append_event_ok e w w' : db_wf w.(db) → append_event e w = (Ok tt, w') →
  w'.(db) = w.(db) <| DB.outbox := w'.(db).(DB.outbox) |> ∧
  announced e w.(db).(DB.outbox) w'.(db).(DB.outbox).
Proof.
  intros Hwf. unfold append_event. intros (n1 & w1 & [= <- <-] & Hm)%ebind_ok.
  apply ebind_ok in Hm as (n2 & w2 & [= <- <-] & Hm).
  apply ebind_ok in Hm as (n3 & w3 & [= <- <-] & Hm).
  apply exec_ok in Hm as [Hm _]. simpl in Hm.
  destruct (JobQueue.Append _ _ _ _ _ _ _) as [r o] eqn:E. injection Hm as -> <-.
  destruct (JobQueue.Append_ok _ _ _ _ _ _ _ _ (wf_jobs _ Hwf) (Hfresh _) E)
    as (e' & p & He & Hj & _ & _ & _ & H1 & H2 & H3 & H4 & _).
  split; [done|]. exists e', p. eauto 10.
Qed.

Lemma appendTaskEvent_ok task w w' : db_wf w.(db) → appendTaskEvent task w = (Ok tt, w') →
  w'.(db).(DB.task_executions) = w.(db).(DB.task_executions) ∧
  w'.(db).(DB.execution_runs) = w.(db).(DB.execution_runs) ∧
  match task_event_type task.(TaskExecution.Status) with
  | None => w'.(db) = w.(db)
  | Some ty => ∃ at_, announced (task_event ty at_ task) w.(db).(DB.outbox) w'.(db).(DB.outbox)
  end.
Proof.
  intros Hwf. unfold appendTaskEvent. case_match; [|by intros [= <-]].
  intros ([] & w1 & Hl & Hm)%ebindr_ok. apply ebind_ok in Hm as (n & w2 & [= <- <-] & Hm).
  assert (db_wf w1.(db)) as Hwf1.
  { apply exec_ok in Hl as [[= Hl] _]. rewrite <- Hl. destruct Hwf. split; simpl; try done.
    by apply insert_or_ignore_keys. }
  apply exec_ok in Hl as [[= Hl] _].
  apply append_event_ok in Hm as [Hd Ha]; [|done].
  rewrite Hd. simpl in *. rewrite <- Hl in *. simpl in *. eauto 10.
Qed.

Lemma save_announced_ok b task w w' : db_wf w.(db) →
  save_announced b task w = (Ok tt, w') →
  let prev := find_row task_key (task_key task) w.(db).(DB.task_executions) in
  w'.(db).(DB.task_executions) =
    upsert task_key merge_task task w.(db).(DB.task_executions) ∧
  w'.(db).(DB.execution_runs) = w.(db).(DB.execution_runs) ∧
  let silent := w'.(db) = w.(db) <| DB.task_executions :=
                  upsert task_key merge_task task w.(db).(DB.task_executions) |> in
  if b && negb (bool_decide (status_text prev =
                  TaskExecutionStatus_string task.(TaskExecution.Status)))
  then match task_event_type task.(TaskExecution.Status) with
       | None => silent
       | Some ty => ∃ at_, announced (task_event ty at_ task)
                             w.(db).(DB.outbox) w'.(db).(DB.outbox)
       end
  else silent.
Proof.
  intros Hwf Hs prev. unfold save_announced in Hs.
  apply ebindr_ok in Hs as (previous & w1 & Hp & Hs).
  assert (w1 = w ∧ (b = true → previous = status_text prev)) as [-> Hprev].
  { destruct b; [|by injection Hp as <- <-].
    unfold taskStatus in Hp. apply ebindr_ok in Hp as (row & w2 & Hq & Hp).
    apply query_ok in Hq as [-> ->]. injection Hp as <- <-. done. }
  apply ebindr_ok in Hs as ([] & w2 & Ht & Hs).
  pose proof (saveTask_wf task w _ w2 Hwf Ht) as Hwf2. apply saveTask_ok in Ht.
  destruct b; simpl in *; [rewrite Hprev in Hs by done|injection Hs as <-; by rewrite Ht].
  destruct (negb _); [|injection Hs as <-; by rewrite Ht].
  apply appendTaskEvent_ok in Hs as (H1 & H2 & H3); [|done]. rewrite H1, H2.
  rewrite Ht in *. simpl in *. split_and!; [done..|]. by case_match.
Qed.

(** Saving a task stores it under its run, activity and attempt, leaving every
    other row alone and, in an existing row, the identity and the planning columns;
    exactly one event is announced when the status of a started, completed, failed
    or cancelled task differs from the one on record, and none otherwise. *)
Theorem save_task_effect task w w' : db_wf w.(db) → SaveTask task w = (Ok tt, w') →
  let prev := find_row task_key (task_key task) w.(db).(DB.task_executions) in
  (∀ key, find_row task_key key w'.(db).(DB.task_executions) =
     if bool_decide (key = task_key task) then Some (saved_row prev task)
     else find_row task_key key w.(db).(DB.task_executions)) ∧
  match task_event_type task.(TaskExecution.Status) with
  | Some ty =>
    if bool_decide (status_text prev = TaskExecutionStatus_string task.(TaskExecution.Status))
    then w'.(db).(DB.outbox) = w.(db).(DB.outbox)
    else ∃ at_, announced (task_event ty at_ task) w.(db).(DB.outbox) w'.(db).(DB.outbox)
  | None => w'.(db).(DB.outbox) = w.(db).(DB.outbox)
  end.
Proof.
  intros Hwf Hs%transaction_ok prev.
  apply save_announced_ok in Hs as (Ht & _ & Hev); [|done]. fold prev in Hev. split.
  - intros key. rewrite Ht, find_row_upsert by done.
    destruct (decide (key = task_key task)) as [->|Hne].
    + rewrite !bool_decide_true by done. done.
    + by rewrite !bool_decide_false.
  - simpl in Hev. destruct (task_event_type _); destruct (bool_decide _); simpl in Hev;
      try done; by rewrite Hev.
Qed.

(** Saving the same task twice is saving it once: the second save leaves the
    whole database as the first did, its events and jobs included. *)
Theorem save_task_idempotent task w w1 w2 : db_wf w.(db) →
  SaveTask task w = (Ok tt, w1) → SaveTask task w1 = (Ok tt, w2) → w2.(db) = w1.(db).
Proof.
  intros Hwf Hs1 Hs2.
  pose proof (run_op_wf Hfresh (OpSaveTask task) w _ w1 Hwf Hs1) as Hwf1.
  apply transaction_ok in Hs1, Hs2.
  apply save_announced_ok in Hs1 as (Ht1 & _ & _); [|done].
  apply save_announced_ok in Hs2 as (Ht2 & _ & Hev); [|done]. cbn zeta in Hev.
  rewrite Ht1, find_row_upsert in Hev by done.
  rewrite (bool_decide_true (task_key task = task_key task)) in Hev by done.
  rewrite upsert_idem in Hev; [|done|done|by destruct task].
  assert (w1.(db) <| DB.task_executions :=
    upsert task_key merge_task task w.(db).(DB.task_executions) |> = w1.(db)) as Hsame
    by (rewrite <- Ht1; by destruct (w1.(db))).
  rewrite Hsame in Hev. case_match eqn:E; [|done].
  apply negb_true_iff, bool_decide_eq_false in E.
  destruct E. by destruct (find_row task_key _ _).
Qed.

Lemma for_rows_announced b tasks w w' : db_wf w.(db) →
  for_effr (save_announced b) tasks w = (Ok tt, w') →
  db_wf w'.(db) ∧
  w'.(db).(DB.task_executions) =
    foldl (λ t task, upsert task_key merge_task task t) w.(db).(DB.task_executions) tasks ∧
  w'.(db).(DB.execution_runs) = w.(db).(DB.execution_runs) ∧
  ∃ events, w'.(db).(DB.outbox).(JobQueue.Outbox.domain_events) =
              w.(db).(DB.outbox).(JobQueue.Outbox.domain_events) ++ events ∧
    (length events ≤ length tasks)%nat ∧ (b = false → events = []).
Proof.
  revert w. induction tasks as [|task tasks IH]; intros w Hwf; simpl.
  { intros [= <-]. split_and!; [done..|]. exists []. by rewrite app_nil_r. }
  intros ([] & w1 & Hs & Hr)%ebindr_ok.
  pose proof (save_announced_wf Hfresh b task w _ w1 Hwf Hs) as Hwf1.
  apply save_announced_ok in Hs as (Ht & Hru & Hev); [|done]. cbn zeta in Hev.
  destruct (IH _ Hwf1 Hr) as (Hwf' & Ht' & Hru' & evs & He & Hl & Hb).
  rewrite Ht', Ht, Hru', Hru. split_and!; [done..|]. rewrite He.
  destruct (b && _) eqn:Eb.
  - apply andb_true_iff in Eb as [-> _]. destruct (task_event_type _) as [ty|].
    + destruct Hev as (at_ & e' & p & j & He1 & _). exists ((e', p) :: evs).
      rewrite He1, <- app_assoc. simpl. split_and!; [done|lia|done].
    + exists evs. rewrite Hev. simpl. split_and!; [done|lia|done].
  - exists evs. rewrite Hev. simpl. split_and!; [done|lia|done].
Qed.

Lemma for_rows_transfers id ts w w' : db_wf w.(db) →
  for_effr (save_transfer id) ts w = (Ok tt, w') →
  db_wf w'.(db) ∧ w'.(db).(DB.task_executions) = w.(db).(DB.task_executions) ∧
  w'.(db).(DB.execution_runs) = w.(db).(DB.execution_runs) ∧
  w'.(db).(DB.outbox) = w.(db).(DB.outbox).
Proof.
  revert w. induction ts as [|t ts IH]; intros w Hwf; simpl; [by intros [= <-]|].
  intros ([] & w1 & Hs & Hr)%ebindr_ok.
  pose proof (save_transfer_wf id t w _ w1 Hwf Hs) as Hwf1.
  apply exec_ok in Hs as [[= Hs] _].
  destruct (IH _ Hwf1 Hr) as (? & -> & -> & ->). by rewrite <- Hs.
Qed.

Lemma finish_run_ok id f w w' : db_wf w.(db) → (∀ r, (f r).(RunRow.id) = r.(RunRow.id)) →
  finish_run id f w = (Ok tt, w') →
  is_Some (find_row RunRow.id id w.(db).(DB.execution_runs)) ∧
  w'.(db) = w.(db) <| DB.execution_runs :=
    (update_rows RunRow.id id f w.(db).(DB.execution_runs)).1 |>.
Proof.
  intros Hwf Hf. unfold finish_run. intros (c & w1 & Hu & Hr)%ebindr_ok.
  apply exec_ok in Hu as [Hu _].
  pose proof (update_rows_found RunRow.id id f _ (wf_runs _ Hwf)) as Hc.
  destruct (update_rows RunRow.id id f _) as [t n] eqn:E. simpl in Hc. subst n.
  injection Hu as <- Hu. destruct (row_exists _ _ _) eqn:Ex; simpl in Hr; [|done].
  injection Hr as <-. split; [|done]. apply row_exists_true in Ex.
  destruct (find_row _ _ _) eqn:Ef; [eauto|]. by apply find_row_none in Ef.
Qed.

(** A run is completed as a whole: when [CompleteRun] returns no error, the run
    was on record and is now completed with the trace's makespan and cost, no other
    run changed, every task of the trace has its row, and the last event announced,
    after at most one per task (none for a simulation), is the completion of that
    run. *)
Theorem complete_run_effect trace w w' : db_wf w.(db) →
  CompleteRun trace w = (Ok tt, w') →
  let id := trace.(ExecutionTrace.RunID) in
  (∃ r at_, find_row RunRow.id id w.(db).(DB.execution_runs) = Some r ∧
     find_row RunRow.id id w'.(db).(DB.execution_runs) =
       Some (set_run_completed at_ trace.(ExecutionTrace.Executed) r)) ∧
  (∀ id', id' ≠ id → find_row RunRow.id id' w'.(db).(DB.execution_runs) =
                     find_row RunRow.id id' w.(db).(DB.execution_runs)) ∧
  w'.(db).(DB.task_executions) =
    foldl (λ t task, upsert task_key merge_task task t) w.(db).(DB.task_executions)
      trace.(ExecutionTrace.Tasks) ∧
  ∃ events e payload, w'.(db).(DB.outbox).(JobQueue.Outbox.domain_events) =
      w.(db).(DB.outbox).(JobQueue.Outbox.domain_events) ++ events ++ [(e, payload)] ∧
    e.(DomainEvent.Type_) = ExecutionCompleted ∧ e.(DomainEvent.AggregateID) = id ∧
    (length events ≤ length trace.(ExecutionTrace.Tasks))%nat ∧
    (is_simulation trace.(ExecutionTrace.Mode) = true → events = []).
Proof.
  intros Hwf Hc%transaction_ok id.
  apply ebindr_ok in Hc as ([] & w1 & Ht & Hc).
  apply for_rows_announced in Ht as (Hwf1 & Ht & Hr1 & events & He & Hl & Hb); [|done].
  apply ebindr_ok in Hc as ([] & w2 & Hx & Hc).
  apply for_rows_transfers in Hx as (Hwf2 & Ht2 & Hr2 & Ho2); [|done].
  apply ebind_ok in Hc as (n & w3 & [= <- <-] & Hc).
  apply ebindr_ok in Hc as ([] & w4 & Hf & Hc).
  set (f := set_run_completed _ _) in Hf.
  assert (db_wf w4.(db)) as Hwf4 
    by (by refine (finish_run_wf id f _ _ (mk_session w2.(db) _) _ w4 Hwf2 Hf)).
  apply finish_run_ok in Hf as [[r Hr] Hf]; [|done..].
  apply append_event_ok in Hc as [Hd (e & p & j & Hev & _ & Hty & _ & Hag & _)]; [|done].
  simpl in Hr, Hf. rewrite Hr2, Hr1 in Hr, Hf.
  assert (w'.(db).(DB.execution_runs) =
    (update_rows RunRow.id id f w.(db).(DB.execution_runs)).1) as Hruns by (by rewrite Hd, Hf).
  split_and!.
  - exists r, (now w2.(draws)). split; [done|]. rewrite Hruns.
    rewrite (find_row_update RunRow.id) by done. rewrite bool_decide_true by done. unfold id. by rewrite Hr.
  - intros id' Hne. rewrite Hruns, (find_row_update RunRow.id) by done.
    by rewrite bool_decide_false.
  - rewrite Hd, Hf. simpl. by rewrite Ht2, Ht.
  - exists events, e, p. rewrite Hev, Hf. simpl. rewrite Ho2, He, <- app_assoc.
    split_and!; [done..|]. intros Hsim. apply Hb. by rewrite Hsim.
Qed.
End tasks.

(** ** Pages of the run feed *)
Section paging.
Context `{Driver, SqlOrder, MapOrder}.

(** The filter a caller asks for: a column is constrained unless its value is
    empty or [all]. *)
Definition free_value (v : string) : bool := bool_decide (v = "") || bool_decide (v = "all").
Definition wanted (kind mode status : string) (run : ExecutionRun) : bool :=
  (free_value kind || bool_decide (ExecutionRunKind_string run.(ExecutionRun.Kind) = kind)) &&
  (free_value mode || bool_decide (ExecutionMode_string run.(ExecutionRun.Mode) = mode)) &&
  (free_value status ||
   bool_decide (ExecutionRunStatus_string run.(ExecutionRun.Status) = status)).

Lemma forallb_perm {A} (f : A → bool) l l' : l ≡ₚ l' → forallb f l = forallb f l'.
Proof. induction 1; simpl; try congruence. by rewrite !andb_assoc, (andb_comm (f y)). Qed.

Lemma forallb_filter {A} (p q : A → bool) l :
  forallb q (List.filter p l) = forallb (λ x, negb (p x) || q x) l.
Proof.
  induction l as [|x l IH]; simpl; [done|]. destruct (p x); simpl; [by rewrite IH|done].
Qed.

Lemma feed_matches_wanted salt kind mode status run :
  feed_matches (runFeedFilters salt kind mode status) run = wanted kind mode status run.
Proof.
  unfold feed_matches, runFeedFilters.
  set (m := <["kind" := kind]> (<["mode" := mode]> {["status" := status]}) : gmap string string).
  assert (map_range salt m ≡ₚ [("kind", kind); ("mode", mode); ("status", status)]) as Hp.
  { rewrite map_range_perm. unfold m. rewrite map_to_list_insert by done.
    rewrite map_to_list_insert by done. by rewrite map_to_list_singleton. }
  rewrite forallb_filter, (forallb_perm _ _ _ Hp). unfold wanted, free_value. simpl.
  rewrite !negb_andb, !negb_involutive, andb_true_r, <- !andb_assoc. done.
Qed.

(** All the runs the caller asks for, the newest first. *)
Definition feed (salt : nat) (kind mode status : string) (d : DB) : list ExecutionRun :=
  order_by newer_first salt (List.filter (wanted kind mode status) (runFeedSelect d)).

Lemma filter_ext_bool {A} (f g : A → bool) l : (∀ x, f x = g x) → List.filter f l = List.filter g l.
Proof. intros Hfg. induction l as [|x l IH]; simpl; [done|]. by rewrite Hfg, IH. Qed.

Lemma filter_all {A} (l : list A) : List.filter (λ _, true) l = l.
Proof. induction l as [|x l IH]; simpl; [done|]. by rewrite IH. Qed.

Lemma ListRunsPage_ok salt page size kind mode status w p w' :
  1 ≤ page → 1 ≤ size ≤ 100 → page * size < 2 ^ 63 →
  ListRunsPage salt page size kind mode status w = (Ok p, w') →
  w' = w ∧
  p.(ExecutionRunPage.Items) =
    limit_offset size ((page - 1) * size) (feed salt kind mode status w.(db)) ∧
  p.(ExecutionRunPage.Total) = Z.of_nat (length (feed salt kind mode status w.(db))) ∧
  p.(ExecutionRunPage.HasNext) = (page * size <? p.(ExecutionRunPage.Total)).
Proof.
  intros Hp Hs Hb. unfold ListRunsPage.
  rewrite (proj2 (Z.ltb_ge page 1)) by lia.
  rewrite (proj2 (Z.ltb_ge size 1)), (proj2 (Z.ltb_ge 100 size)) by lia. simpl.
  intros (total & w1 & [-> ->]%query_ok & Hm)%ebindr_ok.
  apply ebindr_ok in Hm as (runs & w2 & [-> ->]%query_ok & Hm). injection Hm as <- <-. simpl.
  rewrite !int64_id by (unfold in_int64; nia).
  rewrite (filter_ext_bool _ _ _ (feed_matches_wanted salt kind mode status)).
  split_and!; [done|done| |done]. unfold feed.
  by rewrite (Permutation_length (order_by_perm _ newer_first salt _)).
Qed.

Lemma limit_offset_concat {A} (k n : nat) (l : list A) :
  mjoin ((λ i, limit_offset (Z.of_nat k) (Z.of_nat i * Z.of_nat k) l) <$> seq 0 n) =
  take (n * k) l.
Proof.
  induction n as [|n IH]; [done|]. rewrite seq_S, fmap_app, join_app, IH. simpl.
  rewrite app_nil_r. unfold limit_offset. rewrite Nat2Z.id, <- Nat2Z.inj_mul, Nat2Z.id.
  rewrite take_take_drop. f_equal. lia.
Qed.

(** The pages of the run feed are a partition of it: with a page size in its
    range, the pages up to the first that announces no successor, put together,
    hold every run of the requested kind, mode and status exactly once, and
    reading them changes nothing. *)
Theorem pages_partition_feed salt (n k : nat) kind mode status w (ps : nat → ExecutionRunPage) :
  (1 ≤ k ≤ 100)%nat → Z.of_nat (S n) * Z.of_nat k < 2 ^ 63 →
  (∀ i, (i ≤ n)%nat → ∃ w', ListRunsPage salt (Z.of_nat i + 1) (Z.of_nat k) kind mode status w
                              = (Ok (ps i), w')) →
  (ps n).(ExecutionRunPage.HasNext) = false →
  mjoin ((λ i, (ps i).(ExecutionRunPage.Items)) <$> seq 0 (S n)) ≡ₚ
    List.filter (wanted kind mode status) (runFeedSelect w.(db)).
Proof.
  intros Hk Hb Hps Hlast.
  assert (∀ i, (i ≤ n)%nat →
    (ps i).(ExecutionRunPage.Items) = limit_offset (Z.of_nat k) (Z.of_nat i * Z.of_nat k)
      (feed salt kind mode status w.(db)) ∧
    (ps i).(ExecutionRunPage.HasNext) = ((Z.of_nat i + 1) * Z.of_nat k <?
      Z.of_nat (length (feed salt kind mode status w.(db))))) as Hall.
  { intros i Hi. destruct (Hps i Hi) as [w' Hw].
    apply ListRunsPage_ok in Hw as (_ & Hit & Ht & Hn); [|lia|lia|nia].
    rewrite Hit, Hn, Ht. by replace (Z.of_nat i + 1 - 1) with (Z.of_nat i) by lia. }
  erewrite (list_fmap_ext _ (λ i, limit_offset (Z.of_nat k) (Z.of_nat i * Z.of_nat k)
    (feed salt kind mode status w.(db)))); last first.
  { intros j i Hj. apply Hall. apply lookup_seq in Hj as [-> ?]. lia. }
  rewrite limit_offset_concat.
  destruct (Hall n ltac:(lia)) as [_ Hn]. rewrite Hlast in Hn. symmetry in Hn.
  apply Z.ltb_ge in Hn. rewrite take_ge by lia. apply order_by_perm.
Qed.

(** [ListRuns] asks for a page of 500, which [ListRunsPage] replaces by its
    default: it returns the 20 newest entries of the feed and no more, without
    telling that there are others. *)
Theorem list_runs_truncated salt w l w' : ListRuns salt w = (Ok l, w') →
  length l = Nat.min 20 (length (runFeedSelect w.(db))).
Proof.
  unfold ListRuns. intros (p & w1 & Hp & Hl)%ebindr_ok. injection Hl as <- <-.
  assert (ListRunsPage salt 1 20 "" "" "" w = (Ok p, w1)) as Hp' by exact Hp.
  apply ListRunsPage_ok in Hp' as (_ & -> & _); [|lia..].
  unfold limit_offset. simpl. rewrite drop_0, length_take. unfold feed.
  rewrite (Permutation_length (order_by_perm _ newer_first salt _)).
  rewrite (filter_ext_bool _ (λ _, true)) by done. by rewrite filter_all.
Qed.
End paging.

(** ** The activity controller on these tables *)
Section controller.
Context `{Driver, JSON} `{Clock world, RuntimeResolver world, DataCatalog world}
  (private : Controller.HandlesPrivate (W := world)).

(** C20: The controller on the database launches an activity at most once per run:
    after a start that succeeded, and whatever the controller did in between, the
    table holds a row for the activity, and a second start changes nothing in the
    world and returns either what that row says or an error. *)
Theorem start_once_on_tables execution execution' e e' w w1 w2 h :
  Controller.admission execution = Ok e → Controller.admission execution' = Ok e' →
  Controller.handle_id e' = Controller.handle_id e →
  Controller.Start execution w = (Ok h, w1) → rtc Controller.controller_step w1 w2 →
  ∃ row r, find_row HandleRow.id (Controller.handle_id e) w2.(db).(DB.activity_handles) = Some row ∧
    Controller.Start execution' w2 = (r, w2) ∧ ∀ h2, r = Ok h2 → h2 = row_view row.
Proof.
  intros Ha Ha' Hid Hs Hsteps.
  destruct (Controller.start_again private _ _ _ _ _ _ _ _ Ha Ha' Hid Hs Hsteps)
    as (h' & r & Hh & Hr & Hh2).
  cbn [holds repository_laws] in Hh. rewrite abs_lookup in Hh.
  destruct (find_row HandleRow.id _ _) as [row|]; [|done]. injection Hh as <-.
  exists row, r. eauto.
Qed.
End controller.

(** ** A concrete database, for evaluating the definitions *)
Module Example.
#[local] Instance driver : Driver := {|
  refuse _ _ := None; newID n := "id" +:+ itoa (Z.of_nat n); now n := Z.of_nat n + 1;
  sum_real := foldr fadd f0
|}.
#[local] Instance json : JSON := {|
  marshal_event e := Ok e.(DomainEvent.ID);
  unmarshal_event s := Ok ((zero : DomainEvent) <| DomainEvent.ID := s |>);
  marshal_metadata _ := Ok "{}"; unmarshal_metadata _ := Ok ∅;
  marshal_endpoints l := Ok (join_byte LF l); unmarshal_endpoints s := Ok (split_byte LF s);
  marshal_artifacts _ := Ok "null"; unmarshal_artifacts _ := Ok None
|}.

Lemma newID_fresh n : newID n ≠ "".
Proof. done. Qed.

Definition clock : Clock world := eret 0.
Definition catalogue : DataCatalog world := None.
Definition adapter : RuntimeAdapter world := {|
  Modes := [ExecutionModeReal];
  runtime_Start e := eret (Ok ((zero : ActivityHandle)
    <| ActivityHandle.RunID := e.(ActivityExecutionContext.Run).(ExecutionRun.ID) |>
    <| ActivityHandle.ActivityID := e.(ActivityExecutionContext.Activity).(Activity.ID) |>
    <| ActivityHandle.Status := HandleRunning |>));
  runtime_Inspect h := eret (Ok (h <| ActivityHandle.Status := HandleCompleted |>));
  runtime_Stop h := eret (Ok tt)
|}.
Definition resolver : RuntimeResolver world := λ _ _, eret (Ok adapter).

Lemma tables_private : @Controller.HandlesPrivate world clock resolver repository_store catalogue
  repository_laws.
Proof.
  split; try by intros ? ? ? ? ? ? [= _ <-].
  - intros mode id w r w' [= <- _]. split_and!; by intros ? ? ? ? ? [= _ <-].
  - by intros ? ? ? ? [= _ <-].
  - done.
Qed.

Definition run : ExecutionRun := (zero : ExecutionRun) <| ExecutionRun.ID := "r" |>
  <| ExecutionRun.Mode := ExecutionModeReal |> <| ExecutionRun.Status := ExecutionRunRunning |>.
Definition task (status : TaskExecutionStatus) : TaskExecution :=
  (zero : TaskExecution) <| TaskExecution.ID := "r:a:1" |>
    <| TaskExecution.ExecutionRunID := "r" |> <| TaskExecution.ActivityID := "a" |>
    <| TaskExecution.Attempt := 1 |> <| TaskExecution.Status := status |>.
Definition trace : ExecutionTrace := (zero : ExecutionTrace)
  <| ExecutionTrace.RunID := "r" |> <| ExecutionTrace.Mode := ExecutionModeReal |>
  <| ExecutionTrace.Tasks := [task TaskCompleted] |>
  <| ExecutionTrace.Transfers := [(zero : DataTransfer) <| DataTransfer.ID := "t" |>] |>.
Definition handle : ActivityHandle := (zero : ActivityHandle)
  <| ActivityHandle.ID := "r:a" |> <| ActivityHandle.Status := HandleRunning |>.
Definition start : world := mk_session empty_db 0.
Definition ops : list op :=
  [OpCreateRun run; OpCreateRun run; OpSave handle; OpSaveTask (task TaskRunning);
   OpFailRun "absent" "x"].
Definition after (l : list op) : world := (run_ops l start).2.
End Example.

Section witnesses.
Import Example.
#[local] Existing Instances driver json.

(** The first creation announces the run, the second nothing; the run that is not
    there cannot fail. *)
Example run_ops_results : (run_ops ops start).1 =
  [Ok tt; Ok tt; Ok tt; Ok tt; Err (errorf "execution run %q not found" ["absent"])] ∧
  length (after ops).(db).(DB.outbox).(JobQueue.Outbox.domain_events) = 2%nat.
Proof. split; vm_compute; reflexivity. Qed.

Lemma after_wf l : db_wf (after l).(db).
Proof.
  unfold after. destruct (run_ops l start) as [rs w] eqn:E.
  apply (run_ops_wf newID_fresh l start rs w empty_db_wf E).
Qed.

Lemma tables_well_formed_witness : db_wf (after ops).(db).
Proof.
  unfold after. destruct (run_ops ops start) as [rs w] eqn:E.
  exact (proj1 (tables_well_formed newID_fresh ops 0 rs w E)).
Defined.

Lemma repository_refines_handle_map_witness :
  abs (after ops).(db) = foldl spec_apply ∅ (zip ops (run_ops ops start).1).
Proof.
  unfold after. destruct (run_ops ops start) as [rs w] eqn:E.
  exact (proj1 (repository_refines_handle_map ops start rs w E)).
Defined.

Lemma save_task_effect_witness :
  ∃ w', SaveTask (task TaskCompleted) (after ops) = (Ok tt, w') ∧
  ∃ at_, announced (task_event ActivityCompleted at_ (task TaskCompleted))
    (after ops).(db).(DB.outbox) w'.(db).(DB.outbox).
Proof.
  assert (is_ok (SaveTask (task TaskCompleted) (after ops)).1 = true) as Hok
    by (vm_compute; reflexivity).
  destruct (SaveTask (task TaskCompleted) (after ops)) as [[[]|] w'] eqn:E; [|discriminate].
  exists w'. split; [reflexivity|].
  destruct (save_task_effect newID_fresh (task TaskCompleted) (after ops) w' (after_wf ops) E)
    as [_ Hev]. exact Hev.
Defined.

Lemma save_task_idempotent_witness :
  let w := after (take 3 ops) in
  ∃ w1 w2, SaveTask (task TaskRunning) w = (Ok tt, w1) ∧
    SaveTask (task TaskRunning) w1 = (Ok tt, w2) ∧ w2.(db) = w1.(db).
Proof.
  intros w.
  assert (is_ok (SaveTask (task TaskRunning) w).1 = true) as Hok by (vm_compute; reflexivity).
  destruct (SaveTask (task TaskRunning) w) as [[[]|] w1] eqn:E1; [|discriminate].
  assert (is_ok (SaveTask (task TaskRunning) w1).1 = true) as Hok2.
  { change w1 with (@Ok unit tt, w1).2. rewrite <- E1. vm_compute. reflexivity. }
  destruct (SaveTask (task TaskRunning) w1) as [[[]|] w2] eqn:E2; [|discriminate].
  exists w1, w2. split; [reflexivity|]. split; [exact E2|].
  exact (save_task_idempotent newID_fresh (task TaskRunning) w w1 w2 (after_wf _) E1 E2).
Defined.

Lemma complete_run_effect_witness :
  ∃ w', CompleteRun trace (after ops) = (Ok tt, w') ∧
  ∃ r at_, find_row RunRow.id "r" w'.(db).(DB.execution_runs) =
    Some (set_run_completed at_ trace.(ExecutionTrace.Executed) r).
Proof.
  assert (is_ok (CompleteRun trace (after ops)).1 = true) as Hok by (vm_compute; reflexivity).
  destruct (CompleteRun trace (after ops)) as [[[]|] w'] eqn:E; [|discriminate].
  exists w'. split; [reflexivity|].
  destruct (complete_run_effect newID_fresh trace (after ops) w' (after_wf ops) E)
    as ((r & at_ & _ & Hr) & _). eauto.
Defined.

Definition one_page : ExecutionRunPage :=
  match (ListRunsPage 0 1 5 "workflow" "all" "" (after ops)).1 with Ok p => p | Err _ => zero end.

Lemma pages_partition_feed_witness :
  mjoin ((λ i, one_page.(ExecutionRunPage.Items)) <$> seq 0 1) ≡ₚ
    List.filter (wanted "workflow" "all" "") (runFeedSelect (after ops).(db)).
Proof.
  apply (pages_partition_feed 0 0 5 "workflow" "all" "" (after ops) (λ _, one_page));
    [lia|lia| |vm_compute; reflexivity].
  intros i Hi. assert (i = 0%nat) as -> by lia. exists (after ops). vm_compute. reflexivity.
Defined.

Lemma list_runs_truncated_witness :
  ∃ l, (ListRuns 0 (after ops)).1 = Ok l ∧
    length l = Nat.min 20 (length (runFeedSelect (after ops).(db))).
Proof.
  destruct (ListRuns 0 (after ops)) as [[l|] w] eqn:E; [|vm_compute in E; discriminate].
  exists l. split; [reflexivity|]. exact (list_runs_truncated 0 (after ops) l w E).
Defined.

Lemma start_once_on_tables_witness :
  let w1 := (@Controller.Start _ resolver repository_store
    (Controller.Example.execution None) (after ops)).2 in
  ∃ row r, find_row HandleRow.id "r:a" w1.(db).(DB.activity_handles) = Some row ∧
    @Controller.Start _ resolver repository_store (Controller.Example.execution None) w1 = (r, w1) ∧
    ∀ h2, r = Ok h2 → h2 = row_view row.
Proof.
  intros w1.
  destruct (Controller.admission (Controller.Example.execution None)) as [e|] eqn:Ha;
    [|vm_compute in Ha; discriminate].
  assert (Controller.handle_id e = "r:a") as Hid
    by (vm_compute in Ha; injection Ha as <-; reflexivity).
  rewrite <- Hid.
  destruct (@Controller.Start _ resolver repository_store (Controller.Example.execution None)
    (after ops)) as [[h|] w'] eqn:Hs; [|vm_compute in Hs; discriminate].
  exact (@start_once_on_tables driver json clock resolver catalogue tables_private
    (Controller.Example.execution None) (Controller.Example.execution None)
    e e (after ops) w1 w1 h Ha Ha eq_refl Hs (rtc_refl _ _)).
Defined.
End witnesses.
End ExecutionRepository.
