(* ===== verification/Transfer.v ===== *)
(** * Data transfer (src/internal/application/transfer)

    The planner, the materializer, which copies content-addressed blobs through
    connectors and verifies what it copied, and the coordinator, which turns a
    preparation requirement into a gate. The coordinator implements the port
    [PreparationCoordinator] of the execution supervisor. *)

From Stdlib Require Import Ascii.
From S2P Require Import Prelude GoStrings GoFloat GoPath Domain Materialization Ports Controller.

Module Transfer.
(** ports/transfer.go: [TransferConnector] *)
Record TransferConnector (W : Type) := {
  CanHandle : TransferEndpoint → bool;
  Exists : TransferEndpoint → string → effr W bool;
  Open_ : TransferEndpoint → string → Z → effr W Reader;
  Put : TransferEndpoint → string → Reader → Z → effr W unit;
  Commit_ : TransferEndpoint → string → string → effr W unit
}.
Arguments CanHandle {W}.
Arguments Exists {W}.
Arguments Open_ {W}.
Arguments Put {W}.
Arguments Commit_ {W}.

(** coordinator.go: [MaterializationCatalog], which may be nil. *)
Record MaterializationCatalog (W : Type) := {
  SaveArtifactMaterialization : ArtifactMaterialization → effr W unit;
  SaveTransferRun : DataTransferRun → effr W unit
}.
Arguments SaveArtifactMaterialization {W}.
Arguments SaveTransferRun {W}.

(** [Planner.Plan] *)
Definition Plan (source destination : TransferLocation) (blobs : list BlobDescriptor)
    (available : gmap string bool) : DataTransferPlan :=
  let plan := (zero : DataTransferPlan) <| DataTransferPlan.Source := source |>
    <| DataTransferPlan.Destination := destination |>
    <| DataTransferPlan.Strategy := TransferSourcePush |> in
  if bool_decide (source.(TransferLocation.URI) = destination.(TransferLocation.URI)) &&
     bool_decide (source.(TransferLocation.Path) = destination.(TransferLocation.Path)) then
    plan <| DataTransferPlan.Strategy := TransferUseExisting |>
  else plan <| DataTransferPlan.Blobs :=
    List.filter (λ b, negb (lookup_zero available b.(BlobDescriptor.Digest))) blobs |>.

(** [sourceName] *)
Definition sourceName (configured digest : string) (count : Z) : string :=
  if negb (bool_decide (configured = "")) && (count =? 1) then configured else digest.

(** [destinationName] *)
Definition destinationName (root digest : string) : string :=
  if bool_decide (root = "") then digest else path_Join [root; digest].

Definition endpoint (uri : string) : TransferEndpoint :=
  (zero : TransferEndpoint) <| TransferEndpoint.URI := uri |>.

Section materializer.
Context {W : Type} `{Clock W} `{Sha256}.
Implicit Types (c sc dc : TransferConnector W) (run : DataTransferRun).

(** [Materializer.connector] *)
Fixpoint connector (connectors : list (TransferConnector W)) (e : TransferEndpoint)
    : result (TransferConnector W) :=
  match connectors with
  | [] => Err (errorf "no connector for endpoint %q" [e.(TransferEndpoint.URI)])
  | c :: rest => if CanHandle c e then Ok c else connector rest e
  end.

(** [Materializer.size]: [io.Copy(io.Discard, r)] counts the bytes read. *)
Definition size c (e : TransferEndpoint) (name : string) : effr W Z :=
  let? exists_ := Exists c e name in
  if negb exists_ then eret (Ok 0)
  else
    let? r := Open_ c e name 0 in
    eret (match r.(read_error) with
          | Some err => Err err
          | None => Ok (Z.of_nat (str_length r.(bytes)))
          end).

(** [Materializer.verify] *)
Definition verify c (e : TransferEndpoint) (name expected : string) : effr W bool :=
  let? exists_ := Exists c e name in
  if negb exists_ then eret (Ok false)
  else
    let? r := Open_ c e name 0 in
    eret (match r.(read_error) with
          | Some err => Err err
          | None => Ok (bool_decide
              (trim_prefix "sha256:" ("sha256:" +:+ sha256_hex r.(bytes)) =
               trim_prefix "sha256:" expected))
          end).

(** [failed] *)
Definition failed (target : ArtifactMaterialization) run (err : error)
    : eff W (ArtifactMaterialization * DataTransferRun * option error) :=
  let target := target <| ArtifactMaterialization.Status := MaterializationFailed |> in
  let run := run <| DataTransferRun.Status := TransferFailed |>
                 <| DataTransferRun.Error := err |> in
  if feq run.(DataTransferRun.FinishedAt) f0 then
    let! now := unixNow in
    eret (target, run <| DataTransferRun.FinishedAt := now |>, Some err)
  else eret (target, run, Some err).

Definition add_verified (digest : string) run : DataTransferRun :=
  run <| DataTransferRun.VerifiedBlobs := run.(DataTransferRun.VerifiedBlobs) ++ [digest] |>.

(** [sizeBytes := blob.SizeBytes; if sizeBytes <= 0 { ... }] *)
Definition blob_size sc (source : TransferEndpoint) (name : string) (declared : Z) : effr W Z :=
  if declared <=? 0 then size sc source name else eret (Ok declared).

(** The body of the loop of [Materialize]: the run so far, with an error when
    the loop returns. *)
Definition copy_blob sc dc (plan : DataTransferPlan) (count : Z) (blob : BlobDescriptor) run
    : eff W (DataTransferRun * option error) :=
  let source := endpoint plan.(DataTransferPlan.Source).(TransferLocation.URI) in
  let destination := endpoint plan.(DataTransferPlan.Destination).(TransferLocation.URI) in
  let digest := blob.(BlobDescriptor.Digest) in
  let final := destinationName plan.(DataTransferPlan.Destination).(TransferLocation.Path) digest in
  let! present := verify dc destination final digest in
  match present with
  | Ok true => eret (add_verified digest run, None)
  | _ =>
    let partial := final +:+ ".partial" in
    let! offset := size dc destination partial in
    match offset with
    | Err e => eret (run, Some e)
    | Ok offset =>
      let name := sourceName plan.(DataTransferPlan.Source).(TransferLocation.Path) digest count in
      let! input := Open_ sc source name offset in
      match input with
      | Err e => eret (run, Some e)
      | Ok input =>
        let! put := Put dc destination partial input offset in
        match put with
        | Err e => eret (run, Some e)
        | Ok _ =>
          let! sizeBytes := blob_size sc source name blob.(BlobDescriptor.SizeBytes) in
          match sizeBytes with
          | Err e => eret (run, Some e)
          | Ok sizeBytes =>
            let run := if offset <? sizeBytes then
              run <| DataTransferRun.TransferredBytes :=
                int64 (run.(DataTransferRun.TransferredBytes) + (sizeBytes - offset)) |>
              else run in
            let! ok := verify dc destination partial digest in
            match ok with
            | Err e => eret (run, Some e)
            | Ok false => eret (run, Some (errorf "checksum mismatch for %s" [digest]))
            | Ok true =>
              let! committed := Commit_ dc destination partial final in
              match committed with
              | Err e => eret (run, Some e)
              | Ok _ => eret (add_verified digest run, None)
              end
            end
          end
        end
      end
    end
  end.

Fixpoint copy_blobs sc dc (plan : DataTransferPlan) (count : Z) (blobs : list BlobDescriptor) run
    : eff W (DataTransferRun * option error) :=
  match blobs with
  | [] => eret (run, None)
  | blob :: blobs =>
    let! (run, err) := copy_blob sc dc plan count blob run in
    match err with
    | Some e => eret (run, Some e)
    | None => copy_blobs sc dc plan count blobs run
    end
  end.

Definition effective_strategy (s : TransferStrategy) : TransferStrategy :=
  if bool_decide (TransferStrategy_string s = "") then TransferSourcePush else s.

(** [Materializer.Materialize] *)
Definition Materialize (connectors : list (TransferConnector W)) (plan : DataTransferPlan)
    (target : ArtifactMaterialization)
    : eff W (ArtifactMaterialization * DataTransferRun * option error) :=
  match connector connectors (endpoint plan.(DataTransferPlan.Source).(TransferLocation.URI)) with
  | Err e => eret (target, zero, Some e)
  | Ok sc =>
  match connector connectors
          (endpoint plan.(DataTransferPlan.Destination).(TransferLocation.URI)) with
  | Err e => eret (target, zero, Some e)
  | Ok dc =>
    let strategy := effective_strategy plan.(DataTransferPlan.Strategy) in
    let run := (zero : DataTransferRun)
      <| DataTransferRun.ID := plan.(DataTransferPlan.ID) |>
      <| DataTransferRun.PlanID := plan.(DataTransferPlan.ID) |>
      <| DataTransferRun.Strategy := strategy |> in
    if bool_decide (TransferStrategy_string strategy = TransferStrategy_string TransferDestinationPull)
    then failed target (run <| DataTransferRun.Status := TransferPlanned |>)
           (errorf "destination-pull requires a destination transfer agent" [])
    else
      let! started := unixNow in
      let run := run <| DataTransferRun.Status := TransferRunning |>
                     <| DataTransferRun.StartedAt := started |> in
      let! (run, err) := copy_blobs sc dc plan
        (Z.of_nat (length plan.(DataTransferPlan.Blobs))) plan.(DataTransferPlan.Blobs) run in
      match err with
      | Some e => failed target run e
      | None =>
        let! finished := unixNow in
        eret (target <| ArtifactMaterialization.Status := MaterializationCommitted |>
                     <| ArtifactMaterialization.VerifiedDigest :=
                          target.(ArtifactMaterialization.Digest) |>,
              run <| DataTransferRun.Status := TransferCompleted |>
                  <| DataTransferRun.FinishedAt := finished |>, None)
      end
  end
  end.
End materializer.

(** ** coordinator.go *)
Section coordinator.
Context {W : Type} `{Clock W} `{Sha256, MapOrder}.
Context (connectors : list (TransferConnector W)) (catalog : option (MaterializationCatalog W)).

(** [Coordinator.saveTransfer] *)
Definition saveTransfer (value : DataTransferRun) : effr W unit :=
  match catalog with
  | None => eret (Ok tt)
  | Some c => if bool_decide (value.(DataTransferRun.ID) = "") then eret (Ok tt)
              else SaveTransferRun c value
  end.

(** [Coordinator.save] *)
Definition save (value : ArtifactMaterialization) : effr W unit :=
  match catalog with
  | None => eret (Ok tt)
  | Some c => SaveArtifactMaterialization c value
  end.

(** The first [if] of [Prepare]: the artifact and the runs made for it. *)
Definition prepare_artifact (requirement : PreparationRequirement)
    : effr W (option ArtifactMaterialization * list DataTransferRun) :=
  match requirement.(PreparationRequirement.Artifact) with
  | None => eret (Ok (None, []))
  | Some artifact =>
    match requirement.(PreparationRequirement.ArtifactTransfer) with
    | None => eret (Err (errorf "artifact materialization lacks transfer plan" []))
    | Some plan =>
      let initial := artifact <| ArtifactMaterialization.Status := MaterializationTransferring |> in
      let! saved := save initial in
      match saved with
      | Err e => eret (Err (errorf "save artifact materialization: %w" [e]))
      | Ok _ =>
        let! (result_, transferRun, err) := Materialize connectors plan initial in
        let! saved := saveTransfer transferRun in
        match saved with
        | Err e => eret (Err (errorf "save artifact transfer: %w" [e]))
        | Ok _ =>
          let! saved := save result_ in
          match saved with
          | Err e => eret (Err (errorf "save artifact materialization: %w" [e]))
          | Ok _ =>
            match err with
            | Some e => eret (Err e)
            | None => eret (Ok (Some result_, [transferRun]))
            end
          end
        end
      end
    end
  end.

(** The second [if]: the workspace, which the code updates in place. *)
Definition prepare_workspace (salt : nat) (requirement : PreparationRequirement)
    : effr W (option WorkspaceMaterialization * list DataTransferRun) :=
  match requirement.(PreparationRequirement.Workspace) with
  | None => eret (Ok (None, []))
  | Some workspace =>
    match requirement.(PreparationRequirement.WorkspaceTransfer) with
    | None => eret (Err (errorf "workspace materialization lacks transfer plan" []))
    | Some plan =>
      let workspace :=
        if bool_decide (workspace.(WorkspaceMaterialization.Missing) = []) then
          workspace <| WorkspaceMaterialization.Missing := plan.(DataTransferPlan.Blobs) |>
        else workspace in
      let! (result_, run, err) := Materialize connectors plan
        ((zero : ArtifactMaterialization)
           <| ArtifactMaterialization.ID := workspace.(WorkspaceMaterialization.ID) |>
           <| ArtifactMaterialization.Digest := "workspace" |>) in
      match err with
      | Some e => eret (Err e)
      | None =>
        if negb (bool_decide (result_.(ArtifactMaterialization.Status) = MaterializationCommitted))
        then eret (Err (errorf "workspace materialization is not committed" []))
        else
          match Commit salt workspace run.(DataTransferRun.VerifiedBlobs) with
          | (_, Err e) => eret (Err e)
          | (workspace, Ok _) => eret (Ok (Some workspace, [run]))
          end
      end
    end
  end.

(** [Coordinator.Prepare]; the first argument is not used. *)
Definition Prepare (salt : nat) (_ : string) (requirement : PreparationRequirement)
    : effr W (option PreparationGate) :=
  let? (executable, artifact_runs) := prepare_artifact requirement in
  let? (workspace, workspace_runs) := prepare_workspace salt requirement in
  let gate := PreparationGate.mk executable workspace (artifact_runs ++ workspace_runs) in
  match Ready gate with
  | Err e => eret (Err e)
  | Ok _ => eret (Ok (Some gate))
  end.
End coordinator.

Lemma connector_in {W} (l : list (TransferConnector W)) e c : connector l e = Ok c → c ∈ l.
Proof.
  induction l as [|x l IH]; simpl; [done|].
  case_match; [intros [= ->]; by left|right; auto].
Qed.

(** ** What [Materialize] returns *)
Section outcome.
Context {W : Type} `{Clock W} `{Sha256}.
Implicit Types (c sc dc : TransferConnector W) (run : DataTransferRun).

(** Only these fields of the run change in the loop. *)
Definition same_run (run run' : DataTransferRun) : Prop :=
  run'.(DataTransferRun.ID) = run.(DataTransferRun.ID) ∧
  run'.(DataTransferRun.PlanID) = run.(DataTransferRun.PlanID) ∧
  run'.(DataTransferRun.Strategy) = run.(DataTransferRun.Strategy) ∧
  run'.(DataTransferRun.Error) = run.(DataTransferRun.Error) ∧
  run'.(DataTransferRun.StartedAt) = run.(DataTransferRun.StartedAt).

Lemma same_run_trans r1 r2 r3 : same_run r1 r2 → same_run r2 r3 → same_run r1 r3.
Proof. unfold same_run. intuition congruence. Qed.

Ltac step_call := unfold ebind at 1; match goal with
  |- (let '(_, _) := ?m in _) = _ → _ => destruct m as [[?|?] ?] eqn:? end.

Lemma copy_blob_run sc dc plan n blob run w run' err w' :
  copy_blob sc dc plan n blob run w = ((run', err), w') →
  same_run run run' ∧
  run'.(DataTransferRun.VerifiedBlobs) = run.(DataTransferRun.VerifiedBlobs) ++
    match err with None => [blob.(BlobDescriptor.Digest)] | Some _ => [] end.
Proof.
  unfold copy_blob. cbn zeta. unfold ebind at 1. destruct (verify _ _ _ _ w) as [present w1].
  destruct present as [[]|].
  { intros [= <- <- <-]. done. }
  1,2: step_call; [|intros [= <- <- <-]; by rewrite app_nil_r].
  1,2: step_call; [|intros [= <- <- <-]; by rewrite app_nil_r].
  1,2: step_call; [|intros [= <- <- <-]; by rewrite app_nil_r].
  1,2: step_call; [|intros [= <- <- <-]; by rewrite app_nil_r].
  1,2: case_match; step_call; [case_match; [step_call|]| |case_match; [step_call|]|];
    intros [= <- <- <-]; split; simpl; rewrite ?app_nil_r; done.
Qed.

Lemma copy_blobs_run sc dc plan n blobs run w run' err w' :
  copy_blobs sc dc plan n blobs run w = ((run', err), w') →
  same_run run run' ∧
  ∃ done_, run'.(DataTransferRun.VerifiedBlobs) = run.(DataTransferRun.VerifiedBlobs) ++ done_ ∧
    done_ `prefix_of` blob_digests blobs ∧ (err = None → done_ = blob_digests blobs).
Proof.
  revert run w. induction blobs as [|b blobs IH]; intros run w; simpl.
  { intros [= <- <- <-]. split; [done|]. exists []. by rewrite app_nil_r. }
  unfold ebind. destruct (copy_blob _ _ _ _ _ _ _) as [[run1 err1] w1] eqn:E.
  apply copy_blob_run in E as [Hs Hv]. destruct err1 as [e|].
  - intros [= <- <- <-]. split; [done|]. exists []. split; [done|].
    split; [apply prefix_nil|done].
  - intros Hr. destruct (IH _ _ Hr) as (Hs' & l & Hl & Hp & Hall).
    split; [by eapply same_run_trans|]. exists (b.(BlobDescriptor.Digest) :: l).
    rewrite Hl, Hv, <- app_assoc. split; [done|]. split.
    + by apply prefix_cons.
    + intros He. rewrite (Hall He). done.
Qed.

Lemma failed_ok target run e (w : W) : ∃ run' w', failed target run e w =
  ((target <| ArtifactMaterialization.Status := MaterializationFailed |>, run', Some e), w') ∧
  run'.(DataTransferRun.Status) = TransferFailed ∧ run'.(DataTransferRun.Error) = e ∧
  run'.(DataTransferRun.VerifiedBlobs) = run.(DataTransferRun.VerifiedBlobs).
Proof.
  unfold failed. case_match; [|by eexists _, _].
  unfold ebind. destruct (unixNow w) as [now w1]. by eexists _, _.
Qed.

Lemma materialize_ends connectors plan target (w : W) t run err w' :
  Materialize connectors plan target w = ((t, run, err), w') →
  match err with
  | None =>
    t = target <| ArtifactMaterialization.Status := MaterializationCommitted |>
               <| ArtifactMaterialization.VerifiedDigest :=
                    target.(ArtifactMaterialization.Digest) |> ∧
    run.(DataTransferRun.Status) = TransferCompleted ∧
    run.(DataTransferRun.ID) = plan.(DataTransferPlan.ID) ∧
    run.(DataTransferRun.VerifiedBlobs) = blob_digests plan.(DataTransferPlan.Blobs) ∧
    TransferStrategy_string plan.(DataTransferPlan.Strategy) ≠ "destination-pull"
  | Some e =>
    (t = target ∧ run = zero ∧ w' = w) ∨
    (t = target <| ArtifactMaterialization.Status := MaterializationFailed |> ∧
     run.(DataTransferRun.Status) = TransferFailed ∧ run.(DataTransferRun.Error) = e ∧
     run.(DataTransferRun.VerifiedBlobs) `prefix_of` blob_digests plan.(DataTransferPlan.Blobs))
  end.
Proof.
  unfold Materialize. destruct (connector _ _) as [sc|]; [|intros [= <- <- <- <-]; auto].
  destruct (connector _ _) as [dc|]; [|intros [= <- <- <- <-]; auto].
  cbn zeta. case_bool_decide as Hpull.
  { set (r0 := set_field _ _ _). destruct (failed_ok target r0
      (errorf "destination-pull requires a destination transfer agent" []) w)
      as (run1 & w1 & -> & H1 & H2 & H3).
    intros [= <- <- <- <-]. right. split_and!; [done..|]. rewrite H3. apply prefix_nil. }
  unfold ebind at 1. destruct (unixNow w) as [started w1].
  unfold ebind at 1. destruct (copy_blobs _ _ _ _ _ _ _) as [[run1 err1] w2] eqn:E.
  apply copy_blobs_run in E as (Hs & l & Hl & Hp & Hall). destruct err1 as [e|].
  - destruct (failed_ok target run1 e w2) as (run2 & w3 & -> & H1 & H2 & H3).
    intros [= <- <- <- <-]. right. split_and!; [done..|]. rewrite H3, Hl. done.
  - unfold ebind. destruct (unixNow w2) as [now w3]. intros [= <- <- <- <-].
    destruct Hs as (Hid & _). split_and!; [done..| | |].
    + exact Hid.
    + simpl. rewrite Hl. simpl. by apply Hall.
    + intros Hd. apply Hpull. unfold effective_strategy. by rewrite Hd, bool_decide_false.
Qed.

Lemma materialize_result connectors plan target (w : W) t run w' :
  Materialize connectors plan target w = ((t, run, None), w') →
  t = target <| ArtifactMaterialization.Status := MaterializationCommitted |>
             <| ArtifactMaterialization.VerifiedDigest :=
                  target.(ArtifactMaterialization.Digest) |> ∧
  run.(DataTransferRun.VerifiedBlobs) = blob_digests plan.(DataTransferPlan.Blobs).
Proof. intros (? & _ & _ & ? & _)%materialize_ends. done. Qed.

(** A materialization ends in one of three ways: an endpoint has no connector
    and nothing is attempted; it fails, and then the materialization and its run
    are marked failed with the error, the run listing the blobs verified before
    it; or it returns no error, and then the run is completed, lists every blob of
    the plan in order, and the materialization is committed under its digest. A
    destination-pull plan never succeeds. *)
Theorem materialize_outcome connectors plan target (w : W) t run err w' :
  Materialize connectors plan target w = ((t, run, err), w') →
  match err with
  | None =>
    t = target <| ArtifactMaterialization.Status := MaterializationCommitted |>
               <| ArtifactMaterialization.VerifiedDigest :=
                    target.(ArtifactMaterialization.Digest) |> ∧
    run.(DataTransferRun.Status) = TransferCompleted ∧
    run.(DataTransferRun.ID) = plan.(DataTransferPlan.ID) ∧
    run.(DataTransferRun.VerifiedBlobs) = blob_digests plan.(DataTransferPlan.Blobs) ∧
    TransferStrategy_string plan.(DataTransferPlan.Strategy) ≠ "destination-pull"
  | Some e =>
    (t = target ∧ run = zero ∧ w' = w) ∨
    (t = target <| ArtifactMaterialization.Status := MaterializationFailed |> ∧
     run.(DataTransferRun.Status) = TransferFailed ∧ run.(DataTransferRun.Error) = e ∧
     run.(DataTransferRun.VerifiedBlobs) `prefix_of` blob_digests plan.(DataTransferPlan.Blobs))
  end.
Proof. apply materialize_ends. Qed.
End outcome.

(** ** Objects

    What the documentation of [TransferConnector] promises: [objects w uri name]
    is the content stored under [name] at the endpoint [uri]. Two places may be one
    and the same, a directory reached over two endpoints for instance: [apart] says
    which ones are not. *)
Section objects.
Context {W : Type} (objects : W → string → string → option string).
Context (apart : string * string → string * string → Prop).

Definition same_objects (w w' : W) : Prop := ∀ uri name, objects w' uri name = objects w uri name.

(** The offsets at which a transfer writes: the start and the end of what is there. *)
Definition resumes (off : Z) (old : option string) : Prop :=
  off = 0 ∨ off = Z.of_nat (str_length (default "" old)).

(** [Exists] and [Open] read; [Put] writes the object it names, keeping what was there
    before the offset even when it fails, and fails when its reader does; [Commit]
    renames. *)
Record lawful (c : TransferConnector W) : Prop := {
  exists_law : ∀ uri name w r w', Exists c (endpoint uri) name w = (r, w') → same_objects w w' ∧
    (r = Ok false → objects w uri name = None);
  open_law : ∀ uri name off w r w', 0 ≤ off → Open_ c (endpoint uri) name off w = (r, w') → same_objects w w' ∧
    ∀ rd, r = Ok rd → rd.(read_error) = None →
      ∃ s, objects w uri name = Some s ∧ rd.(bytes) = drop_str (Z.to_nat off) s;
  put_law : ∀ uri name rd off w r w', Put c (endpoint uri) name rd off w = (r, w') →
    (∀ u m, apart (u, m) (uri, name) → objects w' u m = objects w u m) ∧
    (resumes off (objects w uri name) → ∀ u, r = Ok u →
       rd.(read_error) = None ∧ objects w' uri name =
       Some (take_str (Z.to_nat off) (default "" (objects w uri name)) +:+
             rd.(bytes)));
  put_prefix : ∀ uri name rd off w r w', Put c (endpoint uri) name rd off w = (r, w') →
    resumes off (objects w uri name) →
    objects w' uri name = objects w uri name ∨
    ∃ t, objects w' uri name =
      Some (take_str (Z.to_nat off) (default "" (objects w uri name)) +:+ t);
  commit_law : ∀ uri p f w r w', Commit_ c (endpoint uri) p f w = (r, w') →
    (∀ u m, apart (u, m) (uri, p) → apart (u, m) (uri, f) →
       objects w' u m = objects w u m) ∧
    (apart (uri, f) (uri, p) → ∀ u, r = Ok u → objects w' uri f = objects w uri p)
}.

(** What is enough to trust a transfer that succeeded: looking changes nothing, whatever
    it shows; *)
Record quiet_reads (c : TransferConnector W) : Prop := {
  exists_quiet : ∀ uri name w r w', Exists c (endpoint uri) name w = (r, w') → same_objects w w';
  open_quiet : ∀ uri name off w r w', 0 ≤ off → Open_ c (endpoint uri) name off w = (r, w') → same_objects w w'
}.
(** and, at the destination, an object that is read from its start and to its end is what
    is there, a write changes only the object it names, and a commit renames. *)
Record faithful (c : TransferConnector W) : Prop := {
  faithful_quiet : quiet_reads c;
  open_faithful : ∀ uri name w rd w', Open_ c (endpoint uri) name 0 w = (Ok rd, w') →
    rd.(read_error) = None → objects w uri name = Some rd.(bytes);
  put_faithful : ∀ uri name rd off w r w', Put c (endpoint uri) name rd off w = (r, w') →
    ∀ u m, apart (u, m) (uri, name) → objects w' u m = objects w u m;
  commit_faithful : ∀ uri p f w r w', Commit_ c (endpoint uri) p f w = (r, w') →
    (∀ u m, apart (u, m) (uri, p) → apart (u, m) (uri, f) →
       objects w' u m = objects w u m) ∧
    (apart (uri, f) (uri, p) → ∀ u, r = Ok u → objects w' uri f = objects w uri p)
}.
Lemma lawful_faithful c : lawful c → faithful c.
Proof.
  intros Hc. split; [split| | |].
  - intros * E. by apply (exists_law _ Hc) in E as [? _].
  - intros * Ho E. by apply (open_law _ Hc) in E as [? _].
  - intros uri name w rd w' E Hr. apply (open_law _ Hc) in E as [_ Ho]; [|done].
    destruct (Ho rd eq_refl Hr) as (s & Hs & ->). by rewrite drop_str_0.
  - intros * E. by apply (put_law _ Hc) in E as [? _].
  - intros * E. by apply (commit_law _ Hc) in E.
Qed.

(** An endpoint that answers for the names of [P]: what is there can be read, *)
Record readable (c : TransferConnector W) (uri : string) (P : string → Prop) : Prop := {
  readable_lawful : lawful c;
  exists_ok : ∀ name w, P name →
    (Exists c (endpoint uri) name w).1 = Ok (bool_decide (is_Some (objects w uri name)));
  open_ok : ∀ name off w, P name → 0 ≤ off → is_Some (objects w uri name) →
    ∃ rd, (Open_ c (endpoint uri) name off w).1 = Ok rd ∧ rd.(read_error) = None
}.
(** and what is sent can be written and renamed. *)
Record writable (c : TransferConnector W) (uri : string) (P : string → Prop) : Prop := {
  put_ok : ∀ name rd off w, P name → 0 ≤ off → rd.(read_error) = None →
    is_ok (Put c (endpoint uri) name rd off w).1 = true;
  commit_ok : ∀ p f w, P p → P f → is_Some (objects w uri p) →
    is_ok (Commit_ c (endpoint uri) p f w).1 = true
}.

(** The places a plan writes at its destination are apart: the blobs from each other and
    from the partial copies, and the partial copies from each other. *)
Record separated (uri root : string) : Prop := {
  finals_apart d b : plain d → plain b → d ≠ b →
    apart (uri, destinationName root d) (uri, destinationName root b);
  final_partial_apart d b : plain d → plain b →
    apart (uri, destinationName root d) (uri, destinationName root b +:+ ".partial") ∧
    apart (uri, destinationName root b +:+ ".partial") (uri, destinationName root d);
  partials_apart d b : plain d → plain b → d ≠ b →
    apart (uri, destinationName root d +:+ ".partial") (uri, destinationName root b +:+ ".partial")
}.
(** The blob is apart from its own partial copy. *)
Definition blob_apart (plan : DataTransferPlan) (d : string) : Prop :=
  let uri := plan.(DataTransferPlan.Destination).(TransferLocation.URI) in
  let final := destinationName plan.(DataTransferPlan.Destination).(TransferLocation.Path) d in
  apart (uri, final) (uri, final +:+ ".partial").
(** The source is apart from the destination. *)
Definition source_apart (plan : DataTransferPlan) (n : Z) : Prop := ∀ b d,
  b ∈ BlobDescriptor.Digest <$> plan.(DataTransferPlan.Blobs) →
  d ∈ BlobDescriptor.Digest <$> plan.(DataTransferPlan.Blobs) →
  let src := plan.(DataTransferPlan.Source).(TransferLocation.URI) in
  let name := sourceName plan.(DataTransferPlan.Source).(TransferLocation.Path) b n in
  let uri := plan.(DataTransferPlan.Destination).(TransferLocation.URI) in
  let final := destinationName plan.(DataTransferPlan.Destination).(TransferLocation.Path) d in
  apart (src, name) (uri, final) ∧ apart (src, name) (uri, final +:+ ".partial").
End objects.

(** The content of an object is the one a digest names. *)
Definition matches `{Sha256} (digest content : string) : Prop :=
  sha256_hex content = trim_prefix "sha256:" digest.

(** Where blobs go: plain digests have their own names. *)
Definition destination_prefix (root : string) : string :=
  if bool_decide (root = "") then "" else join_prefix root.

Lemma destinationName_plain root d : plain d → destinationName root d = destination_prefix root +:+ d.
Proof.
  intros Hd. unfold destinationName, destination_prefix. case_bool_decide; [done|].
  by apply join_plain.
Qed.
Lemma destinationName_inj root d d' : plain d → plain d' →
  destinationName root d = destinationName root d' → d = d'.
Proof. intros H1 H2. rewrite !destinationName_plain by done. apply str_app_inv_l. Qed.
Lemma destinationName_partial root d d' : plain d → plain d' →
  destinationName root d' +:+ ".partial" ≠ destinationName root d.
Proof.
  intros H1 H2. rewrite !destinationName_plain, str_app_assoc by done.
  intros E%str_app_inv_l. by apply (plain_no_extension d' d "partial" H1).
Qed.

(** Where distinct names are distinct places, every destination is separated. *)
Lemma names_separated uri root : separated (≠) uri root.
Proof.
  split.
  - intros d b Hd Hb Hne [= E]. by apply Hne, (destinationName_inj root).
  - intros d b Hd Hb. split; intros [= E].
    + symmetry in E. exact (destinationName_partial _ d b Hd Hb E).
    + exact (destinationName_partial _ d b Hd Hb E).
  - intros d b Hd Hb Hne [= E]. apply str_app_inv_r in E. by apply Hne, (destinationName_inj root).
Qed.

Section verified.
Context {W : Type} `{Clock W} `{Sha256} (objects : W → string → string → option string).
Context (apart : string * string → string * string → Prop).
Context (clock_law : ∀ w n w', UnixNano w = (n, w') → same_objects objects w w').
Implicit Types (c sc dc : TransferConnector W) (run : DataTransferRun).

#[local] Instance same_objects_preorder : PreOrder (same_objects objects).
Proof. split; [by intros ???|]. intros w1 w2 w3 H1 H2 u n. by rewrite H2, H1. Qed.

Lemma verify_law c uri name d w r w' : faithful objects apart c → verify c (endpoint uri) name d w = (r, w') →
  same_objects objects w w' ∧
  (r = Ok true → ∃ s, objects w uri name = Some s ∧ matches d s).
Proof.
  intros Hc. unfold verify, ebindr.
  destruct (Exists c (endpoint uri) name w) as [[b|] w1] eqn:E1;
    apply (exists_quiet _ _ (faithful_quiet _ _ _ Hc)) in E1 as Hs1; [|by intros [= <- <-]].
  destruct b; simpl; [|by intros [= <- <-]].
  destruct (Open_ c (endpoint uri) name 0 w1) as [[rd|] w2] eqn:E2;
    (apply (open_quiet _ _ (faithful_quiet _ _ _ Hc)) in E2 as Hs2; [|done]); intros [= <- <-];
    (split; [by etrans|]); [|done].
  destruct (read_error rd) eqn:Ere; [done|]. intros Hv.
  apply (open_faithful _ _ _ Hc) in E2; [|done].
  exists rd.(bytes). rewrite <- (Hs1 _ _). split; [done|].
  injection Hv as Hv%bool_decide_eq_true. by rewrite trim_prefix_app in Hv.
Qed.

Lemma size_law c uri name w r w' : lawful objects apart c → size c (endpoint uri) name w = (r, w') →
  same_objects objects w w' ∧
  (∀ n, r = Ok n → n = Z.of_nat (str_length
     (default "" (objects w uri name)))).
Proof.
  intros Hc. unfold size, ebindr.
  destruct (Exists c (endpoint uri) name w) as [[b|] w1] eqn:E1;
    apply (exists_law _ _ _ Hc) in E1 as [Hs1 Hb]; [|by intros [= <- <-]].
  destruct b; simpl.
  - destruct (Open_ c (endpoint uri) name 0 w1) as [[rd|] w2] eqn:E2;
      (apply (open_law _ _ _ Hc) in E2 as [Hs2 Ho]; [|done]); intros [= <- <-];
      (split; [by etrans|]); [|done].
    destruct (read_error rd) eqn:Ere; [done|]. intros n [= <-].
    destruct (Ho rd eq_refl Ere) as (s & Hs & Hr). rewrite <- (Hs1 _ _), Hs. simpl.
    by rewrite Hr, drop_str_0.
  - intros [= <- <-]. split; [done|]. intros n [= <-]. by rewrite (Hb eq_refl).
Qed.

Lemma size_quiet c uri name w r w' : quiet_reads objects c → size c (endpoint uri) name w = (r, w') →
  same_objects objects w w' ∧ ∀ n, r = Ok n → 0 ≤ n.
Proof.
  intros Hc. unfold size, ebindr.
  destruct (Exists c (endpoint uri) name w) as [[b|] w1] eqn:E1;
    apply (exists_quiet _ _ Hc) in E1 as Hs1; [|by intros [= <- <-]].
  destruct b; simpl; [|intros [= <- <-]; split; [done|by intros n [= <-]]].
  destruct (Open_ c (endpoint uri) name 0 w1) as [[rd|] w2] eqn:E2;
    (apply (open_quiet _ _ Hc) in E2 as Hs2; [|done]); intros [= <- <-]; (split; [by etrans|]); [|done].
  destruct (read_error rd); [done|]. intros n [= <-]. lia.
Qed.

Lemma blob_size_law c uri name d w r w' : quiet_reads objects c → blob_size c (endpoint uri) name d w = (r, w') →
  same_objects objects w w'.
Proof.
  intros Hc. unfold blob_size. case_match; [|by intros [= <- <-]].
  intros E. by apply (size_quiet _ _ _ _ _ _ Hc E).
Qed.
(** What a copied blob leaves behind. *)
Lemma copy_blob_law sc dc plan n blob run w run' w' :
  quiet_reads objects sc → faithful objects apart dc →
  blob_apart apart plan blob.(BlobDescriptor.Digest) →
  copy_blob sc dc plan n blob run w = ((run', None), w') →
  let uri := plan.(DataTransferPlan.Destination).(TransferLocation.URI) in
  let final := destinationName plan.(DataTransferPlan.Destination).(TransferLocation.Path)
                 blob.(BlobDescriptor.Digest) in
  (∃ s, objects w' uri final = Some s ∧ matches blob.(BlobDescriptor.Digest) s) ∧
  ∀ u m, apart (u, m) (uri, final) → apart (u, m) (uri, final +:+ ".partial") →
    objects w' u m = objects w u m.
Proof.
  intros Hsc Hdc Happ. unfold copy_blob. cbn zeta. unfold ebind at 1.
  set (uri := TransferLocation.URI _). set (final := destinationName _ _).
  destruct (verify _ _ _ _ w) as [present w1] eqn:E1.
  apply (verify_law _ _ _ _ _ _ _ Hdc) in E1 as [Hs1 Hv].
  destruct (decide (present = Ok true)) as [->|Hne].
  { intros [= <- <-]. destruct (Hv eq_refl) as (s & Hs & Hm). split; [|by intros ????].
    exists s. by rewrite (Hs1 _ _). }
  assert (∀ A (a b : A), match present with Ok true => a | _ => b end = b) as Hcase.
  { intros A a b. destruct present as [[]|]; done. }
  rewrite Hcase. clear Hcase Hne Hv.
  unfold ebind at 1. destruct (size _ _ _ w1) as [[off|] w2] eqn:E2; [|done].
  apply (size_quiet _ _ _ _ _ _ (faithful_quiet _ _ _ Hdc)) in E2 as [Hs2 Hoff]. specialize (Hoff off eq_refl).
  unfold ebind at 1. destruct (Open_ _ _ _ _ w2) as [[rd|] w3] eqn:E3; [|done].
  apply (open_quiet _ _ Hsc) in E3 as Hs3; [|lia].
  unfold ebind at 1. destruct (Put _ _ _ _ _ w3) as [[u|] w4] eqn:E4; [|done].
  pose proof (put_faithful _ _ _ Hdc _ _ _ _ _ _ _ E4) as Hs4. simpl in Hs4. fold uri in Hs4.
  unfold ebind at 1. destruct (blob_size _ _ _ _ w4) as [[sz|] w5] eqn:E5; [|done].
  apply (blob_size_law _ _ _ _ _ _ _ Hsc) in E5 as Hs5.
  unfold ebind at 1. destruct (verify _ _ _ _ w5) as [[[]|] w6] eqn:E6; [|done..].
  apply (verify_law _ _ _ _ _ _ _ Hdc) in E6 as [Hs6 Hv].
  destruct (Hv eq_refl) as (s & Hs & Hm). clear Hv. simpl in Hs. fold uri in Hs.
  unfold ebind at 1. destruct (Commit_ _ _ _ _ w6) as [[u'|] w7] eqn:E7; [|done].
  apply (commit_faithful _ _ _ Hdc) in E7 as [Hs7 Hf]. simpl in Hs7, Hf. fold uri in Hs7, Hf.
  intros [= <- <-]. split.
  - exists s. rewrite (Hf Happ u' eq_refl), (Hs6 _ _). done.
  - intros u0 m Hn1 Hn2. by rewrite Hs7, (Hs6 _ _), (Hs5 _ _), Hs4, (Hs3 _ _), (Hs2 _ _), (Hs1 _ _).
Qed.

Lemma copy_blobs_law sc dc plan n blobs (before : list string) run w run' w' :
  quiet_reads objects sc → faithful objects apart dc →
  Forall plain (blob_digests blobs) → Forall plain before →
  separated apart plan.(DataTransferPlan.Destination).(TransferLocation.URI)
    plan.(DataTransferPlan.Destination).(TransferLocation.Path) →
  copy_blobs sc dc plan n blobs run w = ((run', None), w') →
  let uri := plan.(DataTransferPlan.Destination).(TransferLocation.URI) in
  let root := plan.(DataTransferPlan.Destination).(TransferLocation.Path) in
  let ok w d := ∃ s, objects w uri (destinationName root d) = Some s ∧ matches d s in
  Forall (ok w) before → Forall (ok w') (before ++ blob_digests blobs).
Proof.
  intros Hsc Hdc. revert before run w.
  induction blobs as [|b blobs IH]; intros before run w Hp Hb Hsep; simpl.
  { intros [= <- <-]. by rewrite app_nil_r. }
  unfold blob_digests in Hp. apply Forall_cons in Hp as [Hpb Hp].
  unfold ebind. destruct (copy_blob _ _ _ _ _ _ _) as [[run1 [e|]] w1] eqn:E; [done|].
  intros Hr Hok. apply copy_blob_law in E as [Hd Hother]; [|done|done|by apply Hsep].
  change (before ++ b.(BlobDescriptor.Digest) :: blob_digests blobs) with
    (before ++ [b.(BlobDescriptor.Digest)] ++ blob_digests blobs).
  rewrite app_assoc. eapply IH; [done| |done|done|].
  - apply Forall_app. split; [done|by apply Forall_singleton].
  - apply Forall_app. split; [|by apply Forall_singleton].
    rewrite Forall_forall in Hok, Hb |- *. intros d Hin.
    destruct (decide (d = b.(BlobDescriptor.Digest))) as [->|Hne]; [done|].
    destruct (Hok d Hin) as (s & Hs & Hm). exists s. split; [|done].
    rewrite Hother; [done| |].
    + by apply Hsep; auto.
    + by apply Hsep; auto.
Qed.

Lemma blobs_match connectors plan target w t run w' :
  (∀ sc, connector connectors (endpoint plan.(DataTransferPlan.Source).(TransferLocation.URI)) = Ok sc →
     quiet_reads objects sc) →
  (∀ dc, connector connectors (endpoint plan.(DataTransferPlan.Destination).(TransferLocation.URI)) = Ok dc →
     faithful objects apart dc) →
  Forall plain (blob_digests plan.(DataTransferPlan.Blobs)) →
  separated apart plan.(DataTransferPlan.Destination).(TransferLocation.URI)
    plan.(DataTransferPlan.Destination).(TransferLocation.Path) →
  Materialize connectors plan target w = ((t, run, None), w') →
  ∀ blob, blob ∈ plan.(DataTransferPlan.Blobs) →
  ∃ s, objects w' plan.(DataTransferPlan.Destination).(TransferLocation.URI)
         (destinationName plan.(DataTransferPlan.Destination).(TransferLocation.Path)
            blob.(BlobDescriptor.Digest)) = Some s ∧ matches blob.(BlobDescriptor.Digest) s.
Proof.
  intros Hqs Hfs Hp Hsep. unfold Materialize.
  destruct (connector _ (endpoint plan.(DataTransferPlan.Source).(TransferLocation.URI)))
    as [sc|] eqn:Esc; [|done].
  destruct (connector _ (endpoint plan.(DataTransferPlan.Destination).(TransferLocation.URI)))
    as [dc|] eqn:Edc; [|done].
  specialize (Hqs sc eq_refl). specialize (Hfs dc eq_refl).
  cbn zeta. case_bool_decide.
  { set (r0 := set_field _ _ _). destruct (failed_ok target r0
      (errorf "destination-pull requires a destination transfer agent" []) w)
      as (run1 & w1 & -> & _). done. }
  unfold ebind at 1. destruct (unixNow w) as [started w1].
  unfold ebind at 1. destruct (copy_blobs _ _ _ _ _ _ _) as [[run1 [e|]] w2] eqn:E.
  { destruct (failed_ok target run1 e w2) as (run2 & w3 & -> & _). done. }
  unfold ebind, unixNow, ebind. destruct (UnixNano w2) as [now w3] eqn:En.
  intros [= <- <- <-] blob Hin.
  apply (copy_blobs_law _ _ _ _ _ []) in E; [|by auto|by auto|done|constructor|done|constructor].
  simpl in E. rewrite Forall_forall in E.
  destruct (E blob.(BlobDescriptor.Digest)) as (s & Hs & Hm).
  { unfold blob_digests. by apply list_elem_of_fmap_2. }
  exists s. by rewrite (clock_law _ _ _ En).
Qed.

End verified.

(** ** Progress over endpoints that answer *)
Section progress.
Context {W : Type} `{Clock W} `{Sha256} (objects : W → string → string → option string).
Context (apart : string * string → string * string → Prop).
Context (clock_law : ∀ w n w', UnixNano w = (n, w') → same_objects objects w w').
Implicit Types (c sc dc : TransferConnector W) (run : DataTransferRun).

Lemma verify_ok c uri P name d w : readable objects apart c uri P → P name →
  ∃ b w', verify c (endpoint uri) name d w = (Ok b, w') ∧
    (b = true ↔ ∃ s, objects w uri name = Some s ∧ matches d s).
Proof.
  intros [Hl Hex Hop] HP. unfold verify, ebindr. specialize (Hex name w HP).
  destruct (Exists c (endpoint uri) name w) as [[b|] w1] eqn:E1; [|done].
  apply (exists_law _ _ _ Hl) in E1 as [Hs1 _]. injection Hex as Hb. destruct b; simpl.
  - symmetry in Hb. apply bool_decide_eq_true in Hb as [s Hs].
    destruct (Hop name 0 w1 HP) as (rd & Hrd & Hre); [done|rewrite (Hs1 _ _); eauto|].
    destruct (Open_ c (endpoint uri) name 0 w1) as [r w2] eqn:E2. simpl in Hrd. subst r.
    apply (open_law _ _ _ Hl) in E2 as [_ Ho]; [|done]. destruct (Ho rd eq_refl Hre) as (s' & Hs' & Hby).
    rewrite (Hs1 _ _), Hs in Hs'. injection Hs' as <-. rewrite Hre. eexists _, _.
    split; [reflexivity|]. rewrite bool_decide_eq_true, trim_prefix_app, Hby, drop_str_0.
    rewrite Hs. unfold matches. naive_solver.
  - exists false, w1. split; [done|]. symmetry in Hb. apply bool_decide_eq_false in Hb.
    split; [done|]. intros (s & Hs & _). destruct Hb. eauto.
Qed.

Lemma size_ok c uri P name w : readable objects apart c uri P → P name →
  ∃ w', size c (endpoint uri) name w = (Ok (Z.of_nat (str_length
    (default "" (objects w uri name)))), w').
Proof.
  intros Hr HP. destruct (size c (endpoint uri) name w) as [r w'] eqn:E.
  pose proof (size_law objects apart c uri name w r w' (readable_lawful _ _ _ _ _ Hr) E) as [_ Hn].
  destruct r as [n|err]; [rewrite (Hn n eq_refl); eauto|]. exfalso.
  destruct Hr as [Hl Hex Hop]. revert E. unfold size, ebindr. specialize (Hex name w HP).
  destruct (Exists c (endpoint uri) name w) as [[b|] w1] eqn:E1; [|done].
  apply (exists_law _ _ _ Hl) in E1 as [Hs1 _]. injection Hex as Hb. destruct b; simpl; [|done].
  symmetry in Hb. apply bool_decide_eq_true in Hb.
  destruct (Hop name 0 w1 HP) as (rd & Hrd & Hre); [done|by rewrite (Hs1 _ _)|].
  destruct (Open_ c (endpoint uri) name 0 w1) as [r w2]. simpl in Hrd. subst r. by rewrite Hre.
Qed.

Lemma blob_size_ok c uri P name d w : readable objects apart c uri P → P name →
  ∃ n w', blob_size c (endpoint uri) name d w = (Ok n, w').
Proof.
  intros Hr HP. unfold blob_size. case_match; [|by eexists _, _].
  destruct (size_ok c uri P name w Hr HP) as [w' ->]. eauto.
Qed.

(** The names a plan uses at its two endpoints. *)
Definition source_names (plan : DataTransferPlan) (n : Z) (name : string) : Prop :=
  ∃ d, d ∈ blob_digests plan.(DataTransferPlan.Blobs) ∧
    name = sourceName plan.(DataTransferPlan.Source).(TransferLocation.Path) d n.
Definition destination_names (plan : DataTransferPlan) (name : string) : Prop :=
  ∃ d, d ∈ blob_digests plan.(DataTransferPlan.Blobs) ∧
    let final := destinationName plan.(DataTransferPlan.Destination).(TransferLocation.Path) d in
    (name = final ∨ name = final +:+ ".partial").

(** The source holds the blob, and what is at the destination, if anything, is a
    part of it. *)
Definition can_resume (plan : DataTransferPlan) (n : Z) (w : W) (d : string) : Prop :=
  let uri := plan.(DataTransferPlan.Destination).(TransferLocation.URI) in
  let final := destinationName plan.(DataTransferPlan.Destination).(TransferLocation.Path) d in
  ∃ s, objects w plan.(DataTransferPlan.Source).(TransferLocation.URI)
         (sourceName plan.(DataTransferPlan.Source).(TransferLocation.Path) d n) = Some s ∧
    matches d s ∧
    ((∃ s', objects w uri final = Some s' ∧ matches d s') ∨
     ∀ p, objects w uri (final +:+ ".partial") = Some p → ∃ q, s = p +:+ q).

Lemma copy_blob_progress sc dc plan n blob run w :
  readable objects apart sc plan.(DataTransferPlan.Source).(TransferLocation.URI) (source_names plan n) →
  readable objects apart dc plan.(DataTransferPlan.Destination).(TransferLocation.URI) (destination_names plan) →
  writable objects dc plan.(DataTransferPlan.Destination).(TransferLocation.URI) (destination_names plan) →
  blob ∈ plan.(DataTransferPlan.Blobs) →
  can_resume plan n w blob.(BlobDescriptor.Digest) →
  ∃ run' w', copy_blob sc dc plan n blob run w = ((run', None), w').
Proof.
  intros Hsc Hdc Hwr Hin (s & Hsrc & Hm & Hres). unfold copy_blob. cbn zeta.
  pose proof (list_elem_of_fmap_2 BlobDescriptor.Digest _ _ Hin) as Hd.
  assert (source_names plan n (sourceName plan.(DataTransferPlan.Source).(TransferLocation.Path)
    blob.(BlobDescriptor.Digest) n)) as HPs by (by exists blob.(BlobDescriptor.Digest)).
  assert (∀ name, let final := destinationName plan.(DataTransferPlan.Destination).(TransferLocation.Path)
    blob.(BlobDescriptor.Digest) in name = final ∨ name = final +:+ ".partial" → destination_names plan name) as HPd
    by (intros name final ?; by exists blob.(BlobDescriptor.Digest)).
  pose proof (lawful_faithful _ _ _ (readable_lawful _ _ _ _ _ Hdc)) as Hfd.
  set (src := TransferLocation.URI (DataTransferPlan.Source plan)) in *.
  set (uri := TransferLocation.URI (DataTransferPlan.Destination plan)) in *.
  set (final := destinationName _ _) in *. set (name := sourceName _ _ _) in *.
  unfold ebind at 1.
  destruct (verify_ok dc uri _ final blob.(BlobDescriptor.Digest) w Hdc (HPd _ (or_introl eq_refl)))
    as (present & w1 & E1 & Hiff). rewrite E1. destruct present; [by eexists _, _|].
  apply (verify_law objects apart _ _ _ _ _ _ _ Hfd) in E1 as [Hs1 _].
  destruct Hres as [Hfin|Hres]; [by apply Hiff in Hfin|]. clear Hiff.
  unfold ebind at 1. destruct (size_ok dc uri _ (final +:+ ".partial") w1 Hdc (HPd _ (or_intror eq_refl))) as [w2 E2].
  rewrite E2. apply (size_quiet objects _ _ _ _ _ _ (faithful_quiet _ _ _ Hfd)) in E2 as [Hs2 _].
  simpl. rewrite (Hs1 _ _). set (p := default "" (objects w uri (final +:+ ".partial"))).
  assert (∃ q, s = p +:+ q) as [q Hq].
  { unfold p. destruct (objects w uri _) as [p0|]; simpl; [by apply Hres|by exists s]. }
  unfold ebind at 1.
  destruct (open_ok _ _ _ _ _ Hsc name (Z.of_nat (str_length p)) w2 HPs) as (rd & Hrd & Hre); [lia| |].
  { simpl. rewrite (Hs2 _ _), (Hs1 _ _). eauto. }
  destruct (Open_ sc (endpoint src) name _ w2) as [r w3] eqn:E3. simpl in Hrd. subst r.
  apply (open_law _ _ _ (readable_lawful _ _ _ _ _ Hsc)) in E3 as [Hs3 Ho]; [|lia].
  destruct (Ho rd eq_refl Hre) as (s' & Hs' & Hby). simpl in Hs'.
  rewrite (Hs2 _ _), (Hs1 _ _), Hsrc in Hs'. injection Hs' as <-.
  rewrite Nat2Z.id in Hby. rewrite Hq, drop_str_app in Hby.
  unfold ebind at 1.
  pose proof (put_ok _ _ _ _ Hwr (final +:+ ".partial") rd
    (Z.of_nat (str_length p)) w3 (HPd _ (or_intror eq_refl)) ltac:(lia) Hre) as Hput.
  destruct (Put dc _ _ _ _ w3) as [[u|] w4] eqn:E4; [|done].
  apply (put_law _ _ _ (readable_lawful _ _ _ _ _ Hdc)) in E4 as [Hs4 Hp4].
  destruct (Hp4 ltac:(right; simpl; by rewrite (Hs3 _ _), (Hs2 _ _), (Hs1 _ _)) u eq_refl) as [_ Hp4'].
  simpl in Hp4'. clear Hp4.
  rewrite (Hs3 _ _), (Hs2 _ _), (Hs1 _ _) in Hp4'. fold p in Hp4'.
  rewrite Nat2Z.id, take_str_all, Hby, <- Hq in Hp4'.
  unfold ebind at 1.
  destruct (blob_size_ok sc src _ name blob.(BlobDescriptor.SizeBytes) w4 Hsc HPs)
    as (sz & w5 & E5). rewrite E5.
  apply (blob_size_law objects _ _ _ _ _ _ _
    (faithful_quiet _ _ _ (lawful_faithful _ _ _ (readable_lawful _ _ _ _ _ Hsc)))) in E5 as Hs5.
  unfold ebind at 1.
  destruct (verify_ok dc uri _ (final +:+ ".partial") blob.(BlobDescriptor.Digest) w5 Hdc (HPd _ (or_intror eq_refl)))
    as (ok & w6 & E6 & Hiff). rewrite E6.
  assert (ok = true) as ->.
  { apply Hiff. exists s. simpl. by rewrite (Hs5 _ _). }
  apply (verify_law objects apart _ _ _ _ _ _ _ Hfd) in E6 as [Hs6 _].
  unfold ebind.
  pose proof (commit_ok _ _ _ _ Hwr (final +:+ ".partial") final w6 (HPd _ (or_intror eq_refl))
    (HPd _ (or_introl eq_refl))) as Hc.
  simpl in Hc. rewrite (Hs6 _ _), (Hs5 _ _), Hp4' in Hc. specialize (Hc ltac:(eauto)).
  destruct (Commit_ dc _ _ _ w6) as [[u'|] w7]; [|done]. eexists _, _. reflexivity.
Qed.

Lemma can_resume_step sc dc plan n blob d run w run' w' :
  quiet_reads objects sc → faithful objects apart dc →
  separated apart plan.(DataTransferPlan.Destination).(TransferLocation.URI)
    plan.(DataTransferPlan.Destination).(TransferLocation.Path) → source_apart apart plan n →
  d ∈ blob_digests plan.(DataTransferPlan.Blobs) → blob ∈ plan.(DataTransferPlan.Blobs) →
  plain d → plain blob.(BlobDescriptor.Digest) →
  copy_blob sc dc plan n blob run w = ((run', None), w') →
  can_resume plan n w d → can_resume plan n w' d.
Proof.
  intros Hsc Hdc Hsep Hsource Hdin Hbin Hd Hb E (s & Hs & Hm & Hr).
  apply (copy_blob_law objects apart) in E as [Hfin Hother]; [|done|done|by apply Hsep].
  pose proof (Hsource d _ Hdin (list_elem_of_fmap_2 _ _ _ Hbin)) as [Ha1 Ha2].
  exists s. split; [by rewrite Hother|]. split; [done|].
  destruct (decide (d = blob.(BlobDescriptor.Digest))) as [->|Hne]; [by left|].
  destruct Hr as [(s' & Hs' & Hm')|Hr]; [left|right].
  - exists s'. split; [|done]. rewrite Hother; [done|by apply Hsep..].
  - intros p. rewrite Hother; [apply Hr|by apply Hsep..].
Qed.

Lemma copy_blobs_progress sc dc plan n blobs run w :
  readable objects apart sc plan.(DataTransferPlan.Source).(TransferLocation.URI) (source_names plan n) →
  readable objects apart dc plan.(DataTransferPlan.Destination).(TransferLocation.URI) (destination_names plan) →
  writable objects dc plan.(DataTransferPlan.Destination).(TransferLocation.URI) (destination_names plan) →
  blobs ⊆ plan.(DataTransferPlan.Blobs) →
  separated apart plan.(DataTransferPlan.Destination).(TransferLocation.URI)
    plan.(DataTransferPlan.Destination).(TransferLocation.Path) → source_apart apart plan n →
  Forall plain (blob_digests blobs) → Forall (can_resume plan n w) (blob_digests blobs) →
  ∃ run' w', copy_blobs sc dc plan n blobs run w = ((run', None), w').
Proof.
  intros Hsc Hdc Hwr Hsub Hsep Hsource. revert run w. induction blobs as [|b blobs IH]; intros run w Hp Hr; simpl.
  { by eexists _, _. }
  unfold blob_digests in Hp, Hr. apply Forall_cons in Hp as [Hpb Hp], Hr as [Hrb Hr].
  destruct (copy_blob_progress sc dc plan n b run w Hsc Hdc Hwr) as (run1 & w1 & E); [apply Hsub; by left|done|].
  unfold ebind. rewrite E. apply IH; [intros x Hx; apply Hsub; by right|done|].
  assert (blob_digests (b :: blobs) ⊆ blob_digests plan.(DataTransferPlan.Blobs)) as Hdig.
  { intros x (y & -> & Hy)%list_elem_of_fmap. by apply list_elem_of_fmap_2, Hsub. }
  rewrite Forall_forall in Hp, Hr |- *. intros d Hin.
  by apply (can_resume_step sc dc plan n b d run w run1 w1
    (faithful_quiet _ _ _ (lawful_faithful _ _ _ (readable_lawful _ _ _ _ _ Hsc)))
    (lawful_faithful _ _ _ (readable_lawful _ _ _ _ _ Hdc)) Hsep Hsource
    (Hdig d (list_elem_of_further _ _ _ Hin)) (Hsub b (list_elem_of_here _ _)) (Hp d Hin) Hpb E), Hr.
Qed.

Definition routed (connectors : list (TransferConnector W)) (uri : string) : Prop :=
  is_ok (connector connectors (endpoint uri)) = true.

(** When the source still holds the blobs and what an earlier attempt left at the
    destination is a part of them, a materialization over endpoints that answer
    completes. *)
Lemma resumed_materialization connectors sc dc plan target w :
  connector connectors (endpoint plan.(DataTransferPlan.Source).(TransferLocation.URI)) = Ok sc →
  connector connectors (endpoint plan.(DataTransferPlan.Destination).(TransferLocation.URI)) = Ok dc →
  readable objects apart sc plan.(DataTransferPlan.Source).(TransferLocation.URI)
    (source_names plan (Z.of_nat (length plan.(DataTransferPlan.Blobs)))) →
  readable objects apart dc plan.(DataTransferPlan.Destination).(TransferLocation.URI) (destination_names plan) →
  writable objects dc plan.(DataTransferPlan.Destination).(TransferLocation.URI) (destination_names plan) →
  TransferStrategy_string plan.(DataTransferPlan.Strategy) ≠ "destination-pull" →
  separated apart plan.(DataTransferPlan.Destination).(TransferLocation.URI)
    plan.(DataTransferPlan.Destination).(TransferLocation.Path) →
  source_apart apart plan (Z.of_nat (length plan.(DataTransferPlan.Blobs))) →
  Forall plain (blob_digests plan.(DataTransferPlan.Blobs)) →
  Forall (can_resume plan (Z.of_nat (length plan.(DataTransferPlan.Blobs))) w)
    (blob_digests plan.(DataTransferPlan.Blobs)) →
  ∃ t run w', Materialize connectors plan target w = ((t, run, None), w').
Proof.
  intros Esc Edc Hsc Hdc Hwr Hpull Hsep Hsource Hp Hr. unfold Materialize.
  rewrite Esc, Edc. cbn zeta.
  rewrite bool_decide_false; last (unfold effective_strategy; by case_bool_decide).
  unfold ebind at 1. destruct (unixNow w) as [started w1] eqn:En.
  assert (same_objects objects w w1) as Hs1.
  { revert En. unfold unixNow, ebind. destruct (UnixNano w) eqn:E. intros [= _ <-]. eauto. }
  unfold ebind at 1. set (run0 := set_field _ _ _).
  destruct (copy_blobs_progress sc dc plan (Z.of_nat (length plan.(DataTransferPlan.Blobs)))
    plan.(DataTransferPlan.Blobs) run0 w1) as (run1 & w2 & ->); auto.
  { eapply Forall_impl; [done|]. intros d (s & H1 & H2 & H3). exists s.
    rewrite !(Hs1 _ _). by split_and!. }
  unfold ebind. destruct (unixNow w2). by eexists _, _, _.
Qed.

End progress.

(** ** A damaged partial copy *)
Section stuck.
Context {W : Type} `{Clock W} `{Sha256} (objects : W → string → string → option string).
Context (apart : string * string → string * string → Prop).
Context (clock_law : ∀ w n w', UnixNano w = (n, w') → same_objects objects w w').

(** The partial copy of [blob] begins with [p], which no content of its digest
    begins with, and the blob is not in place. *)
Definition damaged (plan : DataTransferPlan) (d p : string) (w : W) : Prop :=
  let uri := plan.(DataTransferPlan.Destination).(TransferLocation.URI) in
  let final := destinationName plan.(DataTransferPlan.Destination).(TransferLocation.Path) d in
  (∀ q, ¬ matches d (p +:+ q)) ∧
  (∀ s, objects w uri final = Some s → ¬ matches d s) ∧
  ∃ q, objects w uri (final +:+ ".partial") = Some (p +:+ q).

Lemma damaged_same plan d p w w' : same_objects objects w w' →
  damaged plan d p w → damaged plan d p w'.
Proof. intros Hs (H1 & H2 & H3). unfold damaged. rewrite !(Hs _ _). auto. Qed.

Lemma copy_blob_damaged sc dc plan n blob p run w run' err w' :
  lawful objects apart sc → lawful objects apart dc → blob_apart apart plan blob.(BlobDescriptor.Digest) →
  damaged plan blob.(BlobDescriptor.Digest) p w →
  copy_blob sc dc plan n blob run w = ((run', err), w') →
  err ≠ None ∧ damaged plan blob.(BlobDescriptor.Digest) p w'.
Proof.
  intros Hsc Hdc Happ Hd. unfold copy_blob. cbn zeta. unfold ebind at 1.
  set (uri := TransferLocation.URI (DataTransferPlan.Destination plan)).
  set (final := destinationName _ _).
  destruct (verify _ _ _ _ w) as [present w1] eqn:E1.
  apply (verify_law objects apart _ _ _ _ _ _ _ (lawful_faithful _ _ _ Hdc)) in E1 as [Hs1 Hv].
  destruct (decide (present = Ok true)) as [->|Hne].
  { destruct (Hv eq_refl) as (s & Hs & Hm). exfalso. destruct Hd as (_ & Hd & _).
    by apply (Hd s). }
  assert (∀ A (a b : A), match present with Ok true => a | _ => b end = b) as Hcase.
  { intros A a b. destruct present as [[]|]; done. }
  rewrite Hcase. clear Hcase Hne Hv. apply (damaged_same _ _ _ _ _ Hs1) in Hd.
  unfold ebind at 1. destruct (size _ _ _ w1) as [[off|] w2] eqn:E2;
    apply (size_law objects apart _ _ _ _ _ _ Hdc) in E2 as [Hs2 Hoff];
    [|intros [= <- <- <-]; eauto using damaged_same].
  specialize (Hoff off eq_refl). apply (damaged_same _ _ _ _ _ Hs2) in Hd as Hd2.
  unfold ebind at 1. destruct (Open_ _ _ _ _ w2) as [[rd|] w3] eqn:E3;
    (apply (open_law _ _ _ Hsc) in E3 as [Hs3 _]; [|lia]);
    [|intros [= <- <- <-]; eauto using damaged_same].
  apply (damaged_same _ _ _ _ _ Hs3) in Hd2.
  unfold ebind at 1. destruct (Put _ _ _ _ _ w3) as [r w4] eqn:E4.
  pose proof (put_prefix _ _ _ Hdc _ _ _ _ _ _ _ E4
    ltac:(right; by rewrite (Hs3 _ _), (Hs2 _ _))) as Hpre.
  apply (put_law _ _ _ Hdc) in E4 as [Hs4 _]. simpl in Hs4, Hpre, Hoff. fold uri in Hs4, Hpre, Hoff.
  assert (damaged plan blob.(BlobDescriptor.Digest) p w4) as Hd4.
  { destruct Hd2 as (H1 & H2 & q & Hq). split; [done|]. fold uri final in H2, Hq |- *. split.
    - intros s. rewrite Hs4; [apply H2|exact Happ].
    - destruct Hpre as [->|[t ->]]; [eauto|]. rewrite Hq. simpl.
      assert (objects w1 uri (final +:+ ".partial") = Some (p +:+ q)) as Hq1.
      { by rewrite <- (Hs2 _ _), <- (Hs3 _ _). }
      rewrite Hq1 in Hoff. simpl in Hoff. rewrite Hoff, Nat2Z.id, take_str_all, str_app_assoc.
      eauto. }
  destruct r as [u|]; [|by intros [= <- <- <-]].
  unfold ebind at 1. destruct (blob_size _ _ _ _ w4) as [[sz|] w5] eqn:E5;
    apply (blob_size_law objects _ _ _ _ _ _ _ (faithful_quiet _ _ _ (lawful_faithful _ _ _ Hsc))) in E5 as Hs5;
    [|intros [= <- <- <-]; eauto using damaged_same].
  apply (damaged_same _ _ _ _ _ Hs5) in Hd4.
  unfold ebind at 1. destruct (verify _ _ _ _ w5) as [ok w6] eqn:E6.
  apply (verify_law objects apart _ _ _ _ _ _ _ (lawful_faithful _ _ _ Hdc)) in E6 as [Hs6 Hv].
  destruct ok as [[]|]; [|intros [= <- <- <-]; eauto using damaged_same..].
  destruct (Hv eq_refl) as (s & Hs & Hm). exfalso. simpl in Hs. fold uri in Hs.
  destruct Hd4 as (H1 & _ & q & Hq). fold uri final in Hq. rewrite Hq in Hs.
  injection Hs as <-. by apply (H1 q).
Qed.

(** A damaged partial copy blocks a materialization for ever: once the partial
    object begins with bytes its digest does not allow, every attempt fails and
    leaves it there, since a checksum mismatch does not discard it and the next
    attempt resumes after it. *)
Theorem damaged_partial_blocks connectors plan blob p target w t run err w' :
  Forall (lawful objects apart) connectors →
  plan.(DataTransferPlan.Blobs) = [blob] → blob_apart apart plan blob.(BlobDescriptor.Digest) →
  damaged plan blob.(BlobDescriptor.Digest) p w →
  Materialize connectors plan target w = ((t, run, err), w') →
  err ≠ None ∧ damaged plan blob.(BlobDescriptor.Digest) p w'.
Proof.
  intros Hc Hb Happ Hd. unfold Materialize.
  destruct (connector _ (endpoint plan.(DataTransferPlan.Source).(TransferLocation.URI)))
    as [sc|] eqn:Esc; [|by intros [= <- <- <- <-]].
  destruct (connector _ (endpoint plan.(DataTransferPlan.Destination).(TransferLocation.URI)))
    as [dc|] eqn:Edc; [|by intros [= <- <- <- <-]].
  apply connector_in in Esc, Edc. rewrite Forall_forall in Hc. cbn zeta.
  assert (∀ run e w1 t1 run1 err1 w2, damaged plan blob.(BlobDescriptor.Digest) p w1 →
    failed target run e w1 = ((t1, run1, err1), w2) →
    err1 ≠ None ∧ damaged plan blob.(BlobDescriptor.Digest) p w2) as Hfail.
  { intros run0 e w1 t1 run1 err1 w2 Hd1. unfold failed. case_match.
    - unfold ebind, unixNow, ebind. destruct (UnixNano w1) as [now w3] eqn:En.
      intros [= <- <- <- <-]. split; [done|]. eauto using damaged_same.
    - by intros [= <- <- <- <-]. }
  case_bool_decide; [by apply Hfail|].
  unfold ebind at 1, unixNow, ebind at 1. destruct (UnixNano w) as [started w1] eqn:En.
  apply (damaged_same _ _ _ _ _ (clock_law _ _ _ En)) in Hd.
  unfold eret at 1. rewrite Hb. simpl copy_blobs. unfold ebind at 2.
  unfold ebind at 1. destruct (copy_blob _ _ _ _ _ _ _) as [[run1 err1] w2] eqn:E.
  apply (copy_blob_damaged _ _ _ _ _ p) in E as [He Hd2]; [|by auto..].
  destruct err1 as [e|]; [|done]. unfold eret at 1. by apply Hfail.
Qed.
End stuck.

(** ** The coordinator *)
Section prepared.
Context {W : Type} `{Clock W} `{Sha256, MapOrder}.
Context (connectors : list (TransferConnector W)) (catalog : option (MaterializationCatalog W)).

(** The coordinator is the supervisor's [PreparationCoordinator]. *)
Definition coordinator (salt : nat) : PreparationCoordinator W :=
  Some (Prepare connectors catalog salt).

Lemma prepare_artifact_ok req w ex runs w' :
  prepare_artifact connectors catalog req w = (Ok (ex, runs), w') →
  match req.(PreparationRequirement.Artifact) with
  | None => ex = None
  | Some a => ex = Some (a <| ArtifactMaterialization.Status := MaterializationCommitted |>
      <| ArtifactMaterialization.VerifiedDigest := a.(ArtifactMaterialization.Digest) |>)
  end.
Proof.
  unfold prepare_artifact. destruct (PreparationRequirement.Artifact req) as [a|];
    [|by intros [= <- <- <-]].
  destruct (PreparationRequirement.ArtifactTransfer req) as [plan|]; [|done]. cbn zeta.
  unfold ebind at 1. destruct (save _ _ _) as [[u|] w1]; [|done].
  unfold ebind at 1. set (init := set_field _ _ _).
  destruct (Materialize _ _ _ _) as [[[t run] err] w2] eqn:E.
  unfold ebind at 1. destruct (saveTransfer _ _ _) as [[u2|] w3]; [|done].
  unfold ebind at 1. destruct (save _ _ _) as [[u3|] w4]; [|done].
  destruct err; [done|]. intros [= <- <- <-].
  apply materialize_result in E as [-> _]. done.
Qed.

Lemma prepare_workspace_ok salt req w wsp runs w' :
  prepare_workspace connectors salt req w = (Ok (wsp, runs), w') →
  match req.(PreparationRequirement.Workspace) with
  | None => wsp = None
  | Some ws => ∃ plan ws', req.(PreparationRequirement.WorkspaceTransfer) = Some plan ∧
      wsp = Some ws' ∧
      ws'.(WorkspaceMaterialization.Status) = MaterializationCommitted ∧
      ws'.(WorkspaceMaterialization.Verified) = blob_digests plan.(DataTransferPlan.Blobs) ∧
      ∀ b, b ∈ ws.(WorkspaceMaterialization.Missing) →
        b.(BlobDescriptor.Digest) ∈ blob_digests plan.(DataTransferPlan.Blobs)
  end.
Proof.
  unfold prepare_workspace. destruct (PreparationRequirement.Workspace req) as [ws|];
    [|by intros [= <- <- <-]].
  destruct (PreparationRequirement.WorkspaceTransfer req) as [plan|]; [|done]. cbn zeta.
  set (ws1 := if bool_decide _ then _ else ws).
  unfold ebind at 1. set (init := set_field _ _ _).
  destruct (Materialize _ _ _ _) as [[[t run] [e|]] w2] eqn:E; [done|].
  destruct (negb _); [done|].
  apply materialize_result in E as [_ Hv].
  destruct (Commit salt ws1 _) as [ws2 [[]|]] eqn:Ec; [|done].
  intros [= <- <- <-]. apply Commit_ok in Ec as [-> Hm]. rewrite Hv in Hm.
  exists plan. eexists. split_and!; [done..|]. intros b Hb. apply Hm. unfold ws1.
  rewrite bool_decide_false by (intros E0; rewrite E0 in Hb; by apply elem_of_nil in Hb).
  unfold blob_digests. by apply list_elem_of_fmap_2.
Qed.

(** C21: The coordinator returns a gate or an error, never neither, and every gate it
    returns passes the barrier of the activity controller: the executable it was
    asked for is committed under its own digest, and a workspace is committed with
    every blob it was missing among those the transfer verified. *)
Theorem prepare_gate_committed salt key req w o w' :
  Prepare connectors catalog salt key req w = (Ok o, w') →
  ∃ gate, o = Some gate ∧ Controller.all_committed gate ∧ Ready gate = Ok tt ∧
    gate.(PreparationGate.Executable) =
      (λ a, a <| ArtifactMaterialization.Status := MaterializationCommitted |>
              <| ArtifactMaterialization.VerifiedDigest := a.(ArtifactMaterialization.Digest) |>)
      <$> req.(PreparationRequirement.Artifact) ∧
    (∀ ws, req.(PreparationRequirement.Workspace) = Some ws →
       ∃ ws', gate.(PreparationGate.Workspace) = Some ws' ∧
         ∀ b, b ∈ ws.(WorkspaceMaterialization.Missing) →
           b.(BlobDescriptor.Digest) ∈ ws'.(WorkspaceMaterialization.Verified)).
Proof.
  unfold Prepare, ebindr. destruct (prepare_artifact _ _ _ _) as [[[ex r1]|] w1] eqn:E1; [|done].
  apply prepare_artifact_ok in E1.
  destruct (prepare_workspace _ _ _ _) as [[[wsp r2]|] w2] eqn:E2; [|done].
  apply prepare_workspace_ok in E2. set (gate := PreparationGate.mk _ _ _).
  destruct (Ready gate) as [[]|] eqn:Er; [|done]. intros [= <- <-]. exists gate.
  split; [done|]. split; [by apply Controller.Ready_spec|]. split; [done|]. split.
  - simpl. by destruct (PreparationRequirement.Artifact req).
  - intros ws Hws. rewrite Hws in E2. destruct E2 as (plan & ws' & _ & -> & _ & Hv & Hb).
    exists ws'. split; [done|]. intros b Hin. rewrite Hv. auto.
Qed.
End prepared.

(** ** A plan without blobs *)
Section unread.
Context {W : Type} `{Clock W} `{Sha256}.

(** A plan with no blob is committed unread. The planner makes one when source
    and destination are the same place or every blob is announced as available;
    materializing it touches no connector beyond choosing it, reads nothing, and
    still reports the artifact as committed and verified under its digest. *)
Theorem empty_plan_commits_unread connectors source destination blobs available
    (target : ArtifactMaterialization) (w : W) :
  routed connectors source.(TransferLocation.URI) →
  routed connectors destination.(TransferLocation.URI) →
  (source.(TransferLocation.URI) = destination.(TransferLocation.URI) ∧
     source.(TransferLocation.Path) = destination.(TransferLocation.Path) ∨
   ∀ b, b ∈ blobs → lookup_zero available b.(BlobDescriptor.Digest) = true) →
  target.(ArtifactMaterialization.Digest) ≠ "" →
  ∃ t run, Materialize connectors (Plan source destination blobs available) target w =
      ((t, run, None), (unixNow (unixNow w).2).2) ∧
    Committed t = true ∧
    t.(ArtifactMaterialization.VerifiedDigest) = target.(ArtifactMaterialization.Digest) ∧
    run.(DataTransferRun.VerifiedBlobs) = [].
Proof.
  intros Hsrc Hdst Hplan Hd.
  set (plan := Plan source destination blobs available).
  assert (plan.(DataTransferPlan.Blobs) = [] ∧ plan.(DataTransferPlan.Source) = source ∧
    plan.(DataTransferPlan.Destination) = destination ∧
    effective_strategy plan.(DataTransferPlan.Strategy) = plan.(DataTransferPlan.Strategy) ∧
    TransferStrategy_string plan.(DataTransferPlan.Strategy) ≠ "destination-pull")
    as (Hb & Hs & Hdest & Heff & Hpull).
  { unfold plan, Plan. destruct (_ && _) eqn:E; [done|]. split_and!; try done. simpl.
    destruct Hplan as [[E1 E2]|Hall].
    - rewrite !bool_decide_true in E by done. done.
    - clear -Hall. induction blobs as [|b l IH]; simpl; [done|].
      rewrite Hall by (by left). simpl. apply IH. intros b' Hb'. apply Hall. by right. }
  clearbody plan. unfold Materialize, routed in *. rewrite Hs, Hdest.
  destruct (connector _ (endpoint source.(TransferLocation.URI))) as [sc|]; [|done].
  destruct (connector _ (endpoint destination.(TransferLocation.URI))) as [dc|]; [|done].
  cbn zeta. rewrite Heff, bool_decide_false by done. unfold ebind at 1.
  destruct (unixNow w) as [started w1]. unfold ebind at 1. rewrite Hb. simpl. unfold ebind.
  destruct (unixNow w1) as [finished w2]. eexists _, _. split; [reflexivity|].
  split_and!; [|done..]. unfold Committed. simpl.
  by repeat case_bool_decide.
Qed.
End unread.

(** ** A concrete object store, for evaluating the definitions *)
Module Example.
Abbreviation world := (gmap (string * string) string).
#[local] Instance clock : Clock world := eret 5.
(** A stand-in for the hash, with no collisions. *)
#[local] Instance hash : Sha256 := λ s, s.

Definition objects (w : world) (uri name : string) : option string := w !! (uri, name).

Definition store : TransferConnector world := {|
  CanHandle _ := true;
  Exists e name := λ w, (Ok (bool_decide (is_Some (objects w e.(TransferEndpoint.URI) name))), w);
  Open_ e name off := λ w,
    (match objects w e.(TransferEndpoint.URI) name with
     | Some s => Ok (mk_reader (drop_str (Z.to_nat off) s) None)
     | None => Err "no such object"
     end, w);
  Put e name rd off := λ w,
    match rd.(read_error) with
    | Some err => (Err err, w)
    | None => (Ok tt, <[(e.(TransferEndpoint.URI), name) :=
        take_str (Z.to_nat off) (default "" (objects w e.(TransferEndpoint.URI) name)) +:+
        rd.(bytes)]> w)
    end;
  Commit_ e p f := λ w,
    match objects w e.(TransferEndpoint.URI) p with
    | None => (Err "no such object", w)
    | Some s => (Ok tt, <[(e.(TransferEndpoint.URI), f) := s]>
                          (delete (e.(TransferEndpoint.URI), p) w))
    end
|}.

Lemma store_lawful : lawful objects (≠) store.
Proof.
  split; simpl; unfold objects.
  - intros e n w r w' [= <- <-]. split; [done|]. intros [= Hb].
    case_bool_decide as Hn; [done|]. by apply eq_None_not_Some.
  - intros e n off w r w' _. case_match; intros [= <- <-]; (split; [done|]); [|done].
    intros rd [= <-] _. by eexists.
  - intros e n rd off w r w'. case_match; intros [= <- <-]; [done|]. split.
    + intros u m Hne. by rewrite lookup_insert_ne by congruence.
    + intros _ u _. by rewrite lookup_insert_eq.
  - intros e n rd off w r w'. case_match; intros [= <- <-]; [by left|right].
    rewrite lookup_insert_eq. eauto.
  - intros e p f w r w'. case_match; intros [= <- <-]; [|done]. split.
    + intros u m H1 H2. by rewrite lookup_insert_ne, lookup_delete_ne by congruence.
    + intros _ u _. by rewrite lookup_insert_eq.
Qed.

Lemma clock_keeps w n w' : UnixNano w = (n, w') → same_objects objects w w'.
Proof. by intros [= _ <-]. Qed.

Definition blob : BlobDescriptor := BlobDescriptor.mk "sha256:abc" 3.
Definition at_ (uri path : string) : TransferLocation :=
  (zero : TransferLocation) <| TransferLocation.URI := uri |> <| TransferLocation.Path := path |>.
Definition plan : DataTransferPlan :=
  (Plan (at_ "src" "") (at_ "dst" "/data/") [blob] ∅) <| DataTransferPlan.ID := "p" |>.
(** An interrupted copy is at the destination. *)
Definition before : world := {[ ("src", "sha256:abc") := "abc";
                                ("dst", "/data/sha256:abc.partial") := "a" ]}.
Definition spoilt : world := <[("dst", "/data/sha256:abc.partial") := "x"]> before.
Definition artifact : ArtifactMaterialization :=
  (zero : ArtifactMaterialization) <| ArtifactMaterialization.Digest := "sha256:abc" |>.
Definition requirement : PreparationRequirement :=
  PreparationRequirement.mk (Some artifact) (Some plan)
    (Some ((zero : WorkspaceMaterialization) <| WorkspaceMaterialization.Missing := [blob] |>))
    (Some plan).
Definition done_ : ArtifactMaterialization * DataTransferRun * option error * world :=
  Materialize [store] plan artifact before.

(** The resumed copy moves the two bytes that were missing. *)
Example resumed : done_.1.2 = None ∧ done_.1.1.2.(DataTransferRun.TransferredBytes) = 2 ∧
  objects done_.2 "dst" "/data/sha256:abc" = Some "abc" ∧
  objects done_.2 "dst" "/data/sha256:abc.partial" = None.
Proof. vm_compute. done. Qed.

Lemma done_none : done_.1.2 = None.
Proof. vm_compute. reflexivity. Qed.
Lemma prepared : is_ok (Prepare [store] None 0 "a" requirement before).1 = true.
Proof. vm_compute. reflexivity. Qed.

Lemma plan_plain : Forall plain (blob_digests plan.(DataTransferPlan.Blobs)).
Proof. constructor; [|constructor]. by split. Qed.

Lemma materialize_outcome_witness : done_.1.1.2.(DataTransferRun.VerifiedBlobs) = ["sha256:abc"].
Proof.
  pose proof done_none as En. destruct done_ as [[[t run] err] w'] eqn:E. unfold done_ in E.
  cbn in En. subst err.
  pose proof (materialize_outcome [store] plan artifact before t run None w' E) as (_ & _ & _ & H & _).
  exact H.
Defined.

Lemma damaged_partial_blocks_witness :
  (Materialize [store] plan artifact spoilt).1.2 ≠ None ∧
  damaged objects plan "sha256:abc" "x" (Materialize [store] plan artifact spoilt).2.
Proof.
  destruct (Materialize [store] plan artifact spoilt) as [[[t run] err] w'] eqn:E.
  apply (damaged_partial_blocks objects (≠) clock_keeps [store] plan blob "x" artifact spoilt t run err w');
    [apply Forall_singleton, store_lawful|reflexivity|discriminate| |exact E].
  split; [intros q [=]|]. split; [intros s [=]|]. exists "". reflexivity.
Defined.

Lemma prepare_gate_committed_witness :
  ∃ gate, (Prepare [store] None 0 "a" requirement before).1 = Ok (Some gate) ∧
    Controller.all_committed gate.
Proof.
  pose proof prepared as Hp.
  destruct (Prepare [store] None 0 "a" requirement before) as [[o|] w'] eqn:E; [|discriminate Hp].
  destruct (prepare_gate_committed [store] None 0 "a" requirement before o w' E)
    as (gate & -> & Hc & _). eauto.
Defined.

Lemma empty_plan_commits_unread_witness :
  ∃ t run, Materialize [store] (Plan (at_ "src" "x") (at_ "src" "x") [blob] ∅) artifact ∅ =
    ((t, run, None), ∅) ∧ Committed t = true.
Proof.
  destruct (empty_plan_commits_unread [store] (at_ "src" "x") (at_ "src" "x") [blob] ∅ artifact ∅
    eq_refl eq_refl (or_introl (conj eq_refl eq_refl)) ltac:(discriminate))
    as (t & run & H1 & H2 & _). exists t, run. split; [exact H1|exact H2].
Defined.
End Example.
End Transfer.
