(* ===== verification/Monitor.v ===== *)
(** * The connection monitor (src/internal/application/environment/connection_monitor.go)

    Health checks of environment connections on an adaptive schedule, as a state
    machine over the monitor's schedules, and the on-demand check of a connector
    binding (transfer_health.go). *)

From S2P Require Import Prelude GoStrings GoFloat Domain Ports.

(** ports/environment.go *)
Module ConnectionHealth.
Record ConnectionHealth := mk { Healthy : bool; Message : string }.
End ConnectionHealth.
Abbreviation ConnectionHealth := ConnectionHealth.ConnectionHealth.

(** The operations of [ports.ConnectionStore] and [ports.EnvironmentStore] the
    monitor calls. *)
Class ConnectionCatalog (W : Type) := {
  FindConnection : string → effr W (option EnvironmentConnection);
  ListAllConnections : effr W (list EnvironmentConnection);
  SaveConnectionCheck : ConnectionCheck → effr W unit;
  ListConnectionChecks : string → Z → effr W (list ConnectionCheck);
  UpdateStatus : string → EnvironmentStatus → effr W unit
}.

(** [ports.ConnectionProber] by connection type, [None] for none configured. *)
Class Probers (W : Type) :=
  prober : ConnectionType → option (EnvironmentConnection → eff W ConnectionHealth).

(** ports/audit.go; the store may be nil. *)
Class AuditStore (W : Type) := RecordAuditEvent : option (AuditEvent → effr W unit).

(** [time.Now()] as an instant, and [provider.NewID]. *)
Class WallClock (W : Type) := Now : eff W Time.
Class FreshIDs (W : Type) := NewID : string → eff W string.

(** The instant of [time.Unix(0, 0)]. *)
Definition unix_epoch : Time := 62135596800 * Second.
(** [provider.UnixSeconds] *)
Definition UnixSeconds (t : Time) : float64 :=
  fdiv (float_of_Z (t - unix_epoch)) (float_of_Z Second).

Module ConnectionMonitor.
(** [connectionSchedule] *)
Module connectionSchedule.
Record connectionSchedule := mk { consecutiveSuccesses : Z; nextCheckAt : Time }.
#[global] Instance eta : Eta connectionSchedule := λ r, mk r.(consecutiveSuccesses) r.(nextCheckAt).
#[global] Instance zero_value : Zero connectionSchedule := mk zero zero.
End connectionSchedule.
Abbreviation connectionSchedule := connectionSchedule.connectionSchedule.

Definition maximumStableCheckInterval : Duration := 10 * Minute.

(** [adaptiveCheckInterval] *)
Definition adaptiveCheckInterval (consecutiveSuccesses : Z) : Duration :=
  if 30 <=? consecutiveSuccesses then maximumStableCheckInterval
  else if 15 <=? consecutiveSuccesses then 5 * Minute
  else if 5 <=? consecutiveSuccesses then 2 * Minute
  else Minute.

Abbreviation schedules := (gmap string connectionSchedule).

(** [recordResult] *)
Definition recordResult (connectionID : string) (status : ConnectionStatus) (checkedAt : Time)
    (s : schedules) : schedules :=
  let schedule := lookup_zero s connectionID in
  let successes :=
    if bool_decide (ConnectionStatus_string status = "online")
    then int64 (schedule.(connectionSchedule.consecutiveSuccesses) + 1) else 0 in
  <[connectionID := connectionSchedule.mk successes
      (checkedAt + adaptiveCheckInterval successes)]> s.

(** [isDue] *)
Definition isDue (connectionID : string) (now : Time) (s : schedules) : bool :=
  match s !! connectionID with
  | None => true
  | Some schedule => negb (now <? schedule.(connectionSchedule.nextCheckAt))
  end.

(** The monitor over the world its ports act on. *)
Record State (W : Type) := mk_state { sched : schedules; env : W }.
Arguments mk_state {W}.
Arguments sched {W}.
Arguments env {W}.

Section monitor.
Context {W : Type} `{ConnectionCatalog W, Probers W, AuditStore W, WallClock W, FreshIDs W}.
Context `{Cancellation W}.
Abbreviation M := (State W).

Definition lift {A} (m : eff W A) : eff M A := λ s,
  let '(a, w) := m s.(env) in (a, mk_state s.(sched) w).
Definition modify (f : schedules → schedules) : eff M unit := λ s,
  (tt, mk_state (f s.(sched)) s.(env)).

(** [Check] *)
Definition Check_ (connectionID : string) : effr M ConnectionCheck :=
  let? found := lift (FindConnection connectionID) in
  match found with
  | None => eret (Err (errorf "environment connection %q was not found" [connectionID]))
  | Some connection =>
    let! started := lift Now in
    let! health := match prober connection.(EnvironmentConnection.Type_) with
      | Some probe => lift (probe connection)
      | None => eret (ConnectionHealth.mk false "no connection prober is configured")
      end in
    let! checkedAt := lift Now in
    let healthy := health.(ConnectionHealth.Healthy) in
    let status := if healthy then ConnectionOnline else ConnectionOffline in
    let environmentStatus := if healthy then EnvironmentConnected else EnvironmentUnreachable in
    let! ended := lift Now in
    let latency := fdiv (float_of_Z (Z.quot (ended - started) 1000)) (float_of_Z 1000) in
    let check := {|
      ConnectionCheck.ID := sprintf "connection-check-%d" [itoa (checkedAt - unix_epoch)];
      ConnectionCheck.ConnectionID := connection.(EnvironmentConnection.ID);
      ConnectionCheck.Status := status;
      ConnectionCheck.Message := health.(ConnectionHealth.Message);
      ConnectionCheck.LatencyMS := latency;
      ConnectionCheck.CheckedAt := checkedAt;
      ConnectionCheck.Metadata :=
        <["endpoint" := AnyString connection.(EnvironmentConnection.Endpoint)]>
        {["connectionType" := AnyString
           (ConnectionType_string connection.(EnvironmentConnection.Type_))]} |} in
    let? _ := lift (SaveConnectionCheck check) in
    let? _ := lift (UpdateStatus connection.(EnvironmentConnection.EnvironmentID)
                      environmentStatus) in
    let! _ := modify (recordResult connection.(EnvironmentConnection.ID) status checkedAt) in
    match RecordAuditEvent with
    | None => eret (Ok check)
    | Some record =>
      let! id := lift (NewID "audit") in
      let! _ := lift (record ((zero : AuditEvent)
        <| AuditEvent.ID := id |> <| AuditEvent.EventType := "connection.health.checked" |>
        <| AuditEvent.EnvironmentID := connection.(EnvironmentConnection.EnvironmentID) |>
        <| AuditEvent.ConnectionID := connection.(EnvironmentConnection.ID) |>
        <| AuditEvent.Outcome := if healthy then OutcomeSucceeded else OutcomeFailed |>
        <| AuditEvent.Summary := health.(ConnectionHealth.Message) |>
        <| AuditEvent.Metadata := <["latencyMs" := AnyFloat64 latency]>
             {["status" := AnyString (ConnectionStatus_string status)]} |>
        <| AuditEvent.OccurredAt := checkedAt |>)) in
      eret (Ok check)
    end
  end.

(** [History] *)
Definition History (connectionID : string) (limit : Z) : effr M (list ConnectionCheck) :=
  lift (ListConnectionChecks connectionID limit).

(** The loop of [CheckAll]. *)
Fixpoint check_each (connections : list EnvironmentConnection) : eff M unit :=
  match connections with
  | [] => eret tt
  | connection :: rest =>
    let! cancelled := lift ctx_err in
    match cancelled with
    | Some _ => eret tt
    | None =>
      let id := connection.(EnvironmentConnection.ID) in
      let! now := lift Now in
      let! due := (λ s, (isDue id now s.(sched), s)) in
      if due then let! _ := Check_ id in check_each rest else check_each rest
    end
  end.

(** [CheckAll] *)
Definition CheckAll : eff M unit :=
  let! connections := lift ListAllConnections in
  match connections with
  | Err _ => eret tt
  | Ok connections => check_each connections
  end.

Definition tick_interval (interval : Duration) : Duration :=
  if interval <=? 0 then Minute else interval.

(** [Run] until the context is done, [ticks] ticks of its ticker later. *)
Fixpoint Run (ticks : nat) : eff M unit :=
  match ticks with
  | O => CheckAll
  | S ticks => let! _ := CheckAll in Run ticks
  end.
End monitor.

(** ** The schedule *)
Lemma adaptive_bounds n : Minute ≤ adaptiveCheckInterval n ≤ maximumStableCheckInterval.
Proof. unfold adaptiveCheckInterval, maximumStableCheckInterval, Minute, Second. repeat case_match; lia. Qed.

Lemma adaptive_mono n m : n ≤ m → adaptiveCheckInterval n ≤ adaptiveCheckInterval m.
Proof.
  intros Hnm. unfold adaptiveCheckInterval, maximumStableCheckInterval, Minute, Second.
  repeat case_match; rewrite ?Z.leb_le, ?Z.leb_gt in *; lia.
Qed.

(** The successes in a row at the end of a history, the oldest result first. *)
Fixpoint streak (history : list bool) : Z :=
  match history with
  | [] => 0
  | ok :: rest => if forallb id rest && ok then Z.of_nat (length history) else streak rest
  end.

Lemma streak_snoc h ok : streak (h ++ [ok]) = if ok then streak h + 1 else 0.
Proof.
  induction h as [|b h IH]; simpl; [by destruct ok|].
  rewrite forallb_app, IH, length_app. simpl. destruct ok; simpl.
  - rewrite !andb_true_r. destruct (forallb id h && b); [lia|done].
  - by rewrite andb_false_r.
Qed.

(** One check of a connection as the schedule sees it. *)
Definition observe (id : string) (s : schedules) (check : bool * Time) : schedules :=
  recordResult id (if check.1 then ConnectionOnline else ConnectionOffline) check.2 s.

Lemma streak_nonneg h : 0 ≤ streak h.
Proof. induction h as [|b h IH]; simpl; [lia|]. case_match; lia. Qed.

Lemma streak_le h : streak h ≤ Z.of_nat (length h).
Proof. induction h as [|b h IH]; simpl streak; [lia|]. case_match; simpl length; lia. Qed.

(** The schedule is exactly the advertised back-off: after any history of
    checks, the next check of a connection is due a delay after the last one that
    depends only on its unbroken run of successes, one minute at first and after
    every failure, two, five and ten minutes from 5, 15 and 30 successes on; it is
    due then and not before. *)
Theorem schedule_follows_streak id history ok t :
  Z.of_nat (S (length history)) < 2 ^ 63 →
  let s := foldl (observe id) ∅ (history ++ [(ok, t)]) in
  let delay := adaptiveCheckInterval (streak (fst <$> (history ++ [(ok, t)]))) in
  s !! id = Some (connectionSchedule.mk (streak (fst <$> (history ++ [(ok, t)]))) (t + delay)) ∧
  (∀ now, isDue id now s = true ↔ t + delay ≤ now) ∧
  Minute ≤ delay ≤ maximumStableCheckInterval ∧ (ok = false → delay = Minute).
Proof.
  intros Hlen s delay.
  assert (∀ h, Z.of_nat (length h) < 2 ^ 63 →
    (lookup_zero (foldl (observe id) ∅ h) id).(connectionSchedule.consecutiveSuccesses)
      = streak (fst <$> h)) as Hcount.
  { intros h. induction h as [|[b u] h IH] using rev_ind; intros Hl; [done|].
    rewrite foldl_app, fmap_app. simpl. unfold observe at 1, recordResult, lookup_zero at 1.
    rewrite length_app in Hl. simpl in Hl. rewrite lookup_insert_eq. simpl.
    rewrite streak_snoc, IH by lia. pose proof (streak_nonneg (fst <$> h)).
    pose proof (streak_le (fst <$> h)) as Hle. rewrite length_fmap in Hle.
    destruct b; simpl; [|done]. apply int64_id. unfold in_int64. lia. }
  assert (s !! id = Some (connectionSchedule.mk
    (streak (fst <$> (history ++ [(ok, t)]))) (t + delay))) as Hs.
  { specialize (Hcount (history ++ [(ok, t)])). rewrite length_app in Hcount. simpl in Hcount.
    specialize (Hcount ltac:(lia)). fold s in Hcount.
    assert (∃ n, s !! id = Some (connectionSchedule.mk n (t + adaptiveCheckInterval n)))
      as [n Hn].
    { unfold s. rewrite foldl_app. simpl. unfold observe, recordResult. simpl.
      rewrite lookup_insert_eq. eauto. }
    unfold lookup_zero in Hcount. rewrite Hn in Hcount. simpl in Hcount.
    unfold delay. by rewrite <- Hcount. }
  split; [done|]. split_and!.
  - intros now. unfold isDue. rewrite Hs. simpl. rewrite negb_true_iff, Z.ltb_ge. done.
  - apply adaptive_bounds.
  - apply adaptive_bounds.
  - intros ->. unfold delay. rewrite fmap_app.
    change (fst <$> [(false, t)]) with [false]. by rewrite streak_snoc.
Qed.

(** ** No connection is forgotten *)
Section liveness.
Context {W : Type} `{ConnectionCatalog W, Probers W, AuditStore W, WallClock W, FreshIDs W}.
Context `{Cancellation W} (time : W → Time) (known : string → Prop).

(** The world's clock does not go back, whatever is called. *)
Definition advances {A} (m : eff W A) : Prop := ∀ w a w', m w = (a, w') → time w ≤ time w'.

(** The store answers for the connections it knows and the context is live. *)
Record responsive : Prop := {
  now_reads : ∀ w t w', Now w = (t, w') → time w ≤ t ≤ time w';
  find_known : ∀ id w r w', known id → FindConnection id w = (r, w') →
    time w ≤ time w' ∧ ∃ c, r = Ok (Some c) ∧ c.(EnvironmentConnection.ID) = id;
  list_known : ∀ w r w', ListAllConnections w = (r, w') → time w ≤ time w' ∧
    ∃ cs, r = Ok cs ∧ ∀ c, c ∈ cs → known c.(EnvironmentConnection.ID);
  save_answers : ∀ c w r w', SaveConnectionCheck c w = (r, w') → time w ≤ time w' ∧ r = Ok tt;
  update_answers : ∀ e st w r w', UpdateStatus e st w = (r, w') → time w ≤ time w' ∧ r = Ok tt;
  probe_advances : ∀ ty probe c, prober ty = Some probe → advances (probe c);
  audit_advances : ∀ record e, RecordAuditEvent = Some record → advances (record e);
  ids_advance : ∀ p, advances (NewID p);
  not_cancelled : ∀ w r w', ctx_err w = (r, w') → time w ≤ time w' ∧ r = None
}.
Context (Hr : responsive).

Ltac call E := unfold ebind at 1; unfold lift at 1;
  match goal with |- (let '(_, _) := (let '(_, _) := ?m in _) in _) = _ → _ =>
    destruct m as [? ?] eqn:E end.

Lemma check_records id s r s' : known id → Check_ id s = (r, s') →
  ∃ status t, s'.(sched) = recordResult id status t s.(sched) ∧
    time s.(env) ≤ t ∧ time s.(env) ≤ time s'.(env).
Proof.
  intros Hk. unfold Check_. unfold ebindr at 1, lift at 1.
  destruct (FindConnection id (env s)) as [r0 w0] eqn:E0.
  apply (find_known Hr) in E0 as (T0 & c & -> & Hid); [|done].
  call E1. apply (now_reads Hr) in E1. simpl env in *.
  assert (∃ health w2, time w ≤ time w2 ∧
    (match prober c.(EnvironmentConnection.Type_) with
     | Some probe => lift (probe c)
     | None => eret (ConnectionHealth.mk false "no connection prober is configured")
     end) (mk_state s.(sched) w) = (health, mk_state s.(sched) w2)) as (health & w2 & T2 & E2).
  { destruct (prober _) as [probe|] eqn:Ep.
    - unfold lift. simpl. destruct (probe c w) as [health w2] eqn:E2.
      exists health, w2. split; [by eapply (probe_advances Hr)|done].
    - eexists _, w. split; [lia|done]. }
  unfold ebind at 1. simpl sched. rewrite E2. call E3. apply (now_reads Hr) in E3. simpl in E3.
  call E4. apply (now_reads Hr) in E4. simpl in E4. cbn zeta.
  set (check := {| ConnectionCheck.ID := _ |}). clearbody check.
  unfold ebindr at 1, lift at 1. simpl env.
  destruct (SaveConnectionCheck check _) as [r5 w5] eqn:E5.
  apply (save_answers Hr) in E5 as [T5 ->].
  unfold ebindr at 1, lift at 1. simpl env.
  destruct (UpdateStatus _ _ w5) as [r6 w6] eqn:E6. apply (update_answers Hr) in E6 as [T6 ->].
  unfold ebind at 1, modify. simpl. rewrite Hid.
  destruct RecordAuditEvent as [record|] eqn:Ea.
  - call E7. apply (ids_advance Hr) in E7. simpl in E7. call E8.
    apply (audit_advances Hr record _ Ea) in E8. simpl in E8. intros [= <- <-]. simpl.
    eexists _, _. split; [reflexivity|]. lia.
  - intros [= <- <-]. simpl. eexists _, _. split; [reflexivity|]. lia.
Qed.

(** A connection is accounted for when its next check lies after [t0]. *)
Definition scheduled_after (t0 : Time) (id : string) (s : schedules) : Prop :=
  ∃ sch, s !! id = Some sch ∧ t0 < sch.(connectionSchedule.nextCheckAt).

Lemma record_schedules t0 id id' status t s : t0 ≤ t →
  id' = id ∨ scheduled_after t0 id' s → scheduled_after t0 id' (recordResult id status t s).
Proof.
  intros Ht Hid. unfold scheduled_after, recordResult.
  destruct (decide (id' = id)) as [->|Hne].
  - rewrite lookup_insert_eq. eexists. split; [reflexivity|]. simpl.
    match goal with |- context [adaptiveCheckInterval ?n] => pose proof (adaptive_bounds n) end.
    unfold Minute, Second in *. lia.
  - rewrite lookup_insert_ne by done. by destruct Hid.
Qed.

Lemma check_each_reaches t0 cs s s' u : t0 ≤ time s.(env) →
  (∀ c, c ∈ cs → known c.(EnvironmentConnection.ID)) → check_each cs s = (u, s') →
  (∀ c, c ∈ cs → scheduled_after t0 c.(EnvironmentConnection.ID) s'.(sched)) ∧
  (∀ id, scheduled_after t0 id s.(sched) → scheduled_after t0 id s'.(sched)).
Proof.
  revert s. induction cs as [|c cs IH]; intros s Ht Hk; simpl.
  { intros [= _ <-]. split; [by intros c ?%elem_of_nil|done]. }
  call E1. apply (not_cancelled Hr) in E1 as [T1 ->].
  call E2. apply (now_reads Hr) in E2. simpl in E2. unfold ebind at 1. simpl sched.
  set (id := c.(EnvironmentConnection.ID)). simpl env in *.
  assert (∀ s1, t0 ≤ time s1.(env) → scheduled_after t0 id s1.(sched) →
    (∀ id', scheduled_after t0 id' s.(sched) → scheduled_after t0 id' s1.(sched)) →
    check_each cs s1 = (u, s') →
    (∀ c0, c0 ∈ c :: cs → scheduled_after t0 c0.(EnvironmentConnection.ID) s'.(sched)) ∧
    (∀ id', scheduled_after t0 id' s.(sched) → scheduled_after t0 id' s'.(sched))) as Hgo.
  { intros s1 Hs1 Hid Hkeep Hrest. apply IH in Hrest as [G1 G2]; [|done|].
    - split; [|by auto]. intros c0 [->|Hin]%elem_of_cons; auto.
    - intros c0 Hin. apply Hk. by right. }
  cbn [sched]. destruct (isDue id z s.(sched)) eqn:Ed.
  - unfold ebind at 1. destruct (Check_ id (mk_state s.(sched) w0)) as [r s1] eqn:Ec.
    apply check_records in Ec as (status & t & Hs & Ht1 & Ht2); [|apply Hk; by left].
    simpl in Hs, Ht1, Ht2. apply Hgo; rewrite ?Hs; [lia| |].
    + apply record_schedules; [lia|by left].
    + intros id' Hid'. apply record_schedules; [lia|by right].
  - apply Hgo; simpl; [lia| |done]. unfold isDue in Ed.
    destruct (s.(sched) !! id) as [sch|] eqn:El; [|done]. exists sch. split; [done|].
    apply negb_false_iff, Z.ltb_lt in Ed. lia.
Qed.

(** No connection is starved: one pass of the monitor over a store that answers
    leaves every connection it lists scheduled after the moment the pass began,
    because each that was due was checked, whatever the outcome of the probes. *)
Theorem check_all_reaches_everyone s u s' : CheckAll s = (u, s') →
  ∃ cs w1, ListAllConnections s.(env) = (Ok cs, w1) ∧
  ∀ c, c ∈ cs → scheduled_after (time s.(env)) c.(EnvironmentConnection.ID) s'.(sched).
Proof.
  unfold CheckAll. call E. apply (list_known Hr) in E as HE.
  destruct HE as (T & cs & -> & Hk). intros Hc. exists cs, w. split; [done|].
  apply (check_each_reaches (time s.(env))) in Hc as [G1 _]; [done|simpl; lia|done].
Qed.
End liveness.

(** ** transfer_health.go *)
Section binding.
Context {W : Type} `{WallClock W}.

(** [ConnectorBindingChecker.CheckConnectorBinding]; [probes] maps a connector to
    the probe registered for it. *)
Definition CheckConnectorBinding
    (probes : TransferConnector → option (ConnectorBinding → eff W (string * option error)))
    (binding : ConnectorBinding) : eff W (ConnectorHealth * option error) :=
  let connector := binding.(ConnectorBinding.Connector) in
  match probes connector with
  | None =>
    let! now := Now in
    eret ((zero : ConnectorHealth)
            <| ConnectorHealth.Reason := "no health probe is configured" |>
            <| ConnectorHealth.CheckedAt := now |>,
          Some (errorf "no health probe for connector %q" [TransferConnector_string connector]))
  | Some probe =>
    let! (op, err) := probe binding in
    let! checked := Now in
    let! fresh := Now in
    let health := ConnectorHealth.mk (match err with None => true | Some _ => false end) op ""
      checked (fresh + 15 * Minute) in
    eret (match err with
          | Some e => health <| ConnectorHealth.Reason := e |>
          | None => health
          end, err)
  end.
End binding.

(** ** A concrete monitor *)
Module Example.
(** The world is its clock; there are two connections, the second one offline. *)
Definition W := Z.
Definition conn (id : string) : EnvironmentConnection :=
  (zero : EnvironmentConnection) <| EnvironmentConnection.ID := id |>.
#[local] Instance catalog : ConnectionCatalog W := {|
  FindConnection id := eret (Ok (Some (conn id)));
  ListAllConnections := eret (Ok [conn "a"; conn "b"]);
  SaveConnectionCheck _ := eret (Ok tt);
  ListConnectionChecks _ _ := eret (Ok []);
  UpdateStatus _ _ := eret (Ok tt)
|}.
#[local] Instance probers : Probers W := λ _, Some (λ c,
  eret (ConnectionHealth.mk (bool_decide (c.(EnvironmentConnection.ID) = "a")) "probed")).
#[local] Instance audit : AuditStore W := None.
#[local] Instance clock : WallClock W := λ w, (w + 1, w + 1).
#[local] Instance ids : FreshIDs W := λ p, eret p.
#[local] Instance live : Cancellation W := {| ctx_err := eret None; wait d := eret None |}.

Definition start : State W := mk_state ∅ 0.

Example first_pass :
  isDue "a" Minute (CheckAll start).2.(sched) = false ∧
  ((CheckAll start).2.(sched) !! "b") = Some (connectionSchedule.mk 0 (7 + Minute)).
Proof. vm_compute. done. Qed.

Lemma is_responsive : responsive (W := W) (λ w, w) (λ _, True).
Proof.
  split.
  - intros w t w' [= <- <-]. lia.
  - intros id w r w' _ [= <- <-]. split; [lia|]. by eexists.
  - intros w r w' [= <- <-]. split; [lia|]. by eexists.
  - intros c w r w' [= <- <-]. split; [lia|done].
  - intros e st w r w' [= <- <-]. split; [lia|done].
  - intros ty probe c [= <-] w a w' [= <- <-]. lia.
  - done.
  - intros p w a w' [= <- <-]. lia.
  - intros w r w' [= <- <-]. split; [lia|done].
Qed.

Lemma check_all_reaches_everyone_witness :
  ∃ s', (CheckAll start).2 = s' ∧ scheduled_after 0 "b" s'.(sched).
Proof.
  destruct (CheckAll start) as [u s'] eqn:E. exists s'. split; [reflexivity|].
  destruct (check_all_reaches_everyone (λ w, w) (λ _, True) is_responsive start u s' E)
    as (cs & w1 & [= <- _] & Hall).
  exact (Hall (conn "b") (list_elem_of_further _ _ _ (list_elem_of_here _ _))).
Defined.

Lemma schedule_follows_streak_witness :
  foldl (observe "a") ∅ (replicate 5 (true, 0) ++ [(true, 7)]) !! "a" =
    Some (connectionSchedule.mk 6 (7 + 2 * Minute)).
Proof.
  exact (proj1 (schedule_follows_streak "a" (replicate 5 (true, 0)) true 7 ltac:(vm_compute; done))).
Defined.
End Example.
End ConnectionMonitor.
