(* ===== verification/Discovery.v ===== *)
(** * Resource discovery (src/internal/application/environment/discovery_service.go)

    [DiscoveryCoordinator]: one probe of a connection, and what it stores: the
    cluster, its partitions, login node and compute nodes with their bindings and
    relations, the storages the probe saw, and a snapshot per resource. *)

From Stdlib Require Import Ascii.
From S2P Require Import Prelude GoStrings GoFloat Domain Ports Monitor.

(** ** ports/environment.go *)
Module DiscoveredLoginNode.
Record DiscoveredLoginNode := mk {
  Name : string;
  Architecture : string;
  CPUCores : Z;
  MemoryBytes : Z;
  StorageBytes : Z;
  Metadata : metadata
}.
#[global] Instance zero_value : Zero DiscoveredLoginNode := mk zero zero zero zero zero zero.
End DiscoveredLoginNode.
Abbreviation DiscoveredLoginNode := DiscoveredLoginNode.DiscoveredLoginNode.

Module DiscoveredNode.
Record DiscoveredNode := mk {
  Name : string;
  State : string;
  CPUCores : Z;
  MemoryBytes : Z;
  StorageBytes : Z;
  Architecture : string;
  Partitions : list string;
  Features : list string;
  GenericResources : list string;
  Reason : string;
  Metadata : metadata
}.
#[global] Instance zero_value : Zero DiscoveredNode :=
  mk zero zero zero zero zero zero zero zero zero zero zero.
End DiscoveredNode.
Abbreviation DiscoveredNode := DiscoveredNode.DiscoveredNode.

Module ConnectionDiscovery.
Record ConnectionDiscovery := mk {
  Available : bool;
  Metadata : metadata;
  Warnings : list string;
  Nodes : list DiscoveredNode;
  LoginNode : option DiscoveredLoginNode;
  Transfer : TransferCapabilities
}.
End ConnectionDiscovery.
Abbreviation ConnectionDiscovery := ConnectionDiscovery.ConnectionDiscovery.

(** The operations of [ports.ResourceInventory] discovery calls. *)
Class ResourceInventory (W : Type) := {
  Upsert : Resource → effr W unit;
  UpsertRuntimeBinding : ResourceRuntimeBinding → effr W unit;
  UpsertRelation : ResourceRelation → effr W unit;
  CreateSnapshot : ResourceSnapshot → effr W unit
}.

(** [ports.EnvironmentCatalog.List]; the catalog may also be a
    [ports.DiscoveredStorageStore]. *)
Class EnvironmentCatalog (W : Type) := {
  ListDefinitions : effr W (list EnvironmentDefinition);
  UpsertDiscoveredStorage : option (StorageResource → effr W unit)
}.

(** [ports.ConnectionDiscoverer] by connection type. *)
Class Discoverers (W : Type) :=
  discoverer : ConnectionType → option (EnvironmentConnection → effr W ConnectionDiscovery).

Module Discovery.
(** ** Names *)

(** [configuredConnectionID] *)
Definition configuredConnectionID (configuration : metadata) : string :=
  meta_string configuration "connectionId".

(** [clusterResourceID] and [loginResourceID] *)
Definition clusterResourceID (connectionID : string) : string := connectionID +:+ "-cluster".
Definition loginResourceID (connectionID : string) : string := connectionID +:+ "-login".

(** [clusterResourceName] *)
Definition clusterResourceName (definition : EnvironmentDefinition)
    (connection : EnvironmentConnection) : string :=
  let name := definition.(EnvironmentDefinition.Environment).(Environment.Name) in
  if negb (bool_decide (trim_space name = "")) then name +:+ " cluster"
  else connection.(EnvironmentConnection.Name) +:+ " cluster".

(** [minPositive] and [minPositive64] *)
Definition minPositive (value limit : Z) : Z :=
  if (value <=? 0) || (limit <? value) then limit else value.
Definition minPositive64 (value limit : Z) : Z :=
  if (value <=? 0) || (limit <? value) then limit else value.

(** [strings.NewReplacer("/", "-", " ", "-", ":", "-").Replace] *)
Definition dashed (extra : ascii → bool) (s : string) : string :=
  map_str (λ c, if is_byte "/"%char c || is_byte " "%char c || extra c then "-"%char else c) s.

(** [discoveredNodeID] *)
Definition discoveredNodeID (connectionID nodeName : string) : string :=
  dashed (is_byte ":"%char) (connectionID +:+ "-node-" +:+ nodeName).

(** [slurmNodeAvailable] *)
Definition slurm_flag (c : ascii) : bool :=
  is_byte "*"%char c || is_byte "~"%char c || is_byte "#"%char c || is_byte "$"%char c ||
  is_byte "+"%char c.
Definition slurmNodeAvailable (state : string) : bool :=
  let state := to_lower (trim_right slurm_flag (trim_space state)) in
  if bool_decide (state ∈ ["down"; "drain"; "drained"; "fail"; "failing"; "unknown"])
  then false else negb (bool_decide (state = "")).

(** The loop of [resourceIdentifier] over the runes. *)
Definition identifier_char (c : ascii) : bool :=
  ascii_between "a" "z" c || ascii_between "0" "9" c || is_byte "-"%char c || is_byte "_"%char c.
Definition identifier_rune (c : ascii) : ascii := if identifier_char c then c else "-"%char.

(** [resourceIdentifier] *)
Definition resourceIdentifier (value : string) : string :=
  trim (is_byte "-"%char) (map_runes identifier_rune (to_lower (trim_space value))).

(** [intValue] *)
Definition intValue (value : any) : Z :=
  match value with
  | AnyInt64 z => z
  | AnyInt z => z
  | AnyFloat64 f => trunc f
  | _ => 0
  end.

(** ** Selections *)

(** [runtimeIDsForConnection] *)
Definition runtimeIDsForConnection (definition : EnvironmentDefinition) (connectionID : string)
    : list string :=
  EnvironmentRuntime.ID <$> List.filter (λ r, bool_decide
    (configuredConnectionID r.(EnvironmentRuntime.Configuration) = connectionID))
    definition.(EnvironmentDefinition.Runtimes).

(** [boundResourceIDs] *)
Definition boundResourceIDs (definition : EnvironmentDefinition) (connectionID : string)
    : list string :=
  let runtimeIDs : gset string :=
    list_to_set (runtimeIDsForConnection definition connectionID) in
  let ids : gset string := list_to_set (ResourceRuntimeBinding.ResourceID <$>
    List.filter (λ b, b.(ResourceRuntimeBinding.Enabled) &&
                      bool_decide (b.(ResourceRuntimeBinding.RuntimeID) ∈ runtimeIDs))
      definition.(EnvironmentDefinition.RuntimeBindings)) in
  Resource.ID <$> List.filter (λ r, bool_decide (r.(Resource.ID) ∈ ids))
    definition.(EnvironmentDefinition.Resources).

Definition is_partition (r : Resource) : bool :=
  bool_decide (ResourceType_string r.(Resource.Type_) = "hpc_partition").

(** [value["name"].(string)] on a [map[string]any] of the slice. *)
Definition as_map (kvs : list (string * any)) : metadata := list_to_map (rev kvs).

(** [observation.Metadata["partitions"].([]map[string]any)] *)
Definition partition_values (observation : ConnectionDiscovery) : list metadata :=
  match observation.(ConnectionDiscovery.Metadata) !! "partitions" with
  | Some (AnyMaps ms) => as_map <$> ms
  | _ => []
  end.

(** [discoveredPartitions] *)
Definition discoveredPartitions (definition : EnvironmentDefinition)
    (connection : EnvironmentConnection) (observation : ConnectionDiscovery) : list Resource :=
  let configured : gset string := list_to_set (Resource.ProviderID <$>
    List.filter is_partition definition.(EnvironmentDefinition.Resources)) in
  omap (λ value,
    let name := trim_space (meta_string value "name") in
    if bool_decide (name = "") || bool_decide (name ∈ configured) then None
    else
      let cores := intValue (lookup_zero value "cpuCoresPerNode") in
      Some ((zero : Resource)
        <| Resource.ID := connection.(EnvironmentConnection.ID) +:+ "-partition-" +:+
                          resourceIdentifier name |>
        <| Resource.EnvironmentVersionID :=
             definition.(EnvironmentDefinition.Version).(EnvironmentVersion.ID) |>
        <| Resource.ExecutionTarget := ExecutionTargetBatch |>
        <| Resource.Type_ := ResourceHPCPartition |>
        <| Resource.Name := name |> <| Resource.ProviderID := name |>
        <| Resource.CPUCores := cores |> <| Resource.CPUCapacity := float_of_Z cores |>
        <| Resource.MemoryBytes :=
             int64 (intValue (lookup_zero value "memoryMiBPerNode") * 1024 * 1024) |>
        <| Resource.ComputeSpeedup := float_of_Z 1 |> <| Resource.Schedulable := true |>
        <| Resource.Metadata :=
             <["connectionId" := AnyString connection.(EnvironmentConnection.ID)]>
             (<["discovered" := AnyBool true]> (<["interactive" := AnyBool true]> value)) |>))
    (partition_values observation).

(** [findConnection], after the catalog answered. *)
Fixpoint find_connection (id : string) (definitions : list EnvironmentDefinition)
    : result (EnvironmentDefinition * EnvironmentConnection) :=
  match definitions with
  | [] => Err (errorf "environment connection %q was not found" [id])
  | d :: rest =>
    match List.find (λ c, bool_decide (c.(EnvironmentConnection.ID) = id))
            d.(EnvironmentDefinition.Connections) with
    | Some c => Ok (d, c)
    | None => find_connection id rest
    end
  end.

(** The identifier of a discovered storage. *)
Definition storage_id (connectionID path : string) : string :=
  let id := "discovered-storage-" +:+ connectionID +:+ "-" +:+
            dashed (λ _, false) (trim (is_byte "/"%char) path) in
  if has_suffix "-" id then id +:+ "root" else id.

Section coordinator.
Context {W : Type} `{ResourceInventory W, EnvironmentCatalog W, Discoverers W}.
Context `{AuditStore W, WallClock W, FreshIDs W}.

(** [err] wrapped by [fmt.Errorf(format, name, err)]. *)
Definition wrap {A} (message : error → error) (m : effr W A) : effr W A := λ w,
  match m w with (Err e, w) => (Err (message e), w) | ok => ok end.

(** [recordAudit] *)
Definition recordAudit (event : AuditEvent) : eff W unit :=
  match RecordAuditEvent with
  | None => eret tt
  | Some record =>
    let! id := NewID "audit" in
    let! now := Now in
    let! _ := record (event <| AuditEvent.ID := id |> <| AuditEvent.OccurredAt := now |>) in
    eret tt
  end.

(** [findConnection] *)
Definition findConnection (id : string)
    : effr W (EnvironmentDefinition * EnvironmentConnection) :=
  let? definitions := ListDefinitions in eret (find_connection id definitions).

(** The body of the loop of [materializeDiscoveredStorages]. *)
Definition discovered_storage (definition : EnvironmentDefinition)
    (connection : EnvironmentConnection) (observation : ConnectionDiscovery)
    (path : string) (p : TransferPath) : StorageResource :=
  let readOnly := negb p.(TransferPath.Writable) in
  let computeVisible := match p.(TransferPath.ComputeNodeVisible) with
                        | Some b => b | None => false end in
  (zero : StorageResource)
    <| StorageResource.ID := storage_id connection.(EnvironmentConnection.ID) path |>
    <| StorageResource.EnvironmentVersionID :=
         definition.(EnvironmentDefinition.Version).(EnvironmentVersion.ID) |>
    <| StorageResource.Name := "Discovered " +:+ p.(TransferPath.Kind) +:+ " " +:+ path |>
    <| StorageResource.Type_ :=
         if contains (to_lower p.(TransferPath.Kind)) "scratch" ||
            contains (to_lower path) "scratch" then StorageLustre else StorageSSH |>
    <| StorageResource.Endpoint := path |>
    <| StorageResource.CapacityBytes := p.(TransferPath.AvailableBytes) |>
    <| StorageResource.Shared := computeVisible |>
    <| StorageResource.ReadOnly := readOnly |>
    <| StorageResource.BrowseRoots := [(zero : StorageBrowseRoot)
         <| StorageBrowseRoot.Path := path |> <| StorageBrowseRoot.Label := p.(TransferPath.Kind) |>
         <| StorageBrowseRoot.ReadOnly := readOnly |>] |>
    <| StorageResource.Capabilities := (zero : StorageCapabilities)
         <| StorageCapabilities.Browse := true |> <| StorageCapabilities.Read := true |>
         <| StorageCapabilities.Write := p.(TransferPath.Writable) |>
         <| StorageCapabilities.Download := true |>
         <| StorageCapabilities.Upload := p.(TransferPath.Writable) |>
         <| StorageCapabilities.Checksum := observation.(ConnectionDiscovery.Transfer)
              .(TransferCapabilities.Checksum).(CapabilityObservation.Available) |>
         <| StorageCapabilities.ComputeNodeVisible := computeVisible |> |>
    <| StorageResource.Configuration := {["browseRoots" := AnySlice [AnyMap
         [("path", AnyString path); ("label", AnyString p.(TransferPath.Kind));
          ("readOnly", AnyBool readOnly)]]]} |>
    <| StorageResource.Metadata :=
         <["connectionId" := AnyString connection.(EnvironmentConnection.ID)]>
         {["discoverySource" := AnyString "transfer-path"]} |>
    <| StorageResource.RuntimeBindings :=
         (λ runtimeID, (zero : StorageRuntimeBinding)
            <| StorageRuntimeBinding.RuntimeID := runtimeID |>
            <| StorageRuntimeBinding.HostPath := path |>
            <| StorageRuntimeBinding.ReadOnly := readOnly |>
            <| StorageRuntimeBinding.Configuration :=
                 {["discoverySource" := AnyString "transfer-path"]} |>)
         <$> runtimeIDsForConnection definition connection.(EnvironmentConnection.ID) |>.

(** The paths [materializeDiscoveredStorages] keeps: trimmed, not empty, each
    once. *)
Fixpoint distinct_paths (seen : gset string) (paths : list TransferPath)
    : list (string * TransferPath) :=
  match paths with
  | [] => []
  | p :: rest =>
    let path := trim_space p.(TransferPath.Path) in
    if bool_decide (path = "") || bool_decide (path ∈ seen) then distinct_paths seen rest
    else (path, p) :: distinct_paths ({[path]} ∪ seen) rest
  end.

(** [materializeDiscoveredStorages] *)
Definition materializeDiscoveredStorages (store : StorageResource → effr W unit)
    (definition : EnvironmentDefinition) (connection : EnvironmentConnection)
    (observation : ConnectionDiscovery) : effr W unit :=
  for_effr (λ '(path, p),
    wrap (λ e, errorf "upsert discovered storage %s: %w" [path; e])
      (store (discovered_storage definition connection observation path p)))
    (distinct_paths ∅ observation.(ConnectionDiscovery.Transfer).(TransferCapabilities.Paths)).

Definition bind_runtimes (runtimeIDs : list string) (resourceID : string)
    (configuration : metadata) (message : error → error) : effr W unit :=
  for_effr (λ runtimeID, wrap message (UpsertRuntimeBinding
    (ResourceRuntimeBinding.mk resourceID runtimeID true configuration))) runtimeIDs.

(** [materializeLoginNode] *)
Definition login_metadata (connection : EnvironmentConnection) (discovered : DiscoveredLoginNode)
    : metadata :=
  let m := <["connectionId" := AnyString connection.(EnvironmentConnection.ID)]>
           (<["discovered" := AnyBool true]> discovered.(DiscoveredLoginNode.Metadata)) in
  let m := if bool_decide (trim_space (meta_string m "role") = "")
           then <["role" := AnyString "login"]> m else m in
  let m := <["observedHostname" := AnyString discovered.(DiscoveredLoginNode.Name)]>
           (<["interactive" := AnyBool true]> (<["commandExecution" := AnyBool true]> m)) in
  let m := if bool_decide (meta_string m "role" = "login")
           then <["schedulerGateway" := AnyBool true]> m else m in
  <["maxDirectCpu" := AnyInt (minPositive discovered.(DiscoveredLoginNode.CPUCores) 2)]>
  (<["maxDirectMemoryBytes" := AnyInt64 (minPositive64
       discovered.(DiscoveredLoginNode.MemoryBytes) (4 * 1024 * 1024 * 1024))]>
   (<["maxDirectDurationSeconds" := AnyInt 1800]> m)).

Definition login_resource (definition : EnvironmentDefinition)
    (connection : EnvironmentConnection) (clusterID : string) (discovered : DiscoveredLoginNode)
    : Resource :=
  (zero : Resource)
    <| Resource.ID := loginResourceID connection.(EnvironmentConnection.ID) |>
    <| Resource.EnvironmentVersionID :=
         definition.(EnvironmentDefinition.Version).(EnvironmentVersion.ID) |>
    <| Resource.ParentResourceID := Some clusterID |>
    <| Resource.ExecutionTarget := ExecutionTargetDirect |>
    <| Resource.Type_ := ResourceHPCMachine |>
    <| Resource.Name := connection.(EnvironmentConnection.Name) |>
    <| Resource.ProviderID := connection.(EnvironmentConnection.Endpoint) |>
    <| Resource.Architecture := discovered.(DiscoveredLoginNode.Architecture) |>
    <| Resource.CPUCores := discovered.(DiscoveredLoginNode.CPUCores) |>
    <| Resource.CPUCapacity :=
         float_of_Z (minPositive discovered.(DiscoveredLoginNode.CPUCores) 2) |>
    <| Resource.MemoryBytes := discovered.(DiscoveredLoginNode.MemoryBytes) |>
    <| Resource.StorageBytes := discovered.(DiscoveredLoginNode.StorageBytes) |>
    <| Resource.ComputeSpeedup := float_of_Z 1 |> <| Resource.Schedulable := true |>
    <| Resource.Metadata := login_metadata connection discovered |>.

Definition snapshot (id resourceID : string) (at_ : Time) (available : bool) (m : metadata)
    : ResourceSnapshot :=
  (zero : ResourceSnapshot) <| ResourceSnapshot.ID := id |>
    <| ResourceSnapshot.ResourceID := resourceID |> <| ResourceSnapshot.CapturedAt := at_ |>
    <| ResourceSnapshot.Available := available |> <| ResourceSnapshot.Metadata := m |>.

Definition materializeLoginNode (definition : EnvironmentDefinition)
    (connection : EnvironmentConnection) (clusterID : string) (runtimeIDs : list string)
    (discovered : DiscoveredLoginNode) (available : bool) : effr W ResourceSnapshot :=
  let name := discovered.(DiscoveredLoginNode.Name) in
  let resource := login_resource definition connection clusterID discovered in
  let? _ := wrap (λ e, errorf "upsert discovered login node %q: %w" [name; e]) (Upsert resource) in
  let? _ := bind_runtimes runtimeIDs resource.(Resource.ID)
    (<["executionTarget" := AnyString "direct"]> {["role" := AnyString "login"]})
    (λ e, errorf "bind discovered login node %q: %w" [name; e]) in
  let! id := NewID "resource-discovery" in
  let! now := Now in
  let s := snapshot id resource.(Resource.ID) now available (login_metadata connection discovered) in
  let? _ := wrap (λ e, errorf "snapshot discovered login node %q: %w" [name; e])
              (CreateSnapshot s) in
  eret (Ok s).

(** The partitions by provider name and by name, the later entries winning. *)
Definition partition_map (resources : list Resource) : gmap string Resource :=
  foldl (λ m r, if is_partition r
                then <[r.(Resource.Name) := r]> (<[r.(Resource.ProviderID) := r]> m) else m)
    ∅ resources.

Definition node_metadata (connection : EnvironmentConnection) (discovered : DiscoveredNode)
    : metadata :=
  <["discovered" := AnyBool true]>
  (<["connectionId" := AnyString connection.(EnvironmentConnection.ID)]>
   discovered.(DiscoveredNode.Metadata)).

Definition node_resource (definition : EnvironmentDefinition)
    (connection : EnvironmentConnection) (clusterID : string) (discovered : DiscoveredNode)
    : Resource :=
  let name := discovered.(DiscoveredNode.Name) in
  (zero : Resource)
    <| Resource.ID := discoveredNodeID connection.(EnvironmentConnection.ID) name |>
    <| Resource.EnvironmentVersionID :=
         definition.(EnvironmentDefinition.Version).(EnvironmentVersion.ID) |>
    <| Resource.ParentResourceID := if bool_decide (clusterID = "") then None else Some clusterID |>
    <| Resource.ExecutionTarget := ExecutionTargetBatch |>
    <| Resource.Type_ := ResourceHPCMachine |>
    <| Resource.Name := name |> <| Resource.ProviderID := name |>
    <| Resource.Architecture := discovered.(DiscoveredNode.Architecture) |>
    <| Resource.CPUCores := discovered.(DiscoveredNode.CPUCores) |>
    <| Resource.CPUCapacity := float_of_Z discovered.(DiscoveredNode.CPUCores) |>
    <| Resource.MemoryBytes := discovered.(DiscoveredNode.MemoryBytes) |>
    <| Resource.StorageBytes := discovered.(DiscoveredNode.StorageBytes) |>
    <| Resource.ComputeSpeedup := float_of_Z 1 |> <| Resource.Schedulable := true |>
    <| Resource.Metadata := node_metadata connection discovered |>.

(** The body of the loop of [materializeNodes]. *)
Definition materialize_node (definition : EnvironmentDefinition)
    (connection : EnvironmentConnection) (clusterID : string) (now : Time)
    (discovered : DiscoveredNode) : effr W ResourceSnapshot :=
  let name := discovered.(DiscoveredNode.Name) in
  let resource := node_resource definition connection clusterID discovered in
  let partitions := partition_map definition.(EnvironmentDefinition.Resources) in
  let? _ := wrap (λ e, errorf "upsert discovered SLURM node %q: %w" [name; e]) (Upsert resource) in
  let? _ := bind_runtimes
    (runtimeIDsForConnection definition connection.(EnvironmentConnection.ID))
    resource.(Resource.ID) ∅ (λ e, errorf "bind discovered SLURM node %q: %w" [name; e]) in
  let? _ := for_effr (λ partitionName,
    match partitions !! partitionName with
    | None => eret (Ok tt)
    | Some partition =>
      wrap (λ e, errorf "relate partition %q to node %q: %w" [partitionName; name; e])
        (UpsertRelation ((zero : ResourceRelation)
          <| ResourceRelation.EnvironmentVersionID :=
               definition.(EnvironmentDefinition.Version).(EnvironmentVersion.ID) |>
          <| ResourceRelation.SourceResourceID := partition.(Resource.ID) |>
          <| ResourceRelation.TargetResourceID := resource.(Resource.ID) |>
          <| ResourceRelation.Type_ := ResourceRelationContains |>
          <| ResourceRelation.Metadata := {["discovered" := AnyBool true]} |>))
    end) discovered.(DiscoveredNode.Partitions) in
  let! id := NewID "resource-discovery" in
  let s := snapshot id resource.(Resource.ID) now
    (slurmNodeAvailable discovered.(DiscoveredNode.State)) (node_metadata connection discovered) in
  let? _ := wrap (λ e, errorf "snapshot discovered SLURM node %q: %w" [name; e])
              (CreateSnapshot s) in
  eret (Ok s).

(** [materializeNodes] *)
Definition materializeNodes (definition : EnvironmentDefinition)
    (connection : EnvironmentConnection) (clusterID : string)
    (observation : ConnectionDiscovery) : effr W (list ResourceSnapshot) :=
  match observation.(ConnectionDiscovery.Nodes) with
  | [] => eret (Ok [])
  | nodes => let! now := Now in
             map_effr (materialize_node definition connection clusterID now) nodes
  end.

(** The cluster of an environment: a configured one or the connection's own. *)
Definition cluster_id (definition : EnvironmentDefinition) (connection : EnvironmentConnection)
    : string :=
  match List.find (λ r, bool_decide (ResourceType_string r.(Resource.Type_) = "cluster"))
          definition.(EnvironmentDefinition.Resources) with
  | Some r => r.(Resource.ID)
  | None => clusterResourceID connection.(EnvironmentConnection.ID)
  end.

(** [materializeHPCStructure] when there is a login node or a node. *)
Definition materialize_structure (definition : EnvironmentDefinition)
    (connection : EnvironmentConnection) (observation : ConnectionDiscovery)
    : effr W (list ResourceSnapshot) :=
  let clusterID := cluster_id definition connection in
  let runtimeIDs := runtimeIDsForConnection definition connection.(EnvironmentConnection.ID) in
  let cluster := (zero : Resource) <| Resource.ID := clusterID |>
    <| Resource.EnvironmentVersionID :=
         definition.(EnvironmentDefinition.Version).(EnvironmentVersion.ID) |>
    <| Resource.Type_ := ResourceCluster |>
    <| Resource.Name := clusterResourceName definition connection |>
    <| Resource.ProviderID := clusterID |> <| Resource.ComputeSpeedup := float_of_Z 1 |>
    <| Resource.Metadata :=
         <["connectionId" := AnyString connection.(EnvironmentConnection.ID)]>
         {["discovered" := AnyBool true]} |> in
  let? _ := wrap (λ e, errorf "upsert discovered HPC cluster: %w" [e]) (Upsert cluster) in
  let? _ := bind_runtimes runtimeIDs clusterID ∅
    (λ e, errorf "bind discovered HPC cluster: %w" [e]) in
  let definition := definition <| EnvironmentDefinition.Resources :=
    definition.(EnvironmentDefinition.Resources) ++
    discoveredPartitions definition connection observation |> in
  let? _ := for_effr (λ partition,
    if negb (is_partition partition) then eret (Ok tt)
    else
      let? _ := wrap (λ e, errorf "attach partition %q to discovered cluster: %w"
                        [partition.(Resource.ProviderID); e])
        (Upsert (partition <| Resource.ParentResourceID := Some clusterID |>)) in
      bind_runtimes runtimeIDs partition.(Resource.ID)
        (<["executionTarget" := AnyString "batch"]> {["scheduler" := AnyString "slurm"]})
        (λ e, errorf "bind discovered partition %q: %w" [partition.(Resource.ProviderID); e]))
    definition.(EnvironmentDefinition.Resources) in
  let? logins := match observation.(ConnectionDiscovery.LoginNode) with
    | None => eret (Ok [])
    | Some discovered =>
      let? s := materializeLoginNode definition connection clusterID runtimeIDs discovered
                  observation.(ConnectionDiscovery.Available) in
      eret (Ok [s])
    end in
  let? nodes := materializeNodes definition connection clusterID observation in
  eret (Ok (logins ++ nodes)).

(** [materializeHPCStructure] *)
Definition materializeHPCStructure (definition : EnvironmentDefinition)
    (connection : EnvironmentConnection) (observation : ConnectionDiscovery)
    : effr W (list ResourceSnapshot) :=
  match observation.(ConnectionDiscovery.LoginNode), observation.(ConnectionDiscovery.Nodes) with
  | None, [] => eret (Ok [])
  | _, _ => materialize_structure definition connection observation
  end.

Definition audit_event (definition : EnvironmentDefinition) (connection : EnvironmentConnection)
    (eventType : string) (outcome : AuditOutcome) (summary : string) (m : metadata) : AuditEvent :=
  (zero : AuditEvent) <| AuditEvent.EventType := eventType |>
    <| AuditEvent.EnvironmentID :=
         definition.(EnvironmentDefinition.Environment).(Environment.ID) |>
    <| AuditEvent.ConnectionID := connection.(EnvironmentConnection.ID) |>
    <| AuditEvent.Outcome := outcome |> <| AuditEvent.Summary := summary |>
    <| AuditEvent.Metadata := m |>.

(** The second half of [DiscoverConnection]: snapshots of the bound resources that
    the structure did not cover. *)
Definition snapshot_bound (connection : EnvironmentConnection) (observation : ConnectionDiscovery)
    (now : Time) (resourceIDs : list string) : effr W (list ResourceSnapshot) :=
  map_effr (λ resourceID,
    let! id := NewID "resource-discovery" in
    let s := snapshot id resourceID now observation.(ConnectionDiscovery.Available)
      (<["connectionId" := AnyString connection.(EnvironmentConnection.ID)]>
       (<["warnings" := AnyStrings observation.(ConnectionDiscovery.Warnings)]>
        (<["discoverySource" := AnyString
             (ConnectionType_string connection.(EnvironmentConnection.Type_))]>
         observation.(ConnectionDiscovery.Metadata)))) in
    let? _ := CreateSnapshot s in eret (Ok s)) resourceIDs.

(** [DiscoverConnection] *)
Definition DiscoverConnection (connectionID : string) : effr W (list ResourceSnapshot) :=
  let? (definition, connection) := findConnection connectionID in
  match discoverer connection.(EnvironmentConnection.Type_) with
  | None => eret (Err (errorf "no discovery driver is configured for connection type %q"
                        [ConnectionType_string connection.(EnvironmentConnection.Type_)]))
  | Some discover =>
    let! _ := recordAudit (audit_event definition connection "resource.discovery.started"
                OutcomeStarted "Infrastructure discovery started" ∅) in
    let! observed := discover connection in
    match observed with
    | Err e =>
      let! _ := recordAudit (audit_event definition connection "resource.discovery.failed"
                  OutcomeFailed e ∅) in
      eret (Err e)
    | Ok observation =>
      let? structure := materializeHPCStructure definition connection observation in
      let? _ := match UpsertDiscoveredStorage with
        | Some store => materializeDiscoveredStorages store definition connection observation
        | None => eret (Ok tt)
        end in
      let resourceIDs := boundResourceIDs definition connection.(EnvironmentConnection.ID) in
      if bool_decide (resourceIDs = []) then
        eret (Err (errorf "connection %q has no bound resources"
                    [connection.(EnvironmentConnection.ID)]))
      else
        let! now := Now in
        let materialized := ResourceSnapshot.ResourceID <$> structure in
        let? bound := snapshot_bound connection observation now
          (List.filter (λ id, negb (bool_decide (id ∈ materialized))) resourceIDs) in
        let items := structure ++ bound in
        let! _ := recordAudit (audit_event definition connection "resource.discovery.completed"
          OutcomeSucceeded "Infrastructure discovery completed"
          (<["nodeCount" := AnyInt (Z.of_nat (length observation.(ConnectionDiscovery.Nodes)))]>
           (<["snapshotCount" := AnyInt (Z.of_nat (length items))]>
            {["loginNodeDiscovered" := AnyBool
                (match observation.(ConnectionDiscovery.LoginNode) with
                 | Some _ => true | None => false end)]}))) in
        eret (Ok items)
    end
  end.
End coordinator.

(** ** What discovery returns *)
Section results.
Context {W : Type} `{ResourceInventory W, EnvironmentCatalog W, Discoverers W}.
Context `{AuditStore W, WallClock W, FreshIDs W}.

Lemma wrap_ok {A} message (m : effr W A) w a w' : wrap message m w = (Ok a, w') → m w = (Ok a, w').
Proof. unfold wrap. by destruct (m w) as [[b|e] w1]. Qed.

Lemma find_connection_ok id ds d c : find_connection id ds = Ok (d, c) →
  d ∈ ds ∧ c ∈ d.(EnvironmentDefinition.Connections) ∧ c.(EnvironmentConnection.ID) = id.
Proof.
  induction ds as [|d0 ds IH]; simpl; [done|]. destruct (List.find _ _) as [c0|] eqn:E.
  - intros [= <- <-]. apply find_some in E as [Hin Hid]. apply bool_decide_eq_true in Hid.
    split_and!; [by left|by apply list_elem_of_In|done].
  - intros [Hd Hc]%IH. split; [by right|done].
Qed.

Lemma login_snapshot definition connection cid rids d b w s w' :
  materializeLoginNode definition connection cid rids d b w = (Ok s, w') →
  s.(ResourceSnapshot.ResourceID) = loginResourceID connection.(EnvironmentConnection.ID) ∧
  s.(ResourceSnapshot.Available) = b.
Proof.
  unfold materializeLoginNode. intros (? & w1 & _ & Hm)%ebindr_ok.
  apply ebindr_ok in Hm as (? & w2 & _ & Hm). apply ebind_ok in Hm as (? & w3 & _ & Hm).
  apply ebind_ok in Hm as (? & w4 & _ & Hm). apply ebindr_ok in Hm as (? & w5 & _ & Hm).
  by injection Hm as <- <-.
Qed.

Lemma node_snapshot definition connection cid now d w s w' :
  materialize_node definition connection cid now d w = (Ok s, w') →
  s.(ResourceSnapshot.ResourceID) = discoveredNodeID connection.(EnvironmentConnection.ID)
    d.(DiscoveredNode.Name) ∧
  s.(ResourceSnapshot.Available) = slurmNodeAvailable d.(DiscoveredNode.State).
Proof.
  unfold materialize_node. intros (? & w1 & _ & Hm)%ebindr_ok.
  apply ebindr_ok in Hm as (? & w2 & _ & Hm). apply ebindr_ok in Hm as (? & w3 & _ & Hm).
  apply ebind_ok in Hm as (? & w4 & _ & Hm). apply ebindr_ok in Hm as (? & w5 & _ & Hm).
  by injection Hm as <- <-.
Qed.

(** The snapshot of a node says which node and whether it is usable. *)
Definition snapshot_of (connectionID : string) (d : DiscoveredNode) (s : ResourceSnapshot) : Prop :=
  s.(ResourceSnapshot.ResourceID) = discoveredNodeID connectionID d.(DiscoveredNode.Name) ∧
  s.(ResourceSnapshot.Available) = slurmNodeAvailable d.(DiscoveredNode.State).

Definition login_ids (connectionID : string) (o : ConnectionDiscovery) : list string :=
  match o.(ConnectionDiscovery.LoginNode) with
  | Some _ => [loginResourceID connectionID]
  | None => []
  end.
Definition node_ids (connectionID : string) (o : ConnectionDiscovery) : list string :=
  (λ d, discoveredNodeID connectionID d.(DiscoveredNode.Name)) <$> o.(ConnectionDiscovery.Nodes).

Lemma structure_snapshots definition connection o w l w' :
  materializeHPCStructure definition connection o w = (Ok l, w') →
  ∃ logins nodes, l = logins ++ nodes ∧
    ResourceSnapshot.ResourceID <$> logins = login_ids connection.(EnvironmentConnection.ID) o ∧
    Forall2 (snapshot_of connection.(EnvironmentConnection.ID)) o.(ConnectionDiscovery.Nodes) nodes.
Proof.
  assert (materialize_structure definition connection o w = (Ok l, w') →
    ∃ logins nodes, l = logins ++ nodes ∧
    ResourceSnapshot.ResourceID <$> logins = login_ids connection.(EnvironmentConnection.ID) o ∧
    Forall2 (snapshot_of connection.(EnvironmentConnection.ID)) o.(ConnectionDiscovery.Nodes) nodes)
    as Hstr.
  { unfold materialize_structure. intros (? & w1 & _ & Hm)%ebindr_ok.
    apply ebindr_ok in Hm as (? & w2 & _ & Hm). apply ebindr_ok in Hm as (? & w3 & _ & Hm).
    apply ebindr_ok in Hm as (logins & w4 & Hl & Hm).
    apply ebindr_ok in Hm as (nodes & w5 & Hn & Hm). injection Hm as <- <-.
    exists logins, nodes. split; [done|]. split.
    - unfold login_ids. destruct (ConnectionDiscovery.LoginNode o) as [d|].
      + apply ebindr_ok in Hl as (s & w6 & Hs & Hl). injection Hl as <- _. simpl.
        by apply login_snapshot in Hs as [-> _].
      + by injection Hl as <- _.
    - unfold materializeNodes in Hn. destruct (ConnectionDiscovery.Nodes o) as [|d ds] eqn:Ed.
      + injection Hn as <- _. constructor.
      + apply ebind_ok in Hn as (now & w6 & _ & Hn). eapply map_effr_ok; [|exact Hn].
        intros d' w7 s w8 _ Hs. by eapply node_snapshot. }
  unfold materializeHPCStructure.
  destruct (ConnectionDiscovery.LoginNode o) eqn:El; [done|].
  destruct (ConnectionDiscovery.Nodes o) eqn:En; [|done]. intros [= <- <-].
  exists [], []. unfold login_ids. rewrite El. split_and!; [done..|constructor].
Qed.

Lemma nodes_ids id ds nodes : Forall2 (snapshot_of id) ds nodes →
  ResourceSnapshot.ResourceID <$> nodes =
    (λ d, discoveredNodeID id d.(DiscoveredNode.Name)) <$> ds.
Proof.
  induction 1 as [|d s l l' [Hd _] _ IH]; [done|]. rewrite !fmap_cons, Hd. by f_equal.
Qed.

Lemma bound_snapshots connection o now ids w l w' :
  snapshot_bound connection o now ids w = (Ok l, w') → ResourceSnapshot.ResourceID <$> l = ids.
Proof.
  unfold snapshot_bound. intros Hm.
  eapply (map_effr_ok _ (λ id s, s.(ResourceSnapshot.ResourceID) = id)) in Hm.
  - induction Hm as [|id s ids l Hs _ IH]; simpl; [done|]. by rewrite Hs, <- IH.
  - intros id w1 s w2 _ Hs. apply ebind_ok in Hs as (i & w3 & _ & Hs).
    apply ebindr_ok in Hs as (u & w4 & _ & Hs). by injection Hs as <- _.
Qed.

(** What a successful discovery went through. *)
Lemma DiscoverConnection_ok id w items w' : DiscoverConnection id w = (Ok items, w') →
  ∃ ds definition connection discover observation structure bound,
    (ListDefinitions w).1 = Ok ds ∧ definition ∈ ds ∧
    connection ∈ definition.(EnvironmentDefinition.Connections) ∧
    connection.(EnvironmentConnection.ID) = id ∧
    discoverer connection.(EnvironmentConnection.Type_) = Some discover ∧
    (∃ w1, (discover connection w1).1 = Ok observation) ∧
    (∃ w2 w3, materializeHPCStructure definition connection observation w2 = (Ok structure, w3)) ∧
    items = structure ++ bound ∧ boundResourceIDs definition id ≠ [] ∧
    ResourceSnapshot.ResourceID <$> bound =
      List.filter (λ i, negb (bool_decide (i ∈ ResourceSnapshot.ResourceID <$> structure)))
        (boundResourceIDs definition id).
Proof.
  unfold DiscoverConnection. intros ([definition connection] & w1 & Hf & Hm)%ebindr_ok.
  unfold findConnection in Hf. apply ebindr_ok in Hf as (ds & w2 & Hl & Hf).
  injection Hf as Hf _. apply find_connection_ok in Hf as (Hd & Hc & Hid).
  destruct (discoverer _) as [discover|] eqn:Ed; [|done].
  apply ebind_ok in Hm as (? & w3 & _ & Hm). apply ebind_ok in Hm as (r & w4 & Hobs & Hm).
  destruct r as [observation|e]; [|by apply ebind_ok in Hm as (? & w5 & _ & Hm)].
  apply ebindr_ok in Hm as (structure & w5 & Hs & Hm).
  apply ebindr_ok in Hm as (? & w6 & _ & Hm). rewrite Hid in Hm.
  case_bool_decide as Hb; [done|]. apply ebind_ok in Hm as (now & w7 & _ & Hm).
  apply ebindr_ok in Hm as (bound & w8 & Hbound & Hm).
  apply ebind_ok in Hm as (? & w9 & _ & Hm). injection Hm as <- <-.
  apply bound_snapshots in Hbound.
  exists ds, definition, connection, discover, observation, structure, bound.
  split_and!; try done.
  - by rewrite Hl.
  - exists w3. by rewrite Hobs.
  - eauto.
Qed.

(** A discovery that succeeds snapshots every resource once: the login node and
    each compute node the probe reported, in order, a node as available exactly
    when its scheduler state says so, and then every enabled resource bound to the
    connection that those did not cover. *)
Theorem discovery_covers_resources id w items w' : DiscoverConnection id w = (Ok items, w') →
  ∃ definition connection observation,
    connection ∈ definition.(EnvironmentDefinition.Connections) ∧
    connection.(EnvironmentConnection.ID) = id ∧
    ResourceSnapshot.ResourceID <$> items =
      (login_ids id observation ++ node_ids id observation) ++
      List.filter (λ i, negb (bool_decide (i ∈ login_ids id observation ++ node_ids id observation)))
        (boundResourceIDs definition id) ∧
    (∀ d, d ∈ observation.(ConnectionDiscovery.Nodes) →
       ∃ s, s ∈ items ∧ snapshot_of id d s) ∧
    (∀ i, i ∈ boundResourceIDs definition id → i ∈ ResourceSnapshot.ResourceID <$> items).
Proof.
  intros (ds & definition & connection & discover & o & structure & bound & _ & _ & Hc & Hid & _ &
    _ & (w2 & w3 & Hs) & -> & _ & Hb)%DiscoverConnection_ok.
  apply structure_snapshots in Hs as (logins & nodes & -> & Hl & Hn). rewrite Hid in Hl, Hn.
  assert (ResourceSnapshot.ResourceID <$> (logins ++ nodes) =
    login_ids id o ++ node_ids id o) as Hids.
  { rewrite fmap_app, Hl. f_equal. by apply nodes_ids. }
  rewrite Hids in Hb. exists definition, connection, o. split; [done|]. split; [done|].
  assert (ResourceSnapshot.ResourceID <$> ((logins ++ nodes) ++ bound) = (login_ids id o ++ node_ids id o) ++
    List.filter (λ i, negb (bool_decide (i ∈ login_ids id o ++ node_ids id o)))
      (boundResourceIDs definition id)) as Hall by (by rewrite fmap_app, Hids, Hb).
  split; [done|]. split.
  - intros d [i Hi]%list_elem_of_lookup. apply (Forall2_lookup_l _ _ _ _ _ Hn) in Hi as (s & Hs & Hsd).
    exists s. split; [|done]. apply list_elem_of_lookup_2 in Hs. rewrite !elem_of_app. auto.
  - intros i Hi. rewrite Hall. apply elem_of_app.
    destruct (decide (i ∈ login_ids id o ++ node_ids id o)) as [|Hni]; [by left|right].
    apply list_elem_of_In, filter_In. split; [by apply list_elem_of_In|].
    by rewrite bool_decide_false.
Qed.

(** The first discovery of an environment without declared resources fails
    after it did its work: when no stored definition binds a resource to the
    connection, [DiscoverConnection] returns an error whatever the probe reported,
    because the bindings it has just stored are not read back. *)
Theorem unbound_discovery_fails id w r w' :
  (∀ ds, (ListDefinitions w).1 = Ok ds → ∀ d, d ∈ ds → boundResourceIDs d id = []) →
  DiscoverConnection id w = (r, w') → ∃ e, r = Err e.
Proof.
  intros Hu E. destruct r as [items|e]; [|eauto]. exfalso.
  apply DiscoverConnection_ok in E
    as (ds & d & c & disc & o & str & b & Hds & Hd & _ & _ & _ & _ & _ & _ & Hne & _).
  by apply Hne, (Hu ds).
Qed.
End results.

(** Distinct discovered paths can share a storage identifier, since separators
    become dashes: the storage stored for the first is then overwritten by the
    second. *)
Theorem storage_ids_collide connectionID : ∃ p q, p ≠ q ∧
  distinct_paths ∅ [(zero : TransferPath) <| TransferPath.Path := p |>;
                    (zero : TransferPath) <| TransferPath.Path := q |>] =
    [(p, (zero : TransferPath) <| TransferPath.Path := p |>);
     (q, (zero : TransferPath) <| TransferPath.Path := q |>)] ∧
  storage_id connectionID p = storage_id connectionID q.
Proof. exists "/scratch/user", "/scratch-user". by split_and!. Qed.

(** ** A concrete inventory: what was stored is part of the definition *)
Module Example.
Record World := mk_world {
  stored : list Resource;
  bindings : list ResourceRuntimeBinding;
  snapshots : list ResourceSnapshot
}.
Definition hpc : EnvironmentConnection := (zero : EnvironmentConnection)
  <| EnvironmentConnection.ID := "hpc" |> <| EnvironmentConnection.Name := "HPC" |>.
Definition slurm : EnvironmentRuntime := (zero : EnvironmentRuntime)
  <| EnvironmentRuntime.ID := "slurm" |>
  <| EnvironmentRuntime.Configuration := {["connectionId" := AnyString "hpc"]} |>.
Definition definition (w : World) : EnvironmentDefinition := (zero : EnvironmentDefinition)
  <| EnvironmentDefinition.Connections := [hpc] |>
  <| EnvironmentDefinition.Runtimes := [slurm] |>
  <| EnvironmentDefinition.Resources := w.(stored) |>
  <| EnvironmentDefinition.RuntimeBindings := w.(bindings) |>.
Definition node (name state : string) : DiscoveredNode :=
  DiscoveredNode.mk name state 4 0 0 "" [] [] [] "" ∅.
Definition observation : ConnectionDiscovery := ConnectionDiscovery.mk true
  {["partitions" := AnyMaps [[("name", AnyString "gpu"); ("cpuCoresPerNode", AnyInt 8)]]]} []
  [node "n1" "idle"; node "n2" "down*"] (Some zero) zero.

#[local] Instance inventory : ResourceInventory World := {|
  Upsert r := λ w, (Ok tt, mk_world (w.(stored) ++ [r]) w.(bindings) w.(snapshots));
  UpsertRuntimeBinding b := λ w, (Ok tt, mk_world w.(stored) (w.(bindings) ++ [b]) w.(snapshots));
  UpsertRelation _ := eret (Ok tt);
  CreateSnapshot s := λ w, (Ok tt, mk_world w.(stored) w.(bindings) (w.(snapshots) ++ [s]))
|}.
#[local] Instance catalog : EnvironmentCatalog World := {|
  ListDefinitions := λ w, (Ok [definition w], w); UpsertDiscoveredStorage := None
|}.
#[local] Instance discoverers : Discoverers World := λ _, Some (λ _, eret (Ok observation)).
#[local] Instance audit : AuditStore World := None.
#[local] Instance clock : WallClock World := eret 1.
#[local] Instance ids : FreshIDs World := λ p, eret p.

Definition fresh : World := mk_world [] [] [].
Definition first := DiscoverConnection "hpc" fresh.
Definition second := DiscoverConnection "hpc" first.2.

(** The first discovery stores the cluster, the partition, the login node and the
    two nodes and reports an error; the second one succeeds. *)
Example discovery_twice :
  first.1 = Err (errorf "connection %q has no bound resources" ["hpc"]) ∧
  Resource.ID <$> first.2.(stored) =
    ["hpc-cluster"; "hpc-partition-gpu"; "hpc-login"; "hpc-node-n1"; "hpc-node-n2"] ∧
  is_ok second.1 = true ∧
  ResourceSnapshot.Available <$> first.2.(snapshots) = [true; true; false].
Proof. vm_compute. done. Qed.

Lemma unbound_discovery_fails_witness : ∃ e, first.1 = Err e.
Proof.
  unfold first. destruct (DiscoverConnection "hpc" fresh) as [r w'] eqn:E.
  apply (unbound_discovery_fails "hpc" fresh r w'); [|exact E].
  intros ds [= <-] d Hd. apply list_elem_of_singleton in Hd. subst d. reflexivity.
Defined.

Lemma discovery_covers_resources_witness :
  ∃ items, second.1 = Ok items ∧ "hpc-cluster" ∈ ResourceSnapshot.ResourceID <$> items.
Proof.
  assert (is_ok second.1 = true) as Hok by (vm_compute; reflexivity).
  assert (bool_decide ("hpc-cluster" ∈ match second.1 with
    | Ok items => ResourceSnapshot.ResourceID <$> items | Err _ => [] end) = true) as Hin
    by (vm_compute; reflexivity).
  unfold second in *. destruct (DiscoverConnection "hpc" first.2) as [[items|] w'] eqn:E;
    [|discriminate].
  exists items. split; [reflexivity|].
  destruct (discovery_covers_resources "hpc" first.2 items w' E) as (d & c & o & _ & _ & Hids & _).
  simpl in Hin. apply bool_decide_eq_true in Hin. exact Hin.
Defined.
End Example.
End Discovery.
