(* ===== verification/Registry.v ===== *)
(** * The runtime registry (src/internal/provider/registry/registry.go)

    [Registry] maps an execution mode and a runtime to an adapter;
    [CatalogResolver] falls back to the environment catalog, building adapters
    from stored runtimes and connections and keeping them. The type of adapters is
    a parameter; of an adapter only the modes it declares matter here. *)

From Stdlib Require Import Ascii.
From S2P Require Import Prelude GoStrings Domain Ports.

Module Registry.
(** [runtimeKey] *)
Definition runtimeKey (mode : ExecutionMode) (runtimeID : string) : string :=
  ExecutionMode_string mode +:+ NUL +:+ runtimeID.

Section registry.
Context {A : Type} (modes : A → list ExecutionMode).
Abbreviation registry := (gmap string A).

(** [Registry.Register]; a nil adapter is [None]. *)
Definition Register (runtimeID : string) (adapter : option A) (r : registry)
    : result unit * registry :=
  match adapter with
  | None => (Err (errorf "runtime id and adapter are required" []), r)
  | Some a =>
    if bool_decide (runtimeID = "") then
      (Err (errorf "runtime id and adapter are required" []), r)
    else
      match modes a with
      | [] => (Err (errorf "runtime %q does not declare execution modes" [runtimeID]), r)
      | ms =>
        match for_each (λ mode, check (bool_decide (r !! runtimeKey mode runtimeID = None))
                (errorf "runtime %q is already registered for mode %q"
                   [runtimeID; ExecutionMode_string mode])) ms with
        | Err e => (Err e, r)
        | Ok _ => (Ok tt, foldl (λ r mode, <[runtimeKey mode runtimeID := a]> r) r ms)
        end
      end
  end.

(** [Registry.Resolve] *)
Definition Resolve (mode : ExecutionMode) (runtimeID : string) (r : registry) : result A :=
  match r !! runtimeKey mode runtimeID with
  | Some a => Ok a
  | None =>
    match r !! runtimeKey mode "*" with
    | Some a => Ok a
    | None => Err (errorf "runtime %q is not registered for mode %q"
                     [runtimeID; ExecutionMode_string mode])
    end
  end.
End registry.

Section catalog.
Context {A : Type}.

(** [ConnectionAdapterFactory.Build], by the driver the factory declares. *)
Abbreviation factories :=
  (RuntimeDriver → option (EnvironmentRuntime → EnvironmentConnection → result A)).

(** [string(mode) + "\\x00" + runtimeID], as it is written. *)
Definition cacheKey (mode : ExecutionMode) (runtimeID : string) : string :=
  ExecutionMode_string mode +:+ "\x00" +:+ runtimeID.

(** The first runtime of the catalog with an identifier, with its environment. *)
Fixpoint find_runtime (runtimeID : string) (definitions : list EnvironmentDefinition)
    : option (EnvironmentDefinition * EnvironmentRuntime) :=
  match definitions with
  | [] => None
  | d :: rest =>
    match List.find (λ r, bool_decide (r.(EnvironmentRuntime.ID) = runtimeID))
            d.(EnvironmentDefinition.Runtimes) with
    | Some runtime => Some (d, runtime)
    | None => find_runtime runtimeID rest
    end
  end.

(** The adapter for a runtime of the catalog, and the adapters kept. *)
Definition configure (mode : ExecutionMode) (runtimeID : string)
    (build : EnvironmentRuntime → EnvironmentConnection → result A)
    (definition : EnvironmentDefinition) (runtime : EnvironmentRuntime) (kept : gmap string A)
    : result A * gmap string A :=
  let connectionID := meta_string runtime.(EnvironmentRuntime.Configuration) "connectionId" in
  if bool_decide (connectionID = "") then
    (Err (errorf "runtime %q requires configuration.connectionId" [runtimeID]), kept)
  else
    match List.find (λ c, bool_decide (c.(EnvironmentConnection.ID) = connectionID))
            definition.(EnvironmentDefinition.Connections) with
    | None => (Err (errorf "runtime %q references unknown connection %q"
                      [runtimeID; connectionID]), kept)
    | Some connection =>
      match kept !! cacheKey mode runtimeID with
      | Some cached => (Ok cached, kept)
      | None =>
        match build runtime connection with
        | Err e => (Err (errorf "configure runtime %q: %w" [runtimeID; e]), kept)
        | Ok configured => (Ok configured, <[cacheKey mode runtimeID := configured]> kept)
        end
      end
    end.

(** [CatalogResolver.Resolve]; [catalog] is what [List] returns, [None] when the
    resolver has no catalog. *)
Definition CatalogResolve (build : factories) (catalog : option (result (list EnvironmentDefinition)))
    (mode : ExecutionMode) (runtimeID : string) (r kept : gmap string A)
    : result A * gmap string A :=
  match Resolve mode runtimeID r, catalog with
  | Ok a, _ => (Ok a, kept)
  | Err e, None => (Err e, kept)
  | Err _, Some (Err e) =>
    (Err (errorf "resolve runtime %q from environment catalog: %w" [runtimeID; e]), kept)
  | Err e, Some (Ok definitions) =>
    match find_runtime runtimeID definitions with
    | None => (Err e, kept)
    | Some (definition, runtime) =>
      match build runtime.(EnvironmentRuntime.Driver) with
      | Some b => configure mode runtimeID b definition runtime kept
      | None => (Resolve mode (RuntimeDriver_string runtime.(EnvironmentRuntime.Driver)) r, kept)
      end
    end
  end.
End catalog.

(** ** Keys *)
Definition nul_free (s : string) : Prop := free_of "000"%char s.

Lemma str_split_free c a b a' b' : free_of c a → free_of c a' →
  a +:+ String c b = a' +:+ String c b' → a = a' ∧ b = b'.
Proof.
  unfold free_of. revert a'. induction a as [|x a IH]; intros [|x' a'] Ha Ha' E.
  - by injection E.
  - exfalso. injection E as -> E. simpl in Ha'. by rewrite bool_decide_true in Ha'.
  - exfalso. injection E as -> E. simpl in Ha. by rewrite bool_decide_true in Ha.
  - injection E as -> E. simpl in Ha, Ha'. apply andb_true_iff in Ha as [_ Ha], Ha' as [_ Ha'].
    by destruct (IH a' Ha Ha' E) as [-> ->].
Qed.

Lemma runtimeKey_inj m m' id id' :
  nul_free (ExecutionMode_string m) → nul_free (ExecutionMode_string m') →
  runtimeKey m id = runtimeKey m' id' →
  ExecutionMode_string m = ExecutionMode_string m' ∧ id = id'.
Proof. intros Hm Hm' E. by apply (str_split_free "000"%char). Qed.

(** ** Registration *)
Section facts.
Context {A : Type} (modes : A → list ExecutionMode).
Context (modes_plain : ∀ a, Forall (λ m, nul_free (ExecutionMode_string m)) (modes a)).
Implicit Types (r : gmap string A).

Lemma register_writes ms id (a : A) r key :
  foldl (λ r mode, <[runtimeKey mode id := a]> r) r ms !! key =
    if bool_decide (key ∈ (λ m, runtimeKey m id) <$> ms) then Some a else r !! key.
Proof.
  revert r. induction ms as [|m ms IH]; intros r; [done|].
  rewrite fmap_cons. cbn [foldl]. rewrite IH.
  destruct (decide (key ∈ (λ m, runtimeKey m id) <$> ms)) as [Hin|Hni].
  - rewrite !bool_decide_true; [done|by right|done].
  - rewrite (bool_decide_false (key ∈ _ <$> ms)) by done.
    destruct (decide (key = runtimeKey m id)) as [->|Hne].
    + rewrite lookup_insert_eq, bool_decide_true; [done|by left].
    + rewrite lookup_insert_ne by done. rewrite bool_decide_false; [done|].
      by intros [?|?]%elem_of_cons.
Qed.

Lemma Register_spec id adapter r res r' : Register modes id adapter r = (res, r') →
  match res with
  | Err _ => r' = r
  | Ok _ => ∃ a, adapter = Some a ∧ id ≠ "" ∧ modes a ≠ [] ∧
      (∀ m, m ∈ modes a → r !! runtimeKey m id = None) ∧
      ∀ key, r' !! key = if bool_decide (key ∈ (λ m, runtimeKey m id) <$> modes a)
                         then Some a else r !! key
  end.
Proof.
  unfold Register. destruct adapter as [a|]; [|by intros [= <- <-]].
  case_bool_decide as Hid; [by intros [= <- <-]|].
  destruct (modes a) as [|m ms] eqn:Em; [by intros [= <- <-]|].
  destruct (for_each _ _) as [[]|e] eqn:Ef; [|by intros [= <- <-]].
  intros [= <- <-]. exists a. rewrite Em. split_and!; [done..| |].
  - rewrite for_each_ok in Ef. intros m' Hm'. specialize (Ef m' Hm').
    unfold check in Ef. by case_bool_decide.
  - intros key. change (foldl _ (<[_:=_]> r) ms) with
      (foldl (λ r mode, <[runtimeKey mode id := a]> r) r (m :: ms)). apply register_writes.
Qed.

(** The registries that can be reached by registering. *)
Inductive reachable : gmap string A → Prop :=
| reachable_new : reachable ∅
| reachable_register id adapter r res r' :
    reachable r → Register modes id adapter r = (res, r') → reachable r'.

Lemma reachable_modes r : reachable r → ∀ key a, r !! key = Some a →
  ∃ m id, m ∈ modes a ∧ key = runtimeKey m id.
Proof.
  induction 1 as [|id adapter r res r' _ IH E]; [by intros ? ? ?%lookup_empty_Some|].
  intros key a. apply Register_spec in E. destruct res as [[]|]; [|subst; apply IH].
  destruct E as (a0 & _ & _ & _ & _ & Hkeys). rewrite Hkeys.
  case_bool_decide as Hk; [|apply IH]. intros [= <-].
  apply list_elem_of_fmap in Hk as (m & -> & Hm). eauto.
Qed.

Lemma Resolve_modes r mode id a : reachable r → nul_free (ExecutionMode_string mode) →
  Resolve mode id r = Ok a →
  ∃ m, m ∈ modes a ∧ ExecutionMode_string m = ExecutionMode_string mode.
Proof.
  intros Hr Hm. unfold Resolve.
  assert (∀ id a, r !! runtimeKey mode id = Some a →
    ∃ m, m ∈ modes a ∧ ExecutionMode_string m = ExecutionMode_string mode) as Hkey.
  { intros id0 a0 Hl. destruct (reachable_modes r Hr _ _ Hl) as (m & id' & Hin & Hk).
    exists m. split; [done|]. symmetry.
    pose proof (proj1 (Forall_forall _ _) (modes_plain a0) m Hin) as Hmp.
    by apply (runtimeKey_inj mode m id0 id' Hm Hmp). }
  destruct (r !! runtimeKey mode id) as [a0|] eqn:E1; [intros [= <-]; eauto|].
  destruct (r !! runtimeKey mode "*") as [a0|] eqn:E2; [intros [= <-]; eauto|done].
Qed.

(** Whatever was registered, an adapter that is resolved for a mode declares
    that mode; a registration that is refused changes nothing, and one that is
    accepted answers for exactly its modes and its runtime and disturbs no adapter
    registered before. *)
Theorem registry_modes r mode id a : reachable r → nul_free (ExecutionMode_string mode) →
  Resolve mode id r = Ok a →
  (∃ m, m ∈ modes a ∧ ExecutionMode_string m = ExecutionMode_string mode) ∧
  ∀ id' adapter res r', Register modes id' adapter r = (res, r') →
    (∀ e, res = Err e → r' = r) ∧
    (∀ key b, r !! key = Some b → r' !! key = Some b) ∧
    (∀ u b, res = Ok u → adapter = Some b → ∀ m, m ∈ modes b → Resolve m id' r' = Ok b).
Proof.
  intros Hr Hm Ha. split; [by eapply Resolve_modes|].
  intros id' adapter res r' E. apply Register_spec in E. destruct res as [u|e].
  - destruct E as (b & -> & _ & _ & Hnone & Hkeys). split_and!; [done| |].
    + intros key b0 Hb. rewrite Hkeys. case_bool_decide as Hk; [|done].
      apply list_elem_of_fmap in Hk as (m & -> & Hin). by rewrite Hnone in Hb.
    + intros u' b' _ [= <-] m Hin. unfold Resolve. rewrite Hkeys, bool_decide_true; [done|].
      apply list_elem_of_fmap. eauto.
  - subst. split_and!; [done..|]. by intros u b [=].
Qed.
End facts.

(** ** Adapters from the catalog *)
Section built.
Context {A : Type} (modes : A → list ExecutionMode).
Implicit Types (r kept : gmap string A).

(** A runtime of the catalog is configured at most once: after a resolution
    that returned an adapter, every later one for the same mode and runtime, over
    any later state of the catalog that still lists the runtime under a driver with
    a factory and with a known connection, returns that same adapter without
    building another, even when the connection has changed in between. *)
Theorem catalog_adapter_kept build build' ds ds' mode id r kept a kept' d rt b d' rt' b' c' :
  Resolve mode id r = Err (errorf "runtime %q is not registered for mode %q"
                             [id; ExecutionMode_string mode]) →
  find_runtime id ds = Some (d, rt) → build rt.(EnvironmentRuntime.Driver) = Some b →
  CatalogResolve build (Some (Ok ds)) mode id r kept = (Ok a, kept') →
  find_runtime id ds' = Some (d', rt') → build' rt'.(EnvironmentRuntime.Driver) = Some b' →
  let connectionID := meta_string rt'.(EnvironmentRuntime.Configuration) "connectionId" in
  connectionID ≠ "" →
  List.find (λ c, bool_decide (c.(EnvironmentConnection.ID) = connectionID))
    d'.(EnvironmentDefinition.Connections) = Some c' →
  CatalogResolve build' (Some (Ok ds')) mode id r kept' = (Ok a, kept').
Proof.
  intros Hr Hf Hb Hres Hf' Hb' cid Hcid Hc'. unfold CatalogResolve in *. rewrite Hr in *.
  rewrite Hf, Hb in Hres. rewrite Hf', Hb'. unfold configure in *. fold cid.
  rewrite bool_decide_false by done. rewrite Hc'.
  destruct (bool_decide _); [done|]. destruct (List.find _ d.(EnvironmentDefinition.Connections));
    [|done].
  destruct (kept !! cacheKey mode id) as [cached|] eqn:Ek.
  - injection Hres as <- <-. by rewrite Ek.
  - destruct (b rt _) as [configured|]; [|done]. injection Hres as <- <-.
    by rewrite lookup_insert_eq.
Qed.
End built.

(** ** Concrete registries *)
Module Example.
(** An adapter is its name, with the modes it declares. *)
Definition adapter : Type := string * list ExecutionMode.
Definition one : gmap string adapter :=
  (Register snd "local" (Some ("l", [ExecutionModeReal])) ∅).2.
Definition two : gmap string adapter :=
  (Register snd "*" (Some ("any", [ExecutionModeReal; ExecutionModeSimulation])) one).2.

Example resolutions :
  fst <$> Resolve ExecutionModeReal "local" two = Ok "l" ∧
  fst <$> Resolve ExecutionModeReal "other" two = Ok "any" ∧
  is_ok (Register snd "local" (Some ("l2", [ExecutionModeSimulation; ExecutionModeReal])) two).1
    = false ∧
  is_ok (Resolve ExecutionModeInteractive "local" two) = false.
Proof. vm_compute. done. Qed.

Definition known_modes (a : adapter) : list ExecutionMode :=
  List.filter (λ m, match m with ExecutionModeOther _ => false | _ => true end) a.2.

Lemma known_plain a : Forall (λ m, nul_free (ExecutionMode_string m)) (known_modes a).
Proof.
  unfold known_modes. induction a.2 as [|m l IH]; simpl; [constructor|].
  destruct m; try done; by constructor.
Qed.

Lemma registry_modes_witness :
  ∃ a, Resolve ExecutionModeReal "local" (Register known_modes "local"
      (Some ("l", [ExecutionModeReal])) ∅).2 = Ok a ∧
    ∃ m, m ∈ known_modes a ∧ ExecutionMode_string m = "real".
Proof.
  exists ("l", [ExecutionModeReal]). split; [vm_compute; reflexivity|].
  destruct (Register known_modes "local" (Some ("l", [ExecutionModeReal])) ∅) as [res r] eqn:E.
  refine (proj1 (registry_modes known_modes known_plain r ExecutionModeReal "local"
    ("l", [ExecutionModeReal]) (reachable_register _ _ _ _ _ _ (reachable_new _) E)
    ltac:(reflexivity) _)).
  vm_compute in E. injection E as <- <-. vm_compute. reflexivity.
Defined.

Definition runtime : EnvironmentRuntime := (zero : EnvironmentRuntime)
  <| EnvironmentRuntime.ID := "hpc" |>
  <| EnvironmentRuntime.Driver := RuntimeDriverSlurm |>
  <| EnvironmentRuntime.Configuration := {["connectionId" := AnyString "c"]} |>.
Definition definition (endpoint : string) : EnvironmentDefinition := (zero : EnvironmentDefinition)
  <| EnvironmentDefinition.Runtimes := [runtime] |>
  <| EnvironmentDefinition.Connections := [(zero : EnvironmentConnection)
       <| EnvironmentConnection.ID := "c" |> <| EnvironmentConnection.Endpoint := endpoint |>] |>.
Definition builds (d : RuntimeDriver)
    : option (EnvironmentRuntime → EnvironmentConnection → result string) :=
  Some (λ _ c, Ok c.(EnvironmentConnection.Endpoint)).

(** The connection moved to another host; the adapter did not. *)
Lemma catalog_adapter_kept_witness :
  let kept := (CatalogResolve builds (Some (Ok [definition "old"])) ExecutionModeReal "hpc" ∅ ∅).2 in
  CatalogResolve builds (Some (Ok [definition "new"])) ExecutionModeReal "hpc" ∅ kept =
    (Ok "old", kept).
Proof.
  intros kept.
  apply (catalog_adapter_kept builds builds [definition "old"] [definition "new"] ExecutionModeReal
    "hpc" ∅ ∅ "old" kept (definition "old") runtime (λ _ c, Ok c.(EnvironmentConnection.Endpoint))
    (definition "new") runtime (λ _ c, Ok c.(EnvironmentConnection.Endpoint))
    ((zero : EnvironmentConnection) <| EnvironmentConnection.ID := "c" |>
       <| EnvironmentConnection.Endpoint := "new" |>));
    [reflexivity|reflexivity|reflexivity|reflexivity|reflexivity|reflexivity|discriminate|reflexivity].
Defined.
End Example.
End Registry.
