(* ===== verification/Supervisor.v ===== *)
(** * The execution supervisor (src/internal/controlplane/execution/supervisor.go)

    The supervisor turns an accepted plan into activity starts: it polls the
    running activities, starts those whose predecessors have completed, at most
    [MaxParallel] at a time, and settles the run in the execution store. *)

From S2P Require Import Prelude GoStrings GoFloat Domain Ports.

Module Supervisor.

(** [Config]; the preparer is the [PreparationCoordinator] of the world. *)
Module Config.
Record Config := mk { PollInterval : Duration; MaxParallel : Z }.
End Config.
Abbreviation Config := Config.Config.

(** [New], with its collaborators present *)
Definition New (config : Config) : Config :=
  Config.mk
    (if config.(Config.PollInterval) <=? 0 then Second else config.(Config.PollInterval))
    (if config.(Config.MaxParallel) <=? 0 then 8 else config.(Config.MaxParallel)).

(** [maxFloat] *)
Definition maxFloat : float64 → float64 → float64 := fmax.

(** ** Tasks *)

(** [metadataFloat] *)
Definition metadataFloat (m : metadata) (key : string) : option float64 :=
  v ← m !! key;
  match v with
  | AnyFloat64 f | AnyFloat32 f => Some f
  | AnyInt64 z | AnyInt z => Some (float_of_Z z)
  | _ => None
  end.

Definition TimingSubmittedAt : string := "submittedAt".
Definition TimingContainerStartedAt : string := "containerStartedAt".

(** [executionStartedAt] *)
Definition executionStartedAt (handle : ActivityHandle) : float64 :=
  match metadataFloat handle.(ActivityHandle.Metadata) TimingContainerStartedAt with
  | Some t => if flt handle.(ActivityHandle.StartedAt) t then t
              else handle.(ActivityHandle.StartedAt)
  | None => handle.(ActivityHandle.StartedAt)
  end.

(** [applyHandleTiming] *)
Definition applyHandleTiming (task : TaskExecution) (handle : ActivityHandle)
    : TaskExecution :=
  let startedAt := handle.(ActivityHandle.StartedAt) in
  let task := match metadataFloat handle.(ActivityHandle.Metadata) TimingSubmittedAt with
    | Some submittedAt =>
      task <| TaskExecution.QueuedAt := submittedAt |>
           <| TaskExecution.QueueSeconds := maxFloat f0 (fsub startedAt submittedAt) |>
    | None => task
    end in
  let task := if flt f0 startedAt then task <| TaskExecution.StartedAt := startedAt |>
              else task in
  match metadataFloat handle.(ActivityHandle.Metadata) TimingContainerStartedAt with
  | Some t => task <| TaskExecution.OverheadSeconds := maxFloat f0 (fsub t startedAt) |>
  | None => task
  end.

(** [completeTask] *)
Definition completeTask (task : TaskExecution) (handle : ActivityHandle) : TaskExecution :=
  let task := task <| TaskExecution.Status := TaskCompleted |>
                   <| TaskExecution.FinishedAt := handle.(ActivityHandle.FinishedAt) |> in
  let task := applyHandleTiming task handle in
  task <| TaskExecution.RuntimeSeconds := maxFloat f0
    (fsub handle.(ActivityHandle.FinishedAt) (executionStartedAt handle)) |>.

(** [newRunningTask]; [dataReadyAt] is the value of its [unixNow ()]. *)
Definition newRunningTask (dataReadyAt : float64) (runID activityID : string)
    (assignment : PlanAssignment) (resource : Resource) (handle : ActivityHandle)
    (readyAt : float64) (preparation : option PreparationGate) : TaskExecution :=
  let runs := match preparation with
              | Some gate => gate.(PreparationGate.TransferRuns) | None => [] end in
  {| TaskExecution.ID := runID +:+ ":" +:+ activityID;
     TaskExecution.ExecutionRunID := runID;
     TaskExecution.PlanAssignmentID := assignment.(PlanAssignment.ID);
     TaskExecution.ActivityID := activityID;
     TaskExecution.PlannedResourceID := assignment.(PlanAssignment.ResourceID);
     TaskExecution.AllocatedResourceID := resource.(Resource.ID);
     TaskExecution.Attempt := 1;
     TaskExecution.Status := TaskRunning;
     TaskExecution.ReadyAt := readyAt;
     TaskExecution.DataReadyAt := dataReadyAt;
     TaskExecution.QueuedAt := handle.(ActivityHandle.StartedAt);
     TaskExecution.StartedAt := handle.(ActivityHandle.StartedAt);
     TaskExecution.FinishedAt := zero;
     TaskExecution.RuntimeSeconds := zero;
     TaskExecution.QueueSeconds := zero;
     TaskExecution.TransferSeconds := foldl (λ s t, fadd s (maxFloat f0
       (fsub t.(DataTransferRun.FinishedAt) t.(DataTransferRun.StartedAt)))) f0 runs;
     TaskExecution.TransferBytes :=
       foldl (λ s t, int64 (s + t.(DataTransferRun.TransferredBytes))) 0 runs;
     TaskExecution.InterferenceSeconds := zero;
     TaskExecution.OverheadSeconds := zero;
     TaskExecution.Cost := zero;
     TaskExecution.FailureReason := "" |}.

(** [transferObservations] *)
Definition transferObservations (runID activityID resourceID : string)
    (observations : list DataTransferRun) : list DataTransfer :=
  (λ o : DataTransferRun,
    {| DataTransfer.ID := runID +:+ ":" +:+ activityID +:+ ":" +:+ o.(DataTransferRun.ID);
       DataTransfer.ExecutionRunID := runID;
       DataTransfer.ProducerActivityID := "";
       DataTransfer.ConsumerActivityID := activityID;
       DataTransfer.SourceResourceID := resourceID;
       DataTransfer.TargetResourceID := resourceID;
       DataTransfer.Bytes := o.(DataTransferRun.TransferredBytes);
       DataTransfer.StartedAt := o.(DataTransferRun.StartedAt);
       DataTransfer.FinishedAt := o.(DataTransferRun.FinishedAt);
       DataTransfer.DurationSeconds := maxFloat f0
         (fsub o.(DataTransferRun.FinishedAt) o.(DataTransferRun.StartedAt));
       DataTransfer.Cost := zero |}) <$> observations.

(** ** The request *)

(** The loop of [selectRuntime] over the bindings. *)
Fixpoint select_binding (runtimes : gmap string EnvironmentRuntime) (mode : RuntimeMode)
    (resourceID selected : string) (bindings : list ResourceRuntimeBinding) : string :=
  match bindings with
  | [] => ""
  | binding :: bindings =>
    let continue := select_binding runtimes mode resourceID selected bindings in
    if negb (bool_decide (binding.(ResourceRuntimeBinding.ResourceID) = resourceID)) ||
       negb binding.(ResourceRuntimeBinding.Enabled) then continue
    else match runtimes !! binding.(ResourceRuntimeBinding.RuntimeID) with
         | None => continue
         | Some runtime =>
           if negb (bool_decide (runtime.(EnvironmentRuntime.Mode) = mode)) then continue
           else if negb (bool_decide (selected = "")) &&
                   negb (bool_decide (runtime.(EnvironmentRuntime.ID) = selected))
           then continue
           else runtime.(EnvironmentRuntime.ID)
         end
  end.

Definition index {A} (key : A → string) (values : list A) : gmap string A :=
  foldl (λ m v, <[key v := v]> m) ∅ values.

(** [selectRuntime] *)
Definition selectRuntime (request : ExecutionRequest) (assignment : PlanAssignment) : string :=
  let mode := if bool_decide (request.(ExecutionRequest.Run).(ExecutionRun.Mode) =
                              ExecutionModeSimulation)
              then RuntimeModeSimulation else RuntimeModeExecution in
  let runtimes := index EnvironmentRuntime.ID request.(ExecutionRequest.Runtimes) in
  let selected := meta_string assignment.(PlanAssignment.Metadata) "runtimeId" in
  select_binding runtimes mode assignment.(PlanAssignment.ResourceID) selected
    request.(ExecutionRequest.RuntimeBindings).

(** [validateRequest] *)
Definition validateRequest (request : ExecutionRequest) : result unit :=
  let mode := request.(ExecutionRequest.Run).(ExecutionRun.Mode) in
  if bool_decide (request.(ExecutionRequest.Run).(ExecutionRun.ID) = "") ||
     bool_decide (request.(ExecutionRequest.Plan).(SchedulePlan.ID) = "") ||
     bool_decide (request.(ExecutionRequest.Workflow).(WorkflowVersion.ID) = "") then
    Err (errorf "run, plan and workflow identifiers are required" [])
  else if negb (bool_decide (mode = ExecutionModeReal)) &&
          negb (bool_decide (mode = ExecutionModeSimulation)) &&
          negb (bool_decide (mode = ExecutionModeInteractive)) then
    Err (errorf "unsupported execution mode %q" [ExecutionMode_string mode])
  else if negb (bool_decide (length request.(ExecutionRequest.Plan).(SchedulePlan.Assignments) =
                  length request.(ExecutionRequest.Workflow).(WorkflowVersion.Activities))) then
    Err (errorf "plan must assign every activity exactly once" [])
  else for_each (λ assignment,
         check (negb (bool_decide (selectRuntime request assignment = "")))
           (errorf "resource %q has no enabled runtime for %q mode"
             [assignment.(PlanAssignment.ResourceID); ExecutionMode_string mode]))
         request.(ExecutionRequest.Plan).(SchedulePlan.Assignments).

(** [indexActivities], [indexResources], [indexAssignments] *)
Definition indexActivities : list Activity → gmap string Activity := index Activity.ID.
Definition indexResources : list Resource → gmap string Resource := index Resource.ID.
Definition indexAssignments : list PlanAssignment → gmap string PlanAssignment :=
  index PlanAssignment.ActivityID.

(** The map [predecessors] of [executeActivities]. *)
Definition indexPredecessors (dependencies : list ActivityDependency)
    : gmap string (list string) :=
  foldl (λ m d, <[d.(ActivityDependency.ActivityID) :=
      lookup_zero m d.(ActivityDependency.ActivityID) ++
      [d.(ActivityDependency.DependsOnActivityID)]]> m) ∅ dependencies.

(** ** Scheduling *)

(** The maps of [executeActivities]. *)
Module Progress.
Record Progress := mk {
  completed : gmap string TaskExecution;
  running : gmap string ActivityHandle;
  tasks : gmap string TaskExecution;
  transfers : list DataTransfer
}.
#[global] Instance eta : Eta Progress := λ r,
  mk r.(completed) r.(running) r.(tasks) r.(transfers).
End Progress.
Abbreviation Progress := Progress.Progress.

Section supervisor.
Context `{MapOrder} {W : Type} `{Clock W, Cancellation W, ExecutionStore W, PlanExecutor W,
  PreparationCoordinator W, ActivityController W}.
Variable config : Config.

(** The condition of the loop of [readyActivities]. *)
Definition is_ready (predecessors : gmap string (list string)) (p : Progress) (id : string)
    : bool :=
  negb (bool_decide (is_Some (p.(Progress.completed) !! id))) &&
  negb (bool_decide (is_Some (p.(Progress.running) !! id))) &&
  negb (bool_decide (is_Some (p.(Progress.tasks) !! id))) &&
  forallb (λ predecessor, bool_decide (is_Some (p.(Progress.completed) !! predecessor)))
    (lookup_zero predecessors id).

(** [readyActivities] *)
Definition readyActivities (salt : nat) (activities : gmap string Activity)
    (predecessors : gmap string (list string)) (p : Progress) : list string :=
  sort_strings (List.filter (is_ready predecessors p) (fst <$> map_range salt activities)).

Definition task_le (a b : TaskExecution) : Prop :=
  String.le a.(TaskExecution.ActivityID) b.(TaskExecution.ActivityID).
#[global] Instance task_le_dec a b : Decision (task_le a b).
Proof. unfold task_le. apply _. Defined.

(** [runningTrace] *)
Definition runningTrace (salt : nat) (request : ExecutionRequest) (p : Progress)
    : ExecutionTrace :=
  {| ExecutionTrace.RunID := request.(ExecutionRequest.Run).(ExecutionRun.ID);
     ExecutionTrace.PlanID := request.(ExecutionRequest.Plan).(SchedulePlan.ID);
     ExecutionTrace.Mode := request.(ExecutionRequest.Run).(ExecutionRun.Mode);
     ExecutionTrace.Predicted := request.(ExecutionRequest.Plan).(SchedulePlan.Predicted);
     ExecutionTrace.Executed := zero;
     ExecutionTrace.Tasks := merge_sort task_le (snd <$> map_range salt p.(Progress.tasks));
     ExecutionTrace.Transfers := p.(Progress.transfers) |}.

(** The loop of [completedTrace]: first start, last finish and the sums. *)
Definition trace_step (acc : float64 * float64 * ExecutionMetrics) (task : TaskExecution)
    : float64 * float64 * ExecutionMetrics :=
  let '(firstStart, lastFinish, m) := acc in
  ((if feq firstStart f0 || flt task.(TaskExecution.StartedAt) firstStart
    then task.(TaskExecution.StartedAt) else firstStart),
   maxFloat lastFinish task.(TaskExecution.FinishedAt),
   m <| ExecutionMetrics.ComputeSeconds :=
          fadd m.(ExecutionMetrics.ComputeSeconds) task.(TaskExecution.RuntimeSeconds) |>
     <| ExecutionMetrics.TransferSeconds :=
          fadd m.(ExecutionMetrics.TransferSeconds) task.(TaskExecution.TransferSeconds) |>
     <| ExecutionMetrics.QueueSeconds :=
          fadd m.(ExecutionMetrics.QueueSeconds) task.(TaskExecution.QueueSeconds) |>
     <| ExecutionMetrics.Cost :=
          fadd m.(ExecutionMetrics.Cost) task.(TaskExecution.Cost) |>).

(** [completedTrace] *)
Definition completedTrace (salt : nat) (request : ExecutionRequest) (p : Progress)
    : ExecutionTrace :=
  let trace := runningTrace salt request p in
  let '(firstStart, lastFinish, executed) :=
    foldl trace_step
      (f0, f0, (zero : ExecutionMetrics) <| ExecutionMetrics.Feasible := true |>)
      trace.(ExecutionTrace.Tasks) in
  trace <| ExecutionTrace.Executed := executed
    <| ExecutionMetrics.MakespanSeconds := maxFloat f0 (fsub lastFinish firstStart) |> |>.

(** [inspectRunning]: its loop over the running handles *)
Fixpoint inspectRunning (mode : ExecutionMode) (handles : list (string * ActivityHandle))
    (p : Progress) : sup W Progress :=
  match handles with
  | [] => sret p
  | (activityID, handle) :: handles =>
    let! observed := controller_Inspect handle.(ActivityHandle.ID) mode in
    match observed with
    | Err e => serr (errorf "inspect activity %q: %w" [activityID; e])
    | Ok None => spanic
    | Ok (Some observed) =>
      let task := lookup_zero p.(Progress.tasks) activityID in
      match observed.(ActivityHandle.Status) with
      | HandleCompleted =>
        let task := completeTask task observed in
        let* _ := sup_lift (SaveTask task) in
        inspectRunning mode handles
          (p <| Progress.tasks := <[activityID := task]> p.(Progress.tasks) |>
             <| Progress.completed := <[activityID := task]> p.(Progress.completed) |>
             <| Progress.running := delete activityID p.(Progress.running) |>)
      | HandleFailed | HandleStopped =>
        let! _ := SaveTask (task <| TaskExecution.Status := TaskFailed |>
          <| TaskExecution.FailureReason := observed.(ActivityHandle.Failure) |>) in
        serr (errorf "activity %q failed: %s"
          [activityID; observed.(ActivityHandle.Failure)])
      | _ => inspectRunning mode handles p
      end
    end
  end.

(** [recordStartFailure]; the supervisor ignores its result. *)
Definition recordStartFailure (runID activityID : string) (assignment : PlanAssignment)
    (resource : Resource) (runtimeID : string) (err : error) : effr W unit :=
  let! now := unixNow in
  let message := "start activity: " +:+ err in
  let handle := {|
    ActivityHandle.ID := runID +:+ ":" +:+ activityID;
    ActivityHandle.RunID := runID; ActivityHandle.ActivityID := activityID;
    ActivityHandle.ResourceID := resource.(Resource.ID);
    ActivityHandle.RuntimeID := runtimeID; ActivityHandle.ExternalID := "";
    ActivityHandle.Status := HandleFailed; ActivityHandle.Endpoints := [];
    ActivityHandle.StartedAt := now; ActivityHandle.FinishedAt := now;
    ActivityHandle.ExitCode := None; ActivityHandle.Failure := message;
    ActivityHandle.Log := "[AKOFLOW ERROR] " +:+ message +:+ newline;
    ActivityHandle.Artifacts := None; ActivityHandle.Metadata := ∅ |} in
  let? _ := Save handle in
  let! dataReadyAt := unixNow in
  let task := newRunningTask dataReadyAt runID activityID assignment resource handle now None in
  SaveTask (task <| TaskExecution.Status := TaskFailed |> <| TaskExecution.FinishedAt := now |>
                 <| TaskExecution.FailureReason := message |>).

(** [prepareActivity] *)
Definition prepareActivity (runID activityID : string) (requirement : PreparationRequirement)
    : effr W (option PreparationGate) :=
  match Prepare with
  | None => eret (Err (errorf
      "activity %q requires materialization but no preparation coordinator is configured"
      [activityID]))
  | Some prepare =>
    prepare activityID (requirement <| PreparationRequirement.Artifact :=
      (λ a : ArtifactMaterialization, a <| ArtifactMaterialization.RunID := runID |>
        <| ArtifactMaterialization.ActivityID := activityID |>) <$>
      requirement.(PreparationRequirement.Artifact) |>)
  end.

(** The condition under which an activity without requirement is refused. *)
Definition needs_preparation (activity : Activity) : bool :=
  match activity.(Activity.Command).(ActivityCommand.Executable) with
  | Some e => bool_decide (e.(ExecutableReference.Source).(ExecutableSource.Type_) =
                           ExecutableSourceBuild)
  | None => false
  end.


(** The tail of the loop body of [startReadyActivities], from [Start] on. *)
Definition launch (request : ExecutionRequest) (activity : Activity)
    (assignment : PlanAssignment) (resource : Resource) (activityID : string)
    (readyAt : float64) (preparation : option PreparationGate) (p : Progress)
    : sup W Progress :=
  let runID := request.(ExecutionRequest.Run).(ExecutionRun.ID) in
  let runtimeID := selectRuntime request assignment in
  let! started := controller_Start {|
    ActivityExecutionContext.Run := request.(ExecutionRequest.Run);
    ActivityExecutionContext.Workflow := request.(ExecutionRequest.Workflow);
    ActivityExecutionContext.Activity := activity;
    ActivityExecutionContext.Assignment := assignment;
    ActivityExecutionContext.Resource := resource;
    ActivityExecutionContext.RuntimeID := runtimeID;
    ActivityExecutionContext.Preparation := preparation |} in
  match started with
  | Err e =>
    let! _ := recordStartFailure runID activityID assignment resource runtimeID e in
    serr (errorf "start activity %q: %w" [activityID; e])
  | Ok handle =>
    let! dataReadyAt := unixNow in
    let task := newRunningTask dataReadyAt runID activityID assignment resource handle
                  readyAt preparation in
    let '(task, p) :=
      if bool_decide (handle.(ActivityHandle.Status) = HandleCompleted) then
        let task := completeTask task handle in
        (task,
         p <| Progress.tasks := <[activityID := task]> p.(Progress.tasks) |>
           <| Progress.completed := <[activityID := task]> p.(Progress.completed) |>
           <| Progress.running := delete activityID p.(Progress.running) |>)
      else
        (task,
         p <| Progress.tasks := <[activityID := task]> p.(Progress.tasks) |>
           <| Progress.running := <[activityID := handle]> p.(Progress.running) |>) in
    let* _ := sup_lift (SaveTask task) in
    sret p
  end.

(** The loop body of [startReadyActivities] *)
Definition start_one (request : ExecutionRequest) (activities : gmap string Activity)
    (assignments : gmap string PlanAssignment) (resources : gmap string Resource)
    (activityID : string) (p : Progress) : sup W Progress :=
  let runID := request.(ExecutionRequest.Run).(ExecutionRun.ID) in
  let! readyAt := unixNow in
  let activity := lookup_zero activities activityID in
  let assignment := lookup_zero assignments activityID in
  let runtimeID := selectRuntime request assignment in
  match resources !! assignment.(PlanAssignment.ResourceID) with
  | None =>
    let failure := errorf "resource %q not found" [assignment.(PlanAssignment.ResourceID)] in
    let! _ := recordStartFailure runID activityID assignment
      ((zero : Resource) <| Resource.ID := assignment.(PlanAssignment.ResourceID) |>)
      runtimeID failure in
    serr failure
  | Some resource =>
    match request.(ExecutionRequest.PreparationRequirementsByActivity) !! activityID with
    | Some requirement =>
      let! prepared := prepareActivity runID activityID requirement in
      match prepared with
      | Err e =>
        let failure := errorf "prepare activity %q: %w" [activityID; e] in
        let! _ := recordStartFailure runID activityID assignment resource runtimeID failure in
        serr failure
      | Ok None => spanic
      | Ok (Some gate) =>
        launch request activity assignment resource activityID readyAt (Some gate)
          (p <| Progress.transfers := p.(Progress.transfers) ++
             transferObservations runID activityID resource.(Resource.ID)
               gate.(PreparationGate.TransferRuns) |>)
      end
    | None =>
      if needs_preparation activity then
        let failure := errorf
          "activity %q has an executable reference but no preparation requirement"
          [activityID] in
        let! _ := recordStartFailure runID activityID assignment resource runtimeID failure in
        serr failure
      else launch request activity assignment resource activityID readyAt None p
    end
  end.

(** [startReadyActivities] *)
Fixpoint startReadyActivities (request : ExecutionRequest)
    (activities : gmap string Activity) (assignments : gmap string PlanAssignment)
    (resources : gmap string Resource) (ready : list string) (p : Progress) : sup W Progress :=
  match ready with
  | [] => sret p
  | activityID :: ready =>
    let* p := start_one request activities assignments resources activityID p in
    startReadyActivities request activities assignments resources ready p
  end.

(** One turn of the loop of [executeActivities]: a trace, or the maps for the
    next turn. *)
Definition turn (salt : nat) (request : ExecutionRequest) (p : Progress)
    : sup W (ExecutionTrace + Progress) :=
  let activities :=
    indexActivities request.(ExecutionRequest.Workflow).(WorkflowVersion.Activities) in
  let resources := indexResources request.(ExecutionRequest.Resources) in
  let assignments :=
    indexAssignments request.(ExecutionRequest.Plan).(SchedulePlan.Assignments) in
  let predecessors :=
    indexPredecessors request.(ExecutionRequest.Workflow).(WorkflowVersion.Dependencies) in
  let mode := request.(ExecutionRequest.Run).(ExecutionRun.Mode) in
  let! cancelled := ctx_err in
  match cancelled with
  | Some e => serr e
  | None =>
    let* p := inspectRunning mode (map_range salt p.(Progress.running)) p in
    if bool_decide (mode = ExecutionModeInteractive) &&
       (0 <? Z.of_nat (size p.(Progress.running))) then
      sret (inl (runningTrace salt request p))
    else
      let ready := readyActivities salt activities predecessors p in
      let available :=
        Z.min (config.(Config.MaxParallel) - Z.of_nat (size p.(Progress.running)))
              (Z.of_nat (length ready)) in
      if available <? 0 then spanic
      else
        let* p := startReadyActivities request activities assignments resources
                    (take (Z.to_nat available) ready) p in
        if bool_decide (size p.(Progress.running) = 0%nat) && bool_decide (ready = []) &&
           (Z.of_nat (size p.(Progress.completed)) <? Z.of_nat (size activities)) then
          serr (errorf "execution cannot progress: dependency cycle or incomplete plan" [])
        else if 0 <? Z.of_nat (size p.(Progress.running)) then
          let! stopped := wait config.(Config.PollInterval) in
          match stopped with
          | Some e => serr e
          | None => sret (inr p)
          end
        else sret (inr p)
  end.

(** [executeActivities]; [None] when [fuel] turns were not enough. *)
Fixpoint execute_loop (fuel : nat) (request : ExecutionRequest) (p : Progress)
    : eff W (option (outcome ExecutionTrace)) :=
  match fuel with
  | O => eret None
  | S fuel =>
    if Z.of_nat (size p.(Progress.completed)) <? Z.of_nat (size
         (indexActivities request.(ExecutionRequest.Workflow).(WorkflowVersion.Activities))) then
      let! next := turn fuel request p in
      match next with
      | Returns (Ok (inl trace)) => eret (Some (Returns (Ok trace)))
      | Returns (Ok (inr p)) => execute_loop fuel request p
      | Returns (Err e) => eret (Some (Returns (Err e)))
      | Panics => eret (Some Panics)
      end
    else eret (Some (Returns (Ok (completedTrace fuel request p))))
  end.

Definition no_progress : Progress := Progress.mk ∅ ∅ ∅ [].

Definition executeActivities (fuel : nat) (request : ExecutionRequest)
    : eff W (option (outcome ExecutionTrace)) := execute_loop fuel request no_progress.

(** The request [Execute] works with: its run carries the plan and is running. *)
Definition running_request (request : ExecutionRequest) : ExecutionRequest :=
  request <| ExecutionRequest.Run := request.(ExecutionRequest.Run)
    <| ExecutionRun.SchedulePlanID := request.(ExecutionRequest.Plan).(SchedulePlan.ID) |>
    <| ExecutionRun.Status := ExecutionRunRunning |> |>.

(** The choice of [Execute] between the simulator and the activities. *)
Definition run_plan (fuel : nat) (request : ExecutionRequest)
    : eff W (option (outcome ExecutionTrace)) :=
  if bool_decide (request.(ExecutionRequest.Run).(ExecutionRun.Mode) = ExecutionModeSimulation)
  then let! r := plan_Execute request in eret (Some (Returns r))
  else executeActivities fuel request.

(** [Execute]; the deferred function runs when an error is returned. *)
Definition Execute (fuel : nat) (request : ExecutionRequest)
    : eff W (option (outcome ExecutionTrace)) :=
  let request := running_request request in
  let run := request.(ExecutionRequest.Run) in
  match validateRequest request with
  | Err e => eret (Some (Returns (Err e)))
  | Ok _ =>
    let! created := CreateRun run in
    match created with
    | Err e => eret (Some (Returns (Err (errorf "create execution run: %w" [e]))))
    | Ok _ =>
      let fail (e : error) : eff W (option (outcome ExecutionTrace)) :=
        let! _ := FailRun run.(ExecutionRun.ID) e in eret (Some (Returns (Err e))) in
      let! executed := run_plan fuel request in
      match executed with
      | None => eret None
      | Some Panics => eret (Some Panics)
      | Some (Returns (Err e)) => fail e
      | Some (Returns (Ok trace)) =>
        if bool_decide (run.(ExecutionRun.Mode) = ExecutionModeInteractive) then
          eret (Some (Returns (Ok trace)))
        else
          let! completed := CompleteRun trace in
          match completed with
          | Err e => fail (errorf "complete execution run: %w" [e])
          | Ok _ => eret (Some (Returns (Ok trace)))
          end
      end
    end
  end.
End supervisor.

(** ** Observing the supervisor

    Any world of collaborators can be made to record the calls the supervisor
    makes; the properties below are about those records. *)
Inductive call :=
| CStart (e : ActivityExecutionContext) (r : result ActivityHandle)
| CInspect (id : string) (r : result (option ActivityHandle))
| CCreateRun (r : result unit)
| CCompleteRun (trace : ExecutionTrace) (r : result unit)
| CFailRun (id reason : string)
| COther.

Section logged.
Context {W : Type} `{Clock W, Cancellation W, ExecutionStore W, PlanExecutor W,
  PreparationCoordinator W, ActivityController W}.

Definition Logged : Type := Recorded W call.

#[global] Instance logged_clock : Clock Logged := logged UnixNano (λ _, COther).
#[global] Instance logged_cancellation : Cancellation Logged := {|
  ctx_err := logged ctx_err (λ _, COther);
  wait d := logged (wait d) (λ _, COther)
|}.
#[global] Instance logged_store : ExecutionStore Logged := {|
  execution_handles := {|
    Save h := logged (Save h) (λ _, COther);
    Find id := logged (Find id) (λ _, COther) |};
  CreateRun run := logged (CreateRun run) CCreateRun;
  FindRun id := logged (FindRun id) (λ _, COther);
  SaveTask t := logged (SaveTask t) (λ _, COther);
  CompleteRun t := logged (CompleteRun t) (CCompleteRun t);
  FailRun id reason := logged (FailRun id reason) (λ _, CFailRun id reason)
|}.
#[global] Instance logged_simulation : PlanExecutor Logged := λ r,
  logged (plan_Execute r) (λ _, COther).
#[global] Instance logged_preparer : PreparationCoordinator Logged :=
  (λ prepare id req, logged (prepare id req) (λ _, COther)) <$> Prepare.
#[global] Instance logged_controller : ActivityController Logged := {|
  controller_Start e := logged (controller_Start e) (CStart e);
  controller_Inspect id mode := logged (controller_Inspect id mode) (CInspect id)
|}.
End logged.
Arguments Logged : clear implicits.

(** ** What a log says *)
Definition starts (l : list call) (id : string) : Prop :=
  ∃ e r, CStart e r ∈ l ∧ e.(ActivityExecutionContext.Activity).(Activity.ID) = id.

(** The activity was started, and its start or a later inspection of the handle
    it returned reported completion. *)
Definition completes (l : list call) (id : string) : Prop :=
  ∃ e h, CStart e (Ok h) ∈ l ∧ e.(ActivityExecutionContext.Activity).(Activity.ID) = id ∧
    (h.(ActivityHandle.Status) = HandleCompleted ∨
     ∃ h', CInspect h.(ActivityHandle.ID) (Ok (Some h')) ∈ l ∧
           h'.(ActivityHandle.Status) = HandleCompleted).

(** Activities started, not known to have completed: by replaying the log. *)
Definition replay_live (live : gmap string string) (c : call) : gmap string string :=
  match c with
  | CStart e (Ok h) =>
    if bool_decide (h.(ActivityHandle.Status) = HandleCompleted) then live
    else <[e.(ActivityExecutionContext.Activity).(Activity.ID) := h.(ActivityHandle.ID)]> live
  | CInspect id (Ok (Some h)) =>
    if bool_decide (h.(ActivityHandle.Status) = HandleCompleted)
    then base.filter (λ '(_, hid), hid ≠ id) live else live
  | _ => live
  end.
Definition live (l : list call) : gmap string string := foldl replay_live ∅ l.

(** The discipline of a log: each activity is started at most once, only after
    all its predecessors completed, and never beyond the parallelism bound. *)
Definition disciplined (dependencies : list ActivityDependency) (max : Z) (l : list call)
    : Prop :=
  ∀ l1 e r l2, l = l1 ++ CStart e r :: l2 →
    let id := e.(ActivityExecutionContext.Activity).(Activity.ID) in
    ¬ starts l1 id ∧
    (∀ d, d ∈ dependencies → d.(ActivityDependency.ActivityID) = id →
       completes l1 d.(ActivityDependency.DependsOnActivityID)) ∧
    Z.of_nat (size (live l1)) < max.

Lemma starts_app l1 l2 id : starts (l1 ++ l2) id ↔ starts l1 id ∨ starts l2 id.
Proof. unfold starts. setoid_rewrite elem_of_app. naive_solver. Qed.
Lemma completes_mono l1 l2 id : completes l1 id → completes (l1 ++ l2) id.
Proof.
  intros (e & h & Hs & Hid & Hc). exists e, h. split_and!; [apply elem_of_app; by left|done|].
  destruct Hc as [?|(h' & ? & ?)]; [by left|right]. exists h'. split; [|done].
  apply elem_of_app. by left.
Qed.
Lemma live_app l1 l2 : live (l1 ++ l2) = foldl replay_live (live l1) l2.
Proof. apply foldl_app. Qed.

Definition is_start (c : call) : bool := match c with CStart _ _ => true | _ => false end.

(** Calls other than starts keep a log disciplined. *)
Lemma disciplined_app deps max l l' :
  disciplined deps max l → Forall (λ c, is_start c = false) l' → disciplined deps max (l ++ l').
Proof.
  intros Hd Hl' l1 e r l2 E. apply app_eq_app in E as (k & [[-> E]|[-> E]]).
  - destruct k as [|c k]; simpl in E.
    + subst l'. by apply Forall_cons in Hl' as [? _].
    + injection E as <- ->. apply (Hd l1 e r k). done.
  - rewrite E in Hl'. apply Forall_app in Hl' as [_ [? _]%Forall_cons]. done.
Qed.

Lemma disciplined_start deps max l e r :
  disciplined deps max l →
  let id := e.(ActivityExecutionContext.Activity).(Activity.ID) in
  ¬ starts l id →
  (∀ d, d ∈ deps → d.(ActivityDependency.ActivityID) = id →
     completes l d.(ActivityDependency.DependsOnActivityID)) →
  Z.of_nat (size (live l)) < max →
  disciplined deps max (l ++ [CStart e r]).
Proof.
  intros Hd id Hn Hp Hl l1 e' r' l2 E.
  destruct l2 as [|c l2 _] using rev_ind.
  - apply app_inj_tail in E as [-> [= -> ->]]. done.
  - rewrite app_comm_cons, app_assoc in E. apply app_inj_tail in E as [-> _].
    by apply (Hd l1 e' r' l2).
Qed.

(** The position of the first start of an activity in a log. *)
Definition starts_of (id : string) (c : call) : bool :=
  match c with
  | CStart e _ => bool_decide (e.(ActivityExecutionContext.Activity).(Activity.ID) = id)
  | _ => false
  end.
Fixpoint first_start (l : list call) (id : string) : nat :=
  match l with
  | [] => 0
  | c :: l => if starts_of id c then 0 else S (first_start l id)
  end.

Lemma first_start_split l id : starts l id →
  ∃ l1 e r l2, l = l1 ++ CStart e r :: l2 ∧
    e.(ActivityExecutionContext.Activity).(Activity.ID) = id ∧ first_start l id = length l1.
Proof.
  induction l as [|c l IH]; [by intros (? & ? & ?%elem_of_nil & _)|].
  intros (e & r & Hin & Hid). simpl. destruct (starts_of id c) eqn:Ec.
  - destruct c as [e' r'| | | | |]; try done. apply bool_decide_eq_true in Ec.
    by exists [], e', r', l.
  - destruct IH as (l1 & e1 & r1 & l2 & -> & ? & ->).
    { apply elem_of_cons in Hin as [<-|Hin]; [|by exists e, r].
      simpl in Ec. by rewrite bool_decide_true in Ec. }
    by exists (c :: l1), e1, r1, l2.
Qed.

Lemma first_start_lt l1 l2 id : starts l1 id → (first_start (l1 ++ l2) id < length l1)%nat.
Proof.
  induction l1 as [|c l1 IH]; [by intros (? & ? & ?%elem_of_nil & _)|].
  intros (e & r & Hin & Hid). simpl. destruct (starts_of id c) eqn:Ec; [lia|].
  assert (starts l1 id) as Hs.
  { apply elem_of_cons in Hin as [<-|Hin]; [|by exists e, r].
    simpl in Ec. by rewrite bool_decide_true in Ec. }
  specialize (IH Hs). lia.
Qed.

Lemma completes_starts l id : completes l id → starts l id.
Proof. intros (e & h & ? & ? & _). by exists e, (Ok h). Qed.

(** A disciplined log orders the activities it starts. *)
Lemma disciplined_rank deps max l : disciplined deps max l →
  ∀ d, d ∈ deps → starts l d.(ActivityDependency.ActivityID) →
    starts l d.(ActivityDependency.DependsOnActivityID) ∧
    (first_start l d.(ActivityDependency.DependsOnActivityID) <
     first_start l d.(ActivityDependency.ActivityID))%nat.
Proof.
  intros Hd d Hin (l1 & e & r & l2 & -> & Hid & ->)%first_start_split.
  destruct (Hd l1 e r l2 eq_refl) as (_ & Hp & _).
  pose proof (completes_starts _ _ (Hp d Hin (eq_sym Hid))) as Hs.
  split; [|by apply first_start_lt]. apply starts_app. by left.
Qed.

(** ** Maps built from lists *)
Lemma index_key {A} (key : A → string) values id v :
  index key values !! id = Some v → key v = id ∧ v ∈ values.
Proof.
  unfold index. assert (∀ m : gmap string A, (∀ i x, m !! i = Some x → key x = i ∧ x ∈ values) →
    ∀ vs, (∀ x, x ∈ vs → x ∈ values) →
    foldl (λ m v, <[key v := v]> m) m vs !! id = Some v → key v = id ∧ v ∈ values) as Hgen.
  { intros m Hm vs. revert m Hm. induction vs as [|x vs IH]; intros m Hm Hvs; simpl; [apply Hm|].
    apply IH; [|intros y Hy; apply Hvs; by right]. intros i y.
    rewrite lookup_insert_Some. intros [[<- <-]|[_ ?]]; [|by apply Hm].
    split; [done|]. apply Hvs. by left. }
  apply (Hgen ∅); [|done]. intros i x. by rewrite lookup_empty.
Qed.

Lemma index_elem {A} (key : A → string) values v :
  v ∈ values → is_Some (index key values !! key v).
Proof.
  unfold index. induction values as [|x vs IH] using rev_ind; [by intros ?%elem_of_nil|].
  rewrite foldl_snoc. intros [Hv| ->%list_elem_of_singleton]%elem_of_app.
  - destruct (decide (key x = key v)) as [->|]; [by rewrite lookup_insert_eq|].
    rewrite lookup_insert_ne by done. auto.
  - by rewrite lookup_insert_eq.
Qed.

Lemma index_size {A} (key : A → string) values : (size (index key values) ≤ length values)%nat.
Proof.
  unfold index. induction values as [|x vs IH] using rev_ind; [simpl; by rewrite map_size_empty|].
  rewrite foldl_snoc, map_size_insert, length_app. simpl. unfold id. case_match; lia.
Qed.

Section discipline.
Context `{MapOrder} {W : Type} `{Clock W, Cancellation W, ExecutionStore W, PlanExecutor W,
  PreparationCoordinator W, ActivityController W}.

(** Calls the discipline does not watch. *)
Definition quiet {A} (m : eff (Logged W) A) : Prop := appends (λ c, c = COther) m.
Lemma quiet_logged {A} (m : eff W A) : quiet (logged m (λ _, COther)).
Proof. by apply appends_logged. Qed.

Lemma quiet_now : quiet (unixNow (W := Logged W)).
Proof. apply appends_bind; [apply quiet_logged|intros; apply appends_ret]. Qed.
Lemma quiet_save_task t : quiet (SaveTask (W := Logged W) t).
Proof. apply quiet_logged. Qed.
Lemma quiet_record run id asg res rt e :
  quiet (recordStartFailure (W := Logged W) run id asg res rt e).
Proof.
  apply appends_bind; [apply quiet_now|intros now].
  apply appends_bindr; [apply quiet_logged|intros _].
  apply appends_bind; [apply quiet_now|intros d; apply quiet_save_task].
Qed.
Lemma quiet_prepare run id req : quiet (prepareActivity (W := Logged W) run id req).
Proof.
  unfold prepareActivity, Prepare, logged_preparer.
  destruct (@Prepare W _); simpl; [apply quiet_logged|apply appends_ret].
Qed.

(** No call settles the run while its activities are scheduled. *)
Definition working (c : call) : Prop :=
  match c with CStart _ _ | CInspect _ _ | COther => True | _ => False end.

Lemma works_quiet {A} (m : eff (Logged W) A) : quiet m → appends working m.
Proof. apply appends_weaken. by intros c ->. Qed.
Lemma works_inspect mode handles p : appends working (inspectRunning (W := Logged W) mode handles p).
Proof.
  revert p. induction handles as [|[id h] handles IH]; intros p; cbn [inspectRunning];
    [apply appends_ret|].
  apply appends_bind; [by apply appends_logged|]. intros [[obs|]|e]; [|apply appends_ret..].
  assert (∀ t, appends working (SaveTask (W := Logged W) t)) as Hs
    by (intros; apply works_quiet, quiet_save_task).
  destruct (ActivityHandle.Status obs); try done;
    try (apply appends_bind; [done|intros; apply appends_ret]).
  apply appends_sbind; [by apply appends_lift|done].
Qed.
Lemma works_start request acts asgs ress ready p :
  appends working (startReadyActivities (W := Logged W) request acts asgs ress ready p).
Proof.
  assert (∀ m : effr (Logged W) unit, quiet m → ∀ e,
    appends working (let! _ := m in serr (A := Progress) e)) as Hfail.
  { intros m Hm e. apply appends_bind; [by apply works_quiet|intros; apply appends_ret]. }
  assert (∀ act asg res id ra prep p,
    appends working (launch (W := Logged W) request act asg res id ra prep p)) as Hl.
  { intros. unfold launch. apply appends_bind; [by apply appends_logged|].
    intros [h|e]; [|apply Hfail, quiet_record].
    apply appends_bind; [apply works_quiet, quiet_now|]. intros d.
    destruct (bool_decide _); (apply appends_sbind;
      [apply appends_lift, works_quiet, quiet_save_task|intros; apply appends_ret]). }
  revert p. induction ready as [|id ready IH]; intros p; cbn [startReadyActivities];
    [apply appends_ret|].
  apply appends_sbind; [|done]. unfold start_one.
  apply appends_bind; [apply works_quiet, quiet_now|]. intros ra.
  case_match; [|apply Hfail, quiet_record]. case_match.
  - apply appends_bind; [apply works_quiet, quiet_prepare|].
    intros [[gate|]|e]; [apply Hl|apply appends_ret|apply Hfail, quiet_record].
  - destruct (needs_preparation _); [apply Hfail, quiet_record|apply Hl].
Qed.
Lemma works_loop config fuel request p :
  appends working (execute_loop (W := Logged W) config fuel request p).
Proof.
  revert p. induction fuel as [|fuel IH]; intros p; cbn [execute_loop]; [apply appends_ret|].
  case_match; [|apply appends_ret].
  apply appends_bind; [|intros [[[|]|]|]; [apply appends_ret|apply IH|apply appends_ret..]].
  unfold turn. apply appends_bind; [by apply appends_logged|]. intros [e|]; [apply appends_ret|].
  apply appends_sbind; [apply works_inspect|]. intros p1. case_match; [apply appends_ret|].
  case_match; [apply appends_ret|]. apply appends_sbind; [apply works_start|]. intros p2.
  case_match; [apply appends_ret|]. case_match; [|apply appends_ret].
  apply appends_bind; [by apply appends_logged|]. intros [|]; apply appends_ret.
Qed.

(** ** The invariant of the loop *)
Variable config : Config.
Variable request : ExecutionRequest.
Let activities : gmap string Activity :=
  indexActivities request.(ExecutionRequest.Workflow).(WorkflowVersion.Activities).
Let deps : list ActivityDependency :=
  request.(ExecutionRequest.Workflow).(WorkflowVersion.Dependencies).
Let max : Z := config.(Config.MaxParallel).

Record Inv (p : Progress) (l : list call) : Prop := {
  inv_dom : ∀ id, is_Some (p.(Progress.tasks) !! id) ↔
    is_Some (p.(Progress.completed) !! id) ∨ is_Some (p.(Progress.running) !! id);
  inv_disjoint : ∀ id, is_Some (p.(Progress.completed) !! id) → p.(Progress.running) !! id = None;
  inv_started : ∀ id, starts l id → is_Some (p.(Progress.tasks) !! id);
  inv_completed : ∀ id t, p.(Progress.completed) !! id = Some t →
    completes l id ∧ p.(Progress.tasks) !! id = Some t ∧
    t.(TaskExecution.Status) = TaskCompleted;
  inv_running : ∀ id h, p.(Progress.running) !! id = Some h →
    ∃ e, CStart e (Ok h) ∈ l ∧ e.(ActivityExecutionContext.Activity).(Activity.ID) = id;
  inv_ids : ∀ id t, p.(Progress.tasks) !! id = Some t → t.(TaskExecution.ActivityID) = id;
  inv_known : ∀ id, is_Some (p.(Progress.tasks) !! id) → is_Some (activities !! id);
  inv_live : ∀ id hid, live l !! id = Some hid →
    ∃ h, p.(Progress.running) !! id = Some h ∧ h.(ActivityHandle.ID) = hid;
  inv_bound : Z.of_nat (size p.(Progress.running)) ≤ max;
  inv_disciplined : disciplined deps max l
}.

Lemma quiet_live k m : Forall (λ c, c = COther) k → foldl replay_live m k = m.
Proof. intros Hk. induction Hk as [|c k -> _ IH]; [done|]. exact IH. Qed.
Lemma quiet_no_start k : Forall (λ c, c = COther) k → Forall (λ c, is_start c = false) k.
Proof. intros Hk. eapply Forall_impl; [exact Hk|]. by intros c ->. Qed.
Lemma quiet_starts k id : Forall (λ c, c = COther) k → ¬ starts k id.
Proof. intros Hk (e & r & Hin & _). rewrite Forall_forall in Hk. by apply Hk in Hin. Qed.

Lemma Inv_quiet p l k : Inv p l → Forall (λ c, c = COther) k → Inv p (l ++ k).
Proof.
  intros [] Hk. split; try done.
  - intros id [?|?]%starts_app; [auto|]. by apply (quiet_starts k id) in Hk.
  - intros id t Ht. destruct (inv_completed0 id t Ht) as (? & ? & ?).
    split_and!; auto using completes_mono.
  - intros id h Hh. destruct (inv_running0 id h Hh) as (e & ? & ?). exists e.
    split; [apply elem_of_app; by left|done].
  - intros id hid. rewrite live_app, quiet_live by done. auto.
  - apply disciplined_app; auto using quiet_no_start.
Qed.

Lemma no_progress_inv : 0 ≤ max → Inv no_progress [].
Proof.
  intros Hmax. unfold no_progress. split; simpl; intros *;
    rewrite ?lookup_empty; unfold is_Some; try naive_solver.
  - by intros (e & r & ?%elem_of_nil & _).
  - intros [|? ?] e r l2 E; discriminate E.
Qed.

Lemma log_save_task t w l : SaveTask (W := Logged W) t (w, l) =
  let '(a, w') := SaveTask t w in (a, (w', l ++ [COther])).
Proof. done. Qed.
Lemma log_start e w l : controller_Start (W := Logged W) e (w, l) =
  let '(a, w') := controller_Start e w in (a, (w', l ++ [CStart e a])).
Proof. done. Qed.
Lemma log_inspect id mode w l : controller_Inspect (W := Logged W) id mode (w, l) =
  let '(a, w') := controller_Inspect id mode w in (a, (w', l ++ [CInspect id a])).
Proof. done. Qed.

Lemma completeTask_id t h :
  (completeTask t h).(TaskExecution.ActivityID) = t.(TaskExecution.ActivityID).
Proof. unfold completeTask, applyHandleTiming. by repeat case_match. Qed.
Lemma completeTask_status t h : (completeTask t h).(TaskExecution.Status) = TaskCompleted.
Proof. unfold completeTask, applyHandleTiming. by repeat case_match. Qed.

(** A running activity is observed to have completed. *)
Definition finish (id : string) (t : TaskExecution) (p : Progress) : Progress :=
  p <| Progress.tasks := <[id := t]> p.(Progress.tasks) |>
    <| Progress.completed := <[id := t]> p.(Progress.completed) |>
    <| Progress.running := delete id p.(Progress.running) |>.

Definition completed_call (c : call) : bool :=
  match c with
  | CInspect _ (Ok (Some h)) => bool_decide (h.(ActivityHandle.Status) = HandleCompleted)
  | _ => false
  end.

Lemma starts_snoc_other l c id : is_start c = false → starts (l ++ [c]) id → starts l id.
Proof.
  intros Hc [?|(e & r & Hin & _)]%starts_app; [done|].
  apply list_elem_of_singleton in Hin. by subst.
Qed.

Lemma Inv_inspect p l c : is_start c = false → completed_call c = false →
  Inv p l → Inv p (l ++ [c]).
Proof.
  intros Hs Hc []. split; try done.
  - intros id ?%starts_snoc_other; auto.
  - intros id t Ht. destruct (inv_completed0 id t Ht) as (? & ? & ?).
    split_and!; auto using completes_mono.
  - intros id h Hh. destruct (inv_running0 id h Hh) as (e & ? & ?). exists e.
    split; [apply elem_of_app; by left|done].
  - intros id hid. rewrite live_app. simpl.
    assert (replay_live (live l) c = live l) as ->; [|by auto].
    destruct c as [| ? [[h|]|] | | | |]; try done. simpl in *. by rewrite Hc.
  - apply disciplined_app; [done|]. by constructor.
Qed.

Lemma Inv_finish p l id h h' t :
  Inv p l → p.(Progress.running) !! id = Some h →
  h'.(ActivityHandle.Status) = HandleCompleted →
  t.(TaskExecution.ActivityID) = id → t.(TaskExecution.Status) = TaskCompleted →
  Inv (finish id t p) (l ++ [CInspect h.(ActivityHandle.ID) (Ok (Some h'))]).
Proof.
  intros [] Hr Hh' Hid Hst. unfold finish. split; simpl.
  - intros i. destruct (decide (i = id)) as [->|Hne].
    + rewrite !lookup_insert_eq. naive_solver.
    + rewrite !lookup_insert_ne, lookup_delete_ne by done. auto.
  - intros i. destruct (decide (i = id)) as [->|Hne]; [by rewrite lookup_delete_eq|].
    rewrite lookup_insert_ne, lookup_delete_ne by done. auto.
  - intros i ?%starts_snoc_other; [|done]. destruct (decide (i = id)) as [->|Hne];
      [by rewrite lookup_insert_eq|]. rewrite lookup_insert_ne by done. auto.
  - intros i t'. destruct (decide (i = id)) as [->|Hne].
    + rewrite !lookup_insert_eq. intros [= <-]. split_and!; [|done..].
      destruct (inv_running0 id h Hr) as (e & He & Heid). exists e, h.
      split_and!; [apply elem_of_app; by left|done|]. right. exists h'.
      split; [|done]. apply elem_of_app. right. by left.
    + rewrite !lookup_insert_ne by done. intros Ht.
      destruct (inv_completed0 i t' Ht) as (? & ? & ?). split_and!; auto using completes_mono.
  - intros i hi [Hne Hi]%lookup_delete_Some. destruct (inv_running0 i hi Hi) as (e & ? & ?).
    exists e. split; [apply elem_of_app; by left|done].
  - intros i t'. destruct (decide (i = id)) as [->|Hne]; [rewrite lookup_insert_eq; by intros [= <-]|].
    rewrite lookup_insert_ne by done. auto.
  - intros i. destruct (decide (i = id)) as [->|Hne]; [|rewrite lookup_insert_ne by done; auto].
    intros _. apply inv_known0, inv_dom0. right. eauto.
  - intros i hid. rewrite live_app. simpl. rewrite bool_decide_true by done.
    intros [Hl Hne]%map_lookup_filter_Some. destruct (inv_live0 i hid Hl) as (hi & Hi & E).
    exists hi. split; [|done]. rewrite lookup_delete_ne; [done|]. intros ->. congruence.
  - rewrite map_size_delete_Some by eauto. lia.
  - apply disciplined_app; [done|]. by constructor.
Qed.

Lemma inspect_spec mode handles p w l o w' l' :
  NoDup handles.*1 → (∀ id h, (id, h) ∈ handles → p.(Progress.running) !! id = Some h) →
  Inv p l → inspectRunning (W := Logged W) mode handles p (w, l) = (o, (w', l')) →
  disciplined deps max l' ∧ ∀ p', o = Returns (Ok p') → Inv p' l'.
Proof.
  revert p w l. induction handles as [|[id h] handles IH]; intros p w l Hnd Hin HI; cbn [inspectRunning].
  { intros [= <- <- <-]. split; [apply HI|]. by intros p' [= <-]. }
  rewrite fmap_cons, NoDup_cons in Hnd. destruct Hnd as [Hid Hnd].
  assert (Progress.running p !! id = Some h) as Hrun by (apply Hin; by left).
  unfold ebind at 1. rewrite log_inspect.
  destruct (controller_Inspect (ActivityHandle.ID h) mode w) as [r w1] eqn:E1.
  destruct r as [[obs|]|e].
  2: { intros [= <- <- <-]. split; [|done]. apply disciplined_app; [apply HI|by constructor]. }
  2: { intros [= <- <- <-]. split; [|done]. apply disciplined_app; [apply HI|by constructor]. }
  destruct (decide (ActivityHandle.Status obs = HandleCompleted)) as [Hc|Hc].
  - rewrite Hc. unfold sbind, sup_lift. rewrite log_save_task.
    set (t := completeTask (lookup_zero (Progress.tasks p) id) obs).
    assert (Inv (finish id t p) (l ++ [CInspect h.(ActivityHandle.ID) (Ok (Some obs))])) as HI'.
    { apply Inv_finish; try done; [|apply completeTask_status].
      unfold t. rewrite completeTask_id. unfold lookup_zero.
      destruct (proj2 (inv_dom _ _ HI id)) as [t0 Ht0]; [right; eauto|].
      rewrite Ht0. by eapply inv_ids. }
    destruct (SaveTask t w1) as [[[]|e] w2] eqn:E2.
    + intros Hgo. eapply IH in Hgo; [exact Hgo|done| |].
      * intros i hi Hi. simpl. rewrite lookup_delete_ne; [apply Hin; by right|].
        intros ->. apply Hid. apply list_elem_of_fmap. by exists (i, hi).
      * apply Inv_quiet; [exact HI'|by repeat constructor].
    + intros [= <- <- <-]. split; [|done].
      apply disciplined_app; [apply HI'|by repeat constructor].
  - assert (Inv p (l ++ [CInspect h.(ActivityHandle.ID) (Ok (Some obs))])) as HI'.
    { apply Inv_inspect; [done|simpl; by rewrite bool_decide_false|done]. }
    assert (∀ i hi, (i, hi) ∈ handles → p.(Progress.running) !! i = Some hi) as Hin'.
    { intros i hi Hi. apply Hin. by right. }
    destruct (ActivityHandle.Status obs); try done;
      try (intros Hgo; eapply IH in Hgo; [exact Hgo|done..]);
      (unfold ebind; rewrite log_save_task; destruct (SaveTask _ w1) as [r2 w2];
       intros [= <- <- <-];
       split; [|done]; apply disciplined_app; [apply HI'|by repeat constructor]).
Qed.

Lemma activity_key id : is_Some (activities !! id) →
  (lookup_zero activities id).(Activity.ID) = id.
Proof.
  intros [a Ha]. unfold lookup_zero. rewrite Ha. simpl. by apply index_key in Ha as [? _].
Qed.

(** An activity may be started: it is known, untouched, and its predecessors
    have completed. *)
Record startable (p : Progress) (id : string) : Prop := {
  st_known : is_Some (activities !! id);
  st_fresh : p.(Progress.tasks) !! id = None;
  st_preds : ∀ d, d ∈ deps → d.(ActivityDependency.ActivityID) = id →
    is_Some (p.(Progress.completed) !! d.(ActivityDependency.DependsOnActivityID))
}.

Lemma live_size p l : Inv p l → Z.of_nat (size (live l)) ≤ Z.of_nat (size p.(Progress.running)).
Proof.
  intros HI. apply Nat2Z.inj_le. rewrite <- !size_dom. apply subseteq_size.
  intros id [hid Hl]%elem_of_dom. apply elem_of_dom.
  destruct (inv_live _ _ HI id hid Hl) as (h & Hh & _). eauto.
Qed.

Lemma start_disciplined p l e r id :
  Inv p l → startable p id → e.(ActivityExecutionContext.Activity).(Activity.ID) = id →
  Z.of_nat (size p.(Progress.running)) < max → disciplined deps max (l ++ [CStart e r]).
Proof.
  intros HI [Hk Hf Hp] Hid Hb. apply disciplined_start; [apply HI|..]; rewrite ?Hid.
  - intros Hs. apply (inv_started _ _ HI) in Hs. rewrite Hf in Hs. by destruct Hs.
  - intros d Hd Hdid. destruct (Hp d Hd Hdid) as [t Ht].
    by destruct (inv_completed _ _ HI _ _ Ht) as [? _].
  - pose proof (live_size p l HI). lia.
Qed.

(** A start that returned a handle, the activity running or already completed. *)
Definition begun (id : string) (t : TaskExecution) (h : ActivityHandle) (p : Progress)
    : Progress :=
  if bool_decide (h.(ActivityHandle.Status) = HandleCompleted) then finish id t p
  else p <| Progress.tasks := <[id := t]> p.(Progress.tasks) |>
         <| Progress.running := <[id := h]> p.(Progress.running) |>.

Lemma starts_snoc l e r id : starts (l ++ [CStart e r]) id →
  starts l id ∨ id = e.(ActivityExecutionContext.Activity).(Activity.ID).
Proof.
  intros [?|(e' & r' & Hin & <-)]%starts_app; [by left|right].
  apply list_elem_of_singleton in Hin. by injection Hin as -> _.
Qed.

Lemma Inv_begun p l e h t id :
  Inv p l → startable p id → e.(ActivityExecutionContext.Activity).(Activity.ID) = id →
  Z.of_nat (size p.(Progress.running)) < max →
  t.(TaskExecution.ActivityID) = id →
  (h.(ActivityHandle.Status) = HandleCompleted → t.(TaskExecution.Status) = TaskCompleted) →
  Inv (begun id t h p) (l ++ [CStart e (Ok h)]).
Proof.
  intros HI Hst Hid Hb Htid Hts.
  pose proof (start_disciplined p l e (Ok h) id HI Hst Hid Hb) as Hdisc.
  pose proof (live_size p l HI) as Hls.
  destruct HI, Hst as [Hk Hf Hp].
  assert (p.(Progress.running) !! id = None ∧ p.(Progress.completed) !! id = None) as [Hr0 Hc0].
  { pose proof (inv_dom0 id) as Hd. rewrite Hf in Hd. unfold is_Some in Hd.
    destruct (Progress.running p !! id), (Progress.completed p !! id); naive_solver. }
  assert (∀ i c t', p.(Progress.completed) !! i = Some t' →
    completes (l ++ [c]) i ∧ p.(Progress.tasks) !! i = Some t' ∧
    t'.(TaskExecution.Status) = TaskCompleted) as Hcomp.
  { intros i c t' Ht'. destruct (inv_completed0 i t' Ht') as (? & ? & ?).
    split_and!; auto using completes_mono. }
  assert (∀ i hi, p.(Progress.running) !! i = Some hi →
    ∃ e0, CStart e0 (Ok hi) ∈ l ++ [CStart e (Ok h)] ∧
      e0.(ActivityExecutionContext.Activity).(Activity.ID) = i) as Hrun.
  { intros i hi Hi. destruct (inv_running0 i hi Hi) as (e0 & ? & ?). exists e0.
    split; [apply elem_of_app; by left|done]. }
  assert (∀ i, i ≠ id → starts (l ++ [CStart e (Ok h)]) i → is_Some (p.(Progress.tasks) !! i)) as Hsta.
  { intros i Hne [?| ->]%starts_snoc; [auto|]. by rewrite Hid in Hne. }
  unfold begun, finish. case_bool_decide as Hc; split; simpl; try done;
    lazymatch goal with |- ∀ _ : string, _ => intros i | _ => idtac end.
  - destruct (decide (i = id)) as [->|Hne]; [rewrite !lookup_insert_eq; naive_solver|].
    rewrite !lookup_insert_ne, lookup_delete_ne by done. auto.
  - destruct (decide (i = id)) as [->|Hne]; [by rewrite lookup_delete_eq|].
    rewrite lookup_insert_ne, lookup_delete_ne by done. auto.
  - destruct (decide (i = id)) as [->|Hne]; [by rewrite lookup_insert_eq|].
    rewrite lookup_insert_ne by done. auto.
  - intros t'. destruct (decide (i = id)) as [->|Hne].
    + rewrite !lookup_insert_eq. intros [= <-]. split_and!; [|done|auto].
      exists e, h. split_and!; [apply elem_of_app; right; by left|done|by left].
    + rewrite !lookup_insert_ne by done. auto.
  - intros hi [_ ?]%lookup_delete_Some. auto.
  - intros t'. rewrite lookup_insert_Some. intros [[<- <-]|[_ ?]]; auto.
  - destruct (decide (i = id)) as [->|Hne]; [done|]. rewrite lookup_insert_ne by done. auto.
  - intros hid. rewrite live_app. simpl. rewrite bool_decide_true by done. intros Hl.
    destruct (inv_live0 i hid Hl) as (hi & Hi & ?). exists hi. split; [|done].
    rewrite lookup_delete_ne; [done|]. intros ->. congruence.
  - rewrite delete_id by done. lia.
  - destruct (decide (i = id)) as [->|Hne]; [rewrite !lookup_insert_eq; naive_solver|].
    rewrite !lookup_insert_ne by done. auto.
  - intros Hi. rewrite lookup_insert_ne; [auto|]. intros <-. rewrite Hc0 in Hi. by destruct Hi.
  - destruct (decide (i = id)) as [->|Hne]; [by rewrite lookup_insert_eq|].
    rewrite lookup_insert_ne by done. auto.
  - intros t' Ht'. destruct (Hcomp i (CStart e (Ok h)) t' Ht') as (? & ? & ?).
    split_and!; [done| |done]. rewrite lookup_insert_ne; [done|]. intros <-. congruence.
  - intros hi. rewrite lookup_insert_Some. intros [[<- <-]|[_ ?]]; [|auto].
    exists e. split; [apply elem_of_app; right; by left|done].
  - intros t'. rewrite lookup_insert_Some. intros [[<- <-]|[_ ?]]; auto.
  - destruct (decide (i = id)) as [->|Hne]; [done|]. rewrite lookup_insert_ne by done. auto.
  - intros hid. rewrite live_app. simpl. rewrite bool_decide_false by done. rewrite Hid.
    rewrite lookup_insert_Some. intros [[<- <-]|[Hne Hl]].
    + exists h. by rewrite lookup_insert_eq.
    + rewrite lookup_insert_ne by done. auto.
  - rewrite map_size_insert_None by done. lia.
Qed.

Lemma Inv_transfers p l ts : Inv p l → Inv (p <| Progress.transfers := ts |>) l.
Proof. intros []. by split. Qed.
Lemma startable_transfers p id ts :
  startable p id → startable (p <| Progress.transfers := ts |>) id.
Proof. intros []. by split. Qed.
Lemma startable_begun p id id' t h : id ≠ id' →
  startable p id' → startable (begun id t h p) id'.
Proof.
  intros Hne [Hk Hf Hp]. unfold begun, finish. case_bool_decide; split; simpl; try done.
  - by rewrite lookup_insert_ne.
  - intros d Hd Hid. specialize (Hp d Hd Hid).
    destruct (decide (id = d.(ActivityDependency.DependsOnActivityID))) as [->|];
      [by rewrite lookup_insert_eq|by rewrite lookup_insert_ne].
  - by rewrite lookup_insert_ne.
Qed.
Lemma begun_size p i t h :
  (size (begun i t h p).(Progress.running) ≤ S (size p.(Progress.running)))%nat.
Proof.
  unfold begun, finish. case_bool_decide; simpl.
  - rewrite map_size_delete. unfold id. case_match; lia.
  - rewrite map_size_insert. unfold id. case_match; lia.
Qed.

(** What one start leaves: on success, the activity has begun. *)
Definition started_from (p : Progress) (id : string) (p' : Progress) : Prop :=
  ∃ t h ts, p' = begun id t h (p <| Progress.transfers := ts |>).

Lemma launch_spec act asg res id readyAt prep p w l o w' l' :
  Inv p l → startable p id → act.(Activity.ID) = id →
  Z.of_nat (size p.(Progress.running)) < max →
  launch (W := Logged W) request act asg res id readyAt prep p (w, l) = (o, (w', l')) →
  disciplined deps max l' ∧
  ∀ p', o = Returns (Ok p') → Inv p' l' ∧ ∃ t h, p' = begun id t h p.
Proof.
  intros HI Hst Hid Hb. unfold launch. unfold ebind at 1. rewrite log_start.
  set (e := ActivityExecutionContext.mk _ _ _ _ _ _ _).
  destruct (controller_Start e w) as [[h|err] w1].
  2: { unfold ebind. destruct (recordStartFailure _ _ _ _ _ _ _) as [r [w2 l2]] eqn:E2.
       apply quiet_record in E2 as (k & -> & Hk). intros [= <- <- <-]. split; [|done].
       apply disciplined_app; [|by apply quiet_no_start]. by eapply start_disciplined. }
  unfold ebind at 1. destruct (unixNow (W := Logged W) _) as [d [w2 l2]] eqn:E2.
  apply quiet_now in E2 as (k & -> & Hk).
  set (t0 := newRunningTask _ _ _ _ _ _ _ _).
  set (t := if bool_decide (h.(ActivityHandle.Status) = HandleCompleted)
            then completeTask t0 h else t0).
  assert (Inv (begun id t h p) (l ++ [CStart e (Ok h)])) as HI'.
  { apply Inv_begun; try done.
    - unfold t. case_bool_decide; [by rewrite completeTask_id|done].
    - intros Hc. unfold t. rewrite bool_decide_true by done. apply completeTask_status. }
  assert (∀ x, (let '(task, p0) :=
      if bool_decide (h.(ActivityHandle.Status) = HandleCompleted) then
        (completeTask t0 h, finish id (completeTask t0 h) p)
      else (t0, p <| Progress.tasks := <[id := t0]> p.(Progress.tasks) |>
         <| Progress.running := <[id := h]> p.(Progress.running) |>) in
      let* _ := sup_lift (SaveTask task) in sret p0) x =
      (let* _ := sup_lift (SaveTask (W := Logged W) t) in sret (begun id t h p)) x) as Heq.
  { intros x. unfold t, begun. by case_bool_decide. }
  unfold finish in Heq. rewrite Heq. unfold sbind, sup_lift. rewrite log_save_task.
  pose proof (Inv_quiet _ _ k HI' Hk) as HI''.
  destruct (SaveTask t w2) as [[[]|err] w3]; intros [= <- <- <-]; (split; [|try done]).
  - apply disciplined_app; [apply HI''|by repeat constructor].
  - intros p' [= <-]. split; [|by eauto]. apply Inv_quiet; [done|by repeat constructor].
  - apply disciplined_app; [apply HI''|by repeat constructor].
Qed.

Lemma start_one_spec asgs ress id p w l o w' l' :
  Inv p l → startable p id → Z.of_nat (size p.(Progress.running)) < max →
  start_one (W := Logged W) request activities asgs ress id p (w, l) = (o, (w', l')) →
  disciplined deps max l' ∧ ∀ p', o = Returns (Ok p') → Inv p' l' ∧ started_from p id p'.
Proof.
  intros HI Hst Hb. unfold start_one. unfold ebind at 1.
  destruct (unixNow (W := Logged W) (w, l)) as [ra [w1 l1]] eqn:E1. apply quiet_now in E1 as (k1 & -> & Hk1).
  pose proof (Inv_quiet _ _ _ HI Hk1) as HI1. clear HI.
  assert (∀ run asg res rt e (w1 : W) l1, disciplined deps max l1 →
    (let! _ := recordStartFailure run id asg res rt e in serr (W := Logged W) e) (w1, l1) =
      (o, (w', l')) → disciplined deps max l' ∧
      ∀ p', o = Returns (Ok p') → Inv p' l' ∧ started_from p id p') as Hfail.
  { intros run asg res rt e w2 l2 Hd. unfold ebind.
    destruct (recordStartFailure _ _ _ _ _ _ _) as [r [w3 l3]] eqn:E3.
    apply quiet_record in E3 as (k & -> & Hk). intros [= <- <- <-]. split; [|done].
    apply disciplined_app; [done|by apply quiet_no_start]. }
  pose proof (activity_key id (st_known _ _ Hst)) as Hact.
  destruct (ress !! _) as [res|]; [|apply Hfail, HI1].
  destruct (_ !! id) as [req|].
  - unfold ebind at 1. destruct (prepareActivity _ _ _ _) as [r [w2 l2]] eqn:E2.
    apply quiet_prepare in E2 as (k2 & -> & Hk2).
    pose proof (Inv_quiet _ _ _ HI1 Hk2) as HI2.
    destruct r as [[gate|]|e]; [|intros [= <- <- <-]; by split; [apply HI2|]|apply Hfail, HI2].
    intros Hl. eapply launch_spec in Hl as [? Hl]; [|by apply Inv_transfers|
      by apply startable_transfers|done|done].
    split; [done|]. intros p' Hp'. destruct (Hl p' Hp') as (? & t & h & ->).
    split; [done|]. by eexists t, h, _.
  - destruct (needs_preparation _); [apply Hfail, HI1|]. intros Hl.
    eapply launch_spec in Hl as [? Hl]; [|done..]. split; [done|]. intros p' Hp'.
    destruct (Hl p' Hp') as (? & t & h & ->). split; [done|].
    exists t, h, p.(Progress.transfers). by destruct p.
Qed.

Lemma indexPredecessors_elem (ds : list ActivityDependency) id x :
  x ∈ lookup_zero (indexPredecessors ds) id ↔
  ∃ d, d ∈ ds ∧ d.(ActivityDependency.ActivityID) = id ∧
       d.(ActivityDependency.DependsOnActivityID) = x.
Proof.
  unfold indexPredecessors. induction ds as [|d ds IH] using rev_ind.
  { simpl. unfold lookup_zero. rewrite lookup_empty. simpl.
    split; [by intros ?%elem_of_nil|]. by intros (d & ?%elem_of_nil & _). }
  rewrite foldl_snoc. setoid_rewrite elem_of_app. setoid_rewrite list_elem_of_singleton.
  unfold lookup_zero at 1.
  destruct (decide (d.(ActivityDependency.ActivityID) = id)) as [<-|Hne].
  - rewrite lookup_insert_eq. simpl. rewrite elem_of_app, list_elem_of_singleton, IH.
    naive_solver.
  - rewrite lookup_insert_ne by done. unfold lookup_zero in IH. rewrite IH. naive_solver.
Qed.

Lemma map_range_keys {A} salt (m : gmap string A) :
  NoDup (map_range salt m).*1 ∧ ∀ id v, (id, v) ∈ map_range salt m ↔ m !! id = Some v.
Proof.
  split; [rewrite map_range_perm; apply NoDup_fst_map_to_list|].
  intros id v. by rewrite map_range_perm, elem_of_map_to_list.
Qed.

Lemma ready_elem salt p id :
  id ∈ readyActivities salt activities (indexPredecessors deps) p ↔
  is_Some (activities !! id) ∧ is_ready (indexPredecessors deps) p id = true.
Proof.
  unfold readyActivities. rewrite sort_strings_perm, list_elem_of_In, filter_In, <- list_elem_of_In.
  destruct (map_range_keys salt activities) as [_ Hk].
  rewrite list_elem_of_fmap. split.
  - intros [([i v] & -> & Hv%Hk) Hr]. simpl. eauto.
  - intros [[v Hv] Hr]. split; [|done]. exists (id, v). split; [done|]. by apply Hk.
Qed.

Lemma ready_nodup salt p : NoDup (readyActivities salt activities (indexPredecessors deps) p).
Proof.
  unfold readyActivities. rewrite sort_strings_perm.
  apply NoDup_ListNoDup, List.NoDup_filter, NoDup_ListNoDup, map_range_keys.
Qed.

Lemma is_ready_spec p id : is_ready (indexPredecessors deps) p id = true ↔
  p.(Progress.completed) !! id = None ∧ p.(Progress.running) !! id = None ∧
  p.(Progress.tasks) !! id = None ∧
  ∀ d, d ∈ deps → d.(ActivityDependency.ActivityID) = id →
    is_Some (p.(Progress.completed) !! d.(ActivityDependency.DependsOnActivityID)).
Proof.
  unfold is_ready. rewrite !andb_true_iff, !negb_true_iff, !bool_decide_eq_false,
    <- !eq_None_not_Some, forallb_forall.
  setoid_rewrite bool_decide_eq_true. setoid_rewrite <- list_elem_of_In.
  setoid_rewrite indexPredecessors_elem. naive_solver.
Qed.

Lemma ready_startable salt p id :
  id ∈ readyActivities salt activities (indexPredecessors deps) p → startable p id.
Proof. intros [? (_ & _ & ? & ?)%is_ready_spec]%ready_elem. by split. Qed.

Lemma start_spec asgs ress ready p w l o w' l' :
  NoDup ready → (∀ id, id ∈ ready → startable p id) →
  Z.of_nat (size p.(Progress.running) + length ready) ≤ max → Inv p l →
  startReadyActivities (W := Logged W) request activities asgs ress ready p (w, l) =
    (o, (w', l')) →
  disciplined deps max l' ∧ ∀ p', o = Returns (Ok p') → Inv p' l'.
Proof.
  revert p w l. induction ready as [|id ready IH]; intros p w l Hnd Hst Hb HI;
    cbn [startReadyActivities].
  { intros [= <- <- <-]. split; [apply HI|]. by intros p' [= <-]. }
  apply NoDup_cons in Hnd as [Hid Hnd]. simpl in Hb. unfold sbind at 1.
  destruct (start_one (W := Logged W) _ _ _ _ id p (w, l)) as [o1 [w1 l1]] eqn:E1.
  apply start_one_spec in E1 as [Hd Hok]; [|done|apply Hst; by left|lia].
  destruct o1 as [[p1|e]|]; [|intros [= <- <- <-]; by split..].
  destruct (Hok p1 eq_refl) as [HI1 (t & h & ts & ->)]. apply IH; [done| | |done].
  - intros id' Hid'. apply startable_begun; [by intros ->|].
    apply startable_transfers, Hst. by right.
  - pose proof (begun_size (p <| Progress.transfers := ts |>) id t h). simpl in *. lia.
Qed.

Lemma log_ctx_err w l : ctx_err (W := Logged W) (w, l) =
  let '(a, w') := ctx_err w in (a, (w', l ++ [COther])).
Proof. done. Qed.
Lemma log_wait d w l : wait (W := Logged W) d (w, l) =
  let '(a, w') := wait d w in (a, (w', l ++ [COther])).
Proof. done. Qed.

Lemma turn_spec salt p w l o w' l' : Inv p l →
  turn (W := Logged W) config salt request p (w, l) = (o, (w', l')) →
  disciplined deps max l' ∧ (∀ p', o = Returns (Ok (inr p')) → Inv p' l').
Proof.
  intros HI. unfold turn. fold activities deps max. unfold ebind at 1. rewrite log_ctx_err.
  destruct (ctx_err w) as [c w1].
  apply (Inv_quiet _ _ [COther]) in HI; [|by repeat constructor].
  destruct c as [e|]; [intros [= <- <- <-]; by split; [apply HI|]|].
  unfold sbind at 1. destruct (inspectRunning (W := Logged W) _ _ p _) as [o1 [w2 l2]] eqn:E1.
  destruct (map_range_keys salt p.(Progress.running)) as [Hnd Hk].
  apply inspect_spec in E1 as [Hd1 HI1]; [|done|intros ? ?; apply Hk|done].
  destruct o1 as [[p1|e]|]; [|intros [= <- <- <-]; by split..].
  specialize (HI1 p1 eq_refl). case_match; [intros [= <- <- <-]; by split|].
  destruct (Z.ltb_spec (Z.min (max - Z.of_nat (size p1.(Progress.running))) (Z.of_nat (length
    (readyActivities salt activities (indexPredecessors deps) p1)))) 0) as [?|Hav];
    [intros [= <- <- <-]; by split|].
  unfold sbind at 1.
  destruct (startReadyActivities (W := Logged W) _ _ _ _ _ p1 _) as [o2 [w3 l3]] eqn:E2.
  apply start_spec in E2 as [Hd2 HI2]; [|apply (sublist_NoDup _ (readyActivities salt activities
    (indexPredecessors deps) p1)); [apply ready_nodup|apply sublist_take]| | |done].
  2: { intros id Hid. apply elem_of_take in Hid as (i & Hi & _).
       eapply ready_startable, list_elem_of_lookup_2, Hi. }
  2: { rewrite length_take. lia. }
  destruct o2 as [[p2|e]|]; [|intros [= <- <- <-]; by split..].
  specialize (HI2 p2 eq_refl). case_match; [intros [= <- <- <-]; by split|].
  case_match; [|intros [= <- <- <-]; split; [done|]; by intros p' [= <-]].
  unfold ebind. rewrite log_wait. destruct (wait _ w3) as [[e|] w4]; intros [= <- <- <-].
  - split; [|done]. apply disciplined_app; [done|by repeat constructor].
  - split; [apply disciplined_app; [done|by repeat constructor]|]. intros p' [= <-].
    apply Inv_quiet; [done|by repeat constructor].
Qed.

Lemma loop_spec fuel p w l o w' l' : Inv p l →
  execute_loop (W := Logged W) config fuel request p (w, l) = (o, (w', l')) →
  disciplined deps max l'.
Proof.
  revert p w l. induction fuel as [|fuel IH]; intros p w l HI; cbn [execute_loop].
  { intros [= <- <- <-]. apply HI. }
  case_match; [|intros [= <- <- <-]; apply HI]. unfold ebind.
  destruct (turn (W := Logged W) _ _ _ _ _) as [o1 [w1 l1]] eqn:E1. apply turn_spec in E1 as [Hd HI1]; [|done].
  destruct o1 as [[[tr|p1]|e]|]; [by intros [= <- <- <-]| |by intros [= <- <- <-]..].
  apply IH. auto.
Qed.

(** ** What a run that succeeds has done *)
Lemma loop_ok fuel p w l trace w' l' : Inv p l →
  request.(ExecutionRequest.Run).(ExecutionRun.Mode) ≠ ExecutionModeInteractive →
  execute_loop (W := Logged W) config fuel request p (w, l) =
    (Some (Returns (Ok trace)), (w', l')) →
  ∃ p' salt, Inv p' l' ∧ trace = completedTrace salt request p' ∧
    (size activities ≤ size p'.(Progress.completed))%nat.
Proof.
  intros HI Hmode. revert p w l HI. induction fuel as [|fuel IH]; intros p w l HI; cbn [execute_loop].
  { done. }
  fold activities.
  destruct (Z.ltb_spec (Z.of_nat (size p.(Progress.completed))) (Z.of_nat (size activities)))
    as [Hlt|Hge].
  2: { intros [= <- <- <-]. exists p, fuel. split_and!; [done..|lia]. }
  unfold ebind. destruct (turn (W := Logged W) _ _ _ _ _) as [o1 [w1 l1]] eqn:E1.
  pose proof (turn_spec _ _ _ _ _ _ _ HI E1) as [_ HI1].
  destruct o1 as [[[tr|p1]|e]|]; [|by apply IH; auto|done..].
  intros [= <- <- <-]. exfalso. revert E1. unfold turn. unfold ebind at 1. rewrite log_ctx_err.
  destruct (ctx_err w) as [[e|] w2]; [done|]. unfold sbind at 1.
  destruct (inspectRunning (W := Logged W) _ _ p _) as [[[p1|e]|] [w3 l3]]; [|done..].
  rewrite bool_decide_false by done. cbn [andb].
  destruct (_ <? 0); [done|]. unfold sbind at 1.
  destruct (startReadyActivities (W := Logged W) _ _ _ _ _ p1 _) as [[[p2|e]|] [w4 l4]]; [|done..].
  case_match; [done|]. case_match; [|done]. unfold ebind. rewrite log_wait.
  by destruct (wait _ w4) as [[|] ?].
Qed.

Lemma all_completed p l : Inv p l → (size activities ≤ size p.(Progress.completed))%nat →
  ∀ id, is_Some (activities !! id) ↔ is_Some (p.(Progress.completed) !! id).
Proof.
  intros HI Hsz id. assert (dom p.(Progress.completed) = dom activities) as E.
  { apply set_subseteq_size_eq.
    - intros i [t Ht]%elem_of_dom. apply elem_of_dom, (inv_known _ _ HI).
      destruct (inv_completed _ _ HI i t Ht) as (_ & ? & _). eauto.
    - by rewrite !size_dom. }
  rewrite <- !elem_of_dom, E. done.
Qed.

(** The tasks of the final trace, one completed task per activity. *)
Lemma trace_tasks p l salt : Inv p l → (size activities ≤ size p.(Progress.completed))%nat →
  let tasks := (completedTrace salt request p).(ExecutionTrace.Tasks) in
  NoDup (TaskExecution.ActivityID <$> tasks) ∧
  (∀ id, id ∈ TaskExecution.ActivityID <$> tasks ↔ is_Some (activities !! id)) ∧
  Forall (λ t, t.(TaskExecution.Status) = TaskCompleted) tasks.
Proof.
  intros HI Hsz tasks. pose proof (all_completed p l HI Hsz) as Hall.
  assert (tasks ≡ₚ snd <$> map_to_list p.(Progress.tasks)) as Hperm.
  { unfold tasks, completedTrace. destruct (foldl _ _ _) as [[? ?] ?]. simpl.
    by rewrite merge_sort_Permutation, map_range_perm. }
  assert (TaskExecution.ActivityID <$> tasks ≡ₚ fst <$> map_to_list p.(Progress.tasks)) as Hids.
  { rewrite Hperm, <- list_fmap_compose. apply reflexive_eq, list_fmap_ext.
    intros i [id t] Hi%list_elem_of_lookup_2. simpl.
    by apply (inv_ids _ _ HI), elem_of_map_to_list. }
  assert (∀ id t, p.(Progress.tasks) !! id = Some t →
    p.(Progress.completed) !! id = Some t) as Hdone.
  { intros id t Ht. destruct (proj1 (Hall id)) as [t' Ht'].
    - apply (inv_known _ _ HI). eauto.
    - destruct (inv_completed _ _ HI id t' Ht') as (_ & ? & _). congruence. }
  split_and!.
  - rewrite Hids. apply NoDup_fst_map_to_list.
  - intros id. rewrite Hids, Hall, list_elem_of_fmap. split.
    + intros ([i t] & -> & Ht%elem_of_map_to_list). simpl. eauto.
    + intros [t Ht]. exists (id, t). split; [done|]. apply elem_of_map_to_list.
      by destruct (inv_completed _ _ HI id t Ht) as (_ & ? & _).
  - rewrite Hperm. apply Forall_fmap, Forall_forall. intros [id t] Ht%elem_of_map_to_list.
    by destruct (inv_completed _ _ HI id t (Hdone id t Ht)) as (_ & _ & ?).
Qed.
End discipline.

(** ** The contract of [Execute] *)
Section contract.
Context `{MapOrder} {W : Type} `{Clock W, Cancellation W, ExecutionStore W, PlanExecutor W,
  PreparationCoordinator W, ActivityController W}.
Variable c0 : Config.
Let config : Config := New c0.

Lemma New_parallel : 1 ≤ config.(Config.MaxParallel).
Proof. unfold config, New. simpl. destruct (Z.leb_spec c0.(Config.MaxParallel) 0); lia. Qed.

Abbreviation executed := (Execute (W := Logged W) config).

Lemma log_create run w l : CreateRun (W := Logged W) run (w, l) =
  let '(a, w') := CreateRun run w in (a, (w', l ++ [CCreateRun a])).
Proof. done. Qed.
Lemma log_complete t w l : CompleteRun (W := Logged W) t (w, l) =
  let '(a, w') := CompleteRun t w in (a, (w', l ++ [CCompleteRun t a])).
Proof. done. Qed.
Lemma log_fail id e w l : FailRun (W := Logged W) id e (w, l) =
  let '(a, w') := FailRun id e w in (a, (w', l ++ [CFailRun id e])).
Proof. done. Qed.

(** What follows the plan's execution. *)
Definition settled (run : ExecutionRun) (x : option (outcome ExecutionTrace)) (l1 : list call)
    (o : option (outcome ExecutionTrace)) (l : list call) : Prop :=
  match x with
  | Some (Returns (Err e)) =>
    o = Some (Returns (Err e)) ∧ l = l1 ++ [CFailRun run.(ExecutionRun.ID) e]
  | Some (Returns (Ok t)) =>
    if decide (run.(ExecutionRun.Mode) = ExecutionModeInteractive)
    then o = Some (Returns (Ok t)) ∧ l = l1
    else o = Some (Returns (Ok t)) ∧ l = l1 ++ [CCompleteRun t (Ok tt)] ∨
         ∃ e, let e' := errorf "complete execution run: %w" [e] in
           o = Some (Returns (Err e')) ∧
           l = l1 ++ [CCompleteRun t (Err e); CFailRun run.(ExecutionRun.ID) e']
  | _ => o = x ∧ l = l1
  end.

Lemma Execute_inv fuel request w o w' l :
  executed fuel request (w, []) = (o, (w', l)) →
  (∃ e, o = Some (Returns (Err e)) ∧ (l = [] ∨ ∃ e0, l = [CCreateRun (Err e0)])) ∨
  ∃ x w1 w2 l1, run_plan (W := Logged W) config fuel (running_request request)
      (w1, [CCreateRun (Ok tt)]) = (x, (w2, l1)) ∧
    settled (running_request request).(ExecutionRequest.Run) x l1 o l.
Proof.
  unfold Execute. set (req := running_request request).
  destruct (validateRequest req) as [[]|e]; [|intros [= <- <- <-]; left; eauto].
  unfold ebind at 1. rewrite log_create.
  destruct (CreateRun req.(ExecutionRequest.Run) w) as [[[]|e] w1]; rewrite app_nil_l;
    [|intros [= <- <- <-]; left; eauto].
  unfold ebind at 1.
  destruct (run_plan (W := Logged W) config fuel req (w1, [CCreateRun (Ok tt)])) as [x [w2 l1]] eqn:E.
  intros Hrest. right. exists x, w1, w2, l1. split; [exact E|]. revert Hrest. clear E.
  unfold settled. destruct x as [[[t|e]|]|]; [| |by intros [= <- <- <-]..].
  - destruct (decide (ExecutionRun.Mode (ExecutionRequest.Run req) = ExecutionModeInteractive)) as [Hm|Hm].
    + rewrite bool_decide_true by done. by intros [= <- <- <-].
    + rewrite bool_decide_false by done. unfold ebind at 1. rewrite log_complete.
      destruct (CompleteRun t w2) as [[[]|e] w3]; [intros [= <- <- <-]; by left|].
      unfold ebind. rewrite log_fail.
      match goal with |- context [FailRun ?a ?b w3] => destruct (FailRun a b w3) end.
      intros [= <- <- <-]. right. exists e. split; [done|]. by rewrite <- app_assoc.
  - unfold ebind. rewrite log_fail.
    match goal with |- context [FailRun ?a ?b w2] => destruct (FailRun a b w2) end.
    by intros [= <- <- <-].
Qed.

Lemma works_run_plan fuel request :
  appends working (run_plan (W := Logged W) config fuel request).
Proof.
  unfold run_plan. case_bool_decide; [|apply works_loop].
  apply appends_bind; [by apply appends_logged|intros; apply appends_ret].
Qed.

Lemma run_plan_spec fuel request w l x w' l1 :
  Forall (λ c, is_start c = false ∧ completed_call c = false) l →
  run_plan (W := Logged W) config fuel request (w, l) = (x, (w', l1)) →
  disciplined request.(ExecutionRequest.Workflow).(WorkflowVersion.Dependencies)
    config.(Config.MaxParallel) l1.
Proof.
  intros Hl. assert (Inv config request no_progress l) as HI.
  { clear -Hl. induction l as [|c l IH] using rev_ind.
    - apply no_progress_inv. pose proof New_parallel. lia.
    - apply Forall_app in Hl as [Hl [[? ?] _]%Forall_cons]. apply Inv_inspect; auto. }
  unfold run_plan. case_bool_decide.
  - unfold ebind, plan_Execute, logged_simulation, logged.
    destruct (plan_Execute request w) as [r w1]. intros [= <- <- <-].
    apply disciplined_app; [apply HI|by repeat constructor].
  - intros Hx. eapply loop_spec in Hx; [exact Hx|exact HI].
Qed.

Lemma created_quiet :
  Forall (λ c, is_start c = false ∧ completed_call c = false) [CCreateRun (Ok tt)].
Proof. by repeat constructor. Qed.

(** C1: The scheduling discipline of a run: whatever the runtimes, the store and
    the clock answer, the supervisor starts each activity at most once, only after
    every predecessor was started and reported completed, and never while as many
    activities as the configured parallelism are still running. *)
Theorem supervisor_discipline fuel request w o w' l :
  executed fuel request (w, []) = (o, (w', l)) →
  disciplined request.(ExecutionRequest.Workflow).(WorkflowVersion.Dependencies)
    config.(Config.MaxParallel) l.
Proof.
  intros [(e & _ & [->|[e0 ->]])|(x & w1 & w2 & l1 & Hx & Hs)]%Execute_inv.
  - intros [|? ?] ? ? ? E; discriminate E.
  - apply (disciplined_app _ _ [] [CCreateRun (Err e0)]); [|by repeat constructor].
    intros [|? ?] ? ? ? E; discriminate E.
  - eapply run_plan_spec in Hx; [|exact created_quiet]. unfold settled in Hs.
    destruct x as [[[t|e]|]|]; [case_decide| | |]; destruct_or?; destruct_and?;
      try (destruct Hs as (e & Hs)); destruct_and?; subst; try done;
      (apply disciplined_app; [exact Hx|by repeat constructor]).
Qed.

(** The index has the identifiers of the activities. *)
Lemma indexed_ids activities id :
  id ∈ Activity.ID <$> activities ↔ is_Some (indexActivities activities !! id).
Proof.
  rewrite list_elem_of_fmap. split.
  - intros (a & -> & Ha). by apply index_elem.
  - intros [a [<- Ha]%index_key]. by exists a.
Qed.

Lemma real_run_inv fuel request w trace w' l :
  request.(ExecutionRequest.Run).(ExecutionRun.Mode) = ExecutionModeReal →
  executed fuel request (w, []) = (Some (Returns (Ok trace)), (w', l)) →
  ∃ p salt l1 k, l = l1 ++ [CCompleteRun trace (Ok tt)] ∧
    l1 = CCreateRun (Ok tt) :: k ∧ Forall working k ∧
    Inv config (running_request request) p l1 ∧
    trace = completedTrace salt (running_request request) p ∧
    (size (indexActivities request.(ExecutionRequest.Workflow).(WorkflowVersion.Activities)) ≤
     size p.(Progress.completed))%nat.
Proof.
  intros Hmode [(e & [=] & _)|(x & w1 & w2 & l1 & Hx & Hs)]%Execute_inv.
  unfold settled in Hs. destruct x as [[[t|e]|]|]; [|by destruct Hs..].
  rewrite decide_False in Hs by (simpl; by rewrite Hmode).
  destruct Hs as [[[= <-] ->]|(e & [=] & _)].
  destruct (works_run_plan _ _ _ _ _ _ _ Hx) as (k & Hk & Hw).
  unfold run_plan in Hx. rewrite bool_decide_false in Hx by (simpl; by rewrite Hmode).
  assert (Inv config (running_request request) no_progress [CCreateRun (Ok tt)]) as HI.
  { apply (Inv_inspect _ _ _ []); [done..|]. apply no_progress_inv.
    pose proof New_parallel. lia. }
  eapply loop_ok in Hx as (p & salt & HIp & -> & Hsz); [|exact HI|simpl; by rewrite Hmode].
  by exists p, salt, l1, k.
Qed.

(** C2: A real run that succeeds has executed the whole workflow: every activity
    was started and reported completed; the trace holds one task for each
    identifier of the workflow's activities and none for any other, and each is
    completed; and the run was created, then recorded as complete by the last call
    with that very trace, and by no call before it as complete or as failed. *)
Theorem execute_ok_complete fuel request w trace w' l :
  request.(ExecutionRequest.Run).(ExecutionRun.Mode) = ExecutionModeReal →
  executed fuel request (w, []) = (Some (Returns (Ok trace)), (w', l)) →
  let ids := Activity.ID <$> request.(ExecutionRequest.Workflow).(WorkflowVersion.Activities) in
  let traced := TaskExecution.ActivityID <$> trace.(ExecutionTrace.Tasks) in
  (∀ id, id ∈ ids → completes l id) ∧
  (∀ id, id ∈ traced ↔ id ∈ ids) ∧ NoDup traced ∧
  Forall (λ t, t.(TaskExecution.Status) = TaskCompleted) trace.(ExecutionTrace.Tasks) ∧
  ∃ k, l = CCreateRun (Ok tt) :: k ++ [CCompleteRun trace (Ok tt)] ∧
    (∀ id reason, CFailRun id reason ∉ k) ∧ (∀ t r, CCompleteRun t r ∉ k).
Proof.
  intros Hmode HE ids traced.
  destruct (real_run_inv _ _ _ _ _ _ Hmode HE) as (p & salt & l1 & k & -> & Hl1 & Hw & HIp & -> & Hsz).
  destruct (trace_tasks _ _ p l1 salt HIp Hsz) as (Hnd & Helem & Hdone).
  rewrite Forall_forall in Hw.
  split_and!; [| |exact Hnd|exact Hdone|].
  - intros id Hid%indexed_ids. apply completes_mono.
    destruct (proj1 (all_completed _ _ _ _ HIp Hsz id) Hid) as [t Ht].
    by destruct (inv_completed _ _ _ _ HIp _ _ Ht).
  - intros id. unfold ids. rewrite indexed_ids. apply Helem.
  - exists k. rewrite Hl1. split; [done|]. split; intros ? ? Hin%Hw; done.
Qed.

(** C16: A run is settled exactly once: an error after the run was created is
    recorded by a single final [FailRun] that carries its text, a success is
    recorded by a single final [CompleteRun] (none for an interactive run, which
    stays open), and an error before that leaves no run behind. *)
Theorem execute_settles fuel request w r w' l :
  executed fuel request (w, []) = (Some (Returns r), (w', l)) →
  let run := request.(ExecutionRequest.Run) in
  match r with
  | Err e => l = [] ∨ (∃ e0, l = [CCreateRun (Err e0)]) ∨
      ∃ l1, l = CCreateRun (Ok tt) :: l1 ++ [CFailRun run.(ExecutionRun.ID) e] ∧
        (∀ id reason, CFailRun id reason ∉ l1) ∧ (∀ t, CCompleteRun t (Ok tt) ∉ l1)
  | Ok t => ∃ l1, l = CCreateRun (Ok tt) :: l1 ++
        (if decide (run.(ExecutionRun.Mode) = ExecutionModeInteractive) then []
         else [CCompleteRun t (Ok tt)]) ∧
        (∀ id reason, CFailRun id reason ∉ l1) ∧ (∀ t, CCompleteRun t (Ok tt) ∉ l1)
  end.
Proof.
  intros HE run. apply Execute_inv in HE as
    [(e & [= ->] & [->|[e0 ->]])|(x & w1 & w2 & l1 & Hx & Hs)]; [by left|right; left; eauto|].
  apply works_run_plan in Hx as (k & -> & Hk).
  assert (∀ c, c ∈ k → working c) as Hw by (by apply Forall_forall).
  assert ((∀ id reason, CFailRun id reason ∉ k) ∧ (∀ t r, CCompleteRun t r ∉ k)) as [Hf Hc].
  { split; intros ? ? Hin%Hw; done. }
  unfold settled in Hs. destruct x as [[[t|e]|]|]; [|..|by destruct Hs].
  - change (ExecutionRun.Mode (ExecutionRequest.Run (running_request request)))
      with (ExecutionRun.Mode run) in Hs. destruct (decide _) as [Hm|Hm].
    + destruct Hs as [[= ->] ->]. exists k. rewrite app_nil_r. by split_and!.
    + destruct Hs as [[[= ->] ->]|(e & [= ->] & ->)]; [by exists k|].
      right. right. exists (k ++ [CCompleteRun t (Err e)]). split_and!.
      * by rewrite <- !app_assoc.
      * intros id reason [?|?%list_elem_of_singleton]%elem_of_app; [by eapply Hf|done].
      * intros t' [?|?%list_elem_of_singleton]%elem_of_app; [by eapply Hc|done].
  - destruct Hs as [[= ->] ->]. right. right. exists k. by split_and!.
  - by destruct Hs.
Qed.

(** A cyclic workflow never succeeds: if a real run returns a trace, the
    order in which its activities were started ranks every activity strictly
    after all its predecessors, and every predecessor named by a dependency of an
    activity is itself an activity of the workflow. *)
Theorem execute_ok_topological fuel request w trace w' l :
  request.(ExecutionRequest.Run).(ExecutionRun.Mode) = ExecutionModeReal →
  executed fuel request (w, []) = (Some (Returns (Ok trace)), (w', l)) →
  let ids := Activity.ID <$>
    request.(ExecutionRequest.Workflow).(WorkflowVersion.Activities) in
  ∀ d, d ∈ request.(ExecutionRequest.Workflow).(WorkflowVersion.Dependencies) →
    d.(ActivityDependency.ActivityID) ∈ ids →
    d.(ActivityDependency.DependsOnActivityID) ∈ ids ∧
    (first_start l d.(ActivityDependency.DependsOnActivityID) <
     first_start l d.(ActivityDependency.ActivityID))%nat.
Proof.
  intros Hmode HE ids d Hd Hid.
  destruct (real_run_inv _ _ _ _ _ _ Hmode HE) as (p & salt & l1 & k & -> & _ & _ & HI & _ & Hsz).
  assert (disciplined request.(ExecutionRequest.Workflow).(WorkflowVersion.Dependencies)
    config.(Config.MaxParallel) (l1 ++ [CCompleteRun trace (Ok tt)])) as Hdisc.
  { apply disciplined_app; [apply (inv_disciplined _ _ _ _ HI)|by repeat constructor]. }
  apply list_elem_of_fmap in Hid as (a & Ha & Hain).
  destruct (disciplined_rank _ _ _ Hdisc d Hd) as [Hs Hlt].
  - apply starts_app. left. apply completes_starts.
    destruct (proj1 (all_completed _ _ _ _ HI Hsz d.(ActivityDependency.ActivityID))) as [t Ht].
    { rewrite Ha. by apply index_elem. }
    by destruct (inv_completed _ _ _ _ HI _ _ Ht).
  - split; [|done]. apply starts_app in Hs as [Hs|(? & ? & ?%list_elem_of_singleton & _)]; [|done].
    by apply indexed_ids, (inv_known _ _ _ _ HI), (inv_started _ _ _ _ HI).
Qed.
End contract.

(** ** Progress

    A world in which activities end: [patience] bounds how often the running
    activities may still be found unfinished. *)
Section progress.
Context `{MapOrder} {W : Type} `{Clock W, Cancellation W, ExecutionStore W, PlanExecutor W,
  PreparationCoordinator W, ActivityController W}.
Variable patience : W → nat.

Definition succeeds {A} (m : eff W A) (a : A) : Prop :=
  ∀ w, ∃ w', m w = (a, w') ∧ (patience w' ≤ patience w)%nat.

Record Cooperative : Prop := {
  coop_clock : ∀ w n w', UnixNano w = (n, w') → (patience w' ≤ patience w)%nat;
  coop_ctx : succeeds ctx_err None;
  coop_wait : ∀ d, succeeds (wait d) None;
  coop_save : ∀ t, succeeds (SaveTask t) (Ok tt);
  coop_start : ∀ e w, ∃ h w', controller_Start e w = (Ok h, w') ∧
    (patience w' ≤ patience w)%nat;
  coop_inspect : ∀ id mode w, ∃ h w', controller_Inspect id mode w = (Ok (Some h), w') ∧
    (h.(ActivityHandle.Status) = HandleCompleted ∧ (patience w' ≤ patience w)%nat ∨
     h.(ActivityHandle.Status) = HandleRunning ∧ (patience w' < patience w)%nat)
}.

Variable c0 : Config.
Let config : Config := New c0.
Variable request : ExecutionRequest.
Let activities : gmap string Activity :=
  indexActivities request.(ExecutionRequest.Workflow).(WorkflowVersion.Activities).
Let deps : list ActivityDependency :=
  request.(ExecutionRequest.Workflow).(WorkflowVersion.Dependencies).
Let asgs : gmap string PlanAssignment :=
  indexAssignments request.(ExecutionRequest.Plan).(SchedulePlan.Assignments).
Let ress : gmap string Resource := indexResources request.(ExecutionRequest.Resources).

(** Every activity can be placed and needs no preparation, and dependencies
    decrease a rank. *)
Record Runnable : Prop := {
  run_mode : request.(ExecutionRequest.Run).(ExecutionRun.Mode) = ExecutionModeReal;
  run_placed : ∀ id, is_Some (activities !! id) →
    is_Some (ress !! (lookup_zero asgs id).(PlanAssignment.ResourceID));
  run_direct : ∀ id, is_Some (activities !! id) →
    request.(ExecutionRequest.PreparationRequirementsByActivity) !! id = None ∧
    needs_preparation (lookup_zero activities id) = false;
  run_ranked : ∃ rank : string → nat, ∀ d, d ∈ deps →
    is_Some (activities !! d.(ActivityDependency.ActivityID)) →
    is_Some (activities !! d.(ActivityDependency.DependsOnActivityID)) ∧
    (rank d.(ActivityDependency.DependsOnActivityID) <
     rank d.(ActivityDependency.ActivityID))%nat
}.

Hypothesis coop : Cooperative.
Hypothesis runnable : Runnable.

Lemma now_live w l : ∃ t w' l', unixNow (W := Logged W) (w, l) = (t, (w', l')) ∧
  (patience w' ≤ patience w)%nat.
Proof.
  unfold unixNow, ebind, UnixNano, logged_clock, logged.
  destruct (@UnixNano W _ w) as [n w'] eqn:E. eexists _, w', _. split; [done|].
  by eapply coop_clock.
Qed.

Lemma inspect_live mode handles p w l :
  NoDup handles.*1 →
  (∀ id h, (id, h) ∈ handles → p.(Progress.completed) !! id = None ∧
     is_Some (p.(Progress.tasks) !! id)) →
  ∃ p' w' l', inspectRunning (W := Logged W) mode handles p (w, l) =
      (Returns (Ok p'), (w', l')) ∧
    (patience w' ≤ patience w)%nat ∧
    (size p.(Progress.completed) ≤ size p'.(Progress.completed))%nat ∧
    size p'.(Progress.tasks) = size p.(Progress.tasks) ∧
    (handles ≠ [] → (patience w' < patience w)%nat ∨
       (size p.(Progress.completed) < size p'.(Progress.completed))%nat).
Proof.
  revert p w l. induction handles as [|[id h] handles IH]; intros p w l Hnd Hin;
    cbn [inspectRunning]; [by exists p, w, l|].
  rewrite fmap_cons, NoDup_cons in Hnd. destruct Hnd as [Hid Hnd].
  destruct (Hin id h) as [Hc0 Ht0]; [by left|].
  unfold ebind at 1. rewrite log_inspect.
  destruct (coop_inspect coop h.(ActivityHandle.ID) mode w) as (obs & w1 & -> & [[Hs Hp]|[Hs Hp]]);
    rewrite Hs.
  - unfold sbind, sup_lift. rewrite log_save_task.
    set (t := completeTask (lookup_zero (Progress.tasks p) id) obs).
    destruct (coop_save coop t w1) as (w2 & -> & Hp2).
    edestruct (IH (finish id t p) w2) as (p' & w' & l' & E & Hp' & Hc' & Ht' & _); [done| |].
    { intros i hi Hi. destruct (Hin i hi) as [? ?]; [by right|].
      assert (i ≠ id) by (intros ->; apply Hid, list_elem_of_fmap; by exists (id, hi)).
      simpl. by rewrite !lookup_insert_ne. }
    exists p', w', l'. split; [exact E|]. simpl in *.
    rewrite map_size_insert_None in Hc' by done. rewrite map_size_insert_Some in Ht' by done.
    split_and!; lia.
  - edestruct (IH p w1) as (p' & w' & l' & E & Hp' & Hc' & Ht' & _); [done| |].
    { intros i hi Hi. apply (Hin i hi). by right. }
    exists p', w', l'. split; [exact E|]. split_and!; lia.
Qed.

Lemma start_one_live id p w l : startable request p id →
  ∃ p' w' l', start_one (W := Logged W) request activities asgs ress id p (w, l) =
      (Returns (Ok p'), (w', l')) ∧
    (patience w' ≤ patience w)%nat ∧ ∃ t h, p' = begun id t h p.
Proof.
  intros [Hk _ _]. unfold start_one. unfold ebind at 1.
  destruct (now_live w l) as (ra & w1 & l1 & -> & Hp1).
  destruct (run_placed runnable id Hk) as [res Hres]. fold asgs. rewrite Hres.
  destruct (run_direct runnable id Hk) as [-> ->]. unfold launch. unfold ebind at 1.
  rewrite log_start. set (e := ActivityExecutionContext.mk _ _ _ _ _ _ _).
  destruct (coop_start coop e w1) as (h & w2 & -> & Hp2). unfold ebind at 1.
  destruct (now_live w2 (l1 ++ [CStart e (Ok h)])) as (d & w3 & l3 & -> & Hp3).
  set (t0 := newRunningTask _ _ _ _ _ _ _ _). unfold begun, finish.
  case_bool_decide as Hs; unfold sbind, sup_lift; rewrite log_save_task.
  - destruct (coop_save coop (completeTask t0 h) w3) as (w4 & -> & Hp4).
    eexists _, w4, _. split; [done|]. split; [lia|]. exists (completeTask t0 h), h.
    by rewrite bool_decide_true.
  - destruct (coop_save coop t0 w3) as (w4 & -> & Hp4).
    eexists _, w4, _. split; [done|]. split; [lia|]. exists t0, h. by rewrite bool_decide_false.
Qed.

Lemma begun_sizes p i t h : p.(Progress.tasks) !! i = None →
  size (begun i t h p).(Progress.tasks) = S (size p.(Progress.tasks)) ∧
  (size p.(Progress.completed) ≤ size (begun i t h p).(Progress.completed))%nat.
Proof.
  intros Hn. unfold begun, finish. case_bool_decide; simpl;
    rewrite map_size_insert_None by done; (split; [done|]); [|done].
  rewrite map_size_insert. unfold id. case_match; lia.
Qed.

Lemma start_live ready p w l : NoDup ready → (∀ id, id ∈ ready → startable request p id) →
  ∃ p' w' l', startReadyActivities (W := Logged W) request activities asgs ress ready p (w, l) =
      (Returns (Ok p'), (w', l')) ∧
    (patience w' ≤ patience w)%nat ∧
    (size p.(Progress.completed) ≤ size p'.(Progress.completed))%nat ∧
    size p'.(Progress.tasks) = (size p.(Progress.tasks) + length ready)%nat ∧
    (ready = [] → p' = p).
Proof.
  revert p w l. induction ready as [|id ready IH]; intros p w l Hnd Hst; cbn [startReadyActivities].
  { exists p, w, l. split; [done|]. simpl. split_and!; try done; lia. }
  apply NoDup_cons in Hnd as [Hid Hnd]. pose proof (Hst id ltac:(by left)) as Hone.
  unfold sbind at 1.
  destruct (start_one_live id p w l Hone) as (p1 & w1 & l1 & -> & Hp1 & t & h & ->).
  destruct (begun_sizes p id t h (st_fresh _ _ _ Hone)) as [Ht1 Hc1].
  destruct (IH (begun id t h p) w1 l1 Hnd) as (p' & w' & l' & E & Hp' & Hc' & Ht' & _).
  { intros i Hi. apply startable_begun; [by intros ->|]. apply Hst. by right. }
  exists p', w', l'. split; [exact E|]. simpl. split_and!; try lia. done.
Qed.

(** With nothing running and nothing ready, everything has completed. *)
Lemma stuck_all_done salt p l : Inv config request p l →
  p.(Progress.running) = ∅ →
  readyActivities salt activities (indexPredecessors deps) p = [] →
  ∀ id, is_Some (activities !! id) → is_Some (p.(Progress.completed) !! id).
Proof.
  intros HI Hrun Hready. destruct (run_ranked runnable) as [rank Hrank].
  enough (∀ n id, (rank id < n)%nat → is_Some (activities !! id) →
    is_Some (p.(Progress.completed) !! id)) as Hn by (intros id; eapply Hn, Nat.lt_succ_diag_r).
  induction n as [|n IH]; [lia|]. intros id Hlt Hk.
  destruct (p.(Progress.completed) !! id) eqn:Ec; [by eexists|exfalso].
  assert (id ∈ readyActivities salt activities (indexPredecessors deps) p) as Hin.
  2: { rewrite Hready in Hin. by apply elem_of_nil in Hin. }
  apply (ready_elem request). split; [done|]. apply (is_ready_spec request).
  split_and!; [done|by rewrite Hrun, lookup_empty| |].
  - apply eq_None_not_Some. intros [Ht|Ht]%(inv_dom _ _ _ _ HI).
    + rewrite Ec in Ht. by destruct Ht.
    + rewrite Hrun, lookup_empty in Ht. by destruct Ht.
  - intros d Hd Hdid. destruct (Hrank d Hd) as [Hk' Hlt']; [by rewrite Hdid|].
    rewrite Hdid in Hlt'. apply IH; [lia|done].
Qed.

(** What is left to do. *)
Definition remaining (p : Progress) (w : W) : nat :=
  (size activities - size p.(Progress.completed)) +
  (size activities - size p.(Progress.tasks)) + patience w.

Lemma inv_sizes p l : Inv config request p l →
  (size p.(Progress.tasks) ≤ size activities)%nat ∧
  (size p.(Progress.completed) ≤ size activities)%nat.
Proof.
  intros HI. rewrite <- !size_dom. split; apply subseteq_size; intros id Hid; apply elem_of_dom.
  - apply (inv_known _ _ _ _ HI). by apply elem_of_dom.
  - apply (inv_known _ _ _ _ HI), (inv_dom _ _ _ _ HI). left. by apply elem_of_dom.
Qed.

Lemma stuck_size salt p l : Inv config request p l →
  p.(Progress.running) = ∅ →
  readyActivities salt activities (indexPredecessors deps) p = [] →
  (size activities ≤ size p.(Progress.completed))%nat.
Proof.
  intros HI Hrun Hready. rewrite <- !size_dom. apply subseteq_size. intros id Hid%elem_of_dom.
  apply elem_of_dom. by eapply stuck_all_done.
Qed.

Lemma map_range_nil {A} salt (m : gmap string A) : map_range salt m = [] ↔ m = ∅.
Proof.
  split.
  - intros E. apply map_to_list_empty_iff, Permutation_nil_r. by rewrite <- (map_range_perm _ salt), E.
  - intros ->. apply Permutation_nil_r. by rewrite map_range_perm, map_to_list_empty.
Qed.

Lemma turn_live salt p w l : Inv config request p l →
  (size p.(Progress.completed) < size activities)%nat →
  ∃ p' w' l', turn (W := Logged W) config salt request p (w, l) =
      (Returns (Ok (inr p')), (w', l')) ∧ (remaining p' w' < remaining p w)%nat.
Proof.
  intros HI Hlt. unfold turn. fold activities deps asgs ress. unfold ebind at 1. rewrite log_ctx_err.
  destruct (coop_ctx coop w) as (w1 & -> & Hp1).
  apply (Inv_quiet _ _ _ _ [COther]) in HI as HI0; [|by repeat constructor].
  destruct (map_range_keys salt p.(Progress.running)) as [Hnd Hk].
  destruct (inspect_live request.(ExecutionRequest.Run).(ExecutionRun.Mode)
    (map_range salt p.(Progress.running)) p w1 (l ++ [COther]) Hnd)
    as (p1 & w2 & l2 & E1 & Hp2 & Hc1 & Ht1 & Hprog).
  { intros id h Hrun%Hk. assert (is_Some (p.(Progress.running) !! id)) as Hsome by eauto.
    split; [|apply (inv_dom _ _ _ _ HI); by right].
    apply eq_None_not_Some. intros Hc%(inv_disjoint _ _ _ _ HI). congruence. }
  pose proof E1 as HI1. apply (inspect_spec config request) in HI1 as [_ HI1];
    [|done|intros ? ?; apply Hk|done]. specialize (HI1 p1 eq_refl).
  unfold sbind at 1. rewrite E1, (run_mode runnable).
  rewrite bool_decide_false by done. cbn [andb].
  set (ready := readyActivities salt activities (indexPredecessors deps) p1).
  set (avail := Z.min _ _).
  assert (0 ≤ avail) as Hav.
  { pose proof (inv_bound _ _ _ _ HI1). unfold avail. lia. }
  rewrite (proj2 (Z.ltb_ge _ _)) by lia.
  assert (∀ id, id ∈ take (Z.to_nat avail) ready → startable request p1 id) as Hst.
  { intros id Hid. apply elem_of_take in Hid as (i & Hi & _).
    eapply ready_startable, list_elem_of_lookup_2, Hi. }
  assert (NoDup (take (Z.to_nat avail) ready)) as Hndr.
  { eapply sublist_NoDup; [apply (ready_nodup request)|apply sublist_take]. }
  destruct (start_live _ p1 w2 l2 Hndr Hst) as (p2 & w3 & l3 & E2 & Hp3 & Hc2 & Ht2 & Heq).
  pose proof E2 as HI2. apply (start_spec config request) in HI2 as [_ HI2];
    [|exact Hndr|exact Hst|rewrite length_take; unfold avail; fold ready; lia|exact HI1].
  specialize (HI2 p2 eq_refl).
  destruct (inv_sizes _ _ HI) as [Hs1 Hs2], (inv_sizes _ _ HI2) as [Hs3 Hs4].
  assert (remaining p2 w3 < remaining p w)%nat as Hrem.
  { unfold remaining. destruct (decide (p.(Progress.running) = ∅)) as [Hr|Hr].
    - rewrite (proj2 (map_range_nil salt _) Hr) in E1. injection E1 as <- _ _.
      assert (ready ≠ []) as Hne.
      { intros Hnil. pose proof (stuck_size salt p l2 HI1 Hr Hnil). lia. }
      assert (0 < length (take (Z.to_nat avail) ready))%nat; [|lia].
      rewrite length_take. unfold avail. fold ready. rewrite Hr, map_size_empty.
      pose proof (New_parallel c0) as Hmax. fold config in Hmax.
      destruct ready; [done|]. simpl length. lia.
    - rewrite <- (map_range_nil salt) in Hr. specialize (Hprog Hr). lia. }
  unfold sbind at 1. rewrite E2.
  assert (bool_decide (size p2.(Progress.running) = 0%nat) && bool_decide (ready = []) &&
    (Z.of_nat (size p2.(Progress.completed)) <? Z.of_nat (size activities)) = false) as ->.
  { apply not_true_iff_false. rewrite !andb_true_iff, !bool_decide_eq_true, Z.ltb_lt.
    intros [[Hz Hnil] Hlt2]. rewrite Hnil, take_nil in Heq. specialize (Heq eq_refl). subst p2.
    apply map_size_empty_inv in Hz.
    pose proof (stuck_size salt p1 l2 HI1 Hz Hnil). lia. }
  destruct (0 <? _); [|by exists p2, w3, l3]. unfold ebind. rewrite log_wait.
  destruct (coop_wait coop config.(Config.PollInterval) w3) as (w4 & -> & Hp4).
  eexists p2, w4, _. split; [done|]. unfold remaining in *. lia.
Qed.

Lemma loop_live fuel p w l : Inv config request p l → (remaining p w < fuel)%nat →
  ∃ trace w' l', execute_loop (W := Logged W) config fuel request p (w, l) =
    (Some (Returns (Ok trace)), (w', l')).
Proof.
  revert p w l. induction fuel as [|fuel IH]; intros p w l HI Hlt; [lia|]. cbn [execute_loop].
  fold activities.
  destruct (Z.ltb_spec (Z.of_nat (size p.(Progress.completed))) (Z.of_nat (size activities)));
    [|by eexists _, w, l].
  unfold ebind. destruct (turn_live fuel p w l HI) as (p' & w' & l' & E & Hrem); [lia|].
  rewrite E. apply IH; [|lia]. apply turn_spec in E as [_ HI']; auto.
Qed.
End progress.

Lemma runnable_terminates `{MapOrder} {W : Type} `{Clock W, Cancellation W, ExecutionStore W,
    PlanExecutor W, PreparationCoordinator W, ActivityController W}
    (patience : W → nat) (c0 : Config) (request : ExecutionRequest) (w : W) fuel :
  Cooperative patience → Runnable request →
  (2 * size (indexActivities request.(ExecutionRequest.Workflow).(WorkflowVersion.Activities)) +
   patience w < fuel)%nat →
  ∃ trace w' l', executeActivities (W := Logged W) (New c0) fuel request (w, []) =
    (Some (Returns (Ok trace)), (w', l')).
Proof.
  intros Hcoop Hrun Hfuel. apply (loop_live patience); [done..| |].
  - apply no_progress_inv. pose proof (New_parallel c0). lia.
  - unfold remaining, no_progress. simpl. rewrite !map_size_empty. lia.
Qed.

(** C15: A real run whose activities need no preparation finishes: when dependencies
    are acyclic and lead to activities of the workflow, every activity is assigned to
    a known resource, the run is never cancelled, starts, waits and saves succeed, and
    each inspection either reports completion or uses up one of a finite number of
    unfinished answers, the supervisor returns a trace after at most two turns per
    activity plus one per unfinished answer. *)
Theorem run_terminates `{MapOrder} {W : Type} `{Clock W, Cancellation W, ExecutionStore W,
    PlanExecutor W, PreparationCoordinator W, ActivityController W}
    (patience : W → nat) (c0 : Config) (request : ExecutionRequest) (w : W) fuel :
  Cooperative patience → Runnable request →
  (2 * size (indexActivities request.(ExecutionRequest.Workflow).(WorkflowVersion.Activities)) +
   patience w < fuel)%nat →
  ∃ trace w' l', executeActivities (W := Logged W) (New c0) fuel request (w, []) =
    (Some (Returns (Ok trace)), (w', l')).
Proof. apply runnable_terminates. Qed.

(** ** A concrete run, for evaluating the definitions *)
Module Example.
(** The world counts the unfinished answers left. *)
Definition clock : Clock nat := eret 0.
Definition cancellation : Cancellation nat := {| ctx_err := eret None; wait _ := eret None |}.
Definition store : ExecutionStore nat := {|
  execution_handles := {| Save _ := eret (Ok tt); Find _ := eret (Ok None) |};
  CreateRun _ := eret (Ok tt); FindRun _ := eret (Ok None); SaveTask _ := eret (Ok tt);
  CompleteRun _ := eret (Ok tt); FailRun _ _ := eret (Ok tt) |}.
Definition simulator : PlanExecutor nat := λ _, eret (Err "no simulator").
Definition preparer : PreparationCoordinator nat := None.
Definition controller : ActivityController nat := {|
  controller_Start e := eret (Ok ((zero : ActivityHandle)
    <| ActivityHandle.ID := e.(ActivityExecutionContext.Activity).(Activity.ID) |>
    <| ActivityHandle.Status := HandleRunning |>));
  controller_Inspect id mode := λ w,
    match w with
    | O => (Ok (Some ((zero : ActivityHandle) <| ActivityHandle.ID := id |>
              <| ActivityHandle.Status := HandleCompleted |>)), 0%nat)
    | S w => (Ok (Some ((zero : ActivityHandle) <| ActivityHandle.ID := id |>
              <| ActivityHandle.Status := HandleRunning |>)), w)
    end
|}.

Definition activity (id : string) : Activity := (zero : Activity) <| Activity.ID := id |>.
Definition assignment (id : string) : PlanAssignment :=
  (zero : PlanAssignment) <| PlanAssignment.ActivityID := id |>
    <| PlanAssignment.ResourceID := "r" |>.
(** Activity [b] depends on [a]. *)
Definition request : ExecutionRequest := {|
  ExecutionRequest.Run := (zero : ExecutionRun) <| ExecutionRun.ID := "run" |>
    <| ExecutionRun.Mode := ExecutionModeReal |>;
  ExecutionRequest.Plan := (zero : SchedulePlan) <| SchedulePlan.ID := "plan" |>
    <| SchedulePlan.Assignments := [assignment "a"; assignment "b"] |>;
  ExecutionRequest.Workflow := (zero : WorkflowVersion) <| WorkflowVersion.ID := "wf" |>
    <| WorkflowVersion.Activities := [activity "b"; activity "a"] |>
    <| WorkflowVersion.Dependencies := [ActivityDependency.mk "b" "a" ""] |>;
  ExecutionRequest.Resources := [(zero : Resource) <| Resource.ID := "r" |>];
  ExecutionRequest.ExecutionScope := zero;
  ExecutionRequest.Runtimes := [(zero : EnvironmentRuntime) <| EnvironmentRuntime.ID := "local" |>
    <| EnvironmentRuntime.Mode := RuntimeModeExecution |>];
  ExecutionRequest.RuntimeBindings := [ResourceRuntimeBinding.mk "r" "local" true ∅];
  ExecutionRequest.NetworkTopology := zero;
  ExecutionRequest.ActivityProfiles := [];
  ExecutionRequest.PreparationRequirementsByActivity := ∅ |}.

Definition config : Config := Config.mk 0 0.
#[local] Existing Instances clock cancellation store simulator preparer controller.
Definition run (fuel : nat) : option (outcome ExecutionTrace) * (nat * list call) :=
  Execute (W := Logged nat) (New config) fuel request (3%nat, []).
Definition result_of (fuel : nat) : option (outcome ExecutionTrace) := (run fuel).1.
Definition log_of (fuel : nat) : list call := (run fuel).2.2.

Lemma cooperative : Cooperative (λ w : nat, w).
Proof.
  split; try (intros; eexists; split; [reflexivity|simpl; lia]).
  - intros w n w' [= _ <-]. lia.
  - intros e w. eexists _, w. split; [reflexivity|lia].
  - intros id mode [|w]; eexists _, _; (split; [reflexivity|]); [by left|right; split; [done|lia]].
Qed.
Lemma runnable : Runnable request.
Proof.
  assert (∀ id, is_Some (indexActivities request.(ExecutionRequest.Workflow)
    .(WorkflowVersion.Activities) !! id) → id = "a" ∨ id = "b") as Hids.
  { intros id [a Ha]. apply index_key in Ha as [<- Ha].
    apply elem_of_cons in Ha as [->|Ha]; [by right|].
    apply list_elem_of_singleton in Ha as ->. by left. }
  split.
  - reflexivity.
  - intros id [-> | ->]%Hids; vm_compute; by eexists.
  - intros id [-> | ->]%Hids; split; reflexivity.
  - exists (λ id, if bool_decide (id = "a") then 0 else 1)%nat.
    intros d ->%list_elem_of_singleton _. split; [vm_compute; by eexists|]. simpl. vm_compute. lia.
Qed.
End Example.

Lemma example_run_any : Example.run 20 =
  (Example.result_of 20, ((Example.run 20).2.1, Example.log_of 20)).
Proof. unfold Example.result_of, Example.log_of. by destruct (Example.run 20) as [? [? ?]]. Qed.

Lemma supervisor_discipline_witness :
  length (Example.log_of 20) = 28%nat ∧
  disciplined [ActivityDependency.mk "b" "a" ""] 8 (Example.log_of 20).
Proof.
  split; [vm_compute; reflexivity|].
  exact (@supervisor_discipline _ nat Example.clock Example.cancellation Example.store
    Example.simulator Example.preparer Example.controller Example.config 20 Example.request
    3%nat (Example.result_of 20) (Example.run 20).2.1 (Example.log_of 20) example_run_any).
Defined.

(** The trace of the concrete run. *)
Definition example_trace : ExecutionTrace :=
  match Example.result_of 20 with Some (Returns (Ok t)) => t | _ => zero end.

Lemma example_run_ok : Example.run 20 =
  (Some (Returns (Ok example_trace)), ((Example.run 20).2.1, Example.log_of 20)).
Proof. vm_compute. reflexivity. Qed.

Lemma execute_ok_complete_witness :
  length example_trace.(ExecutionTrace.Tasks) = 2%nat ∧
  Forall (λ t, t.(TaskExecution.Status) = TaskCompleted) example_trace.(ExecutionTrace.Tasks).
Proof.
  split; [vm_compute; reflexivity|].
  exact (proj1 (proj2 (proj2 (proj2 (@execute_ok_complete _ nat Example.clock Example.cancellation
    Example.store Example.simulator Example.preparer Example.controller Example.config 20
    Example.request 3%nat example_trace (Example.run 20).2.1 (Example.log_of 20) eq_refl
    example_run_ok))))).
Defined.

Lemma execute_settles_witness :
  ∃ l1, Example.log_of 20 =
    CCreateRun (Ok tt) :: l1 ++ [CCompleteRun example_trace (Ok tt)].
Proof.
  destruct (@execute_settles _ nat Example.clock Example.cancellation
    Example.store Example.simulator Example.preparer Example.controller Example.config 20
    Example.request 3%nat (Ok example_trace) (Example.run 20).2.1 (Example.log_of 20)
    example_run_ok) as (l1 & H & _).
  exists l1. exact H.
Defined.

Lemma execute_ok_topological_witness :
  (first_start (Example.log_of 20) "a" < first_start (Example.log_of 20) "b")%nat.
Proof.
  exact (proj2 (@execute_ok_topological _ nat Example.clock Example.cancellation
    Example.store Example.simulator Example.preparer Example.controller Example.config 20
    Example.request 3%nat example_trace (Example.run 20).2.1 (Example.log_of 20) eq_refl
    example_run_ok (ActivityDependency.mk "b" "a" "") ltac:(left) ltac:(left))).
Defined.

Lemma run_terminates_witness :
  ∃ trace w' l', @executeActivities _ (Logged nat)
    (@logged_clock nat Example.clock) (@logged_cancellation nat Example.cancellation)
    (@logged_store nat Example.store) (@logged_preparer nat Example.preparer)
    (@logged_controller nat Example.controller) (New Example.config) 8 Example.request
    (3%nat, []) = (Some (Returns (Ok trace)), (w', l')).
Proof.
  apply (@run_terminates _ nat Example.clock Example.cancellation Example.store
    Example.simulator Example.preparer Example.controller (λ w : nat, w) Example.config
    Example.request 3%nat 8 Example.cooperative Example.runnable).
  vm_compute. lia.
Defined.
End Supervisor.
