(* ===== verification/Validator.v ===== *)
(** * The plan validator (src/internal/infrastructure/plugins/planning/validator.go)

    What a schedule plan must satisfy before it may be executed: one assignment
    per activity on a resource that is in scope, schedulable and large enough, an
    acyclic workflow, and per-lane orders compatible with the dependencies. *)

From S2P Require Import Prelude GoStrings GoFloat Domain Ports Supervisor.

Module Validator.

(** [isSchedulerTarget] *)
Definition isSchedulerTarget (resource : Resource) : bool :=
  bool_decide (resource.(Resource.ExecutionTarget) = ExecutionTargetBatch) &&
  (bool_decide (resource.(Resource.Type_) = ResourceHPCPartition) ||
   bool_decide (resource.(Resource.Type_) = ResourceBatchQueue) ||
   bool_decide (resource.(Resource.Type_) = ResourceSlurmReservation)).

(** ** [validateDAG] *)

(** The loop over the dependencies: in-degrees and successors. *)
Definition count_dependency (acc : gmap string Z * gmap string (list string))
    (d : ActivityDependency) : result (gmap string Z * gmap string (list string)) :=
  let '(indegree, successors) := acc in
  let activity := d.(ActivityDependency.ActivityID) in
  let predecessor := d.(ActivityDependency.DependsOnActivityID) in
  match indegree !! activity with
  | None => Err (errorf "dependency references unknown activity %q" [activity])
  | Some degree =>
    match indegree !! predecessor with
    | None => Err (errorf "dependency references unknown predecessor %q" [predecessor])
    | Some _ =>
      if bool_decide (activity = predecessor) then
        Err (errorf "activity %q depends on itself" [activity])
      else Ok (<[activity := degree + 1]> indegree,
               <[predecessor := lookup_zero successors predecessor ++ [activity]]> successors)
    end
  end.

(** The inner loop: an edge out of the visited activity. *)
Definition relax (acc : gmap string Z * list string) (successor : string)
    : gmap string Z * list string :=
  let '(indegree, queue) := acc in
  let degree := lookup_zero indegree successor - 1 in
  (<[successor := degree]> indegree,
   if degree =? 0 then queue ++ [successor] else queue).

(** The outer loop, as the number of activities visited; [None] when [fuel]
    iterations were not enough. *)
Fixpoint visit (fuel : nat) (successors : gmap string (list string))
    (indegree : gmap string Z) (queue : list string) (visited : Z) : option Z :=
  match queue with
  | [] => Some visited
  | id :: queue =>
    match fuel with
    | O => None
    | S fuel =>
      let '(indegree, queue) := foldl relax (indegree, queue) (lookup_zero successors id) in
      visit fuel successors indegree queue (visited + 1)
    end
  end.

Section dag.
Context `{MapOrder}.

Definition zero_degrees (activities : list Activity) : gmap string Z :=
  foldl (λ m a, <[a.(Activity.ID) := 0]> m) ∅ activities.

(** [validateDAG]: the queue loop visits each activity at most once. *)
Definition validateDAG (salt : nat) (workflow : WorkflowVersion) : option (result unit) :=
  match fold_err count_dependency
          (zero_degrees workflow.(WorkflowVersion.Activities), ∅)
          workflow.(WorkflowVersion.Dependencies) with
  | Err e => Some (Err e)
  | Ok (indegree, successors) =>
    let queue := fst <$> List.filter (λ '(_, degree), degree =? 0) (map_range salt indegree) in
    visited ← visit (size indegree) successors indegree queue 0;
    Some (check (visited =? Z.of_nat (size indegree))
            (errorf "workflow dependencies contain a cycle" []))
  end.
End dag.

(** ** [validateResourceOrders] *)
Definition lane (a : PlanAssignment) : string :=
  a.(PlanAssignment.ResourceID) +:+ NUL +:+ a.(PlanAssignment.CoreID) +:+ NUL +:+
  a.(PlanAssignment.SlotID).

Definition by_lane (assignments : list PlanAssignment) : gmap string (list PlanAssignment) :=
  foldl (λ m a, <[lane a := lookup_zero m (lane a) ++ [a]]> m) ∅ assignments.

Definition order_le (a b : PlanAssignment) : Prop :=
  a.(PlanAssignment.OrderOnResource) ≤ b.(PlanAssignment.OrderOnResource).
#[global] Instance order_le_dec a b : Decision (order_le a b).
Proof. unfold order_le. apply _. Defined.

(** The inner loop: neighbours in the sorted lane. *)
Fixpoint check_neighbours (lane : string) (items : list PlanAssignment) : result unit :=
  match items with
  | [] => Ok tt
  | a :: rest =>
    match rest with
    | [] => Ok tt
    | b :: _ =>
      check (negb (a.(PlanAssignment.OrderOnResource) =? b.(PlanAssignment.OrderOnResource)))
        (errorf "resource lane %q contains duplicate order %d"
          [lane; itoa b.(PlanAssignment.OrderOnResource)]) ≫= λ _,
      check_neighbours lane rest
    end
  end.

(** The loop over the dependencies. *)
Definition check_order (byActivity : gmap string PlanAssignment) (d : ActivityDependency)
    : result unit :=
  let activity := lookup_zero byActivity d.(ActivityDependency.ActivityID) in
  let predecessor := lookup_zero byActivity d.(ActivityDependency.DependsOnActivityID) in
  check (negb (
      bool_decide (activity.(PlanAssignment.ResourceID) = predecessor.(PlanAssignment.ResourceID)) &&
      bool_decide (activity.(PlanAssignment.CoreID) = predecessor.(PlanAssignment.CoreID)) &&
      bool_decide (activity.(PlanAssignment.SlotID) = predecessor.(PlanAssignment.SlotID)) &&
      (activity.(PlanAssignment.OrderOnResource) <=? predecessor.(PlanAssignment.OrderOnResource))))
    (errorf "resource order places activity %q before predecessor %q"
      [d.(ActivityDependency.ActivityID); d.(ActivityDependency.DependsOnActivityID)]).

(** ** [Validator.Validate] *)

(** The loop over the assignments; its state is [assignmentByActivity]. *)
Definition check_assignment (scope : ExecutionScope) (versions : gset string)
    (activityByID : gmap string Activity) (resourceByID : gmap string Resource)
    (byActivity : gmap string PlanAssignment) (assignment : PlanAssignment)
    : result (gmap string PlanAssignment) :=
  match activityByID !! assignment.(PlanAssignment.ActivityID) with
  | None => Err (errorf "assignment %q references unknown activity %q"
      [assignment.(PlanAssignment.ID); assignment.(PlanAssignment.ActivityID)])
  | Some activity =>
    if bool_decide (is_Some (byActivity !! assignment.(PlanAssignment.ActivityID))) then
      Err (errorf "activity %q has more than one assignment"
        [assignment.(PlanAssignment.ActivityID)])
    else match resourceByID !! assignment.(PlanAssignment.ResourceID) with
    | None => Err (errorf "assignment %q references unknown resource %q"
        [assignment.(PlanAssignment.ID); assignment.(PlanAssignment.ResourceID)])
    | Some resource =>
      let selector := meta_string activity.(Activity.Metadata) "resourceSelector" in
      let override := meta_bool assignment.(PlanAssignment.Metadata) "resourceSelectorOverride" in
      if negb (bool_decide (resource.(Resource.EnvironmentVersionID) ∈ versions)) then
        Err (errorf "resource %q is outside execution scope %q"
          [resource.(Resource.ID); scope.(ExecutionScope.ID)])
      else if negb resource.(Resource.Schedulable) then
        Err (errorf "resource %q is not schedulable" [resource.(Resource.ID)])
      else if negb (bool_decide (selector = "")) &&
              negb (bool_decide (selector = resource.(Resource.ID))) && negb override then
        Err (errorf "activity %q requires resource %q, not %q"
          [activity.(Activity.ID); selector; resource.(Resource.ID)])
      else if negb (isSchedulerTarget resource) &&
              flt resource.(Resource.CPUCapacity)
                activity.(Activity.Resources).(ActivityResources.CPU) then
        Err (errorf "resource %q lacks CPU for activity %q"
          [resource.(Resource.ID); activity.(Activity.ID)])
      else if negb (isSchedulerTarget resource) &&
              (resource.(Resource.MemoryBytes) <?
               activity.(Activity.Resources).(ActivityResources.MemoryBytes)) then
        Err (errorf "resource %q lacks memory for activity %q"
          [resource.(Resource.ID); activity.(Activity.ID)])
      else if flt assignment.(PlanAssignment.PredictedFinishAt)
                assignment.(PlanAssignment.PredictedStartAt) then
        Err (errorf "assignment %q finishes before it starts" [assignment.(PlanAssignment.ID)])
      else Ok (<[assignment.(PlanAssignment.ActivityID) := assignment]> byActivity)
    end
  end.

Section validate.
Context `{MapOrder}.

(** [validateResourceOrders] *)
Definition validateResourceOrders (salt : nat) (assignments : list PlanAssignment)
    (dependencies : list ActivityDependency) : result unit :=
  for_each (λ '(lane, items), check_neighbours lane (merge_sort order_le items))
    (map_range salt (by_lane assignments)) ≫= λ _,
  for_each (check_order (Supervisor.index PlanAssignment.ActivityID assignments)) dependencies.

(** The checks of [Validate] before its loop. *)
Definition check_header (plan : SchedulePlan) (workflow : WorkflowVersion)
    (scope : ExecutionScope) (topology : NetworkTopology) : result unit :=
  if negb (bool_decide (plan.(SchedulePlan.WorkflowVersionID) = workflow.(WorkflowVersion.ID))) then
    Err (errorf "plan workflow version %q does not match %q"
      [plan.(SchedulePlan.WorkflowVersionID); workflow.(WorkflowVersion.ID)])
  else if negb (bool_decide (plan.(SchedulePlan.NetworkTopologyID) = "")) &&
          negb (bool_decide (plan.(SchedulePlan.NetworkTopologyID) = topology.(NetworkTopology.ID))) then
    Err (errorf "plan network topology %q does not match %q"
      [plan.(SchedulePlan.NetworkTopologyID); topology.(NetworkTopology.ID)])
  else if bool_decide (plan.(SchedulePlan.ExecutionScopeID) = "") then
    Err (errorf "plan execution scope is required" [])
  else if negb (bool_decide (plan.(SchedulePlan.ExecutionScopeID) = scope.(ExecutionScope.ID))) then
    Err (errorf "plan execution scope %q does not match %q"
      [plan.(SchedulePlan.ExecutionScopeID); scope.(ExecutionScope.ID)])
  else if negb (bool_decide (topology.(NetworkTopology.ID) = "")) &&
          negb (bool_decide (plan.(SchedulePlan.ExecutionScopeID) =
                             topology.(NetworkTopology.ExecutionScopeID))) then
    Err (errorf "plan execution scope %q does not match topology scope %q"
      [plan.(SchedulePlan.ExecutionScopeID); topology.(NetworkTopology.ExecutionScopeID)])
  else Ok tt.

(** [Validator.Validate]; [None] when [validateDAG] runs out of fuel. *)
Definition Validate (salt : nat) (plan : SchedulePlan) (workflow : WorkflowVersion)
    (resources : list Resource) (scope : ExecutionScope) (topology : NetworkTopology)
    : option (result unit) :=
  let versions : gset string := list_to_set scope.(ExecutionScope.EnvironmentVersionIDs) in
  let resourceByID := Supervisor.index Resource.ID resources in
  let activityByID := Supervisor.index Activity.ID workflow.(WorkflowVersion.Activities) in
  match check_header plan workflow scope topology with
  | Err e => Some (Err e)
  | Ok _ =>
    match fold_err (check_assignment scope versions activityByID resourceByID) ∅
            plan.(SchedulePlan.Assignments) with
    | Err e => Some (Err e)
    | Ok byActivity =>
      if negb (bool_decide (size byActivity = size activityByID)) then
        Some (Err (errorf "plan covers %d of %d activities"
          [itoa (Z.of_nat (size byActivity)); itoa (Z.of_nat (size activityByID))]))
      else
        match validateDAG salt workflow with
        | None => None
        | Some (Err e) => Some (Err e)
        | Some (Ok _) =>
          Some (validateResourceOrders salt plan.(SchedulePlan.Assignments)
                  workflow.(WorkflowVersion.Dependencies))
        end
    end
  end.
End validate.

(** ** The in-degrees *)

(** How often [s] occurs in [l]. *)
Fixpoint occ (s : string) (l : list string) : Z :=
  match l with [] => 0 | x :: l => (if bool_decide (x = s) then 1 else 0) + occ s l end.

Lemma occ_nonneg s l : 0 ≤ occ s l.
Proof. induction l; simpl; [lia|]. case_bool_decide; lia. Qed.
Lemma occ_app s l1 l2 : occ s (l1 ++ l2) = occ s l1 + occ s l2.
Proof. induction l1; simpl; lia. Qed.
Lemma occ_elem s l : 0 < occ s l ↔ s ∈ l.
Proof.
  induction l as [|x l IH]; simpl.
  - split; [lia|]. by intros ?%elem_of_nil.
  - rewrite elem_of_cons, <- IH. pose proof (occ_nonneg s l).
    case_bool_decide; split; try lia; intros; destruct_or?; subst; try lia; try done; by left.
Qed.
Lemma occ_not_elem s l : s ∉ l → occ s l = 0.
Proof. intros Hn. pose proof (occ_nonneg s l). rewrite <- occ_elem in Hn. lia. Qed.

(** The effect of visiting an activity on the in-degrees and the queue. *)
Lemma relax_spec l D Q :
  (∀ s, s ∈ l → is_Some (D !! s) ∧ occ s l ≤ lookup_zero D s) →
  ∃ D' P, foldl relax (D, Q) l = (D', Q ++ P) ∧ dom D' = dom D ∧ NoDup P ∧
    (∀ s, lookup_zero D' s = lookup_zero D s - occ s l) ∧
    (∀ s, s ∈ P ↔ s ∈ l ∧ lookup_zero D s = occ s l).
Proof.
  revert D Q. induction l as [|x l IH]; intros D Q Hl; simpl.
  { exists D, []. rewrite app_nil_r. split_and!; [done..|apply NoDup_nil_2| |].
    - intros s. lia.
    - intros s. split; [by intros ?%elem_of_nil|]. by intros [?%elem_of_nil _]. }
  set (v := lookup_zero D x - 1). set (D1 := <[x := v]> D).
  set (Q1 := if v =? 0 then Q ++ [x] else Q).
  assert (∀ s, lookup_zero D1 s = lookup_zero D s - if bool_decide (x = s) then 1 else 0) as HD1.
  { intros s. unfold D1, lookup_zero. case_bool_decide as E.
    - subst s. rewrite lookup_insert_eq. done.
    - rewrite lookup_insert_ne by done. lia. }
  destruct (Hl x) as [Hx Hox]; [by left|]. simpl in Hox. rewrite bool_decide_true in Hox by done.
  assert (dom D1 = dom D) as Hdom.
  { unfold D1. rewrite dom_insert_L. apply elem_of_dom in Hx. set_solver. }
  destruct (IH D1 Q1) as (D' & P & E & Hd' & HndP & HD' & HP).
  { intros s Hs. destruct (Hl s) as [Hds Hos]; [by right|]. simpl in Hos. split.
    - apply elem_of_dom. rewrite Hdom. by apply elem_of_dom.
    - rewrite HD1. case_bool_decide; lia. }
  rewrite E. assert (∀ s, lookup_zero D' s =
    lookup_zero D s - ((if bool_decide (x = s) then 1 else 0) + occ s l)) as HD''.
  { intros s. rewrite HD', HD1. case_bool_decide; lia. }
  pose proof (occ_nonneg x l). unfold Q1. destruct (Z.eqb_spec v 0) as [Hv|Hv].
  - assert (occ x l = 0) as Hox0 by (unfold v in Hv; lia).
    assert (x ∉ l) as Hxl by (rewrite <- occ_elem; lia).
    exists D', (x :: P). rewrite <- app_assoc. split_and!; [done|congruence| |done|].
    + apply NoDup_cons. split; [|done]. intros [? _]%HP. done.
    + intros s. rewrite !elem_of_cons, HP, HD1. case_bool_decide as Es.
      * subst s. unfold v in Hv. split; [intros _|by left]. split; [by left|lia].
      * split.
        -- intros [->|[? ?]]; [done|]. split; [by right|lia].
        -- intros [[->|?] ?]; [done|]. right. split; [done|lia].
  - exists D', P. split_and!; [done|congruence|done|done|].
    intros s. rewrite elem_of_cons, HP, HD1. case_bool_decide as Es.
    + subst s. unfold v in *. split.
      * intros [? ?]. split; [by left|lia].
      * intros [_ ?]. split; [|lia]. apply occ_elem. lia.
    + split; [intros [? ?]; split; [by right|lia]|].
      intros [[->|?] ?]; [done|]. split; [done|lia].
Qed.

(** ** The dependencies as a graph *)
Section kahn.
Variable ids : gset string.
Variable deps : list ActivityDependency.
Hypothesis closed : ∀ d, d ∈ deps →
  d.(ActivityDependency.ActivityID) ∈ ids ∧ d.(ActivityDependency.DependsOnActivityID) ∈ ids.

(** The dependencies of [id] that are not in [V] yet. *)
Definition pending (V : list string) (id : string) : Z :=
  Z.of_nat (length (base.filter (λ d, d.(ActivityDependency.ActivityID) = id ∧
    d.(ActivityDependency.DependsOnActivityID) ∉ V) deps)).

Definition successors_of (id : string) : list string :=
  ActivityDependency.ActivityID <$>
    base.filter (λ d, d.(ActivityDependency.DependsOnActivityID) = id) deps.

Lemma pending_snoc V x id : x ∉ V →
  pending (V ++ [x]) id = pending V id - occ id (successors_of x).
Proof.
  intros Hx. unfold pending, successors_of. clear closed.
  induction deps as [|d ds IH]; [done|]. rewrite !filter_cons.
  destruct (decide (ActivityDependency.DependsOnActivityID d = x)) as [Ed|Ed];
    destruct (decide (ActivityDependency.ActivityID d = id)) as [Ea|Ea].
  - rewrite (decide_False (P := _ ∧ _ ∉ V ++ [x])), (decide_True (P := _ ∧ _ ∉ V));
      [|split; [done|by rewrite Ed]|intros [_ Hn]; apply Hn, elem_of_app; right; rewrite Ed; by left].
    rewrite fmap_cons. simpl. rewrite bool_decide_true by done. lia.
  - rewrite !(decide_False (P := _ ∧ _)) by tauto.
    rewrite fmap_cons. simpl. rewrite bool_decide_false by done. lia.
  - destruct (decide (ActivityDependency.DependsOnActivityID d ∈ V)) as [Hv|Hv].
    + rewrite !(decide_False (P := _ ∧ _)); [done|tauto|].
      intros [_ Hn]. apply Hn, elem_of_app. by left.
    + rewrite !(decide_True (P := _ ∧ _)); [simpl; lia|done|].
      split; [done|]. by intros [?|?%list_elem_of_singleton]%elem_of_app.
  - by rewrite !(decide_False (P := _ ∧ _)) by tauto.
Qed.

Lemma pending_zero V id : pending V id = 0 ↔
  ∀ d, d ∈ deps → d.(ActivityDependency.ActivityID) = id →
    d.(ActivityDependency.DependsOnActivityID) ∈ V.
Proof.
  unfold pending. split.
  - intros Hz d Hd Hid. destruct (decide (ActivityDependency.DependsOnActivityID d ∈ V)); [done|].
    assert (d ∈ base.filter (λ d, d.(ActivityDependency.ActivityID) = id ∧
      d.(ActivityDependency.DependsOnActivityID) ∉ V) deps) as Hin by (by apply list_elem_of_filter).
    destruct (base.filter _ deps); [by apply elem_of_nil in Hin|simpl in Hz; lia].
  - intros Hall. destruct (base.filter _ deps) as [|d l] eqn:E; [done|exfalso].
    assert (d ∈ d :: l) as Hin by left. rewrite <- E in Hin.
    apply list_elem_of_filter in Hin as [[? Hn] ?]. by apply Hn, Hall.
Qed.

(** The loop invariant: [V] are the visited activities, [Q] the queue. *)
Record kahn_inv (V Q : list string) (D : gmap string Z) : Prop := {
  k_dom : dom D = ids;
  k_nodup : NoDup (V ++ Q);
  k_sub : ∀ id, id ∈ V ++ Q → id ∈ ids;
  k_deg : ∀ id, lookup_zero D id = pending V id;
  k_zero : ∀ id, id ∈ ids → id ∈ V ++ Q ↔ pending V id = 0;
  k_topo : ∀ V1 x V2, V = V1 ++ x :: V2 → pending V1 x = 0
}.

Lemma pending_nonneg V id : 0 ≤ pending V id.
Proof. unfold pending. lia. Qed.

Lemma nodup_length (l : list string) : NoDup l → (∀ x, x ∈ l → x ∈ ids) →
  (length l ≤ size ids)%nat.
Proof.
  intros Hnd Hsub. rewrite <- (size_list_to_set (C := gset string) l) by done.
  apply subseteq_size. intros x Hx%elem_of_list_to_set. auto.
Qed.

Lemma kahn_step V id Q D : kahn_inv V (id :: Q) D →
  ∃ D' P, foldl relax (D, Q) (successors_of id) = (D', Q ++ P) ∧
    kahn_inv (V ++ [id]) (Q ++ P) D'.
Proof.
  intros [Hdom Hnd Hsub Hdeg Hzero Htopo].
  assert (id ∉ V) as HidV.
  { apply NoDup_app in Hnd as (_ & Hd & _). intros Hv. apply (Hd id Hv). by left. }
  assert (∀ s, occ s (successors_of id) ≤ pending V s) as Hocc.
  { intros s. pose proof (pending_snoc V id s HidV). pose proof (pending_nonneg (V ++ [id]) s). lia. }
  assert (∀ s, s ∈ successors_of id → s ∈ ids) as Hsucc.
  { intros s (d & -> & Hd)%list_elem_of_fmap. apply list_elem_of_filter in Hd as [_ Hd].
    by apply closed. }
  destruct (relax_spec (successors_of id) D Q) as (D' & P & E & Hd' & HndP & HD' & HP).
  { intros s Hs. split; [|by rewrite Hdeg]. apply elem_of_dom. rewrite Hdom. auto. }
  exists D', P. split; [exact E|].
  assert (∀ s, s ∈ P → s ∉ V ++ id :: Q) as HPnew.
  { intros s [Hs Heq]%HP Hin. apply occ_elem in Hs. rewrite Hdeg in Heq.
    apply (Hzero s) in Hin; [lia|]. apply Hsucc, occ_elem. done. }
  assert (∀ x, x ∈ (V ++ [id]) ++ Q ++ P ↔ x ∈ V ++ id :: Q ∨ x ∈ P) as Hperm.
  { intros x. rewrite !elem_of_app, list_elem_of_singleton, elem_of_cons. tauto. }
  split.
  - congruence.
  - rewrite <- app_assoc, app_assoc. simpl. rewrite app_assoc.
    replace ((V ++ id :: Q) ++ P) with (((V ++ [id]) ++ Q) ++ P)
      by (by rewrite <- !app_assoc).
    rewrite <- (app_assoc V [id] Q). simpl. apply NoDup_app. split_and!; [done| |done].
    intros x Hx HxP. by apply (HPnew x).
  - intros x [?|Hx]%Hperm; [auto|]. apply HP in Hx as [? _]. auto.
  - intros x. rewrite HD', Hdeg. symmetry. by apply pending_snoc.
  - intros x Hx. rewrite Hperm, pending_snoc by done. split.
    + intros [Hin|[_ Heq]%HP].
      * apply Hzero in Hin; [|done]. specialize (Hocc x). pose proof (occ_nonneg x (successors_of id)). lia.
      * rewrite Hdeg in Heq. lia.
    + intros Heq. destruct (decide (x ∈ successors_of id)) as [Hs|Hs].
      * right. apply HP. split; [done|]. rewrite Hdeg. lia.
      * left. apply Hzero; [done|]. rewrite (occ_not_elem _ _ Hs) in Heq. lia.
  - intros V1 x V2 HV. destruct V2 as [|y V2 _] using rev_ind.
    + apply app_inj_tail in HV as [<- <-]. apply Hzero; [apply Hsub|]; apply elem_of_app; right; by left.
    + rewrite app_comm_cons, app_assoc in HV. apply app_inj_tail in HV as [-> _].
      by apply (Htopo V1 x V2).
Qed.

Lemma visit_spec fuel S V Q D :
  (∀ id, lookup_zero S id = successors_of id) → kahn_inv V Q D →
  (size ids ≤ fuel + length V)%nat →
  ∃ V' D', visit fuel S D Q (Z.of_nat (length V)) = Some (Z.of_nat (length V')) ∧
    kahn_inv V' [] D'.
Proof.
  intros HS. revert V Q D. induction fuel as [|fuel IH]; intros V [|id Q] D HI Hf; simpl;
    try (by exists V, D).
  { pose proof (nodup_length _ (k_nodup _ _ _ HI) (k_sub _ _ _ HI)) as Hlen.
    rewrite length_app in Hlen. simpl in *. lia. }
  rewrite HS. destruct (kahn_step V id Q D HI) as (D' & P & -> & HI').
  replace (Z.of_nat (length V) + 1) with (Z.of_nat (length (V ++ [id])))
    by (rewrite length_app; simpl; lia).
  apply IH; [done|]. rewrite length_app. simpl. lia.
Qed.

(** The graph is acyclic when its edges decrease a rank. *)
Definition ranked : Prop := ∃ rank : string → nat, ∀ d, d ∈ deps →
  (rank d.(ActivityDependency.DependsOnActivityID) < rank d.(ActivityDependency.ActivityID))%nat.

Lemma position_lt (V : list string) x y V1 V2 : NoDup V → V = V1 ++ y :: V2 → x ∈ V1 →
  ∃ i j, list_find (.= x) V = Some (i, x) ∧ list_find (.= y) V = Some (j, y) ∧ (i < j)%nat.
Proof.
  intros Hnd -> Hx. apply list_elem_of_split in Hx as (A & B & ->).
  exists (length A), (length ((A ++ x :: B))). rewrite <- app_assoc in *. simpl in *.
  assert (∀ (L : list string) z R, NoDup (L ++ z :: R) → list_find (.= z) (L ++ z :: R) = Some (length L, z)) as Hfind.
  { intros L z R Hn. apply list_find_Some. split_and!; [by apply list_lookup_middle|done|].
    intros j w Hw Hlt ->. apply NoDup_app in Hn as (_ & Hd & _). apply (Hd z); [|by left].
    rewrite lookup_app_l in Hw by done. by eapply list_elem_of_lookup_2. }
  split_and!; [by apply Hfind| |rewrite length_app; simpl; lia].
  rewrite app_comm_cons, app_assoc in Hnd |- *. by apply Hfind.
Qed.

Lemma kahn_all_ranked V D : kahn_inv V [] D → (size ids ≤ length V)%nat → ranked.
Proof.
  intros [_ Hnd Hsub _ Hzero Htopo] Hsz. rewrite app_nil_r in *.
  assert (∀ id, id ∈ ids → id ∈ V) as Hall.
  { assert (list_to_set V = ids) as E.
    { apply set_subseteq_size_eq; [intros x Hx%elem_of_list_to_set; auto|].
      by rewrite size_list_to_set. }
    intros id Hid. rewrite <- E in Hid. by apply elem_of_list_to_set in Hid. }
  exists (λ id, match list_find (.= id) V with Some (i, _) => i | None => 0%nat end).
  intros d Hd. destruct (closed d Hd) as [Ha _]. apply Hall, list_elem_of_split in Ha as (V1 & V2 & E).
  pose proof (Htopo V1 _ V2 E) as Hz. rewrite pending_zero in Hz.
  destruct (position_lt V d.(ActivityDependency.DependsOnActivityID) _ V1 V2 Hnd E)
    as (i & j & -> & -> & Hlt); [by apply Hz|done].
Qed.

Lemma ranked_all V D : kahn_inv V [] D → ranked → ∀ id, id ∈ ids → id ∈ V.
Proof.
  intros [_ _ _ _ Hzero _] [rank Hrank]. rewrite app_nil_r in Hzero.
  enough (∀ n id, (rank id < n)%nat → id ∈ ids → id ∈ V) as Hn
    by (intros id; eapply Hn, Nat.lt_succ_diag_r).
  induction n as [|n IH]; [lia|]. intros id Hlt Hid. apply Hzero; [done|].
  apply pending_zero. intros d Hd Heq. specialize (Hrank d Hd). subst id.
  apply IH; [lia|]. by apply closed.
Qed.
End kahn.

(** ** What [validateDAG] accepts *)
Definition workflow_ids (workflow : WorkflowVersion) : gset string :=
  list_to_set (Activity.ID <$> workflow.(WorkflowVersion.Activities)).

(** Dependencies join activities of the workflow and decrease a rank. *)
Definition is_dag (workflow : WorkflowVersion) : Prop :=
  (∀ d, d ∈ workflow.(WorkflowVersion.Dependencies) →
     d.(ActivityDependency.ActivityID) ∈ workflow_ids workflow ∧
     d.(ActivityDependency.DependsOnActivityID) ∈ workflow_ids workflow) ∧
  ranked workflow.(WorkflowVersion.Dependencies).

Lemma zero_degrees_spec activities :
  dom (zero_degrees activities) = list_to_set (Activity.ID <$> activities) ∧
  ∀ id, lookup_zero (zero_degrees activities) id = 0.
Proof.
  unfold zero_degrees. induction activities as [|a l [IHd IHz]] using rev_ind.
  { split; [done|]. intros id. simpl. unfold lookup_zero. by rewrite lookup_empty. }
  rewrite foldl_snoc, fmap_app, list_to_set_app_L, dom_insert_L, IHd. split; [set_solver|].
  intros id. unfold lookup_zero in *. destruct (decide (a.(Activity.ID) = id)) as [->|Hne].
  - by rewrite lookup_insert_eq.
  - by rewrite lookup_insert_ne.
Qed.

Section counting.
Variable D0 : gmap string Z.
Hypothesis D0_zero : ∀ id, lookup_zero D0 id = 0.

Definition dependency_ok (d : ActivityDependency) : Prop :=
  is_Some (D0 !! d.(ActivityDependency.ActivityID)) ∧
  is_Some (D0 !! d.(ActivityDependency.DependsOnActivityID)) ∧
  d.(ActivityDependency.ActivityID) ≠ d.(ActivityDependency.DependsOnActivityID).

Definition counted (deps : list ActivityDependency)
    (acc : gmap string Z * gmap string (list string)) : Prop :=
  dom acc.1 = dom D0 ∧
  (∀ id, lookup_zero acc.1 id = occ id (ActivityDependency.ActivityID <$> deps)) ∧
  (∀ id, lookup_zero acc.2 id = successors_of deps id).

Lemma count_step deps acc d : counted deps acc →
  (∀ acc', count_dependency acc d = Ok acc' → dependency_ok d ∧ counted (deps ++ [d]) acc') ∧
  (dependency_ok d → ∃ acc', count_dependency acc d = Ok acc').
Proof.
  destruct acc as [D S]. intros (Hdom & HD & HS). simpl in *.
  assert (∀ id, is_Some (D !! id) ↔ is_Some (D0 !! id)) as Hsome.
  { intros id. rewrite <- !elem_of_dom, Hdom. done. }
  unfold count_dependency, dependency_ok. split.
  - intros acc'. destruct (D !! ActivityDependency.ActivityID d) as [n|] eqn:Ea; [|done].
    destruct (D !! ActivityDependency.DependsOnActivityID d) as [k|] eqn:Ep; [|done].
    case_bool_decide as Hne; [done|]. intros [= <-]. split; [rewrite <- !Hsome; split_and!; [by eexists|by eexists|done]|].
    unfold counted. simpl. split_and!.
    + rewrite dom_insert_L, Hdom. assert (ActivityDependency.ActivityID d ∈ dom D0).
      { rewrite <- Hdom. by eapply elem_of_dom_2. } set_solver.
    + intros id. rewrite fmap_app, occ_app, <- HD. simpl. unfold lookup_zero.
      destruct (decide (ActivityDependency.ActivityID d = id)) as [<-|Hn].
      * rewrite lookup_insert_eq, Ea, bool_decide_true by done. simpl. lia.
      * rewrite lookup_insert_ne, bool_decide_false by done. lia.
    + intros id. unfold successors_of in *. rewrite filter_app, fmap_app, <- HS.
      unfold lookup_zero in *. rewrite filter_cons.
      destruct (decide (ActivityDependency.DependsOnActivityID d = id)) as [<-|Hn].
      * by rewrite lookup_insert_eq.
      * rewrite lookup_insert_ne by done. simpl. by rewrite app_nil_r.
  - intros (Ha & Hp & Hne). apply Hsome in Ha as [n Ea]. apply Hsome in Hp as [k Ep].
    rewrite Ea, Ep, bool_decide_false by done. by eexists.
Qed.

Lemma count_spec deps :
  (∀ acc, fold_err count_dependency (D0, ∅) deps = Ok acc →
     Forall dependency_ok deps ∧ counted deps acc) ∧
  (Forall dependency_ok deps → ∃ acc, fold_err count_dependency (D0, ∅) deps = Ok acc).
Proof.
  induction deps as [|d deps [IH1 IH2]] using rev_ind; simpl.
  { split; [|by eexists]. intros acc [= <-]. split; [done|]. unfold counted. simpl.
    split_and!; [done|done|]. intros id. unfold lookup_zero. by rewrite lookup_empty. }
  rewrite fold_err_snoc. split.
  - intros acc'. destruct (fold_err _ _ deps) as [acc|] eqn:E; [|done]. simpl. intros Hd.
    destruct (IH1 acc eq_refl) as [Hok Hc]. destruct (count_step deps acc d Hc) as [Hs _].
    destruct (Hs acc' Hd) as [? ?]. split; [|done]. apply Forall_app. split; [done|by apply Forall_singleton].
  - intros [Hok [Hd _]%Forall_cons]%Forall_app. destruct (IH2 Hok) as [acc E]. rewrite E. simpl.
    destruct (IH1 acc E) as [_ Hc]. by apply (count_step deps acc d Hc).
Qed.
End counting.

Lemma pending_nil deps id :
  pending deps [] id = occ id (ActivityDependency.ActivityID <$> deps).
Proof.
  unfold pending. induction deps as [|d deps IH]; [done|]. rewrite filter_cons, fmap_cons. cbn [occ].
  rewrite <- IH. case_bool_decide.
  - rewrite decide_True by (split; [done|by intros ?%elem_of_nil]). simpl. lia.
  - rewrite decide_False by tauto. done.
Qed.

Section dag_facts.
Context `{MapOrder}.

Lemma zero_queue salt (D : gmap string Z) id :
  let Q := fst <$> List.filter (λ '(_, degree), degree =? 0) (map_range salt D) in
  NoDup Q ∧ (id ∈ Q ↔ is_Some (D !! id) ∧ lookup_zero D id = 0).
Proof.
  intros Q. destruct (Supervisor.map_range_keys salt D) as [Hnd Hk]. split.
  - eapply sublist_NoDup; [exact Hnd|]. apply fmap_sublist, list_filter_sublist.
  - unfold Q. rewrite list_elem_of_fmap. setoid_rewrite list_elem_of_In.
    setoid_rewrite filter_In. setoid_rewrite <- list_elem_of_In. unfold lookup_zero. split.
    + intros ([i z] & -> & Hz%Hk & Hz0%Z.eqb_eq). simpl in *. rewrite Hz. by eauto.
    + intros [[z Hz] Hz0]. rewrite Hz in Hz0. simpl in Hz0. exists (id, z).
      split_and!; [done|by apply Hk|by apply Z.eqb_eq].
Qed.

(** The visit always returns, and accepts exactly the acyclic workflows. *)
Lemma validateDAG_spec salt workflow :
  ∃ r, validateDAG salt workflow = Some r ∧ (r = Ok tt ↔ is_dag workflow).
Proof.
  unfold validateDAG, is_dag. set (deps := WorkflowVersion.Dependencies workflow).
  destruct (zero_degrees_spec workflow.(WorkflowVersion.Activities)) as [Hdom0 Hz0].
  fold (workflow_ids workflow) in Hdom0. set (D0 := zero_degrees _) in *.
  destruct (count_spec D0 Hz0 deps) as [Hc1 Hc2].
  destruct (fold_err count_dependency (D0, ∅) deps) as [[D S]|e] eqn:E.
  2: { eexists. split; [done|]. split; [done|]. intros [Hcl [rank Hr]]. exfalso.
       destruct Hc2 as [acc ?]; [|done]. apply Forall_forall. intros d Hd.
       destruct (Hcl d Hd). specialize (Hr d Hd).
       split_and!; [by apply elem_of_dom; rewrite Hdom0..|]. intros Heq. rewrite Heq in Hr. lia. }
  destruct (Hc1 _ eq_refl) as [Hok (Hdom & HD & HS)]. simpl in *.
  assert (∀ d, d ∈ deps → d.(ActivityDependency.ActivityID) ∈ workflow_ids workflow ∧
    d.(ActivityDependency.DependsOnActivityID) ∈ workflow_ids workflow) as Hcl.
  { intros d Hd. rewrite Forall_forall in Hok. destruct (Hok d Hd) as (? & ? & _).
    rewrite <- Hdom0. by rewrite !elem_of_dom. }
  set (Q := fst <$> _).
  assert (kahn_inv (workflow_ids workflow) deps [] Q D) as HI.
  { split; simpl.
    - congruence.
    - by apply (zero_queue salt D "").
    - intros id Hid%zero_queue. destruct Hid as [Hid _]. rewrite <- Hdom0, <- Hdom. by apply elem_of_dom.
    - intros id. by rewrite HD, pending_nil.
    - intros id Hid. unfold Q. rewrite (proj2 (zero_queue salt D id)), pending_nil, <- HD.
      rewrite <- Hdom0, <- Hdom in Hid. apply elem_of_dom in Hid. tauto.
    - intros [|? ?] ? ? HV; discriminate HV. }
  assert (size D = size (workflow_ids workflow)) as Hsz by (by rewrite <- size_dom, Hdom, Hdom0).
  destruct (visit_spec (workflow_ids workflow) deps Hcl (size D) S [] Q D HS HI) as (V & D' & Hv & HI').
  { rewrite Hsz. simpl. lia. }
  change (Z.of_nat (length (@nil string))) with 0 in Hv. rewrite Hv. simpl. eexists. split; [done|]. unfold check.
  destruct (Z.eqb_spec (Z.of_nat (length V)) (Z.of_nat (size D))) as [Heq|Hne].
  - split; [intros _|done]. split; [done|]. eapply (kahn_all_ranked (workflow_ids workflow)); [done..|lia].
  - split; [done|]. intros [_ Hr]. exfalso.
    pose proof (nodup_length (workflow_ids workflow) V) as Hle.
    pose proof (k_nodup _ _ _ _ _ HI') as HndV. pose proof (k_sub _ _ _ _ _ HI') as HsubV.
    rewrite app_nil_r in *. specialize (Hle HndV HsubV).
    assert (size (workflow_ids workflow) ≤ length V)%nat; [|lia].
    rewrite <- (size_list_to_set (C := gset string) V) by done. apply subseteq_size.
    intros id Hid. apply elem_of_list_to_set. by eapply (ranked_all (workflow_ids workflow)).
Qed.
End dag_facts.

(** ** What [Validate] accepts *)
Section accepted.
Variables (plan : SchedulePlan) (workflow : WorkflowVersion) (resources : list Resource)
  (scope : ExecutionScope) (topology : NetworkTopology).
Let activityByID : gmap string Activity :=
  Supervisor.index Activity.ID workflow.(WorkflowVersion.Activities).
Let resourceByID : gmap string Resource := Supervisor.index Resource.ID resources.
Let assignments : list PlanAssignment := plan.(SchedulePlan.Assignments).

Record header_ok : Prop := {
  h_workflow : plan.(SchedulePlan.WorkflowVersionID) = workflow.(WorkflowVersion.ID);
  h_topology : plan.(SchedulePlan.NetworkTopologyID) = "" ∨
    plan.(SchedulePlan.NetworkTopologyID) = topology.(NetworkTopology.ID);
  h_scope : plan.(SchedulePlan.ExecutionScopeID) ≠ "" ∧
    plan.(SchedulePlan.ExecutionScopeID) = scope.(ExecutionScope.ID);
  h_topology_scope : topology.(NetworkTopology.ID) = "" ∨
    plan.(SchedulePlan.ExecutionScopeID) = topology.(NetworkTopology.ExecutionScopeID)
}.

(** The resource [r] can take the activity [x] under the assignment [a]. *)
Record placement_ok (a : PlanAssignment) (x : Activity) (r : Resource) : Prop := {
  p_scope : r.(Resource.EnvironmentVersionID) ∈ scope.(ExecutionScope.EnvironmentVersionIDs);
  p_schedulable : r.(Resource.Schedulable) = true;
  p_selector : let s := meta_string x.(Activity.Metadata) "resourceSelector" in
    s = "" ∨ s = r.(Resource.ID) ∨
    meta_bool a.(PlanAssignment.Metadata) "resourceSelectorOverride" = true;
  p_capacity : isSchedulerTarget r = true ∨
    flt r.(Resource.CPUCapacity) x.(Activity.Resources).(ActivityResources.CPU) = false ∧
    x.(Activity.Resources).(ActivityResources.MemoryBytes) ≤ r.(Resource.MemoryBytes);
  p_times : flt a.(PlanAssignment.PredictedFinishAt) a.(PlanAssignment.PredictedStartAt) = false
}.

Definition assignment_ok (a : PlanAssignment) : Prop :=
  ∃ x r, activityByID !! a.(PlanAssignment.ActivityID) = Some x ∧
    resourceByID !! a.(PlanAssignment.ResourceID) = Some r ∧ placement_ok a x r.

(** Two assignments on one lane have different orders, and an activity on its
    predecessor's lane comes after it. *)
Definition lanes_ok : Prop :=
  ∀ L, NoDup (PlanAssignment.OrderOnResource <$> base.filter (λ a, lane a = L) assignments).
Definition same_place (a b : PlanAssignment) : Prop :=
  a.(PlanAssignment.ResourceID) = b.(PlanAssignment.ResourceID) ∧
  a.(PlanAssignment.CoreID) = b.(PlanAssignment.CoreID) ∧
  a.(PlanAssignment.SlotID) = b.(PlanAssignment.SlotID).
Definition orders_ok : Prop :=
  ∀ d, d ∈ workflow.(WorkflowVersion.Dependencies) →
    let byActivity := Supervisor.index PlanAssignment.ActivityID assignments in
    let a := lookup_zero byActivity d.(ActivityDependency.ActivityID) in
    let b := lookup_zero byActivity d.(ActivityDependency.DependsOnActivityID) in
    same_place a b → b.(PlanAssignment.OrderOnResource) < a.(PlanAssignment.OrderOnResource).

Record plan_ok : Prop := {
  ok_header : header_ok;
  ok_assignments : ∀ a, a ∈ assignments → assignment_ok a;
  ok_once : NoDup (PlanAssignment.ActivityID <$> assignments);
  ok_covered : ∀ x, x ∈ workflow.(WorkflowVersion.Activities) →
    x.(Activity.ID) ∈ PlanAssignment.ActivityID <$> assignments;
  ok_dag : is_dag workflow;
  ok_lanes : lanes_ok;
  ok_orders : orders_ok
}.

Lemma check_header_spec : check_header plan workflow scope topology = Ok tt ↔ header_ok.
Proof.
  unfold check_header. split.
  - intros Hc. repeat (case_match; [done|]).
    repeat match goal with
    | E : negb _ = false |- _ => apply negb_false_iff, bool_decide_eq_true in E
    | E : bool_decide _ = false |- _ => apply bool_decide_eq_false in E
    | E : _ && _ = false |- _ => apply andb_false_iff in E;
        rewrite !negb_false_iff, !bool_decide_eq_true in E
    end. by split.
  - intros [H1 H2 [H3 H4] H5].
    repeat (case_match; [exfalso|]); try done;
    repeat match goal with
    | E : _ && _ = true |- _ => apply andb_true_iff in E as [? ?]
    | E : negb _ = true |- _ => apply negb_true_iff, bool_decide_eq_false in E
    | E : bool_decide _ = true |- _ => apply bool_decide_eq_true in E
    end; tauto.
Qed.

Let versions : gset string := list_to_set scope.(ExecutionScope.EnvironmentVersionIDs).

Lemma check_assignment_spec m a m' :
  check_assignment scope versions activityByID resourceByID m a = Ok m' ↔
  assignment_ok a ∧ m !! a.(PlanAssignment.ActivityID) = None ∧
  m' = <[a.(PlanAssignment.ActivityID) := a]> m.
Proof.
  unfold check_assignment, assignment_ok.
  destruct (activityByID !! _) as [x|] eqn:Ex; [|split; [done|]; naive_solver].
  case_bool_decide as Hdup.
  { split; [done|]. intros (_ & Hn & _). rewrite Hn in Hdup. by destruct Hdup. }
  rewrite <- eq_None_not_Some in Hdup.
  destruct (resourceByID !! _) as [r|] eqn:Er; [|split; [done|]; naive_solver].
  assert ((∃ x' r', Some x = Some x' ∧ Some r = Some r' ∧ placement_ok a x' r') ↔
    placement_ok a x r) as -> by naive_solver.
  split.
  - intros Hc. repeat (case_match; [done|]). injection Hc as <-. split; [|done].
    repeat match goal with
    | E : negb _ = false |- _ => apply negb_false_iff in E
    | E : bool_decide _ = true |- _ => apply bool_decide_eq_true in E
    | E : _ && _ = false |- _ => apply andb_false_iff in E;
        rewrite ?andb_false_iff, ?negb_false_iff, ?bool_decide_eq_true, ?Z.ltb_ge in E
    end.
    split; [by apply (elem_of_list_to_set (C := gset string))|done|naive_solver|tauto|done].
  - intros ([P1 P2 P3 P4 P5] & _ & ->). unfold versions.
    rewrite bool_decide_true by (by apply elem_of_list_to_set). rewrite P2, P5. simpl in *.
    destruct (_ && _) eqn:E1; [exfalso|].
    { rewrite !andb_true_iff, !negb_true_iff, !bool_decide_eq_false in E1.
      destruct E1 as [[? ?] ?]. destruct P3 as [?|[?|?]]; congruence. }
    destruct P4 as [->|[-> ?]]; [done|]. rewrite andb_false_r.
    rewrite (proj2 (Z.ltb_ge _ _)) by done. by rewrite andb_false_r.
Qed.

Lemma check_assignments_spec m' :
  fold_err (check_assignment scope versions activityByID resourceByID) ∅ assignments = Ok m' ↔
  (∀ a, a ∈ assignments → assignment_ok a) ∧ NoDup (PlanAssignment.ActivityID <$> assignments) ∧
  m' = Supervisor.index PlanAssignment.ActivityID assignments.
Proof.
  unfold Supervisor.index. revert m'. induction assignments as [|a l IH] using rev_ind; intros m'; simpl.
  { split; [intros [= <-]|by intros (_ & _ & ->)]. split_and!; [by intros ? ?%elem_of_nil|constructor|done]. }
  rewrite fold_err_snoc, foldl_snoc, fmap_app.
  assert (∀ i, foldl (λ m v, <[PlanAssignment.ActivityID v := v]> m) (∅ : gmap string PlanAssignment) l !! i = None ↔
    i ∉ PlanAssignment.ActivityID <$> l) as Hdom.
  { intros i. rewrite eq_None_not_Some. apply not_iff_compat. split.
    - intros [v Hv]. apply (Supervisor.index_key PlanAssignment.ActivityID) in Hv as [<- ?].
      by apply list_elem_of_fmap_2.
    - intros (v & -> & Hv)%list_elem_of_fmap. by apply (Supervisor.index_elem PlanAssignment.ActivityID). }
  destruct (fold_err _ ∅ l) as [m|e] eqn:E; simpl.
  - destruct (proj1 (IH m) eq_refl) as (Hok & Hnd & Hm).
    rewrite check_assignment_spec, Hm, Hdom, NoDup_app. split.
    + intros (Ha & Hn & ->). split_and!; [|done| |apply NoDup_singleton|done].
      * intros b [?| ->%list_elem_of_singleton]%elem_of_app; auto.
      * intros x Hx ->%list_elem_of_singleton. done.
    + intros (Ha & (_ & Hd & _) & ->). split_and!; [apply Ha, elem_of_app; right; by left| |done].
      intros Hx. apply (Hd _ Hx). by left.
  - split; [done|]. intros (Ha & (Hnd & _ & _)%NoDup_app & _).
    enough (Err e = Ok (Supervisor.index PlanAssignment.ActivityID l)) by done.
    apply IH. split_and!; [|done|done]. intros b Hb. apply Ha, elem_of_app. by left.
Qed.
End accepted.

(** *** Lanes *)
Lemma by_lane_spec (l : list PlanAssignment) L :
  lookup_zero (by_lane l) L = base.filter (λ a, lane a = L) l ∧
  (is_Some (by_lane l !! L) ↔ L ∈ lane <$> l).
Proof.
  unfold by_lane. induction l as [|a l [IH1 IH2]] using rev_ind.
  { unfold lookup_zero. simpl. rewrite lookup_empty. split; [done|].
    split; [by intros [? ?]|by intros ?%elem_of_nil]. }
  rewrite foldl_snoc, filter_app, fmap_app, elem_of_app. unfold lookup_zero in *.
  rewrite filter_cons. destruct (decide (lane a = L)) as [<-|Hne].
  - rewrite lookup_insert_eq. simpl. rewrite IH1. split; [done|].
    split; [|by eauto]. intros _. right. by left.
  - rewrite lookup_insert_ne by done. simpl. rewrite app_nil_r, IH1, IH2.
    split; [done|]. rewrite list_elem_of_singleton. naive_solver.
Qed.

#[global] Instance order_le_trans : Transitive order_le.
Proof. intros a b c. unfold order_le. lia. Qed.
#[global] Instance order_le_total : Total order_le.
Proof. intros a b. unfold order_le. lia. Qed.

Lemma check_neighbours_sorted L items : StronglySorted order_le items →
  check_neighbours L items = Ok tt ↔ NoDup (PlanAssignment.OrderOnResource <$> items).
Proof.
  induction 1 as [|a items Hs IH Ha]; [split; [intros; constructor|done]|].
  cbn [check_neighbours]. rewrite fmap_cons, NoDup_cons, <- IH. clear IH.
  destruct items as [|b items].
  { split; [|done]. intros _. split; [by intros ?%elem_of_nil|done]. }
  apply Forall_cons in Ha as [Hab Ha]. unfold check. simpl.
  destruct (Z.eqb_spec (PlanAssignment.OrderOnResource a) (PlanAssignment.OrderOnResource b))
    as [E|Hne]; simpl.
  - split; [done|]. intros [Hn _]. destruct Hn. rewrite E. by left.
  - split; [intros Hc; split; [|done]|by intros [_ ?]].
    intros [?|Hin]%elem_of_cons; [done|].
    apply list_elem_of_fmap in Hin as (c & Ec & Hc').
    apply StronglySorted_inv in Hs as [_ Hb]. rewrite Forall_forall in Hb.
    specialize (Hb c Hc'). unfold order_le in *. lia.
Qed.

Section validate_facts.
Context `{MapOrder}.

Lemma lanes_spec salt l :
  for_each (λ '(lane, items), check_neighbours lane (merge_sort order_le items))
    (map_range salt (by_lane l)) = Ok tt ↔
  ∀ L, NoDup (PlanAssignment.OrderOnResource <$> base.filter (λ a, lane a = L) l).
Proof.
  rewrite for_each_ok. destruct (Supervisor.map_range_keys salt (by_lane l)) as [_ Hk].
  assert (∀ L items, check_neighbours L (merge_sort order_le items) = Ok tt ↔
    NoDup (PlanAssignment.OrderOnResource <$> items)) as Hcheck.
  { intros L items. rewrite check_neighbours_sorted by apply (StronglySorted_merge_sort _).
    by rewrite merge_sort_Permutation. }
  split.
  - intros Hall L. destruct (by_lane_spec l L) as [<- _]. unfold lookup_zero.
    destruct (by_lane l !! L) as [items|] eqn:E; [|constructor].
    apply (Hcheck L), (Hall (L, items)), Hk, E.
  - intros Hall [L items] Hin%Hk. apply Hcheck. destruct (by_lane_spec l L) as [E _].
    unfold lookup_zero in E. rewrite Hin in E. simpl in E. rewrite E. apply Hall.
Qed.

Lemma check_order_spec m d : check_order m d = Ok tt ↔
  (same_place (lookup_zero m d.(ActivityDependency.ActivityID))
     (lookup_zero m d.(ActivityDependency.DependsOnActivityID)) →
   (lookup_zero m d.(ActivityDependency.DependsOnActivityID)).(PlanAssignment.OrderOnResource) <
   (lookup_zero m d.(ActivityDependency.ActivityID)).(PlanAssignment.OrderOnResource)).
Proof.
  unfold check_order, check, same_place.
  destruct (negb _) eqn:E.
  - split; [intros _|done]. rewrite negb_true_iff, !andb_false_iff, !bool_decide_eq_false, Z.leb_gt in E.
    intros (? & ? & ?). tauto.
  - split; [done|]. rewrite negb_false_iff, !andb_true_iff, !bool_decide_eq_true, Z.leb_le in E.
    intros Hlt. destruct E as [[[? ?] ?] ?]. specialize (Hlt (conj H0 (conj H1 H2))). lia.
Qed.

Lemma validateResourceOrders_spec salt plan workflow :
  validateResourceOrders salt plan.(SchedulePlan.Assignments)
    workflow.(WorkflowVersion.Dependencies) = Ok tt ↔
  lanes_ok plan ∧ orders_ok plan workflow.
Proof.
  unfold validateResourceOrders, lanes_ok, orders_ok.
  rewrite <- (lanes_spec salt). setoid_rewrite <- check_order_spec. rewrite <- for_each_ok.
  destruct (for_each _ (map_range _ _)) as [[]|]; simpl; naive_solver.
Qed.

Lemma covered_size (plan : SchedulePlan) (workflow : WorkflowVersion) :
  (∀ a, a ∈ plan.(SchedulePlan.Assignments) → is_Some (Supervisor.index Activity.ID
     workflow.(WorkflowVersion.Activities) !! a.(PlanAssignment.ActivityID))) →
  size (Supervisor.index PlanAssignment.ActivityID plan.(SchedulePlan.Assignments)) =
    size (Supervisor.index Activity.ID workflow.(WorkflowVersion.Activities)) ↔
  ∀ x, x ∈ workflow.(WorkflowVersion.Activities) →
    x.(Activity.ID) ∈ PlanAssignment.ActivityID <$> plan.(SchedulePlan.Assignments).
Proof.
  intros Hknown. set (A := Supervisor.index PlanAssignment.ActivityID _).
  set (X := Supervisor.index Activity.ID _).
  assert (dom A ⊆ dom X) as Hsub.
  { intros i [a Ha]%elem_of_dom. apply Supervisor.index_key in Ha as [<- Ha].
    apply elem_of_dom. auto. }
  assert (∀ i, i ∈ dom A ↔ i ∈ PlanAssignment.ActivityID <$> plan.(SchedulePlan.Assignments)) as HA.
  { intros i. rewrite elem_of_dom, list_elem_of_fmap. split.
    - intros [a Ha]. apply Supervisor.index_key in Ha as [<- Ha]. eauto.
    - intros (a & -> & Ha). by apply (Supervisor.index_elem PlanAssignment.ActivityID). }
  rewrite <- !size_dom. split.
  - intros Hsz x Hx. apply HA. rewrite (set_subseteq_size_eq _ _ Hsub) by lia.
    apply elem_of_dom. by apply (Supervisor.index_elem Activity.ID).
  - intros Hcov. f_equal. apply set_eq. intros i. split; [apply Hsub|].
    intros [x Hx]%elem_of_dom. apply Supervisor.index_key in Hx as [<- Hx]. by apply HA, Hcov.
Qed.

Lemma Validate_spec salt plan workflow resources scope topology :
  ∃ r, Validate salt plan workflow resources scope topology = Some r ∧
       (r = Ok tt ↔ plan_ok plan workflow resources scope topology).
Proof.
  unfold Validate. pose proof (check_header_spec plan workflow scope topology) as Hh.
  destruct (check_header _ _ _ _) as [[]|e].
  2: { eexists. split; [done|]. split; [done|]. intros [Ho _ _ _ _ _ _]. by apply Hh in Ho. }
  pose proof (check_assignments_spec plan workflow resources scope) as Ha.
  destruct (fold_err _ ∅ _) as [m|e] eqn:E.
  2: { eexists. split; [done|]. split; [done|]. intros [_ H1 H2 _ _ _ _].
       discriminate (proj2 (Ha _) (conj H1 (conj H2 eq_refl))). }
  destruct (proj1 (Ha m) eq_refl) as (Hok & Hnd & ->).
  assert (∀ a, a ∈ plan.(SchedulePlan.Assignments) → is_Some (Supervisor.index Activity.ID
     workflow.(WorkflowVersion.Activities) !! a.(PlanAssignment.ActivityID))) as Hknown.
  { intros a (x & r & Hx & _)%Hok. eauto. }
  pose proof (covered_size plan workflow Hknown) as Hcov.
  case_bool_decide as Hsz; simpl.
  2: { eexists. split; [done|]. split; [done|]. intros [_ _ _ H1 _ _ _]. by apply Hcov in H1. }
  destruct (validateDAG_spec salt workflow) as (r & -> & Hdag).
  pose proof (validateResourceOrders_spec salt plan workflow) as Hord.
  destruct r as [[]|e].
  - eexists. split; [done|]. rewrite Hord. split.
    + intros [? ?]. split; [by apply Hh|done|done|by apply Hcov|by apply Hdag|done|done].
    + by intros [].
  - eexists. split; [done|]. split; [done|]. intros [_ _ _ _ H1 _ _]. by apply Hdag in H1.
Qed.
End validate_facts.

Section contract.
Context `{MapOrder}.

(** C3: The validator accepts exactly the well-formed plans: it always answers,
    and it accepts a plan if and only if the plan matches its workflow, scope and
    topology (a plan or a topology without the identifier matches any), assigns
    every activity exactly once to a resource that is in scope and schedulable, is
    the one the activity selects (unless the activity selects none or the assignment
    overrides it) and is large enough (unless it is the target of a scheduler), no
    assignment is predicted to finish before it starts, the workflow is acyclic,
    orders on a lane are distinct, and no activity is ordered before a predecessor on
    the same lane. *)
Theorem validate_accepts_exactly salt plan workflow resources scope topology :
  ∃ r, Validate salt plan workflow resources scope topology = Some r ∧
       (r = Ok tt ↔ plan_ok plan workflow resources scope topology).
Proof. apply Validate_spec. Qed.

(** C14: The cycle check is sound, complete and terminating: whatever the order in
    which the in-degrees are visited, it answers within one visit per activity and
    accepts exactly the workflows whose dependencies join known activities and
    admit a rank that strictly increases along every dependency. *)
Theorem validateDAG_decides salt workflow :
  ∃ r, validateDAG salt workflow = Some r ∧ (r = Ok tt ↔ is_dag workflow).
Proof. apply validateDAG_spec. Qed.

Lemma accepted_runnable salt plan workflow resources scope topology request :
  Validate salt plan workflow resources scope topology = Some (Ok tt) →
  request.(ExecutionRequest.Plan) = plan → request.(ExecutionRequest.Workflow) = workflow →
  request.(ExecutionRequest.Resources) = resources →
  request.(ExecutionRequest.Run).(ExecutionRun.Mode) = ExecutionModeReal →
  (∀ x, x ∈ workflow.(WorkflowVersion.Activities) →
     request.(ExecutionRequest.PreparationRequirementsByActivity) !! x.(Activity.ID) = None ∧
     Supervisor.needs_preparation x = false) →
  Supervisor.Runnable request.
Proof.
  intros HV <- <- <- Hmode Hprep.
  destruct (Validate_spec salt request.(ExecutionRequest.Plan)
    request.(ExecutionRequest.Workflow) request.(ExecutionRequest.Resources) scope topology)
    as (r & E & Hr). rewrite HV in E. injection E as <-.
  destruct (proj1 Hr eq_refl) as [_ Hasg _ Hcov [Hcl [rank Hrank]] _ _].
  assert (∀ id, is_Some (Supervisor.indexActivities request.(ExecutionRequest.Workflow)
    .(WorkflowVersion.Activities) !! id) → ∃ x, x ∈ request.(ExecutionRequest.Workflow)
    .(WorkflowVersion.Activities) ∧ x.(Activity.ID) = id ∧ lookup_zero (Supervisor.indexActivities
    request.(ExecutionRequest.Workflow).(WorkflowVersion.Activities)) id = x) as Hact.
  { intros id [x Hx]. exists x. unfold lookup_zero. rewrite Hx. simpl.
    by apply Supervisor.index_key in Hx as [? ?]. }
  split; [done|..].
  - intros id (x & Hx & <- & _)%Hact. apply Hcov in Hx.
    apply list_elem_of_fmap in Hx as (a & Ea & Ha). rewrite Ea.
    destruct (Supervisor.index_elem PlanAssignment.ActivityID _ a Ha) as [b Hb].
    unfold lookup_zero, Supervisor.indexAssignments. rewrite Hb. simpl.
    apply Supervisor.index_key in Hb as [_ Hb]. destruct (Hasg b Hb) as (? & r & _ & Hres & _).
    by exists r.
  - intros id (x & Hx & <- & ->)%Hact. by apply Hprep.
  - exists rank. intros d Hd _. split; [|by apply Hrank]. destruct (Hcl d Hd) as [_ Hp].
    apply elem_of_list_to_set, list_elem_of_fmap in Hp as (x & -> & Hx).
    by apply (Supervisor.index_elem Activity.ID).
Qed.

(** C7: A validated plan runs to completion: when the validator accepts the plan
    of a real request whose activities need no preparation, and the collaborators
    cooperate, the supervisor returns a trace after at most two turns per activity
    plus one per unfinished inspection. *)
Theorem validated_plan_completes {W : Type} `{Clock W, Cancellation W, ExecutionStore W,
    PlanExecutor W, PreparationCoordinator W, ActivityController W}
    (patience : W → nat) (c0 : Supervisor.Config) salt request scope topology (w : W) fuel :
  Validate salt request.(ExecutionRequest.Plan) request.(ExecutionRequest.Workflow)
    request.(ExecutionRequest.Resources) scope topology = Some (Ok tt) →
  request.(ExecutionRequest.Run).(ExecutionRun.Mode) = ExecutionModeReal →
  (∀ x, x ∈ request.(ExecutionRequest.Workflow).(WorkflowVersion.Activities) →
     request.(ExecutionRequest.PreparationRequirementsByActivity) !! x.(Activity.ID) = None ∧
     Supervisor.needs_preparation x = false) →
  Supervisor.Cooperative patience →
  (2 * length request.(ExecutionRequest.Workflow).(WorkflowVersion.Activities) +
   patience w < fuel)%nat →
  ∃ trace w' l', Supervisor.executeActivities (W := Supervisor.Logged W) (Supervisor.New c0)
    fuel request (w, []) = (Some (Returns (Ok trace)), (w', l')).
Proof.
  intros HV Hmode Hprep Hcoop Hfuel.
  apply (Supervisor.runnable_terminates patience); [done|by eapply accepted_runnable|].
  pose proof (Supervisor.index_size Activity.ID
    request.(ExecutionRequest.Workflow).(WorkflowVersion.Activities)).
  unfold Supervisor.indexActivities. lia.
Qed.
End contract.

(** ** A concrete plan *)
Module Example.
Definition resource : Resource := (zero : Resource) <| Resource.ID := "r" |>
  <| Resource.EnvironmentVersionID := "v1" |> <| Resource.Schedulable := true |>.
Definition assignment (id : string) (order : Z) : PlanAssignment :=
  (zero : PlanAssignment) <| PlanAssignment.ActivityID := id |>
    <| PlanAssignment.ResourceID := "r" |> <| PlanAssignment.OrderOnResource := order |>.
Definition plan : SchedulePlan := (zero : SchedulePlan) <| SchedulePlan.ID := "plan" |>
  <| SchedulePlan.WorkflowVersionID := "wf" |> <| SchedulePlan.ExecutionScopeID := "s" |>
  <| SchedulePlan.Assignments := [assignment "a" 0; assignment "b" 1] |>.
Definition scope : ExecutionScope := ExecutionScope.mk "s" "" "" ["v1"] ∅.
Definition request : ExecutionRequest := Supervisor.Example.request
  <| ExecutionRequest.Plan := plan |> <| ExecutionRequest.Resources := [resource] |>.
End Example.

Lemma validated_plan_completes_witness :
  ∃ trace w' l', @Supervisor.executeActivities _ (Supervisor.Logged nat)
    (@Supervisor.logged_clock nat Supervisor.Example.clock)
    (@Supervisor.logged_cancellation nat Supervisor.Example.cancellation)
    (@Supervisor.logged_store nat Supervisor.Example.store)
    (@Supervisor.logged_preparer nat Supervisor.Example.preparer)
    (@Supervisor.logged_controller nat Supervisor.Example.controller)
    (Supervisor.New Supervisor.Example.config) 8 Example.request (3%nat, []) =
  (Some (Returns (Ok trace)), (w', l')).
Proof.
  apply (@validated_plan_completes _ nat Supervisor.Example.clock
    Supervisor.Example.cancellation Supervisor.Example.store Supervisor.Example.simulator
    Supervisor.Example.preparer Supervisor.Example.controller (λ w : nat, w)
    Supervisor.Example.config 0%nat Example.request Example.scope zero 3%nat 8).
  - vm_compute. reflexivity.
  - reflexivity.
  - intros x Hx. apply elem_of_cons in Hx as [->|Hx]; [split; reflexivity|].
    apply list_elem_of_singleton in Hx as ->. split; reflexivity.
  - exact Supervisor.Example.cooperative.
  - simpl. lia.
Defined.
End Validator.
