(* ===== verification/Network.v ===== *)
(** * Network paths (src/internal/provider/simgrid/simulation_executor.go,
    src/internal/provider/simgrid/platform.go, src/internal/domain/resource/resource.go)

    The two shortest-path searches of the simulator over the links of a network
    topology: [resolveNetworkPath] for the duration and the price of a transfer,
    [shortestLinkPath] for the links of a route of the SimGrid platform. Both
    visit the nodes by increasing distance; they scan a Go map for the nearest
    node, so they are modelled for every order of that map. *)

From S2P Require Import Prelude GoStrings GoFloat Domain.

Module Network.

(** [NetworkLink.TransferSeconds] *)
Definition TransferSeconds (l : NetworkLink) (bytes : Z) : float64 :=
  if bytes <=? 0 then l.(NetworkLink.LatencySeconds)
  else if fle l.(NetworkLink.BandwidthBitsPerSecond) f0 then f0
  else fadd l.(NetworkLink.LatencySeconds)
         (fdiv (float_of_Z bytes) (fdiv l.(NetworkLink.BandwidthBitsPerSecond) (float_of_Z 8))).

(** ** Graphs

    The edges of both functions: the target, the weight, and what the edge adds
    to the label of the path (its price, or the index of its link). *)
Record edge (P : Type) := Edge { to : string; seconds : float64; payload : P }.
Arguments Edge {P}.
Arguments to {P}.
Arguments seconds {P}.
Arguments payload {P}.

Abbreviation graph P := (gmap string (list (edge P))).

(** [graph[x] = append(graph[x], e)] *)
Definition push {P} (g : graph P) (x : string) (e : edge P) : graph P :=
  <[x := lookup_zero g x ++ [e]]> g.

(** The first loop of [resolveNetworkPath]: the edges of one link. *)
Definition add_link (bytes : Z) (g : graph float64) (link : NetworkLink) : graph float64 :=
  let value := Edge link.(NetworkLink.TargetResourceID) (TransferSeconds link bytes)
    (fmul (float_of_Z bytes) link.(NetworkLink.PricePerByte)) in
  let g := push g link.(NetworkLink.SourceResourceID) value in
  if link.(NetworkLink.Bidirectional)
  then push g link.(NetworkLink.TargetResourceID)
         (Edge link.(NetworkLink.SourceResourceID) value.(seconds) value.(payload))
  else g.

(** The loop of [platformGraph]: the edges of the link number [index]. *)
Definition add_platform_link (g : graph nat) (item : nat * NetworkLink) : graph nat :=
  let '(index, link) := item in
  let weight := fadd link.(NetworkLink.LatencySeconds)
    (fdiv (float_of_Z 8) (fmax link.(NetworkLink.BandwidthBitsPerSecond) (float_of_Z 1))) in
  let g := push g link.(NetworkLink.SourceResourceID)
    (Edge link.(NetworkLink.TargetResourceID) weight index) in
  if link.(NetworkLink.Bidirectional)
  then push g link.(NetworkLink.TargetResourceID)
         (Edge link.(NetworkLink.SourceResourceID) weight index)
  else g.

(** [platformGraph] *)
Definition platformGraph (links : list NetworkLink) : graph nat :=
  foldl add_platform_link ∅ (imap pair links).

(** ** The scans for the nearest node that is not visited *)

(** In [resolveNetworkPath] the distance of the best node so far is [best]. *)
Fixpoint nearest (visited : gset string) (nodes : list (string * float64))
    (current : string) (best : float64) : string :=
  match nodes with
  | [] => current
  | (node, value) :: nodes =>
    if negb (bool_decide (node ∈ visited)) && (bool_decide (current = "") || flt value best)
    then nearest visited nodes node value
    else nearest visited nodes current best
  end.

(** In [shortestLinkPath] it is read back from the map. *)
Fixpoint nearest_node (visited : gset string) (distance : gmap string float64)
    (nodes : list (string * float64)) (current : string) : string :=
  match nodes with
  | [] => current
  | (node, value) :: nodes =>
    if negb (bool_decide (node ∈ visited)) &&
       (bool_decide (current = "") || flt value (lookup_zero distance current))
    then nearest_node visited distance nodes node
    else nearest_node visited distance nodes current
  end.

(** ** The search *)
Record search (L : Type) := Search {
  distance : gmap string float64;
  labels : gmap string L;
  visited : gset string
}.
Arguments Search {L}.
Arguments distance {L}.
Arguments labels {L}.
Arguments visited {L}.

(** What the two functions do differently: the scan, the comparison of a new
    distance with the old one, and the label of an extended path. *)
Record flavour (P L : Type) := Flavour {
  scan : gset string → gmap string float64 → list (string * float64) → string;
  replaces : float64 → float64 → bool;
  extend : L → P → L
}.
Arguments scan {P L}.
Arguments replaces {P L}.
Arguments extend {P L}.

Section search.
Context {P L : Type} `{Zero L} (F : flavour P L).

(** An edge out of [current]. *)
Definition relax (current : string) (s : search L) (e : edge P) : search L :=
  let newDistance := fadd (lookup_zero s.(distance) current) e.(seconds) in
  if match s.(distance) !! e.(to) with
     | None => true
     | Some oldDistance => F.(replaces) newDistance oldDistance
     end
  then Search (<[e.(to) := newDistance]> s.(distance))
         (<[e.(to) := F.(extend) (lookup_zero s.(labels) current) e.(payload)]> s.(labels))
         s.(visited)
  else s.

(** The outer loop; [None] when [fuel] iterations were not enough. The visit
    number [salt] of the map of distances is a new one in every iteration. *)
Fixpoint search_loop `{MapOrder} (fuel salt : nat) (g : graph P) (target : string)
    (s : search L) : option (option (float64 * L)) :=
  match fuel with
  | O => None
  | S fuel =>
    let current := F.(scan) s.(visited) s.(distance) (map_range salt s.(distance)) in
    if bool_decide (current = "") then Some None
    else if bool_decide (current = target) then
      Some (Some (lookup_zero s.(distance) current, lookup_zero s.(labels) current))
    else
      search_loop fuel (S salt) g target
        (foldl (relax current)
          (Search s.(distance) s.(labels) ({[ current ]} ∪ s.(visited)))
          (lookup_zero g current))
  end.
End search.

Definition cheapest : flavour float64 float64 :=
  {| scan visited _ nodes := nearest visited nodes "" f0;
     replaces newDistance oldDistance := flt newDistance oldDistance;
     extend := fadd |}.

Definition routing : flavour nat (list nat) :=
  {| scan visited distance nodes := nearest_node visited distance nodes "";
     replaces candidate previous := negb (fle previous candidate);
     extend path linkIndex := path ++ [linkIndex] |}.

(** All the edges of a graph, and the number of iterations of both searches: one
    per edge, one for the source, and the one that finds no node. *)
Definition edges {P} (g : graph P) : list (edge P) := mjoin (snd <$> map_to_list g).
Definition enough {P} (g : graph P) : nat := 2 + length (edges g).

(** [resolveNetworkPath]: the duration and the price, [None] when it returns
    [ok] false. The loop always ends within [enough] iterations, so the default
    is never taken: [search_total]. *)
Definition resolveNetworkPath `{MapOrder} (salt : nat) (links : list NetworkLink)
    (source target : string) (bytes : Z) : option (float64 * float64) :=
  let g := foldl (add_link bytes) ∅ links in
  default None
    (search_loop cheapest (enough g) salt g target
       (Search {[source := f0]} {[source := f0]} ∅)).

(** [shortestLinkPath], likewise. *)
Definition shortestLinkPath `{MapOrder} (salt : nat) (g : graph nat)
    (source target : string) : option (list nat) :=
  snd <$> default None
    (search_loop routing (enough g) salt g target
       (Search {[source := f0]} {[source := []]} ∅)).

(** [sharingPolicy] *)
Definition sharingPolicy (value : string) : string :=
  if bool_decide (value = "independent") || bool_decide (value = "fatpipe")
  then "FATPIPE" else "SHARED".

(** ** What the scans find *)
Lemma nearest_spec visited nodes current best :
  nearest visited nodes current best = current ∨
  ∃ node value, (node, value) ∈ nodes ∧ node ∉ visited ∧
    nearest visited nodes current best = node.
Proof.
  revert current best. induction nodes as [|[n v] nodes IH]; intros current best; simpl; [by left|].
  destruct (negb _ && _) eqn:E.
  - right. rewrite andb_true_iff, negb_true_iff, bool_decide_eq_false in E. destruct E as [E _].
    destruct (IH n v) as [->|(n' & v' & Hin & Hv & ->)].
    + exists n, v. split; [by left|done].
    + exists n', v'. split; [by right|done].
  - destruct (IH current best) as [->|(n' & v' & Hin & Hv & ->)]; [by left|].
    right. exists n', v'. split; [by right|done].
Qed.

Lemma nearest_none visited nodes current best :
  (∀ node value, (node, value) ∈ nodes → node ≠ "") →
  nearest visited nodes current best = "" →
  current = "" ∧ ∀ node value, (node, value) ∈ nodes → node ∈ visited.
Proof.
  revert current best. induction nodes as [|[n v] nodes IH]; intros current best Hne; simpl.
  { intros ->. split; [done|]. by intros ? ? ?%elem_of_nil. }
  assert (∀ node value, (node, value) ∈ nodes → node ≠ "") as Hne'.
  { intros node value ?. apply (Hne node value). by right. }
  destruct (negb _ && _) eqn:E; intros [Hc Hall]%IH; try done.
  { subst n. exfalso. apply (Hne "" v); [by left|done]. }
  subst current. split; [done|]. rewrite (bool_decide_true ("" = "")) in E by done.
  rewrite andb_true_r, negb_false_iff, bool_decide_eq_true in E.
  intros node value [[= -> ->]|?]%elem_of_cons; eauto.
Qed.

Lemma nearest_node_eq visited distance nodes current best :
  (∀ node value, (node, value) ∈ nodes → distance !! node = Some value) →
  (current ≠ "" → lookup_zero distance current = best) →
  nearest_node visited distance nodes current = nearest visited nodes current best.
Proof.
  revert current best. induction nodes as [|[n v] nodes IH]; intros current best Hd Hb; simpl; [done|].
  assert (∀ node value, (node, value) ∈ nodes → distance !! node = Some value) as Hd'.
  { intros ? ? ?. apply Hd. by right. }
  assert (lookup_zero distance n = v) as Hn.
  { unfold lookup_zero. rewrite (Hd n v); [done|by left]. }
  replace (bool_decide (current = "") || flt v (lookup_zero distance current))
    with (bool_decide (current = "") || flt v best);
    [|case_bool_decide; [done|]; by rewrite Hb].
  destruct (negb _ && _); by apply IH.
Qed.

(** What the proofs need of a scan: it returns a node of the list that is not
    visited, or nothing, and then every node is visited. *)
Class ScanLaws {P L} (F : flavour P L) := {
  scan_in : ∀ V (D : gmap string float64) nodes, nodes ≡ₚ map_to_list D →
    F.(scan) V D nodes ≠ "" →
    is_Some (D !! F.(scan) V D nodes) ∧ F.(scan) V D nodes ∉ V;
  scan_none : ∀ V (D : gmap string float64) nodes, nodes ≡ₚ map_to_list D →
    D !! "" = None → F.(scan) V D nodes = "" → ∀ x, is_Some (D !! x) → x ∈ V
}.

Lemma listed (D : gmap string float64) nodes x v : nodes ≡ₚ map_to_list D →
  (x, v) ∈ nodes ↔ D !! x = Some v.
Proof. intros ->. apply elem_of_map_to_list. Qed.

#[global] Instance cheapest_scan : ScanLaws cheapest.
Proof.
  split; simpl; intros V D nodes HD.
  - intros Hne. destruct (nearest_spec V nodes "" f0) as [?|(x & v & Hin & Hx & E)]; [done|].
    rewrite E. apply (listed D) in Hin; [|done]. eauto.
  - intros H0 [_ Hall]%nearest_none.
    + intros x [v Hv]. apply (Hall x v), (listed D); done.
    + intros x v Hin%(listed D) ->; congruence.
Qed.

#[global] Instance routing_scan : ScanLaws routing.
Proof.
  assert (∀ V D nodes, nodes ≡ₚ map_to_list D →
    routing.(scan) V D nodes = cheapest.(scan) V D nodes) as E.
  { intros V D nodes HD. simpl. apply nearest_node_eq; [|done]. intros x v. by apply listed. }
  split; intros V D nodes HD; rewrite (E _ _ _ HD); [by apply scan_in|by apply scan_none].
Qed.

(** ** The search finds a route exactly when there is one *)
Lemma list_to_set_size_le (l : list string) :
  (size (list_to_set l : gset string) ≤ length l)%nat.
Proof.
  induction l as [|x l IH]; [done|].
  rewrite list_to_set_cons, size_union_alt, size_singleton. apply le_n_S. etrans; [|exact IH].
  apply subseteq_size. set_solver.
Qed.

Section routes.
Context {P L : Type} (F : flavour P L) (g : graph P) (source : string) (l0 : L).

(** The routes from [source], with their length and their label. *)
Inductive route : list (edge P) → string → Prop :=
| route_nil : route [] source
| route_snoc p x e : route p x → e ∈ lookup_zero g x → route (p ++ [e]) e.(to).

Definition length_of (p : list (edge P)) : float64 :=
  foldl (λ d e, fadd d e.(seconds)) f0 p.
Definition label_of (p : list (edge P)) : L :=
  foldl (λ l e, F.(extend) l e.(payload)) l0 p.

Lemma edges_spec x e : e ∈ lookup_zero g x → e ∈ edges g.
Proof.
  unfold lookup_zero. destruct (g !! x) as [es|] eqn:E; [|by intros ?%elem_of_nil].
  simpl. intros He. apply list_elem_of_join. exists es. split; [done|].
  apply list_elem_of_fmap. exists (x, es). split; [done|]. by apply elem_of_map_to_list.
Qed.

Definition nodes : gset string := {[ source ]} ∪ list_to_set (to <$> edges g).

Lemma nodes_size : (size nodes ≤ 1 + length (edges g))%nat.
Proof.
  unfold nodes. rewrite size_union_alt, size_singleton.
  transitivity (1 + size (list_to_set (to <$> edges g) : gset string))%nat.
  - apply Nat.add_le_mono_l, subseteq_size. set_solver.
  - apply Nat.add_le_mono_l. rewrite <- (length_fmap to). apply list_to_set_size_le.
Qed.

Lemma route_nodes p x : route p x → x ∈ nodes.
Proof.
  unfold nodes. destruct 1 as [|p y e _ He]; [set_solver|].
  apply elem_of_union_r, elem_of_list_to_set, list_elem_of_fmap_2, (edges_spec y), He.
Qed.

Definition labelled (s : search L) : Prop := ∀ x v, s.(distance) !! x = Some v →
  ∃ p, route p x ∧ v = length_of p ∧ s.(labels) !! x = Some (label_of p).

Lemma relax_labelled `{Zero L} current s e :
  labelled s → is_Some (s.(distance) !! current) → e ∈ lookup_zero g current →
  let s' := relax F current s e in
  labelled s' ∧ s'.(visited) = s.(visited) ∧ dom s.(distance) ⊆ dom s'.(distance) ∧
  is_Some (s'.(distance) !! e.(to)).
Proof.
  intros Hs [v Hv] He. unfold relax.
  destruct (match s.(distance) !! e.(to) with None => true | _ => _ end) eqn:E; simpl.
  - split_and!; [|done|rewrite dom_insert; set_solver|rewrite lookup_insert_eq; eauto].
    intros x u. simpl. destruct (decide (x = e.(to))) as [->|Hne].
    + rewrite lookup_insert_eq. intros [= <-].
      destruct (Hs current v Hv) as (p & Hp & -> & Hl). exists (p ++ [e]).
      split; [by apply (route_snoc p current)|]. unfold length_of, label_of, lookup_zero.
      rewrite lookup_insert_eq, Hv, Hl, !foldl_snoc. done.
    + rewrite !lookup_insert_ne by done. apply Hs.
  - split_and!; [done..|]. destruct (s.(distance) !! e.(to)); [eauto|done].
Qed.

Lemma relax_all_labelled `{Zero L} current es s :
  labelled s → is_Some (s.(distance) !! current) → (∀ e, e ∈ es → e ∈ lookup_zero g current) →
  let s' := foldl (relax F current) s es in
  labelled s' ∧ s'.(visited) = s.(visited) ∧ dom s.(distance) ⊆ dom s'.(distance) ∧
  ∀ e, e ∈ es → is_Some (s'.(distance) !! e.(to)).
Proof.
  revert s. induction es as [|e es IH]; intros s Hs Hc Hes; simpl.
  { split_and!; [done..|]. by intros ? ?%elem_of_nil. }
  destruct (relax_labelled current s e) as (Hs' & Hv & Hd & He); [done..| |].
  { apply Hes. by left. }
  destruct (IH (relax F current s e)) as (Hs'' & Hv' & Hd' & He').
  { done. }
  { apply elem_of_dom, Hd, elem_of_dom, Hc. }
  { intros ? ?. apply Hes. by right. }
  split_and!; [done|congruence|set_solver|].
  intros e' [->|?]%elem_of_cons; [|by auto]. apply elem_of_dom, Hd', elem_of_dom, He.
Qed.

(** The invariant of the outer loop. *)
Record search_inv (target : string) (s : search L) : Prop := {
  inv_labelled : labelled s;
  inv_visited : s.(visited) ⊆ dom s.(distance);
  inv_closed : ∀ x e, x ∈ s.(visited) → e ∈ lookup_zero g x → is_Some (s.(distance) !! e.(to));
  inv_source : is_Some (s.(distance) !! source);
  inv_target : target ∉ s.(visited)
}.

Lemma search_inv_step `{Zero L} target s current :
  search_inv target s → is_Some (s.(distance) !! current) → current ≠ target →
  search_inv target (foldl (relax F current)
    (Search s.(distance) s.(labels) ({[ current ]} ∪ s.(visited))) (lookup_zero g current)).
Proof.
  intros [Hl Hv Hc Hs Ht] Hcur Hne.
  destruct (relax_all_labelled current (lookup_zero g current)
    (Search s.(distance) s.(labels) ({[ current ]} ∪ s.(visited)))) as (Hl' & Ev & Hd & He);
    [done..|]. simpl in *. apply elem_of_dom in Hcur.
  assert (∀ x, is_Some (s.(distance) !! x) → x ∈ dom s.(distance)) by (intros; by apply elem_of_dom).
  split; [done| | | |].
  - rewrite Ev. set_solver.
  - rewrite Ev. intros x e [->%elem_of_singleton|Hx]%elem_of_union He'; [by apply He|].
    apply elem_of_dom, Hd, elem_of_dom, (Hc x); done.
  - apply elem_of_dom, Hd, elem_of_dom, Hs.
  - rewrite Ev. set_solver.
Qed.

(** No node has the empty name, which the scans use for "no node". *)
Definition named : Prop := source ≠ "" ∧ ∀ e, e ∈ edges g → e.(to) ≠ "".

Definition answers (target : string) (r : option (float64 * L)) : Prop :=
  match r with
  | Some (d, l) => ∃ p, route p target ∧ d = length_of p ∧ l = label_of p
  | None => named → ∀ p, ¬ route p target
  end.

Lemma labelled_nodes s : labelled s → dom s.(distance) ⊆ nodes.
Proof. intros Hs x [v Hv]%elem_of_dom. destruct (Hs x v Hv) as (p & Hp & _). by eapply route_nodes. Qed.

Lemma named_distance s : named → labelled s → s.(distance) !! "" = None.
Proof.
  intros [Hn0 Hn] Hs. apply not_elem_of_dom. intros Hin. apply (labelled_nodes s Hs) in Hin.
  unfold nodes in Hin. apply elem_of_union in Hin as [E%elem_of_singleton|Hin]; [congruence|].
  apply elem_of_list_to_set, list_elem_of_fmap in Hin as (e & E & He). by apply (Hn e).
Qed.

Lemma search_stops target s : search_inv target s →
  (∀ x, is_Some (s.(distance) !! x) → x ∈ s.(visited)) → ∀ p, ¬ route p target.
Proof.
  intros [_ _ Hc Hs Ht] Hall.
  assert (∀ p x, route p x → x ∈ s.(visited)) as Hr.
  { induction 1 as [|p x e _ IH He]; [by apply Hall|]. by apply Hall, (Hc x). }
  intros p Hp. by apply Ht, (Hr p).
Qed.

Lemma search_loop_answers `{Zero L, MapOrder, !ScanLaws F} target fuel salt s :
  search_inv target s → (size nodes < fuel + size s.(visited))%nat →
  ∃ r, search_loop F fuel salt g target s = Some r ∧ answers target r.
Proof.
  revert salt s. induction fuel as [|fuel IH]; intros salt s Hs Hf.
  { pose proof (labelled_nodes s (inv_labelled _ _ Hs)). pose proof (inv_visited _ _ Hs).
    pose proof (subseteq_size (visited s) nodes ltac:(set_solver)). lia. }
  cbn [search_loop]. pose proof (map_range_perm _ salt s.(distance)) as Hperm.
  set (current := F.(scan) _ _ _). case_bool_decide as Hcur.
  { exists None. split; [done|]. intros Hn. apply (search_stops target s Hs).
    intros x. apply (scan_none _ _ _ Hperm); [|done]. by eapply named_distance, inv_labelled. }
  destruct (scan_in s.(visited) s.(distance) _ Hperm Hcur) as [Hin Hnew]. fold current in Hin, Hnew.
  case_bool_decide as Ht.
  { eexists. split; [done|]. destruct Hin as [v Hv].
    destruct (inv_labelled _ _ Hs current v Hv) as (p & Hp & -> & Hl).
    exists p. unfold lookup_zero. rewrite Hv, Hl. by rewrite <- Ht. }
  apply IH; [by apply search_inv_step|].
  destruct (relax_all_labelled current (lookup_zero g current)
    (Search s.(distance) s.(labels) ({[ current ]} ∪ s.(visited)))) as (_ & -> & _);
    [apply Hs|done|done|]. simpl. rewrite size_union by set_solver. rewrite size_singleton. lia.
Qed.

Lemma search_total `{Zero L, MapOrder, !ScanLaws F} target salt :
  ∃ r, search_loop F (enough g) salt g target
         (Search {[source := f0]} {[source := l0]} ∅) = Some r ∧ answers target r.
Proof.
  apply search_loop_answers.
  - split; simpl.
    + intros x v. simpl. intros [<- <-]%lookup_singleton_Some. exists []. split; [constructor|].
      split; [done|]. apply lookup_singleton_eq.
    + set_solver.
    + set_solver.
    + rewrite lookup_singleton_eq. eauto.
    + set_solver.
  - pose proof nodes_size. unfold enough. cbn [visited]. rewrite (size_empty (C := gset string)). lia.
Qed.
End routes.

(** ** The links behind the graphs *)

#[global] Instance zero_link_inhabited : Inhabited NetworkLink := populate zero.

(** [path] is a list of link numbers that leads from [x] to [y]; a link is
    followed backwards when it is bidirectional. *)
Definition leads (l : NetworkLink) (x y : string) : Prop :=
  (x = l.(NetworkLink.SourceResourceID) ∧ y = l.(NetworkLink.TargetResourceID)) ∨
  (l.(NetworkLink.Bidirectional) = true ∧
   x = l.(NetworkLink.TargetResourceID) ∧ y = l.(NetworkLink.SourceResourceID)).
Inductive chain (links : list NetworkLink) (source : string) : list nat → string → Prop :=
| chain_nil : chain links source [] source
| chain_snoc path x i l y : chain links source path x → links !! i = Some l → leads l x y →
    chain links source (path ++ [i]) y.

Definition proper_names (links : list NetworkLink) : Prop := ∀ l, l ∈ links →
  l.(NetworkLink.SourceResourceID) ≠ "" ∧ l.(NetworkLink.TargetResourceID) ≠ "".

Lemma push_spec {P} (g : graph P) x e y e' :
  e' ∈ lookup_zero (push g x e) y ↔ e' ∈ lookup_zero g y ∨ (y = x ∧ e' = e).
Proof.
  unfold push, lookup_zero. destruct (decide (y = x)) as [->|Hne].
  - rewrite lookup_insert_eq. simpl. rewrite elem_of_app, list_elem_of_singleton. naive_solver.
  - rewrite lookup_insert_ne by done. naive_solver.
Qed.

(** Both graphs have, for every link, the edges of the link and no others. *)
Definition edges_of {P} (weight : NetworkLink → float64) (pay : nat → NetworkLink → P)
    (links : list NetworkLink) (g : graph P) : Prop :=
  ∀ x e, e ∈ lookup_zero g x ↔ ∃ i l, links !! i = Some l ∧ leads l x e.(to) ∧
    e = Edge e.(to) (weight l) (pay i l).

Lemma add_edges {P} weight (pay : nat → NetworkLink → P) links g l :
  edges_of weight pay links g →
  let i := length links in
  let g1 := push g l.(NetworkLink.SourceResourceID)
    (Edge l.(NetworkLink.TargetResourceID) (weight l) (pay i l)) in
  edges_of weight pay (links ++ [l])
    (if l.(NetworkLink.Bidirectional)
     then push g1 l.(NetworkLink.TargetResourceID)
            (Edge l.(NetworkLink.SourceResourceID) (weight l) (pay i l))
     else g1).
Proof.
  intros Hg i g1 x e.
  assert ((∃ j k, (links ++ [l]) !! j = Some k ∧ leads k x e.(to) ∧
      e = Edge e.(to) (weight k) (pay j k)) ↔
    e ∈ lookup_zero g x ∨ (leads l x e.(to) ∧ e = Edge e.(to) (weight l) (pay i l))) as ->.
  { rewrite (Hg x e). split.
    - intros (j & k & Hj & Hk). apply lookup_app_Some in Hj as [Hj|[Hlen Hj]]; [left; eauto|].
      apply list_lookup_singleton_Some in Hj as [Hj ->]. right.
      assert (j = i) as -> by (unfold i; lia). done.
    - intros [(j & k & Hj & Hk)|Hl].
      + exists j, k. split; [by apply lookup_app_l_Some|done].
      + exists i, l. split; [|done]. apply list_lookup_middle. done. }
  unfold leads. destruct e as [y w q]. simpl.
  destruct l.(NetworkLink.Bidirectional); unfold g1; rewrite ?push_spec; naive_solver.
Qed.

Definition transfer_price (bytes : Z) (l : NetworkLink) : float64 :=
  fmul (float_of_Z bytes) l.(NetworkLink.PricePerByte).
Definition platform_weight (link : NetworkLink) : float64 :=
  fadd link.(NetworkLink.LatencySeconds)
    (fdiv (float_of_Z 8) (fmax link.(NetworkLink.BandwidthBitsPerSecond) (float_of_Z 1))).

Lemma transfer_graph bytes links :
  edges_of (λ l, TransferSeconds l bytes) (λ _, transfer_price bytes) links
    (foldl (add_link bytes) ∅ links).
Proof.
  induction links as [|l links IH] using rev_ind.
  - intros x e. split; [intros He; by apply elem_of_nil in He|].
    intros (i & l & Hi & _). by rewrite lookup_nil in Hi.
  - rewrite foldl_snoc. apply add_edges, IH.
Qed.

Lemma platform_graph links : edges_of platform_weight (λ i _, i) links (platformGraph links).
Proof.
  unfold platformGraph. induction links as [|l links IH] using rev_ind.
  - intros x e. split; [intros He; by apply elem_of_nil in He|].
    intros (i & l & Hi & _). by rewrite lookup_nil in Hi.
  - rewrite imap_app, foldl_app. simpl. rewrite Nat.add_0_r. apply (add_edges platform_weight), IH.
Qed.

(** A route is the image of a chain of links. *)
Section images.
Context {P : Type} (weight : NetworkLink → float64) (pay : nat → NetworkLink → P).
Context (links : list NetworkLink) (g : graph P) (source : string).
Hypothesis Hg : edges_of weight pay links g.

Definition link_at (i : nat) : NetworkLink := links !!! i.

Lemma route_chain p x : route g source p x → ∃ path, chain links source path x ∧
  seconds <$> p = (λ i, weight (link_at i)) <$> path ∧
  payload <$> p = (λ i, pay i (link_at i)) <$> path.
Proof.
  induction 1 as [|p x e _ (path & Hc & Es & Ep) He].
  { exists []. split; [constructor|done]. }
  apply Hg in He as (i & l & Hi & Hl & He). exists (path ++ [i]).
  split; [by eapply chain_snoc|]. unfold link_at in *.
  rewrite !fmap_app, Es, Ep. simpl. rewrite He, (list_lookup_total_correct _ _ _ Hi). done.
Qed.

Lemma chain_route path x : chain links source path x → ∃ p, route g source p x.
Proof.
  induction 1 as [|path x i l y _ (p & Hp) Hi Hl]; [exists []; constructor|].
  exists (p ++ [Edge y (weight l) (pay i l)]).
  apply (route_snoc g source p x (Edge y (weight l) (pay i l))); [done|].
  apply Hg. exists i, l. done.
Qed.

Lemma graph_named : source ≠ "" → proper_names links → named g source.
Proof.
  intros Hs Hn. split; [done|]. intros e He. unfold edges in He.
  apply list_elem_of_join in He as (es & He & Hes).
  apply list_elem_of_fmap in Hes as ([x es'] & -> & Hx%elem_of_map_to_list).
  assert (e ∈ lookup_zero g x) as Hin by (unfold lookup_zero; by rewrite Hx).
  apply Hg in Hin as (i & l & Hi & Hl & _). apply list_elem_of_lookup_2, Hn in Hi.
  destruct Hl as [[_ ->]|(_ & _ & ->)]; apply Hi.
Qed.
End images.

(** ** The two searches *)
Lemma foldl_fmap {A B C} (f : A → B → A) (h : C → B) a (l : list C) :
  foldl f a (h <$> l) = foldl (λ a c, f a (h c)) a l.
Proof. revert a. induction l as [|c l IH]; intros a; simpl; [done|apply IH]. Qed.

(** The duration and the price of a transfer along a chain of links, summed in
    the order of the chain. *)
Definition chain_seconds (links : list NetworkLink) (bytes : Z) (path : list nat) : float64 :=
  foldl (λ d i, fadd d (TransferSeconds (links !!! i) bytes)) f0 path.
Definition chain_price (links : list NetworkLink) (bytes : Z) (path : list nat) : float64 :=
  foldl (λ c i, fadd c (transfer_price bytes (links !!! i))) f0 path.

Section searches.
Context `{MapOrder}.

Lemma resolve_path_spec salt links source target bytes :
  source ≠ "" → proper_names links →
  match resolveNetworkPath salt links source target bytes with
  | Some (duration, cost) => ∃ path, chain links source path target ∧
      duration = chain_seconds links bytes path ∧ cost = chain_price links bytes path
  | None => ∀ path, ¬ chain links source path target
  end.
Proof.
  intros Hs Hn. unfold resolveNetworkPath. pose proof (transfer_graph bytes links) as Hg.
  destruct (search_total cheapest (foldl (add_link bytes) ∅ links) source f0 target salt)
    as (r & -> & Hr). destruct r as [[d c]|]; simpl.
  - destruct Hr as (p & Hp & -> & ->).
    destruct (route_chain _ _ _ _ _ Hg _ _ Hp) as (path & Hc & Es & Ep).
    exists path. split; [done|]. unfold length_of, label_of, chain_seconds, chain_price, link_at in *.
    rewrite <- (foldl_fmap fadd seconds), <- (foldl_fmap fadd payload), Es, Ep, !foldl_fmap. done.
  - intros path Hc. destruct (chain_route _ _ _ _ _ Hg _ _ Hc) as [p Hp].
    eapply Hr, Hp. by eapply graph_named.
Qed.

Lemma shortest_path_spec salt links source target :
  source ≠ "" → proper_names links →
  match shortestLinkPath salt (platformGraph links) source target with
  | Some path => chain links source path target
  | None => ∀ path, ¬ chain links source path target
  end.
Proof.
  intros Hs Hn. unfold shortestLinkPath. pose proof (platform_graph links) as Hg.
  destruct (search_total routing (platformGraph links) source [] target salt)
    as (r & -> & Hr). destruct r as [[d q]|]; simpl.
  - destruct Hr as (p & Hp & _ & ->).
    destruct (route_chain _ _ _ _ _ Hg _ _ Hp) as (path & Hc & _ & Ep).
    enough (label_of routing [] p = path) as -> by done. rewrite list_fmap_id in Ep. rewrite <- Ep.
    unfold label_of. simpl. clear. induction p as [|e p IH] using rev_ind; [done|].
    by rewrite foldl_snoc, IH, fmap_app.
  - intros path Hc. destruct (chain_route _ _ _ _ _ Hg _ _ Hc) as [p Hp].
    eapply Hr, Hp. by eapply graph_named.
Qed.
End searches.

(** ** A topology with two equally fast routes of different price *)
Module Example.
Definition link (source target : string) (price : Z) : NetworkLink :=
  (zero : NetworkLink) <| NetworkLink.SourceResourceID := source |>
    <| NetworkLink.TargetResourceID := target |>
    <| NetworkLink.BandwidthBitsPerSecond := float_of_Z 8 |>
    <| NetworkLink.PricePerByte := float_of_Z price |>.
Definition diamond : list NetworkLink :=
  [link "s" "a" 1; link "a" "t" 1; link "s" "b" 5; link "b" "t" 5].

(** The reverse of the canonical order. *)
Definition reversed : MapOrder := {|
  map_range V _ m := reverse (map_to_list m);
  map_range_perm V _ m := reverse_Permutation _
|}.

Lemma diamond_named : proper_names diamond.
Proof. intros l Hl. repeat (apply elem_of_cons in Hl as [->|Hl]; [done|]). by apply elem_of_nil in Hl. Qed.
End Example.

(** The price of a transfer is not determined by the topology: among equally
    fast routes, the one the scan of the Go map happens to meet first is taken, so
    two runs of one simulation can report the same duration at different prices. *)
Theorem price_depends_on_map_order :
  ∃ (O1 O2 : MapOrder) links source target bytes d c1 c2,
    @resolveNetworkPath O1 0 links source target bytes = Some (d, c1) ∧
    @resolveNetworkPath O2 0 links source target bytes = Some (d, c2) ∧
    flt c1 c2 = true.
Proof.
  exists canonical_order, Example.reversed, Example.diamond, "s", "t", 1.
  do 3 eexists. split_and!; vm_compute; reflexivity.
Qed.

(** The network path of a transfer is exact: whatever the order in which the
    maps are visited, the search ends, it succeeds exactly when a chain of links
    (backwards only along bidirectional ones) leads from the source to the target,
    and the duration and price it returns are those of such a chain, summed link
    by link. *)
Theorem network_path_exact `{MapOrder} salt links source target bytes :
  source ≠ "" → proper_names links →
  match resolveNetworkPath salt links source target bytes with
  | Some (duration, cost) => ∃ path, chain links source path target ∧
      duration = chain_seconds links bytes path ∧ cost = chain_price links bytes path
  | None => ∀ path, ¬ chain links source path target
  end.
Proof. apply resolve_path_spec. Qed.

Lemma network_path_exact_witness :
  match resolveNetworkPath 0 Example.diamond "s" "t" 3 with
  | Some (duration, cost) => ∃ path, chain Example.diamond "s" path "t" ∧
      duration = chain_seconds Example.diamond 3 path ∧
      cost = chain_price Example.diamond 3 path
  | None => ∀ path, ¬ chain Example.diamond "s" path "t"
  end.
Proof. apply (network_path_exact 0 Example.diamond "s" "t" 3); [done|exact Example.diamond_named]. Defined.

(** The route written into the SimGrid platform is a route of the topology:
    the list of link numbers leads from the source to the target through the
    topology's own links, and a pair of resources has no route in the platform
    only when no chain of links joins them. *)
Theorem platform_route_exact `{MapOrder} salt links source target :
  source ≠ "" → proper_names links →
  match shortestLinkPath salt (platformGraph links) source target with
  | Some path => chain links source path target
  | None => ∀ path, ¬ chain links source path target
  end.
Proof. apply shortest_path_spec. Qed.

Lemma platform_route_exact_witness :
  match shortestLinkPath 0 (platformGraph Example.diamond) "s" "t" with
  | Some path => chain Example.diamond "s" path "t"
  | None => ∀ path, ¬ chain Example.diamond "s" path "t"
  end.
Proof. apply (platform_route_exact 0 Example.diamond "s" "t"); [done|exact Example.diamond_named]. Defined.
End Network.
