(* ===== verification/Simulation.v ===== *)
(** * The plan simulator (src/internal/provider/simgrid/simulation_executor.go,
    src/internal/provider/simgrid/runner_contract.go,
    src/internal/provider/simgrid/activity_runtime.go)

    A simulated run computes, from a validated plan, when every activity starts
    and finishes, which transfers it waits for and what it costs; the runner
    contract hands the same model to the external SimGrid process. *)

From S2P Require Import Prelude GoStrings GoFloat Domain Ports Supervisor Validator Network.

Module Simulation.

(** ** Numbers in metadata *)

(** [numberMetadata]: [None] when it returns false. *)
Definition numberMetadata (m : metadata) (key : string) : option float64 :=
  match m !! key with
  | Some (AnyFloat64 number) => Some number
  | Some (AnyFloat32 number) => Some number
  | Some (AnyInt number) => Some (float_of_Z number)
  | Some (AnyInt64 number) => Some (float_of_Z number)
  | _ => None
  end.

(** [resolveAssignmentOverhead] *)
Definition resolveAssignmentOverhead (assignment : PlanAssignment) (resource : Resource) : float64 :=
  fadd (default resource.(Resource.BootOverheadSeconds)
          (numberMetadata assignment.(PlanAssignment.Metadata) "bootOverheadSeconds"))
       (default resource.(Resource.ContainerOverhead)
          (numberMetadata assignment.(PlanAssignment.Metadata) "containerOverheadSeconds")).

Definition profile_key (activityType resource : string) : string :=
  activityType +:+ NUL +:+ resource.

(** [resolveRuntime] *)
Definition resolveRuntime (activity : Activity) (resource : Resource)
    (profiles : gmap string ActivityResourceProfile) : float64 :=
  match numberMetadata activity.(Activity.Metadata) "baseRuntimeSeconds",
        flt f0 resource.(Resource.ComputeSpeedup) with
  | Some base, true => fdiv base resource.(Resource.ComputeSpeedup)
  | _, _ =>
    match profiles !! profile_key activity.(Activity.ActivityTypeID) resource.(Resource.ID) with
    | Some profile => profile.(ActivityResourceProfile.RuntimeSeconds)
    | None =>
      match activity.(Activity.Simulation) with
      | Some simulation => simulation.(ActivitySimulation.DurationSeconds)
      | None => f0
      end
    end
  end.

(** ** [indexRequest] *)
Record indexedRequest := IndexedRequest {
  resources : gmap string Resource;
  assignments : gmap string PlanAssignment;
  profiles : gmap string ActivityResourceProfile;
  predecessors : gmap string (list string);
  dataBytes : gmap string Z;
  lanePrevious : gmap string string
}.

Definition data_key (producer consumer : string) : string := producer +:+ NUL +:+ consumer.

(** The loop over the data dependencies, with the wrap-around of [int64]. *)
Definition index_data (dependencies : list ActivityDataDependency) : gmap string Z :=
  foldl (λ m d,
    let key := data_key d.(ActivityDataDependency.ProducerActivityID)
                 d.(ActivityDataDependency.ConsumerActivityID) in
    <[key := int64 (lookup_zero m key + d.(ActivityDataDependency.SizeBytes))]> m) ∅ dependencies.

(** The loop over one sorted lane: each assignment after its neighbour. *)
Fixpoint link_lane (m : gmap string string) (lane : list PlanAssignment) : gmap string string :=
  match lane with
  | a :: (b :: _) as rest =>
    link_lane (<[b.(PlanAssignment.ActivityID) := a.(PlanAssignment.ActivityID)]> m) rest
  | _ => m
  end.

Abbreviation links_of request := request.(ExecutionRequest.NetworkTopology).(NetworkTopology.Links).

Section simulation.
Context `{MapOrder}.

(** [sort.Slice] is not stable, which matters only for equal orders; a plan with
    two equal orders on a lane does not pass the validator. *)
Definition index_lanes (salt : nat) (plan : list PlanAssignment) : gmap string string :=
  foldl (λ m '(_, lane), link_lane m (merge_sort Validator.order_le lane)) ∅
    (map_range salt (Validator.by_lane plan)).

(** [indexRequest] *)
Definition indexRequest (salt : nat) (request : ExecutionRequest) : indexedRequest := {|
  resources := Supervisor.index Resource.ID request.(ExecutionRequest.Resources);
  assignments := Supervisor.index PlanAssignment.ActivityID
    request.(ExecutionRequest.Plan).(SchedulePlan.Assignments);
  profiles := Supervisor.index
    (λ p, profile_key p.(ActivityResourceProfile.ActivityTypeID)
            p.(ActivityResourceProfile.ResourceID))
    request.(ExecutionRequest.ActivityProfiles);
  predecessors := Supervisor.indexPredecessors
    request.(ExecutionRequest.Workflow).(WorkflowVersion.Dependencies);
  dataBytes := index_data request.(ExecutionRequest.Workflow).(WorkflowVersion.DataDependencies);
  lanePrevious := index_lanes salt request.(ExecutionRequest.Plan).(SchedulePlan.Assignments)
|}.

(** ** [resolveTransfers] *)

(** The local variables of its loop; [path_salt] counts the scans of maps. *)
Record arrival := Arrival {
  dataReadyAt : float64;
  transferTotal : float64;
  arrived : list DataTransfer;
  path_salt : nat
}.

Definition receive (request : ExecutionRequest) (activity : Activity) (resource : Resource)
    (model : indexedRequest) (completed : gmap string TaskExecution)
    (acc : arrival) (predecessorID : string) : result arrival :=
  let predecessor := lookup_zero completed predecessorID in
  let readyAt := predecessor.(TaskExecution.FinishedAt) in
  let bytes := lookup_zero model.(dataBytes) (data_key predecessorID activity.(Activity.ID)) in
  let from := predecessor.(TaskExecution.AllocatedResourceID) in
  if negb (bool_decide (from = resource.(Resource.ID))) && (0 <? bytes) then
    match Network.resolveNetworkPath acc.(path_salt) (links_of request) from
            resource.(Resource.ID) bytes with
    | None => Err (errorf "no network link from %q to %q" [from; resource.(Resource.ID)])
    | Some (duration, transferCost) =>
      let runID := request.(ExecutionRequest.Run).(ExecutionRun.ID) in
      let transfer := DataTransfer.mk
        (sprintf "%s:%s:%s" [runID; predecessorID; activity.(Activity.ID)]) runID
        predecessorID activity.(Activity.ID) from resource.(Resource.ID) bytes
        readyAt (fadd readyAt duration) duration transferCost in
      Ok (Arrival (fmax acc.(dataReadyAt) transfer.(DataTransfer.FinishedAt))
            (fadd acc.(transferTotal) duration) (acc.(arrived) ++ [transfer])
            (acc.(path_salt) + 2 + 2 * length (links_of request)))
    end
  else Ok (Arrival (fmax acc.(dataReadyAt) readyAt) acc.(transferTotal) acc.(arrived)
             acc.(path_salt)).

Definition resolveTransfers (salt : nat) (request : ExecutionRequest) (activity : Activity)
    (resource : Resource) (model : indexedRequest) (completed : gmap string TaskExecution)
    : result arrival :=
  fold_err (receive request activity resource model completed) (Arrival f0 f0 [] salt)
    (lookup_zero model.(predecessors) activity.(Activity.ID)).

(** ** [simulate] *)

(** [allCompleted] *)
Definition allCompleted (ids : list string) (completed : gmap string TaskExecution) : bool :=
  forallb (λ id, bool_decide (is_Some (completed !! id))) ids.

(** The record of one simulated activity. *)
Definition execution_of (request : ExecutionRequest) (model : indexedRequest)
    (completed : gmap string TaskExecution) (activity : Activity) (data : arrival)
    : TaskExecution :=
  let runID := request.(ExecutionRequest.Run).(ExecutionRun.ID) in
  let previous := lookup_zero model.(lanePrevious) activity.(Activity.ID) in
  let assignment := lookup_zero model.(assignments) activity.(Activity.ID) in
  let resource := lookup_zero model.(resources) assignment.(PlanAssignment.ResourceID) in
  let resourceReadyAt := if bool_decide (previous = "") then f0
    else (lookup_zero completed previous).(TaskExecution.FinishedAt) in
  let ready := data.(dataReadyAt) in
  let start := fmax ready resourceReadyAt in
  let runtimeSeconds := resolveRuntime activity resource model.(profiles) in
  let overhead := resolveAssignmentOverhead assignment resource in
  {| TaskExecution.ID := sprintf "%s:%s" [runID; activity.(Activity.ID)];
     TaskExecution.ExecutionRunID := runID;
     TaskExecution.PlanAssignmentID := assignment.(PlanAssignment.ID);
     TaskExecution.ActivityID := activity.(Activity.ID);
     TaskExecution.PlannedResourceID := resource.(Resource.ID);
     TaskExecution.AllocatedResourceID := resource.(Resource.ID);
     TaskExecution.Attempt := 1;
     TaskExecution.Status := TaskCompleted;
     TaskExecution.ReadyAt := ready; TaskExecution.DataReadyAt := ready;
     TaskExecution.QueuedAt := ready; TaskExecution.StartedAt := start;
     TaskExecution.FinishedAt := fadd (fadd start runtimeSeconds) overhead;
     TaskExecution.RuntimeSeconds := runtimeSeconds;
     TaskExecution.QueueSeconds := fsub start ready;
     TaskExecution.TransferSeconds := data.(transferTotal);
     TaskExecution.TransferBytes := 0;
     TaskExecution.InterferenceSeconds := f0;
     TaskExecution.OverheadSeconds := overhead;
     TaskExecution.Cost := fmul (fadd runtimeSeconds overhead) resource.(Resource.PricePerSecond);
     TaskExecution.FailureReason := "" |}.

(** The guards of the inner loop: the activity is not simulated yet, and its
    predecessors and its neighbour on the lane are. *)
Definition due (model : indexedRequest) (completed : gmap string TaskExecution)
    (activity : Activity) : bool :=
  let previous := lookup_zero model.(lanePrevious) activity.(Activity.ID) in
  negb (bool_decide (is_Some (completed !! activity.(Activity.ID)))) &&
  allCompleted (lookup_zero model.(predecessors) activity.(Activity.ID)) completed &&
  (bool_decide (previous = "") || bool_decide (is_Some (completed !! previous))).

(** The local variables of the loops. *)
Record rounds := Rounds {
  completed : gmap string TaskExecution;
  transfers : list DataTransfer;
  progress : bool;
  scans : nat
}.

(** The body of the inner loop. *)
Definition simulate_activity (request : ExecutionRequest) (model : indexedRequest) (s : rounds)
    (activity : Activity) : result rounds :=
  if due model s.(completed) activity then
    let assignment := lookup_zero model.(assignments) activity.(Activity.ID) in
    let resource := lookup_zero model.(resources) assignment.(PlanAssignment.ResourceID) in
    resolveTransfers s.(scans) request activity resource model s.(completed) ≫= λ data,
    Ok (Rounds
      (<[activity.(Activity.ID) := execution_of request model s.(completed) activity data]>
         s.(completed))
      (s.(transfers) ++ data.(arrived)) true data.(path_salt))
  else Ok s.

(** The outer loop; [None] when [fuel] rounds were not enough. *)
Fixpoint simulate_rounds (fuel : nat) (request : ExecutionRequest) (model : indexedRequest)
    (s : rounds) : option (result (gmap string TaskExecution * list DataTransfer)) :=
  let activities := request.(ExecutionRequest.Workflow).(WorkflowVersion.Activities) in
  if negb (size s.(completed) <? length activities)%nat then
    Some (Ok (s.(completed), s.(transfers)))
  else match fuel with
  | O => None
  | S fuel =>
    match fold_err (simulate_activity request model)
            (Rounds s.(completed) s.(transfers) false s.(scans)) activities with
    | Err e => Some (Err e)
    | Ok s =>
      if s.(progress) then simulate_rounds fuel request model s
      else Some (Err
        (errorf "plan cannot progress: dependency and resource orders form a cycle" []))
    end
  end.

(** [simulate]: every round but the last completes an activity. *)
Definition simulate (salt : nat) (request : ExecutionRequest) (model : indexedRequest)
    : option (result (gmap string TaskExecution * list DataTransfer)) :=
  simulate_rounds (S (length request.(ExecutionRequest.Workflow).(WorkflowVersion.Activities)))
    request model (Rounds ∅ [] false salt).

(** ** [applyResourceActiveCosts] *)

(** The map [byResource], and the first loop's reset of the costs. *)
Definition index_resources (tasks : list TaskExecution) : gmap string (list nat) :=
  foldl (λ m '(i, t), let r := t.(TaskExecution.AllocatedResourceID) in
           <[r := lookup_zero m r ++ [i]]> m) ∅ (imap pair tasks).

Definition task_at (tasks : list TaskExecution) (i : nat) : TaskExecution :=
  default zero (tasks !! i).

(** The body of the loop over the resources. *)
Definition charge (prices : gmap string float64) (tasks : list TaskExecution)
    (item : string * list nat) : list TaskExecution :=
  let '(resourceID, indexes) := item in
  let price := lookup_zero prices resourceID in
  match indexes with
  | [] => tasks
  | first :: _ =>
    if fle price f0 then tasks
    else
      let start := foldl (λ s i, fmin s (task_at tasks i).(TaskExecution.StartedAt))
        (task_at tasks first).(TaskExecution.StartedAt) indexes in
      let finish := foldl (λ f i, fmax f (task_at tasks i).(TaskExecution.FinishedAt))
        (task_at tasks first).(TaskExecution.FinishedAt) indexes in
      let runtimeTotal := foldl (λ r i, fadd r (task_at tasks i).(TaskExecution.RuntimeSeconds))
        f0 indexes in
      let total := fmul (fmax f0 (fsub finish start)) price in
      foldl (λ ts i,
        let share := if flt f0 runtimeTotal
          then fdiv (task_at ts i).(TaskExecution.RuntimeSeconds) runtimeTotal
          else fdiv (float_of_Z 1) (float_of_Z (Z.of_nat (length indexes))) in
        alter (λ t, t <| TaskExecution.Cost := fmul total share |>) i ts) tasks indexes
  end.

(** [applyResourceActiveCosts] *)
Definition applyResourceActiveCosts (salt : nat) (tasks : list TaskExecution)
    (resources : list Resource) : list TaskExecution :=
  let prices := foldl (λ m r, <[r.(Resource.ID) := r.(Resource.PricePerSecond)]> m) ∅ resources in
  foldl (charge prices) ((λ t, t <| TaskExecution.Cost := f0 |>) <$> tasks)
    (map_range salt (index_resources tasks)).

(** ** [buildTrace] *)
Definition add_task (m : ExecutionMetrics) (t : TaskExecution) : ExecutionMetrics :=
  {| ExecutionMetrics.MakespanSeconds :=
       fmax m.(ExecutionMetrics.MakespanSeconds) t.(TaskExecution.FinishedAt);
     ExecutionMetrics.Cost := fadd m.(ExecutionMetrics.Cost) t.(TaskExecution.Cost);
     ExecutionMetrics.ComputeSeconds :=
       fadd m.(ExecutionMetrics.ComputeSeconds) t.(TaskExecution.RuntimeSeconds);
     ExecutionMetrics.TransferSeconds :=
       fadd m.(ExecutionMetrics.TransferSeconds) t.(TaskExecution.TransferSeconds);
     ExecutionMetrics.QueueSeconds :=
       fadd m.(ExecutionMetrics.QueueSeconds) t.(TaskExecution.QueueSeconds);
     ExecutionMetrics.InterferenceSeconds := m.(ExecutionMetrics.InterferenceSeconds);
     ExecutionMetrics.OverheadSeconds :=
       fadd m.(ExecutionMetrics.OverheadSeconds) t.(TaskExecution.OverheadSeconds);
     ExecutionMetrics.Feasible := m.(ExecutionMetrics.Feasible) |}.

(** [buildTrace] *)
Definition buildTrace (salt : nat) (request : ExecutionRequest)
    (completed : gmap string TaskExecution) (transfers : list DataTransfer) : ExecutionTrace :=
  let plan := request.(ExecutionRequest.Plan) in
  let tasks := applyResourceActiveCosts salt
    ((λ a, lookup_zero completed a.(Activity.ID)) <$>
       request.(ExecutionRequest.Workflow).(WorkflowVersion.Activities))
    request.(ExecutionRequest.Resources) in
  let metrics := foldl add_task ((zero : ExecutionMetrics) <| ExecutionMetrics.Feasible := true |>)
    tasks in
  let metrics := foldl (λ m t, m <| ExecutionMetrics.Cost :=
    fadd m.(ExecutionMetrics.Cost) t.(DataTransfer.Cost) |>) metrics transfers in
  let metrics := if flt f0 plan.(SchedulePlan.DeadlineSeconds) &&
      flt plan.(SchedulePlan.DeadlineSeconds) metrics.(ExecutionMetrics.MakespanSeconds)
    then metrics <| ExecutionMetrics.Feasible := false |> else metrics in
  let metrics := if flt f0 plan.(SchedulePlan.Budget) &&
      flt plan.(SchedulePlan.Budget) metrics.(ExecutionMetrics.Cost)
    then metrics <| ExecutionMetrics.Feasible := false |> else metrics in
  {| ExecutionTrace.RunID := request.(ExecutionRequest.Run).(ExecutionRun.ID);
     ExecutionTrace.PlanID := plan.(SchedulePlan.ID);
     ExecutionTrace.Mode := request.(ExecutionRequest.Run).(ExecutionRun.Mode);
     ExecutionTrace.Predicted := plan.(SchedulePlan.Predicted);
     ExecutionTrace.Executed := metrics;
     ExecutionTrace.Tasks := tasks;
     ExecutionTrace.Transfers := transfers |}.

(** [SimulationExecutor.Execute]; [cancelled] is [ctx.Err()]. The visits of maps
    after the validation are numbered anew. *)
Definition Execute (salt : nat) (cancelled : option error) (request : ExecutionRequest)
    : option (result ExecutionTrace) :=
  if negb (bool_decide (request.(ExecutionRequest.Run).(ExecutionRun.Mode) =
                        ExecutionModeSimulation)) then
    Some (Err (errorf "simulation executor cannot execute mode %q"
      [ExecutionMode_string request.(ExecutionRequest.Run).(ExecutionRun.Mode)]))
  else match Validator.Validate salt request.(ExecutionRequest.Plan)
               request.(ExecutionRequest.Workflow) request.(ExecutionRequest.Resources)
               request.(ExecutionRequest.ExecutionScope)
               request.(ExecutionRequest.NetworkTopology) with
  | None => None
  | Some (Err e) => Some (Err e)
  | Some (Ok _) =>
    match cancelled with
    | Some e => Some (Err e)
    | None =>
      match simulate (S salt) request (indexRequest (S salt) request) with
      | None => None
      | Some (Err e) => Some (Err e)
      | Some (Ok (completed, transfers)) =>
        Some (Ok (buildTrace (S salt) request completed transfers))
      end
    end
  end.

(** ** The runner contract *)

(** [activityFLOPS]: a positive number of the simulation model, of its
    parameters or of the metadata, in that order. *)
Definition positive (value : option float64) : option float64 :=
  match value with Some v => if flt f0 v then Some v else None | None => None end.

Definition activityFLOPS (activity : Activity) : float64 :=
  let fallback := default f0 (positive (numberMetadata activity.(Activity.Metadata) "flops")) in
  match activity.(Activity.Simulation) with
  | None => fallback
  | Some simulation =>
    if flt f0 simulation.(ActivitySimulation.FLOPs) then simulation.(ActivitySimulation.FLOPs)
    else default fallback
      (positive (numberMetadata simulation.(ActivitySimulation.Parameters) "flops"))
  end.

(** [resourceFLOPS] *)
Definition resourceFLOPS (resource : Resource) (reference : float64) : float64 :=
  match positive (numberMetadata resource.(Resource.Metadata) "flopsPerSecond") with
  | Some value => value
  | None =>
    if flt f0 resource.(Resource.ComputeSpeedup)
    then fmul reference resource.(Resource.ComputeSpeedup) else reference
  end.

(** [transferPrice]: the price of one byte. *)
Definition transferPrice (salt : nat) (links : list NetworkLink) (source target : string)
    : float64 :=
  if bool_decide (source = target) then f0
  else match Network.resolveNetworkPath salt links source target 1 with
  | Some (_, cost) => cost
  | None => f0
  end.

(** The tasks, dependencies and lane orders of [runnerInput]. *)
Record runnerTask := RunnerTask {
  task_id : string; task_assignment : string; task_resource : string;
  task_flops : float64; task_overhead : float64; task_price : float64
}.
Record runnerDependency := RunnerDependency {
  producer : string; consumer : string; bytes : Z; price : float64
}.
Record runnerLaneOrder := RunnerLaneOrder { lane_first : string; lane_second : string }.
Record runnerInput := RunnerInput {
  RunID : string; PlanID : string; DeadlineSeconds : float64; Budget : float64;
  Tasks : list runnerTask;
  Dependencies : list runnerDependency;
  ResourceLaneOrders : list runnerLaneOrder
}.

(** The body of the loop over the activities. *)
Definition runner_task (model : indexedRequest) (referenceFLOPS : float64) (activity : Activity)
    : result runnerTask :=
  match model.(assignments) !! activity.(Activity.ID) with
  | None => Err (errorf "activity %q has no SimGrid assignment" [activity.(Activity.ID)])
  | Some assignment =>
    match model.(resources) !! assignment.(PlanAssignment.ResourceID) with
    | None => Err (errorf "assignment for %q references missing resource %q"
        [activity.(Activity.ID); assignment.(PlanAssignment.ResourceID)])
    | Some resource =>
      let declared := activityFLOPS activity in
      let flops := if fle declared f0
        then fmul (resolveRuntime activity resource model.(profiles))
               (resourceFLOPS resource referenceFLOPS)
        else declared in
      Ok (RunnerTask activity.(Activity.ID) assignment.(PlanAssignment.ID)
            resource.(Resource.ID) flops (resolveAssignmentOverhead assignment resource)
            resource.(Resource.PricePerSecond))
    end
  end.

(** The body of the loop over the dependencies. *)
Definition runner_dependency (salt : nat) (request : ExecutionRequest) (model : indexedRequest)
    (d : ActivityDependency) : runnerDependency :=
  let before := d.(ActivityDependency.DependsOnActivityID) in
  let after := d.(ActivityDependency.ActivityID) in
  let dataBytes := index_data
    request.(ExecutionRequest.Workflow).(WorkflowVersion.DataDependencies) in
  RunnerDependency before after (lookup_zero dataBytes (data_key before after))
    (transferPrice salt (links_of request)
       (lookup_zero model.(assignments) before).(PlanAssignment.ResourceID)
       (lookup_zero model.(assignments) after).(PlanAssignment.ResourceID)).

(** [buildRunnerInput], up to the rendering of the value as JSON. *)
Definition buildRunnerInput (salt : nat) (request : ExecutionRequest) (referenceFLOPS : float64)
    : result runnerInput :=
  let model := indexRequest salt request in
  let plan := request.(ExecutionRequest.Plan) in
  fold_err (λ tasks a, t ← runner_task model referenceFLOPS a; Ok (tasks ++ [t])) []
    request.(ExecutionRequest.Workflow).(WorkflowVersion.Activities) ≫= λ tasks,
  Ok (RunnerInput request.(ExecutionRequest.Run).(ExecutionRun.ID) plan.(SchedulePlan.ID)
        plan.(SchedulePlan.DeadlineSeconds) plan.(SchedulePlan.Budget) tasks
        (runner_dependency salt request model <$>
           request.(ExecutionRequest.Workflow).(WorkflowVersion.Dependencies))
        ((λ '(successor, predecessor), RunnerLaneOrder predecessor successor) <$>
           map_range salt model.(lanePrevious))).

(** ** [ActivityRuntime]: one activity against its simulation model *)
Definition runtime_start (cancelled : option error) (execution : ActivityExecutionContext)
    : result ActivityHandle :=
  let activity := execution.(ActivityExecutionContext.Activity) in
  let run := execution.(ActivityExecutionContext.Run) in
  match cancelled, activity.(Activity.Simulation) with
  | Some e, _ => Err e
  | None, None =>
    Err (errorf "activity %q has no simulation definition" [activity.(Activity.ID)])
  | None, Some simulation =>
    let duration := simulation.(ActivitySimulation.DurationSeconds) in
    if flt duration f0 then
      Err (errorf "activity %q simulation duration cannot be negative" [activity.(Activity.ID)])
    else Ok {|
      ActivityHandle.ID := sprintf "%s:%s:%d"
        [run.(ExecutionRun.ID); activity.(Activity.ID); itoa run.(ExecutionRun.Seed)];
      ActivityHandle.RunID := run.(ExecutionRun.ID);
      ActivityHandle.ActivityID := activity.(Activity.ID);
      ActivityHandle.ResourceID := execution.(ActivityExecutionContext.Resource).(Resource.ID);
      ActivityHandle.RuntimeID := execution.(ActivityExecutionContext.RuntimeID);
      ActivityHandle.ExternalID := "simulation";
      ActivityHandle.Status := HandleCompleted;
      ActivityHandle.Endpoints := [];
      ActivityHandle.StartedAt := f0;
      ActivityHandle.FinishedAt := duration;
      ActivityHandle.ExitCode := None;
      ActivityHandle.Failure := "";
      ActivityHandle.Log := "";
      ActivityHandle.Artifacts := None;
      ActivityHandle.Metadata :=
        {[ "model"%string := AnyString simulation.(ActivitySimulation.Model) ]} |}
  end.
End simulation.

(** The adapter the registry hands out. *)
Definition ActivityRuntime {W : Type} `{Cancellation W} : RuntimeAdapter W := {|
  Modes := [ExecutionModeSimulation];
  runtime_Start execution := let! cancelled := ctx_err in eret (runtime_start cancelled execution);
  runtime_Inspect handle := eret (Ok handle);
  runtime_Stop _ := eret (Ok tt)
|}.

(** ** What [resolveTransfers] computes *)
Section arrivals.
Context `{MapOrder}.
Variables (request : ExecutionRequest) (activity : Activity) (resource : Resource)
  (model : indexedRequest) (C : gmap string TaskExecution).
Abbreviation take := (receive request activity resource model C).
Abbreviation finish p := (lookup_zero C p).(TaskExecution.FinishedAt).

(** The data of predecessor [p] must be transferred. *)
Definition remote (p : string) : Prop :=
  (lookup_zero C p).(TaskExecution.AllocatedResourceID) ≠ resource.(Resource.ID) ∧
  0 < lookup_zero model.(dataBytes) (data_key p activity.(Activity.ID)).

(** The transfer of the data of [p]: it starts when [p] finishes and takes what
    a path of the network takes. *)
Definition carries (tr : DataTransfer) (p : string) : Prop :=
  tr.(DataTransfer.ProducerActivityID) = p ∧
  tr.(DataTransfer.ConsumerActivityID) = activity.(Activity.ID) ∧
  tr.(DataTransfer.Bytes) = lookup_zero model.(dataBytes) (data_key p activity.(Activity.ID)) ∧
  tr.(DataTransfer.StartedAt) = finish p ∧
  tr.(DataTransfer.FinishedAt) = fadd (finish p) tr.(DataTransfer.DurationSeconds) ∧
  ∃ salt, Network.resolveNetworkPath salt (links_of request)
    (lookup_zero C p).(TaskExecution.AllocatedResourceID) resource.(Resource.ID)
    tr.(DataTransfer.Bytes) = Some (tr.(DataTransfer.DurationSeconds), tr.(DataTransfer.Cost)).

(** One more predecessor: the time its data arrives, and its transfer if any. *)
Lemma receive_spec acc p acc' : take acc p = Ok acc' →
  ∃ readyAt, acc'.(dataReadyAt) = fmax acc.(dataReadyAt) readyAt ∧
    (¬ remote p ∧ readyAt = finish p ∧ acc'.(arrived) = acc.(arrived) ∨
     remote p ∧ ∃ tr, acc'.(arrived) = acc.(arrived) ++ [tr] ∧ carries tr p ∧
       readyAt = tr.(DataTransfer.FinishedAt)).
Proof.
  unfold receive, remote. destruct (negb _ && _) eqn:E.
  - rewrite andb_true_iff, negb_true_iff, bool_decide_eq_false, Z.ltb_lt in E.
    destruct (Network.resolveNetworkPath _ _ _ _ _) as [[d c]|] eqn:En; [|done].
    intros [= <-]. eexists. split; [done|]. right. split; [done|].
    eexists. split; [done|]. split; [|done]. unfold carries. simpl. split_and!; eauto.
  - intros [= <-]. exists (finish p). split; [done|]. left. split; [|done].
    intros [Hne Hb%Z.ltb_lt]. rewrite Hb, bool_decide_false in E by done. done.
Qed.

Lemma receive_error acc p e : take acc p = Err e →
  remote p ∧ e = errorf "no network link from %q to %q"
    [(lookup_zero C p).(TaskExecution.AllocatedResourceID); resource.(Resource.ID)] ∧
  ∃ salt, Network.resolveNetworkPath salt (links_of request)
    (lookup_zero C p).(TaskExecution.AllocatedResourceID) resource.(Resource.ID)
    (lookup_zero model.(dataBytes) (data_key p activity.(Activity.ID))) = None.
Proof.
  unfold receive, remote. destruct (negb _ && _) eqn:E; [|done].
  rewrite andb_true_iff, negb_true_iff, bool_decide_eq_false, Z.ltb_lt in E.
  destruct (Network.resolveNetworkPath _ _ _ _ _) as [[d c]|] eqn:En; [done|].
  intros [= <-]. eauto.
Qed.

(** All the data is there at [dataReadyAt], when no time is NaN. *)
Definition ready_after (t : float64) (T : list DataTransfer) (p : string) : Prop :=
  (¬ remote p ∧ fle (finish p) t = true) ∨
  (remote p ∧ ∃ tr, tr ∈ T ∧ carries tr p ∧ fle tr.(DataTransfer.FinishedAt) t = true).

Definition no_nan (ps : list string) (T : list DataTransfer) : Prop :=
  (∀ p, p ∈ ps → is_nan (finish p) = false) ∧
  (∀ tr, tr ∈ T → is_nan tr.(DataTransfer.FinishedAt) = false).

Lemma receive_all ps acc acc' :
  fold_err take acc ps = Ok acc' →
  acc.(arrived) `prefix_of` acc'.(arrived) ∧
  (is_nan acc.(dataReadyAt) = false → no_nan ps acc'.(arrived) →
   is_nan acc'.(dataReadyAt) = false ∧ fle acc.(dataReadyAt) acc'.(dataReadyAt) = true ∧
   ∀ p, p ∈ ps → ready_after acc'.(dataReadyAt) acc'.(arrived) p).
Proof.
  revert acc. induction ps as [|p ps IH]; intros acc; simpl.
  { intros [= <-]. split; [done|]. intros. split_and!; [done|by apply fle_refl|].
    by intros ? ?%elem_of_nil. }
  destruct (take acc p) as [acc1|e] eqn:E1; [simpl|done]. intros E2.
  destruct (IH acc1 E2) as [Hpre Hrest]. destruct (receive_spec _ _ _ E1) as (ra & Hra & Hcase).
  assert (acc.(arrived) `prefix_of` acc1.(arrived)) as Hpre1.
  { destruct Hcase as [(_ & _ & ->)|(_ & tr & -> & _)]; [done|by apply prefix_app_r]. }
  split; [by etrans|]. intros Hn [Hn1 Hn2].
  assert (∀ tr, tr ∈ acc1.(arrived) → tr ∈ acc'.(arrived)) as Hsub.
  { intros tr Htr. destruct Hpre as [k ->]. apply elem_of_app. by left. }
  assert (is_nan ra = false) as Hra'.
  { destruct Hcase as [(_ & -> & _)|(_ & tr & Ea & _ & ->)]; [apply Hn1; by left|].
    apply Hn2, Hsub. rewrite Ea. apply elem_of_app. right. by left. }
  destruct Hrest as (Hn' & Hle & Hall).
  { rewrite Hra. by apply fmax_not_nan. }
  { split; [|done]. intros q Hq. apply Hn1. by right. }
  rewrite Hra in Hle. split_and!; [done|eapply fle_trans, Hle; by apply fmax_le_l|].
  intros q [->|Hq]%elem_of_cons; [|by apply Hall].
  assert (fle ra acc'.(dataReadyAt) = true) as Hra2.
  { eapply fle_trans, Hle. by apply fmax_le_r. }
  destruct Hcase as [(Hl & -> & _)|(Hl & tr & Ea & Hc & ->)]; [by left|].
  right. split; [done|]. exists tr. split; [|done]. apply Hsub. rewrite Ea. apply elem_of_app. right. by left.
Qed.

Lemma receive_all_error ps acc e : fold_err take acc ps = Err e →
  ∃ p, p ∈ ps ∧ ∃ acc0, take acc0 p = Err e.
Proof.
  revert acc. induction ps as [|p ps IH]; intros acc; simpl; [done|].
  destruct (take acc p) as [acc1|e'] eqn:E1; simpl.
  - intros (q & Hq & ?)%IH. exists q. split; [by right|done].
  - intros [= ->]. exists p. split; [by left|eauto].
Qed.
End arrivals.

(** ** The schedule [simulate] builds *)
Section schedule.
Context `{MapOrder}.
Variables (request : ExecutionRequest) (model : indexedRequest).
Let activities := request.(ExecutionRequest.Workflow).(WorkflowVersion.Activities).

Definition place (a : Activity) : Resource :=
  lookup_zero model.(resources)
    (lookup_zero model.(assignments) a.(Activity.ID)).(PlanAssignment.ResourceID).
Abbreviation preds a := (lookup_zero model.(predecessors) a.(Activity.ID)).
Abbreviation prev a := (lookup_zero model.(lanePrevious) a.(Activity.ID)).

Lemma due_spec C a : due model C a = true ↔
  C !! a.(Activity.ID) = None ∧ (∀ p, p ∈ preds a → is_Some (C !! p)) ∧
  (prev a ≠ "" → is_Some (C !! prev a)).
Proof.
  unfold due, allCompleted.
  rewrite !andb_true_iff, negb_true_iff, bool_decide_eq_false, <- eq_None_not_Some, orb_true_iff,
    !bool_decide_eq_true, forallb_forall.
  setoid_rewrite bool_decide_eq_true. setoid_rewrite <- list_elem_of_In.
  split.
  - intros ((? & ?) & [?|?]); naive_solver.
  - intros (? & ? & Hp). destruct (decide (prev a = "")); naive_solver.
Qed.

(** Why [task] is in the schedule: [activity] was due after [C0], which is part
    of the schedule, and its data arrived by transfers of the schedule. *)
Definition explained (rank : string → nat) (C : gmap string TaskExecution)
    (T : list DataTransfer) (id : string) (task : TaskExecution) : Prop :=
  ∃ activity data C0 salt, activity ∈ activities ∧ activity.(Activity.ID) = id ∧ C0 ⊆ C ∧
    due model C0 activity = true ∧
    resolveTransfers salt request activity (place activity) model C0 = Ok data ∧
    task = execution_of request model C0 activity data ∧
    (∀ tr, tr ∈ data.(arrived) → tr ∈ T) ∧
    (∀ x, is_Some (C0 !! x) → (rank x < rank id)%nat).

Definition sim_inv (C : gmap string TaskExecution) (T : list DataTransfer) : Prop :=
  ∃ rank : string → nat, (∀ id, is_Some (C !! id) → (rank id < size C)%nat) ∧
    ∀ id task, C !! id = Some task → explained rank C T id task.

Lemma sim_inv_step s a s' : a ∈ activities → simulate_activity request model s a = Ok s' →
  sim_inv s.(completed) s.(transfers) →
  sim_inv s'.(completed) s'.(transfers) ∧
  (due model s.(completed) a = false ∧ s' = s ∨
   s'.(progress) = true ∧ (size s.(completed) < size s'.(completed))%nat).
Proof.
  intros Ha. unfold simulate_activity. destruct (due _ _ _) eqn:Ed; [|intros [= <-]; auto].
  fold (place a). destruct (resolveTransfers _ _ _ _ _ _) as [data|e] eqn:Er; [|done].
  intros [= <-] (rank & Hr & Hex). simpl.
  set (C := s.(completed)) in *. set (id := a.(Activity.ID)).
  pose proof (proj1 (proj1 (due_spec C a) Ed)) as Hnew. fold id in Hnew.
  set (C' := <[id := _]> C).
  assert (size C' = S (size C)) as Hsz by (by apply map_size_insert_None).
  assert (C ⊆ C') as HC by (by apply insert_subseteq).
  split; [|right; split; [done|lia]].
  exists (λ x, if decide (x = id) then size C else rank x). split.
  - intros x Hx. rewrite Hsz. destruct (decide (x = id)) as [->|Hne]; [lia|].
    unfold C' in Hx. rewrite lookup_insert_ne in Hx by done. specialize (Hr x Hx). lia.
  - intros x task. unfold C' at 1. destruct (decide (x = id)) as [->|Hne].
    + rewrite lookup_insert_eq. intros [= <-]. exists a, data, C, s.(scans).
      split_and!; try done.
      * intros tr Htr. apply elem_of_app. by right.
      * intros y Hy. destruct (decide (id = id)) as [_|?]; [|done].
        destruct (decide (y = id)) as [->|_]; [rewrite Hnew in Hy; by destruct Hy|by apply Hr].
    + rewrite lookup_insert_ne by done.
      intros (b & d & C0 & salt & H1 & H2 & H3 & H4 & H5 & H6 & H7 & H8)%Hex.
      exists b, d, C0, salt. split_and!; try done; [by etrans| |].
      * intros tr ?%H7. apply elem_of_app. by left.
      * intros y Hy. destruct (decide (x = id)) as [|_]; [done|].
        destruct (decide (y = id)) as [->|_]; [|by apply H8].
        exfalso. destruct Hy as [t Ht]. rewrite (lookup_weaken _ _ _ _ Ht H3) in Hnew. done.
Qed.

Lemma sim_inv_round l s s' : (∀ a, a ∈ l → a ∈ activities) →
  fold_err (simulate_activity request model) s l = Ok s' →
  sim_inv s.(completed) s.(transfers) →
  sim_inv s'.(completed) s'.(transfers) ∧ (size s.(completed) ≤ size s'.(completed))%nat ∧
  (s'.(progress) = true → s.(progress) = true ∨ (size s.(completed) < size s'.(completed))%nat) ∧
  (s'.(progress) = false → s' = s ∧ ∀ a, a ∈ l → due model s.(completed) a = false).
Proof.
  revert s. induction l as [|a l IH]; intros s Hl; simpl.
  { intros [= <-] Hs. split_and!; [done|lia|auto|]. intros _. split; [done|]. by intros ? ?%elem_of_nil. }
  destruct (simulate_activity request model s a) as [s1|e] eqn:E1; [simpl|done]. intros E2 Hs.
  destruct (sim_inv_step s a s1) as [Hs1 Hcase]; [apply Hl; by left|done|done|].
  destruct (IH s1) as (Hs' & Hsz & Hp & Hn); [intros; apply Hl; by right|done|done|].
  destruct Hcase as [[Hd ->]|[Hp1 Hsz1]].
  - split_and!; [done..|]. intros [-> Hall]%Hn. split; [done|].
    intros b [->|?]%elem_of_cons; auto.
  - split_and!; [done|lia|intros; right; lia|]. intros Hf. destruct (Hn Hf) as [-> _]. congruence.
Qed.

Lemma sim_round_error l s e : (∀ a, a ∈ l → a ∈ activities) →
  fold_err (simulate_activity request model) s l = Err e →
  sim_inv s.(completed) s.(transfers) →
  ∃ a C T salt, a ∈ activities ∧ sim_inv C T ∧ due model C a = true ∧
    resolveTransfers salt request a (place a) model C = Err e.
Proof.
  revert s. induction l as [|a l IH]; intros s Hl; simpl; [done|].
  destruct (simulate_activity request model s a) as [s1|e'] eqn:E1; simpl.
  - intros E2 Hs. destruct (sim_inv_step s a s1) as [Hs1 _]; [apply Hl; by left|done|done|].
    apply (IH s1); [intros; apply Hl; by right|done|done].
  - intros [= ->] Hs. unfold simulate_activity in E1. destruct (due _ _ _) eqn:Ed; [|done].
    fold (place a) in E1. destruct (resolveTransfers _ _ _ _ _ _) as [d|e'] eqn:Er; [done|].
    simpl in E1. injection E1 as ->.
    exists a, s.(completed), s.(transfers), s.(scans). split_and!; try done. apply Hl. by left.
Qed.

Abbreviation cycle_error :=
  (errorf "plan cannot progress: dependency and resource orders form a cycle" []).

(** What an answer of [simulate] means. *)
Definition sim_post (r : result (gmap string TaskExecution * list DataTransfer)) : Prop :=
  match r with
  | Ok (C, T) => sim_inv C T ∧ (length activities ≤ size C)%nat
  | Err e =>
    (e = cycle_error ∧ ∃ C T, sim_inv C T ∧ (size C < length activities)%nat ∧
       ∀ a, a ∈ activities → due model C a = false) ∨
    (∃ a C T salt, a ∈ activities ∧ sim_inv C T ∧ due model C a = true ∧
       resolveTransfers salt request a (place a) model C = Err e)
  end.

Lemma simulate_rounds_spec fuel s :
  sim_inv s.(completed) s.(transfers) → (length activities < fuel + size s.(completed))%nat →
  ∃ r, simulate_rounds fuel request model s = Some r ∧ sim_post r.
Proof.
  revert s. induction fuel as [|fuel IH]; intros s Hs Hf; cbn [simulate_rounds]; fold activities;
    destruct (Nat.ltb_spec (size s.(completed)) (length activities)) as [Hlt|Hge]; cbn [negb].
  1: lia.
  1,3: eexists; by split.
  destruct (fold_err _ _ activities) as [s'|e] eqn:E.
  - destruct (sim_inv_round activities _ _ ltac:(auto) E Hs) as (Hs' & Hsz & Hp & Hn). simpl in *.
    destruct s'.(progress).
    + apply IH; [done|]. destruct (Hp eq_refl); [done|lia].
    + eexists. split; [done|]. left. split; [done|]. destruct (Hn eq_refl) as [-> Hd].
      exists s.(completed), s.(transfers). done.
  - eexists. split; [done|]. right. by apply (sim_round_error activities _ _ ltac:(auto) E).
Qed.

Lemma simulate_spec salt : ∃ r, simulate salt request model = Some r ∧ sim_post r.
Proof.
  apply simulate_rounds_spec; simpl.
  - exists (λ _, 0%nat). split; [intros id|intros id task]; rewrite lookup_empty; [by intros [? ?]|done].
  - fold activities. lia.
Qed.
End schedule.

(** ** When a schedule exists *)
Lemma nodup_of_size (l : list string) :
  (length l ≤ size (list_to_set l : gset string))%nat → NoDup l.
Proof.
  induction l as [|x l IH]; [constructor|]. rewrite list_to_set_cons. simpl. intros Hsz.
  pose proof (Network.list_to_set_size_le l) as Hle.
  destruct (decide (x ∈ l)) as [Hin|Hn].
  - rewrite (subseteq_union_1_L {[x]}) in Hsz; [lia|].
    intros y ->%elem_of_singleton. by apply elem_of_list_to_set.
  - rewrite size_union in Hsz by (rewrite disjoint_singleton_l, elem_of_list_to_set; done).
    rewrite size_singleton in Hsz. constructor; [done|]. apply IH. lia.
Qed.

(** The activities are distinct and some rank increases strictly along every
    dependency and along every lane: the two orders form no cycle together. *)
Definition orderable (activities : list Activity) (model : indexedRequest) : Prop :=
  NoDup (Activity.ID <$> activities) ∧
  ∃ rank : string → nat, ∀ a, a ∈ activities →
    (∀ p, p ∈ lookup_zero model.(predecessors) a.(Activity.ID) →
       p ∈ Activity.ID <$> activities ∧ (rank p < rank a.(Activity.ID))%nat) ∧
    let previous := lookup_zero model.(lanePrevious) a.(Activity.ID) in
    (previous ≠ "" →
       previous ∈ Activity.ID <$> activities ∧ (rank previous < rank a.(Activity.ID))%nat).

Section order.
Context `{MapOrder}.
Variables (request : ExecutionRequest) (model : indexedRequest).
Let activities := request.(ExecutionRequest.Workflow).(WorkflowVersion.Activities).

Lemma sim_dom C T : sim_inv request model C T → dom C ⊆ list_to_set (Activity.ID <$> activities).
Proof.
  intros (rank & _ & Hex) id [task Ht]%elem_of_dom.
  destruct (Hex id task Ht) as (a & _ & _ & _ & Ha & <- & _).
  by apply elem_of_list_to_set, list_elem_of_fmap_2.
Qed.

Lemma sim_complete C T : sim_inv request model C T → (length activities ≤ size C)%nat →
  NoDup (Activity.ID <$> activities) ∧ ∀ a, a ∈ activities → is_Some (C !! a.(Activity.ID)).
Proof.
  intros Hs Hsz. pose proof (sim_dom C T Hs) as Hd.
  pose proof (subseteq_size _ _ Hd) as Hsz'. rewrite size_dom in Hsz'.
  assert (NoDup (Activity.ID <$> activities)) as Hnd.
  { apply nodup_of_size. rewrite length_fmap. lia. }
  split; [done|]. intros a Ha. apply elem_of_dom.
  pose proof (Network.list_to_set_size_le (Activity.ID <$> activities)) as Hle.
  rewrite length_fmap in Hle.
  rewrite (set_subseteq_size_eq _ _ Hd) by (rewrite size_dom; lia).
  by apply elem_of_list_to_set, list_elem_of_fmap_2.
Qed.

Lemma simulated_orderable C T : sim_inv request model C T → (length activities ≤ size C)%nat →
  orderable activities model.
Proof.
  intros Hs Hsz. destruct (sim_complete C T Hs Hsz) as [Hnd Hall]. split; [done|].
  pose proof (sim_dom C T Hs) as Hd. destruct Hs as (rank & _ & Hex). exists rank.
  intros a Ha. destruct (Hall a Ha) as [task Ht].
  destruct (Hex _ _ Ht) as (b & data & C0 & salt & _ & Eb & HC & Hdue & _ & _ & _ & Hr).
  apply due_spec in Hdue as (_ & Hp & Hl). rewrite Eb in Hp, Hl.
  assert (∀ x, is_Some (C0 !! x) →
    x ∈ Activity.ID <$> activities ∧ (rank x < rank a.(Activity.ID))%nat) as Hin.
  { intros x Hx. split; [|by apply Hr]. apply (elem_of_list_to_set (C := gset string)), Hd.
    destruct Hx as [t Hx]. apply elem_of_dom. exists t. by eapply lookup_weaken. }
  split; [by eauto|]. intros previous Hne. apply Hin, Hl, Hne.
Qed.

Lemma orderable_progress C T : sim_inv request model C T → (size C < length activities)%nat →
  orderable activities model → ¬ (∀ a, a ∈ activities → due model C a = false).
Proof.
  intros Hs Hsz [Hnd [rank Hrank]] Hdue.
  assert (∀ n a, a ∈ activities → (rank a.(Activity.ID) < n)%nat → is_Some (C !! a.(Activity.ID)))
    as Hdone.
  { induction n as [|n IH]; intros a Ha Hn; [lia|].
    destruct (C !! a.(Activity.ID)) as [t|] eqn:E; [eauto|]. exfalso.
    destruct (Hrank a Ha) as [Hp Hl].
    assert (∀ x, x ∈ Activity.ID <$> activities → (rank x < rank a.(Activity.ID))%nat →
      is_Some (C !! x)) as Hsmall.
    { intros x (b & -> & Hb)%list_elem_of_fmap Hx. apply IH; [done|lia]. }
    assert (due model C a = true) as Hd; [|rewrite Hdue in Hd; done].
    apply due_spec. split_and!; [done|..].
    - intros p [? ?]%Hp. by apply Hsmall.
    - intros [? ?]%Hl. by apply Hsmall. }
  assert (list_to_set (Activity.ID <$> activities) ⊆ dom C) as Hsub%subseteq_size.
  { intros x Hx. apply elem_of_list_to_set in Hx. apply list_elem_of_fmap in Hx as (a & -> & Ha).
    apply elem_of_dom, (Hdone (S (rank a.(Activity.ID)))); [done|lia]. }
  rewrite size_list_to_set, length_fmap, size_dom in Hsub by done. lia.
Qed.

(** The inputs of a task are there when it starts. *)
Lemma sim_causal C T id task : sim_inv request model C T → C !! id = Some task →
  (∀ x t, C !! x = Some t → is_nan t.(TaskExecution.FinishedAt) = false) →
  (∀ tr, tr ∈ T → is_nan tr.(DataTransfer.FinishedAt) = false) →
  ∃ a, a ∈ activities ∧ a.(Activity.ID) = id ∧
    task.(TaskExecution.AllocatedResourceID) = (place model a).(Resource.ID) ∧
    (∀ p, p ∈ lookup_zero model.(predecessors) id → is_Some (C !! p) ∧
       ready_after request a (place model a) model C task.(TaskExecution.StartedAt) T p) ∧
    (let previous := lookup_zero model.(lanePrevious) id in previous ≠ "" →
       ∃ t, C !! previous = Some t ∧
         fle t.(TaskExecution.FinishedAt) task.(TaskExecution.StartedAt) = true) ∧
    task.(TaskExecution.FinishedAt) =
      fadd (fadd task.(TaskExecution.StartedAt) task.(TaskExecution.RuntimeSeconds))
        task.(TaskExecution.OverheadSeconds).
Proof.
  intros (rank & _ & Hex) Ht Hn HnT.
  destruct (Hex _ _ Ht) as (a & data & C0 & salt & Ha & <- & HC & Hdue & Hres & -> & HT & _).
  apply due_spec in Hdue as (_ & Hp & Hl).
  assert (∀ x, is_Some (C0 !! x) → lookup_zero C0 x = lookup_zero C x ∧ is_Some (C !! x)) as Hsame.
  { intros x [t Hx]. unfold lookup_zero. rewrite Hx, (lookup_weaken _ _ _ _ Hx HC). eauto. }
  assert (∀ x, is_Some (C !! x) → is_nan (lookup_zero C x).(TaskExecution.FinishedAt) = false) as Hn'.
  { intros x [t Hx]. unfold lookup_zero. rewrite Hx. by eapply Hn. }
  destruct (receive_all request a (place model a) model C0 _ _ _ Hres) as [_ Hrec].
  destruct Hrec as (Hnr & _ & Hready).
  { done. }
  { split; [|auto]. intros p Hin. destruct (Hsame p (Hp p Hin)) as [-> ?]. by apply Hn'. }
  set (resourceReadyAt := if bool_decide (lookup_zero (lanePrevious model) (Activity.ID a) = "")
    then f0 else (lookup_zero C0 (lookup_zero (lanePrevious model) (Activity.ID a)))
      .(TaskExecution.FinishedAt)).
  assert (is_nan resourceReadyAt = false) as Hnres.
  { unfold resourceReadyAt. case_bool_decide as Hb; [done|].
    destruct (Hsame _ (Hl Hb)) as [-> ?]. by apply Hn'. }
  exists a. split_and!; [done|done|done| | |done]; cbn [TaskExecution.StartedAt execution_of];
    fold resourceReadyAt.
  - intros p Hin. destruct (Hsame p (Hp p Hin)) as [Ep HCp]. split; [done|].
    pose proof (fmax_le_l (dataReadyAt data) resourceReadyAt Hnr Hnres) as Hle.
    destruct (Hready p Hin) as [[Hrem Hf]|(Hrem & tr & Htr & Hc & Hf)];
      unfold ready_after, remote, carries in *; rewrite <- Ep.
    + left. split; [done|]. by eapply fle_trans.
    + right. split; [done|]. exists tr. split_and!; [by apply HT|apply Hc..|by eapply fle_trans].
  - intros Hne. destruct (Hsame _ (Hl Hne)) as [Ep [t Hprev]]. exists t. split; [done|].
    replace t.(TaskExecution.FinishedAt) with resourceReadyAt; [by apply fmax_le_r|].
    unfold resourceReadyAt. rewrite bool_decide_false by done. rewrite Ep. unfold lookup_zero at 1.
    by rewrite Hprev.
Qed.
End order.

(** ** Active costs

    The reference: a resource is billed once for the window from the first start
    to the last finish on it, and a task's share of the bill is its share of the
    run time, or an equal part when no run time was recorded. *)
Definition on_resource (tasks : list TaskExecution) (r : string) : list TaskExecution :=
  base.filter (λ t, t.(TaskExecution.AllocatedResourceID) = r) tasks.

Definition active_window (own : list TaskExecution) : float64 :=
  match own with
  | [] => f0
  | first :: _ =>
    fmax f0 (fsub
      (foldl (λ f t, fmax f t.(TaskExecution.FinishedAt)) first.(TaskExecution.FinishedAt) own)
      (foldl (λ s t, fmin s t.(TaskExecution.StartedAt)) first.(TaskExecution.StartedAt) own))
  end.

Definition active_share (own : list TaskExecution) (t : TaskExecution) : float64 :=
  let runtimeTotal := foldl (λ r t, fadd r t.(TaskExecution.RuntimeSeconds)) f0 own in
  if flt f0 runtimeTotal then fdiv t.(TaskExecution.RuntimeSeconds) runtimeTotal
  else fdiv (float_of_Z 1) (float_of_Z (Z.of_nat (length own))).

Definition active_cost (prices : gmap string float64) (tasks : list TaskExecution)
    (t : TaskExecution) : float64 :=
  let r := t.(TaskExecution.AllocatedResourceID) in
  let price := lookup_zero prices r in
  if fle price f0 then f0
  else fmul (fmul (active_window (on_resource tasks r)) price)
         (active_share (on_resource tasks r) t).

Definition price_list (resources : list Resource) : gmap string float64 :=
  foldl (λ m r, <[r.(Resource.ID) := r.(Resource.PricePerSecond)]> m) ∅ resources.

Section costs.
Variable prices : gmap string float64.

Abbreviation cost c t := (t <| TaskExecution.Cost := c |>).
Definition positions (tasks : list TaskExecution) (r : string) : list nat :=
  base.filter (λ i, (task_at tasks i).(TaskExecution.AllocatedResourceID) = r)
    (seq 0 (length tasks)).

Lemma task_at_app_l tasks t i : (i < length tasks)%nat →
  task_at (tasks ++ [t]) i = task_at tasks i.
Proof. intros Hi. unfold task_at. by rewrite lookup_app_l. Qed.

Lemma task_at_snoc tasks t : task_at (tasks ++ [t]) (length tasks) = t.
Proof. unfold task_at. by rewrite (list_lookup_middle tasks [] t). Qed.

Lemma positions_snoc tasks t r : positions (tasks ++ [t]) r =
  positions tasks r ++ (if decide (t.(TaskExecution.AllocatedResourceID) = r)
                        then [length tasks] else []).
Proof.
  unfold positions. rewrite length_app, seq_app, filter_app. f_equal.
  - assert (∀ l : list nat, (∀ i, i ∈ l → (i < length tasks)%nat) →
      base.filter (λ i, (task_at (tasks ++ [t]) i).(TaskExecution.AllocatedResourceID) = r) l =
      base.filter (λ i, (task_at tasks i).(TaskExecution.AllocatedResourceID) = r) l) as Hf.
    { induction l as [|i l IH]; intros Hl; [done|].
      rewrite !filter_cons, task_at_app_l by (apply Hl; by left).
      rewrite IH; [done|]. intros; apply Hl; by right. }
    apply Hf. intros i Hi%elem_of_seq. lia.
  - simpl. by rewrite filter_cons, task_at_snoc.
Qed.

Lemma positions_tasks tasks r : task_at tasks <$> positions tasks r = on_resource tasks r.
Proof.
  unfold on_resource. induction tasks as [|t tasks IH] using rev_ind; [done|].
  rewrite positions_snoc, fmap_app, filter_app, <- IH, filter_cons. f_equal.
  - apply list_fmap_ext. intros i x Hx. apply task_at_app_l.
    apply list_elem_of_lookup_2, list_elem_of_filter in Hx as [_ Hx%elem_of_seq]. lia.
  - case_decide; simpl; [|done]. by rewrite task_at_snoc.
Qed.

Lemma index_resources_spec tasks r :
  lookup_zero (index_resources tasks) r = positions tasks r ∧
  (is_Some (index_resources tasks !! r) ↔ ∃ t, t ∈ tasks ∧ t.(TaskExecution.AllocatedResourceID) = r).
Proof.
  unfold index_resources. induction tasks as [|t tasks [IH1 IH2]] using rev_ind.
  { split; [done|]. split; [by intros [? ?]|]. by intros (? & ?%elem_of_nil & _). }
  rewrite imap_app, foldl_app, positions_snoc. simpl. rewrite Nat.add_0_r.
  unfold lookup_zero in *. setoid_rewrite elem_of_app. setoid_rewrite list_elem_of_singleton.
  case_decide as E.
  - subst r. rewrite lookup_insert_eq. simpl. rewrite IH1. split; [done|]. split; eauto.
  - rewrite lookup_insert_ne by done. rewrite IH1, app_nil_r, IH2. split; [done|].
    naive_solver.
Qed.

(** The loop over the indexes of one resource. *)
Lemma alter_costs (k : float64 → float64) idx ts j :
  foldl (λ ts i, alter (λ t, cost (k (task_at ts i).(TaskExecution.RuntimeSeconds)) t) i ts)
    ts idx !! j =
  (λ t, if decide (j ∈ idx) then cost (k t.(TaskExecution.RuntimeSeconds)) t else t) <$> ts !! j.
Proof.
  induction idx as [|i idx IH] using rev_ind.
  { simpl. destruct (ts !! j) as [t|]; simpl; f_equal. }
  rewrite foldl_snoc. set (prev := foldl _ ts idx) in IH |- *. destruct (decide (i = j)) as [->|Hne].
  - rewrite list_lookup_alter_eq. unfold task_at. rewrite IH. destruct (ts !! j) as [t|]; [simpl|done].
    rewrite (decide_True (P := j ∈ idx ++ [j])) by (apply elem_of_app; right; by left).
    by destruct (decide (j ∈ idx)).
  - rewrite list_lookup_alter_ne, IH by done. destruct (ts !! j) as [t|]; [simpl|done].
    destruct (decide (j ∈ idx)) as [Hin|Hn].
    + by rewrite decide_True by (apply elem_of_app; by left).
    + rewrite decide_False; [done|]. by intros [?|?%list_elem_of_singleton]%elem_of_app.
Qed.

Lemma positions_elem tasks r j :
  j ∈ positions tasks r ↔ ∃ t, tasks !! j = Some t ∧ t.(TaskExecution.AllocatedResourceID) = r.
Proof.
  unfold positions, task_at. rewrite list_elem_of_filter, elem_of_seq. split.
  - intros [Hr [_ Hj]]. destruct (lookup_lt_is_Some_2 tasks j Hj) as [t Ht].
    rewrite Ht in Hr. eauto.
  - intros (t & Ht & Hr). rewrite Ht. apply lookup_lt_Some in Ht. split; [done|lia].
Qed.

Section recosted.
Variables (tasks : list TaskExecution) (c : TaskExecution → float64).
Definition recosted : list TaskExecution := (λ t, cost (c t) t) <$> tasks.

(** Costs are all that differs. *)
Lemma foldl_recosted {A B} (f : A → B → A) (field : TaskExecution → B) a idx :
  (∀ x t, field (cost x t) = field t) →
  foldl (λ a i, f a (field (task_at recosted i))) a idx =
  foldl (λ a t, f a (field t)) a (task_at tasks <$> idx).
Proof.
  intros Hf. revert a. induction idx as [|i idx IH]; intros a; [done|]. simpl.
  rewrite IH. do 2 f_equal. unfold task_at, recosted. rewrite list_lookup_fmap.
  destruct (tasks !! i); [apply Hf|done].
Qed.

Lemma charge_spec r :
  (fle (lookup_zero prices r) f0 = true →
   ∀ t, t.(TaskExecution.AllocatedResourceID) = r → c t = f0) →
  charge prices recosted (r, positions tasks r) =
  (λ t, cost (if decide (t.(TaskExecution.AllocatedResourceID) = r)
              then active_cost prices tasks t else c t) t) <$> tasks.
Proof.
  intros Hfree. pose proof (positions_tasks tasks r) as Hown. pose proof (positions_elem tasks r) as Hin.
  unfold charge. destruct (positions tasks r) as [|first idx] eqn:Epos.
  { apply list_fmap_ext. intros j t Hj. rewrite decide_False; [done|]. intros Hr.
    apply (elem_of_nil j), Hin. eauto. }
  rewrite <- Epos in Hin, Hown |- *. destruct (fle (lookup_zero prices r) f0) eqn:Ep.
  { apply list_fmap_ext. intros j t Hj. case_decide as Hr; [|done].
    unfold active_cost. rewrite Hr, Ep. by rewrite (Hfree eq_refl t Hr). }
  rewrite !(foldl_recosted _ TaskExecution.StartedAt), !(foldl_recosted _ TaskExecution.FinishedAt),
    !(foldl_recosted _ TaskExecution.RuntimeSeconds) by done. rewrite Hown.
  assert (length (positions tasks r) = length (on_resource tasks r)) as ->
    by (by rewrite <- Hown, length_fmap).
  assert (∃ t own, on_resource tasks r = t :: own ∧ t = task_at tasks first) as (t0 & own & Eown & Et0).
  { rewrite <- Hown, Epos. simpl. eauto. }
  assert (∀ (field : TaskExecution → float64), (∀ x t, field (cost x t) = field t) →
    field (task_at recosted first) = field t0) as Hfirst.
  { intros field Hf. rewrite Et0. unfold task_at, recosted. rewrite list_lookup_fmap.
    destruct (tasks !! first); [apply Hf|done]. }
  rewrite (Hfirst TaskExecution.StartedAt), (Hfirst TaskExecution.FinishedAt) by done.
  apply list_eq. intros j.
  set (runtimeTotal := foldl _ f0 (on_resource tasks r)). set (total := fmul _ _).
  rewrite (alter_costs (λ x, fmul total (if flt f0 runtimeTotal then fdiv x runtimeTotal else _))).
  unfold recosted. rewrite !list_lookup_fmap. destruct (tasks !! j) as [t|] eqn:Ej; [simpl|done].
  f_equal. destruct (decide (t.(TaskExecution.AllocatedResourceID) = r)) as [Hr|Hr].
  - rewrite decide_True by (apply Hin; eauto). simpl.
    enough (active_cost prices tasks t = fmul total (active_share (on_resource tasks r) t)) as -> by done.
    unfold active_cost, total, active_window. rewrite Hr, Ep, Eown. done.
  - rewrite decide_False; [done|]. rewrite Hin. intros (t' & Et & ?). congruence.
Qed.
End recosted.

#[local] Arguments charge : simpl never.

Lemma charge_all tasks K :
  foldl (charge prices) (recosted tasks (λ _, f0)) ((λ r, (r, positions tasks r)) <$> K) =
  recosted tasks (λ t, if decide (t.(TaskExecution.AllocatedResourceID) ∈ K)
                       then active_cost prices tasks t else f0).
Proof.
  induction K as [|r K IH] using rev_ind.
  { apply list_fmap_ext. intros j t _. rewrite decide_False; [done|]. apply not_elem_of_nil. }
  rewrite fmap_app, foldl_app, IH. simpl. rewrite charge_spec.
  - apply list_fmap_ext. intros j t _. set (x := t.(TaskExecution.AllocatedResourceID)).
    assert (x ∈ K ++ [r] ↔ x ∈ K ∨ x = r) as Hiff by (by rewrite elem_of_app, list_elem_of_singleton).
    destruct (decide (x = r)); [by rewrite (decide_True (P := x ∈ K ++ [r])) by tauto|].
    destruct (decide (x ∈ K)); [by rewrite decide_True by tauto|by rewrite decide_False by tauto].
  - intros Ep t Hr. case_decide; [|done]. unfold active_cost. by rewrite Hr, Ep.
Qed.
End costs.

Lemma active_costs_spec `{MapOrder} salt tasks resources :
  applyResourceActiveCosts salt tasks resources =
  recosted tasks (active_cost (price_list resources) tasks).
Proof.
  unfold applyResourceActiveCosts. fold (price_list resources).
  set (K := fst <$> map_range salt (index_resources tasks)).
  destruct (Supervisor.map_range_keys salt (index_resources tasks)) as [_ Hk].
  assert (map_range salt (index_resources tasks) = (λ r, (r, positions tasks r)) <$> K) as ->.
  { unfold K. rewrite <- list_fmap_compose. rewrite <- (list_fmap_id (map_range _ _)) at 1.
    apply list_fmap_ext. intros i [r idx] Hi. apply list_elem_of_lookup_2, Hk in Hi. simpl.
    f_equal. destruct (index_resources_spec tasks r) as [<- _]. unfold lookup_zero. by rewrite Hi. }
  change ((λ t, t <| TaskExecution.Cost := f0 |>) <$> tasks) with (recosted tasks (λ _, f0)). rewrite charge_all.
  apply list_fmap_ext. intros i t Hi. rewrite decide_True; [done|].
  assert (is_Some (index_resources tasks !! t.(TaskExecution.AllocatedResourceID))) as [idx Hidx].
  { apply index_resources_spec. exists t. split; [by eapply list_elem_of_lookup_2|done]. }
  apply list_elem_of_fmap. exists (t.(TaskExecution.AllocatedResourceID), idx). split; [done|].
  by apply Hk.
Qed.

(** ** The metrics of a trace *)
Lemma makespan_spec tasks m :
  is_nan m.(ExecutionMetrics.MakespanSeconds) = false →
  (∀ t, t ∈ tasks → is_nan t.(TaskExecution.FinishedAt) = false) →
  let m' := foldl add_task m tasks in
  m'.(ExecutionMetrics.Feasible) = m.(ExecutionMetrics.Feasible) ∧
  is_nan m'.(ExecutionMetrics.MakespanSeconds) = false ∧
  fle m.(ExecutionMetrics.MakespanSeconds) m'.(ExecutionMetrics.MakespanSeconds) = true ∧
  (∀ t, t ∈ tasks → fle t.(TaskExecution.FinishedAt) m'.(ExecutionMetrics.MakespanSeconds) = true) ∧
  (m'.(ExecutionMetrics.MakespanSeconds) = m.(ExecutionMetrics.MakespanSeconds) ∨
   ∃ t, t ∈ tasks ∧ m'.(ExecutionMetrics.MakespanSeconds) = t.(TaskExecution.FinishedAt)).
Proof.
  revert m. induction tasks as [|t tasks IH]; intros m Hm Hn; simpl.
  { split_and!; [done..|by apply fle_refl|by intros ? ?%elem_of_nil|by left]. }
  assert (is_nan t.(TaskExecution.FinishedAt) = false) as Ht by (apply Hn; by left).
  destruct (IH (add_task m t)) as (Hf & Hm' & Hle & Hall & Hex).
  { by apply fmax_not_nan. }
  { intros; apply Hn; by right. }
  simpl in *. split_and!; [done|done|eapply fle_trans, Hle; by apply fmax_le_l| |].
  - intros u [->|Hu]%elem_of_cons; [|by apply Hall]. eapply fle_trans, Hle. by apply fmax_le_r.
  - destruct Hex as [->|(u & Hu & ->)]; [|right; exists u; split; [by right|done]].
    destruct (fmax_choice (ExecutionMetrics.MakespanSeconds m) (TaskExecution.FinishedAt t)) as [->| ->];
      [by left|]. right. exists t. split; [by left|done].
Qed.

(** Adding the transfers and the verdict changes the cost and the verdict only. *)
Lemma metrics_spec `{MapOrder} salt request C T :
  let trace := buildTrace salt request C T in
  let m := trace.(ExecutionTrace.Executed) in
  let m0 := foldl add_task ((zero : ExecutionMetrics) <| ExecutionMetrics.Feasible := true |>)
              trace.(ExecutionTrace.Tasks) in
  let plan := request.(ExecutionRequest.Plan) in
  m.(ExecutionMetrics.MakespanSeconds) = m0.(ExecutionMetrics.MakespanSeconds) ∧
  (m.(ExecutionMetrics.Feasible) = false ↔ m0.(ExecutionMetrics.Feasible) = false ∨
   (flt f0 plan.(SchedulePlan.DeadlineSeconds) = true ∧
    flt plan.(SchedulePlan.DeadlineSeconds) m.(ExecutionMetrics.MakespanSeconds) = true) ∨
   (flt f0 plan.(SchedulePlan.Budget) = true ∧
    flt plan.(SchedulePlan.Budget) m.(ExecutionMetrics.Cost) = true)).
Proof.
  intros trace m m0 plan. unfold m, trace, buildTrace. cbn [ExecutionTrace.Executed].
  fold (buildTrace salt request C T). fold plan.
  change (applyResourceActiveCosts salt _ _) with trace.(ExecutionTrace.Tasks). fold m0.
  set (m1 := foldl (λ m t, _) m0 T).
  assert (m1.(ExecutionMetrics.MakespanSeconds) = m0.(ExecutionMetrics.MakespanSeconds) ∧
    m1.(ExecutionMetrics.Feasible) = m0.(ExecutionMetrics.Feasible)) as [Hm1 Hf1].
  { unfold m1. clear. generalize m0. induction T as [|t T IH]; intros m; [done|].
    destruct (IH (m <| ExecutionMetrics.Cost :=
      fadd m.(ExecutionMetrics.Cost) t.(DataTransfer.Cost) |>)) as [H1 H2]. simpl. auto. }
  clearbody m1. rewrite <- Hm1, <- Hf1. clear.
  destruct (flt f0 plan.(SchedulePlan.DeadlineSeconds)) eqn:E1, (flt f0 plan.(SchedulePlan.Budget)) eqn:E2,
    (flt plan.(SchedulePlan.DeadlineSeconds) m1.(ExecutionMetrics.MakespanSeconds)) eqn:E3,
    (flt plan.(SchedulePlan.Budget) m1.(ExecutionMetrics.Cost)) eqn:E4; simpl; rewrite ?E3, ?E4;
    simpl; rewrite ?E3, ?E4; (split; [done|]); naive_solver.
Qed.

(** ** The order on a lane *)
Section lanes.
Abbreviation aid := PlanAssignment.ActivityID.
Abbreviation pos := PlanAssignment.OrderOnResource.

Definition adjacent (l : list PlanAssignment) (a b : PlanAssignment) : Prop :=
  ∃ l1 l2, l = l1 ++ a :: b :: l2.

Lemma adjacent_cons x l a b : adjacent (x :: l) a b ↔
  (a = x ∧ ∃ l2, l = b :: l2) ∨ adjacent l a b.
Proof.
  split.
  - intros ([|y l1] & l2 & E); injection E as -> ->; [left; eauto|right; by exists l1, l2].
  - intros [(-> & l2 & ->)|(l1 & l2 & ->)]; [by exists [], l2|by exists (x :: l1), l2].
Qed.
Lemma adjacent_elem l a b : adjacent l a b → a ∈ l ∧ b ∈ l.
Proof. intros (l1 & l2 & ->). rewrite !elem_of_app, !elem_of_cons. tauto. Qed.

Lemma link_lane_cons m a b l : link_lane m (a :: b :: l) =
  link_lane (<[aid b := aid a]> m) (b :: l).
Proof. done. Qed.

Lemma link_lane_spec m l y x : NoDup (aid <$> l) →
  link_lane m l !! y = Some x ↔
  (∃ a b, adjacent l a b ∧ aid a = x ∧ aid b = y) ∨
  (m !! y = Some x ∧ ¬ ∃ a b, adjacent l a b ∧ aid b = y).
Proof.
  revert m. induction l as [|a [|b l] IH]; intros m Hnd.
  1-2: split; [intros Hm; right; split; [done|]; intros (c & d & (l1 & l2 & E) & _)
              |intros [(c & d & (l1 & l2 & E) & _)|[? _]]; [|done]];
       apply (f_equal length) in E; rewrite length_app in E; simpl in E; lia.
  rewrite fmap_cons, NoDup_cons in Hnd. destruct Hnd as [Ha Hnd].
  rewrite link_lane_cons, IH by done. clear IH. setoid_rewrite (adjacent_cons a (b :: l)).
  assert (∀ c d, adjacent (b :: l) c d → aid d ≠ aid b) as Hb.
  { intros c d [(_ & l2 & ->)|Hd]%adjacent_cons E;
      rewrite !fmap_cons, NoDup_cons in Hnd; destruct Hnd as [Hn _]; apply Hn; rewrite <- E.
    - by left.
    - apply list_elem_of_fmap_2. by eapply adjacent_elem. }
  destruct (decide (aid b = y)) as [<-|Hne].
  - rewrite lookup_insert_eq. split.
    + intros [(c & d & Hcd & _ & E)|[[= <-] _]]; [by destruct (Hb c d)|].
      left. exists a, b. split; [left; eauto|done].
    + intros [(c & d & [(-> & l2 & [= -> _])|Hcd] & E1 & E2)|[_ Hn]].
      * right. split; [by rewrite E1|]. intros (c & d' & Hcd & E). by destruct (Hb c d').
      * by destruct (Hb c d).
      * destruct Hn. exists a, b. split; [left; eauto|done].
  - rewrite lookup_insert_ne by done. split.
    + intros [(c & d & Hcd & E)|[Hm Hn]]; [left; exists c, d; auto|].
      right. split; [done|]. intros (c & d & [(-> & l2 & [= -> _])|Hcd] & E); [done|]. eauto.
    + intros [(c & d & [(-> & l2 & [= -> _])|Hcd] & E1 & E2)|[Hm Hn]]; [done|left; eauto|].
      right. split; [done|]. intros (c & d & Hcd & E). apply Hn. exists c, d. auto.
Qed.

(** On a sorted lane with distinct orders, neighbours are the assignments with
    nothing in between. *)
Lemma adjacent_sorted l a b : StronglySorted Validator.order_le l → NoDup (pos <$> l) →
  adjacent l a b ↔ a ∈ l ∧ b ∈ l ∧ pos a < pos b ∧ ∀ c, c ∈ l → pos c ≤ pos a ∨ pos b ≤ pos c.
Proof.
  intros Hs. induction Hs as [|x l Hs IH Hx]; intros Hnd.
  { split; [intros (l1 & l2 & E); by destruct l1|]. by intros (?%elem_of_nil & _). }
  rewrite Forall_forall in Hx. unfold Validator.order_le in Hx.
  rewrite fmap_cons, NoDup_cons in Hnd. destruct Hnd as [Hxn Hnd].
  assert (∀ c, c ∈ l → pos x < pos c) as Hlt.
  { intros c Hc. pose proof (Hx c Hc). enough (pos x ≠ pos c) by lia.
    intros E. apply Hxn. rewrite E. by apply list_elem_of_fmap_2. }
  rewrite adjacent_cons, (IH Hnd). clear IH. split.
  - intros [(-> & l2 & ->)|(Ha & Hb & Hab & Hall)].
    + split_and!; [by left|right; by left|apply Hlt; by left|].
      intros c [->|[->|Hc]%elem_of_cons]%elem_of_cons; [lia|lia|right].
      apply StronglySorted_inv in Hs as [_ Hf]. rewrite Forall_forall in Hf. by apply Hf.
    + split_and!; [by right|by right|done|]. intros c [->|Hc]%elem_of_cons; [|by apply Hall].
      left. pose proof (Hlt a Ha). lia.
  - intros ([->|Ha]%elem_of_cons & Hb & Hab & Hall).
    + left. split; [done|]. apply elem_of_cons in Hb as [->|Hb]; [lia|].
      destruct l as [|h l]; [by apply elem_of_nil in Hb|]. exists l. f_equal.
      apply elem_of_cons in Hb as [->|Hb]; [done|]. exfalso.
      apply StronglySorted_inv in Hs as [_ Hf]. rewrite Forall_forall in Hf.
      pose proof (Hf b Hb) as Hhb. unfold Validator.order_le in Hhb.
      rewrite fmap_cons, NoDup_cons in Hnd. destruct Hnd as [Hhn _].
      destruct (Hall h) as [?|?]; [right; by left|pose proof (Hlt h ltac:(by left)); lia|].
      apply Hhn. replace (pos h) with (pos b) by lia. by apply list_elem_of_fmap_2.
    + right. apply elem_of_cons in Hb as [->|Hb]; [pose proof (Hlt a Ha); lia|].
      split_and!; [done..|]. intros c Hc. apply Hall. by right.
Qed.

(** [a] comes directly before [b] on their lane of the plan. *)
Definition precedes (plan : list PlanAssignment) (a b : PlanAssignment) : Prop :=
  a ∈ plan ∧ b ∈ plan ∧ Validator.lane a = Validator.lane b ∧ pos a < pos b ∧
  ∀ c, c ∈ plan → Validator.lane c = Validator.lane a → pos c ≤ pos a ∨ pos b ≤ pos c.

Section indexed.
Context `{MapOrder} (plan : list PlanAssignment).
Hypothesis once : NoDup (aid <$> plan).
Hypothesis distinct : ∀ L, NoDup (pos <$> base.filter (λ a, Validator.lane a = L) plan).
Abbreviation on L := (merge_sort Validator.order_le (base.filter (λ a, Validator.lane a = L) plan)).

Lemma same_assignment a b : a ∈ plan → b ∈ plan → aid a = aid b → a = b.
Proof.
  intros [i Hi]%list_elem_of_lookup [j Hj]%list_elem_of_lookup E.
  assert (i = j) as ->; [|congruence]. eapply (NoDup_lookup (aid <$> plan)); [done|..];
    rewrite list_lookup_fmap; [by rewrite Hi|]. by rewrite Hj, E.
Qed.

Lemma on_elem L a : a ∈ on L ↔ a ∈ plan ∧ Validator.lane a = L.
Proof. rewrite merge_sort_Permutation, list_elem_of_filter. tauto. Qed.

Lemma on_adjacent L a b : adjacent (on L) a b ↔ precedes plan a b ∧ Validator.lane a = L.
Proof.
  rewrite adjacent_sorted; [|apply (StronglySorted_merge_sort _)|by rewrite merge_sort_Permutation].
  unfold precedes. setoid_rewrite on_elem. split.
  - intros ((? & <-) & (? & ?) & ? & Hall). split_and!; auto. 
  - intros ((? & ? & ? & ? & Hall) & <-). split_and!; auto. intros c [? ?]. auto.
Qed.

Lemma on_nodup L : NoDup (aid <$> on L).
Proof.
  rewrite merge_sort_Permutation.
  assert (sublist (aid <$> base.filter (λ a, Validator.lane a = L) plan) (aid <$> plan)) as Hs.
  { clear. induction plan as [|a l IH]; [done|]. rewrite filter_cons. case_decide; simpl;
      [by apply sublist_skip|by apply sublist_cons]. }
  by eapply sublist_NoDup.
Qed.

Lemma link_lanes_spec Ls y x :
  foldl (λ m L, link_lane m (on L)) ∅ Ls !! y = Some x ↔
  ∃ a b, precedes plan a b ∧ Validator.lane a ∈ Ls ∧ aid a = x ∧ aid b = y.
Proof.
  revert x. induction Ls as [|L Ls IH] using rev_ind; intros x.
  { simpl. rewrite lookup_empty. split; [done|]. by intros (? & ? & _ & ?%elem_of_nil & _). }
  rewrite foldl_snoc, link_lane_spec, IH by apply on_nodup. setoid_rewrite on_adjacent.
  setoid_rewrite elem_of_app. setoid_rewrite list_elem_of_singleton. split.
  - intros [(a & b & [Hp HL] & Ha & Hb)|[(a & b & Hp & HL & Ha & Hb) _]]; exists a, b; tauto.
  - intros (a & b & Hp & [HL|HL] & Ha & Hb).
    + destruct (decide (Validator.lane a = L)) as [HL'|HL']; [left; exists a, b; tauto|].
      right. split; [by exists a, b|]. intros (c & d & [Hp' HLc] & Hd). apply HL'.
      destruct Hp as (_ & Hbin & Eab & _), Hp' as (_ & Hdin & Ecd & _).
      assert (b = d) as -> by (apply same_assignment; congruence). congruence.
    + left. exists a, b. tauto.
Qed.

Lemma index_lanes_spec salt y x :
  index_lanes salt plan !! y = Some x ↔ ∃ a b, precedes plan a b ∧ aid a = x ∧ aid b = y.
Proof.
  unfold index_lanes. destruct (Supervisor.map_range_keys salt (Validator.by_lane plan)) as [_ Hk].
  assert (∀ l m, (∀ L items, (L, items) ∈ l →
      items = base.filter (λ a, Validator.lane a = L) plan) →
    foldl (λ m '(_, lane), link_lane m (merge_sort Validator.order_le lane)) m l =
    foldl (λ m L, link_lane m (on L)) m (fst <$> l)) as Hmap.
  { induction l as [|[L items] l IHl]; intros m Hl; [done|]. cbn [foldl fmap list_fmap fst].
    rewrite (Hl L items) by (by left). apply IHl. intros; apply Hl; by right. }
  rewrite Hmap, link_lanes_spec.
  - split; [intros (a & b & ? & _ & ? & ?); eauto|]. intros (a & b & Hp & Ha & Hb).
    exists a, b. split; [done|]. split; [|done].
    assert (is_Some (Validator.by_lane plan !! Validator.lane a)) as [items Hi].
    { apply Validator.by_lane_spec, list_elem_of_fmap_2, Hp. }
    apply list_elem_of_fmap. exists (Validator.lane a, items). split; [done|]. by apply Hk.
  - intros L items Hin%Hk. destruct (Validator.by_lane_spec plan L) as [<- _].
    unfold lookup_zero. by rewrite Hin.
Qed.
End indexed.
End lanes.

(** ** Simulating a validated plan *)
Section validated.
Context `{MapOrder}.
Variables (salt : nat) (request : ExecutionRequest).
Let plan := request.(ExecutionRequest.Plan).
Let workflow := request.(ExecutionRequest.Workflow).
Let activities := workflow.(WorkflowVersion.Activities).
Let model := indexRequest salt request.

Definition accepted : Prop := Validator.plan_ok plan workflow request.(ExecutionRequest.Resources)
  request.(ExecutionRequest.ExecutionScope) request.(ExecutionRequest.NetworkTopology).

(** A path of the network joins every two resources, and names are not empty. *)
Definition connected : Prop :=
  Network.proper_names (links_of request) ∧
  ∀ r1 r2, r1 ∈ request.(ExecutionRequest.Resources) → r2 ∈ request.(ExecutionRequest.Resources) →
    r1.(Resource.ID) ≠ "" ∧
    ∃ path, Network.chain (links_of request) r1.(Resource.ID) path r2.(Resource.ID).

Lemma accepted_place a : accepted → a ∈ activities →
  ∃ asg r, model.(assignments) !! a.(Activity.ID) = Some asg ∧
    model.(resources) !! asg.(PlanAssignment.ResourceID) = Some r ∧
    r ∈ request.(ExecutionRequest.Resources) ∧ place model a = r.
Proof.
  intros [_ Hasg _ Hcov _ _ _] Ha.
  apply Hcov, list_elem_of_fmap in Ha as (b & Eb & Hb).
  destruct (Supervisor.index_elem PlanAssignment.ActivityID _ b Hb) as [asg Hg].
  pose proof (Supervisor.index_key PlanAssignment.ActivityID _ _ _ Hg) as [_ Hin].
  destruct (Hasg asg Hin) as (x & r & _ & Hr & _). exists asg, r.
  rewrite <- Eb in Hg. pose proof (Supervisor.index_key Resource.ID _ _ _ Hr) as [_ Hrin].
  split_and!; [exact Hg|exact Hr|done|].
  unfold place. subst model. simpl. unfold lookup_zero. fold plan. rewrite Hg. simpl.
  by rewrite Hr.
Qed.

Lemma sim_task C T id task : sim_inv request model C T → C !! id = Some task →
  task.(TaskExecution.ActivityID) = id ∧ task.(TaskExecution.Status) = TaskCompleted ∧
  ∃ a, a ∈ activities ∧ task.(TaskExecution.AllocatedResourceID) = (place model a).(Resource.ID).
Proof.
  intros (rank & _ & Hex) Ht. destruct (Hex id task Ht) as (a & d & C0 & s & Ha & <- & _ & _ & _ & -> & _).
  split_and!; [done|done|]. by exists a.
Qed.

(** The transfers of a connected network never fail. *)
Lemma connected_transfers C T a s e : accepted → connected → sim_inv request model C T →
  a ∈ activities → due model C a = true →
  resolveTransfers s request a (place model a) model C ≠ Err e.
Proof.
  intros Hok [Hnames Hconn] Hs Ha Hdue Herr.
  apply receive_all_error in Herr as (p & Hp & acc & Herr).
  apply receive_error in Herr as (_ & _ & s' & Hnone).
  apply due_spec in Hdue as (_ & Hpred & _). destruct (Hpred p Hp) as [t Ht].
  destruct (sim_task C T p t Hs Ht) as (_ & _ & b & Hb & Er).
  destruct (accepted_place a Hok Ha) as (_ & r & _ & _ & Hr & Epl).
  destruct (accepted_place b Hok Hb) as (_ & r' & _ & _ & Hr' & Epl').
  assert ((lookup_zero C p).(TaskExecution.AllocatedResourceID) = r'.(Resource.ID)) as Ef.
  { unfold lookup_zero. by rewrite Ht, <- Epl', <- Er. }
  destruct (Hconn r' r Hr' Hr) as [Hne [path Hpath]].
  pose proof (Network.resolve_path_spec s' (links_of request) r'.(Resource.ID) r.(Resource.ID)
    (lookup_zero model.(dataBytes) (data_key p a.(Activity.ID))) Hne Hnames) as Hspec.
  rewrite Ef, Epl in Hnone. rewrite Hnone in Hspec. by apply (Hspec path).
Qed.

Lemma simulate_accepted : accepted → connected → orderable activities model →
  ∃ C T, simulate salt request model = Some (Ok (C, T)) ∧ sim_inv request model C T ∧
    (length activities ≤ size C)%nat.
Proof.
  intros Hok Hconn Hord. destruct (simulate_spec request model salt) as (r & E & Hpost).
  destruct r as [[C T]|e]; [by exists C, T|]. exfalso.
  destruct Hpost as [(_ & C & T & Hs & Hsz & Hdue)|(a & C & T & s & Ha & Hs & Hdue & Herr)].
  - by apply (orderable_progress request model C T Hs Hsz Hord).
  - by apply (connected_transfers C T a s e).
Qed.

Lemma simulated_trace_tasks C T : sim_inv request model C T → (length activities ≤ size C)%nat →
  let tasks := (buildTrace salt request C T).(ExecutionTrace.Tasks) in
  TaskExecution.ActivityID <$> tasks = Activity.ID <$> activities ∧
  ∀ t, t ∈ tasks → t.(TaskExecution.Status) = TaskCompleted.
Proof.
  intros Hs Hsz. destruct (sim_complete request model C T Hs Hsz) as [_ Hall].
  unfold buildTrace. cbn [ExecutionTrace.Tasks]. fold workflow activities.
  rewrite active_costs_spec. unfold recosted.
  assert (∀ a, a ∈ activities → ∃ t, C !! a.(Activity.ID) = Some t ∧
    lookup_zero C a.(Activity.ID) = t) as Hlook.
  { intros a Ha. destruct (Hall a Ha) as [t Ht]. exists t. unfold lookup_zero. by rewrite Ht. }
  split.
  - rewrite <- !list_fmap_compose. apply list_fmap_ext. intros i a Ha%list_elem_of_lookup_2.
    destruct (Hlook a Ha) as (t & Ht & E). simpl. rewrite E. by eapply sim_task.
  - intros t (t' & -> & Ht')%list_elem_of_fmap. simpl.
    apply list_elem_of_fmap in Ht' as (a & -> & Ha).
    destruct (Hlook a Ha) as (t & Ht & ->). by eapply sim_task.
Qed.

Lemma runner_tasks (ref : float64) l : (∀ a, a ∈ l → a ∈ activities) → accepted →
  ∃ ts, fold_err (λ tasks a, t ← runner_task model ref a; Ok (tasks ++ [t])) [] l = Ok ts ∧
    task_id <$> ts = Activity.ID <$> l.
Proof.
  intros Hl Hok. induction l as [|a l IH] using rev_ind; [by exists []|].
  destruct IH as (ts & E & Ids); [intros; apply Hl, elem_of_app; by left|].
  rewrite fold_err_snoc, E. destruct (accepted_place a) as (asg & r & Hasg & Hr & _); [done| |].
  { apply Hl, elem_of_app. right. by left. }
  simpl. unfold runner_task. rewrite Hasg, Hr. eexists. split; [done|].
  by rewrite !fmap_app, Ids.
Qed.
End validated.

(** ** A concrete simulation: [b] on another machine needs the data of [a] *)
Module Example.
Definition machine (id : string) : Resource := Validator.Example.resource
  <| Resource.ID := id |> <| Resource.PricePerSecond := float_of_Z 2 |>.
Definition step (id : string) (seconds : Z) : Activity :=
  (zero : Activity) <| Activity.ID := id |>
    <| Activity.Simulation := Some (ActivitySimulation.mk "constant" (float_of_Z seconds) f0 ∅) |>.
Definition assignment (id machine : string) (order : Z) : PlanAssignment :=
  (zero : PlanAssignment) <| PlanAssignment.ActivityID := id |>
    <| PlanAssignment.ResourceID := machine |> <| PlanAssignment.OrderOnResource := order |>.
Definition wire : NetworkLink := (Network.Example.link "m1" "m2" 1) <| NetworkLink.Bidirectional := true |>.
Definition request : ExecutionRequest :=
  (zero : ExecutionRequest)
    <| ExecutionRequest.Run := (zero : ExecutionRun) <| ExecutionRun.ID := "run" |>
         <| ExecutionRun.Mode := ExecutionModeSimulation |> |>
    <| ExecutionRequest.Plan := Validator.Example.plan
         <| SchedulePlan.DeadlineSeconds := float_of_Z 100 |>
         <| SchedulePlan.Assignments :=
              [assignment "a" "m1" 0; assignment "b" "m2" 0; assignment "c" "m1" 1] |> |>
    <| ExecutionRequest.Workflow := (zero : WorkflowVersion) <| WorkflowVersion.ID := "wf" |>
         <| WorkflowVersion.Activities := [step "c" 1; step "b" 2; step "a" 3] |>
         <| WorkflowVersion.Dependencies := [ActivityDependency.mk "b" "a" ""] |>
         <| WorkflowVersion.DataDependencies := [ActivityDataDependency.mk "a" "b" "x" 4] |> |>
    <| ExecutionRequest.Resources := [machine "m1"; machine "m2"] |>
    <| ExecutionRequest.ExecutionScope := Validator.Example.scope |>
    <| ExecutionRequest.NetworkTopology := (zero : NetworkTopology)
         <| NetworkTopology.Links := [wire] |> |>.
Definition model : indexedRequest := indexRequest 0 request.
Definition schedule : gmap string TaskExecution * list DataTransfer :=
  match simulate 0 request model with Some (Ok r) => r | _ => (∅, []) end.

Lemma simulated : simulate 0 request model = Some (Ok (schedule.1, schedule.2)).
Proof. vm_compute. reflexivity. Qed.
Lemma finite_tasks x t : schedule.1 !! x = Some t → is_nan t.(TaskExecution.FinishedAt) = false.
Proof.
  assert (map_Forall (λ _ t, is_nan t.(TaskExecution.FinishedAt) = false) schedule.1) as Hall.
  { apply (bool_decide_unpack _). vm_compute. exact I. }
  apply Hall.
Qed.
Lemma finite_transfers tr : tr ∈ schedule.2 → is_nan tr.(DataTransfer.FinishedAt) = false.
Proof.
  assert (Forall (λ tr, is_nan tr.(DataTransfer.FinishedAt) = false) schedule.2) as Hall.
  { apply (bool_decide_unpack _). vm_compute. exact I. }
  rewrite Forall_forall in Hall. apply Hall.
Qed.
Lemma finished_trace t : t ∈ (buildTrace 0 request schedule.1 schedule.2).(ExecutionTrace.Tasks) →
  is_nan t.(TaskExecution.FinishedAt) = false.
Proof.
  assert (Forall (λ t, is_nan t.(TaskExecution.FinishedAt) = false)
    (buildTrace 0 request schedule.1 schedule.2).(ExecutionTrace.Tasks)) as Hall.
  { apply (bool_decide_unpack _). vm_compute. exact I. }
  rewrite Forall_forall in Hall. apply Hall.
Qed.
Lemma valid : Validator.Validate 0 request.(ExecutionRequest.Plan)
  request.(ExecutionRequest.Workflow) request.(ExecutionRequest.Resources)
  request.(ExecutionRequest.ExecutionScope) request.(ExecutionRequest.NetworkTopology) = Some (Ok tt).
Proof. vm_compute. reflexivity. Qed.

Lemma wired : connected request.
Proof.
  split.
  - intros l Hl. apply list_elem_of_singleton in Hl as ->. done.
  - assert (∀ x y, x ∈ ["m1"; "m2"] → y ∈ ["m1"; "m2"] →
      ∃ path, Network.chain [wire] x path y) as Hc.
    { intros x y Hx Hy. rewrite !elem_of_cons, elem_of_nil in Hx, Hy.
      destruct Hx as [->|[->|[]]], Hy as [->|[->|[]]]; try (exists []; constructor);
        exists [0%nat]; (eapply (Network.chain_snoc _ _ [] _ 0%nat wire); [constructor|done|]);
        [by left|by right]. }
    intros r1 r2 H1 H2. change (links_of request) with [wire].
    apply elem_of_cons in H1 as [->|H1]; [|apply list_elem_of_singleton in H1 as ->];
    apply elem_of_cons in H2 as [->|H2]; try (apply list_elem_of_singleton in H2 as ->);
    (split; [done|apply Hc; simpl; set_solver]).
Qed.

Lemma ordered : orderable request.(ExecutionRequest.Workflow).(WorkflowVersion.Activities) model.
Proof.
  destruct (simulate_spec request model 0) as (r & E & Hr). rewrite simulated in E.
  injection E as <-. destruct Hr as [Hs Hsz]. by eapply simulated_orderable.
Qed.
End Example.

(** ** The contract of the simulator *)

(** C17: The simulator decides exactly whether the plan can be ordered: it ends
    after at most one round per activity plus one; it returns a schedule with one
    task per activity only if the activities are distinct and the dependencies
    and lane orders together have no cycle; it reports that the plan cannot
    progress only when they have one, an activity appears twice, or an order names
    an unknown activity; and its only other error names two resources no chain of
    links joins (when the first has a name and so have all ends of links). *)
Theorem simulate_decides `{MapOrder} salt request model :
  let activities := request.(ExecutionRequest.Workflow).(WorkflowVersion.Activities) in
  ∃ r, simulate salt request model = Some r ∧
    match r with
    | Ok (C, T) => orderable activities model ∧
        ∀ id, is_Some (C !! id) ↔ id ∈ Activity.ID <$> activities
    | Err e =>
      (¬ orderable activities model ∧
       e = errorf "plan cannot progress: dependency and resource orders form a cycle" []) ∨
      ∃ from to, e = errorf "no network link from %q to %q" [from; to] ∧
        (from ≠ "" → Network.proper_names (links_of request) →
         ∀ path, ¬ Network.chain (links_of request) from path to)
    end.
Proof.
  intros activities. destruct (simulate_spec request model salt) as (r & E & Hpost).
  exists r. split; [done|]. destruct r as [[C T]|e].
  - destruct Hpost as [Hs Hsz]. split; [by eapply simulated_orderable|]. intros id. split.
    + intros Hid%elem_of_dom. apply (elem_of_list_to_set (C := gset string)).
      by apply (sim_dom request model C T Hs).
    + intros (a & -> & Ha)%list_elem_of_fmap. by eapply sim_complete.
  - destruct Hpost as [(-> & C & T & Hs & Hsz & Hdue)|(a & C & T & s & Ha & Hs & Hdue & Herr)].
    + left. split; [|done]. intros Hord. by apply (orderable_progress request model C T Hs Hsz Hord).
    + right. apply receive_all_error in Herr as (p & Hp & acc & Herr).
      apply receive_error in Herr as (_ & -> & s' & Hnone). do 2 eexists. split; [done|].
      intros Hne Hnames.
      pose proof (Network.resolve_path_spec s' (links_of request) _ (place model a).(Resource.ID)
        (lookup_zero model.(dataBytes) (data_key p a.(Activity.ID))) Hne Hnames) as Hspec.
      by rewrite Hnone in Hspec.
Qed.

(** C18: A simulated schedule respects causality: when no time is NaN, every task
    starts only after each predecessor on the same machine (or without data) has
    finished, after the transfer of every other predecessor's data, which starts
    when that predecessor finishes and takes as long as a path of the network,
    and after the task before it on its lane; and it finishes after its run time
    and overhead. *)
Theorem schedule_causal `{MapOrder} salt request model C T id task :
  simulate salt request model = Some (Ok (C, T)) →
  (∀ x t, C !! x = Some t → is_nan t.(TaskExecution.FinishedAt) = false) →
  (∀ tr, tr ∈ T → is_nan tr.(DataTransfer.FinishedAt) = false) →
  C !! id = Some task →
  ∃ a, a ∈ request.(ExecutionRequest.Workflow).(WorkflowVersion.Activities) ∧
    a.(Activity.ID) = id ∧
    task.(TaskExecution.AllocatedResourceID) = (place model a).(Resource.ID) ∧
    (∀ p, p ∈ lookup_zero model.(predecessors) id → is_Some (C !! p) ∧
       ready_after request a (place model a) model C task.(TaskExecution.StartedAt) T p) ∧
    (let previous := lookup_zero model.(lanePrevious) id in previous ≠ "" →
       ∃ t, C !! previous = Some t ∧
         fle t.(TaskExecution.FinishedAt) task.(TaskExecution.StartedAt) = true) ∧
    task.(TaskExecution.FinishedAt) =
      fadd (fadd task.(TaskExecution.StartedAt) task.(TaskExecution.RuntimeSeconds))
        task.(TaskExecution.OverheadSeconds).
Proof.
  intros E Hn HnT Ht. destruct (simulate_spec request model salt) as (r & E' & Hpost).
  rewrite E in E'. injection E' as <-. destruct Hpost as [Hs _]. by apply (sim_causal request model C T).
Qed.

Lemma schedule_causal_witness :
  ∃ a, a ∈ Example.request.(ExecutionRequest.Workflow).(WorkflowVersion.Activities) ∧
    a.(Activity.ID) = "b" ∧
    (lookup_zero Example.schedule.1 "b").(TaskExecution.AllocatedResourceID) =
      (place Example.model a).(Resource.ID) ∧
    (∀ p, p ∈ lookup_zero Example.model.(predecessors) "b" → is_Some (Example.schedule.1 !! p) ∧
       ready_after Example.request a (place Example.model a) Example.model Example.schedule.1
         (lookup_zero Example.schedule.1 "b").(TaskExecution.StartedAt) Example.schedule.2 p) ∧
    (let previous := lookup_zero Example.model.(lanePrevious) "b" in previous ≠ "" →
       ∃ t, Example.schedule.1 !! previous = Some t ∧
         fle t.(TaskExecution.FinishedAt)
           (lookup_zero Example.schedule.1 "b").(TaskExecution.StartedAt) = true) ∧
    (lookup_zero Example.schedule.1 "b").(TaskExecution.FinishedAt) =
      fadd (fadd (lookup_zero Example.schedule.1 "b").(TaskExecution.StartedAt)
                 (lookup_zero Example.schedule.1 "b").(TaskExecution.RuntimeSeconds))
        (lookup_zero Example.schedule.1 "b").(TaskExecution.OverheadSeconds).
Proof.
  apply (schedule_causal 0 Example.request Example.model Example.schedule.1 Example.schedule.2 "b"
    (lookup_zero Example.schedule.1 "b") Example.simulated Example.finite_tasks
    Example.finite_transfers).
  vm_compute. reflexivity.
Defined.

(** C19: Validated plans simulate: a plan the validator accepts, in simulation
    mode and not cancelled, whose dependencies and lane orders have no common
    cycle and whose resources the network joins, is simulated to a trace that
    holds exactly one completed task per activity, in the order of the workflow. *)
Theorem validated_plan_simulates `{MapOrder} salt request :
  Validator.Validate salt request.(ExecutionRequest.Plan) request.(ExecutionRequest.Workflow)
    request.(ExecutionRequest.Resources) request.(ExecutionRequest.ExecutionScope)
    request.(ExecutionRequest.NetworkTopology) = Some (Ok tt) →
  request.(ExecutionRequest.Run).(ExecutionRun.Mode) = ExecutionModeSimulation →
  connected request →
  orderable request.(ExecutionRequest.Workflow).(WorkflowVersion.Activities)
    (indexRequest (S salt) request) →
  ∃ trace, Execute salt None request = Some (Ok trace) ∧
    TaskExecution.ActivityID <$> trace.(ExecutionTrace.Tasks) =
      Activity.ID <$> request.(ExecutionRequest.Workflow).(WorkflowVersion.Activities) ∧
    ∀ t, t ∈ trace.(ExecutionTrace.Tasks) → t.(TaskExecution.Status) = TaskCompleted.
Proof.
  intros HV Hmode Hconn Hord.
  destruct (Validator.Validate_spec salt request.(ExecutionRequest.Plan)
    request.(ExecutionRequest.Workflow) request.(ExecutionRequest.Resources)
    request.(ExecutionRequest.ExecutionScope) request.(ExecutionRequest.NetworkTopology))
    as (r & E & Hr). rewrite HV in E. injection E as <-.
  destruct (simulate_accepted (S salt) request) as (C & T & E & Hs & Hsz);
    [by apply Hr|done|done|].
  exists (buildTrace (S salt) request C T). split; [|by apply simulated_trace_tasks].
  unfold Execute. rewrite bool_decide_true by done. simpl. by rewrite HV, E.
Qed.

Lemma validated_plan_simulates_witness :
  ∃ trace, Execute 0 None Example.request = Some (Ok trace) ∧
    TaskExecution.ActivityID <$> trace.(ExecutionTrace.Tasks) = ["c"; "b"; "a"] ∧
    ∀ t, t ∈ trace.(ExecutionTrace.Tasks) → t.(TaskExecution.Status) = TaskCompleted.
Proof.
  exact (validated_plan_simulates 0 Example.request Example.valid eq_refl Example.wired
    Example.ordered).
Defined.

(** The lane order the simulator enforces is the plan's: for a plan with one
    assignment per activity and distinct orders on every lane, and whatever the
    order in which the lanes are visited, [x] is recorded as the activity before
    [y] exactly when the two share a lane and no assignment of that lane lies
    between them. *)
Theorem lane_previous_exact `{MapOrder} salt request x y :
  let plan := request.(ExecutionRequest.Plan).(SchedulePlan.Assignments) in
  NoDup (PlanAssignment.ActivityID <$> plan) →
  (∀ L, NoDup (PlanAssignment.OrderOnResource <$> base.filter (λ a, Validator.lane a = L) plan)) →
  (indexRequest salt request).(lanePrevious) !! y = Some x ↔
  ∃ a b, precedes plan a b ∧ a.(PlanAssignment.ActivityID) = x ∧ b.(PlanAssignment.ActivityID) = y.
Proof. intros plan Hnd Hd. by apply index_lanes_spec. Qed.

Lemma lane_previous_exact_witness :
  (indexRequest 0 Example.request).(lanePrevious) !! "c" = Some "a" ↔
  ∃ a b, precedes Example.request.(ExecutionRequest.Plan).(SchedulePlan.Assignments) a b ∧
    a.(PlanAssignment.ActivityID) = "a" ∧ b.(PlanAssignment.ActivityID) = "c".
Proof.
  apply (lane_previous_exact 0 Example.request "a" "c").
  - apply (bool_decide_unpack _). vm_compute. exact I.
  - intros L. destruct (decide (L = Validator.lane (Example.assignment "" "m1" 0))) as [->|H1];
      [apply (bool_decide_unpack _); vm_compute; exact I|].
    destruct (decide (L = Validator.lane (Example.assignment "" "m2" 0))) as [->|H2];
      [apply (bool_decide_unpack _); vm_compute; exact I|].
    simpl. rewrite !filter_cons. repeat (case_decide; [exfalso; subst L; first [by apply H1|by apply H2]|]). constructor.
Defined.

(** Billing by active window: the costs the trace reports are those of the
    reference, whatever the order in which the resources are visited: every
    resource is billed once, for the time from the first start to the last finish
    on it, and each of its tasks carries its share of that bill; nothing but the
    cost of a task changes. *)
Theorem active_costs_exact `{MapOrder} salt tasks resources :
  applyResourceActiveCosts salt tasks resources =
  (λ t, t <| TaskExecution.Cost := active_cost (price_list resources) tasks t |>) <$> tasks.
Proof. apply active_costs_spec. Qed.

(** Feasibility is exact: when no finish time is NaN, the makespan bounds
    every task and is reached by one (or zero); a feasible trace with a deadline
    has every task finished by then; and an infeasible one has a task that
    finishes after the deadline or a cost above the budget. *)
Theorem feasible_exact `{MapOrder} salt request C T :
  let trace := buildTrace salt request C T in
  let m := trace.(ExecutionTrace.Executed) in
  let plan := request.(ExecutionRequest.Plan) in
  (∀ t, t ∈ trace.(ExecutionTrace.Tasks) → is_nan t.(TaskExecution.FinishedAt) = false) →
  (∀ t, t ∈ trace.(ExecutionTrace.Tasks) →
     fle t.(TaskExecution.FinishedAt) m.(ExecutionMetrics.MakespanSeconds) = true) ∧
  (m.(ExecutionMetrics.MakespanSeconds) = f0 ∨ ∃ t, t ∈ trace.(ExecutionTrace.Tasks) ∧
     m.(ExecutionMetrics.MakespanSeconds) = t.(TaskExecution.FinishedAt)) ∧
  (m.(ExecutionMetrics.Feasible) = true → flt f0 plan.(SchedulePlan.DeadlineSeconds) = true →
   ∀ t, t ∈ trace.(ExecutionTrace.Tasks) →
     fle t.(TaskExecution.FinishedAt) plan.(SchedulePlan.DeadlineSeconds) = true) ∧
  (m.(ExecutionMetrics.Feasible) = false →
   (∃ t, t ∈ trace.(ExecutionTrace.Tasks) ∧
      flt plan.(SchedulePlan.DeadlineSeconds) t.(TaskExecution.FinishedAt) = true) ∨
   flt plan.(SchedulePlan.Budget) m.(ExecutionMetrics.Cost) = true).
Proof.
  intros trace m plan Hn. destruct (metrics_spec salt request C T) as [Em Hf].
  fold trace plan in Em, Hf. fold m in Em, Hf.
  destruct (makespan_spec trace.(ExecutionTrace.Tasks)
    ((zero : ExecutionMetrics) <| ExecutionMetrics.Feasible := true |>))
    as (Ef & Hnm & _ & Hall & Hex); [done|exact Hn|].
  rewrite Ef in Hf. rewrite <- Em in Hnm, Hall, Hex. split_and!; [done|by destruct Hex; [left|right]| |].
  - intros Hfeas Hd t Ht. eapply fle_trans; [by apply Hall|].
    apply flt_false_fle; [by apply flt_spec in Hd as (_ & ? & _)|done|].
    destruct (flt plan.(SchedulePlan.DeadlineSeconds) m.(ExecutionMetrics.MakespanSeconds)) eqn:E; [|done].
    rewrite (proj2 Hf) in Hfeas; [done|]. right. by left.
  - intros [?|[[Hd Hlt]|[_ Hb]]]%Hf; [done| |by right]. left.
    destruct Hex as [E|(t & Ht & E)]; rewrite E in Hlt; [|by exists t].
    exfalso. change (flt plan.(SchedulePlan.DeadlineSeconds) f0 = true) in Hlt.
    pose proof (flt_trans _ _ _ Hlt Hd) as Hc. by rewrite flt_irrefl in Hc.
Qed.

Lemma feasible_exact_witness :
  Forall (λ t, fle t.(TaskExecution.FinishedAt) (float_of_Z 100) = true)
    (buildTrace 0 Example.request Example.schedule.1 Example.schedule.2).(ExecutionTrace.Tasks).
Proof.
  destruct (feasible_exact 0 Example.request Example.schedule.1 Example.schedule.2
    Example.finished_trace) as (_ & _ & Hfeas & _).
  apply Forall_forall, Hfeas; vm_compute; reflexivity.
Defined.

(** The external simulator gets the whole plan: for a validated request the
    runner input is built without error; it lists one task per activity in the
    order of the workflow, every dependency, and exactly the pairs of neighbours
    on the lanes. *)
Theorem runner_input_complete `{MapOrder} salt request referenceFLOPS :
  Validator.Validate salt request.(ExecutionRequest.Plan) request.(ExecutionRequest.Workflow)
    request.(ExecutionRequest.Resources) request.(ExecutionRequest.ExecutionScope)
    request.(ExecutionRequest.NetworkTopology) = Some (Ok tt) →
  ∃ input, buildRunnerInput salt request referenceFLOPS = Ok input ∧
    task_id <$> input.(Tasks) =
      Activity.ID <$> request.(ExecutionRequest.Workflow).(WorkflowVersion.Activities) ∧
    (λ d, (d.(consumer), d.(producer))) <$> input.(Dependencies) =
      (λ d, (d.(ActivityDependency.ActivityID), d.(ActivityDependency.DependsOnActivityID))) <$>
        request.(ExecutionRequest.Workflow).(WorkflowVersion.Dependencies) ∧
    ∀ x y, RunnerLaneOrder x y ∈ input.(ResourceLaneOrders) ↔
      ∃ a b, precedes request.(ExecutionRequest.Plan).(SchedulePlan.Assignments) a b ∧
        a.(PlanAssignment.ActivityID) = x ∧ b.(PlanAssignment.ActivityID) = y.
Proof.
  intros HV. destruct (Validator.Validate_spec salt request.(ExecutionRequest.Plan)
    request.(ExecutionRequest.Workflow) request.(ExecutionRequest.Resources)
    request.(ExecutionRequest.ExecutionScope) request.(ExecutionRequest.NetworkTopology))
    as (r & E & Hr). rewrite HV in E. injection E as <-. pose proof (proj1 Hr eq_refl) as Hok.
  unfold buildRunnerInput.
  destruct (runner_tasks salt request referenceFLOPS
    request.(ExecutionRequest.Workflow).(WorkflowVersion.Activities)) as (ts & -> & Ids); [done|done|].
  simpl. eexists. split; [done|]. split_and!; [done| |].
  - simpl. by rewrite <- list_fmap_compose.
  - intros x y. simpl. destruct Hok as [_ _ Hnd _ _ Hl _].
    rewrite <- (index_lanes_spec _ Hnd Hl salt).
    destruct (Supervisor.map_range_keys salt
      (index_lanes salt request.(ExecutionRequest.Plan).(SchedulePlan.Assignments))) as [_ Hk].
    rewrite list_elem_of_fmap. split.
    + intros ([s p] & [= -> ->] & Hin%Hk). done.
    + intros Hxy. exists (y, x). split; [done|]. by apply Hk.
Qed.

Lemma runner_input_complete_witness :
  ∃ input, buildRunnerInput 0 Example.request (float_of_Z 1000) = Ok input ∧
    task_id <$> input.(Tasks) = ["c"; "b"; "a"] ∧
    (λ d, (d.(consumer), d.(producer))) <$> input.(Dependencies) = [("b", "a")] ∧
    ∀ x y, RunnerLaneOrder x y ∈ input.(ResourceLaneOrders) ↔
      ∃ a b, precedes Example.request.(ExecutionRequest.Plan).(SchedulePlan.Assignments) a b ∧
        a.(PlanAssignment.ActivityID) = x ∧ b.(PlanAssignment.ActivityID) = y.
Proof. exact (runner_input_complete 0 Example.request (float_of_Z 1000) Example.valid). Defined.
End Simulation.
