(* ===== verification/Shell.v ===== *)
(** * Text the providers exchange with a POSIX shell and with command-line tools
    (src/internal/provider/slurm/adapter.go: [shellToken], [shellQuote])

    The functions of [strings] and [strconv] the Slurm adapter uses, the two
    functions that make a string safe inside a script, and the reference they are
    judged by: how a POSIX shell splits a command line into words. *)

From S2P Require Import Prelude GoStrings.
From Stdlib Require Import Ascii.

(** ** [strings] and [strconv] *)

(** [strings.ReplaceAll(s, c, by)] for a one-byte [c]. *)
Fixpoint replace_byte (c : ascii) (by_ s : string) : string :=
  match s with
  | "" => ""
  | String a s => (if bool_decide (a = c) then by_ else String a "") +:+ replace_byte c by_ s
  end.

(** [strings.Cut(s, c)] for a one-byte [c]: [None] when [found] is false. *)
Fixpoint cut_byte (c : ascii) (s : string) : option (string * string) :=
  match s with
  | "" => None
  | String a s =>
    if bool_decide (a = c) then Some ("", s)
    else match cut_byte c s with Some (k, v) => Some (String a k, v) | None => None end
  end.

(** [strings.SplitN(s, c, 3)] for a one-byte [c]. *)
Definition split3 (c : ascii) (s : string) : list string :=
  match cut_byte c s with
  | None => [s]
  | Some (a, s) => match cut_byte c s with None => [a; s] | Some (b, s) => [a; b; s] end
  end.

(** [strings.Fields], on ASCII white space. *)
Fixpoint fields_from (word : string) (s : string) : list string :=
  match s with
  | "" => if bool_decide (word = "") then [] else [word]
  | String c s =>
    if is_space c then (if bool_decide (word = "") then [] else [word]) ++ fields_from "" s
    else fields_from (word +:+ String c "") s
  end.
Definition fields (s : string) : list string := fields_from "" s.

Definition is_digit (c : ascii) : bool := ascii_between "0" "9" c.
Definition digit_value (c : ascii) : Z := byte_of c - 48.
Fixpoint decimal_from (n : Z) (s : string) : Z :=
  match s with "" => n | String c s => decimal_from (10 * n + digit_value c) s end.
(** A non-empty string of decimal digits, and its value. *)
Definition decimal (s : string) : option Z :=
  if negb (bool_decide (s = "")) && str_forall is_digit s then Some (decimal_from 0 s) else None.
(** [strconv.ParseUint(s, 10, 64)] *)
Definition parse_uint (s : string) : option Z :=
  match decimal s with Some n => if n <? 2 ^ 64 then Some n else None | None => None end.
(** [strconv.ParseInt(s, 10, 64)] and [strconv.Atoi] *)
Definition parse_int (s : string) : option Z :=
  let signed (negative : bool) (t : string) :=
    match decimal t with
    | Some n => let z := if negative then - n else n in
                if (- 2 ^ 63 <=? z) && (z <? 2 ^ 63) then Some z else None
    | None => None
    end in
  match s with
  | String "-" t => signed true t
  | String "+" t => signed false t
  | _ => signed false s
  end.

(** [strconv.Atoi] and [strconv.ParseInt] with the error ignored: what is out of range is clipped. *)
Definition Atoi_value (s : string) : Z :=
  match parse_int s with
  | Some n => n
  | None =>
    match s with
    | String "-" t => match decimal t with Some _ => - 2 ^ 63 | None => 0 end
    | String "+" t => match decimal t with Some _ => 2 ^ 63 - 1 | None => 0 end
    | _ => match decimal s with Some _ => 2 ^ 63 - 1 | None => 0 end
    end
  end.

(** ** [shellToken] and [shellQuote] *)
Definition token_byte (c : ascii) : bool :=
  ascii_between "a" "z" c || ascii_between "A" "Z" c || ascii_between "0" "9" c ||
  bool_decide (c ∈ ["."; "_"; "-"]%char).

Definition token_rune (c : ascii) : ascii := if token_byte c then c else "-"%char.
Definition shellToken (value : string) : string := map_runes token_rune value.

Definition squote : string := "'".
Definition shellQuote (value : string) : string :=
  squote +:+ replace_byte "'" (squote +:+ dquote +:+ squote +:+ dquote +:+ squote) value +:+ squote.

(** [shell] of src/internal/infrastructure/transfer/rsync_ssh.go, the quoting of
    the remote file transfers. *)
Definition shell (v : string) : string :=
  squote +:+ replace_byte "'"
    (squote +:+ "\" +:+ dquote +:+ squote +:+ "\" +:+ dquote +:+ squote) v +:+ squote.

(** ** The reference: words of a shell command line

    POSIX.1-2017, Shell Command Language, 2.2 and 2.3: single quotes keep every
    byte up to the next single quote; double quotes keep every byte but the
    dollar sign, the backquote and the backslash; a backslash outside quotes
    keeps the byte after it; blanks separate words and a
    newline ends the command. Bytes the shell would interpret outside quotes
    (operators, globs, comments, assignments to a quoted name, ...) are not words
    of this fragment: [words] answers [None]. A parameter such as [$name] is kept
    as it stands, unexpanded. *)
Inductive quoting := Unquoted | SingleQuoted | DoubleQuoted | Escaped.

Definition plain_byte (c : ascii) : bool :=
  token_byte c || bool_decide (c ∈ ["/"; "="; "$"; ":"; "@"; "%"; "+"; ","]%char).

Definition flush (word : option string) (acc : list string) : list string :=
  match word with Some w => acc ++ [w] | None => acc end.
Definition extend (word : option string) (c : ascii) : option string :=
  Some (default "" word +:+ String c "").

Fixpoint words (q : quoting) (word : option string) (acc : list string) (s : string)
    : option (list string * string) :=
  match s with
  | "" => match q with Unquoted => Some (flush word acc, "") | _ => None end
  | String c s =>
    match q with
    | SingleQuoted =>
      if bool_decide (c = "'"%char) then words Unquoted word acc s
      else words SingleQuoted (extend word c) acc s
    | DoubleQuoted =>
      if bool_decide (c = "034"%char) then words Unquoted word acc s
      else if bool_decide (c ∈ ["$"; "`"; "\"]%char) then None
      else words DoubleQuoted (extend word c) acc s
    | Escaped => words Unquoted (extend word c) acc s
    | Unquoted =>
      if bool_decide (c = LF) then Some (flush word acc, s)
      else if bool_decide (c = " "%char) then words Unquoted None (flush word acc) s
      else if bool_decide (c = "'"%char) then words SingleQuoted (Some (default "" word)) acc s
      else if bool_decide (c = "034"%char) then words DoubleQuoted (Some (default "" word)) acc s
      else if plain_byte c then words Unquoted (extend word c) acc s
      else if bool_decide (c = "\"%char) then words Escaped word acc s
      else None
    end
  end.

(** The commands of a script, one per line. *)
Fixpoint commands (fuel : nat) (s : string) : option (list (list string)) :=
  match s, fuel with
  | "", _ => Some []
  | _, O => None
  | _, S fuel =>
    match words Unquoted None [] s with
    | Some (ws, rest) =>
      match commands fuel rest with Some l => Some (ws :: l) | None => None end
    | None => None
    end
  end.

(** ** Quoting is exact *)
Lemma str_app_cons c s t : String c s +:+ t = String c (s +:+ t).
Proof. done. Qed.

Lemma words_single v w acc t :
  words SingleQuoted (Some w) acc
    (replace_byte "'" (squote +:+ dquote +:+ squote +:+ dquote +:+ squote) v +:+ squote +:+ t) =
  words Unquoted (Some (w +:+ v)) acc t.
Proof.
  revert w. induction v as [|c v IH]; intros w.
  { by rewrite str_app_nil_r. }
  cbn [replace_byte]. rewrite str_app_assoc.
  replace (w +:+ String c v) with ((w +:+ String c "") +:+ v) by (by rewrite str_app_assoc).
  rewrite <- IH. case_bool_decide as Hc; [by subst c|].
  rewrite str_app_cons. cbn [words]. by rewrite bool_decide_false.
Qed.

Lemma words_quote v word acc t :
  words Unquoted word acc (shellQuote v +:+ t) = words Unquoted (Some (default "" word +:+ v)) acc t.
Proof.
  unfold shellQuote. rewrite !str_app_assoc, <- words_single. done.
Qed.

Lemma plain_not_special c : plain_byte c = true →
  c ≠ LF ∧ c ≠ " "%char ∧ c ≠ "'"%char ∧ c ≠ "034"%char.
Proof. intros Hc. split_and!; intros ->; vm_compute in Hc; done. Qed.

Lemma words_plain p w acc t : str_forall plain_byte p = true →
  words Unquoted (Some w) acc (p +:+ t) = words Unquoted (Some (w +:+ p)) acc t.
Proof.
  revert w. induction p as [|c p IH]; intros w; [by rewrite str_app_nil_r|].
  cbn [str_forall]. intros [Hc Hp]%andb_true_iff. rewrite str_app_cons. cbn [words].
  destruct (plain_not_special c Hc) as (? & ? & ? & ?).
  rewrite !bool_decide_false, Hc by done. unfold extend. simpl. rewrite IH by done.
  by rewrite str_app_assoc.
Qed.

(** The first bytes of a word. *)
Lemma words_start c p acc t : str_forall plain_byte (String c p) = true →
  words Unquoted None acc (String c p +:+ t) = words Unquoted (Some (String c p)) acc t.
Proof.
  cbn [str_forall]. intros [Hc Hp]%andb_true_iff. rewrite str_app_cons. cbn [words].
  destruct (plain_not_special c Hc) as (? & ? & ? & ?).
  rewrite !bool_decide_false, Hc by done. unfold extend. simpl. by rewrite words_plain.
Qed.

Lemma words_blank w acc t :
  words Unquoted (Some w) acc (" " +:+ t) = words Unquoted None (acc ++ [w]) t.
Proof. done. Qed.
Lemma words_end w acc t :
  words Unquoted (Some w) acc (newline +:+ t) = Some (acc ++ [w], t).
Proof. done. Qed.

(** A list of quoted arguments, each after a blank. *)
Fixpoint quoted_arguments (arguments : list string) : string :=
  match arguments with
  | [] => ""
  | a :: l => " " +:+ shellQuote a +:+ quoted_arguments l
  end.

Lemma words_arguments arguments w acc t :
  words Unquoted (Some w) acc (quoted_arguments arguments +:+ newline +:+ t) =
  Some (acc ++ w :: arguments, t).
Proof.
  revert w acc. induction arguments as [|a l IH]; intros w acc; [done|].
  cbn [quoted_arguments]. rewrite !str_app_assoc, words_blank, words_quote, IH.
  by rewrite <- app_assoc.
Qed.

Lemma token_plain c : token_byte c = true → plain_byte c = true.
Proof. unfold plain_byte. by intros ->. Qed.

Lemma str_forall_impl p q s : (∀ c, p c = true → q c = true) →
  str_forall p s = true → str_forall q s = true.
Proof.
  intros Hpq. induction s as [|c s IH]; simpl; [done|].
  intros [? ?]%andb_true_iff. apply andb_true_iff. auto.
Qed.

Lemma shellToken_safe value : str_forall token_byte (shellToken value) = true.
Proof.
  apply map_runes_forall. intros c. unfold token_rune. by destruct (token_byte c) eqn:E; [rewrite E|].
Qed.
Lemma shellToken_plain value : str_forall plain_byte (shellToken value) = true.
Proof. eapply str_forall_impl, shellToken_safe. apply token_plain. Qed.

(** A script made of lines is the sequence of their commands. *)
Inductive renders : string → list (list string) → Prop :=
| renders_nil : renders "" []
| renders_cons line ws s l :
    (∀ t, words Unquoted None [] (line +:+ t) = Some (ws, t)) → line ≠ "" →
    renders s l → renders (line +:+ s) (ws :: l).

Lemma renders_commands s l : renders s l → commands (length l) s = Some l.
Proof.
  induction 1 as [|line ws s l Hw Hne _ IH]; [done|]. cbn [length commands].
  destruct (line +:+ s) as [|c r] eqn:E.
  { by apply str_app_nil_inv in E as [-> _]. }
  rewrite <- E, Hw, IH. done.
Qed.
Lemma renders_app s1 l1 s2 l2 : renders s1 l1 → renders s2 l2 → renders (s1 +:+ s2) (l1 ++ l2).
Proof.
  induction 1 as [|line ws s l Hw Hne _ IH]; intros H2; [done|].
  rewrite str_app_assoc. by apply renders_cons, IH.
Qed.
Lemma renders_line line ws : (∀ t, words Unquoted None [] (line +:+ t) = Some (ws, t)) →
  line ≠ "" → renders line [ws].
Proof.
  intros. rewrite <- (str_app_nil_r line). by apply renders_cons; [..|constructor].
Qed.

Lemma replace_byte_free c by_ v : free_of c v → replace_byte c by_ v = v.
Proof.
  unfold free_of. induction v as [|a v IH]; [done|]. cbn [str_forall replace_byte].
  intros [Ha Hv]%andb_true_iff. apply negb_true_iff in Ha. by rewrite Ha, IH.
Qed.

(** The quoting of the remote file transfers is exact only without single
    quotes: a path that has none is read back as one word, but a path with an
    apostrophe leaves the command line with an unterminated quote, where
    [shellQuote] gives back the path. *)
Theorem rsync_shell_unbalanced :
  (∀ v t, free_of "'"%char v → words Unquoted None [] (shell v +:+ newline +:+ t) = Some ([v], t)) ∧
  words Unquoted None [] (shell "it's" +:+ newline) = None ∧
  words Unquoted None [] (shellQuote "it's" +:+ newline) = Some (["it's"], "").
Proof.
  split; [|split; vm_compute; reflexivity]. intros v t Hv.
  assert (shell v = shellQuote v) as ->.
  { unfold shell, shellQuote. by rewrite !replace_byte_free. }
  by rewrite words_quote, words_end.
Qed.
