(* ===== verification/GoNet.v ===== *)
(** * Go's [net] as the server uses it

    [net.SplitHostPort], with an exact description of what it accepts, and
    [net.ParseIP] (through [netip.ParseAddr]) with [IP.IsLoopback]; an address is
    its sixteen bytes. *)

From Stdlib Require Import Ascii.
From S2P Require Import Prelude GoStrings Shell.

(** ** Cutting at a byte *)
Fixpoint cut_first (sep : ascii) (s : string) : option (string * string) :=
  match s with
  | "" => None
  | String c rest =>
    if bool_decide (c = sep) then Some ("", rest)
    else match cut_first sep rest with Some (a, b) => Some (String c a, b) | None => None end
  end.
Fixpoint cut_last (sep : ascii) (s : string) : option (string * string) :=
  match s with
  | "" => None
  | String c rest =>
    match cut_last sep rest with
    | Some (a, b) => Some (String c a, b)
    | None => if bool_decide (c = sep) then Some ("", rest) else None
    end
  end.
#[global] Instance free_of_dec sep s : Decision (free_of sep s).
Proof. unfold free_of. apply _. Defined.

Lemma free_of_cons sep c s : free_of sep (String c s) ↔ c ≠ sep ∧ free_of sep s.
Proof. unfold free_of. simpl. by rewrite andb_true_iff, negb_true_iff, bool_decide_eq_false. Qed.
Lemma free_of_both sep s t : free_of sep (s +:+ t) ↔ free_of sep s ∧ free_of sep t.
Proof. unfold free_of. by rewrite str_forall_app, andb_true_iff. Qed.

Lemma cut_last_None sep s : cut_last sep s = None ↔ free_of sep s.
Proof.
  induction s as [|c s IH]; [done|]. rewrite free_of_cons, <- IH. simpl.
  destruct (cut_last sep s) as [[a b]|]; [naive_solver|]. case_bool_decide; naive_solver.
Qed.
Lemma cut_last_Some sep s a b : cut_last sep s = Some (a, b) ↔ s = a +:+ String sep b ∧ free_of sep b.
Proof.
  revert a b. induction s as [|c s IH]; intros a b; simpl; [split; [done|by destruct a as [|? ?]; intros []]|].
  destruct (cut_last sep s) as [[a' b']|] eqn:E.
  - destruct (IH a' b') as [(-> & Hf) _]; [done|]. split; [by intros [= <- <-]|].
    destruct a as [|c' a]; simpl; intros [[= -> Hs] Hb].
    + subst b. rewrite free_of_both, free_of_cons in Hb. naive_solver.
    + f_equal. assert (Some (a', b') = Some (a, b)) as [= -> ->]; [by apply IH|done].
  - apply cut_last_None in E. case_bool_decide as Hc.
    + split; [intros [= <- <-]; by subst|]. destruct a as [|c' a]; simpl; intros [[= _ Hs] Hb]; [by subst|].
      subst s. rewrite free_of_both, free_of_cons in E. naive_solver.
    + split; [done|]. destruct a as [|c' a]; simpl; intros [[= ? Hs] Hb]; [done|].
      subst s. rewrite free_of_both, free_of_cons in E. naive_solver.
Qed.
Lemma cut_first_None sep s : cut_first sep s = None ↔ free_of sep s.
Proof.
  induction s as [|c s IH]; [done|]. rewrite free_of_cons, <- IH. simpl.
  case_bool_decide; [naive_solver|]. destruct (cut_first sep s) as [[a b]|]; naive_solver.
Qed.
Lemma cut_first_Some sep s a b : cut_first sep s = Some (a, b) ↔ s = a +:+ String sep b ∧ free_of sep a.
Proof.
  revert a b. induction s as [|c s IH]; intros a b; simpl; [split; [done|by destruct a as [|? ?]; intros []]|].
  case_bool_decide as Hc.
  - split; [intros [= <- <-]; by subst|]. destruct a as [|c' a]; simpl; intros [[= ? ?] Hf]; [by subst|].
    apply free_of_cons in Hf. naive_solver.
  - destruct a as [|c' a]; simpl.
    + split; [|intros [[= ? ?] _]; done]. destruct (cut_first sep s) as [[? ?]|]; naive_solver.
    + rewrite free_of_cons. split.
      * destruct (cut_first sep s) as [[a' b']|] eqn:E; [|done]. intros [= -> -> ->].
        by destruct (proj1 (IH a b) eq_refl) as [-> ?].
      * intros [[= -> Hs] [_ Hf]]. by rewrite (proj2 (IH a b) (conj Hs Hf)).
Qed.

(** ** [net.SplitHostPort] *)
Definition SplitHostPort (hostport : string) : result (string * string) :=
  let fail why := Err (errorf ("address %s: " +:+ why) [hostport]) in
  match cut_last ":" hostport with
  | None => fail "missing port in address"
  | Some (before, port) =>
    match hostport with
    | String "[" rest =>
      match cut_first "]" hostport with
      | None => fail "missing ']' in address"
      | Some (opened, after) =>
        match after with
        | "" => fail "missing port in address"
        | String c _ =>
          if bool_decide (str_length before = S (str_length opened)) then
            if negb (bool_decide (free_of "[" rest)) then fail "unexpected '[' in address"
            else if negb (bool_decide (free_of "]" after)) then fail "unexpected ']' in address"
            else Ok (str_tail opened, port)
          else if bool_decide (c = ":"%char) then fail "too many colons in address"
          else fail "missing port in address"
        end
      end
    | _ =>
      if negb (bool_decide (free_of ":" before)) then fail "too many colons in address"
      else if negb (bool_decide (free_of "[" hostport)) then fail "unexpected '[' in address"
      else if negb (bool_decide (free_of "]" hostport)) then fail "unexpected ']' in address"
      else Ok (before, port)
    end
  end.

Definition free_of_brackets (s : string) : Prop := free_of "[" s ∧ free_of "]" s.
(** [host:port], or [[host]:port] for a host that may hold colons. *)
Definition host_port (s host port : string) : Prop :=
  free_of_brackets host ∧ free_of_brackets port ∧ free_of ":" port ∧
  (free_of ":" host ∧ s = host +:+ ":" +:+ port ∨ s = "[" +:+ host +:+ "]:" +:+ port).

Lemma str_app_inv_length a b c d : str_length a = str_length c → a +:+ b = c +:+ d → a = c ∧ b = d.
Proof.
  revert c. induction a as [|x a IH]; intros [|y c] Hl; simpl in *; try done.
  intros [= -> H]. destruct (IH c) as [-> ->]; [lia|done|done].
Qed.
Lemma split_bracketed rest h p :
  SplitHostPort (String "[" rest) = Ok (h, p) ↔
  free_of_brackets h ∧ free_of_brackets p ∧ free_of ":" p ∧ rest = h +:+ "]:" +:+ p.
Proof.
  unfold SplitHostPort, free_of_brackets. cbv zeta. split.
  - destruct (cut_last ":" _) as [[before port]|] eqn:El; [|done].
    destruct (cut_first "]" _) as [[opened after]|] eqn:Ef; [|done].
    destruct after as [|c tail]; [done|]. case_bool_decide as Hlen; [|by case_bool_decide].
    case_bool_decide as H1; [|done]. case_bool_decide as H2; [|done]. intros [= <- <-].
    apply cut_last_Some in El as [El Hp]. apply cut_first_Some in Ef as [Ef Ho].
    destruct opened as [|o opened]; [done|].
    change (String "[" rest = String o (opened +:+ String "]" (String c tail))) in Ef.
    injection Ef as <- ->. cbn [str_tail].
    rewrite free_of_both, !free_of_cons in H1. apply free_of_cons in Ho as [_ Ho].
    apply free_of_cons in H2 as [_ H2]. rename Hlen into Hl.
    assert (before = String "[" (opened +:+ "]") ∧ String ":" port = String c tail) as [Hb Hc].
    { apply str_app_inv_length; [rewrite Hl; cbn [str_length]; rewrite str_length_app; cbn [str_length]; lia|].
      rewrite <- El. rewrite str_app_String, str_app_assoc. done. }
    injection Hc as <- <-. destruct H1 as (? & _ & _ & ?). done.
  - intros ((H1 & H2) & (H3 & H4) & H5 & ->).
    assert (String "[" (h +:+ "]:" +:+ p) = (String "[" h +:+ "]") +:+ String ":" p) as E1
      by (by rewrite str_app_assoc).
    rewrite (proj2 (cut_last_Some ":" _ (String "[" h +:+ "]") p) (conj E1 H5)).
    rewrite (proj2 (cut_first_Some "]" (String "[" (h +:+ "]:" +:+ p)) (String "[" h) (String ":" p)))
      by (rewrite free_of_cons; done).
    rewrite bool_decide_true by (rewrite str_length_app; cbn [str_length]; lia).
    rewrite !bool_decide_true; [done| |].
    + rewrite free_of_cons. split; [|done]. done.
    + change (h +:+ "]:" +:+ p) with (h +:+ String "]" (String ":" p)).
      rewrite free_of_both, !free_of_cons. done.
Qed.
Lemma split_unbracketed s h p : (∀ rest, s ≠ String "[" rest) →
  SplitHostPort s = Ok (h, p) ↔
  free_of_brackets h ∧ free_of_brackets p ∧ free_of ":" p ∧ free_of ":" h ∧ s = h +:+ ":" +:+ p.
Proof.
  intros Hs. unfold free_of_brackets.
  assert (SplitHostPort s = match cut_last ":" s with
    | None => Err (errorf "address %s: missing port in address" [s])
    | Some (before, port) =>
      if negb (bool_decide (free_of ":" before)) then Err (errorf "address %s: too many colons in address" [s])
      else if negb (bool_decide (free_of "[" s)) then Err (errorf "address %s: unexpected '[' in address" [s])
      else if negb (bool_decide (free_of "]" s)) then Err (errorf "address %s: unexpected ']' in address" [s])
      else Ok (before, port) end) as ->.
  { unfold SplitHostPort. destruct (cut_last ":" s) as [[before port]|]; [|done].
    destruct s as [|[[] [] [] [] [] [] [] []] s]; try done. by destruct (Hs s). }
  split.
  - destruct (cut_last ":" s) as [[before port]|] eqn:El; [|done].
    apply cut_last_Some in El as [-> Hp].
    case_bool_decide as H1; [|done]. case_bool_decide as H2; [|done]. case_bool_decide as H3; [|done].
    intros [= <- <-]. rewrite free_of_both, free_of_cons in H2, H3. naive_solver.
  - intros ((H1 & H2) & (H3 & H4) & H5 & H6 & ->).
    rewrite (proj2 (cut_last_Some ":" (h +:+ ":" +:+ p) h p)) by done.
    change (":" +:+ p) with (String ":" p).
    rewrite !bool_decide_true; rewrite ?free_of_both, ?free_of_cons; done.
Qed.
(** [SplitHostPort] accepts exactly these texts, and gives back their parts. *)
Lemma SplitHostPort_exact s host port : SplitHostPort s = Ok (host, port) ↔ host_port s host port.
Proof.
  unfold host_port. assert ((∃ rest, s = String "[" rest) ∨ ∀ rest, s ≠ String "[" rest) as [[rest ->]|Hn].
  { destruct s as [|c s]; [by right|]. destruct (decide (c = "["%char)) as [->|]; [by left; exists s|].
    right. by intros rest [= ??]. }
  - rewrite split_bracketed. split.
    + intros (? & ? & ? & ->). split_and!; try done. by right.
    + intros (Hh & Hp & Hc & [[_ E]|E]); [|by injection E as ->]. exfalso.
      destruct Hh as [Hh _]. destruct host as [|c host]; [done|]. injection E as <- _.
      by apply free_of_cons in Hh as [[] _].
  - rewrite split_unbracketed by naive_solver. split; [naive_solver|].
    intros (? & ? & ? & [ [? ->] | -> ]); [done|]. by destruct (Hn (host +:+ "]:" +:+ port)).
Qed.

(** ** [net.ParseIP] *)
Definition v4_prefix : list Z := [0; 0; 0; 0; 0; 0; 0; 0; 0; 0; 255; 255].
(** A decimal octet, without leading zeros. *)
Definition octet (s : string) : option Z :=
  match s with
  | String "0" (String _ _) => None
  | _ => n ← decimal s; if n <=? 255 then Some n else None
  end.
(** [parseIPv4Fields] *)
Definition parseIPv4Fields (s : string) : option (list Z) :=
  match split_byte "." s with
  | [a; b; c; d] => a ← octet a; b ← octet b; c ← octet c; d ← octet d; Some [a; b; c; d]
  | _ => None
  end.
Definition hex_value (c : ascii) : option Z :=
  let n := byte_of c in
  if ascii_between "0" "9" c then Some (n - 48)
  else if ascii_between "a" "f" c then Some (n - 87)
  else if ascii_between "A" "F" c then Some (n - 55)
  else None.
(** The hexadecimal digits at the front, at most four: how many, their value, and the rest. *)
Fixpoint hex_group (off : nat) (acc : Z) (s : string) : option (nat * Z * string) :=
  match s with
  | "" => Some (off, acc, s)
  | String c rest =>
    match hex_value c with
    | None => Some (off, acc, s)
    | Some d => if Nat.ltb 3 off then None else hex_group (S off) (16 * acc + d) rest
    end
  end.
(** The loop of [parseIPv6]: [groups] 16-bit groups are still missing. *)
Fixpoint ipv6_groups (groups : nat) (ip : list Z) (ellipsis : option nat) (s : string)
    : option (list Z * option nat * string) :=
  match groups with
  | O => Some (ip, ellipsis, s)
  | S groups =>
    match hex_group 0 0 s with
    | None | Some (O, _, _) => None
    | Some (_, acc, String "." _) =>
      if (bool_decide (ellipsis = None) && negb (bool_decide (length ip = 12%nat))) ||
         Nat.ltb 16 (length ip + 4) then None
      else fields ← parseIPv4Fields s; Some (ip ++ fields, ellipsis, "")
    | Some (_, acc, rest) =>
      let ip := ip ++ [acc / 256; acc mod 256] in
      match rest with
      | "" => Some (ip, ellipsis, "")
      | String ":" (String ":" tail) =>
        if bool_decide (ellipsis = None) then
          if bool_decide (tail = "") then Some (ip, Some (length ip), "")
          else ipv6_groups groups ip (Some (length ip)) tail
        else None
      | String ":" (String c tail) => ipv6_groups groups ip ellipsis (String c tail)
      | _ => None
      end
    end
  end.
(** [parseIPv6] on a text without a zone. *)
Definition parseIPv6 (s : string) : option (list Z) :=
  let '(ellipsis, s) := match s with String ":" (String ":" s) => (Some O, s) | _ => (None, s) end in
  if bool_decide (ellipsis = Some O) && bool_decide (s = "") then Some (repeat 0 16)
  else
    '(ip, ellipsis, rest) ← ipv6_groups 8 [] ellipsis s;
    if negb (bool_decide (rest = "")) then None
    else if Nat.ltb (length ip) 16 then
      at_ ← ellipsis; Some (take at_ ip ++ repeat 0 (16 - length ip)%nat ++ drop at_ ip)
    else if bool_decide (ellipsis = None) then Some ip else None.
Fixpoint first_of (l : list ascii) (s : string) : option ascii :=
  match s with "" => None | String c s => if bool_decide (c ∈ l) then Some c else first_of l s end.
(** [net.ParseIP]: what [netip.ParseAddr] reads, in sixteen bytes; a zone is refused. *)
Definition ParseIP (s : string) : option (list Z) :=
  match first_of ["."; ":"; "%"]%char s with
  | Some "."%char => (λ fields, v4_prefix ++ fields) <$> parseIPv4Fields s
  | Some ":"%char => if bool_decide (free_of "%" s) then parseIPv6 s else None
  | _ => None
  end.
(** [IP.IsLoopback] *)
Definition IsLoopback (ip : list Z) : bool :=
  if bool_decide (take 12 ip = v4_prefix) then bool_decide (ip !! 12%nat = Some 127)
  else bool_decide (ip = repeat 0 15 ++ [1]).

(** Addresses in the textual forms of both families. *)
Example parsed_addresses :
  ParseIP <$> ["127.0.0.1"; "::1"; "0:0:0:0:0:0:0:1"; "::ffff:127.0.0.1"; "::ffff:7f00:1"] =
    [Some (v4_prefix ++ [127; 0; 0; 1]); Some (repeat 0 15 ++ [1]); Some (repeat 0 15 ++ [1]);
     Some (v4_prefix ++ [127; 0; 0; 1]); Some (v4_prefix ++ [127; 0; 0; 1])] ∧
  ParseIP <$> ["127.1"; "127.0.0.256"; "127.0.0.01"; "1::2::3"; "::1%lo"; "localhost"; ""; "12345::"; "1:2:3:4:5:6:7:8::"] =
    repeat None 9 ∧
  ParseIP "2001:db8::8:800:200c:417a" =
    Some [32; 1; 13; 184; 0; 0; 0; 0; 0; 8; 8; 0; 32; 12; 65; 122].
Proof. vm_compute. done. Qed.
