(* ===== verification/Slurm.v ===== *)
(** * The Slurm runtime (src/internal/provider/slurm/adapter.go)

    An activity becomes a batch script that Slurm runs; the script leaves a
    sentinel file with its state, which the adapter prefers over the answers of
    [sacct], [squeue] and [scontrol]. The command executor, the local adapter used
    for work on the login node, the directory of scripts and the source of
    identifiers are parameters, and so are [strconv.ParseFloat] and the base64
    decoder: the theorems hold for all of them. *)

From Stdlib Require Import Ascii.
From S2P Require Import Prelude GoStrings GoFloat Domain Ports Workflow Materialization Supervisor Shell.

Module Slurm.

(** ** Names *)
Definition slurmSentinelPrefix (runID activityID : string) : string :=
  "akoflow-" +:+ shellToken runID +:+ "-" +:+ shellToken activityID +:+ "-".
Definition slurmLogPath (runID activityID jobID : string) : string :=
  slurmSentinelPrefix runID activityID +:+ jobID +:+ ".log".
Definition slurmSentinelPath (runID activityID jobID : string) : string :=
  slurmSentinelPrefix runID activityID +:+ jobID +:+ ".status".
Definition slurmArtifactRoot (runID activityID : string) : string :=
  "akoflow-workspaces/" +:+ shellToken runID +:+ "/" +:+ shellToken activityID.

(** ** Executables *)

(** [slurmExecutable]: the path of the image, empty when there is none. *)
Definition slurmExecutable (command : ActivityCommand) : result string :=
  match command.(ActivityCommand.ResolvedExecutable) with
  | Some resolved =>
    let path := if bool_decide (resolved.(ResolvedExecutable.LocalPath) = "")
                then resolved.(ResolvedExecutable.RemotePath)
                else resolved.(ResolvedExecutable.LocalPath) in
    if bool_decide (path = "") || negb resolved.(ResolvedExecutable.MaterializationDone)
    then Err (errorf "executable materialization is not committed" [])
    else Ok path
  | None =>
    match EffectiveExecutable command with
    | None => Ok ""
    | Some ref =>
      let source := ref.(ExecutableReference.Source) in
      let image := trim_space command.(ActivityCommand.Image) in
      if bool_decide (source.(ExecutableSource.Type_) = ExecutableSourceRemoteFile) &&
         negb (bool_decide (source.(ExecutableSource.Path) = "")) &&
         bool_decide (ref.(ExecutableReference.Delivery).(ExecutableDelivery.Strategy) =
                      DeliveryUseInPlace)
      then Ok source.(ExecutableSource.Path)
      else if negb (bool_decide (image = "")) &&
              (has_prefix "/" image || has_prefix "./" image || has_suffix ".sif" image)
      then Ok image
      else Err (errorf "executable %q requires artifact materialization before Slurm submission"
                  [source.(ExecutableSource.Reference)])
    end
  end.

(** [validateSlurmPrerequisites] *)
Definition validateSlurmPrerequisites (activity : Activity) : result unit :=
  match slurmExecutable activity.(Activity.Command) with
  | Ok _ => Ok tt
  | Err e => Err (errorf "activity %q is not ready for Slurm: %w" [activity.(Activity.ID); e])
  end.

(** ** Scripts *)

(** The double quote of a text in which [~] stands for it. *)
Definition dq (s : string) : string := replace_byte "~"%char dquote s.

Definition export_line (item : string * string) : string :=
  let '(key, value) := item in
  "export " +:+ shellToken key +:+ "=" +:+ shellQuote value +:+ newline.

Definition marker_program : string := dq "awk '{print $1}' /proc/uptime > ~$1~; shift; exec ~$@~".

(** What precedes the entry point when the command runs in a container. *)
Definition container_prefix (image marker : string) : string :=
  if bool_decide (image = "") then ""
  else "singularity exec " +:+ shellQuote image +:+
    (if bool_decide (marker = "") then " "
     else " /bin/sh -c " +:+ shellQuote marker_program +:+ " sh " +:+ marker +:+ " ").

Section scripts.
Context `{MapOrder}.

(** [writeActivityCommand]: what it appends to the script. *)
Definition writeActivityCommand (salt : nat) (activity : Activity) (containerStartMarker : string)
    : result string :=
  let command := activity.(Activity.Command) in
  match slurmExecutable command with
  | Err e => Err e
  | Ok image =>
    Ok (String.concat "" (export_line <$> map_range salt command.(ActivityCommand.Environment)) +:+
        (if bool_decide (command.(ActivityCommand.WorkingDirectory) = "") then ""
         else "cd " +:+ shellQuote command.(ActivityCommand.WorkingDirectory) +:+ newline) +:+
        container_prefix image containerStartMarker +:+
        shellQuote command.(ActivityCommand.Entrypoint) +:+
        quoted_arguments command.(ActivityCommand.Arguments) +:+ newline)
  end.

(** [directScript] *)
Definition directScript (salt : nat) (activity : Activity) : result string :=
  if bool_decide (activity.(Activity.Command).(ActivityCommand.Entrypoint) = "") then
    Err (errorf "activity entrypoint is required" [])
  else
    body ← writeActivityCommand salt activity "";
    Ok ("#!/bin/sh" +:+ newline +:+ "set -eu" +:+ newline +:+ body).

(** [batchScript] *)
Definition sbatch (option value : string) : string :=
  "#SBATCH --" +:+ option +:+ "=" +:+ value +:+ newline.

Definition batch_options (runID : string) (activity : Activity) (partition node : string) : string :=
  let resources := activity.(Activity.Resources) in
  sbatch "job-name" (shellToken ("akoflow-" +:+ activity.(Activity.ID))) +:+
  sbatch "output" (slurmLogPath runID activity.(Activity.ID) "%j") +:+
  (if bool_decide (partition = "") then "" else sbatch "partition" (shellToken partition)) +:+
  (if bool_decide (node = "") then "" else sbatch "nodelist" (shellToken node)) +:+
  (if flt f0 resources.(ActivityResources.CPU)
   then sbatch "cpus-per-task"
          (itoa (trunc (fadd resources.(ActivityResources.CPU)
                          (fdiv (float_of_Z 999) (float_of_Z 1000)))))
   else "") +:+
  (if 0 <? resources.(ActivityResources.MemoryBytes)
   then sbatch "mem"
          (itoa (Z.quot (int64 (resources.(ActivityResources.MemoryBytes) + 2 ^ 20 - 1)) (2 ^ 20))
             +:+ "M")
   else "").

Definition batch_sentinel (runID : string) (activity : Activity) : string :=
  "sentinel_dir=$(pwd)" +:+ newline +:+
  dq "sentinel=$(printf '%s/%s' ~$sentinel_dir~ " +:+
  shellQuote (slurmSentinelPrefix runID activity.(Activity.ID)) +:+
  ")" +:+ newline +:+ dq "sentinel=~${sentinel}${SLURM_JOB_ID}.status~" +:+ newline +:+
  "artifact_root=" +:+ shellQuote activity.(Activity.Command).(ActivityCommand.WorkingDirectory) +:+
  newline +:+ dq "container_start_marker=~${sentinel}.container-started~" +:+
  newline +:+ dq "rm -f ~$container_start_marker~" +:+
  newline +:+ dq "mkdir -p ~$artifact_root~" +:+ newline +:+ "artifact_before=$(mktemp)" +:+
  newline +:+ dq "find ~$artifact_root~ -type f -print 2>/dev/null | sort > ~$artifact_before~" +:+
  newline +:+ "started_at=$(date +%s.%N)" +:+ newline +:+ "allocated_node=$(hostname -s)" +:+
  newline +:+ "container_epoch_anchor=$(date +%s.%N)" +:+
  newline +:+ "container_uptime_anchor=$(awk '{print $1}' /proc/uptime)" +:+
  newline +:+ dq "printf 'state=running\nstarted_at=%s\nallocated_node=%s\nartifact_root=%s\n' ~$started_at~ ~$allocated_node~ ~$artifact_root~ > ~$sentinel~" +:+ newline.

Definition batch_finish : string :=
  dq "finish() { code=$?; state=completed; [ ~$code~ -eq 0 ] || state=failed; " +:+
  dq "container_started_at=0; if [ -f ~$container_start_marker~ ]; then container_uptime=$(cat ~$container_start_marker~); container_started_at=$(awk -v epoch=~$container_epoch_anchor~ -v anchor=~$container_uptime_anchor~ -v current=~$container_uptime~ 'BEGIN { printf ~%.9f~, epoch + current - anchor }'); fi; " +:+
  dq "{ printf 'state=%s\nexit_code=%s\nstarted_at=%s\nallocated_node=%s\ncontainer_started_at=%s\nartifact_root=%s\n' ~$state~ ~$code~ ~$started_at~ ~$allocated_node~ ~$container_started_at~ ~$artifact_root~; " +:+
  dq "find ~$artifact_root~ -type f -print 2>/dev/null | sort | comm -13 ~$artifact_before~ - | " +:+
  dq "while IFS= read -r file; do relative=${file#~$artifact_root~/}; " +:+
  dq "size=$(wc -c < ~$file~ 2>/dev/null) || continue; " +:+
  dq "checksum=$(sha256sum ~$file~ 2>/dev/null | awk '{print $1}') || continue; " +:+
  dq "encoded=$(printf '%s' ~$relative~ | base64 | tr -d '\n'); " +:+
  dq "printf 'artifact=%s|%s|%s\n' ~$encoded~ ~$size~ ~$checksum~; done; " +:+
  dq "} > ~$sentinel~ || true; rm -f ~$artifact_before~ ~$container_start_marker~; exit ~$code~; }" +:+
  newline +:+ "trap finish EXIT" +:+ newline +:+ "set -eu" +:+ newline.

Definition batchScript (salt : nat) (runID : string) (activity : Activity) (partition node : string)
    : result string :=
  if bool_decide (activity.(Activity.Command).(ActivityCommand.Entrypoint) = "") then
    Err (errorf "activity entrypoint is required" [])
  else
    body ← writeActivityCommand salt activity "$container_start_marker";
    Ok ("#!/bin/sh" +:+ newline +:+ batch_options runID activity partition node +:+
        batch_sentinel runID activity +:+ batch_finish +:+ body).
End scripts.

(** ** Answers of the tools *)

(** [parseJobID]: the loop from the last line. *)
Fixpoint find_job_id (lines : list string) : option string :=
  match lines with
  | [] => None
  | line :: lines =>
    let line := trim_space line in
    if bool_decide (line = "") then find_job_id lines
    else
      let jobID := default "" (head (split_byte ";"%char line)) in
      match parse_uint jobID with
      | Some _ => Some jobID
      | None => find_job_id lines
      end
  end.
Definition parseJobID (output : string) : result string :=
  match find_job_id (reverse (split_byte LF output)) with
  | Some jobID => Ok jobID
  | None => Err (errorf "invalid Slurm job id in output %q" [trim_space output])
  end.

(** [sentinelValues] *)
Definition sentinel_line (values : gmap string string) (line : string) : gmap string string :=
  match cut_byte "="%char line with
  | None => values
  | Some (key, value) =>
    let key := if bool_decide (key = "artifact")
               then "artifact." +:+ itoa (Z.of_nat (size values)) else key in
    <[trim_space key := trim_space value]> values
  end.
Definition sentinelValues (payload : string) : gmap string string :=
  foldl sentinel_line ∅ (split_byte LF payload).

(** [slurmControlState] *)
Fixpoint control_state (words : list string) : string :=
  match words with
  | [] => ""
  | field :: words =>
    if has_prefix "JobState=" field then trim_prefix "JobState=" field else control_state words
  end.
Definition slurmControlState (payload : string) : string := control_state (fields payload).

(** ** The adapter *)

(** The configuration of the adapter; [configured] is [a.executor != nil]. *)
Module Adapter.
Record Adapter := mk { configured : bool; partition : string; submitFromStdin : bool }.
End Adapter.
Abbreviation Adapter := Adapter.Adapter.

Definition is_direct (handle : ActivityHandle) : bool :=
  match handle.(ActivityHandle.Metadata) !! "executionTarget"%string with
  | Some (AnyString s) => bool_decide (s = ResourceExecutionTarget_string ExecutionTargetDirect)
  | _ => false
  end.

Section adapter.
Context {W : Type} `{Clock W} `{MapOrder}.
(** [a.executor.Run(ctx, name, arguments, input)] *)
Variable run : string → list string → string → effr W string.
(** [a.direct], the adapter of package local. *)
Variable direct : RuntimeAdapter W.
(** [a.saveScript(runID, activityID, extension, content)] *)
Variable saveScript : string → string → string → string → effr W string.
(** [runtimecommon.NewID(prefix)] *)
Variable NewID : string → eff W string.
(** [strconv.ParseFloat(s, 64)] and [base64.StdEncoding.DecodeString(s)] *)
Variable parse_float : string → option float64.
Variable decode64 : string → option string.

(** [applySlurmStatus] *)
Definition slurm_state (handle : ActivityHandle) (state : string) : ActivityHandle :=
  if bool_decide (state ∈ ["PENDING"; "CONFIGURING"]) then
    handle <| ActivityHandle.Status := HandleStarting |>
  else if bool_decide (state ∈ ["RUNNING"; "COMPLETING"]) then
    handle <| ActivityHandle.Status := HandleRunning |>
  else if bool_decide (state = "COMPLETED") then
    handle <| ActivityHandle.Status := HandleCompleted |>
  else if bool_decide (state = "CANCELLED") then
    handle <| ActivityHandle.Status := HandleStopped |>
  else handle <| ActivityHandle.Status := HandleFailed |>
              <| ActivityHandle.Failure := "Slurm state: " +:+ state |>.

Definition applySlurmStatus (handle : ActivityHandle) (output : string) : eff W ActivityHandle :=
  let line := trim_space (default "" (head (split_byte LF output))) in
  let fields := split_byte "|"%char line in
  let first := default "" (head fields) in
  if bool_decide (first = "") then eret handle
  else
    let state := default "" (head (split_byte "+"%char first)) in
    let handle := slurm_state handle state in
    let handle := match fields with
      | _ :: code :: _ =>
        match parse_int (default "" (head (split_byte ":"%char code))) with
        | Some z => handle <| ActivityHandle.ExitCode := Some z |>
        | None => handle
        end
      | _ => handle
      end in
    if bool_decide (handle.(ActivityHandle.Status) ∈ [HandleCompleted; HandleFailed; HandleStopped])
    then let! now := unixNow in eret (handle <| ActivityHandle.FinishedAt := now |>)
    else eret handle.

(** [slurmArtifacts]: the loop over the values, then the manifest. *)
Definition slurm_artifact (item : string * string) : option ArtifactObservation :=
  let '(key, value) := item in
  if has_prefix "artifact." key then
    match split3 "|"%char value with
    | [encoded; size; checksum] =>
      match decode64 encoded, parse_int size with
      | Some path, Some bytes =>
        Some (ArtifactObservation.mk path ArtifactCreated bytes ("sha256:" +:+ checksum) 0)
      | _, _ => None
      end
    | _ => None
    end
  else None.

Definition slurmArtifacts (salt : nat) (handle : ActivityHandle) (values : gmap string string)
    : ArtifactManifest :=
  let root := lookup_zero values "artifact_root" in
  let root := if bool_decide (root = "")
    then meta_string handle.(ActivityHandle.Metadata) "artifactObservationRoot" else root in
  let code := default 0 handle.(ActivityHandle.ExitCode) in
  let files := omap slurm_artifact (map_range salt values) in
  let created := Z.of_nat (length files) in
  let bytes := foldl (λ n f, int64 (n + f.(ArtifactObservation.SizeBytes))) 0 files in
  let duration := fsub handle.(ActivityHandle.FinishedAt) handle.(ActivityHandle.StartedAt) in
  let duration := if flt duration f0 then f0 else duration in
  {| ArtifactManifest.SchemaVersion := 1;
     ArtifactManifest.RunID := handle.(ActivityHandle.RunID);
     ArtifactManifest.ActivityID := handle.(ActivityHandle.ActivityID);
     ArtifactManifest.Attempt := 1;
     ArtifactManifest.Runtime := handle.(ActivityHandle.RuntimeID);
     ArtifactManifest.Hostname := "";
     ArtifactManifest.Root := root;
     ArtifactManifest.StartedAt := handle.(ActivityHandle.StartedAt);
     ArtifactManifest.FinishedAt := handle.(ActivityHandle.FinishedAt);
     ArtifactManifest.ExitCode := code;
     ArtifactManifest.Files := files;
     ArtifactManifest.Phases := [LifecycleObservation.mk "execution"
       (if code =? 0 then "completed" else "failed") handle.(ActivityHandle.StartedAt)
       handle.(ActivityHandle.FinishedAt) duration ""];
     ArtifactManifest.Summary := ArtifactSummary.mk 0 created created 0 0 bytes |}.

(** [sentinelStatus]: the times and the node, which go into the metadata map
    shared with the caller's handle whether or not a state is found. *)
Definition sentinel_times (handle : ActivityHandle) (values : gmap string string)
    : ActivityHandle :=
  let handle := match parse_float (lookup_zero values "started_at") with
    | Some startedAt => if flt f0 startedAt
        then handle <| ActivityHandle.StartedAt := startedAt |> else handle
    | None => handle
    end in
  let metadata := handle.(ActivityHandle.Metadata) in
  let metadata := match parse_float (lookup_zero values "container_started_at") with
    | Some startedAt => if flt f0 startedAt
        then <[Supervisor.TimingContainerStartedAt := AnyFloat64 startedAt]> metadata else metadata
    | None => metadata
    end in
  let node := trim_space (lookup_zero values "allocated_node") in
  let metadata := if bool_decide (node = "") then metadata
    else <["allocatedNode"%string := AnyString node]> metadata in
  handle <| ActivityHandle.Metadata := metadata |>.

(** The state, the exit code and the artifacts. *)
Definition sentinel_exit (handle : ActivityHandle) (values : gmap string string) : ActivityHandle :=
  match parse_int (lookup_zero values "exit_code") with
  | Some code => handle <| ActivityHandle.ExitCode := Some code |>
  | None => handle
  end.

Definition sentinelStatus (salt : nat) (handle : ActivityHandle)
    : eff W (ActivityHandle * bool) :=
  let path := meta_string handle.(ActivityHandle.Metadata) "sentinelPath" in
  if bool_decide (path = "") then eret (handle, false)
  else
    let! payload := run "cat" [path] "" in
    match payload with
    | Err _ => eret (handle, false)
    | Ok payload =>
      let values := sentinelValues payload in
      let handle := sentinel_times handle values in
      let state := lookup_zero values "state" in
      if bool_decide (state = "running") then
        eret (sentinel_exit (handle <| ActivityHandle.Status := HandleRunning |>) values, true)
      else if bool_decide (state ∈ ["completed"; "failed"]) then
        let! now := unixNow in
        let handle := if bool_decide (state = "completed")
          then handle <| ActivityHandle.Status := HandleCompleted |>
                      <| ActivityHandle.FinishedAt := now |>
          else handle <| ActivityHandle.Status := HandleFailed |>
                      <| ActivityHandle.FinishedAt := now |>
                      <| ActivityHandle.Failure := "Slurm job exited with code " +:+
                           lookup_zero values "exit_code" |> in
        let handle := sentinel_exit handle values in
        eret (handle <| ActivityHandle.Artifacts := Some (slurmArtifacts salt handle values) |>, true)
      else eret (handle, false)
    end.

(** [fallbackStatus] *)
Definition query_failed (handle : ActivityHandle) (sacctErr : error) : effr W ActivityHandle :=
  let! now := unixNow in
  eret (Ok (handle <| ActivityHandle.Status := HandleFailed |>
                   <| ActivityHandle.Failure := "query Slurm job status: " +:+ sacctErr |>
                   <| ActivityHandle.FinishedAt := now |>)).

Definition control_status (handle : ActivityHandle) (sacctErr : error) : effr W ActivityHandle :=
  let! output := run "scontrol" ["show"; "job"; handle.(ActivityHandle.ExternalID); "--oneliner"] "" in
  let state := match output with Ok output => slurmControlState output | Err _ => "" end in
  if bool_decide (state = "") then query_failed handle sacctErr
  else let! handle := applySlurmStatus handle (state +:+ "|") in eret (Ok handle).

Definition fallbackStatus (handle : ActivityHandle) (sacctErr : error) : effr W ActivityHandle :=
  let! output := run "squeue"
    ["--noheader"; "--jobs"; handle.(ActivityHandle.ExternalID); "--format=%T"] "" in
  match output with
  | Ok output =>
    if bool_decide (trim_space output = "") then control_status handle sacctErr
    else let! handle := applySlurmStatus handle output in eret (Ok handle)
  | Err _ => control_status handle sacctErr
  end.

(** [Adapter.Inspect] *)
Definition read_log (handle : ActivityHandle) : eff W ActivityHandle :=
  let logPath := meta_string handle.(ActivityHandle.Metadata) "logPath" in
  if bool_decide (logPath = "") then eret handle
  else
    let! log := run "cat" [logPath] "" in
    match log with
    | Ok log => eret (handle <| ActivityHandle.Log := log |>)
    | Err _ => eret handle
    end.

Definition Inspect (salt : nat) (handle : ActivityHandle) : effr W ActivityHandle :=
  if is_direct handle then direct.(runtime_Inspect) handle
  else
    let! handle := read_log handle in
    let! observed := sentinelStatus salt handle in
    if observed.2 then eret (Ok observed.1)
    else
      let handle := handle <| ActivityHandle.Metadata := observed.1.(ActivityHandle.Metadata) |> in
      let! output := run "sacct" ["-j"; handle.(ActivityHandle.ExternalID); "--noheader";
        "--parsable2"; "--format=State,ExitCode"] "" in
      match output with
      | Err e => fallbackStatus handle e
      | Ok output => let! handle := applySlurmStatus handle output in eret (Ok handle)
      end.

(** [Adapter.Stop] *)
Definition Stop (handle : ActivityHandle) : effr W unit :=
  if is_direct handle then direct.(runtime_Stop) handle
  else
    let? _ := run "scancel" [handle.(ActivityHandle.ExternalID)] "" in
    eret (Ok tt).

(** [startDirect] *)
Definition startDirect (salt : nat) (execution : ActivityExecutionContext)
    : effr W ActivityHandle :=
  let activity := execution.(ActivityExecutionContext.Activity) in
  match directScript salt activity with
  | Err e => eret (Err e)
  | Ok script =>
    let? scriptPath := saveScript execution.(ActivityExecutionContext.Run).(ExecutionRun.ID)
      activity.(Activity.ID) ".sh" script in
    let command := (zero : ActivityCommand) <| ActivityCommand.Entrypoint := "/bin/sh" |>
      <| ActivityCommand.Arguments := [scriptPath] |>
      <| ActivityCommand.WorkingDirectory :=
           activity.(Activity.Command).(ActivityCommand.WorkingDirectory) |> in
    let? handle := direct.(runtime_Start) (execution <| ActivityExecutionContext.Activity :=
      activity <| Activity.Command := command |> |>) in
    eret (Ok (handle <| ActivityHandle.Metadata :=
      <["scriptPath"%string := AnyString scriptPath]>
        (<["slurmSubmission"%string := AnyString "login-node"]>
          (<["executionTarget"%string :=
               AnyString (ResourceExecutionTarget_string ExecutionTargetDirect)]>
             handle.(ActivityHandle.Metadata))) |>))
  end.

(** The partition and the node of [Start]. *)
Definition placement (a : Adapter) (resource : Resource) : string * string :=
  let named := negb (bool_decide (resource.(Resource.ProviderID) = "")) in
  (if bool_decide (resource.(Resource.Type_) = ResourceHPCPartition) && named
   then resource.(Resource.ProviderID) else a.(Adapter.partition),
   if bool_decide (resource.(Resource.Type_) = ResourceHPCMachine) && named
   then resource.(Resource.ProviderID) else "").

(** The handle of a submitted job. *)
Definition submitted (execution : ActivityExecutionContext) (workingDirectory scriptPath jobID id : string)
    (submittedAt : float64) : ActivityHandle :=
  let runID := execution.(ActivityExecutionContext.Run).(ExecutionRun.ID) in
  let activityID := execution.(ActivityExecutionContext.Activity).(Activity.ID) in
  {| ActivityHandle.ID := id; ActivityHandle.RunID := runID;
     ActivityHandle.ActivityID := activityID;
     ActivityHandle.ResourceID := execution.(ActivityExecutionContext.Resource).(Resource.ID);
     ActivityHandle.RuntimeID := execution.(ActivityExecutionContext.RuntimeID);
     ActivityHandle.ExternalID := jobID;
     ActivityHandle.Status := HandleStarting;
     ActivityHandle.Endpoints := [];
     ActivityHandle.StartedAt := submittedAt;
     ActivityHandle.FinishedAt := f0;
     ActivityHandle.ExitCode := None; ActivityHandle.Failure := ""; ActivityHandle.Log := "";
     ActivityHandle.Artifacts := None;
     ActivityHandle.Metadata := list_to_map (M := metadata) [
       ("executionTarget", AnyString (ResourceExecutionTarget_string ExecutionTargetBatch));
       ("scriptPath", AnyString scriptPath);
       ("logPath", AnyString (slurmLogPath runID activityID jobID));
       ("sentinelPath", AnyString (slurmSentinelPath runID activityID jobID));
       (Supervisor.TimingSubmittedAt, AnyFloat64 submittedAt);
       ("artifactObservationDriver", AnyString "filesystem-diff");
       ("artifactObservationRoot", AnyString workingDirectory)]%string |}.

(** [Adapter.Start] *)
Definition gate_ready (execution : ActivityExecutionContext) : result unit :=
  match execution.(ActivityExecutionContext.Preparation) with
  | None => Ok tt
  | Some gate =>
    match Ready gate with
    | Ok _ => Ok tt
    | Err e => Err (errorf "activity %q is not ready for Slurm: %w"
        [execution.(ActivityExecutionContext.Activity).(Activity.ID); e])
    end
  end.

Definition Start (a : Adapter) (salt : nat) (execution : ActivityExecutionContext)
    : effr W ActivityHandle :=
  let activity := execution.(ActivityExecutionContext.Activity) in
  let resource := execution.(ActivityExecutionContext.Resource) in
  let runID := execution.(ActivityExecutionContext.Run).(ExecutionRun.ID) in
  match gate_ready execution ≫= (λ _, validateSlurmPrerequisites activity) with
  | Err e => eret (Err e)
  | Ok _ =>
    if bool_decide (resource.(Resource.ExecutionTarget) = ExecutionTargetDirect) then
      startDirect salt execution
    else if negb a.(Adapter.configured) then
      eret (Err (errorf "slurm command executor is required" []))
    else
      let '(partition, node) := placement a resource in
      let command := activity.(Activity.Command) in
      let activity := if bool_decide (command.(ActivityCommand.WorkingDirectory) = "")
        then activity <| Activity.Command := command <| ActivityCommand.WorkingDirectory :=
               slurmArtifactRoot runID activity.(Activity.ID) |> |>
        else activity in
      match batchScript salt runID activity partition node with
      | Err e => eret (Err e)
      | Ok script =>
        let? scriptPath := saveScript runID activity.(Activity.ID) ".sbatch" script in
        let? output := if a.(Adapter.submitFromStdin)
          then run "sbatch" ["--parsable"] script
          else run "sbatch" ["--parsable"; scriptPath] "" in
        match parseJobID output with
        | Err e => eret (Err e)
        | Ok jobID =>
          let! submittedAt := unixNow in
          let! id := NewID "activity" in
          eret (Ok (submitted execution activity.(Activity.Command).(ActivityCommand.WorkingDirectory)
                      scriptPath jobID id submittedAt))
        end
      end
  end.
End adapter.

(** ** The commands of a script *)
Definition export_words (item : string * string) : list string :=
  let '(key, value) := item in ["export"; shellToken key +:+ "=" +:+ value].
Definition program_words (image marker : string) (command : ActivityCommand) : list string :=
  (if bool_decide (image = "") then []
   else ["singularity"; "exec"; image] ++
     (if bool_decide (marker = "") then [] else ["/bin/sh"; "-c"; marker_program; "sh"; marker])) ++
  command.(ActivityCommand.Entrypoint) :: command.(ActivityCommand.Arguments).

Lemma words_literal c p acc t : str_forall plain_byte (String c p) = true →
  words Unquoted None acc (String c p +:+ " " +:+ t) = words Unquoted None (acc ++ [String c p]) t.
Proof. intros. by rewrite words_start, words_blank. Qed.

Lemma export_renders item : renders (export_line item) [export_words item].
Proof.
  destruct item as [key value]. apply renders_line; [|done]. intros t. unfold export_line.
  rewrite !str_app_assoc. change ("export " +:+ ?s) with ("export" +:+ " " +:+ s).
  rewrite words_literal by done. cbn [app].
  assert (words Unquoted None ["export"] (shellToken key +:+ "=" +:+ shellQuote value +:+ newline +:+ t) =
    words Unquoted (Some (shellToken key +:+ "=")) ["export"] (shellQuote value +:+ newline +:+ t)) as ->.
  { pose proof (shellToken_plain key) as Hp. destruct (shellToken key) as [|c p].
    - change ("" +:+ ?u) with u. by rewrite (words_start "="%char "").
    - by rewrite words_start, words_plain. }
  rewrite words_quote, words_end. simpl. by rewrite str_app_assoc.
Qed.

Lemma exports_render items :
  renders (String.concat "" (export_line <$> items)) (export_words <$> items).
Proof.
  induction items as [|x items IH]; [constructor|].
  assert (String.concat "" (export_line <$> x :: items) =
    export_line x +:+ String.concat "" (export_line <$> items)) as ->.
  { destruct items; simpl; [by rewrite str_app_nil_r|done]. }
  apply (renders_app _ [export_words x]); [apply export_renders|done].
Qed.

(** Everything before the entry point. *)
Lemma prefix_words image marker acc t : str_forall plain_byte marker = true →
  words Unquoted None acc (container_prefix image marker +:+ t) =
  words Unquoted None (acc ++ if bool_decide (image = "") then []
   else ["singularity"; "exec"; image] ++
     (if bool_decide (marker = "") then [] else ["/bin/sh"; "-c"; marker_program; "sh"; marker])) t.
Proof.
  intros Hm. unfold container_prefix. case_bool_decide; [by rewrite app_nil_r|].
  rewrite !str_app_assoc.
  change ("singularity exec " +:+ ?s) with ("singularity" +:+ " " +:+ "exec" +:+ " " +:+ s).
  rewrite !words_literal, words_quote by done. case_bool_decide as Hmk.
  - rewrite words_blank. simpl. by rewrite <- !app_assoc.
  - rewrite !str_app_assoc.
    change (" /bin/sh -c " +:+ ?s) with (" " +:+ "/bin/sh" +:+ " " +:+ "-c" +:+ " " +:+ s).
    rewrite words_blank, !words_literal, words_quote by done.
    change (" sh " +:+ ?s) with (" " +:+ "sh" +:+ " " +:+ s).
    rewrite words_blank, words_literal by done. destruct marker as [|c p]; [done|].
    rewrite words_start, words_blank by done. simpl. by rewrite <- !app_assoc.
Qed.

Section command_lines.
Context `{MapOrder}.

Lemma command_renders salt activity marker text image :
  str_forall plain_byte marker = true →
  slurmExecutable activity.(Activity.Command) = Ok image →
  writeActivityCommand salt activity marker = Ok text →
  let command := activity.(Activity.Command) in
  renders text ((export_words <$> map_range salt command.(ActivityCommand.Environment)) ++
    (if bool_decide (command.(ActivityCommand.WorkingDirectory) = "") then []
     else [["cd"; command.(ActivityCommand.WorkingDirectory)]]) ++
    [program_words image marker command]).
Proof.
  intros Hm Him. unfold writeActivityCommand. rewrite Him. intros [= <-].
  apply renders_app; [apply exports_render|]. apply renders_app.
  - case_bool_decide; [constructor|]. apply renders_line; [|done]. intros t.
    rewrite !str_app_assoc. change ("cd " +:+ ?s) with ("cd" +:+ " " +:+ s).
    by rewrite words_literal, words_quote, words_end.
  - apply renders_line.
    + intros t. rewrite !str_app_assoc, prefix_words, words_quote, words_arguments by done. done.
    + intros [_ E]%str_app_nil_inv. by apply str_app_nil_inv in E as [E _].
Qed.
End command_lines.

(** ** Numbers in text *)
Lemma digit_char_spec d : 0 ≤ d < 10 →
  is_digit (digit_char d) = true ∧ digit_value (digit_char d) = d.
Proof.
  intros Hd. assert (Forall (λ d, is_digit (digit_char d) = true ∧ digit_value (digit_char d) = d)
    (seqZ 0 10)) as Hall by (vm_compute; repeat constructor).
  rewrite Forall_forall in Hall. apply Hall, elem_of_seqZ. lia.
Qed.

Lemma digits_fuel_spec fuel z acc : 0 ≤ z < 10 ^ Z.of_nat fuel → (0 < fuel)%nat →
  ∃ p k, digits_fuel fuel z acc = p +:+ acc ∧ p ≠ "" ∧ str_forall is_digit p = true ∧ 0 ≤ k ∧
    ∀ n s, decimal_from n (p +:+ s) = decimal_from (n * 10 ^ k + z) s.
Proof.
  revert z acc. induction fuel as [|fuel IH]; intros z acc Hz Hf; [lia|].
  cbn [digits_fuel]. pose proof (Z.mod_pos_bound z 10). 
  destruct (digit_char_spec (z mod 10)) as [Hd Hv]; [lia|].
  set (c := digit_char (z mod 10)) in *. clearbody c.
  destruct (Z.ltb_spec z 10) as [Hlt|Hge].
  - exists (String c ""), 1. split_and!; [done|done|by simpl; rewrite Hd|lia|].
    intros n s. rewrite str_app_cons. cbn [decimal_from]. rewrite Hv. f_equal. rewrite Z.mod_small by lia. lia.
  - destruct fuel as [|fuel]; [simpl in Hz; lia|].
    destruct (IH (z / 10) (String c acc)) as (p & k & E & Hne & Hp & Hk & Hdec).
    { rewrite Nat2Z.inj_succ, Z.pow_succ_r in Hz by lia. split; [apply Z.div_pos; lia|].
      apply Z.div_lt_upper_bound; lia. }
    { lia. }
    exists (p +:+ String c ""), (k + 1). split_and!.
    + rewrite E, str_app_assoc. done.
    + intros [? _]%str_app_nil_inv. done.
    + rewrite str_forall_app, Hp. simpl. by rewrite Hd.
    + lia.
    + intros n s. rewrite str_app_assoc, Hdec. rewrite str_app_cons. cbn [decimal_from]. rewrite Hv. f_equal.
      assert (z = 10 * (z / 10) + z mod 10) by (apply Z.div_mod; lia).
      rewrite Z.pow_add_r by lia. lia.
Qed.

Lemma itoa_decimal z : 0 ≤ z → decimal (itoa z) = Some z.
Proof.
  intros Hz. unfold itoa. rewrite (proj2 (Z.ltb_ge z 0)) by done. unfold digits.
  destruct (digits_fuel_spec (S (Z.to_nat (Z.log2 z))) z "") as (p & k & -> & Hne & Hp & _ & Hdec); [|lia|].
  { split; [done|]. rewrite Nat2Z.inj_succ, Z2Nat.id by apply Z.log2_nonneg.
    apply Z.lt_le_trans with (2 ^ Z.succ (Z.log2 z)).
    - destruct (Z.eq_dec z 0) as [->|]; [done|]. apply Z.log2_spec. lia.
    - apply Z.pow_le_mono_l. lia. }
  unfold decimal. rewrite str_app_nil_r, bool_decide_false, Hp by done. simpl. f_equal.
  specialize (Hdec 0 ""). rewrite str_app_nil_r in Hdec. rewrite Hdec. simpl. lia.
Qed.

Lemma decimal_inv s z : decimal s = Some z → s ≠ "" ∧ str_forall is_digit s = true.
Proof.
  unfold decimal. destruct (negb _ && _) eqn:E; [|done].
  by rewrite andb_true_iff, negb_true_iff, bool_decide_eq_false in E.
Qed.

Lemma parse_int_itoa z : 0 ≤ z < 2 ^ 63 → parse_int (itoa z) = Some z.
Proof.
  intros Hz. pose proof (itoa_decimal z ltac:(lia)) as Hd.
  destruct (decimal_inv _ _ Hd) as [Hne Hall]. unfold parse_int.
  destruct (itoa z) as [|c s]; [done|]. cbn [str_forall] in Hall. apply andb_true_iff in Hall as [Hc _].
  assert ((- 2 ^ 63 <=? z) && (z <? 2 ^ 63) = true) as Hrange by lia.
  assert (c ≠ "-"%char ∧ c ≠ "+"%char) as [Hm Hp] by (split; intros ->; by vm_compute in Hc).
  cbv zeta. rewrite Hd, Hrange. repeat (case_match; try done).
Qed.

Lemma trim_clean s : str_forall (λ c, negb (is_space c)) s = true → trim_space s = s.
Proof.
  unfold trim_space, trim. intros Hs.
  assert (∀ u, str_forall (λ c, negb (is_space c)) u = true → trim_right is_space u = u) as Hr.
  { induction u as [|c u IH]; [done|]. cbn [str_forall trim_right]. intros [Hc Hu]%andb_true_iff.
    rewrite IH by done. destruct u; [|done]. by apply negb_true_iff in Hc as ->. }
  destruct s as [|c s]; [done|]. cbn [trim_left]. pose proof Hs as Hs'. cbn [str_forall] in Hs'.
  apply andb_true_iff in Hs' as [Hc _]. apply negb_true_iff in Hc as ->. by apply Hr.
Qed.

Lemma digit_not_space c : is_digit c = true → is_space c = false.
Proof.
  unfold is_digit, ascii_between, is_space.
  change (byte_of "0"%char) with 48. change (byte_of "9"%char) with 57. lia.
Qed.
Lemma trim_itoa z : 0 ≤ z → trim_space (itoa z) = itoa z.
Proof.
  intros Hz. apply trim_clean. destruct (decimal_inv _ _ (itoa_decimal z Hz)) as [_ Hd].
  eapply str_forall_impl, Hd. intros c Hc. by rewrite digit_not_space.
Qed.

(** ** The sentinel file *)

(** A line [key=value], and the text of several lines. *)
Definition binding (item : string * string) : string := item.1 +:+ "=" +:+ item.2.
Definition lines_text (lines : list string) : string :=
  String.concat "" ((λ l, l +:+ newline) <$> lines).

Lemma lines_text_cons l ls : lines_text (l :: ls) = l +:+ newline +:+ lines_text ls.
Proof.
  unfold lines_text. destruct ls; simpl; by rewrite ?str_app_nil_r, ?str_app_assoc.
Qed.
Lemma split_lines ls : Forall (free_of LF) ls → split_byte LF (lines_text ls) = ls ++ [""].
Proof.
  induction 1 as [|l ls Hl _ IH]; [done|]. rewrite lines_text_cons.
  unfold newline. by rewrite split_byte_app, IH, split_byte_single.
Qed.

Lemma cut_binding k v : free_of "="%char k → cut_byte "="%char (binding (k, v)) = Some (k, v).
Proof.
  unfold binding, free_of. simpl. induction k as [|c k IH]; [done|].
  cbn [str_forall]. intros [Hc Hk]%andb_true_iff. rewrite str_app_cons. cbn [cut_byte].
  apply negb_true_iff, bool_decide_eq_false in Hc. rewrite bool_decide_false by done.
  by rewrite IH.
Qed.

Lemma sentinel_binding values k v : free_of "="%char k → k ≠ "artifact" → trim_space k = k →
  sentinel_line values (binding (k, v)) = <[k := trim_space v]> values.
Proof.
  intros Hf Hne Hk. unfold sentinel_line. rewrite cut_binding by done.
  by rewrite bool_decide_false, Hk by done.
Qed.

(** Lines that announce artifacts leave the other values alone. *)
Lemma sentinel_artifact values v k : has_prefix "artifact." k = false →
  lookup_zero (sentinel_line values (binding ("artifact", v))) k = lookup_zero values k.
Proof.
  intros Hk. unfold sentinel_line. rewrite cut_binding by done. rewrite bool_decide_true by done.
  unfold lookup_zero. rewrite lookup_insert_ne; [done|]. intros E. rewrite trim_clean in E.
  - by rewrite <- E, has_prefix_app in Hk.
  - rewrite str_forall_app. apply andb_true_iff. split; [done|].
    destruct (decimal_inv _ _ (itoa_decimal (Z.of_nat (size values)) ltac:(lia))) as [_ Hd].
    eapply str_forall_impl, Hd. intros c Hc. by rewrite digit_not_space.
Qed.

Lemma sentinel_artifacts artifacts values k : has_prefix "artifact." k = false →
  lookup_zero (foldl sentinel_line values ((λ v, binding ("artifact", v)) <$> artifacts)) k =
  lookup_zero values k.
Proof.
  intros Hk. revert values. induction artifacts as [|v l IH]; intros values; [done|].
  cbn [fmap list_fmap foldl]. by rewrite IH, sentinel_artifact.
Qed.

(** What the function [finish] of the batch script prints. *)
Definition finish_payload (code : Z) (started node container root : string)
    (artifacts : list string) : string :=
  lines_text ([binding ("state", if code =? 0 then "completed" else "failed");
               binding ("exit_code", itoa code); binding ("started_at", started);
               binding ("allocated_node", node); binding ("container_started_at", container);
               binding ("artifact_root", root)] ++ ((λ v, binding ("artifact", v)) <$> artifacts)).

Lemma finish_values code started node container root artifacts :
  0 ≤ code → free_of LF started → free_of LF node → free_of LF container → free_of LF root →
  Forall (free_of LF) artifacts →
  let values := sentinelValues (finish_payload code started node container root artifacts) in
  lookup_zero values "state" = (if code =? 0 then "completed" else "failed") ∧
  lookup_zero values "exit_code" = itoa code.
Proof.
  intros Hcode H1 H2 H3 H4 Ha. unfold sentinelValues, finish_payload.
  assert (∀ c s t, free_of c s → free_of c t → free_of c (s +:+ t)) as Happ.
  { unfold free_of. intros c s t Hs Ht. by rewrite str_forall_app, Hs, Ht. }
  assert (free_of LF (itoa code)) as Hi.
  { destruct (decimal_inv _ _ (itoa_decimal code Hcode)) as [_ Hd].
    eapply str_forall_impl, Hd. intros c Hc. apply negb_true_iff, bool_decide_eq_false. intros ->.
    by vm_compute in Hc. }
  rewrite split_lines.
  2: { repeat (apply Forall_cons; split; [unfold binding; repeat apply Happ; try done|]).
       - simpl. by destruct (code =? 0).
       - apply Forall_fmap. eapply Forall_impl; [done|]. intros v Hv. unfold binding.
         repeat apply Happ; done. }
  rewrite !foldl_app. cbn [foldl app].
  rewrite !sentinel_binding by done. cbn [sentinel_line cut_byte].
  rewrite !sentinel_artifacts by done. unfold lookup_zero.
  repeat (rewrite lookup_insert_ne by done).
  rewrite lookup_insert_eq, trim_itoa by done.
  repeat (rewrite lookup_insert_ne by done). rewrite lookup_insert_eq.
  split; [by destruct (code =? 0)|done].
Qed.

Lemma find_job_id_spec lines id : find_job_id lines = Some id → is_Some (parse_uint id).
Proof.
  induction lines as [|l lines IH]; cbn [find_job_id]; [done|]. case_bool_decide; [done|].
  destruct (parse_uint (default "" (head _))) eqn:E; [|done]. intros [= <-]. by rewrite E.
Qed.

(** ** The contract of the adapter *)
Section contract.
Context {W : Type} `{Clock W} `{MapOrder}.
Variable run : string → list string → string → effr W string.
Variable direct : RuntimeAdapter W.
Variable saveScript : string → string → string → string → effr W string.
Variable NewID : string → eff W string.
Variable parse_float : string → option float64.
Variable decode64 : string → option string.

(** C27: The shell runs what the activity says: for any values of the environment,
    the working directory, the image, the entry point and the arguments, quotes,
    blanks and newlines included, the command lines the adapter writes are read
    by a POSIX shell as exactly these commands: one export per variable, the
    change of directory if any, and the entry point with its arguments, each
    argument one word, inside the container image if there is one. *)
Theorem slurm_command_exact salt activity marker text image :
  str_forall plain_byte marker = true →
  slurmExecutable activity.(Activity.Command) = Ok image →
  writeActivityCommand salt activity marker = Ok text →
  let command := activity.(Activity.Command) in
  let cmds := (export_words <$> map_range salt command.(ActivityCommand.Environment)) ++
    (if bool_decide (command.(ActivityCommand.WorkingDirectory) = "") then []
     else [["cd"; command.(ActivityCommand.WorkingDirectory)]]) ++
    [program_words image marker command] in
  commands (length cmds) text = Some cmds.
Proof. intros. by apply renders_commands, command_renders. Qed.

(** Nothing reaches Slurm before it is ready: when the preparation gate is not
    ready or the executable is not at a committed location, starting fails and the
    world is untouched (no script is saved, no command is run); and a job that was
    submitted has a numeric job identifier, the status starting, and a handle that
    names the sentinel file of that very job. *)
Theorem slurm_start_guarded a salt execution w :
  match gate_ready execution,
        slurmExecutable execution.(ActivityExecutionContext.Activity).(Activity.Command) with
  | Ok _, Ok _ => ∀ handle w',
      execution.(ActivityExecutionContext.Resource).(Resource.ExecutionTarget) ≠ ExecutionTargetDirect →
      Start run direct saveScript NewID a salt execution w = (Ok handle, w') →
      handle.(ActivityHandle.Status) = HandleStarting ∧
      is_Some (parse_uint handle.(ActivityHandle.ExternalID)) ∧
      meta_string handle.(ActivityHandle.Metadata) "sentinelPath" =
        slurmSentinelPath execution.(ActivityExecutionContext.Run).(ExecutionRun.ID)
          execution.(ActivityExecutionContext.Activity).(Activity.ID)
          handle.(ActivityHandle.ExternalID)
  | _, _ => ∃ e, Start run direct saveScript NewID a salt execution w = (Err e, w)
  end.
Proof.
  unfold Start, validateSlurmPrerequisites.
  destruct (gate_ready execution) as [[]|e]; [|by eexists]. cbn [mbind result_bind].
  destruct (slurmExecutable _) as [image|e]; [|by eexists].
  intros handle w' Hdir. rewrite bool_decide_false by done.
  destruct (negb _); [done|]. destruct (placement a _) as [partition node].
  destruct (batchScript _ _ _ _ _) as [script|e]; [|done]. unfold ebindr.
  destruct (saveScript _ _ _ _ w) as [[path|e] w1]; [|done].
  match goal with |- context [(if ?b then ?x else ?y) w1] =>
    destruct ((if b then x else y) w1) as [[output|e] w2]; [|done] end.
  unfold parseJobID. destruct (find_job_id _) as [jobID|] eqn:Ej; [|done].
  apply find_job_id_spec in Ej. unfold ebind, eret.
  destruct (unixNow w2) as [now w3]. destruct (NewID _ w3) as [id w4].
  intros [= <- _]. split_and!; [done|exact Ej|].
  unfold meta_string, lookup_zero. reflexivity.
Qed.

(** The exit of a job is reported faithfully: once the function that the batch
    script runs on exit has written the sentinel file for an exit code, whatever
    the node, the times and the artifacts, an inspection of the job's handle
    returns that exit code, with the status completed exactly when it is zero and
    failed otherwise, and a manifest of the artifacts, without asking Slurm. *)
Theorem slurm_exit_reported salt handle w code started node container root artifacts :
  is_direct handle = false →
  meta_string handle.(ActivityHandle.Metadata) "sentinelPath" ≠ "" →
  (∀ w, ∃ w', run "cat" [meta_string handle.(ActivityHandle.Metadata) "sentinelPath"] "" w =
     (Ok (finish_payload code started node container root artifacts), w')) →
  0 ≤ code < 2 ^ 63 →
  free_of LF started → free_of LF node → free_of LF container → free_of LF root →
  Forall (free_of LF) artifacts →
  ∃ h w', Inspect run direct parse_float decode64 salt handle w = (Ok h, w') ∧
    h.(ActivityHandle.ID) = handle.(ActivityHandle.ID) ∧
    h.(ActivityHandle.ExitCode) = Some code ∧
    h.(ActivityHandle.Status) = (if code =? 0 then HandleCompleted else HandleFailed) ∧
    is_Some h.(ActivityHandle.Artifacts).
Proof.
  intros Hd Hp Hrun Hcode H1 H2 H3 H4 Ha. unfold Inspect. rewrite Hd. unfold ebind.
  assert (∃ log w1, read_log run handle w = (handle <| ActivityHandle.Log := log |>, w1))
    as (log & w1 & ->).
  { unfold read_log, ebind, eret. case_bool_decide; [exists handle.(ActivityHandle.Log), w; by destruct handle|].
    destruct (run _ _ _ w) as [[log|e] w1]; [by exists log, w1|].
    exists handle.(ActivityHandle.Log), w1. by destruct handle. }
  unfold sentinelStatus, ebind.
  rewrite bool_decide_false by done. destruct (Hrun w1) as [w2 Hr].
  change (meta_string (ActivityHandle.Metadata (handle <| ActivityHandle.Log := log |>)) "sentinelPath")
    with (meta_string handle.(ActivityHandle.Metadata) "sentinelPath"). rewrite Hr.
  destruct (finish_values code started node container root artifacts) as [Hs Hc]; [lia|done..|].
  set (values := sentinelValues _) in *. rewrite Hs.
  set (h1 := sentinel_times parse_float _ values).
  assert (h1.(ActivityHandle.ID) = handle.(ActivityHandle.ID)) as Hid.
  { unfold h1, sentinel_times. simpl.
    by destruct (parse_float (lookup_zero values "started_at")) as [f|]; [destruct (flt f0 f)|]. }
  clearbody h1. unfold sentinel_exit. rewrite Hc, parse_int_itoa by done. unfold eret.
  destruct (code =? 0); simpl; destruct (unixNow w2) as [now w3]; simpl;
    eexists _, _; (split; [reflexivity|]); repeat split; try done; by eexists.
Qed.
End contract.

(** ** A concrete activity and a concrete job *)
Module Example.
Definition activity : Activity := (zero : Activity) <| Activity.ID := "align" |>
  <| Activity.Command := ActivityCommand.mk "/images/align.sif" None None "align"
       ["it's"; "a b"; "$HOME"] {[ "MODE"%string := "fast; rm -rf /"%string ]} "/data" |>.
Definition script : string :=
  match writeActivityCommand 0 activity "$container_start_marker" with Ok s => s | Err _ => "" end.
Lemma written : writeActivityCommand 0 activity "$container_start_marker" = Ok script.
Proof. vm_compute. reflexivity. Qed.
Lemma image : slurmExecutable activity.(Activity.Command) = Ok "/images/align.sif".
Proof. vm_compute. reflexivity. Qed.

Definition clock : Clock unit := eret 0.
Definition handle : ActivityHandle := (zero : ActivityHandle) <| ActivityHandle.ID := "h" |>
  <| ActivityHandle.Metadata := {[ "sentinelPath"%string := AnyString "job.status" ]} |>.
Definition shell (name : string) (arguments : list string) (input : string) : effr unit string :=
  eret (Ok (finish_payload 3 "1.5" "node7" "0" "/data" ["YQ==|4|abc"])).
Definition none : RuntimeAdapter unit := {|
  Modes := [];
  runtime_Start _ := eret (Err "unused");
  runtime_Inspect _ := eret (Err "unused");
  runtime_Stop _ := eret (Err "unused") |}.
End Example.

Lemma slurm_command_exact_witness :
  commands 3 Example.script = Some [
    ["export"; "MODE=fast; rm -rf /"];
    ["cd"; "/data"];
    ["singularity"; "exec"; "/images/align.sif"; "/bin/sh"; "-c"; marker_program; "sh";
     "$container_start_marker"; "align"; "it's"; "a b"; "$HOME"]].
Proof.
  exact (slurm_command_exact 0 Example.activity "$container_start_marker" Example.script
    "/images/align.sif" eq_refl Example.image Example.written).
Defined.

Lemma slurm_exit_reported_witness :
  ∃ h w', @Inspect unit Example.clock canonical_order Example.shell Example.none (λ _, None)
      (λ _, None) 0 Example.handle tt = (Ok h, w') ∧
    h.(ActivityHandle.ID) = "h" ∧ h.(ActivityHandle.ExitCode) = Some 3 ∧
    h.(ActivityHandle.Status) = HandleFailed ∧ is_Some h.(ActivityHandle.Artifacts).
Proof.
  apply (@slurm_exit_reported unit Example.clock canonical_order Example.shell Example.none
    (λ _, None) (λ _, None) 0 Example.handle tt 3 "1.5" "node7" "0" "/data" ["YQ==|4|abc"]);
    try (vm_compute; reflexivity).
  - vm_compute. discriminate.
  - intros w. exists w. reflexivity.
  - lia.
  - repeat constructor.
Defined.
End Slurm.
