(* ===== verification/Requests.v ===== *)
(** * Workflow requests (src/internal/api/requests/workflow.go)

    The portable authoring format: [Domain] turns a request into a workflow
    definition, [FromDomain] exports a definition back. Names are ASCII text. *)

From Stdlib Require Import Ascii.
From S2P Require Import Prelude GoStrings GoFloat Domain Workflow Shell Slurm.

Module Requests.
Module WorkflowActivity.
Record WorkflowActivity := mk {
  Name : string;
  Command : ActivityCommand;
  Image : string;
  Runtime : string;
  Run : string;
  MemoryLimit : string;
  CPULimit : string;
  DependsOn : list string;
  ResourceSelector : string;
  KeepDisk : bool;
  MountPath : string
}.
#[global] Instance eta : Eta WorkflowActivity := λ r,
  mk r.(Name) r.(Command) r.(Image) r.(Runtime) r.(Run) r.(MemoryLimit) r.(CPULimit)
    r.(DependsOn) r.(ResourceSelector) r.(KeepDisk) r.(MountPath).
#[global] Instance zero_value : Zero WorkflowActivity :=
  mk zero zero zero zero zero zero zero zero zero zero zero.
End WorkflowActivity.
Abbreviation WorkflowActivity := WorkflowActivity.WorkflowActivity.

Module StoragePolicy.
Record StoragePolicy := mk { Type_ : string }.
#[global] Instance zero_value : Zero StoragePolicy := mk zero.
End StoragePolicy.
Abbreviation StoragePolicy := StoragePolicy.StoragePolicy.

Module WorkflowSpec.
Record WorkflowSpec := mk {
  Namespace : string;
  Image : string;
  StorageClassName : string;
  StorageSize : string;
  StoragePolicy : StoragePolicy;
  MountPath : string;
  Activities : list WorkflowActivity
}.
#[global] Instance eta : Eta WorkflowSpec := λ r,
  mk r.(Namespace) r.(Image) r.(StorageClassName) r.(StorageSize) r.(StoragePolicy)
    r.(MountPath) r.(Activities).
#[global] Instance zero_value : Zero WorkflowSpec := mk zero zero zero zero zero zero zero.
End WorkflowSpec.
Abbreviation WorkflowSpec := WorkflowSpec.WorkflowSpec.

Record Workflow := mk_workflow { Name : string; Spec : WorkflowSpec }.

(** [strconv.ParseFloat(s, 64)] and [strconv.FormatFloat(f, 'f', -1, 64)]. *)
Class StrConv := {
  parse_float : string → result float64;
  format_float : float64 → string
}.

(** [strconv.ParseInt(s, 10, 64)] with its error. *)
Definition ParseInt (s : string) : result Z :=
  match parse_int s with
  | Some z => Ok z
  | None => Err (errorf "strconv.ParseInt: parsing %q: invalid syntax" [s])
  end.

(** [identifier] *)
Definition identifier_byte (c : ascii) : ascii :=
  if ascii_between "a" "z" c || ascii_between "A" "Z" c || ascii_between "0" "9" c ||
     is_byte "-"%char c then c else "-"%char.
Definition identifier (value : string) : string :=
  trim (is_byte "-"%char) (map_str identifier_byte (to_lower (trim_space value))).

Section requests.
Context `{StrConv}.

(** [cpuValue] *)
Definition cpuValue (value : string) : result float64 :=
  if bool_decide (value = "") then Ok (fdiv (float_of_Z 1) (float_of_Z 10))
  else if has_suffix "m" value then
    milli ← parse_float (trim_suffix "m" value); Ok (fdiv milli (float_of_Z 1000))
  else parse_float value.

(** The multipliers of [byteValue]; at most one suffix fits a value. *)
Definition multipliers : list (string * Z) :=
  [("Ki", 1024); ("Mi", 1024 * 1024); ("Gi", 1024 * 1024 * 1024)].

(** [byteValue] *)
Definition byteValue (value : string) : result Z :=
  if bool_decide (value = "") then Ok (16 * 1024 * 1024)
  else
    match List.find (λ '(suffix, _), has_suffix suffix value) multipliers with
    | Some (suffix, multiplier) =>
      number ← parse_float (trim_suffix suffix value);
      Ok (trunc (fmul number (float_of_Z multiplier)))
    | None => ParseInt value
    end.

(** The command of an activity: [run] and [image] are shorthands. *)
Definition request_command (value : WorkflowActivity) (defaultImage : string) : ActivityCommand :=
  let command := value.(WorkflowActivity.Command) in
  let command :=
    if bool_decide (command.(ActivityCommand.Entrypoint) = "") &&
       negb (bool_decide (value.(WorkflowActivity.Run) = "")) then
      command <| ActivityCommand.Entrypoint := "sh" |>
              <| ActivityCommand.Arguments := ["-c"; value.(WorkflowActivity.Run)] |>
    else command in
  match command.(ActivityCommand.Executable) with
  | Some _ => command
  | None =>
    let image := if bool_decide (value.(WorkflowActivity.Image) = "") then defaultImage
                 else value.(WorkflowActivity.Image) in
    if bool_decide (image = "") then command
    else command <| ActivityCommand.Executable := Some (ExecutableReference.mk
           ((zero : ExecutableSource) <| ExecutableSource.Type_ := ExecutableSourceOCI |>
              <| ExecutableSource.Reference := image |>)
           ((zero : ExecutableDelivery) <| ExecutableDelivery.Strategy := DeliveryAuto |>)) |>
  end.

(** The activity [activityDomain] builds from its checked parts. *)
Definition request_activity (value : WorkflowActivity) (versionID typeID : string) (index : Z)
    (cpu : float64) (memory : Z) (command : ActivityCommand) : Activity := {|
  Activity.ID := identifier value.(WorkflowActivity.Name);
  Activity.WorkflowVersionID := versionID;
  Activity.ActivityTypeID := typeID;
  Activity.ExternalID := identifier value.(WorkflowActivity.Name);
  Activity.Name := value.(WorkflowActivity.Name);
  Activity.Kind := ActivityKindTask;
  Activity.Capabilities := [ActivityCapabilityReal];
  Activity.Command := command;
  Activity.Resources := (zero : ActivityResources) <| ActivityResources.CPU := cpu |>
                          <| ActivityResources.MemoryBytes := memory |>;
  Activity.Service := None;
  Activity.Simulation := None;
  Activity.Policy := (zero : ActivityPolicy)
    <| ActivityPolicy.TimeoutSeconds := float_of_Z 3600 |> <| ActivityPolicy.MaxAttempts := 1 |>;
  Activity.Priority := Z.of_nat (length value.(WorkflowActivity.DependsOn)) + index;
  Activity.Metadata :=
    <["runtime" := AnyString value.(WorkflowActivity.Runtime)]>
    (<["resourceSelector" := AnyString value.(WorkflowActivity.ResourceSelector)]>
     (<["keepDisk" := AnyBool value.(WorkflowActivity.KeepDisk)]>
      {["mountPath" := AnyString value.(WorkflowActivity.MountPath)]}))
|}.

(** [activityDomain] *)
Definition activityDomain (value : WorkflowActivity) (defaultImage versionID typeID : string)
    (index : Z) : result Activity :=
  let name := value.(WorkflowActivity.Name) in
  match cpuValue value.(WorkflowActivity.CPULimit) with
  | Err e => Err (errorf "activity %q cpuLimit: %w" [name; e])
  | Ok cpu =>
    match byteValue value.(WorkflowActivity.MemoryLimit) with
    | Err e => Err (errorf "activity %q memoryLimit: %w" [name; e])
    | Ok memory =>
      let command := request_command value defaultImage in
      match command.(ActivityCommand.Executable) with
      | None => Err (errorf "activity %q command.entrypoint and command.executable are required"
                       [name])
      | Some executable =>
        if bool_decide (command.(ActivityCommand.Entrypoint) = "") then
          Err (errorf "activity %q command.entrypoint and command.executable are required" [name])
        else
          match ExecutableReference_Validate executable with
          | Err e => Err (errorf "activity %q: %w" [name; e])
          | Ok _ => Ok (request_activity value versionID typeID index cpu memory command)
          end
      end
    end
  end.

(** The first loop of [Domain]: the identifiers by name. *)
Definition name_step (names : gmap string string) (value : WorkflowActivity)
    : result (gmap string string) :=
  let name := value.(WorkflowActivity.Name) in
  let id := identifier name in
  if bool_decide (id = "") then Err (errorf "activity name is required" [])
  else match names !! name with
       | Some _ => Err (errorf "duplicate activity %q" [name])
       | None => Ok (<[name := id]> names)
       end.

(** The dependencies of one activity. *)
Fixpoint request_dependencies (names : gmap string string) (name id : string)
    (dependsOn : list string) : result (list ActivityDependency) :=
  match dependsOn with
  | [] => Ok []
  | predecessor :: rest =>
    match names !! predecessor with
    | None => Err (errorf "activity %q depends on unknown activity %q" [name; predecessor])
    | Some predecessorID =>
      ds ← request_dependencies names name id rest;
      Ok (ActivityDependency.mk id predecessorID "control" :: ds)
    end
  end.

(** The second loop of [Domain]. *)
Fixpoint convert (names : gmap string string) (image versionID typeID : string) (index : Z)
    (values : list WorkflowActivity) : result (list Activity * list ActivityDependency) :=
  match values with
  | [] => Ok ([], [])
  | value :: rest =>
    a ← activityDomain value image versionID typeID index;
    ds ← request_dependencies names value.(WorkflowActivity.Name) a.(Activity.ID)
           value.(WorkflowActivity.DependsOn);
    tail ← convert names image versionID typeID (index + 1) rest;
    Ok (a :: tail.1, ds ++ tail.2)
  end.

(** [Workflow.Domain] *)
Definition Domain (request : Workflow) : result WorkflowDefinition :=
  let workflowID := identifier request.(Name) in
  let spec := request.(Spec) in
  if bool_decide (workflowID = "") || bool_decide (spec.(WorkflowSpec.Namespace) = "") then
    Err (errorf "workflow name and spec.namespace are required" [])
  else
    let versionID := workflowID +:+ "-v1" in
    let typeID := workflowID +:+ "-activity" in
    names ← fold_err name_step ∅ spec.(WorkflowSpec.Activities);
    converted ←
      convert names spec.(WorkflowSpec.Image) versionID typeID 0 spec.(WorkflowSpec.Activities);
    Ok {|
      WorkflowDefinition.ID := workflowID;
      WorkflowDefinition.ExternalID := workflowID;
      WorkflowDefinition.Name := request.(Name);
      WorkflowDefinition.Namespace := spec.(WorkflowSpec.Namespace);
      WorkflowDefinition.Version := {|
        WorkflowVersion.ID := versionID; WorkflowVersion.WorkflowID := workflowID;
        WorkflowVersion.Version := 1; WorkflowVersion.DefinitionHash := versionID;
        WorkflowVersion.Activities := converted.1;
        WorkflowVersion.Dependencies := converted.2;
        WorkflowVersion.DataDependencies := [] |};
      WorkflowDefinition.Types := [(zero : ActivityType) <| ActivityType.ID := typeID |>
        <| ActivityType.Name := request.(Name) +:+ " activity" |>
        <| ActivityType.DefaultImage := spec.(WorkflowSpec.Image) |>]
    |}.

(** The names [FromDomain] looks up by identifier; a later activity wins. *)
Definition activity_names (activities : list Activity) : gmap string string :=
  foldl (λ m a, <[a.(Activity.ID) := a.(Activity.Name)]> m) ∅ activities.

Definition exported_activity (names : gmap string string) (dependencies : list ActivityDependency)
    (activity : Activity) : WorkflowActivity :=
  let m := activity.(Activity.Metadata) in {|
  WorkflowActivity.Name := activity.(Activity.Name);
  WorkflowActivity.Command :=
    activity.(Activity.Command) <| ActivityCommand.ResolvedExecutable := None |>;
  WorkflowActivity.Image := "";
  WorkflowActivity.Runtime := meta_string m "runtime";
  WorkflowActivity.Run := "";
  WorkflowActivity.MemoryLimit :=
    itoa activity.(Activity.Resources).(ActivityResources.MemoryBytes);
  WorkflowActivity.CPULimit := format_float activity.(Activity.Resources).(ActivityResources.CPU);
  WorkflowActivity.DependsOn := List.filter (λ name, negb (bool_decide (name = "")))
    ((λ d, lookup_zero names d.(ActivityDependency.DependsOnActivityID)) <$>
     List.filter (λ d, bool_decide (d.(ActivityDependency.ActivityID) = activity.(Activity.ID)))
       dependencies);
  WorkflowActivity.ResourceSelector := meta_string m "resourceSelector";
  WorkflowActivity.KeepDisk := meta_bool m "keepDisk";
  WorkflowActivity.MountPath := meta_string m "mountPath"
|}.

(** [FromDomain] *)
Definition FromDomain (definition : WorkflowDefinition) : Workflow :=
  let version := definition.(WorkflowDefinition.Version) in
  mk_workflow definition.(WorkflowDefinition.Name)
    ((zero : WorkflowSpec)
       <| WorkflowSpec.Namespace := definition.(WorkflowDefinition.Namespace) |>
       <| WorkflowSpec.Activities :=
            exported_activity (activity_names version.(WorkflowVersion.Activities))
              version.(WorkflowVersion.Dependencies)
            <$> version.(WorkflowVersion.Activities) |>).
End requests.

(** ** What [Domain] accepts *)
Section accepted.
Context `{StrConv}.

Lemma name_fold_names l l' m : WorkflowActivity.Name <$> l = WorkflowActivity.Name <$> l' →
  fold_err name_step m l = fold_err name_step m l'.
Proof.
  revert l' m. induction l as [|x l IH]; intros [|y l'] m E; try done.
  rewrite !fmap_cons in E. injection E as Exy E. cbn [fold_err].
  assert (name_step m x = name_step m y) as -> by (unfold name_step; by rewrite Exy).
  destruct (name_step m y); simpl; [by apply IH|done].
Qed.

Lemma name_fold_ok l m names : fold_err name_step m l = Ok names →
  (∀ x, x ∈ l → identifier x.(WorkflowActivity.Name) ≠ "") ∧
  NoDup (WorkflowActivity.Name <$> l) ∧
  (∀ x, x ∈ l → m !! x.(WorkflowActivity.Name) = None) ∧
  ∀ p id, names !! p = Some id → m !! p = Some id ∨
    (id = identifier p ∧ p ∈ WorkflowActivity.Name <$> l).
Proof.
  revert m. induction l as [|x l IH]; intros m; cbn [fold_err].
  { intros [= <-]. split_and!; [by intros x ?%elem_of_nil|constructor|by intros x ?%elem_of_nil|].
    intros p id. by left. }
  destruct (name_step m x) as [m1|] eqn:Es; [|done]. unfold name_step in Es.
  cbv zeta in Es. case_bool_decide as Hid; [done|].
  destruct (m !! x.(WorkflowActivity.Name)) eqn:Em; [done|]. injection Es as <-.
  cbn [mbind result_bind].
  intros (H1 & H2 & H3 & H4)%IH. split_and!.
  - intros y [->|Hy]%elem_of_cons; auto.
  - apply NoDup_cons. split; [|done]. intros (y & Hy & Hin)%list_elem_of_fmap.
    specialize (H3 y Hin). rewrite <- Hy, lookup_insert_eq in H3. done.
  - intros y [->|Hy]%elem_of_cons; [done|]. specialize (H3 y Hy).
    destruct (decide (y.(WorkflowActivity.Name) = x.(WorkflowActivity.Name))) as [->|Hne]; [done|].
    by rewrite lookup_insert_ne in H3 by congruence.
  - intros p id Hp. destruct (H4 p id Hp) as [Hm|[-> Hin]].
    + destruct (decide (p = x.(WorkflowActivity.Name))) as [->|Hne].
      * rewrite lookup_insert_eq in Hm. injection Hm as <-. right. split; [done|by left].
      * rewrite lookup_insert_ne in Hm by congruence. by left.
    + right. split; [done|by right].
Qed.

Lemma request_dependencies_ok names name id l ds : request_dependencies names name id l = Ok ds →
  Forall2 (λ p d, ∃ pid, names !! p = Some pid ∧ d = ActivityDependency.mk id pid "control") l ds.
Proof.
  revert ds. induction l as [|p l IH]; intros ds; simpl; [by intros [= <-]|].
  destruct (names !! p) as [pid|] eqn:Ep; [|done].
  destruct (request_dependencies names name id l) as [ds'|]; [|done]. simpl. intros [= <-].
  constructor; eauto.
Qed.

(** The conversion, activity by activity. *)
Definition converted_at names image versionID typeID (i : Z) (value : WorkflowActivity)
    (a : Activity) (ds : list ActivityDependency) : Prop :=
  activityDomain value image versionID typeID i = Ok a ∧
  request_dependencies names value.(WorkflowActivity.Name) a.(Activity.ID)
    value.(WorkflowActivity.DependsOn) = Ok ds.

Lemma convert_ok names image v t i values out : convert names image v t i values = Ok out →
  ∃ dss, out.2 = mjoin dss ∧ length out.1 = length values ∧ length dss = length values ∧
    ∀ (k : nat) value, values !! k = Some value → ∃ a ds, out.1 !! k = Some a ∧ dss !! k = Some ds ∧
      converted_at names image v t (i + Z.of_nat k) value a ds.
Proof.
  revert i out. induction values as [|x l IH]; intros i out; simpl.
  { intros [= <-]. exists []. split_and!; [done..|]. intros k value. by rewrite lookup_nil. }
  destruct (activityDomain x image v t i) as [a|] eqn:Ea; [|done]. simpl.
  destruct (request_dependencies _ _ _ _) as [ds|] eqn:Ed; [|done]. simpl.
  destruct (convert names image v t (i + 1) l) as [out'|] eqn:Ec; [|done]. simpl. intros [= <-].
  destruct (IH _ _ Ec) as (dss & Hj & Hl1 & Hl2 & Hk). exists (ds :: dss). simpl.
  split_and!; [by rewrite Hj|by rewrite Hl1|by rewrite Hl2|].
  intros [|k] value; simpl.
  - intros [= <-]. exists a, ds. split_and!; [done..|]. split; [by rewrite Z.add_0_r|done].
  - intros (a' & ds' & ? & ? & Hc)%Hk. exists a', ds'. split_and!; [done..|].
    by replace (i + Z.of_nat (S k)) with (i + 1 + Z.of_nat k) by lia.
Qed.

Lemma convert_intro names image v t i values as_ dss :
  length as_ = length values → length dss = length values →
  (∀ (k : nat) value, values !! k = Some value → ∃ a ds, as_ !! k = Some a ∧ dss !! k = Some ds ∧
     converted_at names image v t (i + Z.of_nat k) value a ds) →
  convert names image v t i values = Ok (as_, mjoin dss).
Proof.
  revert i as_ dss. induction values as [|x l IH]; intros i [|a as_] [|ds dss] H1 H2 Hk; try done.
  simpl. destruct (Hk 0%nat x eq_refl) as (a' & ds' & [= <-] & [= <-] & Ha & Hd).
  rewrite Z.add_0_r in Ha. rewrite Ha. simpl. rewrite Hd. simpl.
  rewrite (IH (i + 1) as_ dss); [done|by injection H1|by injection H2|].
  intros k value Hv. destruct (Hk (S k) value Hv) as (a' & ds' & ? & ? & Hc).
  exists a', ds'. split_and!; [done..|].
  by replace (i + 1 + Z.of_nat k) with (i + Z.of_nat (S k)) by lia.
Qed.

Lemma activityDomain_ok value image v t i a : activityDomain value image v t i = Ok a →
  ∃ cpu memory executable, cpuValue value.(WorkflowActivity.CPULimit) = Ok cpu ∧
    byteValue value.(WorkflowActivity.MemoryLimit) = Ok memory ∧
    let command := request_command value image in
    command.(ActivityCommand.Executable) = Some executable ∧
    command.(ActivityCommand.Entrypoint) ≠ "" ∧
    ExecutableReference_Validate executable = Ok tt ∧
    a = request_activity value v t i cpu memory command.
Proof.
  unfold activityDomain. destruct (cpuValue _) as [cpu|]; [|done].
  destruct (byteValue _) as [memory|]; [|done].
  destruct (ActivityCommand.Executable _) as [ex|] eqn:Ex; [|done].
  case_bool_decide as He; [done|].
  destruct (ExecutableReference_Validate ex) as [[]|] eqn:Ev; [|done].
  intros [= <-]. eauto 10.
Qed.

Lemma Domain_ok request d : Domain request = Ok d →
  ∃ names dss, fold_err name_step ∅ request.(Spec).(WorkflowSpec.Activities) = Ok names ∧
    d.(WorkflowDefinition.ID) = identifier request.(Name) ∧
    d.(WorkflowDefinition.Name) = request.(Name) ∧
    d.(WorkflowDefinition.Namespace) = request.(Spec).(WorkflowSpec.Namespace) ∧
    identifier request.(Name) ≠ "" ∧ request.(Spec).(WorkflowSpec.Namespace) ≠ "" ∧
    let values := request.(Spec).(WorkflowSpec.Activities) in
    let as_ := d.(WorkflowDefinition.Version).(WorkflowVersion.Activities) in
    d.(WorkflowDefinition.Version) = {|
        WorkflowVersion.ID := identifier request.(Name) +:+ "-v1";
        WorkflowVersion.WorkflowID := identifier request.(Name);
        WorkflowVersion.Version := 1;
        WorkflowVersion.DefinitionHash := identifier request.(Name) +:+ "-v1";
        WorkflowVersion.Activities := as_;
        WorkflowVersion.Dependencies := mjoin dss;
        WorkflowVersion.DataDependencies := [] |} ∧
    length as_ = length values ∧ length dss = length values ∧
    ∀ (k : nat) value, values !! k = Some value → ∃ a ds, as_ !! k = Some a ∧ dss !! k = Some ds ∧
      converted_at names request.(Spec).(WorkflowSpec.Image) (identifier request.(Name) +:+ "-v1")
        (identifier request.(Name) +:+ "-activity") (Z.of_nat k) value a ds.
Proof.
  unfold Domain. destruct (_ || _) eqn:Eg; [done|].
  apply orb_false_iff in Eg as [E1 E2]. apply bool_decide_eq_false in E1, E2.
  destruct (fold_err name_step ∅ _) as [names|] eqn:En; [|done]. simpl.
  destruct (convert _ _ _ _ _ _) as [out|] eqn:Ec; [|done]. simpl. intros [= <-]. simpl.
  apply convert_ok in Ec as (dss & Hj & Hl1 & Hl2 & Hk).
  exists names, dss. split_and!; try done. by rewrite <- Hj.
Qed.

Lemma converted_id names image v t i value a ds : converted_at names image v t i value a ds →
  a.(Activity.ID) = identifier value.(WorkflowActivity.Name) ∧
  a.(Activity.Name) = value.(WorkflowActivity.Name) ∧
  a.(Activity.Command).(ActivityCommand.Entrypoint) ≠ "".
Proof. intros [(cpu & mem & ex & _ & _ & _ & He & _ & ->)%activityDomain_ok _]. done. Qed.

Lemma converted_fmap {B} (f : Activity → B) (g : WorkflowActivity → B) values as_ :
  length as_ = length values →
  (∀ (k : nat) value, values !! k = Some value → ∃ a, as_ !! k = Some a ∧ f a = g value) →
  f <$> as_ = g <$> values.
Proof.
  intros Hl Hk. apply list_eq. intros k. rewrite !list_lookup_fmap.
  destruct (values !! k) as [value|] eqn:E.
  - destruct (Hk k value E) as (a & -> & Ha). simpl. by rewrite Ha.
  - apply lookup_ge_None in E. rewrite (lookup_ge_None_2 as_) by lia. done.
Qed.

(** The names, identifiers and dependencies of converted activities. *)
Lemma converted_shape names image v t i values as_ dss :
  length as_ = length values → length dss = length values →
  (∀ (k : nat) value, values !! k = Some value → ∃ a ds, as_ !! k = Some a ∧ dss !! k = Some ds ∧
     converted_at names image v t (i + Z.of_nat k) value a ds) →
  Activity.Name <$> as_ = WorkflowActivity.Name <$> values ∧
  Activity.ID <$> as_ = (λ x, identifier x.(WorkflowActivity.Name)) <$> values ∧
  Forall2 (λ id ds, Forall (λ d, d.(ActivityDependency.ActivityID) = id) ds)
    (Activity.ID <$> as_) dss.
Proof.
  intros Hl1 Hl2 Hk. split_and!.
  1, 2: apply converted_fmap; [done|]; intros k value Hkv;
    destruct (Hk k value Hkv) as (a & ds & Ha & _ & Hc); exists a;
    apply converted_id in Hc as (? & ? & _); done.
  apply Forall2_fmap_l, Forall2_same_length_lookup_2; [lia|].
  intros k a ds Ha Hds. destruct (lookup_lt_is_Some_2 values k) as [value Hkv].
  { apply lookup_lt_Some in Ha. lia. }
  destruct (Hk k value Hkv) as (a' & ds' & Ha' & Hds' & _ & Hr). simplify_eq.
  apply request_dependencies_ok in Hr. clear -Hr.
  induction Hr as [|p d l ds (pid & _ & ->) _ IH]; constructor; done.
Qed.

(** Every name that resolves is the name of an activity. *)
Lemma names_of_activities values as_ names p pid :
  fold_err name_step ∅ values = Ok names →
  Activity.Name <$> as_ = WorkflowActivity.Name <$> values →
  Activity.ID <$> as_ = (λ x, identifier x.(WorkflowActivity.Name)) <$> values →
  names !! p = Some pid →
  p ≠ "" ∧ ∃ b, b ∈ as_ ∧ b.(Activity.ID) = pid ∧ b.(Activity.Name) = p.
Proof.
  intros (Hne & _ & _ & Hlook)%name_fold_ok Hnames Hids Hp.
  destruct (Hlook p pid Hp) as [Hm|[-> Hin]]; [by rewrite lookup_empty in Hm|].
  apply list_elem_of_fmap in Hin as (x & -> & Hx). split.
  { intros E. apply (Hne x Hx). by rewrite E. }
  apply list_elem_of_lookup in Hx as [k Hx].
  pose proof (f_equal (.!! k) Hnames) as En. pose proof (f_equal (.!! k) Hids) as Ei. cbv beta in *.
  rewrite !list_lookup_fmap, Hx in En, Ei. destruct (as_ !! k) as [b|] eqn:Eb; [|done].
  cbn in En, Ei. injection En as En. injection Ei as Ei. exists b.
  split_and!; [by eapply list_elem_of_lookup_2|done|done].
Qed.

(** A request that is accepted becomes a well-formed workflow: its activities
    are those of the request in order, under distinct names and with non-empty
    identifiers, each valid for execution, and every dependency joins two of
    them. *)
Theorem accepted_workflow_closed request d : Domain request = Ok d →
  let as_ := d.(WorkflowDefinition.Version).(WorkflowVersion.Activities) in
  Activity.Name <$> as_ = WorkflowActivity.Name <$> request.(Spec).(WorkflowSpec.Activities) ∧
  NoDup (Activity.Name <$> as_) ∧
  Forall (λ a, Activity_Validate a = Ok tt) as_ ∧
  Forall (λ dep, dep.(ActivityDependency.ActivityID) ∈ Activity.ID <$> as_ ∧
                 dep.(ActivityDependency.DependsOnActivityID) ∈ Activity.ID <$> as_)
    d.(WorkflowDefinition.Version).(WorkflowVersion.Dependencies).
Proof.
  intros (names & dss & Hn & _ & _ & _ & _ & _ & Hv & Hl1 & Hl2 & Hk)%Domain_ok as_.
  fold as_ in Hv, Hl1, Hk. set (values := WorkflowSpec.Activities _) in *.
  destruct (converted_shape _ _ _ _ 0 _ _ _ Hl1 Hl2 Hk) as (Hnames & Hids & HF).
  destruct (name_fold_ok _ _ _ Hn) as (Hne & Hnd & _ & Hlook).
  split; [done|]. split; [by rewrite Hnames|]. split.
  - apply Forall_lookup. intros k a Ha.
    destruct (lookup_lt_is_Some_2 values k) as [value Hkv].
    { apply lookup_lt_Some in Ha. lia. }
    destruct (Hk k value Hkv) as (a' & ds & Ha' & _ & Hc). rewrite Ha in Ha'. injection Ha' as <-.
    pose proof (Hne value (list_elem_of_lookup_2 _ _ _ Hkv)) as Hid.
    destruct Hc as [(cpu & mem & ex & _ & _ & _ & He & _ & ->)%activityDomain_ok _].
    apply Activity_Validate_spec. unfold supports. split; simpl; try done.
    + intros Hname. apply Hid. by rewrite Hname.
    + by intros ?%list_elem_of_singleton.
    + by intros [?|?].
    + by intros ?%list_elem_of_singleton.
  - rewrite Hv. simpl. apply Forall_forall. intros dep (ds & Hdep & Hds)%list_elem_of_join.
    apply list_elem_of_lookup in Hds as [k Hds].
    destruct (lookup_lt_is_Some_2 values k) as [value Hkv].
    { apply lookup_lt_Some in Hds. lia. }
    destruct (Hk k value Hkv) as (a & ds' & Ha & Hds' & Hc). rewrite Hds in Hds'.
    injection Hds' as <-. destruct Hc as [_ Hr%request_dependencies_ok].
    apply list_elem_of_lookup in Hdep as [j Hj].
    apply (Forall2_lookup_r _ _ _ _ _ Hr) in Hj as (p & Hp & pid & Hpid & ->). simpl.
    destruct (names_of_activities values as_ names p pid Hn Hnames Hids Hpid) as (_ & b & Hb & <- & _).
    split; apply list_elem_of_fmap; [exists a; split; [done|by eapply list_elem_of_lookup_2]|eauto].
Qed.

(** Two steps whose names differ only in what an identifier drops. *)
Definition colliding : Workflow :=
  let step name dependsOn := (zero : WorkflowActivity) <| WorkflowActivity.Name := name |>
    <| WorkflowActivity.Image := "alpine" |> <| WorkflowActivity.Run := "true" |>
    <| WorkflowActivity.DependsOn := dependsOn |> in
  mk_workflow "w" ((zero : WorkflowSpec) <| WorkflowSpec.Namespace := "ns" |>
    <| WorkflowSpec.Activities := [step "My step" []; step "my-step" ["My step"]] |>).

(** Distinct activity names can become one identifier, which is not detected: a
    request with the steps "My step" and "my-step" is accepted as two activities
    with the same identifier, and the dependency between them as a dependency of an
    activity on itself. *)
Theorem activity_ids_collide : ∃ d, Domain colliding = Ok d ∧
  Activity.ID <$> d.(WorkflowDefinition.Version).(WorkflowVersion.Activities) =
    ["my-step"; "my-step"] ∧
  d.(WorkflowDefinition.Version).(WorkflowVersion.Dependencies) =
    [ActivityDependency.mk "my-step" "my-step" "control"].
Proof. eexists. split; [vm_compute; reflexivity|]. split; reflexivity. Qed.
End accepted.

(** ** The export can be imported again *)

(** What the export relies on of [strconv]: the shortest decimal of a float reads
    back as that float, is not empty and has no unit. *)
Class StrConvLaws `{StrConv} := {
  parse_format f : parse_float (format_float f) = Ok f;
  format_nonempty f : format_float f ≠ "";
  format_unitless f : has_suffix "m" (format_float f) = false
}.

Lemma str_forall_rev p s : str_forall p (String.rev s) = str_forall p s.
Proof.
  assert (∀ t, str_forall p (String.rev_app s t) = str_forall p s && str_forall p t) as H.
  { induction s as [|c s IH]; intros t; [done|]. cbn. rewrite IH. cbn.
    destruct (p c), (str_forall p s); done. }
  unfold String.rev. rewrite H. by destruct (str_forall p s).
Qed.

Lemma no_unit_suffix p c u s : str_forall p s = true → p c = false →
  has_prefix (String c u) (String.rev s) = false.
Proof.
  intros Hs Hc. rewrite <- (str_forall_rev p s) in Hs. destruct (String.rev s) as [|b r]; [done|].
  cbn in *. apply andb_true_iff in Hs as [Hb _]. rewrite bool_decide_false; [done|].
  intros ->. by rewrite Hc in Hb.
Qed.

Section export.
Context `{StrConvLaws}.

Lemma byteValue_itoa z : 0 ≤ z < 2 ^ 63 → byteValue (itoa z) = Ok z.
Proof.
  intros Hz. destruct (Slurm.decimal_inv _ _ (Slurm.itoa_decimal z (proj1 Hz))) as [Hne Hall].
  unfold byteValue. rewrite bool_decide_false by done.
  assert (∀ u, has_prefix (String "i" u) (String.rev (itoa z)) = false) as Hs.
  { intros u. by apply (no_unit_suffix is_digit). }
  unfold multipliers, has_suffix. cbn [List.find String.rev String.rev_app]. rewrite !Hs.
  unfold ParseInt. by rewrite Slurm.parse_int_itoa.
Qed.

Lemma cpuValue_format f : cpuValue (format_float f) = Ok f.
Proof.
  unfold cpuValue. rewrite bool_decide_false by apply format_nonempty.
  by rewrite format_unitless, parse_format.
Qed.

Lemma activity_names_lookup l a : NoDup (Activity.ID <$> l) → a ∈ l →
  activity_names l !! a.(Activity.ID) = Some a.(Activity.Name).
Proof.
  unfold activity_names. assert (∀ m : gmap string string, NoDup (Activity.ID <$> l) →
    ∀ i, foldl (λ m a, <[a.(Activity.ID) := a.(Activity.Name)]> m) m l !! i =
      match List.find (λ a, bool_decide (a.(Activity.ID) = i)) l with
      | Some a => Some a.(Activity.Name) | None => m !! i end) as Hf.
  { induction l as [|x l IH]; intros m Hnd i; [done|]. rewrite fmap_cons in Hnd.
    apply NoDup_cons in Hnd as [Hx Hnd]. cbn [foldl List.find]. rewrite IH by done.
    case_bool_decide as Ei.
    - destruct (List.find _ l) as [b|] eqn:Eb; [|by rewrite Ei, lookup_insert_eq].
      apply find_some in Eb as [Hb He%bool_decide_eq_true]. destruct Hx. apply list_elem_of_fmap.
      exists b. split; [congruence|by apply list_elem_of_In].
    - destruct (List.find _ l); [done|]. by rewrite lookup_insert_ne. }
  intros Hnd Ha. rewrite Hf by done.
  destruct (List.find _ l) as [b|] eqn:Eb.
  - apply find_some in Eb as [Hb He%bool_decide_eq_true]. apply list_elem_of_In in Hb.
    apply list_elem_of_lookup in Ha as [i Hi], Hb as [j Hj].
    assert (i = j) as ->; [|congruence].
    eapply (NoDup_lookup _ _ _ (a.(Activity.ID)) Hnd); rewrite list_lookup_fmap;
      [by rewrite Hi|rewrite Hj; simpl; by rewrite He].
  - apply list_elem_of_In in Ha. pose proof (find_none _ _ Eb _ Ha) as Hf'.
    cbn in Hf'. by rewrite bool_decide_true in Hf'.
Qed.

(** The dependencies of one activity among those of all. *)
Lemma filter_group (ids : list string) (dss : list (list ActivityDependency)) :
  NoDup ids → Forall2 (λ id ds, Forall (λ d, d.(ActivityDependency.ActivityID) = id) ds) ids dss →
  ∀ k id ds, ids !! k = Some id → dss !! k = Some ds →
  List.filter (λ d, bool_decide (d.(ActivityDependency.ActivityID) = id)) (mjoin dss) = ds.
Proof.
  intros Hnd HF. assert (∀ id' ds id, Forall (λ d, d.(ActivityDependency.ActivityID) = id') ds →
    List.filter (λ d, bool_decide (d.(ActivityDependency.ActivityID) = id)) ds =
      if bool_decide (id' = id) then ds else []) as Hone.
  { intros id' ds id. induction 1 as [|d ds Hd _ IH]; [by destruct (bool_decide _)|].
    cbn [List.filter]. rewrite IH, Hd. by destruct (bool_decide _). }
  assert (∀ ids dss id, id ∉ ids →
    Forall2 (λ id ds, Forall (λ d, d.(ActivityDependency.ActivityID) = id) ds) ids dss →
    List.filter (λ d, bool_decide (d.(ActivityDependency.ActivityID) = id)) (mjoin dss) = [])
    as Hnone.
  { intros is' ds' id Hid HF'. induction HF' as [|i ds is_ dss' Hi _ IH]; [done|].
    apply not_elem_of_cons in Hid as [Hne Hid]. simpl. rewrite List.filter_app, (Hone i), IH by done.
    by rewrite bool_decide_false by congruence. }
  induction HF as [|i ds ids dss Hi HF IH]; intros [|k] id ds' Hk Hd; try done; simpl in *;
    apply NoDup_cons in Hnd as [Hn Hnd]; rewrite List.filter_app, (Hone i) by done.
  - injection Hk as ->. injection Hd as ->. rewrite bool_decide_true, (Hnone ids) by done.
    apply app_nil_r.
  - rewrite bool_decide_false; [by eapply IH|]. intros ->. apply Hn. by eapply list_elem_of_lookup_2.
Qed.

(** The exported activity converts to the activity it was exported from. *)
Lemma exported_converts anames deps names image v t i value a ds :
  converted_at names image v t i value a ds →
  a.(Activity.Command).(ActivityCommand.ResolvedExecutable) = None →
  0 ≤ a.(Activity.Resources).(ActivityResources.MemoryBytes) < 2 ^ 63 →
  (exported_activity anames deps a).(WorkflowActivity.DependsOn) =
    value.(WorkflowActivity.DependsOn) →
  converted_at names "" v t i (exported_activity anames deps a) a ds.
Proof.
  intros [(cpu & mem & ex & Hcpu & Hmem & Hex & Hent & Hval & Ha)%activityDomain_ok Hd] Hr Hm Hdep.
  set (e := exported_activity anames deps a) in *.
  assert (e.(WorkflowActivity.Name) = value.(WorkflowActivity.Name)) as Hname by (subst a; done).
  assert (request_command e "" = request_command value image) as Hc.
  { unfold request_command at 1. change (WorkflowActivity.Command e) with
      (a.(Activity.Command) <| ActivityCommand.ResolvedExecutable := None |>).
    subst a. cbn -[request_command] in *. rewrite bool_decide_false by done. cbn -[request_command].
    rewrite Hex. destruct (request_command value image); simpl in *. by subst. }
  split; [|by rewrite Hname, Hdep]. unfold activityDomain. rewrite Hc.
  assert (cpuValue e.(WorkflowActivity.CPULimit) = Ok cpu) as ->.
  { replace cpu with a.(Activity.Resources).(ActivityResources.CPU) by (by subst a).
    apply cpuValue_format. }
  assert (byteValue e.(WorkflowActivity.MemoryLimit) = Ok mem) as ->.
  { replace mem with a.(Activity.Resources).(ActivityResources.MemoryBytes) by (by subst a).
    by apply byteValue_itoa. }
  rewrite Hex, bool_decide_false, Hval by done. f_equal. rewrite Ha at 1.
  unfold request_activity. rewrite Hname, Hdep. subst a e. done.
Qed.
End export.

Section roundtrip.
Context `{StrConvLaws}.

(** The names an exported activity depends on are those of the request. *)
Lemma exported_dependsOn as_ dss k a ds names l :
  NoDup (Activity.ID <$> as_) →
  Forall2 (λ id ds, Forall (λ d, d.(ActivityDependency.ActivityID) = id) ds)
    (Activity.ID <$> as_) dss →
  as_ !! k = Some a → dss !! k = Some ds →
  request_dependencies names a.(Activity.Name) a.(Activity.ID) l = Ok ds →
  (∀ p pid, names !! p = Some pid → p ≠ "" ∧ ∃ b, b ∈ as_ ∧ b.(Activity.ID) = pid ∧
     b.(Activity.Name) = p) →
  (exported_activity (activity_names as_) (mjoin dss) a).(WorkflowActivity.DependsOn) = l.
Proof.
  intros Hnd HF Ha Hds Hr%request_dependencies_ok Hnames. cbn [exported_activity WorkflowActivity.DependsOn].
  rewrite (filter_group _ dss Hnd HF k a.(Activity.ID) ds); [|by rewrite list_lookup_fmap, Ha|done].
  clear Hds. induction Hr as [|p d l ds (pid & Hp & ->) _ IH]; [done|].
  rewrite fmap_cons. cbn [List.filter ActivityDependency.DependsOnActivityID].
  destruct (Hnames p pid Hp) as (Hne & b & Hb & <- & <-).
  assert (lookup_zero (activity_names as_) b.(Activity.ID) = b.(Activity.Name)) as ->.
  { unfold lookup_zero. by rewrite (activity_names_lookup as_ b Hnd Hb). }
  rewrite bool_decide_false by done. cbn [negb]. by rewrite IH.
Qed.

(** C30: An exported workflow can be imported again: if the activities of a workflow
    made from a request have distinct identifiers, none has a resolved executable
    and their memory fits a 64-bit integer, the exported document is accepted and
    gives the same workflow version, activity by activity and dependency by
    dependency, under the same identity. *)
Theorem export_import request d : Domain request = Ok d →
  let as_ := d.(WorkflowDefinition.Version).(WorkflowVersion.Activities) in
  NoDup (Activity.ID <$> as_) →
  Forall (λ a, a.(Activity.Command).(ActivityCommand.ResolvedExecutable) = None ∧
               0 ≤ a.(Activity.Resources).(ActivityResources.MemoryBytes) < 2 ^ 63) as_ →
  ∃ d', Domain (FromDomain d) = Ok d' ∧
    d'.(WorkflowDefinition.Version) = d.(WorkflowDefinition.Version) ∧
    d'.(WorkflowDefinition.ID) = d.(WorkflowDefinition.ID) ∧
    d'.(WorkflowDefinition.Name) = d.(WorkflowDefinition.Name) ∧
    d'.(WorkflowDefinition.Namespace) = d.(WorkflowDefinition.Namespace).
Proof.
  intros (names & dss & Hn & Hid & Hname & Hns & H1 & H2 & Hv & Hl1 & Hl2 & Hk)%Domain_ok as_ Hnd Hall.
  fold as_ in Hv, Hl1, Hk. set (values := WorkflowSpec.Activities _) in *.
  destruct (converted_shape _ _ _ _ 0 _ _ _ Hl1 Hl2 Hk) as (Hnames & Hids & HF).
  set (es := exported_activity (activity_names as_) (mjoin dss) <$> as_).
  assert (fold_err name_step ∅ es = Ok names) as Hn'.
  { rewrite <- Hn. apply name_fold_names. rewrite <- Hnames. unfold es. by rewrite <- list_fmap_compose. }
  assert (convert names "" (identifier request.(Name) +:+ "-v1")
            (identifier request.(Name) +:+ "-activity") 0 es = Ok (as_, mjoin dss)) as Hc.
  { apply convert_intro; [unfold es; by rewrite length_fmap|unfold es; rewrite length_fmap; lia|].
    intros k e. unfold es. rewrite list_lookup_fmap.
    intros (a & Ha & ->)%fmap_Some.
    destruct (lookup_lt_is_Some_2 values k) as [value Hkv].
    { apply lookup_lt_Some in Ha. lia. }
    destruct (Hk k value Hkv) as (a' & ds & Ha' & Hds & Hc). rewrite Ha in Ha'. injection Ha' as <-.
    exists a, ds. split_and!; [done..|]. rewrite Forall_lookup in Hall.
    destruct (Hall k a Ha) as [Hr Hm]. rewrite Z.add_0_l. eapply exported_converts; [done..|].
    destruct (converted_id _ _ _ _ _ _ _ _ Hc) as (Hia & Hna & _). destruct Hc as [_ Hd].
    eapply exported_dependsOn; [done..| |]; [rewrite Hna; exact Hd|].
    intros p pid Hp. by apply (names_of_activities values as_ names p pid Hn Hnames Hids Hp). }
  assert (FromDomain d = mk_workflow request.(Name) (WorkflowSpec.mk
    request.(Spec).(WorkflowSpec.Namespace) "" "" "" zero "" es)) as ->.
  { unfold FromDomain. rewrite Hname, Hns, Hv. done. }
  unfold Domain. cbn [Name Spec WorkflowSpec.Namespace WorkflowSpec.Activities WorkflowSpec.Image].
  rewrite !bool_decide_false by done. cbn [orb]. cbv zeta.
  rewrite Hn'. cbn [mbind result_bind]. rewrite Hc. cbn [mbind result_bind].
  eexists. split; [done|]. cbn. by rewrite Hid, Hname, Hns, Hv.
Qed.
End roundtrip.

Module Example.
(** A rendering of floats that can be read back: the bits of an encoding. *)
Definition parts (f : float64) : Z * bool * positive * Z :=
  match f with
  | S754_zero s => (0, s, 1%positive, 0)
  | S754_infinity s => (1, s, 1%positive, 0)
  | S754_nan => (2, false, 1%positive, 0)
  | S754_finite s m e => (3, s, m, e)
  end.
Definition of_parts (p : Z * bool * positive * Z) : float64 :=
  match p with
  | (0, s, _, _) => S754_zero s
  | (1, s, _, _) => S754_infinity s
  | (2, _, _, _) => S754_nan
  | (_, s, m, e) => S754_finite s m e
  end.
Fixpoint bits (p : positive) : string :=
  match p with xH => "" | xO p => String "0" (bits p) | xI p => String "1" (bits p) end.
Fixpoint of_bits (s : string) : positive :=
  match s with
  | "" => xH
  | String c s => if is_byte "0"%char c then xO (of_bits s) else xI (of_bits s)
  end.
#[local] Instance binary_strconv : StrConv := {
  parse_float s :=
    match s with
    | String "b" t =>
      match (decode (of_bits t) : option (Z * bool * positive * Z)) with
      | Some p => Ok (of_parts p) | None => Err "invalid syntax" end
    | _ => Err "invalid syntax"
    end;
  format_float f := String "b" (bits (encode (parts f)))
}.
#[local] Instance binary_laws : StrConvLaws.
Proof.
  assert (∀ p, of_bits (bits p) = p) as Hb by (induction p; simpl; congruence).
  split; intros f; [|done|].
  - simpl. rewrite Hb, decode_encode. by destruct f.
  - apply (no_unit_suffix (λ c, negb (is_byte "m"%char c))); [|done]. cbn.
    generalize (encode (parts f)). by induction p.
Qed.

(** A pipeline of two steps, with its resources and selector. *)
Definition pipeline : Workflow :=
  let step name dependsOn := (zero : WorkflowActivity) <| WorkflowActivity.Name := name |>
    <| WorkflowActivity.Run := "true" |> <| WorkflowActivity.MemoryLimit := "1048576" |>
    <| WorkflowActivity.Runtime := "hpc" |> <| WorkflowActivity.KeepDisk := true |>
    <| WorkflowActivity.DependsOn := dependsOn |> in
  mk_workflow "My pipeline" ((zero : WorkflowSpec) <| WorkflowSpec.Namespace := "ns" |>
    <| WorkflowSpec.Image := "alpine" |>
    <| WorkflowSpec.Activities := [step "Prepare data" []; step "solve" ["Prepare data"]] |>).
Definition imported : WorkflowDefinition :=
  match Domain pipeline with Ok d => d | Err _ => zero end.
Example pipeline_accepted : Domain pipeline = Ok imported ∧
  Activity.ID <$> imported.(WorkflowDefinition.Version).(WorkflowVersion.Activities) =
    ["prepare-data"; "solve"].
Proof. split; vm_compute; reflexivity. Qed.
Example request_refusals :
  is_ok (Domain (mk_workflow "--" pipeline.(Spec))) = false ∧
  is_ok (Domain (mk_workflow "w" (pipeline.(Spec) <| WorkflowSpec.Image := "" |>))) = false ∧
  is_ok (Domain (mk_workflow "w" (pipeline.(Spec) <| WorkflowSpec.Activities :=
    [(zero : WorkflowActivity) <| WorkflowActivity.Name := "a" |>
       <| WorkflowActivity.Run := "true" |> <| WorkflowActivity.DependsOn := ["b"] |>] |>))) = false.
Proof. vm_compute. done. Qed.

Lemma accepted_workflow_closed_witness :
  NoDup (Activity.Name <$> imported.(WorkflowDefinition.Version).(WorkflowVersion.Activities)).
Proof.
  apply (accepted_workflow_closed pipeline imported). vm_compute. reflexivity.
Defined.

Lemma export_import_witness : ∃ d', Domain (FromDomain imported) = Ok d' ∧
  d'.(WorkflowDefinition.Version) = imported.(WorkflowDefinition.Version).
Proof.
  destruct (export_import pipeline imported) as (d' & Hd & Hv & _).
  - vm_compute. reflexivity.
  - apply (bool_decide_eq_true_1 _). vm_compute. reflexivity.
  - repeat (apply Forall_cons_2; [vm_compute; split_and!; [reflexivity|discriminate|reflexivity]|]).
    apply Forall_nil_2.
  - exists d'. split; [exact Hd|exact Hv].
Defined.
End Example.
End Requests.
