(* ===== verification/Storage.v ===== *)
(** * The storage service (src/internal/application/storage/service.go)

    [BrowserCoordinator]: browsing, downloads, copies, archives, promotion and
    indexing of storages, over the browsers of the storage drivers and the catalog
    of the database. Copies and archives run in the background: the operation that
    queues one returns it as a [job]. *)

From S2P Require Import Prelude GoStrings GoFloat GoPath Domain Ports Monitor.

(** ports/storage.go: [StorageBrowser]. [Write] also tells whether the reader was
    read to its end, which matters when it is a pipe. *)
Record StorageBrowser (W : Type) := {
  Browse : StorageResource → BrowseRequest → effr W BrowsePage;
  BrowseStat : StorageResource → string → effr W FileEntry;
  Open_ : StorageResource → string → effr W (Reader * FileEntry);
  Remove : StorageResource → string → effr W unit;
  Write : StorageResource → string → Reader → Z → eff W (result unit * bool)
}.
Arguments Browse {W}.
Arguments BrowseStat {W}.
Arguments Open_ {W}.
Arguments Remove {W}.
Arguments Write {W}.

(** service.go: [Catalog] *)
Class StorageCatalog (W : Type) := {
  ListEnvironmentStorages : string → effr W (list StorageResource);
  FindStorage : string → effr W (option StorageResource);
  SaveDownload : DownloadRun → effr W unit;
  FindDownload : string → effr W (option DownloadRun);
  CatalogPromoteData : string → string → string → string → string → string → FileEntry →
    string → effr W unit;
  CatalogPromoteArtifact : string → string → string → string → string → string → string →
    string → FileEntry → effr W unit;
  SaveIndexRun : IndexRun → effr W unit;
  ListIndexRuns : string → effr W (list IndexRun)
}.

(** service.go: [Resolver] *)
Class BrowserResolver (W : Type) := Browser : StorageType → result (StorageBrowser W).

Module StorageService.
(** [Registry.Browser]: a map from types to browsers. *)
Definition registry_browser {W} (r : StorageType → option (StorageBrowser W)) (t : StorageType)
    : result (StorageBrowser W) :=
  match r t with
  | Some b => Ok b
  | None => Err (errorf "storage browser %q is unavailable" [StorageType_string t])
  end.

(** [included], [excluded]: a pattern is tried on the path and on its last element. *)
Definition matches_any (value : string) (patterns : list string) : bool :=
  existsb (λ p, path_Match p value || path_Match p (path_Base value)) patterns.
Definition included (value : string) (patterns : list string) : bool :=
  bool_decide (patterns = []) || matches_any value patterns.
Definition excluded (value : string) (patterns : list string) : bool :=
  matches_any value patterns.

(** Work started with [go]. *)
Inductive job :=
| CopyJob (run : DownloadRun) (src dst : StorageResource) (entry : FileEntry)
| ArchiveJob (run : DownloadRun) (storage : StorageResource).

Section service.
Context `{StorageCatalog W, BrowserResolver W, WallClock W, Cancellation W, Sha256}.

(** [notFound] *)
Definition notFound (e : option error) : error :=
  default (errorf "storage resource not found" []) e.

(** [v, e := s.catalog.FindStorage(ctx, id); if e != nil || v == nil { return notFound(e) }] *)
Definition find_storage (id : string) : effr W StorageResource :=
  let! r := FindStorage id in
  eret (match r with
        | Ok (Some v) => Ok v
        | Ok None => Err (notFound None)
        | Err e => Err (notFound (Some e))
        end).

(** [usable] on a storage that was found *)
Definition usable (v : StorageResource) (write : bool) : result (StorageBrowser W) :=
  if bool_decide (v.(StorageResource.BrowseRoots) = []) then
    Err (errorf "storage has no configured browse roots" [])
  else if bool_decide (v.(StorageResource.Health).(StorageHealthStatus.Status) =
                       StorageHealthUnavailable) then
    Err (errorf "storage is unavailable: %s"
           [v.(StorageResource.Health).(StorageHealthStatus.Message)])
  else if write && v.(StorageResource.ReadOnly) then Err (errorf "storage is read-only" [])
  else Browser v.(StorageResource.Type_).

(** ** Reading *)

(** What [List] shows of one storage. *)
Definition shown_storage (v : StorageResource) : StorageResource :=
  let driver := Browser (W := W) v.(StorageResource.Type_) in
  let available := is_ok driver in
  let presigned := bool_decide (v.(StorageResource.Type_) = StorageS3) ||
                   bool_decide (v.(StorageResource.Type_) = StorageMinIO) in
  let health := v.(StorageResource.Health) in
  v <| StorageResource.Capabilities := {|
         StorageCapabilities.Browse := available;
         StorageCapabilities.Read := available;
         StorageCapabilities.Write := available && negb v.(StorageResource.ReadOnly);
         StorageCapabilities.Download := available;
         StorageCapabilities.Upload := available && negb v.(StorageResource.ReadOnly);
         StorageCapabilities.Checksum := available;
         StorageCapabilities.PresignedDownload := presigned && available;
         StorageCapabilities.ComputeNodeVisible := v.(StorageResource.Shared) ||
           negb (bool_decide (v.(StorageResource.RuntimeBindings) = [])) |} |>
    <| StorageResource.Health :=
         match driver with
         | Ok _ => health <| StorageHealthStatus.Status := StorageHealthHealthy |>
                          <| StorageHealthStatus.Message := "storage driver is available" |>
         | Err e => health <| StorageHealthStatus.Status := StorageHealthUnavailable |>
                           <| StorageHealthStatus.Message := e |>
         end |>.

(** [BrowserCoordinator.List] *)
Definition List_ (environmentID : string) : effr W (list StorageResource) :=
  let? values := ListEnvironmentStorages environmentID in
  eret (Ok (shown_storage <$> values)).

(** [BrowserCoordinator.Roots] *)
Definition Roots (id : string) : effr W (list StorageBrowseRoot) :=
  let? v := find_storage id in eret (Ok v.(StorageResource.BrowseRoots)).

(** [BrowserCoordinator.Browse] and [BrowserCoordinator.Stat] *)
Definition BrowseStorage (id : string) (r : BrowseRequest) : effr W BrowsePage :=
  let? v := find_storage id in
  let? b := eret (usable v false) in
  Browse b v r.
Definition Stat (id path : string) : effr W FileEntry :=
  let? v := find_storage id in
  let? b := eret (usable v false) in
  BrowseStat b v path.

(** [BrowserCoordinator.Download], [BrowserCoordinator.IndexRuns] *)
Definition Download (id : string) : effr W DownloadRun :=
  let! r := FindDownload id in
  eret (match r with
        | Ok (Some v) => Ok v
        | Ok None => Err (notFound None)
        | Err e => Err (notFound (Some e))
        end).
Definition IndexRuns (id : string) : effr W (list IndexRun) := ListIndexRuns id.

(** [BrowserCoordinator.OpenDownload] *)
Definition OpenDownload (id : string) : effr W (Reader * FileEntry) :=
  let? run := Download id in
  let? v := find_storage run.(DownloadRun.StorageID) in
  let? b := eret (usable v false) in
  Open_ b v run.(DownloadRun.Path).

(** [BrowserCoordinator.Checksum]: an error of the reader is returned with the sum. *)
Definition Checksum (id path : string) : effr W string :=
  let? v := find_storage id in
  let? b := eret (usable v false) in
  let? (body, entry) := Open_ b v path in
  if bool_decide (entry.(FileEntry.Type_) = FileEntryFile) then
    eret (match body.(read_error) with
          | Some e => Err e
          | None => Ok ("sha256:" +:+ sha256_hex body.(bytes))
          end)
  else eret (Err (errorf "checksum requires a file" [])).

(** ** Downloads, removal and promotion *)

(** [BrowserCoordinator.StartDownload] *)
Definition StartDownload (id path runID : string) : effr W DownloadRun :=
  let? v := find_storage id in
  let? b := eret (usable v false) in
  let? entry := BrowseStat b v path in
  if bool_decide (entry.(FileEntry.Type_) = FileEntryDirectory) then
    eret (Err (errorf "directories require an archive job" []))
  else
    let! created := Now in
    let! updated := Now in
    let run := {|
      DownloadRun.ID := runID; DownloadRun.StorageID := id; DownloadRun.Path := path;
      DownloadRun.Status := DownloadReady; DownloadRun.Strategy := "stream"; DownloadRun.URL := "";
      DownloadRun.SizeBytes := entry.(FileEntry.SizeBytes); DownloadRun.TransferredBytes := 0;
      DownloadRun.Error := ""; DownloadRun.CreatedAt := created; DownloadRun.UpdatedAt := updated
    |} in
    let? _ := SaveDownload run in
    eret (Ok run).

(** [BrowserCoordinator.Delete] *)
Definition Delete (id path : string) : effr W unit :=
  let? v := find_storage id in
  let? b := eret (usable v true) in
  Remove b v path.

(** [BrowserCoordinator.PromoteData] *)
Definition PromoteData (storageID filePath workflowVersionID runID activityID id : string)
    : effr W unit :=
  let? entry := Stat storageID filePath in
  if bool_decide (entry.(FileEntry.Type_) = FileEntryFile) then
    let? sum := Checksum storageID filePath in
    CatalogPromoteData storageID filePath workflowVersionID runID activityID id entry sum
  else eret (Err (errorf "only files can be promoted" [])).

(** [BrowserCoordinator.PromoteArtifact] *)
Definition PromoteArtifact (storageID filePath id name version scope scopeID : string)
    : effr W unit :=
  if has_suffix ".sif" (to_lower filePath) then
    let? entry := Stat storageID filePath in
    if bool_decide (entry.(FileEntry.Type_) = FileEntryFile) then
      let? sum := Checksum storageID filePath in
      CatalogPromoteArtifact storageID filePath id name version scope scopeID sum entry
    else eret (Err (errorf "artifact must be a file" []))
  else eret (Err (errorf "only .sif files can be executable artifacts" [])).

(** ** Copies *)

(** [err = m; if err != nil { ignored }] *)
Definition ignore {A} (m : eff W A) : eff W unit := let! _ := m in eret tt.

(** The record of a job that was just queued. *)
Definition queued_run (runID id path strategy : string) (size : Z) (now : Time) : DownloadRun := {|
  DownloadRun.ID := runID; DownloadRun.StorageID := id; DownloadRun.Path := path;
  DownloadRun.Status := DownloadQueued; DownloadRun.Strategy := strategy; DownloadRun.URL := "";
  DownloadRun.SizeBytes := size; DownloadRun.TransferredBytes := 0; DownloadRun.Error := "";
  DownloadRun.CreatedAt := now; DownloadRun.UpdatedAt := now
|}.

(** What a queueing operation returns: the record, an error, and the work started. *)
Abbreviation queued := (DownloadRun * option error * option job)%type.

(** [BrowserCoordinator.QueueCopy] *)
Definition QueueCopy (id path destination runID : string) : eff W queued :=
  let! st := Stat id path in
  match st with
  | Err e => eret (zero, Some e, None)
  | Ok entry =>
    let! now := Now in
    let run := queued_run runID id path ("copy:" +:+ destination) entry.(FileEntry.SizeBytes) now in
    let! saved := SaveDownload run in
    match saved with
    | Err e => eret (run, Some e, None)
    | Ok _ =>
      let! d := find_storage destination in
      match d with
      | Err e =>
        let run := run <| DownloadRun.Status := DownloadFailed |>
                       <| DownloadRun.Error := "destination storage is unavailable" |> in
        let! _ := ignore (SaveDownload run) in
        eret (run, Some e, None)
      | Ok dst =>
        let! s := find_storage id in
        match s with
        | Err e => eret (run, Some e, None)
        | Ok src =>
          match usable src false, usable dst true with
          | Err e, _ => eret (run, Some e, None)
          | Ok _, Err e => eret (run, Some e, None)
          | Ok _, Ok _ => eret (run, None, Some (CopyJob run src dst entry))
          end
        end
      end
    end
  end.

(** How a job ends: [Stuck] is a goroutine that waits forever. *)
Inductive job_end := Finished | Stuck | OutOfFuel.

(** The end of a job: the record in its final state. *)
Definition settle_run (run : DownloadRun) (err : option error) (on_success : DownloadRun → DownloadRun)
    : eff W job_end :=
  let run := match err with
             | Some e => run <| DownloadRun.Status := DownloadFailed |> <| DownloadRun.Error := e |>
             | None => on_success run
             end in
  let! now := Now in
  let! _ := ignore (SaveDownload (run <| DownloadRun.UpdatedAt := now |>)) in
  eret Finished.

(** [run.Status, run.UpdatedAt = domain.DownloadStreaming, time.Now().UTC()], saved *)
Definition start_run (run : DownloadRun) : eff W (result DownloadRun) :=
  let! now := Now in
  let run := run <| DownloadRun.Status := DownloadStreaming |> <| DownloadRun.UpdatedAt := now |> in
  let! saved := SaveDownload run in
  eret (match saved with Ok _ => Ok run | Err e => Err e end).

(** The bytes moved by [copy]. *)
Definition copy_bytes (run : DownloadRun) (src dst : StorageResource) (entry : FileEntry)
    : eff W (option error) :=
  match usable src false with
  | Err e => eret (Some e)
  | Ok sb =>
    match usable dst true with
    | Err e => eret (Some e)
    | Ok db =>
      let! opened := Open_ sb src run.(DownloadRun.Path) in
      match opened with
      | Err e => eret (Some e)
      | Ok (body, _) =>
        let! (written, _) := Write db dst run.(DownloadRun.Path) body entry.(FileEntry.SizeBytes) in
        eret (match written with Ok _ => None | Err e => Some e end)
      end
    end
  end.

(** [BrowserCoordinator.copy] *)
Definition copy (run : DownloadRun) (src dst : StorageResource) (entry : FileEntry) : eff W job_end :=
  let! started := start_run run in
  match started with
  | Err _ => eret Finished
  | Ok run =>
    let! err := copy_bytes run src dst entry in
    settle_run run err (λ run, run <| DownloadRun.Status := DownloadCompleted |>
                                   <| DownloadRun.TransferredBytes := entry.(FileEntry.SizeBytes) |>)
  end.

(** ** Archives *)

(** [archive/tar]: an entry, and a writer with the bytes still owed to the last. *)
Record TarEntry := mk_tar_entry {
  tar_name : string; tar_size : Z; tar_time : Time; tar_content : string
}.
Record Tar := mk_tar { tar_entries : list TarEntry; owed : Z }.

(** [tarWriter.WriteHeader], then [io.Copy(tarWriter, body)]. *)
Definition tar_add (t : Tar) (entry : FileEntry) (body : Reader) : result unit * Tar :=
  let size := entry.(FileEntry.SizeBytes) in
  if 0 <? t.(owed) then (Err (errorf "archive/tar: missed writing %d bytes" [itoa t.(owed)]), t)
  else if size <? 0 then (Err (errorf "archive/tar: cannot encode header" []), t)
  else
    let length := Z.of_nat (str_length body.(bytes)) in
    let add content := mk_tar (t.(tar_entries) ++
      [mk_tar_entry (trim_prefix "/" entry.(FileEntry.Path)) size entry.(FileEntry.ModifiedAt) content]) in
    if size <? length then
      (Err (errorf "archive/tar: write too long" []), add (take_str (Z.to_nat size) body.(bytes)) 0)
    else (match body.(read_error) with Some e => Err e | None => Ok tt end,
          add body.(bytes) (size - length)).

(** The loop over the entries of a directory; [walk] is the recursive call. *)
Fixpoint archive_entries (b : StorageBrowser W) (storage : StorageResource)
    (walk : string → Tar → eff W (option (result unit) * Tar)) (entries : list FileEntry) (t : Tar)
    : eff W (option (result unit) * Tar) :=
  match entries with
  | [] => eret (Some (Ok tt), t)
  | entry :: rest =>
    if bool_decide (entry.(FileEntry.Type_) = FileEntrySymlink) then
      archive_entries b storage walk rest t
    else if bool_decide (entry.(FileEntry.Type_) = FileEntryDirectory) then
      let! (r, t) := walk entry.(FileEntry.Path) t in
      match r with
      | Some (Ok _) => archive_entries b storage walk rest t
      | r => eret (r, t)
      end
    else
      let! opened := Open_ b storage entry.(FileEntry.Path) in
      match opened with
      | Err e => eret (Some (Err e), t)
      | Ok (body, _) =>
        match tar_add t entry body with
        | (Ok _, t) => archive_entries b storage walk rest t
        | (Err e, t) => eret (Some (Err e), t)
        end
      end
  end.

(** The request a walk makes for a directory. *)
Definition first_page (path : string) : BrowseRequest := BrowseRequest.mk path "" 500.

(** [walk] of [writeArchive] *)
Fixpoint archive_walk (fuel : nat) (b : StorageBrowser W) (storage : StorageResource)
    (directory : string) (t : Tar) : eff W (option (result unit) * Tar) :=
  match fuel with
  | O => eret (None, t)
  | S fuel =>
    let! page := Browse b storage (first_page directory) in
    match page with
    | Err e => eret (Some (Err e), t)
    | Ok page =>
      archive_entries b storage (archive_walk fuel b storage) page.(BrowsePage.Entries) t
    end
  end.

(** [BrowserCoordinator.writeArchive] *)
Definition writeArchive (fuel : nat) (b : StorageBrowser W) (storage : StorageResource)
    (root : string) : eff W (option (result unit) * Tar) :=
  archive_walk fuel b storage root (mk_tar [] 0).

(** The bytes of a gzipped tar archive. *)
Context (tar_gz : Tar → string).

(** [strings.TrimSuffix(run.Path, "/") + ".tar.gz"] *)
Definition archive_name (path : string) : string := trim_suffix "/" path +:+ ".tar.gz".

(** [BrowserCoordinator.archive]. The archive is written through a pipe: if [Write]
    returns before it read the pipe to its end, the writing goroutine waits for a
    reader and [archive] waits for that goroutine. *)
Definition archive (fuel : nat) (run : DownloadRun) (storage : StorageResource) : eff W job_end :=
  let! started := start_run run in
  match started with
  | Err _ => eret Finished
  | Ok run =>
    let ready output run := run <| DownloadRun.Path := output |>
                                <| DownloadRun.Status := DownloadReady |> in
    match usable storage true with
    | Err e => settle_run run (Some e) id
    | Ok b =>
      let! (walked, t) := writeArchive fuel b storage run.(DownloadRun.Path) in
      match walked with
      | None => eret OutOfFuel
      | Some archived =>
        let output := archive_name run.(DownloadRun.Path) in
        let! (written, drained) := Write b storage output (mk_reader (tar_gz t) None) 0 in
        if drained then
          settle_run run
            (match written, archived with
             | Err e, _ => Some e
             | Ok _, Err e => Some e
             | Ok _, Ok _ => None
             end) (ready output)
        else eret Stuck
      end
    end
  end.

(** [BrowserCoordinator.QueueArchive] *)
Definition QueueArchive (id path runID : string) : eff W queued :=
  let! st := Stat id path in
  match st with
  | Err e => eret (zero, Some e, None)
  | Ok entry =>
    if bool_decide (entry.(FileEntry.Type_) = FileEntryDirectory) then
      let! now := Now in
      let run := queued_run runID id path "archive" 0 now in
      let! saved := SaveDownload run in
      match saved with
      | Err e => eret (run, Some e, None)
      | Ok _ =>
        let! s := find_storage id in
        match s with
        | Err e => eret (run, Some e, None)
        | Ok v =>
          match usable v true with
          | Err e => eret (run, Some e, None)
          | Ok _ => eret (run, None, Some (ArchiveJob run v))
          end
        end
      end
    else eret (zero, Some (errorf "archive requires a directory" []), None)
  end.

(** The goroutine a queueing operation starts. *)
Definition run_job (fuel : nat) (j : job) : eff W job_end :=
  match j with
  | CopyJob run src dst entry => copy run src dst entry
  | ArchiveJob run storage => archive fuel run storage
  end.

(** ** Indexing *)
Section index.
Context (b : StorageBrowser W) (v : StorageResource) (limit : Z).

(** The loop over a page; [walk] visits a directory one level down. *)
Fixpoint index_entries (walk : option (string → Z → eff W (Z * option error)))
    (entries : list FileEntry) (count : Z) : eff W (Z * option error) :=
  match entries with
  | [] => eret (count, None)
  | x :: rest =>
    let policy := v.(StorageResource.IndexPolicy) in
    let is_directory := bool_decide (x.(FileEntry.Type_) = FileEntryDirectory) in
    if excluded x.(FileEntry.Path) policy.(IndexPolicy.Exclude) then index_entries walk rest count
    else if negb is_directory && negb (included x.(FileEntry.Path) policy.(IndexPolicy.Include)) then
      index_entries walk rest count
    else
      let count := count + 1 in
      let descend := match walk with
                     | Some walk => if is_directory then walk x.(FileEntry.Path) count
                                    else eret (count, None)
                     | None => eret (count, None)
                     end in
      let! (count, err) := descend in
      match err with
      | Some e => eret (count, Some e)
      | None => if limit <=? count then eret (count, None) else index_entries walk rest count
      end
  end.

(** [walk] of [StartIndex], with the number of levels left below the directory. *)
Fixpoint index_walk (levels : nat) (p : string) (count : Z) : eff W (Z * option error) :=
  let! cancelled := ctx_err in
  match cancelled with
  | Some e => eret (count, Some e)
  | None =>
    if limit <=? count then eret (count, None)
    else
      let! page := Browse b v (first_page p) in
      match page with
      | Err e => eret (count, Some e)
      | Ok page =>
        index_entries (match levels with O => None | S levels => Some (index_walk levels) end)
          page.(BrowsePage.Entries) count
      end
  end.

Fixpoint index_roots (levels : nat) (roots : list string) (count : Z) : eff W (Z * option error) :=
  match roots with
  | [] => eret (count, None)
  | r :: rest =>
    let! (count, err) := index_walk levels r count in
    match err with
    | Some e => eret (count, Some e)
    | None => index_roots levels rest count
    end
  end.
End index.

(** The bounds and roots of an index. *)
Definition index_limit (p : IndexPolicy) : Z :=
  let limit := p.(IndexPolicy.MaxEntries) in
  if (limit <=? 0) || (100000 <? limit) then 10000 else limit.
Definition index_depth (p : IndexPolicy) : Z :=
  if p.(IndexPolicy.MaxDepth) <=? 0 then 5 else p.(IndexPolicy.MaxDepth).
Definition roots_to_index (v : StorageResource) : list string :=
  let roots := v.(StorageResource.IndexPolicy).(IndexPolicy.Roots) in
  if bool_decide (roots = []) then StorageBrowseRoot.Path <$> v.(StorageResource.BrowseRoots)
  else roots.

(** [BrowserCoordinator.StartIndex]: the run is returned with the error. *)
Definition StartIndex (id runID : string) : eff W (IndexRun * option error) :=
  let! found := find_storage id in
  match found with
  | Err e => eret (zero, Some e)
  | Ok v =>
    let policy := v.(StorageResource.IndexPolicy) in
    if negb policy.(IndexPolicy.Enabled) then
      eret (zero, Some (errorf "indexing is disabled for this storage" []))
    else
      let! created := Now in
      let run := (zero : IndexRun) <| IndexRun.ID := runID |> <| IndexRun.StorageID := id |>
        <| IndexRun.Status := "running" |> <| IndexRun.CreatedAt := created |> in
      let! _ := ignore (SaveIndexRun run) in
      let! (count, err) :=
        match Browser v.(StorageResource.Type_) with
        | Err e => eret (0, Some e)
        | Ok b => index_roots b v (index_limit policy) (Z.to_nat (index_depth policy))
                    (roots_to_index v) 0
        end in
      let! finished := Now in
      let run := run <| IndexRun.IndexedEntries := count |> <| IndexRun.FinishedAt := finished |> in
      let run := match err with
                 | Some e => run <| IndexRun.Status := "failed" |> <| IndexRun.Error := e |>
                 | None => run <| IndexRun.Status := "completed" |>
                 end in
      let! _ := ignore (SaveIndexRun run) in
      eret (run, err)
  end.
End service.

(** ** An index is bounded *)
Section bounded.
Context `{StorageCatalog W, BrowserResolver W, WallClock W, Cancellation W}.
Context (b : StorageBrowser W) (v : StorageResource) (limit : Z).

Lemma index_entries_bound (walk : option (string → Z → eff W (Z * option error))) entries count w count' err w' :
  (∀ f p c w c' err w', walk = Some f → c ≤ limit → f p c w = ((c', err), w') → c ≤ c' ≤ limit) →
  count < limit →
  index_entries v limit walk entries count w = ((count', err), w') → count ≤ count' ≤ limit.
Proof.
  intros Hwalk. revert count w. induction entries as [|x rest IH]; intros count w Hc; simpl.
  { intros [= <- <- <-]. lia. }
  destruct (excluded _ _); [by apply IH|]. destruct (_ && _); [by apply IH|].
  intros ([c1 e1] & w1 & Hd & Hk)%ebind_ok.
  assert (count + 1 ≤ c1 ≤ limit) as Hc1.
  { destruct walk as [f|]; [|injection Hd as <- <- <-; lia].
    destruct (bool_decide _); [|injection Hd as <- <- <-; lia].
    eapply Hwalk; [done| |exact Hd]. lia. }
  destruct e1; [injection Hk as <- <- <-; lia|].
  destruct (limit <=? c1) eqn:El; [injection Hk as <- <- <-; lia|].
  apply IH in Hk; lia.
Qed.

Lemma index_walk_bound levels p count w count' err w' : count ≤ limit →
  index_walk b v limit levels p count w = ((count', err), w') → count ≤ count' ≤ limit.
Proof.
  revert p count w count' err w'. induction levels as [|n IH]; intros p count w count' err w' Hc;
    cbn [index_walk]; intros (c & w1 & _ & Hk)%ebind_ok;
    (destruct c; [injection Hk as <- <- <-; lia|]);
    (destruct (limit <=? count) eqn:El; [injection Hk as <- <- <-; lia|]);
    apply ebind_ok in Hk as (page & w2 & _ & Hk);
    (destruct page; [|injection Hk as <- <- <-; lia]);
    (eapply index_entries_bound; [|lia|exact Hk]); [done|].
  intros f p' c' w0 c'' err' w0' [= <-]. apply IH.
Qed.

Lemma index_roots_bound levels roots count w count' err w' : count ≤ limit →
  index_roots b v limit levels roots count w = ((count', err), w') → count ≤ count' ≤ limit.
Proof.
  revert count w. induction roots as [|r roots IH]; intros count w Hc; cbn [index_roots].
  { intros [= <- <- <-]. lia. }
  intros ([c1 e1] & w1 & Hw & Hk)%ebind_ok. apply index_walk_bound in Hw; [|done].
  destruct e1; [injection Hk as <- <- <-; lia|]. apply IH in Hk; lia.
Qed.
End bounded.

Lemma index_limit_range p : 0 < index_limit p ≤ 100000.
Proof. unfold index_limit. destruct (_ || _) eqn:E; lia. Qed.

Section index_run.
Context `{StorageCatalog W, BrowserResolver W, WallClock W, Cancellation W}.

(** An index of a storage always ends, whatever the tree looks like, counts at
    most the entries its policy allows and never more than 100000, and its record
    says completed exactly when no error is returned, failed with that error
    otherwise. *)
Theorem index_run_bounded id runID v w w1 run err w' :
  find_storage id w = (Ok v, w1) → v.(StorageResource.IndexPolicy).(IndexPolicy.Enabled) = true →
  StartIndex id runID w = ((run, err), w') →
  0 ≤ run.(IndexRun.IndexedEntries) ≤ index_limit v.(StorageResource.IndexPolicy) ∧
  index_limit v.(StorageResource.IndexPolicy) ≤ 100000 ∧
  run.(IndexRun.ID) = runID ∧ run.(IndexRun.StorageID) = id ∧
  match err with
  | None => run.(IndexRun.Status) = "completed" ∧ run.(IndexRun.Error) = ""
  | Some e => run.(IndexRun.Status) = "failed" ∧ run.(IndexRun.Error) = e
  end.
Proof.
  intros Hf He. pose proof (index_limit_range v.(StorageResource.IndexPolicy)) as Hl.
  unfold StartIndex, ebind at 1. rewrite Hf, He. cbn [negb].
  intros (created & w2 & _ & (? & w3 & _ & ([count e] & w4 & Hi & Hk)%ebind_ok)%ebind_ok)%ebind_ok.
  apply ebind_ok in Hk as (finished & w5 & _ & (? & w6 & _ & [= <- <- <-])%ebind_ok).
  assert (0 ≤ count ≤ index_limit v.(StorageResource.IndexPolicy)) as Hc.
  { destruct (Browser _); [|injection Hi as <- <- <-; lia].
    apply index_roots_bound in Hi; lia. }
  destruct e; simpl; split_and!; try done; lia.
Qed.
End index_run.

(** ** Only writable storages are written *)
Definition writable (v : StorageResource) : Prop :=
  v.(StorageResource.BrowseRoots) ≠ [] ∧
  v.(StorageResource.Health).(StorageHealthStatus.Status) ≠ StorageHealthUnavailable ∧
  v.(StorageResource.ReadOnly) = false.

Section writing.
Context `{StorageCatalog W, BrowserResolver W, WallClock W}.

Lemma usable_write v b : usable v true = Ok b → writable v ∧ Browser v.(StorageResource.Type_) = Ok b.
Proof.
  unfold usable. case_bool_decide; [done|]. case_bool_decide; [done|].
  destruct (_ && _) eqn:E; [done|]. intros Hb. split; [|done]. done.
Qed.

(** The storage a job writes to. *)
Definition job_target (j : job) : StorageResource :=
  match j with CopyJob _ _ dst _ => dst | ArchiveJob _ v => v end.

(** Nothing is written to a storage that is read-only, unavailable or without a
    browse root: a deletion reaches the browser of a writable storage only, and a
    copy or an archive is started only onto one. *)
Theorem writes_are_guarded id path destination runID w :
  (∀ v w1, find_storage id w = (Ok v, w1) → ¬ writable v →
     ∃ e, Delete id path w = (Err e, w1)) ∧
  (∀ run err j w', QueueCopy id path destination runID w = ((run, err, Some j), w') →
     err = None ∧ writable (job_target j)) ∧
  (∀ run err j w', QueueArchive id path runID w = ((run, err, Some j), w') →
     err = None ∧ writable (job_target j)).
Proof.
  split_and!.
  - intros v w1 Hf Hn. unfold Delete, ebindr at 1. rewrite Hf. unfold ebindr, eret.
    destruct (usable v true) as [b|e] eqn:Eu; [|eauto]. by apply usable_write in Eu as [? _].
  - unfold QueueCopy. intros run err j w' (st & w1 & _ & Hk)%ebind_ok. destruct st; [|done].
    apply ebind_ok in Hk as (now & w2 & _ & (saved & w3 & _ & Hk)%ebind_ok). destruct saved; [|done].
    apply ebind_ok in Hk as (d & w4 & _ & Hk). destruct d as [dst|].
    + apply ebind_ok in Hk as (s & w5 & _ & Hk). destruct s as [src|]; [|done].
      destruct (usable src false); [|done]. destruct (usable dst true) eqn:Eu; [|done].
      injection Hk as _ <- <- _. apply usable_write in Eu as [? _]. done.
    + by apply ebind_ok in Hk as (? & w5 & _ & Hk).
  - unfold QueueArchive. intros run err j w' (st & w1 & _ & Hk)%ebind_ok. destruct st; [|done].
    case_bool_decide; [|done].
    apply ebind_ok in Hk as (now & w2 & _ & (saved & w3 & _ & Hk)%ebind_ok). destruct saved; [|done].
    apply ebind_ok in Hk as (d & w4 & _ & Hk). destruct d as [v|]; [|done].
    destruct (usable v true) eqn:Eu; [|done].
    injection Hk as _ <- <- _. apply usable_write in Eu as [? _]. done.
Qed.
End writing.

(** ** Jobs leave a final record *)

(** What the service relies on of the table of downloads: a save stores the record
    under its identifier, and reading, writing and telling the time change none. *)
Class DownloadLaws (W : Type) `{StorageCatalog W, BrowserResolver W, WallClock W} := {
  downloads : W → gmap string DownloadRun;
  save_stores run w : ∃ w', SaveDownload run w = (Ok tt, w') ∧
    downloads w' = <[run.(DownloadRun.ID) := run]> (downloads w);
  now_keeps w t w' : Now w = (t, w') → downloads w' = downloads w;
  find_keeps id w r w' : FindStorage id w = (r, w') → downloads w' = downloads w;
  stat_keeps t b v p w r w' : Browser t = Ok b → BrowseStat b v p w = (r, w') →
    downloads w' = downloads w;
  browse_keeps t b v q w r w' : Browser t = Ok b → Browse b v q w = (r, w') →
    downloads w' = downloads w;
  open_keeps t b v p w r w' : Browser t = Ok b → Open_ b v p w = (r, w') →
    downloads w' = downloads w;
  write_keeps t b v p rd n w r w' : Browser t = Ok b → Write b v p rd n w = (r, w') →
    downloads w' = downloads w
}.

Section jobs.
Context `{DownloadLaws W}.
Context (tar_gz : Tar → string).

(** An operation that leaves the downloads alone. *)
Definition quiet {A} (m : eff W A) : Prop :=
  ∀ w a w', m w = (a, w') → downloads w' = downloads w.
Lemma quiet_ret {A} (a : A) : quiet (eret a).
Proof. by intros w a' w' [= _ <-]. Qed.
Lemma quiet_bind {A B} (m : eff W A) (k : A → eff W B) :
  quiet m → (∀ a, quiet (k a)) → quiet (ebind m k).
Proof. intros Hm Hk w b w' (a & w1 & E1 & E2)%ebind_ok. by rewrite (Hk a _ _ _ E2), (Hm _ _ _ E1). Qed.
Lemma quiet_bindr {A B} (m : effr W A) (k : A → effr W B) :
  quiet m → (∀ a, quiet (k a)) → quiet (ebindr m k).
Proof.
  intros Hm Hk w b w'. unfold ebindr. destruct (m w) as [[a|e] w1] eqn:E.
  - intros E2. by rewrite (Hk a _ _ _ E2), (Hm _ _ _ E).
  - intros [= _ <-]. by rewrite (Hm _ _ _ E).
Qed.
Lemma quiet_clock : quiet Now.
Proof. intros w t w'. apply now_keeps. Qed.
Lemma quiet_find id : quiet (find_storage id).
Proof.
  unfold find_storage. apply quiet_bind; [|intros; apply quiet_ret]. intros w r w'. apply find_keeps.
Qed.
Lemma usable_browser v write b : usable v write = Ok b → Browser v.(StorageResource.Type_) = Ok b.
Proof. unfold usable. repeat (case_match; try done). Qed.
Lemma quiet_stat id path : quiet (Stat id path).
Proof.
  unfold Stat. apply quiet_bindr; [apply quiet_find|]. intros v. unfold ebindr, eret.
  intros w a w'. destruct (usable v false) as [b|] eqn:E; [|by intros [= _ <-]].
  eapply stat_keeps, usable_browser, E.
Qed.
Lemma quiet_copy_bytes run src dst entry : quiet (copy_bytes run src dst entry).
Proof.
  unfold copy_bytes. destruct (usable src false) as [sb|] eqn:Es; [|apply quiet_ret].
  destruct (usable dst true) as [db|] eqn:Ed; [|apply quiet_ret].
  apply usable_browser in Es, Ed.
  apply quiet_bind; [intros w r w'; by eapply open_keeps|]. intros [[body e]|e]; [|apply quiet_ret].
  apply quiet_bind; [intros w r w'; by eapply write_keeps|]. intros []. apply quiet_ret.
Qed.

Lemma quiet_archive_entries b t storage walk entries tar :
  Browser t = Ok b → (∀ p tar, quiet (walk p tar)) → quiet (archive_entries b storage walk entries tar).
Proof.
  intros Hb Hw. revert tar. induction entries as [|x rest IH]; intros tar; simpl; [apply quiet_ret|].
  case_bool_decide; [apply IH|]. case_bool_decide.
  - apply quiet_bind; [apply Hw|]. intros [[[]|] tar']; [apply IH|apply quiet_ret..].
  - apply quiet_bind; [intros w r w'; by eapply open_keeps|]. intros [[body e]|e]; [|apply quiet_ret].
    destruct (tar_add _ _ _) as [[] tar']; [apply IH|apply quiet_ret].
Qed.
Lemma quiet_archive_walk fuel b t storage directory tar :
  Browser t = Ok b → quiet (archive_walk fuel b storage directory tar).
Proof.
  intros Hb. revert directory tar. induction fuel as [|fuel IH]; intros directory tar; simpl;
    [apply quiet_ret|].
  apply quiet_bind; [intros w r w'; by eapply browse_keeps|]. intros [page|e]; [|apply quiet_ret].
  eapply quiet_archive_entries; [done|]. apply IH.
Qed.

Lemma start_run_spec run w : ∃ now w', let run' := run <| DownloadRun.Status := DownloadStreaming |>
    <| DownloadRun.UpdatedAt := now |> in
  start_run run w = (Ok run', w') ∧ downloads w' = <[run.(DownloadRun.ID) := run']> (downloads w).
Proof.
  unfold start_run, ebind. destruct (Now w) as [now w1] eqn:En.
  destruct (save_stores (run <| DownloadRun.Status := DownloadStreaming |>
    <| DownloadRun.UpdatedAt := now |>) w1) as (w2 & Hs & Hd).
  exists now, w2. cbv zeta. split.
  - by rewrite Hs.
  - rewrite Hd. by rewrite (now_keeps _ _ _ En).
Qed.

Lemma settle_run_spec run err on_success w : ∃ now w',
  settle_run run err on_success w = (Finished, w') ∧
  let final := match err with
               | Some e => run <| DownloadRun.Status := DownloadFailed |> <| DownloadRun.Error := e |>
               | None => on_success run
               end <| DownloadRun.UpdatedAt := now |> in
  downloads w' = <[final.(DownloadRun.ID) := final]> (downloads w).
Proof.
  unfold settle_run, ignore, ebind. set (r := match err with Some _ => _ | None => _ end).
  destruct (Now w) as [now w1] eqn:En.
  destruct (save_stores (r <| DownloadRun.UpdatedAt := now |>) w1) as (w2 & Hs & Hd).
  exists now, w2. rewrite Hs. split; [done|]. cbv zeta. rewrite Hd. by rewrite (now_keeps _ _ _ En).
Qed.

Definition job_id (j : job) : string :=
  match j with CopyJob run _ _ _ | ArchiveJob run _ => run.(DownloadRun.ID) end.
(** The states a job ends in. *)
Definition final_record (j : job) (r : DownloadRun) : Prop :=
  match j with
  | CopyJob run _ _ entry =>
    (r.(DownloadRun.Status) = DownloadCompleted ∧
     r.(DownloadRun.TransferredBytes) = entry.(FileEntry.SizeBytes)) ∨
    r.(DownloadRun.Status) = DownloadFailed
  | ArchiveJob run _ =>
    (r.(DownloadRun.Status) = DownloadReady ∧
     r.(DownloadRun.Path) = archive_name run.(DownloadRun.Path)) ∨
    r.(DownloadRun.Status) = DownloadFailed
  end.

(** A background job that finishes leaves its download in a final state that says
    what happened: a copy completed with all bytes, an archive ready under the name
    of its file, or failed. A copy always finishes. Other downloads are not touched. *)
Theorem job_settles fuel j w o w' : run_job tar_gz fuel j w = (o, w') →
  ((∃ run src dst entry, j = CopyJob run src dst entry) → o = Finished) ∧
  (o = Finished → ∃ r, downloads w' !! job_id j = Some r ∧ final_record j r) ∧
  ∀ id, id ≠ job_id j → downloads w' !! id = downloads w !! id.
Proof.
  destruct j as [run src dst entry|run storage]; cbn [run_job job_id].
  - unfold copy. intros (st & w1 & Hst & Hk)%ebind_ok.
    destruct (start_run_spec run w) as (now & w1' & Hs & Hd). rewrite Hs in Hst.
    injection Hst as <- <-. apply ebind_ok in Hk as (err & w2 & Hc & Hk).
    apply quiet_copy_bytes in Hc.
    match type of Hk with settle_run ?r ?e ?f ?w0 = _ =>
      destruct (settle_run_spec r e f w0) as (now' & w3 & He & Hf) end.
    rewrite He in Hk. injection Hk as <- <-. split; [done|]. rewrite Hf, Hc, Hd. split.
    + intros _. destruct err; simpl; rewrite lookup_insert_eq; eexists; (split; [done|]); simpl; auto.
    + intros id Hid. destruct err; simpl; by rewrite !lookup_insert_ne.
  - unfold archive. intros (st & w1 & Hst & Hk)%ebind_ok.
    destruct (start_run_spec run w) as (now & w1' & Hs & Hd). rewrite Hs in Hst.
    injection Hst as <- <-. split; [by intros (? & ? & ? & ? & ?)|].
    destruct (usable storage true) as [b|e] eqn:Eu.
    + apply usable_browser in Eu. apply ebind_ok in Hk as ([walked t] & w2 & Hw & Hk).
      apply (quiet_archive_walk _ _ _ _ _ _ Eu) in Hw.
      destruct walked as [archived|].
      * apply ebind_ok in Hk as ([written drained] & w3 & Hwr & Hk).
        apply (write_keeps _ _ _ _ _ _ _ _ _ Eu) in Hwr. destruct drained.
        -- match type of Hk with settle_run ?r ?e ?f ?w0 = _ =>
             destruct (settle_run_spec r e f w0) as (now' & w4 & He & Hf) end.
           rewrite He in Hk. injection Hk as <- <-. rewrite Hf, Hwr, Hw, Hd. split.
           ++ intros _. destruct written, archived; simpl; rewrite lookup_insert_eq;
                eexists; (split; [done|]); simpl; auto.
           ++ intros id Hid. destruct written, archived; simpl; by rewrite !lookup_insert_ne.
        -- injection Hk as <- <-. split; [done|]. intros id Hid.
           by rewrite Hwr, Hw, Hd, lookup_insert_ne.
      * injection Hk as <- <-. split; [done|]. intros id Hid. by rewrite Hw, Hd, lookup_insert_ne.
    + match type of Hk with settle_run ?r ?e ?f ?w0 = _ =>
        destruct (settle_run_spec r e f w0) as (now' & w4 & He & Hf) end.
      rewrite He in Hk. injection Hk as <- <-. rewrite Hf, Hd. split.
      * intros _. simpl. rewrite lookup_insert_eq. eexists. split; [done|]. simpl. auto.
      * intros id Hid. simpl. by rewrite !lookup_insert_ne.
Qed.

(** A copy onto a storage that cannot be written is refused after it was recorded:
    the caller gets the error, but the download stays queued for good, since no job
    was started that could settle it. *)
Theorem refused_copy_stays_queued id path destination runID w run e w' :
  QueueCopy id path destination runID w = ((run, Some e, None), w') →
  (∀ v w1 w2, find_storage destination w1 = (v, w2) → ∃ dst, v = Ok dst ∧ ¬ writable dst) →
  run.(DownloadRun.ID) = runID → runID ≠ "" →
  run.(DownloadRun.Status) = DownloadQueued ∧ downloads w' !! runID = Some run.
Proof.
  intros Hq Hdst Hid Hne. unfold QueueCopy in Hq.
  apply ebind_ok in Hq as (st & w1 & Hst & Hk). apply quiet_stat in Hst.
  destruct st as [entry|]; [|injection Hk as <- _ _; by destruct Hne].
  apply ebind_ok in Hk as (now & w2 & Hn & Hk).
  apply ebind_ok in Hk as (saved & w3 & Hs & Hk).
  match type of Hs with SaveDownload ?r _ = _ => set (run0 := r) in * end.
  destruct (save_stores run0 w2) as (w3' & Hs' & Hd). rewrite Hs' in Hs. injection Hs as <- <-.
  apply ebind_ok in Hk as (d & w4 & Hf & Hk). destruct (Hdst _ _ _ Hf) as (dst & -> & Hw).
  apply quiet_find in Hf. apply ebind_ok in Hk as (s & w5 & Hf2 & Hk). apply quiet_find in Hf2.
  assert (run = run0 ∧ w' = w5) as [-> ->].
  { destruct s as [src|]; [|by injection Hk as <- _ <-].
    destruct (usable src false); [|by injection Hk as <- _ <-].
    destruct (usable dst true) eqn:Eu; [|by injection Hk as <- _ <-]. by injection Hk. }
  split; [done|]. rewrite Hf2, Hf, Hd. change (DownloadRun.ID run0) with runID.
  apply lookup_insert_eq.
Qed.
End jobs.

(** ** What an archive holds *)

(** A browser that serves a tree: [listing] of the directories, [content] of the
    files; a request without cursor gets the first entries, up to its limit. *)
Record serves {W} (b : StorageBrowser W) (storage : StorageResource)
    (listing : string → list FileEntry) (content : string → string) : Prop := {
  serve_browse p w : ∃ page, Browse b storage (first_page p) w = (Ok page, w) ∧
    page.(BrowsePage.Entries) = take 500 (listing p);
  serve_open p w : ∃ e, Open_ b storage p w = (Ok (mk_reader (content p) None, e), w)
}.

Definition is_symlink (x : FileEntry) : bool := bool_decide (x.(FileEntry.Type_) = FileEntrySymlink).
Definition is_directory (x : FileEntry) : bool :=
  bool_decide (x.(FileEntry.Type_) = FileEntryDirectory).
(** The files below a directory, of which only a part of each listing is seen. *)
Fixpoint files_of (listing : string → list FileEntry) (depth : nat) (p : string) : list FileEntry :=
  match depth with
  | O => []
  | S depth => flat_map (λ x, if is_symlink x then []
                              else if is_directory x then files_of listing depth x.(FileEntry.Path)
                              else [x]) (listing p)
  end.

Section archives.
Context {W : Type} (b : StorageBrowser W) (storage : StorageResource).
Context (listing : string → list FileEntry) (content : string → string) (rank : string → nat).
Context (served : serves b storage listing content).
(** The tree is finite, and the sizes listed are those of the files. *)
Context (ranked : ∀ p x, x ∈ listing p → is_directory x = true →
  (rank x.(FileEntry.Path) < rank p)%nat).
Context (sized : ∀ p x, x ∈ listing p → is_symlink x = false → is_directory x = false →
  x.(FileEntry.SizeBytes) = Z.of_nat (str_length (content x.(FileEntry.Path)))).

Definition tar_of (x : FileEntry) : TarEntry :=
  mk_tar_entry (trim_prefix "/" x.(FileEntry.Path)) x.(FileEntry.SizeBytes)
    x.(FileEntry.ModifiedAt) (content x.(FileEntry.Path)).
Definition seen (p : string) : list FileEntry := take 500 (listing p).

Lemma tar_add_exact l x e : x.(FileEntry.SizeBytes) = Z.of_nat (str_length (content x.(FileEntry.Path))) →
  e = x → tar_add (mk_tar l 0) x (mk_reader (content x.(FileEntry.Path)) None) =
    (Ok tt, mk_tar (l ++ [tar_of e]) 0).
Proof.
  intros Hs ->. unfold tar_add. cbn [owed bytes read_error tar_entries]. rewrite Hs, Z.ltb_irrefl.
  rewrite (proj2 (Z.ltb_ge _ 0)), Z.ltb_irrefl, Z.sub_diag by lia. unfold tar_of. by rewrite Hs.
Qed.

Lemma archive_entries_exact fuel entries l w :
  (∀ x, x ∈ entries → is_directory x = true → ∀ l w, ∃ l',
     archive_walk fuel b storage x.(FileEntry.Path) (mk_tar l 0) w = ((Some (Ok tt), l'), w) ∧
     l' = mk_tar (l ++ (tar_of <$> files_of seen fuel x.(FileEntry.Path))) 0) →
  (∀ x, x ∈ entries → is_symlink x = false → is_directory x = false →
     x.(FileEntry.SizeBytes) = Z.of_nat (str_length (content x.(FileEntry.Path)))) →
  archive_entries b storage (archive_walk fuel b storage) entries (mk_tar l 0) w =
    ((Some (Ok tt), mk_tar (l ++ (tar_of <$> flat_map (λ x, if is_symlink x then []
       else if is_directory x then files_of seen fuel x.(FileEntry.Path) else [x]) entries)) 0), w).
Proof.
  intros Hdir Hsize. revert l. induction entries as [|x rest IH]; intros l.
  { cbn. by rewrite app_nil_r. }
  cbn [archive_entries flat_map]. fold (is_symlink x) (is_directory x).
  rewrite fmap_app, app_assoc.
  destruct (is_symlink x) eqn:Es.
  { rewrite app_nil_r. apply IH; intros; (apply Hdir || apply Hsize); try done; by right. }
  destruct (is_directory x) eqn:Ed.
  - destruct (Hdir x (list_elem_of_here _ _) Ed l w) as (l' & Hw & ->). unfold ebind. rewrite Hw.
    apply IH; intros; (apply Hdir || apply Hsize); try done; by right.
  - unfold ebind. destruct (serve_open _ _ _ _ served x.(FileEntry.Path) w) as (e & ->).
    rewrite (tar_add_exact l x x); [|by apply Hsize; [left|..]|done].
    apply IH; intros; (apply Hdir || apply Hsize); try done; by right.
Qed.

Lemma archive_walk_exact fuel p l w : (rank p < fuel)%nat →
  archive_walk fuel b storage p (mk_tar l 0) w =
    ((Some (Ok tt), mk_tar (l ++ (tar_of <$> files_of seen fuel p)) 0), w).
Proof.
  revert p l w. induction fuel as [|fuel IH]; intros p l w Hr; [lia|]. cbn [archive_walk files_of].
  unfold ebind. destruct (serve_browse _ _ _ _ served p w) as (page & -> & He). rewrite He.
  assert (∀ x, x ∈ take 500 (listing p) → x ∈ listing p) as Hin.
  { intros x Hx. eapply elem_of_take in Hx as (i & Hx & _). by eapply list_elem_of_lookup_2. }
  apply archive_entries_exact.
  - intros x Hx Hd l' w'. eexists. split; [|done]. apply IH.
    specialize (ranked p x (Hin x Hx) Hd). lia.
  - intros x Hx. by apply (sized p), Hin.
Qed.

Lemma files_of_ext f g depth p : (∀ q, f q = g q) → files_of f depth p = files_of g depth p.
Proof.
  intros Hfg. revert p. induction depth as [|n IH]; intros p; [done|]. cbn [files_of]. rewrite Hfg.
  apply flat_map_ext. intros x. by rewrite IH.
Qed.

(** C31: An archive of a directory tree in which no directory has more than 500 entries
    holds exactly the files below the directory, in listing order, with their
    contents; links are left out. *)
Theorem archive_complete fuel root w : (rank root < fuel)%nat →
  (∀ p, (length (listing p) ≤ 500)%nat) →
  writeArchive fuel b storage root w =
    ((Some (Ok tt), mk_tar (tar_of <$> files_of listing fuel root) 0), w).
Proof.
  intros Hr Hl. unfold writeArchive. rewrite archive_walk_exact by done. simpl. do 4 f_equal.
  apply files_of_ext. intros q. unfold seen. by rewrite take_ge.
Qed.

(** A directory of more than 500 files is archived without an error, and all but the
    first 500 of its files are missing from the archive: the cursor of the page is
    not followed. *)
Theorem archive_drops_entries fuel root w : (rank root < fuel)%nat →
  (500 < length (listing root))%nat →
  Forall (λ x, x.(FileEntry.Type_) = FileEntryFile) (listing root) →
  ∃ t, writeArchive fuel b storage root w = ((Some (Ok tt), t), w) ∧
    t.(tar_entries) = tar_of <$> take 500 (listing root) ∧ length t.(tar_entries) = 500%nat.
Proof.
  intros Hr Hl Hf. eexists. unfold writeArchive. rewrite archive_walk_exact by done. split; [done|].
  destruct fuel as [|fuel]; [lia|]. cbn [tar_entries app].
  assert (files_of seen (S fuel) root = take 500 (listing root)) as ->.
  { cbn [files_of]. change (take 500 (listing root)) with (seen root).
    assert (Forall (λ x, x.(FileEntry.Type_) = FileEntryFile) (seen root)) as Hs.
    { unfold seen. by apply Forall_take. }
    induction Hs as [|x l Hx _ IH]; [done|]. cbn [flat_map].
    assert (is_symlink x = false ∧ is_directory x = false) as [-> ->].
    { unfold is_symlink, is_directory. by rewrite Hx. }
    rewrite IH. done. }
  split; [done|]. rewrite length_fmap, length_take. lia.
Qed.
End archives.

(** ** A small world, for evaluating the definitions *)
Module Example.
Record world := mk_world { saved : gmap string DownloadRun; ticks : Z }.

Definition file (path : string) : FileEntry :=
  (zero : FileEntry) <| FileEntry.Path := path |> <| FileEntry.Type_ := FileEntryFile |>
    <| FileEntry.SizeBytes := 1 |>.
Definition directory (path : string) : FileEntry :=
  (zero : FileEntry) <| FileEntry.Path := path |> <| FileEntry.Type_ := FileEntryDirectory |>.

(** Browsers of a tree that does not change. *)
Definition tree (listing : string → list FileEntry) : StorageBrowser world := {|
  Browse _ r := eret (Ok (BrowsePage.mk "s" r.(BrowseRequest.Path)
    (take (Z.to_nat r.(BrowseRequest.Limit)) (listing r.(BrowseRequest.Path))) ""));
  BrowseStat _ p := eret (Ok (if bool_decide (listing p = []) then file p else directory p));
  Open_ _ p := eret (Ok (mk_reader "x" None, file p));
  Remove _ _ := eret (Ok tt);
  Write _ _ _ _ := eret (Ok tt, true)
|}.
Definition small (p : string) : list FileEntry :=
  if bool_decide (p = "") then [directory "d"; file "a"]
  else if bool_decide (p = "d") then [file "d/b"; file "d/c"] else [].
Definition wide (p : string) : list FileEntry :=
  if bool_decide (p = "") then (λ n : nat, file ("f" +:+ itoa (Z.of_nat n))) <$> seq 0 501 else [].

Definition storage (id : string) (readOnly : bool) : StorageResource :=
  (zero : StorageResource) <| StorageResource.ID := id |>
    <| StorageResource.Type_ := StorageLocal |> <| StorageResource.ReadOnly := readOnly |>
    <| StorageResource.BrowseRoots := [StorageBrowseRoot.mk "/data" "" false] |>
    <| StorageResource.IndexPolicy := (zero : IndexPolicy) <| IndexPolicy.Enabled := true |>
         <| IndexPolicy.Roots := [""] |> <| IndexPolicy.MaxEntries := 3 |> |>.

#[local] Instance catalog : StorageCatalog world := {|
  ListEnvironmentStorages _ := eret (Ok [storage "rw" false; storage "ro" true]);
  FindStorage id := eret (Ok (if bool_decide (id = "rw") then Some (storage "rw" false)
                              else if bool_decide (id = "ro") then Some (storage "ro" true) else None));
  SaveDownload run := λ w, (Ok tt, mk_world (<[run.(DownloadRun.ID) := run]> w.(saved)) w.(ticks));
  FindDownload id := λ w, (Ok (w.(saved) !! id), w);
  CatalogPromoteData _ _ _ _ _ _ _ _ := eret (Ok tt);
  CatalogPromoteArtifact _ _ _ _ _ _ _ _ _ := eret (Ok tt);
  SaveIndexRun _ := eret (Ok tt);
  ListIndexRuns _ := eret (Ok [])
|}.
#[local] Instance resolver : BrowserResolver world := λ t,
  registry_browser (λ t, if bool_decide (t = StorageLocal) then Some (tree small) else None) t.
#[local] Instance clock : WallClock world := λ w, (w.(ticks), mk_world w.(saved) (w.(ticks) + 1)).
#[local] Instance context : Cancellation world := {| ctx_err := eret None; wait _ := eret None |}.
#[local] Instance hash : Sha256 := λ s, s.

Lemma browser_small t b : Browser t = Ok b → b = tree small.
Proof. unfold Browser, resolver, registry_browser. case_bool_decide; [|done]. by intros [= <-]. Qed.
#[local] Instance laws : DownloadLaws world.
Proof.
  refine (Build_DownloadLaws _ _ _ _ saved _ _ _ _ _ _ _).
  - intros run w. by eexists.
  - by intros w t w' [= _ <-].
  - by intros id w r w' [= _ <-].
  - by intros t b v p w r w' ->%browser_small [= _ <-].
  - by intros t b v q w r w' ->%browser_small [= _ <-].
  - by intros t b v p w r w' ->%browser_small [= _ <-].
  - by intros t b v p rd n w r w' ->%browser_small [= _ <-].
Defined.

Definition start : world := mk_world ∅ 1.
Definition render (t : Tar) : string := String.concat "," (tar_name <$> t.(tar_entries)).

Lemma serves_tree listing v : serves (tree listing) v listing (λ _, "x").
Proof. split; intros p w; eexists; [|done]. split; [done|]. done. Qed.

(** The archive of the small tree, and the index that stops at its third entry. *)
Example archived : (writeArchive 3 (tree small) (storage "rw" false) "" start).1.2.(tar_entries) =
  tar_of (λ _, "x") <$> [file "d/b"; file "d/c"; file "a"].
Proof. vm_compute. reflexivity. Qed.
Example indexed : (StartIndex "rw" "i" start).1.1.(IndexRun.IndexedEntries) = 3 ∧
  (StartIndex "rw" "i" start).1.2 = None.
Proof. vm_compute. done. Qed.

Lemma index_run_bounded_witness :
  0 ≤ (StartIndex "rw" "i" start).1.1.(IndexRun.IndexedEntries) ≤ 3.
Proof.
  destruct (StartIndex "rw" "i" start) as [[run err] w'] eqn:E.
  exact (proj1 (index_run_bounded "rw" "i" (storage "rw" false) start start run err w'
    eq_refl eq_refl E)).
Defined.

Definition the_copy : job := CopyJob (queued_run "r" "rw" "a" "copy:rw" 1 0)
  (storage "rw" false) (storage "rw" false) (file "a").
Lemma job_settles_witness : ∃ r,
  downloads (run_job render 1 the_copy start).2 !! "r" = Some r ∧ final_record the_copy r.
Proof.
  destruct (run_job render 1 the_copy start) as [o w'] eqn:E.
  destruct (job_settles render 1 the_copy start o w' E) as (Hc & Hs & _).
  apply Hs, Hc. do 4 eexists. reflexivity.
Defined.

Lemma refused_copy_stays_queued_witness :
  ∃ run, downloads (QueueCopy "rw" "a" "ro" "r" start).2 !! "r" = Some run ∧
    run.(DownloadRun.Status) = DownloadQueued.
Proof.
  destruct (QueueCopy "rw" "a" "ro" "r" start) as [[[run err] j] w'] eqn:E.
  assert (run.(DownloadRun.ID) = "r") as Hid by (vm_compute in E; injection E as <- _ _ _; reflexivity).
  assert (err = Some "storage is read-only" ∧ j = None) as [-> ->]
    by (vm_compute in E; injection E as _ <- <- _; done).
  destruct (refused_copy_stays_queued "rw" "a" "ro" "r" start run _ w' E) as [Hs Hd].
  - intros v w1 w2 [= <- _]. eexists. split; [reflexivity|]. by intros (_ & _ & [=]).
  - exact Hid.
  - discriminate.
  - exists run. done.
Defined.

Definition rank (p : string) : nat := if bool_decide (p = "") then 1%nat else 0%nat.
Lemma archive_complete_witness :
  writeArchive 2 (tree small) (storage "rw" false) "" start =
    ((Some (Ok tt), mk_tar (tar_of (λ _, "x") <$> files_of small 2 "") 0), start).
Proof.
  apply (archive_complete _ _ small (λ _, "x") rank (serves_tree small _)); [| | |].
  - intros p x Hx. unfold small in Hx. repeat case_bool_decide; [| |by apply elem_of_nil in Hx].
    + repeat (apply elem_of_cons in Hx as [->|Hx];
        [subst; intros Hd; first [discriminate Hd|vm_compute; constructor]|]).
      by apply elem_of_nil in Hx.
    + repeat (apply elem_of_cons in Hx as [->|Hx]; [done|]). by apply elem_of_nil in Hx.
  - intros p x Hx _. unfold small in Hx. repeat case_bool_decide; [| |by apply elem_of_nil in Hx];
      repeat (apply elem_of_cons in Hx as [->|Hx]; [done|]); by apply elem_of_nil in Hx.
  - vm_compute. constructor.
  - intros p. unfold small. repeat case_bool_decide; cbn; lia.
Defined.

Lemma wide_files : Forall (λ x, x.(FileEntry.Type_) = FileEntryFile) (wide "").
Proof. unfold wide. rewrite bool_decide_true by done. apply Forall_fmap, Forall_true. done. Qed.
Lemma archive_drops_entries_witness : ∃ t,
  writeArchive 1 (tree wide) (storage "rw" false) "" start = ((Some (Ok tt), t), start) ∧
  length t.(tar_entries) = 500%nat ∧ length (wide "") = 501%nat.
Proof.
  assert (∀ p x, x ∈ wide p → x.(FileEntry.Type_) = FileEntryFile ∧ x.(FileEntry.SizeBytes) = 1) as Hw.
  { intros p x. unfold wide. case_bool_decide; [|by intros ?%elem_of_nil].
    by intros (n & -> & _)%list_elem_of_fmap. }
  destruct (archive_drops_entries (tree wide) (storage "rw" false) wide (λ _, "x") (λ _, 0%nat)
    (serves_tree wide _)) with (fuel := 1%nat) (root := "") (w := start) as (t & Ht & _ & Hl).
  - intros p x Hx Hd. unfold is_directory in Hd. rewrite (proj1 (Hw p x Hx)) in Hd. discriminate.
  - intros p x Hx _ _. rewrite (proj2 (Hw p x Hx)). reflexivity.
  - lia.
  - unfold wide. rewrite bool_decide_true, length_fmap, length_seq by done. lia.
  - apply wide_files.
  - exists t. split; [exact Ht|]. split; [exact Hl|].
    unfold wide. rewrite bool_decide_true, length_fmap, length_seq by done. reflexivity.
Defined.
End Example.
End StorageService.
