(* ===== verification/Filesystem.v ===== *)
(** * The file system driver (src/internal/provider/storage/filesystem/driver.go)

    The storage driver and browser for mounted file systems, over the calls of
    package [os] it makes. Paths are slash-separated, as on every system but
    Windows. *)

From Stdlib Require Import Ascii.
From S2P Require Import Prelude GoStrings GoPath Domain Ports Monitor Shell Slurm Storage.

(** What [os.Lstat] tells of a file. *)
Module FileInfo.
Record FileInfo := mk { IsDir : bool; IsSymlink : bool; Size : Z; ModTime : Time }.
End FileInfo.
Abbreviation FileInfo := FileInfo.FileInfo.

(** The calls of [os] and [path/filepath] that look at or change the world. A file
    that is written is created first and closed last. *)
Class OS (W : Type) := {
  Getwd : result string;
  EvalSymlinks : string → effr W string;
  Lstat : string → effr W FileInfo;
  IsNotExist : error → bool;
  ReadDir : string → effr W (list string);
  Readlink : string → effr W string;
  OpenFile : string → effr W Reader;
  MkdirAll : string → effr W unit;
  Create : string → effr W unit;
  WriteBytes : string → string → effr W unit;
  Close : string → effr W unit;
  Rename : string → string → effr W unit;
  RemoveFile : string → effr W unit
}.

(** [net/url]: the scheme and the path of a URL, and the URL of a file. *)
Class URLs := {
  url_parse : string → result (string * string);
  file_url : string → string
}.

Module FilesystemDriver.
(** [filepath.Abs] *)
Definition Abs `{OS W} (path : string) : result string :=
  if rooted path then Ok (path_Clean path)
  else wd ← Getwd; Ok (path_Join [wd; path]).

Module Driver.
Record Driver := mk { typeName : StorageType; root : string }.
End Driver.
Abbreviation Driver := Driver.Driver.

(** ports/storage.go *)
Record PutObjectRequest := mk_put {
  put_storage : StorageResource; put_key : string; put_source : Reader; put_size : Z
}.
Record ObjectStat := mk_stat { stat_size : Z; stat_checksum : string }.

Section driver.
Context `{OS W, Sha256, URLs}.

(** [New] *)
Definition New (typeName : StorageType) (root : string) : result Driver :=
  if bool_decide (typeName ∈ [StorageLocal; StoragePVC; StorageNFS; StorageLustre]) then
    match Abs root with
    | Ok absolute =>
      if bool_decide (trim_space root = "") then Err (errorf "filesystem storage root is required" [])
      else Ok (Driver.mk typeName (path_Clean absolute))
    | Err _ => Err (errorf "filesystem storage root is required" [])
    end
  else Err (errorf "filesystem storage type %q is unsupported" [StorageType_string typeName]).

(** [Driver.storageRoot] *)
Definition storageRoot (d : Driver) (storage : StorageResource) : result string :=
  root ← (if bool_decide (storage.(StorageResource.Endpoint) = "") then Ok d.(Driver.root)
          else candidate ← Abs storage.(StorageResource.Endpoint); Ok (path_Clean candidate));
  let roots := storage.(StorageResource.BrowseRoots) in
  let allowed := existsb (λ configured,
    match Abs configured.(StorageBrowseRoot.Path) with
    | Ok candidate => bool_decide (path_Clean candidate = root)
    | Err _ => false
    end) roots in
  if negb (bool_decide (roots = [])) && negb allowed then
    Err (errorf "storage endpoint is not an allowed browse root" [])
  else Ok root.

(** The loop that finds the closest existing parent; the fuel is the number of
    elements of the path and one. *)
Fixpoint closest_existing (fuel : nat) (existing : string) : effr W string :=
  match fuel with
  | O => eret (Err (errorf "no existing parent for browse path" []))
  | S fuel =>
    let! st := Lstat existing in
    match st with
    | Ok _ => eret (Ok existing)
    | Err e =>
      if negb (IsNotExist e) then eret (Err e)
      else
        let parent := path_Dir existing in
        if bool_decide (parent = existing) then
          eret (Err (errorf "no existing parent for browse path" []))
        else closest_existing fuel parent
    end
  end.

(** The relative path a request asks for. *)
Definition relative_path (value : string) : string :=
  let relative := path_Clean (trim_prefix "/" value) in
  if bool_decide (relative = ".") then "" else relative.

(** [Driver.browsePath] *)
Definition browsePath (d : Driver) (storage : StorageResource) (value : string)
    : effr W (string * string) :=
  let? root := eret (storageRoot d storage) in
  let relative := relative_path value in
  if has_prefix ".." relative || rooted relative then
    eret (Err (errorf "browse path escapes its root" []))
  else
    let full := path_Join [root; relative] in
    let? realRoot := EvalSymlinks root in
    let? existing := closest_existing (S (length (clean_elems full))) full in
    let? realPath := EvalSymlinks existing in
    if negb (bool_decide (realPath = realRoot)) && negb (has_prefix (realRoot +:+ "/") realPath) then
      eret (Err (errorf "browse path escapes via symlink" []))
    else eret (Ok (full, relative)).

(** [Driver.infoEntry] *)
Definition infoEntry (storageID relative : string) (info : FileInfo) (full : string)
    : effr W FileEntry :=
  let base := {|
    FileEntry.StorageID := storageID; FileEntry.Path := relative;
    FileEntry.Name := path_Base relative;
    FileEntry.Type_ := if info.(FileInfo.IsDir) then FileEntryDirectory else FileEntryFile;
    FileEntry.SizeBytes := info.(FileInfo.Size); FileEntry.ModifiedAt := info.(FileInfo.ModTime);
    FileEntry.Checksum := ""; FileEntry.ETag := ""; FileEntry.MediaType := "";
    FileEntry.Readable := true; FileEntry.Writable := false; FileEntry.LinkTarget := ""
  |} in
  if info.(FileInfo.IsSymlink) then
    let! target := Readlink full in
    eret (Ok (base <| FileEntry.Type_ := FileEntrySymlink |> <| FileEntry.SizeBytes := 0 |>
                   <| FileEntry.LinkTarget := match target with Ok t => t | Err _ => "" end |>))
  else eret (Ok base).

(** The entry of one name of a directory. *)
Definition list_entry (storageID directory relative name : string) : effr W FileEntry :=
  let full := path_Join [directory; name] in
  let? info := Lstat full in
  infoEntry storageID (path_Join [relative; name]) info full.

(** The part of a directory a request asks for: [start] and [end], the second
    computed in 64-bit arithmetic; [None] is a slice out of range. *)
Definition page_bounds (start limit len : Z) : option (Z * Z) :=
  let limit := if (limit <=? 0) || (500 <? limit) then 100 else limit in
  let finish := int64 (start + limit) in
  let finish := if len <? finish then len else finish in
  let start := if len <? start then len else start in
  if finish <? start then None else Some (start, finish).

(** [Driver.Browse] *)
Definition Browse (d : Driver) (storage : StorageResource) (request : BrowseRequest)
    : sup W BrowsePage :=
  let* (directory, relative) := sup_lift (browsePath d storage request.(BrowseRequest.Path)) in
  let* names := sup_lift (ReadDir directory) in
  let items := sort_strings names in
  let cursor := request.(BrowseRequest.Cursor) in
  let start :=
    if bool_decide (cursor = "") then Ok 0
    else match parse_int cursor with
         | Some n => if n <? 0 then Err (errorf "invalid browse cursor" []) else Ok n
         | None => Err (errorf "invalid browse cursor" [])
         end in
  let* start := eret (Returns start) in
  let len := Z.of_nat (length items) in
  match page_bounds start request.(BrowseRequest.Limit) len with
  | None => spanic
  | Some (start, finish) =>
    let slice := take (Z.to_nat (finish - start)) (drop (Z.to_nat start) items) in
    let* entries :=
      sup_lift (map_effr (list_entry storage.(StorageResource.ID) directory relative) slice) in
    sret {|
      BrowsePage.StorageID := storage.(StorageResource.ID); BrowsePage.Path := relative;
      BrowsePage.Entries := entries;
      BrowsePage.NextCursor := if finish <? len then itoa finish else ""
    |}
  end.

(** [Driver.BrowseStat] *)
Definition BrowseStat (d : Driver) (storage : StorageResource) (value : string) : effr W FileEntry :=
  let? (full, relative) := browsePath d storage value in
  let? info := Lstat full in
  infoEntry storage.(StorageResource.ID) relative info full.

(** [Driver.Open] *)
Definition Open_ (d : Driver) (storage : StorageResource) (value : string)
    : effr W (Reader * FileEntry) :=
  let? entry := BrowseStat d storage value in
  if bool_decide (entry.(FileEntry.Type_) = FileEntryFile) then
    let? (full, _) := browsePath d storage value in
    let? f := OpenFile full in
    eret (Ok (f, entry))
  else eret (Err (errorf "only files can be downloaded" [])).

(** [Driver.Remove] *)
Definition Remove (d : Driver) (storage : StorageResource) (value : string) : effr W unit :=
  if storage.(StorageResource.ReadOnly) then eret (Err (errorf "storage is read-only" []))
  else
    let? (full, _) := browsePath d storage value in
    let? info := Lstat full in
    if info.(FileInfo.IsDir) then
      eret (Err (errorf "directories require an explicit archive/cleanup job" []))
    else RemoveFile full.

(** [firstError] *)
Definition firstError (values : list (option error)) : option error :=
  List.fold_right (λ v rest, match v with Some e => Some e | None => rest end) None values.

(** A file written under a temporary name: the errors of the copy and of the close. *)
Definition write_temporary (tmp : string) (source : Reader)
    : eff W (option error * option error) :=
  let! written := WriteBytes tmp source.(bytes) in
  let copyErr := match written with Err e => Some e | Ok _ => source.(read_error) end in
  let! closed := Close tmp in
  eret (copyErr, match closed with Err e => Some e | Ok _ => None end).

(** [Driver.Write], with whether the source was read to its end. *)
Definition Write (d : Driver) (storage : StorageResource) (value : string) (source : Reader) (_ : Z)
    : eff W (result unit * bool) :=
  let early (m : effr W (string * string)) (k : string → eff W (result unit * bool)) :=
    let! r := m in match r with Ok (full, _) => k full | Err e => eret (Err e, false) end in
  if storage.(StorageResource.ReadOnly) then eret (Err (errorf "storage is read-only" []), false)
  else
    early (let? root := eret (storageRoot d storage) in
           let? _ := MkdirAll root in
           let? (full, relative) := browsePath d storage value in
           let? _ := MkdirAll (path_Dir full) in
           let? _ := Create (full +:+ ".akoflow-copy-part") in
           eret (Ok (full, relative)))
      (λ full,
        let tmp := full +:+ ".akoflow-copy-part" in
        let! (copyErr, closeErr) := write_temporary tmp source in
        let drained := match copyErr with None => true | Some _ => false end in
        match firstError [copyErr; closeErr] with
        | Some e => let! _ := RemoveFile tmp in eret (Err e, drained)
        | None => let! r := Rename tmp full in eret (r, drained)
        end).

(** ** Objects *)

(** [Driver.resolve] *)
Definition resolve (d : Driver) (key : string) : result string :=
  let clean := path_Clean key in
  if bool_decide (clean = ".") || rooted clean || bool_decide (clean = "..") ||
     has_prefix "../" clean then
    Err (errorf "storage key %q escapes its root" [key])
  else Ok (path_Join [d.(Driver.root); clean]).

(** [filePath] *)
Definition filePath (value : string) : result string :=
  match url_parse value with
  | Ok (scheme, path) =>
    if bool_decide (scheme = "file") then Ok (path_Clean path)
    else Err (errorf "file location URI is required" [])
  | Err _ => Err (errorf "file location URI is required" [])
  end.

(** [Driver.Put] *)
Definition Put (d : Driver) (request : PutObjectRequest) : effr W DataLocation :=
  let? destination := eret (resolve d request.(put_key)) in
  let? _ := MkdirAll (path_Dir destination) in
  let temporary := destination +:+ ".akoflow-part" in
  let? _ := Create temporary in
  let! (copyErr, closeErr) := write_temporary temporary request.(put_source) in
  match firstError [copyErr; closeErr] with
  | Some e =>
    let! _ := RemoveFile temporary in
    eret (Err (errorf "write storage object: %w" [e]))
  | None =>
    let! renamed := Rename temporary destination in
    match renamed with
    | Err e => let! _ := RemoveFile temporary in eret (Err e)
    | Ok _ => eret (Ok ((zero : DataLocation) <| DataLocation.URI := file_url destination |>
                          <| DataLocation.Status := DataLocationAvailable |>))
    end
  end.

(** [Driver.Get]: what is copied to the target. *)
Definition Get (d : Driver) (location : DataLocation) : effr W Reader :=
  let? path := eret (filePath location.(DataLocation.URI)) in
  OpenFile path.

(** [Driver.Stat] *)
Definition ObjectStat_ (d : Driver) (location : DataLocation) : effr W ObjectStat :=
  let? file := Get d location in
  eret (match file.(read_error) with
        | Some e => Err e
        | None => Ok (mk_stat (Z.of_nat (str_length file.(bytes)))
                        ("sha256:" +:+ sha256_hex file.(bytes)))
        end).

(** [Driver.Delete] *)
Definition Delete (d : Driver) (location : DataLocation) : effr W unit :=
  let? path := eret (filePath location.(DataLocation.URI)) in
  match resolve d (trim_prefix (d.(Driver.root) +:+ "/") path) with
  | Ok resolved =>
    if bool_decide (resolved = path_Clean path) then RemoveFile path
    else eret (Err (errorf "location is outside storage root" []))
  | Err _ => eret (Err (errorf "location is outside storage root" []))
  end.

(** The driver as a storage browser; a panic ends the request it serves. *)
Definition browser (d : Driver) : StorageBrowser W := {|
  Storage.Browse storage request := λ w,
    match Browse d storage request w with
    | (Returns r, w') => (r, w')
    | (Panics, w') => (Err "panic", w')
    end;
  Storage.BrowseStat := BrowseStat d;
  Storage.Open_ := Open_ d;
  Storage.Remove := Remove d;
  Storage.Write := Write d
|}.
End driver.

(** ** Paths stay below their root *)

(** [os.Getwd] returns an absolute path. *)
Class OSLaws (W : Type) `{OS W} := getwd_rooted wd : Getwd = Ok wd → rooted wd = true.

(** A path below the root with elements [l]. *)
Definition below (l : list string) (p : string) : Prop :=
  ∃ ns, p = abs_path (l ++ ns) ∧ Forall normal (l ++ ns).
(** The root of a driver, as [New] makes it. *)
Definition rooted_driver (d : Driver) : Prop := ∃ l, d.(Driver.root) = abs_path l ∧ Forall normal l.

Section confinement.
Context `{OSLaws W, Sha256, URLs}.

Lemma Abs_abs p q : Abs p = Ok q → ∃ l, q = abs_path l ∧ Forall normal l.
Proof.
  unfold Abs. destruct (rooted p) eqn:Er.
  - intros [= <-]. destruct (Clean_rooted p Er) as (l & ? & ? & _). eauto.
  - destruct Getwd as [wd|] eqn:Ew; [|done]. cbn. intros [= <-].
    apply getwd_rooted in Ew. destruct wd as [|c wd]; [done|].
    unfold path_Join. cbn [drop_empty]. rewrite bool_decide_false by done.
    match goal with |- context [path_Clean ?x] => destruct (Clean_rooted x) as (l & -> & Hl & _) end.
    + done.
    + eauto.
Qed.

Lemma New_rooted t root d : New t root = Ok d → rooted_driver d.
Proof.
  unfold New. case_bool_decide; [|done]. destruct (Abs root) as [a|] eqn:Ea; [|done].
  case_bool_decide; [done|]. intros [= <-]. apply Abs_abs in Ea as (l & -> & Hl).
  exists l. simpl. by rewrite Clean_abs.
Qed.

Lemma storageRoot_abs d storage root : rooted_driver d → storageRoot d storage = Ok root →
  ∃ l, root = abs_path l ∧ Forall normal l.
Proof.
  intros (l0 & Hd & Hl0). unfold storageRoot.
  destruct (bool_decide (storage.(StorageResource.Endpoint) = "")).
  - cbn [mbind result_bind]. destruct (negb _ && negb _); [done|]. intros [= <-]. eauto.
  - destruct (Abs storage.(StorageResource.Endpoint)) as [c|] eqn:Ea; [|done].
    apply Abs_abs in Ea as (l & -> & Hl). cbn [mbind result_bind].
    rewrite Clean_abs by done. destruct (negb _ && negb _); [done|]. intros [= <-]. eauto.
Qed.

Lemma has_prefix_dots s : has_prefix "../" s = true → has_prefix ".." s = true.
Proof. intros [t ->]%has_prefix_spec. done. Qed.

(** The relative path of a request that is not refused. *)
Lemma relative_names value : has_prefix ".." (relative_path value) = false →
  rooted (relative_path value) = false →
  ∃ ns, relative_path value = join_byte slash ns ∧ Forall normal ns ∧
    (relative_path value = "" → ns = []).
Proof.
  unfold relative_path. case_bool_decide as Hd; [intros _ _; by exists []|]. intros Hp Hr.
  destruct (rooted (trim_prefix "/" value)) eqn:Er.
  - destruct (Clean_rooted _ Er) as (l & Hl & _). by rewrite Hl in Hr.
  - destruct (Clean_relative _ Er) as [?|[(ns & Hn & Hne & Hall)|[He|He]]]; [done| | |].
    + exists ns. split_and!; [done..|]. rewrite Hn. intros E. by apply join_nonempty in E.
    + by rewrite He in Hp.
    + apply has_prefix_dots in He. by rewrite He in Hp.
Qed.

Lemma Join_below l ns : Forall normal l → Forall normal ns →
  path_Join [abs_path l; join_byte slash ns] = abs_path (l ++ ns).
Proof.
  intros Hl Hn. destruct ns as [|x ns]; [rewrite app_nil_r; by apply Join_abs_nil|].
  by apply Join_abs.
Qed.

(** The search ends at an ancestor of the path. *)
Lemma closest_existing_ancestor fuel l w p w' : Forall normal l →
  closest_existing fuel (abs_path l) w = (Ok p, w') →
  ∃ k, p = abs_path (take k l) ∧ (k ≤ length l)%nat ∧ ∃ info w1 w2, Lstat p w1 = (Ok info, w2).
Proof.
  revert l w. induction fuel as [|fuel IH]; intros l w Hl; cbn [closest_existing]; [done|].
  intros (st & w1 & Hs & Hk)%ebind_ok. destruct st as [info|e].
  - injection Hk as <- <-. exists (length l). rewrite take_ge by done. eauto 10.
  - destruct (negb _); [done|]. case_bool_decide as Hp; [done|].
    destruct l as [|x l _] using rev_ind; [done|]. rewrite Dir_abs_snoc in Hk by done.
    apply Forall_app in Hl as [Hl _]. destruct (IH l w1 Hl Hk) as (k & -> & Hle & Hst).
    exists k. rewrite length_app. simpl. rewrite take_app_le by done. split_and!; [done|lia|done].
Qed.

(** One unit of fuel for each element and one for the root is enough. *)
Lemma closest_existing_fuel fuel l w : Forall normal l → (length l < fuel)%nat →
  closest_existing fuel (abs_path l) w = closest_existing (S fuel) (abs_path l) w.
Proof.
  revert l w. induction fuel as [|fuel IH]; intros l w Hl Hf; [lia|].
  remember (S fuel) as n. rewrite Heqn at 1. cbn [closest_existing]. unfold ebind.
  destruct (Lstat (abs_path l) w) as [[info|e] w1]; [done|]. destruct (negb _); [done|].
  case_bool_decide; [done|]. subst n. destruct l as [|x l _] using rev_ind; [done|].
  rewrite Dir_abs_snoc by done. apply Forall_app in Hl as [Hl _]. apply IH; [done|].
  rewrite length_app in Hf. simpl in Hf. lia.
Qed.

(** What a path that is not refused satisfies. *)
Lemma browsePath_ok d storage value w full relative w' : rooted_driver d →
  browsePath d storage value w = (Ok (full, relative), w') →
  ∃ l ns, storageRoot d storage = Ok (abs_path l) ∧ full = abs_path (l ++ ns) ∧
    relative = join_byte slash ns ∧ Forall normal (l ++ ns) ∧ relative = relative_path value ∧
    (relative_path value = "" → ns = []) ∧
    ∃ k realRoot realPath w1 w2 w3 w4, (k ≤ length (l ++ ns))%nat ∧
      EvalSymlinks (abs_path l) w1 = (Ok realRoot, w2) ∧
      EvalSymlinks (abs_path (take k (l ++ ns))) w3 = (Ok realPath, w4) ∧
      (realPath = realRoot ∨ has_prefix (realRoot +:+ "/") realPath = true).
Proof.
  intros Hd. unfold browsePath. intros (root & w1 & Hr & Hk)%ebindr_ok. injection Hr as Hr <-.
  destruct (storageRoot_abs _ _ _ Hd Hr) as (l & -> & Hl).
  destruct (_ || _) eqn:Ep; [done|]. apply orb_false_iff in Ep as [Ep1 Ep2].
  destruct (relative_names value Ep1 Ep2) as (ns & Hns & Hn & Hnil). rewrite Hns in Hk.
  rewrite Join_below in Hk by done.
  assert (Forall normal (l ++ ns)) as Hall by (by apply Forall_app).
  apply ebindr_ok in Hk as (realRoot & w2 & He1 & Hk).
  apply ebindr_ok in Hk as (existing & w3 & Hc & Hk).
  apply ebindr_ok in Hk as (realPath & w4 & He2 & Hk).
  apply closest_existing_ancestor in Hc as (k & -> & Hle & _); [|done].
  destruct (_ && _) eqn:Eg; [done|]. injection Hk as <- <- <-.
  exists l, ns. split_and!; try done.
  exists k, realRoot, realPath. do 4 eexists. split_and!; try done.
  apply andb_false_iff in Eg as [Eg|Eg]; apply negb_false_iff in Eg; [left|by right].
  by apply bool_decide_eq_true in Eg.
Qed.

(** A request for a path of a storage only ever leads to a path below the storage's
    root, made of plain names, whose closest existing parent is, with all symbolic
    links resolved, inside the resolved root. *)
Theorem browse_path_confined t root d storage value w full relative w' :
  New t root = Ok d → browsePath d storage value w = (Ok (full, relative), w') →
  ∃ l, storageRoot d storage = Ok (abs_path l) ∧ below l full ∧
    ∃ k realRoot realPath w1 w2 w3 w4,
      EvalSymlinks (abs_path l) w1 = (Ok realRoot, w2) ∧
      EvalSymlinks (abs_path (take k (clean_elems full))) w3 = (Ok realPath, w4) ∧
      (realPath = realRoot ∨ has_prefix (realRoot +:+ "/") realPath = true).
Proof.
  intros Hd%New_rooted (l & ns & Hr & -> & _ & Hn & _ & _ & k & rr & rp & w1 & w2 & w3 & w4 & Hk)%browsePath_ok;
    [|done].
  exists l. split; [done|]. split; [by exists ns|]. rewrite clean_elems_abs by done.
  destruct Hk as (_ & ? & ? & ?). exists k, rr, rp, w1, w2, w3, w4. done.
Qed.
End confinement.

(** ** What the driver changes *)

(** The calls that change the file system. *)
Inductive os_call :=
| CallMkdir (p : string)
| CallCreate (p : string)
| CallWrite (p : string)
| CallClose (p : string)
| CallRename (from to : string)
| CallRemove (p : string).
Definition touched (c : os_call) : list string :=
  match c with
  | CallMkdir p | CallCreate p | CallWrite p | CallClose p | CallRemove p => [p]
  | CallRename a b => [a; b]
  end.

(** A file system that records them. *)
#[global] Instance recorded_os `{OS W} : OS (Recorded W os_call) := {|
  Getwd := Getwd;
  EvalSymlinks p := unlogged (EvalSymlinks p);
  Lstat p := unlogged (Lstat p);
  IsNotExist := IsNotExist;
  ReadDir p := unlogged (ReadDir p);
  Readlink p := unlogged (Readlink p);
  OpenFile p := unlogged (OpenFile p);
  MkdirAll p := logged (MkdirAll p) (λ _, CallMkdir p);
  Create p := logged (Create p) (λ _, CallCreate p);
  WriteBytes p s := logged (WriteBytes p s) (λ _, CallWrite p);
  Close p := logged (Close p) (λ _, CallClose p);
  Rename a b := logged (Rename a b) (λ _, CallRename a b);
  RemoveFile p := logged (RemoveFile p) (λ _, CallRemove p)
|}.
#[global] Instance recorded_os_laws `{OSLaws W} : OSLaws (Recorded W os_call).
Proof. intros wd. apply (getwd_rooted (W := W)). Qed.

Section changes.
Context `{OSLaws W, Sha256, URLs}.

Definition confined (l : list string) (c : os_call) : Prop := Forall (below l) (touched c).

Lemma unlogged_reads P p : appends P (Lstat (W := Recorded W os_call) p).
Proof. apply appends_unlogged. Qed.
Lemma appends_closest P fuel p : appends P (closest_existing (W := Recorded W os_call) fuel p).
Proof.
  revert p. induction fuel as [|fuel IH]; intros p; cbn [closest_existing]; [apply appends_ret|].
  apply appends_bind; [apply appends_unlogged|]. intros [info|e]; [apply appends_ret|].
  destruct (negb _); [apply appends_ret|]. case_bool_decide; [apply appends_ret|apply IH].
Qed.
Lemma appends_browsePath P d storage value :
  appends P (browsePath (W := Recorded W os_call) d storage value).
Proof.
  unfold browsePath. apply appends_bindr; [apply appends_ret|]. intros root.
  destruct (_ || _); [apply appends_ret|].
  apply appends_bindr; [apply appends_unlogged|]. intros realRoot.
  apply appends_bindr; [apply appends_closest|]. intros existing.
  apply appends_bindr; [apply appends_unlogged|]. intros realPath.
  destruct (_ && _); apply appends_ret.
Qed.

(** A binding whose continuation is only reached with a certain result. *)
Lemma appends_bindr_ok {C A B} (P : C → Prop) (Q : A → Prop) (m : effr (Recorded W C) A)
    (k : A → effr (Recorded W C) B) :
  appends P m → (∀ w a w', m w = (Ok a, w') → Q a) → (∀ a, Q a → appends P (k a)) →
  appends P (ebindr m k).
Proof.
  intros Hm HQ Hk w l b w' l'. unfold ebindr. destruct (m (w, l)) as [[a|e] [w1 l1]] eqn:E.
  - intros E'. destruct (Hm _ _ _ _ _ E) as (k1 & -> & Hk1).
    destruct (Hk _ (HQ _ _ _ E) _ _ _ _ _ E') as (k2 & -> & Hk2). exists (k1 ++ k2).
    split; [by rewrite app_assoc|by apply Forall_app].
  - intros [= _ <- <-]. by eapply Hm.
Qed.

(** The names the driver appends stay names. *)
Lemma suffixed_normal x ext : normal x → free_of slash ext → (2 < str_length ext)%nat →
  normal (x +:+ ext).
Proof.
  intros (Hx & _ & _ & Hf) Hext Hlen.
  assert (2 < str_length (x +:+ ext))%nat as Hl by (rewrite str_length_app; lia).
  split_and!; [intros E; rewrite E in Hl; simpl in Hl; lia..|].
  unfold free_of in *. by rewrite str_forall_app, Hf, Hext.
Qed.
Lemma below_suffixed l ns ext : ns ≠ [] → Forall normal (l ++ ns) → free_of slash ext →
  (2 < str_length ext)%nat → below l (abs_path (l ++ ns) +:+ ext).
Proof.
  intros Hne Hn Hf Hlen. destruct ns as [|x ns _] using rev_ind; [done|].
  rewrite app_assoc in Hn. apply Forall_app in Hn as [Hn Hx]. rewrite Forall_singleton in Hx.
  exists (ns ++ [x +:+ ext]). rewrite !app_assoc. split.
  - unfold abs_path. destruct (l ++ ns) as [|y t] eqn:E; [done|].
    rewrite !join_byte_snoc by done. by rewrite str_app_String, str_app_assoc.
  - apply Forall_app. split; [done|]. apply Forall_singleton. apply suffixed_normal; [exact Hx|exact Hf|exact Hlen].
Qed.
Lemma below_dir l ns : ns ≠ [] → Forall normal (l ++ ns) → below l (path_Dir (abs_path (l ++ ns))).
Proof.
  intros Hne Hn. destruct ns as [|x ns _] using rev_ind; [done|].
  exists ns. rewrite app_assoc in Hn |- *. rewrite Dir_abs_snoc by done.
  apply Forall_app in Hn as [Hn _]. done.
Qed.

Lemma appends_write_temporary P tmp source :
  (∀ c, touched c = [tmp] → P c) →
  appends P (write_temporary (W := Recorded W os_call) tmp source).
Proof.
  intros HP. unfold write_temporary. apply appends_bind; [by apply appends_logged; auto|]. intros r.
  apply appends_bind; [by apply appends_logged; auto|]. intros c. apply appends_ret.
Qed.
End changes.

Section confined_changes.
Context `{OSLaws W, Sha256, URLs}.

Lemma appends_bind_ok {C A B} (P : C → Prop) (Q : A → Prop) (m : eff (Recorded W C) A)
    (k : A → eff (Recorded W C) B) :
  appends P m → (∀ w a w', m w = (a, w') → Q a) → (∀ a, Q a → appends P (k a)) →
  appends P (ebind m k).
Proof.
  intros Hm HQ Hk w l b w' l'. unfold ebind. destruct (m (w, l)) as [a [w1 l1]] eqn:E.
  intros E'. destruct (Hm _ _ _ _ _ E) as (k1 & -> & Hk1).
  destruct (Hk _ (HQ _ _ _ E) _ _ _ _ _ E') as (k2 & -> & Hk2). exists (k1 ++ k2).
  split; [by rewrite app_assoc|by apply Forall_app].
Qed.

(** A path strictly below [l]. *)
Definition strictly_below (l : list string) (p : string) : Prop :=
  ∃ ns, p = abs_path (l ++ ns) ∧ ns ≠ [] ∧ Forall normal (l ++ ns).
Lemma strictly_below_below l p : strictly_below l p → below l p.
Proof. intros (ns & -> & _ & ?). by exists ns. Qed.
Lemma strictly_below_suffixed l p ext : strictly_below l p → free_of slash ext →
  (2 < str_length ext)%nat → below l (p +:+ ext).
Proof. intros (ns & -> & ? & ?) Hf Hl. by apply below_suffixed. Qed.
Lemma strictly_below_dir l p : strictly_below l p → below l (path_Dir p).
Proof. intros (ns & -> & ? & ?). by apply below_dir. Qed.

Lemma browsePath_below d storage value l w full rel w' :
  rooted_driver d → storageRoot d storage = Ok (abs_path l) → Forall normal l →
  browsePath d storage value w = (Ok (full, rel), w') →
  below l full ∧ (relative_path value ≠ "" → strictly_below l full).
Proof.
  intros Hd Hr Hl (l' & ns & Hr' & -> & Hj & Hn & Hrel & _)%browsePath_ok; [|done].
  rewrite Hr in Hr'. assert (abs_path l = abs_path l') as E by congruence. pose proof Hn as Hn'. apply Forall_app in Hn' as [Hl' _].
  apply abs_path_inj in E as <-; [|done..]. split; [by exists ns|]. intros Hne. exists ns.
  split_and!; [done| |done]. intros ->. by rewrite <- Hrel, Hj in Hne.
Qed.

Lemma resolve_below d key p l : d.(Driver.root) = abs_path l → Forall normal l →
  resolve d key = Ok p → strictly_below l p.
Proof.
  intros Hd Hl. unfold resolve. destruct (_ || _) eqn:E; [done|]. intros [= <-].
  apply orb_false_iff in E as [[[E1 E2]%orb_false_iff E3]%orb_false_iff E4].
  apply bool_decide_eq_false in E1, E3.
  destruct (rooted key) eqn:Er.
  { destruct (Clean_rooted key Er) as (l' & Hc & _). by rewrite Hc in E2. }
  destruct (Clean_relative key Er) as [?|[(ns & Hc & Hne & Hn)|[?|?]]]; [done| |done|congruence].
  exists ns. rewrite Hd, Hc, Join_abs by done. split_and!; [done..|]. by apply Forall_app.
Qed.

End confined_changes.

Section all_changes.
Context `{OSLaws W, Sha256, URLs}.

Abbreviation RW := (Recorded W os_call).
(** What a write of [value] may touch: what is below the root [l] and, when the value is
    the root itself, its parent directory and the temporary file beside it. *)
Definition writable (l : list string) (value p : string) : Prop :=
  below l p ∨ relative_path value = "" ∧
    (p = path_Dir (abs_path l) ∨ p = abs_path l +:+ ".akoflow-copy-part").

Lemma browsePath_writable d storage value l w full rel w' :
  rooted_driver d → storageRoot (W := RW) d storage = Ok (abs_path l) → Forall normal l →
  browsePath (W := RW) d storage value w = (Ok (full, rel), w') →
  below l full ∧ writable l value (path_Dir full) ∧ writable l value (full +:+ ".akoflow-copy-part").
Proof.
  intros Hd Hr Hl Hb. destruct (browsePath_ok _ _ _ _ _ _ _ Hd Hb) as (l' & ns & Hr' & -> & _ & Hn & _ & Hnil & _).
  rewrite Hr in Hr'. assert (abs_path l = abs_path l') as E by congruence.
  apply abs_path_inj in E as <-; [|done|by apply Forall_app in Hn as [? _]].
  eapply browsePath_below in Hb as [Hb Hs]; [|done..]. split; [done|].
  destruct (decide (relative_path value = "")) as [He|He].
  - rewrite (Hnil He), app_nil_r. split; right; auto.
  - apply Hs in He. split; left; [by apply strictly_below_dir|].
    apply strictly_below_suffixed; [done|done|cbn; lia].
Qed.

Lemma write_confined d storage l value source size : rooted_driver d →
  storageRoot (W := RW) d storage = Ok (abs_path l) → Forall normal l →
  appends (λ c, Forall (writable l value) (touched c)) (Write (W := RW) d storage value source size).
Proof.
  intros Hd Hr Hl. unfold Write.
  destruct (StorageResource.ReadOnly storage); [apply appends_ret|].
  apply (appends_bind_ok _ (λ r : result (string * string),
    match r with Ok (full, _) => below l full ∧ writable l value (full +:+ ".akoflow-copy-part")
    | Err _ => True end)).
  + eapply appends_bindr_ok with (Q := λ root, root = abs_path l); [apply appends_ret| |].
    { rewrite Hr. by intros w a w' [= <- _]. }
    intros ? ->. apply appends_bindr.
    { apply appends_logged. intros _. apply Forall_singleton. left. exists []. by rewrite app_nil_r. }
    intros _. eapply appends_bindr_ok with (Q := λ p, writable l value (path_Dir p.1) ∧
        writable l value (p.1 +:+ ".akoflow-copy-part")); [apply appends_browsePath| |].
    { intros w [full rel] w' Hb. by eapply browsePath_writable in Hb as [_ Hb]. }
    intros [full rel] [Hf Ht]. cbn in Hf, Ht. apply appends_bindr.
    { apply appends_logged. intros _. by apply Forall_singleton. }
    intros _. apply appends_bindr; [|intros _; apply appends_ret].
    apply appends_logged. intros _. by apply Forall_singleton.
  + intros w r w' Hk. destruct r as [[full rel]|]; [|done].
    apply ebindr_ok in Hk as (? & w1 & _ & Hk). apply ebindr_ok in Hk as (? & w2 & _ & Hk).
    apply ebindr_ok in Hk as ([full' rel'] & w3 & Hb & Hk).
    apply ebindr_ok in Hk as (? & w4 & _ & Hk). apply ebindr_ok in Hk as (? & w5 & _ & [= <- <- <-]).
    by eapply browsePath_writable in Hb as (Hb & _ & Ht).
  + intros [[full rel]|e] Hf; [|apply appends_ret]. destruct Hf as [Hf Ht].
    apply appends_bind.
    { apply appends_write_temporary. intros c Hc. rewrite Hc. by apply Forall_singleton. }
    intros [copyErr closeErr]. destruct (firstError _).
    * apply appends_bind; [|intros _; apply appends_ret].
      apply appends_logged. intros _. by apply Forall_singleton.
    * apply appends_bind; [|intros; apply appends_ret].
      apply appends_logged. intros _. apply Forall_cons_2; [done|]. apply Forall_singleton. by left.
Qed.
Lemma remove_confined d storage l value : rooted_driver d →
  storageRoot (W := RW) d storage = Ok (abs_path l) → Forall normal l →
  appends (confined l) (Remove (W := RW) d storage value).
Proof.
  intros Hd Hr Hl.   unfold Remove. destruct (StorageResource.ReadOnly storage); [apply appends_ret|].
  eapply appends_bindr_ok with (Q := λ p, below l p.1); [apply appends_browsePath| |].
  { intros w [full rel] w' Hb. by eapply browsePath_below in Hb as [Hb _]; [apply Hb|..]. }
  intros [full rel] Hf. cbn in Hf. apply appends_bindr; [apply appends_unlogged|]. intros info.
  destruct (FileInfo.IsDir info); [apply appends_ret|].
  apply appends_logged. intros _. by apply Forall_singleton.
Qed.
Lemma put_confined d l request : d.(Driver.root) = abs_path l → Forall normal l →
  appends (confined l) (Put (W := RW) d request).
Proof.
  intros Hd Hl.   unfold Put.
  eapply appends_bindr_ok with (Q := strictly_below l); [apply appends_ret| |].
  { intros w p w' [= Hp _]. by eapply resolve_below. }
  intros p Hp. assert (below l (p +:+ ".akoflow-part")) as Ht by
    (apply strictly_below_suffixed; [done|done|cbn; lia]).
  apply appends_bindr.
  { apply appends_logged. intros _. apply Forall_singleton. by apply strictly_below_dir. }
  intros _. apply appends_bindr; [by apply appends_logged; intros _; apply Forall_singleton|].
  intros _. apply appends_bind.
  { apply appends_write_temporary. intros c Hc. unfold confined. rewrite Hc. by apply Forall_singleton. }
  assert (∀ A (k : result unit → eff (Recorded W os_call) A), (∀ r, appends (confined l) (k r)) →
    appends (confined l) (ebind (RemoveFile (p +:+ ".akoflow-part")) k)) as Hrm.
  { intros A k Hk. apply appends_bind; [|done]. apply appends_logged. intros _.
    by apply Forall_singleton. }
  intros [copyErr closeErr]. destruct (firstError _).
  * apply Hrm. intros _. apply appends_ret.
  * apply appends_bind.
    { apply appends_logged. intros _. repeat constructor; [done|]. by apply strictly_below_below. }
    intros [r|e]; [apply appends_ret|]. apply Hrm. intros _. apply appends_ret.
Qed.
Lemma delete_confined d l location : d.(Driver.root) = abs_path l → Forall normal l →
  appends (confined l) (Delete (W := RW) d location).
Proof.
  intros Hd Hl.   unfold Delete.
  eapply appends_bindr_ok with (Q := λ p, ∃ s, p = path_Clean s); [apply appends_ret| |].
  { intros w p w' [= Hp _]. unfold filePath in Hp. destruct (url_parse _) as [[scheme s]|]; [|done].
    case_bool_decide; [|done]. injection Hp as <-. eauto. }
  intros ? [s ->]. destruct (resolve d _) as [p|] eqn:Er; [|apply appends_ret].
  case_bool_decide as Ep; [|apply appends_ret].
  eapply resolve_below in Er; [|done|done]. apply appends_logged. intros _. apply Forall_singleton.
  destruct Er as (ns & -> & Hne & Hn). symmetry in Ep. apply Clean_twice in Ep; [|done].
  exists ns. done.
Qed.

(** C10: Whatever path, key or location a request names, what the driver changes has a
    name below its roots, with one exception: every directory, file or temporary file
    that a removal, a stored object or a deleted object touches, and every one that a
    write of a path other than the root touches, lies below the storage's root (for
    objects: the driver's root); a write whose path is the root itself ("", "/" or ".")
    also touches the root's parent directory and the file <root>.akoflow-copy-part
    beside the root, and nothing else outside. *)
Theorem changes_confined t root d :
  New (W := RW) t root = Ok d →
  (∀ storage place, storageRoot (W := RW) d storage = Ok place → ∃ l, place = abs_path l ∧
     (∀ value source size,
        appends (λ c, Forall (λ p, below l p ∨ relative_path value = "" ∧
            (p = path_Dir place ∨ p = place +:+ ".akoflow-copy-part")) (touched c))
          (Write (W := RW) d storage value source size)) ∧
     (∀ value, appends (confined l) (Remove (W := RW) d storage value))) ∧
  ∃ l, d.(Driver.root) = abs_path l ∧
    (∀ request, appends (confined l) (Put (W := RW) d request)) ∧
    (∀ location, appends (confined l) (Delete (W := RW) d location)).
Proof.
  intros Hd%New_rooted. split.
  - intros storage place Hr. destruct (storageRoot_abs _ _ _ Hd Hr) as (l & -> & Hl). exists l.
    split; [done|]. split; intros; [by apply write_confined|by apply remove_confined].
  - destruct Hd as (l & Hd & Hl). exists l. split; [done|].
    split; intros; [by apply put_confined|by apply delete_confined].
Qed.
End all_changes.

(** ** Pages of a directory *)
Section pages.
Context `{OS W}.
Context (d : Driver) (storage : StorageResource) (path directory relative : string).
Context (names : list string) (entry : string → FileEntry) (w : W).

(** A directory that does not change while it is listed. *)
Record listed : Prop := {
  listed_path : browsePath d storage path w = (Ok (directory, relative), w);
  listed_names : ReadDir directory w = (Ok names, w);
  listed_entries n : n ∈ names →
    list_entry storage.(StorageResource.ID) directory relative n w = (Ok (entry n), w)
}.

(** Requests that follow the cursors: the entries they get. *)
Fixpoint follow (fuel : nat) (limit : Z) (cursor : string) : option (list FileEntry) :=
  match fuel with
  | O => None
  | S fuel =>
    match (Browse d storage (BrowseRequest.mk path cursor limit) w).1 with
    | Returns (Ok page) =>
      if bool_decide (page.(BrowsePage.NextCursor) = "") then Some page.(BrowsePage.Entries)
      else rest ← follow fuel limit page.(BrowsePage.NextCursor);
           Some (page.(BrowsePage.Entries) ++ rest)
    | _ => None
    end
  end.

Lemma map_effr_pure l : (∀ n, n ∈ l → n ∈ names) → listed →
  map_effr (list_entry storage.(StorageResource.ID) directory relative) l w = (Ok (entry <$> l), w).
Proof.
  intros Hl Hd. induction l as [|n l IH]; [done|]. cbn [map_effr]. unfold ebindr.
  rewrite (listed_entries Hd) by (apply Hl; by left). rewrite IH by (intros; apply Hl; by right). done.
Qed.

(** The cursor of a position. *)
Definition cursor_at (cursor : string) (s : Z) : Prop :=
  (cursor = "" ∧ s = 0) ∨ (cursor ≠ "" ∧ parse_int cursor = Some s).
Lemma cursor_itoa s : 0 ≤ s < 2 ^ 63 → itoa s ≠ "" ∧ cursor_at (itoa s) s.
Proof.
  intros Hs. destruct (Slurm.decimal_inv _ _ (Slurm.itoa_decimal s (proj1 Hs))) as [Hne _].
  split; [done|]. right. split; [done|]. by apply Slurm.parse_int_itoa.
Qed.

Lemma Browse_at limit cursor s : listed → 0 < limit ≤ 500 → 0 ≤ s →
  Z.of_nat (length names) + limit < 2 ^ 63 → s ≤ Z.of_nat (length names) → cursor_at cursor s →
  let items := sort_strings names in
  ∃ page, Browse d storage (BrowseRequest.mk path cursor limit) w = (Returns (Ok page), w) ∧
    page.(BrowsePage.Entries) = entry <$> take (Z.to_nat limit) (drop (Z.to_nat s) items) ∧
    page.(BrowsePage.NextCursor) =
      if s + limit <? Z.of_nat (length names) then itoa (s + limit) else "".
Proof.
  intros Hd Hlim Hs Hlen Hle Hc items. unfold Browse, sbind, sup_lift. cbn [BrowseRequest.Path
    BrowseRequest.Cursor BrowseRequest.Limit].
  rewrite (listed_path Hd), (listed_names Hd). cbv zeta. unfold eret.
  assert ((if bool_decide (cursor = "") then Ok 0 else
    match parse_int cursor with
    | Some n => if n <? 0 then Err (errorf "invalid browse cursor" []) else Ok n
    | None => Err (errorf "invalid browse cursor" []) end) = Ok s) as ->.
  { destruct Hc as [[-> ->]|[Hne ->]]; [done|]. rewrite bool_decide_false by done.
    by rewrite (proj2 (Z.ltb_ge s 0)). }
  pose proof (sort_strings_perm names) as Hp. fold items in Hp |- *. rewrite (Permutation_length Hp).
  set (len := Z.of_nat (length names)) in *.
  assert (page_bounds s limit len = Some (s, if len <? s + limit then len else s + limit)) as ->.
  { unfold page_bounds. rewrite (proj2 (Z.leb_gt limit 0)), (proj2 (Z.ltb_ge 500 limit)) by lia.
    cbn [orb]. rewrite int64_id by (unfold in_int64; lia). rewrite (proj2 (Z.ltb_ge len s)) by lia.
    destruct (len <? s + limit) eqn:E; [rewrite (proj2 (Z.ltb_ge len s)) by lia; done|].
    by rewrite (proj2 (Z.ltb_ge (s + limit) s)) by lia. }
  set (slice := take _ (drop _ items)).
  assert (slice = take (Z.to_nat limit) (drop (Z.to_nat s) items)) as Hsl.
  { unfold slice. destruct (len <? s + limit) eqn:E.
    - assert (length (drop (Z.to_nat s) items) = Z.to_nat (len - s)) as El.
      { rewrite length_drop, (Permutation_length Hp). unfold len. lia. }
      rewrite !take_ge; [done|..]; rewrite El; lia.
    - do 2 f_equal. lia. }
  rewrite map_effr_pure; [|intros n Hn|done].
  - unfold sret, eret. eexists. split; [done|]. cbn. rewrite Hsl. split; [done|].
    destruct (len <? s + limit) eqn:E; destruct (s + limit <? len) eqn:E'; try lia;
      rewrite ?Z.ltb_irrefl, ?E'; done.
  - rewrite <- Hp. unfold slice in Hn. apply elem_of_take in Hn as (i & Hi & _).
    eapply elem_of_drop_elem, list_elem_of_lookup_2, Hi.
Qed.

Lemma follow_from fuel limit cursor s : listed → 0 < limit ≤ 500 → 0 ≤ s →
  Z.of_nat (length names) + limit < 2 ^ 63 → s ≤ Z.of_nat (length names) → cursor_at cursor s →
  Z.of_nat (length names) - s < Z.of_nat fuel →
  follow fuel limit cursor = Some (entry <$> drop (Z.to_nat s) (sort_strings names)).
Proof.
  intros Hd Hlim. revert cursor s. induction fuel as [|fuel IH]; intros cursor s Hs Hlen Hle Hc Hf; [lia|].
  cbn [follow]. destruct (Browse_at limit cursor s Hd Hlim Hs Hlen Hle Hc) as (page & -> & He & Hn).
  cbn [fst]. rewrite He, Hn. pose proof (sort_strings_perm names) as Hp. apply Permutation_length in Hp.
  destruct (s + limit <? _) eqn:E.
  - destruct (cursor_itoa (s + limit)) as [Hne Hc']; [lia|].
    rewrite bool_decide_false, (IH _ (s + limit)) by (done || lia). cbn [mbind option_bind].
    rewrite <- fmap_app. do 2 f_equal. rewrite <- (take_drop (Z.to_nat limit) (drop (Z.to_nat s) _)) at 2.
    rewrite drop_drop. do 2 f_equal. lia.
  - rewrite bool_decide_true by done. do 2 f_equal. apply take_ge. rewrite length_drop, Hp. lia.
Qed.

(** Browsing is complete: with any page size, following the cursor of each page from
    the first one on lists every entry of the directory exactly once, in the order
    of the names, within one request per entry. *)
Theorem pages_list_directory limit : listed → 0 < limit ≤ 500 →
  Z.of_nat (length names) + limit < 2 ^ 63 →
  follow (S (length names)) limit "" = Some (entry <$> sort_strings names).
Proof.
  intros Hd Hlim Hlen. rewrite (follow_from _ limit "" 0) by (done || lia || by left). done.
Qed.

(** A cursor near the end of the integers makes browsing panic: the end of the page
    is computed with wrap-around, so the bounds of the slice are reversed. *)
Theorem huge_cursor_panics limit w1 w2 :
  browsePath d storage path w = (Ok (directory, relative), w1) → ReadDir directory w1 = (Ok names, w2) →
  Z.of_nat (length names) < 2 ^ 62 →
  Browse d storage (BrowseRequest.mk path "9223372036854775807" limit) w = (Panics, w2).
Proof.
  intros Hb Hr Hlen. unfold Browse, sbind, sup_lift. cbn [BrowseRequest.Path
    BrowseRequest.Cursor BrowseRequest.Limit]. rewrite Hb, Hr. cbv zeta. unfold eret.
  replace (if bool_decide ("9223372036854775807" = "") then _ else _) with (@Ok Z (2 ^ 63 - 1))
    by (vm_compute; reflexivity).
  rewrite (Permutation_length (sort_strings_perm names)).
  set (len := Z.of_nat (length names)) in *.
  assert (page_bounds (2 ^ 63 - 1) limit len = None) as ->; [|done].
  unfold page_bounds. set (l := if _ || _ then 100 else limit).
  assert (0 < l ≤ 500) as Hl by (unfold l; destruct (_ || _) eqn:E; lia).
  assert (int64 (2 ^ 63 - 1 + l) = l - 1 - 2 ^ 63) as ->.
  { unfold int64. replace (2 ^ 63 - 1 + l + 2 ^ 63) with (l - 1 + 1 * 2 ^ 64) by lia.
    rewrite Z_mod_plus_full, Z.mod_small; lia. }
  rewrite (proj2 (Z.ltb_ge len _)), (proj2 (Z.ltb_lt len (2 ^ 63 - 1))) by lia.
  by rewrite (proj2 (Z.ltb_lt _ _)) by lia.
Qed.
End pages.

(** ** The roots of an index *)
Section index_roots.
Context `{OSLaws W}.

Lemma trim_abs l : trim_prefix "/" (abs_path l) = join_byte slash l.
Proof. unfold abs_path. apply (trim_prefix_app "/"). Qed.
Lemma relative_abs l : Forall normal l → relative_path (abs_path l) = join_byte slash l.
Proof.
  intros Hl. unfold relative_path. rewrite trim_abs. destruct l as [|x l]; [done|].
  assert (path_Clean (join_byte slash (x :: l)) = join_byte slash (x :: l)) as Hc.
  { unfold path_Clean. pose proof (join_nonempty (x :: l) ltac:(done) Hl) as Hne.
    assert (rooted (join_byte slash (x :: l)) = false) as Hr.
    { apply Forall_cons in Hl as [(? & _ & _ & ?) _]. by apply join_unrooted. }
    rewrite bool_decide_false by done. unfold clean_elems. rewrite Hr.
    rewrite split_join_byte, normal_foldl, app_nil_r, rev_involutive
      by (done || by apply normal_free). by rewrite bool_decide_false. }
  rewrite Hc, bool_decide_false; [done|]. intros E.
  assert (split_byte slash (join_byte slash (x :: l)) = ["."]) as Hs by (by rewrite E).
  rewrite split_join_byte in Hs; [|done|by apply normal_free].
  injection Hs as -> _. apply Forall_cons in Hl as [(_ & ? & _) _]. done.
Qed.

Lemma Abs_fixed l : Forall normal l → Abs (abs_path l) = Ok (abs_path l).
Proof. intros Hl. unfold Abs. by rewrite rooted_abs, Clean_abs. Qed.

(** An index without configured roots looks in the wrong place: the default roots are
    the absolute paths of the browse roots, but a browser takes paths relative to the
    root, so the walk of a storage at [root] starts at [root] below [root]. *)
Theorem default_index_root_misplaced t root d v l w full rel w' : New t root = Ok d →
  v.(StorageResource.Endpoint) = abs_path l → Forall normal l → l ≠ [] →
  v.(StorageResource.BrowseRoots) = [StorageBrowseRoot.mk (abs_path l) "" false] →
  v.(StorageResource.IndexPolicy).(IndexPolicy.Roots) = [] →
  storageRoot d v = Ok (abs_path l) ∧ StorageService.roots_to_index v = [abs_path l] ∧
  (browsePath d v (abs_path l) w = (Ok (full, rel), w') →
     full = abs_path (l ++ l) ∧ full ≠ abs_path l).
Proof.
  intros Hd%New_rooted He Hl Hne Hb Hi.
  assert (storageRoot d v = Ok (abs_path l)) as Hr.
  { unfold storageRoot. rewrite He, Hb, bool_decide_false by done.
    cbn [existsb StorageBrowseRoot.Path]. rewrite !Abs_fixed by done. cbn [mbind result_bind].
    rewrite !Clean_abs by done. cbn [mbind result_bind].
    unfold mbind, result_bind. by repeat case_bool_decide. }
  split; [done|]. split; [unfold StorageService.roots_to_index; by rewrite Hi, Hb|].
  intros (l' & ns & Hr' & -> & Hj & Hn & Hrel & _)%browsePath_ok; [|done].
  rewrite Hr in Hr'. assert (abs_path l = abs_path l') as E by congruence.
  pose proof Hn as Hn'. apply Forall_app in Hn' as [Hl' Hns]. apply abs_path_inj in E as <-; [|done..].
  rewrite relative_abs in Hrel by done. rewrite Hrel in Hj.
  assert (ns = l) as ->.
  { destruct ns as [|n ns]; [exfalso; by eapply join_nonempty in Hj|].
    pose proof (f_equal (split_byte slash) Hj) as Hs.
    by rewrite !split_join_byte in Hs by (done || by apply normal_free). }
  split; [done|]. intros E. apply abs_path_inj in E; [|done..].
  apply (f_equal length) in E. rewrite length_app in E. destruct l; [done|simpl in E; lia].
Qed.
End index_roots.

(** ** A small file system, for evaluating the definitions *)
Module Example.
(** Files by path, [None] for a directory; there are no links. *)
Abbreviation world := (gmap string (option string)).
Definition info_of (n : option string) : FileInfo :=
  FileInfo.mk (bool_decide (n = None)) false (Z.of_nat (str_length (default "" n))) 0.
Definition missing : error := "no such file or directory".
#[local] Instance os : OS world := {|
  Getwd := Ok "/home";
  EvalSymlinks p := λ w, (match w !! p with Some _ => Ok p | None => Err missing end, w);
  Lstat p := λ w, (match w !! p with Some n => Ok (info_of n) | None => Err missing end, w);
  IsNotExist e := bool_decide (e = missing);
  ReadDir p := λ w, (Ok (path_Base <$> List.filter (λ k, bool_decide (path_Dir k = p) &&
    negb (bool_decide (k = p))) (map_to_list w).*1), w);
  Readlink _ := eret (Err "invalid argument");
  OpenFile p := λ w, (match w !! p with
    | Some (Some s) => Ok (mk_reader s None) | _ => Err missing end, w);
  MkdirAll p := λ w, (Ok tt, match w !! p with Some _ => w | None => <[p := None]> w end);
  Create p := λ w, (Ok tt, <[p := Some ""]> w);
  WriteBytes p s := λ w, (Ok tt, <[p := Some s]> w);
  Close _ := eret (Ok tt);
  Rename a b := λ w, match w !! a with
    | Some n => (Ok tt, <[b := n]> (delete a w)) | None => (Err missing, w) end;
  RemoveFile p := λ w, match w !! p with
    | Some _ => (Ok tt, delete p w) | None => (Err missing, w) end
|}.
#[local] Instance laws : OSLaws world.
Proof. by intros wd [= <-]. Qed.
#[local] Instance hash : Sha256 := λ s, s.
#[local] Instance urls : URLs := {|
  url_parse u := if has_prefix "file://" u then Ok ("file", drop_str 7 u) else Err "no scheme";
  file_url p := "file://" +:+ p
|}.

Definition driver : Driver := Driver.mk StorageLocal "/data".
Definition store : StorageResource :=
  (zero : StorageResource) <| StorageResource.ID := "s" |> <| StorageResource.Endpoint := "/data" |>
    <| StorageResource.BrowseRoots := [StorageBrowseRoot.mk "/data" "" false] |>.
Definition disk : world :=
  {[ "/" := None; "/data" := None; "/data/b.txt" := Some "bb"; "/data/a.txt" := Some "a";
     "/data/sub" := None; "/data/..data" := Some "x"; "/etc" := None; "/etc/passwd" := Some "root" ]}.

Example new_driver : New StorageLocal "/data/" = Ok driver.
Proof. reflexivity. Qed.
Example driver_refusals :
  is_ok (browsePath driver store "../etc/passwd" disk).1 = false ∧
  is_ok (browsePath driver store "sub/../../etc" disk).1 = false ∧
  is_ok (resolve driver "../etc/passwd") = false ∧
  is_ok (Delete driver ((zero : DataLocation) <| DataLocation.URI := "file:///etc/passwd" |>) disk).1
    = false.
Proof. vm_compute. done. Qed.
(** A name that starts with two dots is listed but cannot be opened. *)
Example dotted_name :
  is_ok (browsePath driver store "..data" disk).1 = false ∧
  "..data" ∈ default [] (match (ReadDir "/data" disk).1 with Ok l => Some l | Err _ => None end).
Proof. split; [reflexivity|]. apply (bool_decide_eq_true_1 _). vm_compute. reflexivity. Qed.
(** An object outside the root can be read. *)
Example get_unconfined :
  (Get driver ((zero : DataLocation) <| DataLocation.URI := "file:///etc/passwd" |>) disk).1
    = Ok (mk_reader "root" None).
Proof. reflexivity. Qed.

Lemma browse_path_confined_witness : below ["data"] "/data/sub/new.txt".
Proof.
  destruct (browse_path_confined StorageLocal "/data/" driver store "/sub//./new.txt" disk
    "/data/sub/new.txt" "sub/new.txt" disk new_driver) as (l & Hl & Hb & _).
  - vm_compute. reflexivity.
  - change (Ok (abs_path ["data"]) = Ok (abs_path l)) in Hl.
    assert (abs_path ["data"] = abs_path l) as E by congruence. destruct Hb as (ns & Hp & Hn).
    apply abs_path_inj in E as <-; [by exists ns|by apply Forall_singleton|].
    by apply Forall_app in Hn as [? _].
Defined.

Lemma changes_confined_witness : ∃ l, driver.(Driver.root) = abs_path l ∧
  ∀ request, appends (confined l) (Put (W := Recorded world os_call) driver request).
Proof.
  destruct (changes_confined (W := world) StorageLocal "/data/" driver new_driver)
    as (_ & l & Hl & Hp & _).
  exists l. split; [exact Hl|exact Hp].
Defined.

(** The exception: writing the root itself leaves the root. *)
Lemma root_write_spills :
  (Write (W := Recorded world os_call) driver store "/" (mk_reader "x" None) 1 (disk, [])).2.2 !! 2%nat =
  Some (CallCreate "/data.akoflow-copy-part").
Proof. vm_compute. reflexivity. Qed.

Definition names : list string := ["b.txt"; "a.txt"; "sub"].
Definition plain_disk : world := delete "/data/..data" disk.
Definition entry_of (n : string) : FileEntry :=
  match (list_entry "s" "/data" "" n plain_disk).1 with Ok e => e | Err _ => zero end.
Lemma disk_listed : listed driver store "" "/data" ""
  (default [] (match (ReadDir "/data" plain_disk).1 with Ok l => Some l | Err _ => None end))
  entry_of plain_disk.
Proof.
  split; [vm_compute; reflexivity|reflexivity|]. intros n Hn.
  assert (is_ok (list_entry "s" "/data" "" n plain_disk).1 = true) as Hok.
  { revert n Hn. refine (λ n Hn, proj1 (forallb_forall
      (λ n, is_ok (list_entry "s" "/data" "" n plain_disk).1) _) _ n (proj1 (list_elem_of_In _ _) Hn)).
    vm_compute. reflexivity. }
  change (StorageResource.ID store) with "s".
  assert ((list_entry "s" "/data" "" n plain_disk).2 = plain_disk) as Hw.
  { unfold list_entry, ebindr. cbn [Lstat os]. generalize plain_disk. intros w0.
    destruct (w0 !! path_Join ["/data"; n]); reflexivity. }
  unfold entry_of. destruct (list_entry "s" "/data" "" n plain_disk) as [[e|e] w]; cbn in *; [|done].
  by subst w.
Qed.
Lemma pages_list_directory_witness : ∃ names,
  follow driver store "" plain_disk (S (length names)) 2 "" = Some (entry_of <$> sort_strings names) ∧
  sort_strings names = ["a.txt"; "b.txt"; "sub"].
Proof.
  eexists. split.
  - apply (pages_list_directory driver store "" "/data" "" _ entry_of plain_disk 2 disk_listed);
      vm_compute; split; congruence.
  - vm_compute. reflexivity.
Defined.

Lemma root_path : browsePath driver store "" disk = (Ok ("/data", ""), disk).
Proof. vm_compute. reflexivity. Qed.
Definition disk_names : list string :=
  match (ReadDir "/data" disk).1 with Ok l => l | Err _ => [] end.
Lemma huge_cursor_panics_witness :
  (Browse driver store (BrowseRequest.mk "" "9223372036854775807" 10) disk).1 = Panics.
Proof.
  rewrite (huge_cursor_panics driver store "" "/data" "" disk_names disk 10 disk disk root_path eq_refl);
    [reflexivity|vm_compute; reflexivity].
Defined.

Definition nested_disk : world := <["/data/data" := None]> disk.
Lemma nested_path : browsePath driver store "/data" nested_disk = (Ok ("/data/data", "data"), nested_disk).
Proof. vm_compute. reflexivity. Qed.
Lemma default_index_root_misplaced_witness :
  StorageService.roots_to_index store = ["/data"] ∧ "/data/data" ≠ abs_path ["data"].
Proof.
  destruct (default_index_root_misplaced StorageLocal "/data/" driver store ["data"]
    nested_disk "/data/data" "data" nested_disk new_driver eq_refl) as (_ & Hr & Hm).
  - by apply Forall_singleton.
  - discriminate.
  - reflexivity.
  - reflexivity.
  - split; [exact Hr|]. exact (proj2 (Hm nested_path)).
Defined.
End Example.
End FilesystemDriver.
