(* ===== verification/Kubernetes.v ===== *)
(** * The Kubernetes adapter (src/internal/provider/kubernetes)

    [Adapter]: an activity as a job with, for services, a service beside it
    (adapter.go), and [HistoryCleaner]: the removal of finished jobs
    (history_cleaner.go). The API server and the JSON codec are interfaces. *)

From Stdlib Require Import Ascii.
From S2P Require Import Prelude GoStrings GoFloat GoPath Domain Ports Monitor Supervisor.

(** client.go: [API]; documents are trees before they are rendered. *)
Class KubernetesAPI (W : Type) := {
  api_Create : string → string → any → effr W unit;
  api_Get : string → string → string → effr W string;
  api_List : string → string → string → effr W string;
  api_Logs : string → string → string → effr W string;
  api_Delete : string → string → string → effr W unit;
  (** [errors.Is(err, ErrNotFound)] *)
  is_not_found : error → bool
}.

(** The parts of a job and of its pods the code decodes. *)
Record JobCondition := mk_condition { cond_type : string; cond_status : string; cond_message : string }.
Record JobStatus := mk_job_status {
  Active : Z; Succeeded : Z; Failed : Z; Conditions : list JobCondition
}.
Record ContainerTiming := mk_timing { timing_name : string; running_since : option Time }.
Record PodTiming := mk_pod_timing { start_time : option Time; containers : list ContainerTiming }.
Record ContainerState := mk_state { state_reason : string; state_message : string }.
(** The [waiting] and [terminated] states of the containers of a pod. *)
Record PodFailure := mk_pod_failure { states : list (option ContainerState * option ContainerState) }.
Record JobItem := mk_job {
  job_name : string; job_created : Time; job_active : Z; job_succeeded : Z; job_failed : Z;
  job_completed : option Time; job_conditions : list (string * string * Time)
}.

(** [encoding/json] and [encoding/base64] on these documents. *)
Class KubernetesCodec := {
  decode_job : string → result JobStatus;
  decode_pod_timings : string → result (list PodTiming);
  decode_pod_names : string → result (list string);
  decode_pod_failures : string → result (list PodFailure);
  decode_jobs : string → result (list JobItem);
  decode64 : string → result string;
  decode_manifest : string → result ArtifactManifest
}.

Module Kubernetes.
Definition activityContainer : string := "activity".
Definition manifestLogPrefix : string := "AKOFLOW_ARTIFACT_MANIFEST=".

(** ** Names *)
Definition name_byte (c : ascii) : ascii :=
  if ascii_between "a" "z" c || ascii_between "0" "9" c || is_byte "-"%char c then c else "-"%char.
(** [kubernetesName] *)
Definition kubernetesName (value : string) : string :=
  let value := trim (is_byte "-"%char) (map_runes name_byte (to_lower value)) in
  let value := if Nat.ltb 63 (str_length value) then take_str 63 value else value in
  trim (is_byte "-"%char) value.

Definition input_byte (c : ascii) : ascii :=
  if ascii_between "a" "z" c then ascii_of_nat (nat_of_ascii c - 32)
  else if ascii_between "A" "Z" c || ascii_between "0" "9" c then c else "_"%char.
(** [inputEnvironmentName] *)
Definition inputEnvironmentName (logicalName : string) : string :=
  "AKOFLOW_INPUT_" +:+ trim (is_byte "_"%char) (map_runes input_byte logicalName).

(** ** Storage of an activity *)
Module storageBinding.
Record storageBinding := mk {
  Type_ : string; ResourceID : string; ClaimName : string; Server : string; Path : string;
  MountPath : string; ReadOnly : bool
}.
#[global] Instance zero_value : Zero storageBinding := mk zero zero zero zero zero zero zero.
End storageBinding.
Abbreviation storageBinding := storageBinding.storageBinding.

(** [m[key]] on a map inside a value. *)
Definition field (kvs : list (string * any)) (key : string) : any :=
  lookup_zero (list_to_map (rev kvs) : metadata) key.

(** [storageBindingFor] *)
Definition storageBindingFor (activity : Activity) : storageBinding :=
  match lookup_zero activity.(Activity.Metadata) "storage" with
  | AnyMap value =>
    let text key := any_string (field value key) in
    {| storageBinding.Type_ := text "type"; storageBinding.ResourceID := text "resourceId";
       storageBinding.ClaimName := text "claimName"; storageBinding.Server := text "server";
       storageBinding.Path := text "path";
       storageBinding.MountPath :=
         if bool_decide (text "mountPath" = "") then "/akoflow/data" else text "mountPath";
       storageBinding.ReadOnly := any_bool (field value "readOnly") |}
  | _ => zero
  end.
(** [binding.Type == "pvc" || binding.Type == "nfs"] *)
Definition is_volume (b : storageBinding) : bool :=
  bool_decide (b.(storageBinding.Type_) = "pvc") || bool_decide (b.(storageBinding.Type_) = "nfs").

(** [observationRoot] *)
Definition observationRoot (activity : Activity) (runID : string) : string :=
  let configured := meta_string activity.(Activity.Metadata) "artifactObservationRoot" in
  let binding := storageBindingFor activity in
  if negb (bool_decide (configured = "")) then configured
  else if is_volume binding then
    path_Join [binding.(storageBinding.MountPath); "runs"; runID; activity.(Activity.ID)]
  else if negb (bool_decide (activity.(Activity.Command).(ActivityCommand.WorkingDirectory) = "")) then
    activity.(Activity.Command).(ActivityCommand.WorkingDirectory)
  else "/tmp/akoflow/workspace".

(** [serviceEndpoints] *)
Definition serviceEndpoints (name namespace : string) (activity : Activity) : list string :=
  match activity.(Activity.Service) with
  | None => []
  | Some service =>
    (λ port, "tcp://" +:+ name +:+ "." +:+ namespace +:+ ".svc:" +:+ itoa port)
      <$> service.(ServiceSpec.Ports)
  end.

(** ** Documents *)
Section documents.
Context `{MapOrder}.
(** The embedded script, and [fmt.Sprintf("%g", f)]. *)
Context (shellLifecycleTemplate : string) (format_g : float64 → string).

Definition env_entry (name value : string) : any :=
  AnyMap [("name", AnyString name); ("value", AnyString value)].

(** The environment of the container, in the order of the code. *)
Definition environment (salt : nat) (workflow : WorkflowVersion) (activity : Activity) (runID : string)
    : list any :=
  let id := activity.(Activity.ID) in
  let binding := storageBindingFor activity in
  ((λ '(key, value), env_entry key value)
     <$> map_range salt activity.(Activity.Command).(ActivityCommand.Environment)) ++
  [env_entry "AKOFLOW_RUN_ID" runID; env_entry "AKOFLOW_ACTIVITY_ID" id;
   env_entry "AKOFLOW_OBSERVATION_ROOT" (observationRoot activity runID)] ++
  if is_volume binding then
    [env_entry "AKOFLOW_RUN_DATA_ROOT" (path_Join [binding.(storageBinding.MountPath); "runs"; runID]);
     env_entry "AKOFLOW_ACTIVITY_DATA_ROOT" (observationRoot activity runID)] ++
    ((λ dependency, env_entry (inputEnvironmentName dependency.(ActivityDataDependency.LogicalName))
        (path_Join [binding.(storageBinding.MountPath); "runs"; runID;
           dependency.(ActivityDataDependency.ProducerActivityID);
           dependency.(ActivityDataDependency.LogicalName)]))
     <$> List.filter (λ dependency,
           bool_decide (dependency.(ActivityDataDependency.ConsumerActivityID) = id) &&
           negb (bool_decide (dependency.(ActivityDataDependency.LogicalName) = "")))
         workflow.(WorkflowVersion.DataDependencies))
  else [].

Definition manifestPrefixPlaceholder : string := "__AKOFLOW_MANIFEST_PREFIX__".
(** [renderShellLifecycle] *)
Definition renderShellLifecycle : string :=
  replace_all (S (str_length shellLifecycleTemplate)) manifestPrefixPlaceholder manifestLogPrefix
    shellLifecycleTemplate.

(** The container: the activity's command under the lifecycle script. *)
Definition container (salt : nat) (workflow : WorkflowVersion) (activity : Activity) (runID : string)
    : list (string * any) :=
  let command := activity.(Activity.Command) in
  let binding := storageBindingFor activity in
  [("name", AnyString activityContainer); ("image", AnyString command.(ActivityCommand.Image));
   ("command", AnyStrings ["/bin/sh"]);
   ("args", AnyStrings (["-c"; renderShellLifecycle; "akoflow-entrypoint";
                         command.(ActivityCommand.Entrypoint)] ++ command.(ActivityCommand.Arguments)));
   ("env", AnySlice (environment salt workflow activity runID));
   ("resources", AnyMap [("requests", AnyMap
      [("cpu", AnyString (format_g activity.(Activity.Resources).(ActivityResources.CPU)));
       ("memory", AnyString (itoa activity.(Activity.Resources).(ActivityResources.MemoryBytes)))])])] ++
  if bool_decide (binding.(storageBinding.Type_) = "") then []
  else [("volumeMounts", AnySlice [AnyMap
    [("name", AnyString "akoflow-data"); ("mountPath", AnyString binding.(storageBinding.MountPath));
     ("readOnly", AnyBool binding.(storageBinding.ReadOnly))]])].

(** [observedPodSpec] *)
Definition observedPodSpec (salt : nat) (workflow : WorkflowVersion) (activity : Activity)
    (resource : Resource) (runID : string) : list (string * any) :=
  let binding := storageBindingFor activity in
  let volume kvs := [("volumes", AnySlice [AnyMap (("name", AnyString "akoflow-data") :: kvs)])] in
  let read_only := ("readOnly", AnyBool binding.(storageBinding.ReadOnly)) in
  [("restartPolicy", AnyString "Never");
   ("containers", AnySlice [AnyMap (container salt workflow activity runID)])] ++
  (if bool_decide (binding.(storageBinding.Type_) = "pvc") then
     volume [("persistentVolumeClaim", AnyMap
       [("claimName", AnyString binding.(storageBinding.ClaimName)); read_only])]
   else if bool_decide (binding.(storageBinding.Type_) = "nfs") then
     volume [("nfs", AnyMap [("server", AnyString binding.(storageBinding.Server));
       ("path", AnyString binding.(storageBinding.Path)); read_only])]
   else []) ++
  (if bool_decide (resource.(Resource.Type_) = ResourceKubernetesMachine) &&
      negb (bool_decide (resource.(Resource.ProviderID) = "")) then
     [("nodeSelector", AnyMap [("kubernetes.io/hostname", AnyString resource.(Resource.ProviderID))])]
   else []).

(** The metadata of a document. *)
Definition document_metadata (name namespace : string) : any :=
  AnyMap [("name", AnyString name); ("namespace", AnyString namespace);
          ("labels", AnyMap [("app.kubernetes.io/managed-by", AnyString "akoflow")])].

(** [resources]: the job, and the service of an activity with ports. *)
Definition job_document (salt : nat) (name namespace : string) (workflow : WorkflowVersion)
    (activity : Activity) (resource : Resource) (runID : string) : any :=
  AnyMap [("apiVersion", AnyString "batch/v1"); ("kind", AnyString "Job");
    ("metadata", document_metadata name namespace);
    ("spec", AnyMap
      [("backoffLimit", AnyInt (Z.max (activity.(Activity.Policy).(ActivityPolicy.MaxAttempts) - 1) 0));
       ("template", AnyMap
         [("metadata", AnyMap [("labels", AnyMap
             [("akoflow.io/activity", AnyString activity.(Activity.ID))])]);
          ("spec", AnyMap (observedPodSpec salt workflow activity resource runID))])])].
Definition service_document (name namespace : string) (activity : Activity) (ports : list Z) : any :=
  AnyMap [("apiVersion", AnyString "v1"); ("kind", AnyString "Service");
    ("metadata", document_metadata name namespace);
    ("spec", AnyMap
      [("selector", AnyMap [("akoflow.io/activity", AnyString activity.(Activity.ID))]);
       ("ports", AnySlice ((λ port, AnyMap [("port", AnyInt port); ("targetPort", AnyInt port)])
                             <$> ports))])].
(** [json.Marshal] fails on the numbers that have no JSON text. *)
Fixpoint encodable (v : any) : bool :=
  match v with
  | AnyFloat64 f | AnyFloat32 f =>
    match f with S754_nan => false | S754_infinity _ => false | _ => true end
  | AnyMap kvs => forallb (λ '(_, x), encodable x) kvs
  | AnySlice xs => forallb encodable xs
  | AnyMaps ms => forallb (forallb (λ '(_, x), encodable x)) ms
  | _ => true
  end.
Definition json_Marshal (v : any) : result any :=
  if encodable v then Ok v else Err (errorf "json: unsupported value" []).
Definition resources (salt : nat) (name namespace : string) (workflow : WorkflowVersion)
    (activity : Activity) (resource : Resource) (runID : string) : result (any * option any) :=
  match json_Marshal (job_document salt name namespace workflow activity resource runID) with
  | Err e => Err e
  | Ok job =>
    match activity.(Activity.Service) with
    | None => Ok (job, None)
    | Some service =>
      if bool_decide (service.(ServiceSpec.Ports) = []) then Ok (job, None)
      else match json_Marshal (service_document name namespace activity service.(ServiceSpec.Ports)) with
           | Err e => Err e
           | Ok document => Ok (job, Some document)
           end
    end
  end.
End documents.

(** ** The adapter *)
Module Adapter.
Record Adapter := mk { api_configured : bool; namespace : string }.
End Adapter.
Abbreviation Adapter := Adapter.Adapter.

(** [New] *)
Definition New (api_configured : bool) (namespace : string) : Adapter :=
  Adapter.mk api_configured (if bool_decide (namespace = "") then "default" else namespace).

(** The status [Inspect] reads off the counters of a job. *)
Definition job_handle_status (s : JobStatus) : ActivityHandleStatus :=
  if 0 <? s.(Succeeded) then HandleCompleted
  else if 0 <? s.(Failed) then HandleFailed
  else if 0 <? s.(Active) then HandleRunning
  else HandleStarting.
Definition is_final (s : ActivityHandleStatus) : bool :=
  bool_decide (s = HandleCompleted) || bool_decide (s = HandleFailed).

(** The message of the last failure condition. *)
Definition condition_failure (failure : string) (conditions : list JobCondition) : string :=
  foldl (λ failure c, if bool_decide (c.(cond_type) = "Failed") && bool_decide (c.(cond_status) = "True")
                      then c.(cond_message) else failure) failure conditions.

(** What a container state says about a failure, [None] to look further. *)
Definition state_failure (s : option ContainerState) : option string :=
  match s with
  | None => None
  | Some s =>
    let message := trim_space s.(state_message) in
    if contains message "/bin/sh" && contains (to_lower message) "no such file" then
      Some "activity image is incompatible with the Kubernetes shell runtime: /bin/sh is required"
    else if bool_decide (message = "") then None
    else Some (s.(state_reason) +:+ ": " +:+ message)
  end.
Fixpoint first_failure (l : list (option ContainerState)) : string :=
  match l with
  | [] => ""
  | s :: rest => match state_failure s with Some m => m | None => first_failure rest end
  end.
Definition pod_states (pods : list PodFailure) : list (option ContainerState) :=
  mjoin ((λ p, mjoin ((λ '(waiting, terminated), [waiting; terminated]) <$> p.(states))) <$> pods).

(** [strings.Index(line, prefix)], then what follows it. *)
Fixpoint after_prefix (prefix line : string) : option string :=
  if has_prefix prefix line then Some (drop_str (str_length prefix) line)
  else match line with "" => None | String _ rest => after_prefix prefix rest end.

Section adapter.
Context `{KubernetesAPI W, KubernetesCodec, WallClock W, FreshIDs W, MapOrder}.
Context (shellLifecycleTemplate : string) (format_g : float64 → string).
Context (a : Adapter).

Definition pods_of (jobName : string) : effr W string :=
  api_List a.(Adapter.namespace) "pods" ("job-name=" +:+ jobName).

(** The handle of a job that was created. *)
Definition submitted (execution : ActivityExecutionContext) (name : string) : effr W ActivityHandle :=
  let activity := execution.(ActivityExecutionContext.Activity) in
  let runID := execution.(ActivityExecutionContext.Run).(ExecutionRun.ID) in
  let binding := storageBindingFor activity in
  let! now := Now in
  let! id := NewID "activity" in
  let submittedAt := UnixSeconds now in
  eret (Ok {|
    ActivityHandle.ID := id; ActivityHandle.RunID := runID;
    ActivityHandle.ActivityID := activity.(Activity.ID);
    ActivityHandle.ResourceID := execution.(ActivityExecutionContext.Resource).(Resource.ID);
    ActivityHandle.RuntimeID := execution.(ActivityExecutionContext.RuntimeID);
    ActivityHandle.ExternalID := name; ActivityHandle.Status := HandleStarting;
    ActivityHandle.Endpoints := serviceEndpoints name a.(Adapter.namespace) activity;
    ActivityHandle.StartedAt := submittedAt; ActivityHandle.FinishedAt := zero;
    ActivityHandle.ExitCode := None; ActivityHandle.Failure := ""; ActivityHandle.Log := "";
    ActivityHandle.Artifacts := None;
    ActivityHandle.Metadata := list_to_map [
      (Supervisor.TimingSubmittedAt, AnyFloat64 submittedAt);
      ("artifactObservationDriver", AnyString "filesystem-diff");
      ("artifactObservationRoot", AnyString (observationRoot activity runID));
      ("artifactStorageType", AnyString binding.(storageBinding.Type_));
      ("artifactStorageResourceId", AnyString binding.(storageBinding.ResourceID))]
  |}).

(** The service of a job: the job is deleted when it cannot be created. *)
Definition create_service (name : string) (service : option any) : effr W unit :=
  let ns := a.(Adapter.namespace) in
  match service with
  | None => eret (Ok tt)
  | Some service =>
    let! created := api_Create ns "services" service in
    match created with
    | Ok _ => eret (Ok tt)
    | Err e => let! _ := api_Delete ns "jobs" name in eret (Err e)
    end
  end.

(** [Adapter.Start] *)
Definition Start (salt : nat) (execution : ActivityExecutionContext) : effr W ActivityHandle :=
  let activity := execution.(ActivityExecutionContext.Activity) in
  let runID := execution.(ActivityExecutionContext.Run).(ExecutionRun.ID) in
  if negb a.(Adapter.api_configured) then eret (Err (errorf "Kubernetes API client is required" []))
  else if bool_decide (activity.(Activity.Command).(ActivityCommand.Image) = "") then
    eret (Err (errorf "activity image is required for Kubernetes" []))
  else
    let name := kubernetesName ("akoflow-" +:+ runID +:+ "-" +:+ activity.(Activity.ID)) in
    match resources shellLifecycleTemplate format_g salt name a.(Adapter.namespace)
      execution.(ActivityExecutionContext.Workflow) activity
      execution.(ActivityExecutionContext.Resource) runID with
    | Err e => eret (Err e)
    | Ok (job, service) =>
      let? _ := api_Create a.(Adapter.namespace) "jobs" job in
      let? _ := create_service name service in
      submitted execution name
    end.

(** The first container of the activity that has been running. *)
Definition container_start (l : list ContainerTiming) : option Time :=
  match List.find (λ c, bool_decide (c.(timing_name) = activityContainer) &&
      match c.(running_since) with Some t => negb (IsZero t) | None => false end) l with
  | Some c => c.(running_since)
  | None => None
  end.

(** [applyPodTiming] *)
Definition applyPodTiming (jobName : string) (handle : ActivityHandle) : eff W ActivityHandle :=
  let! payload := pods_of jobName in
  eret (match payload with
        | Err _ => handle
        | Ok payload =>
          match decode_pod_timings payload with
          | Ok (pod :: _) =>
            let handle := match pod.(start_time) with
                          | Some t => if IsZero t then handle
                                      else handle <| ActivityHandle.StartedAt := UnixSeconds t |>
                          | None => handle
                          end in
            match container_start pod.(containers) with
            | Some t => handle <| ActivityHandle.Metadata :=
                <[Supervisor.TimingContainerStartedAt := AnyFloat64 (UnixSeconds t)]>
                handle.(ActivityHandle.Metadata) |>
            | None => handle
            end
          | _ => handle
          end
        end).

(** [activityLog] *)
Definition activityLog (jobName : string) : effr W string :=
  let? payload := pods_of jobName in
  match decode_pod_names payload with
  | Err e => eret (Err e)
  | Ok [] => eret (Err (errorf "activity pod not found" []))
  | Ok (pod :: _) => api_Logs a.(Adapter.namespace) pod activityContainer
  end.

(** [activityFailure] *)
Definition activityFailure (jobName : string) : eff W string :=
  let! payload := pods_of jobName in
  eret (match payload with
        | Err _ => ""
        | Ok payload =>
          match decode_pod_failures payload with
          | Err _ => ""
          | Ok pods => first_failure (pod_states pods)
          end
        end).

(** The manifest published in the log. *)
Fixpoint find_manifest (lines : list string) : result ArtifactManifest :=
  match lines with
  | [] => Err (errorf "artifact manifest was not published" [])
  | line :: rest =>
    match after_prefix manifestLogPrefix line with
    | None => find_manifest rest
    | Some encoded =>
      match decode64 (trim_space encoded) with
      | Err e => Err (errorf "decode artifact manifest: %w" [e])
      | Ok manifestJSON =>
        match decode_manifest manifestJSON with
        | Err e => Err (errorf "parse artifact manifest: %w" [e])
        | Ok manifest => Ok manifest
        end
      end
    end
  end.

(** [collectArtifacts] *)
Definition collectArtifacts (jobName : string) : effr W ArtifactManifest :=
  let! payload := pods_of jobName in
  match payload with
  | Err e => eret (Err (errorf "list activity pods: %w" [e]))
  | Ok payload =>
    match decode_pod_names payload with
    | Err e => eret (Err (errorf "decode activity pods: %w" [e]))
    | Ok [] => eret (Err (errorf "no pod found for job %q" [jobName]))
    | Ok (pod :: _) =>
      let! logs := api_Logs a.(Adapter.namespace) pod activityContainer in
      eret (match logs with
            | Err e => Err (errorf "read artifact observer logs: %w" [e])
            | Ok logs => find_manifest (split_byte "010"%char logs)
            end)
    end
  end.

(** The log and the artifacts of an inspected handle. *)
Definition inspect_log (handle : ActivityHandle) : eff W ActivityHandle :=
  let! log := activityLog handle.(ActivityHandle.ExternalID) in
  eret (match log with Ok log => handle <| ActivityHandle.Log := log |> | Err _ => handle end).
Definition inspect_artifacts (handle : ActivityHandle) : eff W ActivityHandle :=
  if is_final handle.(ActivityHandle.Status) then
    let! manifest := collectArtifacts handle.(ActivityHandle.ExternalID) in
    eret (match manifest with
          | Ok manifest => handle <| ActivityHandle.Artifacts := Some manifest |>
          | Err e => handle <| ActivityHandle.Metadata :=
              <["artifactObservationError" := AnyString e]> handle.(ActivityHandle.Metadata) |>
          end)
  else eret handle.

(** [Adapter.Inspect]; a handle returned with an error is the one it was given. *)
Definition Inspect (handle : ActivityHandle) : effr W ActivityHandle :=
  let? output := api_Get a.(Adapter.namespace) "jobs" handle.(ActivityHandle.ExternalID) in
  match decode_job output with
  | Err e => eret (Err (errorf "decode Kubernetes job: %w" [e]))
  | Ok job =>
    let! handle := applyPodTiming handle.(ActivityHandle.ExternalID) handle in
    let status := job_handle_status job in
    let handle := handle <| ActivityHandle.Status := status |> in
    let! handle :=
      (if is_final status then
         let! now := Now in eret (handle <| ActivityHandle.FinishedAt := UnixSeconds now |>)
       else eret handle) in
    let handle := handle <| ActivityHandle.Failure :=
      condition_failure handle.(ActivityHandle.Failure) job.(Conditions) |> in
    let! handle :=
      (if bool_decide (status = HandleFailed) then
         let! failure := activityFailure handle.(ActivityHandle.ExternalID) in
         eret (if bool_decide (failure = "") then handle
               else handle <| ActivityHandle.Failure := failure |>)
       else eret handle) in
    let! handle := inspect_log handle in
    let! handle := inspect_artifacts handle in
    eret (Ok handle)
  end.

(** [ignoreNotFound] and [errors.Join] *)
Definition ignoreNotFound (r : result unit) : option error :=
  match r with Ok _ => None | Err e => if is_not_found e then None else Some e end.
Definition errors_join (errs : list (option error)) : option error :=
  match omap id errs with [] => None | es => Some (join_byte "010"%char es) end.

(** [Adapter.Stop] *)
Definition Stop (handle : ActivityHandle) : effr W unit :=
  let ns := a.(Adapter.namespace) in
  let! job := api_Delete ns "jobs" handle.(ActivityHandle.ExternalID) in
  let! service := api_Delete ns "services" handle.(ActivityHandle.ExternalID) in
  eret (match errors_join [ignoreNotFound job; ignoreNotFound service] with
        | None => Ok tt | Some e => Err e end).

(** The adapter as the controller uses it. *)
Definition adapter (salt : nat) : RuntimeAdapter W := {|
  Modes := [ExecutionModeReal; ExecutionModeInteractive];
  runtime_Start := Start salt;
  runtime_Inspect := Inspect;
  runtime_Stop := Stop
|}.
End adapter.

(** ** The history cleaner *)
Definition managedByAkoflowSelector : string := "app.kubernetes.io/managed-by=akoflow".
Record CleanupResult := mk_cleanup { JobsDeleted : Z; PodsDeleted : Z }.
Module HistoryCleaner.
Record HistoryCleaner := mk { namespace : string; retention : Duration }.
End HistoryCleaner.
Abbreviation HistoryCleaner := HistoryCleaner.HistoryCleaner.

(** [NewHistoryCleaner] *)
Definition NewHistoryCleaner (api_configured : bool) (namespace : string) (retention : Duration)
    : result HistoryCleaner :=
  if negb api_configured then Err (errorf "Kubernetes API client is required" [])
  else if retention <? 0 then Err (errorf "Kubernetes history retention cannot be negative" [])
  else Ok (HistoryCleaner.mk (if bool_decide (namespace = "") then "default" else namespace) retention).

(** [kubernetesJob.expired] *)
Definition finished_at (j : JobItem) : Time :=
  match j.(job_completed) with
  | Some t => t
  | None => foldl (λ finishedAt '(type_, status, at_),
      if bool_decide (status = "True") &&
         (bool_decide (type_ = "Complete") || bool_decide (type_ = "Failed")) && (finishedAt <? at_)
      then at_ else finishedAt) j.(job_created) j.(job_conditions)
  end.
Definition expired (j : JobItem) (cutoff : Time) : bool :=
  if bool_decide (j.(job_name) = "") || (0 <? j.(job_active)) ||
     ((j.(job_succeeded) =? 0) && (j.(job_failed) =? 0) && bool_decide (j.(job_completed) = None))
  then false
  else negb (IsZero (finished_at j)) && (finished_at j <=? cutoff).

Section cleaner.
Context `{KubernetesAPI W, KubernetesCodec, WallClock W}.
Context (c : HistoryCleaner).

(** [jobPods] *)
Definition jobPods (jobName : string) : effr W (list string) :=
  let! payload := api_List c.(HistoryCleaner.namespace) "pods" ("job-name=" +:+ jobName) in
  eret (match payload with
        | Err e => Err (errorf "list pods for job %q: %w" [jobName; e])
        | Ok payload =>
          match decode_pod_names payload with
          | Err e => Err (errorf "decode pods for job %q: %w" [jobName; e])
          | Ok names => Ok (List.filter (λ n, negb (bool_decide (n = ""))) names)
          end
        end).

(** [err := ignoreNotFound(c.api.Delete(...))], wrapped *)
Definition delete_one (resource message name : string) : eff W (option error) :=
  let! r := api_Delete c.(HistoryCleaner.namespace) resource name in
  eret ((λ e, errorf message [name; e]) <$> ignoreNotFound r).

Fixpoint delete_pods (pods : list string) : eff W (Z * list (option error)) :=
  match pods with
  | [] => eret (0, [])
  | pod :: rest =>
    let! err := delete_one "pods" "delete pod %q: %w" pod in
    let! (n, errs) := delete_pods rest in
    eret (match err with None => 1 + n | Some _ => n end, err :: errs)
  end.

(** [deleteJobHistory] *)
Definition deleteJobHistory (jobName : string) : eff W (Z * option error) :=
  let! pods := jobPods jobName in
  match pods with
  | Err e => eret (0, Some e)
  | Ok pods =>
    let! (deleted, errs) := delete_pods pods in
    let! service := delete_one "services" "delete service %q: %w" jobName in
    let! job := delete_one "jobs" "delete job %q: %w" jobName in
    eret (deleted, errors_join (errs ++ [service; job]))
  end.

Fixpoint cleanup_jobs (cutoff : Time) (jobs : list JobItem)
    : eff W (CleanupResult * list (option error)) :=
  match jobs with
  | [] => eret (mk_cleanup 0 0, [])
  | job :: rest =>
    if expired job cutoff then
      let! (pods, err) := deleteJobHistory job.(job_name) in
      let! (result, errs) := cleanup_jobs cutoff rest in
      eret (mk_cleanup (result.(JobsDeleted) + match err with None => 1 | Some _ => 0 end)
              (result.(PodsDeleted) + pods), err :: errs)
    else cleanup_jobs cutoff rest
  end.

(** [HistoryCleaner.Cleanup] *)
Definition Cleanup : eff W (CleanupResult * option error) :=
  let! payload := api_List c.(HistoryCleaner.namespace) "jobs" managedByAkoflowSelector in
  match payload with
  | Err e => eret (mk_cleanup 0 0, Some (errorf "list completed Akoflow jobs: %w" [e]))
  | Ok payload =>
    match decode_jobs payload with
    | Err e => eret (mk_cleanup 0 0, Some (errorf "decode Akoflow jobs: %w" [e]))
    | Ok jobs =>
      let! now := Now in
      let! (result, errs) := cleanup_jobs (now - c.(HistoryCleaner.retention)) jobs in
      eret (result, errors_join errs)
    end
  end.
End cleaner.

(** ** Names are DNS labels *)
Definition dash : ascii → bool := is_byte "-"%char.
Definition label_byte (c : ascii) : bool :=
  ascii_between "a" "z" c || ascii_between "0" "9" c || is_byte "-"%char c.
(** RFC 1123: at most 63 lower-case letters, digits and dashes, no dash at the ends. *)
Definition dns_label (s : string) : Prop :=
  s ≠ "" ∧ (str_length s ≤ 63)%nat ∧ str_forall label_byte s = true ∧
  (∀ t, s ≠ String "-" t) ∧ (∀ t, s ≠ t +:+ "-").

Lemma trim_right_last p s t c : trim_right p s = t +:+ String c "" → p c = false.
Proof.
  revert t. induction s as [|a s IH]; intros t; cbn [trim_right].
  { intros E. symmetry in E. by apply str_app_nil_inv in E as [_ ?]. }
  destruct (trim_right p s) as [|b r] eqn:E.
  - destruct (p a) eqn:Ea.
    + intros Et. symmetry in Et. by apply str_app_nil_inv in Et as [_ ?].
    + destruct t as [|x t]; [by intros [= <-]|]. intros [= -> Et]. symmetry in Et.
      by apply str_app_nil_inv in Et as [_ ?].
  - destruct t as [|x t]; [done|]. intros [= -> Et]. by apply (IH t).
Qed.
Lemma trim_right_length p s : (str_length (trim_right p s) ≤ str_length s)%nat.
Proof.
  destruct (trim_right_split p s) as (t & Heq & _). rewrite Heq at 2. rewrite str_length_app. lia.
Qed.
Lemma take_str_length n s : (str_length (take_str n s) ≤ n)%nat.
Proof. revert s. induction n as [|n IH]; intros [|c s]; cbn; try lia. specialize (IH s). lia. Qed.
Lemma take_str_forall q n s : str_forall q s = true → str_forall q (take_str n s) = true.
Proof.
  revert s. induction n as [|n IH]; intros [|c s]; cbn; try done.
  intros [-> Hs]%andb_true_iff. by apply IH.
Qed.
Lemma take_str_short n s : (str_length s ≤ n)%nat → take_str n s = s.
Proof.
  revert s. induction n as [|n IH]; intros [|c s] Hn; cbn in *; try done; [lia|]. by rewrite IH by lia.
Qed.

(** Trimming before or after truncation comes to the same. *)
Lemma trim_right_take p n s : trim_right p (take_str n (trim_right p s)) = trim_right p (take_str n s).
Proof.
  revert n. induction s as [|c s IH]; intros n; [by destruct n|]. destruct n as [|n]; [by cbn; destruct (trim_right p s), (p c)|].
  cbn [take_str trim_right]. specialize (IH n).
  destruct (trim_right p s) as [|b r] eqn:E.
  - assert (trim_right p (take_str n s) = "") as -> by (rewrite <- IH; by destruct n).
    destruct (p c) eqn:Ec; [by cbn|]. cbn [take_str trim_right].
    replace (take_str n "") with "" by (by destruct n). cbn. by rewrite Ec.
  - cbn [take_str trim_right]. by rewrite IH.
Qed.

(** A name, when it starts with something other than a dash. *)
Lemma kubernetesName_eq c v : is_ascii c = true → label_byte c = true → dash c = false → lower_byte c = c →
  kubernetesName (String c v) =
    trim_right dash (take_str 63 (map_runes name_byte (to_lower (String c v)))).
Proof.
  intros Has Hc Hd Hl. unfold kubernetesName, trim. fold dash.
  assert (∀ s, map_runes name_byte (to_lower (String c s)) =
    String c (map_runes name_byte (to_lower s))) as Hm.
  { intros s. unfold to_lower. cbn [map_str]. rewrite Hl, map_runes_cons by done. f_equal.
    unfold name_byte. unfold label_byte in Hc. by rewrite Hc. }
  rewrite Hm. cbn [trim_left]. rewrite Hd. set (m := String c _).
  replace (if Nat.ltb 63 (str_length (trim_right dash m)) then take_str 63 (trim_right dash m)
           else trim_right dash m) with (take_str 63 (trim_right dash m)).
  2: { destruct (Nat.ltb_spec 63 (str_length (trim_right dash m))); [done|]. by apply take_str_short. }
  assert (∃ r, take_str 63 (trim_right dash m) = String c r) as [r Hr].
  { unfold m. cbn [trim_right]. destruct (trim_right dash (map_runes name_byte (to_lower v))).
    - rewrite Hd. by eexists.
    - by eexists. }
  assert (trim_left dash (take_str 63 (trim_right dash m)) = take_str 63 (trim_right dash m)) as ->.
  { rewrite Hr. cbn [trim_left]. by rewrite Hd. }
  apply trim_right_take.
Qed.

Lemma name_byte_label c : label_byte (name_byte c) = true.
Proof. unfold name_byte. destruct (_ || _ || _) eqn:E; [exact E|done]. Qed.

(** The name of a job is a valid DNS label for every run and activity identifier:
    not empty, at most 63 lower-case letters, digits and dashes, starting and ending
    with a letter or digit. *)
Theorem job_name_is_label runID activityID :
  dns_label (kubernetesName ("akoflow-" +:+ runID +:+ "-" +:+ activityID)).
Proof.
  change ("akoflow-" +:+ runID +:+ "-" +:+ activityID) with
    (String "a" ("koflow-" +:+ runID +:+ "-" +:+ activityID)).
  rewrite kubernetesName_eq by done.
  set (m := map_runes name_byte _). assert (∃ r, trim_right dash (take_str 63 m) = String "a" r) as [r Hr].
  { unfold m, to_lower. cbn [map_str]. rewrite map_runes_cons by done.
    cbn [take_str trim_right]. case_match; by eexists. }
  rewrite Hr. split_and!; [done| | |by intros t [=]|].
  - rewrite <- Hr. etrans; [apply trim_right_length|]. apply take_str_length.
  - rewrite <- Hr. apply trim_right_forall, take_str_forall, map_runes_forall, name_byte_label.
  - rewrite <- Hr. intros t E. by apply trim_right_last in E.
Qed.

Lemma lower_byte_ascii c : is_ascii c = true → is_ascii (lower_byte c) = true.
Proof. destruct c as [[] [] [] [] [] [] [] []]; by vm_compute. Qed.
Lemma to_lower_ascii s : str_forall is_ascii s = true → str_forall is_ascii (to_lower s) = true.
Proof.
  induction s as [|c s IH]; [done|]. unfold to_lower in *. cbn [map_str str_forall].
  intros [Hc Hs]%andb_true_iff. by rewrite lower_byte_ascii, IH.
Qed.
Lemma map_str_app f a b : map_str f (a +:+ b) = map_str f a +:+ map_str f b.
Proof. induction a as [|c a IH]; [done|]. rewrite !str_app_String. cbn [map_str]. by rewrite IH. Qed.

(** Names are truncated without a hash: two activities of a run whose identifiers
    agree on a prefix that fills the 63 bytes of the name have jobs of the same name,
    so the second cannot be created or inspects the first. *)
Theorem long_names_collide runID prefix x y :
  str_forall is_ascii (runID +:+ "-" +:+ prefix) = true →
  (55 ≤ str_length (runID +:+ "-" +:+ prefix))%nat →
  kubernetesName ("akoflow-" +:+ runID +:+ "-" +:+ prefix +:+ x) =
    kubernetesName ("akoflow-" +:+ runID +:+ "-" +:+ prefix +:+ y).
Proof.
  intros Has Hlen.
  assert (∀ z, kubernetesName ("akoflow-" +:+ runID +:+ "-" +:+ prefix +:+ z) =
    trim_right dash (take_str 63 (map_str name_byte (to_lower ("akoflow-" +:+ runID +:+ "-" +:+ prefix))))) as Hz;
    [|by rewrite !Hz].
  intros z. change ("akoflow-" +:+ runID +:+ "-" +:+ prefix +:+ z) with
    (String "a" ("koflow-" +:+ runID +:+ "-" +:+ prefix +:+ z)).
  rewrite kubernetesName_eq by done. f_equal.
  change (String "a" ("koflow-" +:+ runID +:+ "-" +:+ prefix +:+ z)) with
    ("akoflow-" +:+ runID +:+ "-" +:+ prefix +:+ z).
  replace ("akoflow-" +:+ runID +:+ "-" +:+ prefix +:+ z) with
    (("akoflow-" +:+ runID +:+ "-" +:+ prefix) +:+ z) by (by rewrite !str_app_assoc).
  unfold to_lower. rewrite map_str_app. fold (to_lower ("akoflow-" +:+ runID +:+ "-" +:+ prefix)).
  rewrite map_runes_app.
  - apply take_str_app. unfold to_lower. rewrite !str_length_map.
    rewrite str_length_app. cbn [str_length]. lia.
  - apply to_lower_ascii. by rewrite str_forall_app, Has.
Qed.

(** ** The calls the adapter makes *)
Inductive api_call :=
| CCreate (namespace kind : string) (document : any) (r : result unit)
| CDelete (namespace kind name : string) (r : result unit).
#[global] Instance recorded_api `{KubernetesAPI W} : KubernetesAPI (Recorded W api_call) := {|
  api_Create ns kind d := logged (api_Create ns kind d) (CCreate ns kind d);
  api_Get ns kind name := unlogged (api_Get ns kind name);
  api_List ns kind selector := unlogged (api_List ns kind selector);
  api_Logs ns pod c := unlogged (api_Logs ns pod c);
  api_Delete ns kind name := logged (api_Delete ns kind name) (CDelete ns kind name);
  is_not_found := is_not_found
|}.
#[global] Instance recorded_clock `{WallClock W} : WallClock (Recorded W api_call) := unlogged Now.
#[global] Instance recorded_ids `{FreshIDs W} : FreshIDs (Recorded W api_call) :=
  λ prefix, unlogged (NewID prefix).

Section calls.
Context `{KubernetesAPI W, KubernetesCodec, WallClock W, FreshIDs W, MapOrder}.
Context (template : string) (format_g : float64 → string) (a : Adapter).

Lemma create_service_calls name service w l :
  (∃ w', create_service (W := Recorded W api_call) a name service (w, l) =
     (Ok tt, (w', l ++ match service with
                       | None => []
                       | Some svc => [CCreate a.(Adapter.namespace) "services" svc (Ok tt)]
                       end))) ∨
  (∃ svc e d w', service = Some svc ∧ create_service (W := Recorded W api_call) a name service (w, l) =
     (Err e, (w', l ++ [CCreate a.(Adapter.namespace) "services" svc (Err e);
                        CDelete a.(Adapter.namespace) "jobs" name d]))).
Proof.
  destruct service as [svc|]; [|left; exists w; by rewrite app_nil_r]. unfold create_service, ebind.
  cbn [api_Create api_Delete recorded_api]. rewrite logged_eq.
  destruct (api_Create _ "services" svc w) as [[[]|e] w1]; cbn [fst snd]; [left; by eexists|right].
  rewrite logged_eq. exists svc, e. eexists _, _. split; [done|]. by rewrite <- app_assoc.
Qed.
Lemma submitted_calls execution name w l r w' l' :
  submitted (W := Recorded W api_call) a execution name (w, l) = (r, (w', l')) →
  ∃ h, r = Ok h ∧ h.(ActivityHandle.ExternalID) = name ∧ h.(ActivityHandle.Status) = HandleStarting ∧
    h.(ActivityHandle.RunID) = execution.(ActivityExecutionContext.Run).(ExecutionRun.ID) ∧
    h.(ActivityHandle.ActivityID) = execution.(ActivityExecutionContext.Activity).(Activity.ID) ∧
    h.(ActivityHandle.Endpoints) = (λ port, "tcp://" +:+ name +:+ "." +:+ a.(Adapter.namespace) +:+ ".svc:" +:+
      itoa port) <$> match execution.(ActivityExecutionContext.Activity).(Activity.Service) with
                     | None => [] | Some service => service.(ServiceSpec.Ports) end ∧ l' = l.
Proof.
  unfold submitted. intros (now & [w1 l1] & Hn & Hk)%ebind_ok.
  apply ebind_ok in Hk as (id & [w2 l2] & Hi & Hk). unfold Now, recorded_clock, unlogged in Hn.
  unfold NewID, recorded_ids, unlogged in Hi. destruct (Monitor.Now w), (Monitor.NewID _ w1).
  simplify_eq. unfold eret in Hk. injection Hk as <- _ <-. eexists. split_and!; [done..| |done].
  cbn [ActivityHandle.Endpoints]. unfold serviceEndpoints. by destruct (Activity.Service _).
Qed.

(** What the documents say, read by path off the trees the adapter sends. *)
Definition at_key (v : any) (key : string) : option any :=
  match v with
  | AnyMap kvs => snd <$> List.find (λ kv, bool_decide (kv.1 = key)) kvs
  | _ => None
  end.
Definition at_path (v : any) (path : list string) : option any :=
  foldl (λ v key, v ≫= λ v, at_key v key) (Some v) path.
(** Both documents carry the name, the namespace and the label the cleaner selects by. *)
Definition managed (kind name ns : string) (v : any) : Prop :=
  at_path v ["kind"] = Some (AnyString kind) ∧
  at_path v ["metadata"; "name"] = Some (AnyString name) ∧
  at_path v ["metadata"; "namespace"] = Some (AnyString ns) ∧
  at_path v ["metadata"; "labels"; "app.kubernetes.io/managed-by"] = Some (AnyString "akoflow").
(** One container runs the command of the activity, in its image and environment. *)
Definition runs_command (runID : string) (activity : Activity) (container : any) : Prop :=
  let command := activity.(Activity.Command) in
  at_path container ["image"] = Some (AnyString command.(ActivityCommand.Image)) ∧
  at_path container ["command"] = Some (AnyStrings ["/bin/sh"]) ∧
  (∃ script, at_path container ["args"] = Some (AnyStrings
     ("-c" :: script :: "akoflow-entrypoint" :: command.(ActivityCommand.Entrypoint) ::
      command.(ActivityCommand.Arguments)))) ∧
  ∃ env, at_path container ["env"] = Some (AnySlice env) ∧
    (∀ key value, command.(ActivityCommand.Environment) !! key = Some value →
       AnyMap [("name", AnyString key); ("value", AnyString value)] ∈ env) ∧
    AnyMap [("name", AnyString "AKOFLOW_RUN_ID"); ("value", AnyString runID)] ∈ env ∧
    AnyMap [("name", AnyString "AKOFLOW_ACTIVITY_ID"); ("value", AnyString activity.(Activity.ID))] ∈ env.
Definition job_for (name ns : string) (execution : ActivityExecutionContext) (job : any) : Prop :=
  let activity := execution.(ActivityExecutionContext.Activity) in
  let resource := execution.(ActivityExecutionContext.Resource) in
  managed "Job" name ns job ∧
  at_path job ["spec"; "backoffLimit"] =
    Some (AnyInt (Z.max (activity.(Activity.Policy).(ActivityPolicy.MaxAttempts) - 1) 0)) ∧
  at_path job ["spec"; "template"; "metadata"; "labels"; "akoflow.io/activity"] =
    Some (AnyString activity.(Activity.ID)) ∧
  (∃ container, at_path job ["spec"; "template"; "spec"; "containers"] = Some (AnySlice [container]) ∧
     runs_command execution.(ActivityExecutionContext.Run).(ExecutionRun.ID) activity container) ∧
  (resource.(Resource.Type_) = ResourceKubernetesMachine → resource.(Resource.ProviderID) ≠ "" →
   at_path job ["spec"; "template"; "spec"; "nodeSelector"; "kubernetes.io/hostname"] =
     Some (AnyString resource.(Resource.ProviderID))).
(** The service selects the pods of the job by the label of the activity. *)
Definition service_for (name ns : string) (activity : Activity) (ports : list Z) (service : any) : Prop :=
  managed "Service" name ns service ∧
  at_path service ["spec"; "selector"; "akoflow.io/activity"] = Some (AnyString activity.(Activity.ID)) ∧
  at_path service ["spec"; "ports"] =
    Some (AnySlice ((λ port, AnyMap [("port", AnyInt port); ("targetPort", AnyInt port)]) <$> ports)).
(** The ports an activity listens on. *)
Definition service_ports (activity : Activity) : list Z :=
  match activity.(Activity.Service) with None => [] | Some service => service.(ServiceSpec.Ports) end.

Lemma environment_encodable salt workflow activity runID :
  forallb encodable (environment salt workflow activity runID) = true.
Proof.
  apply forallb_forall. intros x Hx%list_elem_of_In. unfold environment in Hx. cbv zeta in Hx.
  rewrite !elem_of_app in Hx. destruct Hx as [Hx|[Hx|Hx]].
  - by apply list_elem_of_fmap in Hx as ([key value] & -> & _).
  - set_unfold in Hx. by intuition subst.
  - destruct (is_volume _); [|by apply elem_of_nil in Hx]. rewrite elem_of_app in Hx.
    destruct Hx as [Hx|Hx]; [set_unfold in Hx; by intuition subst|].
    by apply list_elem_of_fmap in Hx as (d & -> & _).
Qed.
Lemma container_encodable salt workflow activity runID :
  encodable (AnyMap (container template format_g salt workflow activity runID)) = true.
Proof.
  unfold container. cbv zeta. cbn [encodable forallb app].
  rewrite environment_encodable. by case_bool_decide.
Qed.
Lemma job_encodable salt name ns workflow activity resource runID :
  encodable (job_document template format_g salt name ns workflow activity resource runID) = true.
Proof.
  unfold job_document, observedPodSpec. cbv zeta. pose proof (container_encodable salt workflow activity runID) as Hc.
  generalize dependent (AnyMap (container template format_g salt workflow activity runID)). intros c Hc.
  cbn [encodable forallb app document_metadata andb]. rewrite Hc.
  by repeat case_bool_decide.
Qed.
Lemma service_encodable name ns activity ports : encodable (service_document name ns activity ports) = true.
Proof.
  unfold service_document. cbn [encodable forallb document_metadata andb].
  rewrite !andb_true_r. by induction ports.
Qed.
Lemma container_runs salt workflow activity runID :
  runs_command runID activity (AnyMap (container template format_g salt workflow activity runID)).
Proof.
  split_and!; [done..|by eexists|]. eexists. split; [done|]. unfold environment. cbv zeta.
  split_and!; [|set_solver..]. intros key value Hk. apply elem_of_app. left. apply list_elem_of_fmap.
  exists (key, value). split; [done|]. rewrite map_range_perm. by apply elem_of_map_to_list.
Qed.
Lemma job_described salt name ns execution :
  job_for name ns execution (job_document template format_g salt name ns
    execution.(ActivityExecutionContext.Workflow) execution.(ActivityExecutionContext.Activity)
    execution.(ActivityExecutionContext.Resource) execution.(ActivityExecutionContext.Run).(ExecutionRun.ID)).
Proof.
  split_and!; try done.
  - eexists. split; [reflexivity|]. apply container_runs.
  - intros Ht Hp. unfold job_document, observedPodSpec. cbv zeta.
    rewrite (bool_decide_true _ Ht), (bool_decide_false _ Hp). cbn [andb negb].
    unfold at_path. cbn [foldl at_key mbind option_bind fmap option_fmap option_map List.find bool_decide].
    by repeat case_bool_decide.
Qed.
(** The documents always encode. *)
Lemma resources_described salt name ns execution :
  let activity := execution.(ActivityExecutionContext.Activity) in
  ∃ job service, resources template format_g salt name ns execution.(ActivityExecutionContext.Workflow)
      activity execution.(ActivityExecutionContext.Resource)
      execution.(ActivityExecutionContext.Run).(ExecutionRun.ID) = Ok (job, service) ∧
    job_for name ns execution job ∧
    match service with
    | None => service_ports activity = []
    | Some svc => service_ports activity ≠ [] ∧ service_for name ns activity (service_ports activity) svc
    end.
Proof.
  cbv zeta. unfold resources, json_Marshal, service_ports. rewrite job_encodable.
  destruct execution.(ActivityExecutionContext.Activity).(Activity.Service) as [service|].
  - case_bool_decide; [|rewrite service_encodable]; eexists _, _;
      (split_and!; [reflexivity|apply job_described|done..]).
  - eexists _, _. split_and!; [reflexivity|apply job_described|done].
Qed.

(** C23: A start makes exactly the calls it needs. Without a client, or without an image,
    it returns the error that says so and makes no call. With both it creates, in the adapter's namespace and under one name, the
    job of the activity (one container with the activity's image, command, arguments and
    environment, on the node of a Kubernetes machine, retried as the policy says) and, when
    and only when the activity has ports, a service for those ports that selects the pods of
    that job. It succeeds when and only when all of these were created, with a handle of the
    activity that reports the name and the endpoint of every port; it fails with the error of
    the job's creation, or with the error of the service's creation after one attempt to
    delete the job under its name, whose own outcome does not change the answer. *)
Theorem start_all_or_nothing salt execution w l r w' l' :
  Start (W := Recorded W api_call) template format_g a salt execution (w, l) = (r, (w', l')) →
  let activity := execution.(ActivityExecutionContext.Activity) in
  let runID := execution.(ActivityExecutionContext.Run).(ExecutionRun.ID) in
  let image := activity.(Activity.Command).(ActivityCommand.Image) in
  let ns := a.(Adapter.namespace) in
  let name := kubernetesName ("akoflow-" +:+ runID +:+ "-" +:+ activity.(Activity.ID)) in
  ∃ k, l' = l ++ k ∧
    if negb a.(Adapter.api_configured) then r = Err "Kubernetes API client is required" ∧ k = []
    else if bool_decide (image = "") then r = Err "activity image is required for Kubernetes" ∧ k = []
    else ∃ job, job_for name ns execution job ∧
      match r with
      | Ok h => h.(ActivityHandle.ExternalID) = name ∧ h.(ActivityHandle.Status) = HandleStarting ∧
          h.(ActivityHandle.RunID) = runID ∧ h.(ActivityHandle.ActivityID) = activity.(Activity.ID) ∧
          h.(ActivityHandle.Endpoints) = (λ port, "tcp://" +:+ name +:+ "." +:+ ns +:+ ".svc:" +:+ itoa port)
            <$> service_ports activity ∧
          if bool_decide (service_ports activity = []) then k = [CCreate ns "jobs" job (Ok tt)]
          else ∃ svc, service_for name ns activity (service_ports activity) svc ∧
            k = [CCreate ns "jobs" job (Ok tt); CCreate ns "services" svc (Ok tt)]
      | Err e => k = [CCreate ns "jobs" job (Err e)] ∨
          service_ports activity ≠ [] ∧ ∃ svc deleted,
            service_for name ns activity (service_ports activity) svc ∧
            k = [CCreate ns "jobs" job (Ok tt); CCreate ns "services" svc (Err e);
                 CDelete ns "jobs" name deleted]
      end.
Proof.
  intros E. cbv zeta. unfold Start in E. cbv zeta in E.
  set (name := kubernetesName _) in *. set (ns := a.(Adapter.namespace)) in *.
  destruct (negb a.(Adapter.api_configured)); [injection E as <- <- <-; exists []; by rewrite app_nil_r|].
  case_bool_decide; [injection E as <- <- <-; exists []; by rewrite app_nil_r|].
  destruct (resources_described salt name ns execution) as (job & service & Er & Hj & Hs).
  rewrite Er in E. unfold ebindr in E. cbn [api_Create recorded_api] in E. rewrite logged_eq in E.
  destruct (api_Create ns "jobs" job w) as [[[]|e] w1]; cbn [fst snd] in E.
  2: { simplify_eq. eexists. split; [done|]. eauto. }
  destruct (create_service_calls name service w1 (l ++ [CCreate ns "jobs" job (Ok tt)]))
    as [(w2 & Hc)|(svc & e & d & w2 & -> & Hc)]; rewrite Hc in E.
  - apply submitted_calls in E as (h & -> & Hn & Hst & Hr & Ha & He & ->).
    eexists. rewrite <- app_assoc. split; [done|]. exists job. split_and!; try done.
    destruct service as [svc|]; [destruct Hs as [Hp Hs]; rewrite bool_decide_false by done; eauto|].
    by rewrite bool_decide_true.
  - simplify_eq. eexists. rewrite <- app_assoc. split; [done|]. destruct Hs as [Hp Hs].
    exists job. split; [done|]. right. split; [done|]. by eexists _, _.
Qed.
End calls.

(** ** Inspection *)
(** What an inspection keeps of a handle. *)
Definition same_identity (h h' : ActivityHandle) : Prop :=
  h'.(ActivityHandle.ID) = h.(ActivityHandle.ID) ∧ h'.(ActivityHandle.RunID) = h.(ActivityHandle.RunID) ∧
  h'.(ActivityHandle.ActivityID) = h.(ActivityHandle.ActivityID) ∧
  h'.(ActivityHandle.ResourceID) = h.(ActivityHandle.ResourceID) ∧
  h'.(ActivityHandle.RuntimeID) = h.(ActivityHandle.RuntimeID) ∧
  h'.(ActivityHandle.ExternalID) = h.(ActivityHandle.ExternalID) ∧
  h'.(ActivityHandle.Endpoints) = h.(ActivityHandle.Endpoints).
#[global] Instance same_identity_preorder : PreOrder same_identity.
Proof.
  split; [by intros h|]. unfold same_identity. intros h1 h2 h3; cbn beta. intuition congruence.
Qed.

Section inspection.
Context `{KubernetesAPI W, KubernetesCodec, WallClock W}.
Context (a : Adapter).

Lemma applyPodTiming_keeps n h w h' w' : applyPodTiming a n h w = (h', w') →
  same_identity h h' ∧ h'.(ActivityHandle.Artifacts) = h.(ActivityHandle.Artifacts) ∧
  h'.(ActivityHandle.FinishedAt) = h.(ActivityHandle.FinishedAt).
Proof.
  unfold applyPodTiming. intros (payload & w1 & _ & [= <- <-])%ebind_ok.
  destruct payload as [payload|]; [|done]. destruct (decode_pod_timings payload) as [[|pod ?]|]; [done| |done].
  destruct (start_time pod) as [t|]; [destruct (IsZero t)|]; by destruct (container_start _).
Qed.
Lemma inspect_log_keeps h w h' w' : inspect_log a h w = (h', w') →
  same_identity h h' ∧ h'.(ActivityHandle.Status) = h.(ActivityHandle.Status) ∧
  h'.(ActivityHandle.Artifacts) = h.(ActivityHandle.Artifacts) ∧
  h'.(ActivityHandle.FinishedAt) = h.(ActivityHandle.FinishedAt).
Proof. unfold inspect_log. intros (log & w1 & _ & [= <- <-])%ebind_ok. by destruct log. Qed.

(** A final handle has its artifacts, or says why not. *)
Definition artifacts_accounted (h h' : ActivityHandle) : Prop :=
  if is_final h'.(ActivityHandle.Status) then
    is_Some h'.(ActivityHandle.Artifacts) ∨
    is_Some (h'.(ActivityHandle.Metadata) !! "artifactObservationError")
  else h'.(ActivityHandle.Artifacts) = h.(ActivityHandle.Artifacts).
Lemma inspect_artifacts_keeps h w h' w' : inspect_artifacts a h w = (h', w') →
  same_identity h h' ∧ h'.(ActivityHandle.Status) = h.(ActivityHandle.Status) ∧
  h'.(ActivityHandle.FinishedAt) = h.(ActivityHandle.FinishedAt) ∧ artifacts_accounted h h'.
Proof.
  unfold inspect_artifacts, artifacts_accounted. destruct (is_final h.(ActivityHandle.Status)) eqn:Hf.
  - intros (m & w1 & _ & [= <- <-])%ebind_ok. destruct m as [m|e].
    + split_and!; try done. change (is_final (h.(ActivityHandle.Status)) = true) in Hf.
      cbn [ActivityHandle.Status]. rewrite Hf. left. by eexists.
    + split_and!; try done. cbn [ActivityHandle.Status]. rewrite Hf. right.
      cbn [ActivityHandle.Metadata]. rewrite lookup_insert_eq. by eexists.
  - intros [= <- <-]. by rewrite Hf.
Qed.

(** An inspection that reads the job always succeeds: the handle keeps its identity,
    its status is the one of the job's counters, and a final handle carries the
    artifacts of the activity or the error that kept them from being collected; the
    pods, logs and failures it also reads cannot make it fail. *)
Theorem inspect_reports_job h w r w' : Inspect a h w = (r, w') →
  match (api_Get a.(Adapter.namespace) "jobs" h.(ActivityHandle.ExternalID) w).1 with
  | Err e => r = Err e
  | Ok output =>
    match decode_job output with
    | Err e => r = Err (errorf "decode Kubernetes job: %w" [e])
    | Ok job => ∃ h', r = Ok h' ∧ same_identity h h' ∧
        h'.(ActivityHandle.Status) = job_handle_status job ∧ artifacts_accounted h h' ∧
        (is_final (job_handle_status job) = false →
         h'.(ActivityHandle.FinishedAt) = h.(ActivityHandle.FinishedAt))
    end
  end.
Proof.
  unfold Inspect, ebindr at 1. destruct (api_Get _ _ _ w) as [[output|e] w1]; [|by intros [= <- <-]].
  cbn [fst]. destruct (decode_job output) as [job|e]; [|by intros [= <- <-]].
  intros (h1 & w2 & Ht & E)%ebind_ok. apply applyPodTiming_keeps in Ht as (Hi & Ha & Hfin).
  cbv zeta in E. apply ebind_ok in E as (h2 & w3 & Hnow & E).
  assert (same_identity h1 h2 ∧ h2.(ActivityHandle.Status) = job_handle_status job ∧
    h2.(ActivityHandle.Artifacts) = h1.(ActivityHandle.Artifacts) ∧
    (is_final (job_handle_status job) = false →
     h2.(ActivityHandle.FinishedAt) = h1.(ActivityHandle.FinishedAt))) as (Hi2 & Hs2 & Ha2 & Hf2).
  { destruct (is_final (job_handle_status job)).
    - apply ebind_ok in Hnow as (now & ? & _ & [= <- <-]). done.
    - by injection Hnow as <- <-. }
  clear Hnow. apply ebind_ok in E as (h3 & w4 & Hfl & E).
  assert (same_identity h2 h3 ∧ h3.(ActivityHandle.Status) = h2.(ActivityHandle.Status) ∧
    h3.(ActivityHandle.Artifacts) = h2.(ActivityHandle.Artifacts) ∧
    h3.(ActivityHandle.FinishedAt) = h2.(ActivityHandle.FinishedAt)) as (Hi3 & Hs3 & Ha3 & Hf3).
  { destruct (bool_decide (job_handle_status job = HandleFailed)).
    - apply ebind_ok in Hfl as (f & ? & _ & [= <- <-]). by destruct (bool_decide (f = "")).
    - by injection Hfl as <- <-. }
  clear Hfl. apply ebind_ok in E as (h4 & w5 & Hlog & E).
  apply inspect_log_keeps in Hlog as (Hi4 & Hs4 & Ha4 & Hf4).
  apply ebind_ok in E as (h5 & w6 & Hart & E). injection E as <- <-.
  apply inspect_artifacts_keeps in Hart as (Hi5 & Hs5 & Hf5 & Hacc).
  exists h5. split_and!; [done|by do 4 (etrans; [eassumption|])|congruence| |].
  - unfold artifacts_accounted in *. destruct (is_final _); [done|congruence].
  - intros Hn. rewrite Hf5, Hf4, Hf3, (Hf2 Hn). done.
Qed.
End inspection.

(** ** The manifest in the log *)
Lemma after_prefix_here prefix s : after_prefix prefix (prefix +:+ s) = Some s.
Proof.
  pose proof (has_prefix_app prefix s) as Hp. pose proof (drop_str_app prefix s) as Hd.
  destruct (prefix +:+ s) eqn:E; cbn [after_prefix]; rewrite Hp; f_equal; exact Hd.
Qed.
Lemma after_prefix_absent prefix line :
  contains line prefix = false → after_prefix prefix line = None.
Proof.
  induction line as [|c s IH]; cbn [contains after_prefix]; intros [-> Hs]%orb_false_iff; [done|by apply IH].
Qed.

Section manifest.
Context `{KubernetesCodec}.

(** Lines that do not mention the prefix are passed over. *)
Lemma find_manifest_skip before rest : Forall (λ line, contains line manifestLogPrefix = false) before →
  find_manifest (before ++ rest) = find_manifest rest.
Proof.
  induction 1 as [|line before Hl _ IH]; [done|]. cbn [app find_manifest].
  by rewrite after_prefix_absent by done.
Qed.

(** The manifest a pod publishes is the one the adapter reads: whatever the activity
    wrote to its log before and after, as long as no earlier line mentions the prefix,
    the line [prefix ++ base64(json)] gives back the manifest that was encoded. *)
Theorem manifest_round_trip before after encoded json m :
  decode64 encoded = Ok json → decode_manifest json = Ok m →
  trim_space encoded = encoded → free_of "010"%char encoded →
  Forall (λ line, contains line manifestLogPrefix = false) (split_byte "010"%char before) →
  find_manifest (split_byte "010"%char (before +:+ String "010" "" +:+
    (manifestLogPrefix +:+ encoded) +:+ String "010" "" +:+ after)) = Ok m.
Proof.
  intros H64 Hm Ht Hfree Hbefore. rewrite split_byte_app, find_manifest_skip by done.
  rewrite split_byte_app, (split_byte_single _ (manifestLogPrefix +:+ _)).
  - cbn [app find_manifest]. by rewrite after_prefix_here, Ht, H64, Hm.
  - unfold free_of. rewrite str_forall_app. unfold free_of in Hfree. by rewrite Hfree.
Qed.
End manifest.

(** A job the cluster is retrying is reported as failed, and a failed handle is final:
    the further attempts the job's [backoffLimit] allows are not waited for. *)
Lemma retried_job_reported_failed s : s.(Succeeded) = 0 → 0 < s.(Failed) → 0 < s.(Active) →
  job_handle_status s = HandleFailed ∧ is_final (job_handle_status s) = true.
Proof.
  intros Hs Hf Ha. unfold job_handle_status. rewrite Hs. cbn [Z.ltb Z.compare].
  by destruct (Z.ltb_spec 0 s.(Failed)); [|lia].
Qed.

(** ** What the cleaner removes *)
(** A job the cluster still retries: no pod active, none of its terminal conditions. *)
Definition retrying (j : JobItem) : Prop :=
  j.(job_active) = 0 ∧ 0 < j.(job_failed) ∧ j.(job_completed) = None ∧
  Forall (λ '(type_, status, _), ¬ (status = "True" ∧ (type_ = "Complete" ∨ type_ = "Failed")))
    j.(job_conditions).

Lemma finished_at_retrying j : retrying j → finished_at j = j.(job_created).
Proof.
  intros (_ & _ & Hc & Hcond). unfold finished_at. rewrite Hc.
  induction Hcond as [|[[t s] at_] l Hx _ IH]; [done|]. cbn [foldl].
  destruct (bool_decide_reflect (s = "True")), (bool_decide_reflect (t = "Complete")),
    (bool_decide_reflect (t = "Failed")); try exact IH; exfalso; apply Hx; auto.
Qed.

(** A job between two attempts is taken for a finished one: with no active pod and
    without a completion time its creation time counts as the time it finished, so a
    job older than the retention is deleted while the cluster would still retry it. *)
Theorem retrying_job_expires j cutoff : retrying j → j.(job_name) ≠ "" →
  IsZero j.(job_created) = false → j.(job_created) ≤ cutoff → expired j cutoff = true.
Proof.
  intros Hr Hn Hz Hle. pose proof (finished_at_retrying j Hr) as Hf.
  destruct Hr as (Ha & Hfail & _). unfold expired. rewrite Hf, Hz, Ha.
  rewrite bool_decide_false by done. cbn [orb negb andb].
  destruct (Z.eqb_spec j.(job_failed) 0); [lia|]. rewrite andb_false_r. cbn [andb Z.ltb Z.compare].
  by apply Z.leb_le.
Qed.

(** The calls of the cleaner: deletions, of pods or under the name of an expired job. *)
Definition deletes_expired (ns : string) (jobs : list JobItem) (cutoff : Time) (call : api_call) : Prop :=
  ∃ kind name r, call = CDelete ns kind name r ∧
    (kind = "pods" ∨ (kind = "services" ∨ kind = "jobs") ∧
     ∃ j, j ∈ jobs ∧ j.(job_name) = name ∧ expired j cutoff = true).

Section cleaning.
Context `{KubernetesAPI W, KubernetesCodec, WallClock W} (c : HistoryCleaner).
Notation ns := c.(HistoryCleaner.namespace).

Lemma appends_delete_one (P : api_call → Prop) kind message name : (∀ r, P (CDelete ns kind name r)) →
  appends P (delete_one (W := Recorded W api_call) c kind message name).
Proof.
  intros HP. apply appends_bind; [by apply appends_logged|]. intros ?. apply appends_ret.
Qed.
Lemma appends_delete_pods (P : api_call → Prop) pods : (∀ pod r, P (CDelete ns "pods" pod r)) →
  appends P (delete_pods (W := Recorded W api_call) c pods).
Proof.
  intros HP. induction pods as [|pod rest IH]; [apply appends_ret|]. cbn [delete_pods].
  apply appends_bind; [by apply appends_delete_one|]. intros err.
  apply appends_bind; [done|]. intros [n errs]. apply appends_ret.
Qed.
Lemma appends_deleteJobHistory (P : api_call → Prop) name :
  (∀ pod r, P (CDelete ns "pods" pod r)) → (∀ r, P (CDelete ns "services" name r)) →
  (∀ r, P (CDelete ns "jobs" name r)) →
  appends P (deleteJobHistory (W := Recorded W api_call) c name).
Proof.
  intros Hp Hs Hj. unfold deleteJobHistory. apply appends_bind.
  { unfold jobPods. apply appends_bind; [apply appends_unlogged|]. intros ?. apply appends_ret. }
  intros [pods|e]; [|apply appends_ret]. apply appends_bind; [by apply appends_delete_pods|].
  intros [n errs]. apply appends_bind; [by apply appends_delete_one|]. intros ?.
  apply appends_bind; [by apply appends_delete_one|]. intros ?. apply appends_ret.
Qed.
Lemma appends_cleanup_jobs cutoff jobs :
  appends (deletes_expired ns jobs cutoff) (cleanup_jobs (W := Recorded W api_call) c cutoff jobs).
Proof.
  assert (∀ all, jobs ⊆ all →
    appends (deletes_expired ns all cutoff) (cleanup_jobs (W := Recorded W api_call) c cutoff jobs)) as Hg;
    [|by apply Hg].
  intros all. induction jobs as [|job rest IH]; intros Hall; [apply appends_ret|]. cbn [cleanup_jobs].
  assert (rest ⊆ all) as Hrest by set_solver. destruct (expired job cutoff) eqn:He; [|by apply IH].
  apply appends_bind; [apply appends_deleteJobHistory|].
  - intros pod r. eexists _, _, _. split; [done|by left].
  - intros r. eexists _, _, _. split; [done|]. right. split; [by left|]. exists job. set_solver.
  - intros r. eexists _, _, _. split; [done|]. right. split; [by right|]. exists job. set_solver.
  - intros [pods err]. apply appends_bind; [by apply IH|]. intros [r errs]. apply appends_ret.
Qed.

Lemma delete_pods_count pods w n errs w' : delete_pods c pods w = ((n, errs), w') → 0 ≤ n.
Proof.
  revert w n errs w'. induction pods as [|pod rest IH]; intros w n errs w'; cbn [delete_pods].
  { by intros [= <- _ _]. }
  intros (err & w1 & _ & Hk)%ebind_ok. apply ebind_ok in Hk as ([n1 errs1] & w2 & Hc & Hk).
  injection Hk as <- _ _. apply IH in Hc. destruct err; lia.
Qed.
Lemma deleteJobHistory_count name w n err w' : deleteJobHistory c name w = ((n, err), w') → 0 ≤ n.
Proof.
  unfold deleteJobHistory. intros ([pods|e] & w1 & _ & Hk)%ebind_ok; [|by injection Hk as <- _ _].
  apply ebind_ok in Hk as ([n1 errs] & w2 & Hp & Hk). apply ebind_ok in Hk as (s & w3 & _ & Hk).
  apply ebind_ok in Hk as (j & w4 & _ & Hk). injection Hk as <- _ _. by eapply delete_pods_count.
Qed.

(** The jobs counted are expired ones. *)
Lemma cleanup_jobs_count cutoff jobs w r errs w' :
  cleanup_jobs c cutoff jobs w = ((r, errs), w') →
  0 ≤ r.(JobsDeleted) ≤ Z.of_nat (length (List.filter (λ j, expired j cutoff) jobs)) ∧
  0 ≤ r.(PodsDeleted) ∧
  (errors_join errs = None → r.(JobsDeleted) = Z.of_nat (length (List.filter (λ j, expired j cutoff) jobs))).
Proof.
  revert w r errs w'. induction jobs as [|job rest IH]; intros w r errs w'; cbn [cleanup_jobs List.filter].
  { intros [= <- _ _]. cbn. lia. }
  destruct (expired job cutoff); [|apply IH].
  intros ([pods err] & w1 & Hd & Hk)%ebind_ok. apply ebind_ok in Hk as ([r1 errs1] & w2 & Hc & Hk).
  injection Hk as <- <- _. apply IH in Hc as (Hb & Hp & He). cbn [JobsDeleted PodsDeleted length].
  assert (0 ≤ pods) as Hpods by (by eapply deleteJobHistory_count).
  split_and!; [destruct err; lia..|lia|].
  intros Hj. destruct err as [e|]; [done|]. change (errors_join errs1 = None) in Hj.
  rewrite (He Hj). lia.
Qed.

End cleaning.

Section cleanup.
Context `{KubernetesAPI W, KubernetesCodec, WallClock W} (c : HistoryCleaner).
Notation ns := c.(HistoryCleaner.namespace).

(** A cleanup deletes nothing but the history of expired jobs among those it listed
    (pods aside, which it lists by the name of such a job), counts at most those, and
    counts all of them when it reports no error. *)
Theorem cleanup_deletes_expired payload jobs w result err w' calls :
  (api_List ns "jobs" managedByAkoflowSelector w).1 = Ok payload → decode_jobs payload = Ok jobs →
  Cleanup (W := Recorded W api_call) c (w, []) = ((result, err), (w', calls)) →
    let now := (Monitor.Now (api_List ns "jobs" managedByAkoflowSelector w).2).1 in
    let cutoff := now - c.(HistoryCleaner.retention) in
    let due := List.filter (λ j, expired j cutoff) jobs in
    Forall (deletes_expired ns jobs cutoff) calls ∧
    0 ≤ result.(JobsDeleted) ≤ Z.of_nat (length due) ∧
    (err = None → result.(JobsDeleted) = Z.of_nat (length due)).
Proof.
  intros Hl Hd. unfold Cleanup. intros (r & [w1 l1] & Hr & Hk)%ebind_ok.
  cbn [api_List recorded_api] in Hr. unfold unlogged in Hr.
  destruct (api_List _ _ _ w) as [r0 w0]. cbn [fst snd] in *. injection Hr as <- <- <-. subst r0.
  cbv beta iota in Hk. rewrite Hd in Hk.
  apply ebind_ok in Hk as (now & [w2 l2] & Hn & Hk).
  unfold Monitor.Now, recorded_clock, unlogged in Hn.
  destruct (Monitor.Now w0) as [t0 ?]. injection Hn as <- <- <-.
  apply ebind_ok in Hk as ([r2 errs] & [w3 l3] & Hc & Hk). injection Hk as <- <- <- <-.
  cbn [fst]. pose proof (appends_cleanup_jobs _ _ _ _ _ _ _ _ Hc) as (k & -> & Hk).
  apply cleanup_jobs_count in Hc as (Hb & _ & He). done.
Qed.
End cleanup.

(** ** Examples *)
Module Example.
(** A cluster whose services are refused, with one finished and one old retried job. *)
#[local] Instance cluster : KubernetesAPI unit := {|
  api_Create _ kind _ := eret (if bool_decide (kind = "services") then Err "quota" else Ok tt);
  api_Get _ _ _ := eret (Ok "job");
  api_List _ kind _ := eret (Ok kind);
  api_Logs _ _ _ := eret (Ok "done");
  api_Delete _ _ _ := eret (Ok tt);
  is_not_found e := bool_decide (e = "not found")
|}.
#[local] Instance clock : WallClock unit := eret (1000 * Second).
#[local] Instance ids : FreshIDs unit := λ prefix, eret (prefix +:+ "-1").
Definition old_job : JobItem := mk_job "retried" (2 * Second) 0 0 1 None [].
Definition new_job : JobItem := mk_job "fresh" (990 * Second) 0 1 0 (Some (999 * Second)) [].
#[local] Instance codec : KubernetesCodec := {|
  decode_job _ := Ok (mk_job_status 0 1 0 []);
  decode_pod_timings _ := Ok [];
  decode_pod_names _ := Ok ["pod"];
  decode_pod_failures _ := Ok [];
  decode_jobs _ := Ok [old_job; new_job];
  decode64 s := Ok s;
  decode_manifest _ := Ok zero
|}.
Definition local_adapter : Adapter := New true "".
Definition cleaner : HistoryCleaner := HistoryCleaner.mk "default" (600 * Second).
Definition handle : ActivityHandle := zero <| ActivityHandle.ExternalID := "akoflow-r-a" |>.

Lemma long_names_collide_witness :
  kubernetesName ("akoflow-" +:+ "run-0123456789abcdef0123456789abcdef" +:+ "-" +:+ "preprocess-sample-one") =
  kubernetesName ("akoflow-" +:+ "run-0123456789abcdef0123456789abcdef" +:+ "-" +:+ "preprocess-sample-two").
Proof.
  apply (long_names_collide "run-0123456789abcdef0123456789abcdef" "preprocess-sample-" "one" "two");
    vm_compute; [reflexivity|lia].
Defined.

Definition execution : ActivityExecutionContext :=
  zero <| ActivityExecutionContext.Activity := zero
      <| Activity.ID := "a" |>
      <| Activity.Command := zero <| ActivityCommand.Image := "busybox" |> |>
      <| Activity.Service := Some (zero <| ServiceSpec.Ports := [80] |>) |> |>
    <| ActivityExecutionContext.Run := zero <| ExecutionRun.ID := "r" |> |>.
Lemma start_all_or_nothing_witness : ∃ job svc deleted,
  job_for "akoflow-r-a" "default" execution job ∧
  service_for "akoflow-r-a" "default" execution.(ActivityExecutionContext.Activity) [80] svc ∧
  (Start (W := Recorded unit api_call) "exec" (λ _, "1") local_adapter 0 execution (tt, [])).2.2 =
    [CCreate "default" "jobs" job (Ok tt); CCreate "default" "services" svc (Err "quota");
     CDelete "default" "jobs" "akoflow-r-a" deleted].
Proof.
  destruct (Start (W := Recorded unit api_call) "exec" (λ _, "1") local_adapter 0 execution (tt, []))
    as [r [[] l]] eqn:E.
  pose proof (f_equal fst E) as Er. vm_compute in Er. subst r.
  destruct (start_all_or_nothing "exec" (λ _, "1") local_adapter 0 execution tt [] _ _ _ E)
    as (k & Hl & job & Hj & [Hk|(_ & svc & d & Hs & Hk)]); cbn [app] in Hl; rewrite Hk in Hl; cbn [snd].
  - pose proof (f_equal (length ∘ snd ∘ snd) E) as Hn. rewrite Hl in Hn. vm_compute in Hn. discriminate.
  - exists job, svc, d. split_and!; [exact Hj|exact Hs|exact Hl].
Defined.

Definition inspected : ActivityHandle :=
  match (Inspect local_adapter handle tt).1 with Ok h => h | Err _ => zero end.
Lemma inspect_runs : Inspect local_adapter handle tt = (Ok inspected, tt).
Proof. vm_compute. reflexivity. Qed.
Lemma inspect_reports_job_witness : ∃ h', Ok inspected = Ok h' ∧ same_identity handle h' ∧
  h'.(ActivityHandle.Status) = HandleCompleted ∧ artifacts_accounted handle h' ∧
  (is_final HandleCompleted = false → h'.(ActivityHandle.FinishedAt) = handle.(ActivityHandle.FinishedAt)).
Proof. exact (inspect_reports_job local_adapter handle tt _ _ inspect_runs). Defined.

Lemma manifest_round_trip_witness : find_manifest (split_byte "010"%char ("step 1" +:+ String "010" "" +:+
  (manifestLogPrefix +:+ "e30=") +:+ String "010" "" +:+ "bye")) = Ok zero.
Proof.
  apply (manifest_round_trip "step 1" "bye" "e30=" "e30=" zero); try reflexivity.
  by repeat constructor.
Defined.

Lemma retrying_job_expires_witness : expired old_job (400 * Second) = true.
Proof.
  apply (retrying_job_expires old_job (400 * Second)); [|done|done|by vm_compute].
  split_and!; [done..|constructor].
Defined.

Definition cleaned : list api_call :=
  [CDelete "default" "pods" "pod" (Ok tt); CDelete "default" "services" "retried" (Ok tt);
   CDelete "default" "jobs" "retried" (Ok tt)].
Lemma cleanup_runs : Cleanup (W := Recorded unit api_call) cleaner (tt, []) =
  ((mk_cleanup 1 1, None), (tt, cleaned)).
Proof. vm_compute. reflexivity. Qed.
Lemma cleanup_deletes_expired_witness :
  Forall (deletes_expired "default" [old_job; new_job] (400 * Second)) cleaned.
Proof.
  exact (proj1 (cleanup_deletes_expired cleaner "jobs" [old_job; new_job] tt _ _ _ _
    eq_refl eq_refl cleanup_runs)).
Defined.
End Example.
End Kubernetes.
