(* ===== verification/Local.v ===== *)
(** * The local runtime (src/internal/provider/artifact_observer.go,
    src/internal/provider/local/adapter.go)

    Module [ArtifactObserver]: snapshots of a workspace before and after an activity
    and the manifest of their difference. Module [Local]: activities as child
    processes of the engine, each awaited by a goroutine; the goroutines interleave
    with the calls of the controller. The file system and the processes are
    interfaces. *)

From Stdlib Require Import Ascii.
From S2P Require Import Prelude GoStrings GoFloat GoPath Domain Ports Monitor Shell Supervisor.

(** What [filepath.WalkDir] is told of an entry. *)
Inductive FileKind := KindDirectory | KindRegular | KindOther.
#[global] Instance FileKind_eq_dec : EqDecision FileKind.
Proof. solve_decision. Defined.

(** The calls of [os] the observer makes; [fs_ReadDir] lists a directory by name,
    [fs_Info] gives size and modification time. *)
Class ArtifactFS (W : Type) := {
  fs_Kind : string → effr W FileKind;
  fs_ReadDir : string → effr W (list (string * FileKind));
  fs_Info : string → effr W (Z * Z);
  fs_Open : string → effr W Reader;
  fs_MkdirAll : string → effr W unit;
  fs_MkdirTemp : string → effr W string
}.

Module ArtifactObserver.
Module artifactFile.
Record artifactFile := mk { size : Z; checksum : string; modified : Z }.
#[global] Instance zero_value : Zero artifactFile := mk zero zero zero.
End artifactFile.
Abbreviation artifactFile := artifactFile.artifactFile.
Module ArtifactSnapshot.
Record ArtifactSnapshot := mk { Root : string; Files : gmap string artifactFile }.
#[global] Instance zero_value : Zero ArtifactSnapshot := mk zero ∅.
End ArtifactSnapshot.
Abbreviation ArtifactSnapshot := ArtifactSnapshot.ArtifactSnapshot.

(** [safePathToken] *)
Definition safe_byte (c : ascii) : bool :=
  ascii_between "a" "z" c || ascii_between "A" "Z" c || ascii_between "0" "9" c ||
  is_byte "-"%char c || is_byte "_"%char c.
Definition safePathToken (value : string) : string :=
  map_runes (λ c, if safe_byte c then c else "-"%char) value.

Section observer.
Context `{ArtifactFS W, Sha256}.

(** [PrepareArtifactRoot] *)
Definition PrepareArtifactRoot (activity : Activity) (runID : string) : effr W string :=
  let root := meta_string activity.(Activity.Metadata) "artifactObservationRoot" in
  let dir := activity.(Activity.Command).(ActivityCommand.WorkingDirectory) in
  if negb (bool_decide (root = "")) then let? _ := fs_MkdirAll root in eret (Ok root)
  else if negb (bool_decide (dir = "")) then let? _ := fs_MkdirAll dir in eret (Ok dir)
  else fs_MkdirTemp ("akoflow-" +:+ safePathToken runID +:+ "-" +:+
                     safePathToken activity.(Activity.ID) +:+ "-").

(** [fileChecksum] *)
Definition fileChecksum (path : string) : effr W string :=
  let? file := fs_Open path in
  eret (match file.(read_error) with Some e => Err e | None => Ok (sha256_hex file.(bytes)) end).

(** The walk function on a regular file. *)
Definition observe_file (root path : string) (files : gmap string artifactFile)
    : effr W (gmap string artifactFile) :=
  let? relative := eret (path_Rel root path) in
  let? (size, modified) := fs_Info path in
  let? checksum := fileChecksum path in
  eret (Ok (<[relative := artifactFile.mk size checksum modified]> files)).

(** The entries of a directory, in order. *)
Fixpoint walk_entries {A} (visit : string → FileKind → A → effr W A) (path : string)
    (entries : list (string * FileKind)) (acc : A) : effr W A :=
  match entries with
  | [] => eret (Ok acc)
  | (name, kind) :: rest =>
    let? acc := visit (path_Join [path; name]) kind acc in
    walk_entries visit path rest acc
  end.
Definition walk_out_of_fuel : error := "file tree is deeper than the fuel of the walk".
(** [filepath.WalkDir] with the function of [SnapshotArtifacts]; [fuel] bounds the
    depth of the tree. *)
Fixpoint walk (fuel : nat) (root path : string) (kind : FileKind) (files : gmap string artifactFile)
    : effr W (gmap string artifactFile) :=
  match fuel with
  | O => eret (Err walk_out_of_fuel)
  | S fuel =>
    match kind with
    | KindOther => eret (Ok files)
    | KindRegular => observe_file root path files
    | KindDirectory =>
      let? entries := fs_ReadDir path in
      walk_entries (walk fuel root) path entries files
    end
  end.

(** [SnapshotArtifacts] *)
Definition SnapshotArtifacts (fuel : nat) (root : string) : effr W ArtifactSnapshot :=
  let? kind := fs_Kind root in
  let? files := walk fuel root root kind ∅ in
  eret (Ok (ArtifactSnapshot.mk root files)).
End observer.

(** ** The manifest of a difference *)
(** [artifactPhase] and [maxDuration] *)
Definition artifactPhase (exitCode : Z) : string := if exitCode =? 0 then "completed" else "failed".
Definition maxDuration (value : float64) : float64 := if flt value zero then zero else value.

(** How a path changed, [None] when it did not. *)
Definition change_of (previous current : option artifactFile) : option ArtifactChange :=
  match previous, current with
  | None, _ => Some ArtifactCreated
  | Some _, None => Some ArtifactDeleted
  | Some p, Some c =>
    if (p.(artifactFile.size) =? c.(artifactFile.size)) &&
       bool_decide (p.(artifactFile.checksum) = c.(artifactFile.checksum))
    then None else Some ArtifactModified
  end.

Definition count_change (change : ArtifactChange) (s : ArtifactSummary) : ArtifactSummary :=
  match change with
  | ArtifactDeleted => s <| ArtifactSummary.DeletedFiles := s.(ArtifactSummary.DeletedFiles) + 1 |>
  | ArtifactModified => s <| ArtifactSummary.ModifiedFiles := s.(ArtifactSummary.ModifiedFiles) + 1 |>
  | _ => s <| ArtifactSummary.CreatedFiles := s.(ArtifactSummary.CreatedFiles) + 1 |>
  end.

(** The body of the loop over the paths. *)
Definition observe_path (before after : gmap string artifactFile)
    (acc : list ArtifactObservation * ArtifactSummary) (path : string)
    : list ArtifactObservation * ArtifactSummary :=
  match change_of (before !! path) (after !! path) with
  | None => acc
  | Some change =>
    let file := match after !! path with Some f => f | None => lookup_zero before path end in
    let summary := count_change change acc.2 in
    (acc.1 ++ [{| ArtifactObservation.Path := path; ArtifactObservation.Change := change;
                  ArtifactObservation.SizeBytes := file.(artifactFile.size);
                  ArtifactObservation.Checksum := "sha256:" +:+ file.(artifactFile.checksum);
                  ArtifactObservation.ModifiedUnixNano := file.(artifactFile.modified) |}],
     if bool_decide (change = ArtifactDeleted) then summary
     else summary <| ArtifactSummary.OutputBytes :=
            int64 (summary.(ArtifactSummary.OutputBytes) + file.(artifactFile.size)) |>)
  end.

(** The paths of both snapshots, sorted. *)
Definition observed_paths `{MapOrder} (salt : nat) (before after : gmap string artifactFile) : list string :=
  sort_strings ((map_range salt before).*1 ++
    List.filter (λ path, negb (bool_decide (is_Some (before !! path)))) (map_range salt after).*1).

(** [ArtifactManifestFor] *)
Definition ArtifactManifestFor `{MapOrder} (salt : nat) (runID activityID runtime : string)
    (startedAt finishedAt : float64) (exitCode : Z) (before after : ArtifactSnapshot) : ArtifactManifest :=
  let old := before.(ArtifactSnapshot.Files) in
  let new := after.(ArtifactSnapshot.Files) in
  let '(files, summary) := foldl (observe_path old new) ([], zero) (observed_paths salt old new) in
  {| ArtifactManifest.SchemaVersion := 1; ArtifactManifest.RunID := runID;
     ArtifactManifest.ActivityID := activityID; ArtifactManifest.Attempt := 1;
     ArtifactManifest.Runtime := runtime; ArtifactManifest.Hostname := "";
     ArtifactManifest.Root := after.(ArtifactSnapshot.Root);
     ArtifactManifest.StartedAt := startedAt; ArtifactManifest.FinishedAt := finishedAt;
     ArtifactManifest.ExitCode := exitCode; ArtifactManifest.Files := files;
     ArtifactManifest.Phases := [{| LifecycleObservation.Phase := "execution";
       LifecycleObservation.Status := artifactPhase exitCode;
       LifecycleObservation.StartedAt := startedAt; LifecycleObservation.FinishedAt := finishedAt;
       LifecycleObservation.DurationSeconds := maxDuration (fsub finishedAt startedAt);
       LifecycleObservation.Error := "" |}];
     ArtifactManifest.Summary := summary
       <| ArtifactSummary.InitialFiles := Z.of_nat (size old) |>
       <| ArtifactSummary.FinalFiles := Z.of_nat (size new) |> |}.

(** ** What a manifest says *)
(** The content of a snapshot: sizes and checksums. *)
Definition content (files : gmap string artifactFile) : gmap string (Z * string) :=
  (λ f, (f.(artifactFile.size), f.(artifactFile.checksum))) <$> files.
(** The changes of a manifest, carried out one after the other. *)
Definition replay_step (m : gmap string (Z * string)) (o : ArtifactObservation) : gmap string (Z * string) :=
  if bool_decide (o.(ArtifactObservation.Change) = ArtifactDeleted)
  then delete o.(ArtifactObservation.Path) m
  else <[o.(ArtifactObservation.Path) :=
          (o.(ArtifactObservation.SizeBytes), trim_prefix "sha256:" o.(ArtifactObservation.Checksum))]> m.
Definition replay (m : gmap string (Z * string)) (l : list ArtifactObservation) : gmap string (Z * string) :=
  foldl replay_step m l.

Section manifest.
Context `{MapOrder} (before after : gmap string artifactFile).

(** What the loop appends for a path. *)
Definition observation (path : string) : option ArtifactObservation :=
  match change_of (before !! path) (after !! path) with
  | None => None
  | Some change =>
    let file := match after !! path with Some f => f | None => lookup_zero before path end in
    Some {| ArtifactObservation.Path := path; ArtifactObservation.Change := change;
            ArtifactObservation.SizeBytes := file.(artifactFile.size);
            ArtifactObservation.Checksum := "sha256:" +:+ file.(artifactFile.checksum);
            ArtifactObservation.ModifiedUnixNano := file.(artifactFile.modified) |}
  end.
Lemma observe_path_files acc path :
  (observe_path before after acc path).1 = acc.1 ++ option_list (observation path).
Proof.
  unfold observe_path, observation. destruct (change_of _ _); cbn; [done|by rewrite app_nil_r].
Qed.
Lemma manifest_files acc paths :
  (foldl (observe_path before after) acc paths).1 = acc.1 ++ omap observation paths.
Proof.
  revert acc. induction paths as [|p paths IH]; intros acc; cbn [foldl]; [by rewrite app_nil_r|].
  rewrite IH, observe_path_files, <- app_assoc. f_equal. cbn. by destruct (observation p).
Qed.

Lemma elem_of_observed salt p :
  p ∈ observed_paths salt before after ↔ is_Some (before !! p) ∨ is_Some (after !! p).
Proof.
  unfold observed_paths. rewrite sort_strings_perm, elem_of_app.
  assert (∀ m : gmap string artifactFile, p ∈ (map_range salt m).*1 ↔ is_Some (m !! p)) as Hm.
  { intros m. rewrite map_range_perm, list_elem_of_fmap. split.
    - intros ([k f] & -> & Hin%elem_of_map_to_list). by exists f.
    - intros [f Hf]. exists (p, f). split; [done|]. by apply elem_of_map_to_list. }
  rewrite Hm, list_elem_of_In, filter_In, <- list_elem_of_In, Hm.
  destruct (before !! p) as [f|]; cbn.
  - split; [by left|]. intros _. left. by exists f.
  - split; [intros [[? [=]]|[? _]]; by right|]. intros [[? [=]]|?]. by right.
Qed.
Lemma observed_nodup salt : NoDup (observed_paths salt before after).
Proof.
  unfold observed_paths. rewrite sort_strings_perm. apply NoDup_app.
  assert (∀ m : gmap string artifactFile, NoDup (map_range salt m).*1) as Hm.
  { intros m. rewrite map_range_perm. apply NoDup_fst_map_to_list. }
  split_and!; [apply Hm| |apply NoDup_ListNoDup, List.NoDup_filter, NoDup_ListNoDup, Hm].
  intros p Hp Hf. rewrite list_elem_of_In, filter_In in Hf. destruct Hf as [_ Hf].
  rewrite map_range_perm, list_elem_of_fmap in Hp.
  destruct Hp as ([k f] & -> & Hin%elem_of_map_to_list). cbn in Hf. rewrite Hin in Hf. done.
Qed.

Lemma replay_put m p change (f : artifactFile) : change ≠ ArtifactDeleted →
  replay_step m {| ArtifactObservation.Path := p; ArtifactObservation.Change := change;
    ArtifactObservation.SizeBytes := f.(artifactFile.size);
    ArtifactObservation.Checksum := "sha256:" +:+ f.(artifactFile.checksum);
    ArtifactObservation.ModifiedUnixNano := f.(artifactFile.modified) |} =
  <[p := (f.(artifactFile.size), f.(artifactFile.checksum))]> m.
Proof.
  intros Hc. unfold replay_step.
  cbn [ArtifactObservation.Path ArtifactObservation.Change ArtifactObservation.SizeBytes
       ArtifactObservation.Checksum].
  by rewrite bool_decide_false, trim_prefix_app.
Qed.
(** One change: afterwards the path has its final content, the others are untouched. *)
Lemma replay_observation m p : is_Some (before !! p) ∨ is_Some (after !! p) →
  m !! p = content before !! p ∨ m !! p = content after !! p →
  let m' := replay m (option_list (observation p)) in
  m' !! p = content after !! p ∧ ∀ q, q ≠ p → m' !! q = m !! q.
Proof.
  intros Hsome Hm. cbv zeta. unfold observation, change_of, content in *. rewrite !lookup_fmap in *.
  assert (∀ change f, change ≠ ArtifactDeleted → after !! p = Some f →
    let m' := replay_step m {| ArtifactObservation.Path := p; ArtifactObservation.Change := change;
      ArtifactObservation.SizeBytes := f.(artifactFile.size);
      ArtifactObservation.Checksum := "sha256:" +:+ f.(artifactFile.checksum);
      ArtifactObservation.ModifiedUnixNano := f.(artifactFile.modified) |} in
    m' !! p = Some (f.(artifactFile.size), f.(artifactFile.checksum)) ∧ ∀ q, q ≠ p → m' !! q = m !! q)
    as Hput.
  { intros change f Hc _. cbv zeta. rewrite replay_put by done. rewrite lookup_insert_eq.
    split; [done|]. intros q Hq. by rewrite lookup_insert_ne. }
  unfold replay. destruct (before !! p) as [b|], (after !! p) as [a|]; cbn [fmap option_fmap option_map] in *.
  - destruct (Z.eqb_spec b.(artifactFile.size) a.(artifactFile.size)) as [Hs|]; cbn [andb];
      [|by apply Hput].
    destruct (bool_decide_reflect (b.(artifactFile.checksum) = a.(artifactFile.checksum))) as [Hc|];
      [|by apply Hput].
    rewrite Hs, Hc in Hm. split; [by destruct Hm|done].
  - change (foldl replay_step m (option_list _)) with (delete p m). rewrite lookup_delete_eq.
    split; [done|]. intros q Hq. by rewrite lookup_delete_ne.
  - by apply Hput.
  - destruct Hsome as [[? [=]]|[? [=]]].
Qed.
Lemma replay_paths m paths :
  Forall (λ p, is_Some (before !! p) ∨ is_Some (after !! p)) paths →
  (∀ p, m !! p = content before !! p ∨ m !! p = content after !! p) →
  (∀ p, p ∉ paths → m !! p = content after !! p) →
  replay m (omap observation paths) = content after.
Proof.
  intros Hp. revert m. induction Hp as [|p paths Hsome _ IH]; intros m Hm Hout.
  { apply map_eq. intros p. apply Hout, not_elem_of_nil. }
  replace (omap observation (p :: paths)) with (option_list (observation p) ++ omap observation paths)
    by (cbn; by destruct (observation p)).
  unfold replay. rewrite foldl_app. destruct (replay_observation m p Hsome (Hm p)) as [Hat Hother].
  apply IH.
  - intros q. destruct (decide (q = p)) as [->|Hq]; [by right|]. unfold replay in Hother.
    rewrite Hother by done. apply Hm.
  - intros q Hq. destruct (decide (q = p)) as [->|Hqp]; [done|]. unfold replay in Hother.
    rewrite Hother by done. apply Hout. by apply not_elem_of_cons.
Qed.
End manifest.

Section summary.
Context `{MapOrder} (before after : gmap string artifactFile).

(** The number of paths that changed in a given way. *)
Definition changed (change : ArtifactChange) (paths : list string) : list string :=
  List.filter (λ p, bool_decide (change_of (before !! p) (after !! p) = Some change)) paths.

Lemma summary_counts acc paths :
  let s := (foldl (observe_path before after) acc paths).2 in
  s.(ArtifactSummary.CreatedFiles) =
    acc.2.(ArtifactSummary.CreatedFiles) + Z.of_nat (length (changed ArtifactCreated paths)) ∧
  s.(ArtifactSummary.ModifiedFiles) =
    acc.2.(ArtifactSummary.ModifiedFiles) + Z.of_nat (length (changed ArtifactModified paths)) ∧
  s.(ArtifactSummary.DeletedFiles) =
    acc.2.(ArtifactSummary.DeletedFiles) + Z.of_nat (length (changed ArtifactDeleted paths)).
Proof.
  revert acc. induction paths as [|p paths IH]; intros acc; cbv zeta; cbn [foldl changed List.filter].
  { cbn. lia. }
  destruct (IH (observe_path before after acc p)) as (Hc & Hm & Hd). rewrite Hc, Hm, Hd.
  fold (changed ArtifactCreated paths) (changed ArtifactModified paths) (changed ArtifactDeleted paths).
  unfold observe_path, count_change. destruct (change_of _ _) as [[| | |o]|] eqn:E.
  all: repeat (case_bool_decide; try congruence). all: cbn in *; try lia.
  exfalso. unfold change_of in E. repeat case_match; congruence.
Qed.

Lemma changed_size (m : gmap string artifactFile) change salt :
  (∀ p, p ∈ observed_paths salt before after →
     change_of (before !! p) (after !! p) = Some change ↔ is_Some (m !! p)) →
  (∀ p, is_Some (m !! p) → is_Some (before !! p) ∨ is_Some (after !! p)) →
  length (changed change (observed_paths salt before after)) = size m.
Proof.
  intros Hiff Hin. rewrite <- length_map_to_list, <- (length_fmap fst (map_to_list m)).
  apply Permutation_length, NoDup_Permutation.
  - apply NoDup_ListNoDup, List.NoDup_filter, NoDup_ListNoDup, observed_nodup.
  - apply NoDup_fst_map_to_list.
  - intros p. unfold changed. rewrite list_elem_of_In, filter_In, <- list_elem_of_In, bool_decide_eq_true.
    rewrite list_elem_of_fmap. split.
    + intros [Hp Hch]. apply (Hiff p Hp) in Hch as [f Hf]. exists (p, f).
      split; [done|]. by apply elem_of_map_to_list.
    + intros ([k f] & -> & Hk%elem_of_map_to_list). cbn.
      assert (k ∈ observed_paths salt before after) as Hobs by (apply elem_of_observed, Hin; by exists f).
      split; [done|]. apply Hiff; [done|]. by exists f.
Qed.
Lemma created_size salt :
  length (changed ArtifactCreated (observed_paths salt before after)) = size (after ∖ before).
Proof.
  apply changed_size.
  - intros p Hp%elem_of_observed. rewrite lookup_difference. unfold change_of.
    destruct (before !! p) as [b|], (after !! p) as [a|]; cbn.
    + destruct (_ && _); split; by intros [? [=]] || intros [=].
    + split; by intros [? [=]] || intros [=].
    + split; [by eexists|done].
    + destruct Hp as [[? [=]]|[? [=]]].
  - intros p [f [Hf _]%lookup_difference_Some]. right. by exists f.
Qed.
Lemma deleted_size salt :
  length (changed ArtifactDeleted (observed_paths salt before after)) = size (before ∖ after).
Proof.
  apply changed_size.
  - intros p Hp%elem_of_observed. rewrite lookup_difference. unfold change_of.
    destruct (before !! p) as [b|], (after !! p) as [a|]; cbn.
    + destruct (_ && _); split; by intros [? [=]] || intros [=].
    + split; [by eexists|done].
    + split; by intros [? [=]] || intros [=].
    + destruct Hp as [[? [=]]|[? [=]]].
  - intros p [f [Hf _]%lookup_difference_Some]. left. by exists f.
Qed.
End summary.

(** Two maps differ in size by what each has more than the other. *)
Lemma map_sizes (m1 m2 : gmap string artifactFile) :
  (size m1 + size (m2 ∖ m1) = size m2 + size (m1 ∖ m2))%nat.
Proof.
  rewrite <- !size_dom, !dom_difference_L, <- !size_union_alt. by rewrite (comm_L (∪)).
Qed.
Lemma observation_path before after p o : observation before after p = Some o →
  o.(ArtifactObservation.Path) = p.
Proof. unfold observation. by destruct (change_of _ _); [intros [= <-]|]. Qed.
Lemma observation_paths before after paths :
  (ArtifactObservation.Path <$> omap (observation before after) paths) `sublist_of` paths.
Proof.
  induction paths as [|p paths IH]; [constructor|]. cbn.
  destruct (observation before after p) as [o|] eqn:E; cbn; [|by constructor].
  apply observation_path in E as ->. by constructor.
Qed.

(** A manifest accounts for the difference between two snapshots: carried out on the
    content before the activity, its changes give the content after it; it lists each
    path at most once; and its summary counts exactly the files that appeared and
    disappeared, which is the difference between the final and the initial number. *)
Theorem manifest_accounts `{MapOrder} salt runID activityID runtime startedAt finishedAt exitCode
    (before after : ArtifactSnapshot) :
  let old := before.(ArtifactSnapshot.Files) in
  let new := after.(ArtifactSnapshot.Files) in
  let m := ArtifactManifestFor salt runID activityID runtime startedAt finishedAt exitCode before after in
  let s := m.(ArtifactManifest.Summary) in
  replay (content old) m.(ArtifactManifest.Files) = content new ∧
  NoDup (ArtifactObservation.Path <$> m.(ArtifactManifest.Files)) ∧
  s.(ArtifactSummary.CreatedFiles) = Z.of_nat (size (new ∖ old)) ∧
  s.(ArtifactSummary.DeletedFiles) = Z.of_nat (size (old ∖ new)) ∧
  s.(ArtifactSummary.FinalFiles) = s.(ArtifactSummary.InitialFiles) +
    s.(ArtifactSummary.CreatedFiles) - s.(ArtifactSummary.DeletedFiles).
Proof.
  cbv zeta. set (old := before.(ArtifactSnapshot.Files)). set (new := after.(ArtifactSnapshot.Files)).
  unfold ArtifactManifestFor. fold old new.
  pose proof (manifest_files old new ([], zero) (observed_paths salt old new)) as Hf.
  pose proof (summary_counts old new ([], zero) (observed_paths salt old new)) as (Hc & _ & Hd).
  destruct (foldl _ _ _) as [files summary]. cbn [fst snd app] in *. subst files.
  cbn [ArtifactManifest.Summary ArtifactManifest.Files]. cbn.
  rewrite Hc, Hd, created_size, deleted_size.
  split_and!; [| |done|done|].
  - apply replay_paths; [|by left|].
    + apply Forall_forall. intros p. apply elem_of_observed.
    + intros p Hp. rewrite elem_of_observed in Hp. unfold content. rewrite !lookup_fmap.
      destruct (old !! p) eqn:Eo; [destruct Hp; left; by eexists|].
      destruct (new !! p) eqn:En; [destruct Hp; right; by eexists|]. done.
  - eapply sublist_NoDup; [apply observed_nodup|apply observation_paths].
  - pose proof (map_sizes old new). cbn [ArtifactSummary.CreatedFiles ArtifactSummary.DeletedFiles zero ArtifactSummary.zero_value zero_Z]. lia.
Qed.

(** ** What a snapshot sees *)
(** A workspace at rest. *)
Inductive tree :=
| File (size modified : Z) (body : string)
| Directory (entries : list (string * tree))
| Special.
Definition kind_of (t : tree) : FileKind :=
  match t with File _ _ _ => KindRegular | Directory _ => KindDirectory | Special => KindOther end.
Fixpoint depth (t : tree) : nat :=
  match t with
  | Directory entries => S (foldr (λ e d, Nat.max (depth e.2) d) O entries)
  | _ => 1
  end.
(** The regular files of a tree, by the names that lead to them. *)
Fixpoint collect `{Sha256} (t : tree) (names : list string) : list (list string * artifactFile) :=
  match t with
  | File size modified body => [(names, artifactFile.mk size (sha256_hex body) modified)]
  | Directory entries => flat_map (λ e, collect e.2 (names ++ [e.1])) entries
  | Special => []
  end.
Definition add_file (files : gmap string artifactFile) (f : list string * artifactFile)
    : gmap string artifactFile := <[join_byte slash f.1 := f.2]> files.

Section walk.
Context `{ArtifactFS W, Sha256}.

(** The file system shows a tree at a place, and looking at it changes nothing. *)
Fixpoint shows (w : W) (place : list string) (t : tree) : Prop :=
  match t with
  | File size modified body =>
    fs_Info (abs_path place) w = (Ok (size, modified), w) ∧
    fs_Open (abs_path place) w = (Ok (mk_reader body None), w)
  | Directory entries =>
    fs_ReadDir (abs_path place) w = (Ok ((λ e, (e.1, kind_of e.2)) <$> entries), w) ∧
    foldr (λ e P, normal e.1 ∧ shows w (place ++ [e.1]) e.2 ∧ P) True entries
  | Special => True
  end.

Lemma observe_file_exact w l ns size modified body files :
  Forall normal l → Forall normal ns → ns ≠ [] → shows w (l ++ ns) (File size modified body) →
  observe_file (abs_path l) (abs_path (l ++ ns)) files w =
    (Ok (add_file files (ns, artifactFile.mk size (sha256_hex body) modified)), w).
Proof.
  intros Hl Hn Hne [Hi Ho]. unfold observe_file, fileChecksum. rewrite Rel_below by done.
  unfold ebindr, eret. cbn. rewrite Hi. cbn. rewrite Ho. done.
Qed.

Lemma walk_exact w fuel l ns t files : Forall normal l → Forall normal ns →
  ns ≠ [] ∨ kind_of t = KindDirectory → shows w (l ++ ns) t → (depth t ≤ fuel)%nat →
  walk fuel (abs_path l) (abs_path (l ++ ns)) (kind_of t) files w =
    (Ok (foldl add_file files (collect t ns)), w).
Proof.
  revert ns t files. induction fuel as [|fuel IH]; intros ns t files Hl Hn Hne Hs Hd.
  { destruct t; cbn in Hd; lia. }
  destruct t as [size modified body|entries|]; [| |done].
  { destruct Hne as [Hne|[=]]. by apply observe_file_exact. }
  destruct Hs as [Hr He]. cbn [walk kind_of]. unfold ebindr at 1. rewrite Hr. cbn [collect].
  cbn [depth] in Hd. clear Hr Hne. revert files.
  induction entries as [|[n t] rest IHr]; intros files; [done|].
  cbn in He, Hd. destruct He as (Hnormal & Ht & Hrest).
  change (((λ e, (e.1, kind_of e.2)) <$> (n, t) :: rest)) with
    ((n, kind_of t) :: ((λ e, (e.1, kind_of e.2)) <$> rest)).
  cbn [walk_entries flat_map fst snd]. unfold ebindr at 1.
  change n with (join_byte slash [n]) at 1.
  rewrite (Join_abs (l ++ ns) [n]) by (try (by apply Forall_app); try (by constructor); done).
  rewrite <- app_assoc in Ht |- *. rewrite IH; [|done|by apply Forall_app; split; [|constructor]| |done|lia].
  2: { left. by destruct ns. }
  rewrite foldl_app. apply IHr; [done|lia].
Qed.

(** A snapshot of a workspace that nobody changes is exactly its regular files with
    their sizes, times and checksums, by their path below the root; directories are
    followed to any depth, links and devices are left out. *)
Theorem snapshot_exact w l entries fuel : Forall normal l →
  fs_Kind (abs_path l) w = (Ok KindDirectory, w) → shows w l (Directory entries) →
  (depth (Directory entries) ≤ fuel)%nat →
  SnapshotArtifacts fuel (abs_path l) w =
    (Ok (ArtifactSnapshot.mk (abs_path l) (foldl add_file ∅ (collect (Directory entries) []))), w).
Proof.
  intros Hl Hk Hs Hd. unfold SnapshotArtifacts, ebindr at 1. rewrite Hk. unfold ebindr.
  rewrite <- (app_nil_r l) in Hs.
  pose proof (walk_exact w fuel l [] (Directory entries) ∅ Hl (Forall_nil_2 _) (or_intror eq_refl) Hs Hd) as E.
  rewrite app_nil_r in E. cbn [kind_of] in E. by rewrite E.
Qed.
End walk.
End ArtifactObserver.

(** ** Child processes *)
(** [os/exec] and [os]: a started process has an identity of its own, which the
    operating system's number, its pid, is not. *)
Class Processes (W : Type) := {
  Environ : eff W (list string);
  exec_Start : string → list string → string → list string → effr W (nat * Z);
  (** [command.Wait] with the exit code of the process. *)
  exec_Wait : nat → eff W (option error * Z);
  exec_Output : nat → eff W string;
  FindProcess : Z → effr W unit;
  Signal : Z → effr W unit
}.

Module Local.
Export ArtifactObserver.

Module processResult.
Record processResult := mk {
  exitCode : Z; err : option error; finishedAt : float64; log : string;
  artifacts : option ArtifactManifest; observeErr : option error
}.
End processResult.
Abbreviation processResult := processResult.processResult.

(** [Adapter]; a log buffer is named by the process that writes to it. *)
Module Adapter.
Record Adapter := mk {
  results : gmap string processResult; logs : gmap string nat;
  observations : gmap string ArtifactSnapshot
}.
#[global] Instance eta : Eta Adapter := λ r, mk (r.(results)) (r.(logs)) (r.(observations)).
End Adapter.
Abbreviation Adapter := Adapter.Adapter.

(** [New] *)
Definition New : Adapter := Adapter.mk ∅ ∅ ∅.

(** [localEndpoints] *)
Definition localEndpoints (activity : Activity) : list string :=
  match activity.(Activity.Service) with
  | None => []
  | Some service => (λ port, "tcp://127.0.0.1:" +:+ itoa port) <$> service.(ServiceSpec.Ports)
  end.

(** What the goroutine of a started activity has captured. *)
Module waiter.
Record waiter := mk {
  id : string; process : nat; root : string; runID : string; activityID : string;
  runtimeID : string; startedAt : float64
}.
End waiter.
Abbreviation waiter := waiter.waiter.
(** A goroutine: blocked in [Wait], before it reads the first snapshot, and before it
    takes the second one and stores the result. *)
Inductive goroutine :=
| Waiting (g : waiter)
| Exited (g : waiter) (err : option error) (exitCode : Z) (finishedAt : float64)
| Compared (g : waiter) (err : option error) (exitCode : Z) (finishedAt : float64)
    (before : ArtifactSnapshot).

Section local.
Context `{ArtifactFS W, Sha256, Processes W, WallClock W, MapOrder}.
Context (fuel salt : nat).
(** The operations act on the world and on the maps of the adapter. *)
Definition get_adapter : eff (W * Adapter) Adapter := λ '(w, a), (a, (w, a)).
Definition update (f : Adapter → Adapter) : eff (W * Adapter) unit := λ '(w, a), (tt, (w, f a)).

(** The handle of a started process. *)
Definition local_handle (execution : ActivityExecutionContext) (pid : Z) (root : string) (startedAt : float64)
    : ActivityHandle :=
  let activity := execution.(ActivityExecutionContext.Activity) in
  let runID := execution.(ActivityExecutionContext.Run).(ExecutionRun.ID) in
  {| ActivityHandle.ID := runID +:+ ":" +:+ activity.(Activity.ID); ActivityHandle.RunID := runID;
     ActivityHandle.ActivityID := activity.(Activity.ID);
     ActivityHandle.ResourceID := execution.(ActivityExecutionContext.Resource).(Resource.ID);
     ActivityHandle.RuntimeID := execution.(ActivityExecutionContext.RuntimeID);
     ActivityHandle.ExternalID := itoa pid; ActivityHandle.Status := HandleRunning;
     ActivityHandle.Endpoints := localEndpoints activity;
     ActivityHandle.StartedAt := startedAt; ActivityHandle.FinishedAt := zero;
     ActivityHandle.ExitCode := None; ActivityHandle.Failure := ""; ActivityHandle.Log := "";
     ActivityHandle.Artifacts := None;
     ActivityHandle.Metadata := list_to_map [
       (Supervisor.TimingSubmittedAt, AnyFloat64 startedAt);
       ("artifactObservationDriver", AnyString "filesystem-diff");
       ("artifactObservationRoot", AnyString root)] |}.

(** What [Adapter.Start] does before it changes the adapter: the workspace, its
    snapshot and the process. *)
Definition launch (execution : ActivityExecutionContext) : effr W (string * ArtifactSnapshot * nat * Z) :=
  let activity := execution.(ActivityExecutionContext.Activity) in
  let command := activity.(Activity.Command) in
  if bool_decide (command.(ActivityCommand.Entrypoint) = "") then
    eret (Err (errorf "activity entrypoint is required" []))
  else
    let! root := PrepareArtifactRoot activity execution.(ActivityExecutionContext.Run).(ExecutionRun.ID) in
    match root with
    | Err e => eret (Err (errorf "prepare artifact workspace: %w" [e]))
    | Ok root =>
      let! before := SnapshotArtifacts fuel root in
      match before with
      | Err e => eret (Err (errorf "snapshot artifact workspace: %w" [e]))
      | Ok before =>
        let! env := Environ in
        let env := env ++ ((λ '(key, value), key +:+ "=" +:+ value)
                             <$> map_range salt command.(ActivityCommand.Environment)) in
        let! started := exec_Start command.(ActivityCommand.Entrypoint)
          command.(ActivityCommand.Arguments) root env in
        eret (match started with
              | Err e => Err (errorf "start local activity: %w" [e])
              | Ok (process, pid) => Ok (root, before, process, pid)
              end)
      end
    end.

(** [Adapter.Start]; the second component is the goroutine it leaves behind. *)
Definition Start (execution : ActivityExecutionContext)
    : effr (W * Adapter) (ActivityHandle * goroutine) :=
  let? (root, before, process, pid) := on_world (launch execution) in
  let! now := on_world Now in
  let handle := local_handle execution pid root (UnixSeconds now) in
  let id := handle.(ActivityHandle.ID) in
  let! _ := update (λ a, a <| Adapter.logs := <[id := process]> a.(Adapter.logs) |>
                           <| Adapter.observations := <[id := before]> a.(Adapter.observations) |>) in
  eret (Ok (handle, Waiting {| waiter.id := id; waiter.process := process; waiter.root := root;
    waiter.runID := handle.(ActivityHandle.RunID); waiter.activityID := handle.(ActivityHandle.ActivityID);
    waiter.runtimeID := handle.(ActivityHandle.RuntimeID);
    waiter.startedAt := handle.(ActivityHandle.StartedAt) |})).

(** One step of a goroutine, between two points where it holds no lock. *)
Definition advance (g : goroutine) : eff (W * Adapter) (option goroutine) :=
  match g with
  | Waiting g =>
    let! (err, exitCode) := on_world (exec_Wait g.(waiter.process)) in
    let! now := on_world Now in
    eret (Some (Exited g err exitCode (UnixSeconds now)))
  | Exited g err exitCode finishedAt =>
    let! a := get_adapter in
    eret (Some (Compared g err exitCode finishedAt (lookup_zero a.(Adapter.observations) g.(waiter.id))))
  | Compared g err exitCode finishedAt before =>
    let! after := on_world (SnapshotArtifacts fuel g.(waiter.root)) in
    let artifacts := match after with
                     | Ok after => Some (ArtifactManifestFor salt g.(waiter.runID) g.(waiter.activityID)
                         g.(waiter.runtimeID) g.(waiter.startedAt) finishedAt exitCode before after)
                     | Err _ => None
                     end in
    let! log := on_world (exec_Output g.(waiter.process)) in
    let result := {| processResult.exitCode := exitCode; processResult.err := err;
      processResult.finishedAt := finishedAt; processResult.log := log;
      processResult.artifacts := artifacts;
      processResult.observeErr := match after with Ok _ => None | Err e => Some e end |} in
    let! _ := update (λ a, a <| Adapter.results := <[g.(waiter.id) := result]> a.(Adapter.results) |>) in
    eret None
  end.

(** A handle whose process has ended. *)
Definition finished_handle (r : processResult) (h : ActivityHandle) : ActivityHandle :=
  let h := h <| ActivityHandle.Log := r.(processResult.log) |>
             <| ActivityHandle.FinishedAt := r.(processResult.finishedAt) |>
             <| ActivityHandle.ExitCode := Some r.(processResult.exitCode) |>
             <| ActivityHandle.Artifacts := r.(processResult.artifacts) |> in
  let h := match r.(processResult.observeErr) with
           | None => h
           | Some e => h <| ActivityHandle.Metadata :=
               <["artifactObservationError" := AnyString e]> h.(ActivityHandle.Metadata) |>
           end in
  match r.(processResult.err) with
  | Some e => h <| ActivityHandle.Status := HandleFailed |> <| ActivityHandle.Failure := e |>
  | None => h <| ActivityHandle.Status := HandleCompleted |>
  end.

(** [Adapter.Inspect] *)
Definition Inspect (handle : ActivityHandle) : effr (W * Adapter) ActivityHandle :=
  let! a := get_adapter in
  match a.(Adapter.results) !! handle.(ActivityHandle.ID) with
  | Some result => eret (Ok (finished_handle result handle))
  | None =>
    let! a := get_adapter in
    match a.(Adapter.logs) !! handle.(ActivityHandle.ID) with
    | Some process =>
      let! log := on_world (exec_Output process) in
      eret (Ok (handle <| ActivityHandle.Log := log |>))
    | None => eret (Ok handle)
    end
  end.

(** [Adapter.Stop] *)
Definition Stop (handle : ActivityHandle) : effr (W * Adapter) unit :=
  match parse_int handle.(ActivityHandle.ExternalID) with
  | None => eret (Err (errorf "invalid local process id: %w" [handle.(ActivityHandle.ExternalID)]))
  | Some pid =>
    let? _ := on_world (FindProcess pid) in
    on_world (Signal pid)
  end.
End local.

(** ** The adapter as a transition system *)
Definition waiter_of (g : goroutine) : waiter :=
  match g with Waiting g | Exited g _ _ _ | Compared g _ _ _ _ => g end.
(** What happened to the processes: one was started on a workspace, one ended. *)
Inductive event :=
| Launched (g : waiter) (before : ArtifactSnapshot)
| Ended (g : waiter) (err : option error) (exitCode : Z) (finishedAt : float64).

Section machine.
Context `{ArtifactFS W, Sha256, Processes W, WallClock W, MapOrder}.
Context (fuel salt : nat).

Record machine := mk_machine {
  state : W * Adapter; goroutines : list goroutine; history : list event
}.
Definition noted (g : goroutine) (r : option goroutine) : list event :=
  match g, r with
  | Waiting _, Some (Exited g err code t) => [Ended g err code t]
  | _, _ => []
  end.

(** The controller's calls, the steps of the goroutines in any order, and whatever else
    happens in the world. Nothing keeps an identifier from being started again. *)
Inductive step (m : machine) : machine → Prop :=
| step_start execution handle g before s :
    Start fuel salt execution m.(state) = (Ok (handle, Waiting g), s) →
    s.2.(Adapter.observations) !! g.(waiter.id) = Some before →
    step m (mk_machine s (Waiting g :: m.(goroutines)) (m.(history) ++ [Launched g before]))
| step_refused execution e s :
    Start fuel salt execution m.(state) = (Err e, s) → step m (mk_machine s m.(goroutines) m.(history))
| step_inspect handle r s :
    Inspect handle m.(state) = (r, s) → step m (mk_machine s m.(goroutines) m.(history))
| step_stop handle r s :
    Stop handle m.(state) = (r, s) → step m (mk_machine s m.(goroutines) m.(history))
| step_goroutine l1 g l2 r s :
    m.(goroutines) = l1 ++ g :: l2 → advance fuel salt g m.(state) = (r, s) →
    step m (mk_machine s (l1 ++ option_list r ++ l2) (m.(history) ++ noted g r))
| step_world w :
    step m (mk_machine (w, m.(state).2) m.(goroutines) m.(history)).
Inductive reachable (w : W) : machine → Prop :=
| reachable_init : reachable w (mk_machine (w, New) [] [])
| reachable_step m m' : reachable w m → step m m' → reachable w m'.

(** A result is what became of a process and of its workspace. *)
Definition tells (h : list event) (g : waiter) (before : ArtifactSnapshot) (r : processResult) : Prop :=
  Ended g r.(processResult.err) r.(processResult.exitCode) r.(processResult.finishedAt) ∈ h ∧
  match r.(processResult.observeErr) with
  | None => ∃ after, r.(processResult.artifacts) =
      Some (ArtifactManifestFor salt g.(waiter.runID) g.(waiter.activityID) g.(waiter.runtimeID)
        g.(waiter.startedAt) r.(processResult.finishedAt) r.(processResult.exitCode) before after)
  | Some _ => r.(processResult.artifacts) = None
  end.
(** A snapshot taken by a start under this identifier. *)
Definition observed (h : list event) (id : string) (before : ArtifactSnapshot) : Prop :=
  ∃ g, g.(waiter.id) = id ∧ Launched g before ∈ h.
(** What a goroutine knows is what happened. *)
Definition informed (h : list event) (g : goroutine) : Prop :=
  match g with
  | Waiting g => ∃ before, Launched g before ∈ h
  | Exited g err code t => (∃ before, Launched g before ∈ h) ∧ Ended g err code t ∈ h
  | Compared g err code t before =>
    (∃ b, Launched g b ∈ h) ∧ Ended g err code t ∈ h ∧ observed h g.(waiter.id) before
  end.
Record invariant (m : machine) : Prop := {
  inv_before g b : Launched g b ∈ m.(history) →
    ∃ b', m.(state).2.(Adapter.observations) !! g.(waiter.id) = Some b' ∧ observed m.(history) g.(waiter.id) b';
  inv_informed : Forall (informed m.(history)) m.(goroutines);
  inv_results id r : m.(state).2.(Adapter.results) !! id = Some r →
    ∃ g b b', g.(waiter.id) = id ∧ Launched g b ∈ m.(history) ∧ observed m.(history) id b' ∧
      tells m.(history) g b' r;
  inv_tracked g b : Launched g b ∈ m.(history) →
    (∃ p, p ∈ m.(goroutines) ∧ waiter_of p = g) ∨
    is_Some (m.(state).2.(Adapter.results) !! g.(waiter.id))
}.

Lemma observed_more h k id b : observed h id b → observed (h ++ k) id b.
Proof. intros (g & ? & ?). exists g. set_solver. Qed.
Lemma informed_more h k g : informed h g → informed (h ++ k) g.
Proof.
  destruct g; cbn.
  - intros [b ?]. exists b. set_solver.
  - intros [[b ?] ?]. split; [exists b|]; set_solver.
  - intros ([b ?] & ? & ?). split_and!; [exists b; set_solver|set_solver|by apply observed_more].
Qed.
Lemma tells_more h k g b r : tells h g b r → tells (h ++ k) g b r.
Proof. intros [He Hr]. split; [set_solver|done]. Qed.

(** Steps that leave the maps and the goroutines alone. *)
Lemma invariant_quiet m s : invariant m → s.2 = m.(state).2 →
  invariant (mk_machine s m.(goroutines) m.(history)).
Proof. intros [Hb Hi Hr Ht] Hs. split; cbn; rewrite ?Hs; done. Qed.

Lemma inspect_quiet handle s r s' : Inspect handle s = (r, s') → s'.2 = s.2.
Proof.
  destruct s as [w a]. unfold Inspect, ebind at 1, get_adapter at 1.
  destruct (a.(Adapter.results) !! _); [by intros [= _ <-]|].
  unfold ebind at 1, get_adapter at 1. destruct (a.(Adapter.logs) !! _); [|by intros [= _ <-]].
  unfold ebind. rewrite on_world_eq. by intros [= _ <-].
Qed.
Lemma stop_quiet handle s r s' : Stop handle s = (r, s') → s'.2 = s.2.
Proof.
  destruct s as [w a]. unfold Stop. destruct (parse_int _); [|by intros [= _ <-]].
  unfold ebindr. rewrite on_world_eq. destruct (FindProcess _ w) as [[[]|e] w1]; cbn [fst snd].
  - rewrite on_world_eq. by intros [= _ <-].
  - by intros [= _ <-].
Qed.
(** What a start changes. *)
Lemma start_changes execution s r s' : Start fuel salt execution s = (r, s') →
  match r with
  | Err _ => s'.2 = s.2
  | Ok (h, g) => ∃ before, s'.2.(Adapter.results) = s.2.(Adapter.results) ∧
      waiter.id (waiter_of g) = h.(ActivityHandle.ID) ∧ g = Waiting (waiter_of g) ∧
      s'.2.(Adapter.observations) = <[h.(ActivityHandle.ID) := before]> s.2.(Adapter.observations)
  end.
Proof.
  destruct s as [w a]. unfold Start, ebindr at 1. rewrite on_world_eq.
  destruct (launch fuel salt execution w) as [[[[[root before] process] pid]|e] w1]; cbn [fst snd];
    [|by intros [= <- <-]].
  unfold ebind at 1. rewrite on_world_eq. destruct (Monitor.Now w1) as [now w2]; cbn [fst snd].
  intros [= <- <-]. by exists before.
Qed.
Lemma invariant_start m execution handle g before s : invariant m →
  Start fuel salt execution m.(state) = (Ok (handle, Waiting g), s) →
  s.2.(Adapter.observations) !! g.(waiter.id) = Some before →
  invariant (mk_machine s (Waiting g :: m.(goroutines)) (m.(history) ++ [Launched g before])).
Proof.
  intros [Hb Hi Hr Ht] Hs Ho. apply start_changes in Hs as (b0 & Hres & Hid & _ & Hobs).
  cbn [waiter_of] in Hid. rewrite <- Hid in Hobs.
  assert (b0 = before) as -> by (rewrite Hobs, lookup_insert_eq in Ho; congruence).
  assert (∀ g' b, Launched g' b ∈ m.(history) ++ [Launched g before] →
    Launched g' b ∈ m.(history) ∨ g' = g ∧ b = before) as Hcase.
  { intros g' b [?|[= -> ->]%list_elem_of_singleton]%elem_of_app; auto. }
  split; cbn [history goroutines state].
  - assert (observed (m.(history) ++ [Launched g before]) g.(waiter.id) before) as Hg
      by (exists g; set_solver).
    intros g' b Hl. destruct (decide (g'.(waiter.id) = g.(waiter.id))) as [->|Hne]; [by exists before|].
    apply Hcase in Hl as [Hl|[-> _]]; [|done]. rewrite Hobs, lookup_insert_ne by done.
    destruct (Hb _ _ Hl) as (b' & ? & ?). exists b'. split; [done|by apply observed_more].
  - constructor; [exists before; set_solver|]. eapply Forall_impl; [exact Hi|]. intros p. apply informed_more.
  - intros id r Hl. rewrite Hres in Hl. destruct (Hr _ _ Hl) as (g' & b & b' & <- & Hg & Hob & Htl).
    exists g', b, b'. split_and!; [done|set_solver|by apply observed_more|by apply tells_more].
  - intros g' b [Hl|[-> ->]]%Hcase; [|left; exists (Waiting g); set_solver].
    destruct (Ht _ _ Hl) as [(p & Hp & <-)|Hsome]; [left; exists p; set_solver|right; by rewrite Hres].
Qed.

(** A step that moves a goroutine on but stores nothing. *)
Lemma invariant_move m l1 g l2 g' s k : invariant m → m.(goroutines) = l1 ++ g :: l2 →
  s.2 = m.(state).2 → waiter_of g' = waiter_of g → informed (m.(history) ++ k) g' →
  (∀ w b, Launched w b ∈ k → False) →
  invariant (mk_machine s (l1 ++ g' :: l2) (m.(history) ++ k)).
Proof.
  intros [Hb Hi Hr Ht] Hg Hs Hw Hinf Hk.
  assert (∀ w b, Launched w b ∈ m.(history) ++ k → Launched w b ∈ m.(history)) as Hold.
  { intros w b [?|?%Hk]%elem_of_app; done. }
  split; cbn [history goroutines state]; rewrite ?Hs.
  - intros g1 b1 Hl%Hold. destruct (Hb _ _ Hl) as (b' & ? & ?). exists b'. split; [done|by apply observed_more].
  - rewrite Hg in Hi. apply Forall_app in Hi as [Hx1 Hx2]. apply Forall_cons in Hx2 as [_ Hx2].
    apply Forall_app. split; [|constructor]; [|done|].
    + eapply Forall_impl; [exact Hx1|]. intros p. apply informed_more.
    + eapply Forall_impl; [exact Hx2|]. intros p. apply informed_more.
  - intros id r (g1 & b & b' & <- & Hl & Hob & Htl)%Hr. exists g1, b, b'.
    split_and!; [done|set_solver|by apply observed_more|by apply tells_more].
  - intros g1 b ?%Hold. destruct (Ht _ _ ltac:(eassumption)) as [(p & Hp & <-)|?]; [|by right].
    left. rewrite Hg in Hp. apply elem_of_app in Hp as [Hp|[->|Hp]%elem_of_cons].
    + exists p. set_solver.
    + exists g'. set_solver.
    + exists p. set_solver.
Qed.

(** The last step of a goroutine stores its result. *)
Lemma invariant_store m l1 g err code t before l2 w a r : invariant m →
  m.(goroutines) = l1 ++ Compared g err code t before :: l2 →
  a = m.(state).2 <| Adapter.results := <[g.(waiter.id) := r]> m.(state).2.(Adapter.results) |> →
  tells m.(history) g before r →
  invariant (mk_machine (w, a) (l1 ++ l2) m.(history)).
Proof.
  intros [Hb Hi Hr Ht] Hg -> Htl.
  rewrite Hg in Hi. apply Forall_app in Hi as [Hx1 Hx2]. apply Forall_cons in Hx2 as [([b0 Hlg] & Hend & Hob) Hx2].
  split; cbn [history goroutines state snd]; [done|by apply Forall_app| |].
  - intros id r'. cbn. intros [[<- <-]|[Hne Hl]]%lookup_insert_Some; [by exists g, b0, before|by apply Hr].
  - intros g1 b Hl. destruct (decide (g1.(waiter.id) = g.(waiter.id))) as [Heq|Hne].
    { right. cbn. rewrite Heq, lookup_insert_eq. by eexists. }
    destruct (Ht _ _ Hl) as [(p & Hp & <-)|Hsome].
    + left. rewrite Hg in Hp. apply elem_of_app in Hp as [Hp|[->|Hp]%elem_of_cons]; [exists p; set_solver| |exists p; set_solver].
      done.
    + right. cbn. by rewrite lookup_insert_ne.
Qed.

Lemma invariant_goroutine m l1 g l2 r s : invariant m → m.(goroutines) = l1 ++ g :: l2 →
  advance fuel salt g m.(state) = (r, s) →
  invariant (mk_machine s (l1 ++ option_list r ++ l2) (m.(history) ++ noted g r)).
Proof.
  intros Hinv Hg. pose proof Hinv.(inv_informed _) as Hi. rewrite Hg in Hi.
  apply Forall_app in Hi as [_ Hi]. apply Forall_cons in Hi as [Hgi _].
  destruct m as [[w a] gs h]. cbn [state goroutines history] in *.
  destruct g as [g|g err code t|g err code t before]; cbn [advance].
  - unfold ebind. rewrite on_world_eq. destruct (exec_Wait _ w) as [[err code] w1]; cbn [fst snd].
    rewrite on_world_eq. intros [= <- <-]. cbn [noted option_list app].
    eapply (invariant_move (mk_machine (w, a) gs h)); [done|exact Hg|done|done| |].
    + destruct Hgi as [b Hb]. split; [exists b; set_solver|set_solver].
    + intros ? ? [=]%list_elem_of_singleton.
  - unfold ebind, get_adapter. intros [= <- <-]. destruct Hgi as [[b Hb] He].
    cbn [noted option_list app].
    eapply (invariant_move (mk_machine (w, a) gs h)); [done|exact Hg|done|done| |set_solver].
    destruct (Hinv.(inv_before _) g b Hb) as (b' & Hobs & Hob). cbn [state snd history] in Hobs, Hob.
    unfold lookup_zero. rewrite Hobs. cbn. rewrite app_nil_r. eauto.
  - unfold ebind. rewrite on_world_eq. destruct (SnapshotArtifacts fuel _ w) as [after w1]; cbn [fst snd].
    rewrite on_world_eq. cbn [update]. intros [= <- <-]. cbn [noted option_list app]. rewrite app_nil_r.
    destruct Hgi as (Hl & He & _).
    eapply (invariant_store (mk_machine (w, a) gs h)); [done|exact Hg|done|].
    split; cbn; [done|]. destruct after as [after|e]; [by exists after|done].
Qed.

Lemma reachable_invariant w m : reachable w m → invariant m.
Proof.
  induction 1 as [|m m' _ IH Hstep]; [split; cbn; try set_solver; constructor|].
  destruct Hstep as [execution handle g before s Hs Ho|execution e s Hs|handle r s Hs|handle r s Hs
    |l1 g l2 r s Hg Ha|w'].
  - by eapply invariant_start.
  - apply start_changes in Hs. by apply invariant_quiet.
  - apply invariant_quiet; [done|]. by eapply inspect_quiet.
  - apply invariant_quiet; [done|]. by eapply stop_quiet.
  - by eapply invariant_goroutine.
  - by apply invariant_quiet.
Qed.
End machine.

Section tracking.
Context `{ArtifactFS W, Sha256, Processes W, WallClock W, MapOrder}.
Context (fuel salt : nat).

(** A handle that reports the end of a process: its exit code and its time, completed
    exactly when it ended without an error, with the changes of the workspace since the
    snapshot [before], or the reason why they could not be observed. *)
Definition reports (h : list event) (g : waiter) (before : ArtifactSnapshot) (handle : ActivityHandle) : Prop :=
  ∃ err code t, Ended g err code t ∈ h ∧
    handle.(ActivityHandle.ExitCode) = Some code ∧ handle.(ActivityHandle.FinishedAt) = t ∧
    handle.(ActivityHandle.Status) = match err with None => HandleCompleted | Some _ => HandleFailed end ∧
    ((∃ after, handle.(ActivityHandle.Artifacts) =
        Some (ArtifactManifestFor salt g.(waiter.runID) g.(waiter.activityID) g.(waiter.runtimeID)
          g.(waiter.startedAt) t code before after)) ∨
     handle.(ActivityHandle.Artifacts) = None ∧
     ∃ e, handle.(ActivityHandle.Metadata) !! "artifactObservationError" = Some (AnyString e)).
Lemma finished_reports h g before r handle : tells salt h g before r →
  reports h g before (finished_handle r handle).
Proof.
  intros [He Ha]. exists r.(processResult.err), r.(processResult.exitCode), r.(processResult.finishedAt).
  unfold finished_handle. destruct r.(processResult.observeErr) as [e|].
  - destruct r.(processResult.err); cbn; (split_and!; [done..|]); right; (split; [done|]); exists e;
      by rewrite lookup_insert_eq.
  - destruct Ha as [after Ha]. destruct r.(processResult.err); cbn; (split_and!; [done..|]); left; by exists after.
Qed.


(** The steps a goroutine still has to make. *)
Definition steps_left (g : goroutine) : nat :=
  match g with Waiting _ => 3 | Exited _ _ _ _ => 2 | Compared _ _ _ _ _ => 1 end.
Fixpoint run_goroutine (n : nat) (g : goroutine) : eff (W * Adapter) bool :=
  match n with
  | O => eret false
  | S n => let! r := advance fuel salt g in
           match r with None => eret true | Some g => run_goroutine n g end
  end.

(** Once the process ends, its goroutine needs no more than three steps to store the
    result of the activity, whatever the workspace looks like by then. *)
Theorem goroutine_stores_result g (s : W * Adapter) :
  let '(done, s') := run_goroutine (steps_left g) g s in
  done = true ∧ is_Some (s'.2.(Adapter.results) !! (waiter_of g).(waiter.id)).
Proof.
  assert (∀ g err code t before (s : W * Adapter),
    let '(done, s') := run_goroutine 1 (Compared g err code t before) s in
    done = true ∧ is_Some (s'.2.(Adapter.results) !! g.(waiter.id))) as H1'.
  { intros g0 err code t before [w a]. cbn [run_goroutine advance]. unfold ebind.
    rewrite on_world_eq. destruct (SnapshotArtifacts fuel _ w) as [after w1]; cbn [fst snd].
    rewrite on_world_eq. cbn [update snd]. split; [done|]. cbn. rewrite lookup_insert_eq. by eexists. }
  assert (∀ g err code t (s : W * Adapter),
    let '(done, s') := run_goroutine 2 (Exited g err code t) s in
    done = true ∧ is_Some (s'.2.(Adapter.results) !! g.(waiter.id))) as H2'.
  { intros g0 err code t [w a]. cbn [run_goroutine]. unfold ebind at 1. cbn [advance].
    unfold ebind at 1, get_adapter. cbn [eret]. apply (H1' g0). }
  destruct g as [g|g err code t|g err code t before]; [|apply H2'|apply H1'].
  destruct s as [w a]. cbn [steps_left run_goroutine]. unfold ebind at 1. cbn [advance].
  unfold ebind at 1. rewrite on_world_eq. destruct (exec_Wait _ w) as [[err code] w1]; cbn [fst snd].
  unfold ebind at 1. rewrite on_world_eq. cbn [eret waiter_of]. apply (H2' g).
Qed.

(** Results are kept in memory: after a restart of the engine the inspection of a running
    activity leaves it running, for good. *)
Lemma restart_forgets handle (w : W) : Inspect handle (w, New) = (Ok handle, (w, New)).
Proof. done. Qed.
(** A second start under the same identifier leaves the result of the first in place:
    the inspection reports it although the second process is running. *)
Lemma second_start_reports_first execution (s : W * Adapter) h g s' r handle :
  Start fuel salt execution s = (Ok (h, g), s') → handle.(ActivityHandle.ID) = h.(ActivityHandle.ID) →
  s.2.(Adapter.results) !! h.(ActivityHandle.ID) = Some r →
  Inspect handle s' = (Ok (finished_handle r handle), s').
Proof.
  intros Hs Hid Hr. apply start_changes in Hs as (b & Hres & _). destruct s' as [w a].
  unfold Inspect, ebind, get_adapter. cbn [snd] in Hres. by rewrite Hid, Hres, Hr.
Qed.
End tracking.

(** ** Examples *)
Module Example.
#[local] Instance disk : ArtifactFS unit := {|
  fs_Kind _ := eret (Ok KindDirectory);
  fs_ReadDir path := eret (Ok (if bool_decide (path = "/work") then [("out.txt", KindRegular)] else []));
  fs_Info _ := eret (Ok (3, 5));
  fs_Open _ := eret (Ok (mk_reader "abc" None));
  fs_MkdirAll _ := eret (Ok tt);
  fs_MkdirTemp _ := eret (Ok "/work")
|}.
#[local] Instance hash : Sha256 := λ s, s.
#[local] Instance processes : Processes unit := {|
  Environ := eret [];
  exec_Start _ _ _ _ := eret (Ok (1%nat, 42));
  exec_Wait _ := eret (None, 0);
  exec_Output _ := eret "log";
  FindProcess _ := eret (Ok tt);
  Signal _ := eret (Ok tt)
|}.
#[local] Instance clock : WallClock unit := eret unix_epoch.
Definition execution : ActivityExecutionContext :=
  zero <| ActivityExecutionContext.Activity := zero <| Activity.ID := "a" |>
      <| Activity.Command := zero <| ActivityCommand.Entrypoint := "true" |> |> |>
    <| ActivityExecutionContext.Run := zero <| ExecutionRun.ID := "r" |> |>.
Definition workspace : list (string * tree) := [("out.txt", File 3 5 "abc")].

Lemma snapshot_exact_witness : SnapshotArtifacts 2 (abs_path ["work"]) tt =
  (Ok (ArtifactSnapshot.mk (abs_path ["work"]) (foldl add_file ∅ (collect (Directory workspace) []))), tt).
Proof.
  apply (snapshot_exact tt ["work"] workspace 2); [|done| |by vm_compute].
  - by repeat constructor.
  - split; [reflexivity|]. cbn. split; [by repeat split|]. by repeat split.
Defined.

Definition before : ArtifactSnapshot := ArtifactSnapshot.mk "/work" {[ "out.txt" := artifactFile.mk 3 "abc" 5 ]}.
Definition awaited : waiter := waiter.mk "r:a" 1 "/work" "r" "a" "" (UnixSeconds unix_epoch).
Definition started : unit * Adapter := (tt, Adapter.mk ∅ {[ "r:a" := 1%nat ]} {[ "r:a" := before ]}).
Lemma starts : Start 2 0 execution (tt, New) =
  (Ok (local_handle execution 42 "/work" (UnixSeconds unix_epoch), Waiting awaited), started).
Proof. vm_compute. reflexivity. Qed.
(** The process ends and its goroutine makes its three steps. *)
Definition ended : list event :=
  [Launched awaited before; Ended awaited None 0 (UnixSeconds unix_epoch)].
Definition finished : machine := Eval vm_compute in
  mk_machine (run_goroutine 2 0 3 (Waiting awaited) started).2 [] ended.
Definition paused (g : goroutine) (h : list event) : machine := mk_machine started [g] h.
Definition exited : goroutine := Exited awaited None 0 (UnixSeconds unix_epoch).
Definition compared : goroutine := Compared awaited None 0 (UnixSeconds unix_epoch) before.
Lemma exits : advance 2 0 (Waiting awaited) started = (Some exited, started).
Proof. vm_compute. reflexivity. Qed.
Lemma compares : advance 2 0 exited started = (Some compared, started).
Proof. vm_compute. reflexivity. Qed.
Lemma stores : advance 2 0 compared started = (None, finished.(state)).
Proof. vm_compute. reflexivity. Qed.
Lemma finished_reachable : reachable 2 0 tt finished.
Proof.
  pose proof (reachable_step 2 0 tt _ _ (reachable_init 2 0 tt)
    (step_start 2 0 (mk_machine (tt, New) [] []) execution _ awaited before started starts eq_refl)) as R1.
  pose proof (reachable_step 2 0 tt _ _ R1
    (step_goroutine 2 0 (paused (Waiting awaited) [Launched awaited before]) [] _ [] _ _ eq_refl exits)) as R2.
  pose proof (reachable_step 2 0 tt _ _ R2
    (step_goroutine 2 0 (paused exited ended) [] _ [] _ _ eq_refl compares)) as R3.
  exact (reachable_step 2 0 tt _ _ R3
    (step_goroutine 2 0 (paused compared ended) [] _ [] _ _ eq_refl stores)).
Qed.
End Example.
End Local.
