(* ===== verification/Build.v ===== *)
(** * Artifact builds (src/internal/application/build)

    Module [Build]: the manager of uploaded build contexts (manager.go), the executor
    of builds (service.go) and the resolver that turns a finished build into a
    preparation (resolver.go). Context archives, the file system, the builder
    commands and the catalog are interfaces. *)

From Stdlib Require Import Ascii.
From S2P Require Import Prelude GoStrings GoPath Domain Ports Monitor Storage Filesystem.

(** The calls of [os] the builds make besides those of [OS]. *)
Class BuildFiles (W : Type) := {
  StatFile : string → effr W unit;
  CreateTemp : string → effr W string;
  RemoveAll : string → effr W unit
}.

(** [compress/gzip] and [archive/tar]: the entries a reader yields and the error that
    ends the archive; the outer error is the one of the gzip header. *)
Record TarHeader := mk_header { tar_name : string; tar_link : bool; tar_dir : bool; tar_body : Reader }.
Class Archives := untar : Reader → result (list TarHeader * option error).

(** service.go: [Catalog] *)
Class BuildCatalog (W : Type) := {
  SaveBuildRun : BuildRun → effr W unit;
  SaveBuildContext : BuildContextArtifact → effr W unit;
  FindBuildContext : string → effr W (option BuildContextArtifact);
  PublishBuildOutput : string → ArtifactVariant → ArtifactLocation → effr W unit
}.
(** service.go: [CommandRunner]; the output comes with an error too. *)
Class CommandRunner (W : Type) := RunCommand : string → list string → eff W (string * option error).
(** resolver.go: the catalog of [OutputResolver] *)
Class BuildOutputs (W : Type) := {
  FindBuildOutput : string → effr W (option ArtifactVariant * option ArtifactLocation);
  FindDockerBuildOutput : string → string →
    effr W (option ArtifactBuild * option ArtifactVariant * option ArtifactLocation)
}.

Module Build.
Import FilesystemDriver.

(** ** The manager of build contexts *)
Module Manager.
Record Manager := mk { Root : string; MaxBytes : Z; has_catalog : bool }.
End Manager.
Abbreviation Manager := Manager.Manager.

(** [MaxUploadBytes] *)
Definition MaxUploadBytes (m : Manager) : Z :=
  if 0 <? m.(Manager.MaxBytes) then m.(Manager.MaxBytes) else 2 ^ 29.

(** [safeArchivePath] *)
Definition safeArchivePath (name : string) : bool :=
  let clean := path_Clean name in
  negb (bool_decide (name = "")) && negb (rooted name) && negb (bool_decide (clean = "..")) &&
  negb (has_prefix "../" clean).
(** [!safeArchivePath(h.Name) || h.Typeflag == tar.TypeSymlink || h.Typeflag == tar.TypeLink] *)
Definition unsafe_entry (h : TarHeader) : bool := negb (safeArchivePath h.(tar_name)) || h.(tar_link).

Section manager.
Context `{OS W, BuildFiles W, Archives, Sha256, BuildCatalog W, FreshIDs W}.

(** [OpenOutput] *)
Definition OpenOutput (m : Manager) (runID : string) : effr W (Reader * string) :=
  if bool_decide (m.(Manager.Root) = "") || bool_decide (runID = "") ||
     negb (bool_decide (path_Base runID = runID)) then eret (Err (errorf "invalid build output" []))
  else
    let name := runID +:+ ".sif" in
    let! file := OpenFile (path_Join [m.(Manager.Root); "outputs"; name]) in
    eret (match file with
          | Err e => Err (errorf "SIF output is unavailable: %w" [e])
          | Ok file => Ok (file, name)
          end).

(** The loop of [validGzipTar] over the entries. *)
Fixpoint valid_entries (entries : list TarHeader) (stop : option error) : result unit :=
  match entries with
  | [] => match stop with None => Ok tt | Some e => Err (errorf "read build context: %w" [e]) end
  | h :: rest =>
    if unsafe_entry h then Err (errorf "unsafe archive path %q" [h.(tar_name)])
    else valid_entries rest stop
  end.
(** [validGzipTar] *)
Definition validGzipTar (name : string) : effr W unit :=
  let? file := OpenFile name in
  eret (match untar file with
        | Err e => Err (errorf "build context must be a gzip stream: %w" [e])
        | Ok (entries, stop) => valid_entries entries stop
        end).

(** The copy of at most [limit + 1] bytes into the temporary file: the bytes copied and
    the errors of the copy and of the close. *)
Definition receive_upload (tmp : string) (limit : Z) (input : Reader)
    : eff W (string * option error * option error) :=
  let taken := take_str (Z.to_nat (limit + 1)) input.(bytes) in
  let source := mk_reader taken
    (if Z.of_nat (str_length input.(bytes)) <=? limit then input.(read_error) else None) in
  let! (copyErr, closeErr) := write_temporary tmp source in
  eret (taken, copyErr, closeErr).

Definition context_path (m : Manager) (hex : string) : string :=
  path_Join [m.(Manager.Root); "contexts"; hex +:+ ".tar.gz"].

(** What [Upload] does with the temporary file, before it is removed. *)
Definition store_upload (m : Manager) (limit : Z) (tmp : string) (input : Reader)
    : effr W BuildContextArtifact :=
  let! (taken, copyErr, closeErr) := receive_upload tmp limit input in
  let n := Z.of_nat (str_length taken) in
  match firstError [copyErr; closeErr] with
  | Some e => eret (Err e)
  | None =>
    if (n =? 0) || (limit <? n) then
      eret (Err (errorf "build context must be between 1 and %d bytes" [itoa limit]))
    else
      let? _ := validGzipTar tmp in
      let hex := sha256_hex taken in
      let digest := "sha256:" +:+ hex in
      let final := context_path m hex in
      let! known := StatFile final in
      let? _ := (match known with
                 | Err e => if IsNotExist e then Rename tmp final else eret (Ok tt)
                 | Ok _ => eret (Ok tt)
                 end) in
      let v := {| BuildContextArtifact.Digest := digest;
                  BuildContextArtifact.StorageURI := "artifact://contexts/" +:+ hex;
                  BuildContextArtifact.SizeBytes := n;
                  BuildContextArtifact.MediaType := "application/vnd.akoflow.build-context+tar+gzip" |} in
      if m.(Manager.has_catalog) then
        let? old := FindBuildContext digest in
        match old with
        | Some _ => eret (Ok v)
        | None => let? _ := SaveBuildContext v in eret (Ok v)
        end
      else eret (Ok v)
  end.

(** [Upload] *)
Definition Upload (m : Manager) (input : Reader) : effr W BuildContextArtifact :=
  let limit := MaxUploadBytes m in
  if bool_decide (m.(Manager.Root) = "") then eret (Err (errorf "artifact store is not configured" []))
  else
    let temporary := path_Join [m.(Manager.Root); "contexts"; ".tmp"] in
    let? _ := MkdirAll temporary in
    let? tmp := CreateTemp temporary in
    let! r := store_upload m limit tmp input in
    let! _ := RemoveFile tmp in
    eret r.

(** A regular entry of the archive; what a failed copy leaves behind stays. *)
Definition extract_file (target : string) (body : Reader) : effr W unit :=
  let? _ := MkdirAll (path_Dir target) in
  let? _ := Create target in
  let! (copyErr, closeErr) := write_temporary target body in
  eret (match firstError [copyErr; closeErr] with
        | None => Ok tt
        | Some _ => Err (errorf "extract build context: %v" [default "<nil>" copyErr])
        end).
(** The loop of [ResolveBuildContext] over the entries. *)
Fixpoint extract (dir : string) (entries : list TarHeader) (stop : option error) : effr W unit :=
  match entries with
  | [] => match stop with
          | None => eret (Ok tt)
          | Some e => let! _ := RemoveAll dir in eret (Err e)
          end
  | h :: rest =>
    if unsafe_entry h then
      let! _ := RemoveAll dir in eret (Err (errorf "unsafe archive path %q" [h.(tar_name)]))
    else
      let target := path_Join [dir; h.(tar_name)] in
      let? _ := (if h.(tar_dir) then MkdirAll target else extract_file target h.(tar_body)) in
      extract dir rest stop
  end.

(** [ResolveBuildContext] *)
Definition ResolveBuildContext (m : Manager) (digest : string) : effr W string :=
  if negb (has_prefix "sha256:" digest) || negb (Nat.eqb (str_length digest) 71) then
    eret (Err (errorf "invalid build context digest" []))
  else
    let hex := trim_prefix "sha256:" digest in
    let archive := context_path m hex in
    let! known := StatFile archive in
    match known with
    | Err e => eret (Err (errorf "build context unavailable: %w" [e]))
    | Ok _ =>
      let dir := path_Join [m.(Manager.Root); "workspaces"; hex] in
      let! extracted := StatFile dir in
      match extracted with
      | Ok _ => eret (Ok dir)
      | Err _ =>
        let? _ := MkdirAll dir in
        let? file := OpenFile archive in
        match untar file with
        | Err e => eret (Err e)
        | Ok (entries, stop) =>
          let? _ := extract dir entries stop in
          eret (Ok dir)
        end
      end
    end.

(** [Start]: the run, and the build left to a goroutine. *)
Definition Start (spec : ArtifactBuild) : eff W (BuildRun * option error * option (ArtifactBuild * BuildRun)) :=
  let! id := NewID "build-run" in
  let run := (zero : BuildRun) <| BuildRun.ID := id |>
               <| BuildRun.ArtifactBuildID := spec.(ArtifactBuild.ID) |>
               <| BuildRun.Status := "queued" |> in
  let! saved := SaveBuildRun run in
  eret (match saved with
        | Err e => (run, Some e, None)
        | Ok _ => (run, None, Some (spec, run))
        end).
End manager.

(** ** The executor *)
Module Executor.
Record Executor := mk {
  has_catalog : bool; has_contexts : bool; has_runner : bool;
  Buildctl : string; Apptainer : string; ArtifactStoreRoot : string
}.
End Executor.
Abbreviation Executor := Executor.Executor.

Section executor.
Context `{OS W, Sha256, BuildCatalog W, CommandRunner W}.
(** [s.Contexts.ResolveBuildContext] *)
Context (contexts : string → effr W string) (s : Executor).

(** [save] *)
Definition save (run : BuildRun) : effr W unit :=
  if s.(Executor.has_catalog) then SaveBuildRun run else eret (Ok tt).
(** [fail] *)
Definition fail (run : BuildRun) (message : string) : eff W (BuildRun * option error) :=
  let run := run <| BuildRun.Status := "failed" |> <| BuildRun.Error := message |> in
  let! _ := save run in
  eret (run, Some (errorf "build %s: %s" [run.(BuildRun.ID); message])).

(** [strings.ContainsAny(image, " \t\n\r")] *)
Definition has_blank (image : string) : bool :=
  negb (str_forall (λ c, negb (is_byte " "%char c || is_byte "009"%char c || is_byte "010"%char c ||
                               is_byte "013"%char c)) image).

(** The branch of [buildOutput] for images of a registry: a path or an error, with logs. *)
Definition build_image (spec : ArtifactBuild) (run : BuildRun) : eff W (result string * string) :=
  let image := trim_prefix "docker://" (trim_space spec.(ArtifactBuild.RecipePath)) in
  if negb (bool_decide (spec.(ArtifactBuild.TargetFormat) = "sif")) then
    eret (Err (errorf "Docker image artifacts must target SIF" []), "")
  else if bool_decide (image = "") || has_blank image then
    eret (Err (errorf "a valid Docker image reference is required" []), "")
  else if bool_decide (s.(Executor.Apptainer) = "") then
    eret (Err (errorf "Apptainer builder is not configured" []), "")
  else
    let sifPath := path_Join [s.(Executor.ArtifactStoreRoot); "outputs"; run.(BuildRun.ID) +:+ ".sif"] in
    let architecture := trim_space spec.(ArtifactBuild.TargetArchitecture) in
    let architecture := if bool_decide (architecture = "") then "amd64" else architecture in
    let! (output, err) := RunCommand s.(Executor.Apptainer)
      ["build"; "--arch"; architecture; sifPath; "docker://" +:+ image] in
    eret (match err with Some e => (Err e, output) | None => (Ok sifPath, output) end).

(** The conversion of an OCI archive, when a SIF is asked for. *)
Definition convert_sif (spec : ArtifactBuild) (run : BuildRun) (outputPath logs : string)
    : eff W (result string * string) :=
  if bool_decide (spec.(ArtifactBuild.TargetFormat) = "sif") then
    if bool_decide (s.(Executor.Apptainer) = "") then
      eret (Err (errorf "Apptainer builder is not configured" []), logs)
    else
      let sifPath := path_Join [s.(Executor.ArtifactStoreRoot); "outputs"; run.(BuildRun.ID) +:+ ".sif"] in
      let! (output, err) := RunCommand s.(Executor.Apptainer) ["build"; sifPath; "oci-archive:" +:+ outputPath] in
      let logs := logs +:+ newline +:+ output in
      eret (match err with Some e => (Err e, logs) | None => (Ok sifPath, logs) end)
  else eret (Ok outputPath, logs).

(** [buildOutput] *)
Definition buildOutput (spec : ArtifactBuild) (run : BuildRun) (contextPath : string)
    : eff W (result string * string) :=
  if bool_decide (s.(Executor.ArtifactStoreRoot) = "") then
    eret (Err (errorf "artifact store is not configured" []), "")
  else
    let! made := MkdirAll (path_Join [s.(Executor.ArtifactStoreRoot); "outputs"]) in
    match made with
    | Err e => eret (Err e, "")
    | Ok _ =>
      if bool_decide (spec.(ArtifactBuild.SourceType) = "docker-image") then build_image spec run
      else
        let buildctl := if bool_decide (s.(Executor.Buildctl) = "") then "buildctl" else s.(Executor.Buildctl) in
        let outputPath := path_Join [s.(Executor.ArtifactStoreRoot); "outputs"; run.(BuildRun.ID) +:+ ".oci.tar"] in
        let! (logs, err) := RunCommand buildctl
          ["build"; "--frontend=dockerfile.v0"; "--local"; "context=" +:+ contextPath;
           "--local"; "dockerfile=" +:+ contextPath; "--opt"; "filename=" +:+ spec.(ArtifactBuild.RecipePath);
           "--opt"; "platform=" +:+ spec.(ArtifactBuild.TargetOS) +:+ "/" +:+ spec.(ArtifactBuild.TargetArchitecture);
           "--output"; "type=oci,dest=" +:+ outputPath] in
        match err with
        | Some e => eret (Err e, logs)
        | None => convert_sif spec run outputPath logs
        end
    end.

(** What a build publishes. *)
Definition output_variant (spec : ArtifactBuild) (run : BuildRun) (content : string) : ArtifactVariant :=
  {| ArtifactVariant.ID := "variant-" +:+ run.(BuildRun.ID); ArtifactVariant.ArtifactID := "";
     ArtifactVariant.Digest := "sha256:" +:+ sha256_hex content;
     ArtifactVariant.Format := if bool_decide (spec.(ArtifactBuild.TargetFormat) = "") then "oci"
                               else spec.(ArtifactBuild.TargetFormat);
     ArtifactVariant.Architecture := spec.(ArtifactBuild.TargetArchitecture);
     ArtifactVariant.SizeBytes := Z.of_nat (str_length content) |}.
Definition output_location (run : BuildRun) (variant : ArtifactVariant) (outputPath : string) : ArtifactLocation :=
  {| ArtifactLocation.ID := "location-" +:+ run.(BuildRun.ID);
     ArtifactLocation.VariantID := variant.(ArtifactVariant.ID);
     ArtifactLocation.Scope := CatalogScopeSystem; ArtifactLocation.ScopeID := "";
     ArtifactLocation.EndpointID := "artifact-store";
     ArtifactLocation.URI := "artifact://outputs/" +:+ path_Base outputPath;
     ArtifactLocation.Digest := variant.(ArtifactVariant.Digest); ArtifactLocation.Available := true |}.

(** [publish] *)
Definition publish (spec : ArtifactBuild) (run : BuildRun) (outputPath : string)
    : eff W (BuildRun * option error) :=
  let! file := OpenFile outputPath in
  match match file with
        | Err e => Err e
        | Ok file => match file.(read_error) with Some e => Err e | None => Ok file.(bytes) end
        end with
  | Err e => fail run (errorf "read build output: %v" [e])
  | Ok content =>
    let variant := output_variant spec run content in
    let run := run <| BuildRun.Status := "publishing" |> in
    let! _ := save run in
    if negb s.(Executor.has_catalog) then fail run "build catalog is not configured"
    else
      let! published := PublishBuildOutput run.(BuildRun.ID) variant (output_location run variant outputPath) in
      match published with
      | Err e => fail run e
      | Ok _ =>
        let run := run <| BuildRun.Status := "completed" |>
                       <| BuildRun.OutputVariantID := variant.(ArtifactVariant.ID) |>
                       <| BuildRun.OutputDigest := variant.(ArtifactVariant.Digest) |> in
        let! saved := save run in
        eret (run, match saved with Err e => Some e | Ok _ => None end)
      end
  end.

(** The context of a build, or the message it fails with. *)
Definition build_context (spec : ArtifactBuild) : effr W string :=
  if bool_decide (spec.(ArtifactBuild.SourceType) = "docker-image") then eret (Ok "")
  else
    let! resolved := contexts spec.(ArtifactBuild.ContextDigest) in
    eret (match resolved with
          | Err e => Err (errorf "resolve immutable build context: %v" [e])
          | Ok contextPath =>
            if bool_decide (trim_space contextPath = "") then Err "build context is unavailable"
            else Ok contextPath
          end).

(** [Execute] *)
Definition Execute (spec : ArtifactBuild) (run : BuildRun) : eff W (BuildRun * option error) :=
  if negb s.(Executor.has_runner) ||
     negb (bool_decide (spec.(ArtifactBuild.SourceType) = "docker-image")) && negb s.(Executor.has_contexts)
  then fail run "builder is not configured"
  else
    let! contextPath := build_context spec in
    match contextPath with
    | Err message => fail run message
    | Ok contextPath =>
      let run := run <| BuildRun.Status := "running" |> in
      let! _ := save run in
      let! (outputPath, logs) := buildOutput spec run contextPath in
      let run := run <| BuildRun.Logs := run.(BuildRun.Logs) +:+ logs |> in
      match outputPath with
      | Err e => fail run e
      | Ok outputPath => publish spec run outputPath
      end
    end.
End executor.

(** ** The resolver of build outputs *)
(** [normalizedArchitecture] *)
Definition normalizedArchitecture (value : string) : string :=
  let v := to_lower (trim_space value) in
  if bool_decide (v = "x86_64") || bool_decide (v = "x64") then "amd64"
  else if bool_decide (v = "aarch64") then "arm64"
  else value.

(** [preparationForOutput]; [None] when [variant.Digest[7:]] panics. *)
Definition preparationForOutput (variant : ArtifactVariant) (location : ArtifactLocation)
    (activityID : string) (resource : Resource) (destination : string) : option PreparationRequirement :=
  let digest := variant.(ArtifactVariant.Digest) in
  let prepare destination :=
    let id := "materialization-" +:+ activityID +:+ "-" +:+ variant.(ArtifactVariant.ID) in
    {| PreparationRequirement.Artifact := Some
         {| ArtifactMaterialization.ID := id; ArtifactMaterialization.RunID := "";
            ArtifactMaterialization.ActivityID := activityID;
            ArtifactMaterialization.VariantID := variant.(ArtifactVariant.ID);
            ArtifactMaterialization.Digest := digest;
            ArtifactMaterialization.ResourceID := resource.(Resource.ID);
            ArtifactMaterialization.EnvironmentID := resource.(Resource.EnvironmentVersionID);
            ArtifactMaterialization.DestinationPath := destination;
            ArtifactMaterialization.Status := MaterializationPlanned;
            ArtifactMaterialization.VerifiedDigest := "" |};
       PreparationRequirement.ArtifactTransfer := Some
         {| DataTransferPlan.ID := "transfer-" +:+ id; DataTransferPlan.Strategy := TransferSourcePush;
            DataTransferPlan.Source := (zero : TransferLocation)
              <| TransferLocation.URI := location.(ArtifactLocation.URI) |>;
            DataTransferPlan.Destination :=
              {| TransferLocation.ResourceID := resource.(Resource.ID);
                 TransferLocation.EnvironmentID := resource.(Resource.EnvironmentVersionID);
                 TransferLocation.URI := "file://" +:+ destination; TransferLocation.Path := destination |};
            DataTransferPlan.Blobs :=
              [{| BlobDescriptor.Digest := digest;
                  BlobDescriptor.SizeBytes := variant.(ArtifactVariant.SizeBytes) |}];
            DataTransferPlan.Chunks := []; DataTransferPlan.ResumeFrom := [] |};
       PreparationRequirement.Workspace := None; PreparationRequirement.WorkspaceTransfer := None |} in
  if bool_decide (destination = "") then
    if Nat.ltb (str_length digest) 7 then None
    else Some (prepare (path_Join [".akoflow"; "artifacts";
                                   drop_str 7 digest +:+ "." +:+ variant.(ArtifactVariant.Format)]))
  else Some (prepare destination).

Section resolver.
Context `{BuildOutputs W} (has_catalog : bool).

(** [Preparation] *)
Definition Preparation (buildID activityID : string) (resource : Resource) (destination : string)
    : sup W PreparationRequirement :=
  if negb has_catalog then serr (errorf "build output catalog is unavailable" [])
  else
    let* (variant, location) := sup_lift (FindBuildOutput buildID) in
    match variant, location with
    | Some variant, Some location =>
      match preparationForOutput variant location activityID resource destination with
      | None => spanic
      | Some p => sret p
      end
    | _, _ => serr (errorf "build %q has no completed output" [buildID])
    end.

(** [PreparationForDockerImage]; [None] when there is no such build. *)
Definition PreparationForDockerImage (image activityID : string) (resource : Resource) (destination : string)
    : sup W (option PreparationRequirement) :=
  if negb has_catalog then serr (errorf "build output catalog is unavailable" [])
  else
    let* (_, variant, location) :=
      sup_lift (FindDockerBuildOutput image (normalizedArchitecture resource.(Resource.Architecture))) in
    match variant, location with
    | Some variant, Some location =>
      match preparationForOutput variant location activityID resource destination with
      | None => spanic
      | Some p => sret (Some p)
      end
    | _, _ => sret None
    end.
End resolver.

(** ** Uploads *)
Lemma take_short n s : (str_length s ≤ n)%nat → take_str n s = s.
Proof.
  revert s. induction n as [|n IH]; intros [|c s] Hn; cbn in *; try done; [lia|]. by rewrite IH by lia.
Qed.
Lemma take_length n s : (n ≤ str_length s)%nat → str_length (take_str n s) = n.
Proof. revert s. induction n as [|n IH]; intros [|c s] Hn; cbn in *; try done; [lia|]. by rewrite IH by lia. Qed.

Section uploads.
Context `{OS W, BuildFiles W, Archives, Sha256, BuildCatalog W, FreshIDs W}.

Lemma receive_upload_ok tmp limit input w taken w' :
  receive_upload tmp limit input w = ((taken, None, None), w') →
  taken = take_str (Z.to_nat (limit + 1)) input.(bytes) ∧
  (Z.of_nat (str_length input.(bytes)) ≤ limit → input.(read_error) = None).
Proof.
  unfold receive_upload, write_temporary. intros ([ce cl] & w1 & Hw & [= <- -> -> ->])%ebind_ok.
  apply ebind_ok in Hw as (wr & w2 & _ & Hw). apply ebind_ok in Hw as (c & w3 & _ & Hw).
  injection Hw as Hce _ _. split; [done|]. intros Hle. destruct wr; [|done].
  cbn [read_error] in Hce. by rewrite (proj2 (Z.leb_le _ _) Hle) in Hce.
Qed.

Lemma firstError_none a b : firstError [a; b] = None → a = None ∧ b = None.
Proof. by destruct a, b. Qed.

Lemma MaxUploadBytes_pos m : 0 < MaxUploadBytes m.
Proof. unfold MaxUploadBytes. destruct (Z.ltb_spec 0 m.(Manager.MaxBytes)); lia. Qed.

End uploads.

(** ** The calls of the manager, with their results *)
Inductive store_call :=
| SMkdir (p : string) (r : result unit)
| SCreate (p : string) (r : result unit)
| SWrite (p content : string) (r : result unit)
| SClose (p : string) (r : result unit)
| SRename (from to : string) (r : result unit)
| SRemove (p : string) (r : result unit)
| SRemoveAll (p : string) (r : result unit)
| SOpen (p : string) (r : result Reader)
| SStat (p : string) (r : result unit)
| STemp (dir : string) (r : result string)
| SFindContext (digest : string) (r : result (option BuildContextArtifact))
| SSaveContext (v : BuildContextArtifact) (r : result unit).
#[global] Instance store_os `{OS W} : OS (Recorded W store_call) := {|
  Getwd := Getwd; EvalSymlinks p := unlogged (EvalSymlinks p); Lstat p := unlogged (Lstat p);
  IsNotExist := IsNotExist; ReadDir p := unlogged (ReadDir p); Readlink p := unlogged (Readlink p);
  OpenFile p := logged (OpenFile p) (SOpen p); MkdirAll p := logged (MkdirAll p) (SMkdir p);
  Create p := logged (Create p) (SCreate p); WriteBytes p b := logged (WriteBytes p b) (SWrite p b);
  Close p := logged (Close p) (SClose p); Rename a b := logged (Rename a b) (SRename a b);
  RemoveFile p := logged (RemoveFile p) (SRemove p)
|}.
#[global] Instance store_files `{BuildFiles W} : BuildFiles (Recorded W store_call) := {|
  StatFile p := logged (StatFile p) (SStat p); CreateTemp p := logged (CreateTemp p) (STemp p);
  RemoveAll p := logged (RemoveAll p) (SRemoveAll p)
|}.
#[global] Instance store_catalog `{BuildCatalog W} : BuildCatalog (Recorded W store_call) := {|
  SaveBuildRun run := unlogged (SaveBuildRun run);
  SaveBuildContext v := logged (SaveBuildContext v) (SSaveContext v);
  FindBuildContext d := logged (FindBuildContext d) (SFindContext d);
  PublishBuildOutput id v loc := unlogged (PublishBuildOutput id v loc)
|}.

(** The entries of a context: neither links nor named by an absolute path, and walking
    along the elements of the name never leaves the directory it starts from. *)
Fixpoint stays (depth : nat) (elems : list string) : bool :=
  match elems with
  | [] => true
  | e :: rest =>
    if bool_decide (e = "") || bool_decide (e = ".") then stays depth rest
    else if bool_decide (e = "..") then match depth with O => false | S depth => stays depth rest end
    else stays (S depth) rest
  end.
Definition entry_inside (h : TarHeader) : Prop :=
  h.(tar_link) = false ∧ h.(tar_name) ≠ "" ∧ (∀ rest, h.(tar_name) ≠ "/" +:+ rest) ∧
  stays 0 (split_byte slash h.(tar_name)) = true.

Lemma stays_clean es kept : Forall (λ x, x ≠ "..") kept →
  stays (length kept) es = true ↔ Forall (λ x, x ≠ "..") (foldl (clean_step false) kept es).
Proof.
  revert kept. induction es as [|e es IH]; intros kept Hk; [done|]. cbn [stays foldl].
  unfold clean_step at 2. destruct (_ || _); [by apply IH|]. case_bool_decide as He.
  - destruct kept as [|top rest]; cbn [length].
    + split; [done|]. intros Hf. pose proof (climbed_stays es [".."] eq_refl) as Hc.
      apply last_Some_elem_of in Hc. rewrite Forall_forall in Hf. by destruct (Hf _ Hc).
    + apply Forall_cons in Hk as [Ht Hk]. rewrite bool_decide_false by done. by apply IH.
  - apply (IH (e :: kept)). by constructor.
Qed.
Lemma names_do_not_climb ns : Forall normal ns →
  join_byte slash ns ≠ ".." ∧ has_prefix "../" (join_byte slash ns) = false.
Proof.
  intros Hn. destruct ns as [|x ns]; [done|].
  assert (∀ t, split_byte slash (join_byte slash (x :: ns)) ≠ ".." :: t) as Hs.
  { intros t. rewrite split_join_byte; [|done|by apply normal_free]. intros [= -> _].
    apply Forall_cons in Hn as [(_ & _ & ? & _) _]. done. }
  split.
  - intros E. rewrite E in Hs. by apply (Hs []).
  - apply not_true_is_false. intros [t E]%has_prefix_spec. rewrite E in Hs.
    by apply (Hs (split_byte slash t)).
Qed.
Lemma safe_exactly name : safeArchivePath name = true ↔
  name ≠ "" ∧ (∀ rest, name ≠ "/" +:+ rest) ∧ stays 0 (split_byte slash name) = true.
Proof.
  unfold safeArchivePath. rewrite !andb_true_iff, !negb_true_iff, !bool_decide_eq_false.
  destruct (decide (name = "")) as [->|Hne]; [naive_solver|].
  destruct (rooted name) eqn:Hr.
  { apply has_prefix_spec in Hr as Hr'. naive_solver. }
  assert (∀ rest, name ≠ "/" +:+ rest) as Habs.
  { by intros rest ->. }
  rewrite (stays_clean _ [] (Forall_nil_2 _)).
  destruct (clean_elems_shape name) as (k & ns & He & Hn & _).
  assert (foldl (clean_step false) [] (split_byte slash name) = rev (repeat ".." k ++ ns)) as ->.
  { unfold clean_elems in He. rewrite Hr in He. by rewrite <- He, rev_involutive. }
  unfold path_Clean. rewrite bool_decide_false by done. rewrite Hr, He. destruct k as [|k].
  - cbn [repeat app]. destruct (names_do_not_climb ns Hn) as [H1 H2].
    assert (Forall (λ x, x ≠ "..") (rev ns)) as Hf.
    { apply Forall_rev. eapply Forall_impl; [exact Hn|]. by intros x (_ & _ & ? & _). }
    case_bool_decide; naive_solver.
  - split; [|intros (_ & _ & Hf); exfalso; apply Forall_rev in Hf;
      rewrite rev_involutive in Hf; by apply Forall_cons in Hf as [Hf _]].
    cbn [repeat app]. destruct (repeat ".." k ++ ns) as [|y t]; cbn [join_byte].
    + rewrite bool_decide_false by done. naive_solver.
    + rewrite bool_decide_false by done. naive_solver.
Qed.
Lemma unsafe_exactly h : unsafe_entry h = false ↔ entry_inside h.
Proof.
  unfold unsafe_entry, entry_inside. rewrite orb_false_iff, negb_false_iff, safe_exactly. naive_solver.
Qed.
Lemma valid_entries_ok entries stop : valid_entries entries stop = Ok tt →
  stop = None ∧ Forall entry_inside entries.
Proof.
  induction entries as [|h rest IH]; cbn [valid_entries]; [by destruct stop|].
  destruct (unsafe_entry h) eqn:Eu; [done|]. apply unsafe_exactly in Eu. intros []%IH. by auto.
Qed.

Lemma ebindr_logged {W C A B} (m : effr W A) (f : result A → C) (k : A → effr (Recorded W C) B) w l r :
  ebindr (logged m f) k (w, l) = r →
  match m w with
  | (Ok a, w1) => k a (w1, l ++ [f (Ok a)]) = r
  | (Err e, w1) => (Err e, (w1, l ++ [f (Err e)])) = r
  end.
Proof. unfold ebindr, logged. by destruct (m w) as [[a|e] w1]. Qed.
Lemma ebind_logged {W C A B} (m : eff W A) (f : A → C) (k : A → eff (Recorded W C) B) w l r :
  ebind (logged m f) k (w, l) = r → let '(a, w1) := m w in k a (w1, l ++ [f a]) = r.
Proof. unfold ebind, logged. by destruct (m w) as [a w1]. Qed.
Lemma write_calls `{OS W} tmp source (w : W) l ce cl w' l' :
  write_temporary (W := Recorded W store_call) tmp source (w, l) = ((ce, cl), (w', l')) →
  ∃ written closed, l' = l ++ [SWrite tmp source.(bytes) written; SClose tmp closed] ∧
    ce = match written with Err e => Some e | Ok _ => source.(read_error) end ∧
    cl = match closed with Err e => Some e | Ok _ => None end.
Proof.
  unfold write_temporary. intros E%ebind_logged.
  destruct (WriteBytes tmp source.(bytes) w) as [written w1]. apply ebind_logged in E.
  destruct (Close tmp w1) as [closed w2]. injection E as <- <- <- <-. exists written, closed.
  by rewrite <- app_assoc.
Qed.

Section upload.
Context `{OS W, BuildFiles W, Archives, Sha256, BuildCatalog W, FreshIDs W}.
Abbreviation RW := (Recorded W store_call).

(** What an accepted upload asked of the catalog: it already knows the digest, or the
    context was saved. *)
Definition catalogued (v : BuildContextArtifact) (k : list store_call) : Prop :=
  let digest := v.(BuildContextArtifact.Digest) in
  (∃ old, k = [SFindContext digest (Ok (Some old))]) ∨
  k = [SFindContext digest (Ok None); SSaveContext v (Ok tt)].
(** What it asked of the store, once the input was copied to [tmp]: the archive there was
    read to its end and has only safe entries, and the file was moved to its place, where
    there may already be one. *)
Definition stored (tmp final : string) (k : list store_call) : Prop :=
  ∃ file entries, untar file = Ok (entries, None) ∧ Forall entry_inside entries ∧
    ((∃ known, (∀ e, known = Err e → IsNotExist e = false) ∧ k = [SOpen tmp (Ok file); SStat final known]) ∨
     ∃ e, k = [SOpen tmp (Ok file); SStat final (Err e); SRename tmp final (Ok tt)]).

Lemma validGzipTar_calls tmp (w : W) l w' l' :
  validGzipTar (W := RW) tmp (w, l) = (Ok tt, (w', l')) →
  ∃ file entries, untar file = Ok (entries, None) ∧ Forall entry_inside entries ∧ l' = l ++ [SOpen tmp (Ok file)].
Proof.
  unfold validGzipTar. intros E%ebindr_logged. destruct (OpenFile tmp w) as [[file|e] w1]; [|done].
  injection E as E _ <-. destruct (untar file) as [[entries stop]|e] eqn:Eu; [|done].
  apply valid_entries_ok in E as [-> Hf]. by exists file, entries.
Qed.
Lemma catalog_calls m v (w : W) l r w' l' :
  (if m.(Manager.has_catalog) then
     let? old := FindBuildContext v.(BuildContextArtifact.Digest) in
     match old with Some _ => eret (Ok v) | None => let? _ := SaveBuildContext v in eret (Ok v) end
   else eret (Ok v) : effr RW BuildContextArtifact) (w, l) = (Ok r, (w', l')) →
  r = v ∧ ∃ k, l' = l ++ k ∧ if m.(Manager.has_catalog) then catalogued v k else k = [].
Proof.
  unfold catalogued. destruct m.(Manager.has_catalog).
  - intros E%ebindr_logged. destruct (FindBuildContext _ w) as [[[old|]|e] w1]; [| |done].
    + injection E as <- _ <-. split; [done|]. eexists. split; [done|]. left. by eexists.
    + apply ebindr_logged in E. destruct (SaveBuildContext v w1) as [[[]|e] w2]; [|done].
      injection E as <- _ <-. split; [done|]. eexists. rewrite <- app_assoc. split; [done|]. by right.
  - intros [= <- _ <-]. split; [done|]. exists []. by rewrite app_nil_r.
Qed.
Lemma store_upload_calls m limit tmp input (w : W) l v w' l' : 0 < limit →
  store_upload (W := RW) m limit tmp input (w, l) = (Ok v, (w', l')) →
  let n := Z.of_nat (str_length input.(bytes)) in
  let hex := sha256_hex input.(bytes) in
  1 ≤ n ≤ limit ∧ input.(read_error) = None ∧
  v.(BuildContextArtifact.Digest) = "sha256:" +:+ hex ∧
  v.(BuildContextArtifact.StorageURI) = "artifact://contexts/" +:+ hex ∧
  v.(BuildContextArtifact.SizeBytes) = n ∧
  ∃ k1 k2, l' = l ++ [SWrite tmp input.(bytes) (Ok tt); SClose tmp (Ok tt)] ++ k1 ++ k2 ∧
    stored tmp (context_path m hex) k1 ∧ if m.(Manager.has_catalog) then catalogued v k2 else k2 = [].
Proof.
  intros Hlim. unfold store_upload. intros ([[taken ce] cl] & [w1 l1] & Hr & Hk)%ebind_ok.
  pose proof Hr as Hcopy. unfold receive_upload in Hcopy.
  apply ebind_ok in Hcopy as ([ce' cl'] & [w1' l1'] & Hw & [= Ht <- <- <- <-]).
  apply write_calls in Hw as (written & closed & -> & Hce & Hcl). cbn [bytes read_error] in *.
  cbv zeta in Hk. destruct (firstError [ce'; cl']) eqn:Ef; [done|].
  apply firstError_none in Ef as [-> ->]. apply receive_upload_ok in Hr as [-> Herr].
  destruct ((_ =? 0) || _) eqn:En; [done|]. apply orb_false_iff in En as [En1 En2].
  apply Z.eqb_neq in En1. apply Z.ltb_ge in En2.
  assert (Z.of_nat (str_length input.(bytes)) ≤ limit) as Hle.
  { destruct (Z.le_gt_cases (Z.of_nat (str_length input.(bytes))) limit) as [|Hgt]; [done|].
    rewrite take_length in En2 by lia. lia. }
  rewrite take_short in * by lia. cbv zeta. split; [lia|]. split; [by apply Herr|].
  destruct written as [[]|]; [|done]. destruct closed as [[]|]; [|done].
  apply ebindr_ok in Hk as ([] & [w2 l2] & Hv & Hk).
  apply validGzipTar_calls in Hv as (file & entries & Hu & Hin & ->).
  apply ebind_logged in Hk. set (final := context_path _ _) in *.
  destruct (StatFile final w2) as [known w3].
  apply ebindr_ok in Hk as ([] & [w4 l4] & Hren & Hk).
  assert (∃ k, l4 = l ++ [SWrite tmp input.(bytes) (Ok tt); SClose tmp (Ok tt)] ++ k ∧ stored tmp final k)
    as (k1 & -> & Hst).
  { rewrite <- !app_assoc in Hren. cbn [app] in Hren. cbn [app]. destruct known as [[]|e].
    - injection Hren as _ <-. eexists. split; [done|]. exists file, entries. split_and!; [done..|].
      left. by exists (Ok tt).
    - destruct (IsNotExist e) eqn:Ee.
      + cbn [Rename store_os] in Hren. rewrite logged_eq in Hren. injection Hren as Hr _ <-.
        rewrite Hr, <- app_assoc. eexists. split; [done|]. exists file, entries. split_and!; [done..|].
        right. by exists e.
      + injection Hren as _ <-. eexists. split; [done|]. exists file, entries. split_and!; [done..|].
        left. exists (Err e). split; [by intros ? [= <-]|done]. }
  match type of Hk with context [FindBuildContext ?d] => set (digest := d) in * end.
  match type of Hk with context [Ok ?x] => set (artifact := x) in * end.
  destruct (catalog_calls m artifact w4 _ v w' l' Hk) as (-> & k2 & -> & Hc).
  split_and!; [done..|]. exists k1, k2. by rewrite <- !app_assoc.
Qed.

End upload.

(** ** Extraction *)
Lemma below_weaken l x p : below (l ++ [x]) p → below l p.
Proof. intros (ns & -> & Hn). exists (x :: ns). by rewrite <- app_assoc in Hn |- *. Qed.
Lemma below_parent l x p : Forall normal (l ++ [x]) → below (l ++ [x]) p → below l (path_Dir p).
Proof.
  intros Hl (ns & -> & Hn). destruct ns as [|y ns _] using rev_ind.
  - exists []. rewrite !app_nil_r in *. rewrite Dir_abs_snoc by done.
    apply Forall_app in Hl as [? _]. done.
  - exists (x :: ns). rewrite app_assoc in Hn |- *. rewrite Dir_abs_snoc by done.
    apply Forall_app in Hn as [Hn _]. by rewrite <- app_assoc in Hn |- *.
Qed.
Lemma safe_entry_below l name : Forall normal l → safeArchivePath name = true →
  below l (path_Join [abs_path l; name]).
Proof.
  unfold safeArchivePath. intros Hl [[[Hn Hr]%andb_true_iff Hd]%andb_true_iff Hc]%andb_true_iff.
  apply negb_true_iff in Hn, Hr, Hd, Hc. apply bool_decide_eq_false in Hn, Hd.
  destruct (Join_relative l name Hl Hn Hr Hd Hc) as (ns & -> & Hns). exists ns. split; [done|].
  by apply Forall_app.
Qed.


(** Where a call of the extraction acts: directories are made below [base], everything
    else is created, written or removed below [dir]. *)
Definition extraction_call (base dir : list string) (c : store_call) : Prop :=
  match c with
  | SMkdir p _ => below base p
  | SCreate p _ | SWrite p _ _ | SClose p _ | SRemove p _ | SRemoveAll p _ => below dir p
  | SRename from to _ => below dir from ∧ below dir to
  | SOpen _ _ | SStat _ _ | SFindContext _ _ => True
  | STemp _ _ | SSaveContext _ _ => False
  end.
(** A call that stops the extraction. *)
Definition stopped (c : store_call) : Prop :=
  match c with
  | SMkdir _ (Err _) | SCreate _ (Err _) | SWrite _ _ (Err _) | SClose _ (Err _) | SOpen _ (Err _) => True
  | _ => False
  end.
(** An entry was extracted: its directory was made, or its content written. *)
Definition entry_extracted (dir : string) (h : TarHeader) (k : list store_call) : Prop :=
  let target := path_Join [dir; h.(tar_name)] in
  if h.(tar_dir) then SMkdir target (Ok tt) ∈ k
  else h.(tar_body).(read_error) = None ∧ SCreate target (Ok tt) ∈ k ∧
       SWrite target h.(tar_body).(bytes) (Ok tt) ∈ k ∧ SClose target (Ok tt) ∈ k.
(** How the extraction of an archive ends. *)
Definition extraction_end (dir : string) (entries : list TarHeader) (stop : option error)
    (r : result unit) (k : list store_call) : Prop :=
  match r with
  | Ok _ => stop = None ∧ Forall entry_inside entries ∧ Forall (λ h, entry_extracted dir h k) entries
  | Err _ => Exists stopped k ∨ (∃ h, h ∈ entries ∧ h.(tar_body).(read_error) ≠ None) ∨
      ((∃ h, h ∈ entries ∧ ¬ entry_inside h) ∨ stop ≠ None) ∧ ∃ removed, last k = Some (SRemoveAll dir removed)
  end.
Lemma entry_extracted_more dir h k k' : k ⊆ k' → entry_extracted dir h k → entry_extracted dir h k'.
Proof. unfold entry_extracted. cbv zeta. intros Hk. destruct h.(tar_dir); set_solver. Qed.

Section extraction.
Context `{OS W, BuildFiles W, Archives}.
Abbreviation RW := (Recorded W store_call).

Lemma extract_file_calls target body (w : W) l r w' l' :
  extract_file (W := RW) target body (w, l) = (r, (w', l')) →
  ∃ k, l' = l ++ k ∧
    match r with
    | Ok _ => body.(read_error) = None ∧ SCreate target (Ok tt) ∈ k ∧
        SWrite target body.(bytes) (Ok tt) ∈ k ∧ SClose target (Ok tt) ∈ k
    | Err _ => Exists stopped k ∨ body.(read_error) ≠ None
    end.
Proof.
  unfold extract_file. intros E%ebindr_logged. destruct (MkdirAll _ w) as [[[]|e] w1].
  2: { injection E as <- _ <-. eexists. split; [done|]. left. by apply Exists_cons_hd. }
  apply ebindr_logged in E. destruct (Create target w1) as [[[]|e] w2].
  2: { injection E as <- _ <-. eexists. rewrite <- app_assoc. split; [done|]. left.
       by apply Exists_cons_tl, Exists_cons_hd. }
  apply ebind_ok in E as ([ce cl] & [w3 l3] & Hw & [= <- <- <-]).
  apply write_calls in Hw as (written & closed & -> & -> & ->). rewrite <- !app_assoc. eexists.
  split; [done|]. destruct written as [[]|e]; cbn [firstError List.fold_right].
  2: { left. by do 2 apply Exists_cons_tl; apply Exists_cons_hd. }
  destruct body.(read_error) eqn:Eb; [by right|]. destruct closed as [[]|e].
  - split_and!; [done|set_solver..].
  - left. by do 3 apply Exists_cons_tl; apply Exists_cons_hd.
Qed.
Lemma extract_calls dir entries stop (w : W) l r w' l' :
  extract (W := RW) dir entries stop (w, l) = (r, (w', l')) →
  ∃ k, l' = l ++ k ∧ extraction_end dir entries stop r k.
Proof.
  revert w l. induction entries as [|h rest IH]; intros w l; cbn [extract].
  - destruct stop as [e|].
    + intros E%ebind_logged. destruct (RemoveAll dir w) as [removed w1]. injection E as <- _ <-.
      eexists. split; [done|]. right. right. split; [by right|]. by exists removed.
    + intros [= <- _ <-]. exists []. by rewrite app_nil_r.
  - destruct (unsafe_entry h) eqn:Eu.
    { intros E%ebind_logged. destruct (RemoveAll dir w) as [removed w1]. injection E as <- _ <-.
      eexists. split; [done|]. right. right. split; [|by exists removed]. left. exists h.
      split; [by left|]. intros Hi%unsafe_exactly. congruence. }
    apply unsafe_exactly in Eu.
    set (step := if h.(tar_dir) then _ else _). intros E.
    assert (∀ r1 w1 l1, step (w, l) = (r1, (w1, l1)) → ∃ k, l1 = l ++ k ∧
      match r1 with Ok _ => entry_extracted dir h k
                  | Err _ => Exists stopped k ∨ h.(tar_body).(read_error) ≠ None end) as Hstep.
    { subst step. intros r1 w1 l1. unfold entry_extracted. destruct h.(tar_dir).
      - cbn [MkdirAll store_os]. rewrite logged_eq. intros [= <- _ <-]. eexists. split; [done|].
        destruct ((MkdirAll _ w).1) as [[]|e]; [by left|left; by apply Exists_cons_hd].
      - apply extract_file_calls. }
    unfold ebindr in E. destruct (step (w, l)) as [[[]|e] [w1 l1]].
    + destruct (Hstep _ _ _ eq_refl) as (k1 & -> & He). destruct (IH _ _ E) as (k2 & -> & Hend).
      exists (k1 ++ k2). rewrite app_assoc. split; [done|]. unfold extraction_end in *. destruct r as [[]|e].
      * destruct Hend as (-> & Hin & Hex). split_and!; [done|by constructor|].
        constructor; [by eapply entry_extracted_more, He; set_solver|].
        eapply Forall_impl; [exact Hex|]. intros h'. apply entry_extracted_more. set_solver.
      * destruct Hend as [Hs|[(h' & ? & ?)|[Hbad (removed & Hl)]]].
        -- left. apply Exists_app. by right.
        -- right. left. exists h'. split; [by right|done].
        -- right. right. split; [|exists removed; by rewrite last_app, Hl].
           destruct Hbad as [(h' & ? & ?)|?]; [left; exists h'; split; [by right|done]|by right].
    + injection E as <- <- <-. destruct (Hstep _ _ _ eq_refl) as (k1 & -> & [Hs|Hb]).
      * exists k1. split; [done|]. by left.
      * exists k1. split; [done|]. right. left. exists h. split; [by left|done].
Qed.

Context (l : list string) (x : string) (Hl : Forall normal (l ++ [x])).
Notation P := (extraction_call l (l ++ [x])).
Lemma extract_file_confined target body : below (l ++ [x]) target →
  appends P (extract_file (W := RW) target body).
Proof.
  intros Ht. unfold extract_file.
  apply appends_bindr; [apply appends_logged; intros r; by eapply below_parent|]. intros _.
  apply appends_bindr; [by apply appends_logged|]. intros _.
  apply appends_bind.
  - unfold write_temporary. apply appends_bind; [by apply appends_logged|]. intros r.
    apply appends_bind; [by apply appends_logged|]. intros c. apply appends_ret.
  - intros [ce cl]. apply appends_ret.
Qed.
Lemma extract_confined entries stop :
  appends P (extract (W := RW) (abs_path (l ++ [x])) entries stop).
Proof.
  assert (below (l ++ [x]) (abs_path (l ++ [x]))) as Hdir by (exists []; by rewrite !app_nil_r).
  induction entries as [|h rest IH]; cbn [extract].
  - destruct stop; [|apply appends_ret].
    apply appends_bind; [by apply appends_logged|]. intros _. apply appends_ret.
  - destruct (unsafe_entry h) eqn:Eu.
    + apply appends_bind; [by apply appends_logged|]. intros _. apply appends_ret.
    + apply orb_false_iff in Eu as [Es _]. apply negb_false_iff in Es.
      pose proof (safe_entry_below _ _ Hl Es) as Ht.
      apply appends_bindr; [|by intros _].
      destruct h.(tar_dir); [|by apply extract_file_confined].
      apply appends_logged. intros r. by eapply below_weaken.
Qed.
End extraction.

Lemma workspace_normal l hex : Forall normal l → normal hex →
  Forall normal ((l ++ ["workspaces"]) ++ [hex]).
Proof.
  intros Hl Hx. rewrite !Forall_app, !Forall_singleton. split_and!; [done| |done]. by split_and!.
Qed.
Lemma workspace_path m l hex : m.(Manager.Root) = abs_path l → Forall normal l → normal hex →
  path_Join [m.(Manager.Root); "workspaces"; hex] = abs_path ((l ++ ["workspaces"]) ++ [hex]).
Proof.
  intros Hm Hl Hx. rewrite Hm, <- app_assoc.
  etrans; [|apply (Join_abs l ["workspaces"; hex]); [done| |done]]; [done|].
  apply Forall_cons_2; [by split_and!|]. by apply Forall_singleton.
Qed.

Section resolution.
Context `{OS W, BuildFiles W, Archives, Sha256, BuildCatalog W, FreshIDs W}.
Abbreviation RW := (Recorded W store_call).

Lemma resolve_confined m l hex : m.(Manager.Root) = abs_path l → Forall normal l → normal hex →
  appends (extraction_call (l ++ ["workspaces"]) ((l ++ ["workspaces"]) ++ [hex]))
    (ResolveBuildContext (W := RW) m ("sha256:" +:+ hex)).
Proof.
  intros Hm Hl Hx. unfold ResolveBuildContext. destruct (_ || _); [apply appends_ret|].
  rewrite trim_prefix_app. apply appends_bind; [by apply appends_logged|]. intros [[]|e]; [|apply appends_ret].
  rewrite (workspace_path m l hex) by done.
  assert (Forall normal ((l ++ ["workspaces"]) ++ [hex])) as Hall by by apply workspace_normal.
  apply appends_bind; [by apply appends_logged|]. intros [[]|missing]; [apply appends_ret|].
  apply appends_bindr.
  { apply appends_logged. intros r. eapply below_weaken. exists []. by rewrite !app_nil_r. }
  intros _. apply appends_bindr; [by apply appends_logged|]. intros file.
  destruct (untar file) as [[entries stop]|bad]; [|apply appends_ret].
  apply appends_bindr; [by apply extract_confined|]. intros _. apply appends_ret.
Qed.

End resolution.

(** ** Every build is settled *)
(** The changes a build makes to the catalog. *)
Inductive catalog_call :=
| CSaveRun (run : BuildRun)
| CPublish (runID : string) (variant : ArtifactVariant) (location : ArtifactLocation) (r : result unit).
#[global] Instance recorded_catalog `{BuildCatalog W} : BuildCatalog (Recorded W catalog_call) := {|
  SaveBuildRun run := logged (SaveBuildRun run) (λ _, CSaveRun run);
  SaveBuildContext v := unlogged (SaveBuildContext v);
  FindBuildContext d := unlogged (FindBuildContext d);
  PublishBuildOutput id v loc := logged (PublishBuildOutput id v loc) (CPublish id v loc)
|}.
#[global] Instance recorded_runner `{CommandRunner W} : CommandRunner (Recorded W catalog_call) :=
  λ name args, unlogged (RunCommand name args).
#[global] Instance build_os `{OS W} : OS (Recorded W catalog_call) := {|
  Getwd := Getwd; EvalSymlinks p := unlogged (EvalSymlinks p); Lstat p := unlogged (Lstat p);
  IsNotExist := IsNotExist; ReadDir p := unlogged (ReadDir p); Readlink p := unlogged (Readlink p);
  OpenFile p := unlogged (OpenFile p); MkdirAll p := unlogged (MkdirAll p);
  Create p := unlogged (Create p); WriteBytes p b := unlogged (WriteBytes p b);
  Close p := unlogged (Close p); Rename a b := unlogged (Rename a b);
  RemoveFile p := unlogged (RemoveFile p)
|}.

Definition is_save (c : catalog_call) : Prop := match c with CSaveRun _ => True | _ => False end.
(** How a build ends: on record as failed, having published nothing, or as completed,
    with the variant it published. *)
Record settled (has_catalog : bool) (run : BuildRun) (calls : list catalog_call)
    (run' : BuildRun) (err : option error) : Prop := {
  settled_id : run'.(BuildRun.ID) = run.(BuildRun.ID);
  settled_saved : has_catalog = true → last calls = Some (CSaveRun run');
  settled_status :
    run'.(BuildRun.Status) = "failed" ∧ is_Some err ∧
      (∀ id v loc, CPublish id v loc (Ok tt) ∉ calls) ∨
    run'.(BuildRun.Status) = "completed" ∧
      ∃ v loc, CPublish run.(BuildRun.ID) v loc (Ok tt) ∈ calls ∧
        run'.(BuildRun.OutputDigest) = v.(ArtifactVariant.Digest) ∧
        run'.(BuildRun.OutputVariantID) = v.(ArtifactVariant.ID) ∧
        loc.(ArtifactLocation.Digest) = v.(ArtifactVariant.Digest)
}.

Lemma settled_after has_catalog run k1 k2 run' err : Forall is_save k1 →
  settled has_catalog run k2 run' err → settled has_catalog run (k1 ++ k2) run' err.
Proof.
  intros Hk [Hid Hs Hst]. split; [done| |].
  - intros Hc. rewrite last_app, (Hs Hc). done.
  - destruct Hst as [(? & ? & Hno)|(? & v & loc & ? & ?)]; [left|right].
    + split_and!; [done..|]. intros id v loc [Hin|?]%elem_of_app; [|by eapply Hno].
      rewrite Forall_forall in Hk. by apply (Hk _ Hin).
    + split; [done|]. exists v, loc. set_solver.
Qed.

Section settlement.
Context `{OS W, Sha256, BuildCatalog W, CommandRunner W}.
Abbreviation RW := (Recorded W catalog_call).
Context (contexts : string → effr RW string) (s : Executor).
Context (Hcontexts : ∀ d, appends is_save (contexts d)).

Definition settles (m : eff RW (BuildRun * option error)) (run : BuildRun) : Prop :=
  ∀ w l run' err w' l', m (w, l) = ((run', err), (w', l')) →
    ∃ k, l' = l ++ k ∧ settled s.(Executor.has_catalog) run k run' err.

Lemma settles_bind {A} (m : eff RW A) k run :
  appends is_save m → (∀ a, settles (k a) run) → settles (ebind m k) run.
Proof.
  intros Hm Hk w l run' err w' l'. unfold ebind. destruct (m (w, l)) as [a [w1 l1]] eqn:E. intros E'.
  destruct (Hm _ _ _ _ _ E) as (k1 & -> & Hk1). destruct (Hk _ _ _ _ _ _ _ E') as (k2 & -> & Hs).
  exists (k1 ++ k2). rewrite app_assoc. split; [done|]. by apply settled_after.
Qed.
Lemma settles_same m run run0 : run0.(BuildRun.ID) = run.(BuildRun.ID) → settles m run0 → settles m run.
Proof.
  intros Hid Hm w l run' err w' l' E. destruct (Hm _ _ _ _ _ _ E) as (k & -> & [Hi Hs Hst]).
  exists k. split; [done|]. split; [congruence|done|]. by rewrite <- Hid.
Qed.

Lemma save_appends run : appends is_save (save (W := RW) s run).
Proof.
  unfold save. destruct (Executor.has_catalog s); [by apply appends_logged|apply appends_ret].
Qed.
(** The calls of [save], when there is a catalog. *)
Lemma save_calls run w l r w' l' : save (W := RW) s run (w, l) = (r, (w', l')) →
  l' = l ++ if s.(Executor.has_catalog) then [CSaveRun run] else [].
Proof.
  unfold save. destruct (Executor.has_catalog s).
  - cbn. unfold logged. destruct (SaveBuildRun run w). by intros [= _ _ <-].
  - intros [= _ _ <-]. by rewrite app_nil_r.
Qed.

Lemma fail_settles run message : settles (fail s run message) run.
Proof.
  intros w l run' err w' l'. unfold fail. cbv zeta. intros (r & [w1 l1] & Hs & Hk)%ebind_ok.
  injection Hk as <- <- <- <-. apply save_calls in Hs as ->. eexists. split; [done|].
  split; [done| |].
  - by intros ->.
  - left. split_and!; [done|by eexists|]. intros id v loc. destruct (Executor.has_catalog s); set_solver.
Qed.

Lemma open_appends p : appends is_save (OpenFile (W := RW) p).
Proof. apply appends_unlogged. Qed.

(** The end of a build that published. *)
Lemma publish_settles spec run outputPath : settles (publish s spec run outputPath) run.
Proof.
  unfold publish. apply settles_bind; [apply open_appends|]. intros file.
  destruct (match file with Err e => Err e | Ok _ => _ end) as [content|e]; [|apply fail_settles].
  cbv zeta. apply settles_bind; [apply save_appends|]. intros _.
  destruct (Executor.has_catalog s) eqn:Hc; cbn [negb]; [|by eapply settles_same, fail_settles].
  set (run1 := run <| BuildRun.Status := "publishing" |>).
  set (variant := output_variant spec run content).
  intros w l run' err w' l' (r & [w1 l1] & Hp & Hk)%ebind_ok. cbn in Hp. unfold logged in Hp.
  destruct (PublishBuildOutput _ _ _ w) as [r0 w2] eqn:E0. injection Hp as <- <- <-.
  destruct r0 as [[]|e].
  - apply ebind_ok in Hk as (rs & [w3 l3] & Hs & Hk). apply save_calls in Hs as ->. rewrite Hc in *.
    injection Hk as <- <- <- <-. eexists. rewrite <- app_assoc. split; [done|]. split; [done|done|].
    right. split; [done|]. eexists _, _. split; [by left|]. done.
  - destruct (fail_settles _ _ _ _ _ _ _ _ Hk) as (k & -> & [Hi Hs Hst]). eexists. rewrite <- app_assoc.
    split; [done|]. split; [done| |].
    + intros _. rewrite last_app, (Hs Hc). done.
    + destruct Hst as [(? & ? & Hno)|(? & v & loc & ? & ?)]; [left|right].
      * split_and!; [done..|]. intros id v loc [[=]%list_elem_of_singleton|?]%elem_of_app. by eapply Hno.
      * split; [done|]. exists v, loc. set_solver.
Qed.

Lemma run_appends name args : appends is_save (RunCommand (W := RW) name args).
Proof. apply appends_unlogged. Qed.
Lemma convert_appends spec run outputPath logs :
  appends is_save (convert_sif (W := RW) s spec run outputPath logs).
Proof.
  unfold convert_sif. case_bool_decide; [|apply appends_ret]. case_bool_decide; [apply appends_ret|].
  apply appends_bind; [apply run_appends|]. intros [out err]. apply appends_ret.
Qed.
Lemma output_appends spec run contextPath : appends is_save (buildOutput (W := RW) s spec run contextPath).
Proof.
  unfold buildOutput. case_bool_decide; [apply appends_ret|].
  apply appends_bind; [apply appends_unlogged|]. intros [[]|e]; [|apply appends_ret].
  case_bool_decide.
  - unfold build_image. cbv zeta. repeat (case_match; [apply appends_ret|]).
    apply appends_bind; [apply run_appends|]. intros [out err]. apply appends_ret.
  - apply appends_bind; [apply run_appends|]. intros [logs [err|]]; [apply appends_ret|apply convert_appends].
Qed.
Lemma context_appends spec : appends is_save (build_context contexts spec).
Proof.
  unfold build_context. case_bool_decide; [apply appends_ret|].
  apply appends_bind; [apply Hcontexts|]. intros r. apply appends_ret.
Qed.

(** C32: Every build ends on record: whatever the context, the builder commands and the
    store answer, the run that is returned is failed or completed and, when there is a
    catalog, the last one saved; a failed build has an error and published nothing, a
    completed one published the variant whose digest it carries. *)
Theorem build_settles spec run w l run' err w' l' :
  Execute contexts s spec run (w, l) = ((run', err), (w', l')) →
  ∃ k, l' = l ++ k ∧ settled s.(Executor.has_catalog) run k run' err.
Proof.
  revert w l run' err w' l'. change (settles (Execute contexts s spec run) run).
  unfold Execute. destruct (_ || _); [apply fail_settles|].
  apply settles_bind; [apply context_appends|]. intros [contextPath|message]; [|apply fail_settles].
  cbv zeta. apply settles_bind; [apply save_appends|]. intros _.
  apply settles_bind; [apply output_appends|]. intros [[outputPath|e] logs].
  - by eapply settles_same, publish_settles.
  - by eapply settles_same, fail_settles.
Qed.
End settlement.

(** ** Examples *)
Module Example.
(** A store on a full disk: the paths that exist; directories can be made, files cannot
    be created. *)
Definition world : Type := gset string.
Definition missing : error := "no such file or directory".
#[local] Instance full_disk : OS world := {|
  Getwd := Ok "/"; EvalSymlinks p := eret (Ok p); Lstat _ := eret (Err missing);
  IsNotExist e := bool_decide (e = missing); ReadDir _ := eret (Ok []); Readlink _ := eret (Err missing);
  OpenFile _ := eret (Ok (mk_reader "archive" None));
  MkdirAll p := λ w, (Ok tt, {[ p ]} ∪ w);
  Create _ := eret (Err "no space left on device");
  WriteBytes _ _ := eret (Ok tt); Close _ := eret (Ok tt);
  Rename _ _ := eret (Ok tt); RemoveFile _ := eret (Ok tt)
|}.
#[local] Instance disk_files : BuildFiles world := {|
  StatFile p := λ w, (if bool_decide (p ∈ w) then Ok tt else Err missing, w);
  CreateTemp dir := eret (Ok (dir +:+ "/upload-1.tar.gz"));
  RemoveAll p := λ w, (Ok tt, w ∖ {[ p ]})
|}.
#[local] Instance one_file : Archives := λ _, Ok ([mk_header "Dockerfile" false false (mk_reader "FROM x" None)], None).
#[local] Instance digests : Sha256 := λ s, "d" +:+ s.
#[local] Instance catalog : BuildCatalog world := {|
  SaveBuildRun _ := eret (Ok tt); SaveBuildContext _ := eret (Ok tt);
  FindBuildContext _ := eret (Ok None); PublishBuildOutput _ _ _ := eret (Ok tt)
|}.
#[local] Instance builder : CommandRunner world := λ _ _, eret ("built", None).
#[local] Instance names : FreshIDs world := λ prefix, eret (prefix +:+ "-1").
Definition manager : Manager := Manager.mk "/store" 100 true.
Definition hex : string := "0123456789abcdef0123456789abcdef0123456789abcdef0123456789abcdef".
Definition disk : world := {[ "/store/contexts/" +:+ hex +:+ ".tar.gz" ]}.

(** An extraction that fails half way leaves its directory behind, and the next one takes
    it for the whole context. *)
Example partial_extraction_reused :
  let '(first, w) := ResolveBuildContext manager ("sha256:" +:+ hex) disk in
  first = Err "no space left on device" ∧
  (ResolveBuildContext manager ("sha256:" +:+ hex) w).1 = Ok ("/store/workspaces/" +:+ hex).
Proof. vm_compute. by split. Qed.
(** A digest is checked by prefix and length only (the schema looks at its first digit as
    well): one made of dots and slashes leads out of the store. *)
Example digest_climbs :
  (ResolveBuildContext manager
     "sha256:0/../../../../../../../../../../../../../../../../../../../../xy"
     ({[ "/xy.tar.gz"; "/xy" ]} : world)).1 = Ok "/xy".
Proof. vm_compute. reflexivity. Qed.

Definition uploaded : BuildContextArtifact :=
  BuildContextArtifact.mk "sha256:darchive" "artifact://contexts/darchive" 7
    "application/vnd.akoflow.build-context+tar+gzip".
Definition upload_calls : list store_call := Eval vm_compute in
  (Upload (W := Recorded world store_call) manager (mk_reader "archive" None) (disk, [])).2.2.
Lemma upload_runs : Upload (W := Recorded world store_call) manager (mk_reader "archive" None) (disk, []) =
  (Ok uploaded, ({[ "/store/contexts/.tmp" ]} ∪ disk, upload_calls)).
Proof. vm_compute. reflexivity. Qed.

(** An archive with a link is refused after its directory was made, and that is removed. *)
Definition link_file : Archives := λ _,
  Ok ([mk_header "bin" false true (mk_reader "" None); mk_header "bin/sh" true false (mk_reader "" None)], None).
Definition resolved : result string * Recorded world store_call :=
  ResolveBuildContext (H1 := link_file) (W := Recorded world store_call) manager ("sha256:" +:+ hex) (disk, []).

Definition executor : Executor := Executor.mk true true true "" "apptainer" "/store".
Definition spec : ArtifactBuild := zero <| ArtifactBuild.SourceType := "docker-image" |>
  <| ArtifactBuild.TargetFormat := "sif" |> <| ArtifactBuild.RecipePath := "docker://alpine" |>.
Definition no_contexts : string → effr (Recorded world catalog_call) string := λ _, eret (Err missing).
Definition built : BuildRun * option error * (world * list catalog_call) :=
  Execute no_contexts executor spec (zero <| BuildRun.ID := "r" |>) (∅, []).
Lemma build_settles_witness : ∃ k, built.2.2 = [] ++ k ∧
  settled true (zero <| BuildRun.ID := "r" |>) k built.1.1 built.1.2.
Proof.
  apply (build_settles no_contexts executor (λ _, appends_ret _ _) spec (zero <| BuildRun.ID := "r" |>)
    (∅ : world) [] built.1.1 built.1.2 built.2.1 built.2.2).
  unfold built. by destruct (Execute _ _ _ _ _) as [[? ?] [? ?]].
Defined.
Example built_completed : built.1.1.(BuildRun.Status) = "completed" ∧ built.1.2 = None.
Proof. vm_compute. by split. Qed.
End Example.
End Build.
