(* ===== verification/Connectors.v ===== *)
(** * Transfer connectors (src/internal/infrastructure/transfer)

    The implementations of [TransferConnector] that the server registers
    (cmd/server/events.go): build outputs, mounted file systems, remote directories over
    ssh and rsync, HTTP downloads, S3 and the placeholder of GCS; and the executor that
    runs the commands of an environment on its login node (provider/ssh_executor.go).
    Paths are slash-separated, as on every system but Windows. *)

From Stdlib Require Import Ascii.
From S2P Require Import Prelude GoStrings GoPath Domain Materialization Ports Shell Storage Filesystem Transfer.

(** [net/url]: what [Parse] tells of a URL; [User] is the user name, when the URL has
    user information, and [Query] is [Query().Get]. *)
Module URL.
Record URL := mk {
  Scheme : string; User : option string; Host : string; Path : string; Query : string → string
}.
End URL.
Abbreviation URL := URL.URL.
Class NetURL := url_Parse : string → result URL.

(** The calls of [os] on files the file system driver does not make. A file that is
    written is opened without truncating it; [seek_writer] moves the position and
    [write_at] is the writing of [io.Copy] from there. *)
Class FileWrites (W : Type) := {
  os_Stat : string → effr W unit;
  seek_reader : Reader → Z → effr W Reader;
  open_write : string → effr W unit;
  truncate_file : string → effr W unit;
  seek_writer : string → Z → effr W unit;
  write_at : string → Z → string → effr W unit
}.

(** The HTTP client: the status of a response, its text and the body. *)
Module Response.
Record Response := mk { StatusCode : Z; Status : string; Body : Reader }.
End Response.
Abbreviation Response := Response.Response.
(** A request of a method on a URL, with the value of the header [Range] if it is set. *)
Class HTTPClient (W : Type) := http_Do : string → string → option string → effr W Response.

(** minio: a client for an endpoint, and the calls made on it. [StatObject] answers
    the code of the error with the error. *)
Module MinioClient.
Record MinioClient := mk {
  Endpoint : string; Secure : bool; Region : string;
  AccessKey : string; SecretKey : string; SessionToken : string
}.
End MinioClient.
Abbreviation MinioClient := MinioClient.MinioClient.
Class Minio (W : Type) := {
  minio_New : MinioClient → result MinioClient;
  StatObject : MinioClient → string → string → eff W (option (string * error));
  GetObject : MinioClient → string → string → effr W Reader;
  seek_object : Reader → Z → effr W Reader;
  PutObject : MinioClient → string → string → Reader → effr W unit;
  CopyObject : MinioClient → string → string → string → effr W unit;
  RemoveObject : MinioClient → string → string → effr W unit
}.
(** [os.Getenv] *)
Class Env := Getenv : string → string.

(** [os/exec]: [CombinedOutput] and [Start] of a command, and temporary files. An
    [ExitError] is a command that ran and failed. *)
Inductive CommandError :=
| ExitError (code : Z) (message : error)
| StartError (message : error).
Definition command_message (e : CommandError) : error :=
  match e with ExitError _ m => m | StartError m => m end.
Class Commands (W : Type) := {
  CombinedOutput : string → list string → eff W (string * option CommandError);
  StartCommand : string → list string → effr W Reader;
  CreateTemp : string → effr W string;
  WriteTemp : string → string → effr W unit;
  CloseTemp : string → effr W unit;
  RemoveTemp : string → eff W unit
}.

Module Connectors.
Import Transfer.

(** ** [LocalFilesystem] (filesystem.go) *)
Module LocalFilesystem.
Section definitions.
Context `{OS W, FileWrites W, NetURL}.

(** [LocalFilesystem.CanHandle] *)
Definition CanHandle (e : TransferEndpoint) : bool :=
  match url_Parse e.(TransferEndpoint.URI) with
  | Ok u => bool_decide (u.(URL.Scheme) = "") || bool_decide (u.(URL.Scheme) = "file")
  | Err _ => false
  end.

(** A key that [filepath.Clean] leaves outside its directory. *)
Definition escapes (key : string) : bool :=
  rooted key || bool_decide (key = "..") || has_prefix "../" key.

(** The first part of [localPath], which looks at the names only: the base directory of
    the endpoint and the path of the name, which is the base itself without a name. *)
Definition local_names (uri name : string) : result (string * string) :=
  u ← url_Parse uri;
  if negb (bool_decide (u.(URL.Scheme) = "")) && negb (bool_decide (u.(URL.Scheme) = "file")) then
    Err (errorf "not a file endpoint" [])
  else
    base ← FilesystemDriver.Abs (if bool_decide (u.(URL.Path) = "") then uri else u.(URL.Path));
    let base := path_Clean base in
    if bool_decide (name = "") then Ok (base, base)
    else
      let key := path_Clean name in
      if escapes key then Err (errorf "transfer path escapes endpoint" [])
      else Ok (base, path_Join [base; key]).

(** The loop of [localPath] that finds the closest existing directory; the fuel is the
    number of elements of the path and one. *)
Fixpoint existing_parent (fuel : nat) (parent : string) : effr W string :=
  match fuel with
  | O => eret (Err (errorf "endpoint has no existing parent" []))
  | S fuel =>
    let! st := Lstat parent in
    match st with
    | Ok _ => eret (Ok parent)
    | Err e =>
      if negb (IsNotExist e) then eret (Err e)
      else
        let next := path_Dir parent in
        if bool_decide (next = parent) then
          eret (Err (errorf "endpoint has no existing parent" []))
        else existing_parent fuel next
    end
  end.

(** [localPath] *)
Definition localPath (e : TransferEndpoint) (name : string) : effr W string :=
  let? (base, full) := eret (local_names e.(TransferEndpoint.URI) name) in
  if bool_decide (name = "") then eret (Ok base)
  else
    let parent := path_Dir full in
    let? parent := existing_parent (S (length (clean_elems parent))) parent in
    let? realParent := EvalSymlinks parent in
    let? realBase := EvalSymlinks base in
    if negb (bool_decide (realParent = realBase)) && negb (has_prefix (realBase +:+ "/") realParent) then
      eret (Err (errorf "transfer path escapes endpoint via symlink" []))
    else eret (Ok full).

(** [LocalFilesystem.Exists] *)
Definition Exists (e : TransferEndpoint) (name : string) : effr W bool :=
  let? p := localPath e name in
  let! st := os_Stat p in
  eret (Ok (match st with Ok _ => true | Err _ => false end)).

(** [LocalFilesystem.Open] *)
Definition Open (e : TransferEndpoint) (name : string) (offset : Z) : effr W Reader :=
  let? p := localPath e name in
  let? f := OpenFile p in
  if offset >? 0 then seek_reader f offset else eret (Ok f).

(** [LocalFilesystem.Put] *)
Definition Put (e : TransferEndpoint) (name : string) (r : Reader) (offset : Z) : effr W unit :=
  let? p := localPath e name in
  let? _ := MkdirAll (path_Dir p) in
  let? _ := open_write p in
  let! positioned :=
    (if offset =? 0 then let? _ := truncate_file p in seek_writer p 0
     else seek_writer p offset) in
  match positioned with
  | Err err => let! _ := Close p in eret (Err err)
  | Ok _ =>
    let! written := write_at p offset r.(bytes) in
    let! closed := Close p in
    eret (match written, r.(read_error) with
          | Err err, _ => Err err
          | Ok _, Some err => Err err
          | Ok _, None => closed
          end)
  end.

(** [LocalFilesystem.Commit] *)
Definition Commit (e : TransferEndpoint) (partial final : string) : effr W unit :=
  let? p := localPath e partial in
  let? f := localPath e final in
  Rename p f.
End definitions.

Definition LocalFilesystem `{OS W, FileWrites W, NetURL} : TransferConnector W := {|
  Transfer.CanHandle := CanHandle; Transfer.Exists := Exists; Transfer.Open_ := Open;
  Transfer.Put := Put; Transfer.Commit_ := Commit
|}.
End LocalFilesystem.

(** ** [ArtifactStore] (artifact_store.go) *)
Module ArtifactStore.
Section definitions.
Context `{OS W, FileWrites W, NetURL}.
(** [Root], the only field of the store. *)
Variable Root : string.

(** [ArtifactStore.CanHandle] *)
Definition CanHandle (e : TransferEndpoint) : bool :=
  match url_Parse e.(TransferEndpoint.URI) with
  | Ok u => bool_decide (u.(URL.Scheme) = "artifact")
  | Err _ => false
  end.

(** [ArtifactStore.file] *)
Definition file (uri : string) : result string :=
  if bool_decide (Root = "") then Err (errorf "artifact store root is not configured" [])
  else
    match url_Parse uri with
    | Err _ => Err (errorf "not an artifact endpoint" [])
    | Ok u =>
      if negb (bool_decide (u.(URL.Scheme) = "artifact")) then Err (errorf "not an artifact endpoint" [])
      else
        let key := path_Clean (trim_prefix "/" (u.(URL.Host) +:+ u.(URL.Path))) in
        if bool_decide (key = ".") || LocalFilesystem.escapes key then
          Err (errorf "artifact path escapes store root" [])
        else
          root ← FilesystemDriver.Abs Root;
          Ok (path_Join [root; key])
    end.

(** [ArtifactStore.Exists] *)
Definition Exists (e : TransferEndpoint) (_ : string) : effr W bool :=
  let? path := eret (file e.(TransferEndpoint.URI)) in
  let! st := os_Stat path in
  eret (Ok (match st with Ok _ => true | Err _ => false end)).

(** [ArtifactStore.Open] *)
Definition Open (e : TransferEndpoint) (_ : string) (offset : Z) : effr W Reader :=
  let? path := eret (file e.(TransferEndpoint.URI)) in
  let? f := OpenFile path in
  if offset >? 0 then seek_reader f offset else eret (Ok f).

(** [ArtifactStore.Put] *)
Definition Put (_ : TransferEndpoint) (_ : string) (_ : Reader) (_ : Z) : effr W unit :=
  eret (Err (errorf "artifact store is read-only" [])).

(** [ArtifactStore.Commit] *)
Definition Commit (_ : TransferEndpoint) (_ _ : string) : effr W unit :=
  eret (Err (errorf "artifact store is read-only" [])).

Definition ArtifactStore : TransferConnector W := {|
  Transfer.CanHandle := CanHandle; Transfer.Exists := Exists; Transfer.Open_ := Open;
  Transfer.Put := Put; Transfer.Commit_ := Commit
|}.
End definitions.
End ArtifactStore.

(** ** [HTTPDownload] (http.go) *)
Module HTTPDownload.
Section definitions.
Context `{HTTPClient W, NetURL}.

(** [HTTPDownload.CanHandle] *)
Definition CanHandle (e : TransferEndpoint) : bool :=
  match url_Parse e.(TransferEndpoint.URI) with
  | Ok u => bool_decide (u.(URL.Scheme) = "http") || bool_decide (u.(URL.Scheme) = "https")
  | Err _ => false
  end.

Definition success (code : Z) : bool := (200 <=? code) && (code <? 300).

(** [HTTPDownload.Exists] *)
Definition Exists (e : TransferEndpoint) (_ : string) : effr W bool :=
  let? res := http_Do "HEAD" e.(TransferEndpoint.URI) None in
  eret (Ok (success res.(Response.StatusCode))).

(** [HTTPDownload.Open] *)
Definition Open (e : TransferEndpoint) (_ : string) (offset : Z) : effr W Reader :=
  let? res := http_Do "GET" e.(TransferEndpoint.URI)
    (if offset >? 0 then Some ("bytes=" +:+ itoa offset +:+ "-") else None) in
  if negb (success res.(Response.StatusCode)) then
    eret (Err (errorf "HTTP download %s: %s" [e.(TransferEndpoint.URI); res.(Response.Status)]))
  else eret (Ok res.(Response.Body)).

(** [HTTPDownload.Put] *)
Definition Put (_ : TransferEndpoint) (_ : string) (_ : Reader) (_ : Z) : effr W unit :=
  eret (Err (errorf "HTTP endpoint is read-only; use S3, SSH or filesystem destination" [])).

(** [HTTPDownload.Commit] *)
Definition Commit (_ : TransferEndpoint) (_ _ : string) : effr W unit :=
  eret (Err (errorf "HTTP endpoint is read-only" [])).

Definition HTTPDownload : TransferConnector W := {|
  Transfer.CanHandle := CanHandle; Transfer.Exists := Exists; Transfer.Open_ := Open;
  Transfer.Put := Put; Transfer.Commit_ := Commit
|}.
End definitions.
End HTTPDownload.

(** ** [S3Compatible] (s3.go) *)
Module S3Compatible.
Record S3Credentials := mk_credentials {
  AccessKey : string; SecretKey : string; SessionToken : string
}.

Section definitions.
Context `{Minio W, NetURL, Env}.
(** [S3Compatible.Credentials], nil by default. *)
Variable Credentials : option (string → result S3Credentials).

(** [EnvironmentS3Credentials.Resolve] *)
Definition Resolve (ref : string) : result S3Credentials :=
  if negb (bool_decide (ref = "")) && negb (bool_decide (ref = "env")) then
    Err (errorf "S3 credential reference %q is not configured" [ref])
  else
    let key := Getenv "AWS_ACCESS_KEY_ID" in
    let secret := Getenv "AWS_SECRET_ACCESS_KEY" in
    if bool_decide (key = "") || bool_decide (secret = "") then
      Err (errorf "S3 credentials are required through credential resolver" [])
    else Ok (mk_credentials key secret (Getenv "AWS_SESSION_TOKEN")).

(** [S3Compatible.CanHandle] *)
Definition CanHandle (e : TransferEndpoint) : bool := has_prefix "s3://" e.(TransferEndpoint.URI).

(** [S3Compatible.s3Client]: the client, the bucket and the prefix. *)
Definition s3Client (e : TransferEndpoint) : result (MinioClient * string * string) :=
  let configuration := e.(TransferEndpoint.Configuration) in
  u ← url_Parse e.(TransferEndpoint.URI);
  if negb (bool_decide (u.(URL.Scheme) = "s3")) || bool_decide (u.(URL.Host) = "") then
    Err (errorf "S3 endpoint URI must be s3://bucket/prefix" [])
  else
    let endpoint := lookup_zero configuration "endpoint" in
    let endpoint := if bool_decide (endpoint = "") then "s3.amazonaws.com" else endpoint in
    let secure := negb (bool_decide (lookup_zero configuration "secure" = "false")) in
    values ← default Resolve Credentials (lookup_zero configuration "credentialRef");
    c ← minio_New {|
      MinioClient.Endpoint := endpoint; MinioClient.Secure := secure;
      MinioClient.Region := lookup_zero configuration "region";
      MinioClient.AccessKey := values.(AccessKey); MinioClient.SecretKey := values.(SecretKey);
      MinioClient.SessionToken := values.(SessionToken)
    |};
    Ok (c, u.(URL.Host), trim_prefix "/" u.(URL.Path)).

(** [s3Object] *)
Definition s3Object (prefix name : string) : string :=
  let key := path_Clean (trim_prefix "/" name) in
  if bool_decide (key = ".") || bool_decide (key = "..") || has_prefix "../" key then ""
  else path_Join [prefix; key].

(** [S3Compatible.Exists] *)
Definition Exists (e : TransferEndpoint) (name : string) : effr W bool :=
  let? (c, b, p) := eret (s3Client e) in
  let object := s3Object p name in
  if bool_decide (object = "") then eret (Err (errorf "S3 transfer path escapes endpoint" []))
  else
    let! st := StatObject c b object in
    eret (match st with
          | None => Ok true
          | Some (code, err) => if bool_decide (code = "NoSuchKey") then Ok false else Err err
          end).

(** [S3Compatible.Open] *)
Definition Open (e : TransferEndpoint) (name : string) (offset : Z) : effr W Reader :=
  let? (c, b, p) := eret (s3Client e) in
  let? obj := GetObject c b (s3Object p name) in
  if offset >? 0 then seek_object obj offset else eret (Ok obj).

(** [io.LimitReader] and [io.MultiReader]: the limit hides what comes after it, an
    error included; the second reader is read when the first is at its end. *)
Definition limit_reader (r : Reader) (n : Z) : Reader :=
  if n <=? Z.of_nat (str_length r.(bytes)) then mk_reader (take_str (Z.to_nat n) r.(bytes)) None else r.
Definition multi_reader (r s : Reader) : Reader :=
  match r.(read_error) with
  | Some err => r
  | None => mk_reader (r.(bytes) +:+ s.(bytes)) s.(read_error)
  end.

(** [S3Compatible.Put] *)
Definition Put (e : TransferEndpoint) (name : string) (input : Reader) (offset : Z) : effr W unit :=
  let? (c, b, p) := eret (s3Client e) in
  let? input := (if offset >? 0 then
      let? previous := GetObject c b (s3Object p name) in
      eret (Ok (multi_reader (limit_reader previous offset) input))
    else eret (Ok input)) in
  PutObject c b (s3Object p name) input.

(** [S3Compatible.Commit] *)
Definition Commit (e : TransferEndpoint) (partial final : string) : effr W unit :=
  let? (c, b, p) := eret (s3Client e) in
  let? _ := CopyObject c b (s3Object p partial) (s3Object p final) in
  RemoveObject c b (s3Object p partial).

Definition S3Compatible : TransferConnector W := {|
  Transfer.CanHandle := CanHandle; Transfer.Exists := Exists; Transfer.Open_ := Open;
  Transfer.Put := Put; Transfer.Commit_ := Commit
|}.
End definitions.
End S3Compatible.

(** ** [GCS] (gcs.go) *)
Module GCS.
(** [GCS.unavailable] *)
Definition unavailable : error :=
  errorf "GCS transfer is unavailable: configure a GCS transfer agent or use a signed HTTPS URL" [].
(** [GCS.CanHandle] and the four operations, which answer [unavailable]. *)
Definition GCS {W} : TransferConnector W := {|
  Transfer.CanHandle e := has_prefix "gs://" e.(TransferEndpoint.URI);
  Transfer.Exists _ _ := eret (Err unavailable);
  Transfer.Open_ _ _ _ := eret (Err unavailable);
  Transfer.Put _ _ _ _ := eret (Err unavailable);
  Transfer.Commit_ _ _ _ := eret (Err unavailable)
|}.
End GCS.

(** ** [RsyncSSH] (rsync_ssh.go) *)
Module RsyncSSH.
Section definitions.
Context `{Commands W, NetURL}.

(** [RsyncSSH.CanHandle] *)
Definition CanHandle (e : TransferEndpoint) : bool := has_prefix "ssh://" e.(TransferEndpoint.URI).

Definition host_of (u : URL) : string :=
  match u.(URL.User) with Some user => user +:+ "@" +:+ u.(URL.Host) | None => u.(URL.Host) end.

(** [sshTarget]: the host and the path on it. *)
Definition sshTarget (uri name : string) : result (string * string) :=
  match url_Parse uri with
  | Err _ => Err (errorf "invalid SSH endpoint" [])
  | Ok u =>
    if negb (bool_decide (u.(URL.Scheme) = "ssh")) then Err (errorf "invalid SSH endpoint" [])
    else if bool_decide (u.(URL.Host) = "") || bool_decide (u.(URL.Path) = "") then
      Err (errorf "ssh endpoint requires absolute path" [])
    else
      let base := path_Clean u.(URL.Path) in
      if bool_decide (host_of u = "") || negb (rooted base) then
        Err (errorf "ssh endpoint requires host and absolute base path" [])
      else
        let key := path_Clean name in
        if negb (bool_decide (name = "")) && LocalFilesystem.escapes key then
          Err (errorf "SSH transfer path escapes endpoint" [])
        else
          let full := path_Join [base; key] in
          if negb (bool_decide (full = base)) && negb (has_prefix (base +:+ "/") full) then
            Err (errorf "SSH transfer path escapes endpoint" [])
          else Ok (host_of u, full)
  end.

Definition when_set (value : string) (args : list string) : list string :=
  if bool_decide (value = "") then [] else args.

(** [sshArgs] *)
Definition sshArgs (e : TransferEndpoint) : list string :=
  let key := lookup_zero e.(TransferEndpoint.Configuration) "identityFile" in
  let options := lookup_zero e.(TransferEndpoint.Configuration) "sshOptions" in
  when_set key ["-i"; key] ++ when_set options (fields options) ++
  match url_Parse e.(TransferEndpoint.URI) with
  | Err _ => []
  | Ok u =>
    let identity := u.(URL.Query) "identityFile" in
    let knownHosts := u.(URL.Query) "knownHostsFile" in
    let proxy := u.(URL.Query) "proxyCommand" in
    when_set identity ["-i"; identity] ++
    when_set knownHosts
      ["-o"; "UserKnownHostsFile=" +:+ knownHosts; "-o"; "StrictHostKeyChecking=yes"] ++
    when_set proxy ["-o"; "ProxyCommand=" +:+ proxy]
  end.

(** [RsyncSSH.Exists] *)
Definition Exists (e : TransferEndpoint) (name : string) : effr W bool :=
  let? (host, path) := eret (sshTarget e.(TransferEndpoint.URI) name) in
  let! (output, err) := CombinedOutput "ssh" (sshArgs e ++ [host; "test -f " +:+ shell path]) in
  eret (match err with
        | None => Ok true
        | Some err =>
          if match err with ExitError code _ => code =? 1 | StartError _ => false end then Ok false
          else
            let message := trim_space output in
            if bool_decide (message = "") then
              Err (errorf "check SSH location: %w" [command_message err])
            else Err (errorf "check SSH location: %w: %s" [command_message err; message])
        end).

(** [RsyncSSH.Open]: the reader is the standard output of the remote command, whose
    exit status is seen only by [Close]. *)
Definition Open (e : TransferEndpoint) (name : string) (offset : Z) : effr W Reader :=
  let? (host, path) := eret (sshTarget e.(TransferEndpoint.URI) name) in
  let command :=
    if offset >? 0 then "tail -c +" +:+ itoa (offset + 1) +:+ " -- " +:+ shell path
    else "cat -- " +:+ shell path in
  StartCommand "ssh" (sshArgs e ++ [host; command]).

Definition target : string := "akoflow-staging".

(** The lines of the configuration [rsyncSSHConfig] writes. *)
Definition config_lines (u : URL) (fallbackHost : string) : list string :=
  let user := default "" u.(URL.User) in
  let host := if bool_decide (u.(URL.Host) = "") then trim_prefix (user +:+ "@") fallbackHost
              else u.(URL.Host) in
  let identity := u.(URL.Query) "identityFile" in
  let knownHosts := u.(URL.Query) "knownHostsFile" in
  let proxy := u.(URL.Query) "proxyCommand" in
  ["Host " +:+ target; "  HostName " +:+ host] ++
  when_set user ["  User " +:+ user] ++
  when_set identity ["  IdentityFile " +:+ identity] ++
  when_set knownHosts ["  UserKnownHostsFile " +:+ knownHosts; "  StrictHostKeyChecking yes"] ++
  when_set proxy ["  ProxyCommand " +:+ proxy].

(** [rsyncSSHConfig]: the file and the host to name; [cleanup] removes the file. *)
Definition rsyncSSHConfig (e : TransferEndpoint) (fallbackHost : string)
    : effr W (string * string) :=
  let? u := eret (url_Parse e.(TransferEndpoint.URI)) in
  let? file := CreateTemp "akoflow-ssh-config-*" in
  let! written := WriteTemp file (join_byte LF (config_lines u fallbackHost) +:+ newline) in
  match written with
  | Err err => let! _ := CloseTemp file in let! _ := RemoveTemp file in eret (Err err)
  | Ok _ =>
    let! closed := CloseTemp file in
    match closed with
    | Err err => let! _ := RemoveTemp file in eret (Err err)
    | Ok _ => eret (Ok (file, target))
    end
  end.

(** The rsync call of [RsyncSSH.Put], from the temporary file [tmp]. *)
Definition rsync (e : TransferEndpoint) (host path tmp : string) (offset : Z) : effr W unit :=
  let? (config, target) := rsyncSSHConfig e host in
  let sshCommand := "ssh -F " +:+ config in
  let args := if offset >? 0
    then ["-a"; "--append-verify"; "--partial"; "-e"; sshCommand; tmp; target +:+ ":" +:+ path]
    else ["-a"; "--partial"; "-e"; sshCommand; tmp; target +:+ ":" +:+ path] in
  let! (output, err) := CombinedOutput "rsync" args in
  let! _ := RemoveTemp config in
  eret (match err with
        | Some err => Err (errorf "copy to SSH staging: %w: %s" [command_message err; trim_space output])
        | None => Ok tt
        end).

(** [RsyncSSH.Put] *)
Definition Put (e : TransferEndpoint) (name : string) (input : Reader) (offset : Z) : effr W unit :=
  let? tmp := CreateTemp "akoflow-rsync-*" in
  let! result :=
    (let! written := WriteTemp tmp input.(bytes) in
     let? _ := match written, input.(read_error) with
               | Err err, _ => eret (Err err)
               | Ok _, Some err => eret (Err err)
               | Ok _, None => CloseTemp tmp
               end in
     let? (host, path) := eret (sshTarget e.(TransferEndpoint.URI) name) in
     let! (output, err) := CombinedOutput "ssh"
       (sshArgs e ++ [host; "mkdir -p -- " +:+ shell (path_Dir path)]) in
     match err with
     | Some err => eret (Err (errorf "create SSH staging directory: %w: %s"
                          [command_message err; trim_space output]))
     | None => rsync e host path tmp offset
     end) in
  let! _ := RemoveTemp tmp in
  eret result.

(** [RsyncSSH.Commit] *)
Definition Commit (e : TransferEndpoint) (partial final : string) : effr W unit :=
  let? (host, p) := eret (sshTarget e.(TransferEndpoint.URI) partial) in
  let? (_, f) := eret (sshTarget e.(TransferEndpoint.URI) final) in
  let! (_, err) := CombinedOutput "ssh" (sshArgs e ++
    [host; "mkdir -p -- " +:+ shell (path_Dir f) +:+ " && mv -- " +:+ shell p +:+ " " +:+ shell f]) in
  eret (match err with Some err => Err (command_message err) | None => Ok tt end).

Definition RsyncSSH : TransferConnector W := {|
  Transfer.CanHandle := CanHandle; Transfer.Exists := Exists; Transfer.Open_ := Open;
  Transfer.Put := Put; Transfer.Commit_ := Commit
|}.
End definitions.
End RsyncSSH.

(** ** [SSHCommandExecutor] (provider/ssh_executor.go) *)
Module SSHCommandExecutor.
(** [CommandExecutor] of provider/command.go; the output may come with an error. *)
Definition CommandExecutor (W : Type) : Type :=
  string → list string → string → eff W (string * option error).

Record SSHCommandExecutor (W : Type) := mk {
  Executor : option (CommandExecutor W);
  Endpoint : string; Username : string; Port : Z; IdentityFile : string; ProxyCommand : string;
  HostKeyAlias : string; KnownHostsFile : string; ForwardAgent : bool
}.
Arguments Executor {W}.
Arguments Endpoint {W}.
Arguments Username {W}.
Arguments Port {W}.
Arguments IdentityFile {W}.
Arguments ProxyCommand {W}.
Arguments HostKeyAlias {W}.
Arguments KnownHostsFile {W}.
Arguments ForwardAgent {W}.

(** [shellQuote], which quotes as [shell] does *)
Definition shellQuote (value : string) : string :=
  if bool_decide (value = "") then "''" else shell value.

(** The options of ssh before the target. *)
Definition ssh_options {W} (e : SSHCommandExecutor W) : list string :=
  ["-o"; "BatchMode=yes"; "-o"; "ConnectionAttempts=1"; "-o"; "ConnectTimeout=10"; "-o"; "CheckHostIP=no"] ++
  RsyncSSH.when_set e.(KnownHostsFile)
    ["-o"; "UserKnownHostsFile=" +:+ e.(KnownHostsFile); "-o"; "StrictHostKeyChecking=accept-new"] ++
  (if e.(Port) >? 0 then ["-p"; itoa e.(Port)] else []) ++
  RsyncSSH.when_set e.(IdentityFile) ["-i"; e.(IdentityFile)] ++
  RsyncSSH.when_set e.(ProxyCommand) ["-o"; "ProxyCommand=" +:+ e.(ProxyCommand)] ++
  RsyncSSH.when_set e.(HostKeyAlias) ["-o"; "HostKeyAlias=" +:+ e.(HostKeyAlias)] ++
  (if e.(ForwardAgent) then ["-A"] else []).

Definition remote_command (name : string) (args : list string) : string :=
  join_byte " " (map shellQuote (name :: args)).

(** [SSHCommandExecutor.Run] *)
Definition Run `{OS W} (e : SSHCommandExecutor W) (name : string) (args : list string)
    (input : string) : eff W (string * option error) :=
  match e.(Executor) with
  | None => eret ("", Some (errorf "SSH command executor is required" []))
  | Some executor =>
    let target := trim_space e.(Endpoint) in
    if bool_decide (target = "") then eret ("", Some (errorf "SSH endpoint is required" []))
    else
      let target := if negb (bool_decide (e.(Username) = "")) && negb (contains target "@")
        then e.(Username) +:+ "@" +:+ target else target in
      let! made := (if bool_decide (e.(KnownHostsFile) = "") then eret (Ok tt)
                    else MkdirAll (path_Dir e.(KnownHostsFile))) in
      match made with
      | Err err => eret ("", Some (errorf "create SSH known-hosts directory: %w" [err]))
      | Ok _ => executor "ssh" (ssh_options e ++ [target; remote_command name args]) input
      end
  end.
End SSHCommandExecutor.

(** ** What the endpoints promise

    Where the bytes are: a file of this machine or an object of a bucket (a web page is
    only ever read, and nothing is assumed of it). [content w p] is what is stored at the place [p], and two [distinct] places
    do not share bytes (they are not links to one file, and neither is below the other). *)
Inductive place :=
| FileAt (p : string)
| ObjectAt (endpoint bucket object : string).

Section laws.
Context `{OS W, FileWrites W, NetURL, HTTPClient W, Minio W, Env}.
Context (content : W → place → option string) (distinct : place → place → Prop).

Definition same_content (w w' : W) : Prop := ∀ p, content w' p = content w p.
(** Only the place [p] and those that share bytes with it change. *)
Definition only_at (p : place) (w w' : W) : Prop := ∀ q, distinct q p → content w' q = content w q.

(** The calls of [os], whether they succeed or fail: what looks does not change, a file
    that is opened and read to its end without an error gives its bytes, writing changes
    the file that was opened, and a rename that succeeds replaces. *)
Record file_laws : Prop := {
  lstat_law : ∀ p w r w', Lstat p w = (r, w') → same_content w w';
  links_law : ∀ p w r w', EvalSymlinks p w = (r, w') → same_content w w';
  stat_law : ∀ p w r w', os_Stat p w = (r, w') → same_content w w';
  open_file_law : ∀ p w r w', OpenFile p w = (r, w') → same_content w w' ∧
    ∀ rd, r = Ok rd → rd.(read_error) = None → content w (FileAt p) = Some rd.(bytes);
  seek_law : ∀ rd off w r w', seek_reader rd off w = (r, w') → same_content w w';
  mkdir_law : ∀ p w r w', MkdirAll p w = (r, w') → same_content w w';
  open_write_law : ∀ p w r w', open_write p w = (r, w') → only_at (FileAt p) w w';
  truncate_law : ∀ p w r w', truncate_file p w = (r, w') → only_at (FileAt p) w w';
  seek_writer_law : ∀ p off w r w', seek_writer p off w = (r, w') → same_content w w';
  write_law : ∀ p off s w r w', write_at p off s w = (r, w') → only_at (FileAt p) w w';
  close_law : ∀ p w r w', Close p w = (r, w') → same_content w w';
  rename_law : ∀ p f w r w', Rename p f w = (r, w') →
    (∀ q, distinct q (FileAt p) → distinct q (FileAt f) → content w' q = content w q) ∧
    (r = Ok tt → content w' (FileAt f) = content w (FileAt p))
}.

(** What the calls do to the file itself, on a disk whose files can all be looked at: a
    file is extended at its end, and a failed write leaves what was there before it. *)
Record disk_laws : Prop := {
  stat_disk : ∀ p w err w', os_Stat p w = (Err err, w') → content w (FileAt p) = None;
  seek_disk : ∀ rd off w rd' w', seek_reader rd off w = (Ok rd', w') → 0 < off → rd'.(read_error) = None →
    rd.(read_error) = None ∧ rd'.(bytes) = drop_str (Z.to_nat off) rd.(bytes);
  open_write_disk : ∀ p w r w', open_write p w = (r, w') →
    (content w' (FileAt p) = content w (FileAt p) ∨
     content w (FileAt p) = None ∧ content w' (FileAt p) = Some "") ∧
    (r = Ok tt → is_Some (content w' (FileAt p)));
  truncate_disk : ∀ p w r w', truncate_file p w = (r, w') →
    (content w' (FileAt p) = content w (FileAt p) ∨ content w' (FileAt p) = Some "") ∧
    (r = Ok tt → content w' (FileAt p) = Some "");
  write_disk : ∀ p off s w r w' old, write_at p off s w = (r, w') →
    content w (FileAt p) = Some old → off = Z.of_nat (str_length old) →
    (∃ t, content w' (FileAt p) = Some (old +:+ t)) ∧
    (r = Ok tt → content w' (FileAt p) = Some (old +:+ s))
}.

(** What was read of an object whose reading may have stopped with an error. *)
Definition sent (rd : Reader) (c : option string) : Prop :=
  (rd.(read_error) = None → c = Some rd.(bytes)) ∧
  (rd.(bytes) ≠ "" → ∃ t, c = Some (rd.(bytes) +:+ t)).

(** An object store: an object is replaced as a whole, and an empty name is refused. *)
Record s3_laws : Prop := {
  stat_object_law : ∀ c b o w r w', StatObject c b o w = (r, w') → same_content w w' ∧
    ∀ err, r = Some ("NoSuchKey", err) → content w (ObjectAt c.(MinioClient.Endpoint) b o) = None;
  get_object_law : ∀ c b o w r w', GetObject c b o w = (r, w') → same_content w w' ∧
    ∀ rd, r = Ok rd → o ≠ "" ∧ sent rd (content w (ObjectAt c.(MinioClient.Endpoint) b o));
  seek_object_law : ∀ rd off w r w', seek_object rd off w = (r, w') → same_content w w' ∧
    (0 < off → ∀ rd', r = Ok rd' → rd'.(read_error) = None →
       rd.(read_error) = None ∧ rd'.(bytes) = drop_str (Z.to_nat off) rd.(bytes));
  put_object_law : ∀ c b o rd w r w', PutObject c b o rd w = (r, w') →
    let p := ObjectAt c.(MinioClient.Endpoint) b o in
    (o = "" → same_content w w' ∧ ∀ u, r ≠ Ok u) ∧ only_at p w w' ∧
    (content w' p = content w p ∨ rd.(read_error) = None ∧ content w' p = Some rd.(bytes)) ∧
    (r = Ok tt → rd.(read_error) = None ∧ content w' p = Some rd.(bytes));
  copy_object_law : ∀ c b src dst w r w', CopyObject c b src dst w = (r, w') →
    let e := c.(MinioClient.Endpoint) in
    (src = "" ∨ dst = "" → same_content w w' ∧ ∀ u, r ≠ Ok u) ∧ only_at (ObjectAt e b dst) w w' ∧
    (r = Ok tt → content w' (ObjectAt e b dst) = content w (ObjectAt e b src));
  remove_object_law : ∀ c b o w r w', RemoveObject c b o w = (r, w') →
    only_at (ObjectAt c.(MinioClient.Endpoint) b o) w w'
}.
End laws.

(** ** The objects of the endpoints *)
Section places.
Context `{OS W, NetURL, Minio W, Env}.
Context (Root : string) (Credentials : option (string → result S3Compatible.S3Credentials)).

(** The place a name has at an endpoint, if it has one. *)
Definition place_of (uri name : string) : option place :=
  match url_Parse uri with
  | Err _ => None
  | Ok u =>
    if bool_decide (u.(URL.Scheme) ∈ [""; "file"]) then
      match LocalFilesystem.local_names uri name with Ok (_, p) => Some (FileAt p) | Err _ => None end
    else if bool_decide (u.(URL.Scheme) = "artifact") then
      match ArtifactStore.file Root uri with Ok p => Some (FileAt p) | Err _ => None end
    else if bool_decide (u.(URL.Scheme) ∈ ["http"; "https"]) then None
    else
      match S3Compatible.s3Client Credentials (endpoint uri) with
      | Err _ => None
      | Ok (c, b, prefix) =>
        let object := S3Compatible.s3Object prefix name in
        if bool_decide (object = "") then None
        else Some (ObjectAt c.(MinioClient.Endpoint) b object)
      end
  end.

Definition objects_of (content : W → place → option string) (w : W) (uri name : string) : option string :=
  place_of uri name ≫= content w.
Definition apart_of (distinct : place → place → Prop) (a b : string * string) : Prop :=
  ∀ p q, place_of a.1 a.2 = Some p → place_of b.1 b.2 = Some q → distinct p q.
End places.

Section lawful.
Context `{OS W, FileWrites W, NetURL, HTTPClient W, Minio W, Env}.
Context (Root : string) (Credentials : option (string → result S3Compatible.S3Credentials)).
Context (content : W → place → option string) (distinct : place → place → Prop).
#[local] Abbreviation objects := (objects_of Root Credentials content).
#[local] Abbreviation apart := (apart_of Root Credentials distinct).

Lemma content_objects w w' : same_content content w w' → same_objects objects w w'.
Proof. intros Hs uri name. unfold objects_of. destruct (place_of _ _ uri name); [apply Hs|done]. Qed.
Lemma content_trans w1 w2 w3 : same_content content w1 w2 → same_content content w2 w3 →
  same_content content w1 w3.
Proof. intros H12 H23 p. by rewrite H23, H12. Qed.
Lemma content_refl w : same_content content w w.
Proof. done. Qed.
Lemma objects_at w uri name p : place_of Root Credentials uri name = Some p →
  objects w uri name = content w p.
Proof. unfold objects_of. by intros ->. Qed.
(** A change at the place of a name is a change of that object only. *)
Lemma only_objects w w' uri name p : place_of Root Credentials uri name = Some p →
  only_at content distinct p w w' → ∀ u m, apart (u, m) (uri, name) → objects w' u m = objects w u m.
Proof.
  intros Hp Ho u m Ha. unfold objects_of. destruct (place_of _ _ u m) as [q|] eqn:Eq; [|done].
  apply Ho. by apply Ha.
Qed.
Lemma only_same p w w' : same_content content w w' → only_at content distinct p w w'.
Proof. intros Hs q _. apply Hs. Qed.
Lemma only_trans p w1 w2 w3 : only_at content distinct p w1 w2 → only_at content distinct p w2 w3 →
  only_at content distinct p w1 w3.
Proof. intros H12 H23 q Hq. by rewrite H23, H12. Qed.

Lemma local_names_place uri name base p : LocalFilesystem.local_names uri name = Ok (base, p) →
  place_of Root Credentials uri name = Some (FileAt p).
Proof.
  intros Hn. unfold place_of. pose proof Hn as Hn'. unfold LocalFilesystem.local_names in Hn'.
  destruct (url_Parse uri) as [u|]; [|done]. cbn in Hn'.
  rewrite bool_decide_true; [by rewrite Hn|].
  destruct (_ && _) eqn:E; [done|]. apply andb_false_iff in E as [E|E];
    apply negb_false_iff, bool_decide_eq_true in E; rewrite E; set_solver.
Qed.

(** *** The file system *)
Hypothesis files : file_laws content distinct.

Lemma existing_parent_reads fuel p w r w' :
  LocalFilesystem.existing_parent fuel p w = (r, w') → same_content content w w'.
Proof.
  revert p w. induction fuel as [|fuel IH]; intros p w; cbn [LocalFilesystem.existing_parent];
    [by intros [= _ <-]|].
  unfold ebind. destruct (Lstat p w) as [st w1] eqn:E. apply (lstat_law _ _ files) in E.
  destruct st; [by intros [= _ <-]|]. destruct (negb _); [by intros [= _ <-]|].
  case_bool_decide; [by intros [= _ <-]|]. intros Hk%IH. by eapply content_trans.
Qed.

Lemma localPath_law uri name w r w' : LocalFilesystem.localPath (endpoint uri) name w = (r, w') →
  same_content content w w' ∧ ∀ p, r = Ok p → place_of Root Credentials uri name = Some (FileAt p).
Proof.
  unfold LocalFilesystem.localPath, ebindr, eret, ebind.
  change (TransferEndpoint.URI (endpoint uri)) with uri.
  destruct (LocalFilesystem.local_names _ name) as [[base full]|] eqn:En; [|by intros [= <- <-]].
  pose proof (local_names_place _ _ _ _ En) as Hp. case_bool_decide as Hname.
  { intros [= <- <-]. split; [done|]. intros p [= <-]. rewrite Hp. do 2 f_equal.
    revert En. unfold LocalFilesystem.local_names. rewrite (bool_decide_true _ Hname).
    destruct (url_Parse _) as [u|]; [|done]. cbn. destruct (_ && _); [done|].
    destruct (FilesystemDriver.Abs _); [|done]. cbn. by intros [= <- <-]. }
  destruct (LocalFilesystem.existing_parent _ _ w) as [[parent|] w1] eqn:E1;
    apply existing_parent_reads in E1; [|by intros [= <- <-]].
  destruct (EvalSymlinks parent w1) as [[realParent|] w2] eqn:E2; apply (links_law _ _ files) in E2;
    [|intros [= <- <-]; split; [by eapply content_trans|done]].
  destruct (EvalSymlinks base w2) as [[realBase|] w3] eqn:E3; apply (links_law _ _ files) in E3;
    pose proof (content_trans _ _ _ E1 (content_trans _ _ _ E2 E3)) as Hs;
    [|by intros [= <- <-]].
  destruct (_ && _); intros [= <- <-]; (split; [done|]); [done|]. by intros p [= <-].
Qed.

Lemma opened_law p off w f w1 r w' : OpenFile p w = (Ok f, w1) →
  (if off >? 0 then seek_reader f off else eret (Ok f)) w1 = (r, w') →
  same_content content w w' ∧ ∀ rd, off = 0 → r = Ok rd → rd.(read_error) = None →
    content w (FileAt p) = Some rd.(bytes).
Proof.
  intros E. apply (open_file_law _ _ files) in E as [Hs1 Hf].
  destruct (Z.gtb_spec off 0) as [Hpos|Hz].
  - intros E. apply (seek_law _ _ files) in E as Hs2. split; [by eapply content_trans|]. intros; lia.
  - intros [= <- <-]. split; [done|]. intros rd _ [= <-]. auto.
Qed.

Lemma commit_law_local uri p f w r w' : LocalFilesystem.Commit (endpoint uri) p f w = (r, w') →
  (∀ u m, apart (u, m) (uri, p) → apart (u, m) (uri, f) → objects w' u m = objects w u m) ∧
  (apart (uri, f) (uri, p) → ∀ u, r = Ok u → objects w' uri f = objects w uri p).
Proof.
  unfold LocalFilesystem.Commit, ebindr, ebind.
  destruct (LocalFilesystem.localPath _ p w) as [[pp|] w1] eqn:E1; apply localPath_law in E1 as [Hs1 Hp];
    [|intros [= <- <-]; split; [intros ?? _ _; by apply content_objects|done]].
  destruct (LocalFilesystem.localPath _ f w1) as [[pf|] w2] eqn:E2; apply localPath_law in E2 as [Hs2 Hf];
    [|intros [= <- <-]; split; [intros ?? _ _; by eapply content_objects, content_trans|done]].
  specialize (Hp pp eq_refl). specialize (Hf pf eq_refl).
  pose proof (content_trans _ _ _ Hs1 Hs2) as Hs. intros E3. apply (rename_law _ _ files) in E3 as [Ho Hr].
  split.
  - intros u m Hap Haf. unfold objects_of. destruct (place_of _ _ u m) as [q|] eqn:Eq; [|done].
    simpl. rewrite Ho, Hs; [done|by apply Hap|by apply Haf].
  - intros _ [] Hok. by rewrite (objects_at _ _ _ _ Hf), (objects_at _ _ _ _ Hp), Hr, Hs.
Qed.

Lemma local_put_only uri name rd off w r w' :
  LocalFilesystem.Put (endpoint uri) name rd off w = (r, w') →
  same_content content w w' ∨ ∃ p, place_of Root Credentials uri name = Some (FileAt p) ∧
    only_at content distinct (FileAt p) w w'.
Proof.
  unfold LocalFilesystem.Put, ebindr at 1, ebind at 1.
  destruct (LocalFilesystem.localPath _ name w) as [[p|] w1] eqn:E1; apply localPath_law in E1 as [Hs1 Hp];
    [|intros [= _ <-]; by left].
  specialize (Hp p eq_refl). intros Hrun. right. exists p. split; [done|].
  eapply only_trans; [apply only_same, Hs1|]. revert Hrun. unfold ebindr at 1.
  destruct (MkdirAll _ w1) as [[u|] w2] eqn:E2; apply (mkdir_law _ _ files) in E2 as Hs2;
    [|intros [= _ <-]; by apply only_same].
  unfold ebindr at 1. destruct (open_write p w2) as [[[]|] w3] eqn:E3; apply (open_write_law _ _ files) in E3;
    pose proof (only_trans _ _ _ _ (only_same (FileAt p) _ _ Hs2) E3) as Ho3; [|by intros [= _ <-]].
  unfold ebind at 1.
  destruct ((if off =? 0 then let? _ := truncate_file p in seek_writer p 0 else seek_writer p off) w3)
    as [po w4] eqn:E4.
  assert (only_at content distinct (FileAt p) w3 w4) as Ho4.
  { revert E4. destruct (off =? 0); [|intros E; by eapply only_same, (seek_writer_law _ _ files)].
    unfold ebindr. destruct (truncate_file p w3) as [[[]|] w5] eqn:Et; apply (truncate_law _ _ files) in Et;
      [|by intros [= _ <-]]. intros E. eapply only_trans; [exact Et|].
    by eapply only_same, (seek_writer_law _ _ files). }
  destruct po as [[]|]; unfold ebind.
  - destruct (write_at p off _ w4) as [wr w5] eqn:E5. apply (write_law _ _ files) in E5.
    destruct (Close p w5) as [cl w6] eqn:E6. apply (close_law _ _ files) in E6. intros [= _ <-].
    repeat (eapply only_trans; [eassumption|]). by apply only_same.
  - destruct (Close p w4) as [cl w5] eqn:E5. apply (close_law _ _ files) in E5. intros [= _ <-].
    repeat (eapply only_trans; [eassumption|]). by apply only_same.
Qed.

(** A file endpoint can be trusted whatever fails. *)
Lemma local_faithful : faithful objects apart LocalFilesystem.LocalFilesystem.
Proof.
  assert (∀ uri name off w r w', LocalFilesystem.Open (endpoint uri) name off w = (r, w') →
    same_objects objects w w' ∧ ∀ rd, off = 0 → r = Ok rd → rd.(read_error) = None →
      objects w uri name = Some rd.(bytes)) as Hopen.
  { intros uri name off w r w'. unfold LocalFilesystem.Open, ebindr.
    destruct (LocalFilesystem.localPath _ name w) as [[p|] w1] eqn:E1; apply localPath_law in E1 as [Hs1 Hp];
      [|intros [= <- <-]; by split; [apply content_objects|]].
    destruct (OpenFile p w1) as [[f|] w2] eqn:E2.
    - intros E3. apply (opened_law _ _ _ _ _ _ _ E2) in E3 as [Hs Hr].
      split; [by eapply content_objects, content_trans|].
      rewrite (objects_at _ _ _ _ (Hp p eq_refl)), <- Hs1. done.
    - apply (open_file_law _ _ files) in E2 as [Hs2 _]. intros [= <- <-].
      split; [by eapply content_objects, content_trans|done]. }
  split; [split|..];
    cbn [Transfer.Exists Transfer.Open_ Transfer.Put Transfer.Commit_ LocalFilesystem.LocalFilesystem].
  - intros uri name w r w'. unfold LocalFilesystem.Exists, ebindr, ebind.
    destruct (LocalFilesystem.localPath _ name w) as [[p|] w1] eqn:E1; apply localPath_law in E1 as [Hs1 _];
      [|intros [= _ <-]; by apply content_objects].
    destruct (os_Stat p w1) as [st w2] eqn:E2. apply (stat_law _ _ files) in E2. intros [= _ <-].
    by eapply content_objects, content_trans.
  - intros * _ E. by apply Hopen in E as [? _].
  - intros uri name w rd w' E. apply Hopen in E as [_ Ho]. by apply Ho.
  - intros uri name rd off w r w' [Hs|(p & Hp & Ho)]%local_put_only u m Ha.
    + by apply content_objects.
    + by eapply only_objects.
  - apply commit_law_local.
Qed.

(** *** A disk that keeps what is written *)
Section disk.
Hypothesis disk : disk_laws content.

Lemma stat_both p w r w' : os_Stat p w = (r, w') →
  same_content content w w' ∧ ∀ err, r = Err err → content w (FileAt p) = None.
Proof. intros E. split; [by eapply (stat_law _ _ files)|]. intros err ->. by eapply (stat_disk _ disk). Qed.

(** What a write at [off] may leave of the content [c]: all of it, or what was before
    the offset and something more. *)
Definition stored (off : Z) (c : option string) : string := take_str (Z.to_nat off) (default "" c).
Definition kept (off : Z) (c c' : option string) : Prop := c' = c ∨ ∃ t, c' = Some (stored off c +:+ t).

Lemma kept_created off c c1 c' : (c1 = c ∨ c = None ∧ c1 = Some "") → kept off c1 c' → kept off c c'.
Proof.
  intros [->|[-> ->]]; [done|]. intros [->|[t ->]]; right.
  - exists "". unfold stored. simpl. by destruct (Z.to_nat off).
  - by exists t.
Qed.

(** Truncating and seeking, on a file that is open. *)
Lemma positioned_law p off w r w' :
  (if off =? 0 then let? _ := truncate_file p in seek_writer p 0 else seek_writer p off) w = (r, w') →
  only_at content distinct (FileAt p) w w' ∧
  (is_Some (content w (FileAt p)) → resumes off (content w (FileAt p)) →
   kept off (content w (FileAt p)) (content w' (FileAt p)) ∧
   (r = Ok tt → content w' (FileAt p) = Some (stored off (content w (FileAt p))))).
Proof.
  destruct (Z.eqb_spec off 0) as [->|Hne].
  - unfold ebindr, ebind. destruct (truncate_file p w) as [[[]|] w1] eqn:E1;
      pose proof (truncate_law _ _ files _ _ _ _ E1) as Ho; apply (truncate_disk _ disk) in E1 as [Hk Ht].
    + intros E2. apply (seek_writer_law _ _ files) in E2 as Hs. split.
      { eapply only_trans; [done|by apply only_same]. }
      intros _ _. rewrite Hs, Ht by done. split; [right; by exists ""|done].
    + intros [= <- <-]. split; [done|]. intros _ _. split; [|done].
      destruct Hk as [-> | ->]; [by left|right; by exists ""].
  - intros E. apply (seek_writer_law _ _ files) in E as Hs. split; [by apply only_same|].
    intros [old Hold] [Hz|Hr]; [done|]. rewrite Hs. split; [by left|]. intros _.
    rewrite Hold in Hr |- *. simpl in Hr. rewrite Hr. unfold stored. simpl.
    by rewrite Nat2Z.id, take_str_all.
Qed.

Lemma stored_length off c : is_Some c → resumes off c → Z.of_nat (str_length (stored off c)) = off.
Proof.
  intros [old ->] [->|Hr]; [done|]. simpl in Hr. unfold stored. simpl.
  by rewrite Hr, Nat2Z.id, take_str_all.
Qed.

Lemma local_put_law uri name rd off w r w' :
  LocalFilesystem.Put (endpoint uri) name rd off w = (r, w') →
  (same_content content w w' ∧ ∀ u, r ≠ Ok u) ∨
  ∃ p, place_of Root Credentials uri name = Some (FileAt p) ∧
    only_at content distinct (FileAt p) w w' ∧
    (resumes off (content w (FileAt p)) →
     kept off (content w (FileAt p)) (content w' (FileAt p)) ∧
     ∀ u, r = Ok u → rd.(read_error) = None ∧
       content w' (FileAt p) = Some (stored off (content w (FileAt p)) +:+ rd.(bytes))).
Proof.
  unfold LocalFilesystem.Put, ebindr at 1, ebind at 1.
  destruct (LocalFilesystem.localPath _ name w) as [[p|] w1] eqn:E1; apply localPath_law in E1 as [Hs1 Hp];
    [|intros [= <- <-]; by left].
  specialize (Hp p eq_refl). unfold ebindr at 1, ebind at 1.
  destruct (MkdirAll _ w1) as [[u|] w2] eqn:E2; apply (mkdir_law _ _ files) in E2;
    pose proof (content_trans _ _ _ Hs1 E2) as Hs; [|intros [= <- <-]; by left].
  clear Hs1 E2. unfold ebindr at 1, ebind at 1.
  destruct (open_write p w2) as [o w3] eqn:E3. pose proof (open_write_law _ _ files _ _ _ _ E3) as Ho3.
  apply (open_write_disk _ disk) in E3 as [Hk3 Hok3].
  rewrite !Hs in Hk3. assert (only_at content distinct (FileAt p) w w3) as Hw3.
  { eapply only_trans; [apply only_same, Hs|exact Ho3]. }
  intros Hrun. right. exists p. split; [done|].
  assert (default "" (content w3 (FileAt p)) = default "" (content w (FileAt p))) as Hdef.
  { destruct Hk3 as [->|[-> ->]]; done. }
  destruct o as [[]|]; [|injection Hrun as <- <-; split; [done|]; intros _; split; [|done];
    eapply kept_created; [exact Hk3|by left]].
  specialize (Hok3 eq_refl). unfold ebind at 1 in Hrun.
  destruct ((if off =? 0 then let? _ := truncate_file p in seek_writer p 0 else seek_writer p off) w3)
    as [po w4] eqn:E4. apply positioned_law in E4 as [Ho4 Hk4].
  unfold resumes, stored in *. rewrite Hdef in Hk4.
  pose proof (only_trans _ _ _ _ Hw3 Ho4) as Hw4.
  destruct po as [[]|].
  2:{ destruct (Close p w4) as [c w5] eqn:E5. apply (close_law _ _ files) in E5 as Hs5.
      injection Hrun as <- <-. split; [eapply only_trans; [exact Hw4|by apply only_same]|].
      intros Hr. rewrite Hs5. split; [|done]. eapply kept_created; [exact Hk3|]. by apply Hk4. }
  destruct (write_at p off _ w4) as [wr w5] eqn:E5. pose proof (write_law _ _ files _ _ _ _ _ _ E5) as Ho5.
  pose proof (λ old, write_disk _ disk _ _ _ _ _ _ old E5) as Hk5.
  destruct (Close p w5) as [cl w6] eqn:E6. apply (close_law _ _ files) in E6 as Hs6.
  injection Hrun as <- <-.
  split; [eapply only_trans; [exact Hw4|eapply only_trans; [exact Ho5|by apply only_same]]|].
  intros Hr. destruct (Hk4 Hok3 Hr) as [_ Hat]. specialize (Hat eq_refl). rewrite Hs6.
  destruct (Hk5 _ Hat) as [[t Ht] Hall].
  { symmetry. rewrite <- Hdef in Hr |- *. by apply (stored_length off (content w3 (FileAt p))). }
  split; [right; by exists t|].
  intros u' Hu. destruct wr as [[]|]; [|done]. destruct (read_error rd) eqn:Ere; [done|]. by rewrite Hall.
Qed.

Lemma open_seek_law p off w f w1 r w' : OpenFile p w = (Ok f, w1) → 0 ≤ off →
  (if off >? 0 then seek_reader f off else eret (Ok f)) w1 = (r, w') →
  same_content content w w' ∧ ∀ rd, r = Ok rd → rd.(read_error) = None →
    ∃ s, content w (FileAt p) = Some s ∧ rd.(bytes) = drop_str (Z.to_nat off) s.
Proof.
  intros E Hoff. apply (open_file_law _ _ files) in E as [Hs1 Hf].
  destruct (Z.gtb_spec off 0) as [Hpos|Hz].
  - intros E. pose proof (seek_law _ _ files _ _ _ _ _ E) as Hs2. split; [by eapply content_trans|].
    intros rd -> Hn. destruct (seek_disk _ disk _ _ _ _ _ E Hpos Hn) as [Hfn ->]. eauto.
  - intros [= <- <-]. split; [done|]. intros rd [= <-] Hn. replace off with 0 by lia.
    exists f.(bytes). rewrite drop_str_0. auto.
Qed.

Lemma local_lawful : lawful objects apart LocalFilesystem.LocalFilesystem.
Proof.
  split; cbn [Transfer.Exists Transfer.Open_ Transfer.Put Transfer.Commit_ LocalFilesystem.LocalFilesystem].
  - intros uri name w r w'. unfold LocalFilesystem.Exists, ebindr, ebind.
    destruct (LocalFilesystem.localPath _ name w) as [[p|] w1] eqn:E1; apply localPath_law in E1 as [Hs1 Hp];
      [|intros [= <- <-]; by split; [apply content_objects|]].
    destruct (os_Stat p w1) as [st w2] eqn:E2. apply stat_both in E2 as [Hs2 Hst].
    intros [= <- <-]. split; [by eapply content_objects, content_trans|].
    destruct st as [[]|err]; intros [=]. rewrite (objects_at _ _ _ _ (Hp p eq_refl)), <- Hs1. by eapply Hst.
  - intros uri name off w r w' Hoff. unfold LocalFilesystem.Open, ebindr, ebind.
    destruct (LocalFilesystem.localPath _ name w) as [[p|] w1] eqn:E1; apply localPath_law in E1 as [Hs1 Hp];
      [|intros [= <- <-]; by split; [apply content_objects|]].
    destruct (OpenFile p w1) as [[f|] w2] eqn:E2.
    + intros E3. apply (open_seek_law _ _ _ _ _ _ _ E2 Hoff) in E3 as [Hs Hr].
      split; [by eapply content_objects, content_trans|].
      rewrite (objects_at _ _ _ _ (Hp p eq_refl)), <- Hs1. done.
    + apply (open_file_law _ _ files) in E2 as [Hs2 _]. intros [= <- <-].
      split; [by eapply content_objects, content_trans|done].
  - intros uri name rd off w r w' [[Hs Hne]|(p & Hp & Ho & Hk)]%local_put_law.
    + split; [intros u m _; by apply content_objects|]. intros _ u ->. by destruct (Hne u).
    + split; [by eapply only_objects|]. rewrite !(objects_at _ _ _ _ Hp). intros Hr. by apply Hk.
  - intros uri name rd off w r w' [[Hs Hne]|(p & Hp & Ho & Hk)]%local_put_law; intros Hr.
    + left. by apply content_objects.
    + rewrite !(objects_at _ _ _ _ Hp) in *. by apply Hk.
  - apply commit_law_local.
Qed.
End disk.

(** *** The read-only connectors *)
Lemma artifact_file_place uri name p : ArtifactStore.file Root uri = Ok p →
  place_of Root Credentials uri name = Some (FileAt p).
Proof.
  intros Hf. pose proof Hf as Hf'. unfold place_of. unfold ArtifactStore.file in Hf'.
  case_bool_decide; [done|]. destruct (url_Parse uri) as [u|]; [|done].
  destruct (negb _) eqn:E; [done|]. apply negb_false_iff, bool_decide_eq_true in E.
  rewrite bool_decide_false, bool_decide_true by (rewrite ?E; set_solver). by rewrite Hf.
Qed.

(** A connector that never writes can be trusted when it reads what is there. *)
Lemma read_only_faithful (c : TransferConnector W) :
  (∀ uri name w r w', Exists c (endpoint uri) name w = (r, w') → same_objects objects w w') →
  (∀ uri name off w r w', 0 ≤ off → Open_ c (endpoint uri) name off w = (r, w') →
    same_objects objects w w' ∧ ∀ rd, off = 0 → r = Ok rd → rd.(read_error) = None →
      objects w uri name = Some rd.(bytes)) →
  (∀ e name rd off w, ∃ err, Put c e name rd off w = (Err err, w)) →
  (∀ e p f w, ∃ err, Commit_ c e p f w = (Err err, w)) →
  faithful objects apart c.
Proof.
  intros He Ho Hp Hc. split; [split; [exact He|]|..].
  - intros * Hoff E. by apply Ho in E as [? _].
  - intros uri name w rd w' E. apply Ho in E as [_ Hr]; [by apply Hr|done].
  - intros uri name rd off w r w'. destruct (Hp (endpoint uri) name rd off w) as [err ->].
    by intros [= <- <-].
  - intros uri p f w r w'. destruct (Hc (endpoint uri) p f w) as [err ->]. by intros [= <- <-].
Qed.

Lemma artifact_faithful : faithful objects apart (ArtifactStore.ArtifactStore Root).
Proof.
  apply read_only_faithful; [| |by eexists..].
  - intros uri name w r w'. cbn [Transfer.Exists ArtifactStore.ArtifactStore].
    unfold ArtifactStore.Exists, ebindr, ebind, eret.
    destruct (ArtifactStore.file Root _) as [p|] eqn:Ef; [|by intros [= <- <-]].
    destruct (os_Stat p w) as [st w2] eqn:E2. apply (stat_law _ _ files) in E2.
    intros [= _ <-]. by apply content_objects.
  - intros uri name off w r w' Hoff. cbn [Transfer.Open_ ArtifactStore.ArtifactStore].
    unfold ArtifactStore.Open. change (TransferEndpoint.URI (endpoint uri)) with uri.
    unfold ebindr, ebind, eret at 1. destruct (ArtifactStore.file Root uri) as [p|] eqn:Ef; [|by intros [= <- <-]].
    destruct (OpenFile p w) as [[f|] w2] eqn:E2.
    + intros E3. apply (opened_law _ _ _ _ _ _ _ E2) in E3 as [Hs Hr].
      split; [by apply content_objects|]. by rewrite (objects_at _ _ _ _ (artifact_file_place _ _ _ Ef)).
    + apply (open_file_law _ _ files) in E2 as [Hs2 _]. intros [= <- <-].
      by split; [apply content_objects|].
Qed.

Lemma gcs_faithful : faithful objects apart GCS.GCS.
Proof.
  apply read_only_faithful; [| |by eexists..]; [by intros uri name w r w' [= <- <-]|
    intros uri name off w r w' _ [= <- <-]]; by split.
Qed.

(** *** HTTP: whatever the server answers *)
Lemma http_quiet_reads : (∀ m uri range w r w', http_Do m uri range w = (r, w') → same_content content w w') →
  quiet_reads objects HTTPDownload.HTTPDownload.
Proof.
  intros Hq. split; cbn [Transfer.Exists Transfer.Open_ HTTPDownload.HTTPDownload].
  - intros uri name w r w'. unfold HTTPDownload.Exists, ebindr, ebind, eret.
    destruct (http_Do _ _ _ w) as [[res|] w1] eqn:E; apply Hq in E; intros [= _ <-]; by apply content_objects.
  - intros uri name off w r w' _. unfold HTTPDownload.Open, ebindr, ebind, eret.
    destruct (http_Do _ _ _ w) as [[res|] w1] eqn:E; apply Hq in E; [destruct (negb _)|];
      intros [= _ <-]; by apply content_objects.
Qed.

(** *** S3 *)
Hypothesis buckets : s3_laws content distinct.

Lemma s3_place uri name c b p : S3Compatible.s3Client Credentials (endpoint uri) = Ok (c, b, p) →
  S3Compatible.s3Object p name ≠ "" →
  place_of Root Credentials uri name =
    Some (ObjectAt c.(MinioClient.Endpoint) b (S3Compatible.s3Object p name)).
Proof.
  intros Hc Ho. unfold place_of. pose proof Hc as Hc'. unfold S3Compatible.s3Client in Hc'.
  change (TransferEndpoint.URI (endpoint uri)) with uri in Hc'.
  destruct (url_Parse uri) as [u|]; [|done]. cbn in Hc'. destruct (_ || _) eqn:E; [done|].
  apply orb_false_iff in E as [E _]. apply negb_false_iff, bool_decide_eq_true in E.
  rewrite (bool_decide_false (_ ∈ [""; "file"])), (bool_decide_false (_ = "artifact")),
    (bool_decide_false (_ ∈ ["http"; "https"])) by (rewrite E; set_solver).
  rewrite Hc. cbn zeta. by rewrite bool_decide_false.
Qed.

(** What [Put] sends, when it goes on from an object it has read. *)
Lemma resumed_bytes off c rd (previous : Reader) : 0 < off → resumes off c → sent previous c →
  let input := S3Compatible.multi_reader (S3Compatible.limit_reader previous off) rd in
  input.(read_error) = None → rd.(read_error) = None ∧ input.(bytes) = stored off c +:+ rd.(bytes).
Proof.
  intros Hpos [Hz|Hr] [Hc Hpre]; [lia|]. unfold S3Compatible.multi_reader, S3Compatible.limit_reader.
  destruct (Z.leb_spec off (Z.of_nat (str_length (bytes previous)))) as [Hle|Hgt]; simpl.
  - intros Hrd. split; [done|]. destruct Hpre as [t ->].
    { intros E. rewrite E in Hle. simpl in Hle. lia. }
    simpl in Hr. rewrite str_length_app in Hr. unfold stored. simpl.
    destruct t; [by rewrite str_app_nil_r|]. simpl in Hr. lia.
  - destruct (read_error previous) as [err|] eqn:Ep; simpl; [by rewrite Ep|].
    intros Hrd. rewrite (Hc eq_refl) in Hr. simpl in Hr. lia.
Qed.

Lemma s3_put_law uri name rd off w r w' :
  S3Compatible.Put Credentials (endpoint uri) name rd off w = (r, w') →
  (same_content content w w' ∧ ∀ u, r ≠ Ok u) ∨
  ∃ p, place_of Root Credentials uri name = Some p ∧ only_at content distinct p w w' ∧
    (resumes off (content w p) → kept off (content w p) (content w' p) ∧
     ∀ u, r = Ok u → rd.(read_error) = None ∧
       content w' p = Some (stored off (content w p) +:+ rd.(bytes))).
Proof.
  unfold S3Compatible.Put. unfold ebindr at 1. unfold eret at 1.
  destruct (S3Compatible.s3Client _ _) as [[[c b] pre]|] eqn:Ec; [|intros [= <- <-]; by left].
  set (o := S3Compatible.s3Object pre name). set (p := ObjectAt (MinioClient.Endpoint c) b o).
  assert (∀ input w1, same_content content w w1 →
    (resumes off (content w p) → read_error input = None →
       read_error rd = None ∧ bytes input = stored off (content w p) +:+ bytes rd) →
    PutObject c b o input w1 = (r, w') →
    (same_content content w w' ∧ ∀ u, r ≠ Ok u) ∨
    ∃ p, place_of Root Credentials uri name = Some p ∧ only_at content distinct p w w' ∧
      (resumes off (content w p) → kept off (content w p) (content w' p) ∧
       ∀ u, r = Ok u → rd.(read_error) = None ∧
         content w' p = Some (stored off (content w p) +:+ rd.(bytes)))) as Hput.
  { intros input w1 Hs1 Hin E. apply (put_object_law _ _ buckets) in E as (Hempty & Ho & Hk & Hok).
    fold p in Ho, Hk, Hok.
    destruct (decide (o = "")) as [He|Hne].
    { left. destruct (Hempty He) as [Hs2 Hno]. split; [by eapply content_trans|done]. }
    right. exists p. split; [by apply s3_place|].
    split; [eapply only_trans; [apply only_same, Hs1|exact Ho]|]. intros Hr. split.
    - rewrite <- (Hs1 p). destruct Hk as [Hk|[Hn Hk]]; [by left|right]. rewrite Hk, Hs1.
      destruct (Hin Hr Hn) as [_ ->]. eauto.
    - intros [] Hu. destruct (Hok Hu) as [Hn Hc]. destruct (Hin Hr Hn) as [Hrd Hb].
      by rewrite <- Hb. }
  destruct (Z.gtb_spec off 0) as [Hpos|Hz].
  - unfold ebindr, ebind, eret. destruct (GetObject c b o w) as [[previous|] w1] eqn:Eg;
      apply (get_object_law _ _ buckets) in Eg as [Hs1 Hg]; [|intros [= <- <-]; by left].
    destruct (Hg previous eq_refl) as [Ho Hsent]. apply Hput; [done|]. intros Hr Hn.
    by apply (resumed_bytes off _ _ previous).
  - apply Hput; [done|]. intros [->|Hr] Hn; unfold stored; [done|].
    by replace off with 0 by (unfold resumes in *; lia).
Qed.

Lemma s3_lawful : lawful objects apart (S3Compatible.S3Compatible Credentials).
Proof.
  split; cbn [Transfer.Exists Transfer.Open_ Transfer.Put Transfer.Commit_ S3Compatible.S3Compatible].
  - intros uri name w r w'. unfold S3Compatible.Exists, ebindr, ebind, eret.
    destruct (S3Compatible.s3Client _ _) as [[[c b] pre]|] eqn:Ec; [|by intros [= <- <-]].
    case_bool_decide as Ho; [by intros [= <- <-]|].
    destruct (StatObject _ _ _ w) as [st w1] eqn:E. apply (stat_object_law _ _ buckets) in E as [Hs Hst].
    intros [= <- <-]. split; [by apply content_objects|].
    destruct st as [[code err]|]; [|done]. case_bool_decide as Hcode; [|done]. intros _. subst code.
    rewrite (objects_at _ _ _ _ (s3_place _ _ _ _ _ Ec Ho)). by eapply Hst.
  - intros uri name off w r w' Hoff. unfold S3Compatible.Open, ebindr, ebind, eret at 1.
    destruct (S3Compatible.s3Client _ _) as [[[c b] pre]|] eqn:Ec; [|by intros [= <- <-]].
    destruct (GetObject _ _ _ w) as [[obj|] w1] eqn:E; apply (get_object_law _ _ buckets) in E as [Hs Hg];
      [|by intros [= <- <-]; split; [apply content_objects|]].
    destruct (Hg obj eq_refl) as [Ho [Hc _]]. rewrite (objects_at _ _ _ _ (s3_place _ _ _ _ _ Ec Ho)).
    destruct (Z.gtb_spec off 0) as [Hpos|Hz].
    + intros E. apply (seek_object_law _ _ buckets) in E as [Hs2 Hr].
      split; [by eapply content_objects, content_trans|].
      intros rd Hrd Hn. destruct (Hr Hpos rd Hrd Hn) as [Hfn ->]. eauto.
    + intros [= <- <-]. split; [by apply content_objects|]. intros rd [= <-] Hn.
      replace off with 0 by lia. exists obj.(bytes). rewrite drop_str_0. auto.
  - intros uri name rd off w r w' [[Hs Hne]|(p & Hp & Ho & Hk)]%s3_put_law.
    + split; [intros u m _; by apply content_objects|]. intros _ u ->. by destruct (Hne u).
    + split; [by eapply only_objects|]. rewrite !(objects_at _ _ _ _ Hp). intros Hr. by apply Hk.
  - intros uri name rd off w r w' [[Hs Hne]|(p & Hp & Ho & Hk)]%s3_put_law; intros Hr.
    + left. by apply content_objects.
    + rewrite !(objects_at _ _ _ _ Hp) in *. by apply Hk.
  - intros uri p f w r w'. unfold S3Compatible.Commit, ebindr, ebind, eret.
    destruct (S3Compatible.s3Client _ _) as [[[c b] pre]|] eqn:Ec; [|by intros [= <- <-]].
    destruct (CopyObject _ _ _ _ w) as [cp w1] eqn:E1. apply (copy_object_law _ _ buckets) in E1 as (He & Ho1 & Hok).
    destruct (decide (S3Compatible.s3Object pre p = "" ∨ S3Compatible.s3Object pre f = "")) as [Hd|Hd].
    { destruct (He Hd) as [Hs Hno]. destruct cp as [u|]; [by destruct (Hno u)|]. intros [= <- <-].
      split; [intros u m _ _; by apply content_objects|done]. }
    apply Decidable.not_or in Hd as [Hp0 Hf0]. pose proof (s3_place _ _ _ _ _ Ec Hp0) as Hp.
    pose proof (s3_place _ _ _ _ _ Ec Hf0) as Hf. pose proof (only_objects _ _ _ _ _ Hf Ho1) as Hu1.
    destruct cp as [[]|]; [|intros [= <- <-]; split; [auto|done]].
    destruct (RemoveObject _ _ _ w1) as [rm w2] eqn:E2. apply (remove_object_law _ _ buckets) in E2 as Ho2.
    pose proof (only_objects _ _ _ _ _ Hp Ho2) as Hu2. intros [= <- <-]. split.
    + intros u m Hap Haf. by rewrite Hu2, Hu1.
    + intros Hap [] _. rewrite Hu2 by done.
      rewrite (objects_at _ _ _ _ Hf), (objects_at _ _ _ _ Hp). by apply Hok.
Qed.
End lawful.

(** ** The connectors of the server (cmd/server/events.go, [registerExecutionHandlers]) *)
Section server.
Context `{OS W, FileWrites W, NetURL, HTTPClient W, Minio W, Env, Commands W, Clock W, Sha256}.
Context (content : W → place → option string) (distinct : place → place → Prop).

Definition server_connectors (artifactStoreRoot : string) : list (TransferConnector W) :=
  [ArtifactStore.ArtifactStore artifactStoreRoot; LocalFilesystem.LocalFilesystem; RsyncSSH.RsyncSSH;
   HTTPDownload.HTTPDownload; S3Compatible.S3Compatible None; GCS.GCS].

(** The connector that serves an endpoint is one of those that handle it. *)
Lemma connector_handles (l : list (TransferConnector W)) e c : connector l e = Ok c →
  c ∈ l ∧ CanHandle c e = true.
Proof.
  induction l as [|d l IH]; simpl; [done|]. destruct (CanHandle d e) eqn:E.
  - intros [= <-]. split; [by left|done].
  - intros [? ?]%IH. split; [by right|done].
Qed.

(** C9: A transfer that the server reports as done is in place: when [Materialize] succeeds
    over the registered connectors, from any source but one over ssh and to any destination
    but one over ssh or http, each blob of the plan is at the place its name has at the
    destination (the file, or the object of the bucket) with bytes of its digest, whether
    the copy was made from the start, resumed or found, and whatever a web server answered.
    This is for digests that are plain file names, for a destination at which the blobs and
    their partial copies are places of their own (no link joins them), and for calls of the
    file system, the object store, the web client and the clock that change nothing but
    what they are made to change. *)
Theorem server_transfers_verified Root plan target w t run w' :
  file_laws content distinct → s3_laws content distinct →
  (∀ m uri range w r w', http_Do m uri range w = (r, w') → same_content content w w') →
  (∀ w n w', UnixNano w = (n, w') → same_content content w w') →
  let uri := plan.(DataTransferPlan.Destination).(TransferLocation.URI) in
  let root := plan.(DataTransferPlan.Destination).(TransferLocation.Path) in
  has_prefix "ssh://" plan.(DataTransferPlan.Source).(TransferLocation.URI) = false →
  has_prefix "ssh://" uri = false →
  (∀ u, url_Parse uri = Ok u → u.(URL.Scheme) ∉ ["http"; "https"]) →
  Forall plain (blob_digests plan.(DataTransferPlan.Blobs)) →
  separated (apart_of Root None distinct) uri root →
  Materialize (server_connectors Root) plan target w = ((t, run, None), w') →
  ∀ blob, blob ∈ plan.(DataTransferPlan.Blobs) →
  ∃ p s, place_of Root None uri (destinationName root blob.(BlobDescriptor.Digest)) = Some p ∧
    content w' p = Some s ∧ matches blob.(BlobDescriptor.Digest) s.
Proof.
  intros Hf Hs3 Hhttp Hclock uri root Hsrc Hdst Hpage Hp Hsep HM blob Hin.
  set (objects := objects_of Root None content).
  assert (∀ c, c ∈ [ArtifactStore.ArtifactStore Root; LocalFilesystem.LocalFilesystem;
    S3Compatible.S3Compatible None; GCS.GCS] → faithful objects (apart_of Root None distinct) c) as Htrust.
  { intros c. rewrite !elem_of_cons, elem_of_nil. intros [->|[->|[->|[->|[]]]]];
      [by apply artifact_faithful|by apply local_faithful|by apply lawful_faithful, s3_lawful|apply gcs_faithful]. }
  eapply (blobs_match objects (apart_of Root None distinct)) with (blob := blob) in HM
    as (s & Hobj & Hm); [| | | |done|done|done].
  - unfold objects, objects_of in Hobj. destruct (place_of _ _ _ _) as [p|] eqn:Ep; [|done]. eauto.
  - intros w0 n w1 E. eapply content_objects, Hclock, E.
  - intros sc [Hc Hh]%connector_handles. unfold server_connectors in Hc.
    rewrite !elem_of_cons, elem_of_nil in Hc. destruct Hc as [->|[->|[->|[->|[->|[->|[]]]]]]];
      [| |change (has_prefix "ssh://" plan.(DataTransferPlan.Source).(TransferLocation.URI) = true) in Hh; congruence
      |by apply http_quiet_reads|..]; apply faithful_quiet with (apart := apart_of Root None distinct), Htrust; set_solver.
  - intros dc [Hc Hh]%connector_handles. unfold server_connectors in Hc.
    rewrite !elem_of_cons, elem_of_nil in Hc. destruct Hc as [->|[->|[->|[->|[->|[->|[]]]]]]];
      [apply Htrust; set_solver|apply Htrust; set_solver
      |change (has_prefix "ssh://" uri = true) in Hh; congruence
      | |apply Htrust; set_solver..].
    exfalso. simpl in Hh. unfold HTTPDownload.CanHandle in Hh.
    change (TransferEndpoint.URI (endpoint _)) with uri in Hh.
    destruct (url_Parse uri) as [u|]; [|done]. apply (Hpage u eq_refl).
    apply orb_true_iff in Hh as [Hh|Hh]; apply bool_decide_eq_true in Hh; rewrite Hh; set_solver.
Qed.
End server.

(** ** Names stay below their endpoint *)
Import FilesystemDriver.

Lemma Join_key l name : Forall normal l → LocalFilesystem.escapes (path_Clean name) = false →
  ∃ ns, path_Join [abs_path l; path_Clean name] = abs_path (l ++ ns) ∧ Forall normal ns ∧
    (path_Clean name ≠ "." → ns ≠ []).
Proof.
  intros Hl. unfold LocalFilesystem.escapes. intros [[Hr Hd]%orb_false_iff Hp]%orb_false_iff.
  apply bool_decide_eq_false in Hd. destruct (rooted name) eqn:Er.
  { destruct (Clean_rooted _ Er) as (k & Hk & _). by rewrite Hk in Hr. }
  destruct (Clean_relative _ Er) as [Hdot|[(ns & Hn & Hne & Hall)|[He|He]]]; [| |done|congruence].
  - rewrite Hdot. destruct (Join_relative l ".") as (ns & -> & Hns); [done..|].
    exists ns. split_and!; [done..|]. by intros [].
  - rewrite Hn. exists ns. rewrite Join_abs by done. auto.
Qed.

Section confinement.
Context `{OSLaws W, FileWrites W, NetURL}.

Lemma local_names_confined uri name base full : LocalFilesystem.local_names uri name = Ok (base, full) →
  ∃ l, LocalFilesystem.local_names uri "" = Ok (abs_path l, abs_path l) ∧ base = abs_path l ∧
    Forall normal l ∧ below l full.
Proof.
  unfold LocalFilesystem.local_names. destruct (url_Parse uri) as [u|]; [|done]. cbn.
  destruct (_ && _); [done|]. destruct (Abs _) as [a|] eqn:Ea; [|done]. cbn.
  apply Abs_abs in Ea as (l & -> & Hl). rewrite Clean_abs by done.
  intros Hk. exists l. split; [done|]. case_bool_decide.
  - injection Hk as <- <-. split_and!; [done..|]. exists []. by rewrite app_nil_r.
  - destruct (LocalFilesystem.escapes _) eqn:Ee; [done|]. injection Hk as <- <-.
    destruct (Join_key l name Hl Ee) as (ns & -> & Hn & _). split_and!; [done..|].
    exists ns. split; [done|by apply Forall_app].
Qed.

(** The loop of [localPath] ends at an ancestor of the path. *)
Lemma existing_parent_ancestor fuel l w p w' : Forall normal l →
  LocalFilesystem.existing_parent fuel (abs_path l) w = (Ok p, w') →
  ∃ k, p = abs_path (take k l) ∧ (k ≤ length l)%nat.
Proof.
  revert l w. induction fuel as [|fuel IH]; intros l w Hl; cbn [LocalFilesystem.existing_parent]; [done|].
  unfold ebind. destruct (Lstat _ w) as [[info|e] w1].
  - intros [= <- <-]. exists (length l). by rewrite take_ge.
  - destruct (negb _); [done|]. case_bool_decide; [done|].
    destruct l as [|x l _] using rev_ind; [done|]. rewrite Dir_abs_snoc by done.
    apply Forall_app in Hl as [Hl _]. intros (k & -> & Hle)%IH; [|done].
    exists k. rewrite length_app. simpl. rewrite take_app_le by done. split; [done|lia].
Qed.

(** One unit of fuel for each element and one for the root is enough. *)
Lemma existing_parent_fuel fuel l w : Forall normal l → (length l < fuel)%nat →
  LocalFilesystem.existing_parent fuel (abs_path l) w =
  LocalFilesystem.existing_parent (S fuel) (abs_path l) w.
Proof.
  revert l w. induction fuel as [|fuel IH]; intros l w Hl Hf; [lia|].
  remember (S fuel) as n. rewrite Heqn at 1. cbn [LocalFilesystem.existing_parent]. unfold ebind.
  destruct (Lstat (abs_path l) w) as [[info|e] w1]; [done|]. destruct (negb _); [done|].
  case_bool_decide; [done|]. subst n. destruct l as [|x l _] using rev_ind; [done|].
  rewrite Dir_abs_snoc by done. apply Forall_app in Hl as [Hl _]. apply IH; [done|].
  rewrite length_app in Hf. simpl in Hf. lia.
Qed.

Lemma Dir_ancestor l : Forall normal l → ∃ k, path_Dir (abs_path l) = abs_path (take k l).
Proof.
  intros Hl. destruct l as [|x l _] using rev_ind; [by exists O|].
  exists (length l). by rewrite Dir_abs_snoc, take_app_length by done.
Qed.

(** The path [localPath] gives, and the directory it was checked at. *)
Lemma localPath_confined uri name w p w' : LocalFilesystem.localPath (endpoint uri) name w = (Ok p, w') →
  ∃ l, LocalFilesystem.local_names uri "" = Ok (abs_path l, abs_path l) ∧ below l p ∧
    (name ≠ "" → ∃ k realParent realBase w1 w2 w3 w4,
      EvalSymlinks (abs_path (take k (clean_elems p))) w1 = (Ok realParent, w2) ∧
      EvalSymlinks (abs_path l) w3 = (Ok realBase, w4) ∧
      (realParent = realBase ∨ has_prefix (realBase +:+ "/") realParent = true)).
Proof.
  unfold LocalFilesystem.localPath. change (TransferEndpoint.URI (endpoint uri)) with uri.
  intros ([base full] & w1 & Hn & Hk)%ebindr_ok. injection Hn as Hn <-.
  destruct (local_names_confined _ _ _ _ Hn) as (l & Hbase & -> & Hl & Hb). exists l.
  split; [done|]. case_bool_decide as Hname.
  { injection Hk as <- <-. split; [|done]. exists []. by rewrite app_nil_r. }
  destruct Hb as (ns & -> & Hall).
  apply ebindr_ok in Hk as (parent & w2 & Hp & Hk). apply ebindr_ok in Hk as (rp & w3 & Hrp & Hk).
  apply ebindr_ok in Hk as (rb & w4 & Hrb & Hk). destruct (_ && _) eqn:Eg; [done|].
  injection Hk as <- <-. split; [by exists ns|]. intros _. rewrite clean_elems_abs by done.
  destruct (Dir_ancestor _ Hall) as [k0 Hdir]. rewrite Hdir in Hp.
  apply existing_parent_ancestor in Hp as (k & -> & _); [|by apply Forall_take].
  rewrite take_take in Hrp. exists (k `min` k0)%nat, rp, rb. do 4 eexists. split_and!; [done..|].
  apply andb_false_iff in Eg as [Eg|Eg]; apply negb_false_iff in Eg; [left|by right].
  by apply bool_decide_eq_true in Eg.
Qed.

Lemma artifact_confined Root uri p : ArtifactStore.file Root uri = Ok p →
  ∃ l, Abs Root = Ok (abs_path l) ∧ below l p ∧ p ≠ abs_path l.
Proof.
  unfold ArtifactStore.file. case_bool_decide; [done|]. destruct (url_Parse uri) as [u|]; [|done].
  destruct (negb _); [done|]. destruct (_ || _) eqn:Ee; [done|]. apply orb_false_iff in Ee as [Edot Ee].
  apply bool_decide_eq_false in Edot. destruct (Abs Root) as [root|] eqn:Ea; [|done]. cbn. intros [= <-].
  pose proof (Abs_abs _ _ Ea) as (l & -> & Hl). exists l. split; [done|].
  destruct (Join_key l _ Hl Ee) as (ns & -> & Hn & Hne).
  assert (Forall normal (l ++ ns)) as Hall by (by apply Forall_app).
  split; [by exists ns|]. intros E. apply abs_path_inj in E; [|done..].
  apply (Hne Edot). apply (app_inv_head l). by rewrite app_nil_r.
Qed.

Lemma ssh_confined uri name host p : RsyncSSH.sshTarget uri name = Ok (host, p) →
  ∃ u l, url_Parse uri = Ok u ∧ host = RsyncSSH.host_of u ∧ path_Clean u.(URL.Path) = abs_path l ∧ below l p.
Proof.
  unfold RsyncSSH.sshTarget. destruct (url_Parse uri) as [u|]; [|done].
  destruct (negb _); [done|]. destruct (_ || _); [done|].
  destruct (_ || _) eqn:Er; [done|]. apply orb_false_iff in Er as [_ Er]. apply negb_false_iff in Er.
  destruct (negb (bool_decide (name = "")) && _) eqn:Ee; [done|]. cbn zeta.
  destruct (negb (bool_decide (path_Join _ = _)) && _); [done|]. intros [= <- <-].
  exists u. assert (rooted u.(URL.Path) = true) as Hr.
  { destruct (rooted (URL.Path u)) eqn:E; [done|]. by rewrite Clean_unrooted in Er. }
  destruct (Clean_rooted _ Hr) as (l & Hl & Hn & _). exists l. split_and!; [done..|]. rewrite Hl.
  assert (LocalFilesystem.escapes (path_Clean name) = false) as Hesc.
  { apply andb_false_iff in Ee as [Ee|Ee]; [|done]. apply negb_false_iff, bool_decide_eq_true in Ee. by subst. }
  destruct (Join_key l name Hn Hesc) as (ns & -> & Hns & _). exists ns. split; [done|by apply Forall_app].
Qed.

(** The names of a transfer plan never leave their endpoint: a path of a file endpoint
    is the endpoint's directory or a path of plain names below it, whose closest existing
    directory is inside the endpoint's with all symbolic links resolved; a path of the
    artifact store is strictly below its root; a remote path is the URL's directory or
    below it, on the URL's host. *)
Theorem transfer_paths_confined :
  (∀ uri name w p w', LocalFilesystem.localPath (endpoint uri) name w = (Ok p, w') →
     ∃ l, LocalFilesystem.local_names uri "" = Ok (abs_path l, abs_path l) ∧ below l p ∧
       (name ≠ "" → ∃ k realParent realBase w1 w2 w3 w4,
         EvalSymlinks (abs_path (take k (clean_elems p))) w1 = (Ok realParent, w2) ∧
         EvalSymlinks (abs_path l) w3 = (Ok realBase, w4) ∧
         (realParent = realBase ∨ has_prefix (realBase +:+ "/") realParent = true))) ∧
  (∀ Root uri p, ArtifactStore.file Root uri = Ok p →
     ∃ l, Abs Root = Ok (abs_path l) ∧ below l p ∧ p ≠ abs_path l) ∧
  (∀ uri name host p, RsyncSSH.sshTarget uri name = Ok (host, p) →
     ∃ u l, url_Parse uri = Ok u ∧ host = RsyncSSH.host_of u ∧
       path_Clean u.(URL.Path) = abs_path l ∧ below l p).
Proof. split_and!; [apply localPath_confined|apply artifact_confined|apply ssh_confined]. Qed.
End confinement.

(** ** Remote commands *)
Lemma executor_quote v : free_of "'"%char v → SSHCommandExecutor.shellQuote v = Shell.shellQuote v.
Proof.
  intros Hv. unfold SSHCommandExecutor.shellQuote. case_bool_decide as E; [by rewrite E|].
  unfold shell, Shell.shellQuote. by rewrite !replace_byte_free.
Qed.

Lemma remote_words name args acc t : Forall (free_of "'"%char) (name :: args) →
  words Unquoted None acc (SSHCommandExecutor.remote_command name args +:+ newline +:+ t) =
  Some (acc ++ name :: args, t).
Proof.
  unfold SSHCommandExecutor.remote_command. revert name acc.
  induction args as [|a args IH]; intros name acc [Hn Ha]%Forall_cons; cbn [map join_byte];
    rewrite executor_quote by done.
  - by rewrite words_quote, words_end.
  - rewrite str_app_assoc, words_quote. rewrite str_app_String.
    change (String " " ?s) with (" " +:+ s). rewrite words_blank.
    rewrite (IH a (acc ++ [_]) Ha), <- app_assoc. done.
Qed.

(** A command run on a login node is the command that was asked for, argument by
    argument, as long as no argument has an apostrophe; an argument with two of them
    reaches the shell of the login node with the text between them unquoted, and is
    split there. *)
Theorem remote_arguments :
  (∀ name args t, Forall (free_of "'"%char) (name :: args) →
     words Unquoted None [] (SSHCommandExecutor.remote_command name args +:+ newline +:+ t) =
     Some (name :: args, t)) ∧
  words Unquoted None [] (SSHCommandExecutor.remote_command "cat" ["a'b c'd"] +:+ newline) =
    Some (["cat"; "a" +:+ dquote +:+ "\" +:+ dquote +:+ "b"; "c\" +:+ dquote +:+ dquote +:+ "d"], "").
Proof. split; [intros name args t; apply (remote_words name args [])|vm_compute; reflexivity]. Qed.

(** ** A resumed copy over rsync *)
Section rsync.
Context `{Commands W, NetURL}.
(** The files of the remote host and the temporary files of this one. *)
Context (remote temp : W → string → option string).

Definition same_files (w w' : W) : Prop :=
  (∀ p, remote w' p = remote w p) ∧ ∀ p, temp w' p = temp w p.

(** [os.CreateTemp] makes a new file, a write extends it; [mkdir] changes no file;
    rsync(1), [--append-verify]: data is appended to a shorter file of the receiver, the
    whole is compared with the file of the sender, and sent again where it differs; a
    file that is not shorter is left alone. *)
Record rsync_laws : Prop := {
  create_temp_law : ∀ pattern w f w', CreateTemp pattern w = (Ok f, w') →
    (∀ p, remote w' p = remote w p) ∧ temp w f = None ∧ temp w' f = Some "" ∧
    ∀ p, p ≠ f → temp w' p = temp w p;
  write_temp_law : ∀ f s w r w', WriteTemp f s w = (r, w') →
    (∀ p, remote w' p = remote w p) ∧ (∀ p, p ≠ f → temp w' p = temp w p) ∧
    ∀ u old, r = Ok u → temp w f = Some old → temp w' f = Some (old +:+ s);
  close_temp_law : ∀ f w r w', CloseTemp f w = (r, w') → same_files w w';
  remove_temp_law : ∀ f w r w', RemoveTemp f w = (r, w') → ∀ p, remote w' p = remote w p;
  mkdir_remote_law : ∀ args host dir w r w',
    CombinedOutput "ssh" (args ++ [host; "mkdir -p -- " +:+ shell dir]) w = (r, w') → same_files w w';
  append_verify_law : ∀ e tmp path w out w',
    CombinedOutput "rsync" ["-a"; "--append-verify"; "--partial"; "-e"; e; tmp;
      RsyncSSH.target +:+ ":" +:+ path] w = ((out, None), w') →
    remote w' path = remote w path ∨ remote w' path = temp w tmp
}.

Hypothesis laws : rsync_laws.

Lemma rsync_config_keeps e host w c t w' tmp : RsyncSSH.rsyncSSHConfig e host w = (Ok (c, t), w') →
  is_Some (temp w tmp) → (∀ p, remote w' p = remote w p) ∧ temp w' tmp = temp w tmp ∧ t = RsyncSSH.target.
Proof.
  unfold RsyncSSH.rsyncSSHConfig, ebindr, ebind, eret. destruct (url_Parse _) as [u|]; [|done].
  destruct (CreateTemp _ w) as [[f|] w1] eqn:E1; [|done].
  apply (create_temp_law laws) in E1 as (Hr1 & Hfresh & _ & Ht1).
  destruct (WriteTemp f _ w1) as [[u1|] w2] eqn:E2;
    [|by destruct (CloseTemp f w2) as [? w3]; destruct (RemoveTemp f w3) as [? w4]].
  apply (write_temp_law laws) in E2 as (Hr2 & Ht2 & _).
  destruct (CloseTemp f w2) as [[u2|] w3] eqn:E3; [|by destruct (RemoveTemp f w3) as [? w4]].
  apply (close_temp_law laws) in E3 as [Hr3 Ht3]. intros [= <- <- <-] [s Hs].
  assert (tmp ≠ f) as Hne by (intros ->; by rewrite Hfresh in Hs).
  split; [intros p; by rewrite Hr3, Hr2, Hr1|]. by rewrite Ht3, Ht2, Ht1.
Qed.

(** A copy over rsync that is resumed is never completed: [Put] hands rsync a file with
    the missing bytes only, and rsync takes it for the whole file, so that the partial
    copy stays as it was or is replaced by its own missing end; neither is the content
    that [Put] promises unless there was nothing before or nothing is missing. *)
Theorem rsync_resume_incomplete e name host path rd off w u w' :
  0 < off → RsyncSSH.sshTarget e.(TransferEndpoint.URI) name = Ok (host, path) →
  RsyncSSH.Put e name rd off w = (Ok u, w') →
  (remote w' path = remote w path ∨ remote w' path = Some rd.(bytes)) ∧
  ∀ old, remote w path = Some old → old ≠ "" → rd.(bytes) ≠ "" →
    remote w' path ≠ Some (old +:+ rd.(bytes)).
Proof.
  intros Hoff Ht HP. assert (remote w' path = remote w path ∨ remote w' path = Some rd.(bytes)) as Hc.
  { revert HP. unfold RsyncSSH.Put, ebindr at 1. destruct (CreateTemp _ w) as [[tmp|] w1] eqn:E1; [|done].
    apply (create_temp_law laws) in E1 as (Hr1 & _ & Htmp & _). unfold ebind at 1. unfold ebind at 1.
    destruct (WriteTemp tmp _ w1) as [wr w2] eqn:E2. apply (write_temp_law laws) in E2 as (Hr2 & _ & Hw2).
    destruct wr as [u2|]; [|unfold ebindr, ebind, eret; by destruct (RemoveTemp tmp w2)].
    specialize (Hw2 u2 _ eq_refl Htmp).
    destruct (read_error rd); [unfold ebindr, ebind, eret; by destruct (RemoveTemp tmp w2)|].
    unfold ebindr at 1. destruct (CloseTemp tmp w2) as [[u3|] w3] eqn:E3;
      [|unfold ebind, eret; by destruct (RemoveTemp tmp w3)].
    apply (close_temp_law laws) in E3 as [Hr3 Ht3]. unfold ebindr at 1, eret at 1. rewrite Ht.
    unfold ebind at 1. destruct (CombinedOutput "ssh" _ w3) as [[out err] w4] eqn:E4.
    apply (mkdir_remote_law laws) in E4 as [Hr4 Ht4].
    destruct err as [err|]; [unfold ebind, eret; by destruct (RemoveTemp tmp w4)|].
    unfold RsyncSSH.rsync, ebindr at 1.
    destruct (RsyncSSH.rsyncSSHConfig e host w4) as [[[cfg t]|] w5] eqn:E5;
      [|unfold ebind, eret; by destruct (RemoveTemp tmp w5)].
    apply (rsync_config_keeps _ _ _ _ _ _ tmp) in E5 as (Hr5 & Ht5 & ->); [|rewrite Ht4, Ht3, Hw2; eauto].
    rewrite (proj2 (Z.gtb_lt off 0) Hoff). unfold ebind at 1.
    destruct (CombinedOutput "rsync" _ w5) as [[out2 err2] w6] eqn:E6.
    unfold ebind. destruct (RemoveTemp cfg w6) as [x7 w7] eqn:E7. apply (remove_temp_law laws) with (p := path) in E7.
    unfold eret at 1. destruct (RemoveTemp tmp w7) as [x8 w8] eqn:E8. apply (remove_temp_law laws) with (p := path) in E8.
    destruct err2; [done|]. intros [= _ <-]. rewrite E8, E7.
    apply (append_verify_law laws) in E6. by rewrite Hr5, Hr4, Hr3, Hr2, Hr1, Ht5, Ht4, Ht3, Hw2 in E6. }
  split; [done|]. intros old Hold Ho Hb Hall. destruct Hc as [Hc|Hc]; rewrite Hc in Hall.
  - rewrite Hold in Hall. injection Hall as E. apply Hb. apply (str_app_inv_l old). by rewrite <- E, str_app_nil_r.
  - injection Hall as E. apply Ho. apply (str_app_inv_r _ _ (bytes rd)). by rewrite <- E.
Qed.
End rsync.

(** ** A directory as a destination *)
Section directory.
Context `{OSLaws W, FileWrites W, NetURL, Minio W, Env}.
Context (Root : string) (Credentials : option (string → result S3Compatible.S3Credentials)).
Context (distinct : place → place → Prop).

Lemma plain_normal d : plain d → normal d ∧ normal (d +:+ ".partial").
Proof.
  intros Hd. pose proof (plain_free _ Hd) as Hf. destruct Hd as [Hne Hd].
  assert (free_of slash (d +:+ ".partial")) as Hp.
  { unfold free_of in *. by rewrite str_forall_app, Hf. }
  split; split_and!; try done.
  all: intros E; try (rewrite E in Hd; done).
  all: apply (f_equal str_length) in E; rewrite str_length_app in E; simpl in E; lia.
Qed.

Lemma Clean_normal e : normal e → path_Clean e = e.
Proof.
  intros He. pose proof He as (Hne & _ & _ & Hf). destruct e as [|c e]; [done|].
  assert (rooted (String c e) = false) as Hr.
  { destruct (rooted (String c e)) eqn:E; [|done]. apply has_prefix_spec in E as [t E]. rewrite E in Hf. done. }
  unfold path_Clean. rewrite bool_decide_false by done. rewrite Hr. unfold clean_elems.
  rewrite split_byte_single, Hr by done. cbn [foldl]. by rewrite normal_step.
Qed.

Lemma normal_inside e : normal e → LocalFilesystem.escapes e = false.
Proof.
  intros (_ & _ & Hd & Hf). unfold LocalFilesystem.escapes. rewrite (bool_decide_false (e = "..")) by done.
  rewrite orb_false_r. apply orb_false_iff. split.
  - destruct (rooted e) eqn:E; [|done]. apply has_prefix_spec in E as [t ->]. done.
  - destruct (has_prefix "../" e) eqn:E; [|done]. apply has_prefix_spec in E as [t ->]. done.
Qed.

(** The path and the place of a plain file name at a file endpoint. *)
Lemma local_names_entry uri base e : LocalFilesystem.local_names uri "" = Ok (abs_path base, abs_path base) →
  Forall normal base → normal e →
  LocalFilesystem.local_names uri e = Ok (abs_path base, abs_path (base ++ [e])).
Proof.
  intros Hn Hb He. revert Hn.
  unfold LocalFilesystem.local_names. destruct (url_Parse uri) as [u|]; [|done]. cbn [mbind result_bind].
  destruct (_ && _); [done|]. destruct (Abs _) as [a|]; [|done]. cbn [mbind result_bind].
  rewrite (bool_decide_true ("" = "")) by done. intros [= ->].
  pose proof He as (Hne & Hd1 & Hd2 & Hf). rewrite bool_decide_false, Clean_normal by done.
  rewrite normal_inside by done.
  change (path_Join [abs_path base; e]) with (path_Join [abs_path base; join_byte slash [e]]).
  rewrite Join_abs; [done..|by apply Forall_singleton|done].
Qed.

Lemma file_place uri base e : LocalFilesystem.local_names uri "" = Ok (abs_path base, abs_path base) →
  Forall normal base → normal e → place_of Root Credentials uri e = Some (FileAt (abs_path (base ++ [e]))).
Proof. intros Hn Hb He. eapply local_names_place, local_names_entry; eauto. Qed.

(** Blobs copied to a directory itself are apart there, if its files are. *)
Lemma directory_separated uri base :
  LocalFilesystem.local_names uri "" = Ok (abs_path base, abs_path base) → Forall normal base →
  (∀ x y, normal x → normal y → x ≠ y →
     distinct (FileAt (abs_path (base ++ [x]))) (FileAt (abs_path (base ++ [y])))) →
  separated (apart_of Root Credentials distinct) uri "".
Proof.
  intros Hn Hb Hd.
  assert (∀ x y, normal x → normal y → x ≠ y → apart_of Root Credentials distinct (uri, x) (uri, y)) as Ha.
  { intros x y Hx Hy Hne p q. simpl. rewrite !(file_place uri base) by done. intros [= <-] [= <-]. auto. }
  split; unfold destinationName; rewrite bool_decide_true by done; intros d b Hpd Hpb;
    destruct (plain_normal d Hpd) as [Hd1 Hd2]; destruct (plain_normal b Hpb) as [Hb1 Hb2].
  - auto.
  - assert (b +:+ ".partial" ≠ d) as Hne by (by apply plain_no_extension). auto.
  - intros Hne. apply Ha; [done..|]. by intros E%str_app_inv_r.
Qed.
End directory.

(** ** Resuming a copy between two directories of this machine *)
Section resume.
Context `{OSLaws W, FileWrites W, NetURL, HTTPClient W, Minio W, Env, Commands W, Clock W, Sha256}.
Context (Root : string) (content : W → place → option string) (distinct : place → place → Prop).
#[local] Abbreviation objects := (objects_of Root None content).
#[local] Abbreviation apart := (apart_of Root None distinct).

(** A directory that is there, whose files can be looked at and read; *)
Definition entry (base : list string) (x : string) : place := FileAt (abs_path (base ++ [x])).
Record readable_dir (base : list string) : Prop := {
  dir_there : ∀ w, is_ok (Lstat (abs_path base) w).1 = true;
  dir_real : ∃ real, ∀ w, (EvalSymlinks (abs_path base) w).1 = Ok real;
  stat_there : ∀ x w, normal x →
    is_ok (os_Stat (abs_path (base ++ [x])) w).1 = bool_decide (is_Some (content w (entry base x)));
  open_there : ∀ x w, normal x → is_Some (content w (entry base x)) →
    ∃ rd, (OpenFile (abs_path (base ++ [x])) w).1 = Ok rd ∧ rd.(read_error) = None;
  seek_there : ∀ rd off w, 0 < off → rd.(read_error) = None →
    ∃ rd', (seek_reader rd off w).1 = Ok rd' ∧ rd'.(read_error) = None
}.
(** and one to which files can be written. *)
Record writable_dir (base : list string) : Prop := {
  mkdir_there : ∀ w, is_ok (MkdirAll (abs_path base) w).1 = true;
  open_write_there : ∀ x w, normal x → is_ok (open_write (abs_path (base ++ [x])) w).1 = true;
  truncate_there : ∀ x w, normal x → is_ok (truncate_file (abs_path (base ++ [x])) w).1 = true;
  seek_writer_there : ∀ x off w, normal x → is_ok (seek_writer (abs_path (base ++ [x])) off w).1 = true;
  write_there : ∀ x off s w, normal x → is_ok (write_at (abs_path (base ++ [x])) off s w).1 = true;
  close_there : ∀ x w, normal x → is_ok (Close (abs_path (base ++ [x])) w).1 = true;
  rename_there : ∀ x y w, normal x → normal y → is_Some (content w (entry base x)) →
    is_ok (Rename (abs_path (base ++ [x])) (abs_path (base ++ [y])) w).1 = true
}.

Context (files : file_laws content distinct) (disk : disk_laws content).
Section endpoint.
Context (uri : string) (base : list string).
Context (Huri : LocalFilesystem.local_names uri "" = Ok (abs_path base, abs_path base)) (Hbase : Forall normal base).

Lemma localPath_there x w : readable_dir base → normal x → ∃ w',
  LocalFilesystem.localPath (endpoint uri) x w = (Ok (abs_path (base ++ [x])), w') ∧ same_content content w w'.
Proof.
  intros Hd Hx. destruct (LocalFilesystem.localPath (endpoint uri) x w) as [r w'] eqn:E.
  pose proof (localPath_law Root None content distinct files _ _ _ _ _ E) as [Hs _]. exists w'. split; [|done]. f_equal.
  revert E. unfold LocalFilesystem.localPath, ebindr at 1. change (TransferEndpoint.URI (endpoint uri)) with uri.
  unfold eret at 1. rewrite (local_names_entry uri base x Huri Hbase Hx).
  rewrite bool_decide_false by apply Hx. unfold ebindr at 1. rewrite Dir_abs_snoc by (by apply Forall_app; split; [|apply Forall_singleton]).
  cbn [LocalFilesystem.existing_parent]. unfold ebind at 1. pose proof (dir_there _ Hd w) as Hl.
  destruct (Lstat (abs_path base) w) as [[i|] w1]; [|done]. unfold eret at 1.
  destruct (dir_real _ Hd) as [real Hreal]. unfold ebindr at 1. pose proof (Hreal w1) as Hr1.
  destruct (EvalSymlinks (abs_path base) w1) as [r1 w2]. simpl in Hr1. subst r1.
  unfold ebindr at 1. pose proof (Hreal w2) as Hr2.
  destruct (EvalSymlinks (abs_path base) w2) as [r2 w3]. simpl in Hr2. subst r2.
  rewrite bool_decide_true by done. by intros [= <- _].
Qed.

Lemma object_there x w : normal x → objects w uri x = content w (entry base x).
Proof. intros Hx. unfold objects_of. by rewrite (file_place Root None uri base x). Qed.

Lemma local_readable P : (∀ x, P x → normal x) → readable_dir base →
  readable objects apart LocalFilesystem.LocalFilesystem uri P.
Proof.
  intros HP Hd. split; [by apply local_lawful| |];
    cbn [Transfer.Exists Transfer.Open_ LocalFilesystem.LocalFilesystem].
  - intros x w Hx%HP. rewrite object_there by done. unfold LocalFilesystem.Exists, ebindr, ebind.
    destruct (localPath_there x w Hd Hx) as (w1 & -> & Hs). rewrite <- Hs.
    pose proof (stat_there _ Hd x w1 Hx) as Hst. destruct (os_Stat _ w1) as [st w2]. simpl in *. rewrite <- Hst.
    by destruct st.
  - intros x off w Hx%HP Hoff. rewrite object_there by done. unfold LocalFilesystem.Open, ebindr.
    destruct (localPath_there x w Hd Hx) as (w1 & -> & Hs). rewrite <- Hs. intros Hsome.
    destruct (open_there _ Hd x w1 Hx Hsome) as (rd & Hrd & Hre).
    destruct (OpenFile _ w1) as [r w2]. simpl in Hrd. subst r.
    destruct (Z.gtb_spec off 0); [|by exists rd]. by apply (seek_there _ Hd).
Qed.

Lemma local_writable P : (∀ x, P x → normal x) → readable_dir base → writable_dir base →
  Transfer.writable objects LocalFilesystem.LocalFilesystem uri P.
Proof.
  intros HP Hd Hw. split; cbn [Transfer.Put Transfer.Commit_ LocalFilesystem.LocalFilesystem].
  - intros x rd off w Hx%HP _ Hre. unfold LocalFilesystem.Put, ebindr at 1.
    destruct (localPath_there x w Hd Hx) as (w1 & -> & _).
    rewrite Dir_abs_snoc by (by apply Forall_app; split; [|apply Forall_singleton]).
    unfold ebindr at 1. pose proof (mkdir_there _ Hw w1) as E.
    destruct (MkdirAll _ w1) as [[[]|] w2]; [|done]. clear E.
    unfold ebindr at 1. pose proof (open_write_there _ Hw x w2 Hx) as E.
    destruct (open_write _ w2) as [[[]|] w3]; [|done]. clear E.
    set (p := abs_path (base ++ [x])) in *. unfold ebind at 1.
    assert (is_ok ((if off =? 0 then let? _ := truncate_file p in seek_writer p 0 else seek_writer p off) w3).1 = true) as E.
    { destruct (off =? 0); [|by apply (seek_writer_there _ Hw)]. unfold ebindr.
      pose proof (truncate_there _ Hw x w3 Hx) as E. fold p in E.
      destruct (truncate_file p w3) as [[[]|] w4]; [|done]. by apply (seek_writer_there _ Hw). }
    destruct ((if off =? 0 then let? _ := truncate_file p in seek_writer p 0 else seek_writer p off) w3)
      as [[[]|] w4]; [|done]. clear E. unfold ebind.
    pose proof (write_there _ Hw x off rd.(bytes) w4 Hx) as E. fold p in E.
    destruct (write_at p off _ w4) as [[[]|] w5]; [|done]. clear E.
    pose proof (close_there _ Hw x w5 Hx) as E. fold p in E.
    destruct (Close p w5) as [cl w6]. by rewrite Hre.
  - intros x y w Hx%HP Hy%HP. rewrite object_there by done. unfold LocalFilesystem.Commit, ebindr at 1.
    destruct (localPath_there x w Hd Hx) as (w1 & -> & Hs1). unfold ebindr.
    destruct (localPath_there y w1 Hd Hy) as (w2 & -> & Hs2). rewrite <- Hs1, <- Hs2.
    by apply (rename_there _ Hw).
Qed.

Lemma local_connector : connector (server_connectors Root) (endpoint uri) = Ok LocalFilesystem.LocalFilesystem.
Proof.
  simpl. unfold ArtifactStore.CanHandle, LocalFilesystem.CanHandle.
  change (TransferEndpoint.URI (endpoint uri)) with uri. revert Huri. unfold LocalFilesystem.local_names.
  destruct (url_Parse uri) as [u|]; [|done]. cbn [mbind result_bind].
  destruct (_ && _) eqn:E; [done|]. intros _.
  apply andb_false_iff in E as [E|E]; apply negb_false_iff, bool_decide_eq_true in E; by rewrite E.
Qed.
End endpoint.

(** C22: An interrupted copy between two directories of this machine can be finished: when
    the source directory still holds the blobs of a plan under their digests, and each
    blob is already in place at the destination or what an earlier attempt left of it
    there is a part of it, then [Materialize] over the registered connectors succeeds, and
    every blob is in place with bytes of its digest. This is for two directories whose
    files are distinct and a disk on which looking, reading, writing and renaming in them
    succeed. *)
Theorem local_resume_completes plan target w src dst :
  (∀ w n w', UnixNano w = (n, w') → same_content content w w') →
  let source := plan.(DataTransferPlan.Source) in
  let destination := plan.(DataTransferPlan.Destination) in
  let digests := blob_digests plan.(DataTransferPlan.Blobs) in
  LocalFilesystem.local_names source.(TransferLocation.URI) "" = Ok (abs_path src, abs_path src) →
  LocalFilesystem.local_names destination.(TransferLocation.URI) "" = Ok (abs_path dst, abs_path dst) →
  Forall normal src → Forall normal dst →
  source.(TransferLocation.Path) = "" → destination.(TransferLocation.Path) = "" →
  readable_dir src → readable_dir dst → writable_dir dst →
  (∀ x y, normal x → normal y → x ≠ y → distinct (entry dst x) (entry dst y)) →
  (∀ x y, normal x → normal y → distinct (entry src x) (entry dst y)) →
  TransferStrategy_string plan.(DataTransferPlan.Strategy) ≠ "destination-pull" →
  Forall plain digests →
  (∀ d, d ∈ digests → ∃ s, content w (entry src d) = Some s ∧ matches d s ∧
     ((∃ s', content w (entry dst d) = Some s' ∧ matches d s') ∨
      ∀ p, content w (entry dst (d +:+ ".partial")) = Some p → ∃ q, s = p +:+ q)) →
  ∃ t run w', Materialize (server_connectors Root) plan target w = ((t, run, None), w') ∧
    ∀ d, d ∈ digests → ∃ s, content w' (entry dst d) = Some s ∧ matches d s.
Proof.
  intros Hclock source destination digests Hsrc Hdst Hns Hnd Hps Hpd Hrs Hrd Hwd Hda Hcross Hpull Hplain Hres.
  subst source destination.
  assert (∀ w n w', UnixNano w = (n, w') → same_objects objects w w') as Hc.
  { intros w0 n w1 E. eapply content_objects, Hclock, E. }
  assert (∀ d, d ∈ digests → normal d ∧ normal (d +:+ ".partial")) as Hnorm.
  { intros d Hd. rewrite Forall_forall in Hplain. by apply plain_normal, Hplain. }
  assert (∀ n x, source_names plan n x → normal x) as HPs.
  { intros n x (d & Hd & ->). rewrite Hps. unfold sourceName. by apply Hnorm. }
  assert (∀ x, destination_names plan x → normal x) as HPd.
  { intros x (d & Hd & Hx). rewrite Hpd in Hx. unfold destinationName in Hx. rewrite bool_decide_true in Hx by done.
    destruct (Hnorm d Hd). by destruct Hx as [-> | ->]. }
  assert (separated apart plan.(DataTransferPlan.Destination).(TransferLocation.URI)
    plan.(DataTransferPlan.Destination).(TransferLocation.Path)) as Hsep.
  { rewrite Hpd. by apply (directory_separated Root None distinct _ dst). }
  destruct (resumed_materialization objects apart Hc (server_connectors Root)
    LocalFilesystem.LocalFilesystem LocalFilesystem.LocalFilesystem plan target w) as (t & run & w' & HM).
  - by eapply local_connector.
  - by eapply local_connector.
  - eapply local_readable; eauto.
  - eapply local_readable; eauto.
  - eapply local_writable; eauto.
  - done.
  - exact Hsep.
  - intros b d Hb Hd. cbv zeta. rewrite Hps, Hpd. unfold sourceName, destinationName. simpl.
    destruct (Hnorm b Hb) as [Hb1 _], (Hnorm d Hd) as [Hd1 Hd2].
    split; intros x y; cbn [fst snd]; rewrite (file_place Root None _ src), (file_place Root None _ dst) by done;
      intros [= <-] [= <-]; by apply Hcross.
  - done.
  - apply Forall_forall. intros d Hd. destruct (Hres d Hd) as (s & Hs & Hm & Hpart). destruct (Hnorm d Hd) as [Hd1 Hd2].
    exists s. rewrite Hps, Hpd. unfold sourceName, destinationName. simpl.
    rewrite (object_there _ src), !(object_there _ dst) by done. done.
  - exists t, run, w'. split; [done|]. intros d Hd.
    pose proof Hd as (b & -> & Hb)%list_elem_of_fmap.
    eapply (blobs_match objects apart Hc) in HM as (s & Hs & Hm); [| | |done|exact Hsep|exact Hb].
    + exists s. rewrite Hpd in Hs. unfold destinationName in Hs. simpl in Hs.
      rewrite (object_there _ dst) in Hs; [done..|]. by apply Hnorm.
    + intros sc. rewrite (local_connector _ src) by done. intros [= <-]. by apply faithful_quiet with (apart := apart), local_faithful.
    + intros dc. rewrite (local_connector _ dst) by done. intros [= <-]. by apply local_faithful.
Qed.
End resume.

(** ** A machine with two directories, for evaluating the definitions *)
Module Example.
#[global] Instance place_eq_dec : EqDecision place.
Proof. solve_decision. Defined.

Definition world : Type := place → option string.
Definition update (p : place) (c : option string) (w : world) : world :=
  λ q, if bool_decide (q = p) then c else w q.
Lemma update_eq p c w : update p c w p = c.
Proof. unfold update. by rewrite bool_decide_true. Qed.
Lemma update_ne p q c w : q ≠ p → update p c w q = w q.
Proof. intros. unfold update. by rewrite bool_decide_false. Qed.

Definition missing : error := "no such file or directory".
#[local] Instance machine : OS world := {|
  Getwd := Ok "/";
  EvalSymlinks p := eret (Ok p);
  Lstat p := eret (Ok (FileInfo.mk true false 0 zero));
  IsNotExist e := bool_decide (e = missing);
  ReadDir _ := eret (Ok []);
  Readlink _ := eret (Err missing);
  OpenFile p := λ w, (match w (FileAt p) with Some s => Ok (mk_reader s None) | None => Err missing end, w);
  MkdirAll _ := eret (Ok tt);
  Create p := λ w, (Ok tt, update (FileAt p) (Some "") w);
  WriteBytes p s := λ w, (Ok tt, update (FileAt p) (Some s) w);
  Close _ := eret (Ok tt);
  Rename p f := λ w, match w (FileAt p) with
    | Some s => (Ok tt, update (FileAt f) (Some s) (update (FileAt p) None w))
    | None => (Err missing, w)
    end;
  RemoveFile p := λ w, (Ok tt, update (FileAt p) None w)
|}.
#[local] Instance machine_laws : OSLaws world.
Proof. by intros wd [= <-]. Qed.
#[local] Instance writes : FileWrites world := {|
  os_Stat p := λ w, (match w (FileAt p) with Some _ => Ok tt | None => Err missing end, w);
  seek_reader rd off := eret (Ok (mk_reader (drop_str (Z.to_nat off) rd.(bytes)) rd.(read_error)));
  open_write p := λ w, (Ok tt, update (FileAt p) (Some (default "" (w (FileAt p)))) w);
  truncate_file p := λ w, (Ok tt, update (FileAt p) (Some "") w);
  seek_writer _ _ := eret (Ok tt);
  write_at p off s := λ w,
    (Ok tt, update (FileAt p) (Some (take_str (Z.to_nat off) (default "" (w (FileAt p))) +:+ s)) w)
|}.
(** A web server with one page, which it sends whole whatever range is asked; buckets that
    hold objects; and no command runs. *)
#[local] Instance page : HTTPClient world :=
  λ _ _ _, eret (Ok (Response.mk 200 "200 OK" (mk_reader "abc" None))).
Definition object (c : MinioClient) (b o : string) : place := ObjectAt c.(MinioClient.Endpoint) b o.
#[local] Instance buckets : Minio world := {|
  minio_New c := Ok c;
  StatObject c b o := λ w,
    (match w (object c b o) with Some _ => None | None => Some ("NoSuchKey", missing) end, w);
  GetObject c b o := λ w,
    (if bool_decide (o = "") then Err missing
     else Ok (match w (object c b o) with Some s => mk_reader s None | None => mk_reader "" (Some missing) end), w);
  seek_object rd off := eret (Ok (mk_reader (drop_str (Z.to_nat off) rd.(bytes)) rd.(read_error)));
  PutObject c b o rd := λ w,
    if bool_decide (o = "") then (Err missing, w)
    else match rd.(read_error) with
         | Some err => (Err err, w)
         | None => (Ok tt, update (object c b o) (Some rd.(bytes)) w)
         end;
  CopyObject c b src dst := λ w,
    if bool_decide (src = "" ∨ dst = "") then (Err missing, w)
    else match w (object c b src) with
         | Some s => (Ok tt, update (object c b dst) (Some s) w)
         | None => (Err missing, w)
         end;
  RemoveObject c b o := λ w, (Ok tt, update (object c b o) None w)
|}.
#[local] Instance no_commands : Commands world := {|
  CombinedOutput _ _ := eret ("", Some (StartError missing));
  StartCommand _ _ := eret (Err missing);
  CreateTemp _ := eret (Err missing);
  WriteTemp _ _ := eret (Err missing);
  CloseTemp _ := eret (Err missing);
  RemoveTemp _ := eret tt
|}.
#[local] Instance environment : Env := λ _, "".
#[local] Instance hash : Sha256 := λ s, s.
#[local] Instance clock : Clock world := eret 5.
#[local] Instance urls : NetURL := λ s,
  if has_prefix "file://" s then Ok (URL.mk "file" None "" (drop_str 7 s) (λ _, ""))
  else if has_prefix "http://" s then Ok (URL.mk "http" None "x" (drop_str 8 s) (λ _, ""))
  else if has_prefix "ssh://host" s then Ok (URL.mk "ssh" (Some "u") "host" (drop_str 10 s) (λ _, ""))
  else Err "unknown scheme".

Definition content (w : world) : place → option string := w.

Lemma machine_files : file_laws content (≠).
Proof.
  unfold content. split; unfold same_content, only_at; simpl.
  - by intros p w r w' [= <- <-].
  - by intros p w r w' [= <- <-].
  - by intros p w r w' [= <- <-].
  - intros p w r w' [= <- <-]. split; [done|]. intros rd. by destruct (w (FileAt p)); intros [= <-].
  - by intros rd off w r w' [= <- <-].
  - by intros p w r w' [= <- <-].
  - intros p w r w' [= <- <-] q Hq. by rewrite update_ne.
  - intros p w r w' [= <- <-] q Hq. by rewrite update_ne.
  - by intros p off w r w' [= <- <-].
  - intros p off s w r w' [= <- <-] q Hq. by rewrite update_ne.
  - by intros p w r w' [= <- <-].
  - intros p f w r w'. destruct (w (FileAt p)) as [s|] eqn:E; intros [= <- <-]; [|by split].
    split; [intros q Hp Hf; by rewrite !update_ne|]. by rewrite update_eq.
Qed.
Lemma machine_disk : disk_laws content.
Proof.
  unfold content. split; simpl.
  - intros p w err w'. by destruct (w (FileAt p)).
  - intros rd off w rd' w' [= <- <-] _. done.
  - intros p w r w' [= <- <-]. rewrite update_eq. split; [|eauto].
    destruct (w (FileAt p)); [by left|by right].
  - intros p w r w' [= <- <-]. rewrite update_eq. auto.
  - intros p off s w r w' old [= <- <-] Hw ->. rewrite update_eq, Hw. simpl. rewrite Nat2Z.id, take_str_all. eauto.
Qed.
Lemma machine_buckets : s3_laws content (≠).
Proof.
  unfold content. split; unfold same_content, only_at; simpl; unfold object.
  - intros c b o w r w' [= <- <-]. split; [done|]. intros err. by destruct (w _).
  - intros c b o w r w'. case_bool_decide as Ho; intros [= <- <-]; (split; [done|]); [done|].
    intros rd. set (p := ObjectAt (MinioClient.Endpoint c) b o). destruct (w p) as [s|] eqn:E;
      intros [= <-]; (split; [done|]); split; simpl; try done.
    intros _. exists "". by rewrite str_app_nil_r.
  - intros rd off w r w' [= <- <-]. split; [done|]. by intros _ rd' [= <-].
  - intros c b o rd w r w'. set (p := ObjectAt (MinioClient.Endpoint c) b o).
    case_bool_decide as Ho; [intros [= <- <-]; by split_and!; auto|].
    destruct (read_error rd) eqn:Er; intros [= <- <-]; [by split_and!; auto|].
    rewrite update_eq. split_and!; [done| |by right|done]. intros q Hq. by rewrite update_ne.
  - intros c b src dst w r w'. set (p := ObjectAt (MinioClient.Endpoint c) b src).
    case_bool_decide as Ho; [intros [= <- <-]; by split_and!|].
    destruct (w p) as [s|] eqn:E; intros [= <- <-]; split_and!; try done.
    + intros q Hq. by rewrite update_ne.
    + intros _. by rewrite update_eq.
  - intros c b o w r w' [= <- <-] q Hq. by rewrite update_ne.
Qed.

Definition blob : BlobDescriptor := BlobDescriptor.mk "sha256:abc" 3.
Definition at_ (uri : string) : TransferLocation := (zero : TransferLocation) <| TransferLocation.URI := uri |>.
Definition plan : DataTransferPlan :=
  (Plan (at_ "file:///src") (at_ "file:///dst") [blob] ∅) <| DataTransferPlan.ID := "p" |>.
(** An interrupted copy is at the destination. *)
Definition disk : world := update (FileAt "/src/sha256:abc") (Some "abc")
  (update (FileAt "/dst/sha256:abc.partial") (Some "a") (λ _, None)).
Definition copied : ArtifactMaterialization * DataTransferRun * option error * world :=
  Materialize (server_connectors "/artifacts") plan zero disk.

Lemma copied_ok : copied.1.2 = None ∧ copied.2 (FileAt "/dst/sha256:abc") = Some "abc" ∧
  copied.2 (FileAt "/dst/sha256:abc.partial") = None ∧
  copied.1.1.2.(DataTransferRun.TransferredBytes) = 2.
Proof. vm_compute. done. Qed.

Lemma destination_separated : separated (apart_of "/artifacts" None (≠)) "file:///dst" "".
Proof.
  apply (directory_separated _ _ _ _ ["dst"]); [done|by apply Forall_singleton|].
  intros x y Hx Hy Hne [= E]. done.
Qed.

(** A download from the web server to the directory. *)
Definition download : DataTransferPlan :=
  (Plan (at_ "http://x") (at_ "file:///dst") [blob] ∅) <| DataTransferPlan.ID := "q" |>.
Definition downloaded : ArtifactMaterialization * DataTransferRun * option error * world :=
  Materialize (server_connectors "/artifacts") download zero (λ _, None).
Lemma downloaded_ok : downloaded.1.2 = None.
Proof. vm_compute. reflexivity. Qed.

Lemma server_transfers_verified_witness : ∃ p s,
  place_of "/artifacts" None "file:///dst" "sha256:abc" = Some p ∧ downloaded.2 p = Some s ∧
  matches "sha256:abc" s.
Proof.
  pose proof downloaded_ok as En. destruct downloaded as [[[t run] err] w'] eqn:E.
  unfold downloaded in E. simpl in En. subst err.
  refine (server_transfers_verified content (≠) "/artifacts" download zero _ t run w' machine_files
    machine_buckets _ _ eq_refl eq_refl _ _ destination_separated E blob (list_elem_of_here _ _)).
  - by intros m uri range w r w1 [= _ <-].
  - by intros w n w1 [= _ <-].
  - intros u [= <-]. set_solver.
  - apply Forall_singleton. by split.
Defined.

Lemma machine_readable base : readable_dir content base.
Proof.
  split; simpl; unfold content.
  - done.
  - by eexists.
  - intros x w _. unfold entry. by destruct (w _).
  - intros x w _ [s Hs]. unfold entry in Hs. rewrite Hs. by eexists.
  - intros rd off w _ Hr. by eexists.
Qed.
Lemma machine_writable base : writable_dir content base.
Proof.
  split; try done. intros x y w _ _ [s Hs]. unfold entry, content in Hs. simpl. by rewrite Hs.
Qed.

Lemma local_resume_completes_witness : ∃ t run w',
  Materialize (server_connectors "/artifacts") plan zero disk = ((t, run, None), w') ∧
  ∀ d, d ∈ ["sha256:abc"] → ∃ s, content w' (entry ["dst"] d) = Some s ∧ matches d s.
Proof.
  apply (local_resume_completes "/artifacts" content (≠) machine_files machine_disk plan zero disk ["src"] ["dst"]);
    try reflexivity; try (apply Forall_singleton; by split_and!); try apply machine_readable; try apply machine_writable.
  - by intros w n w' [= _ <-].
  - intros x y _ _ Hne [= E]. done.
  - intros x y _ _. discriminate.
  - discriminate.
  - intros d ->%list_elem_of_singleton. exists "abc". split; [vm_compute; reflexivity|]. split; [reflexivity|].
    right. intros p Hp. vm_compute in Hp. injection Hp as <-. exists "bc". reflexivity.
Defined.

Lemma transfer_paths_confined_witness : ∃ u l, url_Parse "ssh://host/data" = Ok u ∧
  "u@host" = RsyncSSH.host_of u ∧ path_Clean u.(URL.Path) = abs_path l ∧ below l "/data/x/y".
Proof.
  destruct (transfer_paths_confined (W := world)) as (_ & _ & Hssh).
  apply (Hssh "ssh://host/data" "x//./y"). vm_compute. reflexivity.
Defined.

(** An endpoint at the root directory takes no name at all. *)
Lemma root_endpoint_refused :
  RsyncSSH.sshTarget "ssh://host/" "data/x" = Err "SSH transfer path escapes endpoint" ∧
  (LocalFilesystem.localPath (endpoint "file:///") "data/x" disk).1 =
    Err "transfer path escapes endpoint via symlink".
Proof. vm_compute. done. Qed.
(** A server that answers a range with the whole page spoils a resumed copy. *)
Lemma range_ignored : (HTTPDownload.Open (H := page) (endpoint "http://x") "" 1 disk).1 =
  Ok (mk_reader "abc" None).
Proof. vm_compute. reflexivity. Qed.

(** *** A remote host *)
Definition hosts : Type := gmap string string * gmap string string.
Definition last_argument (args : list string) : string := List.last args "".
#[local] Instance remote_commands : Commands hosts := {|
  CombinedOutput name args := λ w,
    if bool_decide (name = "rsync") then
      let tmp := List.nth 5 args "" in
      let path := drop_str (str_length (RsyncSSH.target +:+ ":")) (last_argument args) in
      let sent := default "" (w.2 !! tmp) in
      (("", None), (if (str_length sent <=? str_length (default "" (w.1 !! path)))%nat then w.1
                    else <[path := sent]> w.1, w.2))
    else (("", None), w);
  StartCommand _ _ := eret (Err missing);
  CreateTemp pattern := λ w, if bool_decide (w.2 !! pattern = None)
    then (Ok pattern, (w.1, <[pattern := ""]> w.2)) else (Err missing, w);
  WriteTemp f s := λ w, (Ok tt, (w.1, <[f := default "" (w.2 !! f) +:+ s]> w.2));
  CloseTemp _ := eret (Ok tt);
  RemoveTemp f := λ w, (tt, (w.1, delete f w.2))
|}.
Definition uploads : hosts := ({["/data/x.partial" := "ab"]}, ∅).
Definition resumed : result unit * hosts :=
  RsyncSSH.Put (endpoint "ssh://host/data") "x.partial" (mk_reader "cde" None) 2 uploads.
Lemma hosts_laws : rsync_laws (λ w p, w.1 !! p) (λ w p, w.2 !! p).
Proof.
  split; simpl.
  - intros pattern w f w'. case_bool_decide as Hn; intros [= <- <-]. simpl.
    split_and!; [done|done|by rewrite lookup_insert_eq|]. intros p Hp. by rewrite lookup_insert_ne.
  - intros f s w r w' [= <- <-]. simpl. split_and!; [done|intros p Hp; by rewrite lookup_insert_ne|].
    intros u old _ Hold. by rewrite lookup_insert_eq, Hold.
  - by intros f w r w' [= <- <-].
  - by intros f w r w' [= <- <-].
  - by intros args host dir w r w' [= <- <-].
  - intros e tmp path w out w' [= <- <-]. simpl. change (String _ _) with (RsyncSSH.target +:+ ":" +:+ path).
    destruct (_ <=? _)%nat eqn:E; [by left|right]. rewrite lookup_insert_eq.
    destruct (w.2 !! tmp); [done|]. done.
Qed.
Lemma resumed_ok : resumed.1 = Ok tt ∧ resumed.2.1 !! "/data/x.partial" = Some "cde".
Proof. vm_compute. done. Qed.

Lemma rsync_resume_incomplete_witness : resumed.2.1 !! "/data/x.partial" ≠ Some "abcde".
Proof.
  pose proof (proj1 resumed_ok) as En. destruct resumed as [r w'] eqn:E. unfold resumed in E.
  simpl in En. subst r.
  refine (proj2 (rsync_resume_incomplete (λ w p, w.1 !! p) (λ w p, w.2 !! p) hosts_laws
    (endpoint "ssh://host/data") "x.partial" "u@host" "/data/x.partial" (mk_reader "cde" None) 2
    uploads tt w' _ _ E) "ab" _ _ _); [lia|vm_compute; reflexivity|reflexivity|discriminate|discriminate].
Defined.
End Example.
End Connectors.
