(* ===== verification/Api.v ===== *)
(** * The HTTP API (src/internal/api)

    The handlers of api/handlers/workflow_engine_api_handler, over the interfaces they
    call, and the middleware of api/httpserver in front of them. A handler is a function
    of the request: it acts on the world through its dependencies and answers with one
    reply, or panics where it uses a dependency that is nil. Decoding of JSON and YAML,
    multipart forms and the printing of URLs are parameters. *)

From Stdlib Require Import Ascii.
From S2P Require Import Prelude GoStrings GoNet GoFloat GoPath Domain Queue Ports Controller Monitor Shell.
From S2P Require Import Supervisor Requests Storage Filesystem Transfer Build Connectors EventLoop.

(** domain/instance/instance.go *)
Module Instance.
Record Instance_ := mk {
  ID : string; Name : string; Description : string; Organization : string; Location : string;
  CreatedAt : Time; UpdatedAt : Time
}.
End Instance.
Abbreviation Instance_ := Instance.Instance_.
Module UserPreferences.
Record UserPreferences := mk {
  ClientID : string; Theme : string; AnimationsEnabled : bool; UpdatedAt : Time
}.
#[global] Instance eta : Eta UserPreferences := λ r,
  mk r.(ClientID) r.(Theme) r.(AnimationsEnabled) r.(UpdatedAt).
End UserPreferences.
Abbreviation UserPreferences := UserPreferences.UserPreferences.
(** infrastructure/credentials/sshkey/manager.go *)
Module SSHKey.
Record SSHKey := mk { ID : string; CredentialRef : string; PublicKey : string; Fingerprint : string }.
End SSHKey.
Abbreviation SSHKey := SSHKey.SSHKey.

(** A request, as the handlers read it: [Query] is [URL.Query().Get]. *)
Module Request.
Record Request := mk {
  Method : string; Path : string; RemoteAddr : string; Header : string → string;
  PathValue : string → string; Query : string → string; QueryHas : string → bool; Body : Reader
}.
End Request.
Abbreviation Request := Request.Request.

(** A reply: a status and a value written as JSON, the message of an error, bytes with
    the headers that describe them, or nothing. *)
Inductive ReplyBody : Type :=
| JSONValue {A : Type} (a : A)
| ErrorMessage (message : string)
| Content (contentType disposition : string) (r : Reader)
| NoContent.
Record Reply := mk_reply { status : Z; body : ReplyBody }.

(** [encoding/json] and [gopkg.in/yaml.v3] *)
Class Unmarshal (A : Type) := unmarshal : string → result A.
Class Marshal (A : Type) := marshal : A → result string.
Class Yaml := {
  yaml_document : Type;
  yaml_Unmarshal : string → result yaml_document;
  normalize : yaml_document → result string;
  workflow_YAML : Requests.Workflow → result string
}.
(** [MaxBytesReader], [ParseMultipartForm] and [FormFile], for a limit and a field. *)
Class Multipart := {
  ParseMultipartForm : Z → Request → result unit;
  FormFile : Z → Request → string → result Reader
}.
(** [url.URL.String] of a URL with a user, and [url.Values.Encode]. *)
Class URLPrinter := {
  url_String : string → string → string → string → string → string;
  Values_Encode : list (string * string) → string
}.

Module Api.
(** ** The interfaces of the handlers *)
Record ExecutionQuery (W : Type) := {
  FindRun : string → effr W (option ExecutionRun);
  ListRuns : effr W (list ExecutionRun);
  ListRunsPage : Z → Z → string → string → string → effr W ExecutionRunPage;
  ListTasks : string → effr W (list TaskExecution);
  ListTransfers : string → effr W (list DataTransfer);
  ListHandles : string → effr W (list ActivityHandle);
  ListEvents : string → effr W (list DomainEvent)
}.
Record StorageNavigator (W : Type) := {
  List_ : string → effr W (list StorageResource);
  Roots : string → effr W (list StorageBrowseRoot);
  Browse : string → BrowseRequest → effr W BrowsePage;
  Stat : string → string → effr W FileEntry;
  StartDownload : string → string → string → effr W DownloadRun;
  OpenDownload : string → effr W (Reader * FileEntry);
  Download : string → effr W (option DownloadRun);
  Checksum : string → string → effr W string;
  QueueCopy : string → string → string → string → effr W DownloadRun;
  QueueArchive : string → string → string → effr W DownloadRun;
  PromoteData : string → string → string → string → string → string → effr W unit;
  PromoteArtifact : string → string → string → string → string → string → string → effr W unit;
  IndexRuns : string → effr W (list IndexRun);
  StartIndex : string → string → effr W IndexRun;
  DeleteEntry : string → string → effr W unit
}.
Record BuildOrchestrator (W : Type) := {
  Upload : Reader → effr W BuildContextArtifact;
  StartBuild : ArtifactBuild → effr W BuildRun;
  OpenOutput : string → effr W (Reader * string);
  MaxUploadBytes : Z
}.
(** ports/catalog.go; [as_connections] is the assertion to [ports.ConnectionStore], of
    which [FindConnection] is used. *)
Record EnvironmentCatalog (W : Type) := {
  CreateEnvironment_ : EnvironmentDefinition → effr W unit;
  Replace : EnvironmentDefinition → effr W unit;
  DeleteEnvironment_ : string → effr W unit;
  ListEnvironments_ : effr W (list EnvironmentDefinition);
  FindEnvironment : string → effr W (option EnvironmentDefinition);
  UpsertConnection : EnvironmentConnection → effr W unit;
  as_connections : option (string → effr W (option EnvironmentConnection))
}.
Record WorkflowStore (W : Type) := {
  CreateWorkflow_ : WorkflowDefinition → effr W unit;
  ListWorkflows_ : effr W (list WorkflowDefinition);
  FindWorkflow : string → effr W (option WorkflowDefinition)
}.
Record PlanStore (W : Type) := {
  SavePlan : SchedulePlan → effr W unit;
  ListPlans_ : effr W (list SchedulePlan);
  FindPlan : string → effr W (option SchedulePlan)
}.
Record DataStore (W : Type) := {
  ListInstances : string → effr W (list DataObjectInstance);
  ListLocations : string → effr W (list DataLocation);
  ListArtifacts_ : effr W (list ExecutableArtifact);
  ListArtifactLocations_ : effr W (list ArtifactLocation);
  ListArtifactMaterializations_ : string → effr W (list ArtifactMaterialization);
  ListArtifactTransferRuns : string → effr W (list DataTransferRun);
  SaveArtifactMaterialization_ : ArtifactMaterialization → effr W unit;
  SaveArtifactBuild : ArtifactBuild → effr W unit;
  FindArtifactBuildByCacheKey : string → effr W (option ArtifactBuild);
  FindArtifactBuild : string → effr W (option ArtifactBuild);
  ListArtifactBuilds_ : string → effr W (list ArtifactBuild);
  FindBuildRun : string → effr W (option BuildRun);
  ListBuildRuns_ : string → effr W (list BuildRun);
  SaveBuildContext_ : BuildContextArtifact → effr W unit;
  FindBuildContext : string → effr W (option BuildContextArtifact);
  build_outputs : BuildOutputs W;
  RegisterArtifactVersion : ArtifactVersion → effr W unit
}.
Record ResourceStore (W : Type) := {
  Upsert : Resource → effr W unit;
  ListResources_ : effr W (list Resource);
  FindByID : string → effr W (option Resource);
  LatestSnapshot : string → effr W (option ResourceSnapshot)
}.
(** ports/environment.go *)
Record NetworkTopologyStore (W : Type) := {
  CreateTopology : NetworkTopology → effr W unit;
  ListTopologies : effr W (list NetworkTopology);
  FindTopology : string → effr W (option NetworkTopology)
}.
Record ExecutionScopeStore (W : Type) := {
  CreateScope : ExecutionScope → effr W unit;
  DeleteScope : string → effr W unit;
  ListScopes : effr W (list ExecutionScope);
  FindScope : string → effr W (option ExecutionScope)
}.
Record ConnectionHealthMonitor (W : Type) := {
  Check : string → effr W ConnectionCheck;
  History : string → Z → effr W (list ConnectionCheck)
}.
(** ports/instance.go *)
Record InstanceStore (W : Type) := {
  FindInstance : effr W (option Instance_);
  SaveInstance_ : Instance_ → effr W unit;
  FindPreferences : string → effr W (option UserPreferences);
  SavePreferences : UserPreferences → effr W unit
}.
(** ports/console.go *)
Record ConsoleCommands (W : Type) := {
  ExecuteCommand : ConsoleRequest → effr W ConsoleCommand;
  ListCommands : Z → effr W (list ConsoleCommand)
}.
Record InteractiveConsole (W : Type) := {
  OpenSession : ConsoleSessionRequest → effr W ConsoleSession;
  ListSessions : effr W (list ConsoleSession);
  CloseSession : string → effr W unit;
  SessionLog : string → effr W string;
  StreamSession : Request → string → eff W Reply
}.
Record SSHKeys (W : Type) := {
  Generate : string → string → effr W SSHKey;
  ListKeys : effr W (list SSHKey)
}.
Arguments FindRun {W}. Arguments ListRuns {W}. Arguments ListRunsPage {W}. Arguments ListTasks {W}.
Arguments ListTransfers {W}. Arguments ListHandles {W}. Arguments ListEvents {W}.
Arguments List_ {W}. Arguments Roots {W}. Arguments Browse {W}. Arguments Stat {W}.
Arguments StartDownload {W}. Arguments OpenDownload {W}. Arguments Download {W}.
Arguments Checksum {W}. Arguments QueueCopy {W}. Arguments QueueArchive {W}.
Arguments PromoteData {W}. Arguments PromoteArtifact {W}. Arguments IndexRuns {W}.
Arguments StartIndex {W}. Arguments DeleteEntry {W}. Arguments Upload {W}.
Arguments StartBuild {W}. Arguments OpenOutput {W}. Arguments MaxUploadBytes {W}.
Arguments CreateEnvironment_ {W}. Arguments Replace {W}. Arguments DeleteEnvironment_ {W}.
Arguments ListEnvironments_ {W}. Arguments FindEnvironment {W}. Arguments UpsertConnection {W}.
Arguments as_connections {W}. Arguments CreateWorkflow_ {W}. Arguments ListWorkflows_ {W}.
Arguments FindWorkflow {W}. Arguments SavePlan {W}. Arguments ListPlans_ {W}. Arguments FindPlan {W}.
Arguments ListInstances {W}. Arguments ListLocations {W}. Arguments ListArtifacts_ {W}.
Arguments ListArtifactLocations_ {W}. Arguments ListArtifactMaterializations_ {W}.
Arguments ListArtifactTransferRuns {W}. Arguments SaveArtifactMaterialization_ {W}.
Arguments SaveArtifactBuild {W}. Arguments FindArtifactBuildByCacheKey {W}.
Arguments FindArtifactBuild {W}. Arguments ListArtifactBuilds_ {W}. Arguments FindBuildRun {W}.
Arguments ListBuildRuns_ {W}. Arguments SaveBuildContext_ {W}. Arguments FindBuildContext {W}.
Arguments build_outputs {W}. Arguments RegisterArtifactVersion {W}. Arguments Upsert {W}.
Arguments ListResources_ {W}. Arguments FindByID {W}. Arguments LatestSnapshot {W}.
Arguments CreateTopology {W}. Arguments ListTopologies {W}. Arguments FindTopology {W}.
Arguments CreateScope {W}. Arguments DeleteScope {W}. Arguments ListScopes {W}. Arguments FindScope {W}.
Arguments Check {W}. Arguments History {W}. Arguments FindInstance {W}. Arguments SaveInstance_ {W}.
Arguments FindPreferences {W}. Arguments SavePreferences {W}. Arguments ExecuteCommand {W}.
Arguments ListCommands {W}. Arguments OpenSession {W}. Arguments ListSessions {W}.
Arguments CloseSession {W}. Arguments SessionLog {W}. Arguments StreamSession {W}.
Arguments Generate {W}. Arguments ListKeys {W}.

(** [Dependencies], any of which may be nil. *)
Module Dependencies.
Record Dependencies (W : Type) := mk {
  Environments : option (EnvironmentCatalog W);
  Workflows : option (WorkflowStore W);
  Plans : option (PlanStore W);
  Events : option (Job → effr W Job);
  Validator : option (SchedulePlan → WorkflowVersion → list Resource → ExecutionScope →
                      NetworkTopology → result unit);
  Executions : option (ExecutionQuery W);
  Topologies : option (NetworkTopologyStore W);
  Scopes : option (ExecutionScopeStore W);
  Data : option (DataStore W);
  Resources : option (ResourceStore W);
  Instance : option (InstanceStore W);
  Connections : option (ConnectionHealthMonitor W);
  Discovery : option (string → effr W (list ResourceSnapshot));
  SSHKeys : option (SSHKeys W);
  Audit : option (AuditFilter → effr W (list AuditEvent));
  Console : option (ConsoleCommands W);
  Terminal : option (InteractiveConsole W);
  Storage : option (StorageNavigator W);
  Build : option (BuildOrchestrator W)
}.
End Dependencies.

(** [Handler]: the required dependencies are not nil. *)
Module Handler.
Record Handler (W : Type) := mk {
  environments : EnvironmentCatalog W;
  workflows : WorkflowStore W;
  plans : PlanStore W;
  events : Job → effr W Job;
  validator : SchedulePlan → WorkflowVersion → list Resource → ExecutionScope →
              NetworkTopology → result unit;
  executions : ExecutionQuery W;
  topologies : NetworkTopologyStore W;
  scopes : ExecutionScopeStore W;
  data : option (DataStore W);
  resources : ResourceStore W;
  instance : InstanceStore W;
  connections : option (ConnectionHealthMonitor W);
  discovery : option (string → effr W (list ResourceSnapshot));
  sshKeys : option (SSHKeys W);
  audit : option (AuditFilter → effr W (list AuditEvent));
  console : option (ConsoleCommands W);
  terminal : option (InteractiveConsole W);
  storage : option (StorageNavigator W);
  build : option (BuildOrchestrator W)
}.
Arguments environments {W}. Arguments workflows {W}. Arguments plans {W}. Arguments events {W}.
Arguments validator {W}. Arguments executions {W}. Arguments topologies {W}. Arguments scopes {W}.
Arguments data {W}. Arguments resources {W}. Arguments instance {W}. Arguments connections {W}.
Arguments discovery {W}. Arguments sshKeys {W}. Arguments audit {W}. Arguments console {W}.
Arguments terminal {W}. Arguments storage {W}. Arguments build {W}.
End Handler.
Abbreviation Handler := Handler.Handler.

(** [New] and [missingDependencies] *)
Definition New {W} (d : Dependencies.Dependencies W) : result (Handler W) :=
  match d.(Dependencies.Environments W), d.(Dependencies.Workflows W), d.(Dependencies.Plans W),
        d.(Dependencies.Events W), d.(Dependencies.Validator W), d.(Dependencies.Executions W),
        d.(Dependencies.Topologies W), d.(Dependencies.Scopes W), d.(Dependencies.Resources W),
        d.(Dependencies.Instance W) with
  | Some environments, Some workflows, Some plans, Some events, Some validator, Some executions,
    Some topologies, Some scopes, Some resources, Some instance =>
    Ok {| Handler.environments := environments; Handler.workflows := workflows;
          Handler.plans := plans; Handler.events := events; Handler.validator := validator;
          Handler.executions := executions; Handler.topologies := topologies;
          Handler.scopes := scopes; Handler.data := d.(Dependencies.Data W);
          Handler.resources := resources; Handler.instance := instance;
          Handler.connections := d.(Dependencies.Connections W);
          Handler.discovery := d.(Dependencies.Discovery W);
          Handler.sshKeys := d.(Dependencies.SSHKeys W); Handler.audit := d.(Dependencies.Audit W);
          Handler.console := d.(Dependencies.Console W);
          Handler.terminal := d.(Dependencies.Terminal W);
          Handler.storage := d.(Dependencies.Storage W); Handler.build := d.(Dependencies.Build W) |}
  | _, _, _, _, _, _, _, _, _, _ => Err (errorf "workflow API dependencies are required" [])
  end.

(** ** Replies *)
Abbreviation StatusOK := 200.
Abbreviation StatusCreated := 201.
Abbreviation StatusAccepted := 202.
Abbreviation StatusNoContent := 204.
Abbreviation StatusBadRequest := 400.
Abbreviation StatusNotFound := 404.
Abbreviation StatusRequestEntityTooLarge := 413.
Abbreviation StatusUnsupportedMediaType := 415.
Abbreviation StatusUnprocessableEntity := 422.
Abbreviation StatusInternalServerError := 500.
Abbreviation StatusServiceUnavailable := 503.

(** [http.StatusText], for the status of the only reply without an error. *)
Definition StatusText (status : Z) : string := if status =? StatusNotFound then "Not Found" else "".

(** [writeJSON] *)
Definition writeJSON {A} (status : Z) (value : A) : Reply := mk_reply status (JSONValue value).
(** [writeError] *)
Definition writeError (status : Z) (err : option error) : Reply :=
  mk_reply status (ErrorMessage (match err with Some e => e | None => StatusText status end)).
(** [writeList] *)
Definition writeList {A} (r : result A) : Reply :=
  match r with Ok value => writeJSON StatusOK value | Err e => writeError StatusInternalServerError (Some e) end.
(** [writeItem] and [isNil], on a pointer *)
Definition writeItem {A} (r : result (option A)) : Reply :=
  match r with
  | Err e => writeError StatusInternalServerError (Some e)
  | Ok None => writeError StatusNotFound None
  | Ok (Some value) => writeJSON StatusOK value
  end.

(** A handler: [None] is a panic. *)
Definition handler (W : Type) : Type := Request → eff W (option Reply).
Section steps.
Context {W : Type}.
Definition answer (r : Reply) : eff W (option Reply) := eret (Some r).
(** [v, err := m; if err != nil { writeError(w, bad, err); return }; k v] *)
Definition attempt {A} (bad : Z) (m : effr W A) (k : A → eff W (option Reply)) : eff W (option Reply) :=
  let! r := m in
  match r with Ok a => k a | Err e => answer (writeError bad (Some e)) end.
(** [if dependency == nil { writeError(w, 503, message); return }] *)
Definition available {D} (d : option D) (message : string) (k : D → eff W (option Reply))
    : eff W (option Reply) :=
  match d with Some d => k d | None => answer (writeError StatusServiceUnavailable (Some (errorf message []))) end.
(** A dependency that is used without looking. *)
Definition dereference {D} (d : option D) (k : D → eff W (option Reply)) : eff W (option Reply) :=
  match d with Some d => k d | None => eret None end.
End steps.

Definition maxRequestBodyBytes : Z := 32 * 2 ^ 20.
(** [normalizedContentType] *)
Definition normalizedContentType (contentType : string) : string :=
  to_lower (trim_space (default "" (head (split_byte ";" contentType)))).
(** [isYAML] *)
Definition isYAML (contentType : string) : bool :=
  bool_decide (contentType ∈ ["application/yaml"; "application/x-yaml"; "text/yaml"]).

(** [decode]: the value, or the reply that refuses the request. *)
Definition decode {A} `{Unmarshal A, Yaml} (r : Request) : Reply + A :=
  let contentType := normalizedContentType (r.(Request.Header) "Content-Type") in
  if negb (bool_decide (contentType = "application/json")) && negb (isYAML contentType) then
    inl (writeError StatusUnsupportedMediaType
      (Some (errorf "request Content-Type must be application/json or application/yaml" [])))
  else
    let limited := Connectors.S3Compatible.limit_reader r.(Request.Body) maxRequestBodyBytes in
    match limited.(read_error) with
    | Some err => inl (writeError StatusBadRequest (Some err))
    | None =>
      let payload :=
        if isYAML contentType then
          match yaml_Unmarshal limited.(bytes) with
          | Err e => Err (errorf "decode YAML: %w" [e])
          | Ok document =>
            match normalize document with
            | Err e => Err (errorf "normalize YAML: %w" [e])
            | Ok payload => Ok payload
            end
          end
        else Ok limited.(bytes) in
      match payload ≫= unmarshal with
      | Err e => inl (writeError StatusBadRequest (Some e))
      | Ok value => inr value
      end
    end.
(** [if !decode(w, r, &v) { return }; k v] *)
Definition decoded {W A} `{Unmarshal A, Yaml} (r : Request) (k : A → eff W (option Reply))
    : eff W (option Reply) :=
  match decode r with inl reply => answer reply | inr value => k value end.

(** [positiveInteger] *)
Definition positiveInteger (value : string) (fallback : Z) : Z :=
  match parse_int value with Some n => if n <? 1 then fallback else n | None => fallback end.

(** The bodies of requests, declared in the handlers. *)
Record DownloadRequest := mk_download { dl_path : string; dl_id : string }.
Record PathRequest := mk_path { in_path : string }.
Record CopyRequest := mk_copy { copy_path : string; copy_destination : string; copy_id : string }.
Record ArchiveRequest := mk_archive { archive_path : string; archive_id : string }.
Record PromoteDataRequest := mk_promote_data {
  pd_path : string; pd_workflow : string; pd_run : string; pd_activity : string; pd_id : string
}.
Record PromoteArtifactRequest := mk_promote_artifact {
  pa_path : string; pa_id : string; pa_name : string; pa_version : string; pa_scope : string;
  pa_scope_id : string
}.
Record IndexRequest := mk_index { index_id : string }.
Record KeyRequest := mk_key { key_id : string; key_comment : string }.
Record DuplicateWorkflowRequest := mk_duplicate { dup_name : string; dup_namespace : string }.
Record DockerArtifactRequest := mk_docker {
  docker_artifact : string; docker_version : string; docker_image : string; docker_architecture : string
}.
Record CreatePlanRequest := mk_plan_request {
  plan_ : SchedulePlan; plan_workflow : WorkflowVersion; plan_resources : list Resource;
  plan_scope : ExecutionScope; plan_topology : NetworkTopology
}.
(** Values built for a reply. *)
Record Identified := mk_identified { reply_id : string }.
Record ChecksumReply := mk_checksum { reply_checksum : string }.
Record SnapshotsReply := mk_snapshots { reply_snapshots : list ResourceSnapshot }.
Record DockerReply := mk_docker_reply { reply_artifact : ArtifactVersion; reply_build : ArtifactBuild }.

(** ** Storage *)
Section storage.
Context {W : Type} `{Clock W, Yaml} (h : Handler W).
Context `{Unmarshal DownloadRequest, Unmarshal PathRequest, Unmarshal CopyRequest,
  Unmarshal ArchiveRequest, Unmarshal PromoteDataRequest, Unmarshal PromoteArtifactRequest,
  Unmarshal IndexRequest}.
Let no_browser := "storage browser is unavailable".

(** [if v.ID == "" { v.ID = fmt.Sprintf("prefix-%d", time.Now().UnixNano()) }] *)
Definition generated_id (prefix id : string) : eff W string :=
  if bool_decide (id = "") then let! now := UnixNano in eret (prefix +:+ itoa now) else eret id.

(** [Handler.ListStorages] *)
Definition ListStorages : handler W := λ r,
  available h.(Handler.storage) no_browser (λ s,
    let! items := s.(List_) (r.(Request.PathValue) "environmentId") in answer (writeList items)).
(** [Handler.StorageRoots] *)
Definition StorageRoots : handler W := λ r,
  available h.(Handler.storage) no_browser (λ s,
    let! items := s.(Roots) (r.(Request.PathValue) "storageId") in answer (writeList items)).
(** [Handler.BrowseStorage] *)
Definition BrowseStorage : handler W := λ r,
  available h.(Handler.storage) no_browser (λ s,
    let limit := Atoi_value (r.(Request.Query) "limit") in
    attempt StatusUnprocessableEntity
      (s.(Browse) (r.(Request.PathValue) "storageId")
        {| BrowseRequest.Path := r.(Request.Query) "path"; BrowseRequest.Cursor := r.(Request.Query) "cursor";
           BrowseRequest.Limit := limit |})
      (λ v, answer (writeJSON StatusOK v))).
(** [Handler.StatStorageEntry] *)
Definition StatStorageEntry : handler W := λ r,
  available h.(Handler.storage) no_browser (λ s,
    attempt StatusUnprocessableEntity
      (s.(Stat) (r.(Request.PathValue) "storageId") (r.(Request.Query) "path"))
      (λ v, answer (writeJSON StatusOK v))).
(** [Handler.CreateDownload] *)
Definition CreateDownload : handler W := λ r,
  available h.(Handler.storage) no_browser (λ s, decoded r (λ v : DownloadRequest,
    let! id := generated_id "download-" v.(dl_id) in
    attempt StatusUnprocessableEntity
      (s.(StartDownload) (r.(Request.PathValue) "storageId") v.(dl_path) id)
      (λ out, answer (writeJSON StatusCreated out)))).
(** [Handler.StreamDownload] *)
Definition StreamDownload : handler W := λ r,
  available h.(Handler.storage) no_browser (λ s,
    attempt StatusNotFound (s.(OpenDownload) (r.(Request.PathValue) "downloadId"))
      (λ '(body, entry), answer (mk_reply StatusOK (Content "application/octet-stream"
        ("attachment; filename=" +:+ quote entry.(FileEntry.Name)) body)))).
(** [Handler.GetDownload] *)
Definition GetDownload : handler W := λ r,
  available h.(Handler.storage) no_browser (λ s,
    attempt StatusNotFound (s.(Download) (r.(Request.PathValue) "downloadId"))
      (λ v, answer (writeJSON StatusOK v))).
(** [Handler.ChecksumStorageEntry] *)
Definition ChecksumStorageEntry : handler W := λ r,
  available h.(Handler.storage) no_browser (λ s, decoded r (λ v : PathRequest,
    attempt StatusUnprocessableEntity
      (s.(Checksum) (r.(Request.PathValue) "storageId") v.(in_path))
      (λ sum, answer (writeJSON StatusOK (mk_checksum sum))))).
(** [Handler.DeleteStorageEntry] *)
Definition DeleteStorageEntry : handler W := λ r,
  available h.(Handler.storage) no_browser (λ s,
    attempt StatusUnprocessableEntity
      (s.(DeleteEntry) (r.(Request.PathValue) "storageId") (r.(Request.Query) "path"))
      (λ _, answer (mk_reply StatusNoContent NoContent))).
(** [Handler.CopyStorageEntry], which does not look whether there is a browser *)
Definition CopyStorageEntry : handler W := λ r,
  decoded r (λ v : CopyRequest,
    let! id := generated_id "copy-" v.(copy_id) in
    dereference h.(Handler.storage) (λ s,
      attempt StatusUnprocessableEntity
        (s.(QueueCopy) (r.(Request.PathValue) "storageId") v.(copy_path) v.(copy_destination) id)
        (λ out, answer (writeJSON StatusAccepted out)))).
(** [Handler.ArchiveStorageDirectory] *)
Definition ArchiveStorageDirectory : handler W := λ r,
  decoded r (λ v : ArchiveRequest,
    let! id := generated_id "archive-" v.(archive_id) in
    dereference h.(Handler.storage) (λ s,
      attempt StatusUnprocessableEntity
        (s.(QueueArchive) (r.(Request.PathValue) "storageId") v.(archive_path) id)
        (λ out, answer (writeJSON StatusAccepted out)))).
(** [Handler.PromoteStorageData] *)
Definition PromoteStorageData : handler W := λ r,
  decoded r (λ v : PromoteDataRequest,
    let! id := generated_id "data-" v.(pd_id) in
    dereference h.(Handler.storage) (λ s,
      attempt StatusUnprocessableEntity
        (s.(PromoteData) (r.(Request.PathValue) "storageId") v.(pd_path) v.(pd_workflow) v.(pd_run)
          v.(pd_activity) id)
        (λ _, answer (writeJSON StatusCreated (mk_identified id))))).
(** [Handler.PromoteStorageArtifact] *)
Definition PromoteStorageArtifact : handler W := λ r,
  decoded r (λ v : PromoteArtifactRequest,
    let! id := generated_id "artifact-" v.(pa_id) in
    dereference h.(Handler.storage) (λ s,
      attempt StatusUnprocessableEntity
        (s.(PromoteArtifact) (r.(Request.PathValue) "storageId") v.(pa_path) id v.(pa_name)
          v.(pa_version) v.(pa_scope) v.(pa_scope_id))
        (λ _, answer (writeJSON StatusCreated (mk_identified id))))).
(** [Handler.ListStorageIndexRuns] *)
Definition ListStorageIndexRuns : handler W := λ r,
  dereference h.(Handler.storage) (λ s,
    let! runs := s.(IndexRuns) (r.(Request.PathValue) "storageId") in answer (writeList runs)).
(** [Handler.StartStorageIndex] *)
Definition StartStorageIndex : handler W := λ r,
  decoded r (λ v : IndexRequest,
    let! id := generated_id "index-" v.(index_id) in
    dereference h.(Handler.storage) (λ s,
      attempt StatusUnprocessableEntity (s.(StartIndex) (r.(Request.PathValue) "storageId") id)
        (λ out, answer (writeJSON StatusAccepted out)))).
End storage.

(** ** Console, audit and keys *)
Section console.
Context {W : Type} `{Yaml} (h : Handler W).
Context `{Unmarshal ConsoleSessionRequest, Unmarshal ConsoleRequest, Unmarshal KeyRequest,
  Unmarshal EnvironmentConnection}.
Let no_terminal := "interactive console is unavailable".
Let no_console := "console is unavailable".
Let no_keys := "SSH key management is unavailable".
Let no_monitor := "connection monitoring is unavailable".

(** [Handler.OpenConsoleSession] *)
Definition OpenConsoleSession : handler W := λ r,
  available h.(Handler.terminal) no_terminal (λ t, decoded r (λ request : ConsoleSessionRequest,
    attempt StatusUnprocessableEntity (t.(OpenSession) request)
      (λ session, answer (writeJSON StatusCreated session)))).
(** [Handler.StreamConsoleSession] *)
Definition StreamConsoleSession : handler W := λ r,
  available h.(Handler.terminal) no_terminal (λ t,
    let! reply := t.(StreamSession) r (r.(Request.PathValue) "sessionId") in answer reply).
(** [Handler.ListConsoleSessions] *)
Definition ListConsoleSessions : handler W := λ _,
  match h.(Handler.terminal) with
  | None => answer (writeJSON StatusOK ([] : list ConsoleSession))
  | Some t => let! items := t.(ListSessions) in answer (writeList items)
  end.
(** [Handler.CloseConsoleSession] *)
Definition CloseConsoleSession : handler W := λ r,
  available h.(Handler.terminal) no_terminal (λ t,
    attempt StatusNotFound (t.(CloseSession) (r.(Request.PathValue) "sessionId"))
      (λ _, answer (mk_reply StatusNoContent NoContent))).
(** [Handler.ExportConsoleSessionLog] *)
Definition ExportConsoleSessionLog : handler W := λ r,
  available h.(Handler.terminal) no_terminal (λ t,
    let id := r.(Request.PathValue) "sessionId" in
    attempt StatusNotFound (t.(SessionLog) id)
      (λ log, answer (mk_reply StatusOK (Content "text/plain; charset=utf-8"
        ("attachment; filename=akoflow-" +:+ id +:+ ".log") (mk_reader log None))))).
(** [Handler.ExecuteConsoleCommand] *)
Definition ExecuteConsoleCommand : handler W := λ r,
  available h.(Handler.console) no_console (λ c, decoded r (λ request : ConsoleRequest,
    attempt StatusUnprocessableEntity (c.(ExecuteCommand) request)
      (λ command, answer (writeJSON StatusCreated command)))).
(** [Handler.ListConsoleCommands] *)
Definition ListConsoleCommands : handler W := λ r,
  available h.(Handler.console) no_console (λ c,
    let! items := c.(ListCommands) (Atoi_value (r.(Request.Query) "limit")) in answer (writeList items)).

(** [domainaudit.Outcome(value)] *)
Definition AuditOutcome_of (value : string) : AuditOutcome :=
  if bool_decide (value = "started") then OutcomeStarted
  else if bool_decide (value = "succeeded") then OutcomeSucceeded
  else if bool_decide (value = "failed") then OutcomeFailed
  else AuditOutcomeOther value.
(** [Handler.ListAuditEvents] *)
Definition ListAuditEvents : handler W := λ r,
  available h.(Handler.audit) "audit is unavailable" (λ list_events,
    let query := r.(Request.Query) in
    let! items := list_events {|
      AuditFilter.EventType := query "eventType"; AuditFilter.EnvironmentID := query "environmentId";
      AuditFilter.ResourceID := query "resourceId"; AuditFilter.ConnectionID := query "connectionId";
      AuditFilter.SessionID := query "sessionId"; AuditFilter.ExecutionID := query "executionId";
      AuditFilter.Outcome := AuditOutcome_of (query "outcome");
      AuditFilter.Limit := Atoi_value (query "limit")
    |} in
    answer (writeList items)).
(** [Handler.GenerateSSHKey] *)
Definition GenerateSSHKey : handler W := λ r,
  available h.(Handler.sshKeys) no_keys (λ keys, decoded r (λ request : KeyRequest,
    attempt StatusUnprocessableEntity (keys.(Generate) request.(key_id) request.(key_comment))
      (λ key, answer (writeJSON StatusCreated key)))).
(** [Handler.ListSSHKeys] *)
Definition ListSSHKeys : handler W := λ _,
  available h.(Handler.sshKeys) no_keys (λ keys,
    let! items := keys.(ListKeys) in answer (writeList items)).

(** ** Connections *)
(** [Handler.DiscoverEnvironmentConnection] *)
Definition DiscoverEnvironmentConnection : handler W := λ r,
  available h.(Handler.discovery) "environment discovery is unavailable" (λ discover,
    attempt StatusUnprocessableEntity (discover (r.(Request.PathValue) "connectionId"))
      (λ snapshots, answer (writeJSON StatusOK (mk_snapshots snapshots)))).
(** [Handler.CheckEnvironmentConnection] *)
Definition CheckEnvironmentConnection : handler W := λ r,
  available h.(Handler.connections) no_monitor (λ m,
    attempt StatusUnprocessableEntity (m.(Check) (r.(Request.PathValue) "connectionId"))
      (λ check, answer (writeJSON StatusOK check))).
(** [Handler.UpdateEnvironmentConnection] *)
Definition UpdateEnvironmentConnection : handler W := λ r,
  decoded r (λ connection : EnvironmentConnection,
    if bool_decide (connection.(EnvironmentConnection.ID) = "") ||
       negb (bool_decide (connection.(EnvironmentConnection.ID) = r.(Request.PathValue) "connectionId")) ||
       bool_decide (connection.(EnvironmentConnection.EnvironmentID) = "") then
      answer (writeError StatusUnprocessableEntity
        (Some (errorf "connection id and environment id are required" [])))
    else
      attempt StatusUnprocessableEntity (h.(Handler.environments).(UpsertConnection) connection)
        (λ _, answer (writeJSON StatusOK connection))).
(** [Handler.ListEnvironmentConnectionHistory] *)
Definition ListEnvironmentConnectionHistory : handler W := λ r,
  available h.(Handler.connections) no_monitor (λ m,
    let! checks := m.(History) (r.(Request.PathValue) "connectionId")
                     (Atoi_value (r.(Request.Query) "limit")) in
    answer (writeList checks)).
End console.

(** ** Scopes, the instance and preferences, environments and resources *)
Section inventory.
Context {W : Type} `{Yaml} (h : Handler W).
Context `{Unmarshal ExecutionScope, Unmarshal Instance_, Unmarshal UserPreferences,
  Unmarshal Resource, Unmarshal NetworkTopology, Unmarshal EnvironmentDefinition}.
Definition ErrNoRows : error := "sql: no rows in result set".

(** An error of the store where [sql.ErrNoRows] is a missing record. *)
Definition missing_or_refused (message : string) (e : error) : Reply :=
  if bool_decide (e = ErrNoRows) then writeError StatusNotFound (Some (errorf message []))
  else writeError StatusUnprocessableEntity (Some e).

(** [Handler.CreateExecutionScope] *)
Definition CreateExecutionScope : handler W := λ r,
  decoded r (λ scope : ExecutionScope,
    attempt StatusUnprocessableEntity (h.(Handler.scopes).(CreateScope) scope)
      (λ _, answer (writeJSON StatusCreated scope))).
(** [Handler.DeleteExecutionScope] *)
Definition DeleteExecutionScope : handler W := λ r,
  let! deleted := h.(Handler.scopes).(DeleteScope) (r.(Request.PathValue) "scopeId") in
  answer (match deleted with
          | Err e => missing_or_refused "execution scope not found" e
          | Ok _ => mk_reply StatusNoContent NoContent
          end).
(** [Handler.ListExecutionScopes] *)
Definition ListExecutionScopes : handler W := λ _,
  let! items := h.(Handler.scopes).(ListScopes) in answer (writeList items).
(** [Handler.GetExecutionScope] *)
Definition GetExecutionScope : handler W := λ r,
  let! item := h.(Handler.scopes).(FindScope) (r.(Request.PathValue) "scopeId") in answer (writeItem item).
(** [Handler.GetInstance] *)
Definition GetInstance : handler W := λ _,
  let! value := h.(Handler.instance).(FindInstance) in answer (writeItem value).
(** [Handler.SaveInstance] *)
Definition SaveInstance : handler W := λ r,
  decoded r (λ value : Instance_,
    if bool_decide (trim_space value.(Instance.ID) = "") || bool_decide (trim_space value.(Instance.Name) = "")
    then answer (writeError StatusUnprocessableEntity (Some (errorf "instance id and name are required" [])))
    else
      attempt StatusUnprocessableEntity (h.(Handler.instance).(SaveInstance_) value) (λ _,
        let! stored := h.(Handler.instance).(FindInstance) in answer (writeItem stored))).
(** [Handler.GetUserPreferences] *)
Definition GetUserPreferences : handler W := λ r,
  let! value := h.(Handler.instance).(FindPreferences) (r.(Request.PathValue) "clientId") in
  answer (writeItem value).
(** [Handler.SaveUserPreferences] *)
Definition SaveUserPreferences : handler W := λ r,
  decoded r (λ value : UserPreferences,
    let value := value <| UserPreferences.ClientID := r.(Request.PathValue) "clientId" |> in
    let length := str_length value.(UserPreferences.ClientID) in
    if (length <? 8)%nat || (128 <? length)%nat then
      answer (writeError StatusUnprocessableEntity (Some (errorf "a valid client id is required" [])))
    else if bool_decide (value.(UserPreferences.Theme) ∉ ["light"; "dark"]) then
      answer (writeError StatusUnprocessableEntity (Some (errorf "theme must be light or dark" [])))
    else
      attempt StatusUnprocessableEntity (h.(Handler.instance).(SavePreferences) value) (λ _,
        let! stored := h.(Handler.instance).(FindPreferences) value.(UserPreferences.ClientID) in
        answer (writeItem stored))).

(** [Handler.ListEnvironments] *)
Definition ListEnvironments : handler W := λ _,
  let! items := h.(Handler.environments).(ListEnvironments_) in answer (writeList items).
(** [Handler.GetEnvironment] *)
Definition GetEnvironment : handler W := λ r,
  let! item := h.(Handler.environments).(FindEnvironment) (r.(Request.PathValue) "environmentId") in
  answer (writeItem item).
(** [Handler.CreateEnvironment] *)
Definition CreateEnvironment : handler W := λ r,
  decoded r (λ definition : EnvironmentDefinition,
    attempt StatusUnprocessableEntity (h.(Handler.environments).(CreateEnvironment_) definition)
      (λ _, answer (writeJSON StatusCreated definition))).
(** [Handler.ReplaceEnvironment] *)
Definition ReplaceEnvironment : handler W := λ r,
  decoded r (λ definition : EnvironmentDefinition,
    if negb (bool_decide (definition.(EnvironmentDefinition.Environment).(Environment.ID) =
                          r.(Request.PathValue) "environmentId")) then
      answer (writeError StatusUnprocessableEntity
        (Some (errorf "environment id must match the request path" [])))
    else
      let! replaced := h.(Handler.environments).(Replace) definition in
      answer (match replaced with
              | Err e => missing_or_refused "environment not found" e
              | Ok _ => writeJSON StatusOK definition
              end)).
(** [Handler.DeleteEnvironment] *)
Definition DeleteEnvironment : handler W := λ r,
  let id := r.(Request.PathValue) "environmentId" in
  attempt StatusInternalServerError (h.(Handler.environments).(FindEnvironment) id) (λ definition,
    match definition with
    | None => answer (writeError StatusNotFound (Some (errorf "environment not found" [])))
    | Some _ =>
      attempt StatusUnprocessableEntity (h.(Handler.environments).(DeleteEnvironment_) id)
        (λ _, answer (mk_reply StatusNoContent NoContent))
    end).

(** [Handler.ListResources] *)
Definition ListResources : handler W := λ _,
  let! items := h.(Handler.resources).(ListResources_) in answer (writeList items).
(** [Handler.GetResource] *)
Definition GetResource : handler W := λ r,
  let! item := h.(Handler.resources).(FindByID) (r.(Request.PathValue) "resourceId") in answer (writeItem item).
(** [Handler.GetResourceSnapshot] *)
Definition GetResourceSnapshot : handler W := λ r,
  let! item := h.(Handler.resources).(LatestSnapshot) (r.(Request.PathValue) "resourceId") in
  answer (writeItem item).
(** [Handler.CreateResource] *)
Definition CreateResource : handler W := λ r,
  decoded r (λ item : Resource,
    attempt StatusUnprocessableEntity (h.(Handler.resources).(Upsert) item)
      (λ _, answer (writeJSON StatusCreated item))).
(** [Handler.ListNetworkTopologies] *)
Definition ListNetworkTopologies : handler W := λ _,
  let! items := h.(Handler.topologies).(ListTopologies) in answer (writeList items).
(** [Handler.CreateNetworkTopology] *)
Definition CreateNetworkTopology : handler W := λ r,
  decoded r (λ topology : NetworkTopology,
    attempt StatusUnprocessableEntity (h.(Handler.topologies).(CreateTopology) topology)
      (λ _, answer (writeJSON StatusCreated topology))).
(** [Handler.GetNetworkTopology] *)
Definition GetNetworkTopology : handler W := λ r,
  let! topology := h.(Handler.topologies).(FindTopology) (r.(Request.PathValue) "topologyId") in
  answer (writeItem topology).
End inventory.

(** ** Workflows and plans *)
Section workflows.
Context {W : Type} `{Yaml, Requests.StrConv} (h : Handler W).
Context `{Unmarshal Requests.Workflow, Unmarshal DuplicateWorkflowRequest, Unmarshal CreatePlanRequest}.

(** [Handler.ListWorkflows] *)
Definition ListWorkflows : handler W := λ _,
  let! items := h.(Handler.workflows).(ListWorkflows_) in answer (writeList items).
(** [Handler.GetWorkflow] *)
Definition GetWorkflow : handler W := λ r,
  let! item := h.(Handler.workflows).(FindWorkflow) (r.(Request.PathValue) "workflowId") in
  answer (writeItem item).
(** [Handler.ExportWorkflow] *)
Definition ExportWorkflow : handler W := λ r,
  attempt StatusInternalServerError
    (h.(Handler.workflows).(FindWorkflow) (r.(Request.PathValue) "workflowId")) (λ definition,
    match definition with
    | None => answer (writeError StatusNotFound None)
    | Some definition =>
      answer (match workflow_YAML (Requests.FromDomain definition) with
              | Err e => writeError StatusInternalServerError (Some e)
              | Ok payload => mk_reply StatusOK (Content "application/yaml; charset=utf-8"
                  ("attachment; filename=" +:+ quote (definition.(WorkflowDefinition.ID) +:+ ".yaml"))
                  (mk_reader payload None))
              end)
    end).
(** The end of [CreateWorkflow] and [DuplicateWorkflow]. *)
Definition store_workflow (request : Requests.Workflow) : eff W (option Reply) :=
  match Requests.Domain request with
  | Err e => answer (writeError StatusUnprocessableEntity (Some e))
  | Ok definition =>
    attempt StatusUnprocessableEntity (h.(Handler.workflows).(CreateWorkflow_) definition)
      (λ _, answer (writeJSON StatusCreated definition))
  end.
(** [Handler.CreateWorkflow] *)
Definition CreateWorkflow : handler W := λ r, decoded r store_workflow.
(** [Handler.DuplicateWorkflow] *)
Definition DuplicateWorkflow : handler W := λ r,
  decoded r (λ request : DuplicateWorkflowRequest,
    if bool_decide (trim_space request.(dup_name) = "") then
      answer (writeError StatusUnprocessableEntity (Some (errorf "duplicate workflow name is required" [])))
    else
      attempt StatusInternalServerError
        (h.(Handler.workflows).(FindWorkflow) (r.(Request.PathValue) "workflowId")) (λ source,
        match source with
        | None => answer (writeError StatusNotFound None)
        | Some source =>
          let copy := Requests.FromDomain source in
          let spec := copy.(Requests.Spec) in
          store_workflow (Requests.mk_workflow request.(dup_name)
            (if bool_decide (request.(dup_namespace) = "") then spec
             else spec <| Requests.WorkflowSpec.Namespace := request.(dup_namespace) |>))
        end)).
(** [Handler.ListPlans] *)
Definition ListPlans : handler W := λ _,
  let! items := h.(Handler.plans).(ListPlans_) in answer (writeList items).
(** [Handler.CreatePlan] *)
Definition CreatePlan : handler W := λ r,
  decoded r (λ request : CreatePlanRequest,
    let plan := request.(plan_) in
    let plan := if bool_decide (plan.(SchedulePlan.NetworkTopologyID) = "")
      then plan <| SchedulePlan.NetworkTopologyID := request.(plan_topology).(NetworkTopology.ID) |>
      else plan in
    match h.(Handler.validator) plan request.(plan_workflow) request.(plan_resources)
            request.(plan_scope) request.(plan_topology) with
    | Err e => answer (writeError StatusUnprocessableEntity (Some e))
    | Ok _ =>
      attempt StatusUnprocessableEntity (h.(Handler.plans).(SavePlan) plan)
        (λ _, answer (writeJSON StatusCreated plan))
    end).
(** [Handler.GetPlan] *)
Definition GetPlan : handler W := λ r,
  let! plan := h.(Handler.plans).(FindPlan) (r.(Request.PathValue) "planId") in answer (writeItem plan).
End workflows.

(** ** Executions, as they are shown *)
Record RunItem := mk_run_item { item_run : ExecutionRun }.
Record RunPage := mk_run_page {
  page_items : list RunItem; page_number : Z; page_size : Z; page_total : Z; page_next : bool
}.
Record ExecutionData := mk_execution_data {
  data_objects : list DataObjectInstance; data_locations : list DataLocation;
  data_materializations : list ArtifactMaterialization; data_transfer_runs : list DataTransferRun
}.
Record ExecutionReply := mk_execution {
  shown_run : ExecutionRun; shown_activities : list TaskExecution; shown_transfers : list DataTransfer;
  shown_handles : list ActivityHandle; shown_events : list DomainEvent; shown_data : option ExecutionData
}.

Section executions.
Context {W : Type} (h : Handler W).
Let internal {A} := @attempt W A StatusInternalServerError.

(** [Handler.ListExecutions] *)
Definition ListExecutions : handler W := λ r,
  let query := r.(Request.Query) in
  if r.(Request.QueryHas) "page" || r.(Request.QueryHas) "pageSize" then
    internal (h.(Handler.executions).(ListRunsPage) (positiveInteger (query "page") 1)
                (positiveInteger (query "pageSize") 20) (query "kind") (query "mode") (query "status"))
      (λ page, answer (writeJSON StatusOK (mk_run_page (map mk_run_item page.(ExecutionRunPage.Items))
        page.(ExecutionRunPage.Page) page.(ExecutionRunPage.PageSize) page.(ExecutionRunPage.Total)
        page.(ExecutionRunPage.HasNext))))
  else internal h.(Handler.executions).(ListRuns)
         (λ runs, answer (writeJSON StatusOK (map mk_run_item runs))).

(** The data of a run, when there is a catalog. *)
Definition execution_data (id : string) (k : option ExecutionData → eff W (option Reply))
    : eff W (option Reply) :=
  match h.(Handler.data) with
  | None => k None
  | Some d =>
    internal (d.(ListInstances) id) (λ instances,
    internal (d.(ListLocations) id) (λ locations,
    internal (d.(ListArtifactMaterializations_) id) (λ materializations,
    internal (d.(ListArtifactTransferRuns) id) (λ runs,
      k (Some (mk_execution_data instances locations materializations runs))))))
  end.
(** [Handler.GetExecution] *)
Definition GetExecution : handler W := λ r,
  let executions := h.(Handler.executions) in
  internal (executions.(FindRun) (r.(Request.PathValue) "runId")) (λ run,
    match run with
    | None => answer (writeError StatusNotFound None)
    | Some run =>
      let id := run.(ExecutionRun.ID) in
      internal (executions.(ListTasks) id) (λ tasks,
      internal (executions.(ListTransfers) id) (λ transfers,
      internal (executions.(ListHandles) id) (λ handles,
      internal (executions.(ListEvents) id) (λ events,
      execution_data id (λ data,
        answer (writeJSON StatusOK (mk_execution run tasks transfers handles events data)))))))
    end).
End executions.

(** ** Artifacts and builds *)
Section artifacts.
Context {W : Type} `{Clock W, Sha256, Yaml, Multipart} (h : Handler W).
Context `{Unmarshal ArtifactMaterialization, Unmarshal BuildContextArtifact, Unmarshal ArtifactBuild,
  Unmarshal DockerArtifactRequest}.
Let no_build := "build service is unavailable".

(** [Handler.ListArtifactLocations] *)
Definition ListArtifactLocations : handler W := λ _,
  dereference h.(Handler.data) (λ d, let! v := d.(ListArtifactLocations_) in answer (writeList v)).
(** [Handler.ListArtifacts] *)
Definition ListArtifacts : handler W := λ _,
  dereference h.(Handler.data) (λ d, let! v := d.(ListArtifacts_) in answer (writeList v)).
(** [Handler.ListArtifactMaterializations] *)
Definition ListArtifactMaterializations : handler W := λ r,
  dereference h.(Handler.data) (λ d,
    let! v := d.(ListArtifactMaterializations_) (r.(Request.Query) "runId") in answer (writeList v)).
(** [Handler.SaveArtifactMaterialization] *)
Definition SaveArtifactMaterialization : handler W := λ r,
  decoded r (λ value : ArtifactMaterialization, dereference h.(Handler.data) (λ d,
    attempt StatusUnprocessableEntity (d.(SaveArtifactMaterialization_) value)
      (λ _, answer (writeJSON StatusCreated value)))).

(** The upload of [SaveBuildContext]. *)
Definition upload_context (b : BuildOrchestrator W) : handler W := λ r,
  let limit := b.(MaxUploadBytes) + 2 ^ 20 in
  match ParseMultipartForm limit r with
  | Err e => answer (writeError StatusRequestEntityTooLarge (Some e))
  | Ok _ =>
    match FormFile limit r "context" with
    | Err e => answer (writeError StatusUnprocessableEntity
                 (Some (errorf "multipart field context is required: %w" [e])))
    | Ok file =>
      attempt StatusUnprocessableEntity (b.(Upload) file) (λ value, answer (writeJSON StatusCreated value))
    end
  end.
(** [Handler.SaveBuildContext] *)
Definition SaveBuildContext : handler W := λ r,
  let described :=
    decoded r (λ value : BuildContextArtifact,
      if bool_decide (value.(BuildContextArtifact.Digest) = "") ||
         bool_decide (value.(BuildContextArtifact.StorageURI) = "") ||
         (value.(BuildContextArtifact.SizeBytes) <? 1) then
        answer (writeError StatusUnprocessableEntity
          (Some (errorf "digest, storageUri and positive sizeBytes are required" [])))
      else dereference h.(Handler.data) (λ d,
        attempt StatusUnprocessableEntity (d.(SaveBuildContext_) value)
          (λ _, answer (writeJSON StatusCreated value)))) in
  match h.(Handler.build) with
  | Some b => if has_prefix "multipart/form-data" (r.(Request.Header) "Content-Type")
              then upload_context b r else described
  | None => described
  end.
(** [Handler.CreateArtifactBuild] *)
Definition CreateArtifactBuild : handler W := λ r,
  decoded r (λ value : ArtifactBuild,
    if bool_decide (value.(ArtifactBuild.ID) = "") || bool_decide (value.(ArtifactBuild.ArtifactVersionID) = "") ||
       bool_decide (value.(ArtifactBuild.ContextDigest) = "") ||
       bool_decide (value.(ArtifactBuild.RecipeDigest) = "") || bool_decide (value.(ArtifactBuild.CacheKey) = "")
    then answer (writeError StatusUnprocessableEntity (Some
      (errorf "id, artifactVersionId, contextDigest, recipeDigest and cacheKey are required" [])))
    else dereference h.(Handler.data) (λ d,
      attempt StatusInternalServerError (d.(FindArtifactBuildByCacheKey) value.(ArtifactBuild.CacheKey))
        (λ existing, match existing with
         | Some existing => answer (writeJSON StatusOK existing)
         | None =>
           let! context := d.(FindBuildContext) value.(ArtifactBuild.ContextDigest) in
           match context with
           | Ok (Some _) =>
             attempt StatusUnprocessableEntity (d.(SaveArtifactBuild) value)
               (λ _, answer (writeJSON StatusCreated value))
           | _ => answer (writeError StatusUnprocessableEntity
                    (Some (errorf "build context %q is not uploaded" [value.(ArtifactBuild.ContextDigest)])))
           end
         end))).

(** The version and the build that [RegisterDockerArtifact] makes at [now]. *)
Definition docker_version_of (now : Z) (artifact version : string) : ArtifactVersion := {|
  ArtifactVersion.ID := "artifact-version-" +:+ itoa now; ArtifactVersion.ArtifactID := artifact;
  ArtifactVersion.Version := version; ArtifactVersion.Scope := CatalogScopeSystem;
  ArtifactVersion.ScopeID := ""
|}.
Definition docker_build_of (now : Z) (versionID image architecture : string) : ArtifactBuild :=
  let digest := "sha256:" +:+ sha256_hex ("docker://" +:+ image) in {|
  ArtifactBuild.ID := "build-" +:+ itoa now; ArtifactBuild.ArtifactVersionID := versionID;
  ArtifactBuild.SourceType := "docker-image"; ArtifactBuild.ContextDigest := digest;
  ArtifactBuild.RecipePath := image; ArtifactBuild.RecipeDigest := digest;
  ArtifactBuild.TargetFormat := "sif"; ArtifactBuild.TargetOS := "linux";
  ArtifactBuild.TargetArchitecture := architecture; ArtifactBuild.BuildArguments := "{}";
  ArtifactBuild.CacheKey := "docker-image:" +:+ digest +:+ ":" +:+ versionID
|}.
(** [Handler.RegisterDockerArtifact] *)
Definition RegisterDockerArtifact : handler W := λ r,
  decoded r (λ input : DockerArtifactRequest,
    let artifact := trim_space input.(docker_artifact) in
    let version := trim_space input.(docker_version) in
    let image := trim_prefix "docker://" (trim_space input.(docker_image)) in
    if bool_decide (artifact = "") || bool_decide (version = "") || bool_decide (image = "") ||
       Build.has_blank image then
      answer (writeError StatusUnprocessableEntity
        (Some (errorf "artifactId, version and a valid Docker image are required" [])))
    else
      let architecture := if bool_decide (input.(docker_architecture) = "") then "amd64"
                          else input.(docker_architecture) in
      let! now := UnixNano in
      let version := docker_version_of now artifact version in
      dereference h.(Handler.data) (λ d,
        let! registered := d.(RegisterArtifactVersion) version in
        match registered with
        | Err e => answer (writeError StatusUnprocessableEntity
                     (Some (errorf "register artifact version: %w" [e])))
        | Ok _ =>
          let build := docker_build_of now version.(ArtifactVersion.ID) image architecture in
          let! saved := d.(SaveArtifactBuild) build in
          answer (match saved with
                  | Err e => writeError StatusUnprocessableEntity
                      (Some (errorf "create Docker artifact build: %w" [e]))
                  | Ok _ => writeJSON StatusCreated (mk_docker_reply version build)
                  end)
        end)).
(** [Handler.GetArtifactBuild] *)
Definition GetArtifactBuild : handler W := λ r,
  dereference h.(Handler.data) (λ d,
    let! v := d.(FindArtifactBuild) (r.(Request.PathValue) "buildId") in answer (writeItem v)).
(** [Handler.ListArtifactBuilds] *)
Definition ListArtifactBuilds : handler W := λ r,
  dereference h.(Handler.data) (λ d,
    let! v := d.(ListArtifactBuilds_) (r.(Request.PathValue) "artifactId") in answer (writeList v)).
(** [Handler.ListBuildRuns] *)
Definition ListBuildRuns : handler W := λ r,
  dereference h.(Handler.data) (λ d,
    let! v := d.(ListBuildRuns_) (r.(Request.PathValue) "buildId") in answer (writeList v)).
(** [Handler.GetBuildRun] *)
Definition GetBuildRun : handler W := λ r,
  dereference h.(Handler.data) (λ d,
    let! v := d.(FindBuildRun) (r.(Request.PathValue) "runId") in answer (writeItem v)).
(** [Handler.StreamBuildOutput] *)
Definition StreamBuildOutput : handler W := λ r,
  available h.(Handler.build) no_build (λ b,
    attempt StatusNotFound (b.(OpenOutput) (r.(Request.PathValue) "runId"))
      (λ '(file, name), answer (mk_reply StatusOK (Content "application/vnd.sylabs.sif"
        ("attachment; filename=" +:+ dquote +:+ name +:+ dquote) file)))).
(** [Handler.StartArtifactBuildRun] *)
Definition StartArtifactBuildRun : handler W := λ r,
  available h.(Handler.build) no_build (λ b, dereference h.(Handler.data) (λ d,
    attempt StatusInternalServerError (d.(FindArtifactBuild) (r.(Request.PathValue) "buildId"))
      (λ spec, match spec with
       | None => answer (writeError StatusNotFound (Some (errorf "artifact build not found" [])))
       | Some spec => attempt StatusUnprocessableEntity (b.(StartBuild) spec)
                        (λ run, answer (writeJSON StatusAccepted run))
       end))).
End artifacts.

(** ** Search *)
Module SearchResult.
Record SearchResult := mk {
  Type_ : string; ID : string; Title : string; Subtitle : string; Path : string; Status : string;
  Score : float64
}.
#[global] Instance eta : Eta SearchResult := λ r,
  mk r.(Type_) r.(ID) r.(Title) r.(Subtitle) r.(Path) r.(Status) r.(Score).
End SearchResult.
Abbreviation SearchResult := SearchResult.SearchResult.
Record SearchReply := mk_search { search_query : string; search_results : list SearchResult; search_total : Z }.

Definition all_types : list string :=
  ["workflow"; "execution"; "artifact"; "environment"; "resource"; "plan"; "scope"; "materialization"].
(** [searchTypes] *)
Definition searchTypes (raw : string) : gset string :=
  if bool_decide (trim_space raw = "") then list_to_set all_types
  else list_to_set (List.filter (λ t, bool_decide (t ∈ all_types)) (map trim_space (split_byte "," raw))).

Definition exact_score : float64 := float_of_Z 1.
Definition prefix_score : float64 := fdiv (float_of_Z 9) (float_of_Z 10).
Definition infix_score : float64 := fdiv (float_of_Z 7) (float_of_Z 10).
(** [searchScore] *)
Definition searchScore (query : string) (fields : list string) : float64 :=
  let needle := to_lower (trim_space query) in
  foldl (λ best field,
    let value := to_lower field in
    if bool_decide (value = needle) then fmax best exact_score
    else if has_prefix needle value then fmax best prefix_score
    else if contains value needle then fmax best infix_score
    else best) f0 fields.

(** [firstNonEmpty] *)
Fixpoint firstNonEmpty (values : list string) : string :=
  match values with
  | [] => ""
  | v :: rest => if bool_decide (trim_space v = "") then firstNonEmpty rest else v
  end.

(** [add]: the result, when its type is wanted and one of the fields matches. *)
Definition add_result (types : gset string) (query : string) (item : SearchResult) (fields : list string)
    : list SearchResult :=
  if negb (bool_decide (item.(SearchResult.Type_) ∈ types)) then []
  else
    let score := searchScore query fields in
    if flt f0 score then [item <| SearchResult.Score := score |>] else [].

(** What [Search] shows of each entity, and the fields it looks at. *)
Definition search_workflow (v : WorkflowDefinition) : SearchResult * list string :=
  (SearchResult.mk "workflow" v.(WorkflowDefinition.ID) v.(WorkflowDefinition.Name)
     v.(WorkflowDefinition.Namespace) ("/workflows/" +:+ PathEscape v.(WorkflowDefinition.ID)) "" f0,
   [v.(WorkflowDefinition.ID); v.(WorkflowDefinition.ExternalID); v.(WorkflowDefinition.Name);
    v.(WorkflowDefinition.Namespace)]).
Definition search_execution (v : ExecutionRun) : SearchResult * list string :=
  let status := ExecutionRunStatus_string v.(ExecutionRun.Status) in
  (SearchResult.mk "execution" v.(ExecutionRun.ID)
     (firstNonEmpty [v.(ExecutionRun.Title); v.(ExecutionRun.ID)])
     (firstNonEmpty [v.(ExecutionRun.FailureReason); v.(ExecutionRun.ResourceID); v.(ExecutionRun.RuntimeID)])
     ("/executions/" +:+ PathEscape v.(ExecutionRun.ID)) status f0,
   [v.(ExecutionRun.ID); v.(ExecutionRun.Title); v.(ExecutionRun.ResourceID); v.(ExecutionRun.RuntimeID);
    v.(ExecutionRun.FailureReason); status]).
Definition search_artifact (v : ExecutableArtifact) : SearchResult * list string :=
  (SearchResult.mk "artifact" v.(ExecutableArtifact.ID)
     (firstNonEmpty [v.(ExecutableArtifact.Name); v.(ExecutableArtifact.ID)]) v.(ExecutableArtifact.Version)
     ("/artifacts/" +:+ PathEscape v.(ExecutableArtifact.ID)) "" f0,
   [v.(ExecutableArtifact.ID); v.(ExecutableArtifact.Name); v.(ExecutableArtifact.Version)]).
Definition search_environment (d : EnvironmentDefinition) : SearchResult * list string :=
  let v := d.(EnvironmentDefinition.Environment) in
  let status := EnvironmentStatus_string v.(Environment.Status) in
  (SearchResult.mk "environment" v.(Environment.ID) v.(Environment.Name) v.(Environment.Description)
     ("/environments/" +:+ PathEscape v.(Environment.ID)) status f0,
   [v.(Environment.ID); v.(Environment.Name); v.(Environment.Description); status]).
Definition search_resource (v : Resource) : SearchResult * list string :=
  let type := ResourceType_string v.(Resource.Type_) in
  (SearchResult.mk "resource" v.(Resource.ID) v.(Resource.Name) type
     ("/resources/" +:+ PathEscape v.(Resource.ID)) "" f0,
   [v.(Resource.ID); v.(Resource.Name); v.(Resource.ProviderID); v.(Resource.Region); v.(Resource.Zone);
    type; v.(Resource.EnvironmentVersionID)]).
Definition search_plan (v : SchedulePlan) : SearchResult * list string :=
  (SearchResult.mk "plan" v.(SchedulePlan.ID) v.(SchedulePlan.ID) v.(SchedulePlan.Algorithm)
     ("/plans/" +:+ PathEscape v.(SchedulePlan.ID)) "" f0,
   [v.(SchedulePlan.ID); v.(SchedulePlan.Algorithm); v.(SchedulePlan.Objective);
    v.(SchedulePlan.WorkflowVersionID); v.(SchedulePlan.ExecutionScopeID)]).
Definition search_scope (v : ExecutionScope) : SearchResult * list string :=
  (SearchResult.mk "scope" v.(ExecutionScope.ID) v.(ExecutionScope.Name) v.(ExecutionScope.NetworkTopologyID)
     ("/execution-scopes/" +:+ PathEscape v.(ExecutionScope.ID)) "" f0,
   [v.(ExecutionScope.ID); v.(ExecutionScope.Name); v.(ExecutionScope.NetworkTopologyID);
    join_byte " " v.(ExecutionScope.EnvironmentVersionIDs)]).
Definition search_materialization (v : ArtifactMaterialization) : SearchResult * list string :=
  let status := MaterializationStatus_string v.(ArtifactMaterialization.Status) in
  (SearchResult.mk "materialization" v.(ArtifactMaterialization.ID) v.(ArtifactMaterialization.VariantID)
     (firstNonEmpty [v.(ArtifactMaterialization.DestinationPath); v.(ArtifactMaterialization.ResourceID)])
     ("/materializations?runId=" +:+ QueryEscape v.(ArtifactMaterialization.RunID)) status f0,
   [v.(ArtifactMaterialization.ID); v.(ArtifactMaterialization.VariantID); v.(ArtifactMaterialization.Digest);
    v.(ArtifactMaterialization.ResourceID); v.(ArtifactMaterialization.RunID);
    v.(ArtifactMaterialization.ActivityID); v.(ArtifactMaterialization.DestinationPath); status]).

(** [sort.SliceStable] by falling score: an item goes behind those that score no less. *)
Fixpoint insert_result (x : SearchResult) (l : list SearchResult) : list SearchResult :=
  match l with
  | [] => [x]
  | y :: rest => if flt y.(SearchResult.Score) x.(SearchResult.Score) then x :: l
                 else y :: insert_result x rest
  end.
Definition sort_results (l : list SearchResult) : list SearchResult :=
  foldl (λ sorted x, insert_result x sorted) [] l.

Section search.
Context {W : Type} (h : Handler W).

(** One of the blocks of [Search]: the entities of a type are listed and added. *)
Definition search_type {A} (types : gset string) (query type : string) (items : effr W (list A))
    (show : A → SearchResult * list string) (results : list SearchResult)
    (k : list SearchResult → eff W (option Reply)) : eff W (option Reply) :=
  if bool_decide (type ∈ types) then
    attempt StatusInternalServerError items (λ items,
      k (results ++ flat_map (λ v, let '(item, fields) := show v in add_result types query item fields) items))
  else k results.
(** A block whose listing is a call of the data catalog, which may be nil. *)
Definition search_data {A} (types : gset string) (query type : string)
    (items : DataStore W → effr W (list A)) (show : A → SearchResult * list string)
    (results : list SearchResult) (k : list SearchResult → eff W (option Reply)) : eff W (option Reply) :=
  match h.(Handler.data) with
  | Some d => search_type types query type (items d) show results k
  | None => if bool_decide (type ∈ types) then eret None else k results
  end.

Definition search_limit (raw : string) : Z := Z.min 100 (positiveInteger raw 30).

(** [Handler.Search] *)
Definition Search_ : handler W := λ r,
  let query := trim_space (r.(Request.Query) "q") in
  if bool_decide (query = "") then answer (writeJSON StatusOK (mk_search query [] 0))
  else
    let limit := search_limit (r.(Request.Query) "limit") in
    let types := searchTypes (r.(Request.Query) "types") in
    search_type types query "workflow" h.(Handler.workflows).(ListWorkflows_) search_workflow [] (λ rs,
    search_type types query "execution" h.(Handler.executions).(ListRuns) search_execution rs (λ rs,
    search_data types query "artifact" ListArtifacts_ search_artifact rs (λ rs,
    search_type types query "environment" h.(Handler.environments).(ListEnvironments_) search_environment rs (λ rs,
    search_type types query "resource" h.(Handler.resources).(ListResources_) search_resource rs (λ rs,
    search_type types query "plan" h.(Handler.plans).(ListPlans_) search_plan rs (λ rs,
    search_type types query "scope" h.(Handler.scopes).(ListScopes) search_scope rs (λ rs,
    search_data types query "materialization" (λ d, d.(ListArtifactMaterializations_) "")
      search_materialization rs (λ rs,
      let results := take (Z.to_nat limit) (sort_results rs) in
      answer (writeJSON StatusOK (mk_search query results (Z.of_nat (length results)))))))))))).
End search.

(** ** Submission of executions *)
(** [resolveDirectOCIImages], on one activity *)
Definition direct_image (a : Activity) : Activity :=
  let command := a.(Activity.Command) in
  match command.(ActivityCommand.Executable) with
  | None => a
  | Some executable =>
    if negb (bool_decide (command.(ActivityCommand.Image) = "")) then a
    else
      let source := executable.(ExecutableReference.Source) in
      if bool_decide (source.(ExecutableSource.Type_) = ExecutableSourceOCI) &&
         negb (bool_decide (source.(ExecutableSource.Reference) = "")) then
        a <| Activity.Command := command <| ActivityCommand.Image := source.(ExecutableSource.Reference) |> |>
      else a
  end.
Definition resolveDirectOCIImages (workflow : WorkflowVersion) : WorkflowVersion :=
  workflow <| WorkflowVersion.Activities := map direct_image workflow.(WorkflowVersion.Activities) |>.

(** [executionRuntimeDriver] *)
Definition executionRuntimeDriver (request : ExecutionRequest) (assignment : PlanAssignment) : RuntimeDriver :=
  let mode := if bool_decide (request.(ExecutionRequest.Run).(ExecutionRun.Mode) = ExecutionModeSimulation)
              then RuntimeModeSimulation else RuntimeModeExecution in
  let runtimes := Supervisor.index EnvironmentRuntime.ID request.(ExecutionRequest.Runtimes) in
  let selected := meta_string assignment.(PlanAssignment.Metadata) "runtimeId" in
  let chosen (binding : ResourceRuntimeBinding) : option RuntimeDriver :=
    if negb (bool_decide (binding.(ResourceRuntimeBinding.ResourceID) = assignment.(PlanAssignment.ResourceID))) ||
       negb binding.(ResourceRuntimeBinding.Enabled) then None
    else
      match runtimes !! binding.(ResourceRuntimeBinding.RuntimeID) with
      | Some runtime =>
        if bool_decide (runtime.(EnvironmentRuntime.Mode) = mode) &&
           (bool_decide (selected = "") || bool_decide (runtime.(EnvironmentRuntime.ID) = selected))
        then Some runtime.(EnvironmentRuntime.Driver) else None
      | None => None
      end in
  default zero (head (omap chosen request.(ExecutionRequest.RuntimeBindings))).

Section submission.
Context {W : Type} `{WallClock W, Yaml, URLPrinter} (h : Handler W).
Context `{Unmarshal ExecutionRequest, Marshal ExecutionRequest} (newID : eff W string).

(** The destination that [configureGatewayArtifactTransfer] gives to a transfer. *)
Definition gateway_root (connection : EnvironmentConnection) : string :=
  path_Join ["/home"; connection.(EnvironmentConnection.Username); ".akoflow"; "artifacts"].
Definition gateway_query (connection : EnvironmentConnection) : list (string * string) :=
  let identity := trim_prefix "file:" connection.(EnvironmentConnection.CredentialRef) in
  let value key := meta_string connection.(EnvironmentConnection.Configuration) key in
  List.filter (λ kv, negb (bool_decide (kv.2 = "")))
    [("identityFile", identity); ("knownHostsFile", value "knownHostsFile");
     ("proxyCommand", value "proxyCommand")].
Definition gateway_uri (connection : EnvironmentConnection) : string :=
  url_String "ssh" connection.(EnvironmentConnection.Username) connection.(EnvironmentConnection.Endpoint)
    (gateway_root connection) (Values_Encode (gateway_query connection)).
Definition through_gateway (connection : EnvironmentConnection) (artifact : ArtifactMaterialization)
    (transfer : DataTransferPlan) (requirement : PreparationRequirement) : PreparationRequirement :=
  requirement
    <| PreparationRequirement.Artifact := Some (artifact <| ArtifactMaterialization.DestinationPath :=
         path_Join [gateway_root connection; artifact.(ArtifactMaterialization.Digest)] |>) |>
    <| PreparationRequirement.ArtifactTransfer := Some (transfer
         <| DataTransferPlan.Strategy := TransferSourcePush |>
         <| DataTransferPlan.Destination := transfer.(DataTransferPlan.Destination)
              <| TransferLocation.URI := gateway_uri connection |> <| TransferLocation.Path := "" |> |>) |>.

(** [Handler.configureGatewayArtifactTransfer] *)
Definition configureGatewayArtifactTransfer (requirement : PreparationRequirement) (resource : Resource)
    : effr W PreparationRequirement :=
  match requirement.(PreparationRequirement.Artifact), requirement.(PreparationRequirement.ArtifactTransfer) with
  | Some artifact, Some transfer =>
    match h.(Handler.environments).(as_connections) with
    | None => eret (Ok requirement)
    | Some find =>
      let connectionID := meta_string resource.(Resource.Metadata) "connectionId" in
      if bool_decide (connectionID = "") then eret (Ok requirement)
      else
        let? connection := find connectionID in
        eret (Ok (match connection with
                  | None => requirement
                  | Some connection =>
                    if negb (bool_decide (connection.(EnvironmentConnection.Type_) = ConnectionSSH)) ||
                       bool_decide (connection.(EnvironmentConnection.Endpoint) = "") ||
                       bool_decide (connection.(EnvironmentConnection.Username) = "") then requirement
                    else through_gateway connection artifact transfer requirement
                  end))
    end
  | _, _ => eret (Ok requirement)
  end.

(** The requirement of an activity, if it needs one. *)
Definition activity_requirement (d : DataStore W) (request : ExecutionRequest) (activity : Activity)
    (source : ExecutableSource) (assignment : PlanAssignment) (resource : Resource)
    : sup W (option PreparationRequirement) :=
  match source.(ExecutableSource.Type_) with
  | ExecutableSourceBuild =>
    let* requirement := Build.Preparation (H := d.(build_outputs)) true
      source.(ExecutableSource.ArtifactBuildRef) activity.(Activity.ID) resource "" in
    sret (Some requirement)
  | ExecutableSourceOCI =>
    if negb (bool_decide (executionRuntimeDriver request assignment = RuntimeDriverSlurm)) then sret None
    else Build.PreparationForDockerImage (H := d.(build_outputs)) true
           source.(ExecutableSource.Reference) activity.(Activity.ID) resource ""
  | _ => sret None
  end.

(** The body of the loop of [resolveBuildPreparations]. *)
Definition resolve_activity (d : DataStore W) (request : ExecutionRequest) (activity : Activity)
    : sup W ExecutionRequest :=
  match activity.(Activity.Command).(ActivityCommand.Executable) with
  | None => sret request
  | Some executable =>
    let id := activity.(Activity.ID) in
    match Supervisor.indexAssignments request.(ExecutionRequest.Plan).(SchedulePlan.Assignments) !! id with
    | None => serr (errorf "build activity %q has no plan assignment" [id])
    | Some assignment =>
      match Supervisor.indexResources request.(ExecutionRequest.Resources) !!
              assignment.(PlanAssignment.ResourceID) with
      | None => serr (errorf "build activity %q has unknown resource %q"
                  [id; assignment.(PlanAssignment.ResourceID)])
      | Some resource =>
        let* requirement := activity_requirement d request activity
          executable.(ExecutableReference.Source) assignment resource in
        match requirement with
        | None => sret request
        | Some requirement =>
          let* requirement := sup_lift (configureGatewayArtifactTransfer requirement resource) in
          sret (request <| ExecutionRequest.PreparationRequirementsByActivity :=
            <[id := requirement]> request.(ExecutionRequest.PreparationRequirementsByActivity) |>)
        end
      end
    end
  end.
Fixpoint resolve_activities (d : DataStore W) (request : ExecutionRequest) (activities : list Activity)
    : sup W ExecutionRequest :=
  match activities with
  | [] => sret request
  | a :: rest => let* request := resolve_activity d request a in resolve_activities d request rest
  end.
(** [Handler.resolveBuildPreparations] *)
Definition resolveBuildPreparations (request : ExecutionRequest) : sup W ExecutionRequest :=
  match h.(Handler.data) with
  | None => sret request
  | Some d => resolve_activities d request request.(ExecutionRequest.Workflow).(WorkflowVersion.Activities)
  end.

(** controlplane/eventloop/execution_run_handler.go *)
Definition EventExecutionRunRequested : string := "execution.run.requested".
(** The job of a submitted run. *)
Definition submission_job (id : string) (now : Time) (runID payload : string) : result Job :=
  job ← JobQueue.New id now JobQueue.CategoryExecution EventExecutionRunRequested payload now;
  Ok (job <| Job.AggregateType := "execution_run" |> <| Job.AggregateID := runID |>
          <| Job.IdempotencyKey := "execution-run:" +:+ runID |>).
(** The request as it is stored. *)
Definition submitted_request (request : ExecutionRequest) : ExecutionRequest :=
  request <| ExecutionRequest.Workflow := resolveDirectOCIImages request.(ExecutionRequest.Workflow) |>
    <| ExecutionRequest.Run := request.(ExecutionRequest.Run)
         <| ExecutionRun.SchedulePlanID := request.(ExecutionRequest.Plan).(SchedulePlan.ID) |> |>.

(** [Handler.CreateExecution] *)
Definition CreateExecution : handler W := λ r,
  decoded r (λ request : ExecutionRequest,
    let! resolved := resolveBuildPreparations request in
    match resolved with
    | Panics => eret None
    | Returns (Err e) => answer (writeError StatusUnprocessableEntity (Some e))
    | Returns (Ok request) =>
      let request := submitted_request request in
      match marshal request with
      | Err e => answer (writeError StatusBadRequest (Some e))
      | Ok payload =>
        let! now := Now in
        let! id := newID in
        match submission_job id now request.(ExecutionRequest.Run).(ExecutionRun.ID) payload with
        | Err e => answer (writeError StatusBadRequest (Some e))
        | Ok job => attempt StatusUnprocessableEntity (h.(Handler.events) job)
                      (λ stored, answer (writeJSON StatusAccepted stored))
        end
      end
    end).
End submission.

(** ** The server (api/httpserver) *)
(** A reply as it leaves the server: the origin that [Access-Control-Allow-Origin] names. *)
Record Served := mk_served { allow_origin : option string; reply : option Reply }.
(** [http.Error] *)
Definition http_Error (message : string) (code : Z) : Reply :=
  mk_reply code (Content "text/plain; charset=utf-8" "" (mk_reader (message +:+ newline) None)).

Module SecurityOptions.
Record SecurityOptions := mk { BearerToken : string; AllowedOrigins : list string; LoopbackOnly : bool }.
End SecurityOptions.
Abbreviation SecurityOptions := SecurityOptions.SecurityOptions.

Section server.
Context {W : Type}.

(** [HealthCheck] *)
Definition HealthCheck : handler W := λ _,
  answer (mk_reply StatusOK (Content "" "" (mk_reader "ok" None))).

(** [isPublicBootstrapRequest] *)
Definition isPublicBootstrapRequest (r : Request) : bool :=
  bool_decide (r.(Request.Method) = "GET") &&
  bool_decide (r.(Request.Path) ∈ ["/akoflow-api/instance"; "/akoflow-api/instance/"]).
(** [validBearer] *)
Definition validBearer (r : Request) (expected : string) : bool :=
  let value := trim_prefix "Bearer " (r.(Request.Header) "Authorization") in
  negb (bool_decide (value = "")) && bool_decide (value = expected).
(** [isLoopbackRequest]; [strings.Trim(host, "[]")] *)
Definition isLoopbackRequest (r : Request) : bool :=
  let host := match SplitHostPort r.(Request.RemoteAddr) with
              | Ok (host, _) => host | Err _ => r.(Request.RemoteAddr) end in
  match ParseIP (trim (λ c, is_byte "[" c || is_byte "]" c) host) with
  | Some ip => IsLoopback ip | None => false end.

(** [SecureAPI] *)
Definition SecureAPI (next : handler W) (options : SecurityOptions) : handler W := λ r,
  if options.(SecurityOptions.LoopbackOnly) && negb (isLoopbackRequest r) then
    answer (http_Error "API is restricted to loopback" 403)
  else if negb (bool_decide (options.(SecurityOptions.BearerToken) = "")) &&
          negb (isPublicBootstrapRequest r) && negb (validBearer r options.(SecurityOptions.BearerToken)) then
    answer (http_Error "authentication required" 401)
  else next r.

(** [allowedOrigin] *)
Definition allowedOrigin (origin : string) (allowed : list string) : bool :=
  existsb (λ value, bool_decide (trim_space value = origin)) allowed.

(** [AllowCORSFor] *)
Definition AllowCORSFor (h : handler W) (allowed : list string) : Request → eff W Served := λ r,
  let origin := r.(Request.Header) "Origin" in
  let header := if negb (bool_decide (origin = "")) && allowedOrigin origin allowed
                then Some origin else None in
  if bool_decide (r.(Request.Method) = "OPTIONS") then
    eret (mk_served header (Some
      (if negb (bool_decide (origin = "")) && negb (allowedOrigin origin allowed)
       then http_Error "origin is not allowed" 403 else mk_reply StatusOK NoContent)))
  else let! reply := h r in eret (mk_served header reply).

(** [isLoopbackAddress] *)
Definition isLoopbackAddress (address : string) : bool :=
  match SplitHostPort address with
  | Err _ => false
  | Ok (host, _) => bool_decide (host ∈ ["localhost"; "127.0.0.1"; "::1"])
  end.
(** The options of [Serve], for the settings it loads. *)
Definition serve_options (address token : string) (origins : list string) : SecurityOptions :=
  SecurityOptions.mk token origins (negb (isLoopbackAddress address) && bool_decide (token = "")).
(** The handler that [ServeSecure] gives to the server. *)
Definition ServeSecure (mux : handler W) (security : SecurityOptions) : Request → eff W Served :=
  AllowCORSFor (SecureAPI mux security) security.(SecurityOptions.AllowedOrigins).

(** The loopback addresses, by their bytes: those of 127.0.0.0/8, which the IPv6 form
    carries behind ::ffff, and ::1. *)
Definition loopback_ip (ip : list Z) : Prop :=
  (∃ rest, ip = [0; 0; 0; 0; 0; 0; 0; 0; 0; 0; 255; 255; 127] ++ rest) ∨
  ip = [0; 0; 0; 0; 0; 0; 0; 0; 0; 0; 0; 0; 0; 0; 0; 1].
(** The host of a remote address: that of [host:port] or [[host]:port], and otherwise the
    whole text without the brackets at its ends. *)
Definition remote_host (address host : string) : Prop :=
  (∃ port, host_port address host port) ∨
  (∀ h p, ¬ host_port address h p) ∧ host = trim (λ c, is_byte "[" c || is_byte "]" c) address.
Definition from_loopback (r : Request) : Prop :=
  ∃ host ip, remote_host r.(Request.RemoteAddr) host ∧ ParseIP host = Some ip ∧ loopback_ip ip.
(** The addresses a server listens on when only its own machine can reach it. *)
Definition listens_locally (address : string) : Prop :=
  ∃ host port, host_port address host port ∧ (host = "localhost" ∨ host = "127.0.0.1" ∨ host = "::1").
(** The one request that needs no token: reading the identity of the instance. *)
Definition asks_identity (r : Request) : Prop :=
  r.(Request.Method) = "GET" ∧
  (r.(Request.Path) = "/akoflow-api/instance" ∨ r.(Request.Path) = "/akoflow-api/instance/").
(** The header carries the token, after [Bearer ] or alone. *)
Definition carries (token : string) (r : Request) : Prop :=
  r.(Request.Header) "Authorization" = "Bearer " +:+ token ∨
  r.(Request.Header) "Authorization" = token ∧ ∀ rest, token ≠ "Bearer " +:+ rest.
(** Who may use the API of a server on [address] with [token]. *)
Definition admitted (address token : string) (r : Request) : Prop :=
  r.(Request.Method) ≠ "OPTIONS" ∧
  (token = "" → listens_locally address ∨ from_loopback r) ∧
  (token ≠ "" → asks_identity r ∨ carries token r).

Lemma valid_bearer r token : token ≠ "" → validBearer r token = true ↔ carries token r.
Proof.
  intros Ht. unfold validBearer, carries. rewrite andb_true_iff, negb_true_iff, bool_decide_eq_true, bool_decide_eq_false.
  unfold trim_prefix. destruct (has_prefix "Bearer " _) eqn:Ep.
  - apply has_prefix_spec in Ep as [t Ep]. rewrite Ep, drop_str_app. split; [intros [_ ->]; by left|].
    intros [H|[<- H]]; [apply str_app_inv_l in H as ->; done|]. by destruct (H t).
  - split.
    + intros [_ <-]. right. split; [done|]. intros rest E. rewrite E, has_prefix_app in Ep. done.
    + intros [H|[-> _]]; [|done]. by rewrite H, has_prefix_app in Ep.
Qed.
Lemma public_request r : isPublicBootstrapRequest r = true ↔ asks_identity r.
Proof.
  unfold isPublicBootstrapRequest, asks_identity. rewrite andb_true_iff, !bool_decide_eq_true. set_solver.
Qed.
Lemma loopback_address address : isLoopbackAddress address = true ↔ listens_locally address.
Proof.
  unfold isLoopbackAddress, listens_locally. destruct (SplitHostPort address) as [[h p]|e] eqn:E.
  - rewrite bool_decide_eq_true. split.
    + intros Hh. exists h, p. split; [by apply SplitHostPort_exact|set_solver].
    + intros (h' & p' & Hs%SplitHostPort_exact & Hh). rewrite E in Hs. simplify_eq. set_solver.
  - split; [done|]. intros (h & p & Hs%SplitHostPort_exact & _). by rewrite E in Hs.
Qed.
Lemma IsLoopback_exact ip : IsLoopback ip = true ↔ loopback_ip ip.
Proof.
  unfold IsLoopback, loopback_ip, v4_prefix. case_bool_decide as Hv; rewrite bool_decide_eq_true.
  - split.
    + intros Hi. left. exists (drop 13 ip). rewrite <- (take_drop 13 ip) at 1.
      by rewrite (take_S_r _ _ _ Hi), Hv.
    + by intros [[rest ->]| ->].
  - split; [by right|]. intros [[rest ->]| ->]; [|done]. by destruct Hv.
Qed.
Lemma trim_free p s : str_forall (λ c, negb (p c)) s = true → trim p s = s.
Proof.
  intros Hs. unfold trim. assert (trim_left p s = s) as ->.
  { destruct s as [|c s]; [done|]. simpl in *. by destruct (p c). }
  induction s as [|c s IH]; [done|]. simpl in *. apply andb_true_iff in Hs as [Hc Hs].
  rewrite IH by done. apply negb_true_iff in Hc. rewrite Hc. by destruct s.
Qed.
Lemma trim_unbracketed s : free_of_brackets s → trim (λ c, is_byte "[" c || is_byte "]" c) s = s.
Proof.
  intros [H1 H2]. apply trim_free. induction s as [|c s IH]; [done|].
  apply free_of_cons in H1 as [N1 H1]. apply free_of_cons in H2 as [N2 H2]. simpl. rewrite IH by done.
  unfold is_byte. by rewrite !bool_decide_false.
Qed.
Lemma loopback_request r : isLoopbackRequest r = true ↔ from_loopback r.
Proof.
  unfold isLoopbackRequest, from_loopback, remote_host.
  destruct (SplitHostPort r.(Request.RemoteAddr)) as [[h p]|e] eqn:E.
  - apply SplitHostPort_exact in E as Hs. rewrite (trim_unbracketed h) by apply Hs. split.
    + destruct (ParseIP h) as [ip|] eqn:Ei; [|done]. rewrite IsLoopback_exact. eauto 10.
    + intros (h' & ip & [[p' Hp]|[Hn _]] & Hi & Hl); [|by destruct (Hn h p)].
      apply SplitHostPort_exact in Hp. rewrite E in Hp. simplify_eq. rewrite Hi. by apply IsLoopback_exact.
  - assert (∀ h p, ¬ host_port r.(Request.RemoteAddr) h p) as Hn.
    { intros h p Hp%SplitHostPort_exact. by rewrite E in Hp. }
    split.
    + destruct (ParseIP _) as [ip|] eqn:Ei; [|done]. rewrite IsLoopback_exact. eauto 10.
    + intros (h' & ip & [[p' Hp]|[_ ->]] & Hi & Hl); [by destruct (Hn h' p')|].
      rewrite Hi. by apply IsLoopback_exact.
Qed.

(** The gate alone: it passes the request on, or answers and leaves the world as it was. *)
Lemma secured mux address token origins r w : r.(Request.Method) ≠ "OPTIONS" →
  (admitted address token r → SecureAPI mux (serve_options address token origins) r w = mux r w) ∧
  (¬ admitted address token r → ∃ rep, SecureAPI mux (serve_options address token origins) r w = (Some rep, w) ∧
     rep.(status) = if bool_decide (token = "") then 403 else 401).
Proof.
  intros Ho. unfold admitted, SecureAPI, serve_options. cbn [SecurityOptions.LoopbackOnly SecurityOptions.BearerToken].
  rewrite <- loopback_address, <- loopback_request, <- public_request. case_bool_decide as Ht.
  - rewrite andb_true_r. cbn [negb andb].
    destruct (isLoopbackAddress address); [|destruct (isLoopbackRequest r)]; cbn [negb andb].
    1, 2: split; [done|]; intros Hn; exfalso; apply Hn; by intuition.
    split; [|intros _; by eexists]. intros (_ & [?|?] & _); done.
  - rewrite andb_false_r. cbn [negb andb]. rewrite <- (valid_bearer r token Ht).
    destruct (isPublicBootstrapRequest r); [|destruct (validBearer r token)]; cbn [negb andb].
    1, 2: split; [done|]; intros Hn; exfalso; apply Hn; by intuition.
    split; [|intros _; by eexists]. intros (_ & _ & [?|?]); done.
Qed.

(** C24: The API fails closed: a request runs a handler exactly when it is admitted. With a
    token, that is when it carries the token, or is a GET of the identity of the instance;
    without one, when the server listens on localhost, 127.0.0.1 or ::1, or when the
    request's remote address is one of 127.0.0.0/8 or ::1. Every other request leaves the
    world as it was and is refused: with 401 where a token is asked, with 403 where none is
    set; a preflight request runs no handler either. No reply names an origin that is not
    the request's own and one of those allowed. *)
Theorem api_fails_closed mux address token origins r w :
  let '(s, w') := ServeSecure mux (serve_options address token origins) r w in
  (admitted address token r → (s.(reply), w') = mux r w) ∧
  (¬ admitted address token r → w' = w ∧ ∃ rep, s.(reply) = Some rep ∧
     if bool_decide (r.(Request.Method) = "OPTIONS") then rep = mk_reply 200 NoContent ∨ rep.(status) = 403
     else rep.(status) = if bool_decide (token = "") then 403 else 401) ∧
  (∀ origin, s.(allow_origin) = Some origin →
     r.(Request.Header) "Origin" = origin ∧ ∃ value, value ∈ origins ∧ trim_space value = origin).
Proof.
  unfold ServeSecure, AllowCORSFor. cbv zeta.
  set (header := if negb _ && _ then _ else _).
  assert (∀ origin, header = Some origin → r.(Request.Header) "Origin" = origin ∧
    ∃ value, value ∈ origins ∧ trim_space value = origin) as Hh.
  { subst header. intros origin. destruct (_ && _) eqn:E; [|done]. intros [= <-].
    split; [done|]. apply andb_true_iff in E as [_ (value & Hv & Ht)%existsb_exists].
    exists value. by rewrite list_elem_of_In, <- (bool_decide_eq_true (trim_space value = _)). }
  destruct (decide (r.(Request.Method) = "OPTIONS")) as [Ho|Ho].
  { rewrite !(bool_decide_true (_ = "OPTIONS")) by done. split_and!; [by intros [? _]| |done].
    intros _. split; [done|]. eexists. split; [done|]. destruct (_ && negb _); [by right|by left]. }
  rewrite !(bool_decide_false (_ = "OPTIONS")) by done. unfold ebind.
  destruct (secured mux address token origins r w Ho) as [Hyes Hno].
  destruct (SecureAPI _ _ _ _) as [rep w'] eqn:E. split_and!; [by intros ?%Hyes| |done].
  intros (rep' & [= -> ->] & Hs)%Hno. by eauto.
Qed.
End server.

(** ** The routes ([NewMux]) *)
Section routes.
Context {W : Type} `{Clock W, WallClock W, Sha256, Yaml, Multipart, URLPrinter, Requests.StrConv}.
Context `{Unmarshal DownloadRequest, Unmarshal PathRequest, Unmarshal CopyRequest,
  Unmarshal ArchiveRequest, Unmarshal PromoteDataRequest, Unmarshal PromoteArtifactRequest,
  Unmarshal IndexRequest, Unmarshal ConsoleSessionRequest, Unmarshal ConsoleRequest,
  Unmarshal KeyRequest, Unmarshal EnvironmentConnection, Unmarshal ExecutionScope,
  Unmarshal Instance_, Unmarshal UserPreferences, Unmarshal Resource, Unmarshal NetworkTopology,
  Unmarshal EnvironmentDefinition, Unmarshal Requests.Workflow, Unmarshal DuplicateWorkflowRequest,
  Unmarshal CreatePlanRequest, Unmarshal ArtifactMaterialization, Unmarshal BuildContextArtifact,
  Unmarshal ArtifactBuild, Unmarshal DockerArtifactRequest, Unmarshal ExecutionRequest,
  Marshal ExecutionRequest}.
Context (newID : eff W string).

(** The patterns and their handlers; the middleware [KernelHandler] around most of them
    adds a header that names the version of the server. *)
Definition NewMux (h : Handler W) : list (string * handler W) :=
  [("GET /", HealthCheck);
   ("GET /akoflow-api/instance/", GetInstance h);
   ("GET /akoflow-api/search/", Search_ h);
   ("GET /akoflow-api/audit-events/", ListAuditEvents h);
   ("GET /akoflow-api/console-commands/", ListConsoleCommands h);
   ("POST /akoflow-api/console-commands/", ExecuteConsoleCommand h);
   ("POST /akoflow-api/console-sessions/", OpenConsoleSession h);
   ("GET /akoflow-api/console-sessions/", ListConsoleSessions h);
   ("DELETE /akoflow-api/console-sessions/{sessionId}/", CloseConsoleSession h);
   ("GET /akoflow-api/console-sessions/{sessionId}/log/", ExportConsoleSessionLog h);
   ("GET /akoflow-api/console-sessions/{sessionId}/stream/", StreamConsoleSession h);
   ("GET /akoflow-api/ssh-keys/", ListSSHKeys h);
   ("POST /akoflow-api/ssh-keys/", GenerateSSHKey h);
   ("PUT /akoflow-api/instance/", SaveInstance h);
   ("GET /akoflow-api/user-preferences/{clientId}/", GetUserPreferences h);
   ("PUT /akoflow-api/user-preferences/{clientId}/", SaveUserPreferences h);
   ("POST /akoflow-api/environments/", CreateEnvironment h);
   ("GET /akoflow-api/environments/", ListEnvironments h);
   ("GET /akoflow-api/environments/{environmentId}/", GetEnvironment h);
   ("PUT /akoflow-api/environments/{environmentId}/", ReplaceEnvironment h);
   ("DELETE /akoflow-api/environments/{environmentId}/", DeleteEnvironment h);
   ("GET /akoflow-api/environments/{environmentId}/storages/", ListStorages h);
   ("GET /akoflow-api/storages/{storageId}/roots/", StorageRoots h);
   ("GET /akoflow-api/storages/{storageId}/entries/", BrowseStorage h);
   ("DELETE /akoflow-api/storages/{storageId}/entries/", DeleteStorageEntry h);
   ("GET /akoflow-api/storages/{storageId}/entry/", StatStorageEntry h);
   ("GET /akoflow-api/storages/{storageId}/stat/", StatStorageEntry h);
   ("POST /akoflow-api/storages/{storageId}/downloads/", CreateDownload h);
   ("POST /akoflow-api/storages/{storageId}/checksum/", ChecksumStorageEntry h);
   ("POST /akoflow-api/storages/{storageId}/copies/", CopyStorageEntry h);
   ("POST /akoflow-api/storages/{storageId}/archives/", ArchiveStorageDirectory h);
   ("POST /akoflow-api/storages/{storageId}/promote-data/", PromoteStorageData h);
   ("POST /akoflow-api/storages/{storageId}/promote-artifact/", PromoteStorageArtifact h);
   ("GET /akoflow-api/storages/{storageId}/index-runs/", ListStorageIndexRuns h);
   ("POST /akoflow-api/storages/{storageId}/index-runs/", StartStorageIndex h);
   ("GET /akoflow-api/storage-downloads/{downloadId}/", GetDownload h);
   ("GET /akoflow-api/storage-downloads/{downloadId}/content/", StreamDownload h);
   ("POST /akoflow-api/environment-connections/{connectionId}/health/", CheckEnvironmentConnection h);
   ("PUT /akoflow-api/environment-connections/{connectionId}/", UpdateEnvironmentConnection h);
   ("POST /akoflow-api/environment-connections/{connectionId}/discover/", DiscoverEnvironmentConnection h);
   ("GET /akoflow-api/environment-connections/{connectionId}/history/", ListEnvironmentConnectionHistory h);
   ("GET /akoflow-api/resources/", ListResources h);
   ("GET /akoflow-api/artifact-locations/", ListArtifactLocations h);
   ("GET /akoflow-api/artifacts/", ListArtifacts h);
   ("GET /akoflow-api/artifact-materializations/", ListArtifactMaterializations h);
   ("POST /akoflow-api/artifact-materializations/", SaveArtifactMaterialization h);
   ("POST /akoflow-api/build-contexts/", SaveBuildContext h);
   ("POST /akoflow-api/artifact-builds/", CreateArtifactBuild h);
   ("POST /akoflow-api/artifacts/docker/", RegisterDockerArtifact h);
   ("GET /akoflow-api/artifact-builds/{buildId}/", GetArtifactBuild h);
   ("GET /akoflow-api/artifacts/{artifactId}/builds/", ListArtifactBuilds h);
   ("GET /akoflow-api/artifact-builds/{buildId}/runs/", ListBuildRuns h);
   ("POST /akoflow-api/artifact-builds/{buildId}/runs/", StartArtifactBuildRun h);
   ("GET /akoflow-api/build-runs/{runId}/", GetBuildRun h);
   ("GET /akoflow-api/build-runs/{runId}/output/", StreamBuildOutput h);
   ("GET /akoflow-api/resources/{resourceId}/", GetResource h);
   ("GET /akoflow-api/resources/{resourceId}/snapshot/", GetResourceSnapshot h);
   ("POST /akoflow-api/resources/", CreateResource h);
   ("POST /akoflow-api/network-topologies/", CreateNetworkTopology h);
   ("GET /akoflow-api/network-topologies/", ListNetworkTopologies h);
   ("GET /akoflow-api/network-topologies/{topologyId}/", GetNetworkTopology h);
   ("POST /akoflow-api/execution-scopes/", CreateExecutionScope h);
   ("GET /akoflow-api/execution-scopes/", ListExecutionScopes h);
   ("GET /akoflow-api/execution-scopes/{scopeId}/", GetExecutionScope h);
   ("DELETE /akoflow-api/execution-scopes/{scopeId}/", DeleteExecutionScope h);
   ("POST /akoflow-api/workflow-definitions/", CreateWorkflow h);
   ("POST /akoflow-api/workflow-definitions/import/", CreateWorkflow h);
   ("GET /akoflow-api/workflow-definitions/", ListWorkflows h);
   ("GET /akoflow-api/workflow-definitions/{workflowId}/", GetWorkflow h);
   ("GET /akoflow-api/workflow-definitions/{workflowId}/export/", ExportWorkflow h);
   ("POST /akoflow-api/workflow-definition-actions/duplicate/{workflowId}/", DuplicateWorkflow h);
   ("POST /akoflow-api/schedule-plans/", CreatePlan h);
   ("GET /akoflow-api/schedule-plans/", ListPlans h);
   ("GET /akoflow-api/schedule-plans/{planId}/", GetPlan h);
   ("POST /akoflow-api/execution-runs/", CreateExecution h newID);
   ("GET /akoflow-api/execution-runs/", ListExecutions h);
   ("GET /akoflow-api/execution-runs/{runId}/", GetExecution h)].

(** *** Every route answers *)
Definition replies (m : eff W (option Reply)) : Prop := ∀ w, is_Some (m w).1.

Lemma replies_answer r : replies (answer r).
Proof. intros w. by eexists. Qed.
Lemma replies_bind {A} (m : eff W A) k : (∀ a, replies (k a)) → replies (ebind m k).
Proof. intros Hk w. unfold ebind. destruct (m w) as [a w']. apply Hk. Qed.
Lemma replies_attempt {A} bad (m : effr W A) k : (∀ a, replies (k a)) → replies (attempt bad m k).
Proof. intros Hk. apply replies_bind. intros [a|e]; [apply Hk|apply replies_answer]. Qed.
Lemma replies_available {D} (d : option D) message k : (∀ x, replies (k x)) → replies (available d message k).
Proof. intros Hk. destruct d; [apply Hk|apply replies_answer]. Qed.
Lemma replies_dereference {D} (d : option D) x k : d = Some x → replies (k x) → replies (dereference d k).
Proof. by intros ->. Qed.
Lemma replies_decoded {A} `{Unmarshal A} r (k : A → eff W (option Reply)) :
  (∀ v, replies (k v)) → replies (decoded r k).
Proof. intros Hk. unfold decoded. destruct (decode r); [apply replies_answer|apply Hk]. Qed.
Lemma replies_search_type {A} types query type (items : effr W (list A)) show rs k :
  (∀ rs, replies (k rs)) → replies (search_type types query type items show rs k).
Proof. intros Hk. unfold search_type. case_match; [apply replies_attempt; auto|apply Hk]. Qed.

(** The digests of build outputs have more than the seven bytes that are cut off. *)
Definition outputs_digested (d : DataStore W) : Prop :=
  (∀ id w v l w', FindBuildOutput (BuildOutputs := d.(build_outputs)) id w = (Ok (Some v, l), w') →
     (7 ≤ str_length v.(ArtifactVariant.Digest))%nat) ∧
  (∀ image arch w b v l w',
     FindDockerBuildOutput (BuildOutputs := d.(build_outputs)) image arch w = (Ok (b, Some v, l), w') →
     (7 ≤ str_length v.(ArtifactVariant.Digest))%nat).

Definition no_panic {A} (m : sup W A) : Prop := ∀ w, (m w).1 ≠ Panics.
Lemma no_panic_bind {A B} (m : sup W A) (k : A → sup W B) :
  no_panic m → (∀ a, no_panic (k a)) → no_panic (sbind m k).
Proof.
  intros Hm Hk w. unfold sbind. specialize (Hm w). destruct (m w) as [[[a|e]|] w']; [apply Hk|done|done].
Qed.
Lemma no_panic_lift {A} (m : effr W A) : no_panic (sup_lift m).
Proof. intros w. unfold sup_lift. by destruct (m w). Qed.

Lemma output_prepared v l activity resource destination : (7 ≤ str_length v.(ArtifactVariant.Digest))%nat →
  Build.preparationForOutput v l activity resource destination ≠ None.
Proof.
  intros Hd. unfold Build.preparationForOutput. case_bool_decide; [|done].
  destruct (Nat.ltb_spec (str_length (ArtifactVariant.Digest v)) 7); [lia|done].
Qed.

Lemma resolve_no_panic h request :
  (∀ d, h.(Handler.data) = Some d → outputs_digested d) → no_panic (resolveBuildPreparations h request).
Proof.
  intros Hd. unfold resolveBuildPreparations. destruct (Handler.data h) as [d|]; [|by intros w].
  destruct (Hd d eq_refl) as [Ho Hi]. generalize (WorkflowVersion.Activities (ExecutionRequest.Workflow request)).
  intros l. revert request. induction l as [|a l IH]; intros request; cbn [resolve_activities]; [by intros w|].
  apply no_panic_bind; [|intros; apply IH]. unfold resolve_activity.
  do 3 (case_match; [|by intros w]).
  apply no_panic_bind.
  - unfold activity_requirement. case_match; try (by intros w).
    + case_match; [by intros w|]. unfold Build.PreparationForDockerImage. cbn [negb].
      intros w. unfold sbind, sup_lift. destruct (FindDockerBuildOutput _ _ w) as [[[[b v] loc]|] w1] eqn:E; [|done].
      destruct v as [v|]; [|done]. destruct loc as [loc|]; [|done]. apply Hi in E.
      destruct (Build.preparationForOutput _ _ _ _ _) eqn:Ep; [done|]. by apply output_prepared in Ep.
    + apply no_panic_bind; [|by intros ? w]. unfold Build.Preparation. cbn [negb].
      intros w. unfold sbind, sup_lift. destruct (FindBuildOutput _ w) as [[[v loc]|] w1] eqn:E; [|done].
      destruct v as [v|]; [|done]. destruct loc as [loc|]; [|done]. apply Ho in E.
      destruct (Build.preparationForOutput _ _ _ _ _) eqn:Ep; [done|]. by apply output_prepared in Ep.
  - intros [requirement|]; [|by intros w]. apply no_panic_bind; [apply no_panic_lift|by intros ? w].
Qed.

Lemma replies_create_execution h r :
  (∀ d, h.(Handler.data) = Some d → outputs_digested d) → replies (CreateExecution h newID r).
Proof.
  intros Hd. apply replies_decoded. intros request w. unfold ebind at 1.
  pose proof (resolve_no_panic h request Hd w) as Hn.
  destruct (resolveBuildPreparations h request w) as [[[resolved|e]|] w1]; [|apply replies_answer|done].
  destruct (marshal _) as [payload|]; [|apply replies_answer]. clear Hn. generalize w1.
  refine (replies_bind _ _ _). intros now. apply replies_bind. intros id.
  destruct (submission_job _ _ _ _); [|apply replies_answer].
  apply replies_attempt. intros. apply replies_answer.
Qed.

(** Every route of the server answers every request with one reply, and never panics,
    when the storage browser and the data catalog are configured and the digests in the
    catalog have the length of a digest. *)
Theorem routes_answer h s d :
  h.(Handler.storage) = Some s → h.(Handler.data) = Some d → outputs_digested d →
  Forall (λ '(pattern, hd), ∀ r w, is_Some (hd r w).1) (NewMux h).
Proof.
  intros Hs Hd Ho.
  assert (∀ r, replies (CreateExecution h newID r)) as Hce.
  { intros r. apply replies_create_execution. intros d' E. by simplify_eq. }
  assert (∀ (hd : handler W), (∀ r, replies (hd r)) → ∀ r w, is_Some (hd r w).1) as Hfold by auto.
  unfold NewMux. repeat apply Forall_cons_2; [..|constructor]; apply Hfold; try exact Hce; intros r;
    repeat first
      [ apply replies_answer | apply replies_bind; intros | apply replies_attempt; intros
      | apply replies_available; intros | apply replies_decoded; intros
      | eapply replies_dereference; [eassumption|] | apply replies_search_type; intros
      | progress unfold SaveBuildContext, upload_context, store_workflow, execution_data, search_data
      | progress cbv beta zeta | case_match | progress intros
      | match goal with |- replies (eret None) => exfalso; congruence end
      | match goal with |- replies (?f _) => unfold f | |- replies (?f _ _) => unfold f
        | |- replies (?f _ _ _) => unfold f end ].
Qed.
End routes.

(** ** What a search finds *)
Section found.
Context {W : Type}.

(** The entities of the control plane, as the catalogs list them. *)
Record listings := mk_listings {
  l_workflows : list WorkflowDefinition; l_runs : list ExecutionRun; l_artifacts : list ExecutableArtifact;
  l_environments : list EnvironmentDefinition; l_resources : list Resource; l_plans : list SchedulePlan;
  l_scopes : list ExecutionScope; l_materializations : list ArtifactMaterialization
}.
Definition lists (h : Handler W) (d : DataStore W) (w : W) (l : listings) : Prop :=
  h.(Handler.workflows).(ListWorkflows_) w = (Ok l.(l_workflows), w) ∧
  h.(Handler.executions).(ListRuns) w = (Ok l.(l_runs), w) ∧
  d.(ListArtifacts_) w = (Ok l.(l_artifacts), w) ∧
  h.(Handler.environments).(ListEnvironments_) w = (Ok l.(l_environments), w) ∧
  h.(Handler.resources).(ListResources_) w = (Ok l.(l_resources), w) ∧
  h.(Handler.plans).(ListPlans_) w = (Ok l.(l_plans), w) ∧
  h.(Handler.scopes).(ListScopes) w = (Ok l.(l_scopes), w) ∧
  d.(ListArtifactMaterializations_) "" w = (Ok l.(l_materializations), w).
(** The searchable entities with the fields that are searched. *)
Definition entities (l : listings) : list (SearchResult * list string) :=
  map search_workflow l.(l_workflows) ++ map search_execution l.(l_runs) ++
  map search_artifact l.(l_artifacts) ++ map search_environment l.(l_environments) ++
  map search_resource l.(l_resources) ++ map search_plan l.(l_plans) ++
  map search_scope l.(l_scopes) ++ map search_materialization l.(l_materializations).
Definition hits (types : gset string) (query : string) (e : list (SearchResult * list string)) : list SearchResult :=
  flat_map (λ '(item, fields), add_result types query item fields) e.

Lemma hits_app types query e e' : hits types query (e ++ e') = hits types query e ++ hits types query e'.
Proof. apply flat_map_app. Qed.
Lemma hits_map {A} types query (show : A → SearchResult * list string) l :
  flat_map (λ v, let '(item, fields) := show v in add_result types query item fields) l =
  hits types query (map show l).
Proof. induction l as [|v l IH]; [done|]. simpl. rewrite IH. by destruct (show v). Qed.
Lemma hits_unwanted {A} types query type (show : A → SearchResult * list string) l :
  (∀ v, (show v).1.(SearchResult.Type_) = type) → type ∉ types → hits types query (map show l) = [].
Proof.
  intros Hs Ht. induction l as [|v l IH]; [done|]. simpl. fold (hits types query (map show l)). rewrite IH.
  specialize (Hs v). destruct (show v) as [item fields]. simpl in Hs. unfold add_result.
  by rewrite bool_decide_false by (by rewrite Hs).
Qed.
Lemma search_type_runs {A} types query type (items : effr W (list A)) show rs k w l :
  items w = (Ok l, w) → (∀ v, (show v).1.(SearchResult.Type_) = type) →
  search_type types query type items show rs k w = k (rs ++ hits types query (map show l)) w.
Proof.
  intros Hi Ht. unfold search_type. case_bool_decide as Hin.
  - unfold attempt, ebind. rewrite Hi. by rewrite hits_map.
  - by rewrite (hits_unwanted _ _ type), app_nil_r.
Qed.

Lemma Search_runs h d r w l : h.(Handler.data) = Some d → lists h d w l →
  trim_space (r.(Request.Query) "q") ≠ "" →
  let query := trim_space (r.(Request.Query) "q") in
  let found := take (Z.to_nat (search_limit (r.(Request.Query) "limit")))
    (sort_results (hits (searchTypes (r.(Request.Query) "types")) query (entities l))) in
  Search_ h r w = (Some (writeJSON 200 (mk_search query found (Z.of_nat (length found)))), w).
Proof.
  intros Hd (H1 & H2 & H3 & H4 & H5 & H6 & H7 & H8) Hq. unfold Search_. rewrite bool_decide_false by done.
  unfold search_data, entities. rewrite Hd, !hits_app.
  erewrite search_type_runs; [|exact H1|done]. erewrite search_type_runs; [|exact H2|done].
  erewrite search_type_runs; [|exact H3|done]. erewrite search_type_runs; [|exact H4|done].
  erewrite search_type_runs; [|exact H5|done]. erewrite search_type_runs; [|exact H6|done].
  erewrite search_type_runs; [|exact H7|done]. erewrite search_type_runs; [|exact H8|done].
  by rewrite <- !app_assoc.
Qed.

(** *** Scores *)
Definition rank (s : float64) : nat :=
  if feq s exact_score then 10 else if feq s prefix_score then 9 else if feq s infix_score then 7 else 0.
Definition scores : list float64 := [f0; infix_score; prefix_score; exact_score].

Lemma score_cases s (P : float64 → Prop) : s ∈ scores →
  P f0 → P infix_score → P prefix_score → P exact_score → P s.
Proof. unfold scores. rewrite !elem_of_cons. by intros [->|[->|[->|[->|[]%not_elem_of_nil]]]]. Qed.

Lemma flt_rank s t : s ∈ scores → t ∈ scores → flt s t = (rank s <? rank t)%nat.
Proof.
  intros Hs Ht. apply (score_cases s); [done|..]; (apply (score_cases t); [done|..]); vm_compute; reflexivity.
Qed.
Lemma fmax_score s t : s ∈ scores → t ∈ scores → fmax s t ∈ scores.
Proof. intros Hs Ht. unfold fmax. by destruct (flt t s). Qed.
Lemma searchScore_score query fields : searchScore query fields ∈ scores.
Proof.
  unfold searchScore. set (needle := to_lower _). clearbody needle.
  assert (f0 ∈ scores) as H0 by (unfold scores; set_solver). revert H0. generalize f0.
  induction fields as [|f fields IH]; intros best Hb; [done|]. cbn [foldl]. apply IH.
  repeat case_match; try done; (apply fmax_score; [done|unfold scores; set_solver]).
Qed.

Definition no_less (a b : SearchResult) : Prop := (rank b.(SearchResult.Score) ≤ rank a.(SearchResult.Score))%nat.
Definition scored (x : SearchResult) : Prop := x.(SearchResult.Score) ∈ scores.

Lemma insert_result_perm x l : insert_result x l ≡ₚ x :: l.
Proof.
  induction l as [|y l IH]; [done|]. cbn [insert_result]. case_match; [done|].
  rewrite IH. apply Permutation_swap.
Qed.
Lemma insert_result_sorted x l : scored x → Forall scored l → StronglySorted no_less l →
  StronglySorted no_less (insert_result x l).
Proof.
  intros Hx. induction l as [|y l IH]; intros Hl Hs; cbn [insert_result]; [by repeat constructor|].
  apply Forall_cons in Hl as [Hy Hl]. apply StronglySorted_inv in Hs as [Hs Hall].
  rewrite flt_rank by done. destruct (Nat.ltb_spec (rank y.(SearchResult.Score)) (rank x.(SearchResult.Score))).
  - constructor; [by constructor|]. constructor; [unfold no_less; lia|].
    eapply Forall_impl; [exact Hall|]. unfold no_less. intros z Hz. lia.
  - constructor; [by apply IH|]. rewrite insert_result_perm. by constructor.
Qed.
Lemma sort_results_ordered l : Forall scored l →
  sort_results l ≡ₚ l ∧ StronglySorted no_less (sort_results l).
Proof.
  intros Hl. unfold sort_results.
  enough (∀ acc, Forall scored acc → StronglySorted no_less acc →
    foldl (λ sorted x, insert_result x sorted) acc l ≡ₚ acc ++ l ∧
    StronglySorted no_less (foldl (λ sorted x, insert_result x sorted) acc l)) as Hg
    by (apply Hg; constructor).
  induction Hl as [|x l Hx Hl IH]; intros acc Ha Hs; cbn [foldl]; [by rewrite app_nil_r|].
  destruct (IH (insert_result x acc)) as [Hp Hs'].
  - rewrite insert_result_perm. by constructor.
  - by apply insert_result_sorted.
  - split; [|done]. rewrite Hp, insert_result_perm. apply Permutation_middle.
Qed.
Lemma sorted_take l n : StronglySorted no_less l → StronglySorted no_less (take n l).
Proof.
  revert n. induction l as [|z l IH]; intros [|n] Hs; [constructor..|].
  apply StronglySorted_inv in Hs as [Hs Hall]. cbn [take]. constructor; [by apply IH|by apply Forall_take].
Qed.
(** A result of a search: an entity of a wanted type, with the positive score of its
    fields. *)
Definition matches_search (types : gset string) (query : string) (l : listings) (x : SearchResult) : Prop :=
  ∃ item fields, (item, fields) ∈ entities l ∧ item.(SearchResult.Type_) ∈ types ∧
    (0 < rank (searchScore query fields))%nat ∧
    x = item <| SearchResult.Score := searchScore query fields |>.

Lemma elem_of_hits types query l x : x ∈ hits types query (entities l) ↔ matches_search types query l x.
Proof.
  unfold hits, matches_search. rewrite list_elem_of_In, in_flat_map.
  setoid_rewrite <- list_elem_of_In. unfold add_result.
  assert (∀ fields, flt f0 (searchScore query fields) = (0 <? rank (searchScore query fields))%nat) as Hf.
  { intros fields. apply (flt_rank f0); [unfold scores; set_solver|apply searchScore_score]. }
  split.
  - intros ([item fields] & Hin & Hx). exists item, fields. case_bool_decide; [|by apply not_elem_of_nil in Hx].
    cbn [negb] in Hx. rewrite Hf in Hx. destruct (Nat.ltb_spec 0 (rank (searchScore query fields)));
      [|by apply not_elem_of_nil in Hx]. by apply list_elem_of_singleton in Hx.
  - intros (item & fields & Hin & Ht & Hr & ->). exists (item, fields). split; [done|].
    rewrite bool_decide_true by done. cbn [negb]. rewrite Hf.
    destruct (Nat.ltb_spec 0 (rank (searchScore query fields))); [|lia]. by apply list_elem_of_singleton.
Qed.
Lemma hits_scored types query l : Forall scored (hits types query (entities l)).
Proof.
  apply Forall_forall. intros x (item & fields & _ & _ & _ & ->)%elem_of_hits. apply searchScore_score.
Qed.
Lemma search_limit_bound raw : 1 ≤ search_limit raw ≤ 100.
Proof. unfold search_limit, positiveInteger. repeat case_match; lia. Qed.

(** A search answers with the entities that match: every result is an entity of a wanted
    type with the positive score of its fields, the results come by falling score and are
    at most the limit, which is at most a hundred, and a matching entity that is left out
    gave way to a full answer whose entries all score no less. *)
Theorem search_exact h d r w l : h.(Handler.data) = Some d → lists h d w l →
  trim_space (r.(Request.Query) "q") ≠ "" →
  let query := trim_space (r.(Request.Query) "q") in
  let types := searchTypes (r.(Request.Query) "types") in
  let limit := search_limit (r.(Request.Query) "limit") in
  ∃ found, Search_ h r w = (Some (writeJSON 200 (mk_search query found (Z.of_nat (length found)))), w) ∧
    StronglySorted no_less found ∧
    Z.of_nat (length found) ≤ limit ≤ 100 ∧
    (∀ x, x ∈ found → matches_search types query l x) ∧
    (∀ x, matches_search types query l x →
       x ∈ found ∨ Z.of_nat (length found) = limit ∧ Forall (λ y, no_less y x) found).
Proof.
  intros Hd Hl Hq query types limit. eexists. split; [by eapply Search_runs|]. fold query types limit.
  destruct (sort_results_ordered _ (hits_scored types query l)) as [Hp Hs].
  set (all := sort_results _) in *. pose proof (search_limit_bound (r.(Request.Query) "limit")) as Hb.
  fold limit in Hb. set (n := Z.to_nat limit).
  assert (∀ x, x ∈ all ↔ matches_search types query l x) as Hm.
  { intros x. rewrite Hp. apply elem_of_hits. }
  split; [by apply sorted_take|]. split; [rewrite length_take; lia|]. split.
  - intros x Hx. apply Hm. rewrite <- (take_drop n all). apply elem_of_app. by left.
  - intros x Hx%Hm. rewrite <- (take_drop n all) in Hx. apply elem_of_app in Hx as [Hx|Hx]; [by left|].
    right. split.
    + rewrite length_take. destruct (decide (n ≤ length all)%nat); [lia|].
      rewrite drop_ge in Hx by lia. by apply not_elem_of_nil in Hx.
    + apply Forall_forall. intros y Hy. by eapply sorted_cut.
Qed.
End found.

(** ** What a submission does *)
Section submitted.
Context {W : Type} `{WallClock W, Yaml, URLPrinter} (h : Handler W).
Context `{Unmarshal ExecutionRequest, Marshal ExecutionRequest} (newID : eff W string).
(** The events of the handler are published to a queue whose table is part of the world,
    and nothing else of a submission writes that table. *)
Context `{JobQueue.RowOrder} (table_of : W → JobQueue.table).
Definition keeps_table {A} (m : eff W A) : Prop := ∀ w, table_of (m w).2 = table_of w.
Definition publishes : Prop := ∀ job w, ∃ now,
  let '(r, w') := h.(Handler.events) job w in (r, table_of w') = JobQueue.Publish now job (table_of w).
Hypothesis (events_published : publishes).
Hypothesis (resolution_reads : ∀ request, keeps_table (resolveBuildPreparations h request)).
Hypothesis (clock_reads : keeps_table Now) (ids_read : keeps_table newID).
Hypothesis (ids_given : ∀ w, (newID w).1 ≠ "").

Lemma resolve_activity_run d request activity w request' w' :
  resolve_activity h d request activity w = (Returns (Ok request'), w') →
  request'.(ExecutionRequest.Run) = request.(ExecutionRequest.Run).
Proof using.
  unfold resolve_activity.
  case_match; [|by intros [= <- _]]. case_match; [|done]. case_match; [|done].
  unfold sbind. destruct (activity_requirement _ _ _ _ _ _ w) as [[[[requirement|]|]|] w1];
    [|by intros [= <- _]|done..].
  destruct (sup_lift _ w1) as [[[requirement'|]|] w2]; [|done..]. by intros [= <- _].
Qed.
Lemma resolve_run request w request' w' :
  resolveBuildPreparations h request w = (Returns (Ok request'), w') →
  request'.(ExecutionRequest.Run) = request.(ExecutionRequest.Run).
Proof using.
  unfold resolveBuildPreparations. destruct (Handler.data h) as [d|]; [|by intros [= <- _]].
  generalize (WorkflowVersion.Activities (ExecutionRequest.Workflow request)). intros l.
  revert request w. induction l as [|a l IH]; intros request w; cbn [resolve_activities]; [by intros [= <- _]|].
  unfold sbind. destruct (resolve_activity h d request a w) as [[[r1|e]|] w1] eqn:E; [|done..].
  intros Hr%IH. by rewrite Hr, (resolve_activity_run _ _ _ _ _ _ E).
Qed.

(** What a submission publishes, once its request decodes, resolves and marshals. *)
Definition accepts (r : Request) (runID : string) (w : W) : Prop := ∃ request resolved payload w',
  decode r = inr request ∧ request.(ExecutionRequest.Run).(ExecutionRun.ID) = runID ∧
  resolveBuildPreparations h request w = (Returns (Ok resolved), w') ∧
  marshal (submitted_request resolved) = Ok payload.
Definition run_job (runID : string) (job : Job) : Prop :=
  JobQueue.Validate job = Ok tt ∧ job.(Job.Status) = StatusPending ∧ job.(Job.Attempts) = 0 ∧
  job.(Job.IdempotencyKey) = "execution-run:" +:+ runID.

Lemma submission_runs r runID w : accepts r runID w → ∃ job w1, run_job runID job ∧
  table_of w1 = table_of w ∧
  CreateExecution h newID r w =
    attempt StatusUnprocessableEntity (h.(Handler.events) job) (λ stored, answer (writeJSON StatusAccepted stored)) w1.
Proof using resolution_reads clock_reads ids_read ids_given.
  intros (request & resolved & payload & w' & Hd & Hid & Hr & Hm). unfold CreateExecution, decoded. rewrite Hd.
  unfold ebind at 1. pose proof (resolution_reads request w) as Ht. rewrite Hr in Ht |- *. rewrite Hm.
  unfold ebind at 1. pose proof (clock_reads w') as Hc. destruct (Now w') as [now w2].
  unfold ebind at 1. pose proof (ids_read w2) as Hi. pose proof (ids_given w2) as Hg.
  destruct (newID w2) as [id w3]. cbn [fst snd] in *.
  eexists _, w3. split; [|split; [congruence|reflexivity]].
  assert (ExecutionRun.ID (ExecutionRequest.Run (submitted_request resolved)) = runID) as ->
    by (cbn; by rewrite (resolve_run _ _ _ _ Hr)).
  split_and!; try done. unfold JobQueue.Validate. cbn. by rewrite bool_decide_false.
Qed.
Definition enqueue (job : Job) : eff W (option Reply) :=
  attempt StatusUnprocessableEntity (h.(Handler.events) job)
    (λ stored, answer (writeJSON StatusAccepted stored)).
Lemma accepted_job job w : ∃ now,
  (∀ reply w', enqueue job w = (Some reply, w') → reply.(status) = StatusAccepted →
     ∃ stored, reply = writeJSON StatusAccepted stored ∧
       JobQueue.Publish now job (table_of w) = (Ok stored, table_of w')) ∧
  (∀ stored t, JobQueue.Publish now job (table_of w) = (Ok stored, t) →
     ∃ w', enqueue job w = (Some (writeJSON StatusAccepted stored), w') ∧ table_of w' = t).
Proof using events_published.
  destruct (events_published job w) as [now Hp]. exists now. unfold enqueue, attempt, ebind, answer, eret.
  destruct (Handler.events h job w) as [[j|e] w1]; split.
  - intros reply w' [= <- <-] _. by exists j.
  - intros stored t E. rewrite <- Hp in E. injection E as -> <-. by exists w1.
  - by intros reply w' [= <- <-].
  - intros stored t E. by rewrite <- Hp in E.
Qed.

(** C8: A run is submitted exactly once: whatever the queue does after a first submission
    has been accepted, a request that submits the same run again is accepted, is answered
    with the job of the first submission as it is then, and adds nothing to the queue. *)
Theorem submission_exactly_once r runID w w1 reply :
  JobQueue.reachable (table_of w) → accepts r runID w →
  CreateExecution h newID r w = (Some reply, w1) → reply.(status) = StatusAccepted →
  ∃ stored, reply = writeJSON StatusAccepted stored ∧
  ∀ r' w2, rtc (JobQueue.step true) (table_of w1) (table_of w2) → accepts r' runID w2 →
  ∃ job w3, CreateExecution h newID r' w2 = (Some (writeJSON StatusAccepted job), w3) ∧
    job.(Job.ID) = stored.(Job.ID) ∧ table_of w3 = table_of w2 ∧
    JobQueue.FindByID stored.(Job.ID) (table_of w2) = Some job.
Proof.
  intros Hr Ha Hc Hok.
  destruct (submission_runs _ _ _ Ha) as (job & v1 & (_ & Hst & Hat & Hk) & Ht1 & E1). rewrite E1 in Hc.
  destruct (accepted_job job v1) as (now & Hp & _). destruct (Hp _ _ Hc Hok) as (stored & -> & Hpub).
  exists stored. split; [done|]. intros r' w2 Hs Ha'. rewrite Ht1 in Hpub.
  destruct (submission_runs _ _ _ Ha') as (job' & v2 & (Hv & Hst' & _ & Hk') & Ht2 & E2).
  destruct (accepted_job job' v2) as (now' & _ & Hp').
  destruct (JobQueue.publish_exactly_once now now' job job' (table_of w) (table_of w1) (table_of w2)
    stored Hr) as (j & Hpub' & Hid & Hf); [by rewrite Hk|done..|congruence|].
  rewrite <- Ht2 in Hpub' at 1. destruct (Hp' _ _ Hpub') as (w3 & E3 & Ht3).
  exists j, w3. split_and!; try done. by rewrite E2.
Qed.
End submitted.

(** ** Where an artifact lands *)
Section gateway.
Context {W : Type} `{URLPrinter, Connectors.NetURL} (h : Handler W).

Lemma gateway_root_abs connection : normal connection.(EnvironmentConnection.Username) →
  gateway_root connection = abs_path ["home"; connection.(EnvironmentConnection.Username); ".akoflow"; "artifacts"].
Proof.
  intros Hu. unfold gateway_root.
  change "/home" with (abs_path ["home"]).
  change (path_Join [abs_path ["home"]; EnvironmentConnection.Username connection; ".akoflow"; "artifacts"])
    with (path_Join [abs_path ["home"]; join_byte slash [EnvironmentConnection.Username connection; ".akoflow"; "artifacts"]]).
  rewrite Join_abs; [done|by repeat constructor| |done].
  constructor; [done|]. by repeat constructor.
Qed.

Lemma below_prefix l name : l ≠ [] → has_prefix (abs_path l +:+ "/") (abs_path (l ++ [name])) = true.
Proof.
  intros Hl. apply has_prefix_spec. exists name. unfold abs_path. rewrite join_byte_snoc by done.
  simpl. by rewrite str_app_assoc.
Qed.

(** The URL of a gateway, as it is read back from its text. *)
Definition gateway_url (connection : EnvironmentConnection) (query : string → string) : URL :=
  URL.mk "ssh" (Some connection.(EnvironmentConnection.Username)) connection.(EnvironmentConnection.Endpoint)
    (gateway_root connection) query.

Lemma gateway_target connection query name :
  url_Parse (gateway_uri connection) = Ok (gateway_url connection query) →
  connection.(EnvironmentConnection.Endpoint) ≠ "" → normal connection.(EnvironmentConnection.Username) →
  normal name →
  Connectors.RsyncSSH.sshTarget (gateway_uri connection) name =
    Ok (connection.(EnvironmentConnection.Username) +:+ "@" +:+ connection.(EnvironmentConnection.Endpoint),
        path_Join [gateway_root connection; name]).
Proof.
  intros Hp He Hu Hn. unfold Connectors.RsyncSSH.sshTarget. rewrite Hp. unfold Connectors.RsyncSSH.host_of.
  cbn [gateway_url URL.Scheme URL.Host URL.Path URL.User]. rewrite bool_decide_true by done. cbn [negb].
  pose proof (gateway_root_abs connection Hu) as Hr. set (l := ["home"; _; _; _]) in Hr.
  assert (Forall normal l) as Hl by (constructor; [done|]; constructor; [done|]; by repeat constructor).
  rewrite Hr, !bool_decide_false, Clean_abs by (done || by destruct (EnvironmentConnection.Username connection)).
  rewrite rooted_abs, Connectors.Clean_normal, Connectors.normal_inside by done. cbn [orb negb andb].
  change (path_Join [abs_path l; name]) with (path_Join [abs_path l; join_byte slash [name]]).
  rewrite Join_abs by (done || by apply Forall_singleton).
  assert (has_prefix (abs_path l +:+ "/") (abs_path (l ++ [name])) = true) as ->.
  { by apply below_prefix. }
  cbn [negb]. by rewrite !andb_false_r.
Qed.

(** The artifact of an activity lands where the activity looks for it: when the resource
    of an activity is reached through an SSH connection, the transfer of its build output
    pushes every blob to the user's account on the endpoint of the connection, under the
    very path that the activity is given, whatever the digest of the output. *)
Theorem gateway_transfer_lands variant location activity resource requirement find connection query w w' :
  Build.preparationForOutput variant location activity resource "" = Some requirement →
  h.(Handler.environments).(as_connections) = Some find →
  meta_string resource.(Resource.Metadata) "connectionId" ≠ "" →
  find (meta_string resource.(Resource.Metadata) "connectionId") w = (Ok (Some connection), w') →
  connection.(EnvironmentConnection.Type_) = ConnectionSSH →
  connection.(EnvironmentConnection.Endpoint) ≠ "" →
  normal connection.(EnvironmentConnection.Username) → normal variant.(ArtifactVariant.Digest) →
  url_Parse (gateway_uri connection) = Ok (gateway_url connection query) →
  ∃ prepared artifact transfer,
    configureGatewayArtifactTransfer h requirement resource w = (Ok prepared, w') ∧
    prepared.(PreparationRequirement.Artifact) = Some artifact ∧
    prepared.(PreparationRequirement.ArtifactTransfer) = Some transfer ∧
    transfer.(DataTransferPlan.Source).(TransferLocation.URI) = location.(ArtifactLocation.URI) ∧
    map BlobDescriptor.Digest transfer.(DataTransferPlan.Blobs) = [artifact.(ArtifactMaterialization.Digest)] ∧
    Forall (λ blob, Connectors.RsyncSSH.sshTarget transfer.(DataTransferPlan.Destination).(TransferLocation.URI)
        (Transfer.destinationName transfer.(DataTransferPlan.Destination).(TransferLocation.Path) blob.(BlobDescriptor.Digest)) =
      Ok (connection.(EnvironmentConnection.Username) +:+ "@" +:+ connection.(EnvironmentConnection.Endpoint),
          artifact.(ArtifactMaterialization.DestinationPath)))
      transfer.(DataTransferPlan.Blobs).
Proof.
  intros Hprep Hs Hid Hf Ht He Hu Hd Hp. unfold Build.preparationForOutput in Hprep.
  rewrite bool_decide_true in Hprep by done. destruct (Nat.ltb _ _); [done|]. injection Hprep as <-.
  unfold configureGatewayArtifactTransfer. cbn [PreparationRequirement.Artifact PreparationRequirement.ArtifactTransfer].
  rewrite Hs, bool_decide_false by done. unfold ebindr, eret. rewrite Hf.
  pose proof Hu as (Hun & _). rewrite Ht, bool_decide_true, !bool_decide_false by done. cbn [negb orb].
  eexists _, _, _. split; [reflexivity|]. split; [reflexivity|]. split; [reflexivity|].
  split; [reflexivity|]. split; [reflexivity|]. apply Forall_singleton. by apply (gateway_target _ query).
Qed.
End gateway.

(** ** Executions of the model *)
Module Example.
(** The world is the queue; the other stores are empty, apart from two workflows, a
    resource and the connection that it is reached through. *)
Definition W : Type := list Job.
Definition off {A} : effr W A := λ w, (Err "off", w).
Definition nothing {A} : effr W (list A) := λ w, (Ok [], w).
Definition just {A} (a : A) : effr W A := λ w, (Ok a, w).

#[local] Instance clock : WallClock W := λ w, (100, w).
#[local] Instance ticks : Clock W := λ w, (100, w).
#[local] Instance yaml : Yaml :=
  {| yaml_document := string; yaml_Unmarshal := λ s, Ok s; normalize := λ s, Ok s;
     workflow_YAML := λ _, Err "off" |}.
#[local] Instance forms : Multipart :=
  {| ParseMultipartForm := λ _ _, Err "off"; FormFile := λ _ _ _, Err "off" |}.
(** A printer of URLs without a query, and a parser of what it prints. *)
#[local] Instance printer : URLPrinter :=
  {| url_String := λ scheme user host path _, scheme +:+ "://" +:+ user +:+ "@" +:+ host +:+ path;
     Values_Encode := λ _, "" |}.
#[local] Instance urls : Connectors.NetURL := λ s,
  match split_byte "@" (trim_prefix "ssh://" s) with
  | [user; rest] =>
    match split_byte slash rest with
    | host :: path => Ok (URL.mk "ssh" (Some user) host (abs_path path) (λ _, ""))
    | [] => Err "invalid URL"
    end
  | _ => Err "invalid URL"
  end.
#[local] Instance off_json {A} : Unmarshal A | 10 := λ _, Err "unreadable".
(** A request is its run's identifier, as text. *)
#[local] Instance request_json : Unmarshal ExecutionRequest := λ s,
  Ok ((zero : ExecutionRequest) <| ExecutionRequest.Run := (zero : ExecutionRun) <| ExecutionRun.ID := s |> |>).
#[local] Instance request_text : Marshal ExecutionRequest := λ r, Ok r.(ExecutionRequest.Run).(ExecutionRun.ID).
Definition ids : eff W string := λ w, ("job-" +:+ itoa (Z.of_nat (length w)), w).

Definition workflow (id name : string) : WorkflowDefinition :=
  (zero : WorkflowDefinition) <| WorkflowDefinition.ID := id |> <| WorkflowDefinition.Name := name |>.
Definition cluster : Resource := (zero : Resource) <| Resource.ID := "r1" |> <| Resource.Name := "Montage nodes" |>
  <| Resource.Metadata := {[ "connectionId" := AnyString "c1" ]} |>.
Definition gateway : EnvironmentConnection := (zero : EnvironmentConnection)
  <| EnvironmentConnection.ID := "c1" |> <| EnvironmentConnection.Type_ := ConnectionSSH |>
  <| EnvironmentConnection.Endpoint := "login.example" |> <| EnvironmentConnection.Username := "ana" |>.
Definition data : DataStore W :=
  {| ListInstances := λ _, nothing; ListLocations := λ _, nothing; ListArtifacts_ := nothing;
     ListArtifactLocations_ := nothing; ListArtifactMaterializations_ := λ _, nothing;
     ListArtifactTransferRuns := λ _, nothing; SaveArtifactMaterialization_ := λ _, off;
     SaveArtifactBuild := λ _, off; FindArtifactBuildByCacheKey := λ _, off; FindArtifactBuild := λ _, off;
     ListArtifactBuilds_ := λ _, nothing; FindBuildRun := λ _, off; ListBuildRuns_ := λ _, nothing;
     SaveBuildContext_ := λ _, off; FindBuildContext := λ _, off;
     build_outputs := {| FindBuildOutput := λ _, just (Some ((zero : ArtifactVariant)
         <| ArtifactVariant.Digest := "sha256:ab" |>), None);
       FindDockerBuildOutput := λ _ _, just (None, None, None) |};
     RegisterArtifactVersion := λ _, off |}.
Definition storage : StorageNavigator W :=
  {| List_ := λ _, nothing; Roots := λ _, nothing; Browse := λ _ _, off; Stat := λ _ _, off;
     StartDownload := λ _ _ _, off; OpenDownload := λ _, off; Download := λ _, off; Checksum := λ _ _, off;
     QueueCopy := λ _ _ _ _, off; QueueArchive := λ _ _ _, off; PromoteData := λ _ _ _ _ _ _, off;
     PromoteArtifact := λ _ _ _ _ _ _ _, off; IndexRuns := λ _, nothing; StartIndex := λ _ _, off;
     DeleteEntry := λ _ _, off |}.
Definition server (d : option (DataStore W)) (s : option (StorageNavigator W)) : Handler W :=
  {| Handler.environments := {| CreateEnvironment_ := λ _, off; Replace := λ _, off;
       DeleteEnvironment_ := λ _, off; ListEnvironments_ := nothing; FindEnvironment := λ _, off;
       UpsertConnection := λ _, off;
       as_connections := Some (λ id, just (if bool_decide (id = "c1") then Some gateway else None)) |};
     Handler.workflows := {| CreateWorkflow_ := λ _, off;
       ListWorkflows_ := just [workflow "w1" "The montage"; workflow "w2" "Montage"; workflow "w3" "Blast"];
       FindWorkflow := λ _, off |};
     Handler.plans := {| SavePlan := λ _, off; ListPlans_ := nothing; FindPlan := λ _, off |};
     Handler.events := λ job, JobQueue.Publish 100 job;
     Handler.validator := λ _ _ _ _ _, Err "off";
     Handler.executions := {| FindRun := λ _, off; ListRuns := nothing; ListRunsPage := λ _ _ _ _ _, off;
       ListTasks := λ _, nothing; ListTransfers := λ _, nothing; ListHandles := λ _, nothing;
       ListEvents := λ _, nothing |};
     Handler.topologies := {| CreateTopology := λ _, off; ListTopologies := nothing; FindTopology := λ _, off |};
     Handler.scopes := {| CreateScope := λ _, off; DeleteScope := λ _, off; ListScopes := nothing;
       FindScope := λ _, off |};
     Handler.data := d;
     Handler.resources := {| Upsert := λ _, off; ListResources_ := just [cluster]; FindByID := λ _, off;
       LatestSnapshot := λ _, off |};
     Handler.instance := {| FindInstance := off; SaveInstance_ := λ _, off; FindPreferences := λ _, off;
       SavePreferences := λ _, off |};
     Handler.connections := None; Handler.discovery := None; Handler.sshKeys := None; Handler.audit := None;
     Handler.console := None; Handler.terminal := None; Handler.storage := s; Handler.build := None |}.
Definition request (query : string → string) (body : string) : Request :=
  {| Request.Method := "GET"; Request.Path := "/"; Request.RemoteAddr := "127.0.0.1:9";
     Request.Header := λ k, if bool_decide (k = "Content-Type") then "application/json" else "";
     Request.PathValue := λ _, ""; Request.Query := query; Request.QueryHas := λ _, false;
     Request.Body := mk_reader body None |}.
#[local] Instance hash : Sha256 := λ s, s.
#[local] Instance floats : Requests.StrConv :=
  {| Requests.parse_float := λ _, Err "off"; Requests.format_float := λ _, "" |}.

Lemma routes_answer_witness :
  outputs_digested data ∧
  Forall (λ '(pattern, hd), ∀ r w, is_Some (hd r w).1) (NewMux ids (server (Some data) (Some storage))).
Proof.
  assert (outputs_digested data) as Ho.
  { split; [|done]. intros id w v l w' [= <- _ _]. simpl. lia. }
  split; [exact Ho|]. by apply (routes_answer ids _ storage data).
Defined.

Definition montage : string → string := λ k, if bool_decide (k = "q") then "montage" else "".
Definition listed : listings :=
  mk_listings [workflow "w1" "The montage"; workflow "w2" "Montage"; workflow "w3" "Blast"]
    [] [] [] [cluster] [] [] [].
Lemma search_exact_witness :
  let h := server (Some data) None in
  (∃ found, Search_ h (request montage "") [] =
      (Some (writeJSON 200 (mk_search "montage" found (Z.of_nat (length found)))), []) ∧
    StronglySorted no_less found ∧ Z.of_nat (length found) ≤ 30 ≤ 100 ∧
    (∀ x, x ∈ found → matches_search (searchTypes "") "montage" listed x) ∧
    (∀ x, matches_search (searchTypes "") "montage" listed x →
       x ∈ found ∨ Z.of_nat (length found) = 30 ∧ Forall (λ y, no_less y x) found)) ∧
  map SearchResult.ID (sort_results (hits (searchTypes "") "montage" (entities listed))) = ["w2"; "r1"; "w1"].
Proof.
  split; [|vm_compute; reflexivity].
  apply (search_exact (server (Some data) None) data (request montage "") [] listed);
    [done|by split_and!|vm_compute; discriminate].
Defined.

Definition again : Request := request montage "run1".
#[local] Abbreviation submit := (CreateExecution (server None None) ids again).
Definition queued : W := (submit []).2.
Lemma submission_exactly_once_witness :
  length queued = 1%nat ∧
  ∃ stored, (submit []).1 = Some (writeJSON 202 stored) ∧
    ∃ job w3, submit queued = (Some (writeJSON 202 job), w3) ∧ job.(Job.ID) = stored.(Job.ID) ∧
      w3 = queued ∧ JobQueue.FindByID stored.(Job.ID) queued = Some job.
Proof.
  split; [vm_compute; reflexivity|].
  assert (∀ w, accepts (server None None) again "run1" w) as Ha.
  { intros w. eexists _, _, _, w. split; [vm_compute; reflexivity|]. by split_and!. }
  assert (publishes (server None None) id) as Hp.
  { intros job w. exists 100. unfold id. simpl. by destruct (JobQueue.Publish 100 job w). }
  assert (∃ reply w1, submit [] = (Some reply, w1) ∧ reply.(status) = 202 ∧ w1 = queued)
    as (reply & w1 & E & Hok & <-).
  { eexists _, _. split_and!; vm_compute; reflexivity. }
  assert (∀ r, keeps_table id (resolveBuildPreparations (server None None) r)) as Hr by (by intros r w).
  assert (keeps_table id Now) as Hc by (by intros w). assert (keeps_table id ids) as Hi by (by intros w).
  assert (∀ w, (ids w).1 ≠ "") as Hg by (by intros w).
  destruct (submission_exactly_once (server None None) ids id Hp Hr Hc Hi Hg again "run1" [] w1 reply (rtc_refl _ _) (Ha []) E Hok)
    as (stored & -> & Hagain).
  exists stored. split; [by rewrite E|].
  destruct (Hagain again w1 (rtc_refl _ _) (Ha w1)) as (job & w3 & H1 & H2 & H3 & H4).
  exists job, w3. exact (conj H1 (conj H2 (conj H3 H4))).
Defined.

Definition output : ArtifactVariant := (zero : ArtifactVariant) <| ArtifactVariant.Digest := "sha256:ab" |>.
Definition stored_output : ArtifactLocation := (zero : ArtifactLocation) <| ArtifactLocation.URI := "s3://b/x" |>.
Lemma gateway_transfer_lands_witness :
  ∃ prepared artifact transfer,
    configureGatewayArtifactTransfer (server None None)
      (default zero (Build.preparationForOutput output stored_output "a1" cluster "")) cluster [] =
      (Ok prepared, []) ∧
    prepared.(PreparationRequirement.Artifact) = Some artifact ∧
    prepared.(PreparationRequirement.ArtifactTransfer) = Some transfer ∧
    transfer.(DataTransferPlan.Source).(TransferLocation.URI) = "s3://b/x" ∧
    map BlobDescriptor.Digest transfer.(DataTransferPlan.Blobs) = [artifact.(ArtifactMaterialization.Digest)] ∧
    Forall (λ blob, Connectors.RsyncSSH.sshTarget transfer.(DataTransferPlan.Destination).(TransferLocation.URI)
        (Transfer.destinationName transfer.(DataTransferPlan.Destination).(TransferLocation.Path) blob.(BlobDescriptor.Digest)) =
      Ok ("ana@login.example", artifact.(ArtifactMaterialization.DestinationPath)))
      transfer.(DataTransferPlan.Blobs).
Proof.
  apply (gateway_transfer_lands (server None None) output stored_output "a1" cluster _
    (λ id, just (if bool_decide (id = "c1") then Some gateway else None)) gateway (λ _, "") [] []);
    try (vm_compute; reflexivity); try (vm_compute; discriminate).
  - repeat split; vm_compute; (discriminate || reflexivity).
  - repeat split; vm_compute; (discriminate || reflexivity).
Defined.

(** Index runs are asked of a storage browser that may be absent, and a search of a data
    catalog that may be. *)
Lemma storage_unset_panics r w : (ListStorageIndexRuns (server None None) r w).1 = None.
Proof. reflexivity. Qed.
Lemma search_unset_panics : (Search_ (server None None) (request montage "") []).1 = None.
Proof. vm_compute. reflexivity. Qed.

(** Without a gateway, the relative destination of a build output becomes a file URL whose
    first element is read as a host: the artifact is put below another directory, twice,
    and not where the activity looks for it. *)
Lemma default_destination_misplaced `{OS W} `{Connectors.NetURL} query :
  let requirement := Build.preparationForOutput (output <| ArtifactVariant.Format := "sif" |>)
    stored_output "a1" cluster "" in
  let uri := "file://.akoflow/artifacts/ab.sif" in
  url_Parse uri = Ok (URL.mk "file" None ".akoflow" "/artifacts/ab.sif" query) →
  option_map (λ q, ArtifactMaterialization.DestinationPath <$> q.(PreparationRequirement.Artifact)) requirement =
    Some (Some ".akoflow/artifacts/ab.sif") ∧
  option_map (λ q, (λ t, t.(DataTransferPlan.Destination)) <$> q.(PreparationRequirement.ArtifactTransfer))
    requirement = Some (Some {| TransferLocation.ResourceID := "r1"; TransferLocation.EnvironmentID := "";
      TransferLocation.URI := uri; TransferLocation.Path := ".akoflow/artifacts/ab.sif" |}) ∧
  Connectors.LocalFilesystem.local_names uri (Transfer.destinationName ".akoflow/artifacts/ab.sif" "sha256:ab") =
    Ok ("/artifacts/ab.sif", "/artifacts/ab.sif/.akoflow/artifacts/ab.sif/sha256:ab").
Proof.
  intros requirement uri Hu. split_and!; [vm_compute; reflexivity..|].
  unfold Connectors.LocalFilesystem.local_names. rewrite Hu. vm_compute. reflexivity.
Qed.
End Example.
End Api.
