(* ===== verification/EnvironmentRepository.v ===== *)
(** * The store of environments (src/internal/infrastructure/database/environment/repository.go)

    The tables of environments, their connections, versions, runtimes, resources,
    storages and profiles with the constraints of schema/schema.sql, and the
    transactions of [Repository] on them. A statement succeeds when the tables it leaves
    satisfy the constraints, cascades included. Floating-point columns hold numbers: a
    NaN, which SQLite stores as NULL, has no JSON. *)

From Stdlib Require Import Ascii.
From S2P Require Import Prelude GoStrings GoFloat Sql Domain.

Module EnvironmentRepository.
Import Sql.

(** ** Rows *)

(** A row of [storage_runtime_bindings]. *)
Module BindingRow.
Record BindingRow := mk {
  storage_resource_id : string; environment_version_id : string; binding : Row StorageRuntimeBinding
}.
End BindingRow.
Abbreviation BindingRow := BindingRow.BindingRow.

(** The tables of other repositories that refer to environments, by the columns that do:
    the identifiers of a version, of resources, of a storage. *)
Module Others.
Record Others := mk {
  activity_types : list string;
  execution_scope_environments : list string;
  network_links : list (string * string);
  schedule_plan_assignments : list string;
  task_executions : list (string * option string);
  activity_handles : list string;
  data_locations : list (option string * option string);
  data_transfer_observations : list (string * string);
  console_commands : list string;
  console_sessions : list string;
  simulation_scenarios : list string;
  resource_snapshots : list string;
  discovery_runs : list string;
  artifact_materializations : list (string * option string);
  transfer_endpoints : list (option string * option string);
  storage_download_runs : list string;
  storage_index_runs : list string
}.
#[global] Instance eta : Eta Others := λ d,
  mk d.(activity_types) d.(execution_scope_environments) d.(network_links)
    d.(schedule_plan_assignments) d.(task_executions) d.(activity_handles) d.(data_locations)
    d.(data_transfer_observations) d.(console_commands) d.(console_sessions)
    d.(simulation_scenarios) d.(resource_snapshots) d.(discovery_runs)
    d.(artifact_materializations) d.(transfer_endpoints) d.(storage_download_runs)
    d.(storage_index_runs).
End Others.
Abbreviation Others := Others.Others.

Module DB.
Record DB := mk {
  environments : list Environment;
  connections : list (Row EnvironmentConnection);
  connection_checks : list (Row ConnectionCheck);
  versions : list EnvironmentVersion;
  runtimes : list (Row EnvironmentRuntime);
  runtime_capabilities : list (string * string);
  resources : list (Row Resource);
  resource_runtime_bindings : list (Row ResourceRuntimeBinding);
  resource_relations : list (Row ResourceRelation);
  storages : list (Stored StorageResource (string * string));
  storage_runtime_bindings : list BindingRow;
  profiles : list (Row ActivityResourceProfile);
  others : Others
}.
#[global] Instance eta : Eta DB := λ d,
  mk d.(environments) d.(connections) d.(connection_checks) d.(versions) d.(runtimes)
    d.(runtime_capabilities) d.(resources) d.(resource_runtime_bindings)
    d.(resource_relations) d.(storages) d.(storage_runtime_bindings) d.(profiles) d.(others).
End DB.
Abbreviation DB := DB.DB.
Abbreviation world := (Session DB).

Definition environment_ids (d : DB) : list string := map Environment.ID d.(DB.environments).
Definition connection_ids (d : DB) : list string := map (λ r, r.(columns).(EnvironmentConnection.ID)) d.(DB.connections).
Definition version_ids (d : DB) : list string := map EnvironmentVersion.ID d.(DB.versions).
Definition runtime_ids (d : DB) : list string := map (λ r, r.(columns).(EnvironmentRuntime.ID)) d.(DB.runtimes).
Definition resource_ids (d : DB) : list string := map (λ r, r.(columns).(Resource.ID)) d.(DB.resources).
Definition storage_ids (d : DB) : list string := map (λ r, r.(columns).(StorageResource.ID)) d.(DB.storages).

(** ** Constraints *)

(** A nullable reference. *)
Definition refers (o : option string) (ids : list string) : Prop :=
  match o with Some id => id ∈ ids | None => True end.
#[global] Instance refers_dec o ids : Decision (refers o ids).
Proof. destruct o; simpl; apply _. Defined.

Section constraints.
Implicit Types d : DB.

Definition environments_ok d : Prop := NoDup (environment_ids d).
Definition connections_ok d : Prop :=
  NoDup (connection_ids d) ∧
  NoDup (map (λ r, (r.(columns).(EnvironmentConnection.EnvironmentID), r.(columns).(EnvironmentConnection.Name)))
    d.(DB.connections)) ∧
  Forall (λ r, r.(columns).(EnvironmentConnection.EnvironmentID) ∈ environment_ids d) d.(DB.connections).
Definition checks_ok d : Prop :=
  NoDup (map (λ r, r.(columns).(ConnectionCheck.ID)) d.(DB.connection_checks)) ∧
  Forall (λ r, r.(columns).(ConnectionCheck.ConnectionID) ∈ connection_ids d ∧
    ConnectionStatus_string r.(columns).(ConnectionCheck.Status) ∈ ["online"; "offline"]) d.(DB.connection_checks).
Definition versions_ok d : Prop :=
  NoDup (version_ids d) ∧
  NoDup (map (λ v, (v.(EnvironmentVersion.EnvironmentID), v.(EnvironmentVersion.Version))) d.(DB.versions)) ∧
  Forall (λ v, v.(EnvironmentVersion.EnvironmentID) ∈ environment_ids d) d.(DB.versions).
Definition runtimes_ok d : Prop :=
  NoDup (runtime_ids d) ∧
  NoDup (map (λ r, (r.(columns).(EnvironmentRuntime.EnvironmentVersionID), r.(columns).(EnvironmentRuntime.Name)))
    d.(DB.runtimes)) ∧
  Forall (λ r, r.(columns).(EnvironmentRuntime.EnvironmentVersionID) ∈ version_ids d ∧
    RuntimeDriver_string r.(columns).(EnvironmentRuntime.Driver) ∈
      ["slurm"; "kubernetes"; "ssh"; "local"; "serverless"; "simgrid"] ∧
    RuntimeMode_string r.(columns).(EnvironmentRuntime.Mode) ∈ ["execution"; "simulation"]) d.(DB.runtimes).
Definition capabilities_ok d : Prop :=
  NoDup (map fst d.(DB.runtime_capabilities)) ∧
  Forall (λ c, c.1 ∈ runtime_ids d) d.(DB.runtime_capabilities).
Definition resources_ok d : Prop :=
  NoDup (resource_ids d) ∧
  NoDup (map (λ r, (r.(columns).(Resource.EnvironmentVersionID), r.(columns).(Resource.ProviderID)))
    d.(DB.resources)) ∧
  Forall (λ r, r.(columns).(Resource.EnvironmentVersionID) ∈ version_ids d ∧
    refers r.(columns).(Resource.ParentResourceID) (resource_ids d) ∧
    ResourceExecutionTarget_string r.(columns).(Resource.ExecutionTarget) ∈ ["batch"; "direct"]) d.(DB.resources).
Definition bindings_ok d : Prop :=
  NoDup (map (λ r, (r.(columns).(ResourceRuntimeBinding.ResourceID), r.(columns).(ResourceRuntimeBinding.RuntimeID)))
    d.(DB.resource_runtime_bindings)) ∧
  Forall (λ r, r.(columns).(ResourceRuntimeBinding.ResourceID) ∈ resource_ids d ∧
    r.(columns).(ResourceRuntimeBinding.RuntimeID) ∈ runtime_ids d) d.(DB.resource_runtime_bindings).
Definition relations_ok d : Prop :=
  NoDup (map (λ r, (r.(columns).(ResourceRelation.SourceResourceID), r.(columns).(ResourceRelation.TargetResourceID),
    ResourceRelationType_string r.(columns).(ResourceRelation.Type_))) d.(DB.resource_relations)) ∧
  Forall (λ r, r.(columns).(ResourceRelation.EnvironmentVersionID) ∈ version_ids d ∧
    r.(columns).(ResourceRelation.SourceResourceID) ∈ resource_ids d ∧
    r.(columns).(ResourceRelation.TargetResourceID) ∈ resource_ids d ∧
    ResourceRelationType_string r.(columns).(ResourceRelation.Type_) ∈ ["contains"; "member_of"; "accessible_via"] ∧
    r.(columns).(ResourceRelation.SourceResourceID) ≠ r.(columns).(ResourceRelation.TargetResourceID))
    d.(DB.resource_relations).
Definition storages_ok d : Prop :=
  NoDup (storage_ids d) ∧
  NoDup (map (λ r, (r.(columns).(StorageResource.EnvironmentVersionID), r.(columns).(StorageResource.Name)))
    d.(DB.storages)) ∧
  Forall (λ r, r.(columns).(StorageResource.EnvironmentVersionID) ∈ version_ids d ∧
    StorageType_string r.(columns).(StorageResource.Type_) ∈
      ["local"; "pvc"; "nfs"; "s3"; "lustre"; "gcs"; "s3-compatible"; "ssh-filesystem"] ∧
    0 ≤ r.(columns).(StorageResource.CapacityBytes)) d.(DB.storages).
Definition storage_bindings_ok d : Prop :=
  NoDup (map (λ b, (b.(BindingRow.storage_resource_id), b.(BindingRow.binding).(columns).(StorageRuntimeBinding.RuntimeID)))
    d.(DB.storage_runtime_bindings)) ∧
  NoDup (map (λ b, (b.(BindingRow.environment_version_id), b.(BindingRow.binding).(columns).(StorageRuntimeBinding.RuntimeID)))
    (List.filter (λ b, b.(BindingRow.binding).(columns).(StorageRuntimeBinding.Default)) d.(DB.storage_runtime_bindings))) ∧
  Forall (λ b,
    (b.(BindingRow.storage_resource_id), b.(BindingRow.environment_version_id)) ∈
      map (λ r, (r.(columns).(StorageResource.ID), r.(columns).(StorageResource.EnvironmentVersionID))) d.(DB.storages) ∧
    (b.(BindingRow.binding).(columns).(StorageRuntimeBinding.RuntimeID), b.(BindingRow.environment_version_id)) ∈
      map (λ r, (r.(columns).(EnvironmentRuntime.ID), r.(columns).(EnvironmentRuntime.EnvironmentVersionID)))
        d.(DB.runtimes)) d.(DB.storage_runtime_bindings).
Definition profiles_ok d : Prop :=
  NoDup (map (λ r, r.(columns).(ActivityResourceProfile.ID)) d.(DB.profiles)) ∧
  NoDup (map (λ r, (r.(columns).(ActivityResourceProfile.ActivityTypeID), r.(columns).(ActivityResourceProfile.ResourceID),
    r.(columns).(ActivityResourceProfile.ModelVersion))) d.(DB.profiles)) ∧
  Forall (λ r, r.(columns).(ActivityResourceProfile.ActivityTypeID) ∈ d.(DB.others).(Others.activity_types) ∧
    r.(columns).(ActivityResourceProfile.ResourceID) ∈ resource_ids d ∧
    fle f0 r.(columns).(ActivityResourceProfile.RuntimeSeconds) = true) d.(DB.profiles).
(** The references from the tables of other repositories. *)
Definition others_ok d : Prop :=
  let o := d.(DB.others) in
  let version id := id ∈ version_ids d in
  let resource id := id ∈ resource_ids d in
  let storage id := id ∈ storage_ids d in
  Forall version (o.(Others.execution_scope_environments) ++ o.(Others.simulation_scenarios) ++
                  o.(Others.discovery_runs)) ∧
  Forall resource (o.(Others.schedule_plan_assignments) ++ o.(Others.activity_handles) ++
                   o.(Others.console_commands) ++ o.(Others.console_sessions) ++ o.(Others.resource_snapshots)) ∧
  Forall (λ l, resource l.1 ∧ resource l.2) (o.(Others.network_links) ++ o.(Others.data_transfer_observations)) ∧
  Forall (λ t, resource t.1 ∧ refers t.2 (resource_ids d)) o.(Others.task_executions) ∧
  Forall (λ l, refers l.1 (storage_ids d) ∧ refers l.2 (resource_ids d)) o.(Others.data_locations) ∧
  Forall (λ m, resource m.1 ∧ refers m.2 (version_ids d)) o.(Others.artifact_materializations) ∧
  Forall (λ e, refers e.1 (resource_ids d) ∧ refers e.2 (environment_ids d)) o.(Others.transfer_endpoints) ∧
  Forall storage (o.(Others.storage_download_runs) ++ o.(Others.storage_index_runs)).

Definition Valid d : Prop :=
  environments_ok d ∧ connections_ok d ∧ checks_ok d ∧ versions_ok d ∧ runtimes_ok d ∧ capabilities_ok d ∧
  resources_ok d ∧ bindings_ok d ∧ relations_ok d ∧ storages_ok d ∧ storage_bindings_ok d ∧ profiles_ok d ∧
  others_ok d.
#[global] Instance Valid_dec d : Decision (Valid d).
Proof.
  unfold Valid, environments_ok, connections_ok, checks_ok, versions_ok, runtimes_ok, capabilities_ok,
    resources_ok, bindings_ok, relations_ok, storages_ok, storage_bindings_ok, profiles_ok, others_ok.
  cbv zeta. apply _.
Defined.
End constraints.

(** ** The engine and the codec *)
Inductive statement := BeginTx | Commit | Select | Insert (table : string) | Update (table : string)
| DeleteFrom (table : string).

(** [refuse] is any reason to fail a statement that is not a constraint above (an I/O
    error, a cancelled context); [constraint_error] is the message of a violated one;
    [now] is the draw of [CURRENT_TIMESTAMP]. *)
Class Driver := {
  refuse : statement → DB → option error;
  constraint_error : statement → DB → error;
  now : nat → Time
}.

(** [encoding/json] on the types the repository stores. *)
Class JSON := {
  marshal_metadata : metadata → result string;
  unmarshal_metadata : string → result metadata;
  marshal_capabilities : Capabilities → result string;
  unmarshal_capabilities : string → result Capabilities
}.

Definition ErrNoRows : error := "sql: no rows in result set".

Section repository.
Context `{Driver, JSON, SqlOrder, MapOrder}.
Implicit Types (definition : EnvironmentDefinition) (d : DB).

(** A statement that changes the tables. *)
Definition change (st : statement) (f : DB → DB) : effr world unit :=
  exec (refuse st) (λ d,
    let d' := f d in
    if bool_decide (Valid d') then (Ok tt, d') else (Err (constraint_error st d), d)).
Definition query {A} (f : DB → A) : effr world A := exec (refuse Select) (λ d, (Ok (f d), d)).
Definition in_transaction (body : effr world unit) : effr world unit :=
  transaction (refuse BeginTx) (refuse Commit) body.

(** *** Insertion *)

(** [insertEnvironment] *)
Definition environment_row (environment : Environment) (created : Time) : Environment :=
  (if bool_decide (EnvironmentStatus_string environment.(Environment.Status) = "")
   then environment <| Environment.Status := EnvironmentDefined |> else environment)
    <| Environment.CreatedAt := created |>.
Definition insertEnvironment definition : effr world unit :=
  let! clock := draw in
  change (Insert "environments") (λ d, d <| DB.environments := d.(DB.environments) ++
    [environment_row definition.(EnvironmentDefinition.Environment) (now clock)] |>).

(** [insertConnections] *)
Definition connection_row (environmentID : string) (c : EnvironmentConnection) (created : Time) (configuration : string)
    : Row EnvironmentConnection :=
  mk_stored (c <| EnvironmentConnection.EnvironmentID := environmentID |>
               <| EnvironmentConnection.Configuration := ∅ |>
               <| EnvironmentConnection.CreatedAt := created |>) configuration.
Definition insert_connection (environmentID : string) (c : EnvironmentConnection) : effr world unit :=
  let? configuration := eret (marshal_metadata c.(EnvironmentConnection.Configuration)) in
  let! clock := draw in
  change (Insert "environment_connections") (λ d, d <| DB.connections := d.(DB.connections) ++
    [connection_row environmentID c (now clock) configuration] |>).
Definition insertConnections definition : effr world unit :=
  for_effr (insert_connection definition.(EnvironmentDefinition.Environment).(Environment.ID))
    definition.(EnvironmentDefinition.Connections).

(** [insertEnvironmentVersion] *)
Definition version_row (environmentID : string) (v : EnvironmentVersion) (created : Time) : EnvironmentVersion :=
  v <| EnvironmentVersion.EnvironmentID := environmentID |> <| EnvironmentVersion.CreatedAt := created |>.
Definition insertEnvironmentVersion definition : effr world unit :=
  let! clock := draw in
  change (Insert "environment_versions") (λ d, d <| DB.versions := d.(DB.versions) ++
    [version_row definition.(EnvironmentDefinition.Environment).(Environment.ID)
       definition.(EnvironmentDefinition.Version) (now clock)] |>).

(** [insertRuntimes] *)
Definition runtime_row (versionID : string) (r : EnvironmentRuntime) (configuration : string) : Row EnvironmentRuntime :=
  mk_stored (r <| EnvironmentRuntime.EnvironmentVersionID := versionID |>
               <| EnvironmentRuntime.Configuration := ∅ |> <| EnvironmentRuntime.Capabilities := zero |>) configuration.
Definition insert_runtime (versionID : string) (r : EnvironmentRuntime) : effr world unit :=
  let? configuration := eret (marshal_metadata r.(EnvironmentRuntime.Configuration)) in
  let? _ := change (Insert "environment_runtimes") (λ d, d <| DB.runtimes := d.(DB.runtimes) ++
    [runtime_row versionID r configuration] |>) in
  let? capabilities := eret (marshal_capabilities r.(EnvironmentRuntime.Capabilities)) in
  change (Insert "environment_runtime_capabilities") (λ d, d <| DB.runtime_capabilities :=
    d.(DB.runtime_capabilities) ++ [(r.(EnvironmentRuntime.ID), capabilities)] |>).
Definition insertRuntimes definition : effr world unit :=
  for_effr (insert_runtime definition.(EnvironmentDefinition.Version).(EnvironmentVersion.ID))
    definition.(EnvironmentDefinition.Runtimes).

(** [normalizedExecutionTarget] *)
Definition normalizedExecutionTarget (target : ResourceExecutionTarget) : ResourceExecutionTarget :=
  if bool_decide (ResourceExecutionTarget_string target = "") then ExecutionTargetBatch else target.
(** [insertResources] *)
Definition resource_row (versionID : string) (r : Resource) (metadata : string) : Row Resource :=
  mk_stored (r <| Resource.EnvironmentVersionID := versionID |>
               <| Resource.ExecutionTarget := normalizedExecutionTarget r.(Resource.ExecutionTarget) |>
               <| Resource.Metadata := ∅ |>) metadata.
Definition insert_resource (versionID : string) (r : Resource) : effr world unit :=
  let? metadata := eret (marshal_metadata r.(Resource.Metadata)) in
  change (Insert "resources") (λ d, d <| DB.resources := d.(DB.resources) ++ [resource_row versionID r metadata] |>).
Definition insertResources definition : effr world unit :=
  for_effr (insert_resource definition.(EnvironmentDefinition.Version).(EnvironmentVersion.ID))
    definition.(EnvironmentDefinition.Resources).

(** [insertRuntimeBindings] *)
Definition binding_row (b : ResourceRuntimeBinding) (configuration : string) : Row ResourceRuntimeBinding :=
  mk_stored (b <| ResourceRuntimeBinding.Configuration := ∅ |>) configuration.
Definition insert_binding (b : ResourceRuntimeBinding) : effr world unit :=
  let? configuration := eret (marshal_metadata b.(ResourceRuntimeBinding.Configuration)) in
  change (Insert "resource_runtime_bindings") (λ d, d <| DB.resource_runtime_bindings :=
    d.(DB.resource_runtime_bindings) ++ [binding_row b configuration] |>).
Definition insertRuntimeBindings definition : effr world unit :=
  for_effr insert_binding definition.(EnvironmentDefinition.RuntimeBindings).

(** [insertResourceRelations] *)
Definition relation_row (versionID : string) (r : ResourceRelation) (metadata : string) : Row ResourceRelation :=
  mk_stored (r <| ResourceRelation.EnvironmentVersionID := versionID |> <| ResourceRelation.Metadata := ∅ |>) metadata.
Definition insert_relation (versionID : string) (r : ResourceRelation) : effr world unit :=
  let? metadata := eret (marshal_metadata r.(ResourceRelation.Metadata)) in
  change (Insert "resource_relations") (λ d, d <| DB.resource_relations :=
    d.(DB.resource_relations) ++ [relation_row versionID r metadata] |>).
Definition insertResourceRelations definition : effr world unit :=
  for_effr (insert_relation definition.(EnvironmentDefinition.Version).(EnvironmentVersion.ID))
    definition.(EnvironmentDefinition.Relations).

(** [insertStorages]; the fields that have no column are not stored. *)
Definition storage_columns (versionID : string) (s : StorageResource) : StorageResource := {|
  StorageResource.ID := s.(StorageResource.ID);
  StorageResource.EnvironmentVersionID := versionID;
  StorageResource.Name := s.(StorageResource.Name);
  StorageResource.Type_ := s.(StorageResource.Type_);
  StorageResource.Endpoint := s.(StorageResource.Endpoint);
  StorageResource.CapacityBytes := s.(StorageResource.CapacityBytes);
  StorageResource.Shared := s.(StorageResource.Shared);
  StorageResource.ReadOnly := s.(StorageResource.ReadOnly);
  StorageResource.Configuration := ∅;
  StorageResource.CredentialReference := s.(StorageResource.CredentialReference);
  StorageResource.Metadata := ∅;
  StorageResource.RuntimeBindings := [];
  StorageResource.BrowseRoots := zero;
  StorageResource.Capabilities := zero;
  StorageResource.Health := zero;
  StorageResource.IndexPolicy := zero;
  StorageResource.IndexStatus := zero
|}.
Definition defaulted_path (b : StorageRuntimeBinding) : StorageRuntimeBinding :=
  if bool_decide (b.(StorageRuntimeBinding.ContainerPath) = "")
  then b <| StorageRuntimeBinding.ContainerPath := "/akoflow/data" |> else b.
Definition storage_binding_row (storageID versionID : string) (b : StorageRuntimeBinding) (configuration : string)
    : BindingRow :=
  BindingRow.mk storageID versionID
    (mk_stored ((defaulted_path b) <| StorageRuntimeBinding.Configuration := ∅ |>) configuration).
Definition insert_storage_binding (storageID versionID : string) (b : StorageRuntimeBinding) : effr world unit :=
  let? configuration := eret (marshal_metadata b.(StorageRuntimeBinding.Configuration)) in
  change (Insert "storage_runtime_bindings") (λ d, d <| DB.storage_runtime_bindings :=
    d.(DB.storage_runtime_bindings) ++ [storage_binding_row storageID versionID b configuration] |>).
Definition insert_storage (versionID : string) (s : StorageResource) : effr world unit :=
  let? configuration := eret (marshal_metadata s.(StorageResource.Configuration)) in
  let? metadata := eret (marshal_metadata s.(StorageResource.Metadata)) in
  let? _ := change (Insert "storage_resources") (λ d, d <| DB.storages := d.(DB.storages) ++
    [mk_stored (storage_columns versionID s) (configuration, metadata)] |>) in
  for_effr (insert_storage_binding s.(StorageResource.ID) versionID) s.(StorageResource.RuntimeBindings).
Definition insertStorages definition : effr world unit :=
  for_effr (insert_storage definition.(EnvironmentDefinition.Version).(EnvironmentVersion.ID))
    definition.(EnvironmentDefinition.Storages).

(** [insertProfiles] *)
Definition profile_row (p : ActivityResourceProfile) (metadata : string) : Row ActivityResourceProfile :=
  mk_stored (p <| ActivityResourceProfile.Metadata := ∅ |>) metadata.
Definition insert_profile (p : ActivityResourceProfile) : effr world unit :=
  let? metadata := eret (marshal_metadata p.(ActivityResourceProfile.Metadata)) in
  change (Insert "activity_resource_profiles") (λ d, d <| DB.profiles :=
    d.(DB.profiles) ++ [profile_row p metadata] |>).
Definition insertProfiles definition : effr world unit :=
  for_effr insert_profile definition.(EnvironmentDefinition.Profiles).

(** The insertions that [Create] and [Replace] share. *)
Definition insert_inventory definition : effr world unit :=
  let? _ := insertConnections definition in
  let? _ := insertEnvironmentVersion definition in
  let? _ := insertRuntimes definition in
  let? _ := insertResources definition in
  let? _ := insertRuntimeBindings definition in
  let? _ := insertResourceRelations definition in
  let? _ := insertStorages definition in
  insertProfiles definition.

(** [Repository.Create] *)
Definition Create definition : effr world unit := in_transaction (
  let? _ := insertEnvironment definition in insert_inventory definition).
(** *** Removal *)

(** The subqueries: the versions, resources and storages of an environment. *)
Definition versions_of (id : string) d : list string :=
  map EnvironmentVersion.ID
    (List.filter (λ v, bool_decide (v.(EnvironmentVersion.EnvironmentID) = id)) d.(DB.versions)).
Definition in_version (ids : list string) (version : string) : bool := bool_decide (version ∈ ids).
Definition resources_of (id : string) d : list string :=
  map (λ r, r.(columns).(Resource.ID))
    (List.filter (λ r, in_version (versions_of id d) r.(columns).(Resource.EnvironmentVersionID)) d.(DB.resources)).
Definition storages_of (id : string) d : list string :=
  map (λ r, r.(columns).(StorageResource.ID))
    (List.filter (λ r, in_version (versions_of id d) r.(columns).(StorageResource.EnvironmentVersionID)) d.(DB.storages)).

(** [DELETE ... WHERE column IN ids], on the rows of a table. *)
Definition without {R} (ids : list string) (column : R → string) (t : list R) : list R :=
  List.filter (λ r, negb (bool_decide (column r ∈ ids))) t.
Definition without_null {R} (ids : list string) (column : R → option string) (t : list R) : list R :=
  List.filter (λ r, negb (match column r with Some id => bool_decide (id ∈ ids) | None => false end)) t.

(** The statements of [Delete] and [Replace], with the cascades of the schema. *)
Definition delete_snapshots (id : string) d : DB :=
  d <| DB.others := d.(DB.others) <| Others.resource_snapshots :=
    without (resources_of id d) (λ r, r) d.(DB.others).(Others.resource_snapshots) |> |>.
Definition delete_profiles (id : string) d : DB :=
  d <| DB.profiles := without (resources_of id d) (λ r, r.(columns).(ActivityResourceProfile.ResourceID)) d.(DB.profiles) |>.
Definition delete_relations (id : string) d : DB :=
  d <| DB.resource_relations := without (versions_of id d)
    (λ r, r.(columns).(ResourceRelation.EnvironmentVersionID)) d.(DB.resource_relations) |>.
Definition delete_discovery (id : string) d : DB :=
  d <| DB.others := d.(DB.others) <| Others.discovery_runs :=
    without (versions_of id d) (λ r, r) d.(DB.others).(Others.discovery_runs) |> |>.
Definition delete_storages (id : string) d : DB :=
  let gone := storages_of id d in
  d <| DB.storages := without (versions_of id d) (λ r, r.(columns).(StorageResource.EnvironmentVersionID)) d.(DB.storages) |>
    <| DB.storage_runtime_bindings := without gone BindingRow.storage_resource_id d.(DB.storage_runtime_bindings) |>
    <| DB.others := d.(DB.others)
         <| Others.storage_download_runs := without gone (λ r, r) d.(DB.others).(Others.storage_download_runs) |>
         <| Others.storage_index_runs := without gone (λ r, r) d.(DB.others).(Others.storage_index_runs) |> |>.
Definition delete_resources (id : string) d : DB :=
  let gone := resources_of id d in
  d <| DB.resources := without (versions_of id d) (λ r, r.(columns).(Resource.EnvironmentVersionID)) d.(DB.resources) |>
    <| DB.resource_runtime_bindings :=
         without gone (λ r, r.(columns).(ResourceRuntimeBinding.ResourceID)) d.(DB.resource_runtime_bindings) |>
    <| DB.resource_relations :=
         without gone (λ r, r.(columns).(ResourceRelation.TargetResourceID))
           (without gone (λ r, r.(columns).(ResourceRelation.SourceResourceID)) d.(DB.resource_relations)) |>
    <| DB.others := d.(DB.others)
         <| Others.artifact_materializations := without gone fst d.(DB.others).(Others.artifact_materializations) |>
         <| Others.transfer_endpoints := without_null gone fst d.(DB.others).(Others.transfer_endpoints) |> |>.
Definition delete_runtimes (id : string) d : DB :=
  let gone := map (λ r, r.(columns).(EnvironmentRuntime.ID))
    (List.filter (λ r, in_version (versions_of id d) r.(columns).(EnvironmentRuntime.EnvironmentVersionID)) d.(DB.runtimes)) in
  d <| DB.runtimes := without (versions_of id d) (λ r, r.(columns).(EnvironmentRuntime.EnvironmentVersionID)) d.(DB.runtimes) |>
    <| DB.runtime_capabilities := without gone fst d.(DB.runtime_capabilities) |>
    <| DB.resource_runtime_bindings :=
         without gone (λ r, r.(columns).(ResourceRuntimeBinding.RuntimeID)) d.(DB.resource_runtime_bindings) |>
    <| DB.storage_runtime_bindings :=
         without gone (λ b, b.(BindingRow.binding).(columns).(StorageRuntimeBinding.RuntimeID)) d.(DB.storage_runtime_bindings) |>.
Definition delete_connections (id : string) d : DB :=
  let gone := map (λ r, r.(columns).(EnvironmentConnection.ID))
    (List.filter (λ r, bool_decide (r.(columns).(EnvironmentConnection.EnvironmentID) = id)) d.(DB.connections)) in
  d <| DB.connections := without [id] (λ r, r.(columns).(EnvironmentConnection.EnvironmentID)) d.(DB.connections) |>
    <| DB.connection_checks := without gone (λ r, r.(columns).(ConnectionCheck.ConnectionID)) d.(DB.connection_checks) |>.
Definition delete_versions (id : string) d : DB :=
  let gone := versions_of id d in
  d <| DB.versions := without [id] EnvironmentVersion.EnvironmentID d.(DB.versions) |>
    <| DB.storage_runtime_bindings := without gone BindingRow.environment_version_id d.(DB.storage_runtime_bindings) |>
    <| DB.others := d.(DB.others)
         <| Others.artifact_materializations := without_null gone snd d.(DB.others).(Others.artifact_materializations) |> |>.
Definition delete_environment (id : string) d : DB :=
  d <| DB.environments := without [id] Environment.ID d.(DB.environments) |>
    <| DB.others := d.(DB.others)
         <| Others.transfer_endpoints := without_null [id] snd d.(DB.others).(Others.transfer_endpoints) |> |>.

Definition inventory_deletions (id : string) : list (statement * (DB → DB)) :=
  [(DeleteFrom "resource_snapshots", delete_snapshots id);
   (DeleteFrom "activity_resource_profiles", delete_profiles id);
   (DeleteFrom "resource_relations", delete_relations id);
   (DeleteFrom "discovery_runs", delete_discovery id);
   (DeleteFrom "storage_resources", delete_storages id);
   (DeleteFrom "resources", delete_resources id);
   (DeleteFrom "environment_runtimes", delete_runtimes id);
   (DeleteFrom "environment_connections", delete_connections id);
   (DeleteFrom "environment_versions", delete_versions id)].

(** [Repository.Replace] *)
Definition Replace definition : effr world unit := in_transaction (
  let environment := definition.(EnvironmentDefinition.Environment) in
  let id := environment.(Environment.ID) in
  let? exists_ := query (λ d, bool_decide (id ∈ environment_ids d)) in
  if negb exists_ then eret (Err ErrNoRows)
  else
    let? _ := for_effr (λ '(st, f),
      let! r := change st f in
      eret (match r with
            | Ok tt => Ok tt
            | Err e => Err (errorf "environment %q cannot be replaced while it is in use: %w" [id; e])
            end)) (inventory_deletions id) in
    let? _ := change (Update "environments") (λ d, d <| DB.environments :=
      (update_rows Environment.ID id (λ row, row <| Environment.Name := environment.(Environment.Name) |>
         <| Environment.Description := environment.(Environment.Description) |>
         <| Environment.Status := environment.(Environment.Status) |>) d.(DB.environments)).1 |>) in
    insert_inventory definition).

(** The dependencies that [Delete] looks for, and the queries that find them. *)
Definition dependencies (id : string) : list (string * (DB → bool)) :=
  let version d v := in_version (versions_of id d) v in
  let resource d r := bool_decide (r ∈ resources_of id d) in
  let null {A} (p : A → bool) (o : option A) := match o with Some a => p a | None => false end in
  [("execution scope", λ d, existsb (version d) d.(DB.others).(Others.execution_scope_environments));
   ("network topology", λ d, existsb (λ l, resource d l.1 || resource d l.2) d.(DB.others).(Others.network_links));
   ("schedule plan", λ d, existsb (resource d) d.(DB.others).(Others.schedule_plan_assignments));
   ("execution data", λ d, existsb (λ l, null (resource d) l.2 ||
      null (λ s, bool_decide (s ∈ storages_of id d)) l.1) d.(DB.others).(Others.data_locations));
   ("transfer observation", λ d, existsb (λ l, resource d l.1 || resource d l.2)
      d.(DB.others).(Others.data_transfer_observations));
   ("console activity", λ d, existsb (resource d) d.(DB.others).(Others.console_commands) ||
      existsb (resource d) d.(DB.others).(Others.console_sessions));
   ("simulation scenario", λ d, existsb (version d) d.(DB.others).(Others.simulation_scenarios))].

(** [Repository.Delete] *)
Definition Delete (environmentID : string) : effr world unit := in_transaction (
  let? exists_ := query (λ d, bool_decide (environmentID ∈ environment_ids d)) in
  if negb exists_ then eret (Err ErrNoRows)
  else
    let? _ := for_effr (λ '(name, used),
      let? exists_ := query used in
      eret (if exists_ : bool
            then Err (errorf "environment %q cannot be deleted because it is used by a %s" [environmentID; name])
            else Ok tt)) (dependencies environmentID) in
    for_effr (λ '(st, f), change st f)
      (inventory_deletions environmentID ++ [(DeleteFrom "environments", delete_environment environmentID)])).

(** *** Queries *)
Definition str_lt_or (a b : string) (rest : bool) : bool :=
  if bool_decide (a = b) then rest else str_le a b.

Definition scan_connection (r : Row EnvironmentConnection) : result EnvironmentConnection :=
  configuration ← unmarshal_metadata r.(json);
  Ok (r.(columns) <| EnvironmentConnection.Configuration := configuration |>).
(** [Repository.ListConnections] *)
Definition ListConnections (salt : nat) (environmentID : string) : effr world (list EnvironmentConnection) :=
  let? rows := query (λ d, order_by
    (λ a b, str_le a.(columns).(EnvironmentConnection.Name) b.(columns).(EnvironmentConnection.Name)) salt
    (List.filter (λ r, bool_decide (r.(columns).(EnvironmentConnection.EnvironmentID) = environmentID))
       d.(DB.connections))) in
  eret (scan_rows scan_connection rows).
(** [Repository.FindConnection] *)
Definition FindConnection (id : string) : effr world (option EnvironmentConnection) :=
  let? row := query (λ d, find_row (λ r, r.(columns).(EnvironmentConnection.ID)) id d.(DB.connections)) in
  eret (match row with None => Ok None | Some row => Some <$> scan_connection row end).
(** [Repository.ListAllConnections] *)
Definition ListAllConnections (salt : nat) : effr world (list EnvironmentConnection) :=
  let? rows := query (λ d, order_by
    (λ a b, str_lt_or a.(columns).(EnvironmentConnection.EnvironmentID) b.(columns).(EnvironmentConnection.EnvironmentID)
       (str_le a.(columns).(EnvironmentConnection.Name) b.(columns).(EnvironmentConnection.Name))) salt
    d.(DB.connections)) in
  eret (scan_rows scan_connection rows).

Definition scan_check (r : Row ConnectionCheck) : result ConnectionCheck :=
  metadata ← unmarshal_metadata r.(json); Ok (r.(columns) <| ConnectionCheck.Metadata := metadata |>).
(** The checks of a connection, the newest first. *)
Definition newest_checks (salt : nat) (connectionID : string) (limit : Z) d : list (Row ConnectionCheck) :=
  limit_offset limit 0 (order_by
    (λ a b, b.(columns).(ConnectionCheck.CheckedAt) <=? a.(columns).(ConnectionCheck.CheckedAt)) salt
    (List.filter (λ r, bool_decide (r.(columns).(ConnectionCheck.ConnectionID) = connectionID)) d.(DB.connection_checks))).
(** [Repository.ListConnectionChecks] *)
Definition ListConnectionChecks (salt : nat) (connectionID : string) (limit : Z) : effr world (list ConnectionCheck) :=
  let limit := if (limit <=? 0) || (500 <? limit) then 100 else limit in
  let? rows := query (newest_checks salt connectionID limit) in
  eret (scan_rows scan_check rows).

Definition scan_relation (r : Row ResourceRelation) : result ResourceRelation :=
  metadata ← unmarshal_metadata r.(json); Ok (r.(columns) <| ResourceRelation.Metadata := metadata |>).
(** [listResourceRelations] *)
Definition listResourceRelations (salt : nat) (versionID : string) : effr world (list ResourceRelation) :=
  let? rows := query (λ d, order_by
    (λ a b, str_lt_or a.(columns).(ResourceRelation.SourceResourceID) b.(columns).(ResourceRelation.SourceResourceID)
       (str_le a.(columns).(ResourceRelation.TargetResourceID) b.(columns).(ResourceRelation.TargetResourceID))) salt
    (List.filter (λ r, bool_decide (r.(columns).(ResourceRelation.EnvironmentVersionID) = versionID))
       d.(DB.resource_relations))) in
  eret (scan_rows scan_relation rows).

Definition scan_profile (r : Row ActivityResourceProfile) : result ActivityResourceProfile :=
  metadata ← unmarshal_metadata r.(json); Ok (r.(columns) <| ActivityResourceProfile.Metadata := metadata |>).
Definition resources_in (versionID : string) d : list string :=
  map (λ r, r.(columns).(Resource.ID))
    (List.filter (λ r, bool_decide (r.(columns).(Resource.EnvironmentVersionID) = versionID)) d.(DB.resources)).
(** [listProfiles] *)
Definition listProfiles (salt : nat) (versionID : string) : effr world (list ActivityResourceProfile) :=
  let? rows := query (λ d, order_by
    (λ a b, str_lt_or a.(columns).(ActivityResourceProfile.ActivityTypeID) b.(columns).(ActivityResourceProfile.ActivityTypeID)
       (str_le a.(columns).(ActivityResourceProfile.ResourceID) b.(columns).(ActivityResourceProfile.ResourceID))) salt
    (List.filter (λ r, bool_decide (r.(columns).(ActivityResourceProfile.ResourceID) ∈ resources_in versionID d))
       d.(DB.profiles))) in
  eret (scan_rows scan_profile rows).

(** The row of a runtime beside its capabilities, which may be missing. *)
Definition scan_runtime (row : Row EnvironmentRuntime * option string) : result EnvironmentRuntime :=
  let '(r, capabilities) := row in
  match capabilities with
  | None => Err "converting NULL to string is unsupported"
  | Some capabilities =>
    configuration ← unmarshal_metadata r.(json);
    capabilities ← (if bool_decide (capabilities = "") then Ok zero else unmarshal_capabilities capabilities);
    Ok (r.(columns) <| EnvironmentRuntime.Configuration := configuration |>
          <| EnvironmentRuntime.Capabilities := capabilities |>)
  end.
(** [listRuntimes] *)
Definition listRuntimes (salt : nat) (versionID : string) : effr world (list EnvironmentRuntime) :=
  let? rows := query (λ d,
    map (λ r, (r, snd <$> find_row fst r.(columns).(EnvironmentRuntime.ID) d.(DB.runtime_capabilities)))
      (order_by (λ a b, str_le a.(columns).(EnvironmentRuntime.Name) b.(columns).(EnvironmentRuntime.Name)) salt
        (List.filter (λ r, bool_decide (r.(columns).(EnvironmentRuntime.EnvironmentVersionID) = versionID))
          d.(DB.runtimes)))) in
  eret (scan_rows scan_runtime rows).

Definition scan_resource (r : Row Resource) : result Resource :=
  metadata ← unmarshal_metadata r.(json); Ok (r.(columns) <| Resource.Metadata := metadata |>).
(** [listResources] *)
Definition listResources (salt : nat) (versionID : string) : effr world (list Resource) :=
  let? rows := query (λ d, order_by
    (λ a b, str_le a.(columns).(Resource.Name) b.(columns).(Resource.Name)) salt
    (List.filter (λ r, bool_decide (r.(columns).(Resource.EnvironmentVersionID) = versionID)) d.(DB.resources))) in
  eret (scan_rows scan_resource rows).

Definition scan_binding (r : Row ResourceRuntimeBinding) : result ResourceRuntimeBinding :=
  configuration ← unmarshal_metadata r.(json);
  Ok (r.(columns) <| ResourceRuntimeBinding.Configuration := configuration |>).
(** [listRuntimeBindings] *)
Definition listRuntimeBindings (salt : nat) (versionID : string) : effr world (list ResourceRuntimeBinding) :=
  let? rows := query (λ d, order_by
    (λ a b, str_lt_or a.(columns).(ResourceRuntimeBinding.ResourceID) b.(columns).(ResourceRuntimeBinding.ResourceID)
       (str_le a.(columns).(ResourceRuntimeBinding.RuntimeID) b.(columns).(ResourceRuntimeBinding.RuntimeID))) salt
    (List.filter (λ r, bool_decide (r.(columns).(ResourceRuntimeBinding.ResourceID) ∈ resources_in versionID d))
       d.(DB.resource_runtime_bindings))) in
  eret (scan_rows scan_binding rows).

(** *** Storages *)
(** A row of the join of storages and their bindings to a runtime. *)
Definition scan_storage (runtimeID : string) (row : Stored StorageResource (string * string) * BindingRow)
    : result StorageResource :=
  let '(r, b) := row in
  configuration ← unmarshal_metadata r.(json).1;
  metadata ← unmarshal_metadata r.(json).2;
  bindingConfiguration ← unmarshal_metadata b.(BindingRow.binding).(json);
  Ok (r.(columns) <| StorageResource.Configuration := configuration |>
        <| StorageResource.Metadata := metadata |>
        <| StorageResource.RuntimeBindings := [b.(BindingRow.binding).(columns)
             <| StorageRuntimeBinding.RuntimeID := runtimeID |>
             <| StorageRuntimeBinding.Configuration := bindingConfiguration |>] |>).
Definition join_storages (versionID runtimeID : string) d : list (Stored StorageResource (string * string) * BindingRow) :=
  flat_map (λ r, map (pair r)
    (List.filter (λ b, bool_decide (b.(BindingRow.storage_resource_id) = r.(columns).(StorageResource.ID)) &&
       bool_decide (b.(BindingRow.environment_version_id) = versionID) &&
       bool_decide (b.(BindingRow.binding).(columns).(StorageRuntimeBinding.RuntimeID) = runtimeID))
     d.(DB.storage_runtime_bindings))) d.(DB.storages).
(** [ORDER BY b.is_default DESC, s.name] *)
Definition default_first (a b : Stored StorageResource (string * string) * BindingRow) : bool :=
  let is_default x := x.2.(BindingRow.binding).(columns).(StorageRuntimeBinding.Default) in
  if bool_decide (is_default a = is_default b)
  then str_le a.1.(columns).(StorageResource.Name) b.1.(columns).(StorageResource.Name) else is_default a.
(** [Repository.ListRuntimeStorages] *)
Definition ListRuntimeStorages (salt : nat) (versionID runtimeID : string) : effr world (list StorageResource) :=
  let? rows := query (λ d, order_by default_first salt (join_storages versionID runtimeID d)) in
  eret (scan_rows (scan_storage runtimeID) rows).

(** [Repository.FindDefaultRuntimeStorage]; every storage has one binding here. *)
Definition is_default (s : StorageResource) : bool :=
  match s.(StorageResource.RuntimeBindings) with b :: _ => b.(StorageRuntimeBinding.Default) | [] => false end.
Definition FindDefaultRuntimeStorage (salt : nat) (versionID runtimeID : string) : effr world StorageResource :=
  let? storages := ListRuntimeStorages salt versionID runtimeID in
  eret (match List.find is_default storages with Some s => Ok s | None => Err ErrNoRows end).

(** The body of the inner loop of [listStorages]. *)
Definition add_storage (items : gmap string StorageResource) (value : StorageResource) : gmap string StorageResource :=
  match items !! value.(StorageResource.ID) with
  | Some existing => <[value.(StorageResource.ID) := existing <| StorageResource.RuntimeBindings :=
      existing.(StorageResource.RuntimeBindings) ++ value.(StorageResource.RuntimeBindings) |>]> items
  | None => <[value.(StorageResource.ID) := value]> items
  end.
Fixpoint collect_storages (salt : nat) (versionID : string) (items : gmap string StorageResource)
    (runtimes : list EnvironmentRuntime) : effr world (gmap string StorageResource) :=
  match runtimes with
  | [] => eret (Ok items)
  | runtime :: runtimes =>
    let? values := ListRuntimeStorages salt versionID runtime.(EnvironmentRuntime.ID) in
    collect_storages salt versionID (foldl add_storage items values) runtimes
  end.
(** [listStorages] *)
Definition listStorages (salt : nat) (versionID : string) (runtimes : list EnvironmentRuntime)
    : effr world (list StorageResource) :=
  let? items := collect_storages salt versionID ∅ runtimes in
  eret (Ok (map snd (map_range salt items))).

(** *** Environments *)
Definition later_version (a b : EnvironmentVersion) : bool :=
  b.(EnvironmentVersion.Version) <=? a.(EnvironmentVersion.Version).
Fixpoint list_checks (salt : nat) (connections : list EnvironmentConnection) : effr world (list ConnectionCheck) :=
  match connections with
  | [] => eret (Ok [])
  | c :: connections =>
    let? checks := ListConnectionChecks salt c.(EnvironmentConnection.ID) 20 in
    let? rest := list_checks salt connections in
    eret (Ok (checks ++ rest))
  end.
(** [Repository.Find] *)
Definition Find (salt : nat) (id : string) : effr world (option EnvironmentDefinition) :=
  let? environment := query (λ d, find_row Environment.ID id d.(DB.environments)) in
  match environment with
  | None => eret (Ok None)
  | Some environment =>
    let? version := query (λ d, head (order_by later_version salt
      (List.filter (λ v, bool_decide (v.(EnvironmentVersion.EnvironmentID) = id)) d.(DB.versions)))) in
    let version := default zero version in
    let? connections := ListConnections salt id in
    let? checks := list_checks salt connections in
    let definition := (zero : EnvironmentDefinition)
      <| EnvironmentDefinition.Environment := environment |>
      <| EnvironmentDefinition.Version := version |>
      <| EnvironmentDefinition.Connections := connections |>
      <| EnvironmentDefinition.ConnectionChecks := checks |> in
    if bool_decide (version.(EnvironmentVersion.ID) = "") then eret (Ok (Some definition))
    else
      let versionID := version.(EnvironmentVersion.ID) in
      let? runtimes := listRuntimes salt versionID in
      let? resources := listResources salt versionID in
      let? bindings := listRuntimeBindings salt versionID in
      let? relations := listResourceRelations salt versionID in
      let? storages := listStorages salt versionID runtimes in
      let? profiles := listProfiles salt versionID in
      eret (Ok (Some (definition
        <| EnvironmentDefinition.Runtimes := runtimes |>
        <| EnvironmentDefinition.Resources := resources |>
        <| EnvironmentDefinition.RuntimeBindings := bindings |>
        <| EnvironmentDefinition.Relations := relations |>
        <| EnvironmentDefinition.Storages := storages |>
        <| EnvironmentDefinition.Profiles := profiles |>)))
  end.

Fixpoint find_all (salt : nat) (ids : list string) : effr world (list EnvironmentDefinition) :=
  match ids with
  | [] => eret (Ok [])
  | id :: ids =>
    let? found := Find salt id in
    let? rest := find_all salt ids in
    eret (Ok (match found with Some f => f :: rest | None => rest end))
  end.
(** [Repository.List] *)
Definition List_ (salt : nat) : effr world (list EnvironmentDefinition) :=
  let? ids := query (λ d, map Environment.ID (order_by
    (λ a b, str_le a.(Environment.Name) b.(Environment.Name)) salt d.(DB.environments))) in
  find_all salt ids.

(** *** Single statements *)
(** [Repository.UpdateStatus] *)
Definition UpdateStatus (id : string) (status : EnvironmentStatus) : effr world unit :=
  let? count := exec (refuse (Update "environments")) (λ d,
    let '(t, count) := update_rows Environment.ID id (λ row, row <| Environment.Status := status |>)
      d.(DB.environments) in
    (Ok count, d <| DB.environments := t |>)) in
  eret (if count =? 1 then Ok tt else Err ErrNoRows).

(** The update of [ON CONFLICT(id)] in [UpsertConnection]. *)
Definition merge_connection (old new : Row EnvironmentConnection) : Row EnvironmentConnection :=
  mk_stored (new.(columns)
    <| EnvironmentConnection.EnvironmentID := old.(columns).(EnvironmentConnection.EnvironmentID) |>
    <| EnvironmentConnection.CreatedAt := old.(columns).(EnvironmentConnection.CreatedAt) |>) new.(json).
(** [Repository.UpsertConnection] *)
Definition UpsertConnection (c : EnvironmentConnection) : effr world unit :=
  let? configuration := eret (marshal_metadata c.(EnvironmentConnection.Configuration)) in
  let! clock := draw in
  change (Insert "environment_connections") (λ d, d <| DB.connections :=
    upsert (λ r, r.(columns).(EnvironmentConnection.ID)) merge_connection
      (connection_row c.(EnvironmentConnection.EnvironmentID) c (now clock) configuration) d.(DB.connections) |>).

(** [Repository.SaveConnectionCheck] *)
Definition prune_checks (salt : nat) (connectionID : string) d : DB :=
  let kept := map (λ r, r.(columns).(ConnectionCheck.ID)) (newest_checks salt connectionID 1000 d) in
  d <| DB.connection_checks := List.filter (λ r,
    negb (bool_decide (r.(columns).(ConnectionCheck.ConnectionID) = connectionID) &&
          negb (bool_decide (r.(columns).(ConnectionCheck.ID) ∈ kept)))) d.(DB.connection_checks) |>.
Definition SaveConnectionCheck (salt : nat) (check : ConnectionCheck) : effr world unit :=
  let? metadata := eret (marshal_metadata check.(ConnectionCheck.Metadata)) in
  in_transaction (
    let? _ := change (Insert "environment_connection_checks") (λ d, d <| DB.connection_checks :=
      d.(DB.connection_checks) ++ [mk_stored (check <| ConnectionCheck.Metadata := ∅ |>) metadata] |>) in
    change (DeleteFrom "environment_connection_checks") (prune_checks salt check.(ConnectionCheck.ConnectionID))).

(** The updates of [ON CONFLICT] in [UpsertDiscoveredStorage]. *)
Definition merge_storage (old new : Stored StorageResource (string * string)) : Stored StorageResource (string * string) :=
  mk_stored (old.(columns) <| StorageResource.CapacityBytes := new.(columns).(StorageResource.CapacityBytes) |>) new.(json).
Definition merge_storage_binding (old new : BindingRow) : BindingRow :=
  BindingRow.mk old.(BindingRow.storage_resource_id) old.(BindingRow.environment_version_id)
    (mk_stored (new.(BindingRow.binding).(columns) <| StorageRuntimeBinding.Default :=
        old.(BindingRow.binding).(columns).(StorageRuntimeBinding.Default) |>) new.(BindingRow.binding).(json)).
Definition binding_key (b : BindingRow) : string * string :=
  (b.(BindingRow.storage_resource_id), b.(BindingRow.binding).(columns).(StorageRuntimeBinding.RuntimeID)).
Definition upsert_storage_binding (storageID versionID : string) (b : StorageRuntimeBinding) : effr world unit :=
  let? configuration := eret (marshal_metadata b.(StorageRuntimeBinding.Configuration)) in
  change (Insert "storage_runtime_bindings") (λ d, d <| DB.storage_runtime_bindings :=
    upsert binding_key merge_storage_binding (storage_binding_row storageID versionID b configuration)
      d.(DB.storage_runtime_bindings) |>).
(** [Repository.UpsertDiscoveredStorage] *)
Definition UpsertDiscoveredStorage (value : StorageResource) : effr world unit := in_transaction (
  let? configuration := eret (marshal_metadata value.(StorageResource.Configuration)) in
  let? encoded := eret (marshal_metadata (<["discovered" := AnyBool true]> value.(StorageResource.Metadata))) in
  let? _ := change (Insert "storage_resources") (λ d, d <| DB.storages :=
    upsert (λ r, r.(columns).(StorageResource.ID)) merge_storage
      (mk_stored (storage_columns value.(StorageResource.EnvironmentVersionID) value) (configuration, encoded))
      d.(DB.storages) |>) in
  for_effr (upsert_storage_binding value.(StorageResource.ID) value.(StorageResource.EnvironmentVersionID))
    value.(StorageResource.RuntimeBindings)).
End repository.

(** ** What is stored is read back *)

(** [encoding/json]: a map is read back as [decoded] (numbers as floats), a struct of
    booleans as it is. *)
Class JSONLaws `{JSON} := {
  decoded : metadata → metadata;
  metadata_read m t : marshal_metadata m = Ok t → unmarshal_metadata t = Ok (decoded m);
  capabilities_read c t : marshal_capabilities c = Ok t → t ≠ "" ∧ unmarshal_capabilities t = Ok c
}.

Section insertion.
Context `{Driver, JSON}.
Implicit Types (definition : EnvironmentDefinition) (d : DB) (s : world).

Lemma change_ok st f s s' : change st f s = (Ok tt, s') → s'.(db) = f s.(db) ∧ Valid s'.(db).
Proof.
  intros [E _]%exec_ok. cbv zeta in E. case_bool_decide as Hv; [|done]. injection E as E. by rewrite <- E.
Qed.
Lemma change_valid st f : invariant Valid (change st f).
Proof.
  apply invariant_exec. intros d [] d' _. cbv zeta. case_bool_decide; [|done]. by intros [= <-].
Qed.

(** A loop of insertions appends the rows of its values, each as [row] gives it. *)
Lemma insert_each {A R} (put : list R → DB → DB) (ins : A → effr world unit) (row : A → R → Prop) l s s' :
  (∀ d, put [] d = d) → (∀ rs rs' d, put rs' (put rs d) = put (rs ++ rs') d) →
  (∀ x s s', ins x s = (Ok tt, s') → ∃ r, row x r ∧ s'.(db) = put [r] s.(db)) →
  for_effr ins l s = (Ok tt, s') → ∃ rs, Forall2 row l rs ∧ s'.(db) = put rs s.(db).
Proof.
  intros Hnil Happ Hins. revert s. induction l as [|x l IH]; intros s; cbn [for_effr].
  - intros [= <-]. exists []. split; [constructor|by rewrite Hnil].
  - intros ([] & s1 & E1 & E2)%ebindr_ok. destruct (Hins _ _ _ E1) as (r & Hr & D1).
    destruct (IH _ E2) as (rs & Hrs & D2). exists (r :: rs). split; [by constructor|].
    by rewrite D2, D1, Happ.
Qed.

(** The rows of a definition. *)
Record Rows := mk_rows {
  new_connections : list (Row EnvironmentConnection);
  new_version : EnvironmentVersion;
  new_runtimes : list (Row EnvironmentRuntime * (string * string));
  new_resources : list (Row Resource);
  new_bindings : list (Row ResourceRuntimeBinding);
  new_relations : list (Row ResourceRelation);
  new_storages : list (Stored StorageResource (string * string) * list BindingRow);
  new_profiles : list (Row ActivityResourceProfile)
}.
Definition connection_stored (id : string) (c : EnvironmentConnection) (r : Row EnvironmentConnection) : Prop :=
  ∃ t text, marshal_metadata c.(EnvironmentConnection.Configuration) = Ok text ∧ r = connection_row id c t text.
Definition runtime_stored (id : string) (x : EnvironmentRuntime) (r : Row EnvironmentRuntime * (string * string)) : Prop :=
  ∃ text capabilities, marshal_metadata x.(EnvironmentRuntime.Configuration) = Ok text ∧
    marshal_capabilities x.(EnvironmentRuntime.Capabilities) = Ok capabilities ∧
    r = (runtime_row id x text, (x.(EnvironmentRuntime.ID), capabilities)).
Definition resource_stored (id : string) (x : Resource) (r : Row Resource) : Prop :=
  ∃ text, marshal_metadata x.(Resource.Metadata) = Ok text ∧ r = resource_row id x text.
Definition binding_stored (x : ResourceRuntimeBinding) (r : Row ResourceRuntimeBinding) : Prop :=
  ∃ text, marshal_metadata x.(ResourceRuntimeBinding.Configuration) = Ok text ∧ r = binding_row x text.
Definition relation_stored (id : string) (x : ResourceRelation) (r : Row ResourceRelation) : Prop :=
  ∃ text, marshal_metadata x.(ResourceRelation.Metadata) = Ok text ∧ r = relation_row id x text.
Definition storage_binding_stored (storageID versionID : string) (x : StorageRuntimeBinding) (r : BindingRow) : Prop :=
  ∃ text, marshal_metadata x.(StorageRuntimeBinding.Configuration) = Ok text ∧
    r = storage_binding_row storageID versionID x text.
Definition storage_stored (id : string) (x : StorageResource)
    (r : Stored StorageResource (string * string) * list BindingRow) : Prop :=
  ∃ text text', marshal_metadata x.(StorageResource.Configuration) = Ok text ∧
    marshal_metadata x.(StorageResource.Metadata) = Ok text' ∧
    r.1 = mk_stored (storage_columns id x) (text, text') ∧
    Forall2 (storage_binding_stored x.(StorageResource.ID) id) x.(StorageResource.RuntimeBindings) r.2.
Definition profile_stored (x : ActivityResourceProfile) (r : Row ActivityResourceProfile) : Prop :=
  ∃ text, marshal_metadata x.(ActivityResourceProfile.Metadata) = Ok text ∧ r = profile_row x text.
Definition rows_of definition (rows : Rows) : Prop :=
  let id := definition.(EnvironmentDefinition.Environment).(Environment.ID) in
  let version := definition.(EnvironmentDefinition.Version).(EnvironmentVersion.ID) in
  Forall2 (connection_stored id) definition.(EnvironmentDefinition.Connections) rows.(new_connections) ∧
  (∃ t, rows.(new_version) = version_row id definition.(EnvironmentDefinition.Version) t) ∧
  Forall2 (runtime_stored version) definition.(EnvironmentDefinition.Runtimes) rows.(new_runtimes) ∧
  Forall2 (resource_stored version) definition.(EnvironmentDefinition.Resources) rows.(new_resources) ∧
  Forall2 binding_stored definition.(EnvironmentDefinition.RuntimeBindings) rows.(new_bindings) ∧
  Forall2 (relation_stored version) definition.(EnvironmentDefinition.Relations) rows.(new_relations) ∧
  Forall2 (storage_stored version) definition.(EnvironmentDefinition.Storages) rows.(new_storages) ∧
  Forall2 profile_stored definition.(EnvironmentDefinition.Profiles) rows.(new_profiles).
Definition added (rows : Rows) d : DB :=
  d <| DB.connections := d.(DB.connections) ++ rows.(new_connections) |>
    <| DB.versions := d.(DB.versions) ++ [rows.(new_version)] |>
    <| DB.runtimes := d.(DB.runtimes) ++ map fst rows.(new_runtimes) |>
    <| DB.runtime_capabilities := d.(DB.runtime_capabilities) ++ map snd rows.(new_runtimes) |>
    <| DB.resources := d.(DB.resources) ++ rows.(new_resources) |>
    <| DB.resource_runtime_bindings := d.(DB.resource_runtime_bindings) ++ rows.(new_bindings) |>
    <| DB.resource_relations := d.(DB.resource_relations) ++ rows.(new_relations) |>
    <| DB.storages := d.(DB.storages) ++ map fst rows.(new_storages) |>
    <| DB.storage_runtime_bindings := d.(DB.storage_runtime_bindings) ++ concat (map snd rows.(new_storages)) |>
    <| DB.profiles := d.(DB.profiles) ++ rows.(new_profiles) |>.

Ltac put_laws :=
  intros; match goal with d : DB |- _ => destruct d; cbn;
    rewrite ?map_app, ?concat_app, <- ?app_assoc, ?app_nil_r; reflexivity end.
(** The statements of one value, its text marshalled first. *)
Ltac insert_text E :=
  let t := fresh "text" in let M := fresh "M" in let s := fresh "s" in
  apply ebindr_ok in E as (t & s & M & E); injection M as M <-.
Ltac insert_one :=
  intros x s0 s0' E;
  cbv delta [insert_connection insert_runtime insert_resource insert_binding insert_relation
    insert_storage_binding insert_storage insert_profile] in E; cbv beta in E;
  repeat match goal with
  | E : ebindr (eret _) _ _ = _ |- _ =>
      insert_text E
  | E : ebind draw _ _ = _ |- _ => unfold ebind, draw in E
  end.

Lemma connections_added definition s s' : insertConnections definition s = (Ok tt, s') →
  ∃ rs, Forall2 (connection_stored definition.(EnvironmentDefinition.Environment).(Environment.ID)) definition.(EnvironmentDefinition.Connections) rs ∧ s'.(db) = s.(db) <| DB.connections := s.(db).(DB.connections) ++ rs |>.
Proof.
  apply (insert_each (λ rs d, d <| DB.connections := d.(DB.connections) ++ rs |>)); [put_laws..|].
  insert_one. apply change_ok in E as [E _]. eexists. split; [|exact E]. by eexists _, _.
Qed.
Lemma runtimes_added definition s s' : insertRuntimes definition s = (Ok tt, s') →
  ∃ rs, Forall2 (runtime_stored definition.(EnvironmentDefinition.Version).(EnvironmentVersion.ID)) definition.(EnvironmentDefinition.Runtimes) rs ∧ s'.(db) = s.(db) <| DB.runtimes := s.(db).(DB.runtimes) ++ map fst rs |>
    <| DB.runtime_capabilities := s.(db).(DB.runtime_capabilities) ++ map snd rs |>.
Proof.
  apply (insert_each (λ rs d, d <| DB.runtimes := d.(DB.runtimes) ++ map fst rs |>
    <| DB.runtime_capabilities := d.(DB.runtime_capabilities) ++ map snd rs |>)); [put_laws..|].
  insert_one. apply ebindr_ok in E as ([] & s1 & E1 & E). insert_text E. apply change_ok in E1 as [E1 _], E as [E _].
  eexists (_, _). split; [by eexists _, _|]. by rewrite E, E1.
Qed.
Lemma resources_added definition s s' : insertResources definition s = (Ok tt, s') →
  ∃ rs, Forall2 (resource_stored definition.(EnvironmentDefinition.Version).(EnvironmentVersion.ID)) definition.(EnvironmentDefinition.Resources) rs ∧ s'.(db) = s.(db) <| DB.resources := s.(db).(DB.resources) ++ rs |>.
Proof.
  apply (insert_each (λ rs d, d <| DB.resources := d.(DB.resources) ++ rs |>)); [put_laws..|].
  insert_one. apply change_ok in E as [E _]. eexists. split; [|exact E]. by eexists.
Qed.
Lemma bindings_added definition s s' : insertRuntimeBindings definition s = (Ok tt, s') →
  ∃ rs, Forall2 binding_stored definition.(EnvironmentDefinition.RuntimeBindings) rs ∧ s'.(db) = s.(db) <| DB.resource_runtime_bindings := s.(db).(DB.resource_runtime_bindings) ++ rs |>.
Proof.
  apply (insert_each (λ rs d, d <| DB.resource_runtime_bindings := d.(DB.resource_runtime_bindings) ++ rs |>)); [put_laws..|].
  insert_one. apply change_ok in E as [E _]. eexists. split; [|exact E]. by eexists.
Qed.
Lemma relations_added definition s s' : insertResourceRelations definition s = (Ok tt, s') →
  ∃ rs, Forall2 (relation_stored definition.(EnvironmentDefinition.Version).(EnvironmentVersion.ID)) definition.(EnvironmentDefinition.Relations) rs ∧ s'.(db) = s.(db) <| DB.resource_relations := s.(db).(DB.resource_relations) ++ rs |>.
Proof.
  apply (insert_each (λ rs d, d <| DB.resource_relations := d.(DB.resource_relations) ++ rs |>)); [put_laws..|].
  insert_one. apply change_ok in E as [E _]. eexists. split; [|exact E]. by eexists.
Qed.
Lemma storage_bindings_added storageID versionID l s s' :
  for_effr (insert_storage_binding storageID versionID) l s = (Ok tt, s') →
  ∃ rs, Forall2 (storage_binding_stored storageID versionID) l rs ∧
    s'.(db) = s.(db) <| DB.storage_runtime_bindings := s.(db).(DB.storage_runtime_bindings) ++ rs |>.
Proof.
  apply (insert_each (λ rs d, d <| DB.storage_runtime_bindings := d.(DB.storage_runtime_bindings) ++ rs |>)); [put_laws..|].
  insert_one. apply change_ok in E as [E _]. eexists. split; [|exact E]. by eexists.
Qed.
Lemma storages_added definition s s' : insertStorages definition s = (Ok tt, s') →
  ∃ rs, Forall2 (storage_stored definition.(EnvironmentDefinition.Version).(EnvironmentVersion.ID)) definition.(EnvironmentDefinition.Storages) rs ∧ s'.(db) = s.(db) <| DB.storages := s.(db).(DB.storages) ++ map fst rs |>
    <| DB.storage_runtime_bindings := s.(db).(DB.storage_runtime_bindings) ++ concat (map snd rs) |>.
Proof.
  apply (insert_each (λ rs d, d <| DB.storages := d.(DB.storages) ++ map fst rs |>
    <| DB.storage_runtime_bindings := d.(DB.storage_runtime_bindings) ++ concat (map snd rs) |>)); [put_laws..|].
  insert_one. apply ebindr_ok in E as ([] & s2 & E1 & E). apply change_ok in E1 as [E1 _].
  apply storage_bindings_added in E as (bs & Hbs & E). eexists (_, bs). split; [by eexists _, _|].
  rewrite E, E1. cbn. by rewrite app_nil_r.
Qed.
Lemma profiles_added definition s s' : insertProfiles definition s = (Ok tt, s') →
  ∃ rs, Forall2 profile_stored definition.(EnvironmentDefinition.Profiles) rs ∧ s'.(db) = s.(db) <| DB.profiles := s.(db).(DB.profiles) ++ rs |>.
Proof.
  apply (insert_each (λ rs d, d <| DB.profiles := d.(DB.profiles) ++ rs |>)); [put_laws..|].
  insert_one. apply change_ok in E as [E _]. eexists. split; [|exact E]. by eexists.
Qed.

Lemma inventory_added definition s s' : insert_inventory definition s = (Ok tt, s') →
  ∃ rows, rows_of definition rows ∧ s'.(db) = added rows s.(db).
Proof.
  unfold insert_inventory. intros ([] & s1 & (cs & Hcs & D1)%connections_added & E)%ebindr_ok.
  apply ebindr_ok in E as ([] & s2 & E2 & E). unfold insertEnvironmentVersion, ebind, draw in E2.
  apply change_ok in E2 as [D2 _]. cbn [db draws] in D2.
  apply ebindr_ok in E as ([] & s3 & (rts & Hrt & D3)%runtimes_added & E).
  apply ebindr_ok in E as ([] & s4 & (res & Hre & D4)%resources_added & E).
  apply ebindr_ok in E as ([] & s5 & (bs & Hbs & D5)%bindings_added & E).
  apply ebindr_ok in E as ([] & s6 & (rls & Hrl & D6)%relations_added & E).
  apply ebindr_ok in E as ([] & s7 & (sts & Hst & D7)%storages_added & (ps & Hps & D8)%profiles_added).
  eexists (mk_rows cs _ rts res bs rls sts ps). split; [by split_and!; eauto|].
  rewrite D8, D7, D6, D5, D4, D3, D2, D1. destruct (db s). reflexivity.
Qed.
Lemma inventory_valid definition : invariant Valid (insert_inventory definition).
Proof.
  unfold insert_inventory, insertConnections, insertEnvironmentVersion, insertRuntimes, insertResources,
    insertRuntimeBindings, insertResourceRelations, insertStorages, insertProfiles, insert_connection,
    insert_runtime, insert_resource, insert_binding, insert_relation, insert_storage, insert_storage_binding,
    insert_profile.
  repeat first [apply invariant_bindr; [|intros ?] | apply invariant_bind; [|intros ?]
    | apply invariant_for_effr; intros ? | apply change_valid | apply invariant_ret | apply invariant_draw].
Qed.
End insertion.

Section reading.
Context `{JSONLaws, Driver, SqlOrder, MapOrder}.
Implicit Types (definition : EnvironmentDefinition) (d : DB) (s : world).
(** The engine answers queries. *)
Hypothesis answers : ∀ d, refuse Select d = None.

Lemma query_runs {A} (f : DB → A) s : query f s = (Ok (f s.(db)), s).
Proof. unfold query, exec. rewrite answers. by destruct s. Qed.
Lemma read_runs {A B} (f : DB → A) (k : A → effr world B) s : ebindr (query f) k s = k (f s.(db)) s.
Proof. unfold ebindr. by rewrite query_runs. Qed.

Lemma ebindr_run {A B} (m : effr world A) (k : A → effr world B) s a s1 :
  m s = (Ok a, s1) → ebindr m k s = k a s1.
Proof. intros E. unfold ebindr. by rewrite E. Qed.

Lemma filter_new {R} (p : R → bool) old new :
  Forall (λ r, p r = false) old → Forall (λ r, p r = true) new → List.filter p (old ++ new) = new.
Proof.
  intros Ho Hn. rewrite List.filter_app. induction Ho as [|r old Hr Ho IH]; simpl; [|by rewrite Hr].
  induction Hn as [|r new Hr Hn IH]; simpl; [done|]. by rewrite Hr, IH.
Qed.

(** Rows that are read back in some order, each as [reread] of what was stored. *)
Lemma rows_listed {X R A} (stored : X → R → Prop) (scan : R → result A) (reread : X → A → Prop) xs rs rs' :
  Forall2 stored xs rs → (∀ x r, x ∈ xs → stored x r → ∃ a, scan r = Ok a ∧ reread x a) → rs' ≡ₚ rs →
  ∃ l as_, scan_rows scan rs' = Ok l ∧ l ≡ₚ as_ ∧ Forall2 reread xs as_.
Proof.
  intros Hf Hs Hp.
  assert (∃ as_, Forall2 (λ r a, scan r = Ok a) rs as_ ∧ Forall2 reread xs as_) as (as_ & Ha & Hr).
  { clear Hp. induction Hf as [|x r xs rs Hx Hf IH]; [by exists []|].
    destruct (Hs x r) as (a & E & Ha); [by left|done|].
    destruct IH as (as_ & IH1 & IH2); [intros ?? Hin; apply Hs; by right|].
    exists (a :: as_). split; by constructor. }
  assert (∃ l, Forall2 (λ r a, scan r = Ok a) rs' l ∧ l ≡ₚ as_) as (l & Hl & Hlp).
  { clear Hf Hs Hr. revert as_ Ha. induction Hp as [|r rs' rs Hp IH|r1 r2 rs|rs1 rs2 rs3 Hp1 IH1 Hp2 IH2]; intros as_ Ha.
    - inversion Ha; subst. by exists [].
    - inversion Ha as [|? a ? as1 Hra Ha']; subst. destruct (IH _ Ha') as (l & Hl & Hp').
      exists (a :: l). split; [by constructor|by constructor].
    - inversion Ha as [|? a ? as1 Hra Ha']; subst. inversion Ha' as [|? b ? as2 Hrb Hb]; subst.
      exists (b :: a :: as2). split; [by repeat constructor|constructor].
    - destruct (IH2 _ Ha) as (l2 & Hl2 & Hp2'). destruct (IH1 _ Hl2) as (l1 & Hl1 & Hp1').
      exists l1. split; [done|by etrans]. }
  exists l, as_. split_and!; [|done|done]. clear -Hl. induction Hl as [|r a rs l E Hl IH]; [done|].
  cbn [scan_rows]. by rewrite E, IH.
Qed.
Lemma rows_listed_map {X R A} (stored : X → R → Prop) (scan : R → result A) (f : X → A) xs rs rs' s :
  Forall2 stored xs rs → (∀ x r, x ∈ xs → stored x r → scan r = Ok (f x)) → rs' ≡ₚ rs →
  ∃ l, eret (scan_rows scan rs') s = (Ok l, s) ∧ l ≡ₚ map f xs.
Proof.
  intros Hf Hs Hp. destruct (rows_listed stored scan (λ x a, a = f x) xs rs rs' Hf) as (l & as_ & E & Hl & Ha); [|done|].
  { intros x r Hx Hr. eauto. }
  exists l. unfold eret. split; [by rewrite E|]. rewrite Hl. clear -Ha.
  induction Ha as [|x a xs as_ -> Ha IH]; [done|]. simpl. by rewrite IH.
Qed.
Lemma scan_rows_map {R R' A} (scan : R → result A) (g : R' → R) l :
  scan_rows scan (map g l) = scan_rows (λ r, scan (g r)) l.
Proof. induction l as [|r l IH]; simpl; [done|]. by rewrite IH. Qed.
Lemma filter_out_app {R} (p : R → bool) l k : Forall (λ r, p r = false) l → List.filter p l ++ k = k.
Proof. induction 1 as [|r l Hr _ IH]; [done|]. simpl. by rewrite Hr. Qed.
Lemma Forall2_filter {X R} (P : X → R → Prop) (p : X → bool) (q : R → bool) xs rs : Forall2 P xs rs →
  (∀ x r, P x r → p x = q r) → Forall2 P (List.filter p xs) (List.filter q rs).
Proof.
  intros HP Hpq. induction HP as [|x r xs rs Hx _ IH]; simpl; [constructor|]. rewrite (Hpq _ _ Hx).
  destruct (q r); [by constructor|done].
Qed.
Lemma Forall2_in {X R} (P : X → R → Prop) xs rs : Forall2 P xs rs → Forall2 (λ x r, P x r ∧ r ∈ rs) xs rs.
Proof.
  intros Hf. induction Hf as [|x r xs rs Hp Hf IH]; constructor; [by split; [|left]|].
  eapply Forall2_impl; [exact IH|]. intros ?? [? ?]. split; [done|by right].
Qed.
(** *** One definition in the tables *)
Lemma rows_all {X R} (stored : X → R → Prop) (P : R → Prop) xs rs :
  Forall2 stored xs rs → (∀ x r, stored x r → P r) → Forall P rs.
Proof. intros Hf Hp. induction Hf; constructor; eauto. Qed.

(** The tables [d] had nothing of the environment but its own row, and are valid with the
    rows of [definition] added. *)
Record saved definition d (rows : Rows) : Prop := {
  saved_rows : rows_of definition rows;
  saved_before : Valid d;
  saved_after : Valid (added rows d);
  saved_connections : Forall (λ r, r.(columns).(EnvironmentConnection.EnvironmentID) ≠
    definition.(EnvironmentDefinition.Environment).(Environment.ID)) d.(DB.connections);
  saved_versions : Forall (λ v, v.(EnvironmentVersion.EnvironmentID) ≠
    definition.(EnvironmentDefinition.Environment).(Environment.ID)) d.(DB.versions)
}.

(** What a query gives back of what was stored. *)
Definition shown_connection (id : string) (c : EnvironmentConnection) (t : Time) : EnvironmentConnection :=
  c <| EnvironmentConnection.EnvironmentID := id |>
    <| EnvironmentConnection.Configuration := decoded c.(EnvironmentConnection.Configuration) |>
    <| EnvironmentConnection.CreatedAt := t |>.
Definition shown_runtime (version : string) (r : EnvironmentRuntime) : EnvironmentRuntime :=
  r <| EnvironmentRuntime.EnvironmentVersionID := version |>
    <| EnvironmentRuntime.Configuration := decoded r.(EnvironmentRuntime.Configuration) |>.
Definition shown_resource (version : string) (r : Resource) : Resource :=
  r <| Resource.EnvironmentVersionID := version |>
    <| Resource.ExecutionTarget := normalizedExecutionTarget r.(Resource.ExecutionTarget) |>
    <| Resource.Metadata := decoded r.(Resource.Metadata) |>.
Definition shown_binding (b : ResourceRuntimeBinding) : ResourceRuntimeBinding :=
  b <| ResourceRuntimeBinding.Configuration := decoded b.(ResourceRuntimeBinding.Configuration) |>.
Definition shown_relation (version : string) (r : ResourceRelation) : ResourceRelation :=
  r <| ResourceRelation.EnvironmentVersionID := version |>
    <| ResourceRelation.Metadata := decoded r.(ResourceRelation.Metadata) |>.
Definition shown_profile (p : ActivityResourceProfile) : ActivityResourceProfile :=
  p <| ActivityResourceProfile.Metadata := decoded p.(ActivityResourceProfile.Metadata) |>.

Section saved.
Context definition d rows (Hsaved : saved definition d rows).
Notation id := definition.(EnvironmentDefinition.Environment).(Environment.ID).
Notation version := definition.(EnvironmentDefinition.Version).(EnvironmentVersion.ID).
Implicit Type salt : nat.

Lemma rows_version : ∃ t, rows.(new_version) = version_row id definition.(EnvironmentDefinition.Version) t.
Proof. apply (saved_rows _ _ _ Hsaved). Qed.
Lemma version_new : version ∉ version_ids d.
Proof.
  destruct (saved_after _ _ _ Hsaved) as (_ & _ & _ & [Hn _] & _). unfold version_ids, added in Hn. cbn in Hn.
  rewrite map_app in Hn. apply NoDup_app in Hn as (_ & Hn & _). destruct rows_version as [t E].
  intros Hin. apply (Hn _ Hin). rewrite E. by left.
Qed.
Lemma not_version (v : string) : v ∈ version_ids d → bool_decide (v = version) = false.
Proof. intros Hv. apply bool_decide_eq_false. intros ->. by apply version_new. Qed.

Ltac old_rows H := eapply Forall_impl; [exact H|]; cbn beta; intros ? ?; apply not_version; tauto.
Ltac new_rows := eapply rows_all; [eassumption|]; cbn beta.

Lemma new_resources_only :
  List.filter (λ r, bool_decide (r.(columns).(Resource.EnvironmentVersionID) = version)) (added rows d).(DB.resources) =
  rows.(new_resources).
Proof.
  destruct (saved_rows _ _ _ Hsaved) as (_ & _ & _ & Hre & _).
  destruct (saved_before _ _ _ Hsaved) as (_ & _ & _ & _ & _ & _ & (_ & _ & Ho) & _).
  apply filter_new; [old_rows Ho|]. new_rows. intros x r (text & _ & ->). by apply bool_decide_eq_true.
Qed.
Lemma reread_resources salt s : s.(db) = added rows d →
  ∃ l, listResources salt version s = (Ok l, s) ∧ l ≡ₚ map (shown_resource version) definition.(EnvironmentDefinition.Resources).
Proof.
  intros Hs. unfold listResources. rewrite read_runs, Hs, new_resources_only.
  destruct (saved_rows _ _ _ Hsaved) as (_ & _ & _ & Hre & _).
  eapply rows_listed_map; [exact Hre| |apply order_by_perm].
  intros x r _ (text & M & ->). unfold scan_resource. cbn. by rewrite (metadata_read _ _ M).
Qed.

Lemma reread_relations salt s : s.(db) = added rows d →
  ∃ l, listResourceRelations salt version s = (Ok l, s) ∧
    l ≡ₚ map (shown_relation version) definition.(EnvironmentDefinition.Relations).
Proof.
  intros Hs. unfold listResourceRelations. rewrite read_runs, Hs.
  destruct (saved_rows _ _ _ Hsaved) as (_ & _ & _ & _ & _ & Hrl & _).
  destruct (saved_before _ _ _ Hsaved) as (_ & _ & _ & _ & _ & _ & _ & _ & (_ & Ho) & _). cbn.
  rewrite filter_new; [|old_rows Ho|new_rows; intros x r (text & _ & ->); by apply bool_decide_eq_true].
  eapply rows_listed_map; [exact Hrl| |apply order_by_perm].
  intros x r _ (text & M & ->). unfold scan_relation. cbn. by rewrite (metadata_read _ _ M).
Qed.

Lemma reread_runtimes salt s : s.(db) = added rows d →
  ∃ l, listRuntimes salt version s = (Ok l, s) ∧
    l ≡ₚ map (shown_runtime version) definition.(EnvironmentDefinition.Runtimes).
Proof.
  intros Hs. unfold listRuntimes. rewrite read_runs, Hs.
  destruct (saved_rows _ _ _ Hsaved) as (_ & _ & Hrt & _).
  destruct (saved_before _ _ _ Hsaved) as (_ & _ & _ & _ & (_ & _ & Ho) & _).
  destruct (saved_after _ _ _ Hsaved) as (_ & _ & _ & _ & _ & (Hcaps & _) & _).
  rewrite (filter_new _ d.(DB.runtimes) (map fst rows.(new_runtimes))); [|old_rows Ho|].
  2: { apply Forall_map. new_rows. intros x r (text & c & _ & _ & ->). by apply bool_decide_eq_true. }
  rewrite scan_rows_map.
  eapply (rows_listed_map (λ x r, ∃ p, runtime_stored version x p ∧ p ∈ rows.(new_runtimes) ∧ r = p.1));
    [|intros x r _ (p & (text & c & M & Mc & ->) & Hp & ->)|apply order_by_perm].
  - apply Forall2_fmap_r. eapply Forall2_impl; [exact (Forall2_in _ _ _ Hrt)|]. intros x p [??]. by exists p.
  - cbv beta. set (row := (runtime_row version x text, _)).
    change (EnvironmentRuntime.ID (columns row.1)) with x.(EnvironmentRuntime.ID).
    assert (find_row fst x.(EnvironmentRuntime.ID) (added rows d).(DB.runtime_capabilities) =
      Some (x.(EnvironmentRuntime.ID), c)) as ->.
    { apply (find_row_in fst (x.(EnvironmentRuntime.ID), c)); [exact Hcaps|]. apply elem_of_app. right.
      change (x.(EnvironmentRuntime.ID), c) with (snd row). by apply list_elem_of_fmap_2. }
    destruct (capabilities_read _ _ Mc) as [Hne Hc]. cbn. rewrite (metadata_read _ _ M). cbn.
    by rewrite bool_decide_false, Hc by done.
Qed.

Lemma reread_connections salt s : s.(db) = added rows d →
  ∃ l cs, ListConnections salt id s = (Ok l, s) ∧ l ≡ₚ cs ∧
    Forall2 (λ c c', ∃ t, c' = shown_connection id c t) definition.(EnvironmentDefinition.Connections) cs.
Proof.
  intros Hs. unfold ListConnections. rewrite read_runs, Hs.
  destruct (saved_rows _ _ _ Hsaved) as (Hcs & _). pose proof (saved_connections _ _ _ Hsaved) as Ho. cbn.
  rewrite filter_new; cycle 1.
  - eapply Forall_impl; [exact Ho|]. intros r Hr. by apply bool_decide_eq_false.
  - new_rows. intros x r (t & text & _ & ->). by apply bool_decide_eq_true.
  - edestruct (rows_listed (connection_stored id) scan_connection (λ c c', ∃ t, c' = shown_connection id c t)
      definition.(EnvironmentDefinition.Connections) rows.(new_connections)) as (l & cs & E & Hl & Hf);
      [exact Hcs| |apply order_by_perm|unfold eret; rewrite E; by exists l, cs].
    intros x r _ (t & text & M & ->). unfold scan_connection. cbn. rewrite (metadata_read _ _ M).
    eexists. split; [reflexivity|]. by exists t.
Qed.

Lemma resources_in_new : resources_in version (added rows d) = map Resource.ID definition.(EnvironmentDefinition.Resources).
Proof.
  unfold resources_in. rewrite new_resources_only. destruct (saved_rows _ _ _ Hsaved) as (_ & _ & _ & Hre & _).
  induction Hre as [|x r xs rs (text & _ & ->) Hre IH]; [done|]. simpl. by rewrite IH.
Qed.
Lemma resource_new x : x ∈ map Resource.ID definition.(EnvironmentDefinition.Resources) → x ∉ resource_ids d.
Proof.
  destruct (saved_after _ _ _ Hsaved) as (_ & _ & _ & _ & _ & _ & [Hn _] & _).
  rewrite <- resources_in_new. unfold resources_in. rewrite new_resources_only.
  unfold resource_ids, added in Hn. cbn in Hn. rewrite map_app in Hn. apply NoDup_app in Hn as (_ & Hn & _).
  intros Hx Hx'. by apply (Hn x).
Qed.
Lemma not_resource x : x ∈ resource_ids d →
  bool_decide (x ∈ map Resource.ID definition.(EnvironmentDefinition.Resources)) = false.
Proof. intros Hx. apply bool_decide_eq_false. intros Hn. by apply resource_new in Hn. Qed.

(** Bindings and profiles of the definition's own resources. *)
Definition own_bindings_of : list ResourceRuntimeBinding :=
  List.filter (λ b, bool_decide (b.(ResourceRuntimeBinding.ResourceID) ∈
    map Resource.ID definition.(EnvironmentDefinition.Resources))) definition.(EnvironmentDefinition.RuntimeBindings).
Definition own_profiles_of : list ActivityResourceProfile :=
  List.filter (λ b, bool_decide (b.(ActivityResourceProfile.ResourceID) ∈
    map Resource.ID definition.(EnvironmentDefinition.Resources))) definition.(EnvironmentDefinition.Profiles).

Lemma reread_bindings salt s : s.(db) = added rows d →
  ∃ l, listRuntimeBindings salt version s = (Ok l, s) ∧ l ≡ₚ map shown_binding own_bindings_of.
Proof.
  intros Hs. unfold listRuntimeBindings. rewrite read_runs, Hs, resources_in_new.
  destruct (saved_rows _ _ _ Hsaved) as (_ & _ & _ & _ & Hb & _).
  destruct (saved_before _ _ _ Hsaved) as (_ & _ & _ & _ & _ & _ & _ & (_ & Ho) & _). cbn.
  rewrite List.filter_app, filter_out_app.
  - eapply rows_listed_map; [|  |apply order_by_perm].
    { apply (Forall2_filter _ _ _ _ _ Hb). by intros x r (text & _ & ->). }
    intros x r _ (text & M & ->). unfold scan_binding. cbn. by rewrite (metadata_read _ _ M).
  - eapply Forall_impl; [exact Ho|]. intros r [Hr _]. by apply not_resource.
Qed.
Lemma reread_profiles salt s : s.(db) = added rows d →
  ∃ l, listProfiles salt version s = (Ok l, s) ∧ l ≡ₚ map shown_profile own_profiles_of.
Proof.
  intros Hs. unfold listProfiles. rewrite read_runs, Hs, resources_in_new.
  destruct (saved_rows _ _ _ Hsaved) as (_ & _ & _ & _ & _ & _ & _ & Hb).
  destruct (saved_before _ _ _ Hsaved) as (_ & _ & _ & _ & _ & _ & _ & _ & _ & _ & _ & (_ & _ & Ho) & _). cbn.
  rewrite List.filter_app, filter_out_app.
  - eapply rows_listed_map; [|  |apply order_by_perm].
    { apply (Forall2_filter _ _ _ _ _ Hb). by intros x r (text & _ & ->). }
    intros x r _ (text & M & ->). unfold scan_profile. cbn. by rewrite (metadata_read _ _ M).
  - eapply Forall_impl; [exact Ho|]. intros r (_ & Hr & _). by apply not_resource.
Qed.
(** *** Checks *)
Lemma reread_checks salt s l : s.(db) = added rows d →
  Forall (λ c, ∃ x t, x ∈ definition.(EnvironmentDefinition.Connections) ∧ c = shown_connection id x t) l →
  list_checks salt l s = (Ok [], s).
Proof.
  intros Hs Hl. destruct (saved_rows _ _ _ Hsaved) as (Hcs & _).
  destruct (saved_before _ _ _ Hsaved) as (_ & _ & (_ & Ho) & _).
  destruct (saved_after _ _ _ Hsaved) as (_ & (Hn & _) & _).
  unfold connection_ids, added in Hn. cbn in Hn. rewrite map_app in Hn. apply NoDup_app in Hn as (_ & Hn & _).
  induction Hl as [|c l (x & t & Hx & ->) Hl IH]; cbn [list_checks]; [done|].
  unfold ListConnectionChecks at 1, ebindr at 1. rewrite read_runs. unfold eret at 1.
  assert (newest_checks salt (EnvironmentConnection.ID (shown_connection id x t)) 20 (db s) = []) as E.
  { unfold newest_checks. rewrite Hs. cbn. rewrite <- (app_nil_r (DB.connection_checks d)), filter_new; [|..].
    - pose proof (order_by_perm (Row ConnectionCheck) (λ a b, b.(columns).(ConnectionCheck.CheckedAt) <=?
        a.(columns).(ConnectionCheck.CheckedAt)) salt []) as Hp. apply Permutation_nil_r in Hp. by rewrite Hp.
    - eapply Forall_impl; [exact Ho|]. cbn beta. intros r [Hr _]. apply bool_decide_eq_false. intros E.
      apply (Hn _ Hr). rewrite E. clear -Hcs Hx. induction Hcs as [|x' r' xs rs (t' & text & _ & ->) Hcs IH];
        [by apply not_elem_of_nil in Hx|]. cbn [map]. apply elem_of_cons in Hx as [-> | Hx]; [by left|right; auto].
    - constructor. }
  cbv zeta. cbn [Z.leb Z.ltb orb Z.compare Pos.compare Pos.compare_cont].
  rewrite E. cbn [scan_rows]. unfold ebindr. by rewrite IH.
Qed.

(** *** Storages *)
Definition shown_storage_binding (b : StorageRuntimeBinding) : StorageRuntimeBinding :=
  (defaulted_path b) <| StorageRuntimeBinding.Configuration := decoded b.(StorageRuntimeBinding.Configuration) |>.
Definition shown_storage (x : StorageResource) (bs : list StorageRuntimeBinding) : StorageResource :=
  (storage_columns version x)
    <| StorageResource.Configuration := decoded x.(StorageResource.Configuration) |>
    <| StorageResource.Metadata := decoded x.(StorageResource.Metadata) |>
    <| StorageResource.RuntimeBindings := bs |>.
Definition bound (xs : list StorageResource) : list (StorageResource * StorageRuntimeBinding) :=
  flat_map (λ x, map (pair x) x.(StorageResource.RuntimeBindings)) xs.
Definition to_runtime (rt : string) (p : StorageResource * StorageRuntimeBinding) : bool :=
  bool_decide (p.2.(StorageRuntimeBinding.RuntimeID) = rt).
Definition pair_stored (rt : string) (p : StorageResource * StorageRuntimeBinding)
    (q : Stored StorageResource (string * string) * BindingRow) : Prop :=
  (∃ text text', marshal_metadata p.1.(StorageResource.Configuration) = Ok text ∧
    marshal_metadata p.1.(StorageResource.Metadata) = Ok text' ∧
    q.1 = mk_stored (storage_columns version p.1) (text, text')) ∧
  storage_binding_stored p.1.(StorageResource.ID) version p.2 q.2 ∧ p.2.(StorageRuntimeBinding.RuntimeID) = rt.

Lemma storage_binding_fields storageID versionID y b : storage_binding_stored storageID versionID y b →
  b.(BindingRow.storage_resource_id) = storageID ∧ b.(BindingRow.environment_version_id) = versionID ∧
  b.(BindingRow.binding).(columns).(StorageRuntimeBinding.RuntimeID) = y.(StorageRuntimeBinding.RuntimeID).
Proof. intros (text & _ & ->). cbn. unfold defaulted_path. by case_bool_decide. Qed.

(** The bindings of one storage among those of all. *)
Lemma own_bindings (p : BindingRow → bool) xs rs x r :
  Forall2 (storage_stored version) xs rs → NoDup (map StorageResource.ID xs) → (x, r) ∈ zip xs rs →
  List.filter (λ b, bool_decide (b.(BindingRow.storage_resource_id) = x.(StorageResource.ID)) && p b)
    (concat (map snd rs)) = List.filter p r.2.
Proof.
  intros Hf. induction Hf as [|x' r' xs rs Hs Hf IH]; cbn [map zip concat]; [by intros _ ?%not_elem_of_nil|].
  intros [Hn Hd]%NoDup_cons Hin. rewrite List.filter_app.
  assert (∀ y q, storage_stored version y q → ∀ z, List.filter (λ b, bool_decide (b.(BindingRow.storage_resource_id) = z) && p b) q.2 =
    if bool_decide (y.(StorageResource.ID) = z) then List.filter p q.2 else []) as Hone.
  { intros y q (t & t' & _ & _ & _ & Hb) z. clear -Hb. induction Hb as [|b row bs rows' Hr Hb IH]; simpl; [by case_bool_decide|].
    apply storage_binding_fields in Hr as (-> & _). rewrite IH. by case_bool_decide. }
  rewrite (Hone _ _ Hs). cbn [zip zip_with] in Hin. apply elem_of_cons in Hin as [[= -> ->]|Hin].
  - rewrite bool_decide_true by done. assert (∀ y q, (y, q) ∈ zip xs rs → y.(StorageResource.ID) ≠ x'.(StorageResource.ID)) as Hne.
    { intros y q Hy E. apply Hn. rewrite <- E. apply list_elem_of_fmap_2.
      by apply elem_of_zip_l in Hy. }
    clear -Hone Hf Hne.
    induction Hf as [|y q xs rs Hs Hf IH]; cbn [map concat List.filter]; [by rewrite app_nil_r|].
    rewrite List.filter_app, (Hone _ _ Hs), bool_decide_false.
    + apply IH. intros ???. eapply Hne. by right.
    + eapply Hne. by left.
  - rewrite bool_decide_false; [by apply IH|]. intros E. apply Hn. rewrite E. apply list_elem_of_fmap_2.
    by apply elem_of_zip_l in Hin.
Qed.
Lemma storages_distinct : NoDup (map StorageResource.ID definition.(EnvironmentDefinition.Storages)) ∧
  ∀ x, x ∈ definition.(EnvironmentDefinition.Storages) → x.(StorageResource.ID) ∉ storage_ids d.
Proof.
  destruct (saved_after _ _ _ Hsaved) as (_ & _ & _ & _ & _ & _ & _ & _ & _ & [Hn _] & _).
  destruct (saved_rows _ _ _ Hsaved) as (_ & _ & _ & _ & _ & _ & Hst & _).
  unfold storage_ids, added in Hn. cbn in Hn. rewrite map_app, map_map in Hn.
  apply NoDup_app in Hn as (_ & Ho & Hn).
  assert (map (λ r, r.1.(columns).(StorageResource.ID)) rows.(new_storages) =
    map StorageResource.ID definition.(EnvironmentDefinition.Storages)) as E.
  { clear -Hst. induction Hst as [|x r xs rs (t & t' & _ & _ & Hr & _) Hst IH]; [done|]. simpl. by rewrite IH, Hr. }
  rewrite E in Hn, Ho. split; [done|]. intros x Hx Hin. apply (Ho _ Hin). by apply list_elem_of_fmap_2.
Qed.

Lemma pairs_stored rt x r (p : BindingRow → bool) : storage_stored version x r →
  (∀ y b, storage_binding_stored x.(StorageResource.ID) version y b → p b = to_runtime rt (x, y)) →
  Forall2 (pair_stored rt) (List.filter (to_runtime rt) (map (pair x) x.(StorageResource.RuntimeBindings)))
    (map (pair r.1) (List.filter p r.2)).
Proof.
  intros (t & t' & M & M' & Hr & Hb) Hp. revert Hb. generalize x.(StorageResource.RuntimeBindings).
  intros l Hb. induction Hb as [|y b l bs Hy Hb IH]; simpl; [constructor|]. rewrite (Hp _ _ Hy).
  destruct (to_runtime rt (x, y)) eqn:E; [|done]. simpl. constructor; [|done].
  split; [by eexists _, _|]. split; [done|]. by apply bool_decide_eq_true in E.
Qed.

(** The bindings to a runtime, of a storage. *)
Definition bound_to (z rt : string) (b : BindingRow) : bool :=
  bool_decide (b.(BindingRow.storage_resource_id) = z) &&
  bool_decide (b.(BindingRow.binding).(columns).(StorageRuntimeBinding.RuntimeID) = rt).
Lemma version_bindings z rt :
  List.filter (λ b, bool_decide (b.(BindingRow.storage_resource_id) = z) &&
      bool_decide (b.(BindingRow.environment_version_id) = version) &&
      bool_decide (b.(BindingRow.binding).(columns).(StorageRuntimeBinding.RuntimeID) = rt))
    (added rows d).(DB.storage_runtime_bindings) =
  List.filter (bound_to z rt) (concat (map snd rows.(new_storages))).
Proof.
  destruct (saved_rows _ _ _ Hsaved) as (_ & _ & _ & _ & _ & _ & Hst & _).
  destruct (saved_before _ _ _ Hsaved) as (_ & _ & _ & _ & _ & _ & _ & _ & _ & (_ & _ & Hso) & (_ & _ & Hbo) & _).
  cbn. rewrite List.filter_app. replace (List.filter _ d.(DB.storage_runtime_bindings)) with (@nil BindingRow).
  - clear -Hst. induction Hst as [|x r xs rs (t & t' & _ & _ & _ & Hb) Hst IH]; [done|]. simpl.
    rewrite !List.filter_app. f_equal; [|exact IH]. clear -Hb. induction Hb as [|y b l bs Hy Hb IH]; [done|]. simpl.
    apply storage_binding_fields in Hy as (_ & E & _). unfold bound_to at 1.
    rewrite E, (bool_decide_true (version = version)), andb_true_r by done. by rewrite IH.
  - clear -Hbo Hso Hsaved. induction Hbo as [|b l [Hb _] Hbo IH]; [done|]. simpl.
    assert (bool_decide (b.(BindingRow.environment_version_id) = version) = false) as ->.
    { apply not_version. apply list_elem_of_fmap in Hb as (r & [= _ ->] & Hr).
      rewrite Forall_forall in Hso. by apply Hso. }
    by rewrite andb_false_r.
Qed.
Lemma old_storage_unbound r rt : r ∈ d.(DB.storages) →
  List.filter (bound_to r.(columns).(StorageResource.ID) rt) (concat (map snd rows.(new_storages))) = [].
Proof.
  destruct (saved_rows _ _ _ Hsaved) as (_ & _ & _ & _ & _ & _ & Hst & _). destruct storages_distinct as [_ Hnew].
  intros Hr. clear -Hst Hnew Hr. induction Hst as [|x q xs rs (t & t' & _ & _ & _ & Hb) Hst IH]; [done|]. simpl.
  rewrite List.filter_app, IH by (intros; apply Hnew; by right). rewrite app_nil_r.
  clear -Hb Hnew Hr. induction Hb as [|y b l bs Hy Hb IH]; [done|]. simpl. unfold bound_to at 1.
  apply storage_binding_fields in Hy as (-> & _). rewrite bool_decide_false; [done|].
  intros E. apply (Hnew x); [by left|]. rewrite E. unfold storage_ids.
  by apply (list_elem_of_fmap_2 (λ r, StorageResource.ID (columns r))).
Qed.

Lemma join_new rt : Forall2 (pair_stored rt)
  (List.filter (to_runtime rt) (bound definition.(EnvironmentDefinition.Storages)))
  (join_storages version rt (added rows d)).
Proof.
  destruct (saved_rows _ _ _ Hsaved) as (_ & _ & _ & _ & _ & _ & Hst & _). destruct storages_distinct as [Hnd _].
  unfold join_storages. erewrite flat_map_ext; [|intros r; rewrite version_bindings; reflexivity].
  change (DB.storages (added rows d)) with (d.(DB.storages) ++ map fst rows.(new_storages)). rewrite flat_map_app.
  pose proof (λ r, old_storage_unbound r rt) as Hold. revert Hold.
  induction d.(DB.storages) as [|r l IH]; intros Hold; cbn [flat_map].
  2: { rewrite Hold by (by left). apply IH. intros ??. apply Hold. by right. }
  clear Hold. cbn [app]. unfold bound.
  assert (∀ x r, (x, r) ∈ zip definition.(EnvironmentDefinition.Storages) rows.(new_storages) → storage_stored version x r →
    Forall2 (pair_stored rt) (List.filter (to_runtime rt) (map (pair x) x.(StorageResource.RuntimeBindings)))
      (map (pair r.1) (List.filter (bound_to r.1.(columns).(StorageResource.ID) rt)
        (concat (map snd rows.(new_storages)))))) as Hone.
  { intros x r Hin Hs. assert (r.1.(columns).(StorageResource.ID) = x.(StorageResource.ID)) as ->
      by (by destruct Hs as (? & ? & _ & _ & -> & _)).
    unfold bound_to. rewrite (own_bindings _ _ _ _ _ Hst Hnd Hin). apply pairs_stored; [done|].
    intros y b Hy. unfold to_runtime. apply storage_binding_fields in Hy as (_ & _ & ->). done. }
  revert Hone. generalize (concat (map snd rows.(new_storages))). intros all Hone. clear -Hone Hst.
  induction Hst as [|x r xs rs Hs Hst IH]; [constructor|]. cbn [flat_map map]. rewrite List.filter_app.
  apply Forall2_app; [by apply Hone; [left|]|]. apply IH. intros ???. apply Hone. by right.
Qed.
Definition single (p : StorageResource * StorageRuntimeBinding) : StorageResource :=
  shown_storage p.1 [shown_storage_binding p.2].
Lemma reread_runtime_storages salt rt s : s.(db) = added rows d →
  ∃ l, ListRuntimeStorages salt version rt s = (Ok l, s) ∧
    l ≡ₚ map single (List.filter (to_runtime rt) (bound definition.(EnvironmentDefinition.Storages))).
Proof.
  intros Hs. unfold ListRuntimeStorages. rewrite read_runs, Hs.
  eapply rows_listed_map; [apply join_new| |apply order_by_perm].
  intros [x y] [r b] _ ((t & t' & M & M' & Hr) & (tb & Mb & Hb) & <-). cbn in *. subst r b. cbn.
  rewrite (metadata_read _ _ M), (metadata_read _ _ M'), (metadata_read _ _ Mb). unfold single. cbn.
  unfold shown_storage, shown_storage_binding, defaulted_path. by destruct x, y; cbn; case_bool_decide.
Qed.
Lemma reread_collected salt s rts items : s.(db) = added rows d →
  ∃ vs, collect_storages salt version items rts s = (Ok (foldl add_storage items vs), s) ∧
    vs ≡ₚ map single (flat_map (λ rt, List.filter (to_runtime rt.(EnvironmentRuntime.ID))
      (bound definition.(EnvironmentDefinition.Storages))) rts).
Proof.
  intros Hs. revert items. induction rts as [|rt rts IH]; intros items; cbn [collect_storages flat_map]; [by exists []|].
  destruct (reread_runtime_storages salt rt.(EnvironmentRuntime.ID) s Hs) as (l & E & Hl).
  destruct (IH (foldl add_storage items l)) as (vs & E' & Hvs). exists (l ++ vs). split.
  - unfold ebindr. by rewrite E, E', foldl_app.
  - by rewrite map_app, Hl, Hvs.
Qed.

(** The values of a list, sorted by a key that takes each of the rows_listed values once. *)
Lemma partition_perm {A} (key : A → string) (ks : list string) (l : list A) :
  NoDup ks → (∀ x, x ∈ l → key x ∈ ks) →
  flat_map (λ k, List.filter (λ x, bool_decide (key x = k)) l) ks ≡ₚ l.
Proof.
  intros Hk. induction l as [|x l IH]; intros Hl.
  { clear. induction ks as [|k ks IH]; [done|exact IH]. }
  etrans; [|apply perm_skip, IH; intros; apply Hl; by right].
  assert (key x ∈ ks) as Hx by (apply Hl; by left). clear IH Hl. induction Hk as [|k ks Hn Hk IH];
    [by apply not_elem_of_nil in Hx|]. cbn [flat_map List.filter]. apply elem_of_cons in Hx as [<- | Hx].
  - rewrite bool_decide_true by done. cbn [app]. do 2 f_equiv.
    clear -Hn. induction ks as [|k ks IH]; [done|]. apply not_elem_of_cons in Hn as [Hne Hn]. cbn [flat_map List.filter].
    by rewrite bool_decide_false, IH.
  - rewrite bool_decide_false by (intros <-; done). rewrite IH by done. by rewrite Permutation_middle.
Qed.

(** The storages of a loop over values that share everything but their bindings. *)
Lemma add_storage_lookup vs k : foldl add_storage ∅ vs !! k =
  match List.filter (λ v, bool_decide (v.(StorageResource.ID) = k)) vs with
  | [] => None
  | v :: rest => Some (v <| StorageResource.RuntimeBindings :=
      concat (map StorageResource.RuntimeBindings (v :: rest)) |>)
  end.
Proof.
  induction vs as [|v vs IH] using rev_ind; [done|]. rewrite foldl_app, List.filter_app. cbn [foldl List.filter].
  unfold add_storage at 1. destruct (decide (v.(StorageResource.ID) = k)) as [<- | Hne].
  - rewrite bool_decide_true by done. rewrite IH. destruct (List.filter _ vs) as [|v' rest]; cbn [app].
    + rewrite lookup_insert_eq. cbn. rewrite app_nil_r. by destruct v.
    + rewrite lookup_insert_eq. f_equal. cbn. rewrite map_app, concat_app. cbn. by rewrite app_nil_r, app_assoc.
  - rewrite bool_decide_false by done. rewrite app_nil_r, <- IH.
    by destruct (foldl add_storage ∅ vs !! v.(StorageResource.ID)); rewrite lookup_insert_ne.
Qed.
Lemma filter_permutation {A} (p : A → bool) l l' : l ≡ₚ l' → List.filter p l ≡ₚ List.filter p l'.
Proof.
  intros Hp. induction Hp as [|x l l' Hp IH|x y l|l1 l2 l3 Hp1 IH1 Hp2 IH2]; cbn [List.filter].
  - done.
  - destruct (p x); [by constructor|done].
  - destruct (p x), (p y); [apply perm_swap|done..].
  - by etrans.
Qed.
Lemma bound_of xs x : NoDup (map StorageResource.ID xs) → x ∈ xs →
  List.filter (λ p, bool_decide (p.1.(StorageResource.ID) = x.(StorageResource.ID))) (bound xs) =
  map (pair x) x.(StorageResource.RuntimeBindings).
Proof.
  assert (∀ y z, List.filter (λ p, bool_decide (p.1.(StorageResource.ID) = z)) (map (pair y) y.(StorageResource.RuntimeBindings)) =
    if bool_decide (y.(StorageResource.ID) = z) then map (pair y) y.(StorageResource.RuntimeBindings) else []) as Hone.
  { intros y z. induction y.(StorageResource.RuntimeBindings) as [|b l IH]; simpl; [by case_bool_decide|].
    rewrite IH. by case_bool_decide. }
  unfold bound. induction xs as [|y xs IH]; cbn [map flat_map]; [by intros _ ?%not_elem_of_nil|].
  intros [Hn Hd]%NoDup_cons Hx. rewrite List.filter_app, Hone. apply elem_of_cons in Hx as [-> | Hx].
  - rewrite bool_decide_true by done. etrans; [|apply app_nil_r]. f_equal.
    clear IH Hd. induction xs as [|z xs IH]; [done|]. apply not_elem_of_cons in Hn as [Hne Hn]. cbn [flat_map].
    rewrite List.filter_app, Hone, bool_decide_false by congruence. auto.
  - rewrite bool_decide_false; [by apply IH|]. intros E. apply Hn. rewrite E. by apply list_elem_of_fmap_2.
Qed.
Lemma elem_of_bound x y xs : (x, y) ∈ bound xs ↔ x ∈ xs ∧ y ∈ x.(StorageResource.RuntimeBindings).
Proof.
  unfold bound. rewrite list_elem_of_In, in_flat_map. setoid_rewrite in_map_iff. setoid_rewrite <- list_elem_of_In.
  split; [by intros (z & Hz & b & [= -> ->] & Hb)|]. intros [Hx Hy]. exists x. split; [done|]. by exists y.
Qed.

(** The storages that are read back: those bound to a runtime, each once and with all its
    bindings. *)
Definition storages_shown (l : list StorageResource) : Prop :=
  NoDup (map StorageResource.ID l) ∧
  (∀ st, st ∈ l → ∃ x bs, x ∈ definition.(EnvironmentDefinition.Storages) ∧ x.(StorageResource.RuntimeBindings) ≠ [] ∧
     bs ≡ₚ map shown_storage_binding x.(StorageResource.RuntimeBindings) ∧ st = shown_storage x bs) ∧
  (∀ x, x ∈ definition.(EnvironmentDefinition.Storages) → x.(StorageResource.RuntimeBindings) ≠ [] →
     ∃ bs, bs ≡ₚ map shown_storage_binding x.(StorageResource.RuntimeBindings) ∧ shown_storage x bs ∈ l).

Lemma single_bindings x y bs : (single (x, y)) <| StorageResource.RuntimeBindings := bs |> = shown_storage x bs.
Proof. reflexivity. Qed.
Lemma collected_storage vs x : vs ≡ₚ map single (bound definition.(EnvironmentDefinition.Storages)) →
  x ∈ definition.(EnvironmentDefinition.Storages) →
  if bool_decide (x.(StorageResource.RuntimeBindings) = []) then foldl add_storage ∅ vs !! x.(StorageResource.ID) = None
  else ∃ bs, bs ≡ₚ map shown_storage_binding x.(StorageResource.RuntimeBindings) ∧
         foldl add_storage ∅ vs !! x.(StorageResource.ID) = Some (shown_storage x bs).
Proof.
  intros Hvs Hx. destruct storages_distinct as [Hnd _]. rewrite add_storage_lookup.
  apply (filter_permutation (λ v, bool_decide (v.(StorageResource.ID) = x.(StorageResource.ID)))) in Hvs.
  assert (List.filter (λ v, bool_decide (v.(StorageResource.ID) = x.(StorageResource.ID)))
    (map single (bound definition.(EnvironmentDefinition.Storages))) =
    map (λ y, single (x, y)) x.(StorageResource.RuntimeBindings)) as Hf.
  { rewrite <- (map_map (pair x) single), <- (bound_of _ _ Hnd Hx). clear.
    induction (bound _) as [|p l IH]; [done|]. cbn [map List.filter].
    change (StorageResource.ID (single p)) with p.1.(StorageResource.ID).
    case_bool_decide; cbn [map]; by rewrite IH. }
  rewrite Hf in Hvs. case_bool_decide as Hb.
  - rewrite Hb in Hvs. apply Permutation_nil_r in Hvs. by rewrite Hvs.
  - destruct (List.filter _ vs) as [|v rest].
    { apply Permutation_nil_l in Hvs. by destruct x.(StorageResource.RuntimeBindings). }
    assert (v ∈ map (λ y, single (x, y)) x.(StorageResource.RuntimeBindings)) as (y & -> & _)%list_elem_of_fmap.
    { rewrite <- Hvs. by left. }
    exists (concat (map StorageResource.RuntimeBindings (single (x, y) :: rest))). rewrite single_bindings. split; [|done].
    rewrite Hvs. clear. induction x.(StorageResource.RuntimeBindings); [done|]. simpl. by f_equiv.
Qed.
Lemma runtimes_distinct : NoDup (map EnvironmentRuntime.ID definition.(EnvironmentDefinition.Runtimes)).
Proof.
  destruct (saved_after _ _ _ Hsaved) as (_ & _ & _ & _ & (Hn & _) & _).
  destruct (saved_rows _ _ _ Hsaved) as (_ & _ & Hrt & _).
  unfold runtime_ids, added in Hn. cbn in Hn. rewrite map_app, map_map in Hn. apply NoDup_app in Hn as (_ & _ & Hn).
  enough (map (λ p, p.1.(columns).(EnvironmentRuntime.ID)) rows.(new_runtimes) =
    map EnvironmentRuntime.ID definition.(EnvironmentDefinition.Runtimes)) as E by (by rewrite E in Hn).
  clear -Hrt. induction Hrt as [|x r xs rs (t & c & _ & _ & ->) Hrt IH]; [done|]. simpl. by rewrite IH.
Qed.
Lemma binding_runtime x y : (x, y) ∈ bound definition.(EnvironmentDefinition.Storages) →
  y.(StorageRuntimeBinding.RuntimeID) ∈ map EnvironmentRuntime.ID definition.(EnvironmentDefinition.Runtimes).
Proof.
  destruct (saved_after _ _ _ Hsaved) as (_ & _ & _ & _ & _ & _ & _ & _ & _ & _ & (_ & _ & Hb) & _).
  destruct (saved_before _ _ _ Hsaved) as (_ & _ & _ & _ & (_ & _ & Hro) & _).
  destruct (saved_rows _ _ _ Hsaved) as (_ & _ & Hrt & _ & _ & _ & Hst & _).
  intros [Hx Hy]%elem_of_bound.
  assert (∃ b, b ∈ (added rows d).(DB.storage_runtime_bindings) ∧ storage_binding_stored x.(StorageResource.ID) version y b)
    as (b & Hin & (_ & Hv & Hr)%storage_binding_fields).
  { cbn. clear -Hst Hx Hy. induction Hst as [|x' r xs rs (t & t' & _ & _ & _ & Hs) Hst IH]; [by apply not_elem_of_nil in Hx|].
    cbn [map concat]. apply elem_of_cons in Hx as [<- | Hx].
    - clear -Hs Hy. induction Hs as [|y' b l bs Hb Hs IH]; [by apply not_elem_of_nil in Hy|].
      apply elem_of_cons in Hy as [-> | Hy]; [exists b; set_solver|]. destruct (IH Hy) as (b' & Hin & Hb'). exists b'. set_solver.
    - destruct (IH Hx) as (b & Hin & Hb). exists b. set_solver. }
  rewrite Forall_forall in Hb. destruct (Hb _ Hin) as [_ Hrow]. rewrite Hv, Hr in Hrow.
  apply list_elem_of_fmap in Hrow as (r & [= Er Ev] & Hrin). cbn in Hrin. apply elem_of_app in Hrin as [Hrin|Hrin].
  - rewrite Forall_forall in Hro. destruct (Hro _ Hrin) as [Ho _]. rewrite <- Ev in Ho. by apply version_new in Ho.
  - apply list_elem_of_fmap in Hrin as (p & -> & Hp). rewrite Er. clear -Hrt Hp.
    induction Hrt as [|x' r xs rs (t & c & _ & _ & ->) Hrt IH]; [by apply not_elem_of_nil in Hp|].
    cbn [map]. apply elem_of_cons in Hp as [-> | Hp]; [by left|right; auto].
Qed.

Lemma reread_storages salt s rts : s.(db) = added rows d →
  rts ≡ₚ map (shown_runtime version) definition.(EnvironmentDefinition.Runtimes) →
  ∃ l, listStorages salt version rts s = (Ok l, s) ∧ storages_shown l.
Proof.
  intros Hs Hrts. unfold listStorages, ebindr.
  destruct (reread_collected salt s rts ∅ Hs) as (vs & E & Hvs). rewrite E. unfold eret.
  assert (map EnvironmentRuntime.ID rts ≡ₚ map EnvironmentRuntime.ID definition.(EnvironmentDefinition.Runtimes)) as Hids.
  { by rewrite Hrts, map_map. }
  assert (flat_map (λ rt, List.filter (to_runtime rt.(EnvironmentRuntime.ID)) (bound definition.(EnvironmentDefinition.Storages))) rts
    ≡ₚ bound definition.(EnvironmentDefinition.Storages)) as Hpart.
  { etrans; [|apply (partition_perm (λ p, p.2.(StorageRuntimeBinding.RuntimeID)) (map EnvironmentRuntime.ID rts))].
    - clear. induction rts as [|rt rts IH]; [done|]. cbn [flat_map map]. by rewrite IH.
    - rewrite Hids. apply runtimes_distinct.
    - intros [x y] Hxy. rewrite Hids. by eapply binding_runtime. }
  rewrite Hpart in Hvs. set (items := foldl add_storage ∅ vs) in *.
  assert (∀ k st, items !! k = Some st → ∃ x bs, x ∈ definition.(EnvironmentDefinition.Storages) ∧
    x.(StorageResource.ID) = k ∧ x.(StorageResource.RuntimeBindings) ≠ [] ∧
    bs ≡ₚ map shown_storage_binding x.(StorageResource.RuntimeBindings) ∧ st = shown_storage x bs) as Hin.
  { intros k st Hk. pose proof Hk as Hk'. unfold items in Hk. rewrite add_storage_lookup in Hk.
    destruct (List.filter _ vs) as [|v rest] eqn:Ef; [done|].
    assert (v ∈ vs ∧ v.(StorageResource.ID) = k) as [Hv <-].
    { assert (In v (List.filter (λ v, bool_decide (v.(StorageResource.ID) = k)) vs)) as Hi by (rewrite Ef; by left).
      apply filter_In in Hi as [Hi Hb]. apply list_elem_of_In in Hi. by apply bool_decide_eq_true in Hb. }
    rewrite Hvs in Hv. apply list_elem_of_fmap in Hv as ([x y] & -> & [Hx Hy]%elem_of_bound). cbn in Hk'.
    pose proof (collected_storage vs x Hvs Hx) as Hc. fold items in Hc. case_bool_decide as Hb.
    - rewrite Hb in Hy. by apply not_elem_of_nil in Hy.
    - destruct Hc as (bs & Hp & Hl). change (StorageResource.ID (single (x, y))) with x.(StorageResource.ID) in Hk'.
      rewrite Hl in Hk'. injection Hk' as <-. by exists x, bs. }
  eexists. split; [reflexivity|]. split_and!.
  - assert (map StorageResource.ID (map snd (map_range salt items)) = map fst (map_range salt items)) as ->.
    { rewrite map_map. apply map_ext_in. intros [k st] Hk%list_elem_of_In. rewrite map_range_perm in Hk.
      apply elem_of_map_to_list, Hin in Hk as (x & bs & _ & <- & _ & _ & ->). done. }
    rewrite map_range_perm. apply NoDup_fst_map_to_list.
  - intros st ([k st'] & -> & Hk)%list_elem_of_fmap. rewrite map_range_perm in Hk.
    apply elem_of_map_to_list, Hin in Hk as (x & bs & Hx & _ & Hb & Hp & ->). by exists x, bs.
  - intros x Hx Hb. pose proof (collected_storage vs x Hvs Hx) as Hc. rewrite bool_decide_false in Hc by done.
    destruct Hc as (bs & Hp & Hl). exists bs. split; [done|]. apply list_elem_of_fmap. exists (x.(StorageResource.ID), shown_storage x bs).
    split; [done|]. rewrite map_range_perm. by apply elem_of_map_to_list.
Qed.
(** *** The whole definition *)
(** What [Find] gives back, up to the order of the lists. *)
Definition reread (environment : Environment) (found : EnvironmentDefinition) : Prop :=
  found.(EnvironmentDefinition.Environment) = environment ∧
  (∃ t, found.(EnvironmentDefinition.Version) = version_row id definition.(EnvironmentDefinition.Version) t) ∧
  (∃ cs, found.(EnvironmentDefinition.Connections) ≡ₚ cs ∧
     Forall2 (λ c c', ∃ t, c' = shown_connection id c t) definition.(EnvironmentDefinition.Connections) cs) ∧
  found.(EnvironmentDefinition.ConnectionChecks) = [] ∧
  found.(EnvironmentDefinition.Runtimes) ≡ₚ map (shown_runtime version) definition.(EnvironmentDefinition.Runtimes) ∧
  found.(EnvironmentDefinition.Resources) ≡ₚ map (shown_resource version) definition.(EnvironmentDefinition.Resources) ∧
  found.(EnvironmentDefinition.RuntimeBindings) ≡ₚ map shown_binding own_bindings_of ∧
  found.(EnvironmentDefinition.Relations) ≡ₚ map (shown_relation version) definition.(EnvironmentDefinition.Relations) ∧
  storages_shown found.(EnvironmentDefinition.Storages) ∧
  found.(EnvironmentDefinition.Profiles) ≡ₚ map shown_profile own_profiles_of.

Lemma saved_found salt s environment : s.(db) = added rows d →
  find_row Environment.ID id d.(DB.environments) = Some environment → version ≠ "" →
  ∃ found, Find salt id s = (Ok (Some found), s) ∧ reread environment found.
Proof.
  intros Hs He Hv. unfold Find. rewrite read_runs, Hs.
  change (DB.environments (added rows d)) with d.(DB.environments). rewrite He, read_runs, Hs.
  change (DB.versions (added rows d)) with (d.(DB.versions) ++ [rows.(new_version)]).
  destruct rows_version as [t Et]. rewrite filter_new; cycle 1.
  { eapply Forall_impl; [exact (saved_versions _ _ _ Hsaved)|]. intros v Hne. by apply bool_decide_eq_false. }
  { apply Forall_singleton. rewrite Et. by apply bool_decide_eq_true. }
  assert (order_by later_version salt [rows.(new_version)] = [rows.(new_version)]) as ->.
  { apply Permutation_singleton_r, order_by_perm. }
  cbn [head default]. rewrite Et.
  destruct (reread_connections salt s Hs) as (cl & cs & Ec & Hcl & Hcs). rewrite (ebindr_run _ _ _ _ _ Ec).
  assert (Forall (λ c, ∃ x t, x ∈ definition.(EnvironmentDefinition.Connections) ∧ c = shown_connection id x t) cl) as Hcl'.
  { rewrite Hcl. eapply (rows_all (λ x c, (∃ t, c = shown_connection id x t) ∧
        x ∈ definition.(EnvironmentDefinition.Connections))); [apply Forall2_flip, Forall2_in, Forall2_flip, Hcs|].
    intros x c [[t' ->] Hx]. by exists x, t'. }
  rewrite (ebindr_run _ _ _ _ _ (reread_checks salt s cl Hs Hcl')). cbv zeta.
  change (EnvironmentVersion.ID (version_row id definition.(EnvironmentDefinition.Version) t)) with version.
  rewrite bool_decide_false by done.
  destruct (reread_runtimes salt s Hs) as (rts & Ert & Hrt). rewrite (ebindr_run _ _ _ _ _ Ert).
  destruct (reread_resources salt s Hs) as (res & Ere & Hre). rewrite (ebindr_run _ _ _ _ _ Ere).
  destruct (reread_bindings salt s Hs) as (bs & Ebs & Hbs). rewrite (ebindr_run _ _ _ _ _ Ebs).
  destruct (reread_relations salt s Hs) as (rls & Erl & Hrl). rewrite (ebindr_run _ _ _ _ _ Erl).
  destruct (reread_storages salt s rts Hs Hrt) as (sts & Est & Hst). rewrite (ebindr_run _ _ _ _ _ Est).
  destruct (reread_profiles salt s Hs) as (ps & Eps & Hps). rewrite (ebindr_run _ _ _ _ _ Eps).
  eexists. split; [reflexivity|]. split_and!; try done; [by exists t|by exists cs].
Qed.
End saved.

Lemma deletions_run (wrap : error → error) l s s' :
  for_effr (λ '(st, f), let! r := change st f in
    eret (match r with Ok tt => Ok tt | Err e => Err (wrap e) end)) l s = (Ok tt, s') →
  s'.(db) = foldl (λ d p, p.2 d) s.(db) l.
Proof.
  revert s. induction l as [|[st f] l IH]; intros s; cbn [for_effr foldl]; [by intros [= <-]|].
  intros ([] & s1 & E & El)%ebindr_ok. apply ebind_ok in E as ([[]|e] & s2 & E & [= <-]).
  apply change_ok in E as [E _]. cbn [snd]. rewrite <- E. by apply IH.
Qed.

Lemma without_forall {R} ids (column : R → string) t : Forall (λ r, column r ∉ ids) (without ids column t).
Proof.
  apply Forall_forall. intros r Hr. apply list_elem_of_In, filter_In in Hr as [_ Hr].
  by apply negb_true_iff, bool_decide_eq_false in Hr.
Qed.

(** The body of [Create] on valid tables. *)
Lemma create_saved definition s s' : Valid s.(db) →
  ebindr (insertEnvironment definition) (λ _, insert_inventory definition) s = (Ok tt, s') →
  ∃ d rows t, saved definition d rows ∧ s'.(db) = added rows d ∧
    find_row Environment.ID definition.(EnvironmentDefinition.Environment).(Environment.ID) d.(DB.environments) =
    Some (environment_row definition.(EnvironmentDefinition.Environment) t).
Proof.
  intros Hv ([] & s1 & E1 & E)%ebindr_ok. unfold insertEnvironment, ebind, draw in E1.
  apply change_ok in E1 as [D1 V1]. cbn [db draws] in D1.
  pose proof (inventory_valid _ _ _ _ V1 E) as V2. apply inventory_added in E as (rows & Hrows & D2).
  rewrite D2 in V2. set (row := environment_row _ _) in D1.
  assert (row.(Environment.ID) = definition.(EnvironmentDefinition.Environment).(Environment.ID)) as Hid.
  { unfold row, environment_row. by case_bool_decide. }
  assert (row.(Environment.ID) ∉ environment_ids s.(db)) as Hnew.
  { destruct V1 as [Hn _]. unfold environments_ok, environment_ids in Hn. rewrite D1 in Hn. cbn in Hn.
    rewrite map_app in Hn. apply NoDup_app in Hn as (_ & Hn & _). intros Hin. apply (Hn _ Hin). by left. }
  exists s1.(db), rows, (now s.(draws)). split; [|split; [done|]].
  - split; [done..| |]; rewrite D1; cbn; rewrite <- Hid.
    + destruct Hv as (_ & (_ & _ & Hc) & _). eapply Forall_impl; [exact Hc|]. cbn beta; intros r Hr E. by rewrite E in Hr.
    + destruct Hv as (_ & _ & _ & (_ & _ & Hc) & _). eapply Forall_impl; [exact Hc|]. cbn beta; intros r Hr E. by rewrite E in Hr.
  - rewrite D1. cbn [DB.environments set_field]. rewrite find_row_app, <- Hid.
    destruct (find_row _ _ _) as [x|] eqn:F.
    + apply find_row_some in F as [Hx E]. exfalso. apply Hnew. rewrite <- E. by apply (list_elem_of_fmap_2 Environment.ID).
    + by rewrite (find_row_in Environment.ID row [row]) by (repeat constructor; set_solver).
Qed.

(** The tables after the deletions of [Replace] and [Delete]. *)
Definition emptied (id : string) d : DB := foldl (λ d p, p.2 d) d (inventory_deletions id).
Lemma emptied_environment id d :
  (emptied id d).(DB.environments) = d.(DB.environments) ∧
  (emptied id d).(DB.connections) = without [id] (λ r, r.(columns).(EnvironmentConnection.EnvironmentID)) d.(DB.connections) ∧
  (emptied id d).(DB.versions) = without [id] EnvironmentVersion.EnvironmentID d.(DB.versions).
Proof. split_and!; reflexivity. Qed.

(** The body of [Replace]. *)
Lemma replace_saved definition s s' :
  (let environment := definition.(EnvironmentDefinition.Environment) in
   let id := environment.(Environment.ID) in
   let? exists_ := query (λ d, bool_decide (id ∈ environment_ids d)) in
   if negb exists_ then eret (Err ErrNoRows)
   else
    let? _ := for_effr (λ '(st, f),
      let! r := change st f in
      eret (match r with
            | Ok tt => Ok tt
            | Err e => Err (errorf "environment %q cannot be replaced while it is in use: %w" [id; e])
            end)) (inventory_deletions id) in
    let? _ := change (Update "environments") (λ d, d <| DB.environments :=
      (update_rows Environment.ID id (λ row, row <| Environment.Name := environment.(Environment.Name) |>
         <| Environment.Description := environment.(Environment.Description) |>
         <| Environment.Status := environment.(Environment.Status) |>) d.(DB.environments)).1 |>) in
    insert_inventory definition) s = (Ok tt, s') →
  ∃ d rows t, saved definition d rows ∧ s'.(db) = added rows d ∧
    find_row Environment.ID definition.(EnvironmentDefinition.Environment).(Environment.ID) d.(DB.environments) =
    Some (definition.(EnvironmentDefinition.Environment) <| Environment.CreatedAt := t |>).
Proof.
  cbv zeta. set (environment := definition.(EnvironmentDefinition.Environment)). set (id := environment.(Environment.ID)).
  rewrite read_runs. case_bool_decide as Hid; cbn [negb]; [|done]. intros E.
  apply ebindr_ok in E as ([] & s1 & E1 & E). apply (deletions_run (λ e, errorf _ [id; e])) in E1.
  fold (emptied id s.(db)) in E1. destruct (emptied_environment id s.(db)) as (He & Hc & Hvs).
  apply ebindr_ok in E as ([] & s2 & E2 & E). apply change_ok in E2 as [D2 V2].
  pose proof (inventory_valid _ _ _ _ V2 E) as V3. apply inventory_added in E as (rows & Hrows & D3). rewrite D3 in V3.
  destruct (find_row Environment.ID id s.(db).(DB.environments)) as [old|] eqn:F; [|by apply find_row_none in F].
  exists s2.(db), rows, old.(Environment.CreatedAt). split; [|split; [done|]].
  - split; [done..| |]; rewrite D2; cbn [DB.connections DB.versions set_field]; rewrite E1, ?Hc, ?Hvs.
    + eapply Forall_impl; [apply without_forall|]. cbn beta. intros r Hr. set_solver.
    + eapply Forall_impl; [apply without_forall|]. cbn beta. intros r Hr. set_solver.
  - rewrite D2. cbn [DB.environments set_field]. rewrite find_row_update by done. rewrite bool_decide_true by done.
    rewrite E1, He, F. cbn. apply find_row_some in F as [_ Ho]. f_equal. unfold id in Ho.
    destruct old, environment. cbn in *. by subst.
Qed.

(** C11: Saving an environment is all or nothing, and what is saved can be read: when
    [Create] or [Replace] fails the tables are as before; when it succeeds, for a
    definition whose version has an identifier and an engine that answers queries, [Find]
    gives back the environment, its version, connections, runtimes, resources and
    relations under the identifiers they were given and with the defaults of the schema,
    the lists in some order and metadata as JSON gives it back; of the bindings and
    profiles it gives back exactly those of the definition's own resources, of the
    storages exactly those bound to a runtime, each with all its bindings, and it has no
    connection checks. *)
Theorem environment_round_trip salt definition save s r s' :
  save = Create definition ∨ save = Replace definition → Valid s.(db) → save s = (r, s') →
  match r with
  | Err _ => s'.(db) = s.(db)
  | Ok _ => definition.(EnvironmentDefinition.Version).(EnvironmentVersion.ID) ≠ "" →
    ∃ environment t found,
      Find salt definition.(EnvironmentDefinition.Environment).(Environment.ID) s' = (Ok (Some found), s') ∧
      (environment = environment_row definition.(EnvironmentDefinition.Environment) t ∨
       environment = definition.(EnvironmentDefinition.Environment) <| Environment.CreatedAt := t |>) ∧
      reread definition environment found
  end.
Proof.
  intros Hsave Hv E. destruct r as [[]|e]; [|destruct Hsave as [-> | ->]; by eapply transaction_atomic].
  intros Hne. destruct Hsave as [-> | ->]; apply transaction_ok in E.
  - destruct (create_saved _ _ _ Hv E) as (d & rows & t & Hs & D & He).
    destruct (saved_found _ _ _ Hs salt s' _ D He Hne) as (found & Hf & Hr). eexists _, t, found. eauto.
  - destruct (replace_saved _ _ _ E) as (d & rows & t & Hs & D & He).
    destruct (saved_found _ _ _ Hs salt s' _ D He Hne) as (found & Hf & Hr). eexists _, t, found. eauto.
Qed.
End reading.

(** ** Removal *)
Section removal.
Context `{Driver}.
Implicit Types (d : DB) (s : world).

Lemma query_reads {A} (f : DB → A) s a s' : query f s = (Ok a, s') → a = f s.(db) ∧ s'.(db) = s.(db).
Proof. intros [E _]%exec_ok. by injection E as <- <-. Qed.

Lemma dependencies_unused id l s s' :
  for_effr (λ '(name, used),
    let? exists_ := query used in
    eret (if exists_ : bool
          then Err (errorf "environment %q cannot be deleted because it is used by a %s" [id; name])
          else Ok tt)) l s = (Ok tt, s') → s'.(db) = s.(db).
Proof.
  revert s. induction l as [|[name used] l IH]; intros s; cbn [for_effr]; [by intros [= <-]|].
  intros ([] & s1 & E & El)%ebindr_ok. apply ebindr_ok in E as (b & s2 & [_ D]%query_reads & E).
  destruct b; [done|]. injection E as <-. by rewrite (IH _ El).
Qed.
Lemma changes_run l s s' : for_effr (λ '(st, f), change st f) l s = (Ok tt, s') →
  s'.(db) = foldl (λ d p, p.2 d) s.(db) l ∧ (l ≠ [] → Valid s'.(db)).
Proof.
  revert s. induction l as [|[st f] l IH]; intros s; cbn [for_effr foldl]; [by intros [= <-]|].
  intros ([] & s1 & [E V]%change_ok & El)%ebindr_ok. destruct (IH _ El) as [D Vl]. cbn [snd]. rewrite <- E.
  split; [done|]. intros _. destruct l; [by injection El as <-|by apply Vl].
Qed.

(** What belongs to an environment: its versions, and the resources, storages, runtimes and
    connections of these. *)
Definition owns_version (id : string) d (v : string) : Prop :=
  Exists (λ x, x.(EnvironmentVersion.ID) = v ∧ x.(EnvironmentVersion.EnvironmentID) = id) d.(DB.versions).
Definition owns_resource (id : string) d (r : string) : Prop :=
  Exists (λ x, x.(columns).(Resource.ID) = r ∧ owns_version id d x.(columns).(Resource.EnvironmentVersionID)) d.(DB.resources).
Definition owns_storage (id : string) d (z : string) : Prop :=
  Exists (λ x, x.(columns).(StorageResource.ID) = z ∧ owns_version id d x.(columns).(StorageResource.EnvironmentVersionID))
    d.(DB.storages).
Definition owns_runtime (id : string) d (r : string) : Prop :=
  Exists (λ x, x.(columns).(EnvironmentRuntime.ID) = r ∧ owns_version id d x.(columns).(EnvironmentRuntime.EnvironmentVersionID))
    d.(DB.runtimes).
Definition owns_connection (id : string) d (c : string) : Prop :=
  Exists (λ x, x.(columns).(EnvironmentConnection.ID) = c ∧ x.(columns).(EnvironmentConnection.EnvironmentID) = id)
    d.(DB.connections).
#[global] Instance owns_version_dec id d v : Decision (owns_version id d v).
Proof. unfold owns_version. apply _. Defined.
#[global] Instance owns_resource_dec id d r : Decision (owns_resource id d r).
Proof. unfold owns_resource. apply _. Defined.
#[global] Instance owns_storage_dec id d z : Decision (owns_storage id d z).
Proof. unfold owns_storage. apply _. Defined.
#[global] Instance owns_runtime_dec id d r : Decision (owns_runtime id d r).
Proof. unfold owns_runtime. apply _. Defined.
#[global] Instance owns_connection_dec id d c : Decision (owns_connection id d c).
Proof. unfold owns_connection. apply _. Defined.
(** A nullable reference to something that [P] holds of. *)
Definition points (P : string → Prop) (o : option string) : Prop := match o with Some x => P x | None => False end.
#[global] Instance points_dec P `{∀ x, Decision (P x)} o : Decision (points P o).
Proof. destruct o; simpl; apply _. Defined.

(** The database without an environment: every table without the rows that belong to the
    environment or refer to what does, in the order they were, and the tables of what was
    planned, executed, transferred or simulated as they are. *)
Definition without_environment (id : string) d : DB :=
  let version := owns_version id d in
  let resource := owns_resource id d in
  let storage := owns_storage id d in
  let runtime := owns_runtime id d in
  let o := d.(DB.others) in
  {| DB.environments := base.filter (λ x, x.(Environment.ID) ≠ id) d.(DB.environments);
     DB.connections := base.filter (λ x, x.(columns).(EnvironmentConnection.EnvironmentID) ≠ id) d.(DB.connections);
     DB.connection_checks :=
       base.filter (λ x, ¬ owns_connection id d x.(columns).(ConnectionCheck.ConnectionID)) d.(DB.connection_checks);
     DB.versions := base.filter (λ x, x.(EnvironmentVersion.EnvironmentID) ≠ id) d.(DB.versions);
     DB.runtimes := base.filter (λ x, ¬ version x.(columns).(EnvironmentRuntime.EnvironmentVersionID)) d.(DB.runtimes);
     DB.runtime_capabilities := base.filter (λ x, ¬ runtime x.1) d.(DB.runtime_capabilities);
     DB.resources := base.filter (λ x, ¬ version x.(columns).(Resource.EnvironmentVersionID)) d.(DB.resources);
     DB.resource_runtime_bindings :=
       base.filter (λ x, ¬ runtime x.(columns).(ResourceRuntimeBinding.RuntimeID) ∧
         ¬ resource x.(columns).(ResourceRuntimeBinding.ResourceID)) d.(DB.resource_runtime_bindings);
     DB.resource_relations :=
       base.filter (λ x, ¬ resource x.(columns).(ResourceRelation.TargetResourceID) ∧
         ¬ resource x.(columns).(ResourceRelation.SourceResourceID) ∧
         ¬ version x.(columns).(ResourceRelation.EnvironmentVersionID)) d.(DB.resource_relations);
     DB.storages := base.filter (λ x, ¬ version x.(columns).(StorageResource.EnvironmentVersionID)) d.(DB.storages);
     DB.storage_runtime_bindings :=
       base.filter (λ x, ¬ version x.(BindingRow.environment_version_id) ∧
         ¬ runtime x.(BindingRow.binding).(columns).(StorageRuntimeBinding.RuntimeID) ∧
         ¬ storage x.(BindingRow.storage_resource_id)) d.(DB.storage_runtime_bindings);
     DB.profiles := base.filter (λ x, ¬ resource x.(columns).(ActivityResourceProfile.ResourceID)) d.(DB.profiles);
     DB.others := o
       <| Others.resource_snapshots := base.filter (λ r, ¬ resource r) o.(Others.resource_snapshots) |>
       <| Others.discovery_runs := base.filter (λ v, ¬ version v) o.(Others.discovery_runs) |>
       <| Others.storage_download_runs := base.filter (λ z, ¬ storage z) o.(Others.storage_download_runs) |>
       <| Others.storage_index_runs := base.filter (λ z, ¬ storage z) o.(Others.storage_index_runs) |>
       <| Others.artifact_materializations :=
            base.filter (λ m, ¬ points version m.2 ∧ ¬ resource m.1) o.(Others.artifact_materializations) |>
       <| Others.transfer_endpoints :=
            base.filter (λ e, ¬ points (λ x, x = id) e.2 ∧ ¬ points resource e.1) o.(Others.transfer_endpoints) |> |}.

(** What keeps an environment from being deleted, under the name [Delete] gives it. *)
Definition used_by (id : string) d (name : string) : Prop :=
  let version := owns_version id d in
  let resource := owns_resource id d in
  let o := d.(DB.others) in
  name = "execution scope" ∧ Exists version o.(Others.execution_scope_environments) ∨
  name = "network topology" ∧ Exists (λ l, resource l.1 ∨ resource l.2) o.(Others.network_links) ∨
  name = "schedule plan" ∧ Exists resource o.(Others.schedule_plan_assignments) ∨
  name = "execution data" ∧
    Exists (λ l, points resource l.2 ∨ points (owns_storage id d) l.1) o.(Others.data_locations) ∨
  name = "transfer observation" ∧ Exists (λ l, resource l.1 ∨ resource l.2) o.(Others.data_transfer_observations) ∨
  name = "console activity" ∧
    (Exists resource o.(Others.console_commands) ∨ Exists resource o.(Others.console_sessions)) ∨
  name = "simulation scenario" ∧ Exists version o.(Others.simulation_scenarios).
(** An execution is not looked for: only the references of its tables keep it. *)
Definition executed_on (id : string) d : Prop :=
  Exists (λ t, owns_resource id d t.1) d.(DB.others).(Others.task_executions) ∨
  Exists (owns_resource id d) d.(DB.others).(Others.activity_handles).

(** The code's subqueries select what is owned. *)
Lemma version_owned id d v : v ∈ versions_of id d ↔ owns_version id d v.
Proof.
  unfold versions_of, owns_version. rewrite list_elem_of_fmap, Exists_exists.
  setoid_rewrite list_elem_of_In. setoid_rewrite filter_In. setoid_rewrite bool_decide_eq_true. naive_solver.
Qed.
Lemma owned {R} id d (key version : R → string) t x :
  x ∈ map key (List.filter (λ r, in_version (versions_of id d) (version r)) t) ↔
  Exists (λ r, key r = x ∧ owns_version id d (version r)) t.
Proof.
  rewrite list_elem_of_fmap, Exists_exists. setoid_rewrite list_elem_of_In. setoid_rewrite filter_In.
  unfold in_version. setoid_rewrite bool_decide_eq_true. setoid_rewrite version_owned. naive_solver.
Qed.
Lemma connection_owned id d x : x ∈ map (λ r, r.(columns).(EnvironmentConnection.ID))
    (List.filter (λ r, bool_decide (r.(columns).(EnvironmentConnection.EnvironmentID) = id)) d.(DB.connections)) ↔
  owns_connection id d x.
Proof.
  unfold owns_connection. rewrite list_elem_of_fmap, Exists_exists.
  setoid_rewrite list_elem_of_In. setoid_rewrite filter_In. setoid_rewrite bool_decide_eq_true. naive_solver.
Qed.

(** A deletion as a filter. *)
Lemma filter_kept {R} (keep : R → bool) (P : R → Prop) `{∀ r, Decision (P r)} (t : list R) :
  (∀ r, keep r = true ↔ P r) → List.filter keep t = base.filter P t.
Proof.
  intros HP. induction t as [|r t IH]; simpl; [done|]. rewrite filter_cons, IH.
  destruct (keep r) eqn:E; case_decide as Hr; [done| | |done].
  - by apply HP in E.
  - apply HP in Hr. congruence.
Qed.
Lemma without_kept {R} ids (column : R → string) (P : R → Prop) `{∀ r, Decision (P r)} (t : list R) :
  (∀ r, P r ↔ column r ∉ ids) → without ids column t = base.filter P t.
Proof. intros HP. apply filter_kept. intros r. by rewrite negb_true_iff, bool_decide_eq_false, HP. Qed.
Lemma without_null_kept {R} ids (column : R → option string) (P : R → Prop) `{∀ r, Decision (P r)} (t : list R) :
  (∀ r, P r ↔ ¬ points (λ x, x ∈ ids) (column r)) → without_null ids column t = base.filter P t.
Proof.
  intros HP. apply filter_kept. intros r. rewrite HP. destruct (column r) as [x|]; simpl; [|naive_solver].
  by rewrite negb_true_iff, bool_decide_eq_false.
Qed.
Lemma without_filter {R} ids (column : R → string) t :
  without ids column t = base.filter (λ r, column r ∉ ids) t.
Proof. by apply without_kept. Qed.
Lemma without_null_filter {R} ids (column : R → option string) t :
  without_null ids column t = base.filter (λ r, ¬ points (λ x, x ∈ ids) (column r)) t.
Proof. by apply without_null_kept. Qed.
Lemma kept_twice {R} (P Q S : R → Prop) `{∀ r, Decision (P r), ∀ r, Decision (Q r), ∀ r, Decision (S r)} (t : list R) :
  (∀ r, S r ↔ P r ∧ Q r) → base.filter P (base.filter Q t) = base.filter S t.
Proof. intros HS. rewrite list_filter_filter. apply list_filter_iff. naive_solver. Qed.
Lemma points_iff (P Q : string → Prop) o : (∀ x, P x ↔ Q x) → points P o ↔ points Q o.
Proof. intros HP. by destruct o; simpl. Qed.
Lemma DB_eq d d' :
  d.(DB.environments) = d'.(DB.environments) → d.(DB.connections) = d'.(DB.connections) →
  d.(DB.connection_checks) = d'.(DB.connection_checks) → d.(DB.versions) = d'.(DB.versions) →
  d.(DB.runtimes) = d'.(DB.runtimes) → d.(DB.runtime_capabilities) = d'.(DB.runtime_capabilities) →
  d.(DB.resources) = d'.(DB.resources) → d.(DB.resource_runtime_bindings) = d'.(DB.resource_runtime_bindings) →
  d.(DB.resource_relations) = d'.(DB.resource_relations) → d.(DB.storages) = d'.(DB.storages) →
  d.(DB.storage_runtime_bindings) = d'.(DB.storage_runtime_bindings) → d.(DB.profiles) = d'.(DB.profiles) →
  d.(DB.others) = d'.(DB.others) → d = d'.
Proof. destruct d, d'. simpl. by intros -> -> -> -> -> -> -> -> -> -> -> -> ->. Qed.

Lemma resource_owned id d x : x ∈ resources_of id d ↔ owns_resource id d x.
Proof. apply (owned id d (λ r, r.(columns).(Resource.ID)) (λ r, r.(columns).(Resource.EnvironmentVersionID))). Qed.
Lemma storage_owned id d x : x ∈ storages_of id d ↔ owns_storage id d x.
Proof. apply (owned id d (λ r, r.(columns).(StorageResource.ID)) (λ r, r.(columns).(StorageResource.EnvironmentVersionID))). Qed.
Definition runtimes_of (id : string) d : list string := map (λ r, r.(columns).(EnvironmentRuntime.ID))
  (List.filter (λ r, in_version (versions_of id d) r.(columns).(EnvironmentRuntime.EnvironmentVersionID)) d.(DB.runtimes)).
Lemma runtime_owned id d x : x ∈ runtimes_of id d ↔ owns_runtime id d x.
Proof.
  apply (owned id d (λ r, r.(columns).(EnvironmentRuntime.ID)) (λ r, r.(columns).(EnvironmentRuntime.EnvironmentVersionID))).
Qed.

(** What the statements leave of each table, one after the other. *)
Definition deleted_tables (id : string) d : DB :=
  let V := versions_of id d in let R := resources_of id d in
  let Z_ := storages_of id d in let T := runtimes_of id d in
  let o := d.(DB.others) in
  {| DB.environments := without [id] Environment.ID d.(DB.environments);
     DB.connections := without [id] (λ r, r.(columns).(EnvironmentConnection.EnvironmentID)) d.(DB.connections);
     DB.connection_checks := without (map (λ r, r.(columns).(EnvironmentConnection.ID))
       (List.filter (λ r, bool_decide (r.(columns).(EnvironmentConnection.EnvironmentID) = id)) d.(DB.connections)))
       (λ r, r.(columns).(ConnectionCheck.ConnectionID)) d.(DB.connection_checks);
     DB.versions := without [id] EnvironmentVersion.EnvironmentID d.(DB.versions);
     DB.runtimes := without V (λ r, r.(columns).(EnvironmentRuntime.EnvironmentVersionID)) d.(DB.runtimes);
     DB.runtime_capabilities := without T fst d.(DB.runtime_capabilities);
     DB.resources := without V (λ r, r.(columns).(Resource.EnvironmentVersionID)) d.(DB.resources);
     DB.resource_runtime_bindings := without T (λ r, r.(columns).(ResourceRuntimeBinding.RuntimeID))
       (without R (λ r, r.(columns).(ResourceRuntimeBinding.ResourceID)) d.(DB.resource_runtime_bindings));
     DB.resource_relations := without R (λ r, r.(columns).(ResourceRelation.TargetResourceID))
       (without R (λ r, r.(columns).(ResourceRelation.SourceResourceID))
         (without V (λ r, r.(columns).(ResourceRelation.EnvironmentVersionID)) d.(DB.resource_relations)));
     DB.storages := without V (λ r, r.(columns).(StorageResource.EnvironmentVersionID)) d.(DB.storages);
     DB.storage_runtime_bindings := without V BindingRow.environment_version_id
       (without T (λ b, b.(BindingRow.binding).(columns).(StorageRuntimeBinding.RuntimeID))
         (without Z_ BindingRow.storage_resource_id d.(DB.storage_runtime_bindings)));
     DB.profiles := without R (λ r, r.(columns).(ActivityResourceProfile.ResourceID)) d.(DB.profiles);
     DB.others := o
       <| Others.resource_snapshots := without R (λ r, r) o.(Others.resource_snapshots) |>
       <| Others.discovery_runs := without V (λ r, r) o.(Others.discovery_runs) |>
       <| Others.storage_download_runs := without Z_ (λ r, r) o.(Others.storage_download_runs) |>
       <| Others.storage_index_runs := without Z_ (λ r, r) o.(Others.storage_index_runs) |>
       <| Others.artifact_materializations :=
            without_null V snd (without R fst o.(Others.artifact_materializations)) |>
       <| Others.transfer_endpoints := without_null [id] snd (without_null R fst o.(Others.transfer_endpoints)) |> |}.
Lemma deletions_tables id d : delete_environment id (emptied id d) = deleted_tables id d.
Proof. reflexivity. Qed.

Lemma tables_without id d : deleted_tables id d = without_environment id d.
Proof.
  pose proof (version_owned id d) as Hv. pose proof (resource_owned id d) as Hr.
  pose proof (storage_owned id d) as Hz. pose proof (runtime_owned id d) as Ht.
  pose proof (connection_owned id d) as Hc.
  assert (∀ x, x ∈ [id] ↔ x = id) as Hid by (intros x; apply list_elem_of_singleton).
  unfold deleted_tables, without_environment. cbv zeta.
  generalize dependent (versions_of id d). intros V Hv. generalize dependent (resources_of id d). intros R Hr.
  generalize dependent (storages_of id d). intros Z_ Hz. generalize dependent (runtimes_of id d). intros T Ht.
  apply DB_eq; cbn [DB.environments DB.connections DB.connection_checks DB.versions DB.runtimes DB.runtime_capabilities
    DB.resources DB.resource_runtime_bindings DB.resource_relations DB.storages DB.storage_runtime_bindings DB.profiles DB.others].
  - apply without_kept. intros r. by rewrite Hid.
  - apply without_kept. intros r. by rewrite Hid.
  - apply without_kept. intros r. by rewrite Hc.
  - apply without_kept. intros r. by rewrite Hid.
  - apply without_kept. intros r. by rewrite Hv.
  - apply without_kept. intros r. by rewrite Ht.
  - apply without_kept. intros r. by rewrite Hv.
  - rewrite !without_filter. apply kept_twice. intros r. by rewrite Ht, Hr.
  - rewrite !without_filter, list_filter_filter. apply kept_twice. intros r. rewrite !Hr, Hv. tauto.
  - apply without_kept. intros r. by rewrite Hv.
  - rewrite !without_filter, list_filter_filter. apply kept_twice. intros r. rewrite Hv, Ht, Hz. tauto.
  - apply without_kept. intros r. by rewrite Hr.
  - assert (∀ t, without_null V snd (without R fst t) =
      base.filter (λ m, ¬ points (owns_version id d) m.2 ∧ ¬ owns_resource id d m.1) t) as ->.
    { intros t. rewrite without_null_filter, without_filter. apply kept_twice.
      intros m. by rewrite Hr, (points_iff _ _ _ Hv). }
    assert (∀ t, without_null [id] snd (without_null R fst t) =
      base.filter (λ e, ¬ points (λ x, x = id) e.2 ∧ ¬ points (owns_resource id d) e.1) t) as ->.
    { intros t. rewrite !without_null_filter. apply kept_twice.
      intros e. by rewrite (points_iff _ _ _ Hr), (points_iff _ _ _ Hid). }
    rewrite (without_kept R _ (λ r, ¬ owns_resource id d r)) by (intros; by rewrite Hr).
    rewrite (without_kept V _ (λ r, ¬ owns_version id d r)) by (intros; by rewrite Hv).
    rewrite !(without_kept Z_ _ (λ r, ¬ owns_storage id d r)) by (intros; by rewrite Hz).
    done.
Qed.

(** The queries find exactly what keeps the environment. *)
Lemma existsb_Exists {A} (p : A → bool) (P : A → Prop) l : (∀ x, p x = true ↔ P x) → existsb p l = true ↔ Exists P l.
Proof.
  intros HP. rewrite existsb_exists, Exists_exists. setoid_rewrite <- list_elem_of_In. by setoid_rewrite HP.
Qed.
Lemma points_true (p : string → bool) (P : string → Prop) o : (∀ x, p x = true ↔ P x) →
  match o with Some x => p x | None => false end = true ↔ points P o.
Proof. intros HP. by destruct o; simpl. Qed.
Lemma dependencies_spec id d name :
  used_by id d name ↔ ∃ used, (name, used) ∈ dependencies id ∧ used d = true.
Proof.
  assert (∀ v, in_version (versions_of id d) v = true ↔ owns_version id d v) as Hv.
  { intros v. unfold in_version. by rewrite bool_decide_eq_true, version_owned. }
  assert (∀ r, bool_decide (r ∈ resources_of id d) = true ↔ owns_resource id d r) as Hr.
  { intros r. by rewrite bool_decide_eq_true, resource_owned. }
  assert (∀ z, bool_decide (z ∈ storages_of id d) = true ↔ owns_storage id d z) as Hz.
  { intros z. by rewrite bool_decide_eq_true, storage_owned. }
  assert (∀ l : string * string, bool_decide (l.1 ∈ resources_of id d) || bool_decide (l.2 ∈ resources_of id d) = true ↔
    owns_resource id d l.1 ∨ owns_resource id d l.2) as Hl.
  { intros l. by rewrite orb_true_iff, !Hr. }
  assert (∀ l : option string * option string,
    match l.2 with Some x => bool_decide (x ∈ resources_of id d) | None => false end ||
    match l.1 with Some x => bool_decide (x ∈ storages_of id d) | None => false end = true ↔
    points (owns_resource id d) l.2 ∨ points (owns_storage id d) l.1) as Hd.
  { intros l. by rewrite orb_true_iff, (points_true _ _ _ Hr), (points_true _ _ _ Hz). }
  unfold used_by, dependencies. cbv zeta. setoid_rewrite elem_of_cons. setoid_rewrite elem_of_cons.
  setoid_rewrite elem_of_cons. setoid_rewrite elem_of_cons. setoid_rewrite elem_of_cons. setoid_rewrite elem_of_cons.
  setoid_rewrite elem_of_cons. setoid_rewrite elem_of_nil.
  rewrite <- !(existsb_Exists _ _ _ Hv), <- !(existsb_Exists _ _ _ Hr), <- !(existsb_Exists _ _ _ Hl).
  rewrite <- (existsb_Exists _ _ _ Hd), <- orb_true_iff. split.
  - intros [[-> E]|[[-> E]|[[-> E]|[[-> E]|[[-> E]|[[-> E]|[-> E]]]]]]]; eexists;
      (split; [repeat (first [left; reflexivity|right; try reflexivity])|exact E]).
  - intros (used & Hin & E).
    repeat (destruct Hin as [[= -> ->]|Hin]; [repeat (first [left; by split|right; try by split])|]). done.
Qed.

Lemma dependencies_checked id l s s' :
  for_effr (λ '(name, used),
    let? exists_ := query used in
    eret (if exists_ : bool
          then Err (errorf "environment %q cannot be deleted because it is used by a %s" [id; name])
          else Ok tt)) l s = (Ok tt, s') → ∀ name used, (name, used) ∈ l → used s.(db) = false.
Proof.
  revert s. induction l as [|[name used] l IH]; intros s; cbn [for_effr]; [by intros _ ? ? ?%elem_of_nil|].
  intros ([] & s1 & E & El)%ebindr_ok. apply ebindr_ok in E as (b & s2 & [Hb D]%query_reads & E).
  destruct b; [done|]. injection E as <-. intros n u [[= -> ->]|Hin]%elem_of_cons; [done|].
  rewrite <- D. by eapply IH.
Qed.
Lemma dependencies_refused id l s : (∀ d, refuse Select d = None) →
  (∃ name used, (name, used) ∈ l ∧ used s.(db) = true) →
  ∃ name used, (name, used) ∈ l ∧ used s.(db) = true ∧
    for_effr (λ '(name, used),
      let? exists_ := query used in
      eret (if exists_ : bool
            then Err (errorf "environment %q cannot be deleted because it is used by a %s" [id; name])
            else Ok tt)) l s =
      (Err (errorf "environment %q cannot be deleted because it is used by a %s" [id; name]), s).
Proof.
  intros Hq. induction l as [|[name used] l IH]; [by intros (? & ? & ?%elem_of_nil & _)|].
  cbn [for_effr]. assert (query used s = (Ok (used s.(db)), s)) as E.
  { unfold query, exec. rewrite Hq. by destruct s. }
  intros (n & u & Hin & Hu). unfold ebindr at 1 2. rewrite E. destruct (used s.(db)) eqn:Eu.
  - exists name, used. split; [by left|]. done.
  - destruct IH as (n' & u' & Hin' & Hu' & El).
    { exists n, u. split; [|done]. apply elem_of_cons in Hin as [[= -> ->]|?]; [congruence|done]. }
    exists n', u'. split; [by right|]. split; [done|]. exact El.
Qed.

Lemma deleted_resource id d x : Valid d → owns_resource id d x → x ∉ resource_ids (without_environment id d).
Proof.
  intros (_ & _ & _ & _ & _ & _ & (Hn & _) & _) (y & Hy & <- & Hown)%Exists_exists.
  unfold resource_ids. intros (z & E & [Hv Hz]%list_elem_of_filter)%list_elem_of_fmap. apply Hv.
  assert (y = z) as <-; [|done].
  by apply (NoDup_key (λ r, r.(columns).(Resource.ID)) d.(DB.resources)).
Qed.
Lemma deleted_unexecuted id d : Valid d → Valid (without_environment id d) → ¬ executed_on id d.
Proof.
  intros Hv (_ & _ & _ & _ & _ & _ & _ & _ & _ & _ & _ & _ & Ho). unfold others_ok in Ho. cbv zeta in Ho.
  rewrite !Forall_app, !Forall_forall in Ho. destruct Ho as (_ & (_ & Ha & _) & _ & Ht & _).
  intros [(t & Hin & Hown)%Exists_exists|(r & Hin & Hown)%Exists_exists].
  - apply (deleted_resource _ _ _ Hv Hown). by destruct (Ht t).
  - apply (deleted_resource _ _ _ Hv Hown). by apply Ha.
Qed.

(** C13: An environment is deleted only when nothing depends on it, and then as a whole. When
    [Delete] fails the tables are as before. When it succeeds, the environment was there,
    no execution scope or scenario had one of its versions, no network, plan, transfer,
    console entry or stored location had one of its resources or storages, no task or
    handle had run on one of its resources, and the database is the one before without the
    environment: every table has lost exactly the rows that belong to the environment or
    refer to what does, and what was planned, executed, transferred or simulated is as it
    was, and every reference leads somewhere. When the engine answers, deleting an unknown
    environment reports that there are no rows, and deleting one that is in use reports
    one of its uses by name. *)
Theorem delete_guarded id s r s' : Valid s.(db) → Delete id s = (r, s') →
  match r with
  | Err _ => s'.(db) = s.(db)
  | Ok _ => id ∈ environment_ids s.(db) ∧ (∀ name, ¬ used_by id s.(db) name) ∧ ¬ executed_on id s.(db) ∧
      s'.(db) = without_environment id s.(db) ∧ Valid s'.(db)
  end ∧
  ((∀ d, refuse BeginTx d = None ∧ refuse Select d = None) →
   (id ∉ environment_ids s.(db) → r = Err ErrNoRows) ∧
   (id ∈ environment_ids s.(db) → (∃ name, used_by id s.(db) name) → ∃ name, used_by id s.(db) name ∧
      r = Err (errorf "environment %q cannot be deleted because it is used by a %s" [id; name]))).
Proof.
  intros Hv E. split.
  - destruct r as [[]|e]; [|by eapply transaction_atomic].
    apply transaction_ok in E. apply ebindr_ok in E as (b & s1 & [-> D1]%query_reads & E).
    case_bool_decide as Hid; [|done]. cbn [negb] in E. apply ebindr_ok in E as ([] & s2 & Ec & E).
    pose proof (dependencies_checked _ _ _ _ Ec) as Hunused. apply dependencies_unused in Ec as D2.
    apply changes_run in E as [D3 V3]. rewrite foldl_app in D3. cbn [foldl snd] in D3.
    fold (emptied id s2.(db)) in D3. rewrite D2, D1, deletions_tables, tables_without in D3.
    specialize (V3 ltac:(done)). rewrite D1 in Hunused. split; [done|]. split.
    { intros name (used & Hin & Hu)%dependencies_spec. by rewrite (Hunused _ _ Hin) in Hu. }
    split; [|done]. rewrite D3 in V3. by apply deleted_unexecuted.
  - intros Hq. assert (∀ d, refuse Select d = None) as Hs by (intros d; apply Hq).
    unfold Delete, in_transaction, transaction in E. rewrite (proj1 (Hq _)) in E.
    unfold ebindr at 1 in E. unfold query at 1, exec at 1 in E. rewrite Hs in E.
    replace (mk_session s.(db) s.(draws)) with s in E by (by destruct s). split.
    + intros Hid. rewrite bool_decide_false in E by done. by injection E as <- _.
    + intros Hid (name & (used & Hin & Hu)%dependencies_spec). rewrite bool_decide_true in E by done.
      destruct (dependencies_refused id (dependencies id) s Hs) as (n & u & Hin' & Hu' & El); [by eauto|].
      cbn [negb] in E. unfold ebindr at 1 in E. rewrite El in E. exists n.
      split; [apply dependencies_spec; eauto|]. by injection E as <- _.
Qed.
End removal.

(** ** The history of a connection *)
Section checks.
Context `{Driver, JSON, SqlOrder}.
Implicit Types (d : DB) (s : world).

Definition checks_of (connectionID : string) d : list (Row ConnectionCheck) :=
  List.filter (λ r, bool_decide (r.(columns).(ConnectionCheck.ConnectionID) = connectionID)) d.(DB.connection_checks).
Definition newer (x y : Row ConnectionCheck) : bool :=
  y.(columns).(ConnectionCheck.CheckedAt) <=? x.(columns).(ConnectionCheck.CheckedAt).
Definition check_id (r : Row ConnectionCheck) : string := r.(columns).(ConnectionCheck.ID).

(** Keeping the keys of one part of a list keeps that part. *)
Lemma filter_part {A K} `{EqDecision K} (key : A → K) l part rest :
  NoDup (map key l) → l ≡ₚ rest ++ part →
  List.filter (λ x, bool_decide (key x ∈ map key part)) l ≡ₚ part.
Proof.
  intros Hn Hp. rewrite (fmap_Permutation key _ _ Hp) in Hn.
  rewrite (filter_permutation _ _ _ Hp). rewrite fmap_app in Hn. apply NoDup_app in Hn as (_ & Hd & _).
  rewrite filter_new; [done|..]; apply Forall_forall; intros x Hx.
  - apply bool_decide_eq_false. apply Hd. by apply (list_elem_of_fmap_2 key).
  - apply bool_decide_eq_true. by apply (list_elem_of_fmap_2 key).
Qed.
Lemma filter_and {A} (p q : A → bool) l : List.filter p (List.filter q l) = List.filter (λ x, p x && q x) l.
Proof.
  induction l as [|x l IH]; [done|]. cbn [List.filter]. destruct (q x) eqn:Q; cbn [List.filter].
  - rewrite IH, andb_true_r. done.
  - by rewrite IH, andb_false_r.
Qed.
Lemma pruned_others salt id c d : c ≠ id → checks_of c (prune_checks salt id d) = checks_of c d.
Proof.
  intros Hc. unfold checks_of, prune_checks. cbn [DB.connection_checks set_field]. rewrite filter_and.
  apply List.filter_ext. intros r. case_bool_decide as E; [|done]. by rewrite bool_decide_false by congruence.
Qed.
Lemma pruned_own salt id d : checks_of id (prune_checks salt id d) =
  List.filter (λ r, bool_decide (check_id r ∈ map check_id (newest_checks salt id 1000 d))) (checks_of id d).
Proof.
  unfold checks_of, prune_checks. cbn [DB.connection_checks set_field]. rewrite !filter_and.
  apply List.filter_ext. intros r. rewrite andb_comm. case_bool_decide; cbn [andb negb]; [|by rewrite andb_false_r].
  by rewrite negb_involutive, !andb_true_r.
Qed.
(** The 1000 newest of the checks are kept. *)
Lemma pruned_newest salt id d : NoDup (map check_id (checks_of id d)) →
  ∃ dropped, checks_of id d ≡ₚ dropped ++ checks_of id (prune_checks salt id d) ∧
    length (checks_of id (prune_checks salt id d)) = (1000 `min` length (checks_of id d))%nat ∧
    ∀ x y, x ∈ checks_of id (prune_checks salt id d) → y ∈ dropped → newer x y = true.
Proof.
  intros Hn. rewrite pruned_own. unfold newest_checks. fold (checks_of id d).
  pose proof (order_by_perm _ newer salt (checks_of id d)) as Hp.
  pose proof (order_by_sorted _ newer salt (checks_of id d)) as Hs.
  unfold limit_offset. change (Z.to_nat 0) with 0%nat. rewrite drop_0.
  change (λ a b : Row ConnectionCheck, _) with newer.
  set (n := Z.to_nat 1000) in *. set (o := order_by newer salt (checks_of id d)) in *.
  assert (checks_of id d ≡ₚ drop n o ++ take n o) as Hd.
  { rewrite <- Hp. by rewrite Permutation_app_comm, take_drop. }
  pose proof (filter_part check_id _ _ _ Hn Hd) as Hk. exists (drop n o).
  rewrite Hk. split; [done|]. split.
  - rewrite length_take, Hp. reflexivity.
  - intros x y Hx Hy. rewrite Hk in Hx. eapply (sorted_cut (λ a b, newer a b = true)); [apply Hs|done..].
    + intros a b. unfold newer. lia.
    + intros a b c. unfold newer. lia.
Qed.
Lemma checks_distinct id d : Valid d → NoDup (map check_id (checks_of id d)).
Proof.
  intros (_ & _ & (Hn & _) & _). eapply sublist_NoDup; [exact Hn|]. apply fmap_sublist, list_filter_sublist.
Qed.

(** The history of a connection is bounded, and it is the recent one: when
    [SaveConnectionCheck] fails the tables are as before; when it succeeds, of the checks
    of the connection and the new one at most 1000 are kept (all of them, when they are
    not more), none of those dropped is newer than one kept, and the checks of the other
    connections are as they were. *)
Theorem checks_bounded salt check s r s' : SaveConnectionCheck salt check s = (r, s') →
  match r with
  | Err _ => s'.(db) = s.(db)
  | Ok _ => ∃ new dropped,
    new.(columns) = check <| ConnectionCheck.Metadata := ∅ |> ∧
    marshal_metadata check.(ConnectionCheck.Metadata) = Ok new.(json) ∧
    let id := check.(ConnectionCheck.ConnectionID) in
    let before := checks_of id s.(db) ++ [new] in
    let after := checks_of id s'.(db) in
    before ≡ₚ dropped ++ after ∧ length after = (1000 `min` length before)%nat ∧
    (∀ x y, x ∈ after → y ∈ dropped → newer x y = true) ∧
    ∀ c, c ≠ id → checks_of c s'.(db) = checks_of c s.(db)
  end.
Proof.
  unfold SaveConnectionCheck. intros E. unfold ebindr, eret in E.
  destruct (marshal_metadata check.(ConnectionCheck.Metadata)) as [text|e] eqn:M; [|by injection E as <- <-].
  destruct r as [[]|e]; [|by eapply transaction_atomic]. apply transaction_ok in E.
  apply ebindr_ok in E as ([] & s1 & [D1 V1]%change_ok & [D2 _]%change_ok).
  set (id := check.(ConnectionCheck.ConnectionID)) in *. set (new := mk_stored _ text) in D1.
  assert (checks_of id s1.(db) = checks_of id s.(db) ++ [new]) as E1.
  { rewrite D1. unfold checks_of. cbn [DB.connection_checks set_field]. rewrite List.filter_app.
    cbn [List.filter]. by rewrite bool_decide_true. }
  destruct (pruned_newest salt id _ (checks_distinct id _ V1)) as (dropped & Hp & Hl & Hs).
  exists new, dropped. cbv zeta. fold id. rewrite <- E1, D2. split_and!; [done..|].
  intros c Hc. rewrite pruned_others by done. rewrite D1. unfold checks_of. cbn [DB.connection_checks set_field].
  rewrite List.filter_app. cbn [List.filter]. rewrite bool_decide_false, app_nil_r; [done|]. by apply not_eq_sym.
Qed.
End checks.

(** ** A concrete database *)
Module Example.
#[local] Instance driver : Driver := {|
  refuse _ _ := None; constraint_error _ _ := "constraint failed"; now n := Z.of_nat n + 1
|}.
Definition bit (b : bool) : Ascii.ascii := if b then "1"%char else "0"%char.
Lemma bit_read b : Ascii.eqb (bit b) "1"%char = b.
Proof. by destruct b. Qed.
#[local] Instance codec : JSON := {|
  marshal_metadata m := match map_to_list m with [] => Ok "{}" | _ => Err "json: unsupported value" end;
  unmarshal_metadata _ := Ok ∅;
  marshal_capabilities c :=
    Ok (String (bit c.(Capabilities.Batch)) (String (bit c.(Capabilities.Interactive))
       (String (bit c.(Capabilities.Container)) (String (bit c.(Capabilities.Serverless))
       (String (bit c.(Capabilities.GPU)) (String (bit c.(Capabilities.MPI))
       (String (bit c.(Capabilities.SharedStorage)) (String (bit c.(Capabilities.DataStaging))
       (String (bit c.(Capabilities.Cancellation)) (String (bit c.(Capabilities.LogStreaming))
       (String (bit c.(Capabilities.Simulation)) "")))))))))));
  unmarshal_capabilities t :=
    let on n := match String.get n t with Some c => Ascii.eqb c "1"%char | None => false end in
    Ok (Capabilities.mk (on 0%nat) (on 1%nat) (on 2%nat) (on 3%nat) (on 4%nat) (on 5%nat) (on 6%nat) (on 7%nat)
          (on 8%nat) (on 9%nat) (on 10%nat))
|}.
#[local] Instance codec_laws : JSONLaws.
Proof.
  split with (decoded := λ _, ∅).
  - done.
  - intros [] t [= <-]. split; [done|]. cbn [unmarshal_capabilities codec String.get]. cbv zeta. by rewrite !bit_read.
Defined.

Definition runtime : EnvironmentRuntime := {|
  EnvironmentRuntime.EnvironmentVersionID := ""; EnvironmentRuntime.ID := "k8s"; EnvironmentRuntime.Name := "Kubernetes";
  EnvironmentRuntime.Driver := RuntimeDriverKubernetes; EnvironmentRuntime.Mode := RuntimeModeExecution;
  EnvironmentRuntime.Role := ""; EnvironmentRuntime.Configuration := ∅;
  EnvironmentRuntime.Capabilities := (zero : Capabilities) <| Capabilities.Container := true |> |}.
Definition resource (id name : string) (parent : option string) : Resource :=
  (zero : Resource) <| Resource.ID := id |> <| Resource.Name := name |> <| Resource.ProviderID := id |>
    <| Resource.ParentResourceID := parent |>.
Definition storage (id : string) (bindings : list StorageRuntimeBinding) : StorageResource :=
  (zero : StorageResource) <| StorageResource.ID := id |> <| StorageResource.Name := id |>
    <| StorageResource.Type_ := StoragePVC |> <| StorageResource.RuntimeBindings := bindings |>.
Definition mounted : StorageRuntimeBinding :=
  (zero : StorageRuntimeBinding) <| StorageRuntimeBinding.RuntimeID := "k8s" |> <| StorageRuntimeBinding.Default := true |>.
Definition connection : EnvironmentConnection :=
  (zero : EnvironmentConnection) <| EnvironmentConnection.ID := "c" |> <| EnvironmentConnection.Name := "api" |>
    <| EnvironmentConnection.Type_ := ConnectionKubernetes |>.
Definition given (resources : list Resource) (storages : list StorageResource) : EnvironmentDefinition :=
  (zero : EnvironmentDefinition)
    <| EnvironmentDefinition.Environment := Environment.mk "e" "lab" "" (EnvironmentStatusOther "") 0 |>
    <| EnvironmentDefinition.Version := (zero : EnvironmentVersion) <| EnvironmentVersion.ID := "v" |>
         <| EnvironmentVersion.Version := 1 |> |>
    <| EnvironmentDefinition.Runtimes := [runtime] |> <| EnvironmentDefinition.Resources := resources |>
    <| EnvironmentDefinition.RuntimeBindings := [ResourceRuntimeBinding.mk "n" "k8s" true ∅] |>
    <| EnvironmentDefinition.Storages := storages |> <| EnvironmentDefinition.Connections := [connection] |>.
Definition definition : EnvironmentDefinition :=
  given [resource "z" "zone" None; resource "n" "node" (Some "z")] [storage "pvc" [mounted]].

Definition other_tables : Others := Others.mk [] [] [] [] [] [] [] [] [] [] [] [] [] [] [] [] [].
Definition start : world := mk_session (DB.mk [] [] [] [] [] [] [] [] [] [] [] [] other_tables) 0.
Definition after : world := (Create definition start).2.

Lemma environment_round_trip_witness : ∃ environment t found,
  Find 0 "e" after = (Ok (Some found), after) ∧
  (environment = environment_row definition.(EnvironmentDefinition.Environment) t ∨
   environment = definition.(EnvironmentDefinition.Environment) <| Environment.CreatedAt := t |>) ∧
  reread definition environment found.
Proof.
  refine (environment_round_trip (λ _, eq_refl) 0 definition (Create definition) start (Ok tt) after
    (or_introl eq_refl) _ _ _).
  - apply (bool_decide_eq_true_1 _). vm_compute. reflexivity.
  - vm_compute. reflexivity.
  - done.
Defined.

(** The same environment, in use by a plan. *)
Definition planned : world := mk_session (after.(db) <| DB.others :=
  other_tables <| Others.schedule_plan_assignments := ["n"] |> |>) 9.
Lemma delete_guarded_witness :
  (Delete "e" planned).1 = Err (errorf "environment %q cannot be deleted because it is used by a %s" ["e"; "schedule plan"]) ∧
  let deleted := (Delete "e" after).2 in deleted.(db) = without_environment "e" after.(db) ∧ Valid deleted.(db).
Proof.
  split.
  - destruct (proj2 (delete_guarded "e" planned (Delete "e" planned).1 (Delete "e" planned).2
      ltac:(apply (bool_decide_eq_true_1 _); by vm_compute) (surjective_pairing _)) ltac:(done)) as [_ Hused].
    destruct Hused as (name & _ & E).
    + apply (bool_decide_eq_true_1 _). by vm_compute.
    + exists "schedule plan". right. right. left. split; [reflexivity|]. apply (bool_decide_eq_true_1 _). by vm_compute.
    + vm_compute. reflexivity.
  - refine (proj2 (proj2 (proj2 (proj1 (delete_guarded "e" after (Ok tt) (Delete "e" after).2 _ _))))).
    + apply (bool_decide_eq_true_1 _). by vm_compute.
    + by vm_compute.
Defined.

Definition checked (id : string) (t : Time) : ConnectionCheck :=
  ConnectionCheck.mk id "c" ConnectionOnline "" f0 t ∅.
Definition history_of (times : list Z) : world :=
  mk_session (after.(db) <| DB.connection_checks := map (λ t, mk_stored (checked (itoa t) t) "{}") times |>) 9.
Lemma checks_bounded_witness : let s := history_of (map Z.of_nat (seq 0 3)) in
  let s' := (SaveConnectionCheck 0 (checked "new" 2000) s).2 in
  length (checks_of "c" s'.(db)) = 4%nat ∧
  ∃ new dropped, checks_of "c" s.(db) ++ [new] ≡ₚ dropped ++ checks_of "c" s'.(db) ∧
    ∀ x y, x ∈ checks_of "c" s'.(db) → y ∈ dropped → newer x y = true.
Proof.
  intros s s'. destruct (checks_bounded 0 (checked "new" 2000) s (Ok tt) s') as (new & dropped & _ & _ & H1).
  - by vm_compute.
  - cbv zeta in H1. destruct H1 as (Hp & Hl & Hs & _). split; [|exact (ex_intro _ new (ex_intro _ dropped (conj Hp Hs)))].
    refine (eq_trans Hl _). rewrite length_app. vm_compute. reflexivity.
Defined.

(** A storage that is bound to no runtime is stored, and never read again: the
    environment that is read, saved as it is, loses it. *)
Definition loose : world :=
  (Create (given definition.(EnvironmentDefinition.Resources) [storage "pvc" [mounted]; storage "bucket" []]) start).2.
Lemma unbound_storage_lost : storage_ids loose.(db) = ["pvc"; "bucket"] ∧
  match Find 0 "e" loose with
  | (Ok (Some found), s) =>
    map StorageResource.ID found.(EnvironmentDefinition.Storages) = ["pvc"] ∧
    let '(r, s') := Replace (found <| EnvironmentDefinition.Resources := definition.(EnvironmentDefinition.Resources) |>) s in
    r = Ok tt ∧ storage_ids s'.(db) = ["pvc"]
  | _ => False
  end.
Proof. by vm_compute. Qed.

(** The resources are inserted in the order they are given and read in the order of
    their names: an environment that was read cannot be saved when a resource comes
    before its parent. *)
Lemma reread_resources_refused :
  match Find 0 "e" after with
  | (Ok (Some found), s) =>
    map Resource.ID found.(EnvironmentDefinition.Resources) = ["n"; "z"] ∧
    (Replace found s).1 = Err "constraint failed"
  | _ => False
  end.
Proof. by vm_compute. Qed.
End Example.
End EnvironmentRepository.
