(* ===== verification/Console.v ===== *)
(** * The console (src/internal/application/console, src/internal/infrastructure/database/console)

    [CommandController] runs one command on a resource and keeps a record of it;
    [TerminalController] keeps interactive sessions, whose output is read by one goroutine
    per session and sent to the browsers attached to it. The interleavings of these
    goroutines are the steps of a transition system; a step ends where a lock is released
    or a call returns. *)

From S2P Require Import Prelude GoStrings GoFloat Domain Ports Monitor Discovery.

(** ** ports/console.go and what the controllers use of the catalogs *)
Class ConsoleTargets (W : Type) := {
  ListEnvironments : effr W (list EnvironmentDefinition);
  FindResource : string → effr W (option Resource)
}.
Class ConsoleCommandStore (W : Type) := {
  SaveConsoleCommand : ConsoleCommand → effr W unit;
  ListConsoleCommands : Z → effr W (list ConsoleCommand)
}.
(** [RunConsoleCommand] under a context with a deadline: the outputs, the exit code, the
    external identifier and the error. *)
Class ConsoleCommandRunner (W : Type) :=
  RunConsoleCommand : Duration → EnvironmentConnection → Resource → ConsoleCommand →
    eff W (string * string * Z * string * option error).

Module Console.

(** The first value that a loop returns. *)
Fixpoint first_match {A B} (f : A → option B) (l : list A) : option B :=
  match l with
  | [] => None
  | x :: l => match f x with Some y => Some y | None => first_match f l end
  end.

Lemma first_match_some {A B} (f : A → option B) l y :
  first_match f l = Some y → ∃ x, x ∈ l ∧ f x = Some y.
Proof.
  induction l as [|x l IH]; [done|]. cbn [first_match]. destruct (f x) as [z|] eqn:E.
  - intros [= ->]. exists x. split; [left|done].
  - intros (x' & Hin & Hf)%IH. exists x'. split; [by right|done].
Qed.
Lemma first_match_none {A B} (f : A → option B) l :
  first_match f l = None ↔ Forall (λ x, f x = None) l.
Proof.
  induction l as [|x l IH]; [done|]. rewrite Forall_cons. cbn [first_match]. rewrite <- IH.
  destruct (f x); split; [done|intros [[=] _]|done|by intros [_ ?]].
Qed.

(** ** [CommandController.resolveTarget] *)
Definition bound_connection (definition : EnvironmentDefinition) (runtime : EnvironmentRuntime)
    : option (EnvironmentRuntime * EnvironmentConnection * string) :=
  let connectionID := meta_string runtime.(EnvironmentRuntime.Configuration) "connectionId" in
  first_match (λ connection,
    if bool_decide (connection.(EnvironmentConnection.ID) = connectionID)
    then Some (runtime, connection, definition.(EnvironmentDefinition.Environment).(Environment.ID)) else None)
    definition.(EnvironmentDefinition.Connections).
Definition bound_runtime (definition : EnvironmentDefinition) (binding : ResourceRuntimeBinding)
    : option (EnvironmentRuntime * EnvironmentConnection * string) :=
  first_match (λ runtime,
    if bool_decide (runtime.(EnvironmentRuntime.ID) = binding.(ResourceRuntimeBinding.RuntimeID))
    then bound_connection definition runtime else None) definition.(EnvironmentDefinition.Runtimes).
Definition target_in (resource : Resource) (definition : EnvironmentDefinition)
    : option (EnvironmentRuntime * EnvironmentConnection * string) :=
  if bool_decide (definition.(EnvironmentDefinition.Version).(EnvironmentVersion.ID) =
                  resource.(Resource.EnvironmentVersionID))
  then first_match (λ binding,
    if bool_decide (binding.(ResourceRuntimeBinding.ResourceID) = resource.(Resource.ID)) &&
       binding.(ResourceRuntimeBinding.Enabled)
    then bound_runtime definition binding else None) definition.(EnvironmentDefinition.RuntimeBindings)
  else None.

Section commands.
Context `{ConsoleTargets W, ConsoleCommandStore W, ConsoleCommandRunner W}.
Context `{AuditStore W, WallClock W, FreshIDs W}.

Definition resolveTarget (resource : Resource) : effr W (EnvironmentRuntime * EnvironmentConnection * string) :=
  let? definitions := ListEnvironments in
  eret (match first_match (target_in resource) definitions with
        | Some target => Ok target
        | None => Err (errorf "resource %q has no connected runtime" [resource.(Resource.ID)])
        end).

(** [resources.FindByID] with the error for a resource that is not there. *)
Definition find_resource (id : string) : effr W Resource :=
  let? resource := FindResource id in
  eret (match resource with
        | Some resource => Ok resource
        | None => Err (errorf "resource %q was not found" [id])
        end).

(** [auditEvent] *)
Definition auditEvent (command : ConsoleCommand) (environmentID eventType : string) (outcome : AuditOutcome)
    (summary : string) : eff W unit :=
  Discovery.recordAudit {|
    AuditEvent.ID := ""; AuditEvent.EventType := eventType;
    AuditEvent.ActorID := command.(ConsoleCommand.ActorID); AuditEvent.ActorType := "user";
    AuditEvent.EnvironmentID := environmentID; AuditEvent.ResourceID := command.(ConsoleCommand.ResourceID);
    AuditEvent.ConnectionID := command.(ConsoleCommand.ConnectionID);
    AuditEvent.RuntimeID := command.(ConsoleCommand.RuntimeID); AuditEvent.SessionID := command.(ConsoleCommand.ID);
    AuditEvent.ExecutionID := ""; AuditEvent.ExternalID := command.(ConsoleCommand.ExternalID);
    AuditEvent.Outcome := outcome; AuditEvent.Summary := summary;
    AuditEvent.Metadata := list_to_map [
      ("timeoutSeconds", AnyInt command.(ConsoleCommand.TimeoutSeconds));
      ("cpuCores", AnyInt command.(ConsoleCommand.CPUCores));
      ("memoryBytes", AnyInt command.(ConsoleCommand.MemoryBytes));
      ("exitCode", match command.(ConsoleCommand.ExitCode) with Some code => AnyInt code | None => AnyNil end)];
    AuditEvent.OccurredAt := 0 |}.

(** The command as it is first saved. *)
Definition started_command (id : string) (resource : Resource) (runtime : EnvironmentRuntime)
    (connection : EnvironmentConnection) (request : ConsoleRequest) (timeout : Z) (now : Time) : ConsoleCommand := {|
  ConsoleCommand.ID := id; ConsoleCommand.ResourceID := resource.(Resource.ID);
  ConsoleCommand.RuntimeID := runtime.(EnvironmentRuntime.ID);
  ConsoleCommand.ConnectionID := connection.(EnvironmentConnection.ID);
  ConsoleCommand.ActorID := request.(ConsoleRequest.ActorID); ConsoleCommand.Command := request.(ConsoleRequest.Command);
  ConsoleCommand.WorkingDirectory := request.(ConsoleRequest.WorkingDirectory);
  ConsoleCommand.Environment := request.(ConsoleRequest.Environment);
  ConsoleCommand.CPUCores := request.(ConsoleRequest.CPUCores);
  ConsoleCommand.MemoryBytes := request.(ConsoleRequest.MemoryBytes); ConsoleCommand.TimeoutSeconds := timeout;
  ConsoleCommand.Status := CommandRunning; ConsoleCommand.Stdout := ""; ConsoleCommand.Stderr := "";
  ConsoleCommand.ExitCode := None; ConsoleCommand.ExternalID := ""; ConsoleCommand.Failure := "";
  ConsoleCommand.CreatedAt := now; ConsoleCommand.StartedAt := now; ConsoleCommand.FinishedAt := None |}.
(** The command when the runner returned. *)
Definition finished_command (command : ConsoleCommand) (stdout stderr : string) (exitCode : Z) (externalID : string)
    (err : option error) (finished : Time) : ConsoleCommand :=
  let command := command <| ConsoleCommand.Stdout := stdout |> <| ConsoleCommand.Stderr := stderr |>
    <| ConsoleCommand.ExitCode := Some exitCode |> <| ConsoleCommand.ExternalID := externalID |>
    <| ConsoleCommand.FinishedAt := Some finished |> in
  match err with
  | Some e => command <| ConsoleCommand.Status := CommandFailed |> <| ConsoleCommand.Failure := e |>
  | None => command <| ConsoleCommand.Status := CommandCompleted |>
  end.

(** The second half of [ExecuteCommand]: a command is saved, run and saved again. *)
Definition run_command (command : ConsoleCommand) (environmentID : string) (connection : EnvironmentConnection)
    (resource : Resource) : effr W ConsoleCommand :=
  let? _ := SaveConsoleCommand command in
  let! _ := auditEvent command environmentID "console.command.started" OutcomeStarted "Remote command started" in
  let! (stdout, stderr, exitCode, externalID, err) :=
    RunConsoleCommand (command.(ConsoleCommand.TimeoutSeconds) * Second) connection resource command in
  let! finished := Now in
  let command := finished_command command stdout stderr exitCode externalID err finished in
  let! _ := match err with
    | Some _ => auditEvent command environmentID "console.command.failed" OutcomeFailed
                  command.(ConsoleCommand.Failure)
    | None => auditEvent command environmentID "console.command.completed" OutcomeSucceeded
                "Remote command completed"
    end in
  let? _ := SaveConsoleCommand command in
  eret (Ok command).

(** [CommandController.ExecuteCommand] *)
Definition ExecuteCommand (request : ConsoleRequest) : effr W ConsoleCommand :=
  if bool_decide (trim_space request.(ConsoleRequest.ResourceID) = "") ||
     bool_decide (trim_space request.(ConsoleRequest.Command) = "") then
    eret (Err (errorf "resourceId and command are required" []))
  else
    let? resource := find_resource request.(ConsoleRequest.ResourceID) in
    let? (runtime, connection, environmentID) := resolveTarget resource in
    let timeout := if request.(ConsoleRequest.TimeoutSeconds) <=? 0 then 30
                   else request.(ConsoleRequest.TimeoutSeconds) in
    if 3600 <? timeout then eret (Err (errorf "timeoutSeconds cannot exceed 3600" []))
    else
      let! now := Now in
      let! id := NewID "console-command" in
      run_command (started_command id resource runtime connection request timeout now) environmentID connection resource.

(** [CommandController.ListCommands] *)
Definition ListCommands (limit : Z) : effr W (list ConsoleCommand) := ListConsoleCommands limit.
End commands.

(** ** Commands are recorded *)

(** A runtime and a connection through which a resource of the environment is reached. *)
Definition serves (resource : Resource) (definition : EnvironmentDefinition) (runtime : EnvironmentRuntime)
    (connection : EnvironmentConnection) : Prop :=
  definition.(EnvironmentDefinition.Version).(EnvironmentVersion.ID) = resource.(Resource.EnvironmentVersionID) ∧
  (∃ binding, binding ∈ definition.(EnvironmentDefinition.RuntimeBindings) ∧
     binding.(ResourceRuntimeBinding.ResourceID) = resource.(Resource.ID) ∧
     binding.(ResourceRuntimeBinding.Enabled) = true ∧
     runtime.(EnvironmentRuntime.ID) = binding.(ResourceRuntimeBinding.RuntimeID)) ∧
  runtime ∈ definition.(EnvironmentDefinition.Runtimes) ∧
  connection ∈ definition.(EnvironmentDefinition.Connections) ∧
  connection.(EnvironmentConnection.ID) = meta_string runtime.(EnvironmentRuntime.Configuration) "connectionId".

Lemma target_in_some resource definition runtime connection id :
  target_in resource definition = Some (runtime, connection, id) →
  serves resource definition runtime connection ∧
  id = definition.(EnvironmentDefinition.Environment).(Environment.ID).
Proof.
  unfold target_in. case_bool_decide as Hv; [|done].
  intros (binding & Hb & E)%first_match_some. case_bool_decide as Hr; [|done]. cbn [andb] in E.
  destruct binding.(ResourceRuntimeBinding.Enabled) eqn:He; [|done].
  apply first_match_some in E as (runtime' & Hrt & E). case_bool_decide as Hid; [|done].
  apply first_match_some in E as (connection' & Hc & E). case_bool_decide as Hcid; [|done].
  injection E as <- <- <-. split; [|done]. unfold serves. split_and!; eauto.
Qed.
Lemma target_in_none resource definition : target_in resource definition = None →
  ∀ runtime connection, ¬ serves resource definition runtime connection.
Proof.
  intros E runtime connection (Hv & (binding & Hb & Hr & He & Hid) & Hrt & Hc & Hcid). revert E. unfold target_in.
  rewrite bool_decide_true by done. intros E%first_match_none. rewrite Forall_forall in E.
  specialize (E _ Hb). rewrite bool_decide_true, He in E by done.
  apply first_match_none in E. rewrite Forall_forall in E. specialize (E _ Hrt).
  rewrite bool_decide_true in E by done. apply first_match_none in E. rewrite Forall_forall in E.
  specialize (E _ Hc). cbn beta in E. by rewrite bool_decide_true in E.
Qed.

(** The calls that matter: what was saved, and what was run. *)
Inductive command_call :=
| SavedCommand (command : ConsoleCommand) (r : result unit)
| RanCommand (deadline : Duration) (connection : EnvironmentConnection) (resource : Resource)
    (command : ConsoleCommand) (err : option error).

Section recorded_commands.
Context {W : Type} `{ConsoleTargets W, ConsoleCommandStore W, ConsoleCommandRunner W}.
Context `{AuditStore W, WallClock W, FreshIDs W}.
Abbreviation world := (Recorded W command_call).

#[local] Instance recorded_targets : ConsoleTargets world :=
  {| ListEnvironments := unlogged ListEnvironments; FindResource id := unlogged (FindResource id) |}.
#[local] Instance recorded_store : ConsoleCommandStore world :=
  {| SaveConsoleCommand c := logged (SaveConsoleCommand c) (SavedCommand c);
     ListConsoleCommands n := unlogged (ListConsoleCommands n) |}.
#[local] Instance recorded_runner : ConsoleCommandRunner world := λ deadline connection resource command,
  logged (RunConsoleCommand deadline connection resource command)
    (λ r, RanCommand deadline connection resource command r.2).
#[local] Instance recorded_audit : AuditStore world :=
  (λ record event, unlogged (record event)) <$> RecordAuditEvent.
#[local] Instance recorded_clock : WallClock world := unlogged Now.
#[local] Instance recorded_ids : FreshIDs world := λ prefix, unlogged (NewID prefix).

(** One run of a command. *)
Definition executed (connection : EnvironmentConnection) (resource : Resource) (started command : ConsoleCommand)
    (k : list command_call) : Prop :=
  ∃ stdout stderr code external err t,
    k = [SavedCommand started (Ok tt);
         RanCommand (started.(ConsoleCommand.TimeoutSeconds) * Second) connection resource started err] ∧
    command = finished_command started stdout stderr code external err t.
(** What is admitted: a running command with a time limit, for a resource that is reached
    through the connection. *)
Definition admitted (request : ConsoleRequest) (connection : EnvironmentConnection) (resource : Resource)
    (started : ConsoleCommand) : Prop :=
  started.(ConsoleCommand.Status) = CommandRunning ∧
  started.(ConsoleCommand.Command) = request.(ConsoleRequest.Command) ∧
  0 < started.(ConsoleCommand.TimeoutSeconds) ≤ 3600 ∧
  started.(ConsoleCommand.ResourceID) = resource.(Resource.ID) ∧
  started.(ConsoleCommand.ConnectionID) = connection.(EnvironmentConnection.ID) ∧
  ∃ w1 w2 definitions definition runtime, ListEnvironments (W := W) w1 = (Ok definitions, w2) ∧
    definition ∈ definitions ∧ serves resource definition runtime connection.

Lemma audit_quiet command id type outcome summary w l :
  ∃ w', auditEvent (W := world) command id type outcome summary (w, l) = (tt, (w', l)).
Proof.
  unfold auditEvent, Discovery.recordAudit, RecordAuditEvent, recorded_audit.
  destruct (@RecordAuditEvent W _) as [record|]; cbn [fmap option_fmap option_map]; [|by eexists].
  unfold ebind, NewID, recorded_ids, Now, recorded_clock. rewrite !unlogged_eq. by eexists.
Qed.

Lemma run_command_calls started env connection resource w l r w' l' :
  run_command (W := world) started env connection resource (w, l) = (r, (w', l')) →
  match r with
  | Ok command => ∃ k, executed connection resource started command k ∧ l' = l ++ k ++ [SavedCommand command (Ok tt)]
  | Err e => l' = l ++ [SavedCommand started (Err e)] ∨
      ∃ command k, executed connection resource started command k ∧ l' = l ++ k ++ [SavedCommand command (Err e)]
  end.
Proof.
  unfold run_command, ebindr at 1, SaveConsoleCommand at 1, recorded_store. rewrite logged_eq.
  destruct (SaveConsoleCommand (W := W) started w) as [[[]|e] w1]; cbn [fst snd]; [|intros [= <- _ <-]; by left].
  unfold ebind at 1. edestruct audit_quiet as [w2 ->].
  unfold ebind at 1, RunConsoleCommand at 1, recorded_runner. rewrite logged_eq.
  destruct (RunConsoleCommand (W := W) _ connection resource started w2)
    as [[[[[stdout stderr] code] external] err] w3]; cbn [fst snd].
  unfold ebind at 1, Now at 1, recorded_clock. rewrite unlogged_eq.
  set (command := finished_command started stdout stderr code external err _). cbv zeta.
  assert (executed connection resource started command [SavedCommand started (Ok tt);
    RanCommand (started.(ConsoleCommand.TimeoutSeconds) * Second) connection resource started err]) as Hx.
  { by eexists stdout, stderr, code, external, err, _. }
  unfold ebind at 1. destruct err as [e|]; (edestruct audit_quiet as [w4 ->]);
    unfold ebindr, SaveConsoleCommand at 1; rewrite logged_eq;
    destruct (SaveConsoleCommand (W := W) command w4) as [[[]|e'] w5]; cbn [fst snd]; intros [= <- _ <-];
    rewrite <- !app_assoc; eauto 6.
Qed.

(** Every command that runs is on record: it is saved as running, with a time limit of at
    most an hour, before it is run, it is run once and on the connection of a runtime its
    resource is bound to, and the command that is answered is the last one saved, completed
    exactly when the runner reported no error; a refused command is not run. *)
Theorem command_recorded request w l r w' l' :
  ExecuteCommand (W := world) request (w, l) = (r, (w', l')) →
  (∃ e, r = Err e ∧ l' = l) ∨
  ∃ connection resource started, admitted request connection resource started ∧
    match r with
    | Ok command => ∃ k, executed connection resource started command k ∧ l' = l ++ k ++ [SavedCommand command (Ok tt)]
    | Err e => l' = l ++ [SavedCommand started (Err e)] ∨
        ∃ command k, executed connection resource started command k ∧ l' = l ++ k ++ [SavedCommand command (Err e)]
    end.
Proof.
  unfold ExecuteCommand. destruct (_ || _); [intros [= <- _ <-]; eauto|].
  unfold ebindr at 1, find_resource, ebindr at 1, FindResource at 1, recorded_targets. rewrite unlogged_eq.
  destruct (FindResource (W := W) _ w) as [[[resource|]|e] w1]; cbn [eret fst snd]; [|intros [= <- _ <-]; eauto..].
  unfold ebindr at 1, resolveTarget, ebindr at 1, ListEnvironments at 1. rewrite unlogged_eq.
  destruct (ListEnvironments (W := W) w1) as [[definitions|e] w2] eqn:El; cbn [fst snd]; [|intros [= <- _ <-]; eauto].
  destruct (first_match _ definitions) as [[[runtime connection] env]|] eqn:Et; cbn [eret]; [|intros [= <- _ <-]; eauto].
  apply first_match_some in Et as (definition & Hd & [Hs _]%target_in_some).
  set (timeout := if _ <=? 0 then 30 else _). destruct (3600 <? timeout) eqn:Hlimit; [intros [= <- _ <-]; eauto|].
  unfold ebind at 1, Now at 1, recorded_clock. rewrite unlogged_eq.
  unfold ebind at 1, NewID at 1, recorded_ids. rewrite unlogged_eq. intros E%run_command_calls. right.
  assert (0 < timeout ≤ 3600) as Ht by (unfold timeout in *; destruct (_ <=? 0) eqn:?; lia).
  eexists connection, resource, _. split; [|exact E]. unfold admitted.
  split; [done|]. split; [done|]. split; [exact Ht|]. split; [done|]. split; [done|].
  by exists w1, w2, definitions, definition, runtime.
Qed.
End recorded_commands.

(** *** An example *)
Module Example.
#[local] Instance targets : ConsoleTargets nat := {|
  ListEnvironments := eret (Ok [(zero : EnvironmentDefinition)
    <| EnvironmentDefinition.RuntimeBindings := [ResourceRuntimeBinding.mk "r" "rt" true ∅] |>
    <| EnvironmentDefinition.Runtimes := [(zero : EnvironmentRuntime) <| EnvironmentRuntime.ID := "rt" |>
         <| EnvironmentRuntime.Configuration := {["connectionId" := AnyString "c"]} |>] |>
    <| EnvironmentDefinition.Connections := [(zero : EnvironmentConnection) <| EnvironmentConnection.ID := "c" |>] |>]);
  FindResource id := eret (Ok (Some ((zero : Resource) <| Resource.ID := id |>))) |}.
#[local] Instance store : ConsoleCommandStore nat :=
  {| SaveConsoleCommand _ := eret (Ok tt); ListConsoleCommands _ := eret (Ok []) |}.
#[local] Instance runner : ConsoleCommandRunner nat := λ _ _ _ _, eret ("hello", "", 0, "job-1", None).
#[local] Instance no_audit : AuditStore nat := None.
#[local] Instance clock : WallClock nat := λ n, (Z.of_nat n, S n).
#[local] Instance ids : FreshIDs nat := λ prefix, eret prefix.
Definition request : ConsoleRequest := (zero : ConsoleRequest) <| ConsoleRequest.ResourceID := "r" |>
  <| ConsoleRequest.Command := "echo hello" |>.
#[local] Existing Instances recorded_targets recorded_store recorded_runner recorded_audit recorded_clock recorded_ids.
Definition ran : result ConsoleCommand * Recorded nat command_call :=
  ExecuteCommand (W := Recorded nat command_call) request (1%nat, []).
Lemma command_recorded_witness : ∃ connection resource started command k,
  admitted request connection resource started ∧ executed connection resource started command k ∧
  ran.1 = Ok command ∧ ran.2.2 = k ++ [SavedCommand command (Ok tt)].
Proof.
  destruct (command_recorded request 1%nat [] ran.1 ran.2.1 ran.2.2) as [(e & E & _) | (connection & resource & started & Ha & Hx)].
  - unfold ran. by destruct (ExecuteCommand _ _) as [r [w l]].
  - vm_compute in E. discriminate E.
  - destruct ran.1 as [command|e] eqn:E; [|vm_compute in E; discriminate E].
    destruct Hx as (k & Hk & El). exists connection, resource, started, command, k. by split_and!.
Defined.
End Example.

(** ** Interactive sessions *)

Definition maxTerminalLogBytes : Z := Z.shiftl 1 20.

(** [liveSession]; [closed] is the state of its [closeOnce]. *)
Module liveSession.
Record liveSession := mk {
  value : ConsoleSession; terminal : nat; environment : string; log : string; clients : gset nat; closed : bool
}.
#[global] Instance eta : Eta liveSession := λ s,
  mk s.(value) s.(terminal) s.(environment) s.(log) s.(clients) s.(closed).
End liveSession.
Abbreviation liveSession := liveSession.liveSession.

(** [TerminalController]: the map of sessions holds references; the goroutines that hold
    one keep it when it has left the map. *)
Module TerminalController.
Record TerminalController := mk { sessions : gmap string nat; heap : gmap nat liveSession }.
#[global] Instance eta : Eta TerminalController := λ c, mk c.(sessions) c.(heap).
End TerminalController.
Abbreviation TerminalController := TerminalController.TerminalController.
(** [NewTerminalController] *)
Definition NewTerminalController : TerminalController := TerminalController.mk ∅ ∅.

(** How a read ends besides its bytes. *)
Inductive read_end := EOF | ReadError (e : error).
(** A message of a browser. *)
Inductive message := TextMessage (payload : string) | BinaryMessage (payload : string) | OtherMessage.
(** What [resize] decodes of a text message. *)
Module resizeMessage.
Record resizeMessage := mk { Type_ : string; Rows : Z; Columns : Z }.
End resizeMessage.
Abbreviation resizeMessage := resizeMessage.resizeMessage.
End Console.

(** ports/console.go: [InteractiveConsoleRunner], [InteractiveTerminal] and
    [ConsoleSessionLogStore], which may be nil; the sockets of gorilla/websocket. *)
Class Terminals (W : Type) := {
  StartInteractive : EnvironmentConnection → Resource → effr W nat;
  terminal_Read : nat → eff W (string * option Console.read_end);
  terminal_Write : nat → string → effr W unit;
  terminal_Resize : nat → Z → Z → effr W unit;
  terminal_Close : nat → effr W unit;
  WriteMessage : nat → string → effr W unit
}.
Module SessionLogs.
Record SessionLogs (W : Type) := mk {
  SaveConsoleSession : ConsoleSession → effr W unit;
  AppendConsoleSessionLog : string → string → string → Time → effr W unit;
  ReadConsoleSessionLog : string → effr W string
}.
End SessionLogs.
Arguments SessionLogs.SaveConsoleSession {W}. Arguments SessionLogs.AppendConsoleSessionLog {W}.
Arguments SessionLogs.ReadConsoleSessionLog {W}.
Class ConsoleSessionLogStore (W : Type) := session_logs : option (SessionLogs.SessionLogs W).
(** [encoding/json] on a resize message. *)
Class ResizeJSON := unmarshal_resize : string → option Console.resizeMessage.

Module Terminal.
Import Console.

Section terminal.
Context `{ConsoleTargets W, Terminals W, ConsoleSessionLogStore W, ResizeJSON}.
Context `{AuditStore W, WallClock W, FreshIDs W}.
Abbreviation world := (W * TerminalController)%type.

Definition get_controller : eff world TerminalController := λ '(w, c), (c, (w, c)).
Definition update_session (l : nat) (f : liveSession → liveSession) : eff world unit := λ '(w, c),
  (tt, (w, c <| TerminalController.heap := alter f l c.(TerminalController.heap) |>)).

(** [logs.SaveConsoleSession] when there is a store. *)
Definition save_session (value : ConsoleSession) : effr W unit :=
  match session_logs with
  | Some logs => logs.(SessionLogs.SaveConsoleSession) value
  | None => eret (Ok tt)
  end.
(** [appendLog] *)
Definition appendLog (sessionID direction payload : string) : eff W unit :=
  match session_logs with
  | Some logs =>
    if bool_decide (payload = "") then eret tt
    else let! now := Now in
         let! _ := logs.(SessionLogs.AppendConsoleSessionLog) sessionID direction payload now in eret tt
  | None => eret tt
  end.
(** [record] *)
Definition record (value : ConsoleSession) (environmentID eventType : string) (outcome : AuditOutcome)
    (summary : string) : eff W unit :=
  Discovery.recordAudit {|
    AuditEvent.ID := ""; AuditEvent.EventType := eventType;
    AuditEvent.ActorID := value.(ConsoleSession.ActorID); AuditEvent.ActorType := "user";
    AuditEvent.EnvironmentID := environmentID; AuditEvent.ResourceID := value.(ConsoleSession.ResourceID);
    AuditEvent.ConnectionID := value.(ConsoleSession.ConnectionID);
    AuditEvent.RuntimeID := value.(ConsoleSession.RuntimeID); AuditEvent.SessionID := value.(ConsoleSession.ID);
    AuditEvent.ExecutionID := ""; AuditEvent.ExternalID := value.(ConsoleSession.ExternalID);
    AuditEvent.Outcome := outcome; AuditEvent.Summary := summary;
    AuditEvent.Metadata := {["interactive" := AnyBool true]}; AuditEvent.OccurredAt := 0 |}.

(** [OpenSession] until the terminal is connected and saved. *)
Definition connect (request : ConsoleSessionRequest) : effr W (ConsoleSession * nat * string) :=
  if bool_decide (request.(ConsoleSessionRequest.ResourceID) = "") then eret (Err (errorf "resourceId is required" []))
  else
    let? resource := find_resource request.(ConsoleSessionRequest.ResourceID) in
    let? (runtime, connection, environmentID) := resolveTarget resource in
    let! now := Now in
    let! id := NewID "console-session" in
    let value := {|
      ConsoleSession.ID := id; ConsoleSession.ResourceID := resource.(Resource.ID);
      ConsoleSession.RuntimeID := runtime.(EnvironmentRuntime.ID);
      ConsoleSession.ConnectionID := connection.(EnvironmentConnection.ID);
      ConsoleSession.ActorID := request.(ConsoleSessionRequest.ActorID);
      ConsoleSession.Status := SessionStarting; ConsoleSession.ExternalID := ""; ConsoleSession.Failure := "";
      ConsoleSession.CreatedAt := now; ConsoleSession.ConnectedAt := None; ConsoleSession.FinishedAt := None |} in
    let! saved := save_session value in
    match saved with
    | Err e => eret (Err (errorf "persist interactive session: %w" [e]))
    | Ok _ =>
      let! _ := record value environmentID "console.session.started" OutcomeStarted "Interactive terminal requested" in
      let! started := StartInteractive connection resource in
      match started with
      | Err e =>
        let! finished := Now in
        let value := value <| ConsoleSession.Status := SessionFailed |> <| ConsoleSession.Failure := e |>
                           <| ConsoleSession.FinishedAt := Some finished |> in
        let! _ := save_session value in
        let! _ := record value environmentID "console.session.failed" OutcomeFailed e in
        eret (Err e)
      | Ok terminal =>
        let! connected := Now in
        let value := value <| ConsoleSession.Status := SessionConnected |>
                           <| ConsoleSession.ConnectedAt := Some connected |> in
        let! saved := save_session value in
        match saved with
        | Err e =>
          let! _ := terminal_Close terminal in
          eret (Err (errorf "persist connected interactive session: %w" [e]))
        | Ok _ => eret (Ok (value, terminal, environmentID))
        end
      end
    end.
(** [OpenSession] until the goroutine is started that reads the terminal. *)
Definition register (request : ConsoleSessionRequest) : effr world (ConsoleSession * string * nat) :=
  let? (value, terminal, environmentID) := on_world (connect request) in
  λ '(w, c),
    let l := fresh (dom c.(TerminalController.heap)) in
    (Ok (value, environmentID, l), (w, {|
       TerminalController.sessions := <[value.(ConsoleSession.ID) := l]> c.(TerminalController.sessions);
       TerminalController.heap := <[l := liveSession.mk value terminal environmentID "" ∅ false]> c.(TerminalController.heap) |})).
Definition announce (value : ConsoleSession) (environmentID : string) : eff world unit :=
  on_world (record value environmentID "console.session.connected" OutcomeSucceeded "Interactive terminal connected").
(** [TerminalController.OpenSession] *)
Definition OpenSession (request : ConsoleSessionRequest) : effr world ConsoleSession :=
  let? (value, environmentID, l) := register request in
  let! _ := announce value environmentID in
  eret (Ok value).

(** [TerminalController.ListSessions] *)
Definition ListSessions `{MapOrder} (salt : nat) : effr world (list ConsoleSession) :=
  let! c := get_controller in
  eret (Ok (omap (λ '(_, l), liveSession.value <$> c.(TerminalController.heap) !! l)
              (map_range salt c.(TerminalController.sessions)))).

(** [finishSession]; the body of [closeOnce] runs once, the other callers wait for it. *)
Definition finishSession (l : nat) (status : SessionStatus) (failure eventType : string) (outcome : AuditOutcome)
    (summary : string) : eff world unit :=
  let! c := get_controller in
  match c.(TerminalController.heap) !! l with
  | Some s =>
    if s.(liveSession.closed) then eret tt
    else
      let! _ := on_world (terminal_Close s.(liveSession.terminal)) in
      let! finished := on_world Now in
      let value := s.(liveSession.value) <| ConsoleSession.Status := status |>
        <| ConsoleSession.Failure := failure |> <| ConsoleSession.FinishedAt := Some finished |> in
      let! _ := on_world (save_session value) in
      let! _ := (λ '(w, c), (tt, (w, {|
        TerminalController.sessions := delete value.(ConsoleSession.ID) c.(TerminalController.sessions);
        TerminalController.heap := alter (λ s, s <| liveSession.value := value |> <| liveSession.closed := true |>) l
          c.(TerminalController.heap) |}))) : eff world unit in
      on_world (record value s.(liveSession.environment) eventType outcome summary)
  | None => eret tt
  end.
(** [closeSession], [failSession] *)
Definition closeSession (l : nat) : eff world unit :=
  finishSession l SessionClosed "" "console.session.closed" OutcomeSucceeded "Interactive terminal closed".
Definition failSession (l : nat) (e : error) : eff world unit :=
  finishSession l SessionFailed e "console.session.failed" OutcomeFailed e.
(** [TerminalController.CloseSession] *)
Definition CloseSession (sessionID : string) : effr world unit :=
  let! c := get_controller in
  match c.(TerminalController.sessions) !! sessionID with
  | None => eret (Err (errorf "console session was not found" []))
  | Some l => let! _ := closeSession l in eret (Ok tt)
  end.
(** [TerminalController.SessionLog] *)
Definition SessionLog (sessionID : string) : effr world string :=
  let! c := get_controller in
  match c.(TerminalController.sessions) !! sessionID with
  | Some l => eret (Ok (match c.(TerminalController.heap) !! l with Some s => s.(liveSession.log) | None => "" end))
  | None =>
    match session_logs with
    | Some logs => on_world (logs.(SessionLogs.ReadConsoleSessionLog) sessionID)
    | None => eret (Err (errorf "console session was not found" []))
    end
  end.
End terminal.

(** ** The goroutines *)

(** The goroutine of [readTerminal]: before a read; with bytes that were logged; with bytes
    that were buffered, and the browsers they are still to be sent to; and before it ends
    the session. *)
Inductive reader :=
| Reading
| Logged (payload : string) (ended : option read_end)
| Delivering (payload : string) (remaining : gset nat) (ended : option read_end)
| Ending (e : read_end).
(** The goroutine of [StreamSession]: with the history it is to send first; waiting for
    messages; and before it leaves. *)
Inductive stream := Greeting (l : nat) (history : string) | Streaming (l : nat) | Leaving (l : nat).

Definition after_read (ended : option read_end) : reader :=
  match ended with None => Reading | Some e => Ending e end.
(** The last [n] bytes. *)
Definition last_bytes (n : Z) (s : string) : string := drop_str (Z.to_nat (Z.of_nat (str_length s) - n)) s.

Section goroutines.
Context `{ConsoleTargets W, Terminals W, ConsoleSessionLogStore W, ResizeJSON}.
Context `{AuditStore W, WallClock W, FreshIDs W}.
Abbreviation world := (W * TerminalController)%type.

(** [readTerminal]: one read, and the first statement of [publish]. *)
Definition read_terminal (l : nat) : eff world reader :=
  let! c := get_controller in
  match c.(TerminalController.heap) !! l with
  | None => eret Reading
  | Some s =>
    let! (payload, ended) := on_world (terminal_Read s.(liveSession.terminal)) in
    if bool_decide (payload = "") then eret (after_read ended)
    else let! _ := on_world (appendLog s.(liveSession.value).(ConsoleSession.ID) "output" payload) in
         eret (Logged payload ended)
  end.
(** [publish] under the lock of the session. *)
Definition buffered (payload : string) (s : liveSession) : liveSession :=
  let log := s.(liveSession.log) +:+ payload in
  s <| liveSession.log := if maxTerminalLogBytes <? Z.of_nat (str_length log)
                          then drop_str (Z.to_nat (Z.of_nat (str_length log) - maxTerminalLogBytes)) log else log |>.
Definition buffer_output (l : nat) (payload : string) (ended : option read_end) : eff world reader :=
  let! _ := update_session l (buffered payload) in
  let! c := get_controller in
  eret (Delivering payload
    (match c.(TerminalController.heap) !! l with Some s => s.(liveSession.clients) | None => ∅ end) ended).
(** [removeClient] *)
Definition removeClient (l client : nat) : eff world unit :=
  update_session l (λ s, s <| liveSession.clients := s.(liveSession.clients) ∖ {[client]} |>).
(** [publish]: the message to one browser; whether it was written. *)
Definition deliver (l client : nat) (payload : string) : eff world bool :=
  let! written := on_world (WriteMessage client payload) in
  match written with
  | Ok _ => eret true
  | Err _ => let! _ := removeClient l client in eret false
  end.
(** The end of [readTerminal]. *)
Definition end_status (e : read_end) : SessionStatus := match e with EOF => SessionClosed | ReadError _ => SessionFailed end.
Definition end_session (l : nat) (e : read_end) : eff world unit :=
  match e with
  | EOF => closeSession l
  | ReadError e => failSession l (errorf "interactive terminal disconnected: %w" [e])
  end.

(** [StreamSession]: a browser is attached, and the history is taken, under the lock of the
    session. *)
Definition attach (client l : nat) : eff world string :=
  let! _ := update_session l (λ s, s <| liveSession.clients := {[client]} ∪ s.(liveSession.clients) |>) in
  let! c := get_controller in
  eret (match c.(TerminalController.heap) !! l with Some s => s.(liveSession.log) | None => "" end).
Definition greet (client : nat) (history : string) : eff world unit :=
  if bool_decide (history = "") then eret tt
  else let! _ := on_world (WriteMessage client history) in eret tt.
(** [resize] *)
Definition resize (terminal : nat) (payload : string) : eff W bool :=
  match unmarshal_resize payload with
  | None => eret false
  | Some m =>
    if bool_decide (m.(resizeMessage.Type_) = "resize") then
      let! _ := if (0 <? m.(resizeMessage.Rows)) && (0 <? m.(resizeMessage.Columns))
                then terminal_Resize terminal m.(resizeMessage.Rows) m.(resizeMessage.Columns) else eret (Ok tt) in
      eret true
    else eret false
  end.
(** The body of the loop of [StreamSession] for one message; whether it goes on. *)
Definition write_input (l : nat) (s : liveSession) (payload : string) : eff world bool :=
  let! written := on_world (terminal_Write s.(liveSession.terminal) payload) in
  match written with
  | Err _ => let! _ := closeSession l in eret false
  | Ok _ => let! _ := on_world (appendLog s.(liveSession.value).(ConsoleSession.ID) "input" payload) in eret true
  end.
Definition receive (l : nat) (m : message) : eff world bool :=
  let! c := get_controller in
  match c.(TerminalController.heap) !! l with
  | None => eret false
  | Some s =>
    match m with
    | OtherMessage => eret true
    | BinaryMessage payload => write_input l s payload
    | TextMessage payload =>
      let! resized := on_world (resize s.(liveSession.terminal) payload) in
      if resized : bool then eret true else write_input l s payload
    end
  end.
End goroutines.

(** ** The console as a transition system *)

(** The calls on terminals and browsers: what was read, and what was written to whom. *)
Inductive terminal_call :=
| CRead (terminal : nat) (payload : string)
| CWrite (client : nat) (payload : string) (r : result unit).
#[global] Instance recorded_terminals `{Terminals W} : Terminals (Recorded W terminal_call) := {|
  StartInteractive connection resource := unlogged (StartInteractive connection resource);
  terminal_Read t := logged (terminal_Read t) (λ '(payload, _), CRead t payload);
  terminal_Write t payload := unlogged (terminal_Write t payload);
  terminal_Resize t rows columns := unlogged (terminal_Resize t rows columns);
  terminal_Close t := unlogged (terminal_Close t);
  WriteMessage client payload := logged (WriteMessage client payload) (CWrite client payload)
|}.
#[global] Instance recorded_session_logs `{ConsoleSessionLogStore W} :
    ConsoleSessionLogStore (Recorded W terminal_call) :=
  (λ logs, {|
     SessionLogs.SaveConsoleSession v := unlogged (logs.(SessionLogs.SaveConsoleSession) v);
     SessionLogs.AppendConsoleSessionLog id direction payload t :=
       unlogged (logs.(SessionLogs.AppendConsoleSessionLog) id direction payload t);
     SessionLogs.ReadConsoleSessionLog id := unlogged (logs.(SessionLogs.ReadConsoleSessionLog) id)
   |}) <$> session_logs.
#[global] Instance recorded_now `{WallClock W} : WallClock (Recorded W terminal_call) := unlogged Now.
(** An operation in a world that records its calls: its result, the state and the calls. *)
Definition traced {W A} (m : eff (Recorded W terminal_call * TerminalController) A)
    (s : W * TerminalController) : A * (W * TerminalController) * list terminal_call :=
  let '(a, ((w, k), c)) := m ((s.1, []), s.2) in (a, (w, c), k).

(** What happened. *)
Inductive event :=
| Output (l : nat) (payload : string)
| Attached (client l : nat) (history : string)
| Greeted (client : nat) (history : string)
| Delivered (client : nat) (payload : string)
| Finished (l : nat) (status : SessionStatus).

(** The events of a read of the terminal of a session, of the delivery of output and of the
    writing of the history, by the calls that were made. *)
Definition read_events (l : nat) (k : list terminal_call) : list event :=
  omap (λ call, match call with
    | CRead _ payload => if bool_decide (payload = "") then None else Some (Output l payload)
    | CWrite _ _ _ => None end) k.
Definition delivery_events (k : list terminal_call) : list event :=
  omap (λ call, match call with CWrite client payload (Ok _) => Some (Delivered client payload) | _ => None end) k.
Definition greeting_events (k : list terminal_call) : list event :=
  omap (λ call, match call with CWrite client payload _ => Some (Greeted client payload) | _ => None end) k.

Section machine.
Context `{ConsoleTargets W, Terminals W, ConsoleSessionLogStore W, ResizeJSON}.
Context `{AuditStore W, WallClock W, FreshIDs W}.

Record machine := mk_machine {
  state : W * TerminalController; readers : gmap nat reader; streams : gmap nat stream;
  announcements : list (ConsoleSession * string); history : list event
}.
Definition live (m : machine) : gmap nat liveSession := m.(state).2.(TerminalController.heap).
(** The event of a call that ends a session, the first time. *)
Definition finishing (m : machine) (l : nat) (status : SessionStatus) : list event :=
  match live m !! l with
  | Some s => if s.(liveSession.closed) then [] else [Finished l status]
  | None => []
  end.

(** The requests, the goroutines in any order, and whatever else happens in the world.
    Identifiers of sessions are new, and so are the connections of browsers; a browser may
    be attached to a session that has ended since it was looked up. *)
Inductive step (m : machine) : machine → Prop :=
| step_open request value environment l s :
    register request m.(state) = (Ok (value, environment, l), s) →
    (∀ l' s', live m !! l' = Some s' → s'.(liveSession.value).(ConsoleSession.ID) ≠ value.(ConsoleSession.ID)) →
    step m (mk_machine s (<[l := Reading]> m.(readers)) m.(streams)
              ((value, environment) :: m.(announcements)) m.(history))
| step_refused request e s :
    register request m.(state) = (Err e, s) →
    step m (mk_machine s m.(readers) m.(streams) m.(announcements) m.(history))
| step_announce l1 value environment l2 s :
    m.(announcements) = l1 ++ (value, environment) :: l2 → announce value environment m.(state) = (tt, s) →
    step m (mk_machine s m.(readers) m.(streams) (l1 ++ l2) m.(history))
| step_close l s :
    closeSession l m.(state) = (tt, s) →
    step m (mk_machine s m.(readers) m.(streams) m.(announcements) (m.(history) ++ finishing m l SessionClosed))
| step_read l r s k :
    m.(readers) !! l = Some Reading → traced (read_terminal l) m.(state) = (r, s, k) →
    step m (mk_machine s (<[l := r]> m.(readers)) m.(streams) m.(announcements) (m.(history) ++ read_events l k))
| step_buffer l payload ended r s :
    m.(readers) !! l = Some (Logged payload ended) → buffer_output l payload ended m.(state) = (r, s) →
    step m (mk_machine s (<[l := r]> m.(readers)) m.(streams) m.(announcements) m.(history))
| step_deliver l payload remaining ended client written s k :
    m.(readers) !! l = Some (Delivering payload remaining ended) → client ∈ remaining →
    traced (deliver l client payload) m.(state) = (written, s, k) →
    step m (mk_machine s (<[l := Delivering payload (remaining ∖ {[client]}) ended]> m.(readers)) m.(streams)
              m.(announcements) (m.(history) ++ delivery_events k))
| step_delivered l payload ended :
    m.(readers) !! l = Some (Delivering payload ∅ ended) →
    step m (mk_machine m.(state) (<[l := after_read ended]> m.(readers)) m.(streams) m.(announcements) m.(history))
| step_end l e s :
    m.(readers) !! l = Some (Ending e) → end_session l e m.(state) = (tt, s) →
    step m (mk_machine s (delete l m.(readers)) m.(streams) m.(announcements)
              (m.(history) ++ finishing m l (end_status e)))
| step_attach client l h s :
    is_Some (live m !! l) → (∀ l' h', Attached client l' h' ∉ m.(history)) →
    attach client l m.(state) = (h, s) →
    step m (mk_machine s m.(readers) (<[client := Greeting l h]> m.(streams)) m.(announcements)
              (m.(history) ++ [Attached client l h]))
| step_greet client l h s k :
    m.(streams) !! client = Some (Greeting l h) → traced (greet client h) m.(state) = (tt, s, k) →
    step m (mk_machine s m.(readers) (<[client := Streaming l]> m.(streams)) m.(announcements)
              (m.(history) ++ greeting_events k))
| step_receive client l message go_on s :
    m.(streams) !! client = Some (Streaming l) → receive l message m.(state) = (go_on, s) →
    step m (mk_machine s m.(readers) (<[client := if go_on : bool then Streaming l else Leaving l]> m.(streams))
              m.(announcements) (m.(history) ++ if go_on then [] else finishing m l SessionClosed))
| step_hang_up client l :
    m.(streams) !! client = Some (Streaming l) →
    step m (mk_machine m.(state) m.(readers) (<[client := Leaving l]> m.(streams)) m.(announcements) m.(history))
| step_leave client l s :
    m.(streams) !! client = Some (Leaving l) → removeClient l client m.(state) = (tt, s) →
    step m (mk_machine s m.(readers) (delete client m.(streams)) m.(announcements) m.(history))
| step_world w :
    step m (mk_machine (w, m.(state).2) m.(readers) m.(streams) m.(announcements) m.(history)).
Inductive reachable (w : W) : machine → Prop :=
| reachable_init : reachable w (mk_machine (w, NewTerminalController) ∅ ∅ [] [])
| reachable_step m m' : reachable w m → step m m' → reachable w m'.
End machine.

(** ** The bookkeeping of the sessions

    [shift] is what the steps do to the sessions and their readers; the proofs below are by
    induction on it. *)
(** Output that is read and not yet in the log, and output a browser is still to be sent. *)
Definition in_hand (r : option reader) : list string :=
  match r with Some (Logged payload _) => [payload] | _ => [] end.
Definition pending (r : option reader) (client : nat) : list string :=
  match r with
  | Some (Logged payload _) => [payload]
  | Some (Delivering payload remaining _) => if bool_decide (client ∈ remaining) then [payload] else []
  | _ => []
  end.
Abbreviation view := (TerminalController * gmap nat reader)%type.
Definition on_session (l : nat) (f : liveSession → liveSession) (c : TerminalController) : TerminalController :=
  TerminalController.mk c.(TerminalController.sessions) (alter f l c.(TerminalController.heap)).
Definition ended_session (value : ConsoleSession) (s : liveSession) : liveSession :=
  s <| liveSession.value := value |> <| liveSession.closed := true |>.
Definition attached (client : nat) (s : liveSession) : liveSession :=
  s <| liveSession.clients := {[client]} ∪ s.(liveSession.clients) |>.
Definition detached (client : nat) (s : liveSession) : liveSession :=
  s <| liveSession.clients := s.(liveSession.clients) ∖ {[client]} |>.
Definition is_ending (status : SessionStatus) : Prop := status = SessionClosed ∨ status = SessionFailed.

Inductive shift (h : list event) : view → list event → view → Prop :=
| shift_none c rd : shift h (c, rd) [] (c, rd)
| shift_greet c rd client t : shift h (c, rd) [Greeted client t] (c, rd)
| shift_read c rd l s payload ended : rd !! l = Some Reading → c.(TerminalController.heap) !! l = Some s →
    shift h (c, rd) [Output l payload] (c, <[l := Logged payload ended]> rd)
| shift_reader c rd l r r' : rd !! l = Some r →
    (∀ client, pending (Some r) client = []) → (∀ client, pending (Some r') client = []) →
    shift h (c, rd) [] (c, <[l := r']> rd)
| shift_stop c rd l e : rd !! l = Some (Ending e) → shift h (c, rd) [] (c, delete l rd)
| shift_open c rd l value terminal environment :
    c.(TerminalController.heap) !! l = None → value.(ConsoleSession.Status) = SessionConnected →
    (∀ l' s', c.(TerminalController.heap) !! l' = Some s' →
       s'.(liveSession.value).(ConsoleSession.ID) ≠ value.(ConsoleSession.ID)) →
    shift h (c, rd) [] ({|
      TerminalController.sessions := <[value.(ConsoleSession.ID) := l]> c.(TerminalController.sessions);
      TerminalController.heap := <[l := liveSession.mk value terminal environment "" ∅ false]> c.(TerminalController.heap) |},
      <[l := Reading]> rd)
| shift_buffer c rd l payload ended s :
    rd !! l = Some (Logged payload ended) → c.(TerminalController.heap) !! l = Some s →
    shift h (c, rd) []
      (on_session l (buffered payload) c, <[l := Delivering payload s.(liveSession.clients) ended]> rd)
| shift_deliver c rd l payload remaining ended client :
    rd !! l = Some (Delivering payload remaining ended) → client ∈ remaining →
    shift h (c, rd) [Delivered client payload] (c, <[l := Delivering payload (remaining ∖ {[client]}) ended]> rd)
| shift_lose c rd l payload remaining ended client :
    rd !! l = Some (Delivering payload remaining ended) → client ∈ remaining →
    shift h (c, rd) [] (on_session l (detached client) c, <[l := Delivering payload (remaining ∖ {[client]}) ended]> rd)
| shift_finish c rd l s status failure t :
    c.(TerminalController.heap) !! l = Some s → s.(liveSession.closed) = false → is_ending status →
    let value := s.(liveSession.value) <| ConsoleSession.Status := status |>
      <| ConsoleSession.Failure := failure |> <| ConsoleSession.FinishedAt := Some t |> in
    shift h (c, rd) [Finished l status] ({|
      TerminalController.sessions := delete value.(ConsoleSession.ID) c.(TerminalController.sessions);
      TerminalController.heap := alter (ended_session value) l c.(TerminalController.heap) |}, rd)
| shift_attach c rd l s client :
    c.(TerminalController.heap) !! l = Some s → (∀ l' t, Attached client l' t ∉ h) →
    shift h (c, rd) [Attached client l s.(liveSession.log)] (on_session l (attached client) c, rd)
| shift_leave c rd l client : shift h (c, rd) [] (on_session l (detached client) c, rd).
(** A few shifts. *)
Inductive shifts (h : list event) : view → list event → view → Prop :=
| shifts_nil v : shifts h v [] v
| shifts_cons v v' v'' ev ev' :
    shift h v ev v' → shifts (h ++ ev) v' ev' v'' → shifts h v (ev ++ ev') v''.
Lemma shifts_one h v ev v' : shift h v ev v' → shifts h v ev v'.
Proof. intros Hs. rewrite <- (app_nil_r ev). eapply shifts_cons; [exact Hs|constructor]. Qed.

Section simulation.
Context `{ConsoleTargets W, Terminals W, ConsoleSessionLogStore W, ResizeJSON}.
Context `{AuditStore W, WallClock W, FreshIDs W}.
Implicit Types (c : TerminalController) (w : W).

Lemma connect_connected request w value terminal environment w' :
  connect request w = (Ok (value, terminal, environment), w') → value.(ConsoleSession.Status) = SessionConnected.
Proof.
  unfold connect. case_bool_decide; [done|]. unfold ebindr at 1.
  destruct (find_resource _ w) as [[resource|e] w1]; [|done]. unfold ebindr at 1.
  destruct (resolveTarget resource w1) as [[[[runtime connection] env]|e] w2]; [|done].
  unfold ebind. destruct (Now w2) as [now w3], (NewID _ w3) as [id w4]. set (value0 := ConsoleSession.mk _ _ _ _ _ _ _ _ _ _ _).
  destruct (save_session value0 w4) as [[[]|e] w5]; [|done].
  destruct (record value0 _ _ _ _ w5) as [_ w6], (StartInteractive connection resource w6) as [[t|e] w7].
  - destruct (Now w7) as [connected w8]. destruct (save_session _ w8) as [[[]|e] w9].
    + by intros [= <- _ _ _].
    + by destruct (terminal_Close t w9).
  - destruct (Now w7) as [finished w8]. destruct (save_session _ w8) as [? w9]. by destruct (record _ _ _ _ _ w9).
Qed.
Lemma register_shift request w c value environment l s rd h :
  register request (w, c) = (Ok (value, environment, l), s) →
  (∀ l' s', c.(TerminalController.heap) !! l' = Some s' →
     s'.(liveSession.value).(ConsoleSession.ID) ≠ value.(ConsoleSession.ID)) →
  shift h (c, rd) [] (s.2, <[l := Reading]> rd).
Proof.
  unfold register, ebindr. rewrite on_world_eq.
  destruct (connect request w) as [[[[value' terminal] env]|e] w1] eqn:E; cbn [fst snd]; [|done].
  intros [= <- _ <- <-] Hfresh. cbn [snd]. apply shift_open; [|by eapply connect_connected|done].
  apply not_elem_of_dom, is_fresh.
Qed.
Lemma register_refused request w c e s : register request (w, c) = (Err e, s) → s.2 = c.
Proof.
  unfold register, ebindr. rewrite on_world_eq.
  destruct (connect request w) as [[[[value' terminal] env]|e'] w1] eqn:E; cbn [fst snd]; [done|]. by intros [= _ <-].
Qed.

Lemma finish_shifts l status failure type outcome summary w c s rd h : is_ending status →
  finishSession l status failure type outcome summary (w, c) = (tt, s) →
  shifts h (c, rd) (match c.(TerminalController.heap) !! l with
                    | Some s => if s.(liveSession.closed) then [] else [Finished l status] | None => [] end) (s.2, rd).
Proof.
  intros Hst. unfold finishSession, ebind at 1, get_controller.
  destruct (c.(TerminalController.heap) !! l) as [live|] eqn:El; [|intros [= <-]; constructor].
  destruct live.(liveSession.closed) eqn:Ec; [intros [= <-]; constructor|].
  unfold ebind. rewrite !on_world_eq. destruct (record _ _ _ _ _ _). intros [= _ <-]. cbn [snd].
  apply shifts_one. by eapply shift_finish.
Qed.
Lemma buffer_shift l payload ended w c r s rd h live : rd !! l = Some (Logged payload ended) →
  c.(TerminalController.heap) !! l = Some live →
  buffer_output l payload ended (w, c) = (r, s) → shift h (c, rd) [] (s.2, <[l := r]> rd).
Proof.
  intros Hr Hl. unfold buffer_output, ebind, update_session, get_controller. intros [= <- <-]. cbn.
  rewrite lookup_alter_eq, Hl. exact (shift_buffer h c rd l payload ended live Hr Hl).
Qed.
Lemma deliver_shift l client payload remaining ended w c written s k rd h :
  rd !! l = Some (Delivering payload remaining ended) → client ∈ remaining →
  traced (W := W) (deliver l client payload) (w, c) = (written, s, k) →
  shift h (c, rd) (delivery_events k) (s.2, <[l := Delivering payload (remaining ∖ {[client]}) ended]> rd).
Proof.
  intros Hr Hin. unfold traced, deliver, ebind. cbn [fst snd]. rewrite on_world_eq.
  cbn [WriteMessage recorded_terminals]. rewrite logged_eq.
  destruct (WriteMessage client payload w) as [[[]|e] w1]; cbn [fst snd app]; intros [= _ <- <-]; cbn [snd].
  - by apply shift_deliver.
  - by apply shift_lose.
Qed.
Lemma appendLog_recorded id direction payload w k :
  ∃ w', appendLog (W := Recorded W terminal_call) id direction payload (w, k) = (tt, (w', k)).
Proof.
  unfold appendLog, session_logs at 1, recorded_session_logs. destruct session_logs as [logs|]; cbn; [|by eexists].
  case_bool_decide; [by eexists|]. unfold ebind, Monitor.Now at 1, recorded_now, unlogged.
  destruct (Monitor.Now w) as [t w1]. cbn. destruct (SessionLogs.AppendConsoleSessionLog _ _ _ _ _ _). by eexists.
Qed.
Lemma read_shift l w c r s k rd h : rd !! l = Some Reading → is_Some (c.(TerminalController.heap) !! l) →
  traced (W := W) (read_terminal l) (w, c) = (r, s, k) → shift h (c, rd) (read_events l k) (s.2, <[l := r]> rd).
Proof.
  intros Hr [live Hl]. unfold traced, read_terminal, ebind at 1, get_controller. cbn [fst snd].
  rewrite Hl. unfold ebind. rewrite on_world_eq. cbn [terminal_Read recorded_terminals]. rewrite logged_eq.
  destruct (terminal_Read _ w) as [[payload ended] w1]; cbn [fst snd app].
  case_bool_decide as Hp.
  - intros [= <- <- <-]. subst payload. cbn. eapply shift_reader; [exact Hr|done|]. by destruct ended.
  - rewrite on_world_eq.
    destruct (appendLog_recorded live.(liveSession.value).(ConsoleSession.ID) "output" payload w1
      [CRead live.(liveSession.terminal) payload]) as [w2 ->]. cbn [fst snd]. intros [= <- <- <-].
    cbn [read_events omap list_omap]. rewrite bool_decide_false by done. by eapply shift_read.
Qed.
(** The history is written once, unless it is empty. *)
Lemma greet_calls client t w c s k : traced (W := W) (greet client t) (w, c) = (tt, s, k) →
  s.2 = c ∧ greeting_events k = if bool_decide (t = "") then [] else [Greeted client t].
Proof.
  unfold traced, greet. cbn [fst snd]. case_bool_decide; [by intros [= <- <-]|].
  unfold ebind. rewrite on_world_eq. cbn [WriteMessage recorded_terminals]. rewrite logged_eq.
  cbn [fst snd app]. by intros [= <- <-].
Qed.
Lemma attach_shift client l w c t s rd h : is_Some (c.(TerminalController.heap) !! l) →
  (∀ l' t, Attached client l' t ∉ h) → attach client l (w, c) = (t, s) →
  shift h (c, rd) [Attached client l t] (s.2, rd).
Proof.
  intros [live Hl] Hf. unfold attach, ebind, update_session, get_controller. intros [= <- <-]. cbn.
  rewrite lookup_alter_eq, Hl. exact (shift_attach h c rd l live client Hl Hf).
Qed.
Lemma input_shifts l live payload w c go_on s rd h : write_input l live payload (w, c) = (go_on, s) →
  shifts h (c, rd) (if go_on : bool then []
    else match c.(TerminalController.heap) !! l with
         | Some s => if s.(liveSession.closed) then [] else [Finished l SessionClosed] | None => [] end) (s.2, rd).
Proof.
  unfold write_input, ebind. rewrite on_world_eq.
  destruct (terminal_Write _ payload w) as [[[]|e] w1]; cbn [fst snd].
  - rewrite on_world_eq. intros [= <- <-]. constructor.
  - destruct (closeSession l (w1, c)) as [[] s1] eqn:E. intros [= <- <-].
    eapply finish_shifts; [|exact E]. by left.
Qed.
Lemma receive_shifts l message w c go_on s rd h : is_Some (c.(TerminalController.heap) !! l) →
  receive l message (w, c) = (go_on, s) →
  shifts h (c, rd) (if go_on : bool then []
    else match c.(TerminalController.heap) !! l with
         | Some s => if s.(liveSession.closed) then [] else [Finished l SessionClosed] | None => [] end) (s.2, rd).
Proof.
  intros [live Hl]. unfold receive, ebind at 1, get_controller. rewrite Hl. destruct message as [payload|payload|].
  - unfold ebind. rewrite on_world_eq. destruct (resize _ payload w) as [[] w1]; cbn [fst snd].
    + intros [= <- <-]. constructor.
    + intros E. apply (input_shifts _ _ _ _ _ _ _ rd h) in E. by rewrite Hl in E.
  - intros E. apply (input_shifts _ _ _ _ _ _ _ rd h) in E. by rewrite Hl in E.
  - intros [= <- <-]. constructor.
Qed.
Lemma end_shifts l e w c s rd h : rd !! l = Some (Ending e) → end_session l e (w, c) = (tt, s) →
  shifts h (c, rd) (match c.(TerminalController.heap) !! l with
                    | Some s => if s.(liveSession.closed) then [] else [Finished l (end_status e)] | None => [] end)
    (s.2, delete l rd).
Proof.
  intros Hr E. apply (shifts_cons _ _ (c, delete l rd) _ []); [by eapply shift_stop|]. rewrite app_nil_r.
  destruct e; (eapply finish_shifts; [|exact E]); [by left|by right].
Qed.

(** The goroutines hold sessions that exist. *)
Definition stream_session (s : stream) : nat := match s with Greeting l _ | Streaming l | Leaving l => l end.
Definition grounded (m : machine (W := W)) : Prop :=
  (∀ l r, m.(readers) !! l = Some r → is_Some (live m !! l)) ∧
  (∀ client st, m.(streams) !! client = Some st → is_Some (live m !! stream_session st)).
Definition view_of (m : machine (W := W)) : view := (m.(state).2, m.(readers)).

Lemma step_shifts m m' : grounded m → step m m' →
  ∃ ev, m'.(history) = m.(history) ++ ev ∧ shifts m.(history) (view_of m) ev (view_of m').
Proof.
  intros [Hr Hs] Hstep. destruct m as [[w c] rd st an h]. unfold live, view_of in *. cbn [state readers streams snd] in *.
  destruct Hstep; cbn [state readers streams announcements history snd] in *; unfold finishing, live in *; cbn [state snd] in *.
  - exists []. rewrite app_nil_r. split; [done|]. apply shifts_one. by eapply register_shift.
  - exists []. rewrite app_nil_r. split; [done|]. erewrite register_refused by done. constructor.
  - exists []. rewrite app_nil_r. split; [done|]. unfold announce in *. rewrite on_world_eq in *. simplify_eq. constructor.
  - eexists. split; [done|]. eapply finish_shifts; [|done]. by left.
  - eexists. split; [done|]. apply shifts_one. eapply read_shift; [done| |done]. by eapply Hr.
  - exists []. rewrite app_nil_r. split; [done|]. edestruct Hr as [live Hl]; [done|]. apply shifts_one. by eapply buffer_shift.
  - eexists. split; [done|]. apply shifts_one. by eapply deliver_shift.
  - exists []. rewrite app_nil_r. split; [done|]. apply shifts_one. eapply shift_reader; [done| |by destruct ended].
    intros client. cbn. by rewrite bool_decide_false by set_solver.
  - eexists. split; [done|]. by eapply end_shifts.
  - eexists. split; [done|]. apply shifts_one. by eapply attach_shift.
  - eexists. split; [done|]. apply shifts_one.
    match goal with Ht : traced (greet _ _) _ = _ |- _ => apply greet_calls in Ht as [-> ->] end.
    cbn [snd]. case_bool_decide; [apply shift_none|apply shift_greet].
  - eexists. split; [done|]. eapply receive_shifts; [|done]. by eapply (Hs _ (Streaming l)).
  - exists []. rewrite app_nil_r. split; [done|]. constructor.
  - exists []. rewrite app_nil_r. split; [done|]. apply shifts_one. unfold removeClient, update_session in *.
    simplify_eq. apply shift_leave.
  - exists []. rewrite app_nil_r. split; [done|]. constructor.
Qed.
End simulation.

(** ** What the history says *)
Definition cat (l : list string) : string := foldr (λ s t, s +:+ t) "" l.
Definition outputs (l : nat) (h : list event) : list string :=
  omap (λ e, match e with Output l' payload => if decide (l' = l) then Some payload else None | _ => None end) h.
Definition sent (client : nat) (h : list event) : list string :=
  omap (λ e, match e with Delivered c payload => if decide (c = client) then Some payload else None | _ => None end) h.
Definition endings (l : nat) (h : list event) : list SessionStatus :=
  omap (λ e, match e with Finished l' status => if decide (l' = l) then Some status else None | _ => None end) h.

Lemma cat_app l l' : cat (l ++ l') = cat l +:+ cat l'.
Proof. induction l as [|s l IH]; [done|]. cbn [cat foldr app]. fold (cat (l ++ l')) (cat l). by rewrite IH, str_app_assoc. Qed.
Lemma drop_str_drop n m s : drop_str n (drop_str m s) = drop_str (m + n) s.
Proof.
  revert m. induction s as [|c s IH]; intros m; [by destruct m, n|]. destruct m as [|m]; [done|]. apply IH.
Qed.
Lemma drop_str_app_le n s t : (n ≤ str_length s)%nat → drop_str n (s +:+ t) = drop_str n s +:+ t.
Proof.
  revert s. induction n as [|n IH]; intros [|c s] Hn; cbn in *; [done..|lia|]. apply IH. lia.
Qed.
(** Keeping the end of the kept end and what follows is keeping the end of everything. *)
Lemma last_bytes_app n s t : 0 ≤ n → last_bytes n (last_bytes n s +:+ t) = last_bytes n (s +:+ t).
Proof.
  intros Hn. unfold last_bytes. rewrite !str_length_app, str_length_drop.
  rewrite <- (drop_str_app_le _ s t) by lia. rewrite drop_str_drop. f_equal. lia.
Qed.
Lemma buffered_log payload s : (buffered payload s).(liveSession.log) =
  last_bytes maxTerminalLogBytes (s.(liveSession.log) +:+ payload).
Proof.
  unfold buffered, last_bytes. cbn [liveSession.log set_field]. set (log := _ +:+ payload).
  destruct (maxTerminalLogBytes <? Z.of_nat (str_length log)) eqn:E; [reflexivity|]. apply Z.ltb_ge in E.
  replace (Z.to_nat _) with 0%nat by lia. reflexivity.
Qed.

(** Lookup in the sessions after a change of one. *)
Lemma on_session_lookup l f c l' : (on_session l f c).(TerminalController.heap) !! l' =
  if decide (l' = l) then f <$> c.(TerminalController.heap) !! l else c.(TerminalController.heap) !! l'.
Proof. cbn. destruct (decide (l' = l)) as [-> | Hne]; [apply lookup_alter_eq|by apply lookup_alter_ne]. Qed.

Lemma pending_in_hand r : (∀ client, pending r client = []) → in_hand r = [].
Proof. intros Hp. destruct r as [[]|]; try done. by specialize (Hp 0%nat). Qed.

(** The log of a session is the end of its output, but for a piece that was just read. *)
Record logged_output (h : list event) (v : view) : Prop := {
  log_exact l s : v.1.(TerminalController.heap) !! l = Some s →
    ∃ published, outputs l h = published ++ in_hand (v.2 !! l) ∧
      s.(liveSession.log) = last_bytes maxTerminalLogBytes (cat published);
  log_unknown l : v.1.(TerminalController.heap) !! l = None →
    outputs l h = [] ∧ endings l h = [] ∧ v.2 !! l = None
}.

Lemma outputs_app l h h' : outputs l (h ++ h') = outputs l h ++ outputs l h'.
Proof. apply omap_app. Qed.
Lemma sent_app client h h' : sent client (h ++ h') = sent client h ++ sent client h'.
Proof. apply omap_app. Qed.
Lemma endings_app l h h' : endings l (h ++ h') = endings l h ++ endings l h'.
Proof. apply omap_app. Qed.

(** A change that is no output, after which every session has the log it had. *)
Lemma logged_same h ev v v' : logged_output h v → (∀ l, outputs l ev = []) →
  (∀ l s', v'.1.(TerminalController.heap) !! l = Some s' →
     ∃ s, v.1.(TerminalController.heap) !! l = Some s ∧ s'.(liveSession.log) = s.(liveSession.log)) →
  (∀ l, in_hand (v'.2 !! l) = in_hand (v.2 !! l)) →
  (∀ l, v'.1.(TerminalController.heap) !! l = None →
     v.1.(TerminalController.heap) !! l = None ∧ endings l ev = [] ∧ (v.2 !! l = None → v'.2 !! l = None)) →
  logged_output (h ++ ev) v'.
Proof.
  intros [Hl Hu] He Hs Hh Hn. split.
  - intros l s' (s & E & ->)%Hs. rewrite outputs_app, He, app_nil_r, Hh. by apply Hl.
  - intros l (E & Hend & Hr)%Hn. rewrite outputs_app, endings_app, He, Hend, !app_nil_r.
    destruct (Hu l E) as (? & ? & ?). eauto.
Qed.
(** A change of one session that keeps its log. *)
Lemma altered_same (f : liveSession → liveSession) l (heap : gmap nat liveSession) l' s' :
  (∀ s, (f s).(liveSession.log) = s.(liveSession.log)) → alter f l heap !! l' = Some s' →
  ∃ s, heap !! l' = Some s ∧ s'.(liveSession.log) = s.(liveSession.log).
Proof.
  intros Hf [(-> & s & -> & ->) | [_ E]]%lookup_alter_Some; eauto.
Qed.
Lemma in_hand_insert (rd : gmap nat reader) l r r' l' : rd !! l = Some r → in_hand (Some r') = in_hand (Some r) →
  in_hand (<[l := r']> rd !! l') = in_hand (rd !! l').
Proof.
  intros Hr He. destruct (decide (l = l')) as [<- | Hne]; [|by rewrite lookup_insert_ne].
  by rewrite lookup_insert_eq, Hr.
Qed.
Lemma shift_logged h v ev v' : shift h v ev v' → logged_output h v → logged_output (h ++ ev) v'.
Proof.
  intros Hs Hv. pose proof Hv as [Hl Hu]. destruct Hs; cbn [fst snd] in *.
  - by rewrite app_nil_r.
  - eapply logged_same; [done..| | |]; cbn [fst snd]; eauto.
  - split; cbn [fst snd].
    + intros l' s' E. rewrite outputs_app. cbn [outputs omap list_omap]. destruct (decide (l' = l)) as [-> | Hne].
      * rewrite decide_True, lookup_insert_eq by done. cbn [in_hand]. destruct (Hl _ _ E) as (pub & Ho & Hlog).
        exists pub. rewrite H in Ho. cbn [in_hand] in Ho. by rewrite Ho, app_nil_r.
      * rewrite decide_False, lookup_insert_ne, app_nil_r by done. by apply Hl.
    + intros l' E. assert (l ≠ l') by congruence. rewrite outputs_app, endings_app. destruct (Hu l' E) as (-> & -> & Hn).
      cbn. rewrite decide_False, lookup_insert_ne by done. done.
  - eapply logged_same; [done..| | |]; cbn [fst snd]; [eauto| |].
    + intros l'. eapply in_hand_insert; [done|]. by rewrite !pending_in_hand.
    + intros l' E. split_and!; [done..|]. intros E'. by rewrite lookup_insert_ne by (intros ->; congruence).
  - eapply logged_same; [done..| | |]; cbn [fst snd]; [eauto| |].
    + intros l'. destruct (decide (l = l')) as [<- | Hne]; [by rewrite lookup_delete_eq, H|by rewrite lookup_delete_ne].
    + intros l' E. split_and!; [done..|]. intros E'. by apply lookup_delete_None; right.
  - rewrite app_nil_r. split; cbn [fst snd TerminalController.heap].
    + intros l' s' [[<- <-] | [Hne E]]%lookup_insert_Some.
      * rewrite lookup_insert_eq. exists []. by rewrite (proj1 (Hu l H)).
      * rewrite lookup_insert_ne by done. by apply Hl.
    + intros l' [Hn Hne]%lookup_insert_None. rewrite lookup_insert_ne by done. by apply Hu.
  - rewrite app_nil_r. split; cbn [fst snd on_session TerminalController.heap].
    + intros l' s' [(-> & s1 & E1 & ->) | [Hne E]]%lookup_alter_Some.
      * destruct (Hl _ _ E1) as (pub & Ho & Hlog). rewrite H in Ho. cbn [in_hand] in Ho.
        rewrite lookup_insert_eq. exists (pub ++ [payload]). cbn [in_hand]. rewrite app_nil_r. split; [done|].
        rewrite buffered_log, Hlog, cat_app. cbn [cat foldr]. rewrite str_app_nil_r. by apply last_bytes_app.
      * rewrite lookup_insert_ne by done. by apply Hl.
    + intros l' E%lookup_alter_None. destruct (Hu l' E) as (-> & -> & Hn).
      assert (l ≠ l') by congruence. by rewrite lookup_insert_ne.
  - eapply logged_same; [done..| | |]; cbn [fst snd]; [eauto|intros l'; by eapply in_hand_insert|].
    intros l' E. split_and!; [done..|]. intros E'. by rewrite lookup_insert_ne by (intros ->; congruence).
  - eapply logged_same; [done..| | |]; cbn [fst snd on_session TerminalController.heap].
    + intros l' s'. by apply altered_same.
    + intros l'. by eapply in_hand_insert.
    + intros l' E%lookup_alter_None. split_and!; [done..|]. intros E'.
      by rewrite lookup_insert_ne by (intros ->; congruence).
  - eapply logged_same; [done..| |done|]; cbn [fst snd TerminalController.heap].
    + intros l' s'. by apply altered_same.
    + intros l' E%lookup_alter_None. split_and!; [done| |done]. cbn. destruct (decide (l = l')); [congruence|done].
  - eapply logged_same; [done..| |done|]; cbn [fst snd on_session TerminalController.heap].
    + intros l' s'. by apply altered_same.
    + intros l' E%lookup_alter_None. by split_and!.
  - eapply logged_same; [done..| |done|]; cbn [fst snd on_session TerminalController.heap].
    + intros l' s'. by apply altered_same.
    + intros l' E%lookup_alter_None. by split_and!.
Qed.

(** A browser that is attached was given the end of the output so far and everything
    after it. *)
Record streamed (h : list event) (v : view) : Prop := {
  attached_once client l t l' t' : Attached client l t ∈ h → Attached client l' t' ∈ h → l = l' ∧ t = t';
  remaining_attached l payload remaining ended client :
    v.2 !! l = Some (Delivering payload remaining ended) → client ∈ remaining → ∃ t, Attached client l t ∈ h;
  delivered_attached client payload : Delivered client payload ∈ h → ∃ l t, Attached client l t ∈ h;
  stream_exact l s client : v.1.(TerminalController.heap) !! l = Some s → client ∈ s.(liveSession.clients) →
    ∃ t before, Attached client l t ∈ h ∧ t = last_bytes maxTerminalLogBytes (cat before) ∧
      outputs l h = before ++ sent client h ++ pending (v.2 !! l) client
}.
Definition is_quiet (e : event) : Prop :=
  match e with Output _ _ | Attached _ _ _ | Delivered _ _ => False | Greeted _ _ | Finished _ _ => True end.

Lemma quiet_outputs ev l : Forall is_quiet ev → outputs l ev = [].
Proof. induction 1 as [|e ev He _ IH]; [done|]. by destruct e. Qed.
Lemma quiet_sent ev client : Forall is_quiet ev → sent client ev = [].
Proof. induction 1 as [|e ev He _ IH]; [done|]. by destruct e. Qed.
Lemma quiet_old h ev e : Forall is_quiet ev → e ∈ h ++ ev → e ∈ h ∨ is_quiet e.
Proof. intros Hq [?|Hin]%elem_of_app; [by left|]. rewrite Forall_forall in Hq. right. by apply Hq. Qed.

(** A change that sends nothing and attaches nobody. *)
Lemma streamed_same h ev v v' : streamed h v → Forall is_quiet ev →
  (∀ l s' client, v'.1.(TerminalController.heap) !! l = Some s' → client ∈ s'.(liveSession.clients) →
     (∃ s, v.1.(TerminalController.heap) !! l = Some s ∧ client ∈ s.(liveSession.clients)) ∧
     pending (v'.2 !! l) client = pending (v.2 !! l) client) →
  (∀ l payload remaining ended client, v'.2 !! l = Some (Delivering payload remaining ended) → client ∈ remaining →
     ∃ remaining', v.2 !! l = Some (Delivering payload remaining' ended) ∧ client ∈ remaining') →
  streamed (h ++ ev) v'.
Proof.
  intros [Ho Hr Hd Hx] Hq Hc Hrem. split.
  - intros client l t l' t' [H1 | []]%(quiet_old h ev) [H2 | []]%(quiet_old h ev); [by apply (Ho client)|done..].
  - intros l payload remaining ended client E Hin. destruct (Hrem _ _ _ _ _ E Hin) as (rem' & E' & Hin').
    destruct (Hr _ _ _ _ _ E' Hin') as [t Ht]. exists t. set_solver.
  - intros client payload [(l & t & Ht)%Hd | []]%(quiet_old h ev); [exists l, t; set_solver|done].
  - intros l s' client E Hin. destruct (Hc _ _ _ E Hin) as [(s & Es & Hs) Hp].
    destruct (Hx _ _ _ Es Hs) as (t & before & Ht & Hb & Ex). exists t, before.
    rewrite outputs_app, sent_app, (quiet_outputs ev), (quiet_sent ev), !app_nil_r, Hp by done. split_and!; [set_solver|done..].
Qed.

Lemma pending_insert (rd : gmap nat reader) l r l' client :
  (∀ r0, rd !! l = Some r0 → pending (Some r) client = pending (Some r0) client) → is_Some (rd !! l) →
  pending (<[l := r]> rd !! l') client = pending (rd !! l') client.
Proof.
  intros Hp [r0 Hr]. destruct (decide (l = l')) as [<- | Hne]; [|by rewrite lookup_insert_ne].
  rewrite lookup_insert_eq, Hr. by apply Hp.
Qed.

Lemma read_streamed h c rd l s payload ended : streamed h (c, rd) →
  rd !! l = Some Reading → c.(TerminalController.heap) !! l = Some s →
  streamed (h ++ [Output l payload]) (c, <[l := Logged payload ended]> rd).
Proof.
  intros [Ho Hr Hd Hx] Hrd Hs. cbn [fst snd] in *.
  assert (∀ client l' t, Attached client l' t ∈ h ++ [Output l payload] → Attached client l' t ∈ h) as Hold.
  { intros client l' t [?|[=]%list_elem_of_singleton]%elem_of_app. done. }
  split; cbn [fst snd].
  - intros client l1 t1 l2 t2 ?%Hold ?%Hold. by apply (Ho client).
  - intros l' p rem e client [[<- [=]] | [Hne E]]%lookup_insert_Some Hin.
    destruct (Hr _ _ _ _ _ E Hin) as [t Ht]. exists t. set_solver.
  - intros client p [(l' & t & Ht)%Hd | [=]%list_elem_of_singleton]%elem_of_app. exists l', t. set_solver.
  - intros l' s' client E Hin. rewrite outputs_app, sent_app; cbn [outputs sent omap list_omap].
    destruct (Hx _ _ _ E Hin) as (t & before & Ht & Hb & Ex). exists t, before. split_and!; [set_solver|done|].
    rewrite Ex. destruct (decide (l = l')) as [<- | Hne].
    + rewrite lookup_insert_eq, Hrd. cbn [pending]. by rewrite !app_nil_r, app_assoc.
    + by rewrite lookup_insert_ne, !app_nil_r by done.
Qed.
Lemma buffer_streamed h c rd l payload ended s : streamed h (c, rd) →
  rd !! l = Some (Logged payload ended) → c.(TerminalController.heap) !! l = Some s →
  streamed h (on_session l (buffered payload) c, <[l := Delivering payload s.(liveSession.clients) ended]> rd).
Proof.
  intros [Ho Hr Hd Hx] Hrd Hs. cbn [fst snd] in *.
  split; cbn [fst snd on_session TerminalController.heap]; [done| |done|].
  - intros l' p rem e client [[<- [= <- <- <-]] | [Hne E]]%lookup_insert_Some Hin; [|by eapply Hr].
    destruct (Hx _ _ _ Hs Hin) as (t & _ & Ht & _). by exists t.
  - intros l' s' client [(-> & s1 & E1 & ->) | [Hne E]]%lookup_alter_Some Hin.
    + rewrite lookup_insert_eq. simplify_eq. destruct (Hx _ _ _ Hs Hin) as (t & before & Ht & Hb & Ex).
      exists t, before. split_and!; [done..|]. rewrite Ex, Hrd. cbn [pending]. by rewrite bool_decide_true by done.
    + rewrite lookup_insert_ne by done. by apply (Hx _ _ _ E).
Qed.
Lemma deliver_streamed h c rd l payload remaining ended client : streamed h (c, rd) →
  rd !! l = Some (Delivering payload remaining ended) → client ∈ remaining →
  streamed (h ++ [Delivered client payload]) (c, <[l := Delivering payload (remaining ∖ {[client]}) ended]> rd).
Proof.
  intros [Ho Hr Hd Hx] Hrd Hin. cbn [fst snd] in *. destruct (Hr _ _ _ _ _ Hrd Hin) as [t0 Ht0].
  assert (∀ client' l' t, Attached client' l' t ∈ h ++ [Delivered client payload] → Attached client' l' t ∈ h) as Hold.
  { intros client' l' t [?|[=]%list_elem_of_singleton]%elem_of_app. done. }
  split; cbn [fst snd].
  - intros client' l1 t1 l2 t2 ?%Hold ?%Hold. by apply (Ho client').
  - intros l' p rem e client' [[<- [= <- <- <-]] | [Hne E]]%lookup_insert_Some Hin'.
    + destruct (Hr _ _ _ _ client' Hrd) as [t Ht]; [set_solver|]. exists t. set_solver.
    + destruct (Hr _ _ _ _ _ E Hin') as [t Ht]. exists t. set_solver.
  - intros client' p [(l' & t & Ht)%Hd | [= -> ->]%list_elem_of_singleton]%elem_of_app;
      [exists l', t|exists l, t0]; set_solver.
  - intros l' s' client' E Hin'. rewrite outputs_app, sent_app. cbn [outputs sent omap list_omap].
    destruct (Hx _ _ _ E Hin') as (t & before & Ht & Hb & Ex). exists t, before.
    split_and!; [set_solver|done|]. rewrite app_nil_r, Ex. f_equal.
    destruct (decide (client = client')) as [<- | Hne].
    + destruct (Ho _ _ _ _ _ Ht Ht0) as [-> _]. rewrite lookup_insert_eq, Hrd. cbn [pending].
      rewrite bool_decide_true, bool_decide_false by set_solver. by rewrite app_nil_r.
    + rewrite app_nil_r. f_equal. symmetry. apply pending_insert; [|eauto]. intros r0 E0. simplify_eq. cbn [pending].
      apply (f_equal (λ b : bool, if b then _ else _)), bool_decide_ext. set_solver.
Qed.
Lemma attach_streamed h c rd l s client : logged_output h (c, rd) → streamed h (c, rd) →
  c.(TerminalController.heap) !! l = Some s → (∀ l' t, Attached client l' t ∉ h) →
  streamed (h ++ [Attached client l s.(liveSession.log)]) (on_session l (attached client) c, rd).
Proof.
  intros [Hl _] [Ho Hr Hd Hx] Hs Hf. cbn [fst snd] in *.
  assert (∀ client' l' t, Attached client' l' t ∈ h ++ [Attached client l s.(liveSession.log)] →
    Attached client' l' t ∈ h ∨ client' = client ∧ l' = l ∧ t = s.(liveSession.log)) as Hold.
  { intros client' l' t [?|[= -> -> ->]%list_elem_of_singleton]%elem_of_app; auto. }
  assert (sent client h = []) as Hnone.
  { destruct (sent client h) as [|p ps] eqn:E; [done|]. assert (p ∈ sent client h) as Hin by (rewrite E; left).
    apply list_elem_of_omap in Hin as ([] & Hin & Ep); try done. case_decide; [|done]. simplify_eq.
    destruct (Hd _ _ Hin) as (l' & t & Ht). by destruct (Hf l' t). }
  split; cbn [fst snd on_session TerminalController.heap].
  - intros client' l1 t1 l2 t2 [H1|(E1 & E2 & E3)]%Hold [H2|(E4 & E5 & E6)]%Hold;
      [by apply (Ho client')|subst; by edestruct Hf..|by subst].
  - intros l' p rem e client' E Hin. destruct (Hr _ _ _ _ _ E Hin) as [t Ht]. exists t. set_solver.
  - intros client' p [(l' & t & Ht)%Hd | [=]%list_elem_of_singleton]%elem_of_app. exists l', t. set_solver.
  - intros l' s' client' E Hin. rewrite outputs_app, sent_app. cbn [outputs sent omap list_omap]. rewrite !app_nil_r.
    assert (client' = client ∧ l' = l ∨ ∃ s1, c.(TerminalController.heap) !! l' = Some s1 ∧ client' ∈ s1.(liveSession.clients))
      as [[-> ->] | (s1 & E1 & Hin1)].
    { apply lookup_alter_Some in E as [(-> & s1 & E1 & ->) | [_ E1]]; [|eauto].
      cbn in Hin. apply elem_of_union in Hin as [->%elem_of_singleton | ?]; eauto. }
    + destruct (Hl _ _ Hs) as (published & Hp & Hlog). exists s.(liveSession.log), published.
      split_and!; [set_solver|done|]. rewrite Hnone, Hp. cbn [app]. f_equal.
      destruct (rd !! l) as [r|] eqn:Er; [|done]. destruct r; cbn [pending in_hand]; try done.
      rewrite bool_decide_false; [done|]. intros Hrem. destruct (Hr _ _ _ _ _ Er Hrem) as [t Ht]. by destruct (Hf l t).
    + destruct (Hx _ _ _ E1 Hin1) as (t & before & Ht & Hb & Ex). exists t, before. split_and!; [set_solver|done..].
Qed.

Lemma altered_clients (f : liveSession → liveSession) l (heap : gmap nat liveSession) l' s' client :
  (∀ s, (f s).(liveSession.clients) ⊆ s.(liveSession.clients)) → alter f l heap !! l' = Some s' →
  client ∈ s'.(liveSession.clients) → ∃ s, heap !! l' = Some s ∧ client ∈ s.(liveSession.clients).
Proof.
  intros Hf [(-> & s & -> & ->) | [_ E]]%lookup_alter_Some Hin; [|eauto]. exists s. split; [done|]. by apply Hf.
Qed.

Lemma shift_streamed h v ev v' : shift h v ev v' → logged_output h v → streamed h v → streamed (h ++ ev) v'.
Proof.
  intros Hs Hl Hv. destruct Hs.
  - by rewrite app_nil_r.
  - eapply streamed_same; [done|by repeat constructor|eauto..].
  - by eapply read_streamed.
  - eapply streamed_same; [done|constructor|..]; cbn [fst snd].
    + intros l' s' client E Hin. split; [eauto|]. apply pending_insert; [|eauto]. intros r0 E0. simplify_eq.
      by rewrite H0, H1.
    + intros l' p rem e client [[<- ->] | [Hne E]]%lookup_insert_Some Hin; [|eauto].
      specialize (H1 client). cbn in H1. by rewrite bool_decide_true in H1.
  - eapply streamed_same; [done|constructor|..]; cbn [fst snd].
    + intros l' s' client E Hin. split; [eauto|]. destruct (decide (l = l')) as [<- | Hne].
      * by rewrite lookup_delete_eq, H.
      * by rewrite lookup_delete_ne.
    + intros l' p rem e' client [Hne E]%lookup_delete_Some Hin. eauto.
  - assert (rd !! l = None) as Hrd by (by apply (log_unknown _ _ Hl l)).
    eapply streamed_same; [done|constructor|..]; cbn [fst snd TerminalController.heap].
    + intros l' s' client [[<- <-] | [Hne E]]%lookup_insert_Some Hin; [by apply not_elem_of_empty in Hin|].
      rewrite lookup_insert_ne by done. eauto.
    + intros l' p rem e client [[<- [=]] | [Hne E]]%lookup_insert_Some Hin. eauto.
  - rewrite app_nil_r. by apply buffer_streamed.
  - by apply deliver_streamed.
  - eapply streamed_same; [done|constructor|..]; cbn [fst snd on_session TerminalController.heap].
    + intros l' s' client' E Hin. split; [eapply altered_clients; [|done..]; intros s; cbn; set_solver|].
      destruct (decide (l = l')) as [<- | Hne]; [|by rewrite lookup_insert_ne].
      rewrite lookup_insert_eq, H. cbn [pending]. apply lookup_alter_Some in E as [(_ & s & Es & ->) | [? _]]; [|done].
      cbn in Hin. apply (f_equal (λ b : bool, if b then _ else _)), bool_decide_ext. set_solver.
    + intros l' p rem e client' [[<- [= <- <- <-]] | [Hne E]]%lookup_insert_Some Hin; [|eauto].
      exists remaining. split; [done|set_solver].
  - eapply streamed_same; [done|by repeat constructor|..]; cbn [fst snd TerminalController.heap]; [|eauto].
    intros l' s' client E Hin. split; [|done]. eapply altered_clients; [|done..]. intros s0. reflexivity.
  - by eapply attach_streamed.
  - eapply streamed_same; [done|constructor|..]; cbn [fst snd on_session TerminalController.heap]; [|eauto].
    intros l' s' client' E Hin. split; [|done]. eapply altered_clients; [|done..]. intros s; cbn; set_solver.
Qed.

(** ** The life of a session *)
Record settled_sessions (h : list event) (v : view) : Prop := {
  session_status l s : v.1.(TerminalController.heap) !! l = Some s →
    if s.(liveSession.closed)
    then endings l h = [s.(liveSession.value).(ConsoleSession.Status)] ∧
         is_ending s.(liveSession.value).(ConsoleSession.Status) ∧
         is_Some s.(liveSession.value).(ConsoleSession.FinishedAt)
    else endings l h = [] ∧ s.(liveSession.value).(ConsoleSession.Status) = SessionConnected ∧
         v.1.(TerminalController.sessions) !! s.(liveSession.value).(ConsoleSession.ID) = Some l;
  session_listed id l : v.1.(TerminalController.sessions) !! id = Some l →
    ∃ s, v.1.(TerminalController.heap) !! l = Some s ∧ s.(liveSession.closed) = false ∧
      s.(liveSession.value).(ConsoleSession.ID) = id;
  session_ids l s l' s' : v.1.(TerminalController.heap) !! l = Some s → v.1.(TerminalController.heap) !! l' = Some s' →
    s.(liveSession.value).(ConsoleSession.ID) = s'.(liveSession.value).(ConsoleSession.ID) → l = l'
}.

(** A change that opens and ends no session. *)
Lemma settled_same h ev v v' : settled_sessions h v → (∀ l, endings l ev = []) →
  v'.1.(TerminalController.sessions) = v.1.(TerminalController.sessions) →
  (∀ l, (λ s, (s.(liveSession.value), s.(liveSession.closed))) <$> v'.1.(TerminalController.heap) !! l =
        (λ s, (s.(liveSession.value), s.(liveSession.closed))) <$> v.1.(TerminalController.heap) !! l) →
  settled_sessions (h ++ ev) v'.
Proof.
  intros [Hst Hli Hid] He Hs Hh.
  assert (∀ l s', v'.1.(TerminalController.heap) !! l = Some s' → ∃ s, v.1.(TerminalController.heap) !! l = Some s ∧
    s.(liveSession.value) = s'.(liveSession.value) ∧ s.(liveSession.closed) = s'.(liveSession.closed)) as Hback.
  { intros l s' E. specialize (Hh l). rewrite E in Hh. destruct (v.1.(TerminalController.heap) !! l) as [s|]; [|done].
    cbn in Hh. exists s. split; [done|]. by injection Hh. }
  split.
  - intros l s' (s & E & Ev & Ec)%Hback. rewrite endings_app, He, app_nil_r, Hs, <- Ev, <- Ec. by apply Hst.
  - intros id l E. rewrite Hs in E. destruct (Hli _ _ E) as (s & Es & Ec & Ei). specialize (Hh l). rewrite Es in Hh.
    destruct (v'.1.(TerminalController.heap) !! l) as [s'|]; [|done]. injection Hh as Ev Ec'. exists s'. by rewrite Ev, Ec'.
  - intros l1 s1 l2 s2 (s1' & E1 & <- & _)%Hback (s2' & E2 & <- & _)%Hback. by eapply Hid.
Qed.
Lemma same_sessions (f : liveSession → liveSession) l (heap : gmap nat liveSession) l' :
  (∀ s, (f s).(liveSession.value) = s.(liveSession.value) ∧ (f s).(liveSession.closed) = s.(liveSession.closed)) →
  (λ s, (s.(liveSession.value), s.(liveSession.closed))) <$> alter f l heap !! l' =
  (λ s, (s.(liveSession.value), s.(liveSession.closed))) <$> heap !! l'.
Proof.
  intros Hf. destruct (decide (l' = l)) as [-> | Hne]; [|by rewrite lookup_alter_ne]. rewrite lookup_alter_eq.
  destruct (heap !! l) as [s|]; [|done]. cbn. by destruct (Hf s) as [-> ->].
Qed.

Lemma open_settled h c rd l value terminal environment : logged_output h (c, rd) → settled_sessions h (c, rd) →
  c.(TerminalController.heap) !! l = None → value.(ConsoleSession.Status) = SessionConnected →
  (∀ l' s', c.(TerminalController.heap) !! l' = Some s' →
     s'.(liveSession.value).(ConsoleSession.ID) ≠ value.(ConsoleSession.ID)) →
  settled_sessions h ({|
    TerminalController.sessions := <[value.(ConsoleSession.ID) := l]> c.(TerminalController.sessions);
    TerminalController.heap := <[l := liveSession.mk value terminal environment "" ∅ false]> c.(TerminalController.heap) |},
    <[l := Reading]> rd).
Proof.
  intros Hl [Hst Hli Hid] Hn Hv Hf. cbn [fst snd] in *.
  split; cbn [fst snd TerminalController.heap TerminalController.sessions].
  - intros l' s' [[<- <-] | [Hne E]]%lookup_insert_Some.
    + cbn [liveSession.closed liveSession.value]. rewrite lookup_insert_eq. split_and!; [|done..].
      by apply (log_unknown _ _ Hl l).
    + specialize (Hst _ _ E). destruct s'.(liveSession.closed); [done|].
      by rewrite lookup_insert_ne by (symmetry; by eapply Hf).
  - intros id l' [[<- <-] | [Hne E]]%lookup_insert_Some; [rewrite lookup_insert_eq; eauto|].
    destruct (Hli _ _ E) as (s & Es & Hc). exists s. by rewrite lookup_insert_ne by (intros ->; congruence).
  - intros l1 s1 l2 s2 [[<- <-] | [H1 E1]]%lookup_insert_Some [[<- <-] | [H2 E2]]%lookup_insert_Some Heq;
      [done| | |by eapply Hid]; cbn [liveSession.value] in Heq.
    + by destruct (Hf _ _ E2).
    + by destruct (Hf _ _ E1).
Qed.
Lemma finish_settled h c rd l s value : settled_sessions h (c, rd) →
  c.(TerminalController.heap) !! l = Some s → s.(liveSession.closed) = false →
  value.(ConsoleSession.ID) = s.(liveSession.value).(ConsoleSession.ID) →
  is_ending value.(ConsoleSession.Status) → is_Some value.(ConsoleSession.FinishedAt) →
  settled_sessions (h ++ [Finished l value.(ConsoleSession.Status)]) ({|
    TerminalController.sessions := delete value.(ConsoleSession.ID) c.(TerminalController.sessions);
    TerminalController.heap := alter (ended_session value) l c.(TerminalController.heap) |}, rd).
Proof.
  intros [Hst Hli Hid] Hs Hc Hv He Hf. cbn [fst snd] in *.
  split; cbn [fst snd TerminalController.heap TerminalController.sessions].
  - intros l' s'. rewrite endings_app. cbn [endings omap list_omap].
    intros [(-> & s1 & E1 & ->) | [Hne E]]%lookup_alter_Some.
    + cbn. rewrite decide_True by done. simplify_eq. specialize (Hst _ _ Hs). rewrite Hc in Hst.
      by destruct Hst as (-> & _).
    + rewrite decide_False, app_nil_r by done. specialize (Hst _ _ E). destruct s'.(liveSession.closed); [done|].
      rewrite lookup_delete_ne; [done|]. rewrite Hv. intros Heq. by destruct Hne; eapply Hid.
  - intros id l' [Hne E]%lookup_delete_Some. destruct (Hli _ _ E) as (s1 & E1 & Hc1 & Hi1).
    assert (l ≠ l') as Hll by (intros <-; simplify_eq; congruence). exists s1. by rewrite lookup_alter_ne.
  - assert (∀ l0 s0, alter (ended_session value) l c.(TerminalController.heap) !! l0 = Some s0 →
      ∃ s1, c.(TerminalController.heap) !! l0 = Some s1 ∧
        s1.(liveSession.value).(ConsoleSession.ID) = s0.(liveSession.value).(ConsoleSession.ID)) as Hback.
    { intros l0 s0 [(-> & s1 & E1 & ->) | [_ E]]%lookup_alter_Some; [|eauto]. simplify_eq. by exists s. }
    intros l1 s1 l2 s2 (s1' & E1 & <-)%Hback (s2' & E2 & <-)%Hback. by eapply Hid.
Qed.
Lemma shift_settled h v ev v' : shift h v ev v' → logged_output h v → settled_sessions h v →
  settled_sessions (h ++ ev) v'.
Proof.
  intros Hs Hl Hv. destruct Hs; [..|].
  - by rewrite app_nil_r.
  - by eapply settled_same.
  - by eapply settled_same.
  - by eapply settled_same.
  - by eapply settled_same.
  - rewrite app_nil_r. by apply open_settled.
  - eapply settled_same; [done..|]. intros l'. by apply same_sessions.
  - by eapply settled_same.
  - eapply settled_same; [done..|]. intros l'. by apply same_sessions.
  - by eapply (finish_settled h c rd l s value).
  - eapply settled_same; [done..|]. intros l'. by apply same_sessions.
  - eapply settled_same; [done..|]. intros l'. by apply same_sessions.
Qed.

(** ** Every interleaving *)
Section reachability.
Context `{ConsoleTargets W, Terminals W, ConsoleSessionLogStore W, ResizeJSON}.
Context `{AuditStore W, WallClock W, FreshIDs W}.
Implicit Types m : machine (W := W).

Definition consistent h v : Prop := logged_output h v ∧ streamed h v ∧ settled_sessions h v.
Lemma shifts_consistent h v ev v' : shifts h v ev v' → consistent h v → consistent (h ++ ev) v'.
Proof.
  induction 1 as [h v|h v v' v'' ev ev' Hs _ IH]; intros (Hl & Hst & Hse); [by rewrite app_nil_r|].
  rewrite app_assoc. apply IH. split_and!.
  - by eapply shift_logged.
  - by eapply shift_streamed.
  - by eapply shift_settled.
Qed.
(** No session is forgotten. *)
Lemma shift_grows h v ev v' l : shift h v ev v' → is_Some (v.1.(TerminalController.heap) !! l) →
  is_Some (v'.1.(TerminalController.heap) !! l).
Proof.
  intros Hs Hl. destruct Hs; cbn [fst on_session TerminalController.heap] in *; try done;
    first [by apply lookup_insert_is_Some'; right|by apply lookup_alter_is_Some].
Qed.
Lemma shifts_grow h v ev v' l : shifts h v ev v' → is_Some (v.1.(TerminalController.heap) !! l) →
  is_Some (v'.1.(TerminalController.heap) !! l).
Proof. induction 1 as [|h v v' v'' ev ev' Hs _ IH]; [done|]. intros Hl. eapply IH, shift_grows; eauto. Qed.
Lemma register_live request (st : W * TerminalController) value environment l s :
  register request st = (Ok (value, environment, l), s) → is_Some (s.2.(TerminalController.heap) !! l).
Proof.
  destruct st as [w c]. unfold register, ebindr. rewrite on_world_eq.
  destruct (connect request w) as [[[[value' terminal] env]|e] w1]; cbn [fst snd]; [|done].
  intros [= _ _ <- <-]. cbn [snd TerminalController.heap]. rewrite lookup_insert_eq. eauto.
Qed.
Lemma step_grounded m m' : grounded m → step m m' → grounded m'.
Proof.
  intros Hg Hstep. destruct (step_shifts _ _ Hg Hstep) as (ev & _ & Hsh). destruct Hg as [Hr Hs].
  assert (∀ l, is_Some (live m !! l) → is_Some (live m' !! l)) as Hgrow by (intros l; exact (shifts_grow _ _ _ _ l Hsh)).
  assert (∀ l r, m'.(readers) !! l = Some r → is_Some (m.(readers) !! l) ∨ is_Some (live m' !! l)) as Hr'.
  { destruct Hstep; cbn [readers]; intros l' r'; rewrite ?lookup_insert_Some, ?lookup_delete_Some;
      try (intros; naive_solver). intros [[<- _] | [_ ?]]; [right; by eapply register_live|eauto]. }
  assert (∀ client st, m'.(streams) !! client = Some st → is_Some (live m !! stream_session st)) as Hs'.
  { destruct Hstep; cbn [streams]; intros client' st'; rewrite ?lookup_insert_Some, ?lookup_delete_Some;
      try (by apply Hs); try (intros [_ ?]; by eapply Hs);
      intros [[<- <-] | [_ ?]]; try (by eapply Hs); try destruct go_on; try done;
      eapply (Hs _ _ ltac:(eassumption)). }
  split.
  - intros l r [[r0 E]|?]%Hr'; [|done]. eapply Hgrow, Hr, E.
  - intros client st E. by eapply Hgrow, Hs'.
Qed.
Lemma reachable_consistent w m : reachable w m → grounded m ∧ consistent m.(history) (view_of m).
Proof.
  induction 1 as [|m m' _ [Hg Hc] Hstep].
  - split; [split; set_solver|]. split_and!; split; cbn [fst snd view_of state readers history]; set_solver.
  - split; [by eapply step_grounded|]. destruct (step_shifts _ _ Hg Hstep) as (ev & -> & Hs).
    by eapply shifts_consistent.
Qed.
(** What was written to a browser as its history, and the history it is still to be sent. *)
Definition greetings (client : nat) (h : list event) : list string :=
  omap (λ e, match e with Greeted c t => if decide (c = client) then Some t else None | _ => None end) h.
Definition greeting (st : option stream) : option (nat * string) :=
  match st with Some (Greeting l t) => Some (l, t) | _ => None end.
Record greeted (h : list event) (st : gmap nat stream) : Prop := {
  greeted_once client l t : Attached client l t ∈ h →
    greetings client h = if greeting (st !! client) then [] else if bool_decide (t = "") then [] else [t];
  greeting_attached client l t : greeting (st !! client) = Some (l, t) → Attached client l t ∈ h;
  greeted_nobody client : (∀ l t, Attached client l t ∉ h) → greetings client h = [] ∧ greeting (st !! client) = None
}.
Lemma greetings_app client h h' : greetings client (h ++ h') = greetings client h ++ greetings client h'.
Proof. apply omap_app. Qed.
(** Events that attach and greet nobody. *)
Definition unrelated (e : event) : Prop := match e with Attached _ _ _ | Greeted _ _ => False | _ => True end.
Lemma unrelated_greetings ev client : Forall unrelated ev → greetings client ev = [].
Proof. induction 1 as [|e ev He _ IH]; [done|]. by destruct e. Qed.
Lemma unrelated_attached h ev client l t : Forall unrelated ev → Attached client l t ∈ h ++ ev ↔ Attached client l t ∈ h.
Proof.
  intros Hq. rewrite elem_of_app. split; [|by left]. intros [?|Hin]; [done|].
  rewrite Forall_forall in Hq. by destruct (Hq _ Hin).
Qed.
Lemma greeted_same h ev st st' : greeted h st → Forall unrelated ev →
  (∀ client, greeting (st' !! client) = greeting (st !! client)) → greeted (h ++ ev) st'.
Proof.
  intros [Gonce Gatt Gnone] Hq Hs. split; intros client.
  - intros l t Ha%unrelated_attached; [|done]. rewrite greetings_app, (unrelated_greetings ev), app_nil_r, Hs by exact Hq. eapply Gonce, Ha.
  - intros l t. rewrite Hs, unrelated_attached by done. apply Gatt.
  - intros Hn. rewrite greetings_app, (unrelated_greetings ev), app_nil_r, Hs by done. apply Gnone. intros l t Ht.
    apply (Hn l t). by apply unrelated_attached.
Qed.
Lemma greeted_attach h st client l t : greeted h st → (∀ l' t', Attached client l' t' ∉ h) →
  greeted (h ++ [Attached client l t]) (<[client := Greeting l t]> st).
Proof.
  intros [Gonce Gatt Gnone] Hf.
  assert (∀ c, greetings c (h ++ [Attached client l t]) = greetings c h) as Hsame.
  { intros c. rewrite greetings_app. apply app_nil_r. }
  split; intros client'; rewrite ?Hsame; destruct (decide (client = client')) as [<- | Hne].
  - intros l' t' _. rewrite lookup_insert_eq. by apply Gnone.
  - intros l' t' [Ha|[= -> _ _]%list_elem_of_singleton]%elem_of_app; [|done]. rewrite lookup_insert_ne by done.
    by eapply Gonce.
  - rewrite lookup_insert_eq. intros l' t' [= <- <-]. set_solver.
  - rewrite lookup_insert_ne by done. intros l' t' Hg. apply elem_of_app. left. by apply Gatt.
  - intros Hn. destruct (Hn l t). set_solver.
  - intros Hn. rewrite lookup_insert_ne by done. apply Gnone. intros l' t' Ht. apply (Hn l' t'). set_solver.
Qed.
Lemma greeted_greet h st client l t : greeted h st → st !! client = Some (Greeting l t) →
  (∀ l' t', Attached client l' t' ∈ h → t' = t) →
  greeted (h ++ if bool_decide (t = "") then [] else [Greeted client t]) (<[client := Streaming l]> st).
Proof.
  intros [Gonce Gatt Gnone] Hst Hu. set (ev := if bool_decide (t = "") then [] else [Greeted client t]).
  assert (∀ c l' t', Attached c l' t' ∈ h ++ ev ↔ Attached c l' t' ∈ h) as Hold.
  { intros c l' t'. rewrite elem_of_app. subst ev. case_bool_decide; [set_solver|]. split; [|by left].
    intros [?|[=]%list_elem_of_singleton]; done. }
  assert (∀ c, greetings c ev = if decide (c = client) then if bool_decide (t = "") then [] else [t] else []) as Hev.
  { intros c. subst ev. case_bool_decide; [by destruct (decide (c = client))|]. cbn.
    destruct (decide (client = c)), (decide (c = client)); congruence. }
  assert (Attached client l t ∈ h) as Hat by (apply Gatt; by rewrite Hst).
  split; intros c.
  - intros l' t' Ha%Hold. rewrite greetings_app, Hev, (Gonce _ _ _ Ha). destruct (decide (c = client)) as [-> | Hne].
    + rewrite lookup_insert_eq, Hst. cbn. by rewrite (Hu _ _ Ha).
    + rewrite lookup_insert_ne by done. by rewrite app_nil_r.
  - intros l' t'. rewrite Hold. destruct (decide (client = c)) as [<- | Hne]; [by rewrite lookup_insert_eq|].
    rewrite lookup_insert_ne by done. apply Gatt.
  - intros Hn. destruct (decide (c = client)) as [-> | Hne]; [by destruct (Hn l t); apply Hold|].
    rewrite greetings_app, Hev, decide_False, lookup_insert_ne, app_nil_r by done. apply Gnone. intros l' t' Ht.
    by apply (Hn l' t'), Hold.
Qed.
Lemma greeting_insert (st : gmap nat stream) client s s' client' : st !! client = Some s →
  greeting (Some s) = greeting (Some s') → greeting (<[client := s']> st !! client') = greeting (st !! client').
Proof.
  intros Hs He. destruct (decide (client = client')) as [<- | Hne]; [by rewrite lookup_insert_eq, Hs|by rewrite lookup_insert_ne].
Qed.
Lemma finishing_unrelated m l status : Forall unrelated (finishing m l status).
Proof. unfold finishing. destruct (live m !! l) as [s|]; [destruct s.(liveSession.closed)|]; by repeat constructor. Qed.
Lemma omap_unrelated {A} (f : A → option event) k : (∀ x e, f x = Some e → unrelated e) → Forall unrelated (omap f k).
Proof. intros Hf. apply Forall_forall. intros e (x & _ & Hx)%list_elem_of_omap. by eapply Hf. Qed.
Lemma read_unrelated l k : Forall unrelated (read_events l k).
Proof. apply omap_unrelated. intros [] e; [case_bool_decide; [done|]|done]. by intros [= <-]. Qed.
Lemma delivery_unrelated k : Forall unrelated (delivery_events k).
Proof. apply omap_unrelated. intros [|c p [[]|err]] e; [done| |done]. by intros [= <-]. Qed.
Lemma step_greeted m m' : streamed m.(history) (view_of m) → greeted m.(history) m.(streams) → step m m' →
  greeted m'.(history) m'.(streams).
Proof.
  intros [Ho _ _ _] Hg Hstep.
  assert (∀ st', (∀ c, greeting (st' !! c) = greeting (m.(streams) !! c)) → greeted m.(history) st') as Hsame.
  { intros st' Hs. rewrite <- (app_nil_r m.(history)). by eapply greeted_same. }
  destruct Hstep; cbn [history streams].
  - done.
  - done.
  - done.
  - eapply greeted_same; [done|apply finishing_unrelated|done].
  - eapply greeted_same; [done|apply read_unrelated|done].
  - done.
  - eapply greeted_same; [done|apply delivery_unrelated|done].
  - done.
  - eapply greeted_same; [done|apply finishing_unrelated|done].
  - by apply greeted_attach.
  - destruct m as [[w c] rd st an hist]. cbn [state streams history] in *.
    match goal with Ht : traced (greet _ _) _ = _ |- _ => apply greet_calls in Ht as [_ ->] end. eapply greeted_greet; [done..|].
    intros l' t' Ht'. assert (Attached client l h ∈ hist) as Hat.
    { apply (greeting_attached _ _ Hg). match goal with Ht : st !! client = _ |- _ => by rewrite Ht end. }
    by destruct (Ho _ _ _ _ _ Ht' Hat).
  - eapply greeted_same; [done| |].
    + destruct go_on; [constructor|apply finishing_unrelated].
    + intros c. eapply greeting_insert; [done|]. by destruct go_on.
  - apply Hsame. intros c. by eapply greeting_insert.
  - apply Hsame. intros c. destruct (decide (client = c)) as [<- | Hne].
    + rewrite lookup_delete_eq. match goal with Ht : m.(streams) !! client = _ |- _ => by rewrite Ht end.
    + by rewrite lookup_delete_ne.
  - done.
Qed.
Lemma reachable_greeted w m : reachable w m → greeted m.(history) m.(streams).
Proof.
  induction 1 as [|m m' Hm IH Hstep]; [split; cbn; set_solver|].
  apply reachable_consistent in Hm as (_ & _ & Hs & _). by eapply step_greeted.
Qed.

(** C34: No output of a terminal is lost or repeated, in any interleaving of the
    goroutines. An output is an event from the moment it is read from the terminal, and a
    delivery when it is written to the connection of a browser without an error. The log of
    a session is the last megabyte of what was read from its terminal, but for the piece
    the reader just read; a browser that is attached is sent, as its history, the log at
    the moment it was attached, once, unless that is empty or still to be written; and it
    was sent every piece of output since then, once and in the order it was read, but for
    the one the reader has in hand. (Nothing orders the history before that output.) *)
Theorem terminal_output_delivered w m l s : reachable w m → live m !! l = Some s →
  (∃ published, outputs l m.(history) = published ++ in_hand (m.(readers) !! l) ∧
     s.(liveSession.log) = last_bytes maxTerminalLogBytes (cat published)) ∧
  Z.of_nat (str_length s.(liveSession.log)) ≤ maxTerminalLogBytes ∧
  ∀ client, client ∈ s.(liveSession.clients) →
    ∃ t before, Attached client l t ∈ m.(history) ∧ t = last_bytes maxTerminalLogBytes (cat before) ∧
      greetings client m.(history) =
        (if greeting (m.(streams) !! client) then [] else if bool_decide (t = "") then [] else [t]) ∧
      outputs l m.(history) = before ++ sent client m.(history) ++ pending (m.(readers) !! l) client.
Proof.
  intros Hm E. pose proof (reachable_greeted _ _ Hm) as Hg.
  apply reachable_consistent in Hm as [_ (Hl & Hs & _)].
  destruct (log_exact _ _ Hl _ _ E) as (published & Hp & Hlog). split; [eauto|]. split.
  - rewrite Hlog. unfold last_bytes. rewrite str_length_drop. assert (0 ≤ maxTerminalLogBytes) by done. lia.
  - intros client Hin. destruct (stream_exact _ _ Hs l s client E Hin) as (t & before & Ha & Hb & Ho).
    exists t, before. split_and!; [done..| |done]. by eapply greeted_once.
Qed.

(** A session ends once: a session that was opened is connected and listed until the first
    of the calls that end it, and from then on closed or failed, with the time it ended,
    and no longer listed; the list of the sessions is exactly that of the connected ones. *)
Theorem session_ends_once `{MapOrder} salt w m : reachable w m →
  (∀ l s, live m !! l = Some s →
     endings l m.(history) = [] ∧ s.(liveSession.value).(ConsoleSession.Status) = SessionConnected ∨
     endings l m.(history) = [s.(liveSession.value).(ConsoleSession.Status)] ∧
     is_ending s.(liveSession.value).(ConsoleSession.Status) ∧
     is_Some s.(liveSession.value).(ConsoleSession.FinishedAt)) ∧
  ∃ values, ListSessions salt m.(state) = (Ok values, m.(state)) ∧
    ∀ value, value ∈ values ↔ ∃ l s, live m !! l = Some s ∧ endings l m.(history) = [] ∧ s.(liveSession.value) = value.
Proof.
  intros [_ (_ & _ & [Hst Hli Hid])]%reachable_consistent. cbn [fst snd view_of] in *. split.
  - intros l s E. specialize (Hst _ _ E). destruct s.(liveSession.closed); [by right|left]. by destruct Hst as (? & ? & _).
  - destruct m as [[w0 c] rd st an h]. unfold live in *. cbn [state history snd] in *. eexists. split; [done|].
    intros value. rewrite list_elem_of_omap. split.
    + intros ([id l] & Hin & E). rewrite map_range_perm in Hin. apply elem_of_map_to_list in Hin.
      destruct (Hli _ _ Hin) as (s & Es & Hc & _). rewrite Es in E. injection E as <-. exists l, s.
      specialize (Hst _ _ Es). rewrite Hc in Hst. by destruct Hst as (? & _).
    + intros (l & s & Es & He & <-). specialize (Hst _ _ Es). destruct s.(liveSession.closed).
      { destruct Hst as (E & _). by rewrite E in He. }
      destruct Hst as (_ & _ & Hs). exists (s.(liveSession.value).(ConsoleSession.ID), l).
      rewrite map_range_perm, Es. split; [by apply elem_of_map_to_list|done].
Qed.
End reachability.

(** ** Examples *)
Module Example.
(** A world in which a terminal yields the lines of a script, the log store keeps the
    transcripts and the statuses it was given, and every message is written. *)
Record script := mk_script {
  lines : list string; transcript : string; saved : list SessionStatus; refused : option SessionStatus
}.
#[local] Instance targets : ConsoleTargets script := {|
  ListEnvironments := eret (Ok [(zero : EnvironmentDefinition)
    <| EnvironmentDefinition.RuntimeBindings := [ResourceRuntimeBinding.mk "r" "rt" true ∅] |>
    <| EnvironmentDefinition.Runtimes := [(zero : EnvironmentRuntime) <| EnvironmentRuntime.ID := "rt" |>
         <| EnvironmentRuntime.Configuration := {["connectionId" := AnyString "c"]} |>] |>
    <| EnvironmentDefinition.Connections := [(zero : EnvironmentConnection) <| EnvironmentConnection.ID := "c" |>] |>]);
  FindResource id := eret (Ok (Some ((zero : Resource) <| Resource.ID := "r" |>))) |}.
#[local] Instance terminals : Terminals script := {|
  StartInteractive _ _ := eret (Ok 0%nat);
  terminal_Read _ := λ s, match s.(lines) with
    | line :: rest => ((line, None), mk_script rest s.(transcript) s.(saved) s.(refused))
    | [] => (("", Some EOF), s)
    end;
  terminal_Write _ _ := eret (Ok tt); terminal_Resize _ _ _ := eret (Ok tt); terminal_Close _ := eret (Ok tt);
  WriteMessage _ _ := eret (Ok tt) |}.
#[local] Instance logs : ConsoleSessionLogStore script := Some {|
  SessionLogs.SaveConsoleSession v := λ s,
    if bool_decide (s.(refused) = Some v.(ConsoleSession.Status)) then (Err "disk full", s)
    else (Ok tt, mk_script s.(lines) s.(transcript) (s.(saved) ++ [v.(ConsoleSession.Status)]) s.(refused));
  SessionLogs.AppendConsoleSessionLog _ _ payload _ := λ s,
    (Ok tt, mk_script s.(lines) (s.(transcript) +:+ payload) s.(saved) s.(refused));
  SessionLogs.ReadConsoleSessionLog _ := λ s, (Ok s.(transcript), s) |}.
#[local] Instance no_resize : ResizeJSON := λ _, None.
#[local] Instance no_audit : AuditStore script := None.
#[local] Instance stopped_clock : WallClock script := eret 1.
#[local] Instance ids : FreshIDs script := λ prefix, eret prefix.

Definition request : ConsoleSessionRequest := ConsoleSessionRequest.mk "r" "alice".
Definition typed : script := mk_script ["old"; "new"] "" [] None.
(** A session is opened, reads its first line and buffers it; a browser is attached; the
    second line is read, buffered and delivered; then the browser is sent the history. *)
Definition m0 : machine := mk_machine (typed, NewTerminalController) ∅ ∅ [] [].
Definition opened : machine :=
  let s := (register request m0.(state)).2 in
  let value := match (register request m0.(state)).1 with Ok v => v.1.1 | Err _ => zero end in
  mk_machine s {[0%nat := Reading]} ∅ [(value, "")] [].
Definition read1 : machine :=
  mk_machine (read_terminal 0 opened.(state)).2 {[0%nat := Logged "old" None]} ∅ opened.(announcements)
    [Output 0 "old"].
Definition buffered1 : machine :=
  mk_machine (buffer_output 0 "old" None read1.(state)).2 {[0%nat := Delivering "old" ∅ None]} ∅
    opened.(announcements) [Output 0 "old"].
Definition idle1 : machine :=
  mk_machine buffered1.(state) {[0%nat := Reading]} ∅ opened.(announcements) [Output 0 "old"].
Definition attached1 : machine :=
  mk_machine (attach 7 0 idle1.(state)).2 {[0%nat := Reading]} {[7%nat := Greeting 0 "old"]} opened.(announcements)
    [Output 0 "old"; Attached 7 0 "old"].
Definition read2 : machine :=
  mk_machine (read_terminal 0 attached1.(state)).2 {[0%nat := Logged "new" None]} {[7%nat := Greeting 0 "old"]}
    opened.(announcements) [Output 0 "old"; Attached 7 0 "old"; Output 0 "new"].
Definition buffered2 : machine :=
  mk_machine (buffer_output 0 "new" None read2.(state)).2 {[0%nat := Delivering "new" {[7%nat]} None]}
    {[7%nat := Greeting 0 "old"]} opened.(announcements) [Output 0 "old"; Attached 7 0 "old"; Output 0 "new"].
Definition delivered2 : machine :=
  mk_machine (deliver 0 7 "new" buffered2.(state)).2 {[0%nat := Delivering "new" ∅ None]}
    {[7%nat := Greeting 0 "old"]} opened.(announcements)
    [Output 0 "old"; Attached 7 0 "old"; Output 0 "new"; Delivered 7 "new"].
Definition greeted2 : machine :=
  mk_machine (greet 7 "old" delivered2.(state)).2 {[0%nat := Delivering "new" ∅ None]}
    {[7%nat := Streaming 0]} opened.(announcements)
    [Output 0 "old"; Attached 7 0 "old"; Output 0 "new"; Delivered 7 "new"; Greeted 7 "old"].

Lemma opened_reachable : reachable typed opened.
Proof.
  eapply reachable_step; [apply reachable_init|].
  refine (step_open m0 request (match (register request m0.(state)).1 with Ok v => v.1.1 | Err _ => zero end) ""
    0%nat (register request m0.(state)).2 _ _).
  - vm_compute. reflexivity.
  - intros l' s' E. exfalso. exact (lookup_empty_Some (M := gmap nat) l' s' E).
Qed.
Lemma attached_reachable : reachable typed attached1.
Proof.
  eapply reachable_step; [eapply reachable_step; [eapply reachable_step; [eapply reachable_step;
    [apply opened_reachable|]|]|]|].
  - refine (step_read opened 0 (Logged "old" None) (read_terminal 0 opened.(state)).2 [CRead 0 "old"] _ _); vm_compute; reflexivity.
  - refine (step_buffer read1 0 "old" None (Delivering "old" ∅ None) _ _ _); vm_compute; reflexivity.
  - refine (step_delivered buffered1 0 "old" None _). vm_compute. reflexivity.
  - refine (step_attach idle1 7 0 "old" (attach 7 0 idle1.(state)).2 _ _ _).
    + vm_compute. eauto.
    + intros l' h' Hin. cbn in Hin. by apply list_elem_of_singleton in Hin.
    + vm_compute. reflexivity.
Qed.
Lemma greeted_reachable : reachable typed greeted2.
Proof.
  eapply reachable_step; [eapply reachable_step; [eapply reachable_step; [eapply reachable_step;
    [apply attached_reachable|]|]|]|].
  - refine (step_read attached1 0 (Logged "new" None) (read_terminal 0 attached1.(state)).2 [CRead 0 "new"] _ _); vm_compute; reflexivity.
  - refine (step_buffer read2 0 "new" None (Delivering "new" {[7%nat]} None) _ _ _); vm_compute; reflexivity.
  - refine (step_deliver buffered2 0 "new" {[7%nat]} None 7 true (deliver 0 7 "new" buffered2.(state)).2
      [CWrite 7 "new" (Ok tt)] _ _ _).
    + vm_compute. reflexivity.
    + by apply elem_of_singleton.
    + vm_compute. reflexivity.
  - refine (step_greet delivered2 7 0 "old" (greet 7 "old" delivered2.(state)).2 [CWrite 7 "old" (Ok tt)] _ _); vm_compute; reflexivity.
Qed.

Definition session_of (m : machine (W := script)) : liveSession :=
  match live m !! 0%nat with Some s => s | None => liveSession.mk zero 0 "" "" ∅ true end.
Lemma terminal_output_delivered_witness :
  (session_of greeted2).(liveSession.log) = "oldnew" ∧
  ∃ t before, Attached 7 0 t ∈ greeted2.(history) ∧ t = last_bytes maxTerminalLogBytes (cat before) ∧
    greetings 7 greeted2.(history) =
      (if greeting (greeted2.(streams) !! 7%nat) then [] else if bool_decide (t = "") then [] else [t]) ∧
    outputs 0 greeted2.(history) = before ++ sent 7 greeted2.(history) ++ pending (greeted2.(readers) !! 0%nat) 7.
Proof.
  split; [vm_compute; reflexivity|].
  refine (proj2 (proj2 (terminal_output_delivered typed greeted2 0 (session_of greeted2) greeted_reachable _)) 7%nat _).
  - vm_compute. reflexivity.
  - apply (bool_decide_eq_true_1 _). vm_compute. reflexivity.
Defined.
Lemma session_ends_once_witness : ∃ values, ListSessions 0 greeted2.(state) = (Ok values, greeted2.(state)) ∧
  ∀ value, value ∈ values ↔
    ∃ l s, live greeted2 !! l = Some s ∧ endings l greeted2.(history) = [] ∧ s.(liveSession.value) = value.
Proof. exact (proj2 (session_ends_once 0 typed greeted2 greeted_reachable)). Defined.

(** A browser is attached under the lock, but its history is written after the lock is
    released: output that is published in between reaches it first, and the screen shows
    the new line above the old one. *)
Definition written (client : nat) (h : list event) : list string :=
  omap (λ e, match e with
    | Delivered c payload | Greeted c payload => if decide (c = client) then Some payload else None
    | _ => None
    end) h.
Lemma history_after_output : reachable typed greeted2 ∧ outputs 0 greeted2.(history) = ["old"; "new"] ∧
  written 7 greeted2.(history) = ["new"; "old"].
Proof. split; [apply greeted_reachable|done]. Qed.

(** The transcript of a session that ended holds what was typed too, also what the
    terminal does not echo; while it runs, its log holds the output alone. *)
Definition typed_in : machine (W := script) :=
  mk_machine (receive 0 (BinaryMessage "secret") greeted2.(state)).2 greeted2.(readers) greeted2.(streams)
    greeted2.(announcements) greeted2.(history).
Lemma transcript_keeps_input :
  (SessionLog "console-session" typed_in.(state)).1 = Ok "oldnew" ∧
  (SessionLog "console-session" (closeSession 0 typed_in.(state)).2).1 = Ok "oldnewsecret".
Proof. vm_compute. by split. Qed.

(** When the connected session cannot be saved, its terminal is closed but the session
    stays on record as starting. *)
Lemma refused_session_starting :
  let '(r, (s, c)) := OpenSession request (mk_script [] "" [] (Some SessionConnected), NewTerminalController) in
  r = Err "persist connected interactive session: disk full" ∧ s.(saved) = [SessionStarting].
Proof. vm_compute. by split. Qed.
End Example.
End Terminal.
