(* ===== verification/ConsoleRepository.v ===== *)
(** * The stores of the console and of the audit trail
      (src/internal/infrastructure/database/console/repository.go and audit/repository.go)

    Sessions and commands are upserted by their identifier; a transcript is the payloads of
    its log in the order of an autoincremented key; audit events are listed by filter. *)

From S2P Require Import Prelude GoStrings GoFloat Sql Domain.

Module ConsoleRepository.
Import Sql.

(** A row of [console_session_logs]. *)
Module LogRow.
Record LogRow := mk { id : Z; session_id : string; direction : string; payload : string; occurred_at : Time }.
End LogRow.
Abbreviation LogRow := LogRow.LogRow.
(** A command with its environment as JSON. *)
Definition CommandRow : Type := ConsoleCommand * string.

Module DB.
Record DB := mk {
  resources : list string; console_sessions : list ConsoleSession; console_commands : list CommandRow;
  console_session_logs : list LogRow; next_log_id : Z
}.
#[global] Instance eta : Eta DB := λ d,
  mk d.(resources) d.(console_sessions) d.(console_commands) d.(console_session_logs) d.(next_log_id).
End DB.
Abbreviation DB := DB.DB.

Definition command_id (r : CommandRow) : string := r.1.(ConsoleCommand.ID).
(** The constraints of schema.sql. *)
Definition constraints (d : DB) : Prop :=
  NoDup (ConsoleSession.ID <$> d.(DB.console_sessions)) ∧
  Forall (λ s, s.(ConsoleSession.ResourceID) ∈ d.(DB.resources) ∧
    SessionStatus_string s.(ConsoleSession.Status) ∈ ["starting"; "connected"; "closed"; "failed"])
    d.(DB.console_sessions) ∧
  NoDup (command_id <$> d.(DB.console_commands)) ∧
  Forall (λ r, r.1.(ConsoleCommand.ResourceID) ∈ d.(DB.resources) ∧
    CommandStatus_string r.1.(ConsoleCommand.Status) ∈ ["running"; "completed"; "failed"]) d.(DB.console_commands) ∧
  NoDup (LogRow.id <$> d.(DB.console_session_logs)) ∧
  Forall (λ r, r.(LogRow.direction) ∈ ["input"; "output"]) d.(DB.console_session_logs).
#[global] Instance constraints_dec d : Decision (constraints d).
Proof. unfold constraints. apply _. Defined.
#[global] Instance schema : Schema DB := {| lawful_rows := constraints |}.
Abbreviation world := (Session DB).

(** [encoding/json] on the environment of a command. *)
Class EnvironmentJSON := {
  marshal_environment : gmap string string → result string;
  unmarshal_environment : string → result (gmap string string)
}.

Section repository.
Context `{Engine DB, EnvironmentJSON, SqlOrder}.
Implicit Types d : DB.

(** The update of [ON CONFLICT(id)] in [SaveConsoleSession]. *)
Definition merge_session (old new : ConsoleSession) : ConsoleSession :=
  old <| ConsoleSession.Status := new.(ConsoleSession.Status) |>
      <| ConsoleSession.ExternalID := new.(ConsoleSession.ExternalID) |>
      <| ConsoleSession.Failure := new.(ConsoleSession.Failure) |>
      <| ConsoleSession.ConnectedAt := new.(ConsoleSession.ConnectedAt) |>
      <| ConsoleSession.FinishedAt := new.(ConsoleSession.FinishedAt) |>.
(** [Repository.SaveConsoleSession] *)
Definition SaveConsoleSession (session : ConsoleSession) : effr world unit :=
  modify (StInsert "console_sessions") (λ d, d <| DB.console_sessions :=
    upsert ConsoleSession.ID merge_session session d.(DB.console_sessions) |>).

(** The update of [ON CONFLICT(id)] in [SaveConsoleCommand]. *)
Definition merge_command (old new : CommandRow) : CommandRow :=
  (old.1 <| ConsoleCommand.Status := new.1.(ConsoleCommand.Status) |>
         <| ConsoleCommand.Stdout := new.1.(ConsoleCommand.Stdout) |>
         <| ConsoleCommand.Stderr := new.1.(ConsoleCommand.Stderr) |>
         <| ConsoleCommand.ExitCode := new.1.(ConsoleCommand.ExitCode) |>
         <| ConsoleCommand.ExternalID := new.1.(ConsoleCommand.ExternalID) |>
         <| ConsoleCommand.Failure := new.1.(ConsoleCommand.Failure) |>
         <| ConsoleCommand.FinishedAt := new.1.(ConsoleCommand.FinishedAt) |>, old.2).
Definition command_row (command : ConsoleCommand) (environment : string) : CommandRow :=
  (command <| ConsoleCommand.Environment := ∅ |>, environment).
(** [Repository.SaveConsoleCommand] *)
Definition SaveConsoleCommand (command : ConsoleCommand) : effr world unit :=
  let? environment := eret (marshal_environment command.(ConsoleCommand.Environment)) in
  modify (StInsert "console_commands") (λ d, d <| DB.console_commands :=
    upsert command_id merge_command (command_row command environment) d.(DB.console_commands) |>).

(** [scan] *)
Definition scan (r : CommandRow) : result ConsoleCommand :=
  environment ← (if bool_decide (r.2 = "") then Ok ∅ else unmarshal_environment r.2);
  Ok (r.1 <| ConsoleCommand.Environment := environment |>).
(** [Repository.FindConsoleCommand] *)
Definition FindConsoleCommand (id : string) : effr world (option ConsoleCommand) :=
  let? row := select (λ d, find_row command_id id d.(DB.console_commands)) in
  eret (match row with None => Ok None | Some r => command ← scan r; Ok (Some command) end).
(** [Repository.ListConsoleCommands] *)
Definition ListConsoleCommands (salt : nat) (limit : Z) : effr world (list ConsoleCommand) :=
  let limit := if (limit <=? 0) || (500 <? limit) then 100 else limit in
  let? rows := select (λ d, limit_offset limit 0 (order_by
    (λ a b, b.1.(ConsoleCommand.CreatedAt) <=? a.1.(ConsoleCommand.CreatedAt)) salt d.(DB.console_commands))) in
  eret (scan_rows scan rows).

(** [Repository.AppendConsoleSessionLog] *)
Definition AppendConsoleSessionLog (sessionID direction payload : string) (occurredAt : Time) : effr world unit :=
  modify (StInsert "console_session_logs") (λ d, d
    <| DB.console_session_logs := d.(DB.console_session_logs) ++
         [LogRow.mk d.(DB.next_log_id) sessionID direction payload occurredAt] |>
    <| DB.next_log_id := d.(DB.next_log_id) + 1 |>).
(** [Repository.ReadConsoleSessionLog] *)
Definition ReadConsoleSessionLog (salt : nat) (sessionID : string) : effr world string :=
  let? rows := select (λ d, order_by (λ a b, a.(LogRow.id) <=? b.(LogRow.id)) salt
    (List.filter (λ r, bool_decide (r.(LogRow.session_id) = sessionID)) d.(DB.console_session_logs))) in
  eret (Ok (foldr (λ r text, r.(LogRow.payload) +:+ text) "" rows)).
End repository.
(** ** What is stored is read back *)
Section reading.
Context `{Engine DB, EnvironmentJSON, SqlOrder}.
Hypothesis answers : ∀ d, refusal StSelect d = None.
Implicit Types (d : DB) (s : world).

(** The keys of the log grow. *)
Definition log_ordered d : Prop :=
  StronglySorted (λ a b, a.(LogRow.id) < b.(LogRow.id)) d.(DB.console_session_logs) ∧
  Forall (λ r, r.(LogRow.id) < d.(DB.next_log_id)) d.(DB.console_session_logs).
Inductive op :=
| OpSession (session : ConsoleSession)
| OpCommand (command : ConsoleCommand)
| OpAppend (sessionID direction payload : string) (t : Time).
Definition run_op (o : op) : effr world unit :=
  match o with
  | OpSession session => SaveConsoleSession session
  | OpCommand command => SaveConsoleCommand command
  | OpAppend sessionID direction payload t => AppendConsoleSessionLog sessionID direction payload t
  end.
(** A run of operations, with what was appended to a transcript by those that succeeded. *)
Fixpoint run_ops (id : string) (l : list op) : eff world string :=
  match l with
  | [] => eret ""
  | o :: l =>
    let! r := run_op o in
    let! text := run_ops id l in
    eret (match o, r with
          | OpAppend id' _ payload _, Ok _ => if bool_decide (id' = id) then payload +:+ text else text
          | _, _ => text
          end)
  end.
Definition transcript (id : string) d : string :=
  foldr (λ r text, r.(LogRow.payload) +:+ text) ""
    (List.filter (λ r, bool_decide (r.(LogRow.session_id) = id)) d.(DB.console_session_logs)).

Lemma sorted_filter {A} (R : A → A → Prop) p l : StronglySorted R l → StronglySorted R (List.filter p l).
Proof.
  induction 1 as [|x l Hl IH Hx]; [constructor|]. cbn [List.filter]. destruct (p x); [|done].
  constructor; [done|]. rewrite Forall_forall in *. intros y Hy. apply Hx.
  apply list_elem_of_In, filter_In in Hy as [Hy _]. by apply list_elem_of_In.
Qed.
Lemma sorted_snoc {A} (R : A → A → Prop) l x : StronglySorted R l → Forall (λ y, R y x) l → StronglySorted R (l ++ [x]).
Proof.
  induction 1 as [|y l Hl IH Hy]; intros Hx; [by repeat constructor|]. apply Forall_cons in Hx as [Hyx Hx].
  constructor; [by apply IH|]. apply Forall_app. by split; [|constructor].
Qed.
Lemma transcript_read salt id s : log_ordered s.(db) →
  ReadConsoleSessionLog salt id s = (Ok (transcript id s.(db)), s).
Proof.
  intros [Hs _]. unfold ReadConsoleSessionLog, ebindr. rewrite select_runs by apply answers. cbn [eret].
  by rewrite order_by_id by (by apply sorted_filter).
Qed.
Lemma op_ordered o s r s' : log_ordered s.(db) → run_op o s = (r, s') →
  log_ordered s'.(db) ∧ ∀ id, transcript id s'.(db) =
    transcript id s.(db) +:+ match o, r with
                             | OpAppend id' _ payload _, Ok _ => if bool_decide (id' = id) then payload else ""
                             | _, _ => ""
                             end.
Proof.
  intros Ho E. destruct r as [[]|e]; cycle 1.
  { assert (s'.(db) = s.(db)) as ->.
    { destruct o as [session|command|id direction payload t]; cbn [run_op] in E.
      - by eapply modify_atomic.
      - unfold SaveConsoleCommand, ebindr, eret in E.
        destruct (marshal_environment _); [by eapply modify_atomic|by injection E as _ <-].
      - by eapply modify_atomic. }
    split; [done|]. intros id. destruct o; by rewrite str_app_nil_r. }
  destruct o as [session|command|id' direction payload t]; cbn [run_op] in E.
  - apply modify_ok in E as (-> & _). split; [done|]. intros id. by rewrite str_app_nil_r.
  - unfold SaveConsoleCommand, ebindr, eret in E. destruct (marshal_environment _); [|done].
    apply modify_ok in E as (-> & _). split; [done|]. intros id. by rewrite str_app_nil_r.
  - apply modify_ok in E as (-> & _). destruct Ho as [Hs Hl].
    split; [split; cbn [DB.console_session_logs DB.next_log_id set_field]|].
    + by apply sorted_snoc.
    + apply Forall_app. split; [|by repeat constructor; cbn; lia]. eapply Forall_impl; [exact Hl|]. intros r Hr. cbn in *. lia.
    + intros id. unfold transcript. cbn [DB.console_session_logs set_field]. rewrite List.filter_app. cbn [List.filter].
      cbn [LogRow.session_id]. rewrite foldr_app. case_bool_decide; cbn [foldr LogRow.payload]; rewrite ?str_app_nil_r.
      * induction (List.filter _ _) as [|r l IH]; cbn; [done|]. by rewrite IH, str_app_assoc.
      * done.
Qed.

(** The transcript of a session is complete: after any sequence of saves of sessions and
    commands and of appends to the logs of any sessions, it is what it was before,
    followed by the payloads of the appends to it that succeeded, in their order. *)
Theorem transcript_complete salt id l s text s' : log_ordered s.(db) → run_ops id l s = (text, s') →
  ∃ before, ReadConsoleSessionLog salt id s = (Ok before, s) ∧
    ReadConsoleSessionLog salt id s' = (Ok (before +:+ text), s').
Proof.
  intros Ho E. exists (transcript id s.(db)). rewrite transcript_read by done. split; [done|].
  revert s Ho text E. induction l as [|o l IH]; intros s Ho text; cbn [run_ops].
  - intros [= <- <-]. by rewrite str_app_nil_r, transcript_read.
  - unfold ebind. destruct (run_op o s) as [r s1] eqn:E1. destruct (run_ops id l s1) as [text1 s2] eqn:E2.
    intros [= <- <-]. destruct (op_ordered _ _ _ _ Ho E1) as [Ho1 Ht]. rewrite (IH _ Ho1 _ E2), Ht.
    f_equal. f_equal. rewrite str_app_assoc. f_equal.
    destruct o, r as [[]|]; try done. by case_bool_decide.
Qed.
End reading.

(** ** An example *)
Module Example.
#[local] Instance engine : Engine DB := {|
  refusal _ _ := None; violation _ _ := "constraint failed"; timestamp n := Z.of_nat n |}.
#[local] Instance json : EnvironmentJSON := {| marshal_environment _ := Ok "{}"; unmarshal_environment _ := Ok ∅ |}.
Definition start : world := mk_session (DB.mk ["r"] [] [] [] 1) 0.
Definition session : ConsoleSession := (zero : ConsoleSession) <| ConsoleSession.ID := "s" |>
  <| ConsoleSession.ResourceID := "r" |> <| ConsoleSession.Status := SessionConnected |>.
Definition ops : list op :=
  [OpSession session; OpAppend "s" "output" "$ " 1; OpAppend "t" "output" "other" 2; OpAppend "s" "input" "ls" 3;
   OpAppend "s" "sideways" "lost" 4].
Lemma transcript_complete_witness : let s' := (run_ops "s" ops start).2 in
  (run_ops "s" ops start).1 = "$ ls" ∧
  ∃ before, ReadConsoleSessionLog 0 "s" start = (Ok before, start) ∧
    ReadConsoleSessionLog 0 "s" s' = (Ok (before +:+ "$ ls"), s').
Proof.
  split; [vm_compute; reflexivity|].
  refine (transcript_complete (λ _, eq_refl) 0 "s" ops start "$ ls" (run_ops "s" ops start).2 _ _).
  - split; constructor.
  - vm_compute. reflexivity.
Defined.
End Example.
End ConsoleRepository.

(** ** The audit trail *)
Module AuditRepository.
Import Sql.
(** An event with its metadata as JSON. *)
Definition EventRow : Type := AuditEvent * string.
Definition event_id (r : EventRow) : string := r.1.(AuditEvent.ID).
Definition constraints (d : list EventRow) : Prop :=
  NoDup (event_id <$> d) ∧
  Forall (λ r, AuditOutcome_string r.1.(AuditEvent.Outcome) ∈ ["started"; "succeeded"; "failed"]) d.
#[global] Instance constraints_dec d : Decision (constraints d).
Proof. unfold constraints. apply _. Defined.
#[global] Instance schema : Schema (list EventRow) := {| lawful_rows := constraints |}.
Abbreviation world := (Session (list EventRow)).
Class MetadataJSON := {
  marshal_metadata : metadata → result string;
  unmarshal_metadata : string → result metadata
}.

(** The conditions of [ListAuditEvents], one for each value that is not blank. *)
Definition filter_columns (filter : AuditFilter) (e : AuditEvent) : list (string * string) :=
  [(e.(AuditEvent.EventType), filter.(AuditFilter.EventType));
   (e.(AuditEvent.EnvironmentID), filter.(AuditFilter.EnvironmentID));
   (e.(AuditEvent.ResourceID), filter.(AuditFilter.ResourceID));
   (e.(AuditEvent.ConnectionID), filter.(AuditFilter.ConnectionID));
   (e.(AuditEvent.SessionID), filter.(AuditFilter.SessionID));
   (e.(AuditEvent.ExecutionID), filter.(AuditFilter.ExecutionID));
   (AuditOutcome_string e.(AuditEvent.Outcome), AuditOutcome_string filter.(AuditFilter.Outcome))].
Definition selected (filter : AuditFilter) (r : EventRow) : bool :=
  forallb (λ '(column, value), bool_decide (trim_space value = "") || bool_decide (column = value))
    (filter_columns filter r.1).
(** [ORDER BY occurred_at DESC, id DESC] *)
Definition later (a b : EventRow) : bool :=
  (b.1.(AuditEvent.OccurredAt) <? a.1.(AuditEvent.OccurredAt)) ||
  ((b.1.(AuditEvent.OccurredAt) =? a.1.(AuditEvent.OccurredAt)) && str_le (event_id b) (event_id a)).
Definition page_limit (limit : Z) : Z := if (limit <=? 0) || (1000 <? limit) then 200 else limit.

Section repository.
Context `{Engine (list EventRow), MetadataJSON, SqlOrder}.

(** [Repository.RecordAuditEvent] *)
Definition RecordAuditEvent (event : AuditEvent) : effr world unit :=
  let? text := eret (marshal_metadata event.(AuditEvent.Metadata)) in
  modify (StInsert "audit_events") (λ d, d ++ [(event <| AuditEvent.Metadata := ∅ |>, text)]).
Definition scan_event (r : EventRow) : result AuditEvent :=
  m ← (if bool_decide (r.2 = "") then Ok ∅ else unmarshal_metadata r.2);
  Ok (r.1 <| AuditEvent.Metadata := m |>).
Definition newest (salt : nat) (filter : AuditFilter) (d : list EventRow) : list EventRow :=
  limit_offset (page_limit filter.(AuditFilter.Limit)) 0 (order_by later salt (List.filter (selected filter) d)).
(** [Repository.ListAuditEvents] *)
Definition ListAuditEvents (salt : nat) (filter : AuditFilter) : effr world (list AuditEvent) :=
  let? rows := select (newest salt filter) in eret (scan_rows scan_event rows).

Lemma str_le_total a b : str_le a b = true ∨ str_le b a = true.
Proof. unfold str_le. rewrite !bool_decide_eq_true. apply (total String.le). Qed.
Lemma later_total a b : later a b = true ∨ later b a = true.
Proof.
  unfold later. destruct (str_le_total (event_id a) (event_id b)) as [E|E]; rewrite E, ?andb_true_r;
    destruct (str_le _ _); lia.
Qed.
Lemma later_trans a b c : later a b = true → later b c = true → later a c = true.
Proof.
  unfold later, str_le. rewrite !orb_true_iff, !andb_true_iff, !bool_decide_eq_true, !Z.ltb_lt, !Z.eqb_eq.
  intros [?|[? ?]] [?|[? ?]]; [left; lia..|]. right. split; [lia|]. by etrans.
Qed.

(** A page of the audit trail holds the latest of the events that the filter selects, as
    many as the limit admits, and nothing else. *)
Lemma audit_page salt filter d :
  Forall (λ r, r ∈ d ∧ selected filter r = true) (newest salt filter d) ∧
  length (newest salt filter d) =
    (Z.to_nat (page_limit filter.(AuditFilter.Limit)) `min` length (List.filter (selected filter) d))%nat ∧
  ∀ r, r ∈ d → selected filter r = true → r ∈ newest salt filter d ∨
    Forall (λ shown, later shown r = true) (newest salt filter d).
Proof.
  unfold newest, limit_offset. change (Z.to_nat 0) with 0%nat. rewrite drop_0.
  pose proof (order_by_perm _ later salt (List.filter (selected filter) d)) as Hp.
  pose proof (order_by_sorted _ later salt (List.filter (selected filter) d) later_total later_trans) as Hs.
  set (n := Z.to_nat _). assert (∀ r, r ∈ order_by later salt (List.filter (selected filter) d) ↔
    r ∈ d ∧ selected filter r = true) as Hin.
  { intros r. rewrite Hp, list_elem_of_In, filter_In. by rewrite list_elem_of_In. }
  split_and!.
  - apply Forall_forall. intros r Hr. apply Hin. rewrite <- (take_drop n). apply elem_of_app. by left.
  - by rewrite length_take, Hp.
  - intros r Hd Hf. assert (r ∈ order_by later salt (List.filter (selected filter) d)) as Hr by (by apply Hin).
    rewrite <- (take_drop n) in Hr. apply elem_of_app in Hr as [?|Hr]; [by left|right]. apply Forall_forall.
    intros x Hx. by eapply (sorted_cut (λ a b, later a b = true)).
Qed.
End repository.
End AuditRepository.
