(* ===== verification/SlurmDiscovery.v ===== *)
(** * What a Slurm login node reports (src/internal/provider/slurm: discovery.go,
      transfer_health.go, connection_factory.go)

    One probe prints facts, partitions, nodes, filesystems and transfer tools, one record
    per line with fields between bars; [parseDiscovery] turns the lines into an inventory.
    The entry [transferCapabilities] of the metadata is the same value as the field
    [Transfer] and is not repeated. *)

From Stdlib Require Import Ascii.
From S2P Require Import Prelude GoStrings GoFloat GoPath Domain Ports Shell Slurm Monitor Discovery Connectors.
From S2P Require Import Storage Filesystem.

Module SlurmDiscovery.
Import Connectors.
Abbreviation dq := Slurm.dq.
Abbreviation CommandExecutor := SSHCommandExecutor.CommandExecutor.

(** ** Connections (connection_factory.go) *)

(** [configString], [configInt], [configBool]; [truncate] is the conversion of a [float64]
    to [int]. *)
Definition configString (configuration : metadata) (key : string) : string := trim_space (meta_string configuration key).
Definition configInt (truncate : float64 → Z) (configuration : metadata) (key : string) : Z :=
  match lookup_zero configuration key with
  | AnyFloat64 f => truncate f
  | AnyInt z => z
  | AnyString s => Atoi_value s
  | _ => 0
  end.
Definition configBool (configuration : metadata) (key : string) (fallback : bool) : bool :=
  match lookup_zero configuration key with AnyBool b => b | _ => fallback end.
(** [credentialFile], [knownHostsFile] *)
Definition credentialFile (reference : string) : string :=
  if has_prefix "file:" reference then trim_space (trim_prefix "file:" reference) else "".
Definition knownHostsFile (connection : EnvironmentConnection) : string :=
  let value := configString connection.(EnvironmentConnection.Configuration) "knownHostsFile" in
  if bool_decide (value = "") then "storage/credentials/ssh/known_hosts" else value.

Definition slurm_connection (t : ConnectionType) : bool := bool_decide (t ∈ [ConnectionSSH; ConnectionAgent; ConnectionLocal]).
(** The executor of a connection over SSH. *)
Definition ssh_executor {W} (truncate : float64 → Z) (executor : CommandExecutor W) (connection : EnvironmentConnection)
    : SSHCommandExecutor.SSHCommandExecutor W :=
  let configuration := connection.(EnvironmentConnection.Configuration) in
  SSHCommandExecutor.mk W (Some executor) connection.(EnvironmentConnection.Endpoint)
    connection.(EnvironmentConnection.Username) (configInt truncate configuration "port")
    (credentialFile connection.(EnvironmentConnection.CredentialRef)) (configString configuration "proxyCommand")
    (configString configuration "hostKeyAlias") (knownHostsFile connection)
    (configBool configuration "forwardAgent" false).

(** [Config] of adapter.go and [ConnectionFactory.Build]: the executor and the
    configuration of the adapter it makes. *)
Module Config.
Record Config := mk { Partition : string; ScriptDirectory : string; SubmitFromStdin : bool }.
End Config.
Abbreviation Config := Config.Config.
Definition first_set (l : list string) : string :=
  default "" (List.find (λ s, negb (bool_decide (s = ""))) l).
Definition Build `{OS W} (truncate : float64 → Z) (executor : CommandExecutor W) (DefaultScriptDirectory : string)
    (runtime : EnvironmentRuntime) (connection : EnvironmentConnection) : result (CommandExecutor W * Config) :=
  if negb (slurm_connection connection.(EnvironmentConnection.Type_)) then
    Err (errorf "connection %q is %q, SLURM runtime requires ssh, agent, or local connection"
      [connection.(EnvironmentConnection.ID); ConnectionType_string connection.(EnvironmentConnection.Type_)])
  else
    let remote := bool_decide (connection.(EnvironmentConnection.Type_) = ConnectionSSH) &&
                  negb (bool_decide (trim_space connection.(EnvironmentConnection.Endpoint) = "")) in
    let executor := if remote then SSHCommandExecutor.Run (ssh_executor truncate executor connection) else executor in
    let setting key := configString runtime.(EnvironmentRuntime.Configuration) key in
    let inherited key := configString connection.(EnvironmentConnection.Configuration) key in
    let scriptDirectory := first_set [setting "scriptDirectory"; inherited "scriptDirectory"; DefaultScriptDirectory] in
    if bool_decide (scriptDirectory = "") then
      Err (errorf "runtime %q needs a script directory" [runtime.(EnvironmentRuntime.ID)])
    else Ok (executor, Config.mk (first_set [setting "partition"; inherited "partition"]) scriptDirectory remote).

(** ** Fields *)
Definition cleanPartition (value : string) : string := trim_suffix "*" (trim_space value).
Definition integer (value : string) : Z := Atoi_value (trim_space value).
Definition csv (value : string) : list string :=
  let value := trim_space value in
  if bool_decide (value ∈ [""; "(null)"; "N/A"]) then [] else split_byte "," value.
Definition emptyIfNone (value : string) : string := if bool_decide (value ∈ ["none"; "(null)"]) then "" else value.
Definition appendUnique (values : list string) (candidate : string) : list string :=
  if bool_decide (candidate ∈ values) then values else values ++ [candidate].

(** ** Records *)

(** The map of a node. *)
Module node.
Record node := mk {
  name : string; state : string; cpuCores : Z; memoryMiB : Z; temporaryDiskMiB : Z; weight : Z;
  features : list string; gres : list string; reason : string; partitions : list string
}.
#[global] Instance eta : Eta node := λ n,
  mk n.(name) n.(state) n.(cpuCores) n.(memoryMiB) n.(temporaryDiskMiB) n.(weight) n.(features) n.(gres)
    n.(reason) n.(partitions).
End node.
Abbreviation node := node.node.
Definition node_map (n : node) : list (string * any) :=
  [("name", AnyString n.(node.name)); ("state", AnyString n.(node.state)); ("cpuCores", AnyInt64 n.(node.cpuCores));
   ("memoryMiB", AnyInt64 n.(node.memoryMiB)); ("temporaryDiskMiB", AnyInt64 n.(node.temporaryDiskMiB));
   ("weight", AnyInt64 n.(node.weight)); ("features", AnyStrings n.(node.features)); ("gres", AnyStrings n.(node.gres));
   ("reason", AnyString n.(node.reason)); ("partitions", AnyStrings n.(node.partitions))].

(** What [parseDiscovery] collects. *)
Module found.
Record found := mk {
  metadata : metadata; partitions : list (list (string * any)); nodesByName : gmap string node;
  nodeOrder : list string; filesystems : list (list (string * any)); warnings : list string;
  transfer : TransferCapabilities
}.
#[global] Instance eta : Eta found := λ f,
  mk f.(metadata) f.(partitions) f.(nodesByName) f.(nodeOrder) f.(filesystems) f.(warnings) f.(transfer).
End found.
Abbreviation found := found.found.

(** [transferCapabilities] *)
Definition unobserved (now : Time) (reason : string) : CapabilityObservation :=
  CapabilityObservation.mk false None reason now (now + 15 * Minute).
Definition transferCapabilities (now : Time) : TransferCapabilities := {|
  TransferCapabilities.Connectors := [
    (TransferConnectorRsync, unobserved now "rsync is not installed");
    (TransferConnectorSCP, unobserved now "scp is not installed");
    (TransferConnectorSFTP, unobserved now "sftp is not installed");
    (TransferConnectorHTTP, unobserved now "curl is not installed")];
  TransferCapabilities.OutboundHTTPS := unobserved now "outbound HTTPS was not probed";
  TransferCapabilities.ContainerRuntime := unobserved now "apptainer or singularity is not installed";
  TransferCapabilities.Checksum := unobserved now "sha256sum is not installed";
  TransferCapabilities.Paths := []; TransferCapabilities.ObservedAt := now;
  TransferCapabilities.FreshUntil := now + 15 * Minute |}.
(** [capabilityObservation] with [unavailableReason] *)
Definition unavailableReason (available : bool) (reason : string) : string := if available then "" else reason.
Definition capabilityObservation (t : TransferCapabilities) (available : bool) (unavailable : string)
    : CapabilityObservation :=
  CapabilityObservation.mk available None (unavailableReason available unavailable)
    t.(TransferCapabilities.ObservedAt) t.(TransferCapabilities.FreshUntil).
Definition set_connector (connector : TransferConnector) (o : CapabilityObservation) (t : TransferCapabilities)
    : TransferCapabilities :=
  t <| TransferCapabilities.Connectors :=
    map (λ '(c, old), (c, if bool_decide (c = connector) then o else old)) t.(TransferCapabilities.Connectors) |>.
(** [setTransferTool] *)
Definition setTransferTool (t : TransferCapabilities) (tool : string) (available : bool) : TransferCapabilities :=
  let observed := capabilityObservation t available in
  if bool_decide (tool = "rsync") then set_connector TransferConnectorRsync (observed "rsync is not installed") t
  else if bool_decide (tool = "scp") then set_connector TransferConnectorSCP (observed "scp is not installed") t
  else if bool_decide (tool = "sftp") then set_connector TransferConnectorSFTP (observed "sftp is not installed") t
  else if bool_decide (tool = "curl") then set_connector TransferConnectorHTTP (observed "curl is not installed") t
  else if bool_decide (tool ∈ ["apptainer"; "singularity"]) then
    t <| TransferCapabilities.ContainerRuntime := observed "apptainer or singularity is not installed" |>
  else if bool_decide (tool = "sha256sum") then
    t <| TransferCapabilities.Checksum := observed "sha256sum is not installed" |>
  else t.
(** [handleTransferRecord]; a record with too few fields is ignored. *)
Definition transferPath (kind path writable available : string) : TransferPath :=
  TransferPath.mk path kind (bool_decide (writable = "true")) (integer available) true None "" 0.
Definition handleTransferRecord (t : TransferCapabilities) (fields : list string) : TransferCapabilities :=
  match fields with
  | "TRANSFER_TOOL" :: tool :: state :: _ => setTransferTool t tool (bool_decide (state = "available"))
  | "TRANSFER_HTTPS" :: state :: _ =>
    let available := bool_decide (state = "available") in
    t <| TransferCapabilities.OutboundHTTPS :=
      let o := t.(TransferCapabilities.OutboundHTTPS) <| CapabilityObservation.Available := available |> in
      if available then o else o <| CapabilityObservation.Reason := "outbound HTTPS probe failed" |> |>
  | "TRANSFER_PATH" :: kind :: path :: writable :: available :: _ =>
    t <| TransferCapabilities.Paths := t.(TransferCapabilities.Paths) ++ [transferPath kind path writable available] |>
  | _ => t
  end.

(** ** [parseDiscovery] *)
Definition partition_map (name availability nodeCount cores memory timeLimit : string) : list (string * any) :=
  [("name", AnyString (cleanPartition name)); ("default", AnyBool (has_suffix "*" name));
   ("availability", AnyString availability); ("nodeCount", AnyInt64 (integer nodeCount));
   ("cpuCoresPerNode", AnyInt64 (integer cores)); ("memoryMiBPerNode", AnyInt64 (integer memory));
   ("timeLimit", AnyString timeLimit)].
Definition filesystem_map (device type capacity used available mountPoint : string) : list (string * any) :=
  [("device", AnyString device); ("type", AnyString type); ("capacityKiB", AnyInt64 (integer capacity));
   ("usedKiB", AnyInt64 (integer used)); ("availableKiB", AnyInt64 (integer available));
   ("mountPoint", AnyString mountPoint)].
Definition new_node (name state cores memory disk weight features gres reason : string) : node :=
  node.mk name state (integer cores) (integer memory) (integer disk) (integer weight) (csv features) (csv gres)
    (emptyIfNone reason) [].
(** A line of a node: the first one makes the node, each one adds its partition. *)
Definition add_node (n : node) (partition : string) (f : found) : found :=
  let name := n.(node.name) in
  let known := match f.(found.nodesByName) !! name with Some old => old | None => n end in
  f <| found.nodesByName := <[name := known <| node.partitions := appendUnique known.(node.partitions) partition |>]>
         f.(found.nodesByName) |>
    <| found.nodeOrder := if bool_decide (is_Some (f.(found.nodesByName) !! name)) then f.(found.nodeOrder)
                          else f.(found.nodeOrder) ++ [name] |>.
Definition parse_fields (f : found) (fields : list string) : found :=
  match fields with
  | [] => f
  | kind :: values =>
    if bool_decide (kind = "") then f
    else if bool_decide (kind = "FACT") then
      match values with
      | key :: ((_ :: _) as rest) => f <| found.metadata := <[key := AnyString (join_byte "|" rest)]> f.(found.metadata) |>
      | _ => f
      end
    else if bool_decide (kind = "PARTITION") then
      match values with
      | name :: availability :: count :: cores :: memory :: limit :: _ =>
        f <| found.partitions := f.(found.partitions) ++ [partition_map name availability count cores memory limit] |>
      | _ => f <| found.warnings := f.(found.warnings) ++ ["ignored malformed partition record"] |>
      end
    else if bool_decide (kind = "NODE") then
      match values with
      | partition :: name :: state :: cores :: memory :: disk :: weight :: features :: gres :: reason :: _ =>
        add_node (new_node name state cores memory disk weight features gres reason) (cleanPartition partition) f
      | _ => f <| found.warnings := f.(found.warnings) ++ ["ignored malformed node record"] |>
      end
    else if bool_decide (kind = "FILESYSTEM") then
      match values with
      | device :: type :: capacity :: used :: available :: mount :: _ =>
        f <| found.filesystems := f.(found.filesystems) ++ [filesystem_map device type capacity used available mount] |>
      | _ => f
      end
    else f <| found.transfer := handleTransferRecord f.(found.transfer) fields |>
  end.
Definition parse_line (f : found) (raw : string) : found := parse_fields f (split_byte "|" (trim_space raw)).

(** [orderedNodes] *)
Definition orderedNodes (byName : gmap string node) (order : list string) : list node :=
  omap (λ name, byName !! name) order.
(** [discoveredNode]; the sizes are products of 64-bit integers. *)
Definition discoveredNode (architecture : string) (n : node) : DiscoveredNode := {|
  DiscoveredNode.Name := n.(node.name); DiscoveredNode.State := n.(node.state);
  DiscoveredNode.CPUCores := n.(node.cpuCores);
  DiscoveredNode.MemoryBytes := int64 (int64 (n.(node.memoryMiB) * 1024) * 1024);
  DiscoveredNode.StorageBytes := int64 (int64 (n.(node.temporaryDiskMiB) * 1024) * 1024);
  DiscoveredNode.Architecture := architecture; DiscoveredNode.Partitions := n.(node.partitions);
  DiscoveredNode.Features := n.(node.features); DiscoveredNode.GenericResources := n.(node.gres);
  DiscoveredNode.Reason := n.(node.reason); DiscoveredNode.Metadata := list_to_map (node_map n) |}.
(** [discoveredLoginNode] *)
Definition available_bytes (filesystem : list (string * any)) : Z :=
  match (list_to_map filesystem : metadata) !! "availableKiB" with Some (AnyInt64 n) => int64 (n * 1024) | _ => 0 end.
Definition discoveredLoginNode (metadata : metadata) (filesystems : list (list (string * any)))
    : option DiscoveredLoginNode :=
  let name := meta_string metadata "hostname" in
  if bool_decide (trim_space name = "") then None
  else
    let architecture := meta_string metadata "architecture" in
    let fact key := (key, lookup_zero metadata key) in
    Some {|
      DiscoveredLoginNode.Name := name; DiscoveredLoginNode.Architecture := architecture;
      DiscoveredLoginNode.CPUCores := integer (meta_string metadata "loginCpuCores");
      DiscoveredLoginNode.MemoryBytes := int64 (integer (meta_string metadata "loginMemoryKiB") * 1024);
      DiscoveredLoginNode.StorageBytes := foldl (λ total f, int64 (total + available_bytes f)) 0 filesystems;
      DiscoveredLoginNode.Metadata := list_to_map [
        ("role", AnyString "login"); ("hostname", AnyString name); ("architecture", AnyString architecture);
        fact "os"; fact "kernel"; fact "homeDirectory"; fact "workingDirectory"; fact "temporaryDirectory";
        fact "slurmVersion"; fact "containerRuntime"; ("filesystems", AnyMaps filesystems)] |}.

Definition nothing_found (now : Time) : found := found.mk ∅ [] ∅ [] [] [] (transferCapabilities now).
(** The end of [parseDiscovery]. *)
Definition inventory (f : found) : ConnectionDiscovery :=
  let nodes := orderedNodes f.(found.nodesByName) f.(found.nodeOrder) in
  let metadata := <["partitions" := AnyMaps f.(found.partitions)]> (<["nodes" := AnyMaps (map node_map nodes)]>
    (<["filesystems" := AnyMaps f.(found.filesystems)]> f.(found.metadata))) in
  {| ConnectionDiscovery.Available := negb (bool_decide (f.(found.partitions) = []));
     ConnectionDiscovery.Metadata := delete "transferCapabilities" metadata; ConnectionDiscovery.Warnings := f.(found.warnings);
     ConnectionDiscovery.Nodes := map (discoveredNode (meta_string metadata "architecture")) nodes;
     ConnectionDiscovery.LoginNode := discoveredLoginNode metadata f.(found.filesystems);
     ConnectionDiscovery.Transfer := f.(found.transfer) |}.
Definition parseDiscovery (now : Time) (output : string) : ConnectionDiscovery :=
  inventory (foldl parse_line (nothing_found now) (split_byte LF output)).

(** [addConfiguredTransferPaths] *)
Definition configured_path (raw : any) : option TransferPath :=
  match raw with
  | AnyString path => if bool_decide (trim_space path = "") then None
      else Some (TransferPath.mk path "configured" false 0 false None "requires explicit path health check" 0)
  | _ => None
  end.
Definition addConfiguredTransferPaths (t : TransferCapabilities) (configuration : metadata) : TransferCapabilities :=
  t <| TransferCapabilities.Paths := t.(TransferCapabilities.Paths) ++
    match lookup_zero configuration "transferPaths" with AnySlice values => omap configured_path values | _ => [] end |>.

(** [transferPathScript] and the script of the probe. *)
Definition transferPathScript : string := dq
  "for pair in ~home:$HOME~ ~temporary:${TMPDIR:-/tmp}~ ~working:$(pwd -P)~; do kind=${pair%%:*}; path=${pair#*:}; available=$(df -Pk ~$path~ 2>/dev/null | awk 'NR==2 {print $4 * 1024}'); if test -w ~$path~; then writable=true; else writable=false; fi; printf 'TRANSFER_PATH|%s|%s|%s|%s\n' ~$kind~ ~$path~ ~$writable~ ~${available:-0}~; done".
Fixpoint join_str (sep : string) (l : list string) : string :=
  match l with [] => "" | [s] => s | s :: l => s +:+ sep +:+ join_str sep l end.
Definition probe_script : string := join_str "; " [
  "printf 'FACT|architecture|'; uname -m";
  "printf 'FACT|hostname|'; hostname -f 2>/dev/null || hostname";
  "printf 'FACT|kernel|'; uname -sr";
  dq "printf 'FACT|os|'; (awk -F= '$1==~PRETTY_NAME~ {gsub(/^~|~$/, ~~, $2); print $2}' /etc/os-release 2>/dev/null || true)";
  "printf 'FACT|workingDirectory|'; pwd -P";
  dq "printf 'FACT|homeDirectory|'; printf '%s\n' ~$HOME~";
  dq "printf 'FACT|temporaryDirectory|'; printf '%s\n' ~${TMPDIR:-/tmp}~";
  "printf 'FACT|loginCpuCores|'; (getconf _NPROCESSORS_ONLN 2>/dev/null || nproc 2>/dev/null || printf '0\n')";
  "printf 'FACT|loginMemoryKiB|'; awk '/^MemTotal:/ {print $2}' /proc/meminfo 2>/dev/null";
  "printf 'FACT|slurmVersion|'; (sinfo --version 2>/dev/null || true)";
  "printf 'FACT|queueLength|'; squeue -h 2>/dev/null | wc -l | tr -d ' '";
  "(apptainer --version || singularity --version) 2>/dev/null | sed 's/^/FACT|containerRuntime|/'";
  dq "for tool in rsync scp sftp curl apptainer singularity sha256sum; do if command -v ~$tool~ >/dev/null 2>&1; then printf 'TRANSFER_TOOL|%s|available\n' ~$tool~; else printf 'TRANSFER_TOOL|%s|unavailable\n' ~$tool~; fi; done";
  "if command -v curl >/dev/null 2>&1 && curl --head --silent --show-error --max-time 5 https://example.com >/dev/null 2>&1; then printf 'TRANSFER_HTTPS|available\n'; else printf 'TRANSFER_HTTPS|unavailable\n'; fi";
  transferPathScript;
  "sinfo -h -o 'PARTITION|%P|%a|%D|%c|%m|%l'";
  "sinfo -h -N -o 'NODE|%P|%N|%T|%c|%m|%d|%w|%f|%G|%E'";
  dq "df -PkT ~$HOME~ ~${TMPDIR:-/tmp}~ ~$(pwd -P)~ 2>/dev/null | awk 'NR>1 {printf ~FILESYSTEM|%s|%s|%s|%s|%s|%s\n~, $1, $2, $3, $4, $5, $7}' | sort -u"].

Section probe.
Context `{OS W, WallClock W} (encode64 : string → string) (truncate : float64 → Z).

(** [Discovery.DiscoverConnection] *)
Definition DiscoverConnection (executor : CommandExecutor W) (connection : EnvironmentConnection)
    : effr W ConnectionDiscovery :=
  let t := connection.(EnvironmentConnection.Type_) in
  if negb (slurm_connection t) then
    eret (Err (errorf "unsupported SLURM connection type %q" [ConnectionType_string t]))
  else
    let executor := if bool_decide (t = ConnectionSSH)
                    then SSHCommandExecutor.Run (ssh_executor truncate executor connection) else executor in
    let! (output, err) := executor "/bin/sh"
      ["-c"; "printf %s " +:+ encode64 probe_script +:+ " | base64 -d | /bin/sh"] "" in
    match err with
    | Some e => eret (Err (errorf "SLURM discovery: %w" [e]))
    | None =>
      let! now := Now in
      let result := parseDiscovery now output in
      eret (Ok (ConnectionDiscovery.mk result.(ConnectionDiscovery.Available) result.(ConnectionDiscovery.Metadata)
        result.(ConnectionDiscovery.Warnings) result.(ConnectionDiscovery.Nodes) result.(ConnectionDiscovery.LoginNode)
        (addConfiguredTransferPaths result.(ConnectionDiscovery.Transfer)
           connection.(EnvironmentConnection.Configuration))))
    end.
End probe.

(** ** What the probe prints, and the inventory it stands for *)
Inductive record :=
  | Fact (key value : string)
  | PartitionLine (name : string) (default_ : bool) (availability : string) (nodeCount cores memory : Z) (limit : string)
  | NodeLine (partition : string) (default_ : bool) (name state : string) (cores memory disk weight : Z)
      (features gres : list string) (reason : option string)
  | FilesystemLine (device type : string) (capacity used available : Z) (mountPoint : string)
  | ToolLine (tool : string) (available : bool)
  | HTTPSLine (available : bool)
  | PathLine (kind path : string) (writable : bool) (available : Z).

Definition starred (name : string) (default_ : bool) : string := if default_ then name +:+ "*" else name.
Definition listed (l : list string) : string := match l with [] => "(null)" | _ => join_byte "," l end.
Definition availability (b : bool) : string := if b then "available" else "unavailable".
Definition fields (r : record) : list string :=
  match r with
  | Fact key value => "FACT" :: key :: split_byte "|" value
  | PartitionLine name d a n c m t => ["PARTITION"; starred name d; a; itoa n; itoa c; itoa m; t]
  | NodeLine p d name state c m t w fs gs reason =>
      ["NODE"; starred p d; name; state; itoa c; itoa m; itoa t; itoa w; listed fs; listed gs; default "none" reason]
  | FilesystemLine d t c u a m => ["FILESYSTEM"; d; t; itoa c; itoa u; itoa a; m]
  | ToolLine tool b => ["TRANSFER_TOOL"; tool; availability b]
  | HTTPSLine b => ["TRANSFER_HTTPS"; availability b]
  | PathLine k p w a => ["TRANSFER_PATH"; k; p; if w then "true" else "false"; itoa a]
  end.
Definition printed (r : record) : string := join_byte "|" (fields r).

(** Values the records can carry: sizes are 64-bit, a partition's name does not end in the
    mark of the default one, and no value is spelled like an absent one. *)
Definition size (z : Z) : Prop := 0 ≤ z < 2 ^ 63.
Definition partition_name (name : string) (d : bool) : Prop :=
  trim_space (starred name d) = starred name d ∧ has_suffix "*" name = false.
Definition csv_list (l : list string) : Prop :=
  Forall (free_of ",") l ∧ (l ≠ [] → trim_space (join_byte "," l) = join_byte "," l ∧ join_byte "," l ∉ [""; "(null)"; "N/A"]).
Definition admissible (r : record) : Prop :=
  Forall (free_of "|") (fields r) ∧ free_of LF (printed r) ∧ trim_space (printed r) = printed r ∧
  match r with
  | PartitionLine name d _ n c m _ => partition_name name d ∧ Forall size [n; c; m]
  | NodeLine p d _ _ c m t w fs gs reason =>
      partition_name p d ∧ Forall size [c; m; t; w] ∧ csv_list fs ∧ csv_list gs ∧ reason ∉ [Some "none"; Some "(null)"]
  | FilesystemLine _ _ c u a _ => Forall size [c; u; a]
  | PathLine _ _ _ a => size a
  | _ => True
  end.

(** The entries of each kind, in the order of their lines. *)
Definition a_fact (r : record) : option (string * any) :=
  match r with Fact k v => Some (k, AnyString v) | _ => None end.
Definition a_partition (r : record) : option (list (string * any)) :=
  match r with
  | PartitionLine name d a n c m t => Some
     [("name", AnyString name); ("default", AnyBool d); ("availability", AnyString a); ("nodeCount", AnyInt64 n);
      ("cpuCoresPerNode", AnyInt64 c); ("memoryMiBPerNode", AnyInt64 m); ("timeLimit", AnyString t)]
  | _ => None
  end.
Definition a_filesystem (r : record) : option (list (string * any)) :=
  match r with
  | FilesystemLine d t c u a m => Some
     [("device", AnyString d); ("type", AnyString t); ("capacityKiB", AnyInt64 c); ("usedKiB", AnyInt64 u);
      ("availableKiB", AnyInt64 a); ("mountPoint", AnyString m)]
  | _ => None
  end.
Definition a_path (r : record) : option TransferPath :=
  match r with PathLine k p w a => Some (TransferPath.mk p k w a true None "" 0) | _ => None end.
(** A line of a node: the node with the one partition the line names. *)
Definition a_node (r : record) : option node :=
  match r with
  | NodeLine p _ name state c m t w fs gs reason => Some (node.mk name state c m t w fs gs (default "" reason) [p])
  | _ => None
  end.
Definition tool_status (tools : list string) (r : record) : option bool :=
  match r with ToolLine tool b => if bool_decide (tool ∈ tools) then Some b else None | _ => None end.
Definition https_status (r : record) : option bool := match r with HTTPSLine b => Some b | _ => None end.

(** The values of a list without repetitions, in the order they first appear. *)
Fixpoint distinct (l : list string) : list string :=
  match l with [] => [] | x :: l => x :: base.filter (λ y, y ≠ x) (distinct l) end.
(** A node has the attributes of the first line that names it and the partitions of all. *)
Definition lines_of (name : string) (records : list record) : list node :=
  base.filter (λ n, n.(node.name) = name) (omap a_node records).
Definition grouped (name : string) (records : list record) : option node :=
  match lines_of name records with
  | [] => None
  | (n :: _) as l => Some (n <| node.partitions := distinct (mjoin (map node.partitions l)) |>)
  end.
Definition names (records : list record) : list string := distinct (map node.name (omap a_node records)).

(** The last line about a tool decides. *)
Definition tool_observation (now : Time) (records : list record) (tools : list string) (reason : string)
    : CapabilityObservation :=
  let available := default false (last (omap (tool_status tools) records)) in
  CapabilityObservation.mk available None (if available then "" else reason) now (now + 15 * Minute).
Definition reported_transfer (now : Time) (records : list record) : TransferCapabilities := {|
  TransferCapabilities.Connectors := [
    (TransferConnectorRsync, tool_observation now records ["rsync"] "rsync is not installed");
    (TransferConnectorSCP, tool_observation now records ["scp"] "scp is not installed");
    (TransferConnectorSFTP, tool_observation now records ["sftp"] "sftp is not installed");
    (TransferConnectorHTTP, tool_observation now records ["curl"] "curl is not installed")];
  TransferCapabilities.OutboundHTTPS :=
    CapabilityObservation.mk (default false (last (omap https_status records))) None
      (if bool_decide (false ∈ omap https_status records) then "outbound HTTPS probe failed"
       else "outbound HTTPS was not probed") now (now + 15 * Minute);
  TransferCapabilities.ContainerRuntime :=
    tool_observation now records ["apptainer"; "singularity"] "apptainer or singularity is not installed";
  TransferCapabilities.Checksum := tool_observation now records ["sha256sum"] "sha256sum is not installed";
  TransferCapabilities.Paths := omap a_path records; TransferCapabilities.ObservedAt := now;
  TransferCapabilities.FreshUntil := now + 15 * Minute |}.

(** What the parser has collected after some records. *)
Record collected (now : Time) (records : list record) (f : found) : Prop := {
  collected_facts : f.(found.metadata) = list_to_map (reverse (omap a_fact records));
  collected_partitions : f.(found.partitions) = omap a_partition records;
  collected_nodes : ∀ name, f.(found.nodesByName) !! name = grouped name records;
  collected_order : f.(found.nodeOrder) = names records;
  collected_filesystems : f.(found.filesystems) = omap a_filesystem records;
  collected_warnings : f.(found.warnings) = [];
  collected_transfer : f.(found.transfer) = reported_transfer now records
}.

(** ** Reading a field back *)
Lemma integer_itoa z : size z → integer (itoa z) = z.
Proof.
  intros [H0 H1]. unfold integer, Atoi_value. rewrite Slurm.trim_itoa by done. by rewrite Slurm.parse_int_itoa.
Qed.
Lemma rev_app_snoc s c t : String.rev_app (s +:+ String c "") t = String c (String.rev_app s t).
Proof. revert t. induction s as [|a s IH]; intros t; [done|]. apply IH. Qed.
Lemma has_suffix_starred name d : has_suffix "*" name = false → has_suffix "*" (starred name d) = d.
Proof.
  intros H. destruct d; [|done]. unfold starred, has_suffix. unfold String.rev. by rewrite rev_app_snoc.
Qed.
Lemma clean_starred name d : partition_name name d → cleanPartition (starred name d) = name.
Proof.
  intros [Ht Hs]. unfold cleanPartition. rewrite Ht. unfold trim_suffix. rewrite has_suffix_starred by done.
  destruct d; [|done]. unfold starred. rewrite str_length_app. cbn [str_length].
  rewrite Nat.add_sub. rewrite take_str_app by done. apply take_str_all.
Qed.
Lemma csv_listed l : csv_list l → csv (listed l) = l.
Proof.
  intros [Hf Hl]. destruct l as [|x l]; [done|]. destruct Hl as [Ht Hn]; [done|].
  unfold csv, listed. rewrite Ht, bool_decide_eq_false_2 by done. by apply split_join_byte.
Qed.
Lemma reason_back reason : reason ∉ [Some "none"; Some "(null)"] → emptyIfNone (default "none" reason) = default "" reason.
Proof.
  intros H. unfold emptyIfNone. destruct reason as [s|]; [|done]. simpl.
  rewrite bool_decide_eq_false_2; [done|]. set_solver.
Qed.
Lemma fields_back r : admissible r → split_byte "|" (trim_space (printed r)) = fields r.
Proof.
  intros (Hf & _ & Ht & _). rewrite Ht. apply split_join_byte; [|done]. by destruct r.
Qed.

(** ** One line at a time *)
Lemma elem_of_distinct x l : x ∈ distinct l ↔ x ∈ l.
Proof.
  induction l as [|y l IH]; [done|]. cbn [distinct]. rewrite !elem_of_cons, list_elem_of_filter, IH.
  destruct (decide (x = y)); naive_solver.
Qed.
Lemma distinct_snoc l x : distinct (l ++ [x]) = appendUnique (distinct l) x.
Proof.
  induction l as [|y l IH]; [done|]. cbn [app distinct]. rewrite IH. unfold appendUnique.
  destruct (decide (x = y)) as [->|Hne].
  - rewrite (bool_decide_eq_true_2 (y ∈ y :: _)) by apply elem_of_cons, or_introl, eq_refl.
    case_bool_decide; [done|]. rewrite filter_app. cbn. rewrite decide_False by tauto. by rewrite app_nil_r.
  - case_bool_decide as Hin.
    + by rewrite bool_decide_eq_true_2 by (apply elem_of_cons; right; apply list_elem_of_filter; done).
    + rewrite bool_decide_eq_false_2 by (rewrite elem_of_cons, list_elem_of_filter; tauto).
      rewrite filter_app. cbn. by rewrite decide_True.
Qed.
Lemma partition_back name d a n c m t :
  partition_name name d → Forall size [n; c; m] →
  a_partition (PartitionLine name d a n c m t) =
    Some (partition_map (starred name d) a (itoa n) (itoa c) (itoa m) t).
Proof.
  intros Hp Hn. unfold partition_map. rewrite clean_starred by done. rewrite has_suffix_starred by apply Hp.
  rewrite !Forall_cons in Hn. destruct Hn as (? & ? & ? & _). by rewrite !integer_itoa.
Qed.
Lemma filesystem_back d t c u a m :
  Forall size [c; u; a] →
  a_filesystem (FilesystemLine d t c u a m) = Some (filesystem_map d t (itoa c) (itoa u) (itoa a) m).
Proof.
  rewrite !Forall_cons. intros (? & ? & ? & _). unfold filesystem_map. by rewrite !integer_itoa.
Qed.
Lemma path_back k p w a :
  size a → a_path (PathLine k p w a) = Some (transferPath k p (if w then "true" else "false") (itoa a)).
Proof. intros Ha. unfold transferPath. rewrite integer_itoa by done. by destruct w. Qed.
Lemma node_back p d name state c m t w fs gs reason :
  partition_name p d → Forall size [c; m; t; w] → csv_list fs → csv_list gs → reason ∉ [Some "none"; Some "(null)"] →
  a_node (NodeLine p d name state c m t w fs gs reason) =
    Some ((new_node name state (itoa c) (itoa m) (itoa t) (itoa w) (listed fs) (listed gs) (default "none" reason))
            <| node.partitions := [p] |>).
Proof.
  rewrite !Forall_cons. intros Hp (? & ? & ? & ? & _) Hfs Hgs Hr. unfold new_node.
  by rewrite !integer_itoa, !csv_listed, reason_back.
Qed.
Lemma lines_of_snoc name rs r n :
  a_node r = Some n →
  lines_of name (rs ++ [r]) = lines_of name rs ++ if decide (n.(node.name) = name) then [n] else [].
Proof.
  intros Hr. unfold lines_of. rewrite omap_app, filter_app. f_equal. cbn [omap list_omap]. rewrite Hr.
  cbn. by destruct (decide _).
Qed.
Lemma grouped_known name rs : is_Some (grouped name rs) ↔ name ∈ names rs.
Proof.
  unfold names. rewrite elem_of_distinct. unfold grouped. rewrite list_elem_of_fmap.
  split.
  - destruct (lines_of name rs) as [|n l] eqn:E; [by intros []|]. intros _. exists n.
    assert (n ∈ lines_of name rs) as [? ?]%list_elem_of_filter by (rewrite E; apply list_elem_of_here). done.
  - intros (n & -> & Hn). destruct (lines_of (node.name n) rs) eqn:E; [|by eexists].
    assert (n ∈ lines_of (node.name n) rs) as Hin by by apply list_elem_of_filter.
    rewrite E in Hin. by apply not_elem_of_nil in Hin.
Qed.
Lemma grouped_line n p rs r name :
  a_node r = Some (n <| node.partitions := [p] |>) → n.(node.partitions) = [] →
  grouped name (rs ++ [r]) =
    if decide (n.(node.name) = name)
    then let known := default n (grouped name rs) in
         Some (known <| node.partitions := appendUnique known.(node.partitions) p |>)
    else grouped name rs.
Proof.
  intros Hr Hp. unfold grouped. rewrite (lines_of_snoc _ _ _ _ Hr). destruct n as [nm]. cbn in *.
  destruct (decide (nm = name)); [|by rewrite app_nil_r].
  destruct (lines_of name rs) as [|x l]; cbn [app default].
  - by rewrite Hp.
  - do 2 f_equal. change (distinct (mjoin (map node.partitions ((x :: l) ++ [node.mk nm state cpuCores memoryMiB
      temporaryDiskMiB weight features gres reason [p]]))) = appendUnique (distinct (mjoin (map node.partitions (x :: l)))) p).
    rewrite map_app, join_app. apply distinct_snoc.
Qed.
Lemma names_line n p rs r :
  a_node r = Some (n <| node.partitions := [p] |>) → names (rs ++ [r]) = appendUnique (names rs) n.(node.name).
Proof.
  intros Hr. unfold names. rewrite omap_app, map_app. cbn [omap list_omap]. rewrite Hr. apply distinct_snoc.
Qed.
(** *** Tools and paths *)
Lemma tool_observation_snoc now rs r tools reason :
  tool_observation now (rs ++ [r]) tools reason =
    match tool_status tools r with
    | Some b => CapabilityObservation.mk b None (unavailableReason b reason) now (now + 15 * Minute)
    | None => tool_observation now rs tools reason
    end.
Proof.
  unfold tool_observation. rewrite omap_app. cbn [omap list_omap].
  destruct (tool_status tools r) as [b|]; [by rewrite last_snoc|by rewrite app_nil_r].
Qed.
Lemma tool_line now rs tool b :
  handleTransferRecord (reported_transfer now rs) (fields (ToolLine tool b)) = reported_transfer now (rs ++ [ToolLine tool b]).
Proof.
  unfold reported_transfer at 2. rewrite !tool_observation_snoc, !omap_app. cbn [tool_status omap list_omap https_status a_path].
  rewrite !app_nil_r. cbn [fields handleTransferRecord].
  replace (bool_decide (availability b = "available")) with b by by destruct b.
  unfold setTransferTool.
  destruct (decide (tool = "rsync")) as [->|H1]; [done|]. destruct (decide (tool = "scp")) as [->|H2]; [done|].
  destruct (decide (tool = "sftp")) as [->|H3]; [done|]. destruct (decide (tool = "curl")) as [->|H4]; [done|].
  destruct (decide (tool = "apptainer")) as [->|H5]; [done|]. destruct (decide (tool = "singularity")) as [->|H6]; [done|].
  destruct (decide (tool = "sha256sum")) as [->|H7]; [done|].
  repeat (rewrite (bool_decide_eq_false_2 (tool = _)) by done).
  by repeat (rewrite (bool_decide_eq_false_2 (tool ∈ _)) by set_solver).
Qed.
Lemma https_line now rs b :
  handleTransferRecord (reported_transfer now rs) (fields (HTTPSLine b)) = reported_transfer now (rs ++ [HTTPSLine b]).
Proof.
  unfold reported_transfer at 2. rewrite !tool_observation_snoc, !omap_app. cbn [tool_status omap list_omap https_status a_path].
  rewrite !app_nil_r, last_snoc. cbn [fields handleTransferRecord].
  replace (bool_decide (availability b = "available")) with b by by destruct b.
  unfold reported_transfer. destruct b; cbn.
  - by rewrite (bool_decide_ext (false ∈ _ ++ [true]) (false ∈ omap https_status rs)) by set_solver.
  - by rewrite (bool_decide_eq_true_2 (false ∈ _ ++ [false])) by set_solver.
Qed.
Lemma path_line now rs k p w a :
  size a →
  handleTransferRecord (reported_transfer now rs) (fields (PathLine k p w a)) = reported_transfer now (rs ++ [PathLine k p w a]).
Proof.
  intros Ha. unfold reported_transfer at 2. rewrite !tool_observation_snoc, !omap_app.
  cbn [tool_status omap list_omap https_status]. rewrite path_back by done. by rewrite !app_nil_r.
Qed.
Definition transfer_record (r : record) : bool :=
  match r with ToolLine _ _ | HTTPSLine _ | PathLine _ _ _ _ => true | _ => false end.
Lemma other_line now rs r :
  transfer_record r = false → reported_transfer now (rs ++ [r]) = reported_transfer now rs.
Proof.
  intros Hr. unfold reported_transfer. rewrite !tool_observation_snoc, !omap_app.
  destruct r; try done; cbn [tool_status omap list_omap https_status a_path]; by rewrite !app_nil_r.
Qed.
(** Lines that are not about nodes leave the nodes. *)
Lemma grouped_other r rs name : a_node r = None → grouped name (rs ++ [r]) = grouped name rs ∧ names (rs ++ [r]) = names rs.
Proof.
  intros Hr. unfold grouped, lines_of, names. rewrite omap_app. cbn [omap list_omap]. rewrite Hr. by rewrite app_nil_r.
Qed.
Lemma omap_snoc_list {A B} (g : A → option B) l x : omap g (l ++ [x]) = omap g l ++ option_list (g x).
Proof. rewrite omap_app. cbn [omap list_omap]. by destruct (g x). Qed.
Lemma transfer_line now rs r :
  admissible r → transfer_record r = true →
  handleTransferRecord (reported_transfer now rs) (fields r) = reported_transfer now (rs ++ [r]).
Proof.
  intros (_ & _ & _ & Hr) Ht. destruct r; try done; [apply tool_line|apply https_line|by apply path_line].
Qed.
Lemma collected_plain now rs f r f' :
  admissible r → a_node r = None → collected now rs f →
  f'.(found.nodesByName) = f.(found.nodesByName) → f'.(found.nodeOrder) = f.(found.nodeOrder) →
  f'.(found.warnings) = f.(found.warnings) →
  f'.(found.metadata) = from_option (λ '(k, v), <[k := v]> f.(found.metadata)) f.(found.metadata) (a_fact r) →
  f'.(found.partitions) = f.(found.partitions) ++ option_list (a_partition r) →
  f'.(found.filesystems) = f.(found.filesystems) ++ option_list (a_filesystem r) →
  f'.(found.transfer) = (if transfer_record r then handleTransferRecord f.(found.transfer) (fields r) else f.(found.transfer)) →
  collected now (rs ++ [r]) f'.
Proof.
  intros Ha Hr [Hm Hp Hn Ho Hf Hw Ht] En Eo Ew Em Ep Ef Et. split; rewrite ?omap_snoc_list.
  - rewrite Em, reverse_app, Hm. destruct (a_fact r) as [[k v]|]; [done|]. by rewrite app_nil_l.
  - congruence.
  - intros name. by rewrite En, Hn, (proj1 (grouped_other r rs name Hr)).
  - by rewrite Eo, Ho, (proj2 (grouped_other r rs "" Hr)).
  - congruence.
  - congruence.
  - rewrite Et, Ht. destruct (transfer_record r) eqn:E; [by apply transfer_line|by rewrite other_line].
Qed.
Lemma collected_node now rs f r n p :
  a_node r = Some (n <| node.partitions := [p] |>) → n.(node.partitions) = [] → transfer_record r = false →
  a_fact r = None → a_partition r = None → a_filesystem r = None →
  collected now rs f → collected now (rs ++ [r]) (add_node n p f).
Proof.
  intros Hr Hnil Htr Hf1 Hp1 Hs1 [Hm Hp Hn Ho Hf Hw Ht].
  split; rewrite ?omap_snoc_list, ?Hf1, ?Hp1, ?Hs1; cbn [option_list]; rewrite ?app_nil_r; try done.
  - intros name. rewrite (grouped_line n p _ _ _ Hr Hnil). unfold add_node. set (known := match _ with Some _ => _ | None => n end).
    cbn. destruct (decide (node.name n = name)) as [<-|Hne].
    + rewrite lookup_insert_eq. subst known. rewrite Hn. by destruct (grouped (node.name n) rs).
    + by rewrite lookup_insert_ne, Hn.
  - rewrite (names_line n p _ _ Hr). unfold appendUnique.
    by rewrite <- (bool_decide_ext _ _ (grouped_known (node.name n) rs)), <- Hn, <- Ho.
  - by rewrite other_line.
Qed.
Lemma collected_line now rs f r :
  admissible r → collected now rs f → collected now (rs ++ [r]) (parse_line f (printed r)).
Proof.
  intros Ha Hf. unfold parse_line. rewrite fields_back by done.
  destruct r as [key value|name d a n c m t|p d name state c m t w fs gs reason|d t c u a m|tool b|b|k p w a].
  - apply (collected_plain now rs f); try done; cbn [fields parse_fields a_fact];
      pose proof (split_byte_nonempty "|" value) as Hne; pose proof (join_split_byte "|" value) as Hj;
      destruct (split_byte "|" value); try done; cbn in Hj |- *; rewrite ?Hj, ?app_nil_r; done.
  - destruct Ha as (H1 & H2 & H3 & Hp & Hn).
    apply (collected_plain now rs f); try done; rewrite ?partition_back by done; cbn; rewrite ?app_nil_r; done.
  - destruct Ha as (H1 & H2 & H3 & Hp & Hn & Hfs & Hgs & Hr). cbn [fields parse_fields].
    apply collected_node; try done; [by rewrite clean_starred by done; apply node_back].
  - destruct Ha as (H1 & H2 & H3 & Hn).
    apply (collected_plain now rs f); try done; rewrite ?filesystem_back by done; cbn; rewrite ?app_nil_r; done.
  - apply (collected_plain now rs f); try done; cbn; rewrite ?app_nil_r; done.
  - apply (collected_plain now rs f); try done; cbn; rewrite ?app_nil_r; done.
  - apply (collected_plain now rs f); try done; cbn; rewrite ?app_nil_r; done.
Qed.
Lemma collected_all now records :
  Forall admissible records → collected now records (foldl parse_line (nothing_found now) (map printed records)).
Proof.
  induction records as [|r rs IH] using rev_ind; [by intros _|].
  intros [Hrs [Hr _]%Forall_cons]%Forall_app. rewrite map_app, foldl_app. cbn [map foldl].
  apply collected_line; [exact Hr|by apply IH].
Qed.

(** The inventory the records stand for: the last fact of each key, the partitions and the
    filesystems in the order of their lines, one node per name. *)
Definition reported (now : Time) (records : list record) : ConnectionDiscovery :=
  let nodes := omap (λ name, grouped name records) (names records) in
  let filesystems := omap a_filesystem records in
  let metadata := <["partitions" := AnyMaps (omap a_partition records)]> (<["nodes" := AnyMaps (map node_map nodes)]>
    (<["filesystems" := AnyMaps filesystems]> (list_to_map (reverse (omap a_fact records))))) in
  {| ConnectionDiscovery.Available := bool_decide (omap a_partition records ≠ []);
     ConnectionDiscovery.Metadata := delete "transferCapabilities" metadata; ConnectionDiscovery.Warnings := [];
     ConnectionDiscovery.Nodes := map (discoveredNode (meta_string metadata "architecture")) nodes;
     ConnectionDiscovery.LoginNode := discoveredLoginNode metadata filesystems;
     ConnectionDiscovery.Transfer := reported_transfer now records |}.

Lemma inventory_collected now records f : collected now records f → inventory f = reported now records.
Proof.
  intros [Hm Hp Hn Ho Hf Hw Ht]. unfold inventory, reported. rewrite Hm, Hp, Ho, Hf, Hw, Ht.
  assert (orderedNodes f.(found.nodesByName) (names records) = omap (λ name, grouped name records) (names records)) as ->.
  { unfold orderedNodes. clear Ho. induction (names records) as [|name l IH]; [done|]. cbn. by rewrite Hn, IH. }
  by rewrite bool_decide_not.
Qed.

(** C35: the text of the Slurm probe is read back exactly. When the login node prints facts,
    partitions, node lines, filesystems, tools and paths as records (fields without bars or
    newlines, sizes below 2^63), [parseDiscovery] reports no warning and gives the inventory the
    records stand for: the connection is available exactly when there is a partition, partitions
    and filesystems keep their order and their values, a node that appears under several
    partitions is reported once, at the place of its first line, with that line's attributes and
    each of its partitions once, and every tool, path and fact is the one printed last. *)
Theorem probe_reported (now : Time) (records : list record) :
  Forall admissible records →
  parseDiscovery now (Slurm.lines_text (map printed records)) = reported now records.
Proof.
  intros Hr. unfold parseDiscovery. rewrite Slurm.split_lines.
  - rewrite foldl_app. apply inventory_collected, (collected_all now records Hr).
  - apply Forall_map. eapply Forall_impl; [done|]. by intros r (_ & ? & _).
Qed.

Module Example.
(** Two partitions that share a node. *)
Definition cluster : list record := [
  Fact "architecture" "x86_64"; Fact "hostname" "login1"; Fact "os" "Rocky|9"; ToolLine "rsync" true;
  ToolLine "apptainer" true; ToolLine "singularity" false; HTTPSLine true; PathLine "home" "/home/u" true 1024;
  PartitionLine "cpu" true "up" 2 64 191000 "infinite"; PartitionLine "gpu" false "up" 1 32 95000 "1-00:00:00";
  NodeLine "cpu" true "n1" "idle" 64 191000 0 1 ["avx"; "ib"] [] None;
  NodeLine "gpu" false "n2" "mixed" 32 95000 0 1 [] ["gpu:2"] (Some "reserved");
  NodeLine "gpu" false "n1" "idle" 64 191000 0 1 ["avx"; "ib"] [] None;
  FilesystemLine "fs1" "lustre" 100 40 60 "/scratch"].

Lemma probe_reported_witness :
  parseDiscovery 0 (Slurm.lines_text (map printed cluster)) = reported 0 cluster ∧
  map (λ n, (n.(DiscoveredNode.Name), n.(DiscoveredNode.Partitions)))
    (ConnectionDiscovery.Nodes (parseDiscovery 0 (Slurm.lines_text (map printed cluster)))) =
    [("n1", ["cpu"; "gpu"]); ("n2", ["gpu"])].
Proof.
  split; [|vm_compute; reflexivity]. apply (probe_reported 0 cluster).
  repeat (apply Forall_cons; split); [..|apply Forall_nil; exact I];
    (split; [repeat constructor|split; [vm_compute; reflexivity|split; [vm_compute; reflexivity|]]]);
    cbn; unfold partition_name, csv_list, size; repeat split; repeat constructor; try lia; try set_solver; intros; vm_compute; done.
Defined.

(** The probe asks for apptainer and then for singularity and the second answer replaces the
    first: a login node with apptainer alone is reported without a container runtime. *)
Lemma apptainer_alone_unreported :
  TransferCapabilities.ContainerRuntime (ConnectionDiscovery.Transfer (parseDiscovery 0 (Slurm.lines_text (map printed cluster)))) =
    CapabilityObservation.mk false None "apptainer or singularity is not installed" 0 (15 * Minute).
Proof. vm_compute. reflexivity. Qed.
(** A probe that reaches the network keeps the reason it began with. *)
Lemma https_reason_kept :
  TransferCapabilities.OutboundHTTPS (ConnectionDiscovery.Transfer (parseDiscovery 0 (Slurm.lines_text (map printed cluster)))) =
    CapabilityObservation.mk true None "outbound HTTPS was not probed" 0 (15 * Minute).
Proof. vm_compute. reflexivity. Qed.
(** [sinfo] marks the least value of a mixed group with a plus sign, which reads as zero. *)
Lemma mixed_partition_zero : integer "64+" = 0 ∧ integer "191000+" = 0.
Proof. split; vm_compute; reflexivity. Qed.
End Example.
End SlurmDiscovery.
