(* ===== verification/DataRepository.v ===== *)
(** * The catalogs of data and of artifacts
      (src/internal/infrastructure/database/data/repository.go and storage/repository.go)

    Two repositories over one set of tables: what activities wrote and where it is, and the
    versions, variants, locations, builds, materializations and transfers of executable
    artifacts. The columns [created_at] that no query reads are left out. *)

From Stdlib Require Import Ascii.
From S2P Require Import Prelude GoStrings GoFloat GoPath Sql Domain Ports Slurm Storage.

(** ** Tables *)
Module Catalog.
Import Sql.

Module StorageRow.
Record StorageRow := mk {
  id : string; environment_version_id : string; name : string; type : StorageType; endpoint : string;
  capacity_bytes : Z; shared : bool; read_only : bool; configuration : string; credential_reference : string;
  metadata : string
}.
End StorageRow.
Abbreviation StorageRow := StorageRow.StorageRow.
Module ObjectRow.
Record ObjectRow := mk {
  id : string; workflow_version_id : option string; producer_activity_id : option string; logical_name : string;
  relative_path : string; declared : bool; metadata : string
}.
#[global] Instance eta : Eta ObjectRow := λ r,
  mk r.(id) r.(workflow_version_id) r.(producer_activity_id) r.(logical_name) r.(relative_path) r.(declared) r.(metadata).
End ObjectRow.
Abbreviation ObjectRow := ObjectRow.ObjectRow.
Module InstanceRow.
Record InstanceRow := mk {
  id : string; data_object_id : string; execution_run_id : option string; producer_activity_id : option string;
  attempt : Z; relative_path : string; size_bytes : Z; checksum : string; media_type : string; discovered : bool;
  metadata : string
}.
#[global] Instance eta : Eta InstanceRow := λ r,
  mk r.(id) r.(data_object_id) r.(execution_run_id) r.(producer_activity_id) r.(attempt) r.(relative_path)
    r.(size_bytes) r.(checksum) r.(media_type) r.(discovered) r.(metadata).
End InstanceRow.
Abbreviation InstanceRow := InstanceRow.InstanceRow.
Module LocationRow.
Record LocationRow := mk {
  id : string; data_object_instance_id : string; storage_resource_id : option string; resource_id : option string;
  execution_run_id : option string; uri : string; available_at : float64; status : DataLocationStatus; metadata : string
}.
#[global] Instance eta : Eta LocationRow := λ r,
  mk r.(id) r.(data_object_instance_id) r.(storage_resource_id) r.(resource_id) r.(execution_run_id) r.(uri)
    r.(available_at) r.(status) r.(metadata).
End LocationRow.
Abbreviation LocationRow := LocationRow.LocationRow.
Module VersionRow.
Record VersionRow := mk { id : string; artifact_id : string; name : string; version : string; scope : CatalogScope; scope_id : string }.
End VersionRow.
Abbreviation VersionRow := VersionRow.VersionRow.
Module VariantRow.
Record VariantRow := mk {
  id : string; artifact_version_id : string; digest : string; format : string; architecture : string; size_bytes : Z
}.
End VariantRow.
Abbreviation VariantRow := VariantRow.VariantRow.
Module EndpointRow.
Record EndpointRow := mk { id : string; kind : string; uri : string; environment_id : option string }.
End EndpointRow.
Abbreviation EndpointRow := EndpointRow.EndpointRow.
Module MaterializationRow.
Record MaterializationRow := mk {
  id : string; run_id : option string; activity_id : option string; variant_id : string; digest : string;
  resource_id : string; environment_version_id : option string; destination_path : string;
  status : MaterializationStatus; verified_digest : string; updated_at : Time
}.
#[global] Instance eta : Eta MaterializationRow := λ r,
  mk r.(id) r.(run_id) r.(activity_id) r.(variant_id) r.(digest) r.(resource_id) r.(environment_version_id)
    r.(destination_path) r.(status) r.(verified_digest) r.(updated_at).
End MaterializationRow.
Abbreviation MaterializationRow := MaterializationRow.MaterializationRow.
(** A transfer with its blobs and its chunks as JSON. *)
Module TransferRow.
Record TransferRow := mk { run : DataTransferRun; verified_blobs : string; completed_chunks : string }.
#[global] Instance eta : Eta TransferRow := λ r, mk r.(run) r.(verified_blobs) r.(completed_chunks).
End TransferRow.
Abbreviation TransferRow := TransferRow.TransferRow.
Module RunRow.
Record RunRow := mk {
  id : string; artifact_build_id : string; status : string; output_variant_id : option string; output_digest : string;
  logs : string; error_ : string; finished_at : option Time; created_at : Time
}.
#[global] Instance eta : Eta RunRow := λ r,
  mk r.(id) r.(artifact_build_id) r.(status) r.(output_variant_id) r.(output_digest) r.(logs) r.(error_)
    r.(finished_at) r.(created_at).
End RunRow.
Abbreviation RunRow := RunRow.RunRow.
Abbreviation BuildRow := (ArtifactBuild * Time)%type.

Module DB.
Record DB := mk {
  workflow_versions : list string; execution_runs : list string;
  activity_definitions : list (string * string); (* id, workflow_version_id *)
  environment_versions : list (string * string); (* id, environment_id *)
  resources : list (string * string); (* id, environment_version_id *)
  storage_resources : list StorageRow; data_objects : list ObjectRow; data_object_instances : list InstanceRow;
  data_locations : list LocationRow; artifact_versions : list VersionRow; artifact_variants : list VariantRow;
  transfer_endpoints : list EndpointRow; artifact_locations : list ArtifactLocation;
  artifact_materializations : list MaterializationRow; transfer_runs : list TransferRow;
  artifact_builds : list BuildRow; build_contexts : list BuildContextArtifact; build_runs : list RunRow;
  storage_download_runs : list DownloadRun; storage_index_runs : list IndexRun
}.
#[global] Instance eta : Eta DB := λ d,
  mk d.(workflow_versions) d.(execution_runs) d.(activity_definitions) d.(environment_versions) d.(resources)
    d.(storage_resources) d.(data_objects) d.(data_object_instances) d.(data_locations) d.(artifact_versions)
    d.(artifact_variants) d.(transfer_endpoints) d.(artifact_locations) d.(artifact_materializations)
    d.(transfer_runs) d.(artifact_builds) d.(build_contexts) d.(build_runs) d.(storage_download_runs)
    d.(storage_index_runs).
End DB.
Abbreviation DB := DB.DB.
Abbreviation world := (Session DB).

(** *** Constraints of schema.sql *)

(** A column that references a key, and one that may be NULL. *)
Definition references (keys : list string) (column : string) : Prop := column ∈ keys.
Definition may_reference (keys : list string) (column : option string) : Prop := from_option (references keys) True column.
(** [digest GLOB 'sha256:[0-9a-fA-F]*' AND length(digest) = 71] *)
Definition hex_byte (c : ascii) : bool := ascii_between "0" "9" c || ascii_between "a" "f" c || ascii_between "A" "F" c.
Definition digest_column (digest : string) : Prop :=
  has_prefix "sha256:" digest = true ∧ str_length digest = 71%nat ∧
  match drop_str 7 digest with String c _ => hex_byte c = true | "" => False end.
(** [UNIQUE(execution_run_id, producer_activity_id, attempt, relative_path)] of instances: rows
    with NULL in a column of it are distinct. *)
Definition instance_key (r : InstanceRow) : option (string * string * Z * string) :=
  run ← r.(InstanceRow.execution_run_id); activity ← r.(InstanceRow.producer_activity_id);
  Some (run, activity, r.(InstanceRow.attempt), r.(InstanceRow.relative_path)).
Definition location_key (r : LocationRow) : string * string :=
  (r.(LocationRow.data_object_instance_id), r.(LocationRow.uri)).
Definition version_key (r : VersionRow) : string * string * string * string :=
  (r.(VersionRow.artifact_id), r.(VersionRow.version), CatalogScope_string r.(VersionRow.scope), r.(VersionRow.scope_id)).
Definition build_id (r : BuildRow) : string := r.1.(ArtifactBuild.ID).
Definition transfer_id (r : TransferRow) : string := r.(TransferRow.run).(DataTransferRun.ID).

Section constraints.
Context (d : DB).
Abbreviation activities := (d.(DB.activity_definitions).*1).
Abbreviation machines := (d.(DB.resources).*1).
Abbreviation versions := (d.(DB.environment_versions).*1).

Definition storages_ok : Prop :=
  NoDup (StorageRow.id <$> d.(DB.storage_resources)) ∧
  NoDup ((λ s, (s.(StorageRow.environment_version_id), s.(StorageRow.name))) <$> d.(DB.storage_resources)) ∧
  Forall (λ s, references versions s.(StorageRow.environment_version_id) ∧
    StorageType_string s.(StorageRow.type) ∈ ["local"; "pvc"; "nfs"; "s3"; "lustre"; "gcs"; "s3-compatible"; "ssh-filesystem"] ∧
    0 ≤ s.(StorageRow.capacity_bytes)) d.(DB.storage_resources).
Definition data_ok : Prop :=
  NoDup (ObjectRow.id <$> d.(DB.data_objects)) ∧
  Forall (λ o, may_reference d.(DB.workflow_versions) o.(ObjectRow.workflow_version_id) ∧
    may_reference activities o.(ObjectRow.producer_activity_id)) d.(DB.data_objects) ∧
  NoDup (InstanceRow.id <$> d.(DB.data_object_instances)) ∧
  NoDup (omap instance_key d.(DB.data_object_instances)) ∧
  Forall (λ i, references (ObjectRow.id <$> d.(DB.data_objects)) i.(InstanceRow.data_object_id) ∧
    may_reference d.(DB.execution_runs) i.(InstanceRow.execution_run_id) ∧
    may_reference activities i.(InstanceRow.producer_activity_id) ∧ 0 ≤ i.(InstanceRow.size_bytes))
    d.(DB.data_object_instances) ∧
  NoDup (LocationRow.id <$> d.(DB.data_locations)) ∧ NoDup (location_key <$> d.(DB.data_locations)) ∧
  Forall (λ l, references (InstanceRow.id <$> d.(DB.data_object_instances)) l.(LocationRow.data_object_instance_id) ∧
    may_reference (StorageRow.id <$> d.(DB.storage_resources)) l.(LocationRow.storage_resource_id) ∧
    may_reference machines l.(LocationRow.resource_id) ∧
    may_reference d.(DB.execution_runs) l.(LocationRow.execution_run_id) ∧
    DataLocationStatus_string l.(LocationRow.status) ∈ ["ephemeral"; "staging"; "available"; "failed"; "deleted"])
    d.(DB.data_locations).
Definition artifacts_ok : Prop :=
  NoDup (VersionRow.id <$> d.(DB.artifact_versions)) ∧ NoDup (version_key <$> d.(DB.artifact_versions)) ∧
  NoDup (VariantRow.id <$> d.(DB.artifact_variants)) ∧
  NoDup ((λ v, (v.(VariantRow.artifact_version_id), v.(VariantRow.digest))) <$> d.(DB.artifact_variants)) ∧
  Forall (λ v, references (VersionRow.id <$> d.(DB.artifact_versions)) v.(VariantRow.artifact_version_id) ∧
    digest_column v.(VariantRow.digest) ∧ 0 ≤ v.(VariantRow.size_bytes)) d.(DB.artifact_variants) ∧
  NoDup (EndpointRow.id <$> d.(DB.transfer_endpoints)) ∧
  Forall (λ e, may_reference (d.(DB.environment_versions).*2) e.(EndpointRow.environment_id)) d.(DB.transfer_endpoints) ∧
  NoDup (ArtifactLocation.ID <$> d.(DB.artifact_locations)) ∧
  Forall (λ l, references (VariantRow.id <$> d.(DB.artifact_variants)) l.(ArtifactLocation.VariantID) ∧
    references (EndpointRow.id <$> d.(DB.transfer_endpoints)) l.(ArtifactLocation.EndpointID) ∧
    digest_column l.(ArtifactLocation.Digest)) d.(DB.artifact_locations) ∧
  NoDup (MaterializationRow.id <$> d.(DB.artifact_materializations)) ∧
  Forall (λ m, may_reference d.(DB.execution_runs) m.(MaterializationRow.run_id) ∧
    may_reference activities m.(MaterializationRow.activity_id) ∧
    references (VariantRow.id <$> d.(DB.artifact_variants)) m.(MaterializationRow.variant_id) ∧
    digest_column m.(MaterializationRow.digest) ∧ references machines m.(MaterializationRow.resource_id) ∧
    may_reference versions m.(MaterializationRow.environment_version_id)) d.(DB.artifact_materializations).
Definition builds_ok : Prop :=
  NoDup (build_id <$> d.(DB.artifact_builds)) ∧
  NoDup ((λ b : BuildRow, b.1.(ArtifactBuild.CacheKey)) <$> d.(DB.artifact_builds)) ∧
  Forall (λ b : BuildRow, references (VersionRow.id <$> d.(DB.artifact_versions)) b.1.(ArtifactBuild.ArtifactVersionID) ∧
    digest_column b.1.(ArtifactBuild.ContextDigest) ∧ digest_column b.1.(ArtifactBuild.RecipeDigest)) d.(DB.artifact_builds) ∧
  NoDup (BuildContextArtifact.Digest <$> d.(DB.build_contexts)) ∧
  Forall (λ c, digest_column c.(BuildContextArtifact.Digest) ∧ 0 ≤ c.(BuildContextArtifact.SizeBytes)) d.(DB.build_contexts) ∧
  NoDup (RunRow.id <$> d.(DB.build_runs)) ∧
  Forall (λ r, references (build_id <$> d.(DB.artifact_builds)) r.(RunRow.artifact_build_id) ∧
    r.(RunRow.status) ∈ ["queued"; "preparing"; "building"; "verifying"; "publishing"; "completed"; "failed"; "cancelled"] ∧
    may_reference (VariantRow.id <$> d.(DB.artifact_variants)) r.(RunRow.output_variant_id) ∧
    (r.(RunRow.output_digest) = "" ∨ digest_column r.(RunRow.output_digest))) d.(DB.build_runs).
Definition jobs_ok : Prop :=
  NoDup (transfer_id <$> d.(DB.transfer_runs)) ∧
  NoDup (DownloadRun.ID <$> d.(DB.storage_download_runs)) ∧
  Forall (λ r, references (StorageRow.id <$> d.(DB.storage_resources)) r.(DownloadRun.StorageID) ∧
    DownloadStatus_string r.(DownloadRun.Status) ∈ ["queued"; "ready"; "streaming"; "completed"; "failed"])
    d.(DB.storage_download_runs) ∧
  NoDup (IndexRun.ID <$> d.(DB.storage_index_runs)) ∧
  Forall (λ r, references (StorageRow.id <$> d.(DB.storage_resources)) r.(IndexRun.StorageID)) d.(DB.storage_index_runs).
Definition constraints : Prop := storages_ok ∧ data_ok ∧ artifacts_ok ∧ builds_ok ∧ jobs_ok.
End constraints.

#[global] Instance may_reference_dec keys column : Decision (may_reference keys column).
Proof. destruct column; cbn; [unfold references|]; apply _. Defined.
#[global] Instance digest_column_dec digest : Decision (digest_column digest).
Proof. unfold digest_column. destruct (drop_str 7 digest); apply _. Defined.
#[global] Instance constraints_dec d : Decision (constraints d).
Proof.
  unfold constraints, storages_ok, data_ok, artifacts_ok, builds_ok, jobs_ok, references. apply _.
Defined.
#[global] Instance schema : Schema DB := {| lawful_rows := constraints |}.
End Catalog.

(** ** Codecs and shared helpers *)
Module Codec.
Import Sql Catalog.

(** [encoding/json] on the values the repositories store. Decoding metadata, a browse root and an
    index policy ignores errors. *)
Class CatalogJSON := {
  marshal_metadata : metadata → string;
  unmarshal_metadata : string → option metadata;
  marshal_strings : list string → result string;
  unmarshal_strings : string → result (list string);
  marshal_ints : list Z → result string;
  unmarshal_ints : string → result (list Z);
  browse_root : any → StorageBrowseRoot;
  index_policy : any → IndexPolicy
}.

Definition ErrNoRows : error := "sql: no rows in result set".
(** [return fmt.Errorf("...: %w", err)] on an error of a call. *)
Definition wrapped {W A} (format : string) (m : effr W A) : effr W A :=
  let! r := m in eret (match r with Ok a => Ok a | Err e => Err (errorf format [e]) end).
(** [QueryRowContext(...).Scan]: the row, or [sql.ErrNoRows]. *)
Definition select_row `{Engine DB} {A} (f : DB → option A) : effr world A :=
  let? row := select f in eret (match row with Some a => Ok a | None => Err ErrNoRows end).
(** [err == sql.ErrNoRows] answers nil. *)
Definition find_optional `{Engine DB} {R A} (f : DB → option R) (scan : R → result A) : effr world (option A) :=
  let? row := select f in
  eret (match row with None => Ok None | Some r => a ← scan r; Ok (Some a) end).
(** Scanning a column that may be NULL into a string. *)
Definition text_column (index name : string) (column : option string) : result string :=
  match column with
  | Some s => Ok s
  | None => Err (errorf "sql: Scan error on column index %s, name %q: converting NULL to string is unsupported" [index; name])
  end.
(** A value inserted in a table without [ON CONFLICT]. *)
Definition inserted {R} (new : R) (t : list R) : list R := t ++ [new].
(** *** Calls that succeed *)
Lemma wrapped_ok {W A} format (m : effr W A) w a w' : wrapped format m w = (Ok a, w') → m w = (Ok a, w').
Proof. unfold wrapped, ebind, eret. destruct (m w) as [[b|e] w1]; [|done]. by intros [= -> ->]. Qed.
Lemma wrapped_runs {W A} format (m : effr W A) w a w' : m w = (Ok a, w') → wrapped format m w = (Ok a, w').
Proof. unfold wrapped, ebind, eret. by intros ->. Qed.
Lemma select_row_ok `{Engine DB} {A} (f : DB → option A) s a s' :
  select_row f s = (Ok a, s') → f s.(db) = Some a ∧ s' = s.
Proof.
  intros (row & s1 & [-> ->]%select_ok & E)%ebindr_ok. unfold eret in E.
  destruct (f s.(db)); [|done]. by injection E as -> ->.
Qed.
Lemma find_optional_ok `{Engine DB} {R A} (f : DB → option R) (scan : R → result A) s o s' :
  find_optional f scan s = (Ok o, s') →
  s' = s ∧ match f s.(db) with None => o = None | Some r => ∃ a, scan r = Ok a ∧ o = Some a end.
Proof.
  intros (row & s1 & [-> ->]%select_ok & E)%ebindr_ok. unfold eret in E. destruct (f s.(db)) as [r|].
  - destruct (scan r) as [a|e]; [|done]. injection E as <- <-. eauto.
  - by injection E as <- <-.
Qed.
Lemma scan_rows_in {R A} (scan : R → result A) rows l r :
  scan_rows scan rows = Ok l → r ∈ rows → ∃ a, scan r = Ok a ∧ a ∈ l.
Proof.
  revert l. induction rows as [|x rows IH]; intros l; [by intros _ ?%not_elem_of_nil|]. cbn [scan_rows].
  destruct (scan x) as [a|] eqn:Ea; [|done]. cbn. destruct (scan_rows scan rows) as [l'|]; [|done]. intros [= <-].
  intros [->|Hin]%elem_of_cons; [exists a; split; [done|left]|].
  destruct (IH l' eq_refl Hin) as (b & Hb & ?). exists b. split; [done|by right].
Qed.
End Codec.

(** ** data/repository.go *)
Module DataRepository.
Import Sql Catalog Codec.
Abbreviation dq := Slurm.dq.

(** [nullable] *)
Definition nullable (value : string) : option string := nullableString value.

(** [(&url.URL{Scheme: "file", Path: path}).String()] *)
Definition file_url (path : string) : string :=
  if bool_decide (path = "") then "file:"
  else "file://" +:+ if bool_decide (path = "*") then path
       else escape (λ c, unreserved c || bool_decide (c ∈ ["$"; "&"; "+"; ","; "/"; ":"; ";"; "="; "@"]%char)) false path.

(** [locationMetadata] *)
Definition locationMetadata (status : DataLocationStatus) : string :=
  if bool_decide (status = DataLocationAvailable) then dq "{~lifetime~:~storage~}" else dq "{~lifetime~:~pod~}".

Section repository.
Context `{Engine DB, CatalogJSON, SqlOrder, Sha256}.
Implicit Types (d : DB) (handle : ActivityHandle).

(** [stableID]: each part is ended by a zero byte; half of the sum is kept. *)
Definition stableID (parts : list string) : string :=
  take_str 32 (sha256_hex (foldr (λ part rest, part +:+ String "000" rest) "" parts)).

(** *** What activities wrote *)

(** The storage of a handle's artifacts: its type and the status of the locations. *)
Definition artifact_storage handle : StorageType * DataLocationStatus :=
  let configured := meta_string handle.(ActivityHandle.Metadata) "artifactStorageType" in
  if bool_decide (configured = "pvc") then (StoragePVC, DataLocationAvailable)
  else if bool_decide (configured = "nfs") then (StorageNFS, DataLocationAvailable)
  else (StorageLocal, DataLocationEphemeral).
Definition configured_storage handle : string := meta_string handle.(ActivityHandle.Metadata) "artifactStorageResourceId".
Definition artifact_storage_id handle (environmentVersionID : string) : string :=
  if bool_decide (configured_storage handle = "")
  then stableID ["storage"; environmentVersionID; handle.(ActivityHandle.ResourceID); StorageType_string (artifact_storage handle).1]
  else configured_storage handle.
Definition workspace_row handle (environmentVersionID root : string) : StorageRow :=
  let type := (artifact_storage handle).1 in
  StorageRow.mk (artifact_storage_id handle environmentVersionID) environmentVersionID
    ("workspace-" +:+ handle.(ActivityHandle.ResourceID)) type root 0
    (bool_decide (type = StoragePVC) || bool_decide (type = StorageNFS)) false "{}" "" (dq "{~managedBy~:~akoflow~}").
Definition object_row handle (workflowVersionID path : string) : ObjectRow :=
  ObjectRow.mk (stableID ["object"; workflowVersionID; handle.(ActivityHandle.ActivityID); path]) (Some workflowVersionID)
    (Some handle.(ActivityHandle.ActivityID)) (path_Base path) path false (dq "{~source~:~runtime-discovery~}").
Definition merge_object (old new : ObjectRow) : ObjectRow :=
  old <| ObjectRow.relative_path := new.(ObjectRow.relative_path) |>.
Definition instance_id handle (attempt : Z) (path : string) : string :=
  stableID ["instance"; handle.(ActivityHandle.RunID); handle.(ActivityHandle.ActivityID); itoa attempt; path].
Definition instance_row handle (attempt : Z) (objectID : string) (artifact : ArtifactObservation) : InstanceRow :=
  InstanceRow.mk (instance_id handle attempt artifact.(ArtifactObservation.Path)) objectID
    (Some handle.(ActivityHandle.RunID)) (Some handle.(ActivityHandle.ActivityID)) attempt
    artifact.(ArtifactObservation.Path) artifact.(ArtifactObservation.SizeBytes) artifact.(ArtifactObservation.Checksum)
    "" true (marshal_metadata {["change" := AnyString (ArtifactChange_string artifact.(ArtifactObservation.Change))]}).
Definition merge_instance (old new : InstanceRow) : InstanceRow :=
  old <| InstanceRow.size_bytes := new.(InstanceRow.size_bytes) |>
      <| InstanceRow.checksum := new.(InstanceRow.checksum) |>
      <| InstanceRow.metadata := new.(InstanceRow.metadata) |>.
Definition location_row handle (instanceID storageID root path : string) : LocationRow :=
  let status := (artifact_storage handle).2 in
  LocationRow.mk (stableID ["location"; instanceID; handle.(ActivityHandle.ResourceID)]) instanceID (Some storageID)
    (Some handle.(ActivityHandle.ResourceID)) (Some handle.(ActivityHandle.RunID)) (file_url (path_Join [root; path]))
    handle.(ActivityHandle.FinishedAt) status (locationMetadata status).
Definition merge_location (old new : LocationRow) : LocationRow :=
  old <| LocationRow.status := new.(LocationRow.status) |> <| LocationRow.available_at := new.(LocationRow.available_at) |>.

(** The body of the loop over the files of a manifest. *)
Definition catalog_file handle (manifest : ArtifactManifest) (workflowVersionID storageID : string)
    (artifact : ArtifactObservation) : effr world unit :=
  if bool_decide (artifact.(ArtifactObservation.Change) = ArtifactDeleted) then eret (Ok tt)
  else
    let object := object_row handle workflowVersionID artifact.(ArtifactObservation.Path) in
    let? _ := wrapped "register data object: %w" (modify (StInsert "data_objects") (λ d, d <| DB.data_objects :=
      upsert ObjectRow.id merge_object object d.(DB.data_objects) |>)) in
    let new := instance_row handle manifest.(ArtifactManifest.Attempt) object.(ObjectRow.id) artifact in
    let? _ := wrapped "register data object instance: %w" (modify (StInsert "data_object_instances") (λ d,
      d <| DB.data_object_instances := upsert instance_key merge_instance new d.(DB.data_object_instances) |>)) in
    let location := location_row handle new.(InstanceRow.id) storageID manifest.(ArtifactManifest.Root)
      artifact.(ArtifactObservation.Path) in
    wrapped "register data location: %w" (modify (StInsert "data_locations") (λ d,
      d <| DB.data_locations := upsert location_key merge_location location d.(DB.data_locations) |>)).

(** [Repository.CatalogArtifacts] *)
Definition CatalogArtifacts handle : effr world unit :=
  match handle.(ActivityHandle.Artifacts) with
  | None => eret (Ok tt)
  | Some manifest => within (
      let? workflowVersionID := wrapped "resolve artifact workflow: %w" (select_row (λ d,
        snd <$> find_row fst handle.(ActivityHandle.ActivityID) d.(DB.activity_definitions))) in
      let? environmentVersionID := wrapped "resolve artifact environment: %w" (select_row (λ d,
        snd <$> find_row fst handle.(ActivityHandle.ResourceID) d.(DB.resources))) in
      let storageID := artifact_storage_id handle environmentVersionID in
      let? _ := if bool_decide (configured_storage handle = "") then
          wrapped "register workspace storage: %w" (modify (StInsert "storage_resources") (λ d,
            d <| DB.storage_resources := (insert_or_ignore StorageRow.id
              (workspace_row handle environmentVersionID manifest.(ArtifactManifest.Root)) d.(DB.storage_resources)).1 |>))
        else eret (Ok tt) in
      for_effr (catalog_file handle manifest workflowVersionID storageID) manifest.(ArtifactManifest.Files))
  end.

(** [Repository.ListInstances] *)
Definition scan_instance (r : InstanceRow) : result DataObjectInstance :=
  run ← text_column "2" "execution_run_id" r.(InstanceRow.execution_run_id);
  activity ← text_column "3" "producer_activity_id" r.(InstanceRow.producer_activity_id);
  Ok {| DataObjectInstance.ID := r.(InstanceRow.id); DataObjectInstance.DataObjectID := r.(InstanceRow.data_object_id);
        DataObjectInstance.ExecutionRunID := run; DataObjectInstance.ProducerActivityID := activity;
        DataObjectInstance.Attempt := r.(InstanceRow.attempt); DataObjectInstance.RelativePath := r.(InstanceRow.relative_path);
        DataObjectInstance.SizeBytes := r.(InstanceRow.size_bytes); DataObjectInstance.Checksum := r.(InstanceRow.checksum);
        DataObjectInstance.MediaType := r.(InstanceRow.media_type); DataObjectInstance.Discovered := r.(InstanceRow.discovered);
        DataObjectInstance.Metadata := default ∅ (unmarshal_metadata r.(InstanceRow.metadata)) |}.
Definition of_run (column : option string) (runID : string) : bool := bool_decide (column = Some runID).
Definition instance_le (a b : InstanceRow) : bool :=
  let activity r := coalesce r.(InstanceRow.producer_activity_id) in
  if bool_decide (activity a = activity b) then str_le a.(InstanceRow.relative_path) b.(InstanceRow.relative_path)
  else str_le (activity a) (activity b).
Definition ListInstances (salt : nat) (runID : string) : effr world (list DataObjectInstance) :=
  let? rows := select (λ d, order_by instance_le salt
    (List.filter (λ r, of_run r.(InstanceRow.execution_run_id) runID) d.(DB.data_object_instances))) in
  eret (scan_rows scan_instance rows).
(** [Repository.ListLocations] *)
Definition scan_location (r : LocationRow) : result DataLocation :=
  run ← text_column "4" "execution_run_id" r.(LocationRow.execution_run_id);
  Ok (DataLocation.mk r.(LocationRow.id) r.(LocationRow.data_object_instance_id) (coalesce r.(LocationRow.storage_resource_id))
        (coalesce r.(LocationRow.resource_id)) run r.(LocationRow.uri) r.(LocationRow.status)
        (default ∅ (unmarshal_metadata r.(LocationRow.metadata)))).
Definition ListLocations (salt : nat) (runID : string) : effr world (list DataLocation) :=
  let? rows := select (λ d, order_by (λ a b, str_le a.(LocationRow.uri) b.(LocationRow.uri)) salt
    (List.filter (λ r, of_run r.(LocationRow.execution_run_id) runID) d.(DB.data_locations))) in
  eret (scan_rows scan_location rows).
End repository.

(** *** Artifacts, materializations and transfers *)
Section artifacts.
Context `{Engine DB, CatalogJSON, SqlOrder}.
Implicit Types d : DB.

(** [Repository.ListArtifactLocations] *)
Definition ListArtifactLocations (salt : nat) : effr world (list ArtifactLocation) :=
  select (λ d, order_by (λ a b, str_le a.(ArtifactLocation.ID) b.(ArtifactLocation.ID)) salt d.(DB.artifact_locations)).
(** [Repository.ListArtifacts] *)
Fixpoint columns_le (a b : list string) : bool :=
  match a, b with
  | x :: a, y :: b => if bool_decide (x = y) then columns_le a b else str_le x y
  | _, _ => true
  end.
Definition version_columns (r : VersionRow) : list string :=
  [r.(VersionRow.artifact_id); r.(VersionRow.version); CatalogScope_string r.(VersionRow.scope); r.(VersionRow.scope_id)].
Definition ListArtifacts (salt : nat) : effr world (list ExecutableArtifact) :=
  let? rows := select (λ d, order_by (λ a b, columns_le (version_columns a) (version_columns b)) salt d.(DB.artifact_versions)) in
  eret (Ok (map (λ r, ExecutableArtifact.mk r.(VersionRow.artifact_id) r.(VersionRow.name) r.(VersionRow.version)) rows)).

(** [Repository.ListArtifactMaterializations] *)
Definition scan_materialization (r : MaterializationRow) : ArtifactMaterialization :=
  ArtifactMaterialization.mk r.(MaterializationRow.id) (coalesce r.(MaterializationRow.run_id))
    (coalesce r.(MaterializationRow.activity_id)) r.(MaterializationRow.variant_id) r.(MaterializationRow.digest)
    r.(MaterializationRow.resource_id) (coalesce r.(MaterializationRow.environment_version_id))
    r.(MaterializationRow.destination_path) r.(MaterializationRow.status) r.(MaterializationRow.verified_digest).
Definition ListArtifactMaterializations (salt : nat) (runID : string) : effr world (list ArtifactMaterialization) :=
  let? rows := select (λ d, order_by (λ a b, b.(MaterializationRow.updated_at) <=? a.(MaterializationRow.updated_at)) salt
    (if bool_decide (runID = "") then d.(DB.artifact_materializations)
     else List.filter (λ r, bool_decide (r.(MaterializationRow.run_id) = Some runID)) d.(DB.artifact_materializations))) in
  eret (Ok (map scan_materialization rows)).
(** [Repository.SaveArtifactMaterialization] *)
Definition materialization_row (value : ArtifactMaterialization) (now : Time) : MaterializationRow :=
  MaterializationRow.mk value.(ArtifactMaterialization.ID) (nullable value.(ArtifactMaterialization.RunID))
    (nullable value.(ArtifactMaterialization.ActivityID)) value.(ArtifactMaterialization.VariantID)
    value.(ArtifactMaterialization.Digest) value.(ArtifactMaterialization.ResourceID)
    (nullable value.(ArtifactMaterialization.EnvironmentID)) value.(ArtifactMaterialization.DestinationPath)
    value.(ArtifactMaterialization.Status) value.(ArtifactMaterialization.VerifiedDigest) now.
Definition merge_materialization (old new : MaterializationRow) : MaterializationRow :=
  old <| MaterializationRow.run_id := new.(MaterializationRow.run_id) |>
      <| MaterializationRow.activity_id := new.(MaterializationRow.activity_id) |>
      <| MaterializationRow.status := new.(MaterializationRow.status) |>
      <| MaterializationRow.verified_digest := new.(MaterializationRow.verified_digest) |>
      <| MaterializationRow.destination_path := new.(MaterializationRow.destination_path) |>
      <| MaterializationRow.updated_at := new.(MaterializationRow.updated_at) |>.
Definition SaveArtifactMaterialization (value : ArtifactMaterialization) : effr world unit :=
  let! n := draw in
  modify (StInsert "artifact_materializations") (λ d, d <| DB.artifact_materializations :=
    upsert MaterializationRow.id merge_materialization (materialization_row value (timestamp n)) d.(DB.artifact_materializations) |>).

(** [Repository.SaveTransferRun] *)
Definition transfer_row (value : DataTransferRun) (verified chunks : string) : TransferRow :=
  TransferRow.mk (value <| DataTransferRun.VerifiedBlobs := [] |> <| DataTransferRun.CompletedChunks := [] |>) verified chunks.
Definition merge_transfer (old new : TransferRow) : TransferRow :=
  let run := old.(TransferRow.run) in
  let value := new.(TransferRow.run) in
  TransferRow.mk (DataTransferRun.mk run.(DataTransferRun.ID) run.(DataTransferRun.PlanID) run.(DataTransferRun.Strategy)
    value.(DataTransferRun.Status) [] [] value.(DataTransferRun.StartedAt) value.(DataTransferRun.FinishedAt)
    value.(DataTransferRun.TransferredBytes) value.(DataTransferRun.Error))
    new.(TransferRow.verified_blobs) new.(TransferRow.completed_chunks).
Definition SaveTransferRun (value : DataTransferRun) : effr world unit :=
  let? verified := eret (marshal_strings value.(DataTransferRun.VerifiedBlobs)) in
  let? chunks := eret (marshal_ints value.(DataTransferRun.CompletedChunks)) in
  modify (StInsert "transfer_runs") (λ d, d <| DB.transfer_runs :=
    upsert transfer_id merge_transfer (transfer_row value verified chunks) d.(DB.transfer_runs) |>).
(** The scan of a transfer, with the messages of [FindTransferRun] when [wrap] is set. *)
Definition scan_transfer (wrap : bool) (r : TransferRow) : result DataTransferRun :=
  let fails (format : string) (e : error) : error := if wrap then errorf format [e] else e in
  match unmarshal_strings r.(TransferRow.verified_blobs) with
  | Err e => Err (fails "decode verified blobs: %w" e)
  | Ok verified =>
    match unmarshal_ints r.(TransferRow.completed_chunks) with
    | Err e => Err (fails "decode transfer chunks: %w" e)
    | Ok chunks => Ok (r.(TransferRow.run) <| DataTransferRun.VerifiedBlobs := verified |>
                                           <| DataTransferRun.CompletedChunks := chunks |>)
    end
  end.
(** [Repository.FindTransferRun] *)
Definition FindTransferRun (id : string) : effr world (option DataTransferRun) :=
  find_optional (λ d, find_row transfer_id id d.(DB.transfer_runs)) (scan_transfer true).
(** [Repository.ListArtifactTransferRuns]: the transfers of the materializations of a run. *)
Definition ListArtifactTransferRuns (salt : nat) (runID : string) : effr world (list DataTransferRun) :=
  let? rows := select (λ d, order_by (λ a b, str_le (transfer_id a) (transfer_id b)) salt
    (mjoin (map (λ t, map (λ _, t) (List.filter (λ m,
      bool_decide (transfer_id t = "transfer-" +:+ m.(MaterializationRow.id)) &&
      bool_decide (m.(MaterializationRow.run_id) = Some runID)) d.(DB.artifact_materializations))) d.(DB.transfer_runs)))) in
  eret (scan_rows (scan_transfer false) rows).

(** *** Builds *)

(** [Repository.SaveArtifactBuild], [Repository.RegisterArtifactVersion] *)
Definition SaveArtifactBuild (value : ArtifactBuild) : effr world unit :=
  let! n := draw in
  modify (StInsert "artifact_builds") (λ d, d <| DB.artifact_builds := inserted (value, timestamp n) d.(DB.artifact_builds) |>).
Definition RegisterArtifactVersion (value : ArtifactVersion) : effr world unit :=
  modify (StInsert "artifact_versions") (λ d, d <| DB.artifact_versions := inserted
    (VersionRow.mk value.(ArtifactVersion.ID) value.(ArtifactVersion.ArtifactID) value.(ArtifactVersion.ArtifactID)
       value.(ArtifactVersion.Version) value.(ArtifactVersion.Scope) value.(ArtifactVersion.ScopeID)) d.(DB.artifact_versions) |>).
(** [Repository.findArtifactBuild], [FindArtifactBuildByCacheKey], [FindArtifactBuild] *)
Definition findArtifactBuild (column : ArtifactBuild → string) (argument : string) : effr world (option ArtifactBuild) :=
  find_optional (λ d, find_row (λ b : BuildRow, column b.1) argument d.(DB.artifact_builds)) (λ b, Ok b.1).
Definition FindArtifactBuildByCacheKey (cacheKey : string) : effr world (option ArtifactBuild) :=
  findArtifactBuild ArtifactBuild.CacheKey cacheKey.
Definition FindArtifactBuild (id : string) : effr world (option ArtifactBuild) := findArtifactBuild ArtifactBuild.ID id.
(** [Repository.ListArtifactBuilds] *)
Definition ListArtifactBuilds (salt : nat) (artifactID : string) : effr world (list ArtifactBuild) :=
  let? rows := select (λ d, order_by (λ a b : BuildRow, b.2 <=? a.2) salt (List.filter (λ b : BuildRow,
    existsb (λ v, bool_decide (v.(VersionRow.id) = b.1.(ArtifactBuild.ArtifactVersionID)) &&
                  bool_decide (v.(VersionRow.artifact_id) = artifactID)) d.(DB.artifact_versions)) d.(DB.artifact_builds))) in
  eret (Ok (map fst rows)).

(** [Repository.SaveBuildRun] *)
Definition run_row (value : BuildRun) (now : Time) : RunRow :=
  RunRow.mk value.(BuildRun.ID) value.(BuildRun.ArtifactBuildID) value.(BuildRun.Status)
    (nullable value.(BuildRun.OutputVariantID)) value.(BuildRun.OutputDigest) value.(BuildRun.Logs) value.(BuildRun.Error)
    None now.
Definition merge_run (old new : RunRow) : RunRow :=
  old <| RunRow.status := new.(RunRow.status) |> <| RunRow.output_variant_id := new.(RunRow.output_variant_id) |>
      <| RunRow.output_digest := new.(RunRow.output_digest) |> <| RunRow.logs := new.(RunRow.logs) |>
      <| RunRow.error_ := new.(RunRow.error_) |>.
Definition SaveBuildRun (value : BuildRun) : effr world unit :=
  let! n := draw in
  modify (StInsert "build_runs") (λ d, d <| DB.build_runs :=
    upsert RunRow.id merge_run (run_row value (timestamp n)) d.(DB.build_runs) |>).
Definition scan_run (r : RunRow) : BuildRun :=
  BuildRun.mk r.(RunRow.id) r.(RunRow.artifact_build_id) r.(RunRow.status) (coalesce r.(RunRow.output_variant_id))
    r.(RunRow.output_digest) r.(RunRow.logs) r.(RunRow.error_).
(** [Repository.FindBuildRun], [Repository.ListBuildRuns] *)
Definition FindBuildRun (id : string) : effr world (option BuildRun) :=
  find_optional (λ d, find_row RunRow.id id d.(DB.build_runs)) (λ r, Ok (scan_run r)).
Definition ListBuildRuns (salt : nat) (buildID : string) : effr world (list BuildRun) :=
  let? rows := select (λ d, order_by (λ a b, b.(RunRow.created_at) <=? a.(RunRow.created_at)) salt
    (List.filter (λ r, bool_decide (r.(RunRow.artifact_build_id) = buildID)) d.(DB.build_runs))) in
  eret (Ok (map scan_run rows)).
(** [Repository.SaveBuildContext], [Repository.FindBuildContext] *)
Definition SaveBuildContext (value : BuildContextArtifact) : effr world unit :=
  modify (StInsert "build_contexts") (λ d, d <| DB.build_contexts := inserted value d.(DB.build_contexts) |>).
Definition FindBuildContext (digest : string) : effr world (option BuildContextArtifact) :=
  find_optional (λ d, find_row BuildContextArtifact.Digest digest d.(DB.build_contexts)) Ok.

(** *** Outputs of builds *)
Definition output : Type := RunRow * VariantRow * ArtifactLocation.
(** [build_runs r JOIN artifact_variants v ON v.id=r.output_variant_id
    JOIN artifact_locations l ON l.variant_id=v.id WHERE r.status='completed'] *)
Definition published_outputs d : list output :=
  mjoin (map (λ r, mjoin (map (λ v, map (λ l, (r, v, l))
      (List.filter (λ l, bool_decide (l.(ArtifactLocation.VariantID) = v.(VariantRow.id))) d.(DB.artifact_locations)))
    (List.filter (λ v, bool_decide (r.(RunRow.output_variant_id) = Some v.(VariantRow.id))) d.(DB.artifact_variants))))
  (List.filter (λ r, bool_decide (r.(RunRow.status) = "completed")) d.(DB.build_runs))).
(** [ORDER BY r.finished_at DESC]: a run without the time comes last. *)
Definition finished_le (a b : RunRow) : bool :=
  match a.(RunRow.finished_at), b.(RunRow.finished_at) with
  | Some t, Some u => u <=? t
  | None, Some _ => false
  | _, None => true
  end.
Definition scan_variant (v : VariantRow) : ArtifactVariant :=
  ArtifactVariant.mk v.(VariantRow.id) "" v.(VariantRow.digest) v.(VariantRow.format) v.(VariantRow.architecture)
    v.(VariantRow.size_bytes).
(** [Repository.FindBuildOutput] *)
Definition FindBuildOutput (salt : nat) (buildID : string) : effr world (option ArtifactVariant * option ArtifactLocation) :=
  let? row := select (λ d, head (order_by (λ a b : output, finished_le a.1.1 b.1.1) salt
    (List.filter (λ o : output, bool_decide (o.1.1.(RunRow.artifact_build_id) = buildID)) (published_outputs d)))) in
  eret (Ok (match row with None => (None, None) | Some (_, v, l) => (Some (scan_variant v), Some l) end)).
(** [Repository.FindDockerBuildOutput] *)
Definition docker_outputs (image architecture : string) d : list (BuildRow * output) :=
  mjoin (map (λ b, map (λ o, (b, o))
      (List.filter (λ o : output, bool_decide (o.1.1.(RunRow.artifact_build_id) = build_id b)) (published_outputs d)))
    (List.filter (λ b : BuildRow, bool_decide (b.1.(ArtifactBuild.SourceType) = "docker-image") &&
       bool_decide (b.1.(ArtifactBuild.RecipePath) = image) &&
       (bool_decide (architecture = "") || bool_decide (b.1.(ArtifactBuild.TargetArchitecture) = "") ||
        bool_decide (b.1.(ArtifactBuild.TargetArchitecture) = architecture))) d.(DB.artifact_builds))).
Definition docker_le (architecture : string) (a b : BuildRow * output) : bool :=
  let exact (x : BuildRow * output) := bool_decide (x.1.1.(ArtifactBuild.TargetArchitecture) = architecture) in
  match exact a, exact b with
  | true, false => true
  | false, true => false
  | _, _ => finished_le a.2.1.1 b.2.1.1
  end.
Definition FindDockerBuildOutput (salt : nat) (image architecture : string)
    : effr world (option ArtifactBuild * option ArtifactVariant * option ArtifactLocation) :=
  let? row := select (λ d, head (order_by (docker_le architecture) salt (docker_outputs image architecture d))) in
  eret (Ok (match row with
            | None => (None, None, None)
            | Some (b, (_, v, l)) => (Some b.1, Some (scan_variant v), Some l)
            end)).

(** [Repository.PublishBuildOutput] *)
Definition build_version d (runID : string) : option string :=
  r ← find_row RunRow.id runID d.(DB.build_runs);
  b ← find_row build_id r.(RunRow.artifact_build_id) d.(DB.artifact_builds);
  Some b.1.(ArtifactBuild.ArtifactVersionID).
Definition publish_run (runID : string) (variant : ArtifactVariant) (now : Time) d : DB :=
  d <| DB.build_runs := (update_rows RunRow.id runID (λ r,
         r <| RunRow.status := "completed" |> <| RunRow.output_variant_id := Some variant.(ArtifactVariant.ID) |>
           <| RunRow.output_digest := variant.(ArtifactVariant.Digest) |> <| RunRow.finished_at := Some now |>)
         d.(DB.build_runs)).1 |>.
Definition PublishBuildOutput (runID : string) (variant : ArtifactVariant) (location : ArtifactLocation) : effr world unit :=
  if bool_decide (variant.(ArtifactVariant.ID) = "") || bool_decide (location.(ArtifactLocation.ID) = "") ||
     bool_decide (variant.(ArtifactVariant.Digest) = "") ||
     negb (bool_decide (variant.(ArtifactVariant.Digest) = location.(ArtifactLocation.Digest)))
  then eret (Err (errorf "build output must have matching variant and location digests" []))
  else within (
    let? artifactVersionID := wrapped "resolve build run: %w" (select_row (λ d, build_version d runID)) in
    let? _ := wrapped "create build variant: %w" (modify (StInsert "artifact_variants") (λ d, d <| DB.artifact_variants :=
      inserted (VariantRow.mk variant.(ArtifactVariant.ID) artifactVersionID variant.(ArtifactVariant.Digest)
        variant.(ArtifactVariant.Format) variant.(ArtifactVariant.Architecture) variant.(ArtifactVariant.SizeBytes))
        d.(DB.artifact_variants) |>)) in
    let? _ := if bool_decide (location.(ArtifactLocation.EndpointID) = "artifact-store") then
        wrapped "register artifact store endpoint: %w" (modify (StInsert "transfer_endpoints") (λ d,
          d <| DB.transfer_endpoints := (insert_or_ignore EndpointRow.id
            (EndpointRow.mk "artifact-store" "artifact-store" "artifact://" None) d.(DB.transfer_endpoints)).1 |>))
      else eret (Ok tt) in
    let? _ := wrapped "create build location: %w" (modify (StInsert "artifact_locations") (λ d, d <| DB.artifact_locations :=
      inserted (location <| ArtifactLocation.VariantID := variant.(ArtifactVariant.ID) |>) d.(DB.artifact_locations) |>)) in
    let! n := draw in
    wrapped "publish build run: %w" (modify (StUpdate "build_runs") (publish_run runID variant (timestamp n)))).
End artifacts.
(** ** The artifacts of an activity *)
Section cataloguing.
Context `{Engine DB, CatalogJSON, SqlOrder, Sha256}.
Implicit Types (d : DB) (s : world).

Definition present (manifest : ArtifactManifest) : list ArtifactObservation :=
  List.filter (λ a, negb (bool_decide (a.(ArtifactObservation.Change) = ArtifactDeleted))) manifest.(ArtifactManifest.Files).
Context (handle : ActivityHandle) (manifest : ArtifactManifest).
Definition file_key (a : ArtifactObservation) : string * string * Z * string :=
  (handle.(ActivityHandle.RunID), handle.(ActivityHandle.ActivityID), manifest.(ArtifactManifest.Attempt),
   a.(ArtifactObservation.Path)).
Definition file_instance (a : ArtifactObservation) : string :=
  instance_id handle manifest.(ArtifactManifest.Attempt) a.(ArtifactObservation.Path).
Definition file_uri (a : ArtifactObservation) : string :=
  file_url (path_Join [manifest.(ArtifactManifest.Root); a.(ArtifactObservation.Path)]).

(** What one file leaves in the tables. *)
Lemma catalog_file_ok wv sid a s s' :
  catalog_file handle manifest wv sid a s = (Ok tt, s') →
  if bool_decide (a.(ArtifactObservation.Change) = ArtifactDeleted) then s' = s
  else
    let object := object_row handle wv a.(ArtifactObservation.Path) in
    let new := instance_row handle manifest.(ArtifactManifest.Attempt) object.(ObjectRow.id) a in
    s'.(db).(DB.data_object_instances) = upsert instance_key merge_instance new s.(db).(DB.data_object_instances) ∧
    s'.(db).(DB.data_locations) = upsert location_key merge_location
      (location_row handle new.(InstanceRow.id) sid manifest.(ArtifactManifest.Root) a.(ArtifactObservation.Path))
      s.(db).(DB.data_locations).
Proof.
  unfold catalog_file. case_bool_decide; [by intros [= <-]|].
  intros ([] & s1 & E1%wrapped_ok & ([] & s2 & E2%wrapped_ok & E3%wrapped_ok)%ebindr_ok)%ebindr_ok.
  apply modify_ok in E1 as (E1 & _ & _). apply modify_ok in E2 as (E2 & _ & _). apply modify_ok in E3 as (E3 & _ & _).
  cbv zeta. rewrite E3, E2, E1. done.
Qed.

Definition stored (a : ArtifactObservation) (i : InstanceRow) : Prop :=
  i.(InstanceRow.size_bytes) = a.(ArtifactObservation.SizeBytes) ∧
  i.(InstanceRow.checksum) = a.(ArtifactObservation.Checksum) ∧
  i.(InstanceRow.metadata) =
    marshal_metadata {["change" := AnyString (ArtifactChange_string a.(ArtifactObservation.Change))]}.
Definition placed (l : LocationRow) : Prop :=
  l.(LocationRow.status) = (artifact_storage handle).2 ∧ l.(LocationRow.available_at) = handle.(ActivityHandle.FinishedAt).

Lemma instance_key_row a oid : instance_key (instance_row handle manifest.(ArtifactManifest.Attempt) oid a) = Some (file_key a).
Proof. done. Qed.
Lemma merge_instance_key old new : instance_key (merge_instance old new) = instance_key old.
Proof. by destruct old. Qed.
Lemma merge_location_key old new : location_key (merge_location old new) = location_key old.
Proof. by destruct old. Qed.

(** The loop over the files. *)
Lemma catalog_files_ok wv sid files s s' :
  let rest := List.filter (λ a, negb (bool_decide (a.(ArtifactObservation.Change) = ArtifactDeleted))) files in
  NoDup (map ArtifactObservation.Path rest) →
  for_effr (catalog_file handle manifest wv sid) files s = (Ok tt, s') →
  (∀ a, a ∈ rest → ∃ i, find_row instance_key (Some (file_key a)) s'.(db).(DB.data_object_instances) = Some i ∧ stored a i) ∧
  (∀ k, k ∉ map file_key rest → find_row instance_key (Some k) s'.(db).(DB.data_object_instances) =
     find_row instance_key (Some k) s.(db).(DB.data_object_instances)) ∧
  (∀ k, (∃ l, find_row location_key k s.(db).(DB.data_locations) = Some l ∧ placed l) ∨
        k ∈ map (λ a, (file_instance a, file_uri a)) rest →
     ∃ l, find_row location_key k s'.(db).(DB.data_locations) = Some l ∧ placed l) ∧
  (∀ k, k ∉ map (λ a, (file_instance a, file_uri a)) rest →
     find_row location_key k s'.(db).(DB.data_locations) = find_row location_key k s.(db).(DB.data_locations)).
Proof.
  revert s. induction files as [|a files IH]; intros s; cbn [List.filter for_effr].
  { intros _ [= <-]. split_and!; try done; [by intros a ?%not_elem_of_nil|].
    by intros k [?|?%not_elem_of_nil]. }
  intros Hnd ([] & s1 & E1%catalog_file_ok & E2)%ebindr_ok. case_bool_decide as Hdel; cbn [negb] in *.
  { subst s1. by apply IH. }
  destruct E1 as [Ei El]. cbn [map] in Hnd. apply NoDup_cons in Hnd as [Hfresh Hnd].
  specialize (IH s1 Hnd E2) as (IHi & IHk & IHl & IHo). rewrite Ei in IHk. rewrite El in IHl, IHo.
  assert (file_key a ∉ map file_key (List.filter (λ a, negb (bool_decide (a.(ArtifactObservation.Change) = ArtifactDeleted))) files)) as Hk.
  { intros (b & Eb & Hb)%list_elem_of_fmap. apply Hfresh. unfold file_key in Eb. simplify_eq.
    rewrite Eb. by apply (list_elem_of_fmap_2 ArtifactObservation.Path). }
  setoid_rewrite (find_row_upsert instance_key merge_instance merge_instance_key) in IHk. rewrite instance_key_row in IHk.
  setoid_rewrite (find_row_upsert location_key merge_location merge_location_key) in IHl.
  setoid_rewrite (find_row_upsert location_key merge_location merge_location_key) in IHo.
  split_and!.
  - intros b [->|Hb]%elem_of_cons; [|by apply IHi]. rewrite (IHk _ Hk), bool_decide_true by done.
    destruct (find_row instance_key (Some (file_key a)) _); eexists; split; [done|done|done|done].
  - intros k [Hne Hk']%not_elem_of_cons. rewrite IHk by done. by rewrite bool_decide_false by congruence.
  - intros k Hor. apply IHl. case_bool_decide as Ek.
    + left. destruct (find_row location_key k _); eexists; split; done.
    + destruct Hor as [?|[->|?]%elem_of_cons]; [by left|done|by right].
  - intros k [Hne Hk']%not_elem_of_cons. rewrite IHo by done. by rewrite bool_decide_false by done.
Qed.
End cataloguing.
(** *** What is listed *)
Section listing.
Context `{Engine DB, CatalogJSON, SqlOrder, Sha256}.
Implicit Types s : world.

Lemma instance_listed salt runID s items s' r :
  ListInstances salt runID s = (Ok items, s') → r ∈ s.(db).(DB.data_object_instances) →
  r.(InstanceRow.execution_run_id) = Some runID → ∃ item, scan_instance r = Ok item ∧ item ∈ items.
Proof.
  intros (rows & s1 & [-> ->]%select_ok & E)%ebindr_ok Hr Hrun. injection E as E _.
  apply (scan_rows_in _ _ _ r) in E; [done|]. rewrite order_by_perm. apply list_elem_of_In, filter_In.
  split; [by apply list_elem_of_In|]. unfold of_run. by rewrite bool_decide_true.
Qed.
Lemma location_listed salt runID s items s' r :
  ListLocations salt runID s = (Ok items, s') → r ∈ s.(db).(DB.data_locations) →
  r.(LocationRow.execution_run_id) = Some runID → ∃ item, scan_location r = Ok item ∧ item ∈ items.
Proof.
  intros (rows & s1 & [-> ->]%select_ok & E)%ebindr_ok Hr Hrun. injection E as E _.
  apply (scan_rows_in _ _ _ r) in E; [done|]. rewrite order_by_perm. apply list_elem_of_In, filter_In.
  split; [by apply list_elem_of_In|]. unfold of_run. by rewrite bool_decide_true.
Qed.

(** The transaction of a manifest, up to its loop. *)
Lemma catalog_ok handle manifest s s' :
  handle.(ActivityHandle.Artifacts) = Some manifest → CatalogArtifacts handle s = (Ok tt, s') →
  ∃ wv sid s1, s1.(db).(DB.data_object_instances) = s.(db).(DB.data_object_instances) ∧
    s1.(db).(DB.data_locations) = s.(db).(DB.data_locations) ∧
    for_effr (catalog_file handle manifest wv sid) manifest.(ArtifactManifest.Files) s1 = (Ok tt, s').
Proof.
  unfold CatalogArtifacts. intros ->.
  intros (wv & s1 & [_ ->]%wrapped_ok%select_row_ok & (ev & s2 & [_ ->]%wrapped_ok%select_row_ok &
    ([] & s3 & E3 & E4)%ebindr_ok)%ebindr_ok)%transaction_ok%ebindr_ok.
  exists wv, (artifact_storage_id handle ev), s3. case_bool_decide; [|by injection E3 as <-].
  apply wrapped_ok, modify_ok in E3 as (E3 & _ & _). by rewrite E3.
Qed.
Lemma catalog_atomic handle : atomic (CatalogArtifacts handle).
Proof.
  unfold CatalogArtifacts. destruct (ActivityHandle.Artifacts handle); [apply transaction_atomic|].
  by intros s e s' [= <-].
Qed.

(** C36: what an activity wrote is catalogued, once. When [CatalogArtifacts] succeeds on a manifest
    that names each file once, every file that was not deleted has one instance, under the run, the
    activity, the attempt and the path, with the size, checksum and change the manifest gives, and
    one location, under that instance and the file's URI, whose status says whether the storage
    outlives the pod; the run's listing shows the file with these values; every other instance and
    every other location is as before, so deleted files add nothing and cataloguing the same
    manifest again adds nothing. When it fails, the database is unchanged. *)
Theorem artifacts_catalogued (handle : ActivityHandle) (manifest : ArtifactManifest) (s : world) :
  handle.(ActivityHandle.Artifacts) = Some manifest → NoDup (map ArtifactObservation.Path (present manifest)) →
  match CatalogArtifacts handle s with
  | (Err _, s') => s'.(db) = s.(db)
  | (Ok _, s') =>
    let instances := DB.data_object_instances in
    let locations := DB.data_locations in
    let location_keys := map (λ a, (file_instance handle manifest a, file_uri manifest a)) (present manifest) in
    (∀ a, a ∈ present manifest →
       (∃ i, find_row instance_key (Some (file_key handle manifest a)) (instances s'.(db)) = Some i ∧ stored a i) ∧
       (∃ l, find_row location_key (file_instance handle manifest a, file_uri manifest a) (locations s'.(db)) = Some l ∧
             placed handle l) ∧
       (∀ salt items s2, ListInstances salt handle.(ActivityHandle.RunID) s' = (Ok items, s2) →
          ∃ item, item ∈ items ∧ item.(DataObjectInstance.ProducerActivityID) = handle.(ActivityHandle.ActivityID) ∧
            item.(DataObjectInstance.Attempt) = manifest.(ArtifactManifest.Attempt) ∧
            item.(DataObjectInstance.RelativePath) = a.(ArtifactObservation.Path) ∧
            item.(DataObjectInstance.SizeBytes) = a.(ArtifactObservation.SizeBytes) ∧
            item.(DataObjectInstance.Checksum) = a.(ArtifactObservation.Checksum))) ∧
    (∀ k, k ∉ map (file_key handle manifest) (present manifest) →
       find_row instance_key (Some k) (instances s'.(db)) = find_row instance_key (Some k) (instances s.(db))) ∧
    (∀ k, k ∉ location_keys → find_row location_key k (locations s'.(db)) = find_row location_key k (locations s.(db)))
  end.
Proof.
  intros Hm Hnd. destruct (CatalogArtifacts handle s) as [[[]|e] s'] eqn:E; [|by eapply catalog_atomic].
  destruct (catalog_ok handle manifest s s' Hm E) as (wv & sid & s1 & Ei & El & Hloop).
  destruct (catalog_files_ok handle manifest wv sid _ s1 s' Hnd Hloop) as (Hi & Hk & Hl & Ho). rewrite Ei in Hk. rewrite El in Ho.
  split_and!; [|exact Hk|exact Ho]. intros a Ha. destruct (Hi a Ha) as (i & Hfind & Hst).
  split_and!; [by exists i| |].
  { apply Hl. right. by apply (list_elem_of_fmap_2 (λ a, (file_instance handle manifest a, file_uri manifest a))). }
  intros salt items s2 Hlist. apply find_row_some in Hfind as [Hin Hkey]. destruct Hst as (Hsize & Hsum & _).
  destruct i as [iid oid [run|] [act|] att path size sum mt disc meta]; try done. cbn in Hkey, Hsize, Hsum.
  unfold file_key in Hkey. simplify_eq.
  destruct (instance_listed _ _ _ _ _ _ Hlist Hin eq_refl) as (item & Hscan & Hitem). cbn in Hscan.
  exists item. by simplify_eq.
Qed.
End listing.
End DataRepository.

(** ** storage/repository.go *)
Module StorageRepository.
Import Sql Catalog Codec.
Abbreviation dq := Slurm.dq.

(** [sha256Digest] and [validSHA256] *)
Definition sha256Digest (checksum : string) : bool :=
  has_prefix "sha256:" checksum &&
  (let hex := drop_str 7 checksum in bool_decide (str_length hex = 64%nat) && str_forall hex_byte hex).
Definition validSHA256 (value : string) : bool :=
  negb (negb (bool_decide (str_length value = (7 + 64)%nat)) || negb (has_prefix "sha256:" value)) &&
  str_forall hex_byte (drop_str 7 value).
(** [optionalReference], [artifactVersionID] *)
Definition optionalReference (value : string) : option string := nullableString value.
Definition artifactVersionID (id version scope scopeID : string) : string :=
  "artifact-version:" +:+ id +:+ ":" +:+ version +:+ ":" +:+ scope +:+ ":" +:+ scopeID.
(** The value of [domain.CatalogScope] a column holds. *)
Definition catalog_scope (column : string) : CatalogScope :=
  default (CatalogScopeOther column) (List.find (λ s, bool_decide (CatalogScope_string s = column))
    [CatalogScopeSystem; CatalogScopeOrganization; CatalogScopeProject; CatalogScopeWorkflow; CatalogScopeRun; CatalogScopeEnvironment]).

Section repository.
Context `{Engine DB, CatalogJSON, SqlOrder}.
Implicit Types d : DB.

(** [scan] *)
Definition scan (r : StorageRow) : StorageResource :=
  let configuration := default ∅ (unmarshal_metadata r.(StorageRow.configuration)) in
  let v := (zero : StorageResource)
    <| StorageResource.ID := r.(StorageRow.id) |>
    <| StorageResource.EnvironmentVersionID := r.(StorageRow.environment_version_id) |>
    <| StorageResource.Name := r.(StorageRow.name) |> <| StorageResource.Type_ := r.(StorageRow.type) |>
    <| StorageResource.Endpoint := r.(StorageRow.endpoint) |>
    <| StorageResource.CapacityBytes := r.(StorageRow.capacity_bytes) |>
    <| StorageResource.Shared := r.(StorageRow.shared) |> <| StorageResource.ReadOnly := r.(StorageRow.read_only) |>
    <| StorageResource.Configuration := configuration |>
    <| StorageResource.CredentialReference := r.(StorageRow.credential_reference) |>
    <| StorageResource.Metadata := default ∅ (unmarshal_metadata r.(StorageRow.metadata)) |> in
  let v := match configuration !! "browseRoots" with
           | Some (AnySlice roots) => v <| StorageResource.BrowseRoots := map browse_root roots |>
           | _ => v
           end in
  match configuration !! "indexPolicy" with
  | Some policy => v <| StorageResource.IndexPolicy := index_policy policy |>
  | None => v
  end.
(** [Repository.ListEnvironmentStorages], [Repository.FindStorage] *)
Definition ListEnvironmentStorages (salt : nat) (environmentID : string) : effr world (list StorageResource) :=
  let? rows := select (λ d, order_by (λ a b, str_le a.(StorageRow.name) b.(StorageRow.name)) salt
    (List.filter (λ s, bool_decide ((s.(StorageRow.environment_version_id), environmentID) ∈ d.(DB.environment_versions)))
       d.(DB.storage_resources))) in
  eret (Ok (map scan rows)).
Definition FindStorage (id : string) : effr world (option StorageResource) :=
  find_optional (λ d, find_row StorageRow.id id d.(DB.storage_resources)) (λ r, Ok (scan r)).

(** The rows [PromoteData] inserts. *)
Definition storage_uri (storageID filePath : string) : string := "storage://" +:+ storageID +:+ "/" +:+ filePath.
Definition promoted_object (filePath workflowVersionID activityID id : string) : ObjectRow :=
  ObjectRow.mk id (optionalReference workflowVersionID) (optionalReference activityID) (path_Base filePath) filePath true
    (dq "{~source~:~storage-browser~}").
Definition promoted_instance (filePath runID activityID id checksum : string) (entry : FileEntry) : InstanceRow :=
  InstanceRow.mk (id +:+ "-instance") id (optionalReference runID) (optionalReference activityID) 1 filePath
    entry.(FileEntry.SizeBytes) checksum "" true "{}".
Definition promoted_location (storageID filePath runID id : string) : LocationRow :=
  LocationRow.mk (id +:+ "-instance" +:+ "-location") (id +:+ "-instance") (Some storageID) None (optionalReference runID)
    (storage_uri storageID filePath) f0 DataLocationAvailable "{}".
(** [Repository.PromoteData] *)
Definition PromoteData (storageID filePath workflowVersionID runID activityID id : string) (entry : FileEntry)
    (checksum : string) : effr world unit :=
  if negb (sha256Digest checksum) then eret (Err (errorf "invalid SHA-256 digest %q" [checksum]))
  else
    let id := if bool_decide (id = "") then "data-" +:+ drop_str 7 checksum else id in
    within (
      let? _ := modify (StInsert "data_objects") (λ d, d <| DB.data_objects :=
        inserted (promoted_object filePath workflowVersionID activityID id) d.(DB.data_objects) |>) in
      let? _ := modify (StInsert "data_object_instances") (λ d, d <| DB.data_object_instances :=
        inserted (promoted_instance filePath runID activityID id checksum entry) d.(DB.data_object_instances) |>) in
      modify (StInsert "data_locations") (λ d, d <| DB.data_locations :=
        inserted (promoted_location storageID filePath runID id) d.(DB.data_locations) |>)).

(** The endpoint of a storage: created once, and never that of another storage. *)
Definition register_endpoint (storageID environmentID : string) : effr world unit :=
  let endpoint := "storage-" +:+ storageID in
  let? row := wrapped "read transfer endpoint: %w" (select (λ d, find_row EndpointRow.id endpoint d.(DB.transfer_endpoints))) in
  match row with
  | None => wrapped "create transfer endpoint: %w" (modify (StInsert "transfer_endpoints") (λ d, d <| DB.transfer_endpoints :=
      inserted (EndpointRow.mk endpoint "storage" storageID (Some environmentID)) d.(DB.transfer_endpoints) |>))
  | Some r =>
    let? environment := eret (match text_column "1" "environment_id" r.(EndpointRow.environment_id) with
                              | Ok e => Ok e | Err e => Err (errorf "read transfer endpoint: %w" [e]) end) in
    if negb (bool_decide (r.(EndpointRow.uri) = storageID)) || negb (bool_decide (environment = environmentID))
    then eret (Err (errorf "transfer endpoint %q conflicts with storage identity" [endpoint]))
    else eret (Ok tt)
  end.
Definition storage_environment d (storageID : string) : option string :=
  s ← find_row StorageRow.id storageID d.(DB.storage_resources);
  snd <$> find_row fst s.(StorageRow.environment_version_id) d.(DB.environment_versions).
(** [Repository.PromoteArtifact] *)
Definition PromoteArtifact (storageID filePath id name version scope scopeID checksum : string) (entry : FileEntry)
    : effr world unit :=
  if negb (sha256Digest checksum) then eret (Err (errorf "invalid SHA-256 digest %q" [checksum]))
  else
    let given (value other : string) := if bool_decide (value = "") then other else value in
    let id := given id ("artifact-" +:+ drop_str 7 checksum) in
    let name := given name id in
    let version := given version "1" in
    let scope := given scope "environment" in
    within (
      let? _ := eret (if validSHA256 checksum then Ok tt
                      else Err (errorf "artifact checksum must be a sha256 digest" [])) in
      let vid := artifactVersionID id version scope scopeID in
      let variant := vid +:+ "-sif-" +:+ drop_str 7 checksum in
      let? environmentID := wrapped "resolve storage environment: %w" (select_row (λ d, storage_environment d storageID)) in
      let? _ := wrapped "create immutable artifact version: %w" (modify (StInsert "artifact_versions") (λ d,
        d <| DB.artifact_versions := inserted (VersionRow.mk vid id name version (catalog_scope scope) scopeID)
               d.(DB.artifact_versions) |>)) in
      let? _ := wrapped "create immutable artifact variant: %w" (modify (StInsert "artifact_variants") (λ d,
        d <| DB.artifact_variants := inserted (VariantRow.mk variant vid checksum "sif" "" entry.(FileEntry.SizeBytes))
               d.(DB.artifact_variants) |>)) in
      let? _ := register_endpoint storageID environmentID in
      modify (StInsert "artifact_locations") (λ d, d <| DB.artifact_locations := inserted
        (ArtifactLocation.mk (variant +:+ "-location") variant (catalog_scope scope) scopeID ("storage-" +:+ storageID)
           (storage_uri storageID filePath) checksum true) d.(DB.artifact_locations) |>)).

(** [Repository.SaveDownload], [Repository.FindDownload] *)
Definition merge_download (old new : DownloadRun) : DownloadRun :=
  old <| DownloadRun.Status := new.(DownloadRun.Status) |> <| DownloadRun.URL := new.(DownloadRun.URL) |>
      <| DownloadRun.TransferredBytes := new.(DownloadRun.TransferredBytes) |>
      <| DownloadRun.Error := new.(DownloadRun.Error) |> <| DownloadRun.UpdatedAt := new.(DownloadRun.UpdatedAt) |>.
Definition SaveDownload (v : DownloadRun) : effr world unit :=
  modify (StInsert "storage_download_runs") (λ d, d <| DB.storage_download_runs :=
    upsert DownloadRun.ID merge_download v d.(DB.storage_download_runs) |>).
Definition FindDownload (id : string) : effr world (option DownloadRun) :=
  find_optional (λ d, find_row DownloadRun.ID id d.(DB.storage_download_runs)) Ok.
(** [Repository.SaveIndexRun], [Repository.ListIndexRuns]; the zero time is stored as itself. *)
Definition merge_index (old new : IndexRun) : IndexRun :=
  old <| IndexRun.Status := new.(IndexRun.Status) |> <| IndexRun.IndexedEntries := new.(IndexRun.IndexedEntries) |>
      <| IndexRun.Error := new.(IndexRun.Error) |> <| IndexRun.FinishedAt := new.(IndexRun.FinishedAt) |>.
Definition SaveIndexRun (value : IndexRun) : effr world unit :=
  modify (StInsert "storage_index_runs") (λ d, d <| DB.storage_index_runs :=
    upsert IndexRun.ID merge_index value d.(DB.storage_index_runs) |>).
Definition ListIndexRuns (salt : nat) (storageID : string) : effr world (list IndexRun) :=
  select (λ d, order_by (λ a b, b.(IndexRun.CreatedAt) <=? a.(IndexRun.CreatedAt)) salt
    (List.filter (λ r, bool_decide (r.(IndexRun.StorageID) = storageID)) d.(DB.storage_index_runs))).
End repository.
End StorageRepository.

(** ** Outputs of builds, over both repositories *)
Module Outputs.
Import Sql Catalog Codec DataRepository StorageRepository.

Section outputs.
Context `{Engine DB, CatalogJSON, SqlOrder, Sha256}.
Implicit Types (d : DB) (s : world).

(** Every operation that changes a table. *)
Inductive op :=
| OpCatalog (handle : ActivityHandle)
| OpMaterialization (value : ArtifactMaterialization)
| OpTransfer (value : DataTransferRun)
| OpBuild (value : ArtifactBuild)
| OpVersion (value : ArtifactVersion)
| OpRun (value : BuildRun)
| OpContext (value : BuildContextArtifact)
| OpPublish (runID : string) (variant : ArtifactVariant) (location : ArtifactLocation)
| OpPromoteData (storageID filePath workflowVersionID runID activityID id : string) (entry : FileEntry) (checksum : string)
| OpPromoteArtifact (storageID filePath id name version scope scopeID checksum : string) (entry : FileEntry)
| OpDownload (value : DownloadRun)
| OpIndex (value : IndexRun).
Definition run_op (o : op) : effr world unit :=
  match o with
  | OpCatalog handle => CatalogArtifacts handle
  | OpMaterialization value => SaveArtifactMaterialization value
  | OpTransfer value => SaveTransferRun value
  | OpBuild value => SaveArtifactBuild value
  | OpVersion value => RegisterArtifactVersion value
  | OpRun value => SaveBuildRun value
  | OpContext value => SaveBuildContext value
  | OpPublish runID variant location => PublishBuildOutput runID variant location
  | OpPromoteData st p wv run act id entry sum => PromoteData st p wv run act id entry sum
  | OpPromoteArtifact st p id name v sc scid sum entry => PromoteArtifact st p id name v sc scid sum entry
  | OpDownload value => SaveDownload value
  | OpIndex value => SaveIndexRun value
  end.
(** A run of operations; one that fails is followed by the next. *)
Fixpoint run_ops (l : list op) : eff world unit :=
  match l with [] => eret tt | o :: l => let! _ := run_op o in run_ops l end.

(** The constraints hold and a location carries the digest of its variant. *)
Definition matching d : Prop :=
  ∀ l v, l ∈ d.(DB.artifact_locations) → v ∈ d.(DB.artifact_variants) → l.(ArtifactLocation.VariantID) = v.(VariantRow.id) →
    l.(ArtifactLocation.Digest) = v.(VariantRow.digest).
Definition sound d : Prop := constraints d ∧ matching d.
(** The digest a variant of a name has, if it exists. *)
Definition digest_of d (id digest : string) : Prop :=
  ∀ v, v ∈ d.(DB.artifact_variants) → v.(VariantRow.id) = id → v.(VariantRow.digest) = digest.

Lemma modify_same st f s s' :
  (∀ d, (f d).(DB.artifact_variants) = d.(DB.artifact_variants) ∧ (f d).(DB.artifact_locations) = d.(DB.artifact_locations)) →
  modify st f s = (Ok tt, s') → sound s.(db) →
  sound s'.(db) ∧ ∀ id digest, digest_of s.(db) id digest → digest_of s'.(db) id digest.
Proof.
  intros Hf (E & _ & Hc)%modify_ok [_ Hm]. destruct (Hf s.(db)) as [Hv Hl]. unfold sound, matching, digest_of.
  change (lawful_rows s'.(db)) with (constraints s'.(db)) in Hc. rewrite E in Hc |- *. rewrite Hv, Hl. done.
Qed.
Lemma insert_variant st v s s' :
  modify st (λ d, d <| DB.artifact_variants := inserted v d.(DB.artifact_variants) |>) s = (Ok tt, s') → sound s.(db) →
  sound s'.(db) ∧ digest_of s'.(db) v.(VariantRow.id) v.(VariantRow.digest).
Proof.
  intros (E & _ & Hc)%modify_ok [Hold Hm]. change (lawful_rows s'.(db)) with (constraints s'.(db)) in Hc.
  assert (∀ w, w ∈ s.(db).(DB.artifact_variants) → w.(VariantRow.id) ≠ v.(VariantRow.id)) as Hfresh.
  { destruct Hc as (_ & _ & (_ & _ & Hnd & _) & _). rewrite E in Hnd. cbn in Hnd. unfold inserted in Hnd.
    rewrite fmap_app in Hnd. apply NoDup_app in Hnd as (_ & Hd & _). intros w Hw Ew. apply (Hd (VariantRow.id w)).
    - by apply list_elem_of_fmap_2.
    - rewrite Ew. apply list_elem_of_here. }
  split; [split; [done|]|].
  - intros l w. rewrite E. cbn. unfold inserted. intros Hl [Hw| ->%list_elem_of_singleton]%elem_of_app Hid; [by apply (Hm l w)|].
    exfalso. destruct Hold as (_ & _ & (_ & _ & _ & _ & _ & _ & _ & _ & Hfk & _) & _).
    rewrite Forall_forall in Hfk. destruct (Hfk l Hl) as [Href _]. unfold references in Href. rewrite Hid in Href.
    apply list_elem_of_fmap in Href as (w & Ew & Hw). by eapply Hfresh.
  - intros w. rewrite E. cbn. unfold inserted. intros [Hw| ->%list_elem_of_singleton]%elem_of_app Hid; [|done].
    by destruct (Hfresh w Hw).
Qed.
Lemma insert_location st l s s' :
  modify st (λ d, d <| DB.artifact_locations := inserted l d.(DB.artifact_locations) |>) s = (Ok tt, s') → sound s.(db) →
  digest_of s.(db) l.(ArtifactLocation.VariantID) l.(ArtifactLocation.Digest) → sound s'.(db).
Proof.
  intros (E & _ & Hc)%modify_ok [_ Hm] Hd. change (lawful_rows s'.(db)) with (constraints s'.(db)) in Hc.
  split; [done|]. intros l' w. rewrite E. cbn. unfold inserted.
  intros [Hl| ->%list_elem_of_singleton]%elem_of_app Hw Hid; [by apply (Hm l' w)|]. symmetry. by apply Hd.
Qed.

(** *** Operations that leave variants and locations alone *)
Definition same_artifacts (f : DB → DB) : Prop :=
  ∀ d, (f d).(DB.artifact_variants) = d.(DB.artifact_variants) ∧ (f d).(DB.artifact_locations) = d.(DB.artifact_locations).
(** A property that only such operations need not restore. *)
Class Stable (I : DB → Prop) :=
  stable st f s s' : same_artifacts f → modify st f s = (Ok tt, s') → I s.(db) → I s'.(db).
#[local] Instance sound_stable : Stable sound.
Proof. intros st f s s' Hf E Hs. apply (modify_same st f s s' Hf E Hs). Qed.
Definition sound_with (id digest : string) d : Prop := sound d ∧ digest_of d id digest.
#[local] Instance sound_with_stable id digest : Stable (sound_with id digest).
Proof.
  intros st f s s' Hf E [Hs Hd]. destruct (modify_same st f s s' Hf E Hs) as [Hs' Hd']. split; [done|by apply Hd'].
Qed.
Section stable.
Context (I : DB → Prop) `{!Stable I}.
Lemma invariant_modify st f : same_artifacts f → invariant I (modify st f).
Proof.
  intros Hf s [[]|e] s' Hs E; [by apply (stable st f s s' Hf E)|]. by rewrite (modify_atomic st f s e s' E).
Qed.
Lemma invariant_select {A} (f : DB → A) : invariant I (select f).
Proof. intros s r s' Hs E. by rewrite (select_state _ _ _ _ E). Qed.
Lemma invariant_wrapped {A} format (m : effr world A) : invariant I m → invariant I (wrapped format m).
Proof. intros Hm. apply invariant_bind; [done|]. intros r. apply invariant_ret. Qed.
Lemma invariant_select_row {A} (f : DB → option A) : invariant I (select_row f).
Proof. apply invariant_bindr; [apply invariant_select|]. intros r. apply invariant_ret. Qed.
End stable.
Local Hint Resolve sound_stable sound_with_stable invariant_modify invariant_select invariant_wrapped invariant_select_row : sql.
Local Hint Extern 1 (same_artifacts _) => by intros ? : sql.

Lemma catalog_file_sound handle manifest wv sid a : invariant sound (catalog_file handle manifest wv sid a).
Proof. unfold catalog_file. case_bool_decide; eauto 10 with sql. Qed.
Lemma catalog_sound handle : invariant sound (CatalogArtifacts handle).
Proof.
  unfold CatalogArtifacts. destruct (ActivityHandle.Artifacts handle) as [m|]; [|auto with sql].
  apply invariant_transaction. apply invariant_bindr; [auto with sql|]. intros wv.
  apply invariant_bindr; [auto with sql|]. intros ev. apply invariant_bindr.
  - case_bool_decide; auto with sql.
  - intros _. apply invariant_for_effr. intros a. apply catalog_file_sound.
Qed.
Lemma promote_data_sound st p wv run act id entry sum : invariant sound (PromoteData st p wv run act id entry sum).
Proof.
  unfold PromoteData. destruct (sha256Digest sum); cbn [negb]; [|auto with sql].
  apply invariant_transaction. auto 10 with sql.
Qed.
Lemma endpoint_sound I `{!Stable I} storageID environmentID : invariant I (register_endpoint storageID environmentID).
Proof.
  apply invariant_bindr; [auto with sql|]. intros [r|]; [|auto with sql].
  apply invariant_bindr; [apply invariant_ret|]. intros e. case_match; apply invariant_ret.
Qed.

(** *** Operations that add a variant with its location *)
Lemma variant_then st format v (m : effr world unit) s s' :
  sound s.(db) → (∀ s1 s2, sound_with v.(VariantRow.id) v.(VariantRow.digest) s1.(db) → m s1 = (Ok tt, s2) → sound s2.(db)) →
  ebindr (wrapped format (modify st (λ d, d <| DB.artifact_variants := inserted v d.(DB.artifact_variants) |>))) (λ _, m) s = (Ok tt, s') →
  sound s'.(db).
Proof.
  intros Hs Hm ([] & s1 & E1%wrapped_ok & E2)%ebindr_ok. apply (Hm s1 s'); [|done].
  by apply (insert_variant st v s s1).
Qed.
Lemma publish_sound runID variant location : invariant sound (PublishBuildOutput runID variant location).
Proof.
  intros s [[]|e] s' Hs; unfold PublishBuildOutput.
  2:{ destruct (_ || _); [by intros [= _ <-]|]. by intros ->%transaction_atomic. }
  destruct (_ || negb _) eqn:Eg; [done|]. apply orb_false_iff in Eg as [_ Eg%negb_false_iff%bool_decide_eq_true].
  intros (av & s1 & [_ ->]%wrapped_ok%select_row_ok & E)%transaction_ok%ebindr_ok. revert E. apply variant_then; [done|].
  clear s Hs s'. intros s s' Hs ([] & s1 & E1 & ([] & s2 & E2%wrapped_ok & (n & s3 & E3 & E4)%ebind_ok)%ebindr_ok)%ebindr_ok.
  assert (sound_with (ArtifactVariant.ID variant) (ArtifactVariant.Digest variant) s1.(db)) as [Hs1 Hd1].
  { refine ((_ : invariant (sound_with _ _) _) s (Ok tt) s1 Hs E1). case_bool_decide; eauto with sql. }
  assert (sound s2.(db)) as Hs2.
  { apply (insert_location _ _ _ _ E2 Hs1). cbn. by rewrite <- Eg. }
  injection E3 as _ <-. apply wrapped_ok in E4.
  assert (same_artifacts (publish_run runID variant (timestamp n))) as Hsame by done.
  exact (sound_stable _ _ _ _ Hsame E4 Hs2).
Qed.
Lemma promote_artifact_sound st p id name v sc scid sum entry : invariant sound (PromoteArtifact st p id name v sc scid sum entry).
Proof.
  intros s [[]|e] s' Hs; unfold PromoteArtifact.
  2:{ destruct (negb _); [by intros [= _ <-]|]. by intros ->%transaction_atomic. }
  destruct (negb _); [done|]. intros E%transaction_ok. revert E.
  intros ([] & s1 & E1 & (env & s2 & [_ ->]%wrapped_ok%select_row_ok & ([] & s3 & E3 & E)%ebindr_ok)%ebindr_ok)%ebindr_ok.
  assert (s1 = s) as -> by (destruct (validSHA256 sum); by injection E1).
  apply wrapped_ok in E3. assert (sound s3.(db)) as Hs3 by (eapply sound_stable; [|exact E3|exact Hs]; by intros ?).
  revert E. apply variant_then; [done|]. clear s Hs s' s3 E1 E3 Hs3. intros s s' Hs ([] & s1 & E1 & E2)%ebindr_ok.
  destruct (endpoint_sound (sound_with _ _) _ _ s (Ok tt) s1 Hs E1) as [Hs1 Hd1].
  by apply (insert_location _ _ _ _ E2 Hs1).
Qed.
Lemma op_sound o : invariant sound (run_op o).
Proof.
  destruct o; cbn [run_op]; try (unfold SaveArtifactMaterialization, SaveTransferRun, SaveArtifactBuild,
    RegisterArtifactVersion, SaveBuildRun, SaveBuildContext, SaveDownload, SaveIndexRun; by eauto 10 with sql).
  - apply catalog_sound.
  - apply publish_sound.
  - apply promote_data_sound.
  - apply promote_artifact_sound.
Qed.
Lemma ops_sound l : invariant sound (run_ops l).
Proof.
  induction l as [|o l IH]; [apply invariant_ret|]. apply invariant_bind; [apply op_sound|]. intros _. exact IH.
Qed.

(** *** What a query finds *)
Lemma head_in {A} (le : A → A → bool) salt l x : head (order_by le salt l) = Some x → x ∈ l.
Proof.
  intros Hx. rewrite <- (order_by_perm A le salt l). destruct (order_by le salt l); [done|]. injection Hx as ->. left.
Qed.
Lemma head_some {A} (le : A → A → bool) salt l : l ≠ [] → ∃ x, head (order_by le salt l) = Some x.
Proof.
  intros Hl. destruct (order_by le salt l) as [|x l'] eqn:E; [|by exists x].
  destruct Hl. apply Permutation_nil_r. by rewrite <- (order_by_perm A le salt l), E.
Qed.
Lemma published_in d r v l :
  (r, v, l) ∈ published_outputs d ↔
  (r ∈ d.(DB.build_runs) ∧ r.(RunRow.status) = "completed") ∧
  (v ∈ d.(DB.artifact_variants) ∧ r.(RunRow.output_variant_id) = Some v.(VariantRow.id)) ∧
  (l ∈ d.(DB.artifact_locations) ∧ l.(ArtifactLocation.VariantID) = v.(VariantRow.id)).
Proof.
  unfold published_outputs. setoid_rewrite list_elem_of_join. split.
  - intros (l1 & Hin & (r1 & -> & [Hr Hc%bool_decide_eq_true]%list_elem_of_In%filter_In)%list_elem_of_fmap).
    apply list_elem_of_join in Hin as (l2 & Hin & (v1 & -> & [Hv Hov%bool_decide_eq_true]%list_elem_of_In%filter_In)%list_elem_of_fmap).
    apply list_elem_of_fmap in Hin as (l3 & [= -> -> ->] & [Hl Hlv%bool_decide_eq_true]%list_elem_of_In%filter_In).
    by rewrite !list_elem_of_In.
  - intros ([Hr Hc] & [Hv Hov] & [Hl Hlv]). eexists. split; [|apply list_elem_of_fmap; exists r; split; [done|]].
    + apply list_elem_of_join. eexists. split; [|apply list_elem_of_fmap; exists v; split; [done|]].
      * apply list_elem_of_fmap. exists l. split; [done|]. apply list_elem_of_In, filter_In.
        rewrite <- list_elem_of_In. by rewrite bool_decide_true.
      * apply list_elem_of_In, filter_In. rewrite <- list_elem_of_In. by rewrite bool_decide_true.
    + apply list_elem_of_In, filter_In. rewrite <- list_elem_of_In. by rewrite bool_decide_true.
Qed.

(** The output of a completed run of a build. *)
Definition output_of d (buildID : string) (variant : ArtifactVariant) (location : ArtifactLocation) : Prop :=
  location ∈ d.(DB.artifact_locations) ∧ location.(ArtifactLocation.VariantID) = variant.(ArtifactVariant.ID) ∧
  location.(ArtifactLocation.Digest) = variant.(ArtifactVariant.Digest) ∧
  ∃ r, r ∈ d.(DB.build_runs) ∧ r.(RunRow.artifact_build_id) = buildID ∧ r.(RunRow.status) = "completed" ∧
       r.(RunRow.output_variant_id) = Some variant.(ArtifactVariant.ID).
Lemma published_output d r v l :
  sound d → (r, v, l) ∈ published_outputs d → output_of d r.(RunRow.artifact_build_id) (scan_variant v) l.
Proof.
  intros [_ Hm] ([Hr Hc] & [Hv Hov] & [Hl Hlv])%published_in.
  split_and!; [done|done|by apply (Hm l v)|]. by exists r.
Qed.
Lemma find_output_ok salt buildID s o s' :
  FindBuildOutput salt buildID s = (Ok o, s') → sound s.(db) →
  match o with
  | (Some variant, Some location) => output_of s.(db) buildID variant location
  | (None, None) => True
  | _ => False
  end.
Proof.
  intros (row & s1 & [-> ->]%select_ok & E)%ebindr_ok Hs. injection E as <- _.
  destruct (head _) as [[[r v] l]|] eqn:Eh; [|done]. apply head_in in Eh.
  apply list_elem_of_In, filter_In in Eh as [Hin Hb%bool_decide_eq_true]. apply list_elem_of_In in Hin. cbn in Hb.
  rewrite <- Hb. by apply published_output.
Qed.
Definition serves (build : ArtifactBuild) (image architecture : string) : Prop :=
  build.(ArtifactBuild.SourceType) = "docker-image" ∧ build.(ArtifactBuild.RecipePath) = image ∧
  (architecture ≠ "" → build.(ArtifactBuild.TargetArchitecture) ∈ [""; architecture]).
Lemma find_docker_ok salt image architecture s o s' :
  FindDockerBuildOutput salt image architecture s = (Ok o, s') → sound s.(db) →
  match o with
  | (Some build, Some variant, Some location) =>
      serves build image architecture ∧ output_of s.(db) build.(ArtifactBuild.ID) variant location
  | (None, None, None) => True
  | _ => False
  end.
Proof.
  intros (row & s1 & [-> ->]%select_ok & E)%ebindr_ok Hs. injection E as <- _.
  destruct (head _) as [[b [[r v] l]]|] eqn:Eh; [|done]. apply head_in in Eh. unfold docker_outputs in Eh.
  apply list_elem_of_join in Eh as (l1 & Hin & (b1 & -> & [_ Hb]%list_elem_of_In%filter_In)%list_elem_of_fmap).
  apply list_elem_of_fmap in Hin as (o & [= -> <-] & [Ho Hr%bool_decide_eq_true]%list_elem_of_In%filter_In).
  apply list_elem_of_In in Ho. cbn in Hr. split.
  - unfold serves. rewrite !andb_true_iff, !orb_true_iff, !bool_decide_eq_true in Hb. set_solver.
  - unfold build_id in Hr. rewrite <- Hr. by apply published_output.
Qed.

(** C37: an output that a workflow can use is a published one, with the digest of what is stored.
    After any sequence of operations of the two repositories, whether they succeed or fail, on a
    database whose locations carry the digests of their variants, [FindBuildOutput] and
    [FindDockerBuildOutput] answer nothing at all, or a variant and a location of that variant with
    the same digest, which a completed run of that very build names as its output; for an image, the
    build is one of the image, and for the architecture that was asked or for none in particular. *)
Theorem outputs_published (ops : list op) (s s' : world) (salt : nat) (buildID image architecture : string) :
  constraints s.(db) → matching s.(db) → run_ops ops s = (tt, s') →
  (∀ o s2, FindBuildOutput salt buildID s' = (Ok o, s2) →
     match o with
     | (Some variant, Some location) => output_of s'.(db) buildID variant location
     | (None, None) => True
     | _ => False
     end) ∧
  (∀ o s2, FindDockerBuildOutput salt image architecture s' = (Ok o, s2) →
     match o with
     | (Some build, Some variant, Some location) =>
         serves build image architecture ∧ output_of s'.(db) build.(ArtifactBuild.ID) variant location
     | (None, None, None) => True
     | _ => False
     end).
Proof.
  intros Hc Hm E. assert (sound s'.(db)) as Hs by by apply (ops_sound ops s tt s' (conj Hc Hm) E).
  split; intros o s2 Hf; [by apply (find_output_ok salt buildID s' o s2)|by apply (find_docker_ok salt image architecture s' o s2)].
Qed.

(** A run that was published gives its build an output. *)
Lemma publish_visible runID variant location s s' r salt :
  PublishBuildOutput runID variant location s = (Ok tt, s') → find_row RunRow.id runID s.(db).(DB.build_runs) = Some r →
  refusal StSelect s'.(db) = None →
  ∃ v l, FindBuildOutput salt r.(RunRow.artifact_build_id) s' = (Ok (Some v, Some l), s').
Proof.
  unfold PublishBuildOutput. destruct (_ || negb _) eqn:Eg; [done|]. intros E%transaction_ok Hr Ha.
  apply ebindr_ok in E as (av & s1 & [_ ->]%wrapped_ok%select_row_ok & ([] & s2 & E2%wrapped_ok & ([] & s3 & E3 & ([] & s4 & E4%wrapped_ok &
    (n & s5 & E5 & E6%wrapped_ok)%ebind_ok)%ebindr_ok)%ebindr_ok)%ebindr_ok).
  injection E5 as _ <-. apply modify_ok in E2 as (E2 & _ & _). apply modify_ok in E4 as (E4 & _ & _).
  apply modify_ok in E6 as (E6 & _ & _).
  assert (s3.(db).(DB.build_runs) = s2.(db).(DB.build_runs) ∧ s3.(db).(DB.artifact_variants) = s2.(db).(DB.artifact_variants)) as [Er Ev].
  { case_bool_decide; [|by injection E3 as <-]. apply wrapped_ok, modify_ok in E3 as (E3 & _ & _). by rewrite E3. }
  cbn [db] in E6. unfold FindBuildOutput, ebindr. rewrite select_runs by done. unfold eret. destruct (head _) as [[[r' v] l]|] eqn:Eh; [by exists (scan_variant v), l|].
  exfalso. apply find_row_some in Hr as [Hin Hid].
  destruct (head_some (λ a b : output, finished_le a.1.1 b.1.1) salt (List.filter (λ o : output,
    bool_decide (o.1.1.(RunRow.artifact_build_id) = r.(RunRow.artifact_build_id))) (published_outputs s'.(db)))) as [x Hx];
    [|by rewrite Hx in Eh].
  pose (f := λ r, r <| RunRow.status := "completed" |> <| RunRow.output_variant_id := Some variant.(ArtifactVariant.ID) |>
           <| RunRow.output_digest := variant.(ArtifactVariant.Digest) |> <| RunRow.finished_at := Some (timestamp n) |>).
  intros Hnil. enough ((f r, VariantRow.mk variant.(ArtifactVariant.ID) av variant.(ArtifactVariant.Digest)
    variant.(ArtifactVariant.Format) variant.(ArtifactVariant.Architecture) variant.(ArtifactVariant.SizeBytes),
    location <| ArtifactLocation.VariantID := variant.(ArtifactVariant.ID) |>) ∈ ([] : list output)) as ?%not_elem_of_nil by done.
  rewrite <- Hnil. apply list_elem_of_In, filter_In. rewrite <- list_elem_of_In. split; [|by rewrite bool_decide_true].
  apply published_in. rewrite E6. cbn. rewrite E4. cbn. rewrite Er, Ev, E2. cbn. unfold inserted.
  split_and!; try done; [|apply elem_of_app; right; left..].
  apply list_elem_of_fmap. exists r. unfold has_row. by rewrite bool_decide_true.
Qed.
End outputs.

(** *** Transfers resume *)
Section transfers.
Context `{Engine DB, CatalogJSON}.
Hypothesis strings_back : ∀ l s, marshal_strings l = Ok s → unmarshal_strings s = Ok l.
Hypothesis ints_back : ∀ l s, marshal_ints l = Ok s → unmarshal_ints s = Ok l.

(** The state of a transfer that was saved is the state found: all of it when it is new, and with
    the plan and the strategy of the first save after that. *)
Lemma transfer_resumed value (s s' s2 : world) o :
  SaveTransferRun value s = (Ok tt, s') → FindTransferRun value.(DataTransferRun.ID) s' = (Ok o, s2) →
  o = Some (match find_row transfer_id value.(DataTransferRun.ID) s.(db).(DB.transfer_runs) with
            | None => value
            | Some old => value <| DataTransferRun.PlanID := old.(TransferRow.run).(DataTransferRun.PlanID) |>
                                <| DataTransferRun.Strategy := old.(TransferRow.run).(DataTransferRun.Strategy) |>
            end).
Proof.
  intros (vs & s1 & E1 & (cs & s3 & E2 & (E3 & _ & _)%modify_ok)%ebindr_ok)%ebindr_ok [_ Hf]%find_optional_ok.
  injection E1 as Hvs <-. injection E2 as Hcs <-.
  apply (f_equal DB.transfer_runs) in E3. rewrite E3 in Hf.
  change (DB.transfer_runs (_ <| DB.transfer_runs := ?t |>)) with t in Hf.
  rewrite (find_row_upsert transfer_id merge_transfer) in Hf by done. rewrite bool_decide_true in Hf by done.
  destruct Hf as (a & Ha & ->). f_equal. unfold scan_transfer in Ha.
  destruct (find_row transfer_id _ _) as [old|] eqn:Eold; cbn in Ha;
    rewrite (strings_back _ _ Hvs), (ints_back _ _ Hcs) in Ha; injection Ha as <-; destruct value; cbn in *; [|done].
  apply find_row_some in Eold as [_ Eid]. unfold transfer_id in Eid. by rewrite Eid.
Qed.
End transfers.

Module Example.
#[local] Instance engine : Engine DB := {|
  refusal _ _ := None; violation _ _ := "constraint failed"; timestamp n := Z.of_nat n |}.
#[local] Instance json : CatalogJSON := {|
  marshal_metadata m := meta_string m "change"; unmarshal_metadata s := Some {["change" := AnyString s]};
  marshal_strings l := Ok (join_byte "," l); unmarshal_strings s := Ok (split_byte "," s);
  marshal_ints _ := Ok ""; unmarshal_ints _ := Ok []; browse_root _ := zero; index_policy _ := zero |}.
Fixpoint checksum (h : Z) (s : string) : Z :=
  match s with "" => h | String c s => checksum ((h * 131 + byte_of c) mod 2 ^ 61) s end.
#[local] Instance sum : Sha256 := λ s, itoa (checksum 7 s).

Definition empty : DB := {|
  DB.workflow_versions := ["wv"]; DB.execution_runs := ["run"]; DB.activity_definitions := [("act", "wv")];
  DB.environment_versions := [("ev", "env")]; DB.resources := [("node", "ev")];
  DB.storage_resources := [StorageRow.mk "st" "ev" "scratch" StorageNFS "" 0 true false "{}" "" "{}"];
  DB.data_objects := []; DB.data_object_instances := []; DB.data_locations := []; DB.artifact_versions := [];
  DB.artifact_variants := []; DB.transfer_endpoints := []; DB.artifact_locations := []; DB.artifact_materializations := [];
  DB.transfer_runs := []; DB.artifact_builds := []; DB.build_contexts := []; DB.build_runs := [];
  DB.storage_download_runs := []; DB.storage_index_runs := [] |}.
Definition start : world := mk_session empty 0.
Definition files : list ArtifactObservation := [
  ArtifactObservation.mk "out/a.txt" ArtifactCreated 3 "sum-a" 0; ArtifactObservation.mk "old.txt" ArtifactDeleted 0 "" 0;
  ArtifactObservation.mk "out/b c.txt" ArtifactModified 5 "sum-b" 0].
Definition manifest : ArtifactManifest := (zero : ArtifactManifest) <| ArtifactManifest.Attempt := 1 |>
  <| ArtifactManifest.Root := "/work" |> <| ArtifactManifest.Files := files |>.
Definition handle : ActivityHandle := (zero : ActivityHandle) <| ActivityHandle.RunID := "run" |>
  <| ActivityHandle.ActivityID := "act" |> <| ActivityHandle.ResourceID := "node" |>
  <| ActivityHandle.Artifacts := Some manifest |>.
Definition catalogued : world := (CatalogArtifacts handle start).2.

Lemma artifacts_catalogued_witness :
  (CatalogArtifacts handle start).1 = Ok tt ∧
  map (λ r, (r.(InstanceRow.relative_path), r.(InstanceRow.size_bytes))) catalogued.(db).(DB.data_object_instances) =
    [("out/a.txt", 3); ("out/b c.txt", 5)] ∧
  LocationRow.uri <$> catalogued.(db).(DB.data_locations) = ["file:///work/out/a.txt"; "file:///work/out/b%20c.txt"] ∧
  match CatalogArtifacts handle start with
  | (Err _, _) => False
  | (Ok _, s') => ∃ i, find_row instance_key (Some ("run", "act", 1, "out/a.txt")) s'.(db).(DB.data_object_instances) = Some i ∧
                       i.(InstanceRow.size_bytes) = 3
  end.
Proof.
  split_and!; [vm_compute; reflexivity..|].
  pose proof (artifacts_catalogued handle manifest start eq_refl) as Ht.
  assert ((CatalogArtifacts handle start).1 = Ok tt) as Hok by (vm_compute; reflexivity).
  destruct (CatalogArtifacts handle start) as [[[]|e] s']; [|done].
  destruct Ht as (Ha & _ & _); [vm_compute; repeat constructor; set_solver|].
  destruct (Ha (ArtifactObservation.mk "out/a.txt" ArtifactCreated 3 "sum-a" 0)) as ((i & Hi & Hs & _) & _); [left|].
  exists i. split; [exact Hi|exact Hs].
Defined.

(** A resource whose workspace changed type cannot be catalogued: the storage is identified by its
    type and named without it, and names are unique. *)
Definition claimed : ActivityHandle := handle <| ActivityHandle.Metadata := {["artifactStorageType" := AnyString "pvc"]} |>.
Lemma second_workspace_refused :
  (CatalogArtifacts claimed catalogued).1 = Err "register workspace storage: constraint failed" ∧
  (CatalogArtifacts claimed start).1 = Ok tt.
Proof. split; vm_compute; reflexivity. Qed.
(** A file promoted for a run without an activity makes the listing of that run fail. *)
Fixpoint repeated (n : nat) (c : ascii) : string := match n with O => "" | S n => String c (repeated n c) end.
Definition digest (c : ascii) : string := "sha256:" +:+ repeated 64 c.
Lemma promoted_file_hides_run :
  let s' := (PromoteData "st" "in.txt" "wv" "run" "" "" zero (digest "a") catalogued).2 in
  (PromoteData "st" "in.txt" "wv" "run" "" "" zero (digest "a") catalogued).1 = Ok tt ∧
  is_ok (ListInstances 0 "run" catalogued).1 = true ∧ is_ok (ListInstances 0 "run" s').1 = false.
Proof. split_and!; vm_compute; reflexivity. Qed.
(** The parts of a version's identifier are not told apart. *)
Lemma version_ids_collide :
  artifactVersionID "tool:x" "1" "environment" "e" = artifactVersionID "tool" "x:1" "environment" "e".
Proof. vm_compute. reflexivity. Qed.

(** A build that is published, and one that is not. *)
Definition build (id : string) : ArtifactBuild := (zero : ArtifactBuild) <| ArtifactBuild.ID := id |>
  <| ArtifactBuild.ArtifactVersionID := "v1" |> <| ArtifactBuild.SourceType := "docker-image" |>
  <| ArtifactBuild.ContextDigest := digest "0" |> <| ArtifactBuild.RecipePath := "alpine" |>
  <| ArtifactBuild.RecipeDigest := digest "0" |> <| ArtifactBuild.CacheKey := id |>.
Definition running (id : string) : BuildRun := (zero : BuildRun) <| BuildRun.ID := "run-" +:+ id |>
  <| BuildRun.ArtifactBuildID := id |> <| BuildRun.Status := "building" |>.
Definition variant : ArtifactVariant := ArtifactVariant.mk "var" "" (digest "b") "sif" "amd64" 9.
Definition location (d : string) : ArtifactLocation :=
  ArtifactLocation.mk "loc" "" CatalogScopeProject "" "artifact-store" "artifact://var" d true.
Definition published : ArtifactLocation := (location (digest "b")) <| ArtifactLocation.VariantID := "var" |>.
Definition history : list op := [
  OpVersion (ArtifactVersion.mk "v1" "tool" "1" CatalogScopeProject ""); OpBuild (build "b1"); OpBuild (build "b2");
  OpRun (running "b1"); OpRun (running "b2"); OpPublish "run-b2" variant (location (digest "c"));
  OpPublish "run-b1" variant (location (digest "b"))].

Lemma outputs_published_witness :
  let s' := (run_ops history start).2 in
  (FindBuildOutput 0 "b1" s').1 = Ok (Some variant, Some published) ∧
  (FindBuildOutput 0 "b2" s').1 = Ok (None, None) ∧
  output_of s'.(db) "b1" variant published.
Proof.
  cbv zeta. split_and!; [vm_compute; reflexivity..|].
  assert (run_ops history start = (tt, (run_ops history start).2)) as Hr by by destruct (run_ops history start) as [[] ?].
  assert (constraints empty) as Hc by (apply (bool_decide_unpack (constraints empty)); vm_compute; exact I).
  destruct (outputs_published history start (run_ops history start).2 0 "b1" "alpine" "amd64" Hc) as [Hb _].
  - intros l v Hl. destruct (not_elem_of_nil l Hl).
  - exact Hr.
  - apply (Hb (Some variant, Some published) (FindBuildOutput 0 "b1" (run_ops history start).2).2).
    rewrite (surjective_pairing (FindBuildOutput 0 _ _)). f_equal.
Defined.
End Example.
End Outputs.
