(* ===== verification/RemoteStorage.v ===== *)
(** * Storage behind a login node (src/internal/provider/storage/sshfilesystem/driver.go)

    Every operation is a script that is sent to the login node together with the root and the
    relative path, both in base64. Module [Base64] is the encoding of [encoding/base64] and the
    decoding of base64(1). *)

From Stdlib Require Import Ascii.
From S2P Require Import Prelude GoStrings GoFloat GoPath Sql Domain Ports Shell Slurm Storage Filesystem Connectors.

Module Base64.
Local Open Scope Z_scope.

(** The digits of the alphabet of [base64.StdEncoding]. *)
Definition digit (n : Z) : ascii :=
  ascii_of_N (Z.to_N (
    if n <? 26 then 65 + n else if n <? 52 then 97 + (n - 26) else if n <? 62 then 48 + (n - 52)
    else if n =? 62 then 43 else 47)).
Definition value (c : ascii) : option Z :=
  let b := byte_of c in
  if (65 <=? b) && (b <=? 90) then Some (b - 65)
  else if (97 <=? b) && (b <=? 122) then Some (b - 97 + 26)
  else if (48 <=? b) && (b <=? 57) then Some (b - 48 + 52)
  else if b =? 43 then Some 62 else if b =? 47 then Some 63 else None.
Definition byte (n : Z) : ascii := ascii_of_N (Z.to_N n).

(** [EncodeToString]: three bytes make four digits. *)
Fixpoint encode (s : string) : string :=
  match s with
  | "" => ""
  | String a "" =>
    let n := byte_of a * 16 in
    String (digit (n / 64)) (String (digit (n mod 64)) "==")
  | String a (String b "") =>
    let n := (byte_of a * 256 + byte_of b) * 4 in
    String (digit (n / 4096)) (String (digit (n / 64 mod 64)) (String (digit (n mod 64)) "="))
  | String a (String b (String c s)) =>
    let n := byte_of a * 65536 + byte_of b * 256 + byte_of c in
    String (digit (n / 262144)) (String (digit (n / 4096 mod 64)) (String (digit (n / 64 mod 64))
      (String (digit (n mod 64)) (encode s))))
  end.
(** [base64 -d] *)
Fixpoint decode (s : string) : option string :=
  match s with
  | "" => Some ""
  | String a (String b (String c (String d s))) =>
    match value a, value b with
    | Some p, Some q =>
      match value c, value d with
      | Some r, Some t =>
        let n := p * 262144 + q * 4096 + r * 64 + t in
        rest ← decode s; Some (String (byte (n / 65536)) (String (byte (n / 256 mod 256)) (String (byte (n mod 256)) rest)))
      | Some r, None =>
        let n := p * 4096 + q * 64 + r in
        if is_byte "=" d && bool_decide (s = "") then Some (String (byte (n / 1024)) (String (byte (n / 4 mod 256)) "")) else None
      | None, None =>
        if is_byte "=" c && is_byte "=" d && bool_decide (s = "") then Some (String (byte ((p * 64 + q) / 16)) "") else None
      | _, _ => None
      end
    | _, _ => None
    end
  | _ => None
  end.

Lemma byte_of_range c : 0 ≤ byte_of c < 256.
Proof. unfold byte_of. pose proof (N_ascii_bounded c). lia. Qed.
Lemma byte_back c : byte (byte_of c) = c.
Proof. unfold byte, byte_of. rewrite N2Z.id. apply ascii_N_embedding. Qed.
Lemma digits_back : Forall (λ n, value (digit n) = Some n) (seqZ 0 64).
Proof. apply (bool_decide_unpack _). vm_compute. exact I. Qed.
Lemma value_digit n : 0 ≤ n < 64 → value (digit n) = Some n.
Proof. intros Hn. pose proof digits_back as H. rewrite Forall_forall in H. apply H, elem_of_seqZ. lia. Qed.

Ltac divmod := Z.div_mod_to_equations; lia.
Lemma byte_is n c : n = byte_of c → byte n = c.
Proof. intros ->. apply byte_back. Qed.
Lemma decode_encode s : decode (encode s) = Some s.
Proof.
  assert (∀ n s, (str_length s ≤ n)%nat → decode (encode s) = Some s) as H; [|by eapply H].
  clear s. intros n. induction n as [|n IH]; intros s Hs; [by destruct s; [|simpl in Hs; lia]|].
  destruct s as [|a [|b [|c s]]]; [done|..]; pose proof (byte_of_range a) as Ha; try pose proof (byte_of_range b) as Hb;
    try pose proof (byte_of_range c) as Hc; cbn [encode decode]; cbv zeta; rewrite !value_digit by divmod;
    change (value "=") with (@None Z); change (is_byte "=" "=") with true; cbn [andb bool_decide].
  - f_equal. f_equal. apply byte_is. divmod.
  - f_equal. rewrite (byte_is _ a), (byte_is _ b) by divmod. done.
  - rewrite IH by (simpl in Hs; lia). cbv beta iota delta [mbind option_bind].
    rewrite (byte_is _ a), (byte_is _ b), (byte_is _ c) by divmod. done.
Qed.

(** The text is made of bytes a shell reads as they stand. *)
Definition digit_byte (c : ascii) : bool := bool_decide (is_Some (value c)) || is_byte "=" c.
Lemma digit_ok n : 0 ≤ n < 64 → digit_byte (digit n) = true.
Proof. intros Hn. unfold digit_byte. by rewrite value_digit. Qed.
Lemma encode_digits s : str_forall digit_byte (encode s) = true.
Proof.
  assert (∀ n s, (str_length s ≤ n)%nat → str_forall digit_byte (encode s) = true) as H; [|by eapply H].
  clear s. intros n. induction n as [|n IH]; intros s Hs; [by destruct s; [|simpl in Hs; lia]|].
  destruct s as [|a [|b [|c s]]]; [done|..]; pose proof (byte_of_range a); try pose proof (byte_of_range b);
    try pose proof (byte_of_range c); cbn [encode str_forall]; rewrite !digit_ok by divmod; try done.
  rewrite IH by (simpl in Hs; lia). done.
Qed.
Lemma all_digit_bytes (P : ascii → bool) :
  forallb (λ n, implb (digit_byte (ascii_of_N (N.of_nat n))) (P (ascii_of_N (N.of_nat n)))) (seq 0 256) = true →
  ∀ c, digit_byte c = true → P c = true.
Proof.
  intros H c Hc. rewrite forallb_forall in H. pose proof (N_ascii_bounded c) as Hb.
  specialize (H (N.to_nat (N_of_ascii c))). rewrite N2Nat.id, ascii_N_embedding, Hc in H. apply H, in_seq. lia.
Qed.
Lemma encode_plain s : str_forall plain_byte (encode s) = true.
Proof. eapply str_forall_impl, encode_digits. apply all_digit_bytes. vm_compute. reflexivity. Qed.
End Base64.

Module SSHFilesystem.
Import Connectors.
Definition TAB : ascii := "009"%char.
Abbreviation dq := Slurm.dq.
Abbreviation CommandExecutor := SSHCommandExecutor.CommandExecutor.

(** [ConnectionStore], which may be nil; [strconv.ParseFloat] with the error ignored, in whole
    seconds; the conversion of a [float64] to [int]. *)
Class ConnectionStore (W : Type) := FindConnection : option (string → effr W (option EnvironmentConnection)).
Class Numbers := { float_seconds : string → Z; truncate : float64 → Z }.

(** ** Scripts *)
Definition line (l : list string) : string := join_byte LF l.
Definition commonScript : string := dq (line [
  "decode(){ printf '%s' ~$1~ | base64 -d; }";
  "root=$(decode ~$1~) || exit 2";
  "rel=$(decode ~$2~) || exit 2";
  "root=$(realpath -e -- ~$root~) || exit 2";
  "candidate=~$root${rel:+/$rel}~";
  "safe_existing(){";
  "  resolved=$(realpath -e -- ~$candidate~) || return 1";
  "  case ~$resolved~ in ~$root~|~$root~/*) ;; *) return 1;; esac";
  "}"]).
Definition script (l : list string) : string := commonScript +:+ newline +:+ dq (line l).
Definition listScript : string := script
  ["safe_existing || exit 3; test -d ~$resolved~ || exit 4; find -P ~$resolved~ -mindepth 1 -maxdepth 1 -printf '%f\t%y\t%s\t%T@\t%l\n'"].
Definition statScript : string := script
  ["safe_existing || exit 3; find -P ~$resolved~ -maxdepth 0 -printf '%f\t%y\t%s\t%T@\t%l\n'"].
Definition catScript : string := script ["safe_existing || exit 3; test -f ~$resolved~ || exit 4; cat -- ~$resolved~"].
Definition removeScript : string := script ["safe_existing || exit 3; test ! -d ~$resolved~ || exit 4; rm -- ~$resolved~"].
Definition writeScript : string := script [
  "parent=$(dirname -- ~$candidate~)";
  "parent=$(realpath -e -- ~$parent~) || exit 3";
  "case ~$parent~ in ~$root~|~$root~/*) ;; *) exit 4;; esac";
  "target=~$parent/$(basename -- ~$candidate~)~";
  "tmp=~$target.akoflow-copy-part~";
  "cat > ~$tmp~ && mv -f -- ~$tmp~ ~$target~"].

(** ** Paths and settings *)

(** [browseRoot] *)
Definition relative_of (value : string) : string :=
  let relative := path_Clean (trim_prefix "/" (trim_space value)) in
  if bool_decide (relative = ".") then "" else relative.
Definition browseRoot (storage : StorageResource) (value : string) : result (string * string) :=
  let root := trim_space storage.(StorageResource.Endpoint) in
  if bool_decide (root = "") then Err (errorf "SSH storage root is required" [])
  else
    let roots := storage.(StorageResource.BrowseRoots) in
    let allowed := bool_decide (roots = []) ||
      existsb (λ candidate, bool_decide (path_Clean candidate.(StorageBrowseRoot.Path) = path_Clean root)) roots in
    if negb allowed then Err (errorf "storage endpoint is not an allowed browse root" [])
    else
      let relative := relative_of value in
      if bool_decide (relative = "..") || has_prefix "../" relative || rooted relative
      then Err (errorf "browse path escapes its root" [])
      else Ok (path_Clean root, relative).

(** [metadataString], [configString], [boolean], [credentialFile] *)
Definition metadataString (values : metadata) (key : string) : string := trim_space (meta_string values key).
Definition configString (values : metadata) (key : string) : string := metadataString values key.
Definition boolean (values : metadata) (key : string) : bool := meta_bool values key.
Definition credentialFile (reference : string) : string := trim_prefix "file:" (trim_space reference).

Section driver.
Context `{OS W, ConnectionStore W, Numbers}.
Context (executor : CommandExecutor W).
Implicit Types storage : StorageResource.

(** [integer] *)
Definition integer (values : metadata) (key : string) : Z :=
  match lookup_zero values key with
  | AnyInt v => v
  | AnyFloat64 v => truncate v
  | AnyString s => Atoi_value s
  | _ => 0
  end.

(** [Driver.connectionExecutor] *)
Definition ssh_executor (connection : EnvironmentConnection) : SSHCommandExecutor.SSHCommandExecutor W :=
  let configuration := connection.(EnvironmentConnection.Configuration) in
  SSHCommandExecutor.mk W (Some executor) connection.(EnvironmentConnection.Endpoint)
    connection.(EnvironmentConnection.Username) (integer configuration "port")
    (credentialFile connection.(EnvironmentConnection.CredentialRef)) (configString configuration "proxyCommand")
    (configString configuration "hostKeyAlias") (configString configuration "knownHostsFile")
    (boolean configuration "forwardAgent").
Definition connectionExecutor storage : effr W (CommandExecutor W) :=
  match FindConnection with
  | None => eret (Err (errorf "SSH storage connection store is required" []))
  | Some find =>
    let id := metadataString storage.(StorageResource.Metadata) "connectionId" in
    let id := if bool_decide (id = "") then configString storage.(StorageResource.Configuration) "connectionId" else id in
    if bool_decide (id = "") then
      eret (Err (errorf "SSH storage %q has no connectionId" [storage.(StorageResource.ID)]))
    else
      let? connection := find id in
      match connection with
      | None => eret (Err (errorf "SSH storage connection %q not found" [id]))
      | Some connection =>
        let t := connection.(EnvironmentConnection.Type_) in
        if bool_decide (t = ConnectionLocal) then eret (Ok executor)
        else if negb (bool_decide (t = ConnectionSSH)) && negb (bool_decide (t = ConnectionAgent))
        then eret (Err (errorf "connection %q is not SSH-capable" [id]))
        else eret (Ok (SSHCommandExecutor.Run (ssh_executor connection)))
      end
  end.

(** [Driver.runInput], [Driver.run]: the program and the arguments of [sh]. *)
Definition program (script root relative : string) : string :=
  "set -- '" +:+ Base64.encode root +:+ "' '" +:+ Base64.encode relative +:+ "'" +:+ newline +:+ newline +:+ script.
Definition sh_arguments (script root relative : string) : list string :=
  ["-c"; "printf %s " +:+ Base64.encode (program script root relative) +:+ " | base64 -d | sh"].
Definition runInput storage (script input root relative : string) : effr W string :=
  let? exec := connectionExecutor storage in
  let! (output, err) := exec "sh" (sh_arguments script root relative) input in
  eret (match err with None => Ok output | Some e => Err e end).
Definition run storage (script root relative : string) : effr W string := runInput storage script "" root relative.

(** [parseEntries]: the entry of one line, and the loop. *)
Definition entry_type (field : string) : FileEntryType :=
  if bool_decide (field = "l") then FileEntrySymlink
  else if bool_decide (field = "d") then FileEntryDirectory else FileEntryFile.
Definition parse_size (field : string) : result Z :=
  match parse_int field with
  | Some n => Ok n
  | None => Err (errorf "strconv.ParseInt: parsing %q: %s" [field;
      match Atoi_value field with 0 => "invalid syntax" | _ => "value out of range" end])
  end.
Definition parse_entry storage (parent line : string) : result FileEntry :=
  match split_byte TAB line with
  | name :: type :: size :: seconds :: more =>
    size ← parse_size size;
    Ok {| FileEntry.StorageID := storage.(StorageResource.ID); FileEntry.Path := path_Join [parent; name];
          FileEntry.Name := name; FileEntry.Type_ := entry_type type; FileEntry.SizeBytes := size;
          FileEntry.ModifiedAt := float_seconds seconds * Second; FileEntry.Checksum := ""; FileEntry.ETag := "";
          FileEntry.MediaType := ""; FileEntry.Readable := true;
          FileEntry.Writable := negb storage.(StorageResource.ReadOnly);
          FileEntry.LinkTarget := match more with target :: _ => target | [] => "" end |}
  | _ => Err (errorf "invalid SSH storage listing" [])
  end.
Definition parseEntries storage (parent output : string) : result (list FileEntry) :=
  Sql.scan_rows (parse_entry storage parent)
    (List.filter (λ line, negb (bool_decide (line = ""))) (split_byte LF (trim_space output))).

(** ** Operations *)

(** The part of a listing a request asks for. *)
Definition page_of (items : list FileEntry) (start limit : Z) : list FileEntry * string :=
  let len := Z.of_nat (length items) in
  let limit := if (limit <=? 0) || (500 <? limit) then 100 else limit in
  let start := if len <? start then len else start in
  let finish := if len <? start + limit then len else start + limit in
  (take (Z.to_nat (finish - start)) (drop (Z.to_nat start) items), if finish <? len then itoa finish else "").
Definition sort_entries (items : list FileEntry) : list FileEntry :=
  Sql.sort_rows (λ a b, Sql.str_le a.(FileEntry.Name) b.(FileEntry.Name)) items.
(** [Driver.Browse]: the cursor is checked before the listing, and its sign after. *)
Definition Browse storage (request : BrowseRequest) : effr W BrowsePage :=
  let cursor := request.(BrowseRequest.Cursor) in
  if negb (bool_decide (cursor = "")) && bool_decide (parse_int cursor = None)
  then eret (Err (errorf "invalid browse cursor" []))
  else
    let? (root, relative) := eret (browseRoot storage request.(BrowseRequest.Path)) in
    let? output := run storage listScript root relative in
    let? items := eret (parseEntries storage relative output) in
    let items := sort_entries items in
    let start := default 0 (parse_int cursor) in
    if start <? 0 then eret (Err (errorf "invalid browse cursor" []))
    else
      let '(entries, next) := page_of items start request.(BrowseRequest.Limit) in
      eret (Ok (BrowsePage.mk storage.(StorageResource.ID) relative entries next)).
(** [Driver.BrowseStat] *)
Definition BrowseStat storage (value : string) : effr W FileEntry :=
  let? (root, relative) := eret (browseRoot storage value) in
  let? output := run storage statScript root relative in
  eret (entries ← parseEntries storage (path_Dir relative) output;
        match entries with
        | [entry] => Ok (entry <| FileEntry.Path := relative |> <| FileEntry.Name := path_Base relative |>)
        | _ => Err (errorf "storage entry not found" [])
        end).
(** [Driver.Open] *)
Definition Open storage (value : string) : effr W (Reader * FileEntry) :=
  let? entry := BrowseStat storage value in
  if negb (bool_decide (entry.(FileEntry.Type_) = FileEntryFile)) then eret (Err (errorf "only files can be downloaded" []))
  else
    let '(root, relative) := match browseRoot storage value with Ok p => p | Err _ => ("", "") end in
    let? content := run storage catScript root relative in
    eret (Ok (mk_reader content None, entry)).
(** [Driver.Remove] *)
Definition Remove storage (value : string) : effr W unit :=
  if storage.(StorageResource.ReadOnly) then eret (Err (errorf "storage is read-only" []))
  else
    let? (root, relative) := eret (browseRoot storage value) in
    let? _ := run storage removeScript root relative in
    eret (Ok tt).
(** [Driver.Write]; the flag is whether the source was read to its end. *)
Definition Write storage (value : string) (source : Reader) (_ : Z) : eff W (result unit * bool) :=
  if storage.(StorageResource.ReadOnly) then eret (Err (errorf "storage is read-only" []), false)
  else
    match browseRoot storage value with
    | Err e => eret (Err e, false)
    | Ok (root, relative) =>
      match source.(read_error) with
      | Some e => eret (Err e, false)
      | None =>
        let! r := runInput storage writeScript source.(bytes) root relative in
        eret (match r with Ok _ => Ok tt | Err e => Err e end, true)
      end
    end.
(** [New] and the interface [ports.StorageBrowser]. *)
Definition browser : StorageBrowser W := {|
  Storage.Browse := Browse; Storage.BrowseStat := BrowseStat; Storage.Open_ := Open; Storage.Remove := Remove;
  Storage.Write := Write |}.
End driver.

(** ** What reaches the login node *)

(** A call of the local executor, and the words the shell of the login node reads: those of the
    last argument of ssh, or the command itself when the connection is local. *)
Definition call : Type := string * list string * string.
Definition delivered (c : call) : option (list string) :=
  let '(name, args, _) := c in
  if bool_decide (name = "ssh") then
    match last args with
    | Some command => fst <$> words Unquoted None [] (command +:+ newline)
    | None => None
    end
  else Some (name :: args).

(** The call runs the script with the two values as its parameters. *)
Definition reaches (c : call) (script root relative : string) : Prop :=
  ∃ encoded first second,
    delivered c = Some ["sh"; "-c"; "printf %s " +:+ encoded +:+ " | base64 -d | sh"] ∧
    str_forall plain_byte encoded = true ∧
    (∃ text, Base64.decode encoded = Some text ∧
       words Unquoted None [] text = Some (["set"; "--"; first; second], newline +:+ script)) ∧
    Base64.decode first = Some root ∧ Base64.decode second = Some relative.

Lemma encode_free s : free_of "'"%char (Base64.encode s).
Proof.
  unfold free_of. eapply str_forall_impl, Base64.encode_digits. apply Base64.all_digit_bytes. vm_compute. reflexivity.
Qed.
Lemma words_assignment root relative script :
  words Unquoted None [] (program script root relative) =
    Some (["set"; "--"; Base64.encode root; Base64.encode relative], newline +:+ script).
Proof.
  pose proof (words_arguments [Base64.encode root; Base64.encode relative] "--" ["set"] (newline +:+ script)) as Hw.
  cbn [quoted_arguments] in Hw. unfold Shell.shellQuote in Hw.
  rewrite !replace_byte_free in Hw by apply encode_free.
  refine (eq_trans _ Hw). unfold program. rewrite !str_app_assoc. reflexivity.
Qed.
Lemma free_of_app c s t : free_of c s → free_of c t → free_of c (s +:+ t).
Proof. unfold free_of. rewrite str_forall_app. by intros -> ->. Qed.
Lemma arguments_free script root relative : Forall (free_of "'"%char) ("sh" :: sh_arguments script root relative).
Proof.
  repeat constructor. apply free_of_app; [done|]. apply free_of_app; [apply encode_free|done].
Qed.
Lemma reaches_words c script root relative :
  delivered c = Some ("sh" :: sh_arguments script root relative) → reaches c script root relative.
Proof.
  intros Hd. exists (Base64.encode (program script root relative)), (Base64.encode root), (Base64.encode relative).
  split_and!; [exact Hd|apply Base64.encode_plain| |apply Base64.decode_encode..].
  eexists. split; [apply Base64.decode_encode|apply words_assignment].
Qed.
Lemma reaches_local script root relative input : reaches ("sh", sh_arguments script root relative, input) script root relative.
Proof. by apply reaches_words. Qed.
Lemma reaches_ssh args target script root relative input :
  reaches ("ssh", args ++ [target; SSHCommandExecutor.remote_command "sh" (sh_arguments script root relative)], input) script root relative.
Proof.
  apply reaches_words. unfold delivered. rewrite bool_decide_true, last_app by done. cbn [last].
  pose proof (Connectors.remote_words "sh" (sh_arguments script root relative) [] "" (arguments_free _ _ _)) as Hw.
  rewrite str_app_nil_r in Hw. by rewrite Hw.
Qed.

(** A path that [browseRoot] accepts is a list of names below the root. *)
Lemma browseRoot_ok storage value root relative :
  browseRoot storage value = Ok (root, relative) →
  root = path_Clean (trim_space storage.(StorageResource.Endpoint)) ∧
  (storage.(StorageResource.BrowseRoots) = [] ∨
   root ∈ map (λ r, path_Clean r.(StorageBrowseRoot.Path)) storage.(StorageResource.BrowseRoots)) ∧
  ∃ names, relative = join_byte slash names ∧ Forall normal names.
Proof.
  unfold browseRoot. case_bool_decide; [done|]. destruct (negb _) eqn:Ea; [done|].
  destruct (_ || rooted _) eqn:Er; [done|]. intros [= <- <-]. split; [done|]. split.
  - apply negb_false_iff, orb_true_iff in Ea as [?%bool_decide_eq_true|He]; [by left|right].
    apply existsb_exists in He as (r & Hr & Ep%bool_decide_eq_true). rewrite <- Ep.
    apply (list_elem_of_fmap_2 (λ r, path_Clean r.(StorageBrowseRoot.Path))). by apply list_elem_of_In.
  - apply orb_false_iff in Er as [[Hd Hp]%orb_false_iff Hr]. apply bool_decide_eq_false in Hd.
    unfold relative_of in *. set (v := trim_prefix "/" (trim_space value)) in *.
    case_bool_decide as E; [by exists []|]. destruct (rooted v) eqn:Ev.
    + destruct (Clean_rooted _ Ev) as (l & Hl & _). by rewrite Hl in Hr.
    + destruct (Clean_relative _ Ev) as [?|[(ns & Hn & _ & Hall)|[?|?]]]; [done|by exists ns|done|congruence].
Qed.

(** ** Confinement *)
Inductive operation :=
| OBrowse (request : BrowseRequest)
| OStat (value : string)
| OOpen (value : string)
| ORemove (value : string)
| OWrite (value : string) (source : Reader).
Definition scripts_of (o : operation) : list string :=
  match o with
  | OBrowse _ => [listScript]
  | OStat _ => [statScript]
  | OOpen _ => [statScript; catScript]
  | ORemove _ => [removeScript]
  | OWrite _ _ => [writeScript]
  end.
Definition changes (o : operation) : bool := match o with ORemove _ | OWrite _ _ => true | _ => false end.

Section confinement.
Context {W0 : Type}.
Abbreviation W := (Recorded W0 call).
Context `{OS W, ConnectionStore W, Numbers}.
(** The executor of this machine, with its calls on record; making a directory and reading a
    connection are not calls of it. *)
Context (machine : CommandExecutor W0).
Hypothesis mkdir_quiet : ∀ p, appends (λ _ : call, False) (MkdirAll p : effr W unit).
Hypothesis find_quiet : ∀ find id, FindConnection (W := W) = Some find → appends (λ _ : call, False) (find id).

Definition executor : CommandExecutor W := λ name args input, logged (machine name args input) (λ _, (name, args, input)).
Definition perform (storage : StorageResource) (o : operation) : eff W unit :=
  match o with
  | OBrowse request => let! _ := Browse executor storage request in eret tt
  | OStat value => let! _ := BrowseStat executor storage value in eret tt
  | OOpen value => let! _ := Open executor storage value in eret tt
  | ORemove value => let! _ := Remove executor storage value in eret tt
  | OWrite value source => let! _ := Write executor storage value source 0 in eret tt
  end.

(** A call that runs a script of the operation on a path below the root. *)
Definition confined (storage : StorageResource) (scripts : list string) (c : call) : Prop :=
  ∃ script root names,
    script ∈ scripts ∧ root = path_Clean (trim_space storage.(StorageResource.Endpoint)) ∧
    (storage.(StorageResource.BrowseRoots) = [] ∨
     root ∈ map (λ r, path_Clean r.(StorageBrowseRoot.Path)) storage.(StorageResource.BrowseRoots)) ∧
    Forall normal names ∧ reaches c script root (join_byte slash names).

Lemma connection_quiet (P : call → Prop) storage : appends P (connectionExecutor executor storage).
Proof.
  unfold connectionExecutor. destruct FindConnection as [find|] eqn:Ef; [|apply appends_ret].
  set (id := if bool_decide (metadataString _ _ = "") then _ else _). case_bool_decide; [apply appends_ret|].
  apply appends_bindr; [eapply appends_weaken, find_quiet; done|].
  intros [connection|]; [|apply appends_ret]. case_bool_decide; [apply appends_ret|].
  destruct (negb _ && negb _); apply appends_ret.
Qed.
(** Whatever executor a connection gives, it hands the machine one call. *)
Lemma connection_executor storage w exec w' script root relative input (P : call → Prop) :
  connectionExecutor executor storage w = (Ok exec, w') → (∀ c, reaches c script root relative → P c) →
  appends P (exec "sh" (sh_arguments script root relative) input).
Proof.
  unfold connectionExecutor. destruct FindConnection as [find|]; [|done].
  set (id := if bool_decide (metadataString _ _ = "") then _ else _). case_bool_decide; [done|].
  intros (connection & w1 & _ & E)%ebindr_ok HP. destruct connection as [connection|]; [|done].
  case_bool_decide as Hl; [injection E as <- _; apply appends_logged; intros _; apply HP, reaches_local|].
  destruct (negb _ && negb _); [done|]. injection E as <- _. unfold SSHCommandExecutor.Run. cbn [SSHCommandExecutor.Executor ssh_executor].
  case_bool_decide; [apply appends_ret|]. apply appends_bind.
  - case_bool_decide; [apply appends_ret|]. eapply appends_weaken, mkdir_quiet. done.
  - intros [_|e]; [|apply appends_ret]. apply appends_logged. intros _. apply HP, reaches_ssh.
Qed.
Lemma run_confined storage script input value root relative scripts :
  browseRoot storage value = Ok (root, relative) → script ∈ scripts →
  appends (confined storage scripts) (runInput executor storage script input root relative).
Proof.
  intros (Hroot & Hal & names & -> & Hn)%browseRoot_ok Hin w l r w' l'. unfold runInput, ebindr.
  destruct (connectionExecutor executor storage (w, l)) as [[exec|e] [w1 l1]] eqn:E.
  - destruct (connection_quiet (confined storage scripts) storage _ _ _ _ _ E) as (k1 & -> & Hk1).
    intros E2. apply (appends_bind (confined storage scripts)) in E2 as (k2 & -> & Hk2).
    + exists (k1 ++ k2). rewrite app_assoc. split; [done|by apply Forall_app].
    + eapply connection_executor; [exact E|]. intros c Hc. by exists script, root, names.
    + intros [output err]. apply appends_ret.
  - intros [= _ <- <-]. by eapply connection_quiet.
Qed.
Lemma rooted_appends (P : call → Prop) storage value {A} (k : string * string → effr W A) :
  (∀ root relative, browseRoot storage value = Ok (root, relative) → appends P (k (root, relative))) →
  appends P (ebindr (eret (browseRoot storage value)) k).
Proof.
  intros Hk. destruct (browseRoot storage value) as [[root relative]|e] eqn:E; [exact (Hk root relative eq_refl)|].
  exact (appends_ret P (Err e)).
Qed.
Lemma stat_confined storage value scripts : statScript ∈ scripts → appends (confined storage scripts) (BrowseStat executor storage value).
Proof.
  intros Hin. apply rooted_appends. intros root relative Eb.
  apply appends_bindr; [by eapply run_confined|]. intros output. apply appends_ret.
Qed.
Lemma open_confined storage value scripts :
  statScript ∈ scripts → catScript ∈ scripts → appends (confined storage scripts) (Open executor storage value).
Proof.
  intros Hs Hc. unfold Open. destruct (browseRoot storage value) as [[root relative]|e] eqn:Eb.
  - apply appends_bindr; [by apply stat_confined|]. intros entry. case_bool_decide; [|apply appends_ret].
    apply appends_bindr; [by eapply run_confined|]. intros content. apply appends_ret.
  - unfold BrowseStat. rewrite Eb. exact (appends_ret _ (Err e)).
Qed.
Lemma browse_confined storage request scripts : listScript ∈ scripts → appends (confined storage scripts) (Browse executor storage request).
Proof.
  intros Hin. unfold Browse. destruct (negb _ && _); [apply appends_ret|]. apply rooted_appends. intros root relative Eb.
  apply appends_bindr; [by eapply run_confined|]. intros output. apply appends_bindr; [apply appends_ret|].
  intros items. destruct (_ <? 0); [apply appends_ret|]. destruct (page_of _ _ _). apply appends_ret.
Qed.
Lemma remote_remove_confined storage value scripts : removeScript ∈ scripts → appends (confined storage scripts) (Remove executor storage value).
Proof.
  intros Hin. unfold Remove. destruct (StorageResource.ReadOnly storage); [apply appends_ret|]. apply rooted_appends.
  intros root relative Eb. apply appends_bindr; [by eapply run_confined|]. intros _. apply appends_ret.
Qed.
Lemma remote_write_confined storage value source n scripts :
  writeScript ∈ scripts → appends (confined storage scripts) (Write executor storage value source n).
Proof.
  intros Hin. unfold Write. destruct (StorageResource.ReadOnly storage); [apply appends_ret|].
  destruct (browseRoot storage value) as [[root relative]|e] eqn:Eb; [|apply appends_ret].
  destruct (read_error source); [apply appends_ret|]. apply appends_bind; [by eapply run_confined|]. intros r. apply appends_ret.
Qed.

(** C38: what an SSH storage does to the login node is confined. In every operation of the driver,
    each command that leaves this machine is read by the shell of the login node as exactly
    [sh -c "printf %s P | base64 -d | sh"] with a word [P] of harmless bytes that decodes to the
    program, whose first command sets the two parameters to texts that decode to the root and to
    the relative path: nothing in a root or a path is interpreted by a shell. The script is one of
    those of the operation, the root is the configured one and is among the allowed roots, and the
    relative path is a list of names, none empty, ".", ".." or with a slash. A storage that is
    read-only is sent nothing by an operation that changes it. *)
Theorem remote_operations_confined storage o :
  appends (λ c, confined storage (scripts_of o) c ∧ (changes o = true → storage.(StorageResource.ReadOnly) = false))
    (perform storage o).
Proof.
  destruct (changes o && storage.(StorageResource.ReadOnly)) eqn:Er.
  { destruct o; try done; cbn in Er; cbn [perform]; unfold Remove, Write; rewrite Er; exact (appends_ret _ tt). }
  apply (appends_weaken (confined storage (scripts_of o))).
  { intros c Hc. split; [done|]. intros Ho. by rewrite Ho in Er. }
  destruct o; cbn [perform scripts_of]; (apply appends_bind; [|intros; apply appends_ret]).
  - apply browse_confined. set_solver.
  - apply stat_confined. set_solver.
  - apply open_confined; set_solver.
  - apply remote_remove_confined. set_solver.
  - apply remote_write_confined. set_solver.
Qed.
End confinement.

(** ** Pages *)

(** A page holds what follows its cursor, and the next cursor is where it ends. *)
Lemma page_exact items start limit :
  0 ≤ start ≤ Z.of_nat (length items) → 0 < limit ≤ 500 →
  page_of items start limit =
    (take (Z.to_nat limit) (drop (Z.to_nat start) items),
     if start + limit <? Z.of_nat (length items) then itoa (start + limit) else "").
Proof.
  intros Hs Hl. unfold page_of. rewrite (proj2 (Z.leb_gt limit 0)), (proj2 (Z.ltb_ge 500 limit)) by lia. cbn [orb].
  rewrite (proj2 (Z.ltb_ge _ start)) by lia. destruct (_ <? start + limit) eqn:E.
  - apply Z.ltb_lt in E. rewrite Z.ltb_irrefl, (proj2 (Z.ltb_ge (start + limit) (Z.of_nat (length items)))) by lia. f_equal.
    rewrite !take_ge; [done|..]; rewrite length_drop; lia.
  - apply Z.ltb_ge in E. replace (start + limit - start) with limit by lia. done.
Qed.
(** Following the cursors from the first page lists every entry once, in order. *)
Fixpoint follow (fuel : nat) (items : list FileEntry) (start limit : Z) : option (list FileEntry) :=
  match fuel with
  | O => None
  | S fuel =>
    let '(entries, next) := page_of items start limit in
    if bool_decide (next = "") then Some entries
    else rest ← follow fuel items (default 0 (parse_int next)) limit; Some (entries ++ rest)
  end.
Lemma pages_complete items limit : 0 < limit ≤ 500 → Z.of_nat (length items) < 2 ^ 62 →
  follow (S (length items)) items 0 limit = Some items.
Proof.
  intros Hl Hlen.
  assert (∀ fuel start, 0 ≤ start ≤ Z.of_nat (length items) → Z.of_nat (length items) - start < Z.of_nat fuel →
    follow fuel items start limit = Some (drop (Z.to_nat start) items)) as H; [|rewrite H by lia; done].
  intros fuel. induction fuel as [|fuel IH]; intros start Hs Hf; [lia|]. cbn [follow]. rewrite page_exact by done.
  destruct (start + limit <? Z.of_nat (length items)) eqn:E; [apply Z.ltb_lt in E|apply Z.ltb_ge in E].
  - rewrite bool_decide_false.
    + rewrite Slurm.parse_int_itoa by lia. change (default 0 (Some ?x)) with x. rewrite IH by lia. cbn [mbind option_bind]. f_equal.
      replace (Z.to_nat (start + limit)) with (Z.to_nat start + Z.to_nat limit)%nat by lia.
      rewrite <- drop_drop. apply take_drop.
    + pose proof (Slurm.parse_int_itoa (start + limit) ltac:(lia)) as Hp. by intros Hn; rewrite Hn in Hp.
  - rewrite bool_decide_true by done. rewrite take_ge; [done|]. rewrite length_drop. lia.
Qed.

Module Example.
#[local] Instance disk : OS (Recorded unit call) := {|
  Getwd := Ok "/"; EvalSymlinks _ := eret (Err "off"); Lstat _ := eret (Err "off"); IsNotExist _ := false;
  ReadDir _ := eret (Err "off"); Readlink _ := eret (Err "off"); OpenFile _ := eret (Err "off");
  MkdirAll _ := eret (Ok tt); Create _ := eret (Err "off"); WriteBytes _ _ := eret (Err "off");
  Close _ := eret (Err "off"); Rename _ _ := eret (Err "off"); RemoveFile _ := eret (Err "off") |}.
Definition login : EnvironmentConnection := (zero : EnvironmentConnection) <| EnvironmentConnection.Type_ := ConnectionSSH |>
  <| EnvironmentConnection.Endpoint := "hpc" |> <| EnvironmentConnection.Username := "alice" |>.
#[local] Instance connections : ConnectionStore (Recorded unit call) := Some (λ _, eret (Ok (Some login))).
#[local] Instance numbers : Numbers := {| float_seconds := Atoi_value; truncate _ := 0 |}.
Definition node : CommandExecutor unit := λ _ _ _, eret ("", None).
Definition storage : StorageResource := (zero : StorageResource) <| StorageResource.ID := "st" |>
  <| StorageResource.Endpoint := "/scratch/" |>
  <| StorageResource.Metadata := {["connectionId" := AnyString "c"]} |>.

(** A path with a quote, a substitution and a way out. *)
Definition hostile : string := "/a/../it's $(reboot)".
Definition sent : list call := (perform node storage (ORemove hostile) (tt, [])).2.2.
Lemma remote_operations_confined_witness :
  length sent = 1%nat ∧ browseRoot storage hostile = Ok ("/scratch", "it's $(reboot)") ∧
  Forall (λ c, confined storage [removeScript] c) sent.
Proof.
  split; [vm_compute; reflexivity|]. split; [vm_compute; reflexivity|].
  assert (∀ p, appends (λ _ : call, False) (MkdirAll p : effr (Recorded unit call) unit)) as Hmk
    by (intros p; exact (appends_ret _ (Ok tt))).
  assert (∀ find id, FindConnection (W := Recorded unit call) = Some find → appends (λ _ : call, False) (find id)) as Hfind
    by (intros find id E; injection E as <-; exact (appends_ret _ (Ok (Some login)))).
  destruct (remote_operations_confined node Hmk Hfind storage (ORemove hostile) tt [] tt (perform node storage (ORemove hostile) (tt, [])).2.1
    sent) as (k & Hk & Hall).
  - unfold sent. by destruct (perform node storage (ORemove hostile) (tt, [])) as [[] [[] ?]].
  - rewrite Hk. eapply Forall_impl; [exact Hall|]. by intros c [? _].
Defined.

(** A listing is cut at tabs and newlines and trimmed as a whole: a name with a tab makes the
    listing of its directory fail, and the blanks at the start of the first name are lost. *)
Definition listing (lines : list string) : string := Slurm.lines_text lines.
Definition tabbed (fields : list string) : string := join_byte TAB fields.
Lemma listing_read :
  map (λ e, (e.(FileEntry.Path), e.(FileEntry.Type_), e.(FileEntry.SizeBytes), e.(FileEntry.LinkTarget))) <$>
    parseEntries storage "d" (listing [tabbed ["b"; "l"; "3"; "17"; "a"]; tabbed ["a"; "f"; "12"; "17"; ""]]) =
  Ok [("d/b", FileEntrySymlink, 3, "a"); ("d/a", FileEntryFile, 12, "")].
Proof. vm_compute. reflexivity. Qed.
Lemma tab_breaks_listing :
  is_ok (parseEntries storage "d" (listing [tabbed ["ok"; "f"; "1"; "17"; ""]; tabbed ["a" +:+ String TAB "b"; "f"; "12"; "17"; ""]])) = false.
Proof. vm_compute. reflexivity. Qed.
Lemma first_name_trimmed :
  map FileEntry.Name <$> parseEntries storage "d" (listing [tabbed [" a"; "f"; "1"; "17"; ""]]) = Ok ["a"].
Proof. vm_compute. reflexivity. Qed.
End Example.
End SSHFilesystem.
