(* ===== verification/ObjectStorage.v ===== *)
(** * Storage behind an S3 endpoint (src/internal/provider/storage/s3/driver.go)

    Every operation is one or two HTTP requests on the URL of an object below the endpoint. The
    client, the resolver of credentials and the decoder of XML are interfaces. *)

From Stdlib Require Import Ascii.
From S2P Require Import Prelude GoStrings GoFloat GoPath Domain Ports Shell Storage Filesystem.

(** [http.Request] with the credential that was put on it, and [http.Response]. *)
Module Request.
Record Request := mk { Method : string; URL : string; Body : option Reader; ContentLength : Z; Credential : option string }.
#[global] Instance eta : Eta Request := λ r, mk r.(Method) r.(URL) r.(Body) r.(ContentLength) r.(Credential).
End Request.
Abbreviation Request := Request.Request.
Module S3Response.
Record S3Response := mk { StatusCode : Z; Status : string; ContentLength : string; ETag : string; Body : Reader }.
End S3Response.
Abbreviation S3Response := S3Response.S3Response.

(** [url.Parse] with the scheme and the text of the result; [http.NewRequestWithContext], which
    refuses a URL it cannot parse; [Client.Do]; [CredentialResolver], which may be nil and marks the
    request with the credential. *)
Class ObjectHTTP (W : Type) := {
  parse_url : string → result (string * string);
  request_url : string → result unit;
  client_Do : Request → effr W S3Response;
  Authorize : option (Request → string → effr W unit);
  copy_to : string → Reader → effr W unit
}.
(** The answer of ListObjectsV2 and its decoder. *)
Module listing.
Record object := mk_object { Key : string; Size : Z; ETag : string }.
Record listing := mk { Contents : list object; Prefixes : list string; Next : string }.
End listing.
Class ListXML := decode_listing : Reader → result listing.listing.

Module S3.
Definition quote_byte : ascii → bool := is_byte "034"%char.
Definition slash_byte : ascii → bool := is_byte slash.

(** ** Names and URLs *)

(** [escapedSegments] *)
Fixpoint escape_parts (parts : list string) : result (list string) :=
  match parts with
  | [] => Ok []
  | part :: rest =>
    if bool_decide (part = "..") then Err (errorf "S3 object key cannot escape its root" [])
    else
      segments ← escape_parts rest;
      Ok (if bool_decide (part = "") || bool_decide (part = ".") then segments else PathEscape part :: segments)
  end.
Definition escapedSegments (key : string) : result (list string) :=
  segments ← escape_parts (split_byte slash (trim slash_byte key));
  match segments with [] => Err (errorf "S3 object key is required" []) | _ => Ok segments end.
(** [objectURL] *)
Definition object_text (endpoint escaped : string) : string :=
  if contains endpoint "{key}" then replace_all (S (str_length endpoint)) "{key}" escaped endpoint
  else trim_right slash_byte endpoint +:+ "/" +:+ escaped.
Definition objectURL `{ObjectHTTP W} (endpoint key : string) : result string :=
  if bool_decide (trim_space endpoint = "") then Err (errorf "S3 endpoint is required" [])
  else
    segments ← escapedSegments key;
    match parse_url (object_text endpoint (join_byte slash segments)) with
    | Ok (scheme, text) =>
      if bool_decide (scheme = "http") || bool_decide (scheme = "https") then Ok text
      else Err (errorf "S3 endpoint must be HTTP(S)" [])
    | Err _ => Err (errorf "S3 endpoint must be HTTP(S)" [])
    end.
(** [objectPrefix] *)
Definition objectPrefix (value : string) : result string :=
  let clean := trim slash_byte (trim_space value) in
  if bool_decide (clean = "") then Ok ""
  else if contains clean ".." then Err (errorf "S3 prefix cannot escape its root" [])
  else Ok (clean +:+ "/").
Definition metadataString (metadata : metadata) (key : string) : string := meta_string metadata key.

Section driver.
Context `{ObjectHTTP W, ListXML}.
Implicit Types storage : StorageResource.

(** ** Requests *)

(** [Driver.authorize]: the request with the credential that was put on it. *)
Definition authorize (request : Request) (reference : string) : effr W Request :=
  if bool_decide (reference = "") then eret (Ok request)
  else match Authorize with
       | None => eret (Ok request)
       | Some resolve =>
         let! r := resolve request reference in
         eret (match r with
               | Ok _ => Ok (request <| Request.Credential := Some reference |>)
               | Err e => Err (errorf "resolve storage credential: %w" [e])
               end)
       end.
(** A new request, authorized. *)
Definition prepare (method url : string) (body : option Reader) (size : Z) (reference : string) : effr W Request :=
  let? _ := eret (request_url url) in
  authorize (Request.mk method url body (if 0 <? size then size else 0) None) reference.
Definition succeeded (response : S3Response) : bool :=
  (200 <=? response.(S3Response.StatusCode)) && (response.(S3Response.StatusCode) <? 300).
(** A request whose answer is a success, or the error with the text of its status. *)
Definition fetch (format : string) (request : Request) : effr W S3Response :=
  let? response := client_Do request in
  eret (if succeeded response then Ok response else Err (errorf format [response.(S3Response.Status)])).
(** [Driver.do] *)
Definition do_request (request : Request) (target : option string) : effr W unit :=
  let? response := fetch "S3 request returned %s" request in
  match target with Some t => copy_to t response.(S3Response.Body) | None => eret (Ok tt) end.

(** ** Browsing *)
Definition directory_entry storage (prefix p : string) : FileEntry :=
  (zero : FileEntry) <| FileEntry.StorageID := storage.(StorageResource.ID) |>
    <| FileEntry.Path := trim_suffix "/" p |> <| FileEntry.Name := trim_suffix "/" (trim_prefix prefix p) |>
    <| FileEntry.Type_ := FileEntryDirectory |> <| FileEntry.Readable := true |>.
Definition object_entry storage (key : string) (size : Z) (etag : string) : FileEntry :=
  (zero : FileEntry) <| FileEntry.StorageID := storage.(StorageResource.ID) |> <| FileEntry.Path := key |>
    <| FileEntry.Name := path_Base key |> <| FileEntry.Type_ := FileEntryFile |> <| FileEntry.SizeBytes := size |>
    <| FileEntry.ETag := trim quote_byte etag |> <| FileEntry.Readable := true |>.
Definition list_url (endpoint prefix cursor : string) : string :=
  trim_right slash_byte endpoint +:+ "?list-type=2&delimiter=/&prefix=" +:+ QueryEscape prefix +:+
  (if bool_decide (cursor = "") then "" else "&continuation-token=" +:+ QueryEscape cursor).
Definition entries_of storage (prefix : string) (l : listing.listing) : list FileEntry :=
  map (directory_entry storage prefix) l.(listing.Prefixes) ++
  map (λ o, object_entry storage o.(listing.Key) o.(listing.Size) o.(listing.ETag))
    (List.filter (λ o, negb (bool_decide (o.(listing.Key) = prefix))) l.(listing.Contents)).
(** [Driver.Browse] *)
Definition Browse storage (browse : BrowseRequest) : effr W BrowsePage :=
  let? prefix := eret (objectPrefix browse.(BrowseRequest.Path)) in
  let? request := prepare "GET" (list_url storage.(StorageResource.Endpoint) prefix browse.(BrowseRequest.Cursor)) None 0
    storage.(StorageResource.CredentialReference) in
  let? response := fetch "S3 list returned %s" request in
  let? result := eret (decode_listing response.(S3Response.Body)) in
  eret (Ok (BrowsePage.mk storage.(StorageResource.ID) (trim_suffix "/" prefix) (entries_of storage prefix result)
    result.(listing.Next))).
(** [Driver.StatEntry], [Driver.BrowseStat] *)
Definition StatEntry storage (key : string) : effr W FileEntry :=
  let? u := eret (objectURL storage.(StorageResource.Endpoint) key) in
  let? request := prepare "HEAD" u None 0 storage.(StorageResource.CredentialReference) in
  let? response := fetch "S3 stat returned %s" request in
  eret (Ok (object_entry storage key (Atoi_value response.(S3Response.ContentLength)) response.(S3Response.ETag))).
Definition BrowseStat storage (key : string) : effr W FileEntry := StatEntry storage key.
(** [Driver.Open] *)
Definition Open storage (key : string) : effr W (Reader * FileEntry) :=
  let? entry := StatEntry storage key in
  let? u := eret (objectURL storage.(StorageResource.Endpoint) key) in
  let? request := prepare "GET" u None 0 storage.(StorageResource.CredentialReference) in
  let? response := fetch "S3 get returned %s" request in
  eret (Ok (response.(S3Response.Body), entry)).
(** [Driver.Remove] *)
Definition Remove storage (key : string) : effr W unit :=
  if storage.(StorageResource.ReadOnly) then eret (Err (errorf "storage is read-only" []))
  else
    let? u := eret (objectURL storage.(StorageResource.Endpoint) key) in
    let? request := prepare "DELETE" u None 0 storage.(StorageResource.CredentialReference) in
    do_request request None.

(** ** Objects *)

(** [Driver.Put], of the fields of [ports.PutObjectRequest]. *)
Definition Put storage (key : string) (source : Reader) (size : Z) : effr W DataLocation :=
  let? url := eret (objectURL storage.(StorageResource.Endpoint) key) in
  let? request := prepare "PUT" url (Some source) size storage.(StorageResource.CredentialReference) in
  let? _ := do_request request None in
  eret (Ok ((zero : DataLocation) <| DataLocation.URI := url |> <| DataLocation.Status := DataLocationAvailable |>
    <| DataLocation.StorageResourceID := storage.(StorageResource.ID) |>
    <| DataLocation.Metadata := {["credentialReference" := AnyString storage.(StorageResource.CredentialReference)]} |>)).
(** [Driver.Write] *)
Definition Write storage (key : string) (source : Reader) (size : Z) : effr W unit :=
  let? _ := Put storage key source size in eret (Ok tt).
Definition reference_of (location : DataLocation) : string :=
  metadataString location.(DataLocation.Metadata) "credentialReference".
(** [Driver.Get], [Driver.Stat], [Driver.Delete] *)
Definition Get (location : DataLocation) (target : string) : effr W unit :=
  let? request := prepare "GET" location.(DataLocation.URI) None 0 (reference_of location) in
  do_request request (Some target).
Definition Stat (location : DataLocation) : effr W (Z * string) :=
  let? request := prepare "HEAD" location.(DataLocation.URI) None 0 (reference_of location) in
  let? response := fetch "S3 stat returned %s" request in
  eret (Ok (Atoi_value response.(S3Response.ContentLength), trim quote_byte response.(S3Response.ETag))).
Definition Delete (location : DataLocation) : effr W unit :=
  let? request := prepare "DELETE" location.(DataLocation.URI) None 0 (reference_of location) in
  do_request request None.
End driver.

(** ** Escaped names are read back *)

(** Percent-decoding of a path. *)
Definition hex_value (c : ascii) : Z :=
  let b := byte_of c in if b <=? 57 then b - 48 else if b <=? 90 then b - 55 else b - 87.
Fixpoint unescape (s : string) : string :=
  match s with
  | "" => ""
  | String c t =>
    if is_byte "%" c then
      match t with
      | String a (String b t) => String (ascii_of_N (Z.to_N (hex_value a * 16 + hex_value b))) (unescape t)
      | _ => s
      end
    else String c (unescape t)
  end.
Lemma hex_digits_back : Forall (λ n, hex_value (upper_hex n) = n) (seqZ 0 16).
Proof. apply (bool_decide_unpack _). vm_compute. exact I. Qed.
Lemma hex_back n : 0 ≤ n < 16 → hex_value (upper_hex n) = n.
Proof. intros Hn. pose proof hex_digits_back as H. rewrite Forall_forall in H. apply H, elem_of_seqZ. lia. Qed.
Lemma byte_of_bounds c : 0 ≤ byte_of c < 256.
Proof. unfold byte_of. pose proof (N_ascii_bounded c). lia. Qed.
Lemma unescape_escape keep s : keep "%"%char = false → unescape (escape keep false s) = s.
Proof.
  intros Hk. induction s as [|c s IH]; [done|]. cbn [escape andb]. destruct (keep c) eqn:Ec.
  - cbn [unescape]. rewrite IH. unfold is_byte. rewrite bool_decide_false; [done|]. intros <-. congruence.
  - cbn [unescape]. change (is_byte "%" "%") with true. cbv iota. rewrite IH. f_equal.
    pose proof (byte_of_bounds c) as Hb. rewrite !hex_back by (Z.div_mod_to_equations; lia).
    replace (byte_of c / 16 * 16 + byte_of c mod 16) with (byte_of c) by (Z.div_mod_to_equations; lia).
    unfold byte_of. rewrite N2Z.id. apply ascii_N_embedding.
Qed.
Lemma unescape_path s : unescape (PathEscape s) = s.
Proof. by apply unescape_escape. Qed.
(** What is escaped has no byte that ends a path or an element of it. *)
Definition path_byte (c : ascii) : bool := negb (bool_decide (c ∈ [slash; "?"; "#"; " "; ";"; ","]%char)).
Lemma path_bytes_ok (P : ascii → bool) :
  forallb (λ n, P (ascii_of_N (N.of_nat n))) (seq 0 256) = true → ∀ c, P c = true.
Proof.
  intros H c. rewrite forallb_forall in H. pose proof (N_ascii_bounded c) as Hb.
  specialize (H (N.to_nat (N_of_ascii c))). rewrite N2Nat.id, ascii_N_embedding in H. apply H, in_seq. lia.
Qed.
Lemma escape_bytes keep s : (∀ c, implb (keep c) (path_byte c) = true) → str_forall path_byte (escape keep false s) = true.
Proof.
  intros Hk. induction s as [|c s IH]; [done|]. cbn [escape andb]. specialize (Hk c). destruct (keep c).
  - cbn in Hk |- *. by rewrite Hk, IH.
  - cbn [str_forall]. rewrite IH. pose proof (byte_of_bounds c) as Hb.
    assert (∀ n, 0 ≤ n < 16 → path_byte (upper_hex n) = true) as Hh.
    { assert (Forall (λ n, path_byte (upper_hex n) = true) (seqZ 0 16)) as H by (apply (bool_decide_unpack _); vm_compute; exact I).
      intros n Hn. rewrite Forall_forall in H. apply H, elem_of_seqZ. lia. }
    by rewrite !Hh by (Z.div_mod_to_equations; lia).
Qed.
Lemma PathEscape_bytes s : str_forall path_byte (PathEscape s) = true.
Proof. apply escape_bytes. apply path_bytes_ok. vm_compute. reflexivity. Qed.
Lemma PathEscape_free s : free_of slash (PathEscape s).
Proof.
  unfold free_of. eapply str_forall_impl, PathEscape_bytes. intros c. unfold path_byte.
  rewrite !negb_true_iff, !bool_decide_eq_false. set_solver.
Qed.

(** The elements of a key. *)
Definition key_names (key : string) : list string :=
  List.filter (λ e, negb (bool_decide (e = "") || bool_decide (e = "."))) (split_byte slash (trim slash_byte key)).
Lemma escape_parts_ok parts segments :
  escape_parts parts = Ok segments →
  segments = map PathEscape (List.filter (λ e, negb (bool_decide (e = "") || bool_decide (e = "."))) parts) ∧ ".." ∉ parts.
Proof.
  revert segments. induction parts as [|e parts IH]; intros segments; cbn [escape_parts].
  { intros [= <-]. split; [done|]. apply not_elem_of_nil. }
  case_bool_decide as Ed; [done|]. destruct (escape_parts parts) as [l|]; [|done]. intros [= <-].
  destruct (IH l eq_refl) as [-> Hn]. split; [|set_solver]. cbn [List.filter].
  destruct (bool_decide (e = "") || bool_decide (e = ".")); done.
Qed.
Lemma segments_ok key segments :
  escapedSegments key = Ok segments →
  segments = map PathEscape (key_names key) ∧ key_names key ≠ [] ∧ Forall normal (key_names key).
Proof.
  unfold escapedSegments. destruct (escape_parts _) as [l|] eqn:E; [|done]. cbn.
  apply escape_parts_ok in E as [-> Hdd]. fold (key_names key).
  destruct (key_names key) as [|x names] eqn:Ek; [done|]. intros [= <-]. split_and!; [done|done|].
  rewrite <- Ek. apply Forall_forall. intros e [Hin He]%list_elem_of_In%filter_In.
  apply negb_true_iff, orb_false_iff in He as [H1%bool_decide_eq_false H2%bool_decide_eq_false].
  apply list_elem_of_In in Hin. split_and!; [done|done|by intros ->|].
  pose proof (split_byte_free slash (trim slash_byte key)) as Hf. rewrite Forall_forall in Hf. by apply Hf.
Qed.
(** The names can be read back from the path. *)
Lemma names_back names : names ≠ [] → map unescape (split_byte slash (join_byte slash (map PathEscape names))) = names.
Proof.
  intros Hne. rewrite split_join_byte; [| by destruct names|].
  - rewrite map_map. rewrite (map_ext _ id); [by rewrite map_id|]. intros e. apply unescape_path.
  - apply Forall_forall. intros x (e & -> & _)%list_elem_of_fmap. apply PathEscape_free.
Qed.

(** ** The text of a URL by its parts *)
Fixpoint join_str (sep : string) (l : list string) : string :=
  match l with [] => "" | [x] => x | x :: l => x +:+ sep +:+ join_str sep l end.
Lemma join_str_head sep c p ps : join_str sep (String c p :: ps) = String c (join_str sep (p :: ps)).
Proof. by destruct ps. Qed.
Lemma join_str_prefix sep p ps : ∃ rest, join_str sep (p :: ps) = p +:+ rest.
Proof. destruct ps as [|q ps]; [exists ""; by rewrite str_app_nil_r|by eexists]. Qed.
(** [ReplaceAll] cuts at every [old] from the left and joins the pieces with [new]. *)
Lemma replace_pieces fuel old new s : old ≠ "" → (str_length s < fuel)%nat →
  ∃ pieces, s = join_str old pieces ∧ replace_all fuel old new s = join_str new pieces ∧ pieces ≠ [] ∧
    Forall (λ p, contains p old = false) pieces.
Proof.
  intros Ho. revert s. induction fuel as [|fuel IH]; intros s Hf; [lia|]. cbn [replace_all].
  assert (contains "" old = false) as Hempty by by destruct old.
  destruct (has_prefix old s) eqn:Ep.
  - apply has_prefix_spec in Ep as [t ->]. rewrite drop_str_app. rewrite str_length_app in Hf.
    assert (str_length old ≠ 0%nat) by by destruct old.
    destruct (IH t) as (pieces & -> & -> & Hne & Hp); [lia|]. exists ("" :: pieces).
    destruct pieces as [|p ps]; [done|]. split_and!; [done|done|done|by constructor].
  - destruct s as [|c s]; [exists [""]; split_and!; [done|done|done|by constructor]|]. cbn [str_length] in Hf.
    destruct (IH s) as (pieces & Es & -> & Hne & Hp); [lia|]. destruct pieces as [|p ps]; [done|].
    exists (String c p :: ps). rewrite !join_str_head, <- Es. split_and!; [done|done|done|].
    apply Forall_cons in Hp as [Hp Hps]. constructor; [|done]. cbn [contains]. rewrite Hp, orb_false_r.
    apply not_true_is_false. intros [u Hu]%has_prefix_spec.
    destruct (join_str_prefix old p ps) as [rest Hr]. rewrite Es, Hr in Ep.
    change (String c (p +:+ rest)) with (String c p +:+ rest) in Ep.
    by rewrite Hu, str_app_assoc, has_prefix_app in Ep.
Qed.

(** What follows the host of a URL: nothing, a path, a query or a fragment. *)
Definition opens (rest : string) : bool :=
  match rest with "" => true | String c _ => bool_decide (c ∈ [slash; "?"; "#"]%char) end.
Definition host_byte (c : ascii) : bool :=
  ascii_between "a" "z" c || ascii_between "A" "Z" c || ascii_between "0" "9" c ||
  bool_decide (c ∈ ["."; "-"; "_"; ":"]%char).
(** A URL on a host, with or without a port. *)
Definition on_host (scheme host url : string) : Prop :=
  (scheme = "http" ∨ scheme = "https") ∧ host ≠ "" ∧ str_forall host_byte host = true ∧
  ∃ rest, url = scheme +:+ "://" +:+ host +:+ rest ∧ opens rest = true.

Lemma trim_right_app p a b : trim_right p (a +:+ b) =
  match trim_right p b with "" => trim_right p a | t => a +:+ t end.
Proof.
  induction a as [|c a IH]; [change ("" +:+ b) with b; by destruct (trim_right p b)|]. cbn [trim_right].
  change (String c a +:+ b) with (String c (a +:+ b)). cbn [trim_right]. rewrite IH.
  destruct (trim_right p b) as [|x t]; [done|]. by destruct a.
Qed.
Lemma host_bytes_plain c : host_byte c = true → c ≠ slash ∧ c ≠ "{"%char.
Proof. intros Hc. split; intros ->; vm_compute in Hc; discriminate. Qed.
Lemma trim_right_host host : host ≠ "" → str_forall host_byte host = true → trim_right slash_byte host = host.
Proof.
  induction host as [|c host IH]; [done|]. cbn. intros _ [Hc Hh]%andb_true_iff.
  destruct (host_bytes_plain c Hc) as [Hs _]. destruct host as [|x host].
  - cbn. unfold slash_byte, is_byte. by rewrite bool_decide_false.
  - by rewrite IH.
Qed.
Lemma trim_right_on_host scheme host rest : host ≠ "" → str_forall host_byte host = true → opens rest = true →
  ∃ rest', trim_right slash_byte (scheme +:+ "://" +:+ host +:+ rest) = scheme +:+ "://" +:+ host +:+ rest' ∧
    opens rest' = true ∧ ∀ t, opens (rest' +:+ "/" +:+ t) = true ∧ opens (rest' +:+ "?" +:+ t) = true.
Proof.
  intros Hne Hh Hr. exists (trim_right slash_byte rest). rewrite <- !str_app_assoc, trim_right_app.
  destruct (trim_right_split slash_byte rest) as (t & Ht & _).
  destruct (trim_right slash_byte rest) as [|c u].
  - rewrite trim_right_app, trim_right_host by done. rewrite str_app_nil_r. split_and!; [|done|done].
    by destruct host.
  - rewrite Ht in Hr. split_and!; [done|done|]. intros v. by split.
Qed.
Lemma replace_all_skip fuel o old new a s : str_forall (λ c, negb (bool_decide (c = o))) a = true →
  (str_length a ≤ fuel)%nat →
  replace_all fuel (String o old) new (a +:+ s) = a +:+ replace_all (fuel - str_length a) (String o old) new s.
Proof.
  revert fuel. induction a as [|c a IH]; intros fuel Ha Hf; [by rewrite Nat.sub_0_r|].
  cbn in Ha. apply andb_true_iff in Ha as [Hc Ha]. apply negb_true_iff, bool_decide_eq_false in Hc.
  destruct fuel as [|fuel]; [cbn in Hf; lia|]. change (String c a +:+ s) with (String c (a +:+ s)).
  cbn [replace_all has_prefix]. rewrite bool_decide_false by congruence. cbn [andb str_length] in *.
  rewrite IH by (done || lia). done.
Qed.
Lemma object_text_on_host endpoint escaped scheme host : on_host scheme host endpoint →
  on_host scheme host (object_text endpoint escaped).
Proof.
  intros (Hs & Hne & Hh & rest & -> & Hr). split_and!; [done..|]. unfold object_text.
  destruct (contains _ "{key}").
  - set (a := scheme +:+ "://" +:+ host).
    assert (str_forall (λ c, negb (bool_decide (c = "{"%char))) a = true) as Ha.
    { subst a. rewrite !str_forall_app. destruct Hs as [-> | ->]; cbn [andb]; change (str_forall _ "://") with true;
        (apply andb_true_iff; split; [done|]); cbn [andb];
        (eapply str_forall_impl, Hh); intros c [_ Hc]%host_bytes_plain; by rewrite bool_decide_false. }
    replace (scheme +:+ "://" +:+ host +:+ rest) with (a +:+ rest) by (subst a; by rewrite !str_app_assoc).
    rewrite replace_all_skip by (done || (rewrite str_length_app; lia)).
    replace (S (str_length (a +:+ rest)) - str_length a)%nat with (S (str_length rest))
      by (rewrite str_length_app; lia).
    eexists. split; [subst a; by rewrite !str_app_assoc|]. destruct rest as [|c rest]; [done|].
    cbn [replace_all has_prefix]. rewrite bool_decide_false; [done|]. cbn in Hr.
    apply bool_decide_eq_true in Hr. intros <-. set_solver.
  - destruct (trim_right_on_host scheme host rest Hne Hh Hr) as (rest' & -> & _ & Ho).
    exists (rest' +:+ "/" +:+ escaped). rewrite !str_app_assoc. split; [done|]. apply Ho.
Qed.
(** The text that is asked for an object: the path put at every placeholder of the endpoint, or
    after it. *)
Definition filled (endpoint path text : string) : Prop :=
  (contains endpoint "{key}" = true ∧ ∃ pieces, endpoint = join_str "{key}" pieces ∧ text = join_str path pieces ∧
     pieces ≠ [] ∧ Forall (λ p, contains p "{key}" = false) pieces) ∨
  (contains endpoint "{key}" = false ∧ ∃ base slashes, endpoint = base +:+ slashes ∧
     str_forall slash_byte slashes = true ∧ text = base +:+ "/" +:+ path).
Lemma object_text_filled endpoint path : filled endpoint path (object_text endpoint path).
Proof.
  unfold filled, object_text. destruct (contains endpoint "{key}").
  - left. split; [done|]. destruct (replace_pieces (S (str_length endpoint)) "{key}" path endpoint)
      as (pieces & ? & ? & ? & ?); [done|lia|]. by exists pieces.
  - right. split; [done|]. destruct (trim_right_split slash_byte endpoint) as (t & Ht & Hf). by eexists _, t.
Qed.
Lemma trim_split p s : ∃ a b, s = a +:+ trim p s +:+ b ∧ str_forall p a = true ∧ str_forall p b = true.
Proof.
  unfold trim. destruct (trim_left_split p s) as (a & Ha & Hpa).
  destruct (trim_right_split p (trim_left p s)) as (b & Hb & Hpb). exists a, b. by rewrite <- Hb.
Qed.
(** The path of a listing without the blanks and slashes around it. *)
Lemma objectPrefix_ok value prefix : objectPrefix value = Ok prefix →
  ∃ a core b, value = a +:+ core +:+ b ∧
    str_forall (λ c, is_space c || slash_byte c) a = true ∧ str_forall (λ c, is_space c || slash_byte c) b = true ∧
    contains core ".." = false ∧ prefix = if bool_decide (core = "") then "" else core +:+ "/".
Proof.
  unfold objectPrefix. set (core := trim slash_byte (trim_space value)). intros E.
  destruct (trim_split is_space value) as (a & b & Hv & Ha & Hb).
  destruct (trim_split slash_byte (trim is_space value)) as (a' & b' & Hv' & Ha' & Hb').
  exists (a +:+ a'), core, (b' +:+ b). split.
  { rewrite Hv at 1. rewrite Hv' at 1. by rewrite !str_app_assoc. }
  rewrite !str_forall_app, !andb_true_iff. split_and!.
  - eapply str_forall_impl, Ha. by intros c ->.
  - eapply str_forall_impl, Ha'. intros c ->. apply orb_true_r.
  - eapply str_forall_impl, Hb'. intros c ->. apply orb_true_r.
  - eapply str_forall_impl, Hb. by intros c ->.
  - case_bool_decide as Hc; [by rewrite Hc|]. by destruct (contains core "..").
  - case_bool_decide; [by injection E as <-|]. destruct (contains core ".."); [done|]. by injection E as <-.
Qed.

(** ** Requests stay below the endpoint *)
Inductive operation :=
| OBrowse (browse : BrowseRequest)
| OStat (key : string)
| OOpen (key : string)
| ORemove (key : string)
| OWrite (key : string) (source : Reader) (size : Z).

Lemma path_free names : free_of "?" (join_byte slash (map PathEscape names)) ∧
  free_of "#" (join_byte slash (map PathEscape names)).
Proof.
  assert (∀ c, c = "?"%char ∨ c = "#"%char → free_of c (join_byte slash (map PathEscape names))) as Hf; [|by auto].
  intros c Hc. unfold free_of.
  assert (∀ s, str_forall (λ x, negb (bool_decide (x = c))) (PathEscape s) = true) as He.
  { intros s. eapply str_forall_impl, PathEscape_bytes. intros x. unfold path_byte.
    rewrite !negb_true_iff, !bool_decide_eq_false. set_solver. }
  induction names as [|x [|y names] IH]; [done|apply He|].
  change (join_byte slash (map PathEscape (x :: y :: names))) with
    (PathEscape x +:+ String slash "" +:+ join_byte slash (map PathEscape (y :: names))).
  rewrite !str_forall_app, He, IH. by destruct Hc as [-> | ->].
Qed.
Section confinement.
Context {W0 : Type} `{ObjectHTTP W0, ListXML}.
Abbreviation W := (Recorded W0 Request).
(** The client with its requests on record. *)
#[local] Instance recorded_http : ObjectHTTP W := {|
  parse_url := parse_url; request_url := request_url; client_Do r := logged (client_Do r) (λ _, r);
  Authorize := (λ resolve r reference, unlogged (resolve r reference)) <$> Authorize;
  copy_to t r := unlogged (copy_to t r) |}.
Definition perform (storage : StorageResource) (o : operation) : eff W unit :=
  match o with
  | OBrowse browse => let! _ := Browse storage browse in eret tt
  | OStat key => let! _ := BrowseStat storage key in eret tt
  | OOpen key => let! _ := Open storage key in eret tt
  | ORemove key => let! _ := Remove storage key in eret tt
  | OWrite key source size => let! _ := Write storage key source size in eret tt
  end.

(** The credential a request of a storage has to carry. *)
Definition credential_of (reference : string) : option string :=
  if bool_decide (reference = "") then None else if Authorize (W := W0) then Some reference else None.
(** A request on the object of a key: its path is the names of the key, each escaped, after the
    endpoint, and the names are read back from it. *)
Definition on_object (storage : StorageResource) (key : string) (methods : list string) (r : Request) : Prop :=
  ∃ names scheme,
    names = key_names key ∧ names ≠ [] ∧ Forall normal names ∧
    (let path := join_byte slash (map PathEscape names) in
     map unescape (split_byte slash path) = names ∧ free_of "?" path ∧ free_of "#" path ∧
     scheme ∈ ["http"; "https"] ∧
     ∃ text, filled storage.(StorageResource.Endpoint) path text ∧
       parse_url text = Ok (scheme, r.(Request.URL))) ∧
    r.(Request.Method) ∈ methods.
(** A request for a listing: the prefix asked for is the path that is browsed, without the
    blanks and slashes around it, and has no two dots. *)
Definition on_listing (storage : StorageResource) (browse : BrowseRequest) (r : Request) : Prop :=
  ∃ a core b base slashes,
    browse.(BrowseRequest.Path) = a +:+ core +:+ b ∧
    str_forall (λ c, is_space c || slash_byte c) a = true ∧ str_forall (λ c, is_space c || slash_byte c) b = true ∧
    contains core ".." = false ∧
    storage.(StorageResource.Endpoint) = base +:+ slashes ∧ str_forall slash_byte slashes = true ∧
    r.(Request.Method) = "GET" ∧
    r.(Request.URL) = base +:+ "?list-type=2&delimiter=/&prefix=" +:+
      QueryEscape (if bool_decide (core = "") then "" else core +:+ "/") +:+
      (if bool_decide (browse.(BrowseRequest.Cursor) = "") then ""
       else "&continuation-token=" +:+ QueryEscape browse.(BrowseRequest.Cursor)).
Definition allowed (storage : StorageResource) (o : operation) (r : Request) : Prop :=
  match o with
  | OBrowse browse => on_listing storage browse r
  | OStat key => on_object storage key ["HEAD"] r
  | OOpen key => on_object storage key ["HEAD"; "GET"] r
  | ORemove key => on_object storage key ["DELETE"] r ∧ storage.(StorageResource.ReadOnly) = false
  | OWrite key source _ => on_object storage key ["PUT"] r ∧ r.(Request.Body) = Some source
  end.
(** [url.Parse] and [URL.String] keep the host of such a URL. *)
Definition keeps_host : Prop := ∀ scheme host text scheme' url,
  on_host scheme host text → parse_url text = Ok (scheme', url) → on_host scheme host url.
(** The endpoint names a host: then the request goes to that host. *)
Definition same_host (storage : StorageResource) (r : Request) : Prop := ∀ scheme host,
  on_host scheme host storage.(StorageResource.Endpoint) → on_host scheme host r.(Request.URL).

Lemma objectURL_ok storage key u method body n c :
  objectURL storage.(StorageResource.Endpoint) key = Ok u → on_object storage key [method] (Request.mk method u body n c).
Proof.
  unfold objectURL. case_bool_decide; [done|]. destruct (escapedSegments key) as [l|] eqn:El; [|done]. cbn.
  apply segments_ok in El as (-> & Hne & Hn). destruct (parse_url _) as [[scheme text]|] eqn:Ep; [|done].
  destruct (_ || _) eqn:Es; [|done]. intros [= ->]. exists (key_names key), scheme.
  split_and!; [done|done|done| |set_solver]. destruct (path_free (key_names key)) as [Hq Hf].
  split_and!; [by apply names_back|done|done| |].
  - apply orb_true_iff in Es as [?%bool_decide_eq_true|?%bool_decide_eq_true]; set_solver.
  - eexists. split; [apply object_text_filled|done].
Qed.
Lemma objectURL_host storage key u scheme host : keeps_host →
  objectURL storage.(StorageResource.Endpoint) key = Ok u →
  on_host scheme host storage.(StorageResource.Endpoint) → on_host scheme host u.
Proof.
  intros Hk. unfold objectURL. case_bool_decide; [done|]. destruct (escapedSegments key) as [l|]; [|done]. cbn.
  destruct (parse_url _) as [[scheme' text]|] eqn:Ep; [|done]. destruct (_ || _); [|done]. intros [= ->] Hh.
  eapply Hk, Ep. by apply object_text_on_host.
Qed.
Lemma list_url_host endpoint prefix cursor scheme host : on_host scheme host endpoint →
  on_host scheme host (list_url endpoint prefix cursor).
Proof.
  intros (Hs & Hne & Hh & rest & -> & Hr). split_and!; [done..|]. unfold list_url.
  destruct (trim_right_on_host scheme host rest Hne Hh Hr) as (rest' & -> & _ & Ho).
  eexists. rewrite !str_app_assoc. split; [done|].
  change "?list-type=2&delimiter=/&prefix=" with ("?" +:+ "list-type=2&delimiter=/&prefix=").
  rewrite !str_app_assoc. apply Ho.
Qed.
Lemma on_object_more storage key l l' r : l ⊆ l' → on_object storage key l r → on_object storage key l' r.
Proof. intros Hl (names & scheme & H1 & H2 & H3 & H4 & H5). exists names, scheme. split_and!; set_solver. Qed.

(** A request that was prepared is the one that was asked for, with its credential. *)
Definition prepared (method url : string) (body : option Reader) (reference : string) (r : Request) : Prop :=
  r.(Request.Method) = method ∧ r.(Request.URL) = url ∧ r.(Request.Body) = body ∧
  r.(Request.Credential) = credential_of reference.
Lemma prepare_then (P : Request → Prop) method url body size reference {A} (k : Request → effr W A) :
  (∀ r, prepared method url body reference r → appends P (k r)) →
  appends P (ebindr (prepare method url body size reference) k).
Proof.
  intros Hk w l a w' l'. unfold ebindr at 1. destruct (prepare (W := W) method url body size reference (w, l)) as [[r|e] [w1 l1]] eqn:E.
  - assert (l1 = l ∧ prepared method url body reference r) as [-> Hr].
    { revert E. unfold prepare, authorize, prepared, credential_of, ebindr, ebind, eret. cbn [request_url Authorize recorded_http].
      destruct (request_url url); [|done]. case_bool_decide; [by intros [= <- _ <-]|].
      destruct Authorize as [resolve|]; cbn; [|by intros [= <- _ <-]].
      unfold unlogged. destruct (resolve _ _ w) as [[?|?] ?]; [|done]. by intros [= <- _ <-]. }
    by apply Hk.
  - intros [= _ <- <-]. exists []. rewrite app_nil_r. split; [|done]. revert E.
    unfold prepare, authorize, ebindr, ebind, eret. cbn [request_url Authorize recorded_http].
    destruct (request_url url); [|by intros [= _ _ <-]]. case_bool_decide; [done|].
    destruct Authorize as [resolve|]; cbn; [|done]. unfold unlogged.
    destruct (resolve _ _ w) as [[?|?] ?]; [done|]. by intros [= _ _ <-].
Qed.
Lemma fetch_appends (P : Request → Prop) format r : P r → appends P (fetch format r).
Proof. intros Hr. apply appends_bindr; [by apply appends_logged|]. intros response. apply appends_ret. Qed.
Lemma do_appends (P : Request → Prop) r target : P r → appends P (do_request r target).
Proof.
  intros Hr. apply appends_bindr; [by apply fetch_appends|]. intros response.
  destruct target; [apply appends_unlogged|apply appends_ret].
Qed.
Lemma object_then (P : Request → Prop) storage key {A} (k : string → effr W A) :
  (∀ u, objectURL storage.(StorageResource.Endpoint) key = Ok u → appends P (k u)) →
  appends P (ebindr (eret (objectURL storage.(StorageResource.Endpoint) key)) k).
Proof.
  intros Hk. change (objectURL (W := W)) with (objectURL (W := W0)).
  destruct (objectURL _ key) as [u|e] eqn:E; [exact (Hk u eq_refl)|exact (appends_ret P (Err e))].
Qed.
(** What each request of an operation satisfies. *)
Definition confined_request (storage : StorageResource) (o : operation) (r : Request) : Prop :=
  allowed storage o r ∧ r.(Request.Credential) = credential_of storage.(StorageResource.CredentialReference) ∧
  (keeps_host → same_host storage r).
Lemma object_request storage key method body r u :
  objectURL storage.(StorageResource.Endpoint) key = Ok u →
  prepared method u body storage.(StorageResource.CredentialReference) r →
  on_object storage key [method] r ∧ r.(Request.Body) = body ∧
  r.(Request.Credential) = credential_of storage.(StorageResource.CredentialReference) ∧
  (keeps_host → same_host storage r).
Proof.
  intros Hu. destruct r as [m u' b n c]. intros (Em & Eu & Eb & Ec). cbn in Em, Eu, Eb, Ec. subst.
  split_and!; [by apply objectURL_ok|done|done|]. intros Hk scheme host. by eapply objectURL_host.
Qed.
Lemma stat_allowed (P : Request → Prop) storage key :
  (∀ r, on_object storage key ["HEAD"] r → r.(Request.Credential) = credential_of storage.(StorageResource.CredentialReference) →
     (keeps_host → same_host storage r) → P r) →
  appends P (StatEntry storage key : effr W FileEntry).
Proof.
  intros HP. apply object_then. intros u Hu. apply prepare_then. intros r Hr.
  destruct (object_request storage key _ _ r u Hu Hr) as (Ho & _ & Hc & Hh).
  apply appends_bindr; [|intros response; apply appends_ret]. apply fetch_appends. by apply HP.
Qed.
Lemma browse_request storage browse prefix r : objectPrefix browse.(BrowseRequest.Path) = Ok prefix →
  prepared "GET" (list_url storage.(StorageResource.Endpoint) prefix browse.(BrowseRequest.Cursor)) None
    storage.(StorageResource.CredentialReference) r → confined_request storage (OBrowse browse) r.
Proof.
  intros Hp (Hm & Hu & _ & Hc). split_and!; [|done|].
  - destruct (objectPrefix_ok _ _ Hp) as (a & core & b & ? & ? & ? & ? & ->).
    destruct (trim_right_split slash_byte storage.(StorageResource.Endpoint)) as (slashes & He & Hsl).
    exists a, core, b, (trim_right slash_byte storage.(StorageResource.Endpoint)), slashes. by split_and!.
  - intros _ scheme host Hh. rewrite Hu. by apply list_url_host.
Qed.

(** C39: The requests of an S3 storage stay below its endpoint. In every operation of the
    driver, each request on an object has the method of the operation and is for the URL
    that url.Parse makes of the endpoint with the path of the key, put in place of every
    {key} or after a slash at its end: the path is the names of the key, each escaped, none of
    them empty, "." or "..", without "?" or "#", and the names are read back from it. A
    listing is a GET that asks for the browsed path, without the blanks and slashes around
    it, as prefix, and that has no "..". Each request carries the credential of the storage
    when there is a resolver for it, and a storage that is read-only is sent no DELETE. And
    when the endpoint is http or https on a plain host, followed by a path, a query or
    nothing, every request goes to that host, given that url.Parse keeps the host of such
    a URL. *)
Theorem object_requests_confined (storage : StorageResource) (o : operation) :
  appends (confined_request storage o) (perform storage o).
Proof.
  destruct o as [browse|key|key|key|key source size]; cbn [perform]; apply appends_bind; try (intros; apply appends_ret).
  - unfold Browse. destruct (objectPrefix _) as [prefix|e] eqn:Ep; [|exact (appends_ret _ (Err e))].
    apply prepare_then. intros r Hr. apply appends_bindr; [by apply fetch_appends, browse_request with prefix|].
    intros response. apply appends_bindr; [apply appends_ret|]. intros result. apply appends_ret.
  - by apply stat_allowed.
  - apply appends_bindr.
    + apply stat_allowed. intros r Hr Hc Hh. split_and!; [|done|done]. eapply on_object_more, Hr. set_solver.
    + intros entry. apply object_then. intros u Hu. apply prepare_then. intros r Hr.
      destruct (object_request storage key _ _ r u Hu Hr) as (Ho & _ & Hc & Hh).
      apply appends_bindr; [|intros response; apply appends_ret].
      apply fetch_appends. split_and!; [|done|done]. eapply on_object_more, Ho. set_solver.
  - unfold Remove. destruct (StorageResource.ReadOnly storage) eqn:Er; [apply appends_ret|].
    apply object_then. intros u Hu. apply prepare_then. intros r Hr.
    destruct (object_request storage key _ _ r u Hu Hr) as (Ho & _ & Hc & Hh). apply do_appends. by split_and!.
  - apply appends_bindr; [|intros _; apply appends_ret]. apply object_then. intros u Hu. apply prepare_then.
    intros r Hr. destruct (object_request storage key _ _ r u Hu Hr) as (Ho & Hb & Hc & Hh).
    apply appends_bindr; [|intros _; apply appends_ret]. apply do_appends. by split_and!.
Qed.
End confinement.

(** What [Put] stored is what its location leads to: the same URL, with the same credential. *)
Lemma location_leads_back `{ObjectHTTP W} storage key source size w location w' :
  Put storage key source size w = (Ok location, w') →
  objectURL storage.(StorageResource.Endpoint) key = Ok location.(DataLocation.URI) ∧
  reference_of location = storage.(StorageResource.CredentialReference) ∧
  location.(DataLocation.StorageResourceID) = storage.(StorageResource.ID).
Proof.
  unfold Put. intros (u & w1 & E1 & (request & w2 & _ & (x & w3 & _ & E)%ebindr_ok)%ebindr_ok)%ebindr_ok.
  injection E1 as E1 _. injection E as <- _. split_and!; [exact E1| |done].
  unfold reference_of, metadataString, meta_string, lookup_zero. cbn. by rewrite lookup_singleton_eq.
Qed.

Module Example.
#[local] Instance http : ObjectHTTP unit := {|
  parse_url s := Ok ("https", s); request_url _ := Ok tt;
  client_Do _ := eret (Ok (S3Response.mk 200 "200 OK" "7" "" (mk_reader "" None)));
  Authorize := Some (λ _ _, eret (Ok tt)); copy_to _ _ := eret (Ok tt) |}.
#[local] Instance xml : ListXML := λ _, Ok (listing.mk [] [] "").
Definition storage : StorageResource := (zero : StorageResource) <| StorageResource.ID := "st" |>
  <| StorageResource.Endpoint := "https://s3/bucket/" |> <| StorageResource.CredentialReference := "key" |>.
Definition frozen : StorageResource := storage <| StorageResource.ReadOnly := true |>.
Definition hostile : string := "/a/./b?c#d//e%2e".
Definition requests (v : StorageResource) (o : operation) : list Request := (perform v o (tt, [])).2.2.

Lemma http_keeps_host : keeps_host.
Proof. by intros scheme host text scheme' url Hh [= _ <-]. Qed.
Lemma object_requests_confined_witness :
  map Request.URL (requests storage (OOpen hostile)) =
    ["https://s3/bucket/a/b%3Fc%23d/e%252e"; "https://s3/bucket/a/b%3Fc%23d/e%252e"] ∧
  Forall (λ r, allowed storage (OOpen hostile) r ∧ same_host storage r) (requests storage (OOpen hostile)).
Proof.
  split; [vm_compute; reflexivity|].
  destruct (object_requests_confined storage (OOpen hostile) tt [] tt (perform storage (OOpen hostile) (tt, [])).2.1
    (requests storage (OOpen hostile))) as (k & Hk & Hall).
  - unfold requests. by destruct (perform storage (OOpen hostile) (tt, [])) as [[] [[] ?]].
  - rewrite Hk. eapply Forall_impl; [exact Hall|]. intros r (Ha & _ & Hh). split; [exact Ha|]. exact (Hh http_keeps_host).
Defined.
(** The host of the endpoint has to end before the placeholder. *)
Lemma placeholder_in_host : object_text "https://s3{key}" (PathEscape ".evil.org") = "https://s3.evil.org".
Proof. vm_compute. reflexivity. Qed.

(** A storage that is read-only refuses a removal and accepts a write. *)
Lemma frozen_is_written :
  requests frozen (ORemove "a") = [] ∧ map Request.Method (requests frozen (OWrite "a" (mk_reader "x" None) 1)) = ["PUT"].
Proof. split; vm_compute; reflexivity. Qed.
(** A name with two dots can be opened and cannot be browsed. *)
Lemma dots_not_browsed :
  is_ok (objectPrefix "v1..v2") = false ∧ is_ok (objectURL (W := unit) "https://s3/bucket" "v1..v2/a") = true.
Proof. split; vm_compute; reflexivity. Qed.
(** The placeholder of an endpoint is filled for objects and not for listings. *)
Lemma placeholder_listed :
  object_text "https://s3/{key}?x" "a" = "https://s3/a?x" ∧
  list_url "https://s3/{key}?x" "a/" "" = "https://s3/{key}?x?list-type=2&delimiter=/&prefix=a%2F".
Proof. split; vm_compute; reflexivity. Qed.
End Example.
End S3.
