(* ===== verification/Repositories.v ===== *)
(** * The stores of workflows, plans, networks, resources and of the instance
      (src/internal/infrastructure/database/workflow, planning, network, resource, instance)

    Five repositories over one set of tables, with the constraints of schema/schema.sql. A
    row holds a value of the domain with the fields that are stored elsewhere or as JSON
    left empty, and the text of its JSON columns. Floating-point columns hold numbers: a
    NaN, which SQLite stores as NULL, has no JSON. *)

From Stdlib Require Import Ascii.
From S2P Require Import Prelude GoStrings GoFloat Sql Domain Ports Workflow Discovery Supervisor Validator Api.

(** ** Tables *)
Module Tables.
Import Sql.

Module DefinitionRow.
Record DefinitionRow := mk { id : string; external_id : string; name : string; namespace : string }.
End DefinitionRow.
Abbreviation DefinitionRow := DefinitionRow.DefinitionRow.
Module VersionRow.
Record VersionRow := mk { id : string; workflow_id : string; version : Z; definition_hash : string; status : string }.
End VersionRow.
Abbreviation VersionRow := VersionRow.VersionRow.
(** The texts of an activity; [service_spec] and [simulation_spec] may be NULL. *)
Module ActivityText.
Record ActivityText := mk {
  capabilities : string; command_spec : string; resource_requirements : string; service_spec : option string;
  simulation_spec : option string; policy : string; metadata : string
}.
End ActivityText.
Abbreviation ActivityText := ActivityText.ActivityText.
Abbreviation ActivityRow := (Stored Activity ActivityText).
Module ScopeRow.
Record ScopeRow := mk { id : string; name : string; network_topology_id : option string; metadata : string }.
End ScopeRow.
Abbreviation ScopeRow := ScopeRow.ScopeRow.
Module PlanRow.
Record PlanRow := mk {
  plan : SchedulePlan; network_topology_id : option string; status : string; configuration : string; created_at : Time
}.
End PlanRow.
Abbreviation PlanRow := PlanRow.PlanRow.

Module DB.
Record DB := mk {
  environment_versions : list string; environment_runtimes : list string;
  resources : list (Row Resource); resource_runtime_bindings : list (Row ResourceRuntimeBinding);
  resource_relations : list (Row ResourceRelation); resource_snapshots : list (Row ResourceSnapshot);
  execution_scopes : list ScopeRow; execution_scope_environments : list (string * string);
  network_topologies : list (Row NetworkTopology); network_links : list (Row NetworkLink);
  workflow_definitions : list DefinitionRow; workflow_versions : list VersionRow;
  activity_types : list (Row ActivityType); activity_definitions : list ActivityRow;
  activity_dependencies : list ActivityDependency;
  schedule_plans : list PlanRow; schedule_plan_assignments : list (Row PlanAssignment);
  system_instance : list Instance_; user_preferences : list UserPreferences
}.
#[global] Instance eta : Eta DB := λ d,
  mk d.(environment_versions) d.(environment_runtimes) d.(resources) d.(resource_runtime_bindings)
    d.(resource_relations) d.(resource_snapshots) d.(execution_scopes) d.(execution_scope_environments)
    d.(network_topologies) d.(network_links) d.(workflow_definitions) d.(workflow_versions) d.(activity_types)
    d.(activity_definitions) d.(activity_dependencies) d.(schedule_plans) d.(schedule_plan_assignments)
    d.(system_instance) d.(user_preferences).
End DB.
Abbreviation DB := DB.DB.
Abbreviation world := (Session DB).

(** *** Keys *)
Definition resource_id (r : Row Resource) : string := r.(columns).(Resource.ID).
Definition binding_key (r : Row ResourceRuntimeBinding) : string * string :=
  (r.(columns).(ResourceRuntimeBinding.ResourceID), r.(columns).(ResourceRuntimeBinding.RuntimeID)).
Definition relation_key (r : Row ResourceRelation) : string * string * string :=
  (r.(columns).(ResourceRelation.SourceResourceID), r.(columns).(ResourceRelation.TargetResourceID),
   ResourceRelationType_string r.(columns).(ResourceRelation.Type_)).
Definition topology_id (r : Row NetworkTopology) : string := r.(columns).(NetworkTopology.ID).
Definition type_id (r : Row ActivityType) : string := r.(columns).(ActivityType.ID).
Definition activity_id (r : ActivityRow) : string := r.(columns).(Activity.ID).
Definition plan_id (r : PlanRow) : string := r.(PlanRow.plan).(SchedulePlan.ID).

(** *** Constraints of schema.sql *)
Section constraints.
Context (d : DB).
Abbreviation machines := (resource_id <$> d.(DB.resources)).
Abbreviation activities := (activity_id <$> d.(DB.activity_definitions)).

Definition refers (o : option string) (ids : list string) : Prop := from_option (λ id, id ∈ ids) True o.
Definition resources_ok : Prop :=
  NoDup machines ∧
  NoDup ((λ r, (r.(columns).(Resource.EnvironmentVersionID), r.(columns).(Resource.ProviderID))) <$> d.(DB.resources)) ∧
  Forall (λ r, r.(columns).(Resource.EnvironmentVersionID) ∈ d.(DB.environment_versions) ∧
    refers r.(columns).(Resource.ParentResourceID) machines ∧
    ResourceExecutionTarget_string r.(columns).(Resource.ExecutionTarget) ∈ ["batch"; "direct"]) d.(DB.resources) ∧
  NoDup (binding_key <$> d.(DB.resource_runtime_bindings)) ∧
  Forall (λ r, r.(columns).(ResourceRuntimeBinding.ResourceID) ∈ machines ∧
    r.(columns).(ResourceRuntimeBinding.RuntimeID) ∈ d.(DB.environment_runtimes)) d.(DB.resource_runtime_bindings) ∧
  NoDup (relation_key <$> d.(DB.resource_relations)) ∧
  Forall (λ r, r.(columns).(ResourceRelation.EnvironmentVersionID) ∈ d.(DB.environment_versions) ∧
    r.(columns).(ResourceRelation.SourceResourceID) ∈ machines ∧ r.(columns).(ResourceRelation.TargetResourceID) ∈ machines ∧
    ResourceRelationType_string r.(columns).(ResourceRelation.Type_) ∈ ["contains"; "member_of"; "accessible_via"] ∧
    r.(columns).(ResourceRelation.SourceResourceID) ≠ r.(columns).(ResourceRelation.TargetResourceID))
    d.(DB.resource_relations) ∧
  NoDup ((λ r, r.(columns).(ResourceSnapshot.ID)) <$> d.(DB.resource_snapshots)) ∧
  Forall (λ r, r.(columns).(ResourceSnapshot.ResourceID) ∈ machines) d.(DB.resource_snapshots).
Definition networks_ok : Prop :=
  NoDup (ScopeRow.id <$> d.(DB.execution_scopes)) ∧
  NoDup d.(DB.execution_scope_environments) ∧
  Forall (λ r, r.1 ∈ ScopeRow.id <$> d.(DB.execution_scopes) ∧ r.2 ∈ d.(DB.environment_versions))
    d.(DB.execution_scope_environments) ∧
  NoDup (topology_id <$> d.(DB.network_topologies)) ∧
  Forall (λ r, 0 < r.(columns).(NetworkTopology.Version) ∧
    r.(columns).(NetworkTopology.ExecutionScopeID) ∈ ScopeRow.id <$> d.(DB.execution_scopes)) d.(DB.network_topologies) ∧
  NoDup ((λ r, r.(columns).(NetworkLink.ID)) <$> d.(DB.network_links)) ∧
  NoDup ((λ r, (r.(columns).(NetworkLink.TopologyID), r.(columns).(NetworkLink.SourceResourceID),
    r.(columns).(NetworkLink.TargetResourceID))) <$> d.(DB.network_links)) ∧
  Forall (λ r, r.(columns).(NetworkLink.TopologyID) ∈ topology_id <$> d.(DB.network_topologies) ∧
    r.(columns).(NetworkLink.SourceResourceID) ∈ machines ∧ r.(columns).(NetworkLink.TargetResourceID) ∈ machines ∧
    flt f0 r.(columns).(NetworkLink.BandwidthBitsPerSecond) = true ∧ fle f0 r.(columns).(NetworkLink.LatencySeconds) = true ∧
    fle f0 r.(columns).(NetworkLink.PricePerByte) = true) d.(DB.network_links).
Definition workflows_ok : Prop :=
  NoDup (DefinitionRow.id <$> d.(DB.workflow_definitions)) ∧
  NoDup (DefinitionRow.external_id <$> d.(DB.workflow_definitions)) ∧
  NoDup (VersionRow.id <$> d.(DB.workflow_versions)) ∧
  NoDup ((λ r, (r.(VersionRow.workflow_id), r.(VersionRow.version))) <$> d.(DB.workflow_versions)) ∧
  Forall (λ r, r.(VersionRow.workflow_id) ∈ DefinitionRow.id <$> d.(DB.workflow_definitions)) d.(DB.workflow_versions) ∧
  NoDup (type_id <$> d.(DB.activity_types)) ∧
  NoDup activities ∧
  NoDup ((λ r : ActivityRow, (r.(columns).(Activity.WorkflowVersionID), r.(columns).(Activity.ExternalID))) <$>
    d.(DB.activity_definitions)) ∧
  Forall (λ r : ActivityRow, r.(columns).(Activity.WorkflowVersionID) ∈ VersionRow.id <$> d.(DB.workflow_versions) ∧
    r.(columns).(Activity.ActivityTypeID) ∈ type_id <$> d.(DB.activity_types) ∧
    ActivityKind_string r.(columns).(Activity.Kind) ∈ ["task"; "service"; "interactive"]) d.(DB.activity_definitions) ∧
  NoDup ((λ r, (r.(ActivityDependency.ActivityID), r.(ActivityDependency.DependsOnActivityID))) <$>
    d.(DB.activity_dependencies)) ∧
  Forall (λ r, r.(ActivityDependency.ActivityID) ∈ activities ∧ r.(ActivityDependency.DependsOnActivityID) ∈ activities ∧
    r.(ActivityDependency.ActivityID) ≠ r.(ActivityDependency.DependsOnActivityID)) d.(DB.activity_dependencies).
Definition plans_ok : Prop :=
  NoDup (plan_id <$> d.(DB.schedule_plans)) ∧
  Forall (λ r, r.(PlanRow.plan).(SchedulePlan.WorkflowVersionID) ∈ VersionRow.id <$> d.(DB.workflow_versions) ∧
    r.(PlanRow.plan).(SchedulePlan.ExecutionScopeID) ∈ ScopeRow.id <$> d.(DB.execution_scopes) ∧
    refers r.(PlanRow.network_topology_id) (topology_id <$> d.(DB.network_topologies)) ∧
    PlanningSource_string r.(PlanRow.plan).(SchedulePlan.Source) ∈ ["plugin"; "imported"]) d.(DB.schedule_plans) ∧
  NoDup ((λ r, r.(columns).(PlanAssignment.ID)) <$> d.(DB.schedule_plan_assignments)) ∧
  NoDup ((λ r, (r.(columns).(PlanAssignment.PlanID), r.(columns).(PlanAssignment.ActivityID))) <$>
    d.(DB.schedule_plan_assignments)) ∧
  NoDup ((λ r, (r.(columns).(PlanAssignment.PlanID), r.(columns).(PlanAssignment.ResourceID),
    r.(columns).(PlanAssignment.CoreID), r.(columns).(PlanAssignment.OrderOnResource))) <$>
    d.(DB.schedule_plan_assignments)) ∧
  Forall (λ r, r.(columns).(PlanAssignment.PlanID) ∈ plan_id <$> d.(DB.schedule_plans) ∧
    r.(columns).(PlanAssignment.ActivityID) ∈ activities ∧ r.(columns).(PlanAssignment.ResourceID) ∈ machines)
    d.(DB.schedule_plan_assignments).
Definition instance_ok : Prop :=
  NoDup (Instance.ID <$> d.(DB.system_instance)) ∧ NoDup (UserPreferences.ClientID <$> d.(DB.user_preferences)) ∧
  Forall (λ r, r.(UserPreferences.Theme) ∈ ["light"; "dark"]) d.(DB.user_preferences).
Definition constraints : Prop := resources_ok ∧ networks_ok ∧ workflows_ok ∧ plans_ok ∧ instance_ok.
End constraints.

#[global] Instance refers_dec o ids : Decision (refers o ids).
Proof. destruct o; cbn; apply _. Defined.
#[global] Instance constraints_dec d : Decision (constraints d).
Proof. unfold constraints, resources_ok, networks_ok, workflows_ok, plans_ok, instance_ok. apply _. Defined.
#[global] Instance schema : Schema DB := {| lawful_rows := constraints |}.
End Tables.

(** ** JSON columns and queries *)
Module Columns.
Import Sql Tables.

(** [encoding/json] on a type: the text of a value, and the value that decoding a text leaves in
    a fresh variable, with the error. *)
Class Column (A : Type) := { encode : A → result string; decode : string → A * option error }.
(** The text of a value is not empty and decodes without an error; dynamic values may change
    (an integer is read back as a float), which [decoded] stands for. *)
Class ColumnLaws (A : Type) `{Column A} := {
  decoded : A → A;
  encode_decode a text : encode a = Ok text → text ≠ "" ∧ decode text = (decoded a, None)
}.
(** Decoding [null] leaves the variable as it was. *)
Class NullLaw (A : Type) `{Column A, Zero A} := decode_null : decode "null" = (zero, None).

(** [string(encoded)] where the error of [json.Marshal] is ignored. *)
Definition text_of (encoded : result string) : string := match encoded with Ok text => text | Err _ => "" end.
(** [json.Marshal] of a pointer. *)
Definition encode_pointer `{Column A} (p : option A) : result string :=
  match p with Some a => encode a | None => Ok "null" end.
(** [if err := json.Unmarshal(text, &value); err != nil { return err }], and the same under
    [if text != ""]. *)
Definition read_json `{Column A} (text : string) : result A :=
  match decode text with (a, None) => Ok a | (_, Some e) => Err e end.
Definition read_optional `{Column A, Zero A} (text : string) : result A :=
  if bool_decide (text = "") then Ok zero else read_json text.
(** [_ = json.Unmarshal(text, &value)] *)
Definition read_ignoring `{Column A} (text : string) : A := (decode text).1.

Lemma read_json_decoded `{ColumnLaws A} (a : A) text : encode a = Ok text → read_json text = Ok (decoded a).
Proof. unfold read_json. by intros [_ ->]%encode_decode. Qed.
Lemma read_optional_decoded `{ColumnLaws A, Zero A} (a : A) text :
  encode a = Ok text → read_optional text = Ok (decoded a).
Proof.
  intros E. unfold read_optional. pose proof (encode_decode _ _ E) as [Hn _].
  rewrite bool_decide_false by done. by apply read_json_decoded.
Qed.

(** An order of the columns of rows. *)
Definition on_columns {A J} (le : A → A → bool) (a b : Stored A J) : bool := le a.(columns) b.(columns).

Definition ErrNoRows : error := "sql: no rows in result set".
(** [QueryRowContext(...).Scan] where [err == sql.ErrNoRows] answers nil. *)
Definition find_one `{Engine DB} {R A} (f : DB → option R) (scan : R → result A) : effr world (option A) :=
  let? row := select f in
  eret (match row with None => Ok None | Some r => a ← scan r; Ok (Some a) end).
(** The identifiers that a query lists, each looked up; one that is gone is left out. *)
Definition find_each {A} (find : string → effr world (option A)) (ids : list string) : effr world (list A) :=
  let? found := map_effr find ids in eret (Ok (omap id found)).
End Columns.

(** ** network/repository.go and network/scope_repository.go *)
Module NetworkRepository.
Import Sql Tables Columns.

(** [validate] *)
Fixpoint check_links (seen : list string) (links : list NetworkLink) : result unit :=
  match links with
  | [] => Ok tt
  | link :: rest =>
    if bool_decide (link.(NetworkLink.ID) = "") || bool_decide (link.(NetworkLink.SourceResourceID) = "") ||
       bool_decide (link.(NetworkLink.TargetResourceID) = "") || fle link.(NetworkLink.BandwidthBitsPerSecond) f0
    then Err (errorf "network link id, endpoints and positive bandwidth are required" [])
    else if bool_decide (link.(NetworkLink.SourceResourceID) = link.(NetworkLink.TargetResourceID))
    then Err (errorf "network link %q must connect different resources" [link.(NetworkLink.ID)])
    else if flt link.(NetworkLink.LatencySeconds) f0 || flt link.(NetworkLink.PricePerByte) f0 ||
            bool_decide (link.(NetworkLink.MaxConcurrentTransfers) < 0)
    then Err (errorf "network link %q has negative latency, price or concurrency" [link.(NetworkLink.ID)])
    else if bool_decide (link.(NetworkLink.ID) ∈ seen)
    then Err (errorf "duplicate network link %q" [link.(NetworkLink.ID)])
    else check_links (link.(NetworkLink.ID) :: seen) rest
  end.
Definition validate (topology : NetworkTopology) : result unit :=
  if bool_decide (topology.(NetworkTopology.ID) = "") || bool_decide (topology.(NetworkTopology.Name) = "") ||
     bool_decide (topology.(NetworkTopology.Version) < 1)
  then Err (errorf "network topology id, name and positive version are required" [])
  else if bool_decide (topology.(NetworkTopology.ExecutionScopeID) = "")
  then Err (errorf "network topology execution scope is required" [])
  else check_links [] topology.(NetworkTopology.Links).

Definition add_topologies rows (d : DB) : DB := d <| DB.network_topologies := d.(DB.network_topologies) ++ rows |>.
Definition add_links rows (d : DB) : DB := d <| DB.network_links := d.(DB.network_links) ++ rows |>.
Definition add_scopes rows (d : DB) : DB := d <| DB.execution_scopes := d.(DB.execution_scopes) ++ rows |>.
Definition add_environments rows (d : DB) : DB :=
  d <| DB.execution_scope_environments := d.(DB.execution_scope_environments) ++ rows |>.

Section repository.
Context `{Engine DB, Column metadata, SqlOrder}.
Implicit Types (topology : NetworkTopology) (link : NetworkLink) (scope : ExecutionScope).

(** [Repository.Create] *)
Definition topology_row topology (text : string) : Row NetworkTopology :=
  mk_stored (topology <| NetworkTopology.Links := [] |> <| NetworkTopology.Metadata := ∅ |>) text.
Definition link_row (topologyID : string) link (text : string) : Row NetworkLink :=
  mk_stored (link <| NetworkLink.TopologyID := topologyID |> <| NetworkLink.Metadata := ∅ |>) text.
Definition insert_link (topologyID : string) link : effr world unit :=
  let? text := eret (encode link.(NetworkLink.Metadata)) in
  modify (StInsert "network_links") (add_links [link_row topologyID link text]).
Definition Create topology : effr world unit :=
  let? _ := eret (validate topology) in
  within (
    let? text := eret (encode topology.(NetworkTopology.Metadata)) in
    let? _ := modify (StInsert "network_topologies") (add_topologies [topology_row topology text]) in
    for_effr (insert_link topology.(NetworkTopology.ID)) topology.(NetworkTopology.Links)).

(** [Repository.Find] *)
Definition scan_topology (r : Row NetworkTopology) : result NetworkTopology :=
  m ← read_json r.(json); Ok (r.(columns) <| NetworkTopology.Metadata := m |>).
Definition scan_link (r : Row NetworkLink) : result NetworkLink :=
  m ← read_json r.(json); Ok (r.(columns) <| NetworkLink.Metadata := m |>).
Definition link_le : NetworkLink → NetworkLink → bool := by_text NetworkLink.ID.
Definition links_of (salt : nat) (id : string) (d : DB) : list (Row NetworkLink) :=
  order_by (on_columns link_le) salt (List.filter (λ r, bool_decide (r.(columns).(NetworkLink.TopologyID) = id)) d.(DB.network_links)).
Definition Find (salt : nat) (id : string) : effr world (option NetworkTopology) :=
  let? found := find_one (λ d, find_row topology_id id d.(DB.network_topologies)) scan_topology in
  match found with
  | None => eret (Ok None)
  | Some topology =>
    let? rows := select (links_of salt id) in
    eret (links ← scan_rows scan_link rows; Ok (Some (topology <| NetworkTopology.Links := links |>)))
  end.
(** [Repository.List] *)
Definition topology_le : NetworkTopology → NetworkTopology → bool :=
  then_by (by_text NetworkTopology.Name) (descending (by_number NetworkTopology.Version)).
Definition List (salt : nat) : effr world (list NetworkTopology) :=
  let? ids := select (λ d, topology_id <$> order_by (on_columns topology_le) salt d.(DB.network_topologies)) in
  find_each (Find salt) ids.

(** [Repository.CreateScope] *)
Definition scope_row scope (text : string) : ScopeRow :=
  ScopeRow.mk scope.(ExecutionScope.ID) scope.(ExecutionScope.Name)
    (nullableString scope.(ExecutionScope.NetworkTopologyID)) text.
Definition insert_environment (scopeID versionID : string) : effr world unit :=
  modify (StInsert "execution_scope_environments") (add_environments [(scopeID, versionID)]).
Definition CreateScope scope : effr world unit :=
  if bool_decide (scope.(ExecutionScope.ID) = "") || bool_decide (scope.(ExecutionScope.Name) = "") ||
     bool_decide (scope.(ExecutionScope.EnvironmentVersionIDs) = [])
  then eret (Err (errorf "execution scope id, name and environments are required" []))
  else
    let? text := eret (encode scope.(ExecutionScope.Metadata)) in
    within (
      let? _ := modify (StInsert "execution_scopes") (add_scopes [scope_row scope text]) in
      for_effr (insert_environment scope.(ExecutionScope.ID)) scope.(ExecutionScope.EnvironmentVersionIDs)).
(** [Repository.DeleteScope]; the rows of its environments go with it. *)
Definition scope_used (id : string) (d : DB) : bool :=
  existsb (λ r, bool_decide (r.(PlanRow.plan).(SchedulePlan.ExecutionScopeID) = id)) d.(DB.schedule_plans).
Definition delete_scope (id : string) (d : DB) : DB :=
  d <| DB.execution_scopes := List.filter (λ r, negb (bool_decide (r.(ScopeRow.id) = id))) d.(DB.execution_scopes) |>
    <| DB.execution_scope_environments :=
         List.filter (λ r, negb (bool_decide (r.1 = id))) d.(DB.execution_scope_environments) |>.
Definition DeleteScope (id : string) : effr world unit :=
  let? used := select (scope_used id) in
  if used : bool
  then eret (Err (errorf "execution scope %q cannot be deleted because it is used by a schedule plan" [id]))
  else
    let? found := exec (refusal (StUpdate "execution_scopes")) (λ d,
      let d' := delete_scope id d in
      if bool_decide (lawful_rows d') then (Ok (row_exists ScopeRow.id id d.(DB.execution_scopes)), d')
      else (Err (violation (StUpdate "execution_scopes") d), d)) in
    eret (if found : bool then Ok tt else Err ErrNoRows).
(** [Repository.FindScope] *)
Definition scan_scope (r : ScopeRow) : result ExecutionScope :=
  m ← read_json r.(ScopeRow.metadata);
  Ok (ExecutionScope.mk r.(ScopeRow.id) r.(ScopeRow.name) (coalesce r.(ScopeRow.network_topology_id)) [] m).
Definition environments_of (salt : nat) (id : string) (d : DB) : list string :=
  snd <$> order_by (by_text snd) salt
    (List.filter (λ r, bool_decide (r.1 = id)) d.(DB.execution_scope_environments)).
Definition FindScope (salt : nat) (id : string) : effr world (option ExecutionScope) :=
  let? found := find_one (λ d, find_row ScopeRow.id id d.(DB.execution_scopes)) scan_scope in
  match found with
  | None => eret (Ok None)
  | Some scope =>
    let? ids := select (environments_of salt id) in
    eret (Ok (Some (scope <| ExecutionScope.EnvironmentVersionIDs := ids |>)))
  end.
(** [Repository.ListScopes] *)
Definition ListScopes (salt : nat) : effr world (list ExecutionScope) :=
  let? ids := select (λ d, ScopeRow.id <$> order_by (by_text ScopeRow.name) salt d.(DB.execution_scopes)) in
  find_each (FindScope salt) ids.

Definition topology_store (salt : nat) : Api.NetworkTopologyStore world :=
  {| Api.CreateTopology := Create; Api.ListTopologies := List salt; Api.FindTopology := Find salt |}.
Definition scope_store (salt : nat) : Api.ExecutionScopeStore world :=
  {| Api.CreateScope := CreateScope; Api.DeleteScope := DeleteScope; Api.ListScopes := ListScopes salt;
     Api.FindScope := FindScope salt |}.
End repository.
End NetworkRepository.

(** ** planning/repository.go *)
Module PlanningRepository.
Import Sql Tables Columns.

Definition add_plans rows (d : DB) : DB := d <| DB.schedule_plans := d.(DB.schedule_plans) ++ rows |>.
Definition add_assignments rows (d : DB) : DB :=
  d <| DB.schedule_plan_assignments := d.(DB.schedule_plan_assignments) ++ rows |>.

Section repository.
Context `{Engine DB, Column metadata, SqlOrder}.
Implicit Types (plan : SchedulePlan) (assignment : PlanAssignment).

(** [Repository.Save] *)
Definition plan_row plan (text : string) (created : Time) : PlanRow :=
  PlanRow.mk (plan <| SchedulePlan.NetworkTopologyID := "" |> <| SchedulePlan.Assignments := [] |>
                   <| SchedulePlan.AssignmentCount := 0 |> <| SchedulePlan.Metadata := ∅ |>)
    (nullableString plan.(SchedulePlan.NetworkTopologyID)) "valid" text created.
Definition assignment_row (planID : string) assignment (text : string) : Row PlanAssignment :=
  mk_stored (assignment <| PlanAssignment.PlanID := planID |> <| PlanAssignment.Metadata := ∅ |>) text.
Definition insert_assignment (planID : string) assignment : effr world unit :=
  let? text := eret (encode assignment.(PlanAssignment.Metadata)) in
  modify (StInsert "schedule_plan_assignments") (add_assignments [assignment_row planID assignment text]).
Definition Save plan : effr world unit := within (
  let? text := eret (encode plan.(SchedulePlan.Metadata)) in
  let! clock := draw in
  let? _ := modify (StInsert "schedule_plans") (add_plans [plan_row plan text (timestamp clock)]) in
  for_effr (insert_assignment plan.(SchedulePlan.ID)) plan.(SchedulePlan.Assignments)).

(** [Repository.Find] *)
Definition scan_plan (r : PlanRow) : result SchedulePlan :=
  m ← read_optional r.(PlanRow.configuration);
  Ok (r.(PlanRow.plan) <| SchedulePlan.NetworkTopologyID := coalesce r.(PlanRow.network_topology_id) |>
                       <| SchedulePlan.Metadata := m |>).
Definition scan_assignment (r : Row PlanAssignment) : result PlanAssignment :=
  m ← read_optional r.(json); Ok (r.(columns) <| PlanAssignment.Metadata := m |>).
Definition assignment_le : PlanAssignment → PlanAssignment → bool :=
  then_by (by_text PlanAssignment.ResourceID) (then_by (by_text PlanAssignment.CoreID)
    (then_by (by_text PlanAssignment.SlotID) (by_number PlanAssignment.OrderOnResource))).
Definition of_plan (id : string) (r : Row PlanAssignment) : bool := bool_decide (r.(columns).(PlanAssignment.PlanID) = id).
Definition assignments_of (salt : nat) (id : string) (d : DB) : list (Row PlanAssignment) :=
  order_by (on_columns assignment_le) salt (List.filter (of_plan id) d.(DB.schedule_plan_assignments)).
Definition Find (salt : nat) (id : string) : effr world (option SchedulePlan) :=
  let? found := find_one (λ d, find_row plan_id id d.(DB.schedule_plans)) scan_plan in
  match found with
  | None => eret (Ok None)
  | Some plan =>
    let? rows := select (assignments_of salt id) in
    eret (assignments ← scan_rows scan_assignment rows; Ok (Some (plan <| SchedulePlan.Assignments := assignments |>)))
  end.

(** [Repository.List]: the number of assignments and not the assignments, and no metadata. *)
Definition plan_le : PlanRow → PlanRow → bool := then_by (descending (by_number PlanRow.created_at)) (by_text plan_id).
Definition list_plan (d : DB) (r : PlanRow) : SchedulePlan :=
  r.(PlanRow.plan) <| SchedulePlan.NetworkTopologyID := coalesce r.(PlanRow.network_topology_id) |>
    <| SchedulePlan.AssignmentCount :=
         Z.of_nat (List.length (List.filter (of_plan (plan_id r)) d.(DB.schedule_plan_assignments))) |>.
Definition List (salt : nat) : effr world (list SchedulePlan) :=
  select (λ d, list_plan d <$> order_by plan_le salt d.(DB.schedule_plans)).

Definition store (salt : nat) : Api.PlanStore world :=
  {| Api.SavePlan := Save; Api.ListPlans_ := List salt; Api.FindPlan := Find salt |}.
End repository.
End PlanningRepository.

(** ** workflow/repository.go *)
Module WorkflowRepository.
Import Sql Tables Columns.

Definition add_definitions rows (d : DB) : DB := d <| DB.workflow_definitions := d.(DB.workflow_definitions) ++ rows |>.
Definition add_versions rows (d : DB) : DB := d <| DB.workflow_versions := d.(DB.workflow_versions) ++ rows |>.
Definition add_activities rows (d : DB) : DB := d <| DB.activity_definitions := d.(DB.activity_definitions) ++ rows |>.
Definition add_dependencies rows (d : DB) : DB := d <| DB.activity_dependencies := d.(DB.activity_dependencies) ++ rows |>.

(** [nullableJSON]: [value] is nil only when the interface is. *)
Definition nullableJSON {A} (value : option A) (encoded : string) : option string :=
  match value with None => None | Some _ => Some encoded end.

Section repository.
Context `{Engine DB, SqlOrder, Column metadata, Column (list ActivityCapability), Column ActivityCommand,
  Column ActivityResources, Column ServiceSpec, Column ActivitySimulation, Column ActivityPolicy}.
Implicit Types (activity : Activity) (definition : WorkflowDefinition).

(** [Repository.Create]; a pointer that is passed as an interface makes an interface that is not
    nil, whatever the pointer. *)
Definition type_row (t : ActivityType) : Row ActivityType :=
  mk_stored (t <| ActivityType.Metadata := ∅ |>) (text_of (encode t.(ActivityType.Metadata))).
Definition ignore_type (t : ActivityType) (d : DB) : DB :=
  d <| DB.activity_types := (insert_or_ignore type_id (type_row t) d.(DB.activity_types)).1 |>.
Definition activity_columns (versionID : string) activity : Activity :=
  activity <| Activity.WorkflowVersionID := versionID |> <| Activity.Capabilities := [] |>
    <| Activity.Command := zero |> <| Activity.Resources := zero |> <| Activity.Service := None |>
    <| Activity.Simulation := None |> <| Activity.Policy := zero |> <| Activity.Metadata := ∅ |>.
Definition activity_row (versionID : string) activity : ActivityRow :=
  mk_stored (activity_columns versionID activity) {|
    ActivityText.capabilities := text_of (encode activity.(Activity.Capabilities));
    ActivityText.command_spec := text_of (encode activity.(Activity.Command));
    ActivityText.resource_requirements := text_of (encode activity.(Activity.Resources));
    ActivityText.service_spec :=
      nullableJSON (Some activity.(Activity.Service)) (text_of (encode_pointer activity.(Activity.Service)));
    ActivityText.simulation_spec :=
      nullableJSON (Some activity.(Activity.Simulation)) (text_of (encode_pointer activity.(Activity.Simulation)));
    ActivityText.policy := text_of (encode activity.(Activity.Policy));
    ActivityText.metadata := text_of (encode activity.(Activity.Metadata))
  |}.
Definition insert_activity (versionID : string) activity : effr world unit :=
  let? _ := eret (Activity_Validate activity) in
  modify (StInsert "activity_definitions") (add_activities [activity_row versionID activity]).
Definition insert_dependency (dependency : ActivityDependency) : effr world unit :=
  modify (StInsert "activity_dependencies") (add_dependencies [dependency]).
Definition definition_row definition : DefinitionRow :=
  DefinitionRow.mk definition.(WorkflowDefinition.ID) definition.(WorkflowDefinition.ExternalID)
    definition.(WorkflowDefinition.Name) definition.(WorkflowDefinition.Namespace).
Definition version_row (workflowID : string) (version : WorkflowVersion) : VersionRow :=
  VersionRow.mk version.(WorkflowVersion.ID) workflowID version.(WorkflowVersion.Version)
    version.(WorkflowVersion.DefinitionHash) "published".
Definition Create definition : effr world unit := within (
  let version := definition.(WorkflowDefinition.Version) in
  let? _ := modify (StInsert "workflow_definitions") (add_definitions [definition_row definition]) in
  let? _ := modify (StInsert "workflow_versions")
    (add_versions [version_row definition.(WorkflowDefinition.ID) version]) in
  let? _ := for_effr (λ t, modify (StInsert "activity_types") (ignore_type t)) definition.(WorkflowDefinition.Types) in
  let? _ := for_effr (insert_activity version.(WorkflowVersion.ID)) version.(WorkflowVersion.Activities) in
  for_effr insert_dependency version.(WorkflowVersion.Dependencies)).

(** [Repository.FindVersion]: the errors of decoding are ignored. *)
Definition scan_activity (r : ActivityRow) : Activity :=
  r.(columns) <| Activity.Metadata := read_ignoring r.(json).(ActivityText.metadata) |>
    <| Activity.Capabilities := read_ignoring r.(json).(ActivityText.capabilities) |>
    <| Activity.Command := read_ignoring r.(json).(ActivityText.command_spec) |>
    <| Activity.Resources := read_ignoring r.(json).(ActivityText.resource_requirements) |>
    <| Activity.Policy := read_ignoring r.(json).(ActivityText.policy) |>
    <| Activity.Service := read_ignoring <$> r.(json).(ActivityText.service_spec) |>
    <| Activity.Simulation := read_ignoring <$> r.(json).(ActivityText.simulation_spec) |>.
Definition scan_version (r : VersionRow) : WorkflowVersion :=
  WorkflowVersion.mk r.(VersionRow.id) r.(VersionRow.workflow_id) r.(VersionRow.version) r.(VersionRow.definition_hash) [] [] [].
Definition of_version (id : string) (r : ActivityRow) : bool := bool_decide (r.(columns).(Activity.WorkflowVersionID) = id).
Definition activities_of (salt : nat) (id : string) (d : DB) : list ActivityRow :=
  order_by any_order salt (List.filter (of_version id) d.(DB.activity_definitions)).
(** [activity_dependencies d JOIN activity_definitions a ON a.id=d.activity_id] *)
Definition dependencies_of (salt : nat) (id : string) (d : DB) : list ActivityDependency :=
  order_by any_order salt (List.filter (λ r,
    existsb (λ a, of_version id a && bool_decide (activity_id a = r.(ActivityDependency.ActivityID)))
      d.(DB.activity_definitions)) d.(DB.activity_dependencies)).
Definition FindVersion (salt : nat) (id : string) : effr world (option WorkflowVersion) :=
  let? version := find_one (λ d, find_row VersionRow.id id d.(DB.workflow_versions)) (λ r, Ok (scan_version r)) in
  match version with
  | None => eret (Ok None)
  | Some version =>
    let? rows := select (activities_of salt id) in
    let? dependencies := select (dependencies_of salt id) in
    eret (Ok (Some (version <| WorkflowVersion.Activities := scan_activity <$> rows |>
                            <| WorkflowVersion.Dependencies := dependencies |>)))
  end.

(** [Repository.listTypes]: the key of types makes the rows of the join distinct when each type is
    listed once. *)
Definition scan_type (r : Row ActivityType) : result ActivityType :=
  m ← read_json r.(json); Ok (r.(columns) <| ActivityType.Metadata := m |>).
Definition types_of (salt : nat) (versionID : string) (d : DB) : list (Row ActivityType) :=
  order_by (on_columns (by_text ActivityType.Name)) salt (List.filter (λ t,
    existsb (λ a, of_version versionID a && bool_decide (a.(columns).(Activity.ActivityTypeID) = type_id t))
      d.(DB.activity_definitions)) d.(DB.activity_types)).
Definition listTypes (salt : nat) (versionID : string) : effr world (list ActivityType) :=
  let? rows := select (types_of salt versionID) in eret (scan_rows scan_type rows).

(** [Repository.Find] *)
Definition latest_version (salt : nat) (id : string) (d : DB) : option VersionRow :=
  head (order_by (descending (by_number VersionRow.version)) salt
    (List.filter (λ r, bool_decide (r.(VersionRow.workflow_id) = id)) d.(DB.workflow_versions))).
Definition scan_definition (r : DefinitionRow) : WorkflowDefinition :=
  (zero : WorkflowDefinition) <| WorkflowDefinition.ID := r.(DefinitionRow.id) |>
    <| WorkflowDefinition.ExternalID := r.(DefinitionRow.external_id) |>
    <| WorkflowDefinition.Name := r.(DefinitionRow.name) |> <| WorkflowDefinition.Namespace := r.(DefinitionRow.namespace) |>.
Definition Find (salt : nat) (id : string) : effr world (option WorkflowDefinition) :=
  let? found := find_one (λ d, find_row DefinitionRow.id id d.(DB.workflow_definitions)) (λ r, Ok (scan_definition r)) in
  match found with
  | None => eret (Ok None)
  | Some definition =>
    let? latest := select (latest_version salt id) in
    match latest with
    | None => eret (Err ErrNoRows)
    | Some row =>
      let? version := FindVersion salt row.(VersionRow.id) in
      let? types := listTypes salt row.(VersionRow.id) in
      eret (Ok (Some (definition <| WorkflowDefinition.Version := default zero version |>
                                 <| WorkflowDefinition.Types := types |>)))
    end
  end.
(** [Repository.List] *)
Definition definition_le : DefinitionRow → DefinitionRow → bool :=
  then_by (by_text DefinitionRow.namespace) (by_text DefinitionRow.name).
Definition List (salt : nat) : effr world (list WorkflowDefinition) :=
  let? ids := select (λ d, DefinitionRow.id <$> order_by definition_le salt d.(DB.workflow_definitions)) in
  find_each (Find salt) ids.

Definition store (salt : nat) : Api.WorkflowStore world :=
  {| Api.CreateWorkflow_ := Create; Api.ListWorkflows_ := List salt; Api.FindWorkflow := Find salt |}.
End repository.
End WorkflowRepository.

(** ** resource/repository.go *)
Module ResourceRepository.
Import Sql Tables Columns.

(** [normalizedExecutionTarget] *)
Definition normalizedExecutionTarget (target : ResourceExecutionTarget) : ResourceExecutionTarget :=
  if bool_decide (ResourceExecutionTarget_string target = "") then ExecutionTargetBatch else target.

Section repository.
Context `{Engine DB, Column metadata, SqlOrder}.
Implicit Types (resource : Resource).

(** [Repository.Upsert]: the update sets every column but the key and the version. *)
Definition resource_row resource (text : string) : Row Resource :=
  mk_stored (resource <| Resource.ExecutionTarget := normalizedExecutionTarget resource.(Resource.ExecutionTarget) |>
                      <| Resource.Metadata := ∅ |>) text.
Definition merge_resource (old new : Row Resource) : Row Resource :=
  mk_stored (new.(columns) <| Resource.ID := old.(columns).(Resource.ID) |>
               <| Resource.EnvironmentVersionID := old.(columns).(Resource.EnvironmentVersionID) |>) new.(json).
Definition Upsert resource : effr world unit :=
  let? text := eret (encode resource.(Resource.Metadata)) in
  modify (StInsert "resources") (λ d, d <| DB.resources :=
    upsert resource_id merge_resource (resource_row resource text) d.(DB.resources) |>).
(** [Repository.UpsertRuntimeBinding] *)
Definition binding_row (b : ResourceRuntimeBinding) (text : string) : Row ResourceRuntimeBinding :=
  mk_stored (b <| ResourceRuntimeBinding.Configuration := ∅ |>) text.
Definition merge_binding (old new : Row ResourceRuntimeBinding) : Row ResourceRuntimeBinding :=
  mk_stored (old.(columns) <| ResourceRuntimeBinding.Enabled := new.(columns).(ResourceRuntimeBinding.Enabled) |>) new.(json).
Definition UpsertRuntimeBinding (b : ResourceRuntimeBinding) : effr world unit :=
  let? text := eret (encode b.(ResourceRuntimeBinding.Configuration)) in
  modify (StInsert "resource_runtime_bindings") (λ d, d <| DB.resource_runtime_bindings :=
    upsert binding_key merge_binding (binding_row b text) d.(DB.resource_runtime_bindings) |>).
(** [Repository.UpsertRelation] *)
Definition relation_row (r : ResourceRelation) (text : string) : Row ResourceRelation :=
  mk_stored (r <| ResourceRelation.Metadata := ∅ |>) text.
Definition merge_relation (old new : Row ResourceRelation) : Row ResourceRelation :=
  mk_stored (old.(columns) <| ResourceRelation.EnvironmentVersionID :=
    new.(columns).(ResourceRelation.EnvironmentVersionID) |>) new.(json).
Definition UpsertRelation (r : ResourceRelation) : effr world unit :=
  let? text := eret (encode r.(ResourceRelation.Metadata)) in
  modify (StInsert "resource_relations") (λ d, d <| DB.resource_relations :=
    upsert relation_key merge_relation (relation_row r text) d.(DB.resource_relations) |>).

(** [scanResource] *)
Definition scanResource (r : Row Resource) : result Resource :=
  match read_optional r.(json) with
  | Ok m => Ok (r.(columns) <| Resource.Metadata := m |>)
  | Err e => Err (errorf "decode resource metadata: %w" [e])
  end.
(** [Repository.FindByID], [Repository.FindByProviderID] *)
Definition FindByID (id : string) : effr world (option Resource) :=
  find_one (λ d, find_row resource_id id d.(DB.resources)) scanResource.
Definition provider_key (r : Row Resource) : string * string :=
  (r.(columns).(Resource.EnvironmentVersionID), r.(columns).(Resource.ProviderID)).
Definition FindByProviderID (environmentVersionID providerID : string) : effr world (option Resource) :=
  find_one (λ d, find_row provider_key (environmentVersionID, providerID) d.(DB.resources)) scanResource.
(** [Repository.list], [Repository.List], [Repository.ListByRuntime] and
    [Repository.ListSchedulable]; the key of bindings makes the join list a resource once. *)
Definition list_resources (query : DB → list (Row Resource)) : effr world (list Resource) :=
  let? rows := select query in eret (scan_rows scanResource rows).
Definition resource_le : Resource → Resource → bool :=
  then_by (by_text Resource.EnvironmentVersionID) (by_text Resource.Name).
Definition List (salt : nat) : effr world (list Resource) :=
  list_resources (λ d, order_by (on_columns resource_le) salt d.(DB.resources)).
Definition bound (runtimeID : string) (d : DB) (r : Row Resource) : bool :=
  existsb (λ b, bool_decide (b.(columns).(ResourceRuntimeBinding.ResourceID) = resource_id r) &&
    b.(columns).(ResourceRuntimeBinding.Enabled) && bool_decide (b.(columns).(ResourceRuntimeBinding.RuntimeID) = runtimeID))
    d.(DB.resource_runtime_bindings).
Definition of_environment (environmentVersionID : string) (r : Row Resource) : bool :=
  bool_decide (r.(columns).(Resource.EnvironmentVersionID) = environmentVersionID).
Definition ListByRuntime (salt : nat) (environmentVersionID runtimeID : string) : effr world (list Resource) :=
  list_resources (λ d, order_by any_order salt
    (List.filter (λ r, of_environment environmentVersionID r && bound runtimeID d r) d.(DB.resources))).
Definition ListSchedulable (salt : nat) (environmentVersionID : string) : effr world (list Resource) :=
  list_resources (λ d, order_by any_order salt
    (List.filter (λ r, of_environment environmentVersionID r && r.(columns).(Resource.Schedulable)) d.(DB.resources))).

(** [Repository.CreateSnapshot] *)
Definition snapshot_row (snapshot : ResourceSnapshot) (text : string) : Row ResourceSnapshot :=
  mk_stored (snapshot <| ResourceSnapshot.Metadata := ∅ |>) text.
Definition CreateSnapshot (snapshot : ResourceSnapshot) : effr world unit :=
  let? text := eret (encode snapshot.(ResourceSnapshot.Metadata)) in
  modify (StInsert "resource_snapshots") (λ d, d <| DB.resource_snapshots :=
    d.(DB.resource_snapshots) ++ [snapshot_row snapshot text] |>).
(** [Repository.LatestSnapshot] *)
Definition latest_of (salt : nat) (resourceID : string) (d : DB) : option (Row ResourceSnapshot) :=
  head (order_by (on_columns (descending (by_number ResourceSnapshot.CapturedAt))) salt
    (List.filter (λ r, bool_decide (r.(columns).(ResourceSnapshot.ResourceID) = resourceID)) d.(DB.resource_snapshots))).
Definition scan_snapshot (r : Row ResourceSnapshot) : result ResourceSnapshot :=
  m ← read_optional r.(json); Ok (r.(columns) <| ResourceSnapshot.Metadata := m |>).
Definition LatestSnapshot (salt : nat) (resourceID : string) : effr world (option ResourceSnapshot) :=
  find_one (latest_of salt resourceID) scan_snapshot.

#[local] Instance inventory : ResourceInventory world := {|
  Discovery.Upsert := Upsert; Discovery.UpsertRuntimeBinding := UpsertRuntimeBinding;
  Discovery.UpsertRelation := UpsertRelation; Discovery.CreateSnapshot := CreateSnapshot
|}.
Definition store (salt : nat) : Api.ResourceStore world :=
  {| Api.Upsert := Upsert; Api.ListResources_ := List salt; Api.FindByID := FindByID;
     Api.LatestSnapshot := LatestSnapshot salt |}.
End repository.
End ResourceRepository.

(** ** instance/repository.go *)
Module InstanceRepository.
Import Sql Tables Columns.
Section repository.
Context `{Engine DB, SqlOrder}.

(** [Repository.Find]: some row. *)
Definition Find (salt : nat) : effr world (option Instance_) :=
  select (λ d, head (order_by any_order salt d.(DB.system_instance))).
(** [Repository.Save] *)
Definition instance_row (value : Instance_) (now : Time) : Instance_ :=
  Instance.mk value.(Instance.ID) value.(Instance.Name) value.(Instance.Description) value.(Instance.Organization)
    value.(Instance.Location) now now.
Definition merge_instance (old new : Instance_) : Instance_ :=
  Instance.mk old.(Instance.ID) new.(Instance.Name) new.(Instance.Description) new.(Instance.Organization)
    new.(Instance.Location) old.(Instance.CreatedAt) new.(Instance.UpdatedAt).
Definition Save (value : Instance_) : effr world unit :=
  let! clock := draw in
  modify (StInsert "system_instance") (λ d, d <| DB.system_instance :=
    upsert Instance.ID merge_instance (instance_row value (timestamp clock)) d.(DB.system_instance) |>).
(** [Repository.FindPreferences] and [Repository.SavePreferences] *)
Definition FindPreferences (clientID : string) : effr world (option UserPreferences) :=
  select (λ d, find_row UserPreferences.ClientID clientID d.(DB.user_preferences)).
Definition merge_preferences (old new : UserPreferences) : UserPreferences :=
  new <| UserPreferences.ClientID := old.(UserPreferences.ClientID) |>.
Definition SavePreferences (value : UserPreferences) : effr world unit :=
  let! clock := draw in
  modify (StInsert "user_preferences") (λ d, d <| DB.user_preferences :=
    upsert UserPreferences.ClientID merge_preferences (value <| UserPreferences.UpdatedAt := timestamp clock |>)
      d.(DB.user_preferences) |>).
Definition store (salt : nat) : Api.InstanceStore world :=
  {| Api.FindInstance := Find salt; Api.SaveInstance_ := Save; Api.FindPreferences := FindPreferences;
     Api.SavePreferences := SavePreferences |}.
End repository.
End InstanceRepository.

(** ** What is saved is read back *)
Module Documents.
Import Sql Tables Columns.

(** *** Rows that are read in an order *)
Lemma scan_rows_fmap {X R A} (scan : R → result A) (f : X → R) (g : X → A) l :
  (∀ x, x ∈ l → scan (f x) = Ok (g x)) → scan_rows scan (f <$> l) = Ok (g <$> l).
Proof.
  induction l as [|x l IH]; intros Hl; [done|]. cbn [fmap list_fmap scan_rows]. rewrite (Hl x) by left. cbn.
  rewrite IH; [done|]. intros y Hy. apply Hl. by right.
Qed.
Lemma sorted_fmap {X R} (le : R → R → Prop) (f : X → R) l :
  StronglySorted le (f <$> l) ↔ StronglySorted (λ a b, le (f a) (f b)) l.
Proof.
  induction l as [|x l IH]; [split; constructor|]. rewrite fmap_cons.
  split; intros [Hs Hx]%StronglySorted_inv; constructor; try by apply IH.
  - by rewrite Forall_fmap in Hx.
  - by rewrite Forall_fmap.
Qed.
Lemma on_columns_total {A J} (le : A → A → bool) : order_total le → order_total (@on_columns A J le).
Proof. intros Hl a b. apply Hl. Qed.
Lemma on_columns_trans {A J} (le : A → A → bool) : order_trans le → order_trans (@on_columns A J le).
Proof. intros Hl a b c. apply Hl. Qed.
#[local] Hint Resolve on_columns_total on_columns_trans : sql.

(** What a query with [ORDER BY] reads of rows that [f] makes. *)
Lemma read_rows `{SqlOrder} {X R A} (le : R → R → bool) salt (f : X → R) (g : X → A) (scan : R → result A) l :
  order_total le → order_trans le → (∀ x, x ∈ l → scan (f x) = Ok (g x)) →
  ∃ l', l' ≡ₚ l ∧ order_by le salt (f <$> l) = f <$> l' ∧
    scan_rows scan (order_by le salt (f <$> l)) = Ok (g <$> l') ∧ StronglySorted (λ a b, le (f a) (f b) = true) l'.
Proof.
  intros Ht Htr Hl. pose proof (order_by_perm _ le salt (f <$> l)) as Hp.
  pose proof (order_by_sorted _ le salt (f <$> l) Ht Htr) as Hs.
  apply Permutation_map_inv in Hp as (l' & E & Hp). change (map f l') with (f <$> l') in E. rewrite E in Hs |- *.
  exists l'. split_and!; [done|done| |by apply sorted_fmap in Hs].
  apply scan_rows_fmap. intros x Hx. apply Hl. by rewrite Hp.
Qed.

(** *** Statements *)
Section calls.
Context `{Engine DB}.

(** A loop whose body inserts a row. *)
Lemma inserts_ok {X} (f : X → effr world unit) (g : X → DB → DB) (P : X → Prop) l (s s' : world) :
  (∀ x (t t' : world), f x t = (Ok tt, t') → P x ∧ t'.(db) = g x t.(db) ∧ lawful_rows t'.(db)) →
  lawful_rows s.(db) → for_effr f l s = (Ok tt, s') →
  Forall P l ∧ s'.(db) = foldl (λ d x, g x d) s.(db) l ∧ lawful_rows s'.(db).
Proof.
  intros Hf. revert s. induction l as [|x l IH]; intros s Hs; cbn [for_effr].
  { intros [= <-]. split_and!; [constructor|done|done]. }
  intros ([] & s1 & Hx & Hr)%ebindr_ok. apply Hf in Hx as (Hp & E & Hl).
  apply IH in Hr as (Hps & E' & Hl'); [|done]. split_and!; [by constructor|by rewrite E', E|done].
Qed.
(** Adding rows one by one to a table. *)
Definition adding {R} (add : list R → DB → DB) : Prop :=
  (∀ d, add [] d = d) ∧ ∀ a b d, add b (add a d) = add (a ++ b) d.
Lemma insert_rows {X R} (f : X → effr world unit) (add : list R → DB → DB) (row : X → R) (P : X → Prop) l (s s' : world) :
  adding add →
  (∀ x (t t' : world), f x t = (Ok tt, t') → P x ∧ t'.(db) = add [row x] t.(db) ∧ lawful_rows t'.(db)) →
  lawful_rows s.(db) → for_effr f l s = (Ok tt, s') →
  Forall P l ∧ s'.(db) = add (row <$> l) s.(db) ∧ lawful_rows s'.(db).
Proof.
  intros [H0 Ha] Hf Hs Hl. apply (inserts_ok f (λ x, add [row x]) P) in Hl as (? & E & ?); [|done|done].
  split_and!; [done| |done]. rewrite E. generalize (db s) as d. clear -H0 Ha.
  induction l as [|x l IH]; intros d; cbn; [by rewrite H0|]. by rewrite IH, Ha.
Qed.
Lemma eret_ok {W A} (r : result A) (w : W) a w' : eret r w = (Ok a, w') → r = Ok a ∧ w' = w.
Proof. unfold eret. by intros [= -> ->]. Qed.
Lemma filter_none {R} (p : R → bool) l : (∀ x, x ∈ l → p x = false) → List.filter p l = [].
Proof.
  induction l as [|x l IH]; intros Hl; [done|]. cbn. rewrite Hl by left. apply IH. intros y Hy. apply Hl. by right.
Qed.
Lemma filter_every {R} (p : R → bool) l : (∀ x, x ∈ l → p x = true) → List.filter p l = l.
Proof.
  induction l as [|x l IH]; intros Hl; [done|]. cbn. rewrite Hl by left. f_equal. apply IH. intros y Hy. apply Hl. by right.
Qed.
Lemma nodup_filter {R K} (key : R → K) (p : R → bool) l : NoDup (key <$> l) → NoDup (key <$> List.filter p l).
Proof.
  induction l as [|x l IH]; [done|]. cbn. intros [Hn Hd]%NoDup_cons. destruct (p x); cbn; [|by apply IH].
  apply NoDup_cons. split; [|by apply IH]. intros (y & E & Hy)%list_elem_of_fmap. apply Hn. rewrite E.
  apply list_elem_of_fmap_2, list_elem_of_In. by apply list_elem_of_In, filter_In in Hy as [Hy _].
Qed.
Lemma filter_filter_other {R} (key : R → string) k id l : id ≠ k →
  List.filter (λ r, bool_decide (key r = id)) (List.filter (λ r, negb (bool_decide (key r = k))) l) =
  List.filter (λ r, bool_decide (key r = id)) l.
Proof.
  intros Hid. induction l as [|r l IH]; [done|]. cbn. destruct (decide (key r = k)) as [->|Hk].
  - rewrite (bool_decide_true (k = k)) by done. cbn. by rewrite bool_decide_false by congruence.
  - rewrite (bool_decide_false (key r = k)) by done. cbn. by rewrite IH.
Qed.
Lemma existsb_none {R} (p : R → bool) l : (∀ x, x ∈ l → p x = false) → existsb p l = false.
Proof.
  intros Hl. apply not_true_iff_false. intros (x & Hin & Hx)%existsb_exists. rewrite Hl in Hx; [done|].
  by apply list_elem_of_In.
Qed.
Lemma existsb_elem {R} (p : R → bool) l : existsb p l = true ↔ ∃ x, x ∈ l ∧ p x = true.
Proof. rewrite existsb_exists. by setoid_rewrite list_elem_of_In. Qed.
Lemma existsb_same {R} (p q : R → bool) l : (∀ x, x ∈ l → p x = q x) → existsb p l = existsb q l.
Proof.
  induction l as [|x l IH]; intros Hl; [done|]. cbn. rewrite Hl by left. f_equal. apply IH. intros y Hy. apply Hl. by right.
Qed.
Lemma find_row_cons {R} (key : R → string) k r t :
  find_row key k (r :: t) = if bool_decide (key r = k) then Some r else find_row key k t.
Proof. done. Qed.
Lemma find_row_new {R} (key : R → string) t new : key new ∉ key <$> t → find_row key (key new) (t ++ [new]) = Some new.
Proof.
  intros Hn. rewrite find_row_app. apply find_row_none in Hn. rewrite Hn. unfold find_row. cbn.
  unfold has_row. by rewrite bool_decide_true.
Qed.
Lemma find_row_other {R} (key : R → string) t new id : id ≠ key new → find_row key id (t ++ [new]) = find_row key id t.
Proof.
  intros Hn. rewrite find_row_app. destruct (find_row key id t); [done|]. unfold find_row. cbn.
  unfold has_row. by rewrite bool_decide_false by congruence.
Qed.
Lemma find_row_filter {R} (key : R → string) k id t :
  find_row key id (List.filter (λ r, negb (bool_decide (key r = k))) t) =
    if bool_decide (id = k) then None else find_row key id t.
Proof.
  induction t as [|r t IH]; [by case_bool_decide|]. cbn [List.filter]. rewrite find_row_cons.
  destruct (decide (key r = k)) as [->|Hk].
  - rewrite (bool_decide_true (k = k)) by done. cbn [negb]. rewrite IH.
    destruct (decide (id = k)) as [->|Hi]; [by rewrite bool_decide_true|]. by rewrite !bool_decide_false by congruence.
  - rewrite (bool_decide_false (key r = k)) by done. cbn [negb]. rewrite find_row_cons, IH.
    destruct (decide (key r = id)) as [Hi|Hi];
      [by rewrite !(bool_decide_true (key r = id)), (bool_decide_false (id = k)) by congruence|].
    by rewrite !(bool_decide_false (key r = id)) by done.
Qed.
Lemma nodup_new {R K} (key : R → K) t new : NoDup (key <$> t ++ [new]) → key new ∉ key <$> t.
Proof.
  rewrite fmap_app. intros (_ & Hd & _)%NoDup_app Hin. by apply (Hd _ Hin), list_elem_of_singleton.
Qed.
(** A row that is added with the rows that refer to it, beside rows that refer to older ones. *)
Lemma child_rows {R C} (key : R → string) (parent : C → string) (t : list R) new (children added : list C) k :
  key new = k → NoDup (key <$> t ++ [new]) →
  Forall (λ c, parent c ∈ key <$> t) children → Forall (λ c, parent c = k) added →
  find_row key k (t ++ [new]) = Some new ∧
  List.filter (λ c, bool_decide (parent c = k)) (children ++ added) = added ∧
  ∀ id, id ≠ k → find_row key id (t ++ [new]) = find_row key id t ∧
    List.filter (λ c, bool_decide (parent c = id)) (children ++ added) =
      List.filter (λ c, bool_decide (parent c = id)) children.
Proof.
  intros <- Hn%nodup_new Hc Ha. rewrite Forall_forall in Hc, Ha. split_and!.
  - by apply find_row_new.
  - rewrite List.filter_app, (filter_none _ children), (filter_every _ added); [done| |].
    + intros c Hin. apply bool_decide_eq_true. by apply Ha.
    + intros c Hin. apply bool_decide_eq_false. intros E. apply Hn. rewrite <- E. by apply Hc.
  - intros id Hid. split; [by apply find_row_other|]. rewrite List.filter_app, (filter_none _ added), app_nil_r; [done|].
    intros c Hin. apply bool_decide_eq_false. rewrite Ha by done. congruence.
Qed.
End calls.

(** *** Stores

    [read_back]: a call to [save] that fails changes nothing; one that succeeds leaves the tables
    lawful; a [good] value is found under its key as [stored] says; and what is found under other
    keys does not change, when the value is kept [apart] from them. *)
Definition read_back {X} (apart : X → Prop) (good : DB → X → Prop) (save : X → effr world unit)
    (find : string → effr world (option X)) (key : X → string) (stored : DB → X → X → Prop) : Prop :=
  ∀ x (s : world) r s', lawful_rows s.(db) → save x s = (r, s') →
    match r with
    | Err _ => s'.(db) = s.(db)
    | Ok _ => lawful_rows s'.(db) ∧
        (good s.(db) x → ∃ y, find (key x) s' = (Ok (Some y), s') ∧ stored s.(db) x y) ∧
        (apart x → ∀ id, id ≠ key x → (find id s').1 = (find id s).1)
    end.
Lemma read_back_weaken {X} apart (good good' : DB → X → Prop) save find key (stored stored' : DB → X → X → Prop) :
  read_back apart good save find key stored → (∀ d x, good' d x → good d x) →
  (∀ d x y, good' d x → stored d x y → stored' d x y) → read_back apart good' save find key stored'.
Proof.
  intros Hr Hg Hs x s r s' Hl E. specialize (Hr x s r s' Hl E). destruct r as [[]|]; [|done].
  destruct Hr as (Hl' & Hf & Ho). split_and!; [done| |done]. intros Hx. destruct (Hf (Hg _ _ Hx)) as (y & ? & ?). eauto.
Qed.
(** A value that JSON gives back as it is. *)
Definition json_kept `{Column A} (a : A) : Prop := ∃ text, encode a = Ok text ∧ decode text = (a, None).
Lemma kept_decoded `{ColumnLaws A} (a : A) : json_kept a → decoded a = a.
Proof. intros (text & E & Ed). apply encode_decode in E as [_ E]. rewrite E in Ed. by injection Ed. Qed.
Lemma fmap_same {A} (f : A → A) l : Forall (λ x, f x = x) l → f <$> l = l.
Proof. induction 1 as [|x l Hx _ IH]; [done|]. cbn. by rewrite Hx, IH. Qed.

#[local] Arguments find_row : simpl never.
#[local] Arguments upsert : simpl never.
#[local] Arguments List.filter : simpl never.
#[local] Arguments scan_rows : simpl never.
#[local] Arguments existsb : simpl never.

Section documents.
Context `{Engine DB, SqlOrder, !Column metadata, !ColumnLaws metadata} (salt : nat).
Context (reads_succeed : ∀ d : DB, refusal StSelect d = None).
Implicit Types (s : world) (d : DB).

Lemma find_one_runs {R A} (f : DB → option R) (scan : R → result A) s :
  find_one f scan s = (match f s.(db) with None => Ok None | Some r => a ← scan r; Ok (Some a) end, s).
Proof. unfold find_one, ebindr. rewrite (select_runs f s) by apply reads_succeed. done. Qed.
Lemma select_reads {A B} (f : DB → A) (k : A → effr world B) s : ebindr (select f) k s = k (f s.(db)) s.
Proof. unfold ebindr. by rewrite select_runs by apply reads_succeed. Qed.
Ltac adds add := split; [intros []|intros ? ? []]; unfold add; cbn; by rewrite ?app_nil_r, ?app_assoc.

(** **** Plans *)
Definition stored_assignment (planID : string) (a : PlanAssignment) : PlanAssignment :=
  a <| PlanAssignment.PlanID := planID |> <| PlanAssignment.Metadata := decoded a.(PlanAssignment.Metadata) |>.
Definition stored_plan (p q : SchedulePlan) : Prop := ∃ assignments,
  q = p <| SchedulePlan.Assignments := assignments |> <| SchedulePlan.AssignmentCount := 0 |>
        <| SchedulePlan.Metadata := decoded p.(SchedulePlan.Metadata) |> ∧
  assignments ≡ₚ stored_assignment p.(SchedulePlan.ID) <$> p.(SchedulePlan.Assignments) ∧
  StronglySorted (λ a b, PlanningRepository.assignment_le a b = true) assignments.

Definition written_assignment (planID : string) (a : PlanAssignment) : Row PlanAssignment :=
  PlanningRepository.assignment_row planID a (text_of (encode a.(PlanAssignment.Metadata))).

Lemma find_plan_eq id s : PlanningRepository.Find salt id s =
  (match find_row plan_id id s.(db).(DB.schedule_plans) with
   | None => Ok None
   | Some r => p ← PlanningRepository.scan_plan r;
       l ← scan_rows PlanningRepository.scan_assignment (PlanningRepository.assignments_of salt id s.(db));
       Ok (Some (p <| SchedulePlan.Assignments := l |>))
   end, s).
Proof.
  unfold PlanningRepository.Find, ebindr at 1. rewrite find_one_runs.
  destruct (find_row _ _ _) as [r|]; [|done]. destruct (PlanningRepository.scan_plan r); [|done]. cbn.
  by rewrite select_reads.
Qed.
Lemma insert_assignment_ok planID a t t' : PlanningRepository.insert_assignment planID a t = (Ok tt, t') →
  (∃ text, encode a.(PlanAssignment.Metadata) = Ok text) ∧
  t'.(db) = PlanningRepository.add_assignments [written_assignment planID a] t.(db) ∧ lawful_rows t'.(db).
Proof.
  intros (text & t1 & [E ->]%eret_ok & Hm)%ebindr_ok. unfold written_assignment. rewrite E. apply modify_ok in Hm as (? & _ & ?). eauto.
Qed.
Lemma save_plan_ok p s s' : lawful_rows s.(db) → PlanningRepository.Save p s = (Ok tt, s') →
  ∃ text created, encode p.(SchedulePlan.Metadata) = Ok text ∧
    Forall (λ a, ∃ text, encode a.(PlanAssignment.Metadata) = Ok text) p.(SchedulePlan.Assignments) ∧
    s'.(db) = PlanningRepository.add_assignments (written_assignment p.(SchedulePlan.ID) <$> p.(SchedulePlan.Assignments))
      (PlanningRepository.add_plans [PlanningRepository.plan_row p text created] s.(db)) ∧ lawful_rows s'.(db).
Proof.
  intros Hs (text & s1 & [E ->]%eret_ok & Hm)%transaction_ok%ebindr_ok.
  apply ebind_ok in Hm as (clock & s1 & [= <- <-] & Hm). apply ebindr_ok in Hm as ([] & s2 & Hp & Ha).
  apply modify_ok in Hp as (Ep & _ & Hl). cbn [db] in Ep.
  eapply (insert_rows _ PlanningRepository.add_assignments) in Ha as (Hf & Ea & Hl');
    [|adds PlanningRepository.add_assignments|intros a t t' Ht; exact (insert_assignment_ok _ _ _ _ Ht)|done].
  exists text, (timestamp s.(draws)). split_and!; [done|done|by rewrite Ea, Ep|done].
Qed.
Lemma plan_stored : read_back (λ _, True) (λ _ _, True) (Api.SavePlan (PlanningRepository.store salt))
  (Api.FindPlan (PlanningRepository.store salt)) SchedulePlan.ID (λ _, stored_plan).
Proof.
  intros p s r s' Hs E. cbn [Api.SavePlan Api.FindPlan PlanningRepository.store] in *.
  destruct r as [[]|e]; [|by apply transaction_atomic in E].
  apply save_plan_ok in E as (text & created & Et & Hf & Ed & Hl); [|done].
  destruct (child_rows plan_id (λ r : Row PlanAssignment, r.(columns).(PlanAssignment.PlanID)) s.(db).(DB.schedule_plans)
    (PlanningRepository.plan_row p text created) s.(db).(DB.schedule_plan_assignments)
    (written_assignment p.(SchedulePlan.ID) <$> p.(SchedulePlan.Assignments)) p.(SchedulePlan.ID)) as (Ep & Ea & Ho).
  { done. }
  { rewrite Ed in Hl. apply Hl. }
  { eapply Forall_impl; [apply Hs|]. by intros r []. }
  { by apply Forall_fmap, Forall_true. }
  split_and!; [done| |intros _].
  - intros _. rewrite find_plan_eq, Ed. cbn. unfold PlanningRepository.assignments_of, PlanningRepository.of_plan. cbn.
    rewrite Ep, Ea. cbn.
    unfold PlanningRepository.scan_plan at 1. cbn. rewrite (read_optional_decoded _ _ Et). cbn.
    destruct (read_rows (on_columns PlanningRepository.assignment_le) salt (written_assignment p.(SchedulePlan.ID))
      (stored_assignment p.(SchedulePlan.ID)) PlanningRepository.scan_assignment p.(SchedulePlan.Assignments))
      as (l & Hp & _ & -> & Hsort);
      [by eauto 10 with sql|by eauto 10 with sql| |].
    { intros a Ha. rewrite Forall_forall in Hf. destruct (Hf _ Ha) as [ta Eta]. unfold PlanningRepository.scan_assignment.
      cbn. rewrite Eta. cbn. by rewrite (read_optional_decoded _ _ Eta). }
    eexists. split; [done|]. eexists. split_and!; [|exact (fmap_Permutation _ _ _ Hp)|by apply sorted_fmap].
    destruct p; cbn. by rewrite coalesce_nullable.
  - intros id Hid. rewrite !find_plan_eq, Ed. destruct (Ho id Hid) as [E1 E2].
    unfold PlanningRepository.assignments_of, PlanningRepository.of_plan. cbn. by rewrite E1, E2.
Qed.

(** A plan as it is saved: the assignments are its own, the number of assignments is left to the
    listing, and the dynamic values survive JSON. It is read back whole, with the assignments in
    the order of the resources. *)
Definition whole_plan (p : SchedulePlan) : Prop :=
  p.(SchedulePlan.AssignmentCount) = 0 ∧ json_kept p.(SchedulePlan.Metadata) ∧
  Forall (λ a, a.(PlanAssignment.PlanID) = p.(SchedulePlan.ID) ∧ json_kept a.(PlanAssignment.Metadata))
    p.(SchedulePlan.Assignments).
Definition same_plan (p q : SchedulePlan) : Prop := ∃ assignments,
  q = p <| SchedulePlan.Assignments := assignments |> ∧ assignments ≡ₚ p.(SchedulePlan.Assignments) ∧
  StronglySorted (λ a b, PlanningRepository.assignment_le a b = true) assignments.
Lemma plan_read_back : read_back (λ _, True) (λ _, whole_plan) (Api.SavePlan (PlanningRepository.store salt))
  (Api.FindPlan (PlanningRepository.store salt)) SchedulePlan.ID (λ _, same_plan).
Proof.
  eapply read_back_weaken; [apply plan_stored|done|]. intros d p q (Hc & Hm%kept_decoded & Ha) (l & -> & Hl & Hs).
  rewrite fmap_same in Hl; [|eapply Forall_impl; [exact Ha|]].
  - exists l. split_and!; [|done|done]. destruct p; cbn in *. by rewrite Hm, Hc.
  - intros a [Hp Hk%kept_decoded]. unfold stored_assignment. destruct a; cbn in *. by rewrite Hp, Hk.
Qed.

(** **** Networks *)
Definition stored_link (topologyID : string) (l : NetworkLink) : NetworkLink :=
  l <| NetworkLink.TopologyID := topologyID |> <| NetworkLink.Metadata := decoded l.(NetworkLink.Metadata) |>.
Definition stored_topology (p q : NetworkTopology) : Prop := ∃ links,
  q = p <| NetworkTopology.Links := links |> <| NetworkTopology.Metadata := decoded p.(NetworkTopology.Metadata) |> ∧
  links ≡ₚ stored_link p.(NetworkTopology.ID) <$> p.(NetworkTopology.Links) ∧
  StronglySorted (λ a b, NetworkRepository.link_le a b = true) links.
Definition written_link (topologyID : string) (l : NetworkLink) : Row NetworkLink :=
  NetworkRepository.link_row topologyID l (text_of (encode l.(NetworkLink.Metadata))).

Lemma find_topology_eq id s : NetworkRepository.Find salt id s =
  (match find_row topology_id id s.(db).(DB.network_topologies) with
   | None => Ok None
   | Some r => p ← NetworkRepository.scan_topology r;
       l ← scan_rows NetworkRepository.scan_link (NetworkRepository.links_of salt id s.(db));
       Ok (Some (p <| NetworkTopology.Links := l |>))
   end, s).
Proof.
  unfold NetworkRepository.Find, ebindr at 1. rewrite find_one_runs.
  destruct (find_row _ _ _) as [r|]; [|done]. destruct (NetworkRepository.scan_topology r); [|done]. cbn.
  by rewrite select_reads.
Qed.
Lemma insert_link_ok topologyID l t t' : NetworkRepository.insert_link topologyID l t = (Ok tt, t') →
  (∃ text, encode l.(NetworkLink.Metadata) = Ok text) ∧
  t'.(db) = NetworkRepository.add_links [written_link topologyID l] t.(db) ∧ lawful_rows t'.(db).
Proof.
  intros (text & t1 & [E ->]%eret_ok & Hm)%ebindr_ok. unfold written_link. rewrite E.
  apply modify_ok in Hm as (? & _ & ?). eauto.
Qed.
Lemma create_topology_ok p s s' : lawful_rows s.(db) → NetworkRepository.Create p s = (Ok tt, s') →
  ∃ text, encode p.(NetworkTopology.Metadata) = Ok text ∧
    Forall (λ l, ∃ text, encode l.(NetworkLink.Metadata) = Ok text) p.(NetworkTopology.Links) ∧
    s'.(db) = NetworkRepository.add_links (written_link p.(NetworkTopology.ID) <$> p.(NetworkTopology.Links))
      (NetworkRepository.add_topologies [NetworkRepository.topology_row p text] s.(db)) ∧ lawful_rows s'.(db).
Proof.
  intros Hs ([] & s1 & [_ ->]%eret_ok & Hw)%ebindr_ok.
  apply transaction_ok, ebindr_ok in Hw as (text & s1 & [E ->]%eret_ok & Hm).
  apply ebindr_ok in Hm as ([] & s2 & (Ep & _ & Hl)%modify_ok & Ha).
  eapply (insert_rows _ NetworkRepository.add_links) in Ha as (Hf & Ea & Hl');
    [|adds NetworkRepository.add_links|intros a t t' Ht; exact (insert_link_ok _ _ _ _ Ht)|done].
  exists text. split_and!; [done|done|by rewrite Ea, Ep|done].
Qed.
Lemma create_topology_atomic p : atomic (NetworkRepository.Create p).
Proof.
  intros s e s'. unfold NetworkRepository.Create, ebindr, eret. destruct (NetworkRepository.validate p); [|by intros [= <- <-]].
  apply transaction_atomic.
Qed.
Lemma topology_stored : read_back (λ _, True) (λ _ _, True) (Api.CreateTopology (NetworkRepository.topology_store salt))
  (Api.FindTopology (NetworkRepository.topology_store salt)) NetworkTopology.ID (λ _, stored_topology).
Proof.
  intros p s r s' Hs E. cbn [Api.CreateTopology Api.FindTopology NetworkRepository.topology_store] in *.
  destruct r as [[]|e]; [|by apply create_topology_atomic in E].
  apply create_topology_ok in E as (text & Et & Hf & Ed & Hl); [|done].
  destruct (child_rows topology_id (λ r : Row NetworkLink, r.(columns).(NetworkLink.TopologyID)) s.(db).(DB.network_topologies)
    (NetworkRepository.topology_row p text) s.(db).(DB.network_links)
    (written_link p.(NetworkTopology.ID) <$> p.(NetworkTopology.Links)) p.(NetworkTopology.ID)) as (Ep & Ea & Ho).
  { done. }
  { rewrite Ed in Hl. apply Hl. }
  { eapply Forall_impl; [apply Hs|]. by intros r []. }
  { by apply Forall_fmap, Forall_true. }
  split_and!; [done| |intros _].
  - intros _. rewrite find_topology_eq, Ed. cbn. unfold NetworkRepository.links_of. cbn. rewrite Ep, Ea. cbn.
    unfold NetworkRepository.scan_topology at 1. cbn. rewrite (read_json_decoded _ _ Et). cbn.
    destruct (read_rows (on_columns NetworkRepository.link_le) salt (written_link p.(NetworkTopology.ID))
      (stored_link p.(NetworkTopology.ID)) NetworkRepository.scan_link p.(NetworkTopology.Links))
      as (l & Hp & _ & -> & Hsort); [by eauto 10 with sql|by eauto 10 with sql| |].
    { intros a Ha. rewrite Forall_forall in Hf. destruct (Hf _ Ha) as [ta Eta]. unfold NetworkRepository.scan_link.
      cbn. rewrite Eta. cbn. by rewrite (read_json_decoded _ _ Eta). }
    eexists. split; [done|]. eexists. split_and!; [|exact (fmap_Permutation _ _ _ Hp)|by apply sorted_fmap].
    by destruct p.
  - intros id Hid. rewrite !find_topology_eq, Ed. destruct (Ho id Hid) as [E1 E2].
    unfold NetworkRepository.links_of. cbn. by rewrite E1, E2.
Qed.

Definition whole_topology (p : NetworkTopology) : Prop :=
  json_kept p.(NetworkTopology.Metadata) ∧
  Forall (λ l, l.(NetworkLink.TopologyID) = p.(NetworkTopology.ID) ∧ json_kept l.(NetworkLink.Metadata))
    p.(NetworkTopology.Links).
Definition same_topology (p q : NetworkTopology) : Prop := ∃ links,
  q = p <| NetworkTopology.Links := links |> ∧ links ≡ₚ p.(NetworkTopology.Links) ∧
  StronglySorted (λ a b, NetworkRepository.link_le a b = true) links.
Lemma topology_read_back : read_back (λ _, True) (λ _, whole_topology) (Api.CreateTopology (NetworkRepository.topology_store salt))
  (Api.FindTopology (NetworkRepository.topology_store salt)) NetworkTopology.ID (λ _, same_topology).
Proof.
  eapply read_back_weaken; [apply topology_stored|done|]. intros d p q (Hm%kept_decoded & Ha) (l & -> & Hl & Hs).
  rewrite fmap_same in Hl; [|eapply Forall_impl; [exact Ha|]].
  - exists l. split_and!; [|done|done]. destruct p; cbn in *. by rewrite Hm.
  - intros a [Hp Hk%kept_decoded]. unfold stored_link. destruct a; cbn in *. by rewrite Hp, Hk.
Qed.

(** **** Scopes *)
Definition stored_scope (p q : ExecutionScope) : Prop := ∃ ids,
  q = p <| ExecutionScope.EnvironmentVersionIDs := ids |> <| ExecutionScope.Metadata := decoded p.(ExecutionScope.Metadata) |> ∧
  ids ≡ₚ p.(ExecutionScope.EnvironmentVersionIDs) ∧ StronglySorted (λ a b, str_le a b = true) ids.
Lemma find_scope_eq id s : NetworkRepository.FindScope salt id s =
  (match find_row ScopeRow.id id s.(db).(DB.execution_scopes) with
   | None => Ok None
   | Some r => p ← NetworkRepository.scan_scope r;
       Ok (Some (p <| ExecutionScope.EnvironmentVersionIDs := NetworkRepository.environments_of salt id s.(db) |>))
   end, s).
Proof.
  unfold NetworkRepository.FindScope, ebindr at 1. rewrite find_one_runs.
  destruct (find_row _ _ _) as [r|]; [|done]. destruct (NetworkRepository.scan_scope r); [|done]. cbn.
  by rewrite select_reads.
Qed.
Lemma create_scope_ok p s s' : lawful_rows s.(db) → NetworkRepository.CreateScope p s = (Ok tt, s') →
  ∃ text, encode p.(ExecutionScope.Metadata) = Ok text ∧
    s'.(db) = NetworkRepository.add_environments (pair p.(ExecutionScope.ID) <$> p.(ExecutionScope.EnvironmentVersionIDs))
      (NetworkRepository.add_scopes [NetworkRepository.scope_row p text] s.(db)) ∧ lawful_rows s'.(db).
Proof.
  intros Hs. unfold NetworkRepository.CreateScope. destruct (_ || _); [done|].
  intros (text & s1 & [E ->]%eret_ok & Hw)%ebindr_ok.
  apply transaction_ok, ebindr_ok in Hw as ([] & s2 & (Ep & _ & Hl)%modify_ok & Ha).
  eapply (insert_rows _ NetworkRepository.add_environments _ (λ _, True)) in Ha as (_ & Ea & Hl');
    [|adds NetworkRepository.add_environments|intros a t t' (Ht & _ & ?)%modify_ok; split_and!; [done|exact Ht|done]|done].
  exists text. split_and!; [done|by rewrite Ea, Ep|done].
Qed.
Lemma create_scope_atomic p : atomic (NetworkRepository.CreateScope p).
Proof.
  intros s e s'. unfold NetworkRepository.CreateScope. destruct (_ || _); [by intros [= <- <-]|].
  unfold ebindr, eret. destruct (encode _); [|by intros [= <- <-]]. apply transaction_atomic.
Qed.
Lemma scope_stored : read_back (λ _, True) (λ _ _, True) (Api.CreateScope (NetworkRepository.scope_store salt))
  (Api.FindScope (NetworkRepository.scope_store salt)) ExecutionScope.ID (λ _, stored_scope).
Proof.
  intros p s r s' Hs E. cbn [Api.CreateScope Api.FindScope NetworkRepository.scope_store] in *.
  destruct r as [[]|e]; [|by apply create_scope_atomic in E].
  apply create_scope_ok in E as (text & Et & Ed & Hl); [|done].
  destruct (child_rows ScopeRow.id fst s.(db).(DB.execution_scopes) (NetworkRepository.scope_row p text)
    s.(db).(DB.execution_scope_environments) (pair p.(ExecutionScope.ID) <$> p.(ExecutionScope.EnvironmentVersionIDs))
    p.(ExecutionScope.ID)) as (Ep & Ea & Ho).
  { done. }
  { rewrite Ed in Hl. apply Hl. }
  { eapply Forall_impl; [apply Hs|]. by intros r []. }
  { by apply Forall_fmap, Forall_true. }
  split_and!; [done| |intros _].
  - intros _. rewrite find_scope_eq, Ed. cbn. unfold NetworkRepository.environments_of. cbn. rewrite Ep, Ea. cbn.
    unfold NetworkRepository.scan_scope at 1. cbn. rewrite (read_json_decoded _ _ Et). cbn.
    destruct (read_rows (by_text snd) salt (pair p.(ExecutionScope.ID)) (pair p.(ExecutionScope.ID)) Ok p.(ExecutionScope.EnvironmentVersionIDs))
      as (l & Hp & -> & _ & Hsort); [by eauto with sql|by eauto with sql|done|].
    eexists. split; [done|]. exists l. split_and!; [|done|done].
    destruct p; cbn. rewrite coalesce_nullable, <- list_fmap_compose. f_equal. apply list_fmap_id.
  - intros id Hid. rewrite !find_scope_eq, Ed. destruct (Ho id Hid) as [E1 E2].
    unfold NetworkRepository.environments_of. cbn. by rewrite E1, E2.
Qed.

Definition same_scope (p q : ExecutionScope) : Prop := ∃ ids,
  q = p <| ExecutionScope.EnvironmentVersionIDs := ids |> ∧ ids ≡ₚ p.(ExecutionScope.EnvironmentVersionIDs) ∧
  StronglySorted (λ a b, str_le a b = true) ids.
Lemma scope_read_back : read_back (λ _, True) (λ _ p, json_kept p.(ExecutionScope.Metadata))
  (Api.CreateScope (NetworkRepository.scope_store salt)) (Api.FindScope (NetworkRepository.scope_store salt))
  ExecutionScope.ID (λ _, same_scope).
Proof.
  eapply read_back_weaken; [apply scope_stored|done|]. intros d p q Hm%kept_decoded (ids & -> & Hp & Hs).
  exists ids. split_and!; [|done|done]. destruct p; cbn in *. by rewrite Hm.
Qed.

(** **** Resources and preferences *)
Definition stored_resource (d : DB) (p q : Resource) : Prop :=
  q = p <| Resource.ExecutionTarget := ResourceRepository.normalizedExecutionTarget p.(Resource.ExecutionTarget) |>
        <| Resource.EnvironmentVersionID := match find_row resource_id p.(Resource.ID) d.(DB.resources) with
             | Some old => old.(columns).(Resource.EnvironmentVersionID) | None => p.(Resource.EnvironmentVersionID) end |>
        <| Resource.Metadata := decoded p.(Resource.Metadata) |>.
Lemma resource_stored : read_back (λ _, True) (λ _ _, True) (Api.Upsert (ResourceRepository.store salt))
  (Api.FindByID (ResourceRepository.store salt)) Resource.ID stored_resource.
Proof.
  intros p s r s' Hs E. cbn [Api.Upsert Api.FindByID ResourceRepository.store] in *. destruct r as [[]|e].
  2:{ revert E. unfold ResourceRepository.Upsert, ebindr, eret. destruct (encode _); [|by intros [= <- <-]]. apply modify_atomic. }
  apply ebindr_ok in E as (text & s1 & [Et ->]%eret_ok & (Ed & _ & Hl)%modify_ok).
  assert (∀ k, find_row resource_id k s'.(db).(DB.resources) = if bool_decide (k = p.(Resource.ID)) then
    Some (match find_row resource_id k s.(db).(DB.resources) with
          | Some old => ResourceRepository.merge_resource old (ResourceRepository.resource_row p text)
          | None => ResourceRepository.resource_row p text end) else find_row resource_id k s.(db).(DB.resources)) as Ef.
  { intros k. rewrite Ed. by apply (find_row_upsert resource_id ResourceRepository.merge_resource (λ _ _, eq_refl)
      (ResourceRepository.resource_row p text)). }
  unfold ResourceRepository.FindByID. split_and!; [done| |intros _].
  - intros _. rewrite find_one_runs, Ef, bool_decide_true by done. unfold stored_resource.
    destruct (find_row resource_id _ _) as [old|] eqn:Eo; eexists; cbn; unfold ResourceRepository.scanResource; cbn;
      rewrite (read_optional_decoded _ _ Et); (split; [done|]); destruct p; [|done].
    apply find_row_some in Eo as [_ Eo]. cbn in Eo |- *. by rewrite <- Eo.
  - intros id Hid. rewrite !find_one_runs, Ef. by rewrite bool_decide_false.
Qed.
(** A resource with a target, saved for the environment version it is on record for, if it is. *)
Definition whole_resource (d : DB) (p : Resource) : Prop :=
  json_kept p.(Resource.Metadata) ∧ ResourceExecutionTarget_string p.(Resource.ExecutionTarget) ≠ "" ∧
  ∀ r, r ∈ d.(DB.resources) → resource_id r = p.(Resource.ID) →
    r.(columns).(Resource.EnvironmentVersionID) = p.(Resource.EnvironmentVersionID).
Lemma resource_read_back : read_back (λ _, True) whole_resource (Api.Upsert (ResourceRepository.store salt))
  (Api.FindByID (ResourceRepository.store salt)) Resource.ID (λ _ p q, q = p).
Proof.
  eapply read_back_weaken; [apply resource_stored|done|]. intros d p q (Hm%kept_decoded & Ht & Hv) ->.
  unfold ResourceRepository.normalizedExecutionTarget. rewrite bool_decide_false by done.
  assert (match find_row resource_id p.(Resource.ID) d.(DB.resources) with
    | Some old => old.(columns).(Resource.EnvironmentVersionID) | None => p.(Resource.EnvironmentVersionID) end =
    p.(Resource.EnvironmentVersionID)) as ->.
  { destruct (find_row _ _ _) as [old|] eqn:E; [|done]. apply find_row_some in E as [Hin E]. by apply Hv. }
  rewrite Hm. by destruct p.
Qed.
Lemma preferences_read_back : read_back (λ _, True) (λ _ _, True) (Api.SavePreferences (InstanceRepository.store salt))
  (Api.FindPreferences (InstanceRepository.store salt)) UserPreferences.ClientID
  (λ _ p q, ∃ now, q = p <| UserPreferences.UpdatedAt := now |>).
Proof.
  intros p s r s' Hs E. cbn [Api.SavePreferences Api.FindPreferences InstanceRepository.store] in *.
  apply ebind_ok in E as (clock & s1 & [= <- <-] & E). destruct r as [[]|e]; [|by apply modify_atomic in E].
  apply modify_ok in E as (Ed & _ & Hl). cbn [db] in Ed. unfold InstanceRepository.FindPreferences.
  assert (∀ k, find_row UserPreferences.ClientID k s'.(db).(DB.user_preferences) =
    if bool_decide (k = p.(UserPreferences.ClientID)) then
      Some (match find_row UserPreferences.ClientID k s.(db).(DB.user_preferences) with
            | Some old => InstanceRepository.merge_preferences old (p <| UserPreferences.UpdatedAt := timestamp s.(draws) |>)
            | None => p <| UserPreferences.UpdatedAt := timestamp s.(draws) |> end)
    else find_row UserPreferences.ClientID k s.(db).(DB.user_preferences)) as Ef.
  { intros k. rewrite Ed. exact (find_row_upsert UserPreferences.ClientID InstanceRepository.merge_preferences
      (λ _ _, eq_refl) (p <| UserPreferences.UpdatedAt := timestamp s.(draws) |>) s.(db).(DB.user_preferences) k). }
  split_and!; [done| |intros _].
  - intros _. rewrite select_runs, Ef, bool_decide_true by (done || apply reads_succeed). eexists. split; [done|].
    exists (timestamp s.(draws)). destruct (find_row _ _ _) as [old|] eqn:Eo; [|done].
    apply find_row_some in Eo as [_ Eo]. unfold InstanceRepository.merge_preferences. rewrite Eo. by destruct p.
  - intros id Hid. rewrite !select_runs by apply reads_succeed. cbn. by rewrite Ef, bool_decide_false.
Qed.

(** **** Deleted scopes and the latest snapshot *)
(** A scope that is deleted was there and no plan used it; the others are found as before. *)
Lemma scope_deleted id s r s' : NetworkRepository.DeleteScope id s = (r, s') →
  match r with
  | Err _ => s'.(db) = s.(db) ∨ s'.(db) = NetworkRepository.delete_scope id s.(db) ∧
      id ∉ ScopeRow.id <$> s.(db).(DB.execution_scopes)
  | Ok _ => lawful_rows s'.(db) ∧ id ∈ ScopeRow.id <$> s.(db).(DB.execution_scopes) ∧
      NetworkRepository.scope_used id s.(db) = false ∧
      (NetworkRepository.FindScope salt id s').1 = Ok None ∧
      ∀ other, other ≠ id → (NetworkRepository.FindScope salt other s').1 = (NetworkRepository.FindScope salt other s).1
  end.
Proof.
  unfold NetworkRepository.DeleteScope. rewrite select_reads. destruct (NetworkRepository.scope_used id s.(db)) eqn:Eu.
  { intros [= <- <-]. by left. }
  unfold ebindr, exec, eret. destruct (refusal _ _); [intros [= <- <-]; by left|]. cbv zeta.
  case_bool_decide as Hl; [|intros [= <- <-]; by left].
  destruct (row_exists ScopeRow.id id _) eqn:Er; intros [= <- <-].
  2:{ right. split; [done|]. by apply row_exists_false. }
  cbn [db]. split_and!; [done|by apply row_exists_true|done| |].
  - rewrite find_scope_eq. cbn. by rewrite find_row_filter, bool_decide_true.
  - intros other Ho. rewrite !find_scope_eq. cbn. rewrite find_row_filter, bool_decide_false by done.
    unfold NetworkRepository.environments_of. cbn. rewrite filter_filter_other by done. done.
Qed.
Lemma latest_snapshot id s y s' : ResourceRepository.LatestSnapshot salt id s = (Ok (Some y), s') →
  y.(ResourceSnapshot.ResourceID) = id ∧
  ∀ r, r ∈ s.(db).(DB.resource_snapshots) → r.(columns).(ResourceSnapshot.ResourceID) = id →
    r.(columns).(ResourceSnapshot.CapturedAt) ≤ y.(ResourceSnapshot.CapturedAt).
Proof.
  unfold ResourceRepository.LatestSnapshot. rewrite find_one_runs. unfold ResourceRepository.latest_of.
  set (le := on_columns _). set (l := List.filter _ _). pose proof (order_by_perm _ le salt l) as Hp.
  pose proof (order_by_sorted _ le salt l) as Hs. destruct (order_by le salt l) as [|r rows]; [done|]. cbn [head].
  unfold ResourceRepository.scan_snapshot. destruct (read_optional r.(json)) as [m|]; [|done]. intros [= <- <-].
  assert (r ∈ l) as Hr by (rewrite <- Hp; left). apply list_elem_of_In, filter_In in Hr as [_ Hr].
  apply bool_decide_eq_true in Hr. split; [done|]. intros r' Hin E.
  assert (r' ∈ l) as Hin' by (apply list_elem_of_In, filter_In; split; [by apply list_elem_of_In|by apply bool_decide_eq_true]).
  rewrite <- Hp in Hin'. assert (StronglySorted (λ a b, le a b = true) (r :: rows)) as [_ Hf]%StronglySorted_inv.
  { apply Hs; unfold le, on_columns, descending, by_number; lia. }
  apply elem_of_cons in Hin' as [->|Hin']; [done|]. rewrite Forall_forall in Hf. specialize (Hf _ Hin').
  unfold le, on_columns, descending, by_number in Hf. cbn. lia.
Qed.

(** **** Workflows *)
Section workflows.
Context `{!Column (list ActivityCapability), !Column ActivityCommand, !Column ActivityResources, !Column ServiceSpec,
  !Column ActivitySimulation, !Column ActivityPolicy}.
Context `{!ColumnLaws (list ActivityCapability), !ColumnLaws ActivityCommand, !ColumnLaws ActivityResources,
  !ColumnLaws ServiceSpec, !ColumnLaws ActivitySimulation, !ColumnLaws ActivityPolicy, !NullLaw ServiceSpec,
  !NullLaw ActivitySimulation}.

Definition encodable `{Column A} (a : A) : Prop := ∃ text, encode a = Ok text.
Lemma read_encodable `{ColumnLaws A} (a : A) : encodable a → read_ignoring (text_of (encode a)) = decoded a.
Proof. intros [text E]. rewrite E. unfold read_ignoring. cbn. by apply encode_decode in E as [_ ->]. Qed.
Lemma read_pointer `{ColumnLaws A, Zero A, !NullLaw A} (p : option A) : from_option encodable True p →
  read_ignoring (text_of (encode_pointer p)) = from_option decoded zero p.
Proof.
  destruct p as [a|]; cbn; [apply read_encodable|]. intros _. unfold read_ignoring. by rewrite decode_null.
Qed.

Definition encodable_activity (a : Activity) : Prop :=
  encodable a.(Activity.Capabilities) ∧ encodable a.(Activity.Command) ∧ encodable a.(Activity.Resources) ∧
  from_option encodable True a.(Activity.Service) ∧ from_option encodable True a.(Activity.Simulation) ∧
  encodable a.(Activity.Policy) ∧ encodable a.(Activity.Metadata).
(** What can be stored: every value has JSON, and dependencies are between activities of the workflow. *)
Definition storable (x : WorkflowDefinition) : Prop :=
  Forall encodable_activity x.(WorkflowDefinition.Version).(WorkflowVersion.Activities) ∧
  Forall (λ t, encodable t.(ActivityType.Metadata)) x.(WorkflowDefinition.Types) ∧
  Forall (λ r, r.(ActivityDependency.ActivityID) ∈ Activity.ID <$> x.(WorkflowDefinition.Version).(WorkflowVersion.Activities))
    x.(WorkflowDefinition.Version).(WorkflowVersion.Dependencies).
Definition readable_types (d : DB) : Prop := Forall (λ r, ∃ t, WorkflowRepository.scan_type r = Ok t) d.(DB.activity_types).

(** An activity that is read back has a service and a simulation, empty ones where it had none. *)
Definition stored_activity (versionID : string) (a : Activity) : Activity :=
  a <| Activity.WorkflowVersionID := versionID |>
    <| Activity.Capabilities := decoded a.(Activity.Capabilities) |> <| Activity.Command := decoded a.(Activity.Command) |>
    <| Activity.Resources := decoded a.(Activity.Resources) |>
    <| Activity.Service := Some (from_option decoded zero a.(Activity.Service)) |>
    <| Activity.Simulation := Some (from_option decoded zero a.(Activity.Simulation)) |>
    <| Activity.Policy := decoded a.(Activity.Policy) |> <| Activity.Metadata := decoded a.(Activity.Metadata) |>.
Definition type_of_row (r : Row ActivityType) : ActivityType :=
  r.(columns) <| ActivityType.Metadata := read_ignoring r.(json) |>.
(** The type that an identifier stands for: an older one is kept. *)
Definition kept_type (d : DB) (types : list ActivityType) (id : string) : option ActivityType :=
  match find_row type_id id d.(DB.activity_types) with
  | Some r => Some (type_of_row r)
  | None => (λ t, t <| ActivityType.Metadata := decoded t.(ActivityType.Metadata) |>) <$>
              find_row ActivityType.ID id types
  end.
Definition stored_workflow (d : DB) (p q : WorkflowDefinition) : Prop := ∃ activities dependencies types,
  q = p <| WorkflowDefinition.Version := p.(WorkflowDefinition.Version)
             <| WorkflowVersion.WorkflowID := p.(WorkflowDefinition.ID) |> <| WorkflowVersion.Activities := activities |>
             <| WorkflowVersion.Dependencies := dependencies |> <| WorkflowVersion.DataDependencies := [] |> |>
        <| WorkflowDefinition.Types := types |> ∧
  activities ≡ₚ stored_activity p.(WorkflowDefinition.Version).(WorkflowVersion.ID) <$>
    p.(WorkflowDefinition.Version).(WorkflowVersion.Activities) ∧
  dependencies ≡ₚ p.(WorkflowDefinition.Version).(WorkflowVersion.Dependencies) ∧
  (∀ t, t ∈ types ↔ ∃ a, a ∈ p.(WorkflowDefinition.Version).(WorkflowVersion.Activities) ∧
    kept_type d p.(WorkflowDefinition.Types) a.(Activity.ActivityTypeID) = Some t) ∧
  NoDup (ActivityType.ID <$> types) ∧ StronglySorted (λ a b, by_text ActivityType.Name a b = true) types.

Lemma scan_stored versionID a : encodable_activity a →
  WorkflowRepository.scan_activity (WorkflowRepository.activity_row versionID a) = stored_activity versionID a.
Proof.
  intros (? & ? & ? & ? & ? & ? & ?). unfold WorkflowRepository.scan_activity, WorkflowRepository.activity_row.
  cbn [columns json ActivityText.capabilities ActivityText.command_spec ActivityText.resource_requirements
    ActivityText.service_spec ActivityText.simulation_spec ActivityText.policy ActivityText.metadata
    WorkflowRepository.nullableJSON fmap option_fmap option_map].
  rewrite !read_encodable, !read_pointer by done. by destruct a.
Qed.
Lemma scan_type_row r t : WorkflowRepository.scan_type r = Ok t → t = type_of_row r.
Proof.
  unfold WorkflowRepository.scan_type, read_json, type_of_row, read_ignoring. destruct (decode r.(json)) as [m [e|]]; [done|].
  by intros [= <-].
Qed.

(** ***** The types that are kept *)
Definition kept_types (rows : list (Row ActivityType)) (types : list ActivityType) : list (Row ActivityType) :=
  foldl (λ rows t, (insert_or_ignore type_id (WorkflowRepository.type_row t) rows).1) rows types.
Lemma ignore_types d types :
  foldl (λ d t, WorkflowRepository.ignore_type t d) d types = d <| DB.activity_types := kept_types d.(DB.activity_types) types |>.
Proof. revert d. induction types as [|t types IH]; intros d; [by destruct d|]. cbn [foldl]. by rewrite IH. Qed.
Lemma kept_types_app rows types : ∃ added, kept_types rows types = rows ++ added ∧
  Forall (λ r, type_id r ∉ type_id <$> rows ∧ ∃ t, t ∈ types ∧ r = WorkflowRepository.type_row t) added.
Proof.
  revert rows. induction types as [|t types IH]; intros rows; cbn; [exists []; by rewrite app_nil_r|].
  unfold insert_or_ignore. destruct (row_exists _ _ rows) eqn:E; cbn.
  - destruct (IH rows) as (added & Eq & Ha). exists added. split; [exact Eq|]. eapply Forall_impl; [done|].
    intros r (? & x & ? & ?). split; [done|]. exists x. split; [by right|done].
  - destruct (IH (rows ++ [WorkflowRepository.type_row t])) as (added & Eq & Ha).
    exists (WorkflowRepository.type_row t :: added). split; [etransitivity; [exact Eq|by rewrite <- app_assoc]|].
    apply row_exists_false in E. constructor; [split; [done|]; exists t; split; [left|done]|].
    eapply Forall_impl; [done|]. intros r (Hn & x & ? & ?). split; [|exists x; split; [by right|done]].
    rewrite fmap_app in Hn. intros Hin. apply Hn. apply elem_of_app. by left.
Qed.
Lemma find_kept rows types id : find_row type_id id (kept_types rows types) =
  match find_row type_id id rows with
  | Some r => Some r
  | None => WorkflowRepository.type_row <$> find_row ActivityType.ID id types
  end.
Proof.
  revert rows. induction types as [|t types IH]; intros rows; cbn [kept_types foldl]; [by destruct (find_row _ _ _)|].
  fold (kept_types (insert_or_ignore type_id (WorkflowRepository.type_row t) rows).1 types). rewrite IH.
  unfold insert_or_ignore. destruct (row_exists _ _ rows) eqn:E; cbn [fst].
  - destruct (find_row type_id id rows) eqn:F; [done|]. rewrite find_row_cons.
    rewrite bool_decide_false; [done|]. intros E'. apply row_exists_true in E.
    apply find_row_none in F. apply F. by rewrite <- E'.
  - rewrite find_row_app. destruct (find_row type_id id rows) eqn:F; [done|]. rewrite !find_row_cons.
    change (type_id (WorkflowRepository.type_row t)) with t.(ActivityType.ID). by case_bool_decide.
Qed.
Lemma kept_type_eq d types id : Forall (λ t, encodable t.(ActivityType.Metadata)) types →
  kept_type d types id = type_of_row <$> find_row type_id id (kept_types d.(DB.activity_types) types).
Proof.
  intros Hf. unfold kept_type. rewrite find_kept. destruct (find_row type_id id _); [done|].
  destruct (find_row ActivityType.ID id types) as [t|] eqn:E; [|done]. cbn. f_equal.
  apply find_row_some in E as [Hin _]. rewrite Forall_forall in Hf. unfold type_of_row. cbn. rewrite read_encodable by auto.
  by destruct t.
Qed.

(** ***** The tables after a workflow is created *)
Abbreviation rows_of x := (WorkflowRepository.activity_row x.(WorkflowDefinition.Version).(WorkflowVersion.ID) <$>
  x.(WorkflowDefinition.Version).(WorkflowVersion.Activities)).
Abbreviation version_of x := (WorkflowRepository.version_row x.(WorkflowDefinition.ID) x.(WorkflowDefinition.Version)).
Definition created (x : WorkflowDefinition) (d : DB) : DB :=
  WorkflowRepository.add_dependencies x.(WorkflowDefinition.Version).(WorkflowVersion.Dependencies)
    (WorkflowRepository.add_activities (rows_of x)
      (WorkflowRepository.add_versions [version_of x]
        (WorkflowRepository.add_definitions [WorkflowRepository.definition_row x] d)
        <| DB.activity_types := kept_types d.(DB.activity_types) x.(WorkflowDefinition.Types) |>)).
Lemma create_workflow_ok x s s' : WorkflowRepository.Create x s = (Ok tt, s') →
  s'.(db) = created x s.(db) ∧ lawful_rows s'.(db).
Proof.
  intros ([] & s1 & (E1 & _ & H1)%modify_ok & Hm)%transaction_ok%ebindr_ok.
  apply ebindr_ok in Hm as ([] & s2 & (E2 & _ & H2)%modify_ok & Hm). apply ebindr_ok in Hm as ([] & s3 & Ht & Hm).
  apply (inserts_ok _ WorkflowRepository.ignore_type (λ _, True)) in Ht as (_ & E3 & H3);
    [|by intros t w w' (? & _ & ?)%modify_ok|done]. rewrite ignore_types in E3.
  apply ebindr_ok in Hm as ([] & s4 & Ha & Hd).
  eapply (insert_rows _ WorkflowRepository.add_activities _ (λ _, True)) in Ha as (_ & E4 & H4);
    [|adds WorkflowRepository.add_activities| |done].
  2:{ intros a w w' ([] & w1 & [_ ->]%eret_ok & (E & _ & ?)%modify_ok)%ebindr_ok. split_and!; [done|exact E|done]. }
  eapply (insert_rows _ WorkflowRepository.add_dependencies id (λ _, True)) in Hd as (_ & E5 & H5);
    [|adds WorkflowRepository.add_dependencies|by intros r w w' (? & _ & ?)%modify_ok|done].
  split; [|done]. rewrite E5, list_fmap_id, E4, E3, E2, E1. done.
Qed.

Section tables.
Context (x : WorkflowDefinition) (d : DB) (Hd : lawful_rows d) (Hd' : lawful_rows (created x d)).
Context (closed : Forall (λ r, r.(ActivityDependency.ActivityID) ∈
  Activity.ID <$> x.(WorkflowDefinition.Version).(WorkflowVersion.Activities))
  x.(WorkflowDefinition.Version).(WorkflowVersion.Dependencies)).
Abbreviation own := (x.(WorkflowDefinition.Version).(WorkflowVersion.ID)).
Lemma own_version_new : own ∉ VersionRow.id <$> d.(DB.workflow_versions).
Proof. destruct Hd' as (_ & _ & (_ & _ & Hv & _) & _). by apply (nodup_new VersionRow.id _ (version_of x)) in Hv. Qed.
Lemma old_activity a : a ∈ d.(DB.activity_definitions) →
  WorkflowRepository.of_version own a = false ∧ a.(columns).(Activity.ActivityTypeID) ∈ type_id <$> d.(DB.activity_types).
Proof.
  destruct Hd as (_ & _ & (_ & _ & _ & _ & _ & _ & _ & _ & Ha & _) & _). rewrite Forall_forall in Ha. intros Hin.
  apply Ha in Hin as (Hv & Ht & _). split; [|done]. apply bool_decide_eq_false. intros E. apply own_version_new. by rewrite <- E.
Qed.
Lemma new_activity a vid : a ∈ rows_of x → WorkflowRepository.of_version vid a = bool_decide (own = vid).
Proof. by intros (b & -> & _)%list_elem_of_fmap. Qed.
(** No older activity has the identifier of a new one. *)
Lemma activities_apart a b : a ∈ d.(DB.activity_definitions) → b ∈ rows_of x → activity_id a ≠ activity_id b.
Proof.
  destruct Hd' as (_ & _ & (_ & _ & _ & _ & _ & _ & Hn & _) & _). cbn in Hn. rewrite fmap_app in Hn.
  apply NoDup_app in Hn as (_ & Hn & _). intros Ha Hb E. apply (Hn (activity_id a)); [by apply list_elem_of_fmap_2|].
  rewrite E. by apply list_elem_of_fmap_2.
Qed.
(** Joins with activities see those of one version. *)
Lemma join_other vid (q : ActivityRow → bool) : vid ≠ own →
  existsb (λ a, WorkflowRepository.of_version vid a && q a) (d.(DB.activity_definitions) ++ rows_of x) =
  existsb (λ a, WorkflowRepository.of_version vid a && q a) d.(DB.activity_definitions).
Proof.
  intros Hv. rewrite existsb_app, (existsb_none _ (rows_of x)); [apply orb_false_r|].
  intros a Ha. by rewrite (new_activity _ vid), bool_decide_false by congruence.
Qed.
Lemma join_own (q : ActivityRow → bool) :
  existsb (λ a, WorkflowRepository.of_version own a && q a) (d.(DB.activity_definitions) ++ rows_of x) = existsb q (rows_of x).
Proof.
  rewrite existsb_app, (existsb_none _ d.(DB.activity_definitions)).
  - apply existsb_same. intros a Ha. by rewrite (new_activity _ own), bool_decide_true.
  - intros a Ha. by rewrite (proj1 (old_activity a Ha)).
Qed.

Lemma activities_own : List.filter (WorkflowRepository.of_version own) (created x d).(DB.activity_definitions) = rows_of x.
Proof.
  cbn. rewrite List.filter_app, filter_none, filter_every; [done| |].
  - intros a Ha. rewrite (new_activity _ own) by done. by apply bool_decide_eq_true.
  - intros a Ha. apply (old_activity a Ha).
Qed.
Lemma activities_other vid : vid ≠ own → List.filter (WorkflowRepository.of_version vid) (created x d).(DB.activity_definitions) =
  List.filter (WorkflowRepository.of_version vid) d.(DB.activity_definitions).
Proof.
  intros Hv. cbn. rewrite List.filter_app, (filter_none _ (rows_of x)); [apply app_nil_r|].
  intros a Ha. rewrite (new_activity _ vid) by done. by apply bool_decide_eq_false.
Qed.
Abbreviation joined d vid := (λ r, existsb (λ a : ActivityRow, WorkflowRepository.of_version vid a &&
  bool_decide (activity_id a = r.(ActivityDependency.ActivityID))) d.(DB.activity_definitions)).
Lemma new_dependency r : r ∈ x.(WorkflowDefinition.Version).(WorkflowVersion.Dependencies) →
  ∃ a, a ∈ rows_of x ∧ activity_id a = r.(ActivityDependency.ActivityID).
Proof.
  intros Hr. rewrite Forall_forall in closed. apply closed, list_elem_of_fmap in Hr as (a & E & Ha).
  eexists. split; [by apply list_elem_of_fmap_2|done].
Qed.
Lemma old_dependency r : r ∈ d.(DB.activity_dependencies) →
  ∃ a, a ∈ d.(DB.activity_definitions) ∧ activity_id a = r.(ActivityDependency.ActivityID).
Proof.
  destruct Hd as (_ & _ & (_ & _ & _ & _ & _ & _ & _ & _ & _ & _ & Ha) & _). rewrite Forall_forall in Ha.
  intros (Hin & _)%Ha. apply list_elem_of_fmap in Hin as (a & E & ?). by exists a.
Qed.
Lemma dependencies_own : List.filter (joined (created x d) own) (created x d).(DB.activity_dependencies) =
  x.(WorkflowDefinition.Version).(WorkflowVersion.Dependencies).
Proof.
  cbn. rewrite List.filter_app, filter_none, filter_every; [done| |]; intros r Hr; rewrite join_own.
  - apply existsb_elem. destruct (new_dependency r Hr) as (a & Ha & E). exists a. split; [done|]. by apply bool_decide_eq_true.
  - apply existsb_none. intros b Hb. apply bool_decide_eq_false. destruct (old_dependency r Hr) as (a & Ha & <-).
    intros E. by apply (activities_apart a b).
Qed.
Lemma dependencies_other vid : vid ≠ own →
  List.filter (joined (created x d) vid) (created x d).(DB.activity_dependencies) =
  List.filter (joined d vid) d.(DB.activity_dependencies).
Proof.
  intros Hv. cbn. rewrite List.filter_app, (filter_none _ (WorkflowVersion.Dependencies _)), app_nil_r.
  - apply List.filter_ext. intros r. by apply join_other.
  - intros r Hr. rewrite join_other by done. apply existsb_none. intros a Ha.
    destruct (new_dependency r Hr) as (b & Hb & <-). rewrite (bool_decide_false (activity_id a = _)); [apply andb_false_r|].
    by apply activities_apart.
Qed.
Abbreviation used d vid := (λ t, existsb (λ a : ActivityRow, WorkflowRepository.of_version vid a &&
  bool_decide (a.(columns).(Activity.ActivityTypeID) = type_id t)) d.(DB.activity_definitions)).
Lemma types_other vid : vid ≠ own → List.filter (used (created x d) vid) (created x d).(DB.activity_types) =
  List.filter (used d vid) d.(DB.activity_types).
Proof.
  intros Hv. destruct (kept_types_app d.(DB.activity_types) x.(WorkflowDefinition.Types)) as (added & E & Ha). cbn. rewrite E.
  rewrite List.filter_app, (filter_none _ added), app_nil_r.
  - apply List.filter_ext. intros t. by apply join_other.
  - intros t Ht. rewrite join_other by done. apply existsb_none. intros a Hin. rewrite Forall_forall in Ha.
    apply Ha in Ht as [Hn _]. rewrite (bool_decide_false (_ = type_id t)); [apply andb_false_r|].
    intros E'. apply Hn. rewrite <- E'. by apply old_activity.
Qed.
(** The types of the workflow, in any order of their rows. *)
Lemma types_own rows t : Forall (λ t, encodable t.(ActivityType.Metadata)) x.(WorkflowDefinition.Types) →
  rows ≡ₚ List.filter (used (created x d) own) (created x d).(DB.activity_types) →
  t ∈ type_of_row <$> rows ↔ ∃ a, a ∈ x.(WorkflowDefinition.Version).(WorkflowVersion.Activities) ∧
    kept_type d x.(WorkflowDefinition.Types) a.(Activity.ActivityTypeID) = Some t.
Proof.
  intros Hf Hp. destruct Hd' as (_ & _ & (_ & _ & _ & _ & _ & Hn & _) & _). cbn in Hn, Hp.
  rewrite list_elem_of_fmap. setoid_rewrite (kept_type_eq d _ _ Hf). setoid_rewrite Hp.
  setoid_rewrite list_elem_of_In at 1. setoid_rewrite filter_In. setoid_rewrite join_own. setoid_rewrite existsb_elem.
  setoid_rewrite bool_decide_eq_true. setoid_rewrite fmap_Some. split.
  - intros (r & -> & Hr%list_elem_of_In & b & (a & -> & Ha)%list_elem_of_fmap & E). exists a. split; [done|].
    exists r. split; [|done]. change (Activity.ActivityTypeID (columns (WorkflowRepository.activity_row own a)))
      with a.(Activity.ActivityTypeID) in E. rewrite E. by apply find_row_in.
  - intros (a & Ha & r & [Hr E]%find_row_some & ->). exists r. split; [done|]. split; [by apply list_elem_of_In|].
    eexists. split; [by apply list_elem_of_fmap_2|]. done.
Qed.
Lemma types_readable : Forall (λ t, encodable t.(ActivityType.Metadata)) x.(WorkflowDefinition.Types) →
  readable_types d → readable_types (created x d).
Proof.
  intros Hf Hr. unfold readable_types. cbn.
  destruct (kept_types_app d.(DB.activity_types) x.(WorkflowDefinition.Types)) as (added & -> & Ha).
  apply Forall_app. split; [done|]. eapply Forall_impl; [exact Ha|]. intros r (_ & t & Ht & ->).
  rewrite Forall_forall in Hf. destruct (Hf t Ht) as [text E]. unfold WorkflowRepository.scan_type. cbn. rewrite E. cbn.
  rewrite (read_json_decoded _ _ E). by eexists.
Qed.
End tables.

(** ***** What is found *)
Definition found_version (vid : string) (d : DB) : WorkflowVersion :=
  match find_row VersionRow.id vid d.(DB.workflow_versions) with
  | None => zero
  | Some r => (WorkflowRepository.scan_version r)
      <| WorkflowVersion.Activities := WorkflowRepository.scan_activity <$> WorkflowRepository.activities_of salt vid d |>
      <| WorkflowVersion.Dependencies := WorkflowRepository.dependencies_of salt vid d |>
  end.
Lemma find_workflow_eq id s : WorkflowRepository.Find salt id s =
  (match find_row DefinitionRow.id id s.(db).(DB.workflow_definitions) with
   | None => Ok None
   | Some r =>
     match WorkflowRepository.latest_version salt id s.(db) with
     | None => Err ErrNoRows
     | Some v => types ← scan_rows WorkflowRepository.scan_type (WorkflowRepository.types_of salt v.(VersionRow.id) s.(db));
         Ok (Some ((WorkflowRepository.scan_definition r)
           <| WorkflowDefinition.Version := found_version v.(VersionRow.id) s.(db) |> <| WorkflowDefinition.Types := types |>))
     end
   end, s).
Proof.
  unfold WorkflowRepository.Find. unfold ebindr at 1. rewrite find_one_runs.
  destruct (find_row _ _ (DB.workflow_definitions _)) as [r|]; [|done]. cbn -[WorkflowRepository.FindVersion WorkflowRepository.listTypes].
  rewrite select_reads. destruct (WorkflowRepository.latest_version _ _ _) as [v|]; [|done].
  unfold WorkflowRepository.FindVersion, found_version. unfold ebindr at 1 2. rewrite find_one_runs.
  destruct (find_row VersionRow.id _ _) as [vr|]; cbn -[WorkflowRepository.listTypes]; rewrite ?select_reads;
    unfold WorkflowRepository.listTypes, ebindr, eret; rewrite ?select_runs by apply reads_succeed;
    by destruct (scan_rows _ _).
Qed.
Lemma latest_one v id d : List.filter (λ r, bool_decide (r.(VersionRow.workflow_id) = id)) d.(DB.workflow_versions) = [v] →
  WorkflowRepository.latest_version salt id d = Some v.
Proof.
  intros E. unfold WorkflowRepository.latest_version. rewrite E.
  pose proof (order_by_perm _ (descending (by_number VersionRow.version)) salt [v]) as Hp.
  by apply Permutation_singleton_r in Hp as ->.
Qed.
Lemma latest_in v id d : WorkflowRepository.latest_version salt id d = Some v → v ∈ d.(DB.workflow_versions).
Proof.
  unfold WorkflowRepository.latest_version. set (l := List.filter _ _).
  pose proof (order_by_perm _ (descending (by_number VersionRow.version)) salt l) as Hp. intros Hh.
  assert (v ∈ l) as Hv. { rewrite <- Hp. destruct (order_by _ _ l); [done|]. injection Hh as ->. left. }
  apply list_elem_of_In, filter_In in Hv as [Hv _]. by apply list_elem_of_In.
Qed.

Section results.
Context (x : WorkflowDefinition) (d : DB) (Hd : lawful_rows d) (Hd' : lawful_rows (created x d)) (Hx : storable x).
Abbreviation own := (x.(WorkflowDefinition.Version).(WorkflowVersion.ID)).

Lemma definition_rows :
  find_row DefinitionRow.id x.(WorkflowDefinition.ID) (created x d).(DB.workflow_definitions) =
    Some (WorkflowRepository.definition_row x) ∧
  WorkflowRepository.latest_version salt x.(WorkflowDefinition.ID) (created x d) = Some (version_of x) ∧
  ∀ id, id ≠ x.(WorkflowDefinition.ID) →
    find_row DefinitionRow.id id (created x d).(DB.workflow_definitions) = find_row DefinitionRow.id id d.(DB.workflow_definitions) ∧
    WorkflowRepository.latest_version salt id (created x d) = WorkflowRepository.latest_version salt id d.
Proof.
  pose proof Hd as (_ & _ & (_ & _ & _ & _ & Hv & _) & _). pose proof Hd' as (_ & _ & (Hn & _) & _).
  destruct (child_rows DefinitionRow.id VersionRow.workflow_id d.(DB.workflow_definitions) (WorkflowRepository.definition_row x)
    d.(DB.workflow_versions) [version_of x] x.(WorkflowDefinition.ID)) as (E & Ev & Ho); [done|done|done|by repeat constructor|].
  split_and!; [exact E|apply latest_one; exact Ev|]. intros id Hid. destruct (Ho id Hid) as [E1 E2]. split; [exact E1|].
  unfold WorkflowRepository.latest_version. do 2 f_equal. exact E2.
Qed.
Lemma version_found : ∃ activities dependencies,
  found_version own (created x d) = x.(WorkflowDefinition.Version)
    <| WorkflowVersion.WorkflowID := x.(WorkflowDefinition.ID) |> <| WorkflowVersion.Activities := activities |>
    <| WorkflowVersion.Dependencies := dependencies |> <| WorkflowVersion.DataDependencies := [] |> ∧
  activities ≡ₚ stored_activity own <$> x.(WorkflowDefinition.Version).(WorkflowVersion.Activities) ∧
  dependencies ≡ₚ x.(WorkflowDefinition.Version).(WorkflowVersion.Dependencies).
Proof.
  destruct Hx as (Ha & _ & Hc). pose proof Hd' as (_ & _ & (_ & _ & Hn & _) & _).
  unfold found_version. pose proof (find_row_new VersionRow.id _ _ (nodup_new VersionRow.id d.(DB.workflow_versions) (version_of x) Hn)) as E.
  change (VersionRow.id (version_of x)) with own in E.
  change (DB.workflow_versions (created x d)) with (d.(DB.workflow_versions) ++ [version_of x]). rewrite E.
  exists (WorkflowRepository.scan_activity <$> WorkflowRepository.activities_of salt own (created x d)),
    (WorkflowRepository.dependencies_of salt own (created x d)). split_and!; [by destruct x as [? ? ? ? [] ?]| |].
  - unfold WorkflowRepository.activities_of. rewrite (activities_own x d Hd Hd').
    etransitivity; [apply fmap_Permutation, order_by_perm|]. rewrite <- list_fmap_compose.
    apply eq_subrelation; [apply _|]. apply list_fmap_ext. intros i a Hi. apply scan_stored. rewrite Forall_forall in Ha.
    apply Ha. by eapply list_elem_of_lookup_2.
  - unfold WorkflowRepository.dependencies_of. by rewrite (dependencies_own x d Hd Hd' Hc), order_by_perm.
Qed.
Lemma types_found : readable_types d → ∃ types,
  scan_rows WorkflowRepository.scan_type (WorkflowRepository.types_of salt own (created x d)) = Ok types ∧
  (∀ t, t ∈ types ↔ ∃ a, a ∈ x.(WorkflowDefinition.Version).(WorkflowVersion.Activities) ∧
    kept_type d x.(WorkflowDefinition.Types) a.(Activity.ActivityTypeID) = Some t) ∧
  NoDup (ActivityType.ID <$> types) ∧ StronglySorted (λ a b, by_text ActivityType.Name a b = true) types.
Proof.
  intros Hr. destruct Hx as (_ & Ht & _). pose proof Hd' as (_ & _ & (_ & _ & _ & _ & _ & Hn & _) & _).
  pose proof (types_readable x d Ht Hr) as Hr'. unfold WorkflowRepository.types_of. set (l := List.filter _ _).
  destruct (read_rows (on_columns (by_text ActivityType.Name)) salt id type_of_row WorkflowRepository.scan_type l)
    as (rows & Hp & _ & E & Hs); [by eauto with sql|by eauto with sql| |].
  { intros r Hin. apply list_elem_of_In, filter_In in Hin as [Hin%list_elem_of_In _]. unfold readable_types in Hr'.
    rewrite Forall_forall in Hr'. destruct (Hr' r Hin) as [t E].
    unfold id. rewrite E. f_equal. by apply scan_type_row. }
  rewrite list_fmap_id in E. exists (type_of_row <$> rows). split_and!; [exact E| | |by apply sorted_fmap].
  - intros t. by apply types_own.
  - rewrite <- list_fmap_compose. change (ActivityType.ID ∘ type_of_row) with type_id. rewrite Hp.
    unfold l. by apply nodup_filter.
Qed.
End results.
(** Dependencies between activities of the workflow. *)
Definition own_dependencies (x : WorkflowDefinition) : Prop :=
  Forall (λ r, r.(ActivityDependency.ActivityID) ∈ Activity.ID <$> x.(WorkflowDefinition.Version).(WorkflowVersion.Activities))
    x.(WorkflowDefinition.Version).(WorkflowVersion.Dependencies).
Lemma workflow_stored : read_back own_dependencies (λ d x, readable_types d ∧ storable x)
  (Api.CreateWorkflow_ (WorkflowRepository.store salt))
  (Api.FindWorkflow (WorkflowRepository.store salt)) WorkflowDefinition.ID stored_workflow.
Proof.
  intros x s r s' Hs E. cbn [Api.CreateWorkflow_ Api.FindWorkflow WorkflowRepository.store] in *.
  destruct r as [[]|e]; [|by apply transaction_atomic in E].
  apply create_workflow_ok in E as [Ed Hl]. rewrite Ed in Hl |- *.
  destruct (definition_rows x s.(db) Hs Hl) as (E1 & E2 & Ho).
  split_and!; [done| |].
  - intros [Hr Hx]. rewrite find_workflow_eq, Ed, E1, E2. cbn [VersionRow.id WorkflowRepository.version_row].
    destruct (version_found x s.(db) Hs Hl Hx) as (acts & deps & -> & Ha & Hdeps).
    destruct (types_found x s.(db) Hs Hl Hx Hr) as (types & -> & Hty). cbn.
    eexists. split; [done|]. exists acts, deps, types. split_and!; [by destruct x|done|done|apply Hty..].
  - intros Hc id Hid. rewrite !find_workflow_eq, Ed. destruct (Ho id Hid) as [-> ->]. clear E1 E2.
    destruct (find_row DefinitionRow.id _ _) as [r|]; [|done].
    destruct (WorkflowRepository.latest_version _ _ _) as [v|] eqn:Ev; [|done]. apply latest_in in Ev.
    assert (v.(VersionRow.id) ≠ x.(WorkflowDefinition.Version).(WorkflowVersion.ID)) as Hv.
    { intros E. apply (own_version_new x s.(db) Hl). rewrite <- E. by apply list_elem_of_fmap_2. }
    unfold WorkflowRepository.types_of, found_version, WorkflowRepository.activities_of, WorkflowRepository.dependencies_of.
    rewrite (types_other x s.(db) Hs Hl _ Hv), (activities_other x s.(db) _ Hv), (dependencies_other x s.(db) Hl Hc _ Hv).
    change (DB.workflow_versions (created x (db s))) with (s.(db).(DB.workflow_versions) ++ [version_of x]).
    by rewrite (find_row_other VersionRow.id _ (version_of x)) by done.
Qed.

(** An activity of a version whose values survive JSON and that has a service and a simulation. *)
Definition whole_activity (versionID : string) (a : Activity) : Prop :=
  a.(Activity.WorkflowVersionID) = versionID ∧
  json_kept a.(Activity.Capabilities) ∧ json_kept a.(Activity.Command) ∧ json_kept a.(Activity.Resources) ∧
  (∃ v, a.(Activity.Service) = Some v ∧ json_kept v) ∧ (∃ v, a.(Activity.Simulation) = Some v ∧ json_kept v) ∧
  json_kept a.(Activity.Policy) ∧ json_kept a.(Activity.Metadata).
(** A workflow as it is saved: whole activities, dependencies among them, no data dependencies, and
    exactly the types its activities use, each once and different from none on record. *)
Definition whole_workflow (d : DB) (x : WorkflowDefinition) : Prop :=
  let version := x.(WorkflowDefinition.Version) in
  version.(WorkflowVersion.WorkflowID) = x.(WorkflowDefinition.ID) ∧ version.(WorkflowVersion.DataDependencies) = [] ∧
  Forall (whole_activity version.(WorkflowVersion.ID)) version.(WorkflowVersion.Activities) ∧ own_dependencies x ∧
  NoDup (ActivityType.ID <$> x.(WorkflowDefinition.Types)) ∧
  (∀ id, id ∈ ActivityType.ID <$> x.(WorkflowDefinition.Types) ↔
         id ∈ Activity.ActivityTypeID <$> version.(WorkflowVersion.Activities)) ∧
  Forall (λ t, json_kept t.(ActivityType.Metadata) ∧ ∀ r, r ∈ d.(DB.activity_types) → type_id r = t.(ActivityType.ID) →
            WorkflowRepository.scan_type r = Ok t) x.(WorkflowDefinition.Types) ∧
  readable_types d.
Definition same_workflow (p q : WorkflowDefinition) : Prop := ∃ activities dependencies types,
  q = p <| WorkflowDefinition.Version := p.(WorkflowDefinition.Version)
             <| WorkflowVersion.Activities := activities |> <| WorkflowVersion.Dependencies := dependencies |> |>
        <| WorkflowDefinition.Types := types |> ∧
  activities ≡ₚ p.(WorkflowDefinition.Version).(WorkflowVersion.Activities) ∧
  dependencies ≡ₚ p.(WorkflowDefinition.Version).(WorkflowVersion.Dependencies) ∧
  types ≡ₚ p.(WorkflowDefinition.Types).

Lemma kept_encodable `{Column A} (a : A) : json_kept a → encodable a.
Proof. intros (text & E & _). by exists text. Qed.
Lemma whole_stored_activity versionID a : whole_activity versionID a → stored_activity versionID a = a.
Proof.
  intros (Hv & H1%kept_decoded & H2%kept_decoded & H3%kept_decoded & (sv & Hs & H4%kept_decoded) &
    (sm & Hm & H5%kept_decoded) & H6%kept_decoded & H7%kept_decoded).
  unfold stored_activity. destruct a; cbn in *. subst. cbn. by rewrite H1, H2, H3, H4, H5, H6, H7.
Qed.
Lemma whole_storable d x : whole_workflow d x → storable x.
Proof.
  intros (_ & _ & Ha & Hd & _ & _ & Ht & _). split_and!; [|eapply Forall_impl; [exact Ht|]|done].
  - eapply Forall_impl; [exact Ha|]. intros a (_ & ? & ? & ? & (v & Hv & ?) & (v' & Hv' & ?) & ? & ?).
    unfold encodable_activity. rewrite Hv, Hv'. split_and!; by apply kept_encodable.
  - intros t [Hk _]. by apply kept_encodable.
Qed.
(** The type that is kept for an identifier is the one of the workflow. *)
Lemma whole_kept_type d x id t : whole_workflow d x → id ∈ ActivityType.ID <$> x.(WorkflowDefinition.Types) →
  kept_type d x.(WorkflowDefinition.Types) id = Some t ↔ t ∈ x.(WorkflowDefinition.Types) ∧ t.(ActivityType.ID) = id.
Proof.
  intros (_ & _ & _ & _ & Hn & _ & Ht & _) Hid. rewrite Forall_forall in Ht.
  apply list_elem_of_fmap in Hid as (t0 & -> & Hin0).
  assert (∀ t1, t1 ∈ x.(WorkflowDefinition.Types) → t1.(ActivityType.ID) = t0.(ActivityType.ID) → t1 = t0) as Hone.
  { intros t1 H1 E. assert (find_row ActivityType.ID t0.(ActivityType.ID) x.(WorkflowDefinition.Types) = Some t0) as F0
      by (by apply find_row_in). assert (find_row ActivityType.ID t1.(ActivityType.ID) x.(WorkflowDefinition.Types) = Some t1)
      as F1 by (by apply find_row_in). rewrite E in F1. congruence. }
  enough (kept_type d x.(WorkflowDefinition.Types) t0.(ActivityType.ID) = Some t0) as ->.
  { split; [by intros [= <-]|]. intros [H1 E]. by rewrite (Hone t H1 E). }
  destruct (Ht t0 Hin0) as [Hk Hr]. unfold kept_type. destruct (find_row type_id _ _) as [r|] eqn:E.
  - apply find_row_some in E as [Hin E]. specialize (Hr r Hin E). apply scan_type_row in Hr as ->. done.
  - rewrite (find_row_in ActivityType.ID) by done. cbn. rewrite kept_decoded by done. by destruct t0.
Qed.
Lemma workflow_read_back : read_back own_dependencies whole_workflow (Api.CreateWorkflow_ (WorkflowRepository.store salt))
  (Api.FindWorkflow (WorkflowRepository.store salt)) WorkflowDefinition.ID (λ _, same_workflow).
Proof.
  eapply read_back_weaken; [apply workflow_stored| |].
  { intros d x Hx. split; [apply Hx|by eapply whole_storable]. }
  intros d x y Hx (acts & deps & types & -> & Ha & Hd & Ht & Hnd & _).
  pose proof Hx as (Hw & Hdata & Hacts & _ & Hn & Hids & _).
  exists acts, deps, types. split_and!; [|rewrite Ha|done|].
  - destruct x as [i n1 n2 n3 [] n5]; cbn in *. by rewrite Hw, Hdata.
  - rewrite fmap_same; [done|]. eapply Forall_impl; [exact Hacts|]. intros a. apply whole_stored_activity.
  - apply NoDup_Permutation; [by eapply NoDup_fmap_1|by eapply NoDup_fmap_1|]. intros t. rewrite Ht. split.
    + intros (a & Hin & Hk). eapply whole_kept_type in Hk; [apply Hk|done|]. apply Hids. by apply list_elem_of_fmap_2.
    + intros Hin. assert (t.(ActivityType.ID) ∈ ActivityType.ID <$> x.(WorkflowDefinition.Types)) as Hid
        by by apply list_elem_of_fmap_2.
      pose proof Hid as Hid'. apply Hids, list_elem_of_fmap in Hid' as (a & E & Hina).
      exists a. split; [done|]. rewrite <- E. by apply whole_kept_type.
Qed.

(** C12: Plans, workflows, networks, execution scopes, resources and preferences are read back as
    they were saved. With an engine that answers every select, on tables that satisfy the
    schema's constraints, a call that fails changes nothing, and after one that succeeds every other document is found as before (for a
    workflow, when its dependencies are among its own activities), and the document is found
    under its key, equal but for the order of its parts (assignments, links and environments
    come sorted) and the time preferences were saved, given that it is one the tables can hold:
    its dynamic values survive JSON; the assignments of a plan name the plan and their number
    is not set; the links of a network name it; a resource has a target and is on record for
    no other environment version; a workflow has no data dependencies, its activities name its
    version and have a service and a simulation, its types are those its activities use, each
    once, and not on record otherwise, and the types on record can be read. *)
Theorem documents_read_back :
  read_back (λ _, True) (λ _, whole_plan) (Api.SavePlan (PlanningRepository.store salt))
    (Api.FindPlan (PlanningRepository.store salt)) SchedulePlan.ID (λ _, same_plan) ∧
  read_back own_dependencies whole_workflow (Api.CreateWorkflow_ (WorkflowRepository.store salt))
    (Api.FindWorkflow (WorkflowRepository.store salt)) WorkflowDefinition.ID (λ _, same_workflow) ∧
  read_back (λ _, True) (λ _, whole_topology) (Api.CreateTopology (NetworkRepository.topology_store salt))
    (Api.FindTopology (NetworkRepository.topology_store salt)) NetworkTopology.ID (λ _, same_topology) ∧
  read_back (λ _, True) (λ _ p, json_kept p.(ExecutionScope.Metadata)) (Api.CreateScope (NetworkRepository.scope_store salt))
    (Api.FindScope (NetworkRepository.scope_store salt)) ExecutionScope.ID (λ _, same_scope) ∧
  read_back (λ _, True) whole_resource (Api.Upsert (ResourceRepository.store salt))
    (Api.FindByID (ResourceRepository.store salt)) Resource.ID (λ _ p q, q = p) ∧
  read_back (λ _, True) (λ _ _, True) (Api.SavePreferences (InstanceRepository.store salt))
    (Api.FindPreferences (InstanceRepository.store salt)) UserPreferences.ClientID
    (λ _ p q, ∃ now, q = p <| UserPreferences.UpdatedAt := now |>).
Proof.
  split_and!; [apply plan_read_back|apply workflow_read_back|apply topology_read_back|apply scope_read_back
    |apply resource_read_back|apply preferences_read_back].
Qed.
End workflows.
End documents.

(** *** A concrete database *)
Module Example.
#[local] Instance engine : Engine DB := {|
  refusal _ _ := None; violation _ _ := "constraint failed"; timestamp n := Z.of_nat n + 1
|}.
(** A codec that keeps a text of a value, and [null] for the empty one. *)
Definition keeping {A} `{Zero A} (to : A → string) (from : string → A) : Column A := {|
  encode a := Ok ("$" +:+ to a); decode text := (if bool_decide (text = "null") then zero else from (str_tail text), None) |}.
Lemma keeping_laws A `{Zero A} to from : @ColumnLaws A (keeping to from).
Proof. split with (decoded := λ a, from (to a)). by intros a text [= <-]. Defined.
Lemma keeping_null A `{Zero A} to from : @NullLaw A (keeping to from) _.
Proof. done. Defined.
#[local] Instance c1 : Column metadata := keeping (λ m, meta_string m "note")
  (λ s, if bool_decide (s = "") then ∅ else {["note" := AnyString s]}).
#[local] Instance c2 : Column (list ActivityCapability) := keeping (λ l, if bool_decide (l = []) then "" else "real")
  (λ s, if bool_decide (s = "") then [] else [ActivityCapabilityReal]).
#[local] Instance c3 : Column ActivityCommand := keeping ActivityCommand.Entrypoint
  (λ s, (zero : ActivityCommand) <| ActivityCommand.Entrypoint := s |>).
#[local] Instance c4 : Column ActivityResources := keeping (λ _, "") (λ _, zero).
#[local] Instance c5 : Column ServiceSpec := keeping (λ v, if bool_decide (v.(ServiceSpec.Ports) = []) then "" else "80")
  (λ s, if bool_decide (s = "") then zero else (zero : ServiceSpec) <| ServiceSpec.Ports := [80] |>).
#[local] Instance c6 : Column ActivitySimulation := keeping (λ _, "") (λ _, zero).
#[local] Instance c7 : Column ActivityPolicy := keeping (λ _, "") (λ _, zero).
#[local] Instance l1 : ColumnLaws metadata := keeping_laws _ _ _.
#[local] Instance l2 : ColumnLaws (list ActivityCapability) := keeping_laws _ _ _.
#[local] Instance l3 : ColumnLaws ActivityCommand := keeping_laws _ _ _.
#[local] Instance l4 : ColumnLaws ActivityResources := keeping_laws _ _ _.
#[local] Instance l5 : ColumnLaws ServiceSpec := keeping_laws _ _ _.
#[local] Instance l6 : ColumnLaws ActivitySimulation := keeping_laws _ _ _.
#[local] Instance l7 : ColumnLaws ActivityPolicy := keeping_laws _ _ _.
#[local] Instance n5 : NullLaw ServiceSpec := keeping_null _ _ _.
#[local] Instance n6 : NullLaw ActivitySimulation := keeping_null _ _ _.

Definition activity (id : string) : Activity := (zero : Activity) <| Activity.ID := id |> <| Activity.ExternalID := id |>
  <| Activity.Name := id |> <| Activity.ActivityTypeID := "t" |> <| Activity.Kind := ActivityKindTask |>
  <| Activity.Capabilities := [ActivityCapabilityReal] |>
  <| Activity.Command := (zero : ActivityCommand) <| ActivityCommand.Entrypoint := "run" |> |>.
Definition type (image : string) : ActivityType := (zero : ActivityType) <| ActivityType.ID := "t" |>
  <| ActivityType.Name := "tool" |> <| ActivityType.DefaultImage := image |>.
Definition version : WorkflowVersion := {|
  WorkflowVersion.ID := "wf"; WorkflowVersion.WorkflowID := "w"; WorkflowVersion.Version := 1;
  WorkflowVersion.DefinitionHash := "h"; WorkflowVersion.Activities := [activity "a"; activity "b"];
  WorkflowVersion.Dependencies := [ActivityDependency.mk "b" "a" "control"]; WorkflowVersion.DataDependencies := [] |}.
Definition workflow : WorkflowDefinition := WorkflowDefinition.mk "w" "w" "flow" "" version [type "one"].
Definition machine : Resource := (zero : Resource) <| Resource.ID := "r" |> <| Resource.EnvironmentVersionID := "v1" |>
  <| Resource.ProviderID := "node" |> <| Resource.Schedulable := true |>.
Definition scope : ExecutionScope := ExecutionScope.mk "s" "scope" "" ["v1"] ∅.
Definition assignment (id activity slot : string) (order : Z) : PlanAssignment := (zero : PlanAssignment)
  <| PlanAssignment.ID := id |> <| PlanAssignment.ActivityID := activity |> <| PlanAssignment.ResourceID := "r" |>
  <| PlanAssignment.CoreID := "c" |> <| PlanAssignment.SlotID := slot |> <| PlanAssignment.OrderOnResource := order |>.
Definition plan (assignments : list PlanAssignment) : SchedulePlan := (zero : SchedulePlan) <| SchedulePlan.ID := "plan" |>
  <| SchedulePlan.WorkflowVersionID := "wf" |> <| SchedulePlan.ExecutionScopeID := "s" |>
  <| SchedulePlan.Source := PlanningSourceImported |> <| SchedulePlan.Assignments := assignments |>.
Definition empty : world := mk_session (DB.mk ["v1"; "v2"] [] [] [] [] [] [] [] [] [] [] [] [] [] [] [] [] [] []) 0.
Definition with_workflow : world := (WorkflowRepository.Create workflow empty).2.
Definition start : world :=
  (NetworkRepository.CreateScope scope (ResourceRepository.Upsert machine with_workflow).2).2.
(** A workflow with a service and a plan with a note. *)
Definition serving (id : string) : Activity := (activity id) <| Activity.WorkflowVersionID := "wf" |>
  <| Activity.Service := Some ((zero : ServiceSpec) <| ServiceSpec.Ports := [80] |>) |>
  <| Activity.Simulation := Some zero |> <| Activity.Metadata := {["note" := AnyString "first"]} |>.
Definition served : WorkflowDefinition := workflow <| WorkflowDefinition.Version :=
  version <| WorkflowVersion.Activities := [serving "a"; serving "b"] |> |>.
Definition noted : SchedulePlan := (plan [(assignment "2" "b" "" 1) <| PlanAssignment.PlanID := "plan" |>;
    (assignment "1" "a" "" 0) <| PlanAssignment.PlanID := "plan" |>])
  <| SchedulePlan.Metadata := {["note" := AnyString "kept"]} |>.
Lemma kept_here `{Column A} (a : A) text : encode a = Ok text → decode text = (a, None) → json_kept a.
Proof. intros. by exists text. Qed.
Lemma served_whole : whole_workflow empty.(db) served.
Proof.
  assert (∀ id, whole_activity "wf" (serving id)) as Ha.
  { intros id. split_and!; try (by eapply kept_here; vm_compute; reflexivity); [done| |];
      (eexists; split; [done|]; by eapply kept_here; vm_compute; reflexivity). }
  split_and!; try done.
  - by apply Forall_cons; split; [apply Ha|]; apply Forall_cons; split; [apply Ha|].
  - by repeat constructor.
  - apply NoDup_singleton.
  - intros id. cbn. set_solver.
  - repeat constructor; [by eapply kept_here; vm_compute; reflexivity|]. intros r Hr. by apply not_elem_of_nil in Hr.
  - constructor.
Qed.
Lemma noted_whole : whole_plan noted.
Proof.
  split_and!; [done|by eapply kept_here; vm_compute; reflexivity|].
  repeat constructor; by eapply kept_here; vm_compute; reflexivity.
Qed.
Definition after_workflow : world := (WorkflowRepository.Create served empty).2.
Definition after_plan : world := (PlanningRepository.Save noted start).2.
Lemma documents_read_back_witness :
  (∃ y, Api.FindWorkflow (WorkflowRepository.store 0) "w" after_workflow = (Ok (Some y), after_workflow) ∧
     same_workflow served y) ∧
  (∃ y, Api.FindPlan (PlanningRepository.store 0) "plan" after_plan = (Ok (Some y), after_plan) ∧ same_plan noted y).
Proof.
  assert (∀ d : DB, refusal StSelect d = None) as Hq by reflexivity. destruct (documents_read_back 0 Hq) as (Hp & Hw & _).
  split.
  - assert (lawful_rows empty.(db)) as Hl by (apply (bool_decide_unpack _); vm_compute; exact Logic.I).
    assert (WorkflowRepository.Create served empty = (Ok tt, after_workflow)) as Hs by (vm_compute; reflexivity).
    destruct (Hw served empty (Ok tt) after_workflow Hl Hs) as (_ & Hy & _). exact (Hy served_whole).
  - assert (lawful_rows start.(db)) as Hl by (apply (bool_decide_unpack _); vm_compute; exact Logic.I).
    assert (PlanningRepository.Save noted start = (Ok tt, after_plan)) as Hs by (vm_compute; reflexivity).
    destruct (Hp noted start (Ok tt) after_plan Hl Hs) as (_ & Hy & _). exact (Hy noted_whole).
Defined.

(** A plan with two slots of one core is accepted by the validator; the constraint on the order of
    assignments leaves the slot out, and the plan cannot be saved. *)
Definition slots : SchedulePlan := plan [assignment "1" "a" "x" 0; assignment "2" "b" "y" 0].
Lemma accepted_plan_refused :
  Validator.Validate 0 slots (version <| WorkflowVersion.Dependencies := [] |>) [machine] scope zero = Some (Ok tt) ∧
  (PlanningRepository.Save slots start).1 = Err "constraint failed".
Proof. split; vm_compute; reflexivity. Qed.
(** An activity without a service or a simulation is read back with empty ones. *)
Lemma nil_specs_read_back : ∃ v, (WorkflowRepository.FindVersion 0 "wf" with_workflow).1 = Ok (Some v) ∧
  Forall (λ a, a.(Activity.Service) = None ∧ a.(Activity.Simulation) = None) version.(WorkflowVersion.Activities) ∧
  Forall (λ a, a.(Activity.Service) = Some zero ∧ a.(Activity.Simulation) = Some zero) v.(WorkflowVersion.Activities).
Proof. eexists. split_and!; [vm_compute; reflexivity|by repeat constructor|by repeat constructor]. Qed.
(** A second workflow that defines a type again gets the first one. *)
Definition again : WorkflowDefinition := WorkflowDefinition.mk "w2" "w2" "flow" ""
  (version <| WorkflowVersion.ID := "wf2" |> <| WorkflowVersion.Activities := [activity "c"] |>
     <| WorkflowVersion.Dependencies := [] |>) [type "two"].
Lemma older_type_kept : ∃ y, (WorkflowRepository.Find 0 "w2" (WorkflowRepository.Create again with_workflow).2).1 = Ok (Some y) ∧
  y.(WorkflowDefinition.Types) = [type "one"].
Proof. eexists. split; [vm_compute; reflexivity|reflexivity]. Qed.
(** Data dependencies are not stored. *)
Definition with_data : WorkflowDefinition := workflow <| WorkflowDefinition.Version :=
  version <| WorkflowVersion.DataDependencies := [ActivityDataDependency.mk "a" "b" "file" 10] |> |>.
Lemma data_dependencies_lost : (WorkflowRepository.Create with_data empty).1 = Ok tt ∧
  ∃ v, (WorkflowRepository.FindVersion 0 "wf" (WorkflowRepository.Create with_data empty).2).1 = Ok (Some v) ∧
    v.(WorkflowVersion.DataDependencies) = [].
Proof. split; [vm_compute; reflexivity|]. eexists. split; [vm_compute; reflexivity|reflexivity]. Qed.
(** A resource that is upserted for another version stays in the first one. *)
Lemma moved_resource_stays : ∃ y,
  (ResourceRepository.Upsert (machine <| Resource.EnvironmentVersionID := "v2" |>) start).1 = Ok tt ∧
  (ResourceRepository.FindByID "r"
    (ResourceRepository.Upsert (machine <| Resource.EnvironmentVersionID := "v2" |>) start).2).1 = Ok (Some y) ∧
  y.(Resource.EnvironmentVersionID) = "v1".
Proof. eexists. split_and!; [vm_compute; reflexivity|vm_compute; reflexivity|reflexivity]. Qed.
(** An instance that is saved under a new identifier is a second row, and the first is still found. *)
Definition lab (id : string) : Instance_ := Instance.mk id id "" "" "" 0 0.
Lemma renamed_instance_hidden : ∃ y,
  (InstanceRepository.Find 0 (InstanceRepository.Save (lab "new") (InstanceRepository.Save (lab "old") empty).2).2).1 =
    Ok (Some y) ∧ y.(Instance.ID) = "old".
Proof. eexists. split; [vm_compute; reflexivity|reflexivity]. Qed.
End Example.
End Documents.
