(* ===== verification/Installation.v ===== *)
(** * Installing and upgrading the database
      (src/internal/infrastructure/database/bootstrap.go and validation.go)

    The catalog of a SQLite file: its tables with their columns, and the rows of
    schema_metadata. The text of schema/schema.sql and the tables it creates are
    parameters, so that the theorems hold for every version of it. *)

From Stdlib Require Import Ascii.
From S2P Require Import Prelude GoStrings Sql Ports.

Module Bootstrap.
Import Sql.

Module Catalog.
Record Catalog := mk { tables : list (string * list string); metadata : list (string * Time) }.
#[global] Instance eta : Eta Catalog := λ c, mk c.(tables) c.(metadata).
End Catalog.
Abbreviation Catalog := Catalog.Catalog.
Abbreviation world := (Session Catalog).

(** schema.SQL, and the tables that executing it creates. *)
Class CanonicalSchema := { SQL : string; created_tables : list (string * list string) }.

(** ** [requiredTables] *)

Definition word_byte (c : ascii) : bool :=
  ascii_between "a" "z" (lower_byte c) || ascii_between "0" "9" c || is_byte "_" c.
Definition word_start (c : ascii) : bool := ascii_between "a" "z" (lower_byte c) || is_byte "_" c.
(** The longest prefix of bytes that satisfy [p], and the rest. *)
Fixpoint span (p : ascii → bool) (s : string) : string * string :=
  match s with
  | String c r => if p c then let '(a, b) := span p r in (String c a, b) else ("", s)
  | "" => ("", "")
  end.
(** [\s] *)
Definition blank (c : ascii) : bool := bool_decide (byte_of c ∈ [9; 10; 12; 13; 32]).
(** A keyword in any case, and [\s+]. *)
Definition keyword (word s : string) : option string :=
  if has_prefix word (to_lower s) then
    match span blank (drop_str (str_length word) s) with ("", _) => None | (_, rest) => Some rest end
  else None.
(** [(?im)CREATE\s+TABLE\s+([a-z_][a-z0-9_]* )\s*\(] at the start of a text: the name and the rest. *)
Definition match_create (s : string) : option (string * string) :=
  s1 ← keyword "create" s; s2 ← keyword "table" s1;
  match s2 with
  | String c _ =>
    if word_start c then
      let '(name, s3) := span word_byte s2 in
      match (span blank s3).2 with String "(" rest => Some (name, rest) | _ => None end
    else None
  | "" => None
  end.
(** [FindAllStringSubmatch(schema.SQL, -1)] *)
Fixpoint find_creates (fuel : nat) (s : string) : list string :=
  match fuel with
  | O => []
  | S fuel =>
    match match_create s with
    | Some (name, rest) => name :: find_creates fuel rest
    | None => match s with String _ r => find_creates fuel r | "" => [] end
    end
  end.
Definition requiredTables `{CanonicalSchema} : list string := sort_strings (find_creates (S (str_length SQL)) SQL).

Section bootstrap.
Context `{CanonicalSchema, Engine Catalog, Sha256}.
Implicit Types (c : Catalog).

Definition legacySchemaBeforeUserPreferences : string := "e69b7b1e006cddda2f49939e41e5b2c84b7fddb61317a38216258e28b55ef250".
Definition schemaBeforeExecutionMetrics : string := "9bf9465dbc586d92d41480a45fa5d680653ddb6aba0402b132e992fc91c0b9ac".
Definition ErrIncompatibleSchema : error := "database schema is incompatible; recreate the database".

(** [schemaChecksum] *)
Definition schemaChecksum : string := sha256_hex SQL.

(** ** Statements *)
Definition names c : list string := c.(Catalog.tables).*1.
Definition has_table (name : string) c : bool := bool_decide (name ∈ names c).
Definition no_table (name : string) : error := errorf "no such table: %s" [name].
(** A statement that may fail for the state of the catalog. *)
Definition run (st : statement_kind) (f : Catalog → result Catalog) : effr world unit :=
  exec (refusal st) (λ c, match f c with Ok c' => (Ok tt, c') | Err e => (Err e, c) end).
Definition query {A} (f : Catalog → result A) : effr world A := exec (refusal StSelect) (λ c, (f c, c)).

(** [SELECT checksum FROM schema_metadata LIMIT 1] *)
Definition first_checksum c : result string :=
  if has_table "schema_metadata" c then
    match c.(Catalog.metadata) with (checksum, _) :: _ => Ok checksum | [] => Err "sql: no rows in result set" end
  else Err (no_table "schema_metadata").
(** [UPDATE schema_metadata SET checksum=?, applied_at=?] *)
Definition set_checksum (checksum : string) (now : Time) c : result Catalog :=
  if has_table "schema_metadata" c then Ok (c <| Catalog.metadata := (λ _, (checksum, now)) <$> c.(Catalog.metadata) |>)
  else Err (no_table "schema_metadata").
(** [CREATE TABLE IF NOT EXISTS] *)
Definition create_missing (name : string) (columns : list string) c : result Catalog :=
  Ok (if has_table name c then c else c <| Catalog.tables := c.(Catalog.tables) ++ [(name, columns)] |>).
(** [ALTER TABLE ... ADD COLUMN ...] *)
Definition add_column (name column : string) c : result Catalog :=
  match find_row fst name c.(Catalog.tables) with
  | None => Err (no_table name)
  | Some (_, columns) =>
    if bool_decide (column ∈ columns) then Err (errorf "duplicate column name: %s" [column])
    else Ok (c <| Catalog.tables := (update_rows fst name (λ t, (t.1, t.2 ++ [column])) c.(Catalog.tables)).1 |>)
  end.
(** The statements of schema.SQL: they fail when one of the tables is there. *)
Definition create_all c : result Catalog :=
  match List.find (λ name, has_table name c) created_tables.*1 with
  | Some name => Err (errorf "table %s already exists" [name])
  | None => Ok (c <| Catalog.tables := c.(Catalog.tables) ++ created_tables |>)
  end.
Definition insert_metadata (checksum : string) (now : Time) c : result Catalog :=
  if has_table "schema_metadata" c then Ok (c <| Catalog.metadata := c.(Catalog.metadata) ++ [(checksum, now)] |>)
  else Err (no_table "schema_metadata").

(** Errors of a call wrapped by [fmt.Errorf("...: %w", err)]. *)
Definition wrapped_about {A} (format : string) (args : list string) (m : effr world A) : effr world A :=
  let! r := m in eret (match r with Ok a => Ok a | Err e => Err (errorf format (args ++ [e])) end).
Definition wrapped {A} (format : string) (m : effr world A) : effr world A := wrapped_about format [] m.
(** [tx, err := db.BeginTx(ctx, nil)] with its error wrapped, the body, and [tx.Commit()]. *)
Definition transact (begin : string) (commit : option string) (body : effr world unit) : effr world unit :=
  transaction (λ c, (λ e, errorf begin [e]) <$> refusal StBegin c)
    (λ c, (λ e, match commit with Some format => errorf format [e] | None => e end) <$> refusal StCommit c) body.

(** ** validation.go *)

(** [validateMetadata]; [COALESCE(MAX(checksum), '')]. *)
Definition max_checksum c : string :=
  foldr (λ r m, if str_le m r.1 then r.1 else m) "" c.(Catalog.metadata).
Definition validateMetadata : effr world unit :=
  let! r := query (λ c, if has_table "schema_metadata" c
    then Ok (List.length c.(Catalog.metadata), max_checksum c) else Err (no_table "schema_metadata")) in
  eret (match r with
        | Err e => Err (errorf "%w: metadata unavailable: %v" [ErrIncompatibleSchema; e])
        | Ok (rows, checksum) =>
          if negb (bool_decide (rows = 1%nat)) || negb (bool_decide (checksum = schemaChecksum))
          then Err (errorf "%w: expected checksum %s, found checksum %s" [ErrIncompatibleSchema; schemaChecksum; checksum])
          else Ok tt
        end).
(** [requireTable] *)
Definition requireTable (table : string) : effr world unit :=
  let? count := wrapped_about "validate table %q: %w" [table] (query (λ c,
    Ok (List.length (List.filter (λ name, bool_decide (name = table)) (names c))))) in
  eret (if negb (bool_decide (count = 1%nat))
        then Err (errorf "%w: required table %q is missing" [ErrIncompatibleSchema; table]) else Ok tt).
(** [Validate]; [validateIntegrity] returns nil. *)
Definition validateIntegrity : effr world unit := eret (Ok tt).
Definition Validate : effr world unit :=
  let? _ := validateMetadata in
  let? _ := for_effr requireTable requiredTables in
  validateIntegrity.

(** ** bootstrap.go *)

(** [isEmpty]: [name NOT LIKE 'sqlite_%'], in which the underscore stands for any character. *)
Definition internal_table (name : string) : bool := has_prefix "sqlite" (to_lower name) && (6 <? str_length name)%nat.
Definition isEmpty : effr world bool :=
  wrapped "inspect database schema: %w" (query (λ c,
    Ok (bool_decide (List.filter (λ name, negb (internal_table name)) (names c) = [])))).
Definition preferences_columns : list string := ["client_id"; "theme"; "animations_enabled"; "updated_at"].
(** [migrateUserPreferences] *)
Definition migrateUserPreferences : effr world unit :=
  let! checksum := query first_checksum in
  match checksum with
  | Err _ => eret (Ok tt)
  | Ok checksum =>
    if bool_decide (checksum = schemaChecksum) then eret (Ok tt)
    else if negb (bool_decide (checksum = legacySchemaBeforeUserPreferences)) then eret (Ok tt)
    else transact "begin user preferences migration: %w" None (
      let? _ := wrapped "create user preferences table: %w"
        (run (StUpdate "sqlite_master") (create_missing "user_preferences" preferences_columns)) in
      let! clock := draw in
      wrapped "record user preferences migration: %w"
        (run (StUpdate "schema_metadata") (set_checksum schemaBeforeExecutionMetrics (timestamp clock))))
  end.
(** [migrateExecutionMetrics] *)
Definition metrics_columns : list (string * string) :=
  [("transfer_runs", "started_at"); ("transfer_runs", "finished_at"); ("transfer_runs", "transferred_bytes");
   ("task_executions", "transfer_bytes")].
Definition migrateExecutionMetrics : effr world unit :=
  let! checksum := query first_checksum in
  match checksum with
  | Err _ => eret (Ok tt)
  | Ok checksum =>
    if bool_decide (checksum = schemaChecksum) then eret (Ok tt)
    else if negb (bool_decide (checksum = schemaBeforeExecutionMetrics)) then eret (Ok tt)
    else transact "begin execution metrics migration: %w" None (
      let? _ := for_effr (λ statement, wrapped "apply execution metrics migration: %w"
        (run (StUpdate "sqlite_master") (add_column statement.1 statement.2))) metrics_columns in
      let! clock := draw in
      wrapped "record execution metrics migration: %w"
        (run (StUpdate "schema_metadata") (set_checksum schemaChecksum (timestamp clock))))
  end.
(** [installSchema] *)
Definition installSchema : effr world unit :=
  let? _ := transact "begin schema bootstrap: %w" (Some "commit schema bootstrap: %w") (
    let? _ := wrapped "apply canonical schema: %w" (run (StUpdate "sqlite_master") create_all) in
    let! clock := draw in
    wrapped "record schema metadata: %w"
      (run (StInsert "schema_metadata") (insert_metadata schemaChecksum (timestamp clock)))) in
  Validate.
(** [Bootstrap]; [db] is nil or not. *)
Definition Bootstrap (db : option unit) : effr world unit :=
  match db with
  | None => eret (Err (errorf "bootstrap requires a database" []))
  | Some _ =>
    let? _ := wrapped "enable foreign keys: %w" (run (StUpdate "pragma") Ok) in
    let? empty := isEmpty in
    if empty : bool then installSchema
    else
      let? _ := migrateUserPreferences in
      let? _ := migrateExecutionMetrics in
      let! valid := Validate in
      eret (match valid with
            | Ok _ => Ok tt
            | Err e => Err (errorf "%w; remove the existing database file and recreate it: %v" [ErrIncompatibleSchema; e])
            end)
  end.

(** ** What a catalog has to satisfy *)

(** One row of metadata with the checksum of the schema, and every table once. *)
Definition valid c : Prop :=
  (∃ applied, c.(Catalog.metadata) = [(schemaChecksum, applied)]) ∧ "schema_metadata" ∈ names c ∧
  Forall (λ table, List.length (List.filter (λ name, bool_decide (name = table)) (names c)) = 1%nat) requiredTables.
(** No table and no column is lost. *)
Definition extends c c' : Prop :=
  ∀ name columns, (name, columns) ∈ c.(Catalog.tables) → ∃ more, (name, columns ++ more) ∈ c'.(Catalog.tables).

#[global] Instance extends_refl : Reflexive extends.
Proof. intros c name columns Hin. exists []. by rewrite app_nil_r. Qed.
#[global] Instance extends_trans : Transitive extends.
Proof.
  intros a b c Hab Hbc name columns (more & (more' & Hin)%Hbc)%Hab. exists (more ++ more'). by rewrite app_assoc.
Qed.
Lemma extends_app c tables : extends c (c <| Catalog.tables := c.(Catalog.tables) ++ tables |>).
Proof. intros name columns Hin. exists []. rewrite app_nil_r. apply elem_of_app. by left. Qed.
Lemma extends_metadata c rows : extends c (c <| Catalog.metadata := rows |>).
Proof. intros name columns Hin. exists []. by rewrite app_nil_r. Qed.

(** *** Statements only extend *)
Definition keeps (f : Catalog → result Catalog) : Prop := ∀ c c', f c = Ok c' → extends c c'.
Lemma create_missing_keeps name columns : keeps (create_missing name columns).
Proof. intros c c' [= <-]. destruct (has_table name c); [done|]. apply extends_app. Qed.
Lemma set_checksum_keeps checksum now : keeps (set_checksum checksum now).
Proof. intros c c'. unfold set_checksum. destruct (has_table _ c); [|done]. intros [= <-]. apply extends_metadata. Qed.
Lemma insert_metadata_keeps checksum now : keeps (insert_metadata checksum now).
Proof. intros c c'. unfold insert_metadata. destruct (has_table _ c); [|done]. intros [= <-]. apply extends_metadata. Qed.
Lemma create_all_keeps : keeps create_all.
Proof. intros c c'. unfold create_all. destruct (List.find _ _); [done|]. intros [= <-]. apply extends_app. Qed.
Lemma add_column_keeps name column : keeps (add_column name column).
Proof.
  intros c c'. unfold add_column. destruct (find_row _ _ _) as [[n columns]|]; [|done].
  destruct (bool_decide _); [done|]. intros [= <-] name' columns' Hin. cbn.
  destruct (has_row fst name (name', columns')) eqn:E.
  - exists [column]. apply list_elem_of_fmap. exists (name', columns'). by rewrite E.
  - exists []. rewrite app_nil_r. apply list_elem_of_fmap. exists (name', columns'). by rewrite E.
Qed.

(** Reading and checking keep whatever holds. *)
Lemma query_inv {A} I (f : Catalog → result A) : invariant I (query f).
Proof. apply invariant_exec. by intros c a c' Hc [= _ <-]. Qed.
Lemma wrapped_inv {A} I format args (m : effr world A) : invariant I m → invariant I (wrapped_about format args m).
Proof. intros Hm. apply invariant_bind; [done|]. intros r. apply invariant_ret. Qed.
Lemma validate_inv I : invariant I Validate.
Proof.
  apply invariant_bindr; [apply invariant_bind; [apply query_inv|intros; apply invariant_ret]|]. intros _.
  apply invariant_bindr; [|intros; apply invariant_ret].
  apply invariant_for_effr. intros table. apply invariant_bindr; [apply wrapped_inv, query_inv|]. intros count. apply invariant_ret.
Qed.

Section invariant.
Context (c0 : Catalog).
Abbreviation inv := (invariant (extends c0)).
Lemma run_inv st f : keeps f → inv (run st f).
Proof.
  intros Hf. apply invariant_exec. intros c a c' Hc. destruct (f c) as [c1|e] eqn:E; intros [= <- <-].
  etransitivity; [done|]. by apply Hf.
Qed.
Lemma transact_inv begin commit body : inv body → inv (transact begin commit body).
Proof. apply invariant_transaction. Qed.
Lemma migrate_preferences_inv : inv migrateUserPreferences.
Proof.
  apply invariant_bind; [apply query_inv|]. intros [checksum|e]; [|apply invariant_ret].
  destruct (bool_decide _); [apply invariant_ret|]. destruct (negb _); [apply invariant_ret|].
  apply transact_inv, invariant_bindr; [apply wrapped_inv, run_inv, create_missing_keeps|]. intros _.
  apply invariant_bind; [apply invariant_draw|]. intros clock. apply wrapped_inv, run_inv, set_checksum_keeps.
Qed.
Lemma migrate_metrics_inv : inv migrateExecutionMetrics.
Proof.
  apply invariant_bind; [apply query_inv|]. intros [checksum|e]; [|apply invariant_ret].
  destruct (bool_decide _); [apply invariant_ret|]. destruct (negb _); [apply invariant_ret|].
  apply transact_inv, invariant_bindr.
  - apply invariant_for_effr. intros statement. apply wrapped_inv, run_inv, add_column_keeps.
  - intros _. apply invariant_bind; [apply invariant_draw|]. intros clock. apply wrapped_inv, run_inv, set_checksum_keeps.
Qed.
Lemma install_inv : inv installSchema.
Proof.
  apply invariant_bindr; [|intros _; apply validate_inv]. apply transact_inv, invariant_bindr.
  - apply wrapped_inv, run_inv, create_all_keeps.
  - intros _. apply invariant_bind; [apply invariant_draw|]. intros clock. apply wrapped_inv, run_inv, insert_metadata_keeps.
Qed.
Lemma bootstrap_inv db : inv (Bootstrap db).
Proof.
  destruct db; [|apply invariant_ret]. apply invariant_bindr.
  { apply wrapped_inv, run_inv. by intros c c' [= <-]. }
  intros _. apply invariant_bindr; [apply wrapped_inv, query_inv|]. intros []; [apply install_inv|].
  apply invariant_bindr; [apply migrate_preferences_inv|]. intros _.
  apply invariant_bindr; [apply migrate_metrics_inv|]. intros _.
  apply invariant_bind; [apply validate_inv|]. intros r. apply invariant_ret.
Qed.
End invariant.

(** *** Validation decides *)
Lemma query_state {A} (f : Catalog → result A) s r s' : query f s = (r, s') → s' = s ∧ (∀ a, r = Ok a → f s.(db) = Ok a).
Proof.
  unfold query, exec. destruct (refusal _ _); [by intros [= <- <-]|]. destruct (f s.(db)) eqn:E; intros [= <- <-];
    (split; [by destruct s|by intros ? [= <-]]).
Qed.
Lemma str_le_empty s : str_le "" s = true.
Proof. apply bool_decide_eq_true. by destruct s. Qed.
Lemma metadata_ok s s' : validateMetadata s = (Ok tt, s') → s' = s ∧ "schema_metadata" ∈ names s.(db) ∧
  ∃ applied, s.(db).(Catalog.metadata) = [(schemaChecksum, applied)].
Proof.
  intros (r & s1 & [-> Hr]%query_state & E)%ebind_ok. unfold eret in E. destruct r as [[rows checksum]|e]; [|done].
  specialize (Hr _ eq_refl). destruct (has_table _ _) eqn:Et; [|done]. injection Hr as E1 E2.
  apply bool_decide_eq_true in Et. destruct (bool_decide_reflect (rows = 1%nat)) as [->|]; [|done].
  destruct (bool_decide_reflect (checksum = schemaChecksum)) as [->|]; [|done]. injection E as <-. split_and!; [done|done|].
  unfold max_checksum in E2. destruct (Catalog.metadata s.(db)) as [|[x applied] [|]]; [done| |done]. cbn in E2.
  rewrite str_le_empty in E2. subst x. by exists applied.
Qed.
Lemma require_ok table s s' : requireTable table s = (Ok tt, s') → s' = s ∧
  List.length (List.filter (λ name, bool_decide (name = table)) (names s.(db))) = 1%nat.
Proof.
  intros (count & s1 & (r & s2 & [-> Hr]%query_state & E')%ebind_ok & E)%ebindr_ok. unfold eret in *.
  destruct r as [n|]; [|done]. injection E' as <- <-. specialize (Hr _ eq_refl). injection Hr as <-.
  destruct (bool_decide_reflect (List.length (List.filter (λ name, bool_decide (name = table)) (names (db s))) = 1%nat));
    [|done]. by injection E as <-.
Qed.
Lemma validate_ok s s' : Validate s = (Ok tt, s') → s' = s ∧ valid s.(db).
Proof.
  intros ([] & s1 & (-> & Ht & Hm)%metadata_ok & E)%ebindr_ok. apply ebindr_ok in E as ([] & s2 & Hr & [= <-]).
  unfold valid. revert Hr. generalize requiredTables as l. intros l.
  enough (for_effr requireTable l s = (Ok tt, s2) → s2 = s ∧
    Forall (λ table, List.length (List.filter (λ name, bool_decide (name = table)) (names (db s))) = 1%nat) l) as Hl.
  { intros [-> ?]%Hl. by split_and!. }
  induction l as [|table l IH]; cbn [for_effr]; [by intros [= <-]|].
  intros ([] & s3 & [-> Hc]%require_ok & [-> ?]%IH)%ebindr_ok. split; [done|by constructor].
Qed.

(** *** An engine that refuses nothing *)
Section quiet.
Context (quiet : ∀ st c, refusal st c = None).
Lemma run_quiet st f s : run st f s = match f s.(db) with Ok c' => (Ok tt, mk_session c' s.(draws)) | Err e => (Err e, s) end.
Proof. unfold run, exec. rewrite quiet. by destruct (f s.(db)). Qed.
Lemma query_quiet {A} (f : Catalog → result A) s : query f s = (f s.(db), s).
Proof. unfold query, exec. rewrite quiet. destruct (f s.(db)); by destruct s. Qed.
Lemma transact_quiet begin commit body s : transact begin commit body s =
  match body s with (Ok a, s') => (Ok a, s') | (Err e, s') => (Err e, mk_session s.(db) s'.(draws)) end.
Proof. unfold transact, transaction. rewrite quiet. cbn. destruct (body s) as [[]]; [|done]. by rewrite quiet. Qed.
Lemma validate_runs s : valid s.(db) → Validate s = (Ok tt, s).
Proof.
  intros ((applied & Em) & Ht & Hr). unfold Validate, ebindr. unfold validateMetadata, ebind.
  rewrite query_quiet. unfold has_table. rewrite (bool_decide_true (_ ∈ _)) by done. unfold max_checksum. rewrite Em.
  cbn [eret List.length foldr fst]. rewrite str_le_empty.
  rewrite (bool_decide_true (1%nat = 1%nat)), (bool_decide_true (schemaChecksum = _)) by done. cbn [negb orb].
  revert Hr. generalize requiredTables as l. intros l Hl.
  enough (for_effr requireTable l s = (Ok tt, s)) as -> by done.
  induction Hl as [|table l Hc Hl IH]; [done|]. cbn [for_effr]. unfold ebindr at 1.
  enough (requireTable table s = (Ok tt, s)) as -> by done.
  unfold requireTable, wrapped_about, ebindr, ebind. rewrite query_quiet. cbn. rewrite Hc. by rewrite bool_decide_true.
Qed.
End quiet.

(** *** Catalogs that are not known are left alone *)
Definition fresh c : Prop := List.filter (λ name, negb (internal_table name)) (names c) = [].
Definition known c : Prop :=
  fresh c ∨ first_checksum c = Ok legacySchemaBeforeUserPreferences ∨ first_checksum c = Ok schemaBeforeExecutionMetrics.
Lemma migrations_skip s : ¬ known s.(db) →
  (∀ r s', migrateUserPreferences s = (r, s') → s' = s) ∧ (∀ r s', migrateExecutionMetrics s = (r, s') → s' = s).
Proof.
  intros Hk. split; intros r s' (q & s1 & [-> Hq]%query_state & E)%ebind_ok; (destruct q as [checksum|e]; [|by injection E]);
    specialize (Hq _ eq_refl); (destruct (bool_decide (checksum = schemaChecksum)); [by injection E|]);
    case_bool_decide as Ec; try (by injection E); exfalso; apply Hk; right; [left|right]; by rewrite Hq, Ec.
Qed.
Lemma unknown_unchanged s r s' u : ¬ known s.(db) → Bootstrap (Some u) s = (r, s') → s'.(db) = s.(db).
Proof.
  intros Hk. unfold Bootstrap, ebindr. destruct (wrapped _ _ s) as [[[]|e] s1] eqn:E1.
  2:{ intros [= <- <-]. revert E1. apply wrapped_inv with (I := λ c, c = s.(db)); [|done].
      apply invariant_exec. by intros c a c' Hc [= _ <-]. }
  assert (s1.(db) = s.(db)) as Es.
  { revert E1. apply wrapped_inv with (I := λ c, c = s.(db)); [|done]. apply invariant_exec. by intros c a c' Hc [= _ <-]. }
  rewrite <- Es in Hk |- *. clear Es E1 s. destruct (isEmpty s1) as [r2 s2] eqn:E2.
  apply ebind_ok in E2 as (q & s3 & [-> Hq]%query_state & E2). injection E2 as <- ->. destruct q as [empty|e]; [|by intros [= <- <-]].
  specialize (Hq _ eq_refl). injection Hq as <-. rewrite bool_decide_false by (intros Hf; apply Hk; by left).
  destruct (migrations_skip s2 Hk) as [Hu He]. destruct (migrateUserPreferences s2) as [[[]|e] s3] eqn:E3;
    rewrite (Hu _ _ eq_refl) in *; [|by intros [= <- <-]].
  destruct (migrateExecutionMetrics s2) as [[[]|e] s4] eqn:E4; rewrite (He _ _ eq_refl) in *; [|by intros [= <- <-]].
  intros (v & s5 & Ev & [= <- <-])%ebind_ok. by eapply (validate_inv (λ c, c = s2.(db))) in Ev.
Qed.
Lemma bootstrap_valid db s s' : Bootstrap db s = (Ok tt, s') → valid s'.(Sql.db).
Proof.
  destruct db; [|done]. intros ([] & s1 & _ & E)%ebindr_ok. apply ebindr_ok in E as ([] & s2 & _ & E).
  - apply ebindr_ok in E as ([] & s3 & _ & [-> Hv]%validate_ok). done.
  - apply ebindr_ok in E as ([] & s3 & _ & E). apply ebindr_ok in E as ([] & s4 & _ & E).
    apply ebind_ok in E as ([[]|e] & s5 & Ev & E); [|done]. injection E as <-. by apply validate_ok in Ev as [-> ?].
Qed.

(** *** Catalogs that are completed *)
Abbreviation once ns := (Forall (λ table, List.length (List.filter (λ name, bool_decide (name = table)) ns) = 1%nat)
  requiredTables).
(** Executing schema.SQL creates each table that it names once, the metadata among them. *)
Definition installs : Prop := "schema_metadata" ∈ created_tables.*1 ∧ once created_tables.*1.
(** A catalog of one of the two older versions: the tables it needs, and none of the new columns. *)
Definition upgradable c : Prop := ∃ checksum applied runs tasks,
  c.(Catalog.metadata) = [(checksum, applied)] ∧ "schema_metadata" ∈ names c ∧
  find_row fst "transfer_runs" c.(Catalog.tables) = Some ("transfer_runs", runs) ∧
  find_row fst "task_executions" c.(Catalog.tables) = Some ("task_executions", tasks) ∧
  "started_at" ∉ runs ∧ "finished_at" ∉ runs ∧ "transferred_bytes" ∉ runs ∧ "transfer_bytes" ∉ tasks ∧
  (checksum = legacySchemaBeforeUserPreferences ∧ "user_preferences" ∉ names c ∧ once (names c ++ ["user_preferences"]) ∨
   checksum = schemaBeforeExecutionMetrics ∧ once (names c)).

Lemma add_column_runs c name column n columns : find_row fst name c.(Catalog.tables) = Some (n, columns) → column ∉ columns →
  ∃ c', add_column name column c = Ok c' ∧ names c' = names c ∧ c'.(Catalog.metadata) = c.(Catalog.metadata) ∧
    ∀ k, find_row fst k c'.(Catalog.tables) =
      if bool_decide (k = name) then Some (n, columns ++ [column]) else find_row fst k c.(Catalog.tables).
Proof.
  intros E Hn. unfold add_column. rewrite E, bool_decide_false by done. eexists. split_and!; [done| |done|].
  - apply (update_rows_keys fst name). done.
  - intros k. cbn. etransitivity; [by apply (find_row_update fst name k (λ t, (t.1, t.2 ++ [column])))|].
    case_bool_decide as Hk; [|done]. by rewrite Hk, E.
Qed.

Lemma ebind_step {A B} (m : eff world A) (k : A → eff world B) s a s' : m s = (a, s') → ebind m k s = k a s'.
Proof. unfold ebind. by intros ->. Qed.
Lemma ebindr_step {A B} (m : effr world A) (k : A → effr world B) s a s' : m s = (Ok a, s') → ebindr m k s = k a s'.
Proof. unfold ebindr. by intros ->. Qed.
Lemma wrapped_step {A} format (m : effr world A) s a s' : m s = (Ok a, s') → wrapped format m s = (Ok a, s').
Proof. unfold wrapped, wrapped_about, ebind. by intros ->. Qed.

Section completes.
Context (quiet : ∀ st c, refusal st c = None).
Lemma run_ok st f s c' : f s.(db) = Ok c' → run st f s = (Ok tt, mk_session c' s.(draws)).
Proof. intros E. by rewrite run_quiet, E. Qed.
Lemma add_columns_run c runs tasks s : s.(db) = c →
  find_row fst "transfer_runs" c.(Catalog.tables) = Some ("transfer_runs", runs) →
  find_row fst "task_executions" c.(Catalog.tables) = Some ("task_executions", tasks) →
  "started_at" ∉ runs → "finished_at" ∉ runs → "transferred_bytes" ∉ runs → "transfer_bytes" ∉ tasks →
  ∃ c', for_effr (λ statement, wrapped "apply execution metrics migration: %w"
      (run (StUpdate "sqlite_master") (add_column statement.1 statement.2))) metrics_columns s = (Ok tt, mk_session c' s.(draws)) ∧
    names c' = names c ∧ c'.(Catalog.metadata) = c.(Catalog.metadata).
Proof.
  intros Hs Er Et A1 A2 A3 A4. cbn [for_effr metrics_columns fst snd].
  destruct (add_column_runs c "transfer_runs" "started_at" _ _ Er A1) as (c1 & E1 & N1 & M1 & F1).
  destruct (add_column_runs c1 "transfer_runs" "finished_at" "transfer_runs" (runs ++ ["started_at"])) as (c2 & E2 & N2 & M2 & F2);
    [by rewrite F1|set_solver|].
  destruct (add_column_runs c2 "transfer_runs" "transferred_bytes" "transfer_runs" ((runs ++ ["started_at"]) ++ ["finished_at"]))
    as (c3 & E3 & N3 & M3 & F3); [by rewrite F2|set_solver|].
  destruct (add_column_runs c3 "task_executions" "transfer_bytes" "task_executions" tasks)
    as (c4 & E4 & N4 & M4 & F4); [by rewrite F3, F2, F1|done|].
  exists c4. subst c. rewrite (ebindr_step _ _ _ _ _ (wrapped_step _ _ _ _ _ (run_ok _ _ s c1 E1))).
  rewrite (ebindr_step _ _ _ _ _ (wrapped_step _ _ _ _ _ (run_ok _ _ (mk_session c1 s.(draws)) c2 E2))).
  rewrite (ebindr_step _ _ _ _ _ (wrapped_step _ _ _ _ _ (run_ok _ _ (mk_session c2 s.(draws)) c3 E3))).
  rewrite (ebindr_step _ _ _ _ _ (wrapped_step _ _ _ _ _ (run_ok _ _ (mk_session c3 s.(draws)) c4 E4))).
  split_and!; [done|congruence|congruence].
Qed.
Lemma bootstrap_quiet s u : Bootstrap (Some u) s =
  if bool_decide (fresh s.(db)) then installSchema s else
  (let? _ := migrateUserPreferences in let? _ := migrateExecutionMetrics in let! valid := Validate in
   eret (match valid with
         | Ok _ => Ok tt
         | Err e => Err (errorf "%w; remove the existing database file and recreate it: %v" [ErrIncompatibleSchema; e])
         end)) s.
Proof.
  assert (wrapped "enable foreign keys: %w" (run (StUpdate "pragma") Ok) s = (Ok tt, s)) as E1.
  { apply wrapped_step. rewrite (run_ok _ Ok s s.(db)) by done. by destruct s. }
  assert (isEmpty s = (Ok (bool_decide (fresh s.(db))), s)) as E2.
  { apply wrapped_step. by rewrite query_quiet. }
  unfold Bootstrap. rewrite (ebindr_step _ _ _ _ _ E1), (ebindr_step _ _ _ _ _ E2). by destruct (bool_decide _).
Qed.
Lemma fresh_metadata c : "schema_metadata" ∈ names c → ¬ fresh c.
Proof.
  intros Hin Hf. assert ("schema_metadata" ∈ List.filter (λ name, negb (internal_table name)) (names c)) as Hx.
  { apply list_elem_of_In, filter_In. split; [by apply list_elem_of_In|done]. }
  unfold fresh in Hf. rewrite Hf in Hx. by apply not_elem_of_nil in Hx.
Qed.
Lemma checksum_found c checksum applied : "schema_metadata" ∈ names c → c.(Catalog.metadata) = [(checksum, applied)] →
  first_checksum c = Ok checksum.
Proof. intros Ht Em. unfold first_checksum, has_table. by rewrite bool_decide_true, Em by done. Qed.
Lemma valid_unchanged s u : valid s.(db) → Bootstrap (Some u) s = (Ok tt, s).
Proof.
  intros Hv. pose proof Hv as ((applied & Em) & Ht & _). rewrite bootstrap_quiet, bool_decide_false by (by apply fresh_metadata).
  pose proof (checksum_found _ _ _ Ht Em) as Ec.
  assert (migrateUserPreferences s = (Ok tt, s)) as E1.
  { unfold migrateUserPreferences. rewrite (ebind_step _ _ _ _ _ (query_quiet quiet _ s)), Ec. by rewrite bool_decide_true. }
  assert (migrateExecutionMetrics s = (Ok tt, s)) as E2.
  { unfold migrateExecutionMetrics. rewrite (ebind_step _ _ _ _ _ (query_quiet quiet _ s)), Ec. by rewrite bool_decide_true. }
  rewrite (ebindr_step _ _ _ _ _ E1), (ebindr_step _ _ _ _ _ E2).
  by rewrite (ebind_step _ _ _ _ _ (validate_runs quiet s Hv)).
Qed.
Lemma fresh_installed s u : installs → s.(db) = Catalog.mk [] [] → ∃ s', Bootstrap (Some u) s = (Ok tt, s').
Proof.
  intros [Hm Ho] Es. rewrite bootstrap_quiet, Es, bool_decide_true by done. unfold installSchema.
  assert (create_all s.(db) = Ok (Catalog.mk created_tables [])) as Ec.
  { rewrite Es. unfold create_all. destruct (List.find _ _) eqn:E; [|done]. apply find_some in E as [_ E].
    apply bool_decide_eq_true in E. by apply not_elem_of_nil in E. }
  set (s1 := mk_session (Catalog.mk created_tables []) (S s.(draws))).
  assert (insert_metadata schemaChecksum (timestamp s.(draws)) s1.(db) =
    Ok (Catalog.mk created_tables [(schemaChecksum, timestamp s.(draws))])) as Ei.
  { unfold insert_metadata, has_table. by rewrite bool_decide_true. }
  set (s2 := mk_session (Catalog.mk created_tables [(schemaChecksum, timestamp s.(draws))]) (S s.(draws))).
  exists s2. erewrite ebindr_step; [apply (validate_runs quiet s2)|].
  - split_and!; [by eexists|done|done].
  - rewrite transact_quiet by done. rewrite (ebindr_step _ _ _ _ _ (wrapped_step _ _ _ _ _ (run_ok _ _ s _ Ec))).
    rewrite (ebind_step draw _ _ s.(draws) s1) by done. by rewrite (wrapped_step _ _ _ _ _ (run_ok _ _ s1 _ Ei)).
Qed.
Context (current : schemaChecksum ≠ legacySchemaBeforeUserPreferences ∧ schemaChecksum ≠ schemaBeforeExecutionMetrics).
(** The second migration, from the version before it. *)
Lemma metrics_migrated s applied runs tasks :
  s.(db).(Catalog.metadata) = [(schemaBeforeExecutionMetrics, applied)] → "schema_metadata" ∈ names s.(db) →
  find_row fst "transfer_runs" s.(db).(Catalog.tables) = Some ("transfer_runs", runs) →
  find_row fst "task_executions" s.(db).(Catalog.tables) = Some ("task_executions", tasks) →
  "started_at" ∉ runs → "finished_at" ∉ runs → "transferred_bytes" ∉ runs → "transfer_bytes" ∉ tasks →
  once (names s.(db)) → ∃ s', migrateExecutionMetrics s = (Ok tt, s') ∧ valid s'.(db).
Proof.
  intros Em Ht Er Ek A1 A2 A3 A4 Ho. destruct (add_columns_run _ runs tasks s eq_refl Er Ek A1 A2 A3 A4) as (c & El & En & Ec).
  set (s1 := mk_session c (S s.(draws))).
  assert (set_checksum schemaChecksum (timestamp s.(draws)) s1.(db) =
    Ok (c <| Catalog.metadata := [(schemaChecksum, timestamp s.(draws))] |>)) as Es.
  { unfold set_checksum, has_table. cbn [s1 db]. rewrite En, bool_decide_true, Ec, Em by done. done. }
  eexists. split.
  - unfold migrateExecutionMetrics. rewrite (ebind_step _ _ _ _ _ (query_quiet quiet _ s)), (checksum_found _ _ _ Ht Em).
    rewrite bool_decide_false by (destruct current; congruence). rewrite bool_decide_true by done. cbn [negb].
    rewrite transact_quiet by done. rewrite (ebindr_step _ _ _ _ _ El), (ebind_step draw _ _ s.(draws) s1) by done.
    by rewrite (wrapped_step _ _ _ _ _ (run_ok _ _ s1 _ Es)).
  - unfold valid. cbn [db]. split_and!; [by eexists| |].
    + change (names _) with (names c). by rewrite En.
    + change (names _) with (names c). by rewrite En.
Qed.
(** The first one leaves a catalog for the second. *)
Lemma preferences_migrated s applied :
  s.(db).(Catalog.metadata) = [(legacySchemaBeforeUserPreferences, applied)] → "schema_metadata" ∈ names s.(db) →
  "user_preferences" ∉ names s.(db) →
  ∃ s', migrateUserPreferences s = (Ok tt, s') ∧
    s'.(db) = Catalog.mk (s.(db).(Catalog.tables) ++ [("user_preferences", preferences_columns)])
      [(schemaBeforeExecutionMetrics, timestamp s.(draws))].
Proof.
  intros Em Ht Hu. set (c := s.(db) <| Catalog.tables := s.(db).(Catalog.tables) ++ [("user_preferences", preferences_columns)] |>).
  assert (create_missing "user_preferences" preferences_columns s.(db) = Ok c) as Ec.
  { unfold create_missing, has_table. by rewrite bool_decide_false. }
  set (s1 := mk_session c (S s.(draws))).
  assert (set_checksum schemaBeforeExecutionMetrics (timestamp s.(draws)) s1.(db) =
    Ok (c <| Catalog.metadata := [(schemaBeforeExecutionMetrics, timestamp s.(draws))] |>)) as Es.
  { unfold set_checksum, has_table. cbn [s1 db]. rewrite bool_decide_true.
    - change (Catalog.metadata c) with (Catalog.metadata s.(db)). by rewrite Em.
    - unfold names, c. cbn. rewrite fmap_app. apply elem_of_app. by left. }
  eexists. split; [|shelve]. unfold migrateUserPreferences.
  rewrite (ebind_step _ _ _ _ _ (query_quiet quiet _ s)), (checksum_found _ _ _ Ht Em).
  rewrite bool_decide_false by (destruct current; congruence). rewrite bool_decide_true by done. cbn [negb].
  rewrite transact_quiet by done. rewrite (ebindr_step _ _ _ _ _ (wrapped_step _ _ _ _ _ (run_ok _ _ s _ Ec))).
  rewrite (ebind_step draw _ _ s.(draws) s1) by done. by rewrite (wrapped_step _ _ _ _ _ (run_ok _ _ s1 _ Es)).
  Unshelve. done.
Qed.
(** A catalog of one of the two older versions is upgraded in place. *)
Lemma upgraded s u : upgradable s.(db) → ∃ s', Bootstrap (Some u) s = (Ok tt, s').
Proof.
  intros (checksum & applied & runs & tasks & Em & Ht & Er & Ek & A1 & A2 & A3 & A4 & Hc).
  rewrite bootstrap_quiet, bool_decide_false by (by apply fresh_metadata).
  destruct Hc as [(-> & Hu & Ho)|[-> Ho]].
  - destruct (preferences_migrated s applied Em Ht Hu) as (s1 & E1 & Ed). rewrite (ebindr_step _ _ _ _ _ E1).
    destruct (metrics_migrated s1 (timestamp s.(draws)) runs tasks) as (s2 & E2 & Hv); try done; rewrite ?Ed.
    + done.
    + unfold names. cbn. rewrite fmap_app. apply elem_of_app. by left.
    + cbn [Catalog.tables]. by rewrite find_row_app, Er.
    + cbn [Catalog.tables]. by rewrite find_row_app, Ek.
    + unfold names. cbn. by rewrite fmap_app.
    + rewrite (ebindr_step _ _ _ _ _ E2), (ebind_step _ _ _ _ _ (validate_runs quiet s2 Hv)). by eexists.
  - assert (migrateUserPreferences s = (Ok tt, s)) as E1.
    { unfold migrateUserPreferences. rewrite (ebind_step _ _ _ _ _ (query_quiet quiet _ s)), (checksum_found _ _ _ Ht Em).
      rewrite bool_decide_false by (destruct current; congruence). done. }
    destruct (metrics_migrated s applied runs tasks) as (s2 & E2 & Hv); try done.
    rewrite (ebindr_step _ _ _ _ _ E1), (ebindr_step _ _ _ _ _ E2), (ebind_step _ _ _ _ _ (validate_runs quiet s2 Hv)).
    by eexists.
Qed.
End completes.

(** C40: Bootstrap leaves a usable database or refuses it. Whatever the engine does, no table and no
    column is lost, and a success means that the metadata has the checksum of the schema and every
    table that schema.SQL names is there once; a database that is neither new nor one of the two
    versions whose checksums the code knows is left as it is, and is refused when it is not of the
    current version. With an engine that refuses no statement, a database of the current version
    is accepted unchanged and an empty one is installed, given that executing schema.SQL creates
    each table that it names once, the metadata table among them. *)
Theorem bootstrap_installs u s r s' : Bootstrap (Some u) s = (r, s') →
  (extends s.(db) s'.(db) ∧ (r = Ok tt → valid s'.(db)) ∧
   (¬ known s.(db) → s'.(db) = s.(db) ∧ (¬ valid s.(db) → ∃ e, r = Err e))) ∧
  ((∀ st c, refusal st c = None) →
   (valid s.(db) → r = Ok tt ∧ s' = s) ∧ (installs → s.(db) = Catalog.mk [] [] → r = Ok tt)).
Proof.
  intros E. split; [split_and!|].
  - by apply (bootstrap_inv s.(db) (Some u) s r s').
  - intros ->. by apply bootstrap_valid in E.
  - intros Hk. pose proof (unknown_unchanged _ _ _ _ Hk E) as Es. split; [done|]. intros Hv.
    destruct r as [[]|e]; [|by eexists]. apply bootstrap_valid in E. by rewrite Es in E.
  - intros quiet. split.
    + intros Hv. rewrite (valid_unchanged quiet s u Hv) in E. by injection E as <- <-.
    + intros Hi Es. destruct (fresh_installed quiet s u Hi Es) as [t Et]. rewrite Et in E. by injection E as <- <-.
Qed.
End bootstrap.

(** ** A concrete schema *)
Module Example.
Definition text : string :=
  "CREATE TABLE schema_metadata (checksum TEXT NOT NULL); create table
    transfer_runs(id TEXT); CREATE TABLE task_executions (id TEXT); CREATE INDEX i ON transfer_runs(id);
    CREATE TABLE user_preferences (client_id TEXT)".
#[local] Instance canonical : CanonicalSchema := {|
  SQL := text;
  created_tables := [("schema_metadata", ["checksum"; "applied_at"]);
    ("transfer_runs", ["id"; "started_at"; "finished_at"; "transferred_bytes"]); ("task_executions", ["id"; "transfer_bytes"]);
    ("user_preferences", preferences_columns)]
|}.
#[local] Instance engine : Engine Catalog := {|
  refusal _ _ := None; violation _ _ := "constraint failed"; timestamp n := Z.of_nat n + 1
|}.
#[local] Instance sha : Sha256 := λ _, "current".
Definition legacy : world := mk_session {|
  Catalog.tables := [("schema_metadata", ["checksum"; "applied_at"]); ("transfer_runs", ["id"]); ("task_executions", ["id"])];
  Catalog.metadata := [(legacySchemaBeforeUserPreferences, 1)] |} 1.

Lemma required_tables : requiredTables = ["schema_metadata"; "task_executions"; "transfer_runs"; "user_preferences"].
Proof. vm_compute. reflexivity. Qed.
Definition empty : world := mk_session (Catalog.mk [] []) 0.
Lemma bootstrap_installs_witness : ∃ s', Bootstrap (Some tt) empty = (Ok tt, s') ∧ valid s'.(db).
Proof.
  destruct (Bootstrap (Some tt) empty) as [r s'] eqn:E. pose proof (bootstrap_installs tt empty r s' E) as [(_ & Hv & _) Hq].
  assert (r = Ok tt) as Hr.
  { apply Hq; [reflexivity| |reflexivity]. split; apply (bool_decide_unpack _); vm_compute; exact Logic.I. }
  exists s'. split; [by rewrite Hr|by apply Hv].
Defined.
(** A database of an older version is taken to the current one in place. *)
Lemma legacy_upgraded : ∃ s', Bootstrap (Some tt) legacy = (Ok tt, s').
Proof.
  apply upgraded; [done|by split|]. exists legacySchemaBeforeUserPreferences, 1, ["id"], ["id"].
  split_and!; try reflexivity; apply (bool_decide_unpack _); vm_compute; exact Logic.I.
Qed.
(** A table whose name begins with "sqlite" is not counted, so the schema is installed beside it. *)
Definition odd : world := mk_session (Catalog.mk [("sqliteish", [])] []) 0.
Lemma sqlite_names_ignored : (Bootstrap (Some tt) odd).1 = Ok tt.
Proof. vm_compute. reflexivity. Qed.
End Example.
End Bootstrap.
