(* ===== verification/Credentials.v ===== *)
(** * Key files and settings
      (src/internal/infrastructure/credentials/sshkey/manager.go and config/config.go)

    Module [SSHKeys]: service keys that ssh-keygen makes in a directory, with the files and
    the command as an interface. Module [Settings]: what the server reads from its environment. *)

From Stdlib Require Import Ascii.
From S2P Require Import Prelude GoStrings GoFloat GoPath Shell Ports Sql RemoteStorage Api.

Module SSHKeys.

(** The calls of [os] and of ssh-keygen; a directory entry is a name and whether it is a
    directory. *)
Class KeyFiles (W : Type) := {
  MkdirAll : string → effr W unit;
  Lstat : string → effr W unit;
  IsNotExist : error → bool;
  ssh_keygen : list string → eff W (string * option error);
  Chmod : string → effr W unit;
  ReadFile : string → effr W string;
  RemoveFile : string → effr W unit;
  ReadDir : string → effr W (list (string * bool));
  Stat : string → effr W bool
}.

(** ** Identifiers *)

(** [^[a-zA-Z0-9][a-zA-Z0-9_-]{0,63}$] *)
Definition letter_digit (c : ascii) : bool := ascii_between "a" "z" (lower_byte c) || ascii_between "0" "9" c.
Definition id_byte (c : ascii) : bool := letter_digit c || is_byte "_" c || is_byte "-" c.
Definition validID (id : string) : bool :=
  match id with
  | String c rest => letter_digit c && str_forall id_byte rest && (str_length rest <=? 63)%nat
  | "" => false
  end.

(** ** The wire format of public keys *)
Definition byte_char (z : Z) : ascii := Base64.byte (z mod 256).
(** [binary.BigEndian.PutUint32] and [binary.BigEndian.Uint32] *)
Definition put_uint32 (z : Z) : string :=
  String (byte_char (z / 16777216)) (String (byte_char (z / 65536)) (String (byte_char (z / 256)) (String (byte_char z) ""))).
Definition uint32 (s : string) : Z :=
  match s with
  | String a (String b (String c (String d _))) => byte_of a * 16777216 + byte_of b * 65536 + byte_of c * 256 + byte_of d
  | _ => 0
  end.
(** [sshString] *)
Definition sshString (value : string) : string := put_uint32 (Z.of_nat (str_length value) mod 2 ^ 32) +:+ value.
(** [publicMaterial] *)
Definition PublicKeySize : Z := 32.
Definition wire_key (wire : string) : result string :=
  let size := Z.of_nat (str_length wire) in
  if bool_decide (size < 4) then Err (errorf "invalid SSH public key" [])
  else
    let offset := 4 + uint32 wire in
    if bool_decide (size < offset + 4) then Err (errorf "invalid SSH public key" [])
    else
      let keySize := uint32 (drop_str (Z.to_nat offset) wire) in
      let offset := offset + 4 in
      if negb (bool_decide (keySize = PublicKeySize)) || negb (bool_decide (size = offset + keySize))
      then Err (errorf "invalid ed25519 public key" []) else Ok (drop_str (Z.to_nat offset) wire).
Definition publicMaterial (value : string) : result string :=
  match fields value with
  | algorithm :: encoded :: _ =>
    if negb (bool_decide (algorithm = "ssh-ed25519")) then Err (errorf "generated key is not ssh-ed25519" [])
    else match Base64.decode encoded with
         | None => Err (errorf "illegal base64 data" [])
         | Some wire => wire_key wire
         end
  | _ => Err (errorf "generated key is not ssh-ed25519" [])
  end.
(** [fingerprint]; [sum256] is the sum as bytes. *)
Class Sum256 := sum256 : string → string.
Definition fingerprint `{Sum256} (public : string) : string :=
  "SHA256:" +:+ trim_right (is_byte "=") (Base64.encode (sum256 (sshString "ssh-ed25519" +:+ sshString public))).

Section manager.
Context `{KeyFiles W, Sum256} (directory : string).

(** ** [Manager.Generate] *)
Definition key_of (id privatePath publicKey public : string) : SSHKey :=
  SSHKey.mk id ("file:" +:+ privatePath) publicKey (fingerprint public).
Definition keygen_arguments (comment privatePath : string) : list string :=
  ["-q"; "-t"; "ed25519"; "-N"; ""; "-C"; trim_space comment; "-f"; privatePath].
Definition Generate (id comment : string) : effr W SSHKey :=
  if negb (validID id) then eret (Err (errorf "invalid SSH key id" []))
  else
    let? _ := MkdirAll directory in
    let privatePath := path_Join [directory; id] in
    let! found := Lstat privatePath in
    match found with
    | Ok _ => eret (Err (errorf "SSH key %q already exists" [id]))
    | Err e =>
      if negb (IsNotExist e) then eret (Err e)
      else
        let! made := ssh_keygen (keygen_arguments comment privatePath) in
        match made.2 with
        | Some e => eret (Err (errorf "generate OpenSSH key: %w: %s" [e; trim_space made.1]))
        | None =>
          let? _ := Chmod privatePath in
          let? content := ReadFile (privatePath +:+ ".pub") in
          let publicKey := trim_space content in
          match publicMaterial publicKey with
          | Ok public => eret (Ok (key_of id privatePath publicKey public))
          | Err e =>
            let! _ := RemoveFile privatePath in
            let! _ := RemoveFile (privatePath +:+ ".pub") in
            eret (Err e)
          end
        end
    end.

(** ** [Manager.List] *)
Definition list_key (entry : string * bool) : effr W (option SSHKey) :=
  if entry.2 || negb (has_suffix ".pub" entry.1) then eret (Ok None)
  else
    let id := trim_suffix ".pub" entry.1 in
    if negb (validID id) then eret (Ok None)
    else
      let privatePath := path_Join [directory; id] in
      let! info := Stat privatePath in
      match info with
      | Ok false =>
        let? content := ReadFile (path_Join [directory; entry.1]) in
        let publicKey := trim_space content in
        match publicMaterial publicKey with
        | Ok public => eret (Ok (Some (key_of id privatePath publicKey public)))
        | Err e => eret (Err (errorf "read SSH key %q: %w" [id; e]))
        end
      | _ => eret (Ok None)
      end.
Definition sort_keys (keys : list SSHKey) : list SSHKey := Sql.sort_rows (Sql.by_text SSHKey.ID) keys.
Definition List : effr W (list SSHKey) :=
  let! entries := ReadDir directory in
  match entries with
  | Err e => eret (if IsNotExist e then Ok [] else Err e)
  | Ok entries => let? keys := map_effr list_key entries in eret (Ok (sort_keys (omap id keys)))
  end.
Definition manager : Api.SSHKeys W := {| Api.Generate := Generate; Api.ListKeys := List |}.
End manager.

(** ** Keys that are written are read *)
Lemma byte_of_char z : byte_of (byte_char z) = z mod 256.
Proof.
  unfold byte_char, Base64.byte, byte_of. rewrite N_ascii_embedding; [|pose proof (Z.mod_pos_bound z 256 eq_refl); lia].
  rewrite Z2N.id; [done|]. by apply Z.mod_pos_bound.
Qed.
Lemma uint32_put z rest : 0 ≤ z < 2 ^ 32 → uint32 (put_uint32 z +:+ rest) = z.
Proof. intros Hz. unfold put_uint32. rewrite !str_app_String. unfold uint32. rewrite !byte_of_char. Z.div_mod_to_equations. lia. Qed.
Lemma uint32_nonneg s : 0 ≤ uint32 s.
Proof.
  destruct s as [|a [|b [|c [|d s]]]]; cbn [uint32]; try lia.
  pose proof (Base64.byte_of_range a). pose proof (Base64.byte_of_range b). pose proof (Base64.byte_of_range c).
  pose proof (Base64.byte_of_range d). lia.
Qed.
Lemma str_length_put z : str_length (put_uint32 z) = 4%nat.
Proof. done. Qed.
Lemma wire_round_trip algorithm key : Z.of_nat (str_length algorithm) < 2 ^ 32 → str_length key = 32%nat →
  wire_key (sshString algorithm +:+ sshString key) = Ok key.
Proof.
  intros Ha Hk. unfold wire_key, sshString. rewrite Hk. set (n := str_length algorithm) in *.
  rewrite (Z.mod_small (Z.of_nat n)) by lia. change (Z.of_nat 32 mod 2 ^ 32) with 32.
  rewrite str_app_assoc, uint32_put, !str_length_app, !str_length_put by lia. fold n. rewrite Hk.
  rewrite bool_decide_false by lia. rewrite bool_decide_false by lia.
  rewrite <- str_app_assoc.
  assert (drop_str (Z.to_nat (4 + Z.of_nat n)) ((put_uint32 (Z.of_nat n) +:+ algorithm) +:+ (put_uint32 32 +:+ key)) =
    put_uint32 32 +:+ key) as ->.
  { replace (Z.to_nat _) with (str_length (put_uint32 (Z.of_nat n) +:+ algorithm)); [apply drop_str_app|].
    rewrite str_length_app, str_length_put. fold n. lia. }
  rewrite uint32_put by lia. change (bool_decide (32 = PublicKeySize)) with true. rewrite bool_decide_true by lia. cbn [negb orb].
  f_equal. rewrite <- str_app_assoc.
  replace (Z.to_nat _) with (str_length ((put_uint32 (Z.of_nat n) +:+ algorithm) +:+ put_uint32 32)); [apply drop_str_app|].
  rewrite !str_length_app, !str_length_put. fold n. lia.
Qed.
Definition plain_word (s : string) : Prop := str_forall (λ c, negb (is_space c)) s = true.
Lemma fields_word word w s : plain_word w → fields_from word (w +:+ s) = fields_from (word +:+ w) s.
Proof.
  revert word. induction w as [|c w IH]; intros word Hw; [by rewrite str_app_nil_r|]. unfold plain_word in *.
  cbn [str_forall] in Hw. rewrite str_app_String. cbn [fields_from].
  apply andb_true_iff in Hw as [Hc%negb_true_iff Hw]. rewrite Hc, IH by done. by rewrite str_app_assoc.
Qed.
Lemma fields_space w s : plain_word w → w ≠ "" → fields (w +:+ String " " s) = w :: fields s.
Proof. intros Hw Hn. unfold fields. rewrite fields_word by done. cbn. by rewrite bool_decide_false. Qed.
(** The line that ssh-keygen writes for a key. *)
Definition public_line (key comment : string) : string :=
  "ssh-ed25519" +:+ String " " (Base64.encode (sshString "ssh-ed25519" +:+ sshString key) +:+ String " " comment).
Lemma public_key_read key comment : str_length key = 32%nat → publicMaterial (public_line key comment) = Ok key.
Proof.
  intros Hk. unfold publicMaterial, public_line. rewrite fields_space by done.
  set (wire := sshString "ssh-ed25519" +:+ sshString key).
  rewrite fields_space; [|eapply str_forall_impl, Base64.encode_digits; apply Base64.all_digit_bytes; vm_compute; reflexivity|].
  2:{ intros E. pose proof (Base64.decode_encode wire) as D. rewrite E in D. injection D as D. by subst wire. }
  change (bool_decide ("ssh-ed25519" = "ssh-ed25519")) with true. cbn [negb]. rewrite Base64.decode_encode.
  by apply wire_round_trip.
Qed.
(** Whatever is accepted has the size of a key. *)
Lemma public_material_size value key : publicMaterial value = Ok key → str_length key = 32%nat.
Proof.
  unfold publicMaterial. destruct (fields value) as [|algorithm [|encoded l]]; [done|done|]. destruct (negb _); [done|].
  destruct (Base64.decode encoded) as [wire|]; [|done]. unfold wire_key. case_bool_decide; [done|]. case_bool_decide; [done|].
  set (k := uint32 (drop_str _ wire)). destruct (bool_decide_reflect (k = PublicKeySize)) as [Ek|]; [|done].
  destruct (bool_decide_reflect (Z.of_nat (str_length wire) = 4 + uint32 wire + 4 + k)) as [El|]; [|done]. intros [= <-].
  rewrite str_length_drop. pose proof (uint32_nonneg wire). unfold PublicKeySize in Ek. lia.
Qed.
End SSHKeys.

(** ** config.go *)
Module Config.

Module Settings.
Record Settings := mk {
  HTTPAddress : string; APIToken : string; APIAllowedOrigins : list string; LocalStorageRoot : string;
  DefaultNamespace : string; KubernetesAPIServer : string; KubernetesToken : string; KubernetesCAFile : string;
  KubernetesInsecureSkipTLS : bool; KubernetesCleanupEnabled : bool; KubernetesCleanupInterval : Duration;
  KubernetesHistoryRetention : Duration; ConnectionCheckInterval : Duration; ConsoleEnabled : bool;
  SlurmScriptDirectory : string; SSHKeyDirectory : string; SimulationBackend : string; SimGridBinaryPath : string;
  SimGridWorkspace : string; SimGridMaxConcurrent : Z; SimGridTimeout : Duration; SimGridReferenceFLOPS : float64;
  ArtifactStoreRoot : string; BuildContextMaxBytes : Z; Buildctl : string; Apptainer : string
}.
#[global] Instance eta : Eta Settings := λ s,
  mk s.(HTTPAddress) s.(APIToken) s.(APIAllowedOrigins) s.(LocalStorageRoot) s.(DefaultNamespace) s.(KubernetesAPIServer)
    s.(KubernetesToken) s.(KubernetesCAFile) s.(KubernetesInsecureSkipTLS) s.(KubernetesCleanupEnabled)
    s.(KubernetesCleanupInterval) s.(KubernetesHistoryRetention) s.(ConnectionCheckInterval) s.(ConsoleEnabled)
    s.(SlurmScriptDirectory) s.(SSHKeyDirectory) s.(SimulationBackend) s.(SimGridBinaryPath) s.(SimGridWorkspace)
    s.(SimGridMaxConcurrent) s.(SimGridTimeout) s.(SimGridReferenceFLOPS) s.(ArtifactStoreRoot) s.(BuildContextMaxBytes)
    s.(Buildctl) s.(Apptainer).
End Settings.
Abbreviation Settings := Settings.Settings.

Section load.
(** [os.Getenv], [time.ParseDuration] and [strconv.ParseFloat]. *)
Context (Getenv : string → string) (ParseDuration : string → option Duration) (ParseFloat : string → option float64).
Implicit Types settings : Settings.

(** [integerOrDefault], [floatOrDefault], [durationOrDefault] *)
Definition integerOrDefault (value : string) (fallback : Z) : Z :=
  match parse_int value with
  | Some parsed => if bool_decide (value = "") || bool_decide (parsed < 1) then fallback else parsed
  | None => fallback
  end.
Definition floatOrDefault (value : string) (fallback : float64) : float64 :=
  match ParseFloat value with
  | Some parsed => if bool_decide (value = "") || fle parsed f0 then fallback else parsed
  | None => fallback
  end.
Definition durationOrDefault (value : string) (fallback : Duration) : Duration :=
  match ParseDuration value with
  | Some parsed => if bool_decide (value = "") || bool_decide (parsed < 0) then fallback else parsed
  | None => fallback
  end.
(** [if value := os.Getenv(name); value != "" { setting = value }] *)
Definition setting (name fallback : string) : string :=
  if bool_decide (Getenv name = "") then fallback else Getenv name.

(** The defaults of [Load]. *)
Definition defaults : Settings := {|
  Settings.HTTPAddress := "127.0.0.1:8080"; Settings.APIToken := ""; Settings.APIAllowedOrigins := [];
  Settings.LocalStorageRoot := ""; Settings.DefaultNamespace := "akoflow"; Settings.KubernetesAPIServer := "";
  Settings.KubernetesToken := ""; Settings.KubernetesCAFile := ""; Settings.KubernetesInsecureSkipTLS := false;
  Settings.KubernetesCleanupEnabled := true; Settings.KubernetesCleanupInterval := 15 * Minute;
  Settings.KubernetesHistoryRetention := 24 * Hour; Settings.ConnectionCheckInterval := Minute;
  Settings.ConsoleEnabled := false; Settings.SlurmScriptDirectory := "storage/slurm/scripts";
  Settings.SSHKeyDirectory := "storage/credentials/ssh"; Settings.SimulationBackend := "simgrid";
  Settings.SimGridBinaryPath := "akoflow-simgrid-runner"; Settings.SimGridWorkspace := "storage/simgrid";
  Settings.SimGridMaxConcurrent := 2; Settings.SimGridTimeout := 30 * Minute;
  Settings.SimGridReferenceFLOPS := float_of_Z 1000000000; Settings.ArtifactStoreRoot := "storage/artifacts";
  Settings.BuildContextMaxBytes := Z.shiftl 512 20; Settings.Buildctl := ""; Settings.Apptainer := ""
|}.
(** [loadServer] *)
Definition origins (value : string) : list string :=
  List.filter (λ origin, negb (bool_decide (origin = ""))) (map trim_space (split_byte "," value)).
Definition loadServer settings : Settings :=
  settings
    <| Settings.HTTPAddress := setting "AKOFLOW_HTTP_ADDRESS" settings.(Settings.HTTPAddress) |>
    <| Settings.APIToken := Getenv "AKOFLOW_API_TOKEN" |>
    <| Settings.APIAllowedOrigins := settings.(Settings.APIAllowedOrigins) ++
         (if bool_decide (Getenv "AKOFLOW_API_ALLOWED_ORIGINS" = "") then []
          else origins (Getenv "AKOFLOW_API_ALLOWED_ORIGINS")) |>
    <| Settings.LocalStorageRoot := Getenv "AKOFLOW_LOCAL_STORAGE_ROOT" |>
    <| Settings.DefaultNamespace := setting "AKOFLOW_NAMESPACE" settings.(Settings.DefaultNamespace) |>
    <| Settings.KubernetesAPIServer := Getenv "K8S_API_SERVER_HOST" |>
    <| Settings.KubernetesToken := Getenv "K8S_API_SERVER_TOKEN" |>
    <| Settings.KubernetesCAFile := Getenv "K8S_API_SERVER_CA_FILE" |>
    <| Settings.KubernetesInsecureSkipTLS := bool_decide (Getenv "K8S_API_SERVER_INSECURE_SKIP_TLS_VERIFY" = "true") |>
    <| Settings.SlurmScriptDirectory := setting "AKOFLOW_SLURM_SCRIPT_DIRECTORY" settings.(Settings.SlurmScriptDirectory) |>
    <| Settings.SSHKeyDirectory := setting "AKOFLOW_SSH_KEY_DIRECTORY" settings.(Settings.SSHKeyDirectory) |>
    <| Settings.KubernetesCleanupEnabled :=
         let value := Getenv "AKOFLOW_KUBERNETES_HISTORY_CLEANUP_ENABLED" in
         if bool_decide (value = "") then settings.(Settings.KubernetesCleanupEnabled) else bool_decide (value = "true") |>
    <| Settings.KubernetesCleanupInterval :=
         durationOrDefault (Getenv "AKOFLOW_KUBERNETES_HISTORY_CLEANUP_INTERVAL") settings.(Settings.KubernetesCleanupInterval) |>
    <| Settings.KubernetesHistoryRetention :=
         durationOrDefault (Getenv "AKOFLOW_KUBERNETES_HISTORY_RETENTION") settings.(Settings.KubernetesHistoryRetention) |>
    <| Settings.ConnectionCheckInterval :=
         durationOrDefault (Getenv "AKOFLOW_CONNECTION_CHECK_INTERVAL") settings.(Settings.ConnectionCheckInterval) |>
    <| Settings.ConsoleEnabled := bool_decide (Getenv "AKOFLOW_CONSOLE_ENABLED" = "true") |>.
(** [loadBuild] *)
Definition loadBuild settings : Settings :=
  settings
    <| Settings.ArtifactStoreRoot := setting "AKOFLOW_ARTIFACT_STORE_ROOT" settings.(Settings.ArtifactStoreRoot) |>
    <| Settings.BuildContextMaxBytes :=
         match parse_int (Getenv "AKOFLOW_BUILD_CONTEXT_MAX_BYTES") with
         | Some n => if negb (bool_decide (Getenv "AKOFLOW_BUILD_CONTEXT_MAX_BYTES" = "")) && bool_decide (0 < n)
                     then n else settings.(Settings.BuildContextMaxBytes)
         | None => settings.(Settings.BuildContextMaxBytes)
         end |>
    <| Settings.Buildctl := Getenv "AKOFLOW_BUILDCTL" |> <| Settings.Apptainer := Getenv "AKOFLOW_APPTAINER" |>.
(** [loadSimulation] *)
Definition loadSimulation settings : Settings :=
  settings
    <| Settings.SimulationBackend := setting "AKOFLOW_SIMULATION_BACKEND" settings.(Settings.SimulationBackend) |>
    <| Settings.SimGridBinaryPath := setting "AKOFLOW_SIMGRID_BINARY" settings.(Settings.SimGridBinaryPath) |>
    <| Settings.SimGridWorkspace := setting "AKOFLOW_SIMGRID_WORKSPACE" settings.(Settings.SimGridWorkspace) |>
    <| Settings.SimGridMaxConcurrent :=
         integerOrDefault (Getenv "AKOFLOW_SIMGRID_MAX_CONCURRENT") settings.(Settings.SimGridMaxConcurrent) |>
    <| Settings.SimGridReferenceFLOPS :=
         floatOrDefault (Getenv "AKOFLOW_SIMGRID_REFERENCE_FLOPS") settings.(Settings.SimGridReferenceFLOPS) |>
    <| Settings.SimGridTimeout := durationOrDefault (Getenv "AKOFLOW_SIMGRID_TIMEOUT") settings.(Settings.SimGridTimeout) |>.
(** [Load] and [GetVersion] *)
Definition Load : Settings := loadSimulation (loadServer (loadBuild defaults)).
Definition GetVersion : string := setting "AKOFLOW_SERVER_VERSION" "dev-env".

(** ** What holds of the settings in any environment *)
Lemma duration_nonneg value fallback : 0 ≤ fallback → 0 ≤ durationOrDefault value fallback.
Proof.
  intros Hf. unfold durationOrDefault. destruct (ParseDuration value); [|done]. destruct (bool_decide (value = "")); [done|].
  case_bool_decide; cbn; lia.
Qed.
Lemma settings_in_range :
  0 ≤ Load.(Settings.KubernetesCleanupInterval) ∧ 0 ≤ Load.(Settings.KubernetesHistoryRetention) ∧
  0 ≤ Load.(Settings.ConnectionCheckInterval) ∧ 0 ≤ Load.(Settings.SimGridTimeout) ∧
  1 ≤ Load.(Settings.SimGridMaxConcurrent) ∧ fle Load.(Settings.SimGridReferenceFLOPS) f0 = false ∧
  0 < Load.(Settings.BuildContextMaxBytes) ∧ Load.(Settings.HTTPAddress) ≠ "" ∧ Load.(Settings.DefaultNamespace) ≠ "" ∧
  "" ∉ Load.(Settings.APIAllowedOrigins).
Proof.
  unfold Load, loadSimulation, loadServer, loadBuild, defaults. cbn -[setting durationOrDefault integerOrDefault floatOrDefault
    parse_int float_of_Z Z.mul]. split_and!; try (apply duration_nonneg; vm_compute; discriminate).
  - unfold integerOrDefault. destruct (parse_int _); [|lia]. destruct (bool_decide (_ = "")); [done|]. case_bool_decide; cbn; lia.
  - unfold floatOrDefault. destruct (ParseFloat _) as [x|]; [|done]. destruct (bool_decide (_ = "")); [done|].
    cbn [orb]. by destruct (fle x f0) eqn:E.
  - destruct (parse_int _); [|done]. destruct (negb _); [|done]. by case_bool_decide.
  - unfold setting. by case_bool_decide.
  - unfold setting. by case_bool_decide.
  - case_bool_decide; [by intros ?%not_elem_of_nil|]. unfold origins. intros Hin%list_elem_of_In%filter_In. by destruct Hin.
Qed.
End load.
End Config.
