(* ===== verification/Runner.v ===== *)
(** * The external simulator (src/internal/provider/simgrid/process_executor.go and platform.go)

    The files and the command that run a plan in SimGrid: the platform as XML, the input, and the
    trace that is read back. The semaphore of the executor is the number of free slots, in a
    transition system of the runs that hold one. *)

From Stdlib Require Import Ascii.
From S2P Require Import Prelude GoStrings GoFloat GoPath Domain Ports Slurm Network Simulation Connectors.

Module Runner.
Abbreviation dq := Slurm.dq.
Abbreviation CommandExecutor := Connectors.SSHCommandExecutor.CommandExecutor.

(** ** platform.go *)

(** [xmlEscape]: [xml.EscapeText] on text that is valid UTF-8; a control character that XML does not
    allow becomes U+FFFD. *)
Definition escape_byte (c : ascii) : string :=
  let b := byte_of c in
  if b =? 34 then "&#34;" else if b =? 39 then "&#39;" else if b =? 38 then "&amp;" else if b =? 60 then "&lt;"
  else if b =? 62 then "&gt;" else if b =? 9 then "&#x9;" else if b =? 10 then "&#xA;" else if b =? 13 then "&#xD;"
  else if b <? 32 then String "239" (String "191" (String "189" "")) else String c "".
Fixpoint xmlEscape (value : string) : string :=
  match value with String c r => escape_byte c +:+ xmlEscape r | "" => "" end.

Section platform.
(** [fmt] on a float with nine decimals. *)
Context `{MapOrder} (format_float : float64 → string) (salt : nat).

Definition host_line (resource : Resource) (referenceFLOPS : float64) : result string :=
  if bool_decide (resource.(Resource.ID) = "") then Err (errorf "SimGrid resource id is required" [])
  else Ok (dq "    <host id=~" +:+ xmlEscape resource.(Resource.ID) +:+ dq "~ speed=~" +:+
    format_float (Simulation.resourceFLOPS resource referenceFLOPS) +:+ dq "f~ core=~" +:+
    itoa (Z.max 1 resource.(Resource.CPUCores)) +:+ dq "~/>").
Definition link_line (index : nat) (link : NetworkLink) : result string :=
  if fle link.(NetworkLink.BandwidthBitsPerSecond) f0
  then Err (errorf "SimGrid link %q requires positive bandwidth" [link.(NetworkLink.ID)])
  else Ok (dq "    <link id=~link-" +:+ itoa (Z.of_nat index) +:+ dq "~ bandwidth=~" +:+
    format_float (fdiv link.(NetworkLink.BandwidthBitsPerSecond) (float_of_Z 8)) +:+ dq "Bps~ latency=~" +:+
    format_float link.(NetworkLink.LatencySeconds) +:+ dq "s~ sharing_policy=~" +:+
    Network.sharingPolicy link.(NetworkLink.SharingPolicy) +:+ dq "~/>").
Definition route_lines (links : list NetworkLink) (source target : string) : list string :=
  if bool_decide (source = target) then []
  else match Network.shortestLinkPath salt (Network.platformGraph links) source target with
       | None => []
       | Some path =>
         (dq "    <route src=~" +:+ xmlEscape source +:+ dq "~ dst=~" +:+ xmlEscape target +:+ dq "~ symmetrical=~NO~>") ::
         ((λ i, dq "      <link_ctn id=~link-" +:+ itoa (Z.of_nat i) +:+ dq "~/>") <$> path) ++ ["    </route>"]
       end.
(** The loops over hosts and links stop at the first error. *)
Fixpoint lines_of {A} (f : nat → A → result string) (index : nat) (l : list A) : result (list string) :=
  match l with
  | [] => Ok []
  | a :: l => line ← f index a; rest ← lines_of f (S index) l; Ok (line :: rest)
  end.
Definition buildPlatformXML (resources : list Resource) (topology : NetworkTopology) (referenceFLOPS : float64) : result string :=
  if bool_decide (resources = []) then Err (errorf "SimGrid platform requires at least one resource" [])
  else
    hosts ← lines_of (λ _ resource, host_line resource referenceFLOPS) 0 resources;
    links ← lines_of link_line 0 topology.(NetworkTopology.Links);
    let ids := sort_strings (Resource.ID <$> resources) in
    let routes := mjoin ((λ source, mjoin (route_lines topology.(NetworkTopology.Links) source <$> ids)) <$> ids) in
    Ok (Slurm.lines_text ([dq "<?xml version=~1.0~?>"; dq "<!DOCTYPE platform SYSTEM ~https://simgrid.org/simgrid.dtd~>";
        dq "<platform version=~4.1~>"; dq "  <zone id=~akoflow~ routing=~Full~>"] ++ hosts ++ links ++ routes ++
        ["  </zone>"; "</platform>"])).
End platform.

(** ** process_executor.go *)
Module ProcessConfig.
Record ProcessConfig := mk {
  BinaryPath : string; Workspace : string; MaxConcurrent : Z; Timeout : Duration; ReferenceFLOPS : float64
}.
End ProcessConfig.
Abbreviation ProcessConfig := ProcessConfig.ProcessConfig.

(** [NewProcessExecutor]: the configuration with its defaults; [commands] is nil or not. *)
Definition NewProcessExecutor {W} (commands : option (CommandExecutor W)) (config : ProcessConfig)
    : result (CommandExecutor W * ProcessConfig) :=
  match commands with
  | None => Err "SimGrid command executor is required"
  | Some commands =>
    if bool_decide (trim_space config.(ProcessConfig.BinaryPath) = "") then Err "SimGrid runner binary is required"
    else Ok (commands, {|
      ProcessConfig.BinaryPath := config.(ProcessConfig.BinaryPath);
      ProcessConfig.Workspace :=
        if bool_decide (config.(ProcessConfig.Workspace) = "") then "storage/simgrid" else config.(ProcessConfig.Workspace);
      ProcessConfig.MaxConcurrent := if bool_decide (config.(ProcessConfig.MaxConcurrent) < 1) then 1
        else config.(ProcessConfig.MaxConcurrent);
      ProcessConfig.Timeout := if bool_decide (config.(ProcessConfig.Timeout) ≤ 0) then 30 * Minute
        else config.(ProcessConfig.Timeout);
      ProcessConfig.ReferenceFLOPS := if fle config.(ProcessConfig.ReferenceFLOPS) f0 then float_of_Z 1000000000
        else config.(ProcessConfig.ReferenceFLOPS) |})
  end.

(** [safeRunID] *)
Definition run_byte (c : ascii) : ascii :=
  if ascii_between "a" "z" c || ascii_between "A" "Z" c || ascii_between "0" "9" c || is_byte "-" c || is_byte "_" c
  then c else "-"%char.
Definition safeRunID (value : string) : string :=
  let value := trim (is_byte "-") (map_runes run_byte value) in if bool_decide (value = "") then "run" else value.

(** The calls of [os], [provider.NewID], the rendering of the input as JSON and the decoding of a
    trace. [acquire] answers the error of the context when it ends before a slot is free. *)
Class RunnerFiles (W : Type) := {
  MkdirAll : string → effr W unit;
  WriteFile : string → string → effr W unit;
  ReadFile : string → effr W string;
  NewID : string → eff W string;
  acquire : effr W unit;
  release : eff W unit;
  marshal_input : Simulation.runnerInput → result string;
  unmarshal_trace : string → result ExecutionTrace
}.
Module Bundle.
Record Bundle := mk { platformPath : string; inputPath : string; outputPath : string; logPath : string }.
End Bundle.
Abbreviation Bundle := Bundle.Bundle.

Section executor.
Context `{RunnerFiles W, MapOrder} (format_float : float64 → string) (salt : nat) (commands : CommandExecutor W) (config : ProcessConfig).
Implicit Types request : ExecutionRequest.

Definition wrapped {A} (format : string) (args : list string) (m : effr W A) : effr W A :=
  let! r := m in eret (match r with Ok a => Ok a | Err e => Err (errorf format (args ++ [e])) end).
(** [ProcessExecutor.createBundle] *)
Definition bundle_in (directory : string) : Bundle :=
  Bundle.mk (path_Join [directory; "platform.xml"]) (path_Join [directory; "simulation.json"])
    (path_Join [directory; "result.json"]) (path_Join [directory; "runner.log"]).
Definition createBundle request : effr W Bundle :=
  let! id := NewID "simulation" in
  let directory := path_Join [config.(ProcessConfig.Workspace);
    safeRunID request.(ExecutionRequest.Run).(ExecutionRun.ID) +:+ "-" +:+ id] in
  let? _ := wrapped "create SimGrid workspace: %w" [] (MkdirAll directory) in
  let bundle := bundle_in directory in
  let? platform := eret (buildPlatformXML format_float salt request.(ExecutionRequest.Resources)
    request.(ExecutionRequest.NetworkTopology) config.(ProcessConfig.ReferenceFLOPS)) in
  let? input := eret (input ← Simulation.buildRunnerInput salt request config.(ProcessConfig.ReferenceFLOPS); marshal_input input) in
  let? _ := wrapped "write SimGrid platform: %w" [] (WriteFile bundle.(Bundle.platformPath) platform) in
  let? _ := wrapped "write SimGrid input: %w" [] (WriteFile bundle.(Bundle.inputPath) input) in
  eret (Ok bundle).
(** [readTrace] *)
Definition readTrace (path : string) : effr W ExecutionTrace :=
  let? payload := wrapped "read SimGrid result: %w" [] (ReadFile path) in
  wrapped "decode SimGrid result: %w" [] (eret (unmarshal_trace payload)).
(** What [ProcessExecutor.Execute] does while it holds a slot. *)
Definition run_bundle request : effr W ExecutionTrace :=
  let run := request.(ExecutionRequest.Run) in
  let? bundle := createBundle request in
  let! done := commands config.(ProcessConfig.BinaryPath)
    ["--platform"; bundle.(Bundle.platformPath); "--input"; bundle.(Bundle.inputPath); "--output"; bundle.(Bundle.outputPath)] "" in
  match done.2 with
  | Some e => eret (Err (errorf "execute SimGrid run %q: %w" [run.(ExecutionRun.ID); e]))
  | None =>
    let! _ := if bool_decide (done.1 = "") then eret (Ok tt) else WriteFile bundle.(Bundle.logPath) done.1 in
    let? trace := readTrace bundle.(Bundle.outputPath) in
    if negb (bool_decide (trace.(ExecutionTrace.RunID) = run.(ExecutionRun.ID))) ||
       negb (bool_decide (trace.(ExecutionTrace.PlanID) = request.(ExecutionRequest.Plan).(SchedulePlan.ID)))
    then eret (Err (errorf "SimGrid returned trace for run %q and plan %q"
      [trace.(ExecutionTrace.RunID); trace.(ExecutionTrace.PlanID)]))
    else eret (Ok (trace <| ExecutionTrace.Mode := run.(ExecutionRun.Mode) |>
      <| ExecutionTrace.Predicted := request.(ExecutionRequest.Plan).(SchedulePlan.Predicted) |>))
  end.
(** [ProcessExecutor.Execute]; [defer e.release()]. *)
Definition Execute : PlanExecutor W := λ request,
  let run := request.(ExecutionRequest.Run) in
  if negb (bool_decide (run.(ExecutionRun.Mode) = ExecutionModeSimulation))
  then eret (Err (errorf "SimGrid runner cannot execute mode %q" [ExecutionMode_string run.(ExecutionRun.Mode)]))
  else
    let? _ := acquire in
    let! trace := run_bundle request in
    let! _ := release in
    eret trace.
End executor.

(** ** Names and attributes *)

(** What is escaped cannot end the attribute or the element it is in. *)
Definition attribute_byte (c : ascii) : bool := negb (bool_decide (byte_of c ∈ [34; 39; 60; 62; 9; 10; 13])).
Lemma escape_byte_safe c : str_forall attribute_byte (escape_byte c) = true.
Proof.
  unfold escape_byte. repeat (case_match; [done|]). cbn [str_forall]. rewrite andb_true_r. unfold attribute_byte.
  apply negb_true_iff, bool_decide_eq_false. rewrite !elem_of_cons, elem_of_nil. lia.
Qed.
Lemma xml_escape_safe value : str_forall attribute_byte (xmlEscape value) = true.
Proof. induction value as [|c r IH]; [done|]. cbn [xmlEscape]. by rewrite str_forall_app, escape_byte_safe. Qed.

(** A run's directory is one element of a path. *)
Definition element_byte (c : ascii) : bool :=
  ascii_between "a" "z" c || ascii_between "A" "Z" c || ascii_between "0" "9" c || is_byte "-" c || is_byte "_" c.
Lemma run_byte_element c : element_byte (run_byte c) = true.
Proof. unfold run_byte. change (_ || _) with (element_byte c). by destruct (element_byte c) eqn:E. Qed.
Lemma map_runes_element skip s : str_forall element_byte (map_runes_from run_byte skip s) = true.
Proof.
  revert skip. induction s as [|c s IH]; intros [|skip]; [done|done| |apply IH]. cbn [map_runes_from str_forall].
  by rewrite run_byte_element, IH.
Qed.
Lemma safe_run_id value : safeRunID value ≠ "" ∧ str_forall element_byte (safeRunID value) = true.
Proof.
  unfold safeRunID. case_bool_decide as E; [done|]. split; [done|]. unfold trim.
  apply trim_right_forall, trim_left_forall, map_runes_element.
Qed.

(** ** Runs *)
Section runs.
Context `{RunnerFiles W, MapOrder} (format_float : float64 → string) (salt : nat) (commands : CommandExecutor W) (config : ProcessConfig).
(** [held] is the number of slots that are taken: [acquire] takes one when it succeeds, [release]
    gives one back, and nothing else changes it. *)
Class SlotLaws (held : W → Z) := {
  acquire_held w r w' : acquire w = (r, w') → held w' = match r with Ok _ => held w + 1 | Err _ => held w end;
  release_held w u w' : release w = (u, w') → held w' = held w - 1;
  files_held p w r w' : MkdirAll p w = (r, w') ∨ (∃ t, WriteFile p t w = (r, w')) → held w' = held w;
  read_held p w r w' : ReadFile p w = (r, w') → held w' = held w;
  new_id_held p w r w' : NewID p w = (r, w') → held w' = held w;
  commands_held n a i w r w' : commands n a i w = (r, w') → held w' = held w
}.
Definition same_slots {A} (held : W → Z) (m : eff W A) : Prop := ∀ w a w', m w = (a, w') → held w' = held w.
Lemma same_bind {A B} held (m : eff W A) (k : A → eff W B) :
  same_slots held m → (∀ a, same_slots held (k a)) → same_slots held (ebind m k).
Proof. intros Hm Hk w b w' (a & w1 & Ha & Hb)%ebind_ok. by rewrite (Hk _ _ _ _ Hb), (Hm _ _ _ Ha). Qed.
Lemma same_bindr {A B} held (m : effr W A) (k : A → effr W B) :
  same_slots held m → (∀ a, same_slots held (k a)) → same_slots held (ebindr m k).
Proof.
  intros Hm Hk w b w'. unfold ebindr. destruct (m w) as [[a|e] w1] eqn:E.
  - intros Hb. by rewrite (Hk _ _ _ _ Hb), (Hm _ _ _ E).
  - intros [= <- <-]. by apply (Hm _ _ _ E).
Qed.
Lemma same_ret {A} held (a : A) : same_slots held (eret a).
Proof. by intros w b w' [= <- <-]. Qed.
Lemma same_wrapped {A} held format args (m : effr W A) : same_slots held m → same_slots held (wrapped format args m).
Proof. intros Hm. apply same_bind; [done|]. intros r. apply same_ret. Qed.

Context (held : W → Z) `{!SlotLaws held}.
Lemma write_same p t : same_slots held (WriteFile p t).
Proof. intros w r w' E. eapply files_held. right. by exists t. Qed.
Lemma bundle_same request : same_slots held (createBundle format_float salt config request).
Proof.
  apply same_bind; [intros w a w'; apply new_id_held|]. intros id.
  apply same_bindr; [apply same_wrapped; intros w r w' E; eapply files_held; by left|]. intros _.
  apply same_bindr; [apply same_ret|]. intros platform. apply same_bindr; [apply same_ret|]. intros input.
  apply same_bindr; [apply same_wrapped, write_same|]. intros _.
  apply same_bindr; [apply same_wrapped, write_same|]. intros _. apply same_ret.
Qed.
Lemma run_same request : same_slots held (run_bundle format_float salt commands config request).
Proof.
  apply same_bindr; [apply bundle_same|]. intros bundle. apply same_bind; [intros w a w'; apply commands_held|].
  intros [output [e|]]; [apply same_ret|]. apply same_bind; [case_bool_decide; [apply same_ret|apply write_same]|]. intros _.
  apply same_bindr; [apply same_bindr; [apply same_wrapped; intros w a w'; apply read_held|]; intros payload;
    apply same_wrapped, same_ret|]. intros trace. case_match; apply same_ret.
Qed.
(** A run gives its slot back however it ends, and a trace that is returned is that of the run and
    of the plan that were asked for. *)
Lemma run_checked request w r w' : Execute format_float salt commands config request w = (r, w') → held w' = held w ∧
  ∀ trace, r = Ok trace → trace.(ExecutionTrace.RunID) = request.(ExecutionRequest.Run).(ExecutionRun.ID) ∧
    trace.(ExecutionTrace.PlanID) = request.(ExecutionRequest.Plan).(SchedulePlan.ID) ∧
    trace.(ExecutionTrace.Mode) = ExecutionModeSimulation ∧
    trace.(ExecutionTrace.Predicted) = request.(ExecutionRequest.Plan).(SchedulePlan.Predicted).
Proof.
  unfold Execute. case_bool_decide as Em; cbn [negb]; [|intros [= <- <-]; done].
  unfold ebindr. destruct (acquire w) as [[[]|e] w1] eqn:Ea; apply acquire_held in Ea; [|intros [= <- <-]; done].
  intros (t & w2 & Er & Hk)%ebind_ok. apply ebind_ok in Hk as (u & w3 & Hr%release_held & [= <- <-]).
  pose proof (run_same _ _ _ _ Er) as Hs. split; [lia|]. intros trace ->. clear -Em Er.
  apply ebindr_ok in Er as (bundle & w3 & _ & Er). apply ebind_ok in Er as ([output [e|]] & w4 & _ & Er); [done|].
  apply ebind_ok in Er as (l & w5 & _ & Er). apply ebindr_ok in Er as (found & w6 & _ & Er).
  case_bool_decide as E1; [|done]. case_bool_decide as E2; [|done]. injection Er as <- _. by rewrite <- Em.
Qed.
End runs.
End Runner.
